(* ===== verification/_CoqProject ===== *)
-Q . S2P
Prelude.v
GoStrings.v
Sha256.v
GoTime.v
GoPath.v
GoJson.v
GoJsonOut.v
GoFloat.v
GoNet.v
GoHttp.v
GoFiles.v
GoClock.v
Types.v
Merkle.v
Capability.v
DelegationAuth.v
Delegation.v
NonceCache.v
Constraints.v
AdmissionTypes.v
Clc.v
Credential.v
Admission.v
Rbac.v
Risk.v
Mask.v
Revocation.v
Params.v
Spiffe.v
Bearer.v
Evidence.v
Challenge.v
Pipeline.v
TrustLayers.v
AuditLog.v
JsonLines.v
AuditQueue.v
AuditWrite.v
Der.v
Tsa.v
Supervision.v
Decide.v
Identity.v
Records.v
Proxy.v
Middleware.v
EvidenceFiles.v
Bundle.v
Render.v
McpRegistry.v
Payload.v
McpServer.v
Settings.v
Admin.v
Keys.v
Tls.v
Server.v
Carrier.v
CrlLoop.v
Service.v
SupervisionDemo.v
Provenance.v
Wrappers.v
