(* ===== verification/Prelude.v ===== *)
(** * A verification library of aic-verifier

    aic-verifier (Go package [aicverifier], [src/*.go]) stands in front of a
    service and decides whether a request made with an agent identity
    certificate, or with a bearer token in its place, is admitted: who the agent
    acts for, what the principal delegated to it, under which constraints,
    whether the certificates are still good; it forwards what it admits, refuses
    the rest, and keeps evidence of both.  This library models the program from
    the leaves (capability patterns, constraint evaluators, caches) to the
    gateway in front of a backend, the decision server behind gRPC, the MCP
    server, the audit log and the evidence that is exported from it, and proves
    what an admission, a refusal and a record guarantee.

    ** How the program's parts interact

    A [Server] ([src/server.go]) listens, hands every request to the middleware
    ([Handler], [src/aicverifier.go]) and proxies what it admits.  The middleware
    describes the request as a [RequestView] and asks the transport-neutral
    decision ([Decide], [src/decide.go]), which the gRPC service
    ([src/grpc/grpc.go]) and in-process callers share.  The decision resolves a
    credential (a verified client chain, or a bearer token checked by
    [src/jwt.go]) and runs [RunAccessPipeline] ([src/pipeline.go]): validity and
    revocation of every certificate of the chain (CRL and OCSP caches), the
    roles of the leaf, its SPIFFE identity and remaining lifetime, then
    [CheckAdmission] ([src/decision.go]), which parses the agent's certificate
    extension (AIC), finds the principal's authorization (PA), evaluates the
    constraints of both, the capabilities required, the operations declared
    (CLC, [src/clc.go]), the delegation mode, the signature of the delegation and
    the reuse of its nonce, and computes the effective capabilities.  The
    pipeline then compares parameters with the principal's boundaries, looks
    capabilities up in the registry and runs the plugin of each scheme, reporting
    violations to the risk monitor.  [VerifyTrustLayers] ([src/trust_model.go])
    composes part of the same checks as three layers.

    Around a decision stand the evidence requirement, the challenge that a
    refusal may carry ([src/challenge.go]), the approval of flagged requests
    ([src/supervision.go]), the audit log ([src/audit.go], timestamped by
    [src/tsa.go], sealed by [src/merkle.go]) and the evidence records
    ([src/evidence_sink.go] and its neighbours), from which a bundle is exported
    ([src/evidence.go]).  The administration ([src/admin.go]) swaps the policy of
    a running decision server.  The MCP server ([src/mcp/]) puts the same gate
    before tool calls.

    ** Files and what they model

    What the source uses of the Go standard library, executable:
    - [Prelude]: errors, results, early-return flow, shared tactics and lemmas;
    - [GoStrings], [GoTime], [GoClock], [GoPath], [GoNet], [GoHttp], [GoFiles]:
      byte strings, UTF-8 and the letter case of [strings.ToLower], instants and saturating durations, RFC 3339 and the
      lines of a file, [filepath.Match], addresses and networks, headers and
      cleaned paths, a file system;
    - [GoJson], [GoJsonOut], [GoFloat], [JsonLines]: [encoding/json] both ways
      with the proof that one reads what the other writes, [float64] literals,
      JSON Lines;
    - [Sha256], [Der]: SHA-256; the part of [encoding/asn1] that is used.

    The decision:
    - [Types], [AdmissionTypes]: the records exchanged and the classes that stand
      for packages outside the repository;
    - [Capability], [DelegationAuth], [Delegation], [Constraints], [Clc],
      [NonceCache], [Credential], [Admission]: [src/decision.go] and the files it
      calls, up to [CheckAdmission], one definition per phase in source order;
    - [Rbac], [Risk], [Params], [Spiffe], [Revocation], [CrlLoop], [Mask],
      [Wrappers]: roles and the gateway policy, the risk monitor, parameter
      boundaries, SPIFFE identities, the CRL and OCSP caches and the loop that
      refreshes the first, masking, and the helpers around certificate extensions
      and package-level state;
    - [Pipeline], [TrustLayers]: [RunAccessPipeline], [VerifyTrustLayers];
    - [Bearer], [Challenge], [Supervision], [Decide]: [src/jwt.go],
      [src/challenge.go], [src/supervision_store.go], and the decision over a
      [RequestView] with its counters, evidence and approval;
    - [Service]: the calls of one decision server that overlap.  A call is cut
      where it reaches what calls share: its bearer token's replay store, the
      policy and configuration, the CRL once per certificate, the OCSP cache
      before and after its exchange, the nonce cache, the evidence counters; the
      administration, the refreshes of the CRL, the cleanup and the steps of
      other calls come between.

    Records of what was decided:
    - [AuditLog], [AuditQueue], [AuditWrite], [Tsa], [Merkle]: reading the log,
      the queue and the rotating file behind it as a step relation, writing and
      verifying a line, timestamp tokens, the sealed chain;
    - [Evidence], [Records], [EvidenceFiles], [Keys], [Provenance]: the records
      of an admission, of a refusal and of an outcome, the directory they are
      kept in, the keys that sign them and the check pinned to a key, the profile
      and recorder they name;
    - [Bundle], [Render]: the exported bundle, its signature, its renderings.

    Carriers:
    - [Identity], [Proxy], [Middleware], [Carrier]: identity headers, the reverse
      proxy, the handler in front of it, the response of a refusal;
    - [Settings], [Tls], [Server]: configuration files, TLS material and stapling,
      the life of the server from construction to [Close];
    - [Admin], [Payload]: the decision server's administration, its wire form and
      the gRPC binding;
    - [McpRegistry], [McpServer]: the tool manifest and the gates of the MCP
      server;
    - [SupervisionDemo]: the wiring of approvals that the example gateways share,
      with their routes.

    The marker [src/file.go:Symbol] before a definition names the code it
    translates; a line range marks a part of a function.

    ** Conventions

    State is passed explicitly: a method that changes its receiver returns it.
    A method that runs under a mutex is one atomic step; where the source
    releases the lock between steps (the nonce cleanup, another caller's OCSP
    request in flight, the audit queue, the CRL loop beside a forced refresh, a
    [Listen] that is still loading its material, the calls of a decision server,
    which take the lock of the CRL anew for each certificate) the interleaving is
    explicit, as a step relation or a run over a list of events.  Each reading of the clock is an input of its own ([admission_clock],
    [pipeline_clock], [check_run]): two readings of a run need not agree.  A Go error is its format and arguments;
    [(T, error)] is [result]; an early [return] is [Return] of the flow monad.
    Maps are [gmap]s, and where the source ranges over a map the order is an
    input.  [strings.ToLower] folds the simple case pairs of Unicode 15; what is
    proved of JSON that is written and read again is proved for texts of valid
    UTF-8, since the writer replaces other bytes.  A panic the source would raise is a distinguished error.  Durations
    saturate or wrap as [time.Duration] does, counters wrap at their width.

    ** Fuel

    Recursion that is not structural takes fuel computed from its argument, with
    a lemma that it is enough or a measure the loop decreases: [filepath_Match]
    the length of the pattern, the JSON scanner the length of the text (and the
    decoder's own nesting limit), the Merkle levels the number of leaves, the
    search of the audit log the width of its interval, DER lengths the eight
    bytes of an [int64], hexadecimal printing the number of binary digits.

    ** What the theorems show

    - The gateway as a whole ([Middleware], [Decide], [Proxy]): nothing reaches a
      backend unless the decision admitted the request and a route allows it; the
      identity a backend reads is the one that was verified; what an admitted
      request went through.
    - Admission: an allowed connection's delegation was signed by the certificate
      of the principal the AIC names and, for version 2, binds the agent's key;
      its constraints all hold; required capabilities are held and operations
      authorized; effective capabilities are declared and granted; a delegation
      copied into another certificate is refused while its nonce is remembered.
    - Pipeline and layers: what every granted connection went through, and that
      the layers are the pipeline without its later checks.
    - Delegation: exactly which chains are accepted; a repeated serial is always
      found and distinct ones never confused; authority only decreases under
      literal and [p:*] capabilities, and need not under other globs.
    - Constraints and operations: exact acceptance conditions; unresolved
      decisions fail closed; discharged obligations hold.
    - Revocation: a good answer needs a fresh proof or the configured fallback;
      however refreshes interleave, the CRL in force is one that was signed, and
      it never goes back.
    - Bearer tokens: what an accepted token passed; its single use.
    - The service: however the steps of calls interleave, an admission was made
      under the policy that was in force when the call read it, each certificate
      of its chain was checked against the CRL in force at that certificate's own
      step, a bearer token is resolved once and a delegation admits one
      certificate; the counters count the calls; a call that nothing overlaps is
      one decision.
    - The example wiring: a gateway wired to deny hands on no transfer under its
      own path, and does under another spelling of it; one wired to approve
      refuses nothing for want of an approval.
    - Carriers: the remote decision is the local one for what the wire form can
      carry; tool calls run only behind the gates; only an authorised reload
      changes the policy; what [Close] ends, and that a server which listened
      once serves nothing after it; a refusal's body reads back; what a configuration file can
      and cannot set; which client certificates an mTLS listener takes.
    - Records: one record per operation and authority; outcomes name the decision
      they follow; entries written are read back; every entry the queue accepted
      is settled in order, written or lost to a failed write, and [Close] ends;
      rotation with a backup keeps the newest lines when no file operation fails;
      a search terminates and a filtered read is the full scan; a directory is
      clean exactly when every file verifies; where each section of an exported
      bundle comes from, and that its signatures verify; what a key from a file
      signs is accepted by the check pinned to it; tags are read back; timestamp
      tokens are accepted exactly under the stated checks; Merkle proofs are sound up to a hash collision
      that is exhibited.

    Some theorems record behaviour that differs from the source's comments or
    intention (for example [Admission.wildcard_declaration_effective],
    [Delegation.coverage_escalates], [DelegationAuth.far_future_timestamp_is_fresh],
    [McpServer.batch_not_gated], [Tsa.standard_attributes_unread],
    [Bearer.static_policy_overridden], [AuditQueue.failed_write_uncounted],
    [AuditQueue.failed_rename_loses_log], [Bundle.outcome_against_record],
    [Payload.invalid_text_replaced],
    [Server.close_during_listen_lost], [SupervisionDemo.respelled_transfer_forwarded]).

    ** Parameters

    Code outside the repository, and cryptography and input/output of the
    standard library, is a class or an argument: the AIC parser and methods of
    package [pki] ([CertificateParser], [PkiMethods], [CapabilityNames]); the
    decision language ([ClcSemantics]), records, envelopes and challenges
    ([EvidenceSemantics], [EnvelopeReading], [ChallengeSemantics]) and their JSON
    on the wire ([WireValues], with [WireLaws]) of package [semantics]; tokens
    ([AicJwt]); supervision events ([SupervisionFormat]); signatures and keys
    ([DACrypto], [TsaCrypto], [KeyEnv] with [KeyLaws]); certificates and their
    chains ([X509], [TlsEnv]); network, CRL and OCSP decoding ([CRLEnv],
    [OCSPEnv]); files and CMS ([PolicyEnv]); [net/url] ([URLParser]); regular
    expressions ([Regexp]).  [Middleware] and [Settings] take the reading of
    files, of PEM pools and of key files as arguments; [Sprintf] is the text of a
    message; the transport of package [mcp-go] is the handler behind the gate.
    Laws a theorem needs of one are hypotheses of that theorem or a class of
    laws; each file ends with concrete instances on which its theorems are
    applied.

    ** Not modelled

    ASN.1 parsing of the certificate extensions and the plugin registry live in
    package [types]: [src/aic.go], [src/user_permission.go] and [src/plugin.go]
    are aliases of and one-line calls into it, apart from the helpers in
    [Wrappers].  Sockets, handshakes, connection pools and the gRPC and MCP
    transports are inputs of the definitions that meet them.  Log lines are not
    kept, except where a failure is only visible in them.  The programs under
    [src/examples], apart from [SupervisionDemo], and the fixtures under
    [src/internal] demonstrate and test the library: they generate keys, mint
    certificates and tokens, and start servers. *)
From stdpp Require Export base list gmap strings fin_maps relations.
From Stdlib Require Export ZArith Lia.

Declare Scope aic_scope.
Delimit Scope aic_scope with aic.
Open Scope aic_scope.
Open Scope string_scope.
Open Scope Z_scope.
Open Scope list_scope.

(** * Errors

    A Go [error] built by [fmt.Errorf] is kept as its format string and its
    arguments: [%s], [%q] and [%v] of a string are [AStr], [%d] is [AInt],
    [%v] of an error is [AErr], [%w] is [AWrap], a printed slice of
    strings is [AStrs], and [%v] of the [float64] [man * 2 ^ exp] is [AFloat].  [ErrNew] is a sentinel made by [errors.New]; the name
    stands for the identity of the variable that holds it. *)
Inductive error : Type :=
  | Errorf (format : string) (args : list arg)
  | ErrNew (name : string)
with arg : Type :=
  | AStr (s : string)
  | AInt (z : Z)
  | AErr (e : error)
  | AWrap (e : error)
  | AStrs (l : list string)
  | AFloat (man exp : Z).

(** [errors.Is]: the error itself or one it wraps is the sentinel [name]. *)
Fixpoint errors_is (name : string) (e : error) : bool :=
  match e with
  | ErrNew n => String.eqb n name
  | Errorf _ args =>
      existsb (fun a => match a with AWrap e' => errors_is name e' | _ => false end) args
  end.

(** * Results

    [(T, error)] of Go: a value or an error, never both. *)
Inductive result (A : Type) : Type :=
  | Ok (a : A)
  | Err (e : error).
Arguments Ok {A} a.
Arguments Err {A} e.

#[export] Instance result_ret : MRet result := fun A a => Ok a.
#[export] Instance result_bind : MBind result := fun A B f m =>
  match m with Ok a => f a | Err e => Err e end.
#[export] Instance result_fmap : FMap result := fun A B f m =>
  match m with Ok a => Ok (f a) | Err e => Err e end.

Definition is_ok {A} (r : result A) : bool :=
  match r with Ok _ => true | Err _ => false end.
Definition unset {A} (x : option A) : bool := match x with None => true | Some _ => false end.

(** The error of a result, as Go's [if err != nil] sees it. *)
Definition err_of {A} (r : result A) : option error :=
  match r with Ok _ => None | Err e => Some e end.

(** [if err := f(); err != nil { return fmt.Errorf(format, ..., err) }] *)
Definition wrap_err {A} (w : error -> error) (r : result A) : result A :=
  match r with Ok a => Ok a | Err e => Err (w e) end.

Lemma bind_Ok {A B} (m : result A) (f : A -> result B) (b : B) :
  (m ≫= f) = Ok b <-> exists a, m = Ok a /\ f a = Ok b.
Proof.
  destruct m as [a|e]; simpl.
  - split; [intros H; by exists a | by intros (a' & [= ->] & H)].
  - split; [done | by intros (a' & ? & _)].
Qed.

Lemma wrap_err_Ok {A} w (r : result A) (a : A) : wrap_err w r = Ok a <-> r = Ok a.
Proof. destruct r; simpl; split; congruence. Qed.

(** * Loops

    [for _, x := range l { if err := f(x); err != nil { return err } }] *)
Fixpoint first_error {A} (f : A -> option error) (l : list A) : option error :=
  match l with
  | [] => None
  | x :: l' => match f x with Some e => Some e | None => first_error f l' end
  end.

Lemma first_error_None {A} (f : A -> option error) l :
  first_error f l = None <-> Forall (fun x => f x = None) l.
Proof.
  induction l as [|x l IH]; simpl; [split; [constructor | done]|].
  rewrite Forall_cons. destruct (f x); [split; [done|by intros [? _]]|].
  rewrite IH. split; [done|by intros [_ ?]].
Qed.

Lemma first_error_Some {A} (f : A -> option error) l e :
  first_error f l = Some e <->
  exists l1 x l2, l = l1 ++ x :: l2 /\ Forall (fun y => f y = None) l1 /\ f x = Some e.
Proof.
  induction l as [|x l IH]; simpl.
  - split; [done | intros (l1 & x & l2 & H & _); by destruct l1].
  - destruct (f x) as [e'|] eqn:E.
    + split.
      * intros [= ->]. by exists [], x, l.
      * intros ([|y l1] & z & l2 & H & Hl & Hz); simplify_eq/=; [congruence|].
        apply Forall_cons in Hl as [Hy _]. congruence.
    + rewrite IH. split.
      * intros (l1 & y & l2 & -> & Hl & Hy). exists (x :: l1), y, l2.
        repeat split; [by constructor | done].
      * intros ([|y l1] & z & l2 & H & Hl & Hz); simplify_eq/=.
        apply Forall_cons in Hl as [_ Hl]. eauto 10.
Qed.

(** [for _, x := range l { y, err := f(x); if err != nil { return err }; out = append(out, y) }] *)
Fixpoint map_result {A B} (f : A -> result B) (l : list A) : result (list B) :=
  match l with
  | [] => Ok []
  | x :: l' => y ← f x; ys ← map_result f l'; Ok (y :: ys)
  end.

Lemma map_result_Ok {A B} (f : A -> result B) l ys :
  map_result f l = Ok ys <-> Forall2 (fun x y => f x = Ok y) l ys.
Proof.
  revert ys. induction l as [|x l IH]; intros ys; simpl.
  - split; [intros [= <-]; constructor | by inversion 1].
  - rewrite bind_Ok. setoid_rewrite bind_Ok. setoid_rewrite IH. split.
    + intros (y & Hy & zs & Hz & [= <-]). by constructor.
    + inversion 1; subst. eauto 10.
Qed.

(** * Machine integers

    Go's [int] is 64 bits wide on the supported targets. *)
Definition int64_min : Z := -9223372036854775808.
Definition int64_max : Z := 9223372036854775807.
Definition wrap64 (z : Z) : Z := (z + 2 ^ 63) mod 2 ^ 64 - 2 ^ 63.
Definition wrap8 (z : Z) : Z := z mod 256.
Definition in_int64 (z : Z) : bool := (int64_min <=? z) && (z <=? int64_max).

Lemma wrap64_id z : int64_min <= z <= int64_max -> wrap64 z = z.
Proof.
  unfold wrap64, int64_min, int64_max. intros H.
  rewrite Z.mod_small; lia.
Qed.

Lemma wrap64_range z : int64_min <= wrap64 z <= int64_max.
Proof.
  unfold wrap64, int64_min, int64_max.
  pose proof (Z.mod_pos_bound (z + 2 ^ 63) (2 ^ 64) ltac:(lia)). lia.
Qed.

Lemma wrap8_range z : 0 <= wrap8 z < 256.
Proof. apply Z.mod_pos_bound. lia. Qed.

(** [len(l)] as a Go [int]. *)
Definition zlen {A} (l : list A) : Z := Z.of_nat (length l).

Lemma zlen_nonneg {A} (l : list A) : 0 <= zlen l.
Proof. unfold zlen. lia. Qed.

Lemma zlen_nil_iff {A} (l : list A) : zlen l = 0 <-> l = [].
Proof. unfold zlen. destruct l; simpl; split; try done; lia. Qed.

Lemma zlen_pos_ne {A} (l : list A) : (0 <? zlen l) = true <-> l <> [].
Proof. unfold zlen. destruct l; simpl; split; intros H; done. Qed.

Lemma zlen_eqb_nil {A} (l : list A) : (zlen l =? 0) = true <-> l = [].
Proof. rewrite Z.eqb_eq. apply zlen_nil_iff. Qed.

Lemma zlen_app {A} (l k : list A) : zlen (l ++ k) = zlen l + zlen k.
Proof. unfold zlen. rewrite length_app. lia. Qed.

(** * Lists *)
Lemma existsb_exists_elem {A} (f : A -> bool) l :
  existsb f l = true <-> exists x, x ∈ l /\ f x = true.
Proof. rewrite existsb_exists. setoid_rewrite list_elem_of_In. done. Qed.

Lemma existsb_false_elem {A} (f : A -> bool) l :
  existsb f l = false <-> forall x, x ∈ l -> f x = false.
Proof.
  split.
  - intros H x Hx. destruct (f x) eqn:E; [|done].
    assert (existsb f l = true) by (apply existsb_exists_elem; eauto). congruence.
  - intros H. destruct (existsb f l) eqn:E; [|done].
    apply existsb_exists_elem in E as (x & Hx & Hf). rewrite (H x Hx) in Hf. done.
Qed.

Lemma forallb_forall_elem {A} (f : A -> bool) l :
  forallb f l = true <-> forall x, x ∈ l -> f x = true.
Proof. rewrite forallb_forall. setoid_rewrite list_elem_of_In. done. Qed.

(** * Reachability

    An invariant of every step holds in every reachable state. *)
Lemma rtc_invariant {A} (R : A -> A -> Prop) (P : A -> Prop) x y :
  (forall a b, R a b -> P a -> P b) -> rtc R x y -> P x -> P y.
Proof. intros HR. induction 1; eauto. Qed.

(** * Automation *)
Create HintDb aic discriminated.
Create Rewrite HintDb aic.
#[export] Hint Resolve zlen_nonneg wrap8_range wrap64_range : aic.
#[export] Hint Rewrite @zlen_app @bind_Ok @wrap_err_Ok : aic.

(** A decidable fact about closed data, by computation. *)
Ltac by_computation := apply (bool_decide_unpack _); vm_compute; exact I.


(** Case analysis on every [if]/[match] scrutinee of the goal or of [H]. *)
Ltac cases := repeat case_match; simplify_eq/=.
Ltac case_in H :=
  match type of H with
  | context [match ?x with _ => _ end] => destruct x eqn:?
  end.
Ltac cases_in H := repeat (case_in H; simplify_eq/=).

(** Boolean tests turned into propositions. *)
Ltac bools :=
  repeat match goal with
  | H : (_ && _)%bool = true |- _ => apply andb_true_iff in H as [? ?]
  | H : (_ || _)%bool = false |- _ => apply orb_false_iff in H as [? ?]
  | H : (_ || _)%bool = true |- _ => apply orb_true_iff in H
  | H : (_ && _)%bool = false |- _ => apply andb_false_iff in H
  | H : negb _ = true |- _ => apply negb_true_iff in H
  | H : negb _ = false |- _ => apply negb_false_iff in H
  | H : Z.eqb _ _ = true |- _ => apply Z.eqb_eq in H
  | H : Z.eqb _ _ = false |- _ => apply Z.eqb_neq in H
  | H : Z.ltb _ _ = true |- _ => apply Z.ltb_lt in H
  | H : Z.ltb _ _ = false |- _ => apply Z.ltb_ge in H
  | H : Z.leb _ _ = true |- _ => apply Z.leb_le in H
  | H : Z.leb _ _ = false |- _ => apply Z.leb_gt in H
  | H : String.eqb _ _ = true |- _ => apply String.eqb_eq in H
  | H : String.eqb _ _ = false |- _ => apply String.eqb_neq in H
  | H : bool_decide _ = true |- _ => apply bool_decide_eq_true in H
  | H : bool_decide _ = false |- _ => apply bool_decide_eq_false in H
  end.

Lemma triple_eta {A B C} (x : A * B * C) : x = (x.1.1, x.1.2, x.2).
Proof. by destruct x as [[? ?] ?]. Qed.
