(* ===== verification/GoStrings.v ===== *)
(** Go strings and byte slices of text: both are byte sequences, modelled by
    [string].  The operations of the packages [strings], [bytes], [unicode/utf8]
    and [encoding/hex] that the source uses, with the lemmas the components
    share: valid UTF-8 ([utf8_text]) and its runes, and [strings.ToLower] over the
    simple case pairs of Unicode 15.  Binary data (digests, nonces) is [list Byte.byte]. *)
From S2P Require Import Prelude.
From Stdlib Require Import Ascii.
From Stdlib Require Strings.Byte.

#[global] Arguments String.append !_ _ : simpl nomatch.

Abbreviation bytes := (list Byte.byte).

(** The value of a byte of a string, 0..255. *)
Definition code (c : ascii) : Z := Z.of_N (N_of_ascii c).
Definition chr (z : Z) : ascii := ascii_of_N (Z.to_N z).
Definition slen (s : string) : Z := Z.of_nat (String.length s).

Lemma code_range c : 0 <= code c < 256.
Proof. unfold code. pose proof (N_ascii_bounded c). lia. Qed.

Lemma chr_code c : chr (code c) = c.
Proof. unfold chr, code. rewrite N2Z.id. apply ascii_N_embedding. Qed.

Lemma code_inj c d : code c = code d -> c = d.
Proof. intros H. rewrite <- (chr_code c), <- (chr_code d). by rewrite H. Qed.

(** The JSON text of a witness is written with ['] for the double quote. *)
Fixpoint dq (s : string) : string :=
  match s with
  | EmptyString => EmptyString
  | String c s' => String (if Ascii.eqb c "'"%char then chr 34 else c) (dq s')
  end.

(** ** Slices *)
Fixpoint sdrop (n : nat) (s : string) : string :=
  match n, s with
  | O, _ => s
  | S n', String _ s' => sdrop n' s'
  | S _, EmptyString => EmptyString
  end.

Fixpoint stake (n : nat) (s : string) : string :=
  match n, s with
  | S n', String c s' => String c (stake n' s')
  | _, _ => EmptyString
  end.

Lemma sapp_assoc (a b c : string) : ((a +:+ b) +:+ c) = (a +:+ (b +:+ c)).
Proof. induction a as [|x a IH]; simpl; [done|by rewrite IH]. Qed.

Lemma sapp_nil_r (a : string) : (a +:+ "") = a.
Proof. induction a as [|x a IH]; simpl; [done|by rewrite IH]. Qed.

Lemma slength_app (a b : string) :
  String.length (a +:+ b) = (String.length a + String.length b)%nat.
Proof. induction a as [|x a IH]; simpl; [done|by rewrite IH]. Qed.

Lemma slen_app (a b : string) : slen (a +:+ b) = slen a + slen b.
Proof. unfold slen. rewrite slength_app. lia. Qed.

Lemma stake_sdrop n s : (stake n s +:+ sdrop n s) = s.
Proof. revert s. induction n as [|n IH]; intros [|c s]; simpl; auto. by rewrite IH. Qed.

Lemma stake_length_app a b : stake (String.length a) (a +:+ b) = a.
Proof. induction a as [|c a IH]; simpl; [by destruct b | by rewrite IH]. Qed.

Lemma sdrop_length_app a b : sdrop (String.length a) (a +:+ b) = b.
Proof. induction a as [|c a IH]; simpl; [by destruct b | by rewrite IH]. Qed.

Lemma length_stake n s : String.length (stake n s) = Nat.min n (String.length s).
Proof. revert s. induction n as [|n IH]; intros [|c s]; simpl; auto. Qed.

Lemma length_sdrop n s : String.length (sdrop n s) = (String.length s - n)%nat.
Proof. revert s. induction n as [|n IH]; intros [|c s]; simpl; auto. Qed.

Lemma sdrop_sdrop n m s : sdrop n (sdrop m s) = sdrop (m + n) s.
Proof. revert s. induction m as [|m IH]; intros s; [done|]. destruct s; simpl; [by destruct n|apply IH]. Qed.

Lemma sapp_inj_l (a b c : string) : (a +:+ b) = (a +:+ c) -> b = c.
Proof. induction a as [|x a IH]; simpl; [done|]. intros [= H]. auto. Qed.

Lemma sapp_inj_r (a b c : string) : (a +:+ c) = (b +:+ c) -> a = b.
Proof.
  revert b. induction a as [|x a IH]; intros [|y b] H; [done| | |].
  - apply (f_equal String.length) in H. cbn in H. rewrite slength_app in H. lia.
  - apply (f_equal String.length) in H. cbn in H. rewrite slength_app in H. lia.
  - cbn in H. injection H as -> H. f_equal. auto.
Qed.

(** ** [strings.HasPrefix], [HasSuffix], [TrimPrefix], [TrimSuffix], [Contains] *)
Definition has_prefix (s p : string) : bool := String.prefix p s.

Lemma has_prefix_spec s p : has_prefix s p = true <-> exists t, s = (p +:+ t).
Proof.
  unfold has_prefix. revert s. induction p as [|c p IH]; intros s.
  - split; [eauto | by destruct s].
  - destruct s as [|d s]; [split; [done | by intros (t & ?)]|]. cbn.
    destruct (ascii_dec c d) as [->|Hne].
    + rewrite IH. split; intros (t & H); exists t; [by rewrite H | by simplify_eq].
    + split; [done | intros (t & H); simplify_eq].
Qed.

Lemma has_prefix_app p t : has_prefix (p +:+ t) p = true.
Proof. apply has_prefix_spec. eauto. Qed.

Lemma has_prefix_refl s : has_prefix s s = true.
Proof. apply has_prefix_spec. exists "". by rewrite sapp_nil_r. Qed.

Lemma has_prefix_trans a b c :
  has_prefix a b = true -> has_prefix b c = true -> has_prefix a c = true.
Proof.
  rewrite !has_prefix_spec. intros (t & ->) (u & ->). exists (u +:+ t). apply sapp_assoc.
Qed.

Definition has_suffix (s p : string) : bool :=
  (String.length p <=? String.length s)%nat &&
  String.eqb (sdrop (String.length s - String.length p) s) p.

Definition trim_prefix (s p : string) : string :=
  if has_prefix s p then sdrop (String.length p) s else s.
Definition trim_suffix (s p : string) : string :=
  if has_suffix s p then stake (String.length s - String.length p) s else s.

Lemma has_suffix_snoc p q : has_suffix (p +:+ q) q = true.
Proof.
  unfold has_suffix. rewrite slength_app, (proj2 (Nat.leb_le _ _)) by lia.
  replace (String.length p + String.length q - String.length q)%nat with (String.length p) by lia.
  by rewrite sdrop_length_app, String.eqb_refl.
Qed.

Lemma has_suffix_spec s q : has_suffix s q = true -> exists p, s = (p +:+ q).
Proof.
  unfold has_suffix. intros [_ H]%andb_true_iff. apply String.eqb_eq in H.
  exists (stake (String.length s - String.length q) s). rewrite <- H at 2. by rewrite stake_sdrop.
Qed.

Lemma trim_suffix_snoc p q : trim_suffix (p +:+ q) q = p.
Proof.
  unfold trim_suffix. rewrite has_suffix_snoc, slength_app.
  replace (String.length p + String.length q - String.length q)%nat with (String.length p) by lia.
  apply stake_length_app.
Qed.

Lemma trim_prefix_app p q : trim_prefix (p +:+ q) p = q.
Proof. unfold trim_prefix. by rewrite has_prefix_app, sdrop_length_app. Qed.

Fixpoint contains_byte (c : ascii) (s : string) : bool :=
  match s with
  | EmptyString => false
  | String d s' => Ascii.eqb d c || contains_byte c s'
  end.

Lemma contains_byte_app c a b :
  contains_byte c (a +:+ b) = contains_byte c a || contains_byte c b.
Proof. induction a as [|x a IH]; simpl; [done|]. by rewrite IH, orb_assoc. Qed.

(** [strings.TrimLeft(s, cutset)] and [TrimRight] for a one-byte cutset. *)
Fixpoint trim_left_byte (c : ascii) (s : string) : string :=
  match s with
  | String d s' => if Ascii.eqb d c then trim_left_byte c s' else s
  | EmptyString => EmptyString
  end.
Fixpoint srev_app (s acc : string) : string :=
  match s with EmptyString => acc | String c s' => srev_app s' (String c acc) end.
Definition srev (s : string) : string := srev_app s "".
Definition trim_right_byte (c : ascii) (s : string) : string :=
  srev (trim_left_byte c (srev s)).

(** ** [strings.Split] on a one-byte separator, [strings.Join] *)
Fixpoint split_byte (c : ascii) (s : string) : list string :=
  match s with
  | EmptyString => [EmptyString]
  | String d s' =>
      if Ascii.eqb d c then EmptyString :: split_byte c s'
      else match split_byte c s' with
           | w :: ws => String d w :: ws
           | [] => [String d EmptyString]
           end
  end.

Fixpoint join (sep : string) (l : list string) : string :=
  match l with
  | [] => ""
  | [w] => w
  | w :: l' => w +:+ sep +:+ join sep l'
  end.

Lemma split_byte_ne c s : split_byte c s <> [].
Proof. induction s as [|d s IH]; simpl; [done|]. cases; done. Qed.

Lemma split_byte_none c s : contains_byte c s = false -> split_byte c s = [s].
Proof.
  induction s as [|d s IH]; simpl; [done|]. intros [-> H]%orb_false_iff. by rewrite IH.
Qed.

Lemma split_byte_app c a b :
  contains_byte c a = false ->
  split_byte c (a +:+ String c b) = a :: split_byte c b.
Proof.
  induction a as [|d a IH]; simpl.
  - by rewrite Ascii.eqb_refl.
  - intros [-> H]%orb_false_iff. by rewrite IH.
Qed.

Lemma join_cons sep w l : l <> [] -> join sep (w :: l) = (w +:+ sep +:+ join sep l).
Proof. by destruct l. Qed.

(** Joining what was split gives the string back. *)
Lemma join_split c s : join (String c "") (split_byte c s) = s.
Proof.
  induction s as [|d s IH]; [done|]. cbn [split_byte].
  destruct (Ascii.eqb_spec d c) as [->|Hne].
  - rewrite join_cons by apply split_byte_ne. by rewrite IH.
  - destruct (split_byte c s) as [|w ws] eqn:E; [by apply split_byte_ne in E|].
    rewrite <- IH. destruct ws; simpl; done.
Qed.

(** ** [strings.TrimSpace] / [bytes.TrimSpace]

    The encodings of the runes for which [unicode.IsSpace] holds. *)
Definition space_seqs : list string :=
  map (fun z => String (chr z) "") [9; 10; 11; 12; 13; 32] ++
  map (fun l => String.string_of_list_ascii (map chr l))
    ([[194; 133]; [194; 160]; [225; 154; 128]; [226; 128; 168]; [226; 128; 169];
      [226; 128; 175]; [226; 129; 159]; [227; 128; 128]] ++
     map (fun k => [226; 128; 128 + k]) [0; 1; 2; 3; 4; 5; 6; 7; 8; 9; 10]).

Fixpoint trim_left_seqs (fuel : nat) (seqs : list string) (s : string) : string :=
  match fuel with
  | O => s
  | S fuel' =>
      match List.find (has_prefix s) seqs with
      | Some p => trim_left_seqs fuel' seqs (sdrop (String.length p) s)
      | None => s
      end
  end.

Definition trim_space (s : string) : string :=
  let l := trim_left_seqs (String.length s) space_seqs s in
  srev (trim_left_seqs (String.length l) (map srev space_seqs) (srev l)).

(** ** [strings.Repeat] of one byte *)
Fixpoint repeat_byte (c : ascii) (n : nat) : string :=
  match n with O => "" | S n' => String c (repeat_byte c n') end.

Lemma length_repeat_byte c n : String.length (repeat_byte c n) = n.
Proof. induction n; simpl; auto. Qed.

(** ** ASCII case *)
Definition lower_byte (c : ascii) : ascii :=
  if (65 <=? code c) && (code c <=? 90) then chr (code c + 32) else c.
Fixpoint to_lower (s : string) : string :=
  match s with EmptyString => "" | String c s' => String (lower_byte c) (to_lower s') end.

(** ** [utf8.DecodeRuneInString]: the rune and its width; a bad encoding is
    [RuneError] of width 1, the empty string [RuneError] of width 0. *)
Definition rune_error : Z := 65533.

Definition cont_byte (lo hi : Z) (c : ascii) : bool := (lo <=? code c) && (code c <=? hi).

(** The first continuation byte's range for a lead byte. *)
Definition accept_range (b0 : Z) : Z * Z :=
  if b0 =? 224 then (160, 191) else if b0 =? 237 then (128, 159)
  else if b0 =? 240 then (144, 191) else if b0 =? 244 then (128, 143) else (128, 191).

Definition decode_rune (s : string) : Z * nat :=
  match s with
  | EmptyString => (rune_error, 0%nat)
  | String c0 s1 =>
      let b0 := code c0 in
      if b0 <? 128 then (b0, 1%nat)
      else if (b0 <? 194) || (244 <? b0) then (rune_error, 1%nat)
      else
        let '(lo, hi) := accept_range b0 in
        match s1 with
        | EmptyString => (rune_error, 1%nat)
        | String c1 s2 =>
            if negb (cont_byte lo hi c1) then (rune_error, 1%nat)
            else if b0 <? 224 then ((b0 - 192) * 64 + (code c1 - 128), 2%nat)
            else match s2 with
                 | EmptyString => (rune_error, 1%nat)
                 | String c2 s3 =>
                     if negb (cont_byte 128 191 c2) then (rune_error, 1%nat)
                     else if b0 <? 240 then
                       ((b0 - 224) * 4096 + (code c1 - 128) * 64 + (code c2 - 128), 3%nat)
                     else match s3 with
                          | EmptyString => (rune_error, 1%nat)
                          | String c3 _ =>
                              if negb (cont_byte 128 191 c3) then (rune_error, 1%nat)
                              else ((b0 - 240) * 262144 + (code c1 - 128) * 4096 +
                                    (code c2 - 128) * 64 + (code c3 - 128), 4%nat)
                          end
                 end
        end
  end.

Lemma decode_rune_ascii c s : code c < 128 -> decode_rune (String c s) = (code c, 1%nat).
Proof. intros H. simpl. by rewrite (proj2 (Z.ltb_lt _ _) H). Qed.

(** The width never runs past the string, and is positive on a non-empty one. *)
Lemma decode_rune_width c s :
  (1 <= snd (decode_rune (String c s)) <= String.length (String c s))%nat.
Proof.
  unfold decode_rune. cbn [String.length].
  repeat (case_match; simplify_eq/=; try lia).
Qed.

(** [utf8.AppendRune] *)
Definition encode_rune (r : Z) : string :=
  let r := if (r <? 0) || (1114111 <? r) || ((55296 <=? r) && (r <=? 57343)) then rune_error else r in
  let b z := chr z in
  if r <? 128 then String (b r) ""
  else if r <? 2048 then String (b (192 + r / 64)) (String (b (128 + r mod 64)) "")
  else if r <? 65536 then
    String (b (224 + r / 4096)) (String (b (128 + r / 64 mod 64)) (String (b (128 + r mod 64)) ""))
  else String (b (240 + r / 262144)) (String (b (128 + r / 4096 mod 64))
         (String (b (128 + r / 64 mod 64)) (String (b (128 + r mod 64)) ""))).

Lemma code_chr z : 0 <= z < 256 -> code (chr z) = z.
Proof. intros H. unfold code, chr. rewrite N_ascii_embedding by lia. lia. Qed.

(** ** [utf8.ValidString] *)
Fixpoint utf8_text (s : string) : bool :=
  match s with
  | EmptyString => true
  | String c s1 =>
      if code c <? 128 then utf8_text s1
      else match snd (decode_rune s), s1 with
           | 2%nat, String _ s2 => utf8_text s2
           | 3%nat, String _ (String _ s3) => utf8_text s3
           | 4%nat, String _ (String _ (String _ s4)) => utf8_text s4
           | _, _ => false
           end
  end.

(** Only the bytes of a rune matter to its decoding. *)
Lemma decode_rune_stake s n x : snd (decode_rune s) = n -> (2 <= n)%nat -> decode_rune (stake n s +:+ x) = decode_rune s.
Proof.
  unfold decode_rune. destruct s as [|c0 s]; [cbn; lia|]. destruct (code c0 <? 128) eqn:Eb; [cbn; lia|].
  destruct ((code c0 <? 194) || (244 <? code c0)) eqn:E0; [cbn; lia|]. destruct (accept_range (code c0)) as [lo hi] eqn:Er.
  destruct s as [|c1 s]; [cbn; lia|]. destruct (cont_byte lo hi c1) eqn:E1; cbn [negb]; [|cbn; lia].
  destruct (code c0 <? 224) eqn:E2; [intros <- _; cbn [snd stake String.append]; by rewrite Eb, E0, Er, E1, E2|].
  destruct s as [|c2 s]; [cbn; lia|]. destruct (cont_byte 128 191 c2) eqn:E3; cbn [negb]; [|cbn; lia].
  destruct (code c0 <? 240) eqn:E4; [intros <- _; cbn [snd stake String.append]; by rewrite Eb, E0, Er, E1, E2, E3, E4|].
  destruct s as [|c3 s]; [cbn; lia|]. destruct (cont_byte 128 191 c3) eqn:E5; cbn [negb]; [|cbn; lia].
  intros <- _. cbn [snd stake String.append]. by rewrite Eb, E0, Er, E1, E2, E3, E4, E5.
Qed.

(** A rune of several bytes, as it is decoded and encoded again. *)
Definition long_rune (s : string) (r : Z) (n : nat) : Prop :=
  decode_rune s = (r, n) /\ (2 <= n <= 4)%nat /\ 128 <= r /\ encode_rune r = stake n s /\
  (forall c, code c < 128 -> contains_byte c (stake n s) = false) /\
  forall x, decode_rune (stake n s +:+ x) = (r, n).

Lemma decode_rune_long c0 s : 128 <= code c0 -> (2 <= snd (decode_rune (String c0 s)))%nat ->
  exists r n, long_rune (String c0 s) r n.
Proof.
  intros H0 Hn. unfold long_rune. pose proof (code_range c0).
  assert (forall c d, code c < 128 -> 128 <= code d -> Ascii.eqb d c = false) as Hne.
  { intros c d Hc Hd. apply Ascii.eqb_neq. intros ->. lia. }
  assert (forall z d, z = code d -> chr z = d) as Hchr by (intros z d ->; apply chr_code).
  assert (forall r n, decode_rune (String c0 s) = (r, n) -> (2 <= n <= 4)%nat /\ 128 <= r /\ encode_rune r = stake n (String c0 s) /\
      (forall c, code c < 128 -> contains_byte c (stake n (String c0 s)) = false) ->
    exists r n, long_rune (String c0 s) r n) as Hdone.
  { intros r n Hd (H1 & H2 & H3 & H4). exists r, n. unfold long_rune. split; [done|]. split; [done|]. split; [done|].
    split; [done|]. split; [done|]. intros x. rewrite <- Hd. apply decode_rune_stake; [by rewrite Hd|lia]. }
  unfold long_rune in *. revert Hn Hdone. unfold decode_rune at 1 2, accept_range, cont_byte.
  destruct (code c0 <? 128) eqn:Eb; [bools; lia|].
  destruct ((code c0 <? 194) || (244 <? code c0)) eqn:E0; [cbn; lia|]. bools.
  destruct s as [|c1 s]; [repeat case_match; cbn; lia|]. pose proof (code_range c1).
  destruct (if code c0 =? 224 then _ else _) as [lo hi] eqn:Er.
  assert (128 <= lo /\ hi <= 191 /\ (code c0 = 224 -> lo = 160) /\ (code c0 = 237 -> hi = 159) /\
    (code c0 = 240 -> lo = 144) /\ (code c0 = 244 -> hi = 143)) as (Hlo & Hhi & H224 & H237 & H240 & H244).
  { repeat case_match; simplify_eq; bools; lia. }
  destruct ((lo <=? code c1) && (code c1 <=? hi)) eqn:E1; [|cbn; lia]. cbn [negb]. bools.
  destruct (code c0 <? 224) eqn:E224.
  { intros _ Hdone. bools. set (r := (code c0 - 192) * 64 + (code c1 - 128)).
    assert (128 <= r < 2048) by (unfold r; lia). apply (Hdone r 2%nat eq_refl). cbn [stake].
    split; [lia|]. split; [lia|]. split.
    - unfold encode_rune. rewrite (proj2 (Z.ltb_ge r 0)), (proj2 (Z.ltb_ge 1114111 r)), (proj2 (Z.leb_gt 55296 r)) by lia.
      cbn [orb andb]. rewrite (proj2 (Z.ltb_ge r 128)), (proj2 (Z.ltb_lt r 2048)) by lia.
      rewrite (Hchr _ c0), (Hchr _ c1) by (unfold r; Z.div_mod_to_equations; lia). done.
    - intros c Hc. cbn [contains_byte]. by rewrite !Hne by lia. }
  destruct s as [|c2 s]; [cbn; lia|]. pose proof (code_range c2).
  destruct ((128 <=? code c2) && (code c2 <=? 191)) eqn:E2; [|cbn; lia]. cbn [negb]. bools.
  destruct (code c0 <? 240) eqn:E240.
  { intros _ Hdone. bools. set (r := (code c0 - 224) * 4096 + (code c1 - 128) * 64 + (code c2 - 128)).
    assert (2048 <= r < 65536 /\ (r < 55296 \/ 57343 < r)) as [? Hsur] by (unfold r; lia). apply (Hdone r 3%nat eq_refl). cbn [stake].
    split; [lia|]. split; [lia|]. split.
    - unfold encode_rune. rewrite (proj2 (Z.ltb_ge r 0)), (proj2 (Z.ltb_ge 1114111 r)) by lia.
      assert ((55296 <=? r) && (r <=? 57343) = false) as -> by (apply andb_false_iff; lia).
      cbn [orb]. rewrite (proj2 (Z.ltb_ge r 128)), (proj2 (Z.ltb_ge r 2048)), (proj2 (Z.ltb_lt r 65536)) by lia.
      rewrite (Hchr _ c0), (Hchr _ c1), (Hchr _ c2) by (unfold r; Z.div_mod_to_equations; lia). done.
    - intros c Hc. cbn [contains_byte]. by rewrite !Hne by lia. }
  destruct s as [|c3 s]; [cbn; lia|]. pose proof (code_range c3).
  destruct ((128 <=? code c3) && (code c3 <=? 191)) eqn:E3; [|cbn; lia]. cbn [negb]. bools.
  intros _ Hdone. set (r := (code c0 - 240) * 262144 + (code c1 - 128) * 4096 + (code c2 - 128) * 64 + (code c3 - 128)).
  assert (65536 <= r <= 1114111) by (unfold r; lia). apply (Hdone r 4%nat eq_refl). cbn [stake].
  split; [lia|]. split; [lia|]. split.
  - unfold encode_rune. rewrite (proj2 (Z.ltb_ge r 0)), (proj2 (Z.ltb_ge 1114111 r)) by lia.
    assert ((55296 <=? r) && (r <=? 57343) = false) as -> by (apply andb_false_iff; lia).
    cbn [orb]. rewrite (proj2 (Z.ltb_ge r 128)), (proj2 (Z.ltb_ge r 2048)), (proj2 (Z.ltb_ge r 65536)) by lia.
    rewrite (Hchr _ c0), (Hchr _ c1), (Hchr _ c2), (Hchr _ c3) by (unfold r; Z.div_mod_to_equations; lia). done.
  - intros c Hc. cbn [contains_byte]. by rewrite !Hne by lia.
Qed.

(** A valid text begins with a byte of ASCII or a longer rune, and goes on. *)
Lemma utf8_text_cons c s : code c < 128 -> utf8_text (String c s) = utf8_text s.
Proof. intros H. cbn [utf8_text]. by rewrite (proj2 (Z.ltb_lt _ _) H). Qed.
Lemma utf8_text_long c s : 128 <= code c -> utf8_text (String c s) = true ->
  exists r n, long_rune (String c s) r n /\ utf8_text (sdrop n (String c s)) = true.
Proof.
  intros Hc H. cbn [utf8_text] in H. rewrite (proj2 (Z.ltb_ge _ _) Hc) in H.
  assert (forall n, snd (decode_rune (String c s)) = n -> (2 <= n)%nat ->
    exists r, long_rune (String c s) r n) as Hr.
  { intros n Hn Hle. destruct (decode_rune_long c s Hc ltac:(lia)) as (r & n' & Hl). pose proof Hl as (Hd & _).
    rewrite Hd in Hn. cbn in Hn. subst n'. by exists r. }
  destruct (snd (decode_rune (String c s))) as [|[|[|[|[|n]]]]] eqn:E; try done.
  - destruct s as [|c1 s]; [done|]. destruct (Hr _ eq_refl ltac:(lia)) as [r Hl]. by exists r, 2%nat.
  - destruct s as [|c1 [|c2 s]]; try done. destruct (Hr _ eq_refl ltac:(lia)) as [r Hl]. by exists r, 3%nat.
  - destruct s as [|c1 [|c2 [|c3 s]]]; try done. destruct (Hr _ eq_refl ltac:(lia)) as [r Hl]. by exists r, 4%nat.
Qed.
(** Induction over the runes of a valid text. *)
Lemma utf8_ind (P : string -> Prop) : P "" ->
  (forall c s, code c < 128 -> utf8_text s = true -> P s -> P (String c s)) ->
  (forall c s r n, 128 <= code c -> long_rune (String c s) r n -> utf8_text (sdrop n (String c s)) = true ->
     P (sdrop n (String c s)) -> P (String c s)) ->
  forall s, utf8_text s = true -> P s.
Proof.
  intros H0 H1 H2 s. remember (String.length s) as k eqn:Ek. assert (String.length s <= k)%nat as Hk by lia. clear Ek.
  revert s Hk. induction k as [|k IH]; intros [|c s] Hk Hu; try done; [cbn in Hk; lia|].
  destruct (Z.ltb_spec (code c) 128) as [Hc|Hc].
  - rewrite utf8_text_cons in Hu by done. apply H1; [done..|]. apply IH; [cbn in Hk; lia|done].
  - destruct (utf8_text_long c s Hc Hu) as (r & n & Hl & Hr). apply (H2 c s r n); [done..|].
    apply IH; [|done]. destruct Hl as (_ & Hn & _). rewrite length_sdrop. cbn in *. lia.
Qed.

(** ** [unicode.ToLower] and [strings.ToLower]

    The simple case pairs of Unicode 15 above ASCII, as ranges: the first and the
    last letter that has a lower case, the distance from one to the next, and
    what is added to it. A letter cased by a later version is left as it is. *)
Definition lower_ranges : list (Z * Z * Z * Z) :=
  [(192, 214, 1, 32); (216, 222, 1, 32); (256, 302, 2, 1); (304, 304, 1, -199); (306, 310, 2, 1);
   (313, 327, 2, 1); (330, 374, 2, 1); (376, 376, 1, -121); (377, 381, 2, 1); (385, 385, 1, 210);
   (386, 388, 2, 1); (390, 390, 1, 206); (391, 391, 1, 1); (393, 394, 1, 205); (395, 395, 1, 1);
   (398, 398, 1, 79); (399, 399, 1, 202); (400, 400, 1, 203); (401, 401, 1, 1); (403, 403, 1, 205);
   (404, 404, 1, 207); (406, 406, 1, 211); (407, 407, 1, 209); (408, 408, 1, 1); (412, 412, 1, 211);
   (413, 413, 1, 213); (415, 415, 1, 214); (416, 420, 2, 1); (422, 422, 1, 218); (423, 423, 1, 1);
   (425, 425, 1, 218); (428, 428, 1, 1); (430, 430, 1, 218); (431, 431, 1, 1); (433, 434, 1, 217);
   (435, 437, 2, 1); (439, 439, 1, 219); (440, 440, 1, 1); (444, 444, 1, 1); (452, 452, 1, 2);
   (453, 453, 1, 1); (455, 455, 1, 2); (456, 456, 1, 1); (458, 458, 1, 2); (459, 475, 2, 1); (478, 494, 2, 1);
   (497, 497, 1, 2); (498, 500, 2, 1); (502, 502, 1, -97); (503, 503, 1, -56); (504, 542, 2, 1);
   (544, 544, 1, -130); (546, 562, 2, 1); (570, 570, 1, 10795); (571, 571, 1, 1); (573, 573, 1, -163);
   (574, 574, 1, 10792); (577, 577, 1, 1); (579, 579, 1, -195); (580, 580, 1, 69); (581, 581, 1, 71);
   (582, 590, 2, 1); (880, 882, 2, 1); (886, 886, 1, 1); (895, 895, 1, 116); (902, 902, 1, 38);
   (904, 906, 1, 37); (908, 908, 1, 64); (910, 911, 1, 63); (913, 929, 1, 32); (931, 939, 1, 32);
   (975, 975, 1, 8); (984, 1006, 2, 1); (1012, 1012, 1, -60); (1015, 1015, 1, 1); (1017, 1017, 1, -7);
   (1018, 1018, 1, 1); (1021, 1023, 1, -130); (1024, 1039, 1, 80); (1040, 1071, 1, 32); (1120, 1152, 2, 1);
   (1162, 1214, 2, 1); (1216, 1216, 1, 15); (1217, 1229, 2, 1); (1232, 1326, 2, 1); (1329, 1366, 1, 48);
   (4256, 4293, 1, 7264); (4295, 4295, 1, 7264); (4301, 4301, 1, 7264); (5024, 5103, 1, 38864);
   (5104, 5109, 1, 8); (7312, 7354, 1, -3008); (7357, 7359, 1, -3008); (7680, 7828, 2, 1);
   (7838, 7838, 1, -7615); (7840, 7934, 2, 1); (7944, 7951, 1, -8); (7960, 7965, 1, -8); (7976, 7983, 1, -8);
   (7992, 7999, 1, -8); (8008, 8013, 1, -8); (8025, 8031, 2, -8); (8040, 8047, 1, -8); (8072, 8079, 1, -8);
   (8088, 8095, 1, -8); (8104, 8111, 1, -8); (8120, 8121, 1, -8); (8122, 8123, 1, -74); (8124, 8124, 1, -9);
   (8136, 8139, 1, -86); (8140, 8140, 1, -9); (8152, 8153, 1, -8); (8154, 8155, 1, -100); (8168, 8169, 1, -8);
   (8170, 8171, 1, -112); (8172, 8172, 1, -7); (8184, 8185, 1, -128); (8186, 8187, 1, -126);
   (8188, 8188, 1, -9); (8486, 8486, 1, -7517); (8490, 8490, 1, -8383); (8491, 8491, 1, -8262);
   (8498, 8498, 1, 28); (8544, 8559, 1, 16); (8579, 8579, 1, 1); (9398, 9423, 1, 26); (11264, 11311, 1, 48);
   (11360, 11360, 1, 1); (11362, 11362, 1, -10743); (11363, 11363, 1, -3814); (11364, 11364, 1, -10727);
   (11367, 11371, 2, 1); (11373, 11373, 1, -10780); (11374, 11374, 1, -10749); (11375, 11375, 1, -10783);
   (11376, 11376, 1, -10782); (11378, 11378, 1, 1); (11381, 11381, 1, 1); (11390, 11391, 1, -10815);
   (11392, 11490, 2, 1); (11499, 11501, 2, 1); (11506, 11506, 1, 1); (42560, 42604, 2, 1);
   (42624, 42650, 2, 1); (42786, 42798, 2, 1); (42802, 42862, 2, 1); (42873, 42875, 2, 1);
   (42877, 42877, 1, -35332); (42878, 42886, 2, 1); (42891, 42891, 1, 1); (42893, 42893, 1, -42280);
   (42896, 42898, 2, 1); (42902, 42920, 2, 1); (42922, 42922, 1, -42308); (42923, 42923, 1, -42319);
   (42924, 42924, 1, -42315); (42925, 42925, 1, -42305); (42926, 42926, 1, -42308); (42928, 42928, 1, -42258);
   (42929, 42929, 1, -42282); (42930, 42930, 1, -42261); (42931, 42931, 1, 928); (42932, 42946, 2, 1);
   (42948, 42948, 1, -48); (42949, 42949, 1, -42307); (42950, 42950, 1, -35384); (42951, 42953, 2, 1);
   (42960, 42960, 1, 1); (42966, 42968, 2, 1); (42997, 42997, 1, 1); (65313, 65338, 1, 32);
   (66560, 66599, 1, 40); (66736, 66771, 1, 40); (66928, 66938, 1, 39); (66940, 66954, 1, 39);
   (66956, 66962, 1, 39); (66964, 66965, 1, 39); (68736, 68786, 1, 64); (71840, 71871, 1, 32);
   (93760, 93791, 1, 32); (125184, 125217, 1, 34)].
Definition in_range (r : Z) (e : Z * Z * Z * Z) : bool :=
  let '(lo, hi, stride, _) := e in (lo <=? r) && (r <=? hi) && ((r - lo) mod stride =? 0).
Definition lower_rune (r : Z) : Z :=
  if r <? 128 then if (65 <=? r) && (r <=? 90) then r + 32 else r
  else match List.find (in_range r) lower_ranges with Some (_, _, _, d) => r + d | None => r end.
Fixpoint only_ascii (s : string) : bool :=
  match s with EmptyString => true | String c s' => (code c <? 128) && only_ascii s' end.
(** [strings.Map] of [unicode.ToLower]: a byte that starts no rune becomes
    [RuneError]. *)
Fixpoint map_lower (fuel : nat) (s : string) : string :=
  match fuel, s with
  | S f, String _ _ => let '(r, n) := decode_rune s in encode_rune (lower_rune r) +:+ map_lower f (sdrop n s)
  | _, _ => ""
  end.
(** [strings.ToLower], ASCII first. *)
Definition ToLower (s : string) : string := if only_ascii s then to_lower s else map_lower (String.length s) s.

Example lower_examples :
  ToLower "/API/" = "/api/" /\
  ToLower ("/" +:+ encode_rune 201) = ("/" +:+ encode_rune 233)%string /\
  ToLower (encode_rune 304 +:+ encode_rune 8490 +:+ encode_rune 7838) = ("ik" +:+ encode_rune 223)%string /\
  ToLower (String (chr 255) "A") = (encode_rune rune_error +:+ "a")%string.
Proof. repeat split; vm_compute; reflexivity. Qed.

(** *** What [ToLower] keeps *)

Lemma contains_byte_encode c r : code c < 97 -> 97 <= r -> contains_byte c (encode_rune r) = false.
Proof.
  intros Hc Hr. unfold encode_rune. set (r' := if _ || _ then rune_error else r).
  assert (97 <= r' <= 1114111) as H.
  { unfold r'. destruct ((_ || _) || _) eqn:E; [unfold rune_error; lia|]. bools. lia. }
  assert (forall z, 97 <= z < 256 -> Ascii.eqb (chr z) c = false) as Hz.
  { intros z Hz. apply Ascii.eqb_neq. intros <-. rewrite code_chr in Hc; lia. }
  clearbody r'. repeat case_match; bools; cbn [contains_byte]; rewrite !Hz by (Z.div_mod_to_equations; lia); done.
Qed.
Lemma lower_rune_high r : 97 <= r -> 97 <= lower_rune r.
Proof.
  intros Hr. unfold lower_rune. destruct (r <? 128) eqn:E; [destruct (_ && _) eqn:E2; bools; lia|].
  destruct (List.find _ _) as [[[[lo hi] st] d]|] eqn:F; [|done]. apply find_some in F as [Hin F].
  assert (forallb (fun e : Z * Z * Z * Z => let '(lo, _, _, d) := e in 97 <=? lo + d) lower_ranges = true) as G
    by (vm_compute; reflexivity).
  rewrite forallb_forall in G. specialize (G _ Hin). cbn in G, F. bools. lia.
Qed.
Lemma decode_rune_high c0 s : 128 <= code c0 -> let '(r, n) := decode_rune (String c0 s) in
  128 <= r /\ forall c, code c < 128 -> contains_byte c (stake n (String c0 s)) = false.
Proof.
  intros H0. unfold decode_rune, accept_range, cont_byte.
  assert (forall c d, code c < 128 -> 128 <= code d -> Ascii.eqb d c = false) as Hne.
  { intros c d Hc Hd. apply Ascii.eqb_neq. intros ->. lia. }
  pose proof (code_range c0).
  repeat (case_match; simplify_eq/=; try discriminate); bools; unfold rune_error in *; (split; [lia|]); intros c Hc;
    cbn [stake contains_byte]; rewrite ?Hne by lia; done.
Qed.
Lemma contains_byte_split c n s : contains_byte c s = contains_byte c (stake n s) || contains_byte c (sdrop n s).
Proof. rewrite <- (stake_sdrop n s) at 1. apply contains_byte_app. Qed.
Lemma contains_byte_lower_ascii c s : code c < 65 -> contains_byte c (to_lower s) = contains_byte c s.
Proof.
  intros Hc. induction s as [|d s IH]; [done|]. cbn. rewrite IH. f_equal. unfold lower_byte. destruct (_ && _) eqn:E; [|done].
  bools. destruct (Ascii.eqb_spec d c) as [->|_]; [lia|]. apply Ascii.eqb_neq. intros <-. rewrite code_chr in Hc; lia.
Qed.
(** Lowering neither makes nor loses a byte below the letters. *)
Lemma contains_byte_lower c s : code c < 65 -> contains_byte c (ToLower s) = contains_byte c s.
Proof.
  intros Hc. unfold ToLower. destruct (only_ascii s); [by apply contains_byte_lower_ascii|].
  enough (forall f s, (String.length s <= f)%nat -> contains_byte c (map_lower f s) = contains_byte c s) as H by by apply H.
  clear s. intros f. induction f as [|f IH]; intros s Hf; [by destruct s; [|cbn in Hf; lia]|].
  destruct s as [|d s]; [done|]. cbn [map_lower]. pose proof (decode_rune_width d s) as Hw.
  destruct (Z.ltb_spec (code d) 128) as [Hd|Hd].
  - rewrite decode_rune_ascii by done. rewrite contains_byte_app, IH by (cbn in *; lia). cbn [sdrop].
    cbn [contains_byte]. f_equal. pose proof (code_range d). unfold lower_rune. rewrite (proj2 (Z.ltb_lt _ _) Hd).
    assert (forall z, 0 <= z < 128 -> encode_rune z = String (chr z) "") as He.
    { intros z Hz. unfold encode_rune. rewrite (proj2 (Z.ltb_ge z 0)), (proj2 (Z.ltb_ge 1114111 z)), (proj2 (Z.leb_gt 55296 z)) by lia.
      cbn. by rewrite (proj2 (Z.ltb_lt z 128)) by lia. }
    destruct (_ && _) eqn:E; bools; rewrite He by lia; cbn; rewrite orb_false_r.
    + destruct (Ascii.eqb_spec d c) as [->|_]; [lia|]. apply Ascii.eqb_neq. intros <-. rewrite code_chr in Hc; lia.
    + by rewrite chr_code.
  - pose proof (decode_rune_high d s Hd) as Hh. destruct (decode_rune (String d s)) as [r n]. destruct Hh as [Hr Hn].
    cbn [snd] in Hw. rewrite contains_byte_app, contains_byte_encode, IH, (contains_byte_split c n (String d s)), Hn;
      [done|lia| |lia|apply lower_rune_high; lia]. rewrite length_sdrop. lia.
Qed.

(** ** [encoding/hex] *)
Definition byte_z (b : Byte.byte) : Z := Z.of_N (Byte.to_N b).
Definition z_byte (z : Z) : Byte.byte :=
  match Byte.of_N (Z.to_N (z mod 256)) with Some b => b | None => Byte.x00 end.

Lemma byte_z_range b : 0 <= byte_z b < 256.
Proof. unfold byte_z. pose proof (Byte.to_N_bounded b). lia. Qed.

Lemma z_byte_z b : z_byte (byte_z b) = b.
Proof.
  unfold z_byte. pose proof (byte_z_range b) as H. rewrite Z.mod_small by done.
  unfold byte_z. by rewrite N2Z.id, Byte.of_to_N.
Qed.

Lemma byte_z_byte z : byte_z (z_byte z) = z mod 256.
Proof.
  unfold z_byte, byte_z.
  pose proof (Z.mod_pos_bound z 256 ltac:(lia)) as Hz.
  destruct (Byte.of_N (Z.to_N (z mod 256))) as [b|] eqn:E.
  - apply Byte.to_of_N in E. rewrite E. lia.
  - apply Byte.of_N_None_iff in E. lia.
Qed.

#[export] Instance byte_eq_dec : EqDecision Byte.byte := Byte.byte_eq_dec.
#[export] Program Instance byte_countable : Countable Byte.byte :=
  inj_countable' byte_z z_byte z_byte_z.

Definition hex_digit (z : Z) : ascii := chr (if z <? 10 then 48 + z else 87 + z).
Definition from_hex_char (c : ascii) : option Z :=
  let z := code c in
  if (48 <=? z) && (z <=? 57) then Some (z - 48)
  else if (97 <=? z) && (z <=? 102) then Some (z - 87)
  else if (65 <=? z) && (z <=? 70) then Some (z - 55)
  else None.

(** [hex.EncodeToString] *)
Fixpoint hex_encode (l : bytes) : string :=
  match l with
  | [] => ""
  | b :: l' => String (hex_digit (byte_z b / 16)) (String (hex_digit (byte_z b mod 16)) (hex_encode l'))
  end.

(** [hex.DecodeString] *)
Fixpoint hex_decode (s : string) : result bytes :=
  match s with
  | EmptyString => Ok []
  | String c EmptyString =>
      match from_hex_char c with
      | Some _ => Err (ErrNew "hex.ErrLength")
      | None => Err (Errorf "encoding/hex: invalid byte: %#U" [AInt (code c)])
      end
  | String c (String d s') =>
      match from_hex_char c with
      | None => Err (Errorf "encoding/hex: invalid byte: %#U" [AInt (code c)])
      | Some h =>
          match from_hex_char d with
          | None => Err (Errorf "encoding/hex: invalid byte: %#U" [AInt (code d)])
          | Some l => rest ← hex_decode s'; Ok (z_byte (h * 16 + l) :: rest)
          end
      end
  end.

(** The bytes [hex.DecodeString] returns whether or not it also returns an
    error: those decoded before the first bad digit. *)
Fixpoint hex_prefix (s : string) : bytes :=
  match s with
  | String c (String d s') =>
      match from_hex_char c, from_hex_char d with
      | Some h, Some l => z_byte (h * 16 + l) :: hex_prefix s'
      | _, _ => []
      end
  | _ => []
  end.

Lemma from_hex_digit z : 0 <= z < 16 -> from_hex_char (hex_digit z) = Some z.
Proof.
  intros H.
  assert (Forall (fun z => from_hex_char (hex_digit z) = Some z)
            [0;1;2;3;4;5;6;7;8;9;10;11;12;13;14;15]) as F by (repeat constructor).
  rewrite Forall_forall in F. apply F, list_elem_of_In. simpl. lia.
Qed.

Lemma hex_decode_encode l : hex_decode (hex_encode l) = Ok l.
Proof.
  induction l as [|b l IH]; [done|]. cbn [hex_encode hex_decode].
  pose proof (byte_z_range b).
  rewrite (from_hex_digit (byte_z b / 16)), (from_hex_digit (byte_z b mod 16)).
  - rewrite IH. simpl. do 2 f_equal.
    replace (byte_z b / 16 * 16 + byte_z b mod 16) with (byte_z b)
      by (rewrite (Z.div_mod (byte_z b) 16) at 1; lia).
    apply z_byte_z.
  - apply Z.mod_pos_bound; lia.
  - split; [apply Z.div_pos; lia | apply Z.div_lt_upper_bound; lia].
Qed.

Lemma hex_decode_Ok_prefix s l : hex_decode s = Ok l -> hex_prefix s = l.
Proof.
  revert l. induction s as [s IH] using (induction_ltof1 _ String.length).
  intros l. destruct s as [|c [|d s]]; cbn.
  - by intros [= <-].
  - by destruct (from_hex_char c).
  - destruct (from_hex_char c) as [h|], (from_hex_char d) as [k|]; try done.
    destruct (hex_decode s) as [r|] eqn:E; simpl; [|done]. intros [= <-].
    rewrite (IH s) with (l := r); [done | unfold ltof; simpl; lia | done].
Qed.

Lemma hex_encode_inj a b : hex_encode a = hex_encode b -> a = b.
Proof.
  intros H. assert (Ok a = Ok b) as [= ->]; [|done].
  by rewrite <- (hex_decode_encode a), <- (hex_decode_encode b), H.
Qed.

Lemma hex_encode_nil l : hex_encode l = "" <-> l = [].
Proof. by destruct l. Qed.

Lemma length_hex_encode l : String.length (hex_encode l) = (2 * length l)%nat.
Proof. induction l as [|b l IH]; simpl; [done|]. rewrite IH. lia. Qed.

#[export] Hint Resolve has_prefix_refl has_prefix_app : aic.
#[export] Hint Rewrite sapp_nil_r sapp_assoc hex_decode_encode : aic.
