(* ===== verification/Sha256.v ===== *)
(** [crypto/sha256]: the hash the audit chain, the nonce scopes and the key
    bindings use.  [HashFunction] is what the components rely on (a function
    to 32-byte digests); [sum256] is the executable FIPS 180-4 function, and
    the instance below discharges the interface for it. *)
From S2P Require Import Prelude GoStrings.

(** ** The interface *)
Class HashFunction := {
  Sum256 : bytes -> bytes;
  Sum256_length : forall x, length (Sum256 x) = 32%nat
}.

(** Two distinct inputs with the same digest. *)
Definition collision `{HashFunction} (x y : bytes) : Prop := x <> y /\ Sum256 x = Sum256 y.

(** ** FIPS 180-4 *)
Definition w32 (z : Z) : Z := Z.land z 4294967295.
Definition rotr (n x : Z) : Z := Z.lor (Z.shiftr x n) (w32 (Z.shiftl x (32 - n))).
Definition ch (x y z : Z) : Z := Z.lxor (Z.land x y) (Z.land (w32 (Z.lnot x)) z).
Definition maj (x y z : Z) : Z := Z.lxor (Z.lxor (Z.land x y) (Z.land x z)) (Z.land y z).
Definition bsig0 (x : Z) : Z := Z.lxor (Z.lxor (rotr 2 x) (rotr 13 x)) (rotr 22 x).
Definition bsig1 (x : Z) : Z := Z.lxor (Z.lxor (rotr 6 x) (rotr 11 x)) (rotr 25 x).
Definition ssig0 (x : Z) : Z := Z.lxor (Z.lxor (rotr 7 x) (rotr 18 x)) (Z.shiftr x 3).
Definition ssig1 (x : Z) : Z := Z.lxor (Z.lxor (rotr 17 x) (rotr 19 x)) (Z.shiftr x 10).

Definition K256 : list Z :=
  [1116352408; 1899447441; 3049323471; 3921009573; 961987163; 1508970993; 2453635748; 2870763221;
   3624381080; 310598401; 607225278; 1426881987; 1925078388; 2162078206; 2614888103; 3248222580;
   3835390401; 4022224774; 264347078; 604807628; 770255983; 1249150122; 1555081692; 1996064986;
   2554220882; 2821834349; 2952996808; 3210313671; 3336571891; 3584528711; 113926993; 338241895;
   666307205; 773529912; 1294757372; 1396182291; 1695183700; 1986661051; 2177026350; 2456956037;
   2730485921; 2820302411; 3259730800; 3345764771; 3516065817; 3600352804; 4094571909; 275423344;
   430227734; 506948616; 659060556; 883997877; 958139571; 1322822218; 1537002063; 1747873779;
   1955562222; 2024104815; 2227730452; 2361852424; 2428436474; 2756734187; 3204031479; 3329325298].

Record hash8 := H8 { ha : Z; hb : Z; hc : Z; hd : Z; he : Z; hf : Z; hg : Z; hh : Z }.

Definition H256 : hash8 :=
  H8 1779033703 3144134277 1013904242 2773480762 1359893119 2600822924 528734635 1541459225.

Definition round (s : hash8) (kw : Z) : hash8 :=
  let t1 := hh s + bsig1 (he s) + ch (he s) (hf s) (hg s) + kw in
  let t2 := bsig0 (ha s) + maj (ha s) (hb s) (hc s) in
  H8 (w32 (t1 + t2)) (ha s) (hb s) (hc s) (w32 (hd s + t1)) (he s) (hf s) (hg s).

(** The message schedule: [win] is the last sixteen words, oldest first. *)
Fixpoint rounds (ks : list Z) (win : list Z) (s : hash8) : hash8 :=
  match ks, win with
  | k :: ks', w0 :: rest =>
      let w16 := w32 (ssig1 (nth 13 rest 0) + nth 8 rest 0 + ssig0 (nth 0 rest 0) + w0) in
      rounds ks' (rest ++ [w16]) (round s (k + w0))
  | _, _ => s
  end.

Definition add8 (a b : hash8) : hash8 :=
  H8 (w32 (ha a + ha b)) (w32 (hb a + hb b)) (w32 (hc a + hc b)) (w32 (hd a + hd b))
     (w32 (he a + he b)) (w32 (hf a + hf b)) (w32 (hg a + hg b)) (w32 (hh a + hh b)).

Fixpoint words (l : list Z) : list Z :=
  match l with
  | a :: b :: c :: d :: l' => (a * 16777216 + b * 65536 + c * 256 + d) :: words l'
  | _ => []
  end.

Definition compress (s : hash8) (block : list Z) : hash8 :=
  add8 s (rounds K256 (words block) s).

Fixpoint blocks (n : nat) (l : list Z) (s : hash8) : hash8 :=
  match n with
  | O => s
  | S n' => blocks n' (skipn 64 l) (compress s (firstn 64 l))
  end.

Definition be_bytes (n : nat) (z : Z) : list Z :=
  map (fun i => Z.shiftr z (8 * Z.of_nat i) mod 256) (rev (seq 0 n)).

Definition pad (l : list Z) : list Z :=
  let len := zlen l in
  l ++ [128] ++ repeat 0 (Z.to_nat ((55 - len) mod 64)) ++ be_bytes 8 (8 * len).

Definition sum256 (x : bytes) : bytes :=
  let p := pad (map byte_z x) in
  let s := blocks (length p / 64) p H256 in
  map z_byte (flat_map (be_bytes 4) [ha s; hb s; hc s; hd s; he s; hf s; hg s; hh s]).

Lemma length_be_bytes n z : length (be_bytes n z) = n.
Proof. unfold be_bytes. by rewrite length_map, length_rev, length_seq. Qed.

Lemma sum256_length x : length (sum256 x) = 32%nat.
Proof.
  unfold sum256. rewrite length_map. cbn [flat_map].
  by rewrite !length_app, !length_be_bytes.
Qed.

#[export] Instance sha256 : HashFunction := {| Sum256 := sum256; Sum256_length := sum256_length |}.

(** The test vectors of FIPS 180-4. *)
Definition ascii_bytes (s : string) : bytes := map (fun c => z_byte (code c)) (String.list_ascii_of_string s).

Example sum256_empty :
  hex_encode (sum256 []) = "e3b0c44298fc1c149afbf4c8996fb92427ae41e4649b934ca495991b7852b855".
Proof. vm_compute. reflexivity. Qed.

Example sum256_abc :
  hex_encode (sum256 (ascii_bytes "abc")) = "ba7816bf8f01cfea414140de5dae2223b00361a396177a9cb410ff61f20015ad".
Proof. vm_compute. reflexivity. Qed.

Example sum256_two_blocks :
  hex_encode (sum256 (ascii_bytes "abcdbcdecdefdefgefghfghighijhijkijkljklmklmnlmnomnopnopq"))
  = "248d6a61d20638b8e5c026930c3e6039a33ce45964ff2167f6ecedd419db06c1".
Proof. vm_compute. reflexivity. Qed.
