(* ===== verification/GoTime.v ===== *)
(** [time.Time], [time.Duration] and [time.Location].

    An instant is its nanoseconds since the Unix epoch (every instant the
    source handles has an exact value there); a duration is an [int64] of
    nanoseconds.  A location is the function behind [Location.lookup]: for a
    Unix second, the offset in force and the interval [start, end) it is in
    force for. *)
From S2P Require Import Prelude.

Abbreviation Time := Z.
Abbreviation Duration := Z.
Definition Second : Duration := 1000000000.
Definition Minute : Duration := 60 * Second.
Definition Hour : Duration := 60 * Minute.

(** The zero [Time], January 1 of year 1, UTC. *)
Definition zero_time : Time := -62135596800 * Second.
Definition IsZero (t : Time) : bool := t =? zero_time.
Definition Before (t u : Time) : bool := t <? u.
Definition After (t u : Time) : bool := u <? t.
Definition Equal (t u : Time) : bool := t =? u.
Definition Unix (t : Time) : Z := t / Second.
(** [Add]; the sum of an instant of the years 1 to 9999 and a duration does not
    overflow the representation of [Time]. *)
Definition Add (t : Time) (d : Duration) : Time := t + d.

(** [Sub] saturates at the least and the greatest duration. *)
Definition Sub (t u : Time) : Duration :=
  if t - u <? int64_min then int64_min
  else if int64_max <? t - u then int64_max else t - u.

(** Negation of a [Duration] is two's complement negation. *)
Definition dneg (d : Duration) : Duration := wrap64 (- d).

Definition Location := Z -> Z * Z * Z.
Definition UTC : Location := fun _ => (0, int64_min, int64_max).

(** The local calendar day (days since the epoch) and the local second of the
    day of an instant in a location. *)
Definition local_seconds (loc : Location) (t : Time) : Z :=
  let '(offset, _, _) := loc (Unix t) in Unix t + offset.
Definition local_day (loc : Location) (t : Time) : Z := local_seconds loc t / 86400.

(** [time.Date(year, month, day, h, m, 0, 0, loc)], the date given by its day
    number. *)
Definition Date (day h m : Z) (loc : Location) : Time :=
  let unix := day * 86400 + h * 3600 + m * 60 in
  let '(offset, start, end_) := loc unix in
  if offset =? 0 then unix * Second
  else
    let utc := unix - offset in
    let offset' := if (utc <? start) || (end_ <=? utc)
                   then let '(o, _, _) := loc utc in o else offset in
    (unix - offset') * Second.

(** A zone without transitions. *)
Definition fixed_zone (offset : Z) : Location := fun _ => (offset, int64_min, int64_max).

(** Seconds that the zone functions are defined for: the years 1 to 9999. *)
Definition in_era (s : Z) : Prop := -62135683200 <= s <= 253402387200.

Lemma Date_fixed offset day h m :
  -86400 < offset < 86400 -> in_era (day * 86400 + h * 3600 + m * 60) ->
  Date day h m (fixed_zone offset) = (day * 86400 + h * 3600 + m * 60 - offset) * Second.
Proof.
  unfold Date, fixed_zone, in_era, int64_min, int64_max. intros Ho H.
  destruct (Z.eqb_spec offset 0) as [->|Hne]; [by rewrite Z.sub_0_r|].
  rewrite (proj2 (Z.ltb_ge _ _)), (proj2 (Z.leb_gt _ _)) by lia. done.
Qed.

Lemma Sub_exact t u : int64_min <= t - u <= int64_max -> Sub t u = t - u.
Proof.
  unfold Sub. intros H. rewrite (proj2 (Z.ltb_ge _ _)), (proj2 (Z.ltb_ge _ _)) by lia. done.
Qed.
