(* ===== verification/GoPath.v ===== *)
(** [path/filepath.Match] on Unix, which [MatchCapability] uses as its glob:
    [*] any run of non-separator bytes, [?] one non-separator rune, [[...]] a
    rune class, [\\] an escape.  Fuel is the length of the pattern, which every
    iteration shortens. *)
From S2P Require Import Prelude GoStrings.
From Stdlib Require Import Ascii.
Local Open Scope char_scope.
Local Open Scope string_scope.
Local Open Scope Z_scope.
Local Open Scope list_scope.

Definition ErrBadPattern : error := ErrNew "filepath.ErrBadPattern".

Definition separator : ascii := "/"%char.
Definition backslash : ascii := chr 92.

(** [scanChunk]: leading stars, then the bytes up to the next star outside a
    class. *)
Fixpoint skip_stars (p : string) : bool * string :=
  match p with
  | String "*" p' => (true, snd (skip_stars p'))
  | _ => (false, p)
  end.

Fixpoint chunk_end (inrange : bool) (p : string) : string * string :=
  match p with
  | EmptyString => (EmptyString, EmptyString)
  | String c p' =>
      if Ascii.eqb c backslash then
        match p' with
        | EmptyString => (p, EmptyString)
        | String d p'' => let '(a, b) := chunk_end inrange p'' in (String c (String d a), b)
        end
      else if Ascii.eqb c "*" && negb inrange then (EmptyString, p)
      else
        let inrange' := if Ascii.eqb c "[" then true
                        else if Ascii.eqb c "]" then false else inrange in
        let '(a, b) := chunk_end inrange' p' in (String c a, b)
  end.

Definition scan_chunk (p : string) : bool * string * string :=
  let '(star, p') := skip_stars p in
  let '(chunk, rest) := chunk_end false p' in (star, chunk, rest).

(** [getEsc]: one possibly escaped rune of a class; something must follow it. *)
Definition get_esc (chunk : string) : result (Z * string) :=
  let body (c : string) :=
    let '(r, n) := decode_rune c in
    let rest := sdrop n c in
    if ((r =? rune_error) && Nat.eqb n 1) || String.eqb rest "" then Err ErrBadPattern
    else Ok (r, rest) in
  match chunk with
  | EmptyString => Err ErrBadPattern
  | String c chunk' =>
      if Ascii.eqb c "-" || Ascii.eqb c "]" then Err ErrBadPattern
      else if Ascii.eqb c backslash then
        (if String.eqb chunk' "" then Err ErrBadPattern else body chunk')
      else body chunk
  end.

Fixpoint class_loop (fuel : nat) (chunk : string) (r : Z) (first found : bool)
  : result (string * bool) :=
  match fuel with
  | O => Err ErrBadPattern
  | S fuel' =>
      match chunk with
      | String "]" chunk' =>
          if first then Err ErrBadPattern else Ok (chunk', found)
      | _ =>
          '(lo, c1) ← get_esc chunk;
          '(hi, c2) ← (match c1 with String "-" c1' => get_esc c1' | _ => Ok (lo, c1) end);
          class_loop fuel' c2 r false (found || ((lo <=? r) && (r <=? hi)))
      end
  end.

(** [matchChunk]: the unmatched rest of [s], or [None]. After a failure the
    chunk is still read to its end to check its syntax. *)
Fixpoint match_chunk (fuel : nat) (failed : bool) (chunk s : string) : result (option string) :=
  match fuel with
  | O => if String.eqb chunk "" then Ok (if failed then None else Some s) else Err ErrBadPattern
  | S fuel' =>
      match chunk with
      | EmptyString => Ok (if failed then None else Some s)
      | String c chunk' =>
          let failed := failed || String.eqb s "" in
          if Ascii.eqb c "[" then
            let '(r, n) := if failed then (0, 0%nat) else decode_rune s in
            let '(negated, body) :=
              match chunk' with String "^" b => (true, b) | _ => (false, chunk') end in
            '(rest, found) ← class_loop fuel body r true false;
            match_chunk fuel' (failed || Bool.eqb found negated) rest (sdrop n s)
          else if Ascii.eqb c "?" then
            match s with
            | String d _ =>
                if failed then match_chunk fuel' failed chunk' s
                else match_chunk fuel' (Ascii.eqb d separator) chunk' (sdrop (snd (decode_rune s)) s)
            | EmptyString => match_chunk fuel' true chunk' s
            end
          else
            let lit (e : ascii) (rest : string) :=
              match s with
              | String d s' =>
                  if failed then match_chunk fuel' failed rest s
                  else match_chunk fuel' (negb (Ascii.eqb e d)) rest s'
              | EmptyString => match_chunk fuel' true rest s
              end in
            if Ascii.eqb c backslash then
              match chunk' with
              | EmptyString => Err ErrBadPattern
              | String e rest => lit e rest
              end
            else lit c chunk'
      end
  end.

Definition chunk_match (chunk s : string) : result (option string) :=
  match_chunk (String.length chunk) false chunk s.

(** The remaining chunks are checked for syntax before a mismatch is reported. *)
Fixpoint check_rest (fuel : nat) (p : string) : result bool :=
  match fuel with
  | O => Ok false
  | S fuel' =>
      match p with
      | EmptyString => Ok false
      | _ => let '(_, chunk, rest) := scan_chunk p in
             _ ← chunk_match chunk ""; check_rest fuel' rest
      end
  end.

(** The star: skip bytes of the name, none of them a separator. *)
Fixpoint star_loop (chunk rest name : string) : result (option string) :=
  match name with
  | EmptyString => Ok None
  | String c name' =>
      if Ascii.eqb c separator then Ok None
      else
        r ← chunk_match chunk name';
        match r with
        | Some t => if String.eqb rest "" && negb (String.eqb t "")
                    then star_loop chunk rest name' else Ok (Some t)
        | None => star_loop chunk rest name'
        end
  end.

Fixpoint match_loop (fuel : nat) (pattern name : string) : result bool :=
  match pattern with
  | EmptyString => Ok (String.eqb name "")
  | _ =>
      match fuel with
      | O => Err ErrBadPattern
      | S fuel' =>
          let '(star, chunk, rest) := scan_chunk pattern in
          if star && String.eqb chunk "" then Ok (negb (contains_byte separator name))
          else
            r ← chunk_match chunk name;
            let retry :=
              if star then
                r' ← star_loop chunk rest name;
                match r' with
                | Some t => match_loop fuel' rest t
                | None => check_rest (String.length rest) rest
                end
              else check_rest (String.length rest) rest in
            match r with
            | Some t => if String.eqb t "" || negb (String.eqb rest "")
                        then match_loop fuel' rest t else retry
            | None => retry
            end
      end
  end.

(** [filepath.Match(pattern, name)] *)
Definition filepath_Match (pattern name : string) : result bool :=
  match_loop (String.length pattern) pattern name.

(** ** Patterns without metacharacters *)
Definition plain_byte (c : ascii) : bool :=
  negb (Ascii.eqb c "*" || Ascii.eqb c "?" || Ascii.eqb c "[" || Ascii.eqb c backslash).
Fixpoint plain (s : string) : bool :=
  match s with EmptyString => true | String c s' => plain_byte c && plain s' end.

Lemma plain_byte_spec c : plain_byte c = true ->
  Ascii.eqb c "*" = false /\ Ascii.eqb c "?" = false /\
  Ascii.eqb c "[" = false /\ Ascii.eqb c backslash = false.
Proof. unfold plain_byte. intros H. bools. tauto. Qed.

Lemma plain_app a b : plain (a +:+ b) = plain a && plain b.
Proof. induction a as [|c a IH]; simpl; [done|]. by rewrite IH, andb_assoc. Qed.

Lemma chunk_end_plain p rest :
  plain p = true -> chunk_end false (p +:+ String "*" rest) = (p, String "*" rest) /\
  chunk_end false p = (p, "").
Proof.
  induction p as [|c p IH]; simpl; [done|]. intros [Hc Hp]%andb_true_iff.
  destruct (plain_byte_spec c Hc) as (-> & _ & -> & ->). destruct (IH Hp) as [E1 E2]. simpl.
  destruct (Ascii.eqb c "]"); by rewrite E1, E2.
Qed.

Lemma skip_stars_plain p : plain p = true -> skip_stars p = (false, p).
Proof.
  destruct p as [|c p]; [done|]. simpl. intros [Hc _]%andb_true_iff.
  destruct (plain_byte_spec c Hc) as (H & _). destruct c as [[] [] [] [] [] [] [] []]; done.
Qed.

Lemma skip_stars_plain_cons c p rest : plain (String c p) = true ->
  skip_stars (String c p +:+ rest) = (false, String c p +:+ rest).
Proof.
  simpl. intros [Hc _]%andb_true_iff.
  destruct (plain_byte_spec c Hc) as (H & _). destruct c as [[] [] [] [] [] [] [] []]; done.
Qed.

Lemma match_chunk_plain fuel chunk s failed :
  plain chunk = true -> (String.length chunk <= fuel)%nat ->
  match_chunk fuel failed chunk s =
  Ok (if failed then None
      else if has_prefix s chunk then Some (sdrop (String.length chunk) s) else None).
Proof.
  revert fuel s failed. induction chunk as [|c chunk IH]; intros fuel s failed.
  - intros _ _. destruct fuel, failed; simpl; try done; by destruct s.
  - intros [Hc Hp]%andb_true_iff Hf. destruct fuel as [|fuel]; simpl in Hf; [lia|].
    cbn [match_chunk]. destruct (plain_byte_spec c Hc) as (_ & -> & -> & ->).
    destruct s as [|d s].
    { by destruct failed; simpl; rewrite IH by (done || lia). }
    rewrite orb_false_r. destruct failed; rewrite IH by (done || lia); [done|].
    unfold has_prefix. cbn. destruct (Ascii.eqb_spec c d) as [->|Hne]; simpl.
    + by destruct (ascii_dec d d).
    + by destruct (ascii_dec c d).
Qed.

Lemma chunk_match_plain chunk s : plain chunk = true ->
  chunk_match chunk s =
  Ok (if has_prefix s chunk then Some (sdrop (String.length chunk) s) else None).
Proof. intros H. unfold chunk_match. by rewrite match_chunk_plain. Qed.

Lemma prefix_sdrop s p : has_prefix s p = true -> s = (p +:+ sdrop (String.length p) s).
Proof. intros [t ->]%has_prefix_spec. by rewrite sdrop_length_app. Qed.

(** A plain pattern matches itself and nothing else. *)
Lemma filepath_Match_plain p name :
  plain p = true -> filepath_Match p name = Ok (String.eqb name p).
Proof.
  intros Hp. unfold filepath_Match. destruct p as [|c p]; [done|].
  cbn [String.length match_loop]. unfold scan_chunk. rewrite (skip_stars_plain _ Hp).
  destruct (chunk_end_plain _ "" Hp) as [_ ->]. cbn [andb]. rewrite chunk_match_plain by done.
  unfold mbind, result_bind. destruct (has_prefix name (String c p)) eqn:E.
  - rewrite orb_false_r. pose proof (prefix_sdrop _ _ E) as Hn.
    destruct (String.eqb_spec (sdrop (String.length (String c p)) name) "") as [E0|E0].
    + rewrite E0, sapp_nil_r in Hn. rewrite E0, Hn, String.eqb_refl. by destruct p.
    + rewrite (proj2 (String.eqb_neq _ _)); [done|]. intros ->. apply E0.
      rewrite <- (sapp_nil_r (String c p)) at 2. apply sdrop_length_app.
  - rewrite (proj2 (String.eqb_neq _ _)); [done|]. intros ->. by rewrite has_prefix_refl in E.
Qed.

(** A plain pattern followed by one star: a prefix test, the rest without
    separator. *)
Lemma filepath_Match_plain_star p name :
  plain p = true ->
  filepath_Match (p +:+ "*") name =
  Ok (has_prefix name p && negb (contains_byte separator (sdrop (String.length p) name))).
Proof.
  intros Hp. unfold filepath_Match. destruct p as [|c p].
  - simpl. unfold has_prefix. by destruct name.
  - rewrite slength_app. cbn [String.length plus match_loop String.append]. unfold scan_chunk.
    change (String c (p +:+ "*")) with (String c p +:+ "*").
    rewrite (skip_stars_plain_cons _ _ _ Hp).
    destruct (chunk_end_plain _ "" Hp) as [-> _]. cbn [andb]. rewrite chunk_match_plain by done.
    unfold mbind, result_bind. destruct (has_prefix name (String c p)) eqn:E; [|by destruct p].
    change (negb ("*" =? "")%string) with true. rewrite orb_true_r, Nat.add_comm. done.
Qed.
