(* ===== verification/GoJson.v ===== *)
(** [encoding/json] as the source uses it: the decoder from bytes to a JSON
    value ([parse_json], the scanner's grammar with its nesting limit), and the
    conversions [Unmarshal] makes from a value to the Go types of the source.
    A number keeps its literal; a value is converted when its target type is
    known. *)
From S2P Require Import Prelude GoStrings.
From Stdlib Require Import Ascii.
Local Open Scope char_scope.
Local Open Scope string_scope.
Local Open Scope Z_scope.
Local Open Scope list_scope.

Inductive json :=
  | JNull
  | JBool (b : bool)
  | JNum (lit : string)
  | JStr (s : string)
  | JArr (l : list json)
  | JObj (ms : list (string * json)).

(** ** Scanner *)
Definition is_ws (c : ascii) : bool :=
  let z := code c in (z =? 32) || (z =? 9) || (z =? 10) || (z =? 13).
Fixpoint skip_ws (s : string) : string :=
  match s with String c s' => if is_ws c then skip_ws s' else s | EmptyString => s end.

Definition is_digit (c : ascii) : bool := (48 <=? code c) && (code c <=? 57).
Fixpoint span_digits (s : string) : string * string :=
  match s with
  | String c s' => if is_digit c then let '(a, b) := span_digits s' in (String c a, b) else ("", s)
  | EmptyString => ("", "")
  end.

(** An optional sign, an integer part without leading zeros, an optional
    fraction, an optional exponent. *)
Definition scan_number (s : string) : option (string * string) :=
  let '(sign, s1) := match s with String "-" t => ("-", t) | _ => ("", s) end in
  let '(ds, s2) := span_digits s1 in
  let int_ok := match ds with
                | "" => false
                | String "0" (String _ _) => false
                | _ => true end in
  if negb int_ok then
    (* a leading zero ends the integer part *)
    match ds with
    | String "0" rest => Some (sign +:+ "0", rest +:+ s2)
    | _ => None
    end
  else
    let frac := match s2 with
                | String "." t => let '(fs, u) := span_digits t in
                                  if String.eqb fs "" then None else Some ("." +:+ fs, u)
                | _ => Some ("", s2) end in
    match frac with
    | None => None
    | Some (f, s3) =>
        match s3 with
        | String e t =>
            if Ascii.eqb e "e" || Ascii.eqb e "E" then
              let '(sg, u) := match t with
                              | String "+" u => ("+", u) | String "-" u => ("-", u)
                              | _ => ("", t) end in
              let '(es, v) := span_digits u in
              if String.eqb es "" then None
              else Some (sign +:+ ds +:+ f +:+ String e "" +:+ sg +:+ es, v)
            else Some (sign +:+ ds +:+ f, s3)
        | EmptyString => Some (sign +:+ ds +:+ f, "")
        end
    end.

Definition hex4 (s : string) : option (Z * string) :=
  match s with
  | String a (String b (String c (String d r))) =>
      match from_hex_char a, from_hex_char b, from_hex_char c, from_hex_char d with
      | Some w, Some x, Some y, Some z => Some (w * 4096 + x * 256 + y * 16 + z, r)
      | _, _, _, _ => None
      end
  | _ => None
  end.

Definition surrogate (z : Z) : bool := (55296 <=? z) && (z <? 57344).

(** The body of a string literal up to its closing quote, unquoted: escapes
    decoded, unpaired surrogates and invalid UTF-8 replaced by U+FFFD. *)
Fixpoint scan_string (fuel : nat) (s : string) : option (string * string) :=
  match fuel with
  | O => None
  | S fuel' =>
      let emit (w rest : string) :=
        match scan_string fuel' rest with
        | Some (t, r) => Some (w +:+ t, r) | None => None end in
      match s with
      | EmptyString => None
      | String c s' =>
          let z := code c in
          if z =? 34 then Some ("", s')
          else if z <? 32 then None
          else if z =? 92 then
            match s' with
            | String e r =>
                let y := code e in
                if (y =? 34) || (y =? 92) || (y =? 47) then emit (String e "") r
                else if y =? 98 then emit (String (chr 8) "") r
                else if y =? 102 then emit (String (chr 12) "") r
                else if y =? 110 then emit (String (chr 10) "") r
                else if y =? 114 then emit (String (chr 13) "") r
                else if y =? 116 then emit (String (chr 9) "") r
                else if y =? 117 then
                  match hex4 r with
                  | None => None
                  | Some (u, r1) =>
                      if surrogate u then
                        match r1 with
                        | String b1 (String u1 r2) =>
                            match (if (code b1 =? 92) && (code u1 =? 117) then hex4 r2 else None) with
                            | Some (v, r3) =>
                                if (u <? 56320) && (56320 <=? v) && (v <? 57344)
                                then emit (encode_rune ((u - 55296) * 1024 + (v - 56320) + 65536)) r3
                                else emit (encode_rune rune_error) r1
                            | None => emit (encode_rune rune_error) r1
                            end
                        | _ => emit (encode_rune rune_error) r1
                        end
                      else emit (encode_rune u) r1
                  end
                else None
            | EmptyString => None
            end
          else if z <? 128 then emit (String c "") s'
          else let '(r, n) := decode_rune s in emit (encode_rune r) (sdrop n s)
      end
  end.

(** The scanner refuses values nested deeper than this. *)
Definition max_depth : nat := Z.to_nat 10000.

Definition strip (p s : string) : option string :=
  if has_prefix s p then Some (sdrop (String.length p) s) else None.

Fixpoint scan_value (fuel depth : nat) (s : string) : option (json * string) :=
  match fuel with
  | O => None
  | S fuel' =>
      let elements := fix elements (k : nat) (s : string) : option (list json * string) :=
        match k with
        | O => None
        | S k' =>
            match scan_value fuel' (pred depth) s with
            | None => None
            | Some (v, r) =>
                match skip_ws r with
                | String "," r' =>
                    match elements k' r' with Some (vs, t) => Some (v :: vs, t) | None => None end
                | String "]" r' => Some ([v], r')
                | _ => None
                end
            end
        end in
      let members := fix members (k : nat) (s : string) : option (list (string * json) * string) :=
        match k with
        | O => None
        | S k' =>
            match skip_ws s with
            | String q r =>
                if negb (code q =? 34) then None else
                match scan_string (String.length s) r with
                | None => None
                | Some (name, r1) =>
                    match skip_ws r1 with
                    | String ":" r2 =>
                        match scan_value fuel' (pred depth) r2 with
                        | None => None
                        | Some (v, r3) =>
                            match skip_ws r3 with
                            | String "," r4 =>
                                match members k' r4 with
                                | Some (ms, t) => Some ((name, v) :: ms, t) | None => None end
                            | String "}" r4 => Some ([(name, v)], r4)
                            | _ => None
                            end
                        end
                    | _ => None
                    end
                end
            | EmptyString => None
            end
        end in
      match skip_ws s with
      | EmptyString => None
      | String c r as s0 =>
          if Ascii.eqb c "[" then
            if Nat.eqb depth 0 then None else
            match skip_ws r with
            | String "]" r' => Some (JArr [], r')
            | _ => match elements fuel' r with Some (vs, t) => Some (JArr vs, t) | None => None end
            end
          else if Ascii.eqb c "{" then
            if Nat.eqb depth 0 then None else
            match skip_ws r with
            | String "}" r' => Some (JObj [], r')
            | _ => match members fuel' r with Some (ms, t) => Some (JObj ms, t) | None => None end
            end
          else if code c =? 34 then
            match scan_string (String.length s0) r with Some (t, r') => Some (JStr t, r') | None => None end
          else if Ascii.eqb c "t" then option_map (pair (JBool true)) (strip "true" s0)
          else if Ascii.eqb c "f" then option_map (pair (JBool false)) (strip "false" s0)
          else if Ascii.eqb c "n" then option_map (pair JNull) (strip "null" s0)
          else match scan_number s0 with Some (l, r') => Some (JNum l, r') | None => None end
      end
  end.

(** The value of a whole input: nothing but white space may follow it. *)
Definition parse_json (s : string) : option json :=
  match scan_value (S (String.length s)) max_depth s with
  | Some (v, r) => if String.eqb (skip_ws r) "" then Some v else None
  | None => None
  end.

(** ** Conversions *)
Definition json_syntax_error : error := ErrNew "json.SyntaxError".
Definition json_type_error : error := ErrNew "json.UnmarshalTypeError".

(** [strconv.ParseInt(lit, 10, 64)] of a number literal. *)
Fixpoint digits_value (acc : Z) (s : string) : option Z :=
  match s with
  | EmptyString => Some acc
  | String c s' => if is_digit c then digits_value (acc * 10 + (code c - 48)) s' else None
  end.
Definition parse_int64 (lit : string) : option Z :=
  let '(neg, ds) := match lit with String "-" t => (true, t) | _ => (false, lit) end in
  match digits_value 0 ds with
  | Some v => let z := if neg : bool then - v else v in
              if String.eqb ds "" then None else if in_int64 z then Some z else None
  | None => None
  end.

(** [null] leaves the target as it was. *)
Definition dec_string (old : string) (v : json) : result string :=
  match v with JNull => Ok old | JStr s => Ok s | _ => Err json_type_error end.
Definition dec_bool (old : bool) (v : json) : result bool :=
  match v with JNull => Ok old | JBool b => Ok b | _ => Err json_type_error end.
Definition dec_int (old : Z) (v : json) : result Z :=
  match v with
  | JNull => Ok old
  | JNum l => match parse_int64 l with Some z => Ok z | None => Err json_type_error end
  | _ => Err json_type_error
  end.
Definition dec_int_ptr (old : option Z) (v : json) : result (option Z) :=
  match v with JNull => Ok None | _ => Some <$> dec_int 0 v end.

(** A slice of strings; an element that is [null] keeps what the slice held. *)
Fixpoint dec_strings (old : list string) (l : list json) : result (list string) :=
  match l with
  | [] => Ok []
  | v :: l' => s ← dec_string (default "" (head old)) v;
               ss ← dec_strings (tail old) l'; Ok (s :: ss)
  end.
Definition dec_string_list (old : list string) (v : json) : result (list string) :=
  match v with JNull => Ok [] | JArr l => dec_strings old l | _ => Err json_type_error end.

(** A [map[string][]string]; a repeated key keeps its last value. *)
Definition dec_string_list_map (v : json) : result (gmap string (list string)) :=
  match v with
  | JNull => Ok ∅
  | JObj ms =>
      foldl (fun acc '(k, x) => m ← acc; l ← dec_string_list [] x; Ok (<[k := l]> m)) (Ok ∅) ms
  | _ => Err json_type_error
  end.

(** Field names match exactly or up to case folding (ASCII letters, U+017F
    LONG S and U+212A KELVIN SIGN). *)
Fixpoint fold_name_fuel (fuel : nat) (s : string) : string :=
  match fuel, s with
  | S f, String a (String b (String c r)) =>
      if (code a =? 226) && (code b =? 132) && (code c =? 170) then String "k" (fold_name_fuel f r)
      else if (code a =? 197) && (code b =? 191) then String "s" (fold_name_fuel f (String c r))
      else String (lower_byte a) (fold_name_fuel f (String b (String c r)))
  | S f, String a (String b EmptyString) =>
      if (code a =? 197) && (code b =? 191) then "s" else to_lower s
  | _, _ => to_lower s
  end.
Definition fold_name (s : string) : string := fold_name_fuel (String.length s) s.
Definition field_is (name key : string) : bool :=
  String.eqb key name || String.eqb (fold_name key) (fold_name name).

(** An object decoded into a struct: members in order, each into the field it
    names; [null] leaves the struct unchanged; anything else is a type error. *)
Definition dec_struct {S} (field : S -> string -> json -> result S) (zero : S) (v : json)
  : result S :=
  match v with
  | JNull => Ok zero
  | JObj ms => foldl (fun acc '(k, x) => s ← acc; field s k x) (Ok zero) ms
  | _ => Err json_type_error
  end.

(** [json.Unmarshal] into a type with the given conversion. *)
Definition unmarshal {A} (dec : json -> result A) (data : string) : result A :=
  match parse_json data with None => Err json_syntax_error | Some v => dec v end.

(** [map[string]any]: object members become map entries, the last one of a
    name winning; numbers must be in the range of [float64]. *)
Fixpoint pow10 (n : nat) : Z := match n with O => 1 | S n' => 10 * pow10 n' end.

(** The literal as [m * 10^e]. *)
Definition num_parts (lit : string) : Z * Z :=
  let lit := match lit with String "-" t => t | _ => lit end in
  let '(ip, r) := span_digits lit in
  let '(fp, r2) := match r with String "." t => span_digits t | _ => ("", r) end in
  let m := default 0 (digits_value 0 (ip +:+ fp)) in
  let e := match r2 with
           | String _ (String "-" t) => - default 0 (digits_value 0 t)
           | String _ (String "+" t) => default 0 (digits_value 0 t)
           | String _ t => default 0 (digits_value 0 t)
           | EmptyString => 0 end in
  (m, e - slen fp).

(** The literal rounds to a finite [float64]: it is below [2^1024 - 2^970]. *)
Definition float64_finite (lit : string) : bool :=
  let '(m, e) := num_parts lit in
  let bound := 2 ^ 1024 - 2 ^ 970 in
  if m =? 0 then true
  else if 310 <? e then false
  else if 0 <=? e then m * 10 ^ e <? bound
  else m <? bound * 10 ^ (- e).

Fixpoint any_ok (v : json) : bool :=
  match v with
  | JNum l => float64_finite l
  | JArr l => forallb any_ok l
  | JObj ms => forallb (fun '(_, x) => any_ok x) ms
  | _ => true
  end.

Definition members_map (ms : list (string * json)) : gmap string json :=
  foldl (fun m '(k, x) => <[k := x]> m) ∅ ms.

(** The value with every object's members in one canonical order. *)
Fixpoint canon (v : json) : json :=
  match v with
  | JArr l => JArr (map canon l)
  | JObj ms => JObj (map_to_list (members_map (map (fun '(k, x) => (k, canon x)) ms)))
  | _ => v
  end.

Definition dec_any_map (v : json) : result (gmap string json) :=
  match v with
  | JNull => Ok ∅
  | JObj ms => if any_ok v then Ok (members_map (map (fun '(k, x) => (k, canon x)) ms))
               else Err json_type_error
  | _ => Err json_type_error
  end.

(** ** Examples *)
Example parse_object :
  parse_json (dq " { 'max' : 10 , 'l':[1,-2.5e3,null,true,'a\n'] } ") =
  Some (JObj [("max", JNum "10");
              ("l", JArr [JNum "1"; JNum "-2.5e3"; JNull; JBool true; JStr (String "a" (String (chr 10) ""))])]).
Proof. vm_compute. reflexivity. Qed.

Example parse_trailing : parse_json "1 2" = None.
Proof. vm_compute. reflexivity. Qed.
Example parse_leading_zero : parse_json "01" = None.
Proof. vm_compute. reflexivity. Qed.
Example parse_empty : parse_json " " = None.
Proof. vm_compute. reflexivity. Qed.
Example parse_surrogates : parse_json (dq "'\ud83d\ude00\ud800'") =
  Some (JStr (encode_rune 128512 +:+ encode_rune rune_error)).
Proof. vm_compute. reflexivity. Qed.
Example fold_kelvin : field_is "max_rows" "MAX_ROWS" = true.
Proof. reflexivity. Qed.
Example huge_number : float64_finite "1e309" = false /\ float64_finite "1.7976931348623157e308" = true.
Proof. vm_compute. split; reflexivity. Qed.

(** ** Lemmas *)
Lemma dec_string_list_null old : dec_string_list old JNull = Ok [].
Proof. reflexivity. Qed.

Lemma dec_strings_length old l ss : dec_strings old l = Ok ss -> length ss = length l.
Proof.
  revert old ss. induction l as [|v l IH]; intros old ss; simpl; [by intros [= <-]|].
  intros (s & Hs & (ss' & Hss & [= <-])%bind_Ok)%bind_Ok. simpl. by rewrite (IH _ _ Hss).
Qed.

Lemma parse_int64_range lit z : parse_int64 lit = Some z -> int64_min <= z <= int64_max.
Proof.
  unfold parse_int64, in_int64. intros H. cases_in H; bools; lia.
Qed.

Lemma dec_int_range old v z :
  int64_min <= old <= int64_max -> dec_int old v = Ok z -> int64_min <= z <= int64_max.
Proof.
  intros Ho H. unfold dec_int in H. cases_in H; [done|]. by eapply parse_int64_range.
Qed.
