(* ===== verification/GoJsonOut.v ===== *)
(** [json.Marshal] of a JSON value, with the escapes of its default encoder, and
    the proof that the decoder of [GoJson] reads it back.  Members of an object
    are written in the order they have; [sort_members] is the order
    [json.Marshal] gives a map. *)
From S2P Require Import Prelude GoStrings GoJson.
From Stdlib Require Import Ascii.
Local Open Scope string_scope.
Local Open Scope Z_scope.
Local Open Scope list_scope.

(** * The encoder *)
Definition quote : string := String (chr 34) "".
Definition backslash : string := String (chr 92) "".

(** A byte below 128 inside a string; the HTML characters are escaped too. *)
Definition esc_byte (c : ascii) : string :=
  let z := code c in
  if (z =? 34) || (z =? 92) then backslash +:+ String c ""
  else if z =? 8 then backslash +:+ "b"
  else if z =? 12 then backslash +:+ "f"
  else if z =? 10 then backslash +:+ "n"
  else if z =? 13 then backslash +:+ "r"
  else if z =? 9 then backslash +:+ "t"
  else if (z <? 32) || (z =? 60) || (z =? 62) || (z =? 38) then
    backslash +:+ "u00" +:+ String (hex_digit (z / 16)) (String (hex_digit (z mod 16)) "")
  else String c "".

(** Invalid UTF-8 becomes U+FFFD; U+2028 and U+2029 are escaped. *)
Fixpoint esc_string (fuel : nat) (s : string) : string :=
  match fuel, s with
  | S f, String c s' =>
      if code c <? 128 then esc_byte c +:+ esc_string f s'
      else
        let '(r, n) := decode_rune s in
        let n := Nat.max n 1 in
        if (r =? rune_error) && Nat.eqb n 1 then backslash +:+ "ufffd" +:+ esc_string f s'
        else if (r =? 8232) || (r =? 8233) then
          backslash +:+ "u202" +:+ String (hex_digit (r mod 16)) "" +:+ esc_string f (sdrop n s)
        else stake n s +:+ esc_string f (sdrop n s)
  | _, _ => ""
  end.
Definition enc_string (s : string) : string := quote +:+ esc_string (String.length s) s +:+ quote.

Fixpoint json_encode (v : json) : string :=
  match v with
  | JNull => "null"
  | JBool true => "true"
  | JBool false => "false"
  | JNum lit => lit
  | JStr s => enc_string s
  | JArr l => "[" +:+ join "," (map json_encode l) +:+ "]"
  | JObj ms => "{" +:+ join "," (map (fun '(k, x) => enc_string k +:+ ":" +:+ json_encode x) ms) +:+ "}"
  end.

(** ** Canonical order

    Members by name, in the order of their bytes; of members with one name the
    last is kept. *)
Definition string_le (a b : string) : bool :=
  match String.compare a b with Gt => false | _ => true end.
Fixpoint insert_member (k : string) (x : json) (ms : list (string * json)) : list (string * json) :=
  match ms with
  | [] => [(k, x)]
  | (k', x') :: ms' =>
      if String.eqb k k' then (k, x) :: ms'
      else if string_le k k' then (k, x) :: ms else (k', x') :: insert_member k x ms'
  end.
Definition sort_members (ms : list (string * json)) : list (string * json) :=
  foldl (fun acc '(k, x) => insert_member k x acc) [] ms.

(** * Reading back *)

(** What the round trip is proved for: strings that are valid UTF-8 (the encoder
    replaces what is not), unsigned integers, and the nesting the decoder
    allows. *)
Definition all_digits (s : string) : bool := forallb is_digit (String.list_ascii_of_string s).
Definition uint_lit (s : string) : bool :=
  match s with
  | EmptyString => false
  | String c EmptyString => is_digit c
  | String c s' => is_digit c && negb (code c =? 48) && all_digits s'
  end.
Fixpoint clean (v : json) : bool :=
  match v with
  | JNum l => uint_lit l
  | JStr s => utf8_text s
  | JArr l => forallb clean l
  | JObj ms => forallb (fun '(k, x) => utf8_text k && clean x) ms
  | _ => true
  end.
Fixpoint depth (v : json) : nat :=
  match v with
  | JArr l => S (list_max (map depth l))
  | JObj ms => S (list_max (map (fun '(_, x) => depth x) ms))
  | _ => O
  end.

Lemma esc_step c fuel rest : code c < 128 ->
  scan_string (S fuel) (esc_byte c +:+ rest) =
  match scan_string fuel rest with Some (t, r) => Some (String c t, r) | None => None end.
Proof.
  intros H. assert ((code c <? 128) = true) as Hb by lia. clear H. revert Hb.
  destruct c as [[] [] [] [] [] [] [] []]; intros Hb; first [discriminate Hb | reflexivity].
Qed.

(** One longer rune, as it is written. *)
Definition rune_out (r : Z) (n : nat) (s : string) : string :=
  if (r =? 8232) || (r =? 8233) then backslash +:+ "u202" +:+ String (hex_digit (r mod 16)) "" else stake n s.
Lemma esc_long fuel c s r n : 128 <= code c -> long_rune (String c s) r n ->
  esc_string (S fuel) (String c s) = (rune_out r n (String c s) +:+ esc_string fuel (sdrop n (String c s)))%string.
Proof.
  intros Hc (Hd & Hn & _). cbn [esc_string]. rewrite (proj2 (Z.ltb_ge _ _) Hc), Hd. replace (Nat.max n 1) with n by lia.
  assert (Nat.eqb n 1 = false) as -> by (apply Nat.eqb_neq; lia). rewrite andb_false_r. unfold rune_out.
  destruct (_ || _); [|done]. by rewrite !sapp_assoc.
Qed.
Lemma scan_long fuel s r n rest : long_rune s r n ->
  scan_string (S fuel) (rune_out r n s +:+ rest) =
  match scan_string fuel rest with Some (t, r') => Some (stake n s +:+ t, r') | None => None end.
Proof.
  intros (Hd & Hn & Hr & He & Hb & Hx). unfold rune_out. destruct ((r =? 8232) || (r =? 8233)) eqn:E.
  - rewrite <- He. assert (r = 8232 \/ r = 8233) as [-> | ->] by (bools; destruct E; bools; auto); reflexivity.
  - destruct s as [|c s]; [cbn in Hd; injection Hd as _ <-; lia|]. destruct n as [|n]; [lia|].
    specialize (Hx rest). cbn [stake] in *. cbn [String.append] in *. cbn [scan_string].
    assert (128 <= code c) as Hc.
    { destruct (Z.lt_ge_cases (code c) 128) as [Hlt|]; [|done]. specialize (Hb c Hlt). cbn in Hb.
      by rewrite Ascii.eqb_refl in Hb. }
    assert (code c =? 34 = false) as -> by (apply Z.eqb_neq; lia). rewrite (proj2 (Z.ltb_ge (code c) 32)) by lia.
    assert (code c =? 92 = false) as -> by (apply Z.eqb_neq; lia). rewrite (proj2 (Z.ltb_ge (code c) 128)) by lia.
    rewrite Hx, He. cbn [sdrop].
    assert (sdrop n (stake n s +:+ rest) = rest) as ->; [|done].
    assert (String.length (stake n s) = n) as Hl.
    { assert (S n <= String.length (String c s))%nat as Hw
        by (pose proof (decode_rune_width c s) as Hw; rewrite Hd in Hw; cbn [snd] in Hw; lia).
      rewrite length_stake. cbn in Hw. lia. }
    rewrite <- Hl at 1. apply sdrop_length_app.
Qed.

Lemma scan_string_enc s : utf8_text s = true -> forall fuel fuel' r,
  (String.length s <= fuel)%nat -> (String.length s < fuel')%nat ->
  scan_string fuel' (esc_string fuel s +:+ quote +:+ r) = Some (s, r).
Proof.
  revert s. refine (utf8_ind _ _ _ _).
  - intros fuel fuel' r _ Hf'. destruct fuel' as [|fuel']; [lia|]. by destruct fuel.
  - intros c s Hc _ IH fuel fuel' r Hf Hf'. destruct fuel as [|fuel]; [cbn in Hf; lia|]. destruct fuel' as [|fuel']; [lia|].
    cbn [esc_string]. rewrite (proj2 (Z.ltb_lt _ _) Hc), sapp_assoc, esc_step by lia. cbn in Hf, Hf'.
    rewrite IH by lia. done.
  - intros c s r n Hc Hl _ IH fuel fuel' rest Hf Hf'. destruct fuel as [|fuel]; [cbn in Hf; lia|].
    destruct fuel' as [|fuel']; [lia|]. rewrite (esc_long fuel c s r n Hc Hl), sapp_assoc, (scan_long fuel' _ r n _ Hl).
    assert (String.length (sdrop n (String c s)) < String.length (String c s))%nat as Hlt.
    { destruct Hl as (_ & Hn & _). rewrite length_sdrop. cbn [String.length]. lia. }
    rewrite IH by lia. by rewrite stake_sdrop.
Qed.

(** ** Values *)

(** The loops of the scanner over elements and members, for any scanner of a
    value. *)
Section Loops.
  Context (sv : string -> option (json * string)).
Fixpoint scan_elements (k : nat) (s : string) : option (list json * string) :=
  match k with
  | O => None
  | S k' =>
      match sv s with
      | None => None
      | Some (v, r) =>
          match skip_ws r with
          | String "," r' =>
              match scan_elements k' r' with Some (vs, t) => Some (v :: vs, t) | None => None end
          | String "]" r' => Some ([v], r')
          | _ => None
          end
      end
  end.
Fixpoint scan_members (k : nat) (s : string) : option (list (string * json) * string) :=
  match k with
  | O => None
  | S k' =>
      match skip_ws s with
      | String q r =>
          if negb (code q =? 34) then None else
          match scan_string (String.length s) r with
          | None => None
          | Some (name, r1) =>
              match skip_ws r1 with
              | String ":" r2 =>
                  match sv r2 with
                  | None => None
                  | Some (v, r3) =>
                      match skip_ws r3 with
                      | String "," r4 =>
                          match scan_members k' r4 with
                          | Some (ms, t) => Some ((name, v) :: ms, t) | None => None end
                      | String "}" r4 => Some ([(name, v)], r4)
                      | _ => None
                      end
                  end
              | _ => None
              end
          end
      | EmptyString => None
      end
  end.
End Loops.

Lemma scan_value_arr n d r : (0 < d)%nat ->
  scan_value (S n) d (String "[" r) =
  match skip_ws r with
  | String "]" r' => Some (JArr [], r')
  | _ => match scan_elements (scan_value n (pred d)) n r with Some (vs, t) => Some (JArr vs, t) | None => None end
  end.
Proof. destruct d; [lia|reflexivity]. Qed.

Lemma scan_value_obj n d r : (0 < d)%nat ->
  scan_value (S n) d (String "{" r) =
  match skip_ws r with
  | String "}" r' => Some (JObj [], r')
  | _ => match scan_members (scan_value n (pred d)) n r with Some (ms, t) => Some (JObj ms, t) | None => None end
  end.
Proof. destruct d; [lia|reflexivity]. Qed.

(** What may follow a value. *)
Definition follows (r : string) : Prop :=
  r = "" \/ exists c t, r = String c t /\ (c = "," \/ c = "]" \/ c = "}")%char.

Lemma span_digits_all s r : all_digits s = true -> (r = "" \/ exists c t, r = String c t /\ is_digit c = false) ->
  span_digits (s +:+ r) = (s, r).
Proof.
  intros Hs Hr. induction s as [|c s IH]; cbn -[is_digit].
  - destruct Hr as [->|(c & t & -> & Hc)]; [done|]. cbn -[is_digit]. by rewrite Hc.
  - unfold all_digits in Hs. cbn -[is_digit] in Hs. apply andb_true_iff in Hs as [-> Hs]. by rewrite IH.
Qed.

Lemma follows_no_digit r : follows r -> r = "" \/ exists c t, r = String c t /\ is_digit c = false.
Proof.
  intros [->|(c & t & -> & Hc)]; [by left|]. right. exists c, t. split; [done|].
  destruct Hc as [->|[->| ->]]; reflexivity.
Qed.

Lemma scan_number_enc lit r : uint_lit lit = true -> follows r -> scan_number (lit +:+ r) = Some (lit, r).
Proof.
  intros Hl Hr. assert (all_digits lit = true) as Ha.
  { destruct lit as [|c [|d s]]; [done| |]; unfold all_digits; cbn -[is_digit] in *; [by rewrite Hl|].
    apply andb_true_iff in Hl as [Hl1 Hl2]. apply andb_true_iff in Hl1 as [-> _]. exact Hl2. }
  pose proof (span_digits_all lit r Ha (follows_no_digit r Hr)) as Hs.
  unfold scan_number. destruct lit as [|c s]; [done|].
  assert ((match String c s +:+ r with String "-" t => ("-", t) | _ => ("", String c s +:+ r) end)
    = ("", String c s +:+ r)) as ->.
  { cbn. assert (is_digit c = true) as Hd.
    { unfold all_digits in Ha. cbn -[is_digit] in Ha. by apply andb_true_iff in Ha as [? _]. }
    clear -Hd. destruct c as [[] [] [] [] [] [] [] []]; first [discriminate Hd | reflexivity]. }
  rewrite Hs.
  assert ((match String c s with "" => false | String "0" (String _ _) => false | _ => true end) = true) as ->.
  { destruct s as [|d s]; [by destruct c as [[] [] [] [] [] [] [] []]|]. cbn -[is_digit code all_digits] in Hl.
    apply andb_true_iff in Hl as [Hl _]. apply andb_true_iff in Hl as [_ Hl]. clear -Hl.
    destruct c as [[] [] [] [] [] [] [] []]; first [discriminate Hl | reflexivity]. }
  cbn [negb]. destruct Hr as [->|(d & t & -> & Hd)].
  - cbn. by rewrite sapp_nil_r.
  - destruct Hd as [->|[->| ->]]; cbn; by rewrite sapp_nil_r.
Qed.

(** An encoding does not begin with a character the scanner skips. *)
Lemma skip_ws_enc v r : clean v = true -> skip_ws (json_encode v +:+ r) = (json_encode v +:+ r).
Proof.
  destruct v as [|[]|lit|s|l|ms]; intros H; try reflexivity.
  destruct lit as [|c lit]; [done|].
  assert (is_ws c = false) as E; [|cbn -[is_ws]; by rewrite E].
  assert (is_digit c = true) as Hd.
  { cbn -[is_digit code] in H. destruct lit; [done|]. apply andb_true_iff in H as [H _].
    by apply andb_true_iff in H as [? _]. }
  clear -Hd. destruct c as [[] [] [] [] [] [] [] []]; first [discriminate Hd | reflexivity].
Qed.

Lemma enc_string_app s r : (enc_string s +:+ r) = String (chr 34) (esc_string (String.length s) s +:+ quote +:+ r).
Proof. unfold enc_string. rewrite !sapp_assoc. reflexivity. Qed.

Lemma esc_byte_pos c : (1 <= String.length (esc_byte c))%nat.
Proof. unfold esc_byte. repeat case_match; cbn; lia. Qed.
Lemma esc_string_length s : utf8_text s = true -> forall fuel, (String.length s <= fuel)%nat ->
  (String.length s <= String.length (esc_string fuel s))%nat.
Proof.
  revert s. refine (utf8_ind _ _ _ _).
  - intros fuel _. cbn. lia.
  - intros c s Hc _ IH fuel Hf. destruct fuel as [|fuel]; [cbn in Hf; lia|]. cbn [esc_string].
    rewrite (proj2 (Z.ltb_lt _ _) Hc), slength_app. pose proof (esc_byte_pos c). specialize (IH fuel). cbn in Hf |- *. lia.
  - intros c s r n Hc Hl _ IH fuel Hf. destruct fuel as [|fuel]; [cbn in Hf; lia|].
    rewrite (esc_long fuel c s r n Hc Hl), slength_app. pose proof Hl as (Hd & Hn & _).
    specialize (IH fuel). rewrite length_sdrop in IH. cbn [String.length] in *.
    assert (n <= String.length (rune_out r n (String c s)))%nat; [|lia].
    unfold rune_out. destruct (_ || _); [cbn; lia|]. rewrite length_stake.
    pose proof (decode_rune_width c s) as Hw. rewrite Hd in Hw. cbn [snd String.length] in *. lia.
Qed.

(** The length of an encoding bounds the loops of the scanner. *)
Lemma json_encode_pos v : clean v = true -> (0 < String.length (json_encode v))%nat.
Proof.
  destruct v as [|[]|lit|s|l|ms]; cbn; intros H; try lia. all: try (destruct lit; [done|cbn; lia]).
Qed.

Lemma join_length (l : list string) : (length l <= S (String.length (join "," l)))%nat.
Proof.
  induction l as [|s l IH]; [cbn; lia|]. destruct l as [|s' l]; [cbn; lia|].
  rewrite join_cons by done. rewrite !slength_app. cbn [String.length length] in *. lia.
Qed.

Lemma join_member_length s (l : list string) : s ∈ l -> (String.length s <= String.length (join "," l))%nat.
Proof.
  induction 1 as [s l|s s' l Hs IH].
  - destruct l as [|s' l]; [done|]. rewrite join_cons by done. rewrite slength_app. lia.
  - destruct l as [|s'' l]; [by apply elem_of_nil in Hs|]. rewrite join_cons by done. rewrite !slength_app. lia.
Qed.

Lemma skip_ws_other c t : is_ws c = false -> skip_ws (String c t) = String c t.
Proof. intros H. cbn -[is_ws]. by rewrite H. Qed.

(** ** The round trip *)
Section RoundTrip.
  Context (n d : nat) (IH : forall v r, (String.length (json_encode v) < n)%nat -> clean v = true ->
    (depth v <= d)%nat -> follows r -> scan_value n d (json_encode v +:+ r) = Some (v, r)).

Lemma scan_elements_enc l k r :
  l <> [] -> (length l <= k)%nat -> forallb clean l = true ->
  Forall (fun v => (String.length (json_encode v) < n)%nat /\ (depth v <= d)%nat) l ->
  scan_elements (scan_value n d) k (join "," (map json_encode l) +:+ "]" +:+ r) = Some (l, r).
Proof.
  intros Hne Hk Hc Hl. revert k Hne Hk Hc. induction Hl as [|v l [Hn Hd] Hl IHl]; intros k Hne Hk Hc; [done|].
  destruct k as [|k]; [cbn in Hk; lia|]. cbn in Hc, Hk. apply andb_true_iff in Hc as [Hcv Hcl].
  destruct l as [|v' l].
  - cbn [map join scan_elements]. rewrite IH; [reflexivity|done..|]. right. exists "]"%char, r. auto.
  - change (map json_encode (v :: v' :: l)) with (json_encode v :: map json_encode (v' :: l)).
    rewrite join_cons by done. rewrite !sapp_assoc. set (t := _ +:+ "]" +:+ r).
    specialize (IHl k ltac:(done) ltac:(lia) Hcl). fold t in IHl.
    cbn [scan_elements]. rewrite IH; [|done..|].
    + change (skip_ws ("," +:+ t)) with (String "," t). cbv iota beta. by rewrite IHl.
    + right. exists ","%char, t. split; [reflexivity|auto].
Qed.

Definition enc_member (p : string * json) : string := enc_string p.1 +:+ ":" +:+ json_encode p.2.

Lemma scan_members_enc ms k r :
  ms <> [] -> (length ms <= k)%nat -> forallb (fun '(k, x) => utf8_text k && clean x) ms = true ->
  Forall (fun p => (String.length (json_encode p.2) < n)%nat /\ (depth p.2 <= d)%nat) ms ->
  scan_members (scan_value n d) k (join "," (map enc_member ms) +:+ "}" +:+ r) = Some (ms, r).
Proof.
  intros Hne Hk Hc Hl. revert k Hne Hk Hc. induction Hl as [|[name v] ms [Hn Hd] Hl IHl]; intros k Hne Hk Hc; [done|].
  destruct k as [|k]; [cbn in Hk; lia|]. cbn in Hc, Hk, Hn, Hd. apply andb_true_iff in Hc as [Hcv Hcl].
  apply andb_true_iff in Hcv as [Ha Hcv].
  assert (forall t, (enc_member (name, v) +:+ t) =
    String (chr 34) (esc_string (String.length name) name +:+ quote +:+ ":" +:+ json_encode v +:+ t)) as Em.
  { intros t. unfold enc_member. cbn [fst snd]. by rewrite !sapp_assoc, enc_string_app. }
  assert (forall t, scan_string (String.length (enc_member (name, v) +:+ t))
    (esc_string (String.length name) name +:+ quote +:+ ":" +:+ json_encode v +:+ t) = Some (name, ":" +:+ json_encode v +:+ t)) as Hs.
  { intros t. apply scan_string_enc; [done|done|]. rewrite Em. cbn. rewrite slength_app.
    pose proof (esc_string_length name Ha _ (le_n _)). lia. }
  assert (forall t, follows t -> scan_value n d (json_encode v +:+ t) = Some (v, t) ->
    scan_members (scan_value n d) (S k) (enc_member (name, v) +:+ t) =
    match skip_ws t with
    | String "," r4 => match scan_members (scan_value n d) k r4 with
                       | Some (ms, t) => Some ((name, v) :: ms, t) | None => None end
    | String "}" r4 => Some ([(name, v)], r4)
    | _ => None end) as Hstep.
  { intros t Ht Hv. cbn [scan_members]. specialize (Hs t). rewrite Em in Hs |- *.
    rewrite skip_ws_other by done. cbv iota beta. change (negb (code (chr 34) =? 34)) with false. cbv iota.
    rewrite Hs. change (":" +:+ json_encode v +:+ t) with (String ":" (json_encode v +:+ t)).
    rewrite skip_ws_other by done. cbv iota beta. by rewrite Hv. }
  destruct ms as [|p ms].
  - cbn [map join]. assert (follows ("}" +:+ r)) as Hf by (right; exists "}"%char, r; auto).
    rewrite (Hstep _ Hf); [reflexivity|]. by apply IH.
  - change (map enc_member ((name, v) :: p :: ms)) with (enc_member (name, v) :: map enc_member (p :: ms)).
    rewrite join_cons by done. rewrite !sapp_assoc. set (t := _ +:+ "}" +:+ r).
    specialize (IHl k ltac:(done) ltac:(lia) Hcl). fold t in IHl.
    assert (follows ("," +:+ t)) as Hf by (right; exists ","%char, t; split; [reflexivity|auto]).
    rewrite (Hstep _ Hf) by (by apply IH).
    change (skip_ws ("," +:+ t)) with (String "," t). cbv iota beta. by rewrite IHl.
Qed.
End RoundTrip.

(** The first character of an encoding opens no other kind of value. *)
Lemma json_encode_head v : clean v = true ->
  exists c t, json_encode v = String c t /\ is_ws c = false /\ (c =? "]")%char = false.
Proof.
  destruct v as [|[]|lit|s|l|ms]; intros H; try by (eexists _, _; split; [reflexivity|done]).
  destruct lit as [|c lit]; [done|]. exists c, lit. split; [done|].
  assert (is_digit c = true) as Hd.
  { cbn -[is_digit code] in H. destruct lit; [done|]. apply andb_true_iff in H as [H _].
    by apply andb_true_iff in H as [? _]. }
  clear -Hd. destruct c as [[] [] [] [] [] [] [] []]; first [discriminate Hd | done].
Qed.

Lemma match_close {A} c t (f : string -> A) a : (c =? "]")%char = false ->
  match String c t with String "]" r => f r | _ => a end = a.
Proof. destruct c as [[] [] [] [] [] [] [] []]; intros H; first [discriminate H | done]. Qed.

Lemma list_max_elem (l : list nat) m x : x ∈ l -> (list_max l <= m)%nat -> (x <= m)%nat.
Proof. intros Hx Hm. apply list_max_le in Hm. rewrite List.Forall_forall in Hm. by apply Hm, list_elem_of_In. Qed.

Lemma scan_value_str n d s :
  scan_value (S n) d (String (chr 34) s) =
  match scan_string (S (String.length s)) s with Some (t, r') => Some (JStr t, r') | None => None end.
Proof. reflexivity. Qed.

Lemma scan_value_num n d lit r : uint_lit lit = true -> follows r ->
  scan_value (S n) d (lit +:+ r) = Some (JNum lit, r).
Proof.
  intros Hl Hr. pose proof (scan_number_enc lit r Hl Hr) as Hs.
  destruct lit as [|c lit]; [done|].
  assert (is_digit c = true) as Hd.
  { cbn -[is_digit code] in Hl. destruct lit; [done|]. apply andb_true_iff in Hl as [H _].
    by apply andb_true_iff in H as [? _]. }
  rewrite <- (f_equal (fun o : option (string * string) =>
    match o with Some (l, r') => Some (JNum l, r') | None => None end) Hs).
  clear -Hd. destruct c as [[] [] [] [] [] [] [] []]; first [discriminate Hd | reflexivity].
Qed.

Lemma json_encode_obj ms :
  json_encode (JObj ms) = String "{" (join "," (map enc_member ms) +:+ "}").
Proof. cbn [json_encode]. do 3 f_equal. apply map_ext. by intros []. Qed.

Lemma enc_member_length p : (String.length (json_encode p.2) <= String.length (enc_member p))%nat.
Proof. unfold enc_member. rewrite !slength_app. lia. Qed.

Lemma strip_app p r : strip p (p +:+ r) = Some r.
Proof. unfold strip. by rewrite has_prefix_app, sdrop_length_app. Qed.

(** The three literals. *)
Lemma scan_value_word n d r :
  (scan_value (S n) d ("null" +:+ r) = Some (JNull, r)) /\
  (scan_value (S n) d ("true" +:+ r) = Some (JBool true, r)) /\
  (scan_value (S n) d ("false" +:+ r) = Some (JBool false, r)).
Proof.
  repeat split;
    match goal with |- scan_value _ _ (?w +:+ _) = _ =>
      transitivity (option_map (pair (match w with "null" => JNull | "true" => JBool true | _ => JBool false end)) (strip w (w +:+ r)));
      [reflexivity|by rewrite strip_app]
    end.
Qed.

Lemma scan_value_enc n v r d :
  (String.length (json_encode v) < n)%nat -> clean v = true -> (depth v <= d)%nat -> follows r ->
  scan_value n d (json_encode v +:+ r) = Some (v, r).
Proof.
  revert v r d. induction n as [|n IH]; intros v r d Hn Hc Hd Hr; [lia|].
  destruct v as [|[]|lit|s|l|ms].
  1-3: apply scan_value_word.
  - exact (scan_value_num n d lit r Hc Hr).
  - cbn [json_encode] in *. rewrite enc_string_app.
    rewrite scan_value_str, scan_string_enc; [done|done|done|]. rewrite slength_app.
    pose proof (esc_string_length s Hc _ (le_n _)). lia.
  - cbn [depth] in Hd. destruct d as [|d]; [lia|].
    change (json_encode (JArr l)) with (String "[" (join "," (map json_encode l) +:+ "]")) in *.
    change (String "[" (join "," (map json_encode l) +:+ "]") +:+ r)
      with (String "[" ((join "," (map json_encode l) +:+ "]") +:+ r)).
    rewrite scan_value_arr, sapp_assoc by lia. cbn [String.length] in Hn. rewrite slength_app in Hn. cbn in Hn.
    destruct l as [|v l]; [reflexivity|].
    assert (exists c t, (join "," (map json_encode (v :: l)) +:+ "]" +:+ r) = String c t /\ is_ws c = false /\
      (c =? "]")%char = false) as (c & t & E & Hw & Hb).
    { apply andb_true_iff in Hc as [Hc _]. destruct (json_encode_head v Hc) as (c & t & E & Hw & Hb).
      destruct l as [|v' l]; cbn [map]; [|rewrite join_cons by done]; cbn [join]; rewrite E, ?sapp_assoc;
        eexists c, _; split; [reflexivity|done|reflexivity|done]. }
    rewrite E, skip_ws_other by done. 
    etransitivity; [exact (match_close c t (fun r' => Some (JArr [], r')) _ Hb)|]. rewrite <- E. cbn [pred].
    rewrite scan_elements_enc; [done|..|done| |exact Hc|].
    + intros v' r' H1 H2 H3 H4. by apply IH.
    + pose proof (join_length (map json_encode (v :: l))). rewrite length_map in H. lia.
    + apply Forall_forall. intros v' Hv'. split.
      * pose proof (join_member_length (json_encode v') (map json_encode (v :: l))) as Hj.
        specialize (Hj ltac:(by apply list_elem_of_fmap_2)). lia.
      * eapply list_max_elem; [|apply le_S_n in Hd; exact Hd]. by apply list_elem_of_fmap_2.
  - cbn [depth] in Hd. destruct d as [|d]; [lia|]. rewrite json_encode_obj in Hn |- *.
    change (String "{" ?t +:+ r) with (String "{" (t +:+ r)).
    rewrite scan_value_obj, sapp_assoc by lia. cbn [String.length] in Hn. rewrite slength_app in Hn. cbn in Hn.
    destruct ms as [|[name v] ms]; [reflexivity|].
    assert (exists t, (join "," (map enc_member ((name, v) :: ms)) +:+ "}" +:+ r) = String (chr 34) t) as (t & E).
    { destruct ms as [|p ms]; cbn [map]; [|rewrite join_cons by done]; cbn [join]; unfold enc_member at 1;
        cbn [fst snd]; rewrite ?sapp_assoc, enc_string_app; by eexists. }
    rewrite E, skip_ws_other by done. cbv iota beta. change (match String (chr 34) t with String "}" r' =>
      Some (JObj [], r') | _ => ?e end) with e. rewrite <- E. cbn [pred].
    rewrite scan_members_enc; [done|..|done| |exact Hc|].
    + intros v' r' H1 H2 H3 H4. by apply IH.
    + pose proof (join_length (map enc_member ((name, v) :: ms))). rewrite length_map in H. lia.
    + apply Forall_forall. intros p Hp. split.
      * pose proof (join_member_length (enc_member p) (map enc_member ((name, v) :: ms))) as Hj.
        specialize (Hj ltac:(by apply list_elem_of_fmap_2)). pose proof (enc_member_length p). lia.
      * eapply list_max_elem; [|apply le_S_n in Hd; exact Hd].
        apply (list_elem_of_fmap_2' (fun '(_, x) => depth x)) with (x := p); [done|by destruct p].
Qed.

(** ** The order of names *)
Lemma string_le_cons a s b t : string_le (String a s) (String b t) = true <->
  code a < code b \/ (a = b /\ string_le s t = true).
Proof.
  unfold string_le. cbn [String.compare]. unfold Ascii.compare.
  assert (forall c d, code c = code d -> c = d) as Hinj by exact code_inj. unfold code in *.
  destruct (N.compare_spec (N_of_ascii a) (N_of_ascii b)) as [E|E|E].
  - assert (a = b) as -> by (apply Hinj; by rewrite E). split; [by auto|]. intros [H|[_ H]]; [lia|done].
  - split; [intros _; left; lia|done].
  - split; [done|]. intros [H|[-> _]]; lia.
Qed.

#[export] Instance string_le_trans : Transitive (fun a b => string_le a b = true).
Proof.
  intros s. induction s as [|a s IH]; intros t u Hst Htu; [by destruct u|].
  destruct t as [|b t]; [done|]. destruct u as [|c u]; [done|]. rewrite string_le_cons in *.
  destruct Hst as [H|[-> H]], Htu as [H'|[-> H']]; [left; lia|by left|by left|right]. split; [done|]. by eapply IH.
Qed.

#[export] Instance string_le_total : Total (fun a b => string_le a b = true).
Proof.
  intros s. induction s as [|a s IH]; intros t; [left; by destruct t|]. destruct t as [|b t]; [by right|].
  rewrite !string_le_cons. destruct (Z.lt_trichotomy (code a) (code b)) as [?|[H|?]]; [by left; left| |by right; left].
  apply code_inj in H as ->. destruct (IH t); [left|right]; by right.
Qed.

Definition str_le (a b : string) : Prop := string_le a b = true.
#[export] Instance str_le_trans : Transitive str_le := string_le_trans.
#[export] Instance str_le_total : Total str_le := string_le_total.
#[export] Instance str_le_dec : RelDecision str_le := fun a b => decide (string_le a b = true).

(** What the decoder reads from the encoding of a value is that value: for
    every value whose strings are valid UTF-8 and whose numbers are unsigned
    integers, nested no deeper than the decoder allows, whatever its
    characters (quotes, backslashes, control and HTML characters are escaped
    and unescaped) and whatever its order and repetition of members. *)
Theorem json_round_trip v : clean v = true -> (depth v <= max_depth)%nat ->
  parse_json (json_encode v) = Some v.
Proof.
  intros Hc Hd. unfold parse_json.
  pose proof (scan_value_enc (S (String.length (json_encode v))) v "" max_depth (le_n _) Hc Hd (or_introl eq_refl)) as H.
  rewrite sapp_nil_r in H. by rewrite H.
Qed.

Example json_round_trip_witness :
  let v := JObj [("b", JArr [JNum "10"; JStr (String (chr 34) (String (chr 10) "<x>")); JNull]); ("a", JObj []); ("b", JBool true)] in
  parse_json (json_encode v) = Some v.
Proof.
  intros v. apply (json_round_trip v); [reflexivity|]. vm_compute. apply le_n_S, le_n_S, Nat.le_0_l.
Defined.

Example encode_members :
  json_encode (JObj (sort_members [("time", JStr "t"); ("a", JNum "1"); ("time", JStr "<")])) =
  dq "{'a':1,'time':'\u003c'}".
Proof. reflexivity. Qed.

(** The encoder does not escape what UTF-8 allows and replaces what it does not. *)
Example encode_utf8 :
  json_encode (JStr (String (chr 195) (String (chr 169) (String (chr 255) "")))) =
  (quote +:+ String (chr 195) (String (chr 169) "\ufffd") +:+ quote).
Proof. reflexivity. Qed.
