(* ===== verification/GoFloat.v ===== *)
(** [strconv.ParseFloat(s, 64)] of a JSON number: the nearest [float64], ties to
    even, and the order of two of them. *)
From S2P Require Import Prelude GoStrings GoJson GoJsonOut.
From Stdlib Require Import Ascii.
Local Open Scope string_scope.
Local Open Scope Z_scope.
Local Open Scope list_scope.

(** * Definitions *)

(** A finite [float64]: [f_man * 2 ^ f_exp]. *)
Record float64 := { f_man : Z; f_exp : Z }.

Definition f_ltb (a b : float64) : bool :=
  let e := Z.min (f_exp a) (f_exp b) in f_man a * 2 ^ (f_exp a - e) <? f_man b * 2 ^ (f_exp b - e).

Definition round_half_even (n d : Z) : Z :=
  let q := n / d in
  let r := n mod d in
  if 2 * r <? d then q else if d <? 2 * r then q + 1 else if Z.even q then q else q + 1.

(** [x * 2 ^ k <= y] for any [k]. *)
Definition scaled_leb (x k y : Z) : bool := if 0 <=? k then x * 2 ^ k <=? y else x <=? y * 2 ^ (- k).

(** The positive rational [num / den] with 53 bits, or fewer below the normal
    range. *)
Definition round_float (num den : Z) : float64 :=
  let k := Z.log2 num - Z.log2 den in
  let k := if scaled_leb den k num then k else k - 1 in
  let q := Z.max (k - 52) (-1074) in
  {| f_man := if 0 <=? q then round_half_even num (den * 2 ^ q) else round_half_even (num * 2 ^ (- q)) den;
     f_exp := q |}.

(** A literal; one that rounds to infinity is an error. The second case is below
    half of the least [float64]. *)
Definition parse_float (lit : string) : option float64 :=
  let '(m, e) := num_parts lit in
  let zero := {| f_man := 0; f_exp := 0 |} in
  if m =? 0 then Some zero
  else if Z.log2 m + 1 <=? 3 * (- e) - 1100 then Some zero
  else if float64_finite lit then
    let f := round_float (m * 10 ^ Z.max e 0) (10 ^ Z.max (- e) 0) in
    Some (match lit with String "-" _ => {| f_man := - f_man f; f_exp := f_exp f |} | _ => f end)
  else None.

Example parse_float_samples :
  option_map (fun f => (f_man f, f_exp f)) (parse_float "0.1") = Some (7205759403792794, -56) /\
  option_map (fun f => (f_man f, f_exp f)) (parse_float "-1.5e3") = Some (-6597069766656000, -42) /\
  option_map (fun f => (f_man f, f_exp f)) (parse_float "5e-324") = Some (1, -1074) /\
  option_map (fun f => (f_man f, f_exp f)) (parse_float "9007199254740993") = Some (4503599627370496, 1) /\
  parse_float "1e400" = None /\ parse_float "1e-999999999" = Some {| f_man := 0; f_exp := 0 |}.
Proof. vm_compute. repeat split; reflexivity. Qed.

(** * Lemmas *)

(** A [float64] that is the integer [n]. *)
Definition is_int (f : float64) (n : Z) : Prop := f_man f * 2 ^ Z.max (f_exp f) 0 = n * 2 ^ Z.max (- f_exp f) 0.

Lemma round_half_even_exact n d : 0 < d -> round_half_even (n * d) d = n.
Proof.
  intros Hd. unfold round_half_even. rewrite Z.div_mul, Z.mod_mul by lia. rewrite (proj2 (Z.ltb_lt _ _)) by lia. done.
Qed.

Lemma round_float_int n : 0 < n <= 2 ^ 53 -> is_int (round_float n 1) n.
Proof.
  intros Hn. unfold round_float. change (Z.log2 1) with 0. rewrite Z.sub_0_r.
  pose proof (Z.log2_spec n ltac:(lia)) as [Hl Hu]. pose proof (Z.log2_nonneg n) as Hp.
  assert (scaled_leb 1 (Z.log2 n) n = true) as ->.
  { unfold scaled_leb. rewrite (proj2 (Z.leb_le 0 _)), Z.mul_1_l by lia. by apply Z.leb_le. }
  assert (Z.log2 n <= 53) as Hk by (change 53 with (Z.log2 (2 ^ 53)); apply Z.log2_le_mono; lia).
  rewrite Z.max_l by lia. unfold is_int. cbn [f_man f_exp].
  destruct (Z.leb_spec 0 (Z.log2 n - 52)) as [Hq|Hq].
  - rewrite (Z.max_l _ 0), (Z.max_r _ 0), Z.mul_1_r, Z.mul_1_l by lia.
    assert (n = n / 2 ^ (Z.log2 n - 52) * 2 ^ (Z.log2 n - 52)) as E.
    { destruct (Z.eq_dec (Z.log2 n) 52) as [->|]; [by rewrite Z.div_1_r, Z.mul_1_r|].
      assert (Z.log2 n = 53) as E53 by lia. rewrite E53 in *. assert (n = 2 ^ 53) as -> by lia. reflexivity. }
    rewrite E at 1. rewrite round_half_even_exact by (apply Z.pow_pos_nonneg; lia). by rewrite <- E.
  - rewrite (Z.max_r _ 0), (Z.max_l _ 0), Z.mul_1_r by lia.
    etransitivity; [|by apply (round_half_even_exact _ 1)]. by rewrite Z.mul_1_r.
Qed.

Lemma is_int_opp f n : is_int f n -> is_int {| f_man := - f_man f; f_exp := f_exp f |} (- n).
Proof. unfold is_int. cbn. intros H. lia. Qed.

(** Integers are compared as integers. *)
Lemma is_int_ltb f g m n : is_int f m -> is_int g n -> f_ltb f g = (m <? n).
Proof.
  unfold is_int, f_ltb. intros Hf Hg. set (e := Z.min (f_exp f) (f_exp g)).
  assert (forall h k, f_man h * 2 ^ Z.max (f_exp h) 0 = k * 2 ^ Z.max (- f_exp h) 0 -> e <= f_exp h ->
    f_man h * 2 ^ (f_exp h - e) * 2 ^ Z.max e 0 = k * 2 ^ Z.max (- e) 0) as H.
  { intros h k Hh He. destruct (Z.leb_spec 0 (f_exp h)) as [Hp|Hp].
    - rewrite (Z.max_l (f_exp h)), (Z.max_r (- f_exp h)), Z.mul_1_r in Hh by lia. rewrite <- Hh.
      rewrite <- !Z.mul_assoc, <- !Z.pow_add_r by lia. do 2 f_equal. lia.
    - rewrite (Z.max_r (f_exp h)), (Z.max_l (- f_exp h)), Z.mul_1_r in Hh by lia. rewrite Hh.
      rewrite <- !Z.mul_assoc, <- !Z.pow_add_r by lia. do 2 f_equal. lia. }
  pose proof (H f m Hf ltac:(lia)) as H1. pose proof (H g n Hg ltac:(lia)) as H2.
  assert (0 < 2 ^ Z.max e 0) by (apply Z.pow_pos_nonneg; lia). assert (0 < 2 ^ Z.max (- e) 0) by (apply Z.pow_pos_nonneg; lia).
  apply eq_true_iff_eq. rewrite !Z.ltb_lt. rewrite (Z.mul_lt_mono_pos_r (2 ^ Z.max e 0)), H1, H2 by done.
  symmetry. by apply Z.mul_lt_mono_pos_r.
Qed.

(** The literal of an integer of at most 53 bits is that integer. *)
Lemma num_parts_uint lit : uint_lit lit = true -> num_parts lit = (default 0 (digits_value 0 lit), 0).
Proof.
  intros H. assert (all_digits lit = true) as Hd.
  { destruct lit as [|c [|d s]]; [done|by cbn in *; rewrite H|]. cbn [uint_lit] in H.
    apply andb_true_iff in H as [[H _]%andb_true_iff H2]. unfold all_digits in *. cbn in *. by rewrite H. }
  unfold num_parts.
  assert (match lit with String "-" t => t | _ => lit end = lit) as ->.
  { destruct lit as [|c s]; [done|]. unfold all_digits in Hd. cbn [String.list_ascii_of_string forallb] in Hd.
    apply andb_true_iff in Hd as [Hd _]. destruct c as [[] [] [] [] [] [] [] []]; try reflexivity; discriminate Hd. }
  pose proof (span_digits_all lit "" Hd (or_introl eq_refl)) as E. rewrite sapp_nil_r in E. rewrite E.
  by rewrite sapp_nil_r.
Qed.

Lemma parse_float_uint lit n : uint_lit lit = true -> digits_value 0 lit = Some n -> 0 <= n <= 2 ^ 53 ->
  exists f, parse_float lit = Some f /\ is_int f n.
Proof.
  intros Hu Hd Hn. unfold parse_float. rewrite num_parts_uint, Hd by done. change (default 0 (Some n)) with n.
  destruct (Z.eqb_spec n 0) as [->|Hz]; [by eexists|].
  pose proof (Z.log2_nonneg n). assert ((Z.log2 n + 1 <=? 3 * - 0 - 1100) = false) as -> by (apply Z.leb_gt; lia).
  assert (float64_finite lit = true) as ->.
  { unfold float64_finite. rewrite num_parts_uint, Hd by done. change (default 0 (Some n)) with n.
    destruct (n =? 0); [done|]. change (310 <? 0) with false. change (0 <=? 0) with true. cbv iota.
    rewrite Z.mul_1_r. apply Z.ltb_lt. apply Z.le_lt_trans with (2 ^ 53); [lia|]. by vm_compute. }
  change (10 ^ Z.max 0 0) with 1. change (10 ^ Z.max (- 0) 0) with 1. rewrite Z.mul_1_r.
  pose proof (round_float_int n ltac:(lia)) as Hf.
  eexists. split; [reflexivity|]. destruct lit as [|c s]; [done|].
  assert (is_digit c = true) as Hc by (destruct s; [done|]; cbn in Hu; by apply andb_true_iff in Hu as [[? _]%andb_true_iff _]).
  destruct c as [[] [] [] [] [] [] [] []]; try exact Hf; discriminate Hc.
Qed.

