(* ===== verification/GoNet.v ===== *)
(** [net.ParseIP], [net.ParseCIDR] and [IPNet.Contains]: the address tests of
    the network constraints.  An address is its 4 or 16 bytes. *)
From S2P Require Import Prelude GoStrings.
From stdpp Require Import pretty.
From Stdlib Require Import Ascii.
Local Open Scope char_scope.
Local Open Scope string_scope.
Local Open Scope Z_scope.
Local Open Scope list_scope.

Definition IP := list Z.

(** ** IPv4: four decimal fields without leading zeros *)
Fixpoint ipv4_fields (s : string) (cur : option Z) (pos : nat) : option (list Z) :=
  match s with
  | EmptyString =>
      match cur with Some v => if Nat.eqb pos 3 then Some [v] else None | None => None end
  | String c s' =>
      if (48 <=? code c) && (code c <=? 57) then
        match cur with
        | Some 0 => None
        | Some v => let v' := v * 10 + (code c - 48) in
                    if 255 <? v' then None else ipv4_fields s' (Some v') pos
        | None => ipv4_fields s' (Some (code c - 48)) pos
        end
      else if Ascii.eqb c "." then
        match cur with
        | Some v => if Nat.eqb pos 3 then None
                    else option_map (cons v) (ipv4_fields s' None (S pos))
        | None => None
        end
      else None
  end.
Definition parse_ipv4 (s : string) : option IP := ipv4_fields s None 0.

(** ** IPv6 *)
Fixpoint hex_group (digits : nat) (acc : Z) (s : string) : option (Z * nat * string) :=
  match s with
  | String c s' =>
      match from_hex_char c with
      | Some h => if (3 <? digits)%nat then None else hex_group (S digits) (acc * 16 + h) s'
      | None => Some (acc, digits, s)
      end
  | EmptyString => Some (acc, digits, s)
  end.

(** The loop of [parseIPv6]: [bs] the bytes so far, [ell] the place of the
    ellipsis in them; [None] on a syntax error. *)
Fixpoint ipv6_loop (fuel : nat) (bs : list Z) (ell : option nat) (s : string)
  : option (list Z * option nat) :=
  match fuel with
  | O => if String.eqb s "" then Some (bs, ell) else None
  | S fuel' =>
      match hex_group 0 0 s with
      | None | Some (_, O, _) => None
      | Some (acc, _, rest) =>
          match rest with
          | String "." _ =>
              if (match ell with None => negb (Nat.eqb (length bs) 12) | Some _ => false end)
                 || (12 <? length bs)%nat then None
              else match parse_ipv4 s with Some v4 => Some (bs ++ v4, ell) | None => None end
          | EmptyString => Some (bs ++ [acc / 256; acc mod 256], ell)
          | String ":" rest' =>
              let bs' := bs ++ [acc / 256; acc mod 256] in
              match rest' with
              | EmptyString => None
              | String ":" t =>
                  match ell with
                  | Some _ => None
                  | None => if String.eqb t "" then Some (bs', Some (length bs'))
                            else ipv6_loop fuel' bs' (Some (length bs')) t
                  end
              | _ => ipv6_loop fuel' bs' ell rest'
              end
          | _ => None
          end
      end
  end.

Definition parse_ipv6 (s : string) : option IP :=
  let '(ell, s1) := if has_prefix s "::" then (Some 0%nat, sdrop 2 s) else (None, s) in
  if (match ell with Some _ => String.eqb s1 "" | None => false end) then Some (repeat 0 16)
  else match ipv6_loop 8 [] ell s1 with
       | None => None
       | Some (bs, ell') =>
           if (length bs <? 16)%nat then
             match ell' with
             | None => None
             | Some k => Some (firstn k bs ++ repeat 0 (16 - length bs) ++ skipn k bs)
             end
           else match ell' with None => Some bs | Some _ => None end
       end.

(** The first of [.] and [:] decides the form; a zone is refused by [ParseIP]
    and by [ParseCIDR]. *)
Fixpoint parse_addr_from (whole s : string) : option IP :=
  match s with
  | EmptyString => None
  | String "." _ => parse_ipv4 whole
  | String ":" _ => if contains_byte "%" whole then None else parse_ipv6 whole
  | String "%" _ => None
  | String _ s' => parse_addr_from whole s'
  end.

Definition v4_mapped (ip : IP) : bool :=
  bool_decide (firstn 12 ip = [0;0;0;0;0;0;0;0;0;0;255;255]).

(** [IP.To4] *)
Definition To4 (ip : IP) : option IP :=
  if Nat.eqb (length ip) 4 then Some ip
  else if Nat.eqb (length ip) 16 && v4_mapped ip then Some (skipn 12 ip) else None.

(** [net.ParseIP]; the 16-byte form of an IPv4 address is left implicit, since
    [Contains] goes through [To4]. *)
Definition ParseIP (s : string) : option IP := parse_addr_from s s.

Record IPNet := { net_ip : IP; net_mask : list Z }.

Definition mask_byte (n : Z) : Z := if 8 <=? n then 255 else if n <=? 0 then 0 else 256 - 2 ^ (8 - n).
Definition cidr_mask (ones : Z) (len : nat) : list Z :=
  map (fun i => mask_byte (ones - 8 * Z.of_nat i)) (seq 0 len).

Definition and_bytes (a b : list Z) : list Z := zip_with Z.land a b.

(** [dtoi]: a non-empty run of digits below [0xFFFFFF], which must be the whole
    string. *)
Fixpoint dtoi (acc : Z) (s : string) : option Z :=
  match s with
  | EmptyString => Some acc
  | String c s' =>
      if (48 <=? code c) && (code c <=? 57) then
        let acc' := acc * 10 + (code c - 48) in
        if 16777215 <=? acc' then None else dtoi acc' s'
      else None
  end.

Fixpoint split_first (c : ascii) (s : string) : option (string * string) :=
  match s with
  | EmptyString => None
  | String d s' =>
      if Ascii.eqb d c then Some ("", s')
      else match split_first c s' with Some (a, b) => Some (String d a, b) | None => None end
  end.

(** [net.ParseCIDR]: the network of [addr/n]. *)
Definition ParseCIDR (s : string) : option IPNet :=
  match split_first "/" s with
  | None => None
  | Some (addr, mask) =>
      match ParseIP addr with
      | None => None
      | Some ip =>
          if String.eqb mask "" then None else
          match dtoi 0 mask with
          | None => None
          | Some n =>
              if 8 * zlen ip <? n then None
              else let m := cidr_mask n (length ip) in
                   Some {| net_ip := and_bytes ip m; net_mask := m |}
          end
      end
  end.

(** The network number and mask [Contains] compares with: an IPv4-mapped
    network under a 16-byte mask is read through the mask's last four bytes. *)
Definition net_number (n : IPNet) : IP * list Z :=
  match To4 (net_ip n) with
  | Some ip4 => (ip4, if Nat.eqb (length (net_mask n)) 16 then skipn 12 (net_mask n) else net_mask n)
  | None => (net_ip n, net_mask n)
  end.

(** [IPNet.Contains] *)
Definition Contains (n : IPNet) (ip : IP) : bool :=
  let '(nn, m) := net_number n in
  let x := default ip (To4 ip) in
  Nat.eqb (length x) (length nn) && bool_decide (and_bytes x m = and_bytes nn m).

(** ** [IP.String] of an address that [ParseIP] returned *)
Fixpoint hex_min (fuel : nat) (z : Z) : string :=
  match fuel with
  | O => ""
  | S f => (if z <? 16 then "" else hex_min f (z / 16)) +:+ String (hex_digit (z mod 16)) ""
  end.
Fixpoint groups (l : list Z) : list Z :=
  match l with a :: b :: l' => a * 256 + b :: groups l' | _ => [] end.
Fixpoint zero_run (l : list Z) : nat :=
  match l with 0 :: l' => S (zero_run l') | _ => O end.
(** The first longest run of zero groups: its start and its length. *)
Fixpoint best_run (i : nat) (l : list Z) (best : nat * nat) : nat * nat :=
  match l with
  | [] => best
  | _ :: l' => best_run (S i) l' (if Nat.ltb (snd best) (zero_run l) then (i, zero_run l) else best)
  end.
Definition IP_String (ip : IP) : string :=
  match To4 ip with
  | Some ip4 => GoStrings.join "." (map pretty ip4)
  | None =>
      let gs := groups ip in
      let '(i, n) := best_run 0 gs (0%nat, 1%nat) in
      let str l := GoStrings.join ":" (map (hex_min 4) l) in
      if Nat.ltb 1 n then str (firstn i gs) +:+ "::" +:+ str (skipn (i + n) gs) else str gs
  end.

Example ip_strings :
  option_map IP_String (ParseIP "10.0.200.1") = Some "10.0.200.1" /\
  option_map IP_String (ParseIP "::ffff:10.0.0.1") = Some "10.0.0.1" /\
  option_map IP_String (ParseIP "2001:db8:0:0:8:0:0:417A") = Some "2001:db8::8:0:0:417a" /\
  option_map IP_String (ParseIP "::") = Some "::" /\
  option_map IP_String (ParseIP "1:0:2::") = Some "1:0:2::".
Proof. vm_compute. repeat split; reflexivity. Qed.

Example parse_v4 : ParseIP "192.0.2.10" = Some [192; 0; 2; 10].
Proof. vm_compute. reflexivity. Qed.
Example parse_v4_zero : ParseIP "192.0.02.10" = None.
Proof. vm_compute. reflexivity. Qed.
Example parse_v6 : ParseIP "2001:db8::8:800:200c:417a" =
  Some [32;1;13;184;0;0;0;0;0;8;8;0;32;12;65;122].
Proof. vm_compute. reflexivity. Qed.
Example parse_v6_loopback : ParseIP "::1" = Some [0;0;0;0;0;0;0;0;0;0;0;0;0;0;0;1].
Proof. vm_compute. reflexivity. Qed.
Example parse_v6_mapped : ParseIP "::ffff:10.0.0.1" = Some [0;0;0;0;0;0;0;0;0;0;255;255;10;0;0;1].
Proof. vm_compute. reflexivity. Qed.
Example parse_v6_bad : ParseIP "1:2:3:4:5:6:7:8:9" = None /\ ParseIP "1::2::3" = None /\ ParseIP ":1" = None.
Proof. vm_compute. repeat split; reflexivity. Qed.
Example contains_v4 :
  option_map (fun n => (Contains n [10; 1; 2; 3], Contains n [11; 1; 2; 3])) (ParseCIDR "10.0.0.0/8")
  = Some (true, false).
Proof. vm_compute. reflexivity. Qed.
Example cidr_bad : ParseCIDR "10.0.0.0/33" = None /\ ParseCIDR "10.0.0.0" = None.
Proof. vm_compute. split; reflexivity. Qed.
