(* ===== verification/GoHttp.v ===== *)
(** What the source uses of [net/http], [net/textproto], [path], [net] and
    [net/http/httputil]: canonical header names and the header map, cleaned
    paths, host and port, and the headers a [ReverseProxy] sends. *)
From S2P Require Import Prelude GoStrings.
From Stdlib Require Import Ascii.
Local Open Scope string_scope.
Local Open Scope Z_scope.
Local Open Scope list_scope.

(** * Header names *)

(** The bytes of an HTTP token. *)
Definition token_byte (c : ascii) : bool :=
  let z := code c in
  ((48 <=? z) && (z <=? 57)) || ((65 <=? z) && (z <=? 90)) || ((94 <=? z) && (z <=? 122)) ||
  (z =? 33) || ((35 <=? z) && (z <=? 39)) || (z =? 42) || (z =? 43) || (z =? 45) || (z =? 46) ||
  (z =? 124) || (z =? 126).
Fixpoint token (s : string) : bool :=
  match s with EmptyString => true | String c s' => token_byte c && token s' end.

Definition upper_byte (c : ascii) : ascii :=
  let z := code c in if (97 <=? z) && (z <=? 122) then chr (z - 32) else c.
Fixpoint canon_from (upper : bool) (s : string) : string :=
  match s with
  | EmptyString => ""
  | String c s' => String (if upper then upper_byte c else lower_byte c) (canon_from (code c =? 45) s')
  end.
(** [http.CanonicalHeaderKey] *)
Definition CanonicalHeaderKey (s : string) : string := if token s then canon_from true s else s.

(** * Headers *)
Abbreviation Header := (gmap string (list string)).

Definition Header_Get (h : Header) (k : string) : string :=
  match h !! CanonicalHeaderKey k with Some (v :: _) => v | _ => "" end.
Definition Header_Set (k v : string) (h : Header) : Header := <[CanonicalHeaderKey k := [v]]> h.
Definition Header_Del (k : string) (h : Header) : Header := delete (CanonicalHeaderKey k) h.
Definition Header_Del_all (ks : list string) (h : Header) : Header := foldl (fun h k => Header_Del k h) h ks.
(** [if v != "" { h.Set(k, v) }] *)
Definition Header_Set_if (b : bool) (k v : string) (h : Header) : Header := if b then Header_Set k v h else h.

Lemma lower_byte_code c : lower_byte c = if (65 <=? code c) && (code c <=? 90) then chr (code c + 32) else c.
Proof. reflexivity. Qed.

Lemma token_byte_lower c : token_byte (lower_byte c) = token_byte c.
Proof. by destruct c as [[] [] [] [] [] [] [] []]. Qed.
Lemma upper_lower_byte c : upper_byte (lower_byte c) = upper_byte c.
Proof. by destruct c as [[] [] [] [] [] [] [] []]. Qed.
Lemma lower_lower_byte c : lower_byte (lower_byte c) = lower_byte c.
Proof. by destruct c as [[] [] [] [] [] [] [] []]. Qed.
Lemma dash_lower c : (code (lower_byte c) =? 45) = (code c =? 45).
Proof. by destruct c as [[] [] [] [] [] [] [] []]. Qed.

Lemma token_lower s : token (to_lower s) = token s.
Proof. induction s as [|c s IH]; [done|]. cbn -[token_byte lower_byte]. by rewrite token_byte_lower, IH. Qed.
Lemma canon_from_lower u s : canon_from u (to_lower s) = canon_from u s.
Proof.
  revert u. induction s as [|c s IH]; intros u; [done|]. cbn -[upper_byte lower_byte code].
  rewrite IH, dash_lower. f_equal. destruct u; [apply upper_lower_byte|apply lower_lower_byte].
Qed.

(** A token's canonical form depends on its letters alone, not their case. *)
Lemma canonical_of_lower s : token s = true -> CanonicalHeaderKey (to_lower s) = CanonicalHeaderKey s.
Proof. intros H. unfold CanonicalHeaderKey. by rewrite token_lower, H, canon_from_lower. Qed.

Lemma canonical_same_name a b : token a = true -> to_lower a = to_lower b ->
  CanonicalHeaderKey a = CanonicalHeaderKey b.
Proof.
  intros Ha H. assert (token b = true) as Hb by (by rewrite <- token_lower, <- H, token_lower).
  by rewrite <- (canonical_of_lower a), <- (canonical_of_lower b), H.
Qed.

Lemma Header_Del_all_lookup ks h k :
  Header_Del_all ks h !! k = if bool_decide (k ∈ map CanonicalHeaderKey ks) then None else h !! k.
Proof.
  unfold Header_Del_all. revert h. induction ks as [|x ks IH]; intros h; [done|].
  cbn [foldl map]. rewrite IH. unfold Header_Del.
  destruct (decide (k = CanonicalHeaderKey x)) as [E|E].
  - rewrite (bool_decide_eq_true_2 (k ∈ _ :: _)) by (rewrite E; left). rewrite E, lookup_delete_eq.
    destruct (bool_decide (CanonicalHeaderKey x ∈ map CanonicalHeaderKey ks)); reflexivity.
  - rewrite lookup_delete_ne by congruence.
    rewrite (bool_decide_ext (k ∈ _ :: _) (k ∈ map CanonicalHeaderKey ks)); [done|].
    rewrite elem_of_cons. tauto.
Qed.

Lemma Header_Set_if_lookup b k v h x :
  Header_Set_if b k v h !! x = if b && bool_decide (x = CanonicalHeaderKey k) then Some [v] else h !! x.
Proof.
  unfold Header_Set_if, Header_Set. destruct b; [|done]. cbn. case_bool_decide as E.
  - subst x. apply lookup_insert_eq.
  - apply lookup_insert_ne. congruence.
Qed.

(** * Paths *)

(** The components [path.Clean] keeps, the last first; a [..] with nothing to
    undo is kept in a relative path. *)
Definition clean_step (rooted : bool) (acc : list string) (comp : string) : list string :=
  if String.eqb comp "" || String.eqb comp "." then acc
  else if String.eqb comp ".." then
    match acc with
    | [] => if rooted then [] else [".."]
    | top :: acc' => if String.eqb top ".." then ".." :: acc else acc'
    end
  else comp :: acc.
Definition clean_components (p : string) : list string :=
  reverse (foldl (clean_step (has_prefix p "/")) [] (split_byte "/" p)).
(** [path.Clean] *)
Definition path_Clean (p : string) : string :=
  let s := (if has_prefix p "/" then "/" else "") +:+ join "/" (clean_components p) in
  if String.eqb s "" then "." else s.

(** * Addresses *)

(** The text before the last [c] and the text after it. *)
Fixpoint split_last (c : ascii) (s : string) : option (string * string) :=
  match s with
  | EmptyString => None
  | String d s' =>
      match split_last c s' with
      | Some (a, b) => Some (String d a, b)
      | None => if Ascii.eqb c d then Some ("", s') else None
      end
  end.

(** [net.SplitHostPort] *)
Definition SplitHostPort (hostport : string) : result (string * string) :=
  let err msg := Err (Errorf "address %s: %s" [AStr hostport; AStr msg]) in
  match split_last ":" hostport with
  | None => err "missing port in address"
  | Some (before, port) =>
      if has_prefix hostport "[" then
        match split_byte "]" (sdrop 1 hostport) with
        | host :: r :: parts =>
            let rest := join "]" (r :: parts) in
            if String.eqb rest "" then err "missing port in address"
            else if negb (String.length rest =? S (String.length port))%nat then
              if has_prefix rest ":" then err "too many colons in address" else err "missing port in address"
            else if contains_byte "[" (sdrop 1 hostport) then err "unexpected '[' in address"
            else if contains_byte "]" rest then err "unexpected ']' in address"
            else Ok (host, port)
        | _ => err "missing ']' in address"
        end
      else if contains_byte ":" before then err "too many colons in address"
      else if contains_byte "[" hostport then err "unexpected '[' in address"
      else if contains_byte "]" hostport then err "unexpected ']' in address"
      else Ok (before, port)
  end.

(** * The reverse proxy *)

(** [textproto.TrimString]: spaces and tabs. *)
Definition trim_ows (s : string) : string :=
  let ws := [" "; String (chr 9) ""] in
  let l := trim_left_seqs (String.length s) ws s in
  srev (trim_left_seqs (String.length l) ws (srev l)).

(** The names a header's values list. *)
Definition listed_names (vs : list string) : list string :=
  List.filter (fun t => negb (String.eqb t "")) (map trim_ows (flat_map (split_byte ",") vs)).

(** [httpguts.HeaderValuesContainsToken] for a token. *)
Definition values_contain (tok : string) (vs : list string) : bool :=
  existsb (fun t => String.eqb (to_lower t) (to_lower tok)) (map trim_ows (flat_map (split_byte ",") vs)).

Definition hopHeaders : list string :=
  ["Connection"; "Proxy-Connection"; "Keep-Alive"; "Proxy-Authenticate"; "Proxy-Authorization"; "Te";
   "Trailer"; "Transfer-Encoding"; "Upgrade"].

(** [removeHopByHopHeaders]: those the request's [Connection] header names, and
    the known ones. *)
Definition removeHopByHopHeaders (h : Header) : Header :=
  Header_Del_all (listed_names (default [] (h !! "Connection")) ++ hopHeaders) h.

(** [upgradeType]; a request whose upgrade is not printable is not sent. *)
Definition upgradeType (h : Header) : string :=
  if values_contain "Upgrade" (default [] (h !! "Connection")) then Header_Get h "Upgrade" else "".
Fixpoint ascii_IsPrint (s : string) : bool :=
  match s with EmptyString => true | String c s' => (32 <=? code c) && (code c <=? 126) && ascii_IsPrint s' end.

(** The peer's address, appended to what [X-Forwarded-For] holds. *)
Definition forwarded_for (remoteAddr : string) (h : Header) : Header :=
  match SplitHostPort remoteAddr with
  | Err _ => h
  | Ok (ip, _) =>
      let prior := default [] (h !! "X-Forwarded-For") in
      Header_Set "X-Forwarded-For" (if 0 <? zlen prior then join ", " prior +:+ ", " +:+ ip else ip) h
  end.

(** [ReverseProxy.ServeHTTP]: the headers sent, from those its [Director] left
    in the copy of the request, the request's own, and its peer. *)
Definition proxied_headers (inbound directed : Header) (remoteAddr : string) : Header :=
  let upgrade := upgradeType directed in
  let h := removeHopByHopHeaders directed in
  let h := Header_Set_if (values_contain "trailers" (default [] (inbound !! "Te"))) "Te" "trailers" h in
  let h := Header_Set_if (negb (String.eqb upgrade "")) "Connection" "Upgrade" h in
  let h := Header_Set_if (negb (String.eqb upgrade "")) "Upgrade" upgrade h in
  let h := forwarded_for remoteAddr h in
  Header_Set_if (bool_decide (h !! "User-Agent" = None)) "User-Agent" "" h.

(** * Lemmas *)

Lemma canonical_names : map CanonicalHeaderKey
    ["x-aic-agent-id"; "X-AIC-Principal-Uid"; "TE"; "bad header"; "x_aic_agent_id"] =
  ["X-Aic-Agent-Id"; "X-Aic-Principal-Uid"; "Te"; "bad header"; "X_aic_agent_id"].
Proof. reflexivity. Qed.

Lemma cleaned_paths : map path_Clean
    ["/a/../b"; "/../x"; "a//b/./c/"; ""; "/"; "../a"; "/public/%2e%2e/x"; "a/../.."] =
  ["/b"; "/x"; "a/b/c"; "."; "/"; "../a"; "/public/%2e%2e/x"; ".."].
Proof. reflexivity. Qed.

Lemma split_addresses : map (fun a => match SplitHostPort a with Ok (h, _) => h | Err _ => "error" end)
    ["10.0.0.1:80"; "[::1]:443"; "::1:443"; "10.0.0.1"; "[::1]"; "[::1"; "a:b:c"; ":80"; "[a]b:1"; "[[a]:1"; "@"] =
  ["10.0.0.1"; "::1"; "error"; "error"; "error"; "error"; "error"; ""; "error"; "error"; "error"].
Proof. reflexivity. Qed.

(** What the proxy adds or removes: the hop-by-hop names, those listed by
    [Connection], and the four it sets. *)
Definition proxy_owned : list string := ["Te"; "Connection"; "Upgrade"; "X-Forwarded-For"; "User-Agent"].

Lemma forwarded_for_lookup peer h k : k <> "X-Forwarded-For" -> forwarded_for peer h !! k = h !! k.
Proof.
  intros H. unfold forwarded_for. destruct (SplitHostPort peer) as [[ip port]|]; [|done].
  unfold Header_Set. by apply lookup_insert_ne.
Qed.

Lemma proxied_headers_lookup inbound directed peer k :
  k ∉ proxy_owned ->
  proxied_headers inbound directed peer !! k = removeHopByHopHeaders directed !! k.
Proof.
  intros Hk. unfold proxied_headers. cbv zeta.
  assert (forall x, x ∈ proxy_owned -> k <> x) as Hne by (intros x Hx ->; done).
  repeat rewrite Header_Set_if_lookup.
  rewrite (bool_decide_eq_false_2 (k = CanonicalHeaderKey "User-Agent")), andb_false_r
    by (apply Hne; set_solver).
  cbn [andb]. rewrite forwarded_for_lookup by (apply Hne; set_solver).
  repeat rewrite Header_Set_if_lookup.
  rewrite !(bool_decide_eq_false_2 (k = CanonicalHeaderKey _)), !andb_false_r; [done|..];
    apply Hne; set_solver.
Qed.

(** The components of a cleaned rooted path are names: no empty ones, no dots. *)
Definition plain_component (c : string) : Prop := c <> "" /\ c <> "." /\ c <> "..".

Lemma clean_components_plain p : has_prefix p "/" = true -> Forall plain_component (clean_components p).
Proof.
  intros Hp. unfold clean_components. rewrite Hp. apply Forall_reverse.
  generalize (split_byte "/" p) as l. intros l.
  cut (forall acc, Forall plain_component acc -> Forall plain_component (foldl (clean_step true) acc l)).
  { intros H. apply H. constructor. }
  induction l as [|c l IH]; intros acc Ha; [done|]. cbn [foldl]. apply IH. unfold clean_step.
  destruct (String.eqb_spec c "") as [|H1]; [done|]. destruct (String.eqb_spec c ".") as [|H2]; [done|].
  cbn [orb]. destruct (String.eqb_spec c "..") as [|H3]; [|by constructor].
  destruct Ha as [|top acc [? [? Ht]] Ha]; [constructor|].
  by destruct (String.eqb_spec top "..").
Qed.
