(* ===== verification/GoFiles.v ===== *)
(** What the source uses of [os] and [path/filepath]: paths joined to a
    directory, and a file system in which files are written, read and listed.

    A file system maps cleaned paths to nodes.  What can fail for reasons
    outside it (permissions, a full disk) is an input of the operation. *)
From stdpp Require Import sorting.
From Stdlib Require Import Ascii.
From S2P Require Import Prelude GoStrings GoJsonOut GoHttp.
Local Open Scope string_scope.
Local Open Scope Z_scope.
Local Open Scope list_scope.

(** * Definitions *)

(** [filepath.Join] of two elements. *)
Definition Join (dir name : string) : string :=
  if String.eqb dir "" then if String.eqb name "" then "" else path_Clean name
  else if String.eqb name "" then path_Clean dir else path_Clean (dir +:+ "/" +:+ name).

(** The entry [n] of the directory whose cleaned path is [d]. *)
Definition dir_prefix (d : string) : string :=
  if String.eqb d "." then "" else if String.eqb d "/" then "/" else d +:+ "/".
Definition child (d n : string) : string := dir_prefix d +:+ n.

(** A name of a directory entry: one component, neither [.] nor [..]. *)
Definition entry_name (n : string) : bool :=
  negb (String.eqb n "") && negb (contains_byte "/" n) && negb (String.eqb n ".") && negb (String.eqb n "..").

(** The name a path has as an entry of [d]. *)
Definition child_of (d p : string) : option string :=
  if has_prefix p (dir_prefix d) then
    let n := sdrop (String.length (dir_prefix d)) p in if entry_name n then Some n else None
  else None.

(** The directory that holds a cleaned path. *)
Definition parent (p : string) : string :=
  match split_last "/" p with
  | None => "."
  | Some (d, _) => if String.eqb d "" then "/" else d
  end.

(** A node: a file with its text, a directory, or something whose reading fails. *)
Inductive node := NFile (data : string) | NDir | NOther (err : error).
Abbreviation FS := (gmap string node).

#[export] Instance is_dir_dec (x : option node) : Decision (x = Some NDir).
Proof. destruct x as [[| |]|]; first [by left | by right]. Defined.

Definition ErrNotExist : error := ErrNew "fs.ErrNotExist".
Definition ENOTDIR : error := ErrNew "syscall.ENOTDIR".
Definition EISDIR : error := ErrNew "syscall.EISDIR".

(** [os.ReadFile] *)
Definition fs_ReadFile (fs : FS) (p : string) : result string :=
  match fs !! p with
  | Some (NFile data) => Ok data
  | Some NDir => Err EISDIR
  | Some (NOther e) => Err e
  | None => Err ErrNotExist
  end.

(** The cleaned paths of a directory and of those that hold it. *)
Definition ancestors (p : string) : list string :=
  let rooted := has_prefix p "/" in
  let comps := clean_components p in
  map (fun k => path_Clean ((if rooted then "/" else "") +:+ join "/" (take k comps)))
      (seq 0 (S (length comps))).

(** [os.MkdirAll]; [fault] is an error that no entry of the file system
    explains. *)
Definition MkdirAll (fault : option error) (fs : FS) (p : string) : option error * FS :=
  match fault with
  | Some e => (Some e, fs)
  | None =>
      let need := ancestors p ++ [path_Clean p] in
      if forallb (fun d => match fs !! d with Some NDir | None => true | _ => false end) need
      then (None, foldl (fun m d => <[d:=NDir]> m) fs need)
      else (Some ENOTDIR, fs)
  end.

(** [os.WriteFile] of a cleaned path; [fault] is an error of opening the file, or
    of writing after so many bytes. *)
Definition WriteFile (fault : option (error * option nat)) (fs : FS) (p data : string) : option error * FS :=
  match fs !! p with
  | Some NDir => (Some EISDIR, fs)
  | Some (NOther e) => (Some e, fs)
  | _ =>
      if bool_decide (fs !! parent p = Some NDir) then
        match fault with
        | None => (None, <[p:=NFile data]> fs)
        | Some (e, None) => (Some e, fs)
        | Some (e, Some n) => (Some e, <[p:=NFile (stake n data)]> fs)
        end
      else (Some ErrNotExist, fs)
  end.

(** [os.ReadDir]: the entries by name, each with whether it is a directory. *)
Definition name_le (a b : string * bool) : Prop := string_le a.1 b.1 = true.
#[export] Instance name_le_dec : RelDecision name_le := fun a b => decide (string_le a.1 b.1 = true).
Definition is_dir (x : node) : bool := match x with NDir => true | _ => false end.
Definition dir_entries (fs : FS) (d : string) : list (string * bool) :=
  omap (fun '(p, x) => option_map (fun n => (n, is_dir x)) (child_of d p)) (map_to_list fs).
Definition ReadDir (fs : FS) (p : string) : result (list (string * bool)) :=
  if String.eqb p "" then Err ErrNotExist
  else match fs !! path_Clean p with
  | Some NDir => Ok (merge_sort name_le (dir_entries fs (path_Clean p)))
  | Some _ => Err ENOTDIR
  | None => Err ErrNotExist
  end.

(** * Lemmas *)

(** A path component that is kept. *)
Definition component (c : string) : Prop := c <> "" /\ c <> "." /\ contains_byte "/" c = false.

Lemma entry_name_spec n : entry_name n = true <-> component n /\ n <> "..".
Proof.
  unfold entry_name, component. rewrite !andb_true_iff, !negb_true_iff, !String.eqb_neq. tauto.
Qed.

Lemma split_byte_components s : Forall (fun c => contains_byte "/" c = false) (split_byte "/" s).
Proof.
  induction s as [|d s IH]; [repeat constructor|]. cbn [split_byte]. destruct (Ascii.eqb d "/") eqn:E.
  - constructor; [done|exact IH].
  - destruct (split_byte "/" s) as [|w ws] eqn:Es; [by apply split_byte_ne in Es|]. inversion IH as [|? ? Hw Hws]; subst.
    constructor; [|done]. cbn. by rewrite E, Hw.
Qed.

Lemma clean_step_components rooted acc c :
  contains_byte "/" c = false -> Forall component acc -> Forall component (clean_step rooted acc c).
Proof.
  intros Hc Ha. unfold clean_step. destruct (String.eqb_spec c ""), (String.eqb_spec c "."); cbn [orb]; try done.
  destruct (String.eqb_spec c "..").
  - destruct acc as [|top acc]; [destruct rooted; repeat constructor; done|].
    destruct (String.eqb_spec top ".."); [by constructor|]. by inversion Ha.
  - by constructor.
Qed.

Lemma clean_components_ok p : Forall component (clean_components p).
Proof.
  unfold clean_components. apply Forall_reverse.
  assert (Forall component []) as H0 by constructor. revert H0. generalize (@nil string).
  generalize (split_byte_components p). induction (split_byte "/" p) as [|c l IH]; intros Hl acc Ha; [done|].
  inversion Hl; subst. cbn [foldl]. apply IH; [done|]. by apply clean_step_components.
Qed.

Lemma split_byte_snoc c a n : contains_byte c n = false ->
  split_byte c (a +:+ String c n) = split_byte c a ++ [n].
Proof.
  intros Hn. induction a as [|d a IH].
  - cbn. rewrite Ascii.eqb_refl. by rewrite split_byte_none.
  - cbn [String.append split_byte]. destruct (Ascii.eqb d c); [by rewrite IH|]. rewrite IH.
    by destruct (split_byte c a) as [|w ws] eqn:E; [by apply split_byte_ne in E|].
Qed.

Lemma clean_components_snoc d n : d <> "" -> component n -> n <> ".." ->
  clean_components (d +:+ "/" +:+ n) = clean_components d ++ [n] /\
  has_prefix (d +:+ "/" +:+ n) "/" = has_prefix d "/".
Proof.
  intros Hd (H1 & H2 & H3) H4.
  assert (has_prefix (d +:+ "/" +:+ n) "/" = has_prefix d "/") as Hp.
  { destruct d as [|c d]; [done|]. unfold has_prefix. cbn. case_match; [|done]. by destruct d. }
  split; [|exact Hp]. unfold clean_components. rewrite Hp.
  change ("/" +:+ n) with (String "/" n). rewrite split_byte_snoc, foldl_snoc by done.
  unfold clean_step at 1. apply String.eqb_neq in H1, H2, H4. rewrite H1, H2, H4. cbn [orb]. by rewrite reverse_cons.
Qed.

Lemma join_snoc sep l n : l <> [] -> join sep (l ++ [n]) = join sep l +:+ sep +:+ n.
Proof.
  induction l as [|w l IH]; [done|]. intros _. destruct l as [|v l]; [done|].
  change ((w :: v :: l) ++ [n]) with (w :: (v :: l) ++ [n]). rewrite join_cons by done.
  rewrite IH by done. rewrite (join_cons sep w (v :: l)) by done. by rewrite !sapp_assoc.
Qed.

Lemma join_components l : Forall component l -> l <> [] ->
  join "/" l <> "" /\ join "/" l <> "." /\ has_prefix (join "/" l) "/" = false.
Proof.
  intros H Hne. destruct l as [|w l]; [done|]. inversion H as [|? ? (H1 & H2 & H3) Hl]; subst.
  destruct w as [|c w]; [done|]. cbn in H3. destruct (Ascii.eqb_spec c "/") as [|Hc]; [done|].
  assert (forall t, has_prefix (String c t) "/" = false) as Hp.
  { intros t. unfold has_prefix. cbn. case_match; [by subst|done]. }
  destruct l as [|v l].
  - cbn [join]. by rewrite Hp.
  - rewrite join_cons by done. cbn [String.append]. rewrite Hp. split; [done|]. split; [|done]. by destruct w.
Qed.

(** A file of a directory is the directory's entry of that name. *)
Lemma Join_child d n : d <> "" -> entry_name n = true -> Join d n = child (path_Clean d) n.
Proof.
  intros Hd Hn. apply entry_name_spec in Hn as [Hn Hdd]. unfold Join, child.
  assert (n <> "") as Hne by apply Hn. apply String.eqb_neq in Hd as Hd', Hne. rewrite Hd', Hne.
  unfold path_Clean, dir_prefix. destruct (clean_components_snoc d n Hd Hn Hdd) as [-> ->].
  pose proof (clean_components_ok d) as Hc. destruct (clean_components d) as [|w l] eqn:El.
  - cbn [app join]. destruct (has_prefix d "/"); cbn; by rewrite ?Hne.
  - rewrite join_snoc by done. rewrite <- El in *. destruct (join_components _ Hc) as (H1 & H2 & H3); [by rewrite El|].
    destruct (has_prefix d "/").
    + cbn [String.append]. replace (String.eqb (String "/" _) "") with false by done.
      replace (String.eqb (String "/" (join "/" (clean_components d))) "") with false by done.
      replace (String.eqb (String "/" (join "/" (clean_components d))) ".") with false by done.
      replace (String.eqb (String "/" (join "/" (clean_components d))) "/") with false.
      * by rewrite sapp_assoc.
      * symmetry. apply String.eqb_neq. by intros [= E].
    + cbn [String.append]. apply String.eqb_neq in H1 as H1'. rewrite H1'.
      apply String.eqb_neq in H2 as H2'. rewrite H2'.
      destruct (String.eqb_spec (join "/" (clean_components d)) "/") as [E|_]; [by rewrite E in H3|].
      rewrite sapp_assoc. by destruct (join "/" (clean_components d)).
Qed.

Lemma child_of_child d n : entry_name n = true -> child_of d (child d n) = Some n.
Proof. intros H. unfold child_of, child. by rewrite has_prefix_app, sdrop_length_app, H. Qed.

Lemma split_last_none c s : contains_byte c s = false -> split_last c s = None.
Proof.
  induction s as [|d s IH]; [done|]. cbn. intros [Hd H]%orb_false_iff. rewrite IH by done.
  by rewrite Ascii.eqb_sym, Hd.
Qed.

Lemma split_last_app c a b : contains_byte c b = false -> split_last c (a +:+ String c b) = Some (a, b).
Proof.
  intros Hb. induction a as [|d a IH]; cbn.
  - by rewrite split_last_none, Ascii.eqb_refl.
  - by rewrite IH.
Qed.

(** A directory path as the operations clean it: not empty, and with no slash at
    its end but the root's. *)
Lemma parent_child d n : path_Clean d <> "" -> entry_name n = true -> parent (child (path_Clean d) n) = path_Clean d.
Proof.
  intros Hd Hn. apply entry_name_spec in Hn as [(Hn1 & Hn2 & Hn3) _]. unfold parent, child, dir_prefix.
  destruct (String.eqb_spec (path_Clean d) ".") as [E|_]; [cbn [String.append]; by rewrite split_last_none|].
  destruct (String.eqb_spec (path_Clean d) "/") as [E|_].
  { rewrite E. change ("/" +:+ n) with ("" +:+ String "/" n). by rewrite split_last_app. }
  rewrite sapp_assoc. change ("/" +:+ n) with (String "/" n). rewrite split_last_app by done.
  by destruct (String.eqb_spec (path_Clean d) "").
Qed.

Lemma path_Clean_ne d : path_Clean d <> "".
Proof. unfold path_Clean. by destruct (String.eqb_spec ((if has_prefix d "/" then "/" else "") +:+ join "/" (clean_components d)) ""). Qed.

Lemma ReadDir_elem fs p l n b : ReadDir fs p = Ok l ->
  (n, b) ∈ l <-> exists q x, fs !! q = Some x /\ child_of (path_Clean p) q = Some n /\ b = is_dir x.
Proof.
  unfold ReadDir. destruct (String.eqb p ""); [done|]. destruct (fs !! path_Clean p) as [[| |]|]; try done.
  intros [= <-]. rewrite merge_sort_Permutation. unfold dir_entries. rewrite list_elem_of_omap. split.
  - intros ((q & x) & Hin & H). apply elem_of_map_to_list in Hin. exists q, x.
    destruct (child_of _ q) as [n'|]; [|done]. by injection H as <- <-.
  - intros (q & x & Hq & Hc & ->). exists (q, x). split; [by apply elem_of_map_to_list|]. by rewrite Hc.
Qed.

Lemma MkdirAll_dirs fs p fs' : MkdirAll None fs p = (None, fs') ->
  fs' !! path_Clean p = Some NDir /\ (forall q, fs !! q = Some NDir -> fs' !! q = Some NDir) /\ (forall q x, fs !! q = Some (NFile x) -> fs' !! q = Some (NFile x)) /\
  (forall q, is_Some (fs' !! q) -> fs' !! q = fs !! q \/ fs' !! q = Some NDir).
Proof.
  unfold MkdirAll. destruct (forallb _ _) eqn:Ef; [|done].
  intros H. apply (f_equal snd) in H. cbn [snd] in H. subst fs'.
  assert (forall l (m : FS) q, foldl (fun m d => <[d:=NDir]> m) m l !! q =
            if bool_decide (q ∈ l) then Some NDir else m !! q) as Hl.
  { clear. induction l as [|d l IH]; intros m q; [done|]. cbn [foldl]. rewrite IH.
    destruct (decide (q = d)) as [->|Hne].
    - rewrite lookup_insert_eq. rewrite (bool_decide_eq_true_2 (d ∈ d :: l)) by left. by destruct (bool_decide _).
    - rewrite lookup_insert_ne by congruence. rewrite (bool_decide_ext (q ∈ d :: l) (q ∈ l)); [done|].
      rewrite elem_of_cons. tauto. }
  rewrite forallb_forall_elem in Ef.
  split; [|split; [|split]].
  - rewrite Hl. case_bool_decide as Hn; [done|]. destruct Hn. apply elem_of_app. right. by left.
  - intros q Hq. rewrite Hl. by case_bool_decide.
  - intros q x Hq. rewrite Hl. case_bool_decide as Hin; [|done]. apply Ef in Hin. by rewrite Hq in Hin.
  - intros q _. rewrite Hl. destruct (bool_decide _); auto.
Qed.

Lemma MkdirAll_None fault fs p fs' : MkdirAll fault fs p = (None, fs') -> MkdirAll None fs p = (None, fs').
Proof. by destruct fault. Qed.

Lemma WriteFile_None fault fs p data fs' : WriteFile fault fs p data = (None, fs') ->
  fs' = <[p:=NFile data]> fs /\ fs !! p <> Some NDir.
Proof.
  unfold WriteFile. destruct (fs !! p) as [[| |]|]; [|done|done|];
    (case_bool_decide; [|done]; destruct fault as [[e [n|]]|]; [done|done|]; by intros [= <-]).
Qed.
