(* ===== verification/GoClock.v ===== *)
(** [time.Parse] and [Time.Format] for the layout [time.RFC3339Nano], and the
    lines that [bufio.Scanner] finds in a file: what the readers of the log
    files share. *)
From S2P Require Import Prelude GoStrings GoTime GoJson.
From Stdlib Require Import Ascii.
From stdpp Require Import pretty.
Local Open Scope char_scope.
Local Open Scope string_scope.
Local Open Scope Z_scope.
Local Open Scope list_scope.

(** * The calendar

    Days since the Unix epoch of a date of the proleptic Gregorian calendar,
    and back; [era] is a cycle of 400 years that starts on March 1. *)
Definition days_from_civil (y m d : Z) : Z :=
  let y := if m <=? 2 then y - 1 else y in
  let era := y / 400 in
  let yoe := y mod 400 in
  let doy := (153 * (if 2 <? m then m - 3 else m + 9) + 2) / 5 + d - 1 in
  era * 146097 + (yoe * 365 + yoe / 4 - yoe / 100 + doy) - 719468.

Definition civil_of_doe (doe : Z) : Z * Z * Z :=
  let yoe := (doe - doe / 1460 + doe / 36524 - doe / 146096) / 365 in
  let doy := doe - (365 * yoe + yoe / 4 - yoe / 100) in
  let mp := (5 * doy + 2) / 153 in
  (yoe, if mp <? 10 then mp + 3 else mp - 9, doy - (153 * mp + 2) / 5 + 1).
Definition civil_from_days (n : Z) : Z * Z * Z :=
  let z := n + 719468 in
  let '(yoe, m, d) := civil_of_doe (z mod 146097) in
  (z / 146097 * 400 + yoe + (if m <=? 2 then 1 else 0), m, d).

Definition is_leap (y : Z) : bool := (y mod 4 =? 0) && (negb (y mod 100 =? 0) || (y mod 400 =? 0)).
Definition days_in (m y : Z) : Z :=
  if m =? 2 then if is_leap y then 29 else 28
  else if (m =? 4) || (m =? 6) || (m =? 9) || (m =? 11) then 30 else 31.

(** * [time.Parse(time.RFC3339Nano, s)]

    The elements of the layout in order; an hour may have one digit, a fraction
    may follow a comma, and only nine of its digits count. *)
Definition digit_val (c : ascii) : option Z := if is_digit c then Some (code c - 48) else None.

Definition getnum (fixed : bool) (s : string) : option (Z * string) :=
  match s with
  | String a s' =>
      match digit_val a with
      | None => None
      | Some x =>
          match s' with
          | String b s'' => match digit_val b with
              | Some y => Some (10 * x + y, s'')
              | None => if fixed then None else Some (x, s') end
          | EmptyString => if fixed then None else Some (x, s')
          end
      end
  | EmptyString => None
  end.

Definition year4 (s : string) : option (Z * string) :=
  if slen s <? 4 then None
  else match digits_value 0 (stake 4 s) with Some y => Some (y, sdrop 4 s) | None => None end.

Definition skip_char (c : ascii) (s : string) : option string :=
  match s with String d s' => if Ascii.eqb c d then Some s' else None | EmptyString => None end.

Definition in_range (lo hi : Z) (r : option (Z * string)) : option (Z * string) :=
  match r with Some (x, s) => if (lo <=? x) && (x <=? hi) then Some (x, s) else None | None => None end.

Definition fraction (s : string) : Z * string :=
  match s with
  | String p (String d _ as rest) =>
      if (Ascii.eqb p "." || Ascii.eqb p ",") && is_digit d then
        let '(ds, r) := span_digits rest in
        let ds := stake 9 ds in
        (default 0 (digits_value 0 ds) * 10 ^ (9 - slen ds), r)
      else (0, s)
  | _ => (0, s)
  end.

(** The zone: its offset in seconds. *)
Definition zone (s : string) : option (Z * string) :=
  match s with
  | String "Z" r => Some (0, r)
  | String sg (String h1 (String h2 (String ":" (String m1 (String m2 r))))) =>
      match in_range 0 24 (getnum true (String h1 (String h2 ""))),
            in_range 0 60 (getnum true (String m1 (String m2 ""))) with
      | Some (h, _), Some (m, _) =>
          if Ascii.eqb sg "+" then Some ((h * 60 + m) * 60, r)
          else if Ascii.eqb sg "-" then Some (- ((h * 60 + m) * 60), r) else None
      | _, _ => None
      end
  | _ => None
  end.

Definition parse_rfc3339 (s : string) : option Time :=
  '(y, s) ← year4 s; s ← skip_char "-" s;
  '(mo, s) ← in_range 1 12 (getnum true s); s ← skip_char "-" s;
  '(d, s) ← getnum true s; s ← skip_char "T" s;
  '(h, s) ← in_range 0 23 (getnum false s); s ← skip_char ":" s;
  '(mi, s) ← in_range 0 59 (getnum true s); s ← skip_char ":" s;
  '(se, s) ← in_range 0 59 (getnum true s);
  let '(ns, s) := fraction s in
  '(off, s) ← zone s;
  if negb (String.eqb s "") || (d <? 1) || (days_in mo y <? d) then None
  else Some ((days_from_civil y mo d * 86400 + h * 3600 + mi * 60 + se - off) * Second + ns).

(** * [t.UTC().Format(time.RFC3339Nano)]

    For the years 0 to 9999; trailing zeros of the fraction are dropped. *)
Definition digit_of (z : Z) : ascii := chr (48 + z).
Definition pad2 (z : Z) : string := String (digit_of (z / 10)) (String (digit_of (z mod 10)) "").
Fixpoint pad (n : nat) (z : Z) : string :=
  match n with O => "" | S n' => pad n' (z / 10) +:+ String (digit_of (z mod 10)) "" end.

Definition format_rfc3339 (t : Time) : string :=
  let s := t / Second in
  let '(y, m, d) := civil_from_days (s / 86400) in
  let r := s mod 86400 in
  let ns := t mod Second in
  pad 4 y +:+ "-" +:+ pad2 m +:+ "-" +:+ pad2 d +:+ "T" +:+
  pad2 (r / 3600) +:+ ":" +:+ pad2 (r / 60 mod 60) +:+ ":" +:+ pad2 (r mod 60) +:+
  (if ns =? 0 then "" else "." +:+ trim_right_byte "0" (pad 9 ns)) +:+ "Z".

Example rfc3339_samples :
  parse_rfc3339 "1970-01-02T00:00:01.5Z" = Some (86401 * Second + 500000000) /\
  parse_rfc3339 "2024-02-29T23:59:59,123456789123+01:30" = Some (1709245799 * Second + 123456789) /\
  parse_rfc3339 "2023-02-29T00:00:00Z" = None /\ parse_rfc3339 "2023-01-01T1:00:00Z" = Some (1672534800 * Second) /\
  format_rfc3339 (1709245799 * Second + 120000000) = "2024-02-29T22:29:59.12Z".
Proof. vm_compute. repeat split; reflexivity. Qed.

(** [time.Time.UnmarshalJSON] reads the same layout; a timestamp written with
    escapes, which the source never writes, is read here as if without them. *)
Definition dec_time (old : Time) (v : json) : result Time :=
  match v with
  | JNull => Ok old
  | JStr s => match parse_rfc3339 s with Some t => Ok t | None => Err (ErrNew "time.ParseError") end
  | _ => Err (ErrNew "Time.UnmarshalJSON: input is not a JSON string")
  end.

(** * Lines of a file *)
Definition nl : ascii := chr 10.
#[global] Arguments nl : simpl never.

(** The lines of a text: what is between newlines; a last line that is empty is
    no line. *)
Fixpoint lines_from (acc : string) (s : string) : list string :=
  match s with
  | EmptyString => match acc with EmptyString => [] | _ => [acc] end
  | String c s' => if Ascii.eqb c nl then acc :: lines_from "" s' else lines_from (acc +:+ String c "") s'
  end.
Definition lines (s : string) : list string := lines_from "" s.

(** [bufio.Scanner] with [Buffer(make([]byte, 1 MiB), 1 MiB)]: a line that does
    not fit in the buffer with its newline ends the scan with an error. *)
Definition max_token : Z := 1024 * 1024.
Definition ErrTooLong : error := ErrNew "bufio.ErrTooLong".
Fixpoint scan_lines (l : list string) : list string * option error :=
  match l with
  | [] => ([], None)
  | s :: l' => if max_token <=? slen s then ([], Some ErrTooLong)
               else let '(ls, err) := scan_lines l' in
                    (trim_suffix s (String (chr 13) "") :: ls, err)
  end.

Lemma scan_lines_fit l : Forall (fun s => slen s < max_token) l ->
  scan_lines l = (map (fun s => trim_suffix s (String (chr 13) "")) l, None).
Proof.
  induction 1 as [|s l Hs _ IH]; [done|]. cbn. rewrite (proj2 (Z.leb_gt _ _)) by done. by rewrite IH.
Qed.

(** The readers' loop: blank lines are skipped, [sel] parses and filters a line,
    the first [skip] selected are passed over, and a positive [limit] ends the
    loop when that many are kept. *)
Section ScanSelect.
  Context {A : Type} (sel : string -> option A).

(** What the loop selects from a line. *)
Definition selected (s : string) : option A :=
  let line := trim_space (trim_suffix s (String (chr 13) "")) in
  if String.eqb line "" then None else sel line.

Fixpoint scan_select (limit skip : Z) (acc : list A) (ls : list string) : list A * option error :=
  match ls with
  | [] => (acc, None)
  | s :: ls' =>
      if max_token <=? slen s then (acc, Some ErrTooLong)
      else match selected s with
        | None => scan_select limit skip acc ls'
        | Some e =>
            if 0 <? skip then scan_select limit (skip - 1) acc ls'
            else let acc := acc ++ [e] in
                 if (0 <? limit) && (limit <=? zlen acc) then (acc, None)
                 else scan_select limit skip acc ls'
        end
  end.

(** Keeping and passing over, on selected entries. *)
Definition window (limit skip : Z) (l : list A) : list A :=
  let l := drop (Z.to_nat skip) l in if 0 <? limit then take (Z.to_nat limit) l else l.

Lemma scan_select_skips limit skip acc ls1 ls2 :
  Forall (fun s => slen s < max_token /\ selected s = None) ls1 ->
  scan_select limit skip acc (ls1 ++ ls2) = scan_select limit skip acc ls2.
Proof.
  induction 1 as [|s ls [Hs Hn] _ IH]; [done|]. cbn. rewrite (proj2 (Z.leb_gt _ _)) by done.
  rewrite Hn. exact IH.
Qed.

Lemma scan_select_spec limit skip acc ls :
  Forall (fun s => slen s < max_token) ls -> (0 < limit -> zlen acc < limit) ->
  scan_select limit skip acc ls =
  (acc ++ window (if 0 <? limit then limit - zlen acc else limit) skip (omap selected ls), None).
Proof.
  intros Hf. revert skip acc. induction Hf as [|s ls Hs _ IH]; intros skip acc Hacc.
  - cbn. unfold window. rewrite drop_nil, take_nil. case_match; by rewrite app_nil_r.
  - cbn [scan_select]. rewrite (proj2 (Z.leb_gt _ _)) by done. cbn [omap list_omap].
    destruct (selected s) as [e|]; [|by apply IH].
    destruct (Z.ltb_spec 0 skip) as [Hk|Hk].
    + rewrite IH by done. unfold window. replace (Z.to_nat skip) with (S (Z.to_nat (skip - 1))) by lia. done.
    + unfold window. replace (Z.to_nat skip) with 0%nat by lia.
      assert (zlen (acc ++ [e]) = zlen acc + 1) as Hz by (by rewrite zlen_app).
      destruct (Z.ltb_spec 0 limit) as [Hl|Hl]; cbn [andb].
      * rewrite (proj2 (Z.ltb_lt 0 (limit - zlen acc))) by (specialize (Hacc Hl); lia). cbn [drop].
        replace (Z.to_nat (limit - zlen acc)) with (S (Z.to_nat (limit - zlen acc - 1))) by (specialize (Hacc Hl); lia).
        cbn [take]. destruct (Z.leb_spec limit (zlen (acc ++ [e]))) as [Hd|Hd].
        -- replace (Z.to_nat (limit - zlen acc - 1)) with 0%nat by lia. done.
        -- rewrite IH by lia. unfold window. rewrite ?(proj2 (Z.ltb_lt 0 limit)) by done.
           replace (Z.to_nat skip) with 0%nat by lia. rewrite (proj2 (Z.ltb_lt 0 _)) by lia.
           replace (limit - zlen (acc ++ [e])) with (limit - zlen acc - 1) by lia.
           cbn [drop]. by rewrite <- app_assoc.
      * rewrite IH by lia. unfold window. rewrite ?(proj2 (Z.ltb_ge 0 limit)) by done.
        replace (Z.to_nat skip) with 0%nat by lia. rewrite ?(proj2 (Z.ltb_ge 0 limit)) by done.
        cbn [drop]. by rewrite <- app_assoc.
Qed.
End ScanSelect.
