(* ===== verification/Types.v ===== *)
(** The data the components exchange and the operations of packages outside
    this repository.

    The records carry the fields of [pki] (github.com/varwof/types),
    [semantics] (github.com/varwof/register) and [crypto/x509] values that the
    source reads.  The packages' functions are the fields of the classes
    below; a component that uses one takes the class as a parameter, and the
    laws a theorem relies on are classes of their own. *)
From S2P Require Import Prelude GoStrings GoTime GoJson.

(** ** Values of package [pki] *)
Record Capability := {
  SchemeId : string; CapabilityId : string; Parameters : string
}.

#[export] Instance Capability_eq_dec : EqDecision Capability.
Proof. solve_decision. Defined.

Record PrincipalUid := {
  Realm : string; Identifier : string; KeyHash : bytes; HashAlgo : string
}.

Record DelegationAuthorization := {
  SignatureAlgorithm : string; SignatureValue : bytes; Nonce : bytes;
  DAReason : string; RequestedLifetime : Z; DATimestamp : Time
}.

Record AIC := {
  AICVersion : Z; AgentId : string; AICPrincipal : PrincipalUid;
  Capabilities : list Capability; DelegationMode : Z;
  AuthorizationConstraints : list Capability;
  AICDelegation : DelegationAuthorization
}.

Record PrincipalAuthorization := {
  Grants : list Capability; PAConstraints : list Capability; AllowedMode : Z
}.

(** ** Values of package [crypto/x509] *)
Inductive PublicKey :=
  | ECDSAKey (id : Z)
  | RSAKey (id : Z)
  | Ed25519Key (id : Z)
  | OtherKey (typ : string).

(** [Issuer] and [Subject] are the names as [String()] prints them, a URI is its
    scheme and its text, an extension its identifier and its value. *)
Record Certificate := {
  SerialNumber : option Z; CommonName : string; Organization : list string; OrganizationalUnit : list string;
  Issuer : string; IssuerCN : string; NotBefore : Time; NotAfter : Time;
  RawSubjectPublicKeyInfo : bytes; CertPublicKey : option PublicKey; Raw : bytes;
  Subject : string; RawIssuer : bytes; RawSubject : bytes;
  URIs : list (string * string); Extensions : list (string * bytes)
}.

(** ** Values of package [semantics] *)
Abbreviation Params := (gmap string json).

(** [nil] parameters are [None]: no parameter constraint. *)
Record Grant := {
  GrantID : string; GrantParams : option Params; GrantConstraints : list string
}.

Inductive Verdict := VerdictAllow | VerdictDeny | VerdictAllowUR.

#[export] Instance Verdict_eq_dec : EqDecision Verdict.
Proof. solve_decision. Defined.

Record Decision := { DecVerdict : Verdict; DecReason : string; Unresolved : list string }.

(** ** Functions of package [pki] *)
Class CapabilityNames := {
  (** [Capability.FullID]: the canonical [schemeId:capabilityId]. *)
  FullID : Capability -> string
}.

Class CertificateParser := {
  ParseAIC : Certificate -> result (option AIC);
  ParseUserPermissionExtension : Certificate -> result (option PrincipalAuthorization)
}.

Class PkiMethods := {
  ValidateAIC : AIC -> option error;
  PrincipalUid_String : PrincipalUid -> string;
  HashAlgoOID : PrincipalUid -> string;
  HasProtocol : AIC -> string -> bool;
  CheckPermission : AIC -> string -> bool;
  GrantIds : PrincipalAuthorization -> list string;
  IntersectPermissions : AIC -> PrincipalAuthorization -> list string;
  DA_IsPresent : DelegationAuthorization -> bool
}.
