(* ===== verification/Merkle.v ===== *)
(** The Merkle tree and the sealed audit chain of [src/merkle.go].

    Section [Tree] translates [NewMerkleTree], [Proof] and [VerifyProof] over
    any [HashFunction]; section [Chain] the batches of [AuditChain].  A [nil]
    root is the empty byte string (a digest is never empty).  Methods of the
    chain run under its mutex, so each is one atomic state transformer; the
    [onSeal] callback is the list of roots it was called with.  The clock
    reading of [Seal] is an argument. *)
From S2P Require Import Prelude GoStrings Sha256.
From stdpp Require Import pretty.
From Stdlib Require Strings.Byte.
Local Open Scope Z_scope.
Local Open Scope list_scope.

(** * Definitions *)

(** [src/merkle.go:ProofStep] *)
Record ProofStep := { Sibling : bytes; Left : bool }.

(** [src/merkle.go:MerkleTree] *)
Record MerkleTree := { leaves : list bytes; levels : list (list bytes); root : bytes }.

(** An out-of-range index panics. *)
Definition index_panic : error := ErrNew "panic: index out of range".

Section Tree.
  Context {HF : HashFunction}.

(** [src/merkle.go:HashLeaf] *)
Definition HashLeaf (data : bytes) : bytes := Sum256 (Byte.x00 :: data).

(** [src/merkle.go:HashNode] *)
Definition HashNode (left right : bytes) : bytes := Sum256 (Byte.x01 :: left ++ right).

(** [src/merkle.go:53-60 NewMerkleTree] one pass of the inner loop, the next
    level; an odd last node is carried up unchanged. *)
Fixpoint next_level (current : list bytes) : list bytes :=
  match current with
  | a :: b :: rest => HashNode a b :: next_level rest
  | [a] => [a]
  | [] => []
  end.

(** [src/merkle.go:52-63 NewMerkleTree] the loop [for len(current) > 1]; the
    levels it appends. *)
Fixpoint build_levels (fuel : nat) (current : list bytes) : list (list bytes) :=
  match fuel with
  | O => []
  | S fuel' =>
      if (1 <? length current)%nat
      then next_level current :: build_levels fuel' (next_level current)
      else []
  end.

(** [src/merkle.go:NewMerkleTree] *)
Definition NewMerkleTree (ls : list bytes) : MerkleTree :=
  match ls with
  | [] => {| leaves := []; levels := []; root := [] |}
  | _ =>
      let current := map HashLeaf ls in
      let lvls := current :: build_levels (length ls) current in
      {| leaves := ls; levels := lvls;
         root := match List.last lvls [] with h :: _ => h | [] => [] end |}
  end.

(** [src/merkle.go:Root] *)
Definition Root (m : MerkleTree) : bytes := root m.

(** [src/merkle.go:RootHex] *)
Definition RootHex (m : MerkleTree) : string :=
  match root m with [] => "" | r => hex_encode r end.

(** [src/merkle.go:95-106 Proof] the loop over all levels but the last. *)
Fixpoint proof_loop (lvls : list (list bytes)) (idx : nat) : result (list ProofStep) :=
  match lvls with
  | nodes :: (_ :: _) as rest =>
      if Nat.even idx then
        match nodes !! S idx with
        | Some s => p ← proof_loop rest (idx / 2); Ok ({| Sibling := s; Left := false |} :: p)
        | None => proof_loop rest (idx / 2)
        end
      else
        match nodes !! (idx - 1)%nat with
        | Some s => p ← proof_loop rest (idx / 2); Ok ({| Sibling := s; Left := true |} :: p)
        | None => Err index_panic
        end
  | _ => Ok []
  end.

(** [src/merkle.go:Proof] *)
Definition MerkleTree_Proof (m : MerkleTree) (leafIndex : Z) : result (list ProofStep) :=
  if (leafIndex <? 0) || (zlen (leaves m) <=? leafIndex)
  then Err (Errorf "merkle: leaf index %d out of range" [AInt leafIndex])
  else proof_loop (levels m) (Z.to_nat leafIndex).

(** [src/merkle.go:114-118 VerifyProof] one step of the loop. *)
Definition proof_step (hash : bytes) (step : ProofStep) : bytes :=
  if Left step then HashNode (Sibling step) hash else HashNode hash (Sibling step).

(** [src/merkle.go:VerifyProof] *)
Definition VerifyProof (leaf : bytes) (proof : list ProofStep) (rt : bytes) : bool :=
  let hash := foldl proof_step (HashLeaf leaf) proof in
  (0 <? zlen hash) && (0 <? zlen rt) && bool_decide (hash = rt).

(** [src/merkle.go:VerifyProofBounded] *)
Definition VerifyProofBounded (leaf : bytes) (proof : list ProofStep) (rt : bytes)
    (maxProofLen : Z) : bool :=
  if (0 <=? maxProofLen) && (maxProofLen <? zlen proof) then false
  else VerifyProof leaf proof rt.
End Tree.

(** [src/merkle.go:SealedTree] *)
Record SealedTree := {
  BatchNumber : Z; Timestamp : string; Previous : string; TreeRoot : string; Size : Z
}.

(** [src/merkle.go:AuditChain]: [sealed] lists the roots [onSeal] was
    called with, oldest first; it stays empty when no callback is configured. *)
Record AuditChain := {
  trees : list SealedTree; batchSize : Z; onSeal : bool; sealed : list bytes
}.

(** [src/merkle.go:NewAuditChain] *)
Definition NewAuditChain (bs : Z) (cb : bool) : AuditChain :=
  {| trees := []; batchSize := if bs <=? 0 then 1000 else bs; onSeal := cb; sealed := [] |}.

(** [src/merkle.go:ProofStepJSON] *)
Record ProofStepJSON := { SiblingJSON : string; LeftJSON : bool }.

(** [src/merkle.go:VerifyRequest] *)
Record VerifyRequest := { Batch : Z; Leaf : string; ReqProof : list ProofStepJSON }.

(** [src/merkle.go:VerifyResponse] *)
Record VerifyResponse := { Valid : bool; RespError : option error }.

Section Chain.
  Context {HF : HashFunction}.

(** [src/merkle.go:166-178 Seal] the tree built, appended and reported. *)
Definition append_sealed (c : AuditChain) (entries : list bytes) (previousRoot : string)
    (now : Z) : AuditChain * SealedTree :=
  let tree := NewMerkleTree entries in
  let st := {| BatchNumber := zlen (trees c); Timestamp := pretty now;
               Previous := previousRoot; TreeRoot := RootHex tree; Size := zlen entries |} in
  ({| trees := trees c ++ [st]; batchSize := batchSize c; onSeal := onSeal c;
      sealed := sealed c ++ (if onSeal c then [Root tree] else []) |}, st).

(** [src/merkle.go:Seal] *)
Definition Seal (c : AuditChain) (entries : list bytes) (previousRoot : string) (now : Z)
  : AuditChain * SealedTree := append_sealed c entries previousRoot now.

(** [src/merkle.go:LatestRoot] *)
Definition LatestRoot (c : AuditChain) : string :=
  match last (trees c) with Some st => TreeRoot st | None => "" end.

(** [src/merkle.go:SealChecked] *)
Definition SealChecked (c : AuditChain) (entries : list bytes) (previousRoot : string) (now : Z)
  : AuditChain * result SealedTree :=
  match last (trees c) with
  | Some st =>
      if String.eqb previousRoot "" then
        (c, Err (Errorf "audit chain: batch %d must link to previous root (got empty previous_root)"
                   [AInt (zlen (trees c))]))
      else if negb (String.eqb previousRoot (TreeRoot st)) then
        (c, Err (Errorf "audit chain: previous_root %q does not match latest root %q (continuity broken)"
                   [AStr previousRoot; AStr (TreeRoot st)]))
      else let '(c', st') := append_sealed c entries previousRoot now in (c', Ok st')
  | None => let '(c', st') := append_sealed c entries previousRoot now in (c', Ok st')
  end.

(** [src/merkle.go:221-229 VerifyContinuity] the loop from index [i], after
    the batch [prev]. *)
Fixpoint continuity_from (i : Z) (prev : SealedTree) (l : list SealedTree) : option error :=
  match l with
  | [] => None
  | st :: l' =>
      if negb (String.eqb (Previous st) (TreeRoot prev)) then
        Some (Errorf "audit chain discontinuity at batch %d: previous=%q want=%q"
                [AInt i; AStr (Previous st); AStr (TreeRoot prev)])
      else continuity_from (i + 1) st l'
  end.

(** [src/merkle.go:VerifyContinuity] *)
Definition VerifyContinuity (c : AuditChain) : option error :=
  match trees c with [] => None | st :: l => continuity_from 1 st l end.

(** [src/merkle.go:247-250 Verify] [int(math.Ceil(math.Log2(float64(size))))],
    exact for every size a slice can have in memory (below 2^40). *)
Definition max_proof_len (size : Z) : Z := if 1 <? size then Z.log2_up size else 0.

(** [src/merkle.go:Verify] *)
Definition Verify (c : AuditChain) (batchNumber : Z) (leaf : bytes) (proof : list ProofStep)
  : result bool :=
  if (batchNumber <? 0) || (zlen (trees c) <=? batchNumber)
  then Err (Errorf "audit chain: batch %d not found" [AInt batchNumber])
  else match trees c !! Z.to_nat batchNumber with
       | None => Err index_panic
       | Some st =>
           match hex_decode (TreeRoot st) with
           | Err e => Err (Errorf "audit chain: invalid root hash: %w" [AWrap e])
           | Ok rt => Ok (VerifyProofBounded leaf proof rt (max_proof_len (Size st)))
           end
       end.

(** [src/merkle.go:LatestRootBytes] *)
Definition LatestRootBytes (c : AuditChain) : bytes :=
  match last (trees c) with
  | Some st => hex_prefix (TreeRoot st)
  | None => []
  end.

(** [src/merkle.go:BatchCount] *)
Definition BatchCount (c : AuditChain) : Z := zlen (trees c).

(** [src/merkle.go:Dump] *)
Definition Dump (c : AuditChain) : string :=
  foldl (fun s st => s +:+ pretty (BatchNumber st) +:+ "|" +:+ Timestamp st +:+ "|" +:+
           Previous st +:+ "|" +:+ TreeRoot st +:+ "|" +:+ pretty (Size st) +:+ String (chr 10) "")
    "" (trees c).

(** [src/merkle.go:GetTree] *)
Definition GetTree (c : AuditChain) (batchNumber : Z) : option SealedTree :=
  if (batchNumber <? 0) || (zlen (trees c) <=? batchNumber) then None
  else trees c !! Z.to_nat batchNumber.

(** [src/merkle.go:334-340 VerifyJSON] the loop that decodes the proof. *)
Definition decode_step (p : ProofStepJSON) : result ProofStep :=
  match hex_decode (SiblingJSON p) with
  | Err e => Err (Errorf "invalid sibling encoding: " [AErr e])
  | Ok s => Ok {| Sibling := s; Left := LeftJSON p |}
  end.

(** [src/merkle.go:VerifyJSON] *)
Definition VerifyJSON (c : AuditChain) (req : VerifyRequest) : VerifyResponse :=
  match hex_decode (Leaf req) with
  | Err e => {| Valid := false; RespError := Some (Errorf "invalid leaf encoding: " [AErr e]) |}
  | Ok leaf =>
      match map_result decode_step (ReqProof req) with
      | Err e => {| Valid := false; RespError := Some e |}
      | Ok proof =>
          match Verify c (Batch req) leaf proof with
          | Err e => {| Valid := false; RespError := Some e |}
          | Ok ok => {| Valid := ok; RespError := None |}
          end
      end
  end.
End Chain.

(** * The reference tree

    The tree the levels describe, as an inductive type: its root hash, its
    leaves in order and every string it hashes. *)
Inductive mtree :=
  | MLeaf (d : bytes)
  | MNode (l r : mtree).

Section Reference.
  Context {HF : HashFunction}.

Fixpoint thash (t : mtree) : bytes :=
  match t with MLeaf d => HashLeaf d | MNode l r => HashNode (thash l) (thash r) end.

Fixpoint tleaves (t : mtree) : list bytes :=
  match t with MLeaf d => [d] | MNode l r => tleaves l ++ tleaves r end.

Fixpoint tinputs (t : mtree) : list bytes :=
  match t with
  | MLeaf d => [Byte.x00 :: d]
  | MNode l r => (Byte.x01 :: thash l ++ thash r) :: tinputs l ++ tinputs r
  end.

Fixpoint pair_trees (f : list mtree) : list mtree :=
  match f with a :: b :: rest => MNode a b :: pair_trees rest | _ => f end.

(** The tree [NewMerkleTree] builds. *)
Fixpoint fold_forest (fuel : nat) (f : list mtree) : list mtree :=
  match fuel with
  | O => f
  | S fuel' => if (1 <? length f)%nat then fold_forest fuel' (pair_trees f) else f
  end.
Definition tree_of (ls : list bytes) : option mtree :=
  head (fold_forest (length ls) (map MLeaf ls)).

(** The strings hashed to build the tree over [ls], and by [VerifyProof]. *)
Definition tree_inputs (ls : list bytes) : list bytes :=
  match tree_of ls with Some t => tinputs t | None => [] end.
Definition step_input (h : bytes) (s : ProofStep) : bytes :=
  Byte.x01 :: (if Left s then Sibling s ++ h else h ++ Sibling s).
Fixpoint steps_inputs (h : bytes) (p : list ProofStep) : list bytes :=
  match p with [] => [] | s :: p' => step_input h s :: steps_inputs (proof_step h s) p' end.
Definition verify_inputs (leaf : bytes) (p : list ProofStep) : list bytes :=
  (Byte.x00 :: leaf) :: steps_inputs (HashLeaf leaf) p.

(** * Levels *)

Lemma two_step_list {A} (P : list A -> Prop) :
  P [] -> (forall a, P [a]) -> (forall a b l, P l -> P (a :: b :: l)) -> forall l, P l.
Proof.
  intros H0 H1 H2 l. enough (P l /\ forall a, P (a :: l)) by tauto.
  induction l as [|b l [IH1 IH2]]; auto.
Qed.

Lemma next_level_lookup cur k :
  next_level cur !! k =
  match cur !! (2 * k)%nat, cur !! S (2 * k) with
  | Some a, Some b => Some (HashNode a b)
  | Some a, None => Some a
  | None, _ => None
  end.
Proof.
  revert k. induction cur as [|a|a b l IH] using two_step_list; intros [|k]; try done.
  - replace (2 * S k)%nat with (S (S (2 * k))) by lia. apply IH.
Qed.

Lemma next_level_length cur : length (next_level cur) = Nat.div2 (S (length cur)).
Proof. induction cur as [|a|a b l IH] using two_step_list; simpl in *; auto. Qed.

Lemma next_level_shorter cur :
  (1 < length cur)%nat -> (0 < length (next_level cur) < length cur)%nat.
Proof.
  intros H. rewrite next_level_length, Nat.div2_div.
  pose proof (Nat.div_mod_eq (S (length cur)) 2).
  pose proof (Nat.mod_upper_bound (S (length cur)) 2). lia.
Qed.

(** The last level of the loop, started from [cur]. *)
Definition top_level (fuel : nat) (cur : list bytes) : list bytes :=
  List.last (cur :: build_levels fuel cur) [].

Lemma top_level_step fuel cur :
  (1 < length cur)%nat -> top_level (S fuel) cur = top_level fuel (next_level cur).
Proof.
  intros H. unfold top_level. cbn [build_levels].
  by rewrite (proj2 (Nat.ltb_lt _ _) H).
Qed.

Lemma top_level_stop fuel cur : (length cur <= 1)%nat -> top_level fuel cur = cur.
Proof.
  intros H. unfold top_level. destruct fuel; [done|]. cbn [build_levels].
  by rewrite (proj2 (Nat.ltb_ge _ _) H).
Qed.

(** The fuel [length cur] is enough: the loop stops at a single node. *)
Lemma top_level_single fuel cur :
  (0 < length cur <= fuel)%nat -> length (top_level fuel cur) = 1%nat.
Proof.
  revert cur. induction fuel as [|fuel IH]; intros cur H; [lia|].
  destruct (Nat.leb_spec (length cur) 1).
  - rewrite top_level_stop by done. lia.
  - rewrite top_level_step by done. apply IH.
    pose proof (next_level_shorter cur). lia.
Qed.

Lemma log2_up_half n : 1 < n -> Z.log2_up n = Z.succ (Z.log2_up ((n + 1) / 2)).
Proof.
  intros H. pose proof (Z.log2_up_spec n H) as [Hlo Hhi].
  pose proof (Z.log2_up_pos n H) as Hp.
  assert (2 ^ Z.log2_up n = 2 * 2 ^ Z.pred (Z.log2_up n)) as E.
  { rewrite <- Z.pow_succ_r by lia. f_equal. lia. }
  destruct (Z.eq_dec n 2) as [->|Hn]; [done|].
  assert (1 < Z.log2_up n) as Hp2.
  { destruct (Z.le_gt_cases (Z.log2_up n) 1); [|done].
    assert (Z.log2_up n = 1) as E1 by lia. rewrite E1 in Hhi. lia. }
  rewrite (Z.log2_up_unique ((n + 1) / 2) (Z.pred (Z.log2_up n))); [lia|lia|].
  assert (2 ^ Z.pred (Z.log2_up n) = 2 * 2 ^ Z.pred (Z.pred (Z.log2_up n))) as E'.
  { rewrite <- Z.pow_succ_r by lia. f_equal. lia. }
  pose proof (Z.div_mod (n + 1) 2 ltac:(lia)). pose proof (Z.mod_pos_bound (n + 1) 2 ltac:(lia)).
  lia.
Qed.

Lemma zlen_next_level cur : zlen (next_level cur) = (zlen cur + 1) / 2.
Proof.
  unfold zlen. rewrite next_level_length, Nat.div2_div, Nat2Z.inj_div, Nat2Z.inj_succ. done.
Qed.

(** The number of levels above [cur] is the height [ceil(log2 n)]. *)
Lemma build_levels_height fuel cur :
  (0 < length cur <= fuel)%nat -> zlen (build_levels fuel cur) = Z.log2_up (zlen cur).
Proof.
  revert cur. induction fuel as [|fuel IH]; intros cur H; [lia|]. cbn [build_levels].
  destruct (Nat.ltb_spec 1 (length cur)) as [Hl|Hl].
  - pose proof (next_level_shorter cur Hl).
    rewrite (log2_up_half (zlen cur)), <- zlen_next_level, <- IH by (unfold zlen in *; lia).
    unfold zlen. simpl. lia.
  - replace (zlen cur) with 1 by (unfold zlen; lia). done.
Qed.

(** * Completeness of the audit path *)

Lemma proof_loop_cons nodes nxt lvls idx :
  proof_loop (nodes :: nxt :: lvls) idx =
  if Nat.even idx then
    match nodes !! S idx with
    | Some s => p ← proof_loop (nxt :: lvls) (idx / 2); Ok ({| Sibling := s; Left := false |} :: p)
    | None => proof_loop (nxt :: lvls) (idx / 2)
    end
  else
    match nodes !! (idx - 1)%nat with
    | Some s => p ← proof_loop (nxt :: lvls) (idx / 2); Ok ({| Sibling := s; Left := true |} :: p)
    | None => Err index_panic
    end.
Proof. reflexivity. Qed.

Lemma proof_loop_complete fuel cur idx h :
  (0 < length cur <= fuel)%nat -> cur !! idx = Some h ->
  exists p, proof_loop (cur :: build_levels fuel cur) idx = Ok p /\
    top_level fuel cur = [foldl proof_step h p] /\
    (length p <= length (build_levels fuel cur))%nat.
Proof.
  revert cur idx h. induction fuel as [|fuel IH]; intros cur idx h Hl Hh; [lia|].
  destruct (Nat.ltb_spec 1 (length cur)) as [H1|H1].
  - rewrite top_level_step by done. cbn [build_levels].
    rewrite (proj2 (Nat.ltb_lt _ _) H1).
    pose proof (next_level_shorter cur H1). pose proof (next_level_lookup cur (idx / 2)) as Hn.
    assert (forall h', next_level cur !! (idx / 2)%nat = Some h' -> exists p,
      proof_loop (next_level cur :: build_levels fuel (next_level cur)) (idx / 2) = Ok p /\
      top_level fuel (next_level cur) = [foldl proof_step h' p] /\
      (length p <= length (build_levels fuel (next_level cur)))%nat) as IH'
      by (intros h' Hh'; apply IH; [lia | done]).
    rewrite proof_loop_cons. destruct (Nat.even idx) eqn:Ev.
    + apply Nat.even_spec in Ev as [k ->].
      replace (2 * k / 2)%nat with k in * by (rewrite Nat.mul_comm, Nat.div_mul; lia).
      rewrite Hh in Hn. destruct (cur !! S (2 * k)) as [s|] eqn:Es;
        destruct (IH' _ Hn) as (p & Hp & Ht & Hlen); rewrite Hp; cbn -[proof_loop].
      * eexists. split; [done|]. split; [done|]. simpl. lia.
      * exists p. split; [done|]. split; [done|]. lia.
    + assert (Nat.odd idx = true) as Hodd by (unfold Nat.odd; by rewrite Ev).
      apply Nat.odd_spec in Hodd as [k ->].
      replace ((2 * k + 1) / 2)%nat with k in *
        by (apply (Nat.div_unique _ 2 k 1); lia).
      replace (2 * k + 1)%nat with (S (2 * k)) in * by lia. rewrite Hh in Hn.
      replace (S (2 * k) - 1)%nat with (2 * k)%nat by lia.
      destruct (cur !! (2 * k)%nat) as [s|] eqn:Es;
        [|apply lookup_ge_None in Es; apply lookup_lt_Some in Hh; lia].
      destruct (IH' _ Hn) as (p & Hp & Ht & Hlen); rewrite Hp; cbn -[proof_loop].
      eexists. split; [done|]. split; [done|]. simpl. lia.
  - assert (idx = 0%nat) as -> by (apply lookup_lt_Some in Hh; lia).
    destruct cur as [|c [|? ?]]; simplify_eq/=; [|lia].
    exists []. by rewrite top_level_stop by (simpl; lia).
Qed.

(** * The levels are those of the reference tree *)

Lemma next_level_pair f : next_level (map thash f) = map thash (pair_trees f).
Proof. induction f as [|a|a b l IH] using two_step_list; simpl; [done|done|by rewrite IH]. Qed.

Lemma pair_trees_leaves f : concat (map tleaves (pair_trees f)) = concat (map tleaves f).
Proof.
  induction f as [|a|a b l IH] using two_step_list; simpl; [done|done|].
  by rewrite IH, <- app_assoc.
Qed.

Lemma top_level_fold fuel f : top_level fuel (map thash f) = map thash (fold_forest fuel f).
Proof.
  revert f. induction fuel as [|fuel IH]; intros f; [done|]. cbn [fold_forest].
  destruct (Nat.ltb_spec 1 (length f)).
  - rewrite top_level_step by (by rewrite length_map). rewrite next_level_pair. apply IH.
  - by rewrite top_level_stop by (by rewrite length_map).
Qed.

Lemma fold_forest_leaves fuel f :
  concat (map tleaves (fold_forest fuel f)) = concat (map tleaves f).
Proof.
  revert f. induction fuel as [|fuel IH]; intros f; [done|]. cbn [fold_forest].
  cases; [by rewrite IH, pair_trees_leaves | done].
Qed.

Lemma concat_leaves ls : concat (map tleaves (map MLeaf ls)) = ls.
Proof. induction ls as [|d ls IH]; simpl; [done|by rewrite IH]. Qed.

Lemma tree_of_spec ls : ls <> [] ->
  exists t, tree_of ls = Some t /\ tleaves t = ls /\
    top_level (length ls) (map HashLeaf ls) = [thash t].
Proof.
  intros Hls. unfold tree_of.
  assert (map HashLeaf ls = map thash (map MLeaf ls)) as -> by (by rewrite map_map).
  pose proof (fold_forest_leaves (length ls) (map MLeaf ls)) as Hl.
  rewrite concat_leaves in Hl. rewrite top_level_fold.
  assert (length (map thash (fold_forest (length ls) (map MLeaf ls))) = 1%nat) as H1.
  { rewrite <- top_level_fold. apply top_level_single. rewrite !length_map.
    destruct ls; simpl; [done|lia]. }
  rewrite length_map in H1. destruct (fold_forest _ _) as [|t [|? ?]]; try discriminate H1.
  exists t. simpl in Hl. by rewrite app_nil_r in Hl.
Qed.

Lemma root_top ls : ls <> [] -> Root (NewMerkleTree ls) =
  match top_level (length ls) (map HashLeaf ls) with h :: _ => h | [] => [] end.
Proof. by destruct ls. Qed.

Lemma levels_new ls : ls <> [] ->
  levels (NewMerkleTree ls) = map HashLeaf ls :: build_levels (length ls) (map HashLeaf ls).
Proof. by destruct ls. Qed.

Lemma leaves_new ls : leaves (NewMerkleTree ls) = ls.
Proof. by destruct ls. Qed.

Lemma root_length ls : ls <> [] -> length (Root (NewMerkleTree ls)) = 32%nat.
Proof.
  intros H. rewrite root_top by done. destruct (tree_of_spec ls H) as (t & _ & _ & ->).
  destruct t; apply Sum256_length.
Qed.

Lemma RootHex_encode ls : RootHex (NewMerkleTree ls) = hex_encode (Root (NewMerkleTree ls)).
Proof. unfold RootHex, Root. by destruct (root (NewMerkleTree ls)). Qed.

(** * Soundness of the audit path *)

Lemma thash_length t : length (thash t) = 32%nat.
Proof. destruct t; apply Sum256_length. Qed.

Lemma verify_hash_length leaf p : length (foldl proof_step (HashLeaf leaf) p) = 32%nat.
Proof.
  induction p as [|s p _] using rev_ind; [apply Sum256_length|].
  rewrite foldl_app. simpl. unfold proof_step. destruct (Left s); apply Sum256_length.
Qed.

Lemma steps_inputs_app h p q :
  steps_inputs h (p ++ q) = steps_inputs h p ++ steps_inputs (foldl proof_step h p) q.
Proof. revert h. induction p as [|s p IH]; intros h; simpl; [done|by rewrite IH]. Qed.

Lemma proof_step_input h s : proof_step h s = Sum256 (step_input h s).
Proof. unfold proof_step, step_input, HashNode. by destruct (Left s). Qed.

Lemma app_inj_len {A} (a b c d : list A) :
  a ++ b = c ++ d -> length b = length d -> a = c /\ b = d.
Proof.
  intros H Hl. apply app_inj_2; [|done]. exact Hl.
Qed.

(** Digests are 32 bytes, so the children are recovered from a node's input. *)
Lemma node_input_split l r h s :
  length h = 32%nat -> Byte.x01 :: thash l ++ thash r = step_input h s ->
  thash l = h \/ thash r = h.
Proof.
  unfold step_input. intros Hh [= Heq].
  pose proof (thash_length l). pose proof (thash_length r).
  apply (f_equal length) in Heq as Hlen. destruct (Left s); rewrite !length_app in Hlen.
  - apply app_inj_len in Heq as [_ ?]; [by right | lia].
  - apply app_inj_len in Heq as [? _]; [by left | lia].
Qed.

(** Whatever path hashes up to the root of [t], its leaf is a leaf of [t] or
    two of the strings hashed on the two sides collide. *)
Lemma verify_sound_tree t p leaf :
  foldl proof_step (HashLeaf leaf) p = thash t ->
  leaf ∈ tleaves t \/
  exists x y, x ∈ tinputs t /\ y ∈ verify_inputs leaf p /\ collision x y.
Proof.
  revert t. induction p as [|s p IH] using rev_ind; intros t.
  - simpl. intros H. destruct t as [d|l r]; simpl in *.
    + destruct (decide (leaf = d)) as [->|Hne]; [left; set_solver|].
      right. exists (Byte.x00 :: d), (Byte.x00 :: leaf).
      split; [set_solver|]. split; [set_solver|]. split; [congruence | done].
    + right. exists (Byte.x01 :: thash l ++ thash r), (Byte.x00 :: leaf).
      split; [set_solver|]. split; [set_solver|]. by split.
  - rewrite foldl_app. simpl. set (h := foldl _ _ p). intros H.
    rewrite proof_step_input in H. unfold verify_inputs.
    assert (step_input h s ∈ verify_inputs leaf (p ++ [s])) as Hin.
    { unfold verify_inputs. rewrite steps_inputs_app. simpl. fold h. set_solver. }
    destruct t as [d|l r]; simpl in H.
    + right. exists (Byte.x00 :: d), (step_input h s).
      split; [set_solver|]. split; [done|]. by split.
    + set (y := step_input h s) in *. set (x := Byte.x01 :: thash l ++ thash r).
      destruct (decide (x = y)) as [Heq|Hne].
      2: { right. exists x, y. split; [set_solver|]. split; [done|]. by split. }
      assert (thash l = h \/ thash r = h) as Hlr.
      { apply (node_input_split l r h s); [apply verify_hash_length | exact Heq]. }
      assert (forall q, (q = l \/ q = r) -> thash q = h ->
        leaf ∈ tleaves (MNode l r) \/
        exists x y, x ∈ tinputs (MNode l r) /\ y ∈ verify_inputs leaf (p ++ [s]) /\ collision x y)
        as Hq.
      { intros q Hq E. destruct (IH q) as [Hl|(x' & y' & Hx & Hy & Hc)]; [by rewrite E|..].
        - left. simpl. apply elem_of_app. destruct Hq as [-> | ->]; auto.
        - right. exists x', y'. split; [|split; [|done]].
          + simpl. right. apply elem_of_app. destruct Hq as [-> | ->]; auto.
          + unfold verify_inputs in *. rewrite steps_inputs_app.
            apply elem_of_cons in Hy as [->|Hy]; [by left|].
            right. apply elem_of_app. by left. }
      destruct Hlr as [E|E]; [apply (Hq l) | apply (Hq r)]; auto.
Qed.

(** * The sealed chain *)

Lemma max_proof_len_log2 n : 0 < n -> max_proof_len n = Z.log2_up n.
Proof.
  intros H. unfold max_proof_len. destruct (Z.ltb_spec 1 n); [done|].
  by replace n with 1 by lia.
Qed.

Lemma proof_accepted entries i e : entries !! i = Some e ->
  exists p, MerkleTree_Proof (NewMerkleTree entries) (Z.of_nat i) = Ok p /\
    zlen p <= max_proof_len (zlen entries) /\
    VerifyProofBounded e p (Root (NewMerkleTree entries)) (max_proof_len (zlen entries)) = true.
Proof.
  intros He. assert (entries <> []) as Hne by (intros ->; done).
  pose proof (lookup_lt_Some _ _ _ He) as Hi.
  destruct (proof_loop_complete (length entries) (map HashLeaf entries) i (HashLeaf e))
    as (p & Hp & Ht & Hl).
  { rewrite length_map. lia. }
  { rewrite list_lookup_fmap. by rewrite He. }
  exists p. unfold MerkleTree_Proof. rewrite leaves_new, levels_new by done.
  rewrite (proj2 (Z.ltb_ge _ _)) by lia.
  rewrite (proj2 (Z.leb_gt _ _)) by (unfold zlen; lia). rewrite Nat2Z.id.
  assert (zlen p <= max_proof_len (zlen entries)) as Hlen.
  { rewrite max_proof_len_log2 by (unfold zlen; lia).
    replace (zlen entries) with (zlen (map HashLeaf entries)) by (unfold zlen; by rewrite length_map).
    rewrite <- (build_levels_height (length entries)) by (rewrite length_map; lia).
    unfold zlen. lia. }
  split; [exact Hp|]. split; [done|].
  unfold VerifyProofBounded. rewrite (proj2 (Z.ltb_ge _ _) Hlen), andb_false_r.
  unfold VerifyProof. rewrite root_top, Ht by done. unfold zlen at 1 2.
  rewrite verify_hash_length. by rewrite bool_decide_eq_true_2.
Qed.

Lemma root_sound entries leaf p :
  VerifyProof leaf p (Root (NewMerkleTree entries)) = true ->
  leaf ∈ entries \/
  exists x y, x ∈ tree_inputs entries /\ y ∈ verify_inputs leaf p /\ collision x y.
Proof.
  unfold VerifyProof. intros H. bools. destruct (decide (entries = [])) as [->|Hne]; [done|].
  destruct (tree_of_spec entries Hne) as (t & Ht & Hl & Htop).
  rewrite root_top, Htop in H0 by done.
  apply verify_sound_tree in H0. rewrite Hl in H0. unfold tree_inputs. by rewrite Ht.
Qed.

(** Consecutive batches are linked. *)
Definition linked (l : list SealedTree) : Prop :=
  forall i a b, l !! i = Some a -> l !! S i = Some b -> Previous b = TreeRoot a.

Lemma continuity_from_linked i prev l : continuity_from i prev l = None <-> linked (prev :: l).
Proof.
  revert i prev. induction l as [|st l IH]; intros i prev; simpl.
  - split; [|done]. intros _ [|j] a b Ha Hb; done.
  - destruct (String.eqb_spec (Previous st) (TreeRoot prev)) as [E|E]; simpl.
    + rewrite IH. split.
      * intros H [|j] a b Ha Hb; simplify_eq/=; [done | by apply (H j)].
      * intros H j a b Ha Hb. by apply (H (S j)).
    + split; [done|]. intros H. by specialize (H 0%nat prev st eq_refl eq_refl).
Qed.

Lemma VerifyContinuity_linked c : VerifyContinuity c = None <-> linked (trees c).
Proof.
  unfold VerifyContinuity. destruct (trees c) as [|st l]; [|apply continuity_from_linked].
  split; [|done]. intros _ i a b Ha. done.
Qed.

Lemma linked_snoc l st :
  linked (l ++ [st]) <-> linked l /\ forall p, last l = Some p -> Previous st = TreeRoot p.
Proof.
  split.
  - intros H. split.
    + intros i a b Ha Hb. apply (H i); by apply lookup_app_l_Some.
    + intros p Hp. rewrite last_lookup in Hp. pose proof (lookup_lt_Some _ _ _ Hp).
      apply (H (pred (length l))); [by apply lookup_app_l_Some|].
      rewrite lookup_app_r by lia. by replace (S (pred (length l)) - length l)%nat with 0%nat by lia.
  - intros [H Hlast] i a b Ha Hb.
    apply lookup_app_Some in Hb as [Hb|[Hge Hb]].
    + rewrite lookup_app_l in Ha by (apply lookup_lt_Some in Hb; lia). by apply (H i).
    + apply list_lookup_singleton_Some in Hb as [Hi <-].
      rewrite lookup_app_l in Ha by lia. apply Hlast. rewrite last_lookup.
      by replace (pred (length l)) with i by lia.
Qed.

(** Every way the chain changes: a batch sealed with or without the check. *)
Inductive chain_step : AuditChain -> AuditChain -> Prop :=
  | step_Seal c entries prev now : chain_step c (fst (Seal c entries prev now))
  | step_SealChecked c entries prev now : chain_step c (fst (SealChecked c entries prev now)).

Inductive checked_step : AuditChain -> AuditChain -> Prop :=
  | checked_SealChecked c entries prev now : checked_step c (fst (SealChecked c entries prev now)).

Definition chain_seal_of (c : AuditChain) (entries : list bytes) (prev : string) (now : Z) : SealedTree :=
  snd (append_sealed c entries prev now).

Lemma SealChecked_cases c entries prev now :
  (exists e, SealChecked c entries prev now = (c, Err e)) \/
  (SealChecked c entries prev now =
     (fst (append_sealed c entries prev now), Ok (chain_seal_of c entries prev now)) /\
   forall p, last (trees c) = Some p -> prev = TreeRoot p).
Proof.
  unfold SealChecked, chain_seal_of. destruct (append_sealed c entries prev now) as [c' st'].
  destruct (last (trees c)) as [st|] eqn:E; [|by right].
  destruct (String.eqb prev ""); [left; eauto|].
  destruct (String.eqb_spec prev (TreeRoot st)) as [->|]; simpl; [|left; eauto].
  right. split; [done|]. by intros ? [= <-].
Qed.

Lemma chain_step_grows c c' : chain_step c c' -> exists l, trees c' = trees c ++ l.
Proof.
  destruct 1 as [c entries prev now|c entries prev now]; [by eexists|].
  destruct (SealChecked_cases c entries prev now) as [[e ->]|[-> _]]; simpl.
  - exists []. by rewrite app_nil_r.
  - by eexists.
Qed.

Lemma chain_steps_grow c c' : rtc chain_step c c' -> exists l, trees c' = trees c ++ l.
Proof.
  induction 1 as [c|c c1 c2 H _ [l' IH]]; [exists []; by rewrite app_nil_r|].
  apply chain_step_grows in H as [l Hl]. exists (l ++ l'). by rewrite IH, Hl, app_assoc.
Qed.

(** What a later [Verify] of the batch sealed by [append_sealed] computes. *)
Lemma Verify_sealed c entries prev now c' leaf p :
  rtc chain_step (fst (append_sealed c entries prev now)) c' ->
  Verify c' (BatchNumber (chain_seal_of c entries prev now)) leaf p =
  Ok (VerifyProofBounded leaf p (Root (NewMerkleTree entries)) (max_proof_len (zlen entries))).
Proof.
  intros H. apply chain_steps_grow in H as [l Hl]. simpl in Hl. unfold Verify, chain_seal_of. simpl.
  assert (trees c' !! length (trees c) =
    Some (chain_seal_of c entries prev now)) as Hst.
  { rewrite Hl, <- app_assoc. by apply list_lookup_middle. }
  pose proof (lookup_lt_Some _ _ _ Hst).
  rewrite (proj2 (Z.ltb_ge _ _)) by (unfold zlen; lia).
  rewrite (proj2 (Z.leb_gt _ _)) by (unfold zlen; lia).
  replace (Z.to_nat (zlen (trees c))) with (length (trees c)) by (unfold zlen; lia).
  rewrite Hst. simpl. by rewrite RootHex_encode, hex_decode_encode.
Qed.

Lemma checked_step_linked c c' : checked_step c c' -> linked (trees c) -> linked (trees c').
Proof.
  destruct 1 as [c entries prev now]. intros Hc.
  destruct (SealChecked_cases c entries prev now) as [[e ->]|[-> Hp]]; [done|].
  simpl. apply linked_snoc. by split.
Qed.

(** Batches are numbered by their position. *)
Definition numbered (l : list SealedTree) : Prop :=
  forall i st, l !! i = Some st -> BatchNumber st = Z.of_nat i.

Lemma append_numbered c entries prev now :
  numbered (trees c) -> numbered (trees (fst (append_sealed c entries prev now))).
Proof.
  intros H i st. simpl. intros [Hi|[Hge Hi]]%lookup_app_Some; [by apply H|].
  apply list_lookup_singleton_Some in Hi as [Hi <-]. simpl. unfold zlen. lia.
Qed.

Lemma chain_step_numbered c c' : chain_step c c' -> numbered (trees c) -> numbered (trees c').
Proof.
  destruct 1 as [c entries prev now|c entries prev now]; [apply append_numbered|].
  destruct (SealChecked_cases c entries prev now) as [[e ->]|[-> _]]; [done|apply append_numbered].
Qed.

(** The request of [VerifyJSON] for a leaf and a path held in binary. *)
Definition json_request (b : Z) (leaf : bytes) (p : list ProofStep) : VerifyRequest :=
  {| Batch := b; Leaf := hex_encode leaf;
     ReqProof := map (fun s => {| SiblingJSON := hex_encode (Sibling s); LeftJSON := Left s |}) p |}.

Lemma decode_json_proof p :
  map_result decode_step
    (map (fun s => {| SiblingJSON := hex_encode (Sibling s); LeftJSON := Left s |}) p) = Ok p.
Proof.
  apply map_result_Ok. induction p as [|[sb lf] p IH]; simpl; constructor; [|done].
  unfold decode_step. simpl. by rewrite hex_decode_encode.
Qed.


(** * Properties *)

(** Every entry of a sealed batch has an audit path: [Proof] succeeds on
    its index, the path is no longer than the height bound that
    [AuditChain.Verify] computes, and [Verify] of that batch accepts the entry
    with it, whatever batches are sealed afterwards (with or without the
    continuity check). *)
Theorem sealed_entry_verifies c entries prev now c' i e
    (Hi : entries !! i = Some e)
    (Hc : rtc chain_step (fst (Seal c entries prev now)) c') :
  exists p, MerkleTree_Proof (NewMerkleTree entries) (Z.of_nat i) = Ok p /\
    zlen p <= max_proof_len (zlen entries) /\
    Verify c' (BatchNumber (snd (Seal c entries prev now))) e p = Ok true.
Proof.
  destruct (proof_accepted entries i e Hi) as (p & Hp & Hlen & Hv).
  exists p. repeat split; [done|done|]. rewrite <- Hv. by apply Verify_sealed.
Qed.

(** C34: whatever [Verify] accepts for a sealed batch is one of its entries, or
    the path exhibits a collision of the hash between a string hashed when the
    batch was sealed and a string hashed while verifying: leaves cannot be
    replaced, and inner nodes cannot be passed off as leaves. *)
Theorem accepted_entry_was_sealed c entries prev now c' leaf p
    (Hc : rtc chain_step (fst (Seal c entries prev now)) c')
    (Hv : Verify c' (BatchNumber (snd (Seal c entries prev now))) leaf p = Ok true) :
  leaf ∈ entries \/
  exists x y, x ∈ tree_inputs entries /\ y ∈ verify_inputs leaf p /\ collision x y.
Proof.
  setoid_rewrite Verify_sealed in Hv; [|exact Hc]. injection Hv as Hv.
  unfold VerifyProofBounded in Hv. cases_in Hv. by apply root_sound.
Qed.

(** In every chain reached through [SealChecked] alone, [VerifyContinuity]
    reports no error, each batch after the first carries the root of its
    predecessor, and batch numbers are the positions. *)
Theorem checked_chain_continuous bs cb c
    (Hc : rtc checked_step (NewAuditChain bs cb) c) :
  VerifyContinuity c = None /\ linked (trees c) /\ numbered (trees c).
Proof.
  enough (linked (trees c) /\ numbered (trees c)) as [Hl Hn]
    by (by rewrite VerifyContinuity_linked).
  apply (rtc_invariant checked_step (fun c => linked (trees c) /\ numbered (trees c)) _ _) in Hc;
    [done| |by split; [intros i a b Ha | intros i st Hi]].
  intros a b Hab [Hl Hn]. split; [by apply (checked_step_linked a)|].
  apply (chain_step_numbered a); [by destruct Hab; constructor | done].
Qed.

(** The unchecked [Seal] keeps a chain continuous exactly when the caller
    passes the root of the latest batch (any root does for the first batch);
    otherwise [VerifyContinuity] reports the break from then on. *)
Theorem Seal_continuity c entries prev now :
  VerifyContinuity (fst (Seal c entries prev now)) = None <->
  VerifyContinuity c = None /\ (trees c = [] \/ prev = LatestRoot c).
Proof.
  rewrite !VerifyContinuity_linked. unfold Seal. simpl. rewrite linked_snoc. simpl.
  unfold LatestRoot. destruct (last (trees c)) as [st|] eqn:E.
  - assert (trees c <> []) by (intros H; by rewrite H in E). naive_solver.
  - apply last_None in E. naive_solver.
Qed.

(** Once an empty batch has been sealed its root is the empty string, and
    [SealChecked] can never extend the chain again: an empty previous root is
    refused as missing and any other as not matching. *)
Theorem empty_batch_blocks_SealChecked c prev now entries prev' now' :
  exists e, SealChecked (fst (Seal c [] prev now)) entries prev' now' =
            (fst (Seal c [] prev now), Err e).
Proof.
  unfold SealChecked, Seal. simpl. rewrite last_snoc. simpl.
  destruct (String.eqb_spec prev' "") as [|Hne]; [by eexists|].
  destruct prev'; [done|]. by eexists.
Qed.

(** [VerifyJSON] on the hexadecimal encoding of a leaf and a path answers
    what [Verify] answers on the binary ones, errors included. *)
Theorem VerifyJSON_agrees c b leaf p :
  VerifyJSON c (json_request b leaf p) =
  match Verify c b leaf p with
  | Ok ok => {| Valid := ok; RespError := None |}
  | Err e => {| Valid := false; RespError := Some e |}
  end.
Proof. unfold VerifyJSON. simpl. by rewrite hex_decode_encode, decode_json_proof. Qed.
End Reference.

(** * Witnesses, with the SHA-256 of [Sha256] *)

Definition entry (s : string) : bytes := ascii_bytes s.
Definition three : list bytes := [entry "a"; entry "b"; entry "c"].
Definition chain0 : AuditChain := NewAuditChain 0 true.

Lemma sealed_entry_verifies_witness :
  exists p, MerkleTree_Proof (NewMerkleTree three) 2 = Ok p /\
    zlen p <= max_proof_len (zlen three) /\
    Verify (fst (Seal chain0 three "" 0)) 0 (entry "c") p = Ok true.
Proof. exact (sealed_entry_verifies chain0 three "" 0 _ 2 _ eq_refl (rtc_refl _ _)). Defined.

Lemma accepted_entry_was_sealed_witness :
  let p := match MerkleTree_Proof (NewMerkleTree three) 1 with Ok p => p | Err _ => [] end in
  entry "b" ∈ three \/
  exists x y, x ∈ tree_inputs three /\ y ∈ verify_inputs (entry "b") p /\ collision x y.
Proof.
  intros p. apply (accepted_entry_was_sealed chain0 three "" 0 _ (entry "b") p (rtc_refl _ _)).
  vm_compute. reflexivity.
Defined.

Lemma checked_chain_continuous_witness :
  let c1 := fst (SealChecked chain0 three "" 7) in
  let c2 := fst (SealChecked c1 [entry "d"] (LatestRoot c1) 8) in
  BatchCount c2 = 2 /\ VerifyContinuity c2 = None /\ linked (trees c2) /\ numbered (trees c2).
Proof.
  intros c1 c2. split; [vm_compute; reflexivity|].
  apply (checked_chain_continuous 0 true c2).
  apply rtc_l with c1; [constructor|]. apply rtc_once. constructor.
Defined.

