(* ===== verification/Capability.v ===== *)
(** Capability matching: [MatchCapability] of [src/policy.go], the matching of
    declarations against requests of [src/decision.go] and the coverage order
    of [src/delegation_chain.go].  [FullID] of package [pki] is a parameter
    ([CapabilityNames]); [pki.MatchCapabilityRules] and
    [pki.MatchCapabilityPriority] are arguments of the definitions that call
    them. *)
From S2P Require Import Prelude GoStrings GoPath GoTime GoJson Types.
From Stdlib Require Import Ascii.
Local Open Scope char_scope.
Local Open Scope string_scope.
Local Open Scope Z_scope.
Local Open Scope list_scope.

(** * Definitions *)

(** [src/policy.go:MatchCapability] exact, global, glob, then the [a:b:*]
    prefix form. *)
Definition MatchCapability (id pattern : string) : bool :=
  if String.eqb id pattern then true
  else if String.eqb pattern "*" then true
  else if (match filepath_Match pattern id with Ok ok => ok | Err _ => false end) then true
  else if has_suffix pattern ":*" then
    let prefix := stake (String.length pattern - 1) pattern in
    has_prefix id prefix
  else false.

(** [src/decision.go:aicCapabilityMatches] *)
Fixpoint aicCapabilityMatches (caps : list Capability) (req : string) : bool :=
  match caps with
  | [] => false
  | cap :: caps' =>
      if MatchCapability req (CapabilityId cap) then true
      else if negb (String.eqb (SchemeId cap) "") &&
              MatchCapability req (SchemeId cap +:+ ":" +:+ CapabilityId cap) then true
      else aicCapabilityMatches caps' req
  end.

(** [src/decision.go:aicCapabilityMatchPriority] over
    [pki.MatchCapabilityPriority]; 0 is [MatchPriorityNoMatch]. *)
Definition aicCapabilityMatchPriority (priority : string -> string -> Z)
    (caps : list Capability) (req : string) : Z :=
  foldl (fun best cap =>
    let p := priority req (CapabilityId cap) in
    let best := if best <? p then p else best in
    if String.eqb (SchemeId cap) "" then best
    else let p := priority req (SchemeId cap +:+ ":" +:+ CapabilityId cap) in
         if best <? p then p else best) 0 caps.

(** [pki.CapabilityRule] and [pki.CapabilityRuleMatch]. *)
Record CapabilityRule := { Pattern : string; Deny : bool }.
Record CapabilityRuleMatch := { Matched : bool; RuleDeny : bool }.

(** [src/decision.go:368-378 aicCapabilityDecision] the rule set of a decision:
    the deny rules, then the declarations. *)
Definition decision_rules (caps : list Capability) (denyRules : list string) : list CapabilityRule :=
  map (fun d => {| Pattern := d; Deny := true |}) denyRules ++
  flat_map (fun cap =>
    {| Pattern := CapabilityId cap; Deny := false |} ::
    (if String.eqb (SchemeId cap) "" then []
     else [{| Pattern := SchemeId cap +:+ ":" +:+ CapabilityId cap; Deny := false |}])) caps.

(** [src/decision.go:aicCapabilityDecision] over [pki.MatchCapabilityRules]. *)
Definition aicCapabilityDecision (match_rules : string -> list CapabilityRule -> CapabilityRuleMatch)
    (caps : list Capability) (req : string) (denyRules : list string) : bool :=
  match denyRules with
  | [] => aicCapabilityMatches caps req
  | _ => let m := match_rules req (decision_rules caps denyRules) in
         if negb (Matched m) then false else negb (RuleDeny m)
  end.

(** [src/decision.go:effectiveCapabilities] *)
Definition effectiveCapabilities (declared : list Capability) (grants : list string)
  : list Capability :=
  List.filter (fun c => existsb (aicCapabilityMatches [c]) grants) declared.

(** [src/decision.go:validateCapSizeConstraints] *)
Fixpoint validateCapSize_from (i : Z) (caps : list Capability) : option error :=
  match caps with
  | [] => None
  | cap :: caps' =>
      if (slen (SchemeId cap) <? 1) || (128 <? slen (SchemeId cap)) then
        Some (Errorf "capability[%d] schemeId length %d: must be 1-128"
                [AInt i; AInt (slen (SchemeId cap))])
      else if (slen (CapabilityId cap) <? 1) || (256 <? slen (CapabilityId cap)) then
        Some (Errorf "capability[%d] capabilityId length %d: must be 1-256"
                [AInt i; AInt (slen (CapabilityId cap))])
      else if 4096 <? slen (Parameters cap) then
        Some (Errorf "capability[%d] parameters length %d: must be 0-4096"
                [AInt i; AInt (slen (Parameters cap))])
      else validateCapSize_from (i + 1) caps'
  end.
Definition validateCapSizeConstraints (caps : list Capability) : option error :=
  validateCapSize_from 0 caps.

Section Coverage.
  Context {CN : CapabilityNames}.

(** [src/delegation_chain.go:capabilityID] *)
Definition capabilityID (c : Capability) : string := FullID c.

(** [src/delegation_chain.go:capabilityCovered] *)
Definition capabilityCovered (leaf ancestor : Capability) : bool :=
  let leafID := capabilityID leaf in
  let ancID := capabilityID ancestor in
  if MatchCapability leafID ancID then true
  else if negb (contains_byte "*" ancID) then has_prefix leafID (ancID +:+ ":")
  else false.

(** [src/delegation_chain.go:capabilitySubset] *)
Definition capabilitySubset (subset superset : list Capability) : bool :=
  match subset, superset with
  | [], _ => true
  | _, [] => false
  | _, _ => forallb (fun s => existsb (capabilityCovered s) superset) subset
  end.

(** [src/delegation_chain.go:filterCovered] *)
Definition filterCovered (leaf ancestor : list Capability) : list Capability :=
  match leaf, ancestor with
  | [], _ | _, [] => []
  | _, _ => List.filter (fun l => existsb (capabilityCovered l) ancestor) leaf
  end.
End Coverage.

(** * Lemmas *)

Lemma MatchCapability_refl id : MatchCapability id id = true.
Proof. unfold MatchCapability. by rewrite String.eqb_refl. Qed.

Lemma MatchCapability_star id : MatchCapability id "*" = true.
Proof. unfold MatchCapability. by destruct (String.eqb id "*"). Qed.

Lemma plain_no_star s : plain s = true -> contains_byte "*" s = false.
Proof.
  induction s as [|c s IH]; simpl; [done|]. intros [Hc Hs]%andb_true_iff.
  destruct (plain_byte_spec c Hc) as (-> & _). auto.
Qed.

Lemma plain_no_star_suffix s : plain s = true -> has_suffix s ":*" = false.
Proof.
  intros H. destruct (has_suffix s ":*") eqn:E; [|done].
  apply has_suffix_spec in E as [p ->]. rewrite plain_app in H.
  by apply andb_true_iff in H as [_ H].
Qed.

(** A pattern without metacharacters matches itself only. *)
Lemma MatchCapability_plain id p : plain p = true -> MatchCapability id p = String.eqb id p.
Proof.
  intros Hp. unfold MatchCapability. rewrite filepath_Match_plain by done.
  rewrite plain_no_star_suffix by done.
  destruct (String.eqb_spec id p); [done|].
  destruct (String.eqb_spec p "*") as [->|]; done.
Qed.

(** [p:*] matches exactly the identifiers under [p:], at any depth. *)
Lemma MatchCapability_prefix id p : plain p = true ->
  MatchCapability id (p +:+ ":*") = has_prefix id (p +:+ ":").
Proof.
  intros Hp. unfold MatchCapability.
  assert ((p +:+ ":*") = ((p +:+ ":") +:+ "*")) as E by (by rewrite sapp_assoc).
  rewrite has_suffix_snoc.
  replace (stake (String.length (p +:+ ":*") - 1) (p +:+ ":*")) with (p +:+ ":").
  2: { rewrite E, slength_app. simpl.
       replace (String.length (p +:+ ":") + 1 - 1)%nat with (String.length (p +:+ ":")) by lia.
       by rewrite stake_length_app. }
  destruct (String.eqb_spec id (p +:+ ":*")) as [->|_].
  { by rewrite E, has_prefix_app. }
  replace (String.eqb (p +:+ ":*") "*") with false.
  2: { symmetry. apply String.eqb_neq. intros H. apply (f_equal String.length) in H.
       rewrite slength_app in H. simpl in H. lia. }
  rewrite E, filepath_Match_plain_star by (by rewrite plain_app, Hp).
  destruct (has_prefix id (p +:+ ":")); [|done]. simpl. by destruct (contains_byte _ _).
Qed.

Lemma aicCapabilityMatches_exists caps req :
  aicCapabilityMatches caps req = true <->
  exists c, c ∈ caps /\ aicCapabilityMatches [c] req = true.
Proof.
  induction caps as [|c caps IH].
  - split; [done | intros (c & Hc & _); set_solver].
  - split.
    + intros H. destruct (aicCapabilityMatches [c] req) eqn:E; [exists c; set_solver|].
      simpl in H, E. cases_in E. rewrite IH in H. set_solver.
    + intros (d & Hd & H). apply elem_of_cons in Hd as [->|Hd].
      * simpl in *. by cases_in H.
      * simpl. cases; [done..|]. apply IH. eauto.
Qed.

Lemma elem_of_list_filter_bool {A} (f : A -> bool) l x :
  x ∈ List.filter f l <-> x ∈ l /\ f x = true.
Proof. rewrite !list_elem_of_In, filter_In. done. Qed.

Section CoverageLemmas.
  Context {CN : CapabilityNames}.

Lemma capabilityCovered_refl c : capabilityCovered c c = true.
Proof. unfold capabilityCovered. by rewrite MatchCapability_refl. Qed.

Lemma capabilitySubset_spec sub sup :
  capabilitySubset sub sup = true <->
  forall c, c ∈ sub -> exists a, a ∈ sup /\ capabilityCovered c a = true.
Proof.
  unfold capabilitySubset. destruct sub as [|s sub].
  - split; [|done]. intros _ c Hc. by apply elem_of_nil in Hc.
  - destruct sup as [|a sup].
    + split; [done|]. intros H. destruct (H s) as (b & Hb & _); [by left | by apply elem_of_nil in Hb].
    + rewrite forallb_forall_elem. by setoid_rewrite existsb_exists_elem.
Qed.

Lemma filterCovered_spec leaf anc c :
  c ∈ filterCovered leaf anc <->
  c ∈ leaf /\ exists a, a ∈ anc /\ capabilityCovered c a = true.
Proof.
  unfold filterCovered. destruct leaf as [|l leaf]; [set_solver|].
  destruct anc as [|a anc]; [set_solver|].
  rewrite elem_of_list_filter_bool, existsb_exists_elem. done.
Qed.

(** What passes the subset test is not filtered. *)
Lemma filterCovered_subset leaf anc :
  capabilitySubset leaf anc = true -> filterCovered leaf anc = leaf.
Proof.
  unfold capabilitySubset, filterCovered. destruct leaf as [|l leaf]; [done|].
  destruct anc as [|a anc]; [done|]. intros H.
  assert (forall f (k : list Capability), forallb f k = true -> List.filter f k = k) as G.
  { intros f k. induction k as [|x k IH]; simpl; [done|].
    intros [-> Hk]%andb_true_iff. by rewrite IH. }
  by apply G.
Qed.

Lemma capabilitySubset_nil_r sub : capabilitySubset sub [] = true -> sub = [].
Proof. by destruct sub. Qed.
End CoverageLemmas.

#[export] Hint Resolve MatchCapability_refl MatchCapability_star capabilityCovered_refl : aic.
