(* ===== verification/DelegationAuth.v ===== *)
(** Verification of the signature of a [DelegationAuthorization]
    ([src/decision.go]): the version negotiation, the reconstruction of the
    signed structure, the signature algorithms and the key-hash cross-check.

    The signature primitives of [crypto/ecdsa] and [crypto/rsa], the DER
    encoders and the two helpers of package [pki] are the fields of
    [DACrypto]. *)
From S2P Require Import Prelude GoStrings GoTime GoJson Types Sha256.
Local Open Scope string_scope.
Local Open Scope Z_scope.
Local Open Scope list_scope.

(** * Definitions *)

(** The fields of [pki.DelegationAuthTBS], the structure that is signed. *)
Record DelegationAuthTBS := {
  TBSVersion : Z; TBSAgentId : string; TBSPrincipal : PrincipalUid; TBSReason : string;
  TBSCapabilities : list Capability; TBSMode : Z; TBSConstraints : list Capability;
  TBSLifetime : Z; TBSTimestamp : Time; TBSNonce : bytes; TBSBinding : option bytes
}.

Class DACrypto := {
  MarshalPKIXPublicKey : PublicKey -> result bytes;
  asn1_Marshal : DelegationAuthTBS -> result bytes;
  MakeAgentKeyBinding : bytes -> result bytes;
  ValidateDelegationAuthTBSVersion : DelegationAuthTBS -> option error;
  ecdsa_VerifyASN1 : Z -> bytes -> bytes -> bool;
  rsa_VerifyPKCS1v15 : Z -> bytes -> bytes -> option error;
  rsa_VerifyPSS : Z -> bytes -> bytes -> option error
}.

(** [pki.DAVersion1] and [pki.DAVersion2]. *)
Definition DAVersion1 : Z := 1.
Definition DAVersion2 : Z := 2.

(** The algorithm identifiers the source compares with; an OID is its name. *)
Definition OIDSigECDSAWithSHA256 : string := "ecdsa-with-SHA256".
Definition OIDSigRSAWithSHA256 : string := "sha256WithRSAEncryption".
Definition OIDSigRSAPSSWithSHA256 : string := "id-RSASSA-PSS".
Definition OIDSHA256 : string := "id-sha256".

(** [src/decision.go:errDASignatureMismatch] *)
Definition errDASignatureMismatch : error := ErrNew "errDASignatureMismatch".

Section Verify.
  Context {HF : HashFunction} {PM : PkiMethods} {DC : DACrypto}.

(** [src/decision.go:888-906 verifyDelegationAuthTBSAt] the structure signed at
    a version; the agent key binding is computed for version 2 only. *)
Definition make_tbs (aic : AIC) (agentSPKI : bytes) (version : Z) : result DelegationAuthTBS :=
  let ua := AICDelegation aic in
  let tbs b :=
    {| TBSVersion := version; TBSAgentId := AgentId aic; TBSPrincipal := AICPrincipal aic;
       TBSReason := DAReason ua; TBSCapabilities := Capabilities aic;
       TBSMode := DelegationMode aic; TBSConstraints := AuthorizationConstraints aic;
       TBSLifetime := RequestedLifetime ua; TBSTimestamp := DATimestamp ua;
       TBSNonce := Nonce ua; TBSBinding := b |} in
  if version =? DAVersion2 then
    match MakeAgentKeyBinding agentSPKI with
    | Err e => Err (Errorf "verify_user_auth: agent key binding: %w" [AWrap e])
    | Ok b => Ok (tbs (Some b))
    end
  else Ok (tbs None).

(** [src/decision.go:921-944 verifyDelegationAuthTBSAt] the switch on the key
    type and the algorithm. *)
Definition check_signature (key : option PublicKey) (alg : string) (digest sig : bytes)
  : option error :=
  match key with
  | Some (ECDSAKey id) =>
      if negb (String.eqb alg OIDSigECDSAWithSHA256) then
        Some (Errorf "verify_user_auth: unsupported ECDSA algorithm OID %s" [AStr alg])
      else if ecdsa_VerifyASN1 id digest sig then None
      else Some (Errorf "verify_user_auth: ecdsa signature verification failed: %w"
                   [AWrap errDASignatureMismatch])
  | Some (RSAKey id) =>
      if String.eqb alg OIDSigRSAWithSHA256 then
        match rsa_VerifyPKCS1v15 id digest sig with
        | None => None
        | Some e => Some (Errorf "verify_user_auth: rsa-sha256 verification: %w"
                            [AWrap (Errorf "errors.Join" [AWrap e; AWrap errDASignatureMismatch])])
        end
      else if String.eqb alg OIDSigRSAPSSWithSHA256 then
        match rsa_VerifyPSS id digest sig with
        | None => None
        | Some e => Some (Errorf "verify_user_auth: rsa-pss-sha256 verification: %w"
                            [AWrap (Errorf "errors.Join" [AWrap e; AWrap errDASignatureMismatch])])
        end
      else Some (Errorf "verify_user_auth: unsupported RSA algorithm OID %s" [AStr alg])
  | Some (Ed25519Key _) => Some (Errorf "verify_user_auth: unsupported key type %T" [AStr "ed25519.PublicKey"])
  | Some (OtherKey t) => Some (Errorf "verify_user_auth: unsupported key type %T" [AStr t])
  | None => Some (Errorf "verify_user_auth: unsupported key type %T" [AStr "<nil>"])
  end.

(** [src/decision.go:946-956 verifyDelegationAuthTBSAt] the user certificate's
    key must be the one the AIC names. *)
Definition check_key_hash (aic : AIC) (userCert : Certificate) : option error :=
  match KeyHash (AICPrincipal aic) with
  | [] => None
  | kh =>
      let ha := HashAlgoOID (AICPrincipal aic) in
      if negb (String.eqb ha "") && negb (String.eqb ha OIDSHA256) then
        Some (Errorf "verify_user_auth: unsupported keyHash algorithm %s" [AStr ha])
      else if bool_decide (Sum256 (RawSubjectPublicKeyInfo userCert) = kh) then None
      else Some (Errorf "verify_user_auth: user cert SPKI hash mismatch" [])
  end.

(** [src/decision.go:verifyDelegationAuthTBSAt] *)
Definition verifyDelegationAuthTBSAt (aic : AIC) (userCert : Certificate) (agentSPKI : bytes)
    (version : Z) : option error :=
  let ua := AICDelegation aic in
  match make_tbs aic agentSPKI version with
  | Err e => Some e
  | Ok tbs =>
      match ValidateDelegationAuthTBSVersion tbs with
      | Some e => Some (Errorf "verify_user_auth: %w" [AWrap e])
      | None =>
          match asn1_Marshal tbs with
          | Err e => Some (Errorf "verify_user_auth: marshal tbs: %w" [AWrap e])
          | Ok der =>
              match check_signature (CertPublicKey userCert) (SignatureAlgorithm ua)
                      (Sum256 der) (SignatureValue ua) with
              | Some e => Some e
              | None => check_key_hash aic userCert
              end
          end
      end
  end.

(** [src/decision.go:verifyDelegationAuthTBS] version 1 is retried with the
    legacy encoding (version 0) on a signature mismatch only. *)
Definition verifyDelegationAuthTBS (aic : AIC) (userCert : Certificate) (agentSPKI : bytes)
    (version : Z) : option error :=
  if version =? DAVersion2 then verifyDelegationAuthTBSAt aic userCert agentSPKI DAVersion2
  else
    match verifyDelegationAuthTBSAt aic userCert agentSPKI DAVersion1 with
    | Some e => if errors_is "errDASignatureMismatch" e
                then verifyDelegationAuthTBSAt aic userCert agentSPKI 0
                else Some e
    | None => None
    end.

(** [src/decision.go:819-826 VerifyDelegationAuthWithAgent] the agent's SPKI,
    empty when there is no agent certificate. *)
Definition agent_spki (agentCert : option Certificate) : result bytes :=
  match agentCert with
  | Some c =>
      match CertPublicKey c with
      | Some k => match MarshalPKIXPublicKey k with
                  | Err e => Err (Errorf "verify_user_auth: marshal agent SPKI: %w" [AWrap e])
                  | Ok spki => Ok spki
                  end
      | None => Ok []
      end
  | None => Ok []
  end.

(** [src/decision.go:828-849 VerifyDelegationAuthWithAgent] version
    negotiation. *)
Definition negotiate_version (aic : AIC) (userCert : Certificate) (spki : bytes) : option error :=
  let version := AICVersion aic in
  if version =? 0 then
    if (0 <? zlen spki) &&
       match verifyDelegationAuthTBS aic userCert spki DAVersion2 with None => true | _ => false end
    then None
    else verifyDelegationAuthTBS aic userCert spki DAVersion1
  else if version =? DAVersion1 then verifyDelegationAuthTBS aic userCert spki DAVersion1
  else if version =? DAVersion2 then
    if zlen spki =? 0 then
      Some (Errorf "verify_user_auth: DA version 2 requires the agent certificate (agent SPKI binding)" [])
    else verifyDelegationAuthTBS aic userCert spki DAVersion2
  else Some (Errorf "verify_user_auth: unsupported DA version %d (must be 0, 1, or 2)" [AInt version]).

(** [src/decision.go:VerifyDelegationAuthWithAgent] *)
Definition VerifyDelegationAuthWithAgent (aic : option AIC) (userCert agentCert : option Certificate)
  : option error :=
  match aic with
  | None => Some (Errorf "verify_user_auth: nil aic" [])
  | Some aic =>
      match userCert with
      | None => Some (Errorf "verify_user_auth: nil user cert" [])
      | Some uc =>
          if zlen (SignatureValue (AICDelegation aic)) =? 0 then
            Some (Errorf "verify_user_auth: empty signature" [])
          else match agent_spki agentCert with
               | Err e => Some e
               | Ok spki => negotiate_version aic uc spki
               end
      end
  end.

(** [src/decision.go:VerifyDelegationAuth] *)
Definition VerifyDelegationAuth (aic : option AIC) (userCert : option Certificate) : option error :=
  VerifyDelegationAuthWithAgent aic userCert None.
End Verify.

(** [src/decision.go:DefaultDAAgeMax] *)
Definition DefaultDAAgeMax : Duration := Minute.

(** [src/decision.go:188-190 CheckDAFreshness] *)
Definition freshness_limit (maxAge : Duration) : Duration :=
  if maxAge <=? 0 then DefaultDAAgeMax else maxAge.

(** [src/decision.go:CheckDAFreshness] [Sub] saturates and the negation of the
    least duration is itself. *)
Definition CheckDAFreshness (ts now : Time) (maxAge : Duration) : option error :=
  if IsZero ts then Some (Errorf "delegation auth timestamp: missing" [])
  else
    let maxAge := freshness_limit maxAge in
    let age := Sub now ts in
    let age := if age <? 0 then dneg age else age in
    if maxAge <? age then
      Some (Errorf "delegation auth timestamp %v: outside freshness window (|now-ts|=%s > %s)"
              [AInt ts; AInt age; AInt maxAge])
    else None.

(** * Specification

    [signs_at] is what one successful attempt establishes: the certificate's
    key signed the digest of the structure rebuilt at [version], and it is the
    key the AIC names. *)
Section Spec.
  Context {HF : HashFunction} {PM : PkiMethods} {DC : DACrypto}.

Definition signs_at (aic : AIC) (userCert : Certificate) (spki : bytes) (version : Z) : Prop :=
  exists tbs der, make_tbs aic spki version = Ok tbs /\
    ValidateDelegationAuthTBSVersion tbs = None /\ asn1_Marshal tbs = Ok der /\
    check_signature (CertPublicKey userCert) (SignatureAlgorithm (AICDelegation aic))
      (Sum256 der) (SignatureValue (AICDelegation aic)) = None /\
    check_key_hash aic userCert = None.

(** The versions a declared version may be verified at. *)
Definition version_allowed (declared : Z) (spki : bytes) (v : Z) : Prop :=
  (declared = 0 /\ (v = 0 \/ v = 1 \/ (v = 2 /\ spki <> []))) \/
  (declared = 1 /\ (v = 0 \/ v = 1)) \/
  (declared = 2 /\ v = 2 /\ spki <> []).

Lemma at_signs aic uc spki v :
  verifyDelegationAuthTBSAt aic uc spki v = None <-> signs_at aic uc spki v.
Proof.
  unfold verifyDelegationAuthTBSAt, signs_at.
  destruct (make_tbs aic spki v) as [tbs|e]; [|split; [done | by intros (? & ? & [=] & _)]].
  destruct (ValidateDelegationAuthTBSVersion tbs) eqn:E1;
    [split; [done | intros (? & ? & [= <-] & ? & _); congruence]|].
  destruct (asn1_Marshal tbs) as [der|e] eqn:E2;
    [|split; [done | intros (? & ? & [= <-] & _ & ? & _); congruence]].
  destruct (check_signature _ _ (Sum256 der) _) eqn:E3;
    [split; [done | intros (? & ? & [= <-] & _ & ? & ? & _); congruence]|].
  split; [eauto 10 | intros (? & ? & [= <-] & _ & _ & _ & ?); done].
Qed.

(** Only a failed signature carries the mark that allows the legacy retry. *)
Definition mismatch_at (aic : AIC) (uc : Certificate) (spki : bytes) (v : Z) : Prop :=
  exists e, verifyDelegationAuthTBSAt aic uc spki v = Some e /\
            errors_is "errDASignatureMismatch" e = true.

Lemma tbs_signs aic uc spki v :
  verifyDelegationAuthTBS aic uc spki v = None <->
  if v =? DAVersion2 then signs_at aic uc spki 2
  else signs_at aic uc spki 1 \/ (mismatch_at aic uc spki 1 /\ signs_at aic uc spki 0).
Proof.
  unfold verifyDelegationAuthTBS. destruct (v =? DAVersion2); rewrite <- !at_signs; [done|].
  unfold DAVersion1, mismatch_at.
  destruct (verifyDelegationAuthTBSAt aic uc spki 1) as [e|] eqn:E1.
  2: { split; [by left | done]. }
  destruct (errors_is _ e) eqn:Ee.
  - split; [right; eauto | by intros [?|[_ ?]]].
  - split; [done|]. intros [?|[(e' & [= <-] & ?) _]]; congruence.
Qed.

Lemma negotiate_sound aic uc spki : negotiate_version aic uc spki = None ->
  exists v, version_allowed (AICVersion aic) spki v /\ signs_at aic uc spki v.
Proof.
  unfold negotiate_version, version_allowed.
  assert (verifyDelegationAuthTBS aic uc spki 1 = None ->
    signs_at aic uc spki 1 \/ signs_at aic uc spki 0) as H1
    by (intros H; apply tbs_signs in H as [?|[_ ?]]; auto).
  assert (verifyDelegationAuthTBS aic uc spki 2 = None -> signs_at aic uc spki 2) as H2
    by (intros H; by apply tbs_signs in H).
  unfold DAVersion1, DAVersion2 in *.
  destruct (Z.eqb_spec (AICVersion aic) 0) as [E|_].
  { destruct (verifyDelegationAuthTBS aic uc spki 2) eqn:T2;
      rewrite ?andb_false_r, ?andb_true_r.
    - intros H. apply H1 in H as [?|?]; eauto 10.
    - destruct (0 <? zlen spki) eqn:Ez.
      + apply zlen_pos_ne in Ez. intros _. exists 2. eauto 10.
      + intros H. apply H1 in H as [?|?]; eauto 10. }
  destruct (Z.eqb_spec (AICVersion aic) 1) as [E|_].
  { intros H. apply H1 in H as [?|?]; eauto 10. }
  destruct (Z.eqb_spec (AICVersion aic) 2) as [E|_]; [|done].
  destruct (zlen spki =? 0) eqn:Ez; [done|]. intros H. exists 2. split; [|auto].
  right. right. repeat split; [done|]. intros ->. done.
Qed.

Lemma VerifyDelegationAuthWithAgent_cases aic uc ac :
  VerifyDelegationAuthWithAgent aic uc ac = None ->
  exists a u spki, aic = Some a /\ uc = Some u /\ SignatureValue (AICDelegation a) <> [] /\
    agent_spki ac = Ok spki /\ negotiate_version a u spki = None.
Proof.
  unfold VerifyDelegationAuthWithAgent. destruct aic as [a|]; [|done].
  destruct uc as [u|]; [|done]. destruct (zlen (SignatureValue _) =? 0) eqn:Ez; [done|].
  destruct (agent_spki ac) as [spki|]; [|done]. intros H. exists a, u, spki.
  repeat split; [|done]. intros E. rewrite E in Ez. done.
Qed.

(** * Properties *)

(** C13: an accepted authorization was signed: the AIC and the user certificate
    are present, the signature is not empty, and at a version its declared
    version allows (0: any, 2 only with the agent's SPKI; 1: explicit or legacy
    encoding; 2: with the agent's SPKI only) the user certificate's key signed
    the digest of the structure rebuilt from the AIC, under an algorithm of the
    key's type, and that key is the one the AIC names when it names one. *)
Theorem accepted_authorization_signed aic uc ac
    (H : VerifyDelegationAuthWithAgent aic uc ac = None) :
  exists a u spki v, aic = Some a /\ uc = Some u /\
    SignatureValue (AICDelegation a) <> [] /\ agent_spki ac = Ok spki /\
    version_allowed (AICVersion a) spki v /\ signs_at a u spki v.
Proof.
  apply VerifyDelegationAuthWithAgent_cases in H as (a & u & spki & ? & ? & ? & ? & Hn).
  apply negotiate_sound in Hn as (v & ? & ?). exists a, u, spki, v. auto 10.
Qed.

(** The two-argument form has no agent key, so it rejects every
    authorization that declares version 2, whatever its signature. *)
Theorem two_argument_form_rejects_v2 a uc (Hv : AICVersion a = 2) :
  VerifyDelegationAuth (Some a) uc <> None.
Proof.
  unfold VerifyDelegationAuth. intros H.
  apply VerifyDelegationAuthWithAgent_cases in H as (a' & u & spki & [= <-] & _ & _ & Hs & Hn).
  apply negotiate_sound in Hn as (v & Ha & _). unfold version_allowed in Ha. rewrite Hv in Ha.
  injection Hs as <-.
  destruct Ha as [[? _]|[[? _]|(_ & _ & ?)]]; [lia | lia | done].
Qed.

(** A version-1 authorization whose signature is good but whose key is not
    the one the AIC names is refused with the key-hash error itself: the legacy
    retry does not replace it. *)
Theorem key_hash_error_reported a u ac spki tbs der e
    (Hv : AICVersion a = 1) (Hsig : SignatureValue (AICDelegation a) <> [])
    (Hs : agent_spki ac = Ok spki) (Ht : make_tbs a spki 1 = Ok tbs)
    (Hval : ValidateDelegationAuthTBSVersion tbs = None) (Hm : asn1_Marshal tbs = Ok der)
    (Hc : check_signature (CertPublicKey u) (SignatureAlgorithm (AICDelegation a))
            (Sum256 der) (SignatureValue (AICDelegation a)) = None)
    (Hk : check_key_hash a u = Some e) :
  VerifyDelegationAuthWithAgent (Some a) (Some u) ac = Some e.
Proof.
  assert (verifyDelegationAuthTBSAt a u spki 1 = Some e) as Hat.
  { unfold verifyDelegationAuthTBSAt. by rewrite Ht, Hval, Hm, Hc. }
  unfold VerifyDelegationAuthWithAgent.
  destruct (zlen (SignatureValue _) =? 0) eqn:Ez; [by apply zlen_eqb_nil in Ez|].
  rewrite Hs. unfold negotiate_version. rewrite Hv. simpl.
  unfold verifyDelegationAuthTBS. simpl. unfold DAVersion1. rewrite Hat.
  assert (errors_is "errDASignatureMismatch" e = false) as ->; [|done].
  unfold check_key_hash in Hk. cases_in Hk; done.
Qed.
End Spec.

(** * Witnesses

    A concrete instance of the parameters: a key verifies a signature that is
    the digest followed by the key's number; the binding is the SPKI. *)
Definition toy_crypto : DACrypto := {|
  MarshalPKIXPublicKey := fun k => match k with ECDSAKey i => Ok [z_byte i] | _ => Err (ErrNew "x509") end;
  asn1_Marshal := fun t => Ok (z_byte (TBSVersion t) :: TBSNonce t ++ default [] (TBSBinding t));
  MakeAgentKeyBinding := fun spki => Ok spki;
  ValidateDelegationAuthTBSVersion := fun t =>
    if (0 <=? TBSVersion t) && (TBSVersion t <=? 2) then None else Some (ErrNew "version");
  ecdsa_VerifyASN1 := fun k d sg => bool_decide (sg = d ++ [z_byte k]);
  rsa_VerifyPKCS1v15 := fun _ _ _ => Some (ErrNew "rsa");
  rsa_VerifyPSS := fun _ _ _ => Some (ErrNew "pss")
|}.
#[local] Existing Instance toy_crypto.

Definition toy_methods : PkiMethods := {|
  ValidateAIC := fun _ => None; PrincipalUid_String := Identifier; HashAlgoOID := HashAlgo;
  HasProtocol := fun _ _ => true; CheckPermission := fun _ _ => true;
  GrantIds := fun pa => map CapabilityId (Grants pa);
  IntersectPermissions := fun _ _ => []; DA_IsPresent := fun da => 0 <? zlen (SignatureValue da)
|}.
#[local] Existing Instance toy_methods.

Definition toy_cert (id : Z) : Certificate := {|
  SerialNumber := Some id; CommonName := "c"; Organization := []; OrganizationalUnit := []; Issuer := "ca";
  IssuerCN := "ca"; NotBefore := 0; NotAfter := 0; RawSubjectPublicKeyInfo := [z_byte id];
  CertPublicKey := Some (ECDSAKey id); Raw := [z_byte id];
  Subject := "CN=c"; RawIssuer := []; RawSubject := []; URIs := []; Extensions := [] |}.

Definition toy_aic (version : Z) (kh sig : bytes) : AIC := {|
  AICVersion := version; AgentId := "a";
  AICPrincipal := {| Realm := ""; Identifier := "u"; KeyHash := kh; HashAlgo := "" |};
  Capabilities := []; DelegationMode := 0; AuthorizationConstraints := [];
  AICDelegation := {| SignatureAlgorithm := OIDSigECDSAWithSHA256; SignatureValue := sig;
    Nonce := []; DAReason := ""; RequestedLifetime := 0; DATimestamp := 0 |} |}.

(** A version-2 authorization of agent 9 signed by user 7. *)
Definition toy_sig2 : bytes := Sum256 [z_byte 2; z_byte 9] ++ [z_byte 7].

Lemma accepted_authorization_signed_witness :
  exists a u spki v, Some (toy_aic 2 (Sum256 [z_byte 7]) toy_sig2) = Some a /\
    Some (toy_cert 7) = Some u /\
    SignatureValue (AICDelegation a) <> [] /\ agent_spki (Some (toy_cert 9)) = Ok spki /\
    version_allowed (AICVersion a) spki v /\ signs_at a u spki v.
Proof.
  apply (accepted_authorization_signed (Some (toy_aic 2 (Sum256 [z_byte 7]) toy_sig2))
           (Some (toy_cert 7)) (Some (toy_cert 9))).
  vm_compute. reflexivity.
Defined.

Lemma two_argument_form_rejects_v2_witness :
  VerifyDelegationAuth (Some (toy_aic 2 [] toy_sig2)) (Some (toy_cert 7)) <> None.
Proof. apply (two_argument_form_rejects_v2 (toy_aic 2 [] toy_sig2)). reflexivity. Defined.

Definition toy_sig1 : bytes := Sum256 [z_byte 1] ++ [z_byte 7].

Definition toy_tbs1 : DelegationAuthTBS := {|
  TBSVersion := 1; TBSAgentId := "a";
  TBSPrincipal := {| Realm := ""; Identifier := "u"; KeyHash := [z_byte 0]; HashAlgo := "" |};
  TBSReason := ""; TBSCapabilities := []; TBSMode := 0; TBSConstraints := [];
  TBSLifetime := 0; TBSTimestamp := 0; TBSNonce := []; TBSBinding := None |}.

Lemma key_hash_error_reported_witness :
  VerifyDelegationAuthWithAgent (Some (toy_aic 1 [z_byte 0] toy_sig1)) (Some (toy_cert 7)) None =
  Some (Errorf "verify_user_auth: user cert SPKI hash mismatch" []).
Proof.
  apply (key_hash_error_reported (toy_aic 1 [z_byte 0] toy_sig1) (toy_cert 7) None [] toy_tbs1 [z_byte 1]).
  - reflexivity.
  - vm_compute. discriminate.
  - reflexivity.
  - reflexivity.
  - reflexivity.
  - reflexivity.
  - vm_compute. reflexivity.
  - vm_compute. reflexivity.
Defined.

(** The window test of [CheckDAFreshness] in exact arithmetic. *)
Lemma CheckDAFreshness_spec ts now maxAge :
  int64_min < now - ts <= int64_max ->
  CheckDAFreshness ts now maxAge = None <->
  ts <> zero_time /\ Z.abs (now - ts) <= freshness_limit maxAge.
Proof.
  intros H. unfold CheckDAFreshness, IsZero. rewrite Sub_exact by lia.
  destruct (Z.eqb_spec ts zero_time) as [->|Hz]; [split; [done | by intros [? _]]|].
  unfold dneg. cbv zeta. set (m := freshness_limit maxAge).
  unfold int64_min, int64_max in H. destruct (Z.ltb_spec (now - ts) 0) as [Hn|Hn].
  - rewrite wrap64_id by (unfold int64_min, int64_max; lia). rewrite Z.abs_neq by lia.
    destruct (Z.ltb_spec m (- (now - ts))); split; intros; (done || lia || (split; [done|lia])).
  - rewrite Z.abs_eq by lia.
    destruct (Z.ltb_spec m (now - ts)); split; intros; (done || lia || (split; [done|lia])).
Qed.

(** A present timestamp within the range of a duration of now (292 years)
    is fresh exactly when it is within the window on either side; a missing one
    never is. *)
Theorem freshness_window ts now maxAge (H : int64_min < now - ts <= int64_max) :
  CheckDAFreshness ts now maxAge = None <->
  ts <> zero_time /\ Z.abs (now - ts) <= freshness_limit maxAge.
Proof. by apply CheckDAFreshness_spec. Qed.

(** A timestamp further in the future than the range of a duration passes
    the check under every window: the saturated difference is the least
    duration, whose negation is itself, and a negative age is below the
    window. *)
Theorem far_future_timestamp_is_fresh ts now maxAge
    (Hts : ts <> zero_time) (H : now - ts <= int64_min) :
  CheckDAFreshness ts now maxAge = None.
Proof.
  unfold CheckDAFreshness, IsZero. destruct (Z.eqb_spec ts zero_time) as [|_]; [done|].
  assert (Sub now ts = int64_min) as ->.
  { unfold Sub. destruct (Z.ltb_spec (now - ts) int64_min); [done|].
    assert (now - ts = int64_min) as -> by lia. done. }
  change (int64_min <? 0) with true. change (dneg int64_min) with int64_min. cbv iota.
  unfold freshness_limit. destruct (Z.leb_spec maxAge 0).
  - done.
  - rewrite (proj2 (Z.ltb_ge _ _)); [done|]. unfold int64_min. lia.
Qed.

Lemma freshness_window_witness :
  CheckDAFreshness (1000 * Second) (1030 * Second) 0 = None <->
  1000 * Second <> zero_time /\ Z.abs (1030 * Second - 1000 * Second) <= freshness_limit 0.
Proof. apply (freshness_window (1000 * Second) (1030 * Second) 0). vm_compute. split; congruence. Defined.

(** A timestamp in the year 2400, checked in 2026 with the default window. *)
Lemma far_future_timestamp_is_fresh_witness :
  CheckDAFreshness (13569465600 * Second) (1780000000 * Second) 0 = None.
Proof.
  apply far_future_timestamp_is_fresh; vm_compute; congruence.
Defined.
