(* ===== verification/Delegation.v ===== *)
(** Multi-level delegation ([src/delegation_chain.go], the chain verifier of
    [src/decision.go], [src/serial.go]): structure, signatures level by level,
    and the capabilities that survive a chain.

    A chain is a list of certificate pointers, top first.  The parser of AIC
    extensions is a parameter ([CertificateParser]). *)
From S2P Require Import Prelude GoStrings GoPath GoTime GoJson Types Sha256 Capability DelegationAuth.
From Stdlib Require Import Ascii.
Local Open Scope char_scope.
Local Open Scope string_scope.
Local Open Scope Z_scope.
Local Open Scope list_scope.

(** * Definitions *)

(** Uppercase hexadecimal digits of a non-negative integer, least significant
    last; the fuel is its number of binary digits. *)
Definition upper_digit (d : Z) : ascii := chr (if d <? 10 then 48 + d else 55 + d).
Fixpoint hex_digits (fuel : nat) (z : Z) (acc : string) : string :=
  match fuel with
  | O => acc
  | S f => if z <? 16 then String (upper_digit z) acc
           else hex_digits f (z / 16) (String (upper_digit (z mod 16)) acc)
  end.
Definition hex_of (z : Z) : string := hex_digits (S (Z.to_nat (Z.log2 z))) z "".

(** [fmt.Sprintf("%0wX", z)]: zero padding goes after the sign and counts it. *)
Definition pad_hex (w : nat) (z : Z) : string :=
  if z <? 0 then
    let h := hex_of (- z) in "-" +:+ repeat_byte "0" (w - 1 - String.length h) +:+ h
  else let h := hex_of z in repeat_byte "0" (w - String.length h) +:+ h.

(** [src/serial.go:NormalizeSerial] a nil serial prints as [<nil>]. *)
Definition NormalizeSerial (serial : option Z) : string :=
  match serial with Some z => pad_hex 40 z | None => "<nil>" end.

(** [src/delegation_chain.go:DefaultMaxChainLength] *)
Definition DefaultMaxChainLength : Z := 8.

(** [src/delegation_chain.go:104-114 verifyChainStructure] the loop, with the
    set of serials seen. *)
Fixpoint chain_serials (i : Z) (seen : gset string) (chain : list (option Certificate))
  : option error :=
  match chain with
  | [] => None
  | None :: _ => Some (Errorf "delegation_chain: nil certificate at index %d" [AInt i])
  | Some cert :: chain' =>
      let serial := NormalizeSerial (SerialNumber cert) in
      if bool_decide (serial ∈ seen) then
        Some (Errorf "delegation_chain: duplicate node serial %s at index %d (cycle)"
                [AStr serial; AInt i])
      else chain_serials (i + 1) ({[serial]} ∪ seen) chain'
  end.

(** [src/delegation_chain.go:verifyChainStructure] *)
Definition verifyChainStructure (chain : list (option Certificate)) (maxChainLen : Z)
  : option error :=
  if zlen chain =? 0 then Some (Errorf "delegation_chain: empty chain" [])
  else if (0 <? maxChainLen) && (maxChainLen <? zlen chain) then
    Some (Errorf "delegation_chain: chain length %d exceeds limit %d"
            [AInt (zlen chain); AInt maxChainLen])
  else chain_serials 0 ∅ chain.

(** The capabilities of [pki] under the AIC of a level. *)
Section Effective.
  Context {CN : CapabilityNames} {CP : CertificateParser}.

(** [src/delegation_chain.go:136-154 EffectiveDelegationCapabilities] the loop
    over the levels from [i] on, [eff] the capabilities so far. *)
Fixpoint effective_from (i : Z) (chain : list (option Certificate)) (eff : list Capability)
  : result (list Capability) :=
  match chain with
  | [] => Ok eff
  | None :: _ => Err (ErrNew "panic: nil pointer dereference")
  | Some cert :: chain' =>
      match ParseAIC cert with
      | Err e => Err (Errorf "delegation_chain level %d (%s): parse AIC: %w"
                        [AInt i; AStr (CommonName cert); AWrap e])
      | Ok None => Err (Errorf "delegation_chain level %d (%s): no AIC extension"
                          [AInt i; AStr (CommonName cert)])
      | Ok (Some aic) =>
          if negb (capabilitySubset (Capabilities aic) eff) then
            Err (Errorf "delegation_chain level %d (%s): capabilities not subset of parent effective capabilities (permission escalation)"
                   [AInt i; AStr (CommonName cert)])
          else
            let eff' := filterCovered (Capabilities aic) eff in
            if zlen eff' =? 0 then
              Err (Errorf "delegation_chain level %d (%s): empty effective capabilities (C_eff = empty)"
                     [AInt i; AStr (CommonName cert)])
            else effective_from (i + 1) chain' eff'
      end
  end.

(** [src/delegation_chain.go:EffectiveDelegationCapabilities] *)
Definition EffectiveDelegationCapabilities (chain : list (option Certificate))
    (principalCaps : list Capability) (maxChainLen : Z) : result (list Capability) :=
  match verifyChainStructure chain maxChainLen with
  | Some e => Err e
  | None => effective_from 0 chain principalCaps
  end.

(** [src/delegation_chain.go:EffectiveDelegationCapabilitiesFromAIC] *)
Definition EffectiveDelegationCapabilitiesFromAIC (chain : list (option Certificate))
    (topPrincipal : option Certificate) (maxChainLen : Z) : result (list Capability) :=
  match topPrincipal with
  | None => Err (Errorf "delegation_chain: nil top principal" [])
  | Some top =>
      match ParseAIC top with
      | Err e => Err (Errorf "delegation_chain: parse top principal AIC: %w" [AWrap e])
      | Ok None => Err (Errorf "delegation_chain: top principal has no AIC" [])
      | Ok (Some aic) => EffectiveDelegationCapabilities chain (Capabilities aic) maxChainLen
      end
  end.
End Effective.

(** [src/decision.go:DelegationChainVerifier] *)
Record DelegationChainVerifier := { MaxDepth : Z; MaxChainLength : Z }.

Section Signatures.
  Context {HF : HashFunction} {PM : PkiMethods} {DC : DACrypto} {CN : CapabilityNames}
          {CP : CertificateParser}.

(** [src/decision.go:1017-1040 Verify] one level: the certificate carries an
    AIC whose authorization [signer] signed. *)
Definition check_level (i : Z) (cert signer : option Certificate) : option error :=
  match cert with
  | None => Some (ErrNew "panic: nil pointer dereference")
  | Some c =>
      match ParseAIC c with
      | Err e => Some (Errorf "delegation_chain level %d: parse AIC: %w" [AInt i; AWrap e])
      | Ok None => Some (Errorf "delegation_chain level %d: no AIC extension" [AInt i])
      | Ok (Some aic) =>
          if negb (DA_IsPresent (AICDelegation aic)) then
            Some (Errorf "delegation_chain level %d: empty delegation authorization" [AInt i])
          else match VerifyDelegationAuthWithAgent (Some aic) signer cert with
               | Some e => Some (Errorf "delegation_chain level %d (%s): %w"
                                   [AInt i; AStr (CommonName c); AWrap e])
               | None => None
               end
      end
  end.

(** [src/decision.go:1016-1041 Verify] bottom-up: level [i] against level
    [i-1], level 0 against the top principal. *)
Fixpoint check_levels (n : nat) (chain : list (option Certificate)) (top : option Certificate)
  : option error :=
  match n with
  | O => None
  | S i =>
      let cert := nth i chain None in
      let signer := match i with O => top | S j => nth j chain None end in
      match check_level (Z.of_nat i) cert signer with
      | Some e => Some e
      | None => check_levels i chain top
      end
  end.

(** [src/decision.go:DelegationChainVerifier.Verify] *)
Definition DelegationChainVerifier_Verify (v : option DelegationChainVerifier)
    (chain : list (option Certificate)) (topPrincipal : option Certificate) : option error :=
  match v with
  | None => Some (Errorf "delegation_chain: nil verifier" [])
  | Some v =>
      if zlen chain =? 0 then Some (Errorf "delegation_chain: empty chain" [])
      else match topPrincipal with
      | None => Some (Errorf "delegation_chain: nil top principal" [])
      | Some _ =>
          if MaxDepth v <? zlen chain then
            Some (Errorf "delegation_chain: chain depth %d exceeds maxDepth %d"
                    [AInt (zlen chain); AInt (MaxDepth v)])
          else
            let maxChainLen := if MaxChainLength v <=? 0 then DefaultMaxChainLength
                               else MaxChainLength v in
            match verifyChainStructure chain maxChainLen with
            | Some e => Some e
            | None => check_levels (length chain) chain topPrincipal
            end
      end
  end.

(** [src/decision.go:VerifyDelegationChain] *)
Definition VerifyDelegationChain (chain : list (option Certificate))
    (topPrincipal : option Certificate) (maxDepth : Z) : option error :=
  DelegationChainVerifier_Verify
    (Some {| MaxDepth := maxDepth; MaxChainLength := DefaultMaxChainLength |}) chain topPrincipal.

(** [src/delegation_chain.go:VerifyDelegationChainWithCaps] *)
Definition VerifyDelegationChainWithCaps (chain : list (option Certificate))
    (topPrincipal : option Certificate) (principalCaps : list Capability)
    (maxDepth maxChainLen : Z) : result (list Capability) :=
  let maxChainLen := if maxChainLen <=? 0 then DefaultMaxChainLength else maxChainLen in
  match DelegationChainVerifier_Verify
          (Some {| MaxDepth := maxDepth; MaxChainLength := maxChainLen |}) chain topPrincipal with
  | Some e => Err e
  | None => EffectiveDelegationCapabilities chain principalCaps maxChainLen
  end.
End Signatures.

(** [src/decision.go:NeedRevoke] *)
Definition NeedRevoke (cert : option Certificate) (now : Time) : bool :=
  match cert with None => false | Some c => Before now (NotAfter c) end.

(** [src/decision.go:ouFallbackPrincipal] *)
Definition ouFallbackPrincipal (cert : option Certificate) : string :=
  match cert with
  | None => ""
  | Some c =>
      if negb (String.eqb (CommonName c) "") then CommonName c
      else match OrganizationalUnit c with ou :: _ => ou | [] => "" end
  end.

(** [src/decision.go:hasDelegatedAgentOU] *)
Definition hasDelegatedAgentOU (cert : option Certificate) : bool :=
  match cert with
  | None => false
  | Some c => existsb (fun ou => String.eqb ou "Delegated-Agent") (OrganizationalUnit c)
  end.

(** [src/decision.go:HasDelegatedAgentOU] *)
Definition HasDelegatedAgentOU (cert : option Certificate) : bool := hasDelegatedAgentOU cert.

(** [src/decision.go:CheckDelegatedAgentCert] the empty string accepts; the
    clock is read twice. *)
Definition CheckDelegatedAgentCert {CP : CertificateParser} (cert : option Certificate)
    (now now' : Time) : string :=
  match cert with
  | None => "nil certificate"
  | Some c =>
      if negb (hasDelegatedAgentOU cert) then ""
      else if Before now (NotBefore c) then "Delegated-Agent certificate not yet valid"
      else if After now' (NotAfter c) then "Delegated-Agent certificate expired"
      else match ParseAIC c with
           | Ok (Some _) => ""
           | _ => "Delegated-Agent certificate lacks a valid core-signed AIC"
           end
  end.

(** [src/decision.go:DelegatedAgentServerIdentity] the user, the expiry and the
    reason. *)
Definition DelegatedAgentServerIdentity (cert : option Certificate) (principal : string)
  : string * Time * string :=
  if negb (hasDelegatedAgentOU cert) then ("", zero_time, "")
  else
    let expiry := match cert with Some c => NotAfter c | None => zero_time end in
    let user := if negb (String.eqb principal "") then principal else ouFallbackPrincipal cert in
    (user, expiry, "").

(** * Serial numbers *)

Fixpoint hex_value (acc : Z) (s : string) : option Z :=
  match s with
  | EmptyString => Some acc
  | String c s' => match from_hex_char c with Some d => hex_value (acc * 16 + d) s' | None => None end
  end.

Lemma from_hex_upper d : 0 <= d < 16 -> from_hex_char (upper_digit d) = Some d.
Proof.
  intros H.
  assert (Forall (fun z => from_hex_char (upper_digit z) = Some z)
            [0;1;2;3;4;5;6;7;8;9;10;11;12;13;14;15]) as F by (repeat constructor).
  rewrite Forall_forall in F. apply F, list_elem_of_In. simpl. lia.
Qed.

Lemma hex_value_digits fuel z acc k :
  0 <= z < 2 ^ Z.of_nat fuel -> exists n,
  hex_value k (hex_digits fuel z acc) = hex_value (k * n + z) acc.
Proof.
  revert z acc k. induction fuel as [|f IH]; intros z acc k Hz.
  - assert (z = 0) as -> by (simpl in Hz; lia). exists 1. simpl. f_equal. lia.
  - cbn [hex_digits]. destruct (Z.ltb_spec z 16).
    + exists 16. cbn [hex_value]. by rewrite from_hex_upper by lia.
    + pose proof (Z.div_mod z 16 ltac:(lia)). pose proof (Z.mod_pos_bound z 16 ltac:(lia)).
      destruct (IH (z / 16) (String (upper_digit (z mod 16)) acc) k) as [n Hn].
      { rewrite Nat2Z.inj_succ, Z.pow_succ_r in Hz by lia.
        split; [apply Z.div_pos; lia | apply Z.div_lt_upper_bound; lia]. }
      exists (n * 16). rewrite Hn. cbn [hex_value]. rewrite from_hex_upper by lia. f_equal. lia.
Qed.

Lemma hex_value_of z : 0 <= z -> hex_value 0 (hex_of z) = Some z.
Proof.
  intros Hz. unfold hex_of. destruct (hex_value_digits (S (Z.to_nat (Z.log2 z))) z "" 0) as [n ->].
  - split; [done|]. destruct (Z.eq_dec z 0) as [->|]; [done|].
    pose proof (Z.log2_spec z ltac:(lia)). pose proof (Z.log2_nonneg z).
    rewrite Nat2Z.inj_succ, Z2Nat.id by lia. lia.
  - reflexivity.
Qed.

Lemma hex_value_zeros n s : hex_value 0 (repeat_byte "0" n +:+ s) = hex_value 0 s.
Proof. by induction n. Qed.

Lemma NormalizeSerial_value z : 0 <= z -> hex_value 0 (NormalizeSerial (Some z)) = Some z.
Proof.
  intros Hz. unfold NormalizeSerial, pad_hex. rewrite (proj2 (Z.ltb_ge _ _)) by done.
  by rewrite hex_value_zeros, hex_value_of.
Qed.

Lemma NormalizeSerial_nonneg_inj a b :
  0 <= a -> 0 <= b -> NormalizeSerial (Some a) = NormalizeSerial (Some b) -> a = b.
Proof.
  intros Ha Hb E. assert (Some a = Some b) as [= ->]; [|done].
  by rewrite <- (NormalizeSerial_value a), <- (NormalizeSerial_value b), E.
Qed.

(** * Structure *)

Definition serial_of (c : option Certificate) : string :=
  NormalizeSerial (match c with Some c => SerialNumber c | None => None end).

Lemma chain_serials_spec i seen chain :
  chain_serials i seen chain = None <->
  Forall is_Some chain /\ NoDup (map serial_of chain) /\
  forall c, c ∈ chain -> serial_of c ∉ seen.
Proof.
  revert i seen. induction chain as [|[c|] chain IH]; intros i seen; simpl.
  - split; [|done]. intros _. repeat split; [constructor | constructor | set_solver].
  - rewrite Forall_cons, NoDup_cons. fold (serial_of (Some c)).
    change (NormalizeSerial (SerialNumber c)) with (serial_of (Some c)).
    case_bool_decide as Hs.
    + split; [done|]. intros (_ & _ & H). by specialize (H (Some c) ltac:(by left)).
    + rewrite IH. split.
      * intros (HF & HN & H). repeat split; [eauto | done | | done | ].
        -- intros (c' & E & Hc')%list_elem_of_fmap. apply (H c' Hc'). rewrite <- E. set_solver.
        -- intros c' [->|Hc']%elem_of_cons; [done|]. intros Hin. apply (H c' Hc'). set_solver.
      * intros ([_ HF] & [Hn HN] & H). repeat split; [done|done|].
        intros c' Hc' [E%elem_of_singleton|Hin]%elem_of_union.
        -- apply Hn. apply list_elem_of_fmap. eauto.
        -- apply (H c'); [by right|done].
  - split; [done|]. intros (H & _). apply Forall_cons in H as [[? [=]] _].
Qed.

Definition structure_ok (chain : list (option Certificate)) (maxLen : Z) : Prop :=
  chain <> [] /\ (0 < maxLen -> zlen chain <= maxLen) /\ Forall is_Some chain /\
  NoDup (map serial_of chain).

Lemma verifyChainStructure_spec chain maxLen :
  verifyChainStructure chain maxLen = None <-> structure_ok chain maxLen.
Proof.
  unfold verifyChainStructure, structure_ok.
  destruct (zlen chain =? 0) eqn:E0.
  { apply zlen_eqb_nil in E0 as ->. split; [done | by intros [? _]]. }
  assert (chain <> []) by (intros ->; done).
  destruct (Z.ltb_spec 0 maxLen), (Z.ltb_spec maxLen (zlen chain)); simpl;
    [split; [done | intros (_ & ? & _); lia]|..];
    rewrite chain_serials_spec; split; intros; destruct_and?; repeat split; auto; try lia;
    try (intros; set_solver).
Qed.

(** * Signatures *)

Section SignatureLemmas.
  Context {HF : HashFunction} {PM : PkiMethods} {DC : DACrypto} {CN : CapabilityNames}
          {CP : CertificateParser}.

(** The signer of level [i]. *)
Definition signer_of (chain : list (option Certificate)) (top : option Certificate) (i : nat)
  : option Certificate :=
  match i with O => top | S j => nth j chain None end.

Lemma check_levels_spec n chain top :
  check_levels n chain top = None <->
  forall i, (i < n)%nat -> check_level (Z.of_nat i) (nth i chain None) (signer_of chain top i) = None.
Proof.
  induction n as [|n IH]; cbn [check_levels]; [split; [lia | done]|].
  change (match n with O => top | S j => nth j chain None end) with (signer_of chain top n).
  destruct (check_level (Z.of_nat n) _ _) eqn:E.
  - split; [done|]. intros H. specialize (H n ltac:(lia)). congruence.
  - rewrite IH. split; intros H i Hi; [|apply H; lia].
    destruct (Nat.eq_dec i n) as [->|]; [done|apply H; lia].
Qed.

(** Level [i] of a chain is signed: its certificate carries an AIC whose
    authorization is present and verified against the level above. *)
Definition level_signed (cert signer : option Certificate) : Prop :=
  exists c aic, cert = Some c /\ ParseAIC c = Ok (Some aic) /\
    DA_IsPresent (AICDelegation aic) = true /\
    VerifyDelegationAuthWithAgent (Some aic) signer cert = None.

Lemma check_level_spec i cert signer : check_level i cert signer = None <-> level_signed cert signer.
Proof.
  unfold check_level, level_signed. destruct cert as [c|]; [|split; [done | by intros (?&?&[=]&_)]].
  destruct (ParseAIC c) as [[aic|]|e] eqn:Ep.
  2: { split; [done|]. intros (c' & aic & [= <-] & ? & _). congruence. }
  2: { split; [done|]. intros (c' & aic & [= <-] & ? & _). congruence. }
  destruct (DA_IsPresent (AICDelegation aic)) eqn:Ed; cbn [negb].
  - destruct (VerifyDelegationAuthWithAgent (Some aic) signer (Some c)) eqn:Ev.
    + split; [done|]. intros (c' & aic' & [= <-] & ? & _ & ?). congruence.
    + split; [|done]. intros _. eauto 10.
  - split; [done|]. intros (c' & aic' & [= <-] & ? & ? & _). congruence.
Qed.
End SignatureLemmas.

(** * Effective capabilities *)

Section EffectiveLemmas.
  Context {CN : CapabilityNames} {CP : CertificateParser}.

(** [out] is what remains of [eff] after the AICs of the levels, each of which
    declares something and nothing its parent does not cover. *)
Fixpoint narrows (eff : list Capability) (aics : list AIC) (out : list Capability) : Prop :=
  match aics with
  | [] => out = eff
  | a :: rest => capabilitySubset (Capabilities a) eff = true /\ Capabilities a <> [] /\
                 narrows (Capabilities a) rest out
  end.

Definition has_aic (cert : option Certificate) (a : AIC) : Prop :=
  exists c, cert = Some c /\ ParseAIC c = Ok (Some a).

Lemma effective_from_spec i chain eff out :
  effective_from i chain eff = Ok out <->
  exists aics, Forall2 has_aic chain aics /\ narrows eff aics out.
Proof.
  revert i eff. induction chain as [|[c|] chain IH]; intros i eff; simpl.
  - split; [intros [= <-]; by exists [] | intros (aics & H & Hn); inversion H; subst; simpl in Hn; by subst].
  - split.
    + intros H. destruct (ParseAIC c) as [[a|]|] eqn:Ep; try done.
      destruct (capabilitySubset (Capabilities a) eff) eqn:Es; [|done]. simpl in H.
      rewrite filterCovered_subset in H by done.
      destruct (zlen (Capabilities a) =? 0) eqn:Ez; [done|].
      apply IH in H as (aics & HF & Hn). exists (a :: aics).
      split; [constructor; [by exists c|done]|]. simpl. repeat split; [done| |done].
      intros E. by rewrite E in Ez.
    + intros (aics & HF & Hn). destruct aics as [|a aics]; [by inversion HF|].
      apply Forall2_cons in HF as [(c' & Ec & Hp) HF]. injection Ec as <-.
      destruct Hn as (Hs & Hne & Hn). rewrite Hp, Hs. simpl. rewrite filterCovered_subset by done.
      destruct (zlen (Capabilities a) =? 0) eqn:Ez; [by apply zlen_eqb_nil in Ez|].
      apply IH. eauto.
  - split; [done|]. intros (aics & HF & _). destruct aics as [|a aics]; [by inversion HF|].
    by apply Forall2_cons in HF as [(c & Ec & _) _].
Qed.

(** Capability names without wildcards, of the form [p:*], or [*]. *)
Definition simple_name (s : string) : Prop :=
  plain s = true \/ (exists p, plain p = true /\ s = (p +:+ ":*")) \/ s = "*".

(** What holding a capability named [a] authorizes: the names it covers. *)
Definition covers_name (a x : string) : bool :=
  MatchCapability x a || (negb (contains_byte "*" a) && has_prefix x (a +:+ ":")).

Lemma covered_names l a : capabilityCovered l a = covers_name (capabilityID a) (capabilityID l).
Proof.
  unfold capabilityCovered, covers_name. destruct (MatchCapability _ _); [done|].
  by destruct (contains_byte _ _).
Qed.
End EffectiveLemmas.

(** ** Coverage of simple names is transitive *)

Lemma covers_plain a x : plain a = true ->
  covers_name a x = String.eqb x a || has_prefix x (a +:+ ":").
Proof. intros H. unfold covers_name. by rewrite MatchCapability_plain, plain_no_star. Qed.

Lemma contains_star_prefix p : contains_byte "*" (p +:+ ":*") = true.
Proof. rewrite contains_byte_app. simpl. by rewrite orb_true_r. Qed.

Lemma covers_prefix p x : plain p = true -> covers_name (p +:+ ":*") x = has_prefix x (p +:+ ":").
Proof.
  intros H. unfold covers_name. rewrite MatchCapability_prefix, contains_star_prefix by done.
  by rewrite orb_false_r.
Qed.

Lemma covers_star x : covers_name "*" x = true.
Proof. unfold covers_name. by rewrite MatchCapability_star. Qed.

(** A plain prefix of [q:*] is a prefix of [q:]. *)
Lemma plain_prefix_of_star a q : plain a = true ->
  has_prefix (q +:+ ":*") a = true -> has_prefix (q +:+ ":") a = true.
Proof.
  intros Ha [t Ht]%has_prefix_spec. apply has_prefix_spec.
  assert ((q +:+ ":*") = ((q +:+ ":") +:+ "*")) as E by (by rewrite sapp_assoc).
  rewrite E in Ht. clear E. revert a Ha Ht.
  generalize (q +:+ ":"). clear q. intros u. induction u as [|c u IH]; intros a Ha Ht.
  - destruct a as [|d a]; [by exists ""|]. injection Ht as <- Ht. done.
  - destruct a as [|d a]; [eauto|]. injection Ht as <- Ht. simpl in Ha.
    apply andb_true_iff in Ha as [_ Ha]. destruct (IH a Ha Ht) as [t' ->]. eauto.
Qed.

Lemma covers_name_trans a b x : simple_name a -> simple_name b ->
  covers_name a b = true -> covers_name b x = true -> covers_name a x = true.
Proof.
  intros Ha Hb. destruct Ha as [Ha|[(p & Hp & ->)| ->]]; [| |intros; apply covers_star].
  - rewrite covers_plain by done. intros Hab Hbx. rewrite covers_plain by done.
    apply orb_true_iff. apply orb_true_iff in Hab as [E|Hab].
    { apply String.eqb_eq in E as ->. rewrite covers_plain in Hbx by done.
      by apply orb_true_iff. }
    right. assert (plain (a +:+ ":") = true) as Ha' by (by rewrite plain_app, Ha).
    destruct Hb as [Hb|[(q & Hq & ->)| ->]].
    + rewrite covers_plain in Hbx by done. apply orb_true_iff in Hbx as [E|Hbx].
      * by apply String.eqb_eq in E as ->.
      * eapply has_prefix_trans; [exact Hbx|]. eapply has_prefix_trans; [|exact Hab].
        apply has_prefix_app.
    + rewrite covers_prefix in Hbx by done. eapply has_prefix_trans; [exact Hbx|].
      by apply plain_prefix_of_star.
    + by destruct a as [|[[] [] [] [] [] [] [] []] ?].
  - rewrite !covers_prefix by done. intros Hab Hbx.
    assert (plain (p +:+ ":") = true) as Hp' by (by rewrite plain_app, Hp).
    destruct Hb as [Hb|[(q & Hq & ->)| ->]].
    + rewrite covers_plain in Hbx by done. apply orb_true_iff in Hbx as [E|Hbx].
      * by apply String.eqb_eq in E as ->.
      * eapply has_prefix_trans; [exact Hbx|]. eapply has_prefix_trans; [|exact Hab].
        apply has_prefix_app.
    + rewrite covers_prefix in Hbx by done. eapply has_prefix_trans; [exact Hbx|].
      by apply plain_prefix_of_star.
    + by destruct p as [|[[] [] [] [] [] [] [] []] ?].
Qed.

(** * Properties *)

Section Properties.
  Context {HF : HashFunction} {PM : PkiMethods} {DC : DACrypto} {CN : CapabilityNames}
          {CP : CertificateParser}.

Lemma Verify_spec v chain top :
  DelegationChainVerifier_Verify (Some v) chain (Some top) = None <->
  zlen chain <= MaxDepth v /\
  structure_ok chain (if MaxChainLength v <=? 0 then DefaultMaxChainLength else MaxChainLength v) /\
  forall i, (i < length chain)%nat ->
    level_signed (nth i chain None) (signer_of chain (Some top) i).
Proof.
  unfold DelegationChainVerifier_Verify. destruct (zlen chain =? 0) eqn:E0.
  { apply zlen_eqb_nil in E0 as ->. split; [done | intros (_ & (? & _) & _); done]. }
  destruct (Z.ltb_spec (MaxDepth v) (zlen chain)) as [Hd|Hd];
    [split; [done | intros [? _]; lia]|].
  destruct (verifyChainStructure _ _) eqn:Es.
  - split; [done|]. intros (_ & Hs & _). apply verifyChainStructure_spec in Hs. congruence.
  - apply verifyChainStructure_spec in Es. rewrite check_levels_spec.
    setoid_rewrite check_level_spec. naive_solver.
Qed.

(** C9: a chain is accepted exactly when it is not empty, not deeper than the
    top principal's maximum nor longer than the hard limit (a limit of zero or
    less means the default, never no limit), has no nil certificate and no
    repeated serial number, and at every level the certificate carries an AIC
    whose authorization is present and verified against the certificate of the
    level above, the top principal for the first. *)
Theorem chain_accepted_iff v chain top :
  DelegationChainVerifier_Verify (Some v) chain (Some top) = None <->
  zlen chain <= MaxDepth v /\
  structure_ok chain (if MaxChainLength v <=? 0 then DefaultMaxChainLength else MaxChainLength v) /\
  forall i, (i < length chain)%nat ->
    level_signed (nth i chain None) (signer_of chain (Some top) i).
Proof. apply Verify_spec. Qed.

(** No serial number occurs twice in an accepted chain of certificates
    with non-negative serial numbers: normalisation to 40 hexadecimal digits
    keeps distinct numbers distinct, so the cycle test misses nothing and
    refuses nothing else. *)
Theorem serials_distinct_iff (chain : list Certificate) (serials : list Z)
    (Hs : Forall2 (fun c z => SerialNumber c = Some z /\ 0 <= z) chain serials) :
  chain_serials 0 ∅ (map Some chain) = None <-> NoDup serials.
Proof.
  rewrite chain_serials_spec.
  assert (map serial_of (map Some chain) = map (fun z => NormalizeSerial (Some z)) serials) as ->.
  { induction Hs as [|c z cs zs [E _] _ IH]; simpl; [done|].
    unfold serial_of at 1. by rewrite E, IH. }
  assert (Forall (fun z => 0 <= z) serials) as Hpos by (induction Hs; constructor; naive_solver).
  assert (NoDup (map (fun z => NormalizeSerial (Some z)) serials) <-> NoDup serials) as ->.
  { clear Hs. induction Hpos as [|z zs Hz Hzs IH]; simpl; [by split; constructor|].
    rewrite !NoDup_cons, IH. split; intros [Hn HN]; (split; [|done]); intros Hin; apply Hn.
    - apply list_elem_of_fmap. eauto.
    - apply list_elem_of_fmap in Hin as (y & E & Hy). rewrite Forall_forall in Hzs.
      apply NormalizeSerial_nonneg_inj in E as ->; auto. }
  split; [tauto|]. intros HN. repeat split; [|done|set_solver].
  apply Forall_forall. intros c (c' & -> & _)%list_elem_of_fmap. eauto.
Qed.

(** The effective capabilities of a chain: the result is a list exactly
    when the structure is sound and every level parses to an AIC that declares
    something and nothing outside what its parent holds; the result is then
    what the bottom agent declares (each intersection keeps a whole level). *)
Theorem effective_capabilities_iff chain principal maxLen out :
  EffectiveDelegationCapabilities chain principal maxLen = Ok out <->
  structure_ok chain maxLen /\
  exists aics, Forall2 has_aic chain aics /\ narrows principal aics out.
Proof.
  unfold EffectiveDelegationCapabilities. destruct (verifyChainStructure chain maxLen) eqn:E.
  - split; [done|]. intros [Hs _]. apply verifyChainStructure_spec in Hs. congruence.
  - apply verifyChainStructure_spec in E. rewrite effective_from_spec. naive_solver.
Qed.

Lemma narrows_covered principal aics out :
  narrows principal aics out ->
  (forall c, c ∈ principal -> simple_name (capabilityID c)) ->
  Forall (fun a => forall c, c ∈ Capabilities a -> simple_name (capabilityID c)) aics ->
  forall c, c ∈ out -> simple_name (capabilityID c) /\
    exists p, p ∈ principal /\ forall x, covers_name (capabilityID c) x = true ->
                                         covers_name (capabilityID p) x = true.
Proof.
  revert principal. induction aics as [|a aics IH]; intros principal Hn Hp Ha c Hc.
  - simpl in Hn. subst out. eauto.
  - destruct Hn as (Hs & _ & Hn). apply Forall_cons in Ha as [Ha Has].
    destruct (IH (Capabilities a) Hn Ha Has c Hc) as (Hsc & q & Hq & Hcov).
    split; [done|]. rewrite capabilitySubset_spec in Hs.
    destruct (Hs q Hq) as (p & Hpp & Hqp). exists p. split; [done|]. intros x Hx.
    rewrite covered_names in Hqp. apply (covers_name_trans _ (capabilityID q)); auto.
Qed.

(** C10: authority only decreases along a chain: when the principal and every
    level use names without wildcards, names of the form [p:*] or [*], whatever
    a capability at the bottom of the chain covers is covered by a capability
    of the principal. *)
Theorem authority_only_decreases chain principal maxLen out aics
    (Ho : EffectiveDelegationCapabilities chain principal maxLen = Ok out)
    (Haics : Forall2 has_aic chain aics)
    (Hp : forall c, c ∈ principal -> simple_name (capabilityID c))
    (Ha : Forall (fun a => forall c, c ∈ Capabilities a -> simple_name (capabilityID c)) aics) :
  forall c, c ∈ out -> exists p, p ∈ principal /\
    forall x, covers_name (capabilityID c) x = true -> covers_name (capabilityID p) x = true.
Proof.
  intros c Hc. unfold EffectiveDelegationCapabilities in Ho.
  destruct (verifyChainStructure chain maxLen); [done|].
  apply effective_from_spec in Ho as (aics' & HF2 & Hn).
  assert (aics' = aics) as ->.
  { clear -HF2 Haics. revert aics' HF2. induction Haics as [|c a cs as_ (x & -> & Hx) _ IH];
      intros aics' HF2; [by inversion HF2|].
    destruct aics' as [|a' aics']; [by inversion HF2|].
    apply Forall2_cons in HF2 as [(y & [= <-] & Hy) HF2]. rewrite (IH _ HF2). congruence. }
  destruct (narrows_covered principal aics out Hn Hp Ha c Hc) as (_ & p & ? & ?). eauto.
Qed.

(** A maximum depth of zero or less refuses every chain. *)
Theorem no_depth_no_delegation chain top principal maxDepth maxLen (H : maxDepth <= 0) :
  exists e, VerifyDelegationChainWithCaps chain top principal maxDepth maxLen = Err e.
Proof.
  unfold VerifyDelegationChainWithCaps.
  destruct (DelegationChainVerifier_Verify _ _ _) eqn:E; [eauto|].
  destruct top as [t|].
  - apply Verify_spec in E as (Hd & (Hne & _) & _). simpl in Hd.
    apply zlen_pos_ne in Hne. apply Z.ltb_lt in Hne. lia.
  - unfold DelegationChainVerifier_Verify in E. by destruct (zlen chain =? 0).
Qed.
End Properties.

#[local] Existing Instances toy_crypto toy_methods.

(** The name of a capability as its documentation gives it. *)
Definition colon_names : CapabilityNames :=
  {| FullID := fun c => SchemeId c +:+ ":" +:+ CapabilityId c |}.
#[local] Existing Instance colon_names.

Definition cap (s c : string) : Capability :=
  {| SchemeId := s; CapabilityId := c; Parameters := "" |}.

(** With other patterns a level can hold more than its parent: a glob does
    not cross [/] but a [p:*] declaration does, and [?] covers a literal star.
    [fs:read:*] passes the subset test under [fs:re*] and authorizes
    [fs:read:a/b], which the parent does not; [db:*] passes under [db:?] and
    authorizes [db:drop]. *)
Theorem coverage_escalates :
  (capabilitySubset [cap "fs" "read:*"] [cap "fs" "re*"] = true /\
   MatchCapability "fs:read:a/b" (capabilityID (cap "fs" "read:*")) = true /\
   covers_name (capabilityID (cap "fs" "re*")) "fs:read:a/b" = false) /\
  (capabilitySubset [cap "db" "*"] [cap "db" "?"] = true /\
   MatchCapability "db:drop" (capabilityID (cap "db" "*")) = true /\
   covers_name (capabilityID (cap "db" "?")) "db:drop" = false).
Proof. vm_compute. repeat split; reflexivity. Qed.

(** * Witnesses *)

Definition sample_level (caps : list Capability) : AIC := {|
  AICVersion := 1; AgentId := "a";
  AICPrincipal := {| Realm := ""; Identifier := "u"; KeyHash := []; HashAlgo := "" |};
  Capabilities := caps; DelegationMode := 0; AuthorizationConstraints := [];
  AICDelegation := {| SignatureAlgorithm := ""; SignatureValue := []; Nonce := [];
    DAReason := ""; RequestedLifetime := 0; DATimestamp := 0 |} |}.

(** Certificate [k] of the sample carries the capabilities of level [k]. *)
Definition sample_parser : CertificateParser := {|
  ParseAIC := fun c => Ok (Some (sample_level
    (match SerialNumber c with Some 1 => [cap "db" "query:*"] | _ => [cap "db" "query:select"] end)));
  ParseUserPermissionExtension := fun _ => Ok None |}.
#[local] Existing Instance sample_parser.

Definition sample_chain : list (option Certificate) := [Some (toy_cert 1); Some (toy_cert 2)].

Lemma serials_distinct_iff_witness :
  chain_serials 0 ∅ (map Some [toy_cert 1; toy_cert 17]) = None <-> NoDup [1; 17].
Proof.
  apply serials_distinct_iff. repeat constructor; vm_compute; congruence.
Defined.

Lemma authority_only_decreases_witness :
  EffectiveDelegationCapabilities sample_chain [cap "db" "*"] 8 = Ok [cap "db" "query:select"] /\
  forall c, c ∈ [cap "db" "query:select"] -> exists p, p ∈ [cap "db" "*"] /\
    forall x, covers_name (capabilityID c) x = true -> covers_name (capabilityID p) x = true.
Proof.
  split; [vm_compute; reflexivity|].
  apply (authority_only_decreases sample_chain [cap "db" "*"] 8 _
    [sample_level [cap "db" "query:*"]; sample_level [cap "db" "query:select"]]).
  - vm_compute. reflexivity.
  - repeat constructor; eexists; split; reflexivity.
  - intros c ->%list_elem_of_singleton. right. left. exists "db". split; reflexivity.
  - constructor; [|constructor; [|constructor]]; intros c ->%list_elem_of_singleton.
    + right. left. exists "db:query". split; reflexivity.
    + left. reflexivity.
Defined.

Lemma no_depth_no_delegation_witness :
  exists e, VerifyDelegationChainWithCaps sample_chain (Some (toy_cert 7)) [] 0 0 = Err e.
Proof. apply no_depth_no_delegation. lia. Defined.
