(* ===== verification/NonceCache.v ===== *)
(** Replay protection: the nonce cache of delegation authorizations
    ([src/nonce_cache.go]) and the one-time-use store of bearer tokens
    ([memReplayStore] of [src/jwt.go]).

    [NonceCache] is a [sync.Map]: [CheckAndAdd] is one atomic [LoadOrStore];
    the cleanup visits keys one at a time, other calls in between, so its step
    is the visit of one key.  [memReplayStore] runs under its mutex.  The clock
    is an argument of each step. *)
From S2P Require Import Prelude GoStrings GoTime.
Local Open Scope string_scope.
Local Open Scope Z_scope.
Local Open Scope list_scope.

(** * Definitions *)
Module NonceCache.

(** [src/nonce_cache.go:nonceEntry] *)
Record nonceEntry := { scope : string; seen : Time }.

(** [NonceCache] of the source: the [sync.Map], keyed by the nonce; the
    background goroutine is the [CleanupKey] steps below. *)
Abbreviation NonceCache := (gmap bytes nonceEntry).

(** [src/nonce_cache.go:NewNonceCache] *)
Definition NewNonceCache : NonceCache := ∅.

(** [src/nonce_cache.go:NonceCache.CheckAndAdd] *)
Definition CheckAndAdd (m : NonceCache) (sc : string) (nonce : bytes) (now : Time)
  : bool * NonceCache :=
  if zlen nonce =? 0 then (false, m)
  else match m !! nonce with
       | None => (true, <[nonce := {| scope := sc; seen := now |}]> m)
       | Some e => (String.eqb (scope e) sc, m)
       end.

(** [src/nonce_cache.go:88-94 cleanup] the visit of one key. *)
Definition cleanup_key (m : NonceCache) (key : bytes) (now : Time) : NonceCache :=
  let deadline := Add now (-24 * Hour) in
  match m !! key with
  | Some e => if Before (seen e) deadline then delete key m else m
  | None => m
  end.

(** [src/nonce_cache.go:NonceCache.cleanup] all keys, no other call between. *)
Definition cleanup (m : NonceCache) (now : Time) : NonceCache :=
  foldr (fun k m => cleanup_key m k now) m (map fst (map_to_list m)).

(** [src/nonce_cache.go:NonceCache.Len] *)
Definition Len (m : NonceCache) : Z := Z.of_nat (size m).

(** The interleavings of the callers and the cleanup goroutine. *)
Inductive event :=
  | Check (sc : string) (nonce : bytes) (now : Time)
  | CleanupKey (key : bytes) (now : Time).
Definition event_time (ev : event) : Time :=
  match ev with Check _ _ t | CleanupKey _ t => t end.
Definition step (m : NonceCache) (ev : event) : NonceCache :=
  match ev with
  | Check sc n t => snd (CheckAndAdd m sc n t)
  | CleanupKey k t => cleanup_key m k t
  end.
Definition run (m : NonceCache) (evs : list event) : NonceCache := foldl step m evs.
End NonceCache.

Module ReplayStore.

(** [src/jwt.go:memReplayStore] *)
Record memReplayStore := { seen : gmap string Time; ttl : Duration; max : Z }.

(** [src/jwt.go:NewReplayNonceStore] *)
Definition NewReplayNonceStore (t : Duration) (m : Z) : memReplayStore :=
  {| seen := ∅; ttl := if t <=? 0 then 24 * Hour else t; max := if m <=? 0 then 65536 else m |}.

(** [src/jwt.go:404-409 CheckAndAdd] markers older than the TTL are dropped. *)
Definition purge (m : gmap string Time) (cutoff : Time) : gmap string Time :=
  filter (fun kv => Before kv.2 cutoff = false) m.

(** [src/jwt.go:memReplayStore.CheckAndAdd] *)
Definition memReplayStore_CheckAndAdd (s : memReplayStore) (nonce : string) (now : Time)
  : option error * memReplayStore :=
  if String.eqb nonce "" then (Some (Errorf "replay store: empty nonce" []), s)
  else match seen s !! nonce with
  | Some ts => (Some (Errorf "replay store: nonce replayed (first used %s)" [AInt ts]), s)
  | None =>
      let m1 := <[nonce := now]> (seen s) in
      let with_seen m := {| seen := m; ttl := ttl s; max := max s |} in
      if max s <? Z.of_nat (size m1) then
        let m2 := purge m1 (Add now (- ttl s)) in
        if max s <? Z.of_nat (size m2) then
          (Some (Errorf "replay store: nonce store at capacity %d with only live markers; refusing to record (fail-closed, P1-1)"
                   [AInt (max s)]), with_seen (delete nonce m2))
        else (None, with_seen m2)
      else (None, with_seen m1)
  end.

(** A sequence of presented tokens. *)
Definition run (s : memReplayStore) (evs : list (string * Time)) : memReplayStore :=
  foldl (fun s ev => snd (memReplayStore_CheckAndAdd s ev.1 ev.2)) s evs.
End ReplayStore.

(** * The nonce cache *)
Section NonceCacheFacts.
  Import NonceCache.

Lemma step_keeps m ev n e :
  m !! n = Some e -> event_time ev <= seen e + 24 * Hour -> step m ev !! n = Some e.
Proof.
  intros Hn Ht. destruct ev as [sc n' t|k t]; simpl in *.
  - unfold CheckAndAdd. destruct (zlen n' =? 0); [done|].
    destruct (m !! n') eqn:E; [done|]. simpl.
    rewrite lookup_insert_ne; [done|]. intros ->. congruence.
  - unfold cleanup_key. destruct (m !! k) as [e'|] eqn:E; [|done].
    destruct (Before (seen e') _) eqn:Eb; [|done].
    rewrite lookup_delete_ne; [done|]. intros ->. rewrite Hn in E. injection E as <-.
    unfold Before, Add in Eb. bools. lia.
Qed.

Lemma run_keeps m evs n e :
  m !! n = Some e -> Forall (fun ev => event_time ev <= seen e + 24 * Hour) evs ->
  run m evs !! n = Some e.
Proof.
  intros Hn HF. revert m Hn. induction HF as [|ev evs Ht _ IH]; intros m Hn; [done|].
  simpl. apply IH. by apply step_keeps.
Qed.

Lemma CheckAndAdd_recorded m sc n t :
  fst (CheckAndAdd m sc n t) = true -> exists t', snd (CheckAndAdd m sc n t) !! n =
    Some {| scope := sc; seen := t' |} /\ (m !! n = None -> t' = t).
Proof.
  unfold CheckAndAdd. destruct (zlen n =? 0); [done|].
  destruct (m !! n) as [[sc' t']|] eqn:E; simpl.
  - intros ->%String.eqb_eq. by exists t'.
  - intros _. exists t. by rewrite lookup_insert_eq.
Qed.

Lemma CheckAndAdd_present m sc n t e :
  m !! n = Some e -> fst (CheckAndAdd m sc n t) = (negb (zlen n =? 0) && String.eqb (scope e) sc).
Proof. intros H. unfold CheckAndAdd. rewrite H. by destruct (zlen n =? 0). Qed.

Lemma cleanup_lookup m now n :
  cleanup m now !! n =
  match m !! n with
  | Some e => if Before (seen e) (Add now (-24 * Hour)) then None else Some e
  | None => None
  end.
Proof.
  unfold cleanup.
  assert (forall ks, foldr (fun k m => cleanup_key m k now) m ks !! n =
    match m !! n with
    | Some e => if bool_decide (n ∈ ks) && Before (seen e) (Add now (-24 * Hour)) then None else Some e
    | None => None end) as G.
  { induction ks as [|k ks IH]; simpl; [by destruct (m !! n)|].
    unfold cleanup_key. set (m' := foldr _ m ks) in *.
    destruct (decide (n = k)) as [<-|Hne].
    - rewrite IH. destruct (m !! n) as [e|] eqn:E; [|by rewrite IH].
      rewrite (bool_decide_eq_true_2 (n ∈ n :: ks)) by set_solver. simpl.
      destruct (Before (seen e) _) eqn:Eb; rewrite ?andb_false_r in *.
      + rewrite andb_true_r in *. case_bool_decide; [by rewrite IH|].
        rewrite Eb. apply lookup_delete_eq.
      + by rewrite Eb, IH.
    - assert (bool_decide (n ∈ k :: ks) = bool_decide (n ∈ ks)) as ->
        by (apply bool_decide_ext; set_solver).
      rewrite <- IH. destruct (m' !! k) as [e|]; [|done].
      destruct (Before (seen e) _); [by rewrite lookup_delete_ne|done]. }
  rewrite G. destruct (m !! n) as [e|] eqn:E; [|done].
  rewrite bool_decide_eq_true_2; [done|]. apply list_elem_of_fmap.
  exists (n, e). split; [done|]. by apply elem_of_map_to_list.
Qed.

(** Replay protection: once a certificate identity was admitted with a new
    nonce at time [t], for 24 hours and whatever other calls and cleanup visits
    come between, the same identity is admitted again with it any number of
    times and every other identity is refused. *)
Theorem nonce_bound_to_scope m sc n t evs sc' t'
    (Hnew : m !! n = None) (Hok : fst (CheckAndAdd m sc n t) = true)
    (Hevs : Forall (fun ev => event_time ev <= t + 24 * Hour) evs) :
  fst (CheckAndAdd (run (snd (CheckAndAdd m sc n t)) evs) sc' n t') = String.eqb sc sc'.
Proof.
  destruct (CheckAndAdd_recorded m sc n t Hok) as (t0 & Hl & Ht). rewrite (Ht Hnew) in Hl.
  assert (zlen n =? 0 = false) as Hz.
  { unfold CheckAndAdd in Hok. by destruct (zlen n =? 0). }
  rewrite (CheckAndAdd_present _ _ _ _ {| scope := sc; seen := t |}), Hz; [done|].
  by apply run_keeps.
Qed.

(** The cleanup drops exactly the entries first seen more than 24 hours
    before. *)
Theorem cleanup_drops_expired m now n :
  cleanup m now !! n =
  match m !! n with
  | Some e => if Before (seen e) (Add now (-24 * Hour)) then None else Some e
  | None => None
  end.
Proof. apply cleanup_lookup. Qed.

Lemma nonce_bound_to_scope_witness :
  fst (CheckAndAdd (run (snd (CheckAndAdd NewNonceCache "ca/1" [z_byte 1] 0))
         [CleanupKey [z_byte 1] (3 * Hour); Check "ca/2" [z_byte 1] (4 * Hour)])
       "ca/3" [z_byte 1] (5 * Hour)) = String.eqb "ca/1" "ca/3".
Proof.
  apply nonce_bound_to_scope; [reflexivity | reflexivity |].
  repeat constructor; vm_compute; congruence.
Defined.
End NonceCacheFacts.

(** * The one-time-use store *)
Section ReplayFacts.
  Import ReplayStore.

Definition bounded (s : memReplayStore) : Prop := Z.of_nat (size (seen s)) <= max s /\ 0 < max s.

Lemma purge_lookup m cutoff k t :
  purge m cutoff !! k = Some t <-> m !! k = Some t /\ cutoff <= t.
Proof.
  unfold purge. rewrite map_lookup_filter_Some. simpl. unfold Before.
  by rewrite Z.ltb_ge.
Qed.

Lemma memReplayStore_CheckAndAdd_config s n t :
  ttl (snd (memReplayStore_CheckAndAdd s n t)) = ttl s /\ max (snd (memReplayStore_CheckAndAdd s n t)) = max s.
Proof. unfold memReplayStore_CheckAndAdd. repeat case_match; done. Qed.

(** A live marker survives. *)
Lemma memReplayStore_CheckAndAdd_keeps s n t k tk :
  seen s !! k = Some tk -> t <= tk + ttl s -> seen (snd (memReplayStore_CheckAndAdd s n t)) !! k = Some tk.
Proof.
  intros Hk Ht. unfold memReplayStore_CheckAndAdd.
  destruct (String.eqb n ""); [done|]. destruct (seen s !! n) eqn:En; [done|].
  assert (n <> k) as Hne by congruence.
  assert (purge (<[n := t]> (seen s)) (Add t (- ttl s)) !! k = Some tk) as Hp.
  { apply purge_lookup. rewrite lookup_insert_ne by done. unfold Add. split; [done|lia]. }
  repeat case_match; simpl; [by rewrite lookup_delete_ne | done | by rewrite lookup_insert_ne].
Qed.

Lemma run_keeps_marker s evs k tk :
  seen s !! k = Some tk -> Forall (fun ev => ev.2 <= tk + ttl s) evs ->
  seen (run s evs) !! k = Some tk.
Proof.
  intros Hk HF. revert s Hk HF. induction evs as [|ev evs IH]; intros s Hk HF; [done|].
  apply Forall_cons in HF as [Ht HF]. change (seen (run (snd (memReplayStore_CheckAndAdd s ev.1 ev.2)) evs) !! k = Some tk).
  apply IH; [by apply memReplayStore_CheckAndAdd_keeps|].
  by rewrite (proj1 (memReplayStore_CheckAndAdd_config s ev.1 ev.2)).
Qed.

Lemma accepted_marks s n t : 0 < ttl s ->
  fst (memReplayStore_CheckAndAdd s n t) = None -> seen (snd (memReplayStore_CheckAndAdd s n t)) !! n = Some t.
Proof.
  intros Httl. unfold memReplayStore_CheckAndAdd. repeat case_match; simpl; try done; intros _.
  - apply purge_lookup. rewrite lookup_insert_eq. unfold Add. split; [done|lia].
  - apply lookup_insert_eq.
Qed.

Lemma memReplayStore_CheckAndAdd_seen s n t ts : seen s !! n = Some ts -> fst (memReplayStore_CheckAndAdd s n t) <> None.
Proof.
  intros H. unfold memReplayStore_CheckAndAdd. destruct (String.eqb n ""); [done|].
  destruct (seen s !! n) eqn:E; [done|]. congruence.
Qed.

Lemma memReplayStore_CheckAndAdd_bounded s n t : bounded s -> bounded (snd (memReplayStore_CheckAndAdd s n t)).
Proof.
  unfold bounded. intros [Hb Hm]. destruct (memReplayStore_CheckAndAdd_config s n t) as [_ ->].
  split; [|done]. unfold memReplayStore_CheckAndAdd.
  destruct (String.eqb n ""); [done|]. destruct (seen s !! n) as [x|] eqn:En; [done|].
  repeat case_match; simpl; bools; [|lia|lia].
  assert (size (delete n (purge (<[n := t]> (seen s)) (Add t (- ttl s)))) <= size (seen s))%nat;
    [|lia].
  apply map_subseteq_size. apply map_subseteq_spec. intros k v.
  rewrite lookup_delete_Some, purge_lookup. intros (Hne & Hl & _).
  by rewrite lookup_insert_ne in Hl.
Qed.

(** One-time use: once a nonce was accepted at time [t], it is refused at
    every later presentation, whatever nonces were presented in between, as
    long as those came within the retention time of [t]: a live marker is never
    evicted, not even when the store is full. *)
Theorem nonce_single_use s n t evs t'
    (Httl : 0 < ttl s) (Hok : fst (memReplayStore_CheckAndAdd s n t) = None)
    (Hevs : Forall (fun ev => ev.2 <= t + ttl s) evs) :
  fst (memReplayStore_CheckAndAdd (run (snd (memReplayStore_CheckAndAdd s n t)) evs) n t') <> None.
Proof.
  apply memReplayStore_CheckAndAdd_seen with t. apply run_keeps_marker; [by apply accepted_marks|].
  by rewrite (proj1 (memReplayStore_CheckAndAdd_config s n t)).
Qed.

(** The store never holds more markers than its capacity, whatever is
    presented to it. *)
Theorem store_bounded t m evs :
  Z.of_nat (size (seen (run (NewReplayNonceStore t m) evs))) <=
  (if m <=? 0 then 65536 else m).
Proof.
  assert (forall s, bounded s -> bounded (run s evs) /\ max (run s evs) = max s) as G.
  { induction evs as [|ev evs IH]; intros s Hs; [done|]. simpl.
    destruct (IH _ (memReplayStore_CheckAndAdd_bounded s ev.1 ev.2 Hs)) as [? ->].
    split; [done|]. apply memReplayStore_CheckAndAdd_config. }
  destruct (G (NewReplayNonceStore t m)) as [[Hb _] Hm].
  - unfold bounded, NewReplayNonceStore. cbn [seen max]. rewrite map_size_empty.
    destruct (Z.leb_spec m 0); lia.
  - rewrite Hm in Hb. exact Hb.
Qed.

(** A full store of live markers fails closed: a new nonce is refused and
    no marker is lost. *)
Theorem full_store_fails_closed s n t
    (Hfull : max s <= Z.of_nat (size (seen s)))
    (Hlive : forall k tk, seen s !! k = Some tk -> t <= tk + ttl s)
    (Httl : 0 <= ttl s) (Hnew : seen s !! n = None) (Hne : n <> "") :
  exists e, fst (memReplayStore_CheckAndAdd s n t) = Some e /\ seen (snd (memReplayStore_CheckAndAdd s n t)) = seen s.
Proof.
  unfold memReplayStore_CheckAndAdd. rewrite (proj2 (String.eqb_neq _ _) Hne), Hnew.
  assert (purge (<[n := t]> (seen s)) (Add t (- ttl s)) = <[n := t]> (seen s)) as ->.
  { apply map_eq. intros k. apply option_eq. intros v. rewrite purge_lookup.
    split; [by intros [? _]|]. intros Hk. split; [done|]. unfold Add.
    apply lookup_insert_Some in Hk as [[_ <-]|[_ Hk]]; [lia|]. specialize (Hlive _ _ Hk). lia. }
  rewrite map_size_insert_None by done.
  rewrite (proj2 (Z.ltb_lt _ _)) by lia. eexists. split; [done|]. simpl.
  by apply delete_insert_id.
Qed.

Lemma nonce_single_use_witness :
  fst (memReplayStore_CheckAndAdd (run (snd (memReplayStore_CheckAndAdd (NewReplayNonceStore 0 2) "n" 0))
     [("a", Hour); ("b", 2 * Hour)]) "n" (3 * Hour)) <> None.
Proof.
  apply nonce_single_use; [reflexivity | reflexivity |].
  repeat constructor; vm_compute; congruence.
Defined.

Lemma full_store_fails_closed_witness :
  let s := run (NewReplayNonceStore 0 1) [("a", 0)] in
  exists e, fst (memReplayStore_CheckAndAdd s "n" Hour) = Some e /\ seen (snd (memReplayStore_CheckAndAdd s "n" Hour)) = seen s.
Proof.
  intros s. apply full_store_fails_closed.
  - vm_compute. congruence.
  - intros k tk Hk. assert (s = {| seen := {["a" := 0]}; ttl := 24 * Hour; max := 1 |}) as Es
      by reflexivity.
    rewrite Es in *. simpl in *. apply lookup_singleton_Some in Hk as [_ <-].
    vm_compute. congruence.
  - vm_compute. congruence.
  - vm_compute. reflexivity.
  - discriminate.
Defined.
End ReplayFacts.
