(* ===== verification/Constraints.v ===== *)
(** Authorization constraints: the evaluator registry and the eight built-in
    evaluators of [src/constraints.go], the evaluation of constraint lists of
    [src/decision.go], and the periodic recheck of long-lived connections.

    What an evaluation reads besides its arguments is an [EvalEnv]: the zone
    database behind [time.LoadLocation], the registered geographic resolvers,
    the clock, and the order in which a map is ranged over (Go leaves it
    unspecified, so it is a parameter).  A registry is a finite map guarded by
    a mutex; each operation is one step on it. *)
From S2P Require Import Prelude GoStrings GoTime GoJson GoNet Types.
From Stdlib Require Import Ascii.
Local Open Scope char_scope.
Local Open Scope string_scope.
Local Open Scope Z_scope.
Local Open Scope list_scope.

(** * Definitions *)

(** ** Constraint types *)
(** [src/decision.go:ConstraintCIDRKey] *)
Definition ConstraintCIDRKey := "network:cidr".
(** [src/decision.go:ConstraintConcurrentKey] *)
Definition ConstraintConcurrentKey := "session:max-concurrent".
(** [src/decision.go:ConstraintTimeWindowKey] *)
Definition ConstraintTimeWindowKey := "time:window".
(** [src/decision.go:ConstraintHardTimeoutKey] *)
Definition ConstraintHardTimeoutKey := "session:hard-timeout".
(** [src/decision.go:ConstraintIdleTimeoutKey] *)
Definition ConstraintIdleTimeoutKey := "session:idle-timeout".
(** [src/decision.go:ConstraintReadOnlyKey] *)
Definition ConstraintReadOnlyKey := "op:readonly".
(** [src/decision.go:ConstraintAuditRequiredKey] *)
Definition ConstraintAuditRequiredKey := "op:audit:required".
(** [src/decision.go:ConstraintGeoFenceKey] *)
Definition ConstraintGeoFenceKey := "geo-fence".

(** [src/constraints.go:ConstraintContext] *)
Record ConstraintContext := { ClientIP : string; Now : Time }.

(** [src/constraints.go:GeoResolver] *)
Definition GeoResolver := string -> result string.

Record EvalEnv := {
  LoadLocation : string -> result Location;
  geoResolvers : gmap string GeoResolver;
  time_Now : Time;
  range_order : gmap string (list string) -> list (string * list string)
}.

(** A nil dereference of an evaluator called without a context. *)
Definition nil_dereference : error := ErrNew "runtime error: nil pointer dereference".

(** ** allowed-cidr *)

(** [src/constraints.go:parseCIDRParam] *)
Definition parseCIDRParam (raw : string) : result (list string) :=
  let trimmed := trim_space raw in
  match trimmed with
  | String "{" _ =>
      unmarshal (dec_struct (fun cidrs k v =>
        if field_is "cidrs" k then dec_string_list cidrs v else Ok cidrs) []) trimmed
  | _ => unmarshal (dec_string_list []) trimmed
  end.

(** [src/constraints.go:207-216 Evaluate] the ranges in order; an invalid one
    is reached before a later match. *)
Fixpoint cidr_loop (clientIP : string) (ip : IP) (cidrs : list string) : option error :=
  match cidrs with
  | [] => Some (Errorf "constraint allowed-cidr: client IP %q not in allowed CIDRs" [AStr clientIP])
  | cidr :: cidrs' =>
      match ParseCIDR cidr with
      | None => Some (Errorf "constraint allowed-cidr: invalid CIDR %q in allowed list" [AStr cidr])
      | Some cidrNet => if Contains cidrNet ip then None else cidr_loop clientIP ip cidrs'
      end
  end.

(** [src/constraints.go:cidrEvaluator.Evaluate] *)
Definition cidr_Evaluate (cap : Capability) (ctx : option ConstraintContext) : option error :=
  match ctx with
  | None => Some (Errorf "constraint allowed-cidr: nil context" [])
  | Some ctx =>
    match parseCIDRParam (Parameters cap) with
    | Err err => Some (Errorf "constraint allowed-cidr: invalid JSON: %w" [AWrap err])
    | Ok cidrs =>
        if zlen cidrs =? 0 then None
        else if String.eqb (ClientIP ctx) "" then
          Some (Errorf "constraint allowed-cidr: client IP unavailable" [])
        else match ParseIP (ClientIP ctx) with
        | None => Some (Errorf "constraint allowed-cidr: invalid client IP %q" [AStr (ClientIP ctx)])
        | Some parsedIP => cidr_loop (ClientIP ctx) parsedIP cidrs
        end
    end
  end.

(** ** max-concurrent *)

(** [src/constraints.go:MaxConcurrentMin] *)
Definition MaxConcurrentMin : Z := 1.
(** [src/constraints.go:MaxConcurrentMax] *)
Definition MaxConcurrentMax : Z := 1024.

(** A struct with one [int] field. *)
Definition dec_int_field (name : string) : json -> result Z :=
  dec_struct (fun n k v => if field_is name k then dec_int n v else Ok n) 0.

(** [src/constraints.go:parseMaxConcurrentParam] *)
Definition parseMaxConcurrentParam (raw : string) : result Z :=
  let trimmed := trim_space raw in
  if slen trimmed =? 0 then Ok 0
  else match unmarshal (dec_int_field "max") trimmed with
  | Err err => Err (Errorf "constraint max-concurrent: invalid JSON: %w" [AWrap err])
  | Ok n =>
      if (n <? MaxConcurrentMin) || (MaxConcurrentMax <? n) then
        Err (Errorf "constraint max-concurrent: max %d: must be %d-%d"
               [AInt n; AInt MaxConcurrentMin; AInt MaxConcurrentMax])
      else Ok n
  end.

(** [src/constraints.go:maxConcurrentEvaluator.Evaluate] *)
Definition maxConcurrent_Evaluate (cap : Capability) : option error :=
  err_of (parseMaxConcurrentParam (Parameters cap)).

(** ** time-window *)

(** [src/decision.go:parseTimeParts] the digits are differences of bytes. *)
Definition parseTimeParts (s : string) : option (Z * Z) :=
  match s with
  | String a (String b (String ":" (String c (String d EmptyString)))) =>
      let digit x := wrap8 (code x - 48) in
      let h := digit a * 10 + digit b in
      let m := digit c * 10 + digit d in
      if (h <? 0) || (23 <? h) || (m <? 0) || (59 <? m) then None else Some (h, m)
  | _ => None
  end.

(** [src/constraints.go:timeWindowParams] *)
Record timeWindowParams := { Start : string; End_ : string; TZ : string }.

Definition dec_timeWindowParams : json -> result timeWindowParams :=
  dec_struct (fun p k v =>
    if field_is "start" k then s ← dec_string (Start p) v; Ok {| Start := s; End_ := End_ p; TZ := TZ p |}
    else if field_is "end" k then s ← dec_string (End_ p) v; Ok {| Start := Start p; End_ := s; TZ := TZ p |}
    else if field_is "tz" k then s ← dec_string (TZ p) v; Ok {| Start := Start p; End_ := End_ p; TZ := s |}
    else Ok p) {| Start := ""; End_ := ""; TZ := "" |}.

(** [src/constraints.go:341-348 Evaluate] whether [t] is in the window of its
    local day; a window whose start is after its end spans midnight. *)
Definition in_window (loc : Location) (t : Time) (start end_ : Z * Z) : bool :=
  let day := local_day loc t in
  let startTime := Date day (fst start) (snd start) loc in
  let endTime := Date day (fst end_) (snd end_) loc in
  if Before startTime endTime || Equal startTime endTime
  then negb (Before t startTime) && Before t endTime
  else negb (Before t startTime) || Before t endTime.

(** [src/constraints.go:timeWindowEvaluator.Evaluate]; the printed time of day
    is kept in seconds. *)
Definition timeWindow_Evaluate (env : EvalEnv) (cap : Capability) (ctx : option ConstraintContext)
  : option error :=
  match unmarshal dec_timeWindowParams (Parameters cap) with
  | Err err => Some (Errorf "constraint time-window: invalid JSON: %w" [AWrap err])
  | Ok params =>
      if String.eqb (Start params) "" || String.eqb (End_ params) "" then
        Some (Errorf "constraint time-window: start and end are required" [])
      else match parseTimeParts (Start params), parseTimeParts (End_ params) with
      | Some start, Some end_ =>
          match (if String.eqb (TZ params) "" then Ok UTC else LoadLocation env (TZ params)) with
          | Err err => Some (Errorf "constraint time-window: invalid tz %q: %w"
                               [AStr (TZ params); AWrap err])
          | Ok loc =>
              match ctx with
              | None => Some nil_dereference
              | Some ctx =>
                  let now := if IsZero (Now ctx) then time_Now env else Now ctx in
                  if in_window loc now start end_ then None
                  else Some (Errorf "constraint time-window: current time %s outside window %s-%s (%s)"
                         [AInt (local_seconds loc now mod 86400); AStr (Start params);
                          AStr (End_ params); AStr (TZ params)])
              end
          end
      | _, _ => Some (Errorf "constraint time-window: invalid time format %q / %q"
                        [AStr (Start params); AStr (End_ params)])
      end
  end.

(** ** geo-fence *)

(** [src/constraints.go:419-427 geoResolve] the ranges of one region; [None]
    goes on to the next. *)
Fixpoint region_cidrs (region : string) (ip : IP) (cidrs : list string) : option (result string) :=
  match cidrs with
  | [] => None
  | cidr :: cidrs' =>
      match ParseCIDR cidr with
      | None => Some (Err (Errorf "constraint geo-fence: invalid CIDR %q for region %q"
                             [AStr cidr; AStr region]))
      | Some cidrNet => if Contains cidrNet ip then Some (Ok region) else region_cidrs region ip cidrs'
      end
  end.

(** [src/constraints.go:418-429 geoResolve] the inline table, in range order. *)
Fixpoint region_loop (ip : IP) (table : list (string * list string)) : result string :=
  match table with
  | [] => Err (Errorf "constraint geo-fence: client IP %q not in any allowed region"
                 [AStr (IP_String ip)])
  | (region, cidrs) :: table' =>
      match region_cidrs region ip cidrs with
      | Some r => r
      | None => region_loop ip table'
      end
  end.

(** [src/constraints.go:lookupGeoResolver] *)
Definition lookupGeoResolver (env : EvalEnv) (name : string) : option GeoResolver :=
  geoResolvers env !! name.

(** [src/constraints.go:RegisterGeoResolver] *)
Definition RegisterGeoResolver (m : gmap string GeoResolver) (name : string) (fn : option GeoResolver)
  : gmap string GeoResolver :=
  match fn with
  | None => m
  | Some f => if String.eqb name "" then m else <[name := f]> m
  end.

(** [src/constraints.go:geoResolve] *)
Definition geoResolve (env : EvalEnv) (resolver : string) (ip : IP) (regions : json) : result string :=
  if String.eqb resolver "inline" then
    match dec_string_list_map regions with
    | Err err => Err (Errorf (dq "constraint geo-fence: inline regions must be {'region':['cidr']}: %w")
                        [AWrap err])
    | Ok table => region_loop ip (range_order env table)
    end
  else match lookupGeoResolver env resolver with
  | None => Err (Errorf "constraint geo-fence: resolver %q not registered" [AStr resolver])
  | Some fn =>
      match dec_string_list [] regions with
      | Err err => Err (Errorf "constraint geo-fence: resolver %q expects regions array: %w"
                          [AStr resolver; AWrap err])
      | Ok allowed =>
          match fn (IP_String ip) with
          | Err err => Err (Errorf "constraint geo-fence: resolver %q: %w" [AStr resolver; AWrap err])
          | Ok region =>
              if existsb (fun a => String.eqb a region) allowed then Ok region
              else Err (Errorf "constraint geo-fence: client IP %q resolved to %q not in allowed regions"
                          [AStr (IP_String ip); AStr region])
          end
      end
  end.

(** The resolver name and the raw [regions] value ([json.RawMessage]). *)
Definition dec_geo : json -> result (string * option json) :=
  dec_struct (fun '(r, g) k v =>
    if field_is "resolver" k then s ← dec_string r v; Ok (s, g)
    else if field_is "regions" k then Ok (r, Some v)
    else Ok (r, g)) ("", None).

(** [src/constraints.go:geoFenceEvaluator.Evaluate] *)
Definition geoFence_Evaluate (env : EvalEnv) (cap : Capability) (ctx : option ConstraintContext)
  : option error :=
  match ctx with
  | None => Some (Errorf "constraint geo-fence: nil context" [])
  | Some ctx =>
    match unmarshal dec_geo (Parameters cap) with
    | Err err => Some (Errorf "constraint geo-fence: invalid JSON: %w" [AWrap err])
    | Ok (_, None) => Some (Errorf "constraint geo-fence: regions are required" [])
    | Ok (r, Some regions) =>
        let resolver := if String.eqb r "" then "inline" else r in
        if String.eqb (ClientIP ctx) "" then
          Some (Errorf "constraint geo-fence: client IP unavailable" [])
        else match ParseIP (ClientIP ctx) with
        | None => Some (Errorf "constraint geo-fence: invalid client IP %q" [AStr (ClientIP ctx)])
        | Some parsedIP => err_of (geoResolve env resolver parsedIP regions)
        end
    end
  end.

(** ** Session and operation constraints *)
(** [src/constraints.go:HardTimeoutMin] *)
Definition HardTimeoutMin : Z := 60.
(** [src/constraints.go:HardTimeoutMax] *)
Definition HardTimeoutMax : Z := 86400.
(** [src/constraints.go:IdleTimeoutMin] *)
Definition IdleTimeoutMin : Z := 30.
(** [src/constraints.go:IdleTimeoutMax] *)
Definition IdleTimeoutMax : Z := 3600.

(** [src/constraints.go:hardTimeoutEvaluator.Evaluate] *)
Definition hardTimeout_Evaluate (cap : Capability) : option error :=
  match unmarshal (dec_int_field "value") (Parameters cap) with
  | Err err => Some (Errorf "constraint session:hard-timeout: invalid JSON: %w" [AWrap err])
  | Ok value =>
      if (value <? HardTimeoutMin) || (HardTimeoutMax <? value) then
        Some (Errorf "constraint session:hard-timeout: value %d: must be %d-%d"
                [AInt value; AInt HardTimeoutMin; AInt HardTimeoutMax])
      else None
  end.

(** [src/constraints.go:idleTimeoutEvaluator.Evaluate] *)
Definition idleTimeout_Evaluate (cap : Capability) : option error :=
  match unmarshal (dec_int_field "value") (Parameters cap) with
  | Err err => Some (Errorf "constraint session:idle-timeout: invalid JSON: %w" [AWrap err])
  | Ok value =>
      if (value <? IdleTimeoutMin) || (IdleTimeoutMax <? value) then
        Some (Errorf "constraint session:idle-timeout: value %d: must be %d-%d"
                [AInt value; AInt IdleTimeoutMin; AInt IdleTimeoutMax])
      else None
  end.

(** [src/constraints.go:readOnlyEvaluator.Evaluate] *)
Definition readOnly_Evaluate (cap : Capability) : option error :=
  match unmarshal (dec_struct (fun b k v => if field_is "value" k then dec_bool b v else Ok b) false)
          (Parameters cap) with
  | Err err => Some (Errorf "constraint op:readonly: invalid JSON: %w" [AWrap err])
  | Ok _ => None
  end.

(** [src/constraints.go:auditRequiredEvaluator.Evaluate] *)
Definition auditRequired_Evaluate (cap : Capability) : option error := None.

(** ** Evaluators *)

(** [src/constraints.go:ConstraintEvaluator] the types of the source that
    implement the interface, and any other implementation. *)
Inductive ConstraintEvaluator :=
  | cidrEvaluator
  | timeWindowEvaluator
  | maxConcurrentEvaluator
  | hardTimeoutEvaluator
  | idleTimeoutEvaluator
  | readOnlyEvaluator
  | auditRequiredEvaluator
  | geoFenceEvaluator
  | skipEvaluator (capabilityId : string)
  | customEvaluator (capabilityId : string)
      (evaluate : Capability -> option ConstraintContext -> option error).

(** [src/constraints.go:cidrEvaluator.CapabilityId] and the same method of the
    other types. *)
Definition evaluator_id (ev : ConstraintEvaluator) : string :=
  match ev with
  | cidrEvaluator => ConstraintCIDRKey
  | timeWindowEvaluator => ConstraintTimeWindowKey
  | maxConcurrentEvaluator => ConstraintConcurrentKey
  | hardTimeoutEvaluator => ConstraintHardTimeoutKey
  | idleTimeoutEvaluator => ConstraintIdleTimeoutKey
  | readOnlyEvaluator => ConstraintReadOnlyKey
  | auditRequiredEvaluator => ConstraintAuditRequiredKey
  | geoFenceEvaluator => ConstraintGeoFenceKey
  | skipEvaluator id | customEvaluator id _ => id
  end.

(** [src/constraints.go:skipEvaluator.Evaluate] and the same method of the
    other types. *)
Definition Evaluate (env : EvalEnv) (ev : ConstraintEvaluator) (cap : Capability)
    (ctx : option ConstraintContext) : option error :=
  match ev with
  | cidrEvaluator => cidr_Evaluate cap ctx
  | timeWindowEvaluator => timeWindow_Evaluate env cap ctx
  | maxConcurrentEvaluator => maxConcurrent_Evaluate cap
  | hardTimeoutEvaluator => hardTimeout_Evaluate cap
  | idleTimeoutEvaluator => idleTimeout_Evaluate cap
  | readOnlyEvaluator => readOnly_Evaluate cap
  | auditRequiredEvaluator => auditRequired_Evaluate cap
  | geoFenceEvaluator => geoFence_Evaluate env cap ctx
  | skipEvaluator _ => None
  | customEvaluator _ f => f cap ctx
  end.

(** ** The registry *)
Abbreviation ConstraintRegistry := (gmap string ConstraintEvaluator).

(** [src/constraints.go:NewConstraintRegistry] *)
Definition NewConstraintRegistry : ConstraintRegistry := ∅.

(** [src/constraints.go:ConstraintRegistry.Register] *)
Definition Register_ (r : ConstraintRegistry) (ev : option ConstraintEvaluator)
  : option error * ConstraintRegistry :=
  match ev with
  | None => (Some (Errorf "constraint: nil evaluator" []), r)
  | Some ev =>
      let id := evaluator_id ev in
      if String.eqb id "" then (Some (Errorf "constraint: empty capabilityId" []), r)
      else match r !! id with
      | Some _ => (Some (Errorf "constraint: %q already registered" [AStr id]), r)
      | None => (None, <[id := ev]> r)
      end
  end.

(** [src/constraints.go:ConstraintRegistry.Replace] *)
Definition Replace (r : ConstraintRegistry) (ev : option ConstraintEvaluator)
  : option error * ConstraintRegistry :=
  match ev with
  | None => (Some (Errorf "constraint: nil evaluator" []), r)
  | Some ev =>
      let id := evaluator_id ev in
      if String.eqb id "" then (Some (Errorf "constraint: empty capabilityId" []), r)
      else (None, <[id := ev]> r)
  end.

(** [src/constraints.go:ConstraintRegistry.Find] *)
Definition Find (r : ConstraintRegistry) (capabilityId : string) : result ConstraintEvaluator :=
  match r !! capabilityId with
  | None => Err (Errorf "constraint: no evaluator for %q" [AStr capabilityId])
  | Some ev => Ok ev
  end.

(** [src/constraints.go:ConstraintRegistry.Remove] *)
Definition Remove_ (r : ConstraintRegistry) (capabilityId : string) : ConstraintRegistry :=
  delete capabilityId r.

(** [src/constraints.go:ConstraintRegistry.Reset] *)
Definition Reset_ (r : ConstraintRegistry) : ConstraintRegistry := ∅.

(** [src/constraints.go:ConstraintRegistry.Len] *)
Definition Len (r : ConstraintRegistry) : Z := Z.of_nat (size r).

(** [src/constraints.go:ConstraintRegistry.Keys] up to the order of the range. *)
Definition Keys (r : ConstraintRegistry) : list string := map fst (map_to_list r).

(** [src/constraints.go:130-143 init] *)
Definition builtin_evaluators : list ConstraintEvaluator :=
  [cidrEvaluator; timeWindowEvaluator; maxConcurrentEvaluator; hardTimeoutEvaluator;
   idleTimeoutEvaluator; readOnlyEvaluator; auditRequiredEvaluator; geoFenceEvaluator].
Definition register_all (r : ConstraintRegistry) (evs : list ConstraintEvaluator)
  : ConstraintRegistry := foldl (fun r ev => snd (Register_ r (Some ev))) r evs.

(** [src/constraints.go:128-128 globalConstraintRegistry] as package
    initialization leaves it. *)
Definition globalConstraintRegistry_init : ConstraintRegistry :=
  register_all NewConstraintRegistry builtin_evaluators.

(** [src/constraints.go:RegisterConstraint] on the global registry. *)
Definition RegisterConstraint (global : ConstraintRegistry) (ev : option ConstraintEvaluator) :=
  Register_ global ev.

(** [src/constraints.go:ReplaceConstraint] on the global registry. *)
Definition ReplaceConstraint (global : ConstraintRegistry) (ev : option ConstraintEvaluator) :=
  Replace global ev.

(** [src/constraints.go:ResetConstraints] on the global registry. *)
Definition ResetConstraints (global : ConstraintRegistry) : ConstraintRegistry :=
  register_all (Reset_ global) builtin_evaluators.

(** ** Evaluation of constraint lists *)

(** [src/decision.go:isConstraintScheme] *)
Definition isConstraintScheme (scheme : string) : bool :=
  String.eqb scheme "varwof/constraint-v1" || String.eqb scheme "constraint" ||
  String.eqb scheme "constraint-v1".

(** [src/decision.go:checkConstraintsReg] *)
Fixpoint checkConstraintsReg (env : EvalEnv) (reg : ConstraintRegistry)
    (constraints : list Capability) (clientIP : string) (now : Time) : option error :=
  match constraints with
  | [] => None
  | c :: constraints' =>
      if negb (isConstraintScheme (SchemeId c)) then
        Some (Errorf "constraint schemeId %q: must be %q" [AStr (SchemeId c); AStr "varwof/constraint-v1"])
      else match Find reg (CapabilityId c) with
      | Err _ => checkConstraintsReg env reg constraints' clientIP now
      | Ok ev =>
          match Evaluate env ev c (Some {| ClientIP := clientIP; Now := now |}) with
          | Some err => Some err
          | None => checkConstraintsReg env reg constraints' clientIP now
          end
      end
  end.

(** [src/decision.go:checkConstraintsAt] *)
Definition checkConstraintsAt (env : EvalEnv) (global : ConstraintRegistry)
    (constraints : list Capability) (clientIP : string) (now : Time) : option error :=
  checkConstraintsReg env global constraints clientIP now.

(** [src/decision.go:CheckAuthorizationConstraints] *)
Definition CheckAuthorizationConstraints (env : EvalEnv) (global : ConstraintRegistry)
    (constraints : list Capability) (clientIP : string) : option error :=
  checkConstraintsAt env global constraints clientIP (time_Now env).

(** [src/decision.go:CheckAuthorizationConstraintsAt] *)
Definition CheckAuthorizationConstraintsAt (env : EvalEnv) (global : ConstraintRegistry)
    (constraints : list Capability) (clientIP timeHHMM : string) : option error :=
  let now := time_Now env in
  if String.eqb timeHHMM "" then checkConstraintsAt env global constraints clientIP now
  else match parseTimeParts timeHHMM with
  | None => Some (Errorf "time-window: invalid --time %q (want HH:MM UTC)" [AStr timeHHMM])
  | Some (h, m) => checkConstraintsAt env global constraints clientIP (Date (local_day UTC now) h m UTC)
  end.

(** [src/decision.go:isKnownConstraintTypeReg] *)
Definition isKnownConstraintTypeReg (reg : ConstraintRegistry) (capabilityId : string) : bool :=
  is_ok (Find reg capabilityId).

(** [src/decision.go:isKnownConstraintType] *)
Definition isKnownConstraintType (global : ConstraintRegistry) (capabilityId : string) : bool :=
  isKnownConstraintTypeReg global capabilityId.

(** [src/decision.go:firstUnknownConstraintReg] *)
Fixpoint firstUnknownConstraintReg (reg : ConstraintRegistry) (constraints : list Capability)
  : option Capability :=
  match constraints with
  | [] => None
  | c :: constraints' =>
      if negb (isConstraintScheme (SchemeId c)) then firstUnknownConstraintReg reg constraints'
      else if negb (isKnownConstraintTypeReg reg (CapabilityId c)) then Some c
      else firstUnknownConstraintReg reg constraints'
  end.

(** [src/decision.go:firstUnknownConstraint] *)
Definition firstUnknownConstraint (global : ConstraintRegistry) (constraints : list Capability) :=
  firstUnknownConstraintReg global constraints.

(** ** The recheck loop *)

(** What the goroutine is woken by: the closed [done] channel, or the ticker;
    at a tick each of the two evaluations reads the clock, the global registry
    and the resolvers as they then are. *)
Record reading := { rd_env : EvalEnv; rd_registry : ConstraintRegistry }.
Inductive recheck_event := Done | Tick (first second : reading).

(** [src/constraints.go:582-584 ConstraintRecheckLoop] *)
Definition recheck_interval (interval : Duration) : Duration :=
  if interval <=? 0 then 30 * Second else interval.

(** [src/constraints.go:595-606 ConstraintRecheckLoop] one tick: the violation
    found, if any. *)
Definition recheck_tick (aicConstraints paConstraints : list Capability) (clientIP : string)
    (first second : reading) : option error :=
  match CheckAuthorizationConstraints (rd_env first) (rd_registry first) aicConstraints clientIP with
  | Some err => Some err
  | None => CheckAuthorizationConstraints (rd_env second) (rd_registry second) paConstraints clientIP
  end.

(** [src/constraints.go:ConstraintRecheckLoop] the reasons handed to
    [onViolation], and whether the loop has returned. *)
Fixpoint ConstraintRecheckLoop (aicConstraints paConstraints : list Capability) (clientIP : string)
    (onViolation : bool) (events : list recheck_event) : list error * bool :=
  match events with
  | [] => ([], false)
  | Done :: _ => ([], true)
  | Tick first second :: events' =>
      match recheck_tick aicConstraints paConstraints clientIP first second with
      | Some err => (if onViolation then [err] else [], true)
      | None => ConstraintRecheckLoop aicConstraints paConstraints clientIP onViolation events'
      end
  end.

(** ** Examples *)
Definition sample_env : EvalEnv := {|
  LoadLocation := fun s => if String.eqb s "Asia/Shanghai" then Ok (fixed_zone 28800)
                           else Err (Errorf "unknown time zone %s" [AStr s]);
  geoResolvers := {["ip2region" := fun _ => Ok "CN-SHA"]};
  time_Now := 0; range_order := map_to_list |}.
Definition constraint (id params : string) : Capability :=
  {| SchemeId := "varwof/constraint-v1"; CapabilityId := id; Parameters := dq params |}.
Definition sample_check (cs : list Capability) (ip : string) (now : Time) : bool :=
  match checkConstraintsReg sample_env globalConstraintRegistry_init cs ip now with
  | None => true | Some _ => false end.

Example check_cidr :
  sample_check [constraint "network:cidr" "{'cidrs':['10.0.0.0/8','fd00::/8']}"] "fd00::1" 0 = true /\
  sample_check [constraint "network:cidr" "['10.0.0.0/8']"] "11.0.0.1" 0 = false /\
  sample_check [constraint "network:cidr" "['10.0.0.0/8']"] "" 0 = false.
Proof. vm_compute. repeat split; reflexivity. Qed.
Example check_window :
  let w := "{'start':'09:00','end':'18:00','tz':'Asia/Shanghai'}" in
  sample_check [constraint "time:window" w] "" (1 * Hour) = true /\
  sample_check [constraint "time:window" w] "" (10 * Hour) = false /\
  sample_check [constraint "time:window" "{'start':'22:00','end':'06:00'}"] "" (23 * Hour) = true.
Proof. vm_compute. repeat split; reflexivity. Qed.
Example check_geo :
  sample_check [constraint "geo-fence" "{'resolver':'ip2region','regions':['CN-BJS','CN-SHA']}"] "1.2.3.4" 0 = true /\
  sample_check [constraint "geo-fence" "{'regions':{'X':['10.0.0.0/8']}}"] "10.2.3.4" 0 = true /\
  sample_check [constraint "geo-fence" "{'resolver':'none','regions':[]}"] "10.2.3.4" 0 = false.
Proof. vm_compute. repeat split; reflexivity. Qed.
Example check_bounds :
  sample_check [constraint "session:max-concurrent" "{'max':1024}"; constraint "custom:x" "?"] "" 0 = true /\
  sample_check [constraint "session:max-concurrent" "{'max':1025}"] "" 0 = false /\
  sample_check [constraint "session:max-concurrent" "{'max':1.5}"] "" 0 = false.
Proof. vm_compute. repeat split; reflexivity. Qed.

(** * Lemmas *)

(** One constraint of a list passes. *)
Definition constraint_passes (env : EvalEnv) (reg : ConstraintRegistry) (clientIP : string)
    (now : Time) (c : Capability) : Prop :=
  isConstraintScheme (SchemeId c) = true /\
  forall ev, reg !! CapabilityId c = Some ev ->
    Evaluate env ev c (Some {| ClientIP := clientIP; Now := now |}) = None.

Lemma checkConstraintsReg_None env reg cs ip now :
  checkConstraintsReg env reg cs ip now = None <-> Forall (constraint_passes env reg ip now) cs.
Proof.
  induction cs as [|c cs IH]; simpl; [split; [constructor|done]|].
  rewrite Forall_cons, <- IH. unfold constraint_passes, Find.
  destruct (isConstraintScheme (SchemeId c)); simpl; [|split; [done|by intros [[? _] _]]].
  destruct (reg !! CapabilityId c) as [ev|] eqn:E; simpl.
  - destruct (Evaluate _ _ _ _) as [err|] eqn:Ev.
    + split; [done|]. intros [[_ H] _]. rewrite (H ev eq_refl) in Ev. done.
    + split; [|by intros [_ ?]]. intros H. split; [|done]. split; [done|]. by intros ev' [= <-].
  - split; [|by intros [_ ?]]. intros H. by split; [split|].
Qed.

(** The first offending constraint decides the error. *)
Lemma checkConstraintsReg_first env reg cs1 c cs2 ip now :
  Forall (constraint_passes env reg ip now) cs1 ->
  checkConstraintsReg env reg (cs1 ++ c :: cs2) ip now =
  checkConstraintsReg env reg (c :: cs2) ip now.
Proof.
  induction 1 as [|c' cs [Hs He] _ IH]; [done|]. simpl. rewrite Hs. simpl.
  unfold Find at 1. destruct (reg !! CapabilityId c') as [ev|]; [|done].
  by rewrite (He ev eq_refl).
Qed.

Lemma cidr_loop_None s ip cidrs :
  cidr_loop s ip cidrs = None <->
  exists pre c net post, cidrs = pre ++ c :: post /\
    Forall (fun p => exists n, ParseCIDR p = Some n /\ Contains n ip = false) pre /\
    ParseCIDR c = Some net /\ Contains net ip = true.
Proof.
  induction cidrs as [|c cidrs IH]; simpl.
  { split; [done|]. intros (pre & ? & ? & ? & H & _). by destruct pre. }
  destruct (ParseCIDR c) as [n|] eqn:E.
  - destruct (Contains n ip) eqn:C.
    + split; [|done]. intros _. by exists [], c, n, cidrs.
    + rewrite IH. split.
      * intros (pre & c' & net & post & -> & Hp & Hc & Hn). exists (c :: pre), c', net, post.
        split; [done|]. split; [|done]. constructor; [by exists n|done].
      * intros ([|p pre] & c' & net & post & [= -> ->] & Hp & Hc & Hn); [congruence|].
        apply Forall_cons in Hp as [_ Hp]. by exists pre, c', net, post.
  - split; [done|]. intros ([|p pre] & c' & net & post & [= -> ->] & Hp & Hc & Hn); [congruence|].
    apply Forall_cons in Hp as [(n & ? & _) _]. congruence.
Qed.

Lemma region_cidrs_valid region ip cidrs :
  Forall (fun c => is_Some (ParseCIDR c)) cidrs ->
  region_cidrs region ip cidrs =
  if existsb (fun c => match ParseCIDR c with Some n => Contains n ip | None => false end) cidrs
  then Some (Ok region) else None.
Proof.
  induction 1 as [|c cidrs [n Hn] _ IH]; [done|]. simpl. rewrite Hn.
  destruct (Contains n ip); [done|]. apply IH.
Qed.

(** The address is in one of the ranges of the table. *)
Definition in_region_table (ip : IP) (table : list (string * list string)) : bool :=
  existsb (fun rc => existsb (fun c => match ParseCIDR c with
                                       | Some n => Contains n ip | None => false end) rc.2) table.
Definition table_valid (table : list (string * list string)) : Prop :=
  Forall (fun rc => Forall (fun c => is_Some (ParseCIDR c)) rc.2) table.

Lemma region_loop_valid ip table :
  table_valid table -> is_ok (region_loop ip table) = in_region_table ip table.
Proof.
  induction 1 as [|[region cidrs] table Hc _ IH]; [done|]. simpl in *.
  rewrite region_cidrs_valid by done. destruct (existsb _ cidrs); [done|]. apply IH.
Qed.

Lemma in_region_table_perm ip t t' : t ≡ₚ t' -> in_region_table ip t = in_region_table ip t'.
Proof.
  unfold in_region_table. induction 1; simpl; [done|congruence| |congruence].
  destruct (existsb _ (snd x)), (existsb _ (snd y)); done.
Qed.

(** ** Time of day *)
Definition window_spec (start end_ tod : Z) : bool :=
  if start <=? end_ then (start <=? tod) && (tod <? end_) else (start <=? tod) || (tod <? end_).

(** The local time of day, in nanoseconds. *)
Definition time_of_day (offset : Z) (t : Time) : Z := (t + offset * Second) mod (86400 * Second).

Lemma local_day_spec offset t :
  t + offset * Second = local_day (fixed_zone offset) t * (86400 * Second) + time_of_day offset t.
Proof.
  unfold local_day, local_seconds, fixed_zone, time_of_day, Unix.
  rewrite <- Z.div_add by (unfold Second; lia).
  rewrite Z.div_div by (unfold Second; lia). rewrite (Z.mul_comm Second 86400).
  pose proof (Z.div_mod (t + offset * Second) (86400 * Second) ltac:(unfold Second; lia)). lia.
Qed.

Lemma in_window_fixed offset t start end_ :
  -86400 < offset < 86400 ->
  0 <= start.1 <= 23 -> 0 <= start.2 <= 59 -> 0 <= end_.1 <= 23 -> 0 <= end_.2 <= 59 ->
  -62135596800 <= local_day (fixed_zone offset) t * 86400 <= 253402300800 ->
  in_window (fixed_zone offset) t start end_ =
  window_spec ((start.1 * 60 + start.2) * Minute) ((end_.1 * 60 + end_.2) * Minute)
    (time_of_day offset t).
Proof.
  intros Ho H1 H2 H3 H4 Hd. unfold in_window.
  pose proof (local_day_spec offset t) as Ht. set (day := local_day _ t) in *.
  rewrite !Date_fixed by (try done; unfold in_era; lia).
  set (tod := time_of_day offset t) in *.
  unfold window_spec, Before, Equal. change Minute with (60 * Second).
  assert (0 < Second) by done.
  destruct (Z.leb_spec ((start.1 * 60 + start.2) * (60 * Second)) ((end_.1 * 60 + end_.2) * (60 * Second)));
  repeat match goal with |- context [?a <? ?b] => destruct (Z.ltb_spec a b)
  | |- context [?a =? ?b] => destruct (Z.eqb_spec a b)
  | |- context [?a <=? ?b] => destruct (Z.leb_spec a b) end; simpl; try done; exfalso; lia.
Qed.

Lemma parseTimeParts_range s h m : parseTimeParts s = Some (h, m) -> 0 <= h <= 23 /\ 0 <= m <= 59.
Proof.
  unfold parseTimeParts. intros H. cases_in H; bools; lia.
Qed.

Lemma UTC_fixed : UTC = fixed_zone 0.
Proof. reflexivity. Qed.

(** ** The registry *)
Lemma registered_builtin id ev :
  globalConstraintRegistry_init !! id = Some ev <-> ev ∈ builtin_evaluators /\ evaluator_id ev = id.
Proof.
  assert (globalConstraintRegistry_init = list_to_map (map (fun e => (evaluator_id e, e)) builtin_evaluators))
    as -> by reflexivity.
  rewrite <- elem_of_list_to_map by (vm_compute; repeat constructor; set_solver).
  rewrite list_elem_of_fmap. split.
  - by intros (e & [= -> ->] & ?).
  - intros [? <-]. by exists ev.
Qed.

(** ** The recheck loop *)
Definition clean_tick (aic pa : list Capability) (ip : string) (ev : recheck_event) : Prop :=
  match ev with Done => False | Tick r1 r2 => recheck_tick aic pa ip r1 r2 = None end.

Lemma recheck_prefix aic pa ip cb pre evs :
  Forall (clean_tick aic pa ip) pre ->
  ConstraintRecheckLoop aic pa ip cb (pre ++ evs) = ConstraintRecheckLoop aic pa ip cb evs.
Proof.
  induction 1 as [|[|r1 r2] pre Hev _ IH]; [done|done|]. simpl in *. by rewrite Hev.
Qed.

Lemma recheck_cases aic pa ip evs :
  Forall (clean_tick aic pa ip) evs \/
  exists pre ev post, evs = pre ++ ev :: post /\ Forall (clean_tick aic pa ip) pre /\
    (ev = Done \/ exists r1 r2 e, ev = Tick r1 r2 /\ recheck_tick aic pa ip r1 r2 = Some e).
Proof.
  induction evs as [|ev evs IH]; [by left|].
  destruct ev as [|r1 r2]; [right; exists [], Done, evs; eauto|].
  destruct (recheck_tick aic pa ip r1 r2) as [e|] eqn:E.
  { right. exists [], (Tick r1 r2), evs. split; [done|]. split; [done|]. right. eauto. }
  destruct IH as [IH|(pre & ev & post & -> & Hp & Hc)].
  - left. by constructor.
  - right. exists (Tick r1 r2 :: pre), ev, post. split; [done|]. split; [by constructor|done].
Qed.

(** * Properties *)

(** C12: a constraint list is accepted exactly when every entry is in the
    constraint namespace and every entry whose type is registered is accepted
    by its evaluator; types nobody registered are the only ones skipped. *)
Theorem constraints_accepted_iff env reg cs ip now :
  checkConstraintsReg env reg cs ip now = None <->
  forall c, c ∈ cs -> isConstraintScheme (SchemeId c) = true /\
    forall ev, reg !! CapabilityId c = Some ev ->
      Evaluate env ev c (Some {| ClientIP := ip; Now := now |}) = None.
Proof. rewrite checkConstraintsReg_None, Forall_forall. done. Qed.

(** The source-address constraint admits a connection exactly when its
    parameters parse and either list no range or the client address parses and
    lies in a listed range before which every range is valid and excludes it;
    in particular an unknown client address fails closed. *)
Theorem cidr_accepted_iff cap ctx :
  cidr_Evaluate cap (Some ctx) = None <->
  exists cidrs, parseCIDRParam (Parameters cap) = Ok cidrs /\
    (cidrs = [] \/
     exists ip pre c net post, ParseIP (ClientIP ctx) = Some ip /\ cidrs = pre ++ c :: post /\
       Forall (fun p => exists n, ParseCIDR p = Some n /\ Contains n ip = false) pre /\
       ParseCIDR c = Some net /\ Contains net ip = true).
Proof.
  unfold cidr_Evaluate. destruct (parseCIDRParam _) as [cidrs|e]; [|split; [done|by intros (? & ? & _)]].
  destruct (zlen cidrs =? 0) eqn:Ez.
  { apply zlen_eqb_nil in Ez as ->. split; [|done]. intros _. exists []. auto. }
  assert (cidrs <> []) as Hne by (intros ->; done).
  destruct (String.eqb_spec (ClientIP ctx) "") as [E|_].
  { rewrite E. split; [done|]. intros (? & [= <-] & [?|(ip & ? & ? & ? & ? & ? & _)]); done. }
  destruct (ParseIP (ClientIP ctx)) as [ip|].
  - rewrite cidr_loop_None. split.
    + intros (pre & c & net & post & H). exists cidrs. split; [done|]. right.
      exists ip, pre, c, net, post. tauto.
    + intros (? & [= <-] & [?|(ip' & pre & c & net & post & [= <-] & H)]); [done|].
      by exists pre, c, net, post.
  - split; [done|]. intros (? & [= <-] & [?|(ip & ? & ? & ? & ? & ? & _)]); done.
Qed.

(** In a zone of constant offset (UTC when no zone is named) the time
    window accepts exactly the instants whose local time of day is in
    [start, end), read around midnight when [start > end]; a window with
    [start = end] accepts no instant. *)
Theorem time_window_iff env cap ctx start end_ tz sh sm eh em offset
    (Hparse : unmarshal dec_timeWindowParams (Parameters cap) =
              Ok {| Start := start; End_ := end_; TZ := tz |})
    (Hs : parseTimeParts start = Some (sh, sm)) (He : parseTimeParts end_ = Some (eh, em))
    (Htz : tz = "" /\ offset = 0 \/ tz <> "" /\ LoadLocation env tz = Ok (fixed_zone offset))
    (Hoff : -86400 < offset < 86400) (Hnow : IsZero (Now ctx) = false)
    (Hera : -62135596800 <= local_day (fixed_zone offset) (Now ctx) * 86400 <= 253402300800) :
  timeWindow_Evaluate env cap (Some ctx) = None <->
  window_spec ((sh * 60 + sm) * Minute) ((eh * 60 + em) * Minute)
    (time_of_day offset (Now ctx)) = true.
Proof.
  assert ((if String.eqb tz "" then Ok UTC else LoadLocation env tz) = Ok (fixed_zone offset)) as Hloc.
  { destruct Htz as [[-> ->]|[Hne Hl]]; [by rewrite UTC_fixed|].
    by rewrite (proj2 (String.eqb_neq _ _) Hne). }
  unfold timeWindow_Evaluate. rewrite Hparse. simpl.
  assert (String.eqb start "" = false) as -> by (destruct start; done).
  assert (String.eqb end_ "" = false) as -> by (destruct end_; done).
  rewrite Hs, He, Hloc, Hnow. simpl.
  apply parseTimeParts_range in Hs, He.
  rewrite in_window_fixed by (simpl; lia). simpl.
  destruct (window_spec _ _ _); done.
Qed.

(** An inline geo-fence whose ranges are all valid decides independently of
    the order Go ranges over the table in: it accepts exactly the addresses of
    some region's range. *)
Theorem geo_fence_order_independent env ip regions table
    (Hdec : dec_string_list_map regions = Ok table)
    (Hperm : range_order env table ≡ₚ map_to_list table)
    (Hvalid : table_valid (map_to_list table)) :
  is_ok (geoResolve env "inline" ip regions) = in_region_table ip (map_to_list table).
Proof.
  unfold geoResolve. simpl. rewrite Hdec.
  rewrite <- (in_region_table_perm _ _ _ Hperm). apply region_loop_valid.
  unfold table_valid. by rewrite Hperm.
Qed.

(** With an invalid range in one region the decision depends on the range
    order: the same certificate, table and address are accepted in one order
    and refused in another. *)
Theorem geo_fence_order_matters :
  exists env1 env2 cap ctx,
    (forall m, range_order env1 m ≡ₚ map_to_list m) /\
    (forall m, range_order env2 m ≡ₚ map_to_list m) /\
    geoFence_Evaluate env1 cap (Some ctx) = None /\
    geoFence_Evaluate env2 cap (Some ctx) <> None.
Proof.
  exists sample_env.
  exists {| LoadLocation := LoadLocation sample_env; geoResolvers := geoResolvers sample_env;
            time_Now := 0; range_order := fun m => reverse (map_to_list m) |}.
  exists (constraint "geo-fence" "{'regions':{'A':['10.0.0.0/8'],'B':['10.0.0.0/64']}}").
  exists {| ClientIP := "10.0.0.1"; Now := 0 |}.
  split; [done|]. split; [intros m; apply reverse_Permutation|].
  split; vm_compute; congruence.
Qed.

(** The recheck of a long-lived connection fires on the first tick at which
    a constraint of either set fails, reports that one reason, once, and never
    after the connection is done. *)
Theorem recheck_reports_first_violation aic pa ip events e :
  ConstraintRecheckLoop aic pa ip true events = ([e], true) <->
  exists pre r1 r2 post, events = pre ++ Tick r1 r2 :: post /\
    Forall (clean_tick aic pa ip) pre /\ recheck_tick aic pa ip r1 r2 = Some e.
Proof.
  split.
  - intros H. destruct (recheck_cases aic pa ip events)
      as [Hc|(pre & ev & post & -> & Hp & [->|(r1 & r2 & e' & -> & He)])].
    + rewrite <- (app_nil_r events), recheck_prefix in H by done. done.
    + rewrite recheck_prefix in H by done. done.
    + rewrite recheck_prefix in H by done. simpl in H. rewrite He in H. injection H as <-. eauto 10.
  - intros (pre & r1 & r2 & post & -> & Hp & He). rewrite recheck_prefix by done. simpl. by rewrite He.
Qed.

(** [HH:MM] times are read back: the parser returns the hour and the minute
    of every two-digit form. *)
Theorem time_of_day_roundtrip h m (Hh : 0 <= h <= 23) (Hm : 0 <= m <= 59) :
  let d z := chr (48 + z) in
  parseTimeParts (String (d (h / 10)) (String (d (h mod 10)) (String ":"
    (String (d (m / 10)) (String (d (m mod 10)) ""))))) = Some (h, m).
Proof.
  assert (forall h, 0 <= h <= 59 -> wrap8 (code (chr (48 + h / 10)) - 48) * 10 +
    wrap8 (code (chr (48 + h mod 10)) - 48) = h) as G.
  { intros k Hk. assert (exists n, (n < 60)%nat /\ k = Z.of_nat n) as (n & Hn & ->)
      by (exists (Z.to_nat k); lia).
    do 60 (destruct n as [|n]; [reflexivity|]). lia. }
  cbn zeta. unfold parseTimeParts. rewrite !G by lia.
  repeat (rewrite (proj2 (Z.ltb_ge _ _)) by lia). done.
Qed.

(** The parser does not test that its characters are digits: the byte after
    [9] counts as ten, and letters are accepted as hours and minutes. *)
Theorem non_digit_time_accepted :
  parseTimeParts "0::00" = Some (10, 0) /\ parseTimeParts "0G:0k" = Some (23, 59).
Proof. split; reflexivity. Qed.

Lemma time_window_iff_witness :
  timeWindow_Evaluate sample_env
    (constraint "time:window" "{'start':'22:00','end':'06:00','tz':'Asia/Shanghai'}")
    (Some {| ClientIP := ""; Now := 15 * Hour |}) = None <->
  window_spec ((22 * 60 + 0) * Minute) ((6 * 60 + 0) * Minute) (time_of_day 28800 (15 * Hour)) = true.
Proof.
  eapply (time_window_iff sample_env _ {| ClientIP := ""; Now := 15 * Hour |}
    "22:00" "06:00" "Asia/Shanghai" 22 0 6 0 28800); try (vm_compute; reflexivity).
  - right. split; [discriminate|reflexivity].
  - split; vm_compute; reflexivity.
  - split; vm_compute; congruence.
Defined.

Lemma geo_fence_order_independent_witness :
  let regions := JObj [("A", JArr [JStr "10.0.0.0/8"]); ("B", JArr [JStr "fd00::/8"])] in
  let table := <["B" := ["fd00::/8"]]> {["A" := ["10.0.0.0/8"]]} in
  is_ok (geoResolve sample_env "inline" [10; 1; 2; 3] regions) =
  in_region_table [10; 1; 2; 3] (map_to_list table).
Proof.
  intros regions table. apply (geo_fence_order_independent sample_env _ regions table).
  - reflexivity.
  - change (range_order sample_env table) with (map_to_list table). apply Permutation_refl.
  - assert (map_to_list table ≡ₚ [("B", ["fd00::/8"]); ("A", ["10.0.0.0/8"])]) as Hp
      by (unfold table; rewrite map_to_list_insert by reflexivity; by rewrite map_to_list_singleton).
    unfold table_valid. rewrite Hp. repeat constructor; eexists; vm_compute; reflexivity.
Defined.

Lemma time_of_day_roundtrip_witness :
  let d z := chr (48 + z) in
  parseTimeParts (String (d (9 / 10)) (String (d (9 mod 10)) (String ":"
    (String (d (5 / 10)) (String (d (5 mod 10)) ""))))) = Some (9, 5).
Proof. apply (time_of_day_roundtrip 9 5); lia. Defined.
