(* ===== verification/AdmissionTypes.v ===== *)
(** The data of an admission: the operations a request declares, the decisions
    made about them, the configuration and the result of [CheckAdmission]
    ([src/decision.go], [src/clc.go], [src/credential_bundle.go]), and the
    functions of package [semantics] (the CLC decision language) they use. *)
From S2P Require Import Prelude GoStrings GoTime GoJson Types NonceCache Constraints.
Local Open Scope string_scope.
Local Open Scope Z_scope.
Local Open Scope list_scope.

(** A Go value passed as parameters: [nil], raw JSON, a map (whether it has
    entries and what [json.Marshal] makes of it), or anything else (what
    [json.Marshal] makes of it). *)
Inductive GoParams :=
  | GoNil
  | GoRaw (text : string)
  | GoMap (no_entries : bool) (marshalled : result string)
  | GoOther (marshalled : result string).

(** [semantics.SourceRef]; the digest is its algorithm and value. *)
Record SourceRef := {
  SourceKind : string; SourceID : string; SourceIssuer : string; SourceDigest : string * bytes
}.

(** Package [semantics]: the decision of one operation over a grant set, the
    validity of identifiers and parameters, the combination of two decisions
    (an error is reported by its text), the discharge of obligations, the
    freshness of a decision context and the validity of a source chain. *)
Class ClcSemantics := {
  DecisionContext : Type;
  ValidateCapabilityID : string -> option error;
  ValidateGrantParams : option Params -> option error;
  ValidateOperationParams : option Params -> option error;
  AuthorizeSet : list Grant -> string -> option Params -> Decision;
  Combine : Decision -> Decision -> Decision + string;
  Discharge : Decision -> list string -> option error;
  Fresh : DecisionContext -> Time -> option error;
  ValidateSourceChain : list SourceRef -> option error
}.

(** [src/clc.go:26-26 Operation] *)
Record Operation := { OpID : string; OpParams : GoParams }.

(** [src/clc.go:OperationDecision] *)
Record OperationDecision := {
  ODID : string; ODParams : GoParams; ODVerdict : Verdict; ODReason : string;
  ODUnresolved : list string; ODGrants : list Grant; Released : bool
}.

(** A text made by [fmt.Sprintf]: its format and arguments. *)
Abbreviation message := error (only parsing).

(** [src/decision.go:DecisionResult] *)
Inductive DecisionResult := DecisionAllow | DecisionDeny | DecisionNeedAuth.

#[export] Instance DecisionResult_eq_dec : EqDecision DecisionResult.
Proof. solve_decision. Defined.

(** [src/decision.go:AdmissionResult] *)
Record AdmissionResult := {
  ADecision : DecisionResult; AReason : message; AAIC : option AIC;
  APrincipalAuthorization : option PrincipalAuthorization; APrincipalUid : string;
  EffectiveCaps : list Capability; OperationDecisions : list OperationDecision;
  Sources : option (list SourceRef)
}.

(** [AdmissionResult{Decision: DecisionDeny, Reason: reason}] *)
Definition deny_result (reason : message) : AdmissionResult := {|
  ADecision := DecisionDeny; AReason := reason; AAIC := None; APrincipalAuthorization := None;
  APrincipalUid := ""; EffectiveCaps := []; OperationDecisions := []; Sources := None |}.

(** [src/credential_bundle.go:CredentialBundle] *)
Record CredentialBundle := {
  AgentChain : list Certificate; PrincipalChain : list Certificate; CACerts : list Certificate
}.

(** [src/decision.go:AdmissionConfig]; [AuditLogger] is whether one is set. *)
Record AdmissionConfig `{ClcSemantics} := {
  RequireAIC : bool; RequiredProtocol : string; RequiredRuleId : string;
  RequiredCapabilities : list string; Operations : list Operation;
  UnresolvedEvaluator : option (Operation -> list string -> bool);
  DischargeObligations : bool; ObligationsUnderstood : list string;
  RequireFreshDecisionContext : bool; CfgDecisionContext : option DecisionContext;
  DisallowRepresentative : bool; RequireUserPermission : bool; RejectOverflow : bool;
  RequireUserAuth : bool; SkipDelegationAuthVerification : bool;
  EnforceCapSizeConstraints : bool; HasNonceCache : bool; EnforceSize32 : bool;
  UserCert : option Certificate;
  UserCertResolver : option (bytes -> result (option Certificate));
  EnforceConstraints : bool; StrictConstraints : bool;
  CfgConstraintRegistry : option ConstraintRegistry; CfgClientIP : string;
  AuditLogger : bool; CheckDAAge : bool; DAAgeMax : Duration;
  CfgCredentialBundle : option CredentialBundle
}.

(** [src/decision.go:AdmissionConfig.Validate] *)
Definition Validate `{ClcSemantics} (c : AdmissionConfig) : option error :=
  if DisallowRepresentative c && negb (RequireAIC c) then
    Some (Errorf "disallow_representative requires require_aic" [])
  else if RequireUserPermission c && negb (RequireAIC c) then
    Some (Errorf "require_user_permission requires require_aic" [])
  else None.

(** [src/decision.go:admissionConstraintRegistry] *)
Definition admissionConstraintRegistry `{ClcSemantics} (global : ConstraintRegistry)
    (cfg : AdmissionConfig) : ConstraintRegistry :=
  match CfgConstraintRegistry cfg with Some r => r | None => global end.
