(* ===== verification/Clc.v ===== *)
(** The operation layer of [src/clc.go]: declarations as grants of the decision
    language, the decision of a concrete operation over the declared and the
    principal's authority, the obligations a decision leaves open, and the
    loop that decides every declared operation of an admission. *)
From S2P Require Import Prelude GoStrings GoTime GoJson GoNet Types Constraints AdmissionTypes.
From Stdlib Require Import Ascii.
Local Open Scope char_scope.
Local Open Scope string_scope.
Local Open Scope Z_scope.
Local Open Scope list_scope.

(** * Definitions *)

(** [src/clc.go:normalizeParams] *)
Definition normalizeParams (params : GoParams) : result (option Params) :=
  let wrap e := Errorf "params must be a JSON object: %w" [AWrap e] in
  let parse (raw : string) : result (option Params) :=
    let trimmed := trim_space raw in
    if String.eqb trimmed "" || String.eqb trimmed "{}" || String.eqb trimmed "null" then Ok None
    else match unmarshal dec_any_map raw with
    | Err e => Err (wrap e)
    | Ok out => if (size out =? 0)%nat then Ok None else Ok (Some out)
    end in
  match params with
  | GoNil => Ok None
  | GoRaw v => if slen v =? 0 then Ok None else parse v
  | GoMap true _ => Ok None
  | GoMap false (Err e) | GoOther (Err e) => Err (wrap e)
  | GoMap false (Ok raw) | GoOther (Ok raw) => parse raw
  end.

(** [src/clc.go:ConstraintStrings] the rendering of one constraint. *)
Definition constraint_string (c : Capability) : string :=
  let scheme := if String.eqb (SchemeId c) "constraint" || String.eqb (SchemeId c) "constraint-v1"
                then "varwof/constraint-v1" else SchemeId c in
  let s := if String.eqb (CapabilityId c) "" then scheme
           else scheme +:+ ":" +:+ CapabilityId c in
  if 0 <? slen (Parameters c) then s +:+ ":" +:+ Parameters c else s.
(** [src/clc.go:ConstraintStrings] *)
Definition ConstraintStrings (constraints : list Capability) : list string :=
  map constraint_string constraints.

(** [src/clc.go:grantsAbsent] *)
Definition grantsAbsent (grants : list Grant) : bool :=
  forallb (fun g => String.eqb (GrantID g) "") grants.

(** [src/clc.go:ConstraintToCapability] *)
Definition ConstraintToCapability (c : string) : option Capability :=
  match split_byte ":" c with
  | p0 :: p1 :: rest =>
      if String.eqb p0 "" || String.eqb p1 "" then None
      else if String.eqb p1 "time" || String.eqb p1 "network" then
        match rest with
        | p2 :: (_ :: _) as tl =>
            Some {| SchemeId := p0; CapabilityId := p1 +:+ ":" +:+ p2;
                    Parameters := join ":" (List.tl rest) |}
        | _ => None
        end
      else match rest with
      | [] => Some {| SchemeId := p0; CapabilityId := p1; Parameters := "" |}
      | _ => Some {| SchemeId := p0; CapabilityId := p1; Parameters := join ":" rest |}
      end
  | _ => None
  end.

(** [src/clc.go:ConnectionConstraintEvaluator] the returned function, with the
    registry and the environment of the call. *)
Definition ConnectionConstraintEvaluator (env : EvalEnv) (global : ConstraintRegistry)
    (clientIP : string) (op : Operation) (unresolved : list string) : bool :=
  forallb (fun c =>
    match ConstraintToCapability c with
    | None => false
    | Some cap =>
        match Find global (CapabilityId cap) with
        | Err _ => false
        | Ok _ =>
            match CheckAuthorizationConstraints env global [cap] clientIP with
            | Some _ => false
            | None => true
            end
        end
    end) unresolved.

Section Clc.
  Context {CN : CapabilityNames} {CS : ClcSemantics}.

(** [src/clc.go:ToGrant] *)
Definition ToGrant (c : Capability) : result Grant :=
  let id := FullID c in
  let wrap e := Errorf "capability %q: %w" [AStr id; AWrap e] in
  match ValidateCapabilityID id with
  | Some err => Err (wrap err)
  | None =>
      match normalizeParams (GoRaw (Parameters c)) with
      | Err err => Err (wrap err)
      | Ok params =>
          match ValidateGrantParams params with
          | Some err => Err (wrap err)
          | None => Ok {| GrantID := id; GrantParams := params; GrantConstraints := [] |}
          end
      end
  end.

(** [src/clc.go:ToGrantSet] *)
Definition ToGrantSet (caps : list Capability) : result (list Grant) := map_result ToGrant caps.

(** [src/clc.go:AuthorizeGrants] *)
Definition AuthorizeGrants (grants : list Grant) (opID : string) (params : GoParams) : result Decision :=
  let wrap e := Errorf "operation %q: %w" [AStr opID; AWrap e] in
  match normalizeParams params with
  | Err err => Err (wrap err)
  | Ok normalized =>
      if grantsAbsent grants then Ok (AuthorizeSet grants opID normalized)
      else match ValidateCapabilityID opID with
      | Some err => Err (wrap err)
      | None =>
          match ValidateOperationParams normalized with
          | Some err => Err (wrap err)
          | None => Ok (AuthorizeSet grants opID normalized)
          end
      end
  end.

(** [src/clc.go:102-106 AuthorizeCapabilitiesWithConstraints] *)
Definition constrain (cs : list string) (g : Grant) : Grant :=
  {| GrantID := GrantID g; GrantParams := GrantParams g; GrantConstraints := GrantConstraints g ++ cs |}.

(** [src/clc.go:AuthorizeCapabilitiesWithConstraints] *)
Definition AuthorizeCapabilitiesWithConstraints (caps constraints : list Capability)
    (opID : string) (params : GoParams) : result Decision :=
  grants ← ToGrantSet caps;
  let cs := ConstraintStrings constraints in
  let grants := if 0 <? zlen cs then map (constrain cs) grants else grants in
  AuthorizeGrants grants opID params.

(** [src/clc.go:AuthorizeCapabilities] *)
Definition AuthorizeCapabilities (caps : list Capability) (opID : string) (params : GoParams)
  : result Decision := AuthorizeCapabilitiesWithConstraints caps [] opID params.

(** [src/clc.go:combineDecisions] *)
Definition combineDecisions (a b : Decision) : Decision :=
  match Combine a b with
  | inr err => {| DecVerdict := VerdictDeny; DecReason := err; Unresolved := [] |}
  | inl combined => combined
  end.

(** [src/clc.go:AuthorizeOperation] *)
Definition AuthorizeOperation (aic : option AIC) (pa : option PrincipalAuthorization)
    (opID : string) (params : GoParams) : result Decision :=
  match aic, pa with
  | None, None => Err (Errorf "no capability source: AIC and PrincipalAuthorization are both absent" [])
  | None, Some pa => AuthorizeCapabilitiesWithConstraints (Grants pa) (PAConstraints pa) opID params
  | Some aic, _ =>
      aisDec ← AuthorizeCapabilitiesWithConstraints (Capabilities aic) (AuthorizationConstraints aic)
                 opID params;
      match pa with
      | None => Ok aisDec
      | Some pa =>
          paDec ← AuthorizeCapabilitiesWithConstraints (Grants pa) (PAConstraints pa) opID params;
          Ok (combineDecisions aisDec paDec)
      end
  end.

(** [src/evidence_sink.go:420-429 evidenceRecorders] one source. *)
Definition recorded_grants (caps constraints : list Capability) : option (list Grant) :=
  match ToGrantSet caps with
  | Err _ => None
  | Ok grants =>
      let cs := ConstraintStrings constraints in
      Some (if 0 <? zlen cs then map (constrain cs) grants else grants)
  end.
(** [src/evidence_sink.go:evidenceRecorders] *)
Definition evidenceRecorders (aic : option AIC) (pa : option PrincipalAuthorization)
  : gmap string (list Grant) :=
  let out := match aic ≫= fun a => recorded_grants (Capabilities a) (AuthorizationConstraints a) with
             | Some g => {["aic" := g]} | None => ∅ end in
  match pa ≫= fun p => recorded_grants (Grants p) (PAConstraints p) with
  | Some g => <["principal-authorization" := g]> out
  | None => out
  end.

(** [src/clc.go:decisionGrants] *)
Definition decisionGrants (aic : option AIC) (pa : option PrincipalAuthorization) : list Grant :=
  let recs := evidenceRecorders aic pa in
  match recs !! "aic" with
  | Some grants => grants
  | None => default [] (recs !! "principal-authorization")
  end.

(** [src/clc.go:checkDecisionContext] at the instant read. *)
Definition checkDecisionContext (cfg : AdmissionConfig) (now : Time) : option error :=
  if negb (RequireFreshDecisionContext cfg) then None
  else match CfgDecisionContext cfg with
  | None => Some (ErrNew "semantics.ErrContextMissing")
  | Some ctx => Fresh ctx now
  end.

(** [src/clc.go:298-307 evaluateCLCOperations] the refusal of the operation,
    with the decisions made so far. *)
Definition denyOp (result : AdmissionResult) (ods : list OperationDecision) (reason : message)
  : AdmissionResult := {|
  ADecision := DecisionDeny; AReason := reason; AAIC := AAIC result;
  APrincipalAuthorization := APrincipalAuthorization result;
  APrincipalUid := APrincipalUid result; EffectiveCaps := []; OperationDecisions := ods;
  Sources := None |}.

Definition release (od : OperationDecision) : OperationDecision := {|
  ODID := ODID od; ODParams := ODParams od; ODVerdict := ODVerdict od; ODReason := ODReason od;
  ODUnresolved := ODUnresolved od; ODGrants := ODGrants od; Released := true |}.

Definition verdict_string (v : Verdict) : string :=
  match v with
  | VerdictAllow => "allow" | VerdictDeny => "deny" | VerdictAllowUR => "allow_unresolved"
  end.

(** [src/clc.go:313-361 evaluateCLCOperations] one operation: the refusal, or
    its decision, released or not. *)
Definition decide_operation (aic : option AIC) (result : AdmissionResult) (cfg : AdmissionConfig)
    (now : Time) (op : Operation) (acc : list OperationDecision)
  : AdmissionResult + OperationDecision :=
  match AuthorizeOperation aic (APrincipalAuthorization result) (OpID op) (OpParams op) with
  | Err err => inl (deny_result (Errorf "operation %s: %v" [AStr (OpID op); AErr err]))
  | Ok dec =>
      let od := {| ODID := OpID op; ODParams := OpParams op; ODVerdict := DecVerdict dec;
                   ODReason := DecReason dec; ODUnresolved := Unresolved dec;
                   ODGrants := decisionGrants aic (APrincipalAuthorization result);
                   Released := false |} in
      let deny fmt args := inl (denyOp result (acc ++ [od]) (Errorf fmt args)) in
      match DecVerdict dec with
      | VerdictAllow =>
          match checkDecisionContext cfg now with
          | Some err => deny "operation %s: %v" [AStr (OpID op); AErr err]
          | None => inr od
          end
      | VerdictDeny => deny "operation %s denied: %s" [AStr (OpID op); AStr (DecReason dec)]
      | VerdictAllowUR =>
          match (if DischargeObligations cfg then Discharge dec (ObligationsUnderstood cfg) else None) with
          | Some err => deny "operation %s: %v" [AStr (OpID op); AErr err]
          | None =>
              if (match UnresolvedEvaluator cfg with
                  | Some f => f op (Unresolved dec) | None => false end) then
                match checkDecisionContext cfg now with
                | Some err => deny "operation %s: %v" [AStr (OpID op); AErr err]
                | None => inr (release od)
                end
              else deny "operation %s: %s (unresolved %v)"
                     [AStr (OpID op); AStr (verdict_string (DecVerdict dec)); AStrs (Unresolved dec)]
          end
      end
  end.

(** [src/clc.go:evaluateCLCOperations] the operations in order, the clock read
    once for each; the refusal or the decisions. *)
Fixpoint evaluateCLCOperations (aic : option AIC) (result : AdmissionResult) (cfg : AdmissionConfig)
    (clock : nat -> Time) (ops : list Operation) (acc : list OperationDecision)
  : AdmissionResult + list OperationDecision :=
  match ops with
  | [] => inr acc
  | op :: ops' =>
      match decide_operation aic result cfg (clock O) op acc with
      | inl denied => inl denied
      | inr od => evaluateCLCOperations aic result cfg (fun n => clock (S n)) ops' (acc ++ [od])
      end
  end.
End Clc.

(** [src/clc.go:aggregateCLCDecisions] no operation is [None], the empty
    verdict. *)
Definition aggregateCLCDecisions (ops : list OperationDecision)
  : option Verdict * string * list string :=
  match ops with
  | [] => (None, "", [])
  | _ =>
      let ur := List.filter (fun od => bool_decide (ODVerdict od = VerdictAllowUR)) ops in
      (Some (if (zlen ur =? 0) then VerdictAllow else VerdictAllowUR),
       join "; " (List.filter (fun r => negb (String.eqb r "")) (map ODReason ur)),
       concat (map ODUnresolved ur))
  end.

(** ** Examples *)
Example constraint_back :
  let c := {| SchemeId := "constraint"; CapabilityId := "network:cidr";
              Parameters := dq "['10.0.0.0/8','fd00::/8']" |} in
  ConstraintToCapability (constraint_string c) =
  Some {| SchemeId := "varwof/constraint-v1"; CapabilityId := "network:cidr"; Parameters := Parameters c |}.
Proof. vm_compute. reflexivity. Qed.
Example empty_params :
  normalizeParams (GoRaw " {} ") = Ok None /\ normalizeParams (GoMap false (Ok "{ }")) = Ok None /\
  normalizeParams (GoOther (Ok "[1]")) = Err (Errorf "params must be a JSON object: %w" [AWrap json_type_error]).
Proof. vm_compute. repeat split; reflexivity. Qed.

(** * Lemmas *)
Section ClcFacts.
  Context {CN : CapabilityNames} {CS : ClcSemantics}.

(** The decision of an operation that lets the admission go on. *)
Definition operation_passes (aic : option AIC) (pa : option PrincipalAuthorization)
    (cfg : AdmissionConfig) (now : Time) (op : Operation) (od : OperationDecision) : Prop :=
  exists dec, AuthorizeOperation aic pa (OpID op) (OpParams op) = Ok dec /\
    ODID od = OpID op /\ ODVerdict od = DecVerdict dec /\ ODUnresolved od = Unresolved dec /\
    checkDecisionContext cfg now = None /\
    (DecVerdict dec = VerdictAllow /\ Released od = false \/
     DecVerdict dec = VerdictAllowUR /\ Released od = true /\
     (DischargeObligations cfg = true -> Discharge dec (ObligationsUnderstood cfg) = None) /\
     exists f, UnresolvedEvaluator cfg = Some f /\ f op (Unresolved dec) = true).

Lemma decide_operation_passes aic result cfg now op acc od :
  decide_operation aic result cfg now op acc = inr od ->
  operation_passes aic (APrincipalAuthorization result) cfg now op od.
Proof.
  unfold decide_operation, operation_passes.
  destruct (AuthorizeOperation _ _ _ _) as [dec|e]; [|done]. intros H. exists dec. split; [done|].
  destruct (DecVerdict dec) eqn:Ev; [| done |].
  - destruct (checkDecisionContext cfg now); simplify_eq/=. repeat split; try done. by left.
  - destruct (if DischargeObligations cfg then _ else None) eqn:Ed; [done|].
    destruct (UnresolvedEvaluator cfg) as [f|] eqn:Eu; [|done].
    destruct (f op (Unresolved dec)) eqn:Ef; [|done].
    destruct (checkDecisionContext cfg now); simplify_eq/=. repeat split; try done. right.
    repeat split; try done; [|by exists f]. intros Hd. by rewrite Hd in Ed.
Qed.

Lemma decide_operation_denied aic result cfg now op acc r :
  decide_operation aic result cfg now op acc = inl r -> ADecision r = DecisionDeny.
Proof.
  unfold decide_operation, denyOp. intros H.
  repeat (case_match; simplify_eq/=; try done).
Qed.

Lemma evaluate_passes aic result cfg clock ops acc ods :
  evaluateCLCOperations aic result cfg clock ops acc = inr ods ->
  exists new, ods = acc ++ new /\
    Forall2 (fun op od => exists n,
      operation_passes aic (APrincipalAuthorization result) cfg (clock n) op od) ops new.
Proof.
  revert clock acc. induction ops as [|op ops IH]; intros clock acc; simpl.
  { intros [= <-]. exists []. by rewrite app_nil_r. }
  destruct (decide_operation _ _ _ _ _ _) as [|od] eqn:E; [done|]. intros H.
  apply decide_operation_passes in E. apply IH in H as (new & -> & HF).
  exists (od :: new). rewrite <- app_assoc. split; [done|]. constructor; [by exists O|].
  eapply Forall2_impl; [exact HF|]. intros o d [n Hn]. by exists (S n).
Qed.

Lemma evaluate_denied aic result cfg clock ops acc r :
  evaluateCLCOperations aic result cfg clock ops acc = inl r -> ADecision r = DecisionDeny.
Proof.
  revert clock acc. induction ops as [|op ops IH]; intros clock acc; simpl; [done|].
  destruct (decide_operation _ _ _ _ _ _) as [r'|od] eqn:E.
  - intros [= <-]. by eapply decide_operation_denied.
  - apply IH.
Qed.

Lemma AuthorizeWithConstraints_grants caps cs op params grants :
  recorded_grants caps cs = Some grants ->
  AuthorizeCapabilitiesWithConstraints caps cs op params = AuthorizeGrants grants op params.
Proof.
  unfold recorded_grants, AuthorizeCapabilitiesWithConstraints.
  destruct (ToGrantSet caps); [|done]. by intros [= <-].
Qed.

Lemma AuthorizeWithConstraints_Ok caps cs op params d :
  AuthorizeCapabilitiesWithConstraints caps cs op params = Ok d ->
  exists grants, recorded_grants caps cs = Some grants.
Proof.
  unfold recorded_grants, AuthorizeCapabilitiesWithConstraints.
  destruct (ToGrantSet caps); [|done]. eauto.
Qed.

Lemma decisionGrants_aic aic pa grants :
  recorded_grants (Capabilities aic) (AuthorizationConstraints aic) = Some grants ->
  decisionGrants (Some aic) pa = grants.
Proof.
  intros H. unfold decisionGrants, evidenceRecorders. simpl. rewrite H.
  destruct (pa ≫= _) as [g|]; [rewrite lookup_insert_ne by done|]; by rewrite lookup_singleton_eq.
Qed.

Lemma decisionGrants_pa pa grants :
  recorded_grants (Grants pa) (PAConstraints pa) = Some grants ->
  decisionGrants None (Some pa) = grants.
Proof.
  intros H. unfold decisionGrants, evidenceRecorders. simpl. rewrite H.
  rewrite lookup_insert_ne, lookup_empty by done. by rewrite lookup_insert_eq.
Qed.

(** * Properties *)

(** C11: the operations of an admission go through only if every one of them was
    decided, in order, over the AIC and the principal's authority, its verdict
    is [allow], or [allow_unresolved] with the obligations discharged (when
    discharge is on) and confirmed by the deployment's evaluator, and the
    decision context was fresh whenever freshness is required; the decision
    records the verdict and marks exactly the confirmed ones as released. *)
Theorem admitted_operations_authorized aic result cfg clock ods
    (H : evaluateCLCOperations aic result cfg clock (Operations cfg) [] = inr ods) :
  Forall2 (fun op od => exists n,
    operation_passes aic (APrincipalAuthorization result) cfg (clock n) op od) (Operations cfg) ods.
Proof. apply evaluate_passes in H as (new & -> & HF). done. Qed.

(** An operation is refused outright when nothing confirms its open
    obligations: without an evaluator, [allow_unresolved] never admits. *)
Theorem unresolved_fails_closed aic result cfg now op acc dec
    (Hdec : AuthorizeOperation aic (APrincipalAuthorization result) (OpID op) (OpParams op) = Ok dec)
    (Hur : DecVerdict dec = VerdictAllowUR) (Hnone : UnresolvedEvaluator cfg = None) :
  exists r, decide_operation aic result cfg now op acc = inl r /\ ADecision r = DecisionDeny.
Proof.
  unfold decide_operation. rewrite Hdec, Hur, Hnone.
  destruct (if DischargeObligations cfg then _ else None); by eexists.
Qed.

(** A refusal by verdict or context keeps the decisions made so far, the
    refused one last, and the authority they were made over. *)
Theorem refusal_keeps_decisions aic result cfg now op acc dec r
    (Hdec : AuthorizeOperation aic (APrincipalAuthorization result) (OpID op) (OpParams op) = Ok dec)
    (Hr : decide_operation aic result cfg now op acc = inl r) :
  exists od, OperationDecisions r = acc ++ [od] /\ ODID od = OpID op /\
    ODVerdict od = DecVerdict dec /\ Released od = false /\
    AAIC r = AAIC result /\ APrincipalAuthorization r = APrincipalAuthorization result.
Proof.
  unfold decide_operation in Hr. rewrite Hdec in Hr.
  repeat (case_match; simplify_eq/=; try done); eexists; repeat split; done.
Qed.

(** When the authority is a single source, the grants recorded with a
    decision reproduce it: deciding the same operation over them gives the same
    verdict. *)
Theorem recorded_grants_reproduce aic pa op params dec
    (Hone : aic = None \/ pa = None) (Hdec : AuthorizeOperation aic pa op params = Ok dec) :
  AuthorizeGrants (decisionGrants aic pa) op params = Ok dec.
Proof.
  destruct aic as [aic|], pa as [pa|]; simpl in Hdec; [by destruct Hone| | |done].
  - apply bind_Ok in Hdec as (d & Hd & [= <-]).
    destruct (AuthorizeWithConstraints_Ok _ _ _ _ _ Hd) as (g & Hg).
    by rewrite (decisionGrants_aic _ _ _ Hg), <- (AuthorizeWithConstraints_grants _ _ _ _ _ Hg).
  - destruct (AuthorizeWithConstraints_Ok _ _ _ _ _ Hdec) as (g & Hg).
    by rewrite (decisionGrants_pa _ _ Hg), <- (AuthorizeWithConstraints_grants _ _ _ _ _ Hg).
Qed.
End ClcFacts.

(** The connection-level evaluator confirms an obligation list only if each
    obligation maps to a registered constraint type whose evaluator accepted the
    mapped constraint for this client address at that instant. *)
Theorem discharged_obligations_hold env reg ip op unresolved
    (H : ConnectionConstraintEvaluator env reg ip op unresolved = true) :
  forall c, c ∈ unresolved -> exists cap ev, ConstraintToCapability c = Some cap /\
    reg !! CapabilityId cap = Some ev /\ isConstraintScheme (SchemeId cap) = true /\
    Evaluate env ev cap (Some {| ClientIP := ip; Now := time_Now env |}) = None.
Proof.
  intros c Hc. unfold ConnectionConstraintEvaluator in H. rewrite forallb_forall_elem in H.
  specialize (H c Hc). destruct (ConstraintToCapability c) as [cap|]; [|done].
  unfold Find in H. destruct (reg !! CapabilityId cap) as [ev|] eqn:E; [|done].
  destruct (CheckAuthorizationConstraints _ _ _ _) eqn:Ec; [done|].
  apply checkConstraintsReg_None, Forall_singleton in Ec as [Hs He].
  exists cap, ev. split; [done|]. split; [done|]. split; [done|]. by apply He.
Qed.

(** [ConstraintToCapability] does not invert [ConstraintStrings] on the
    session and operation types: whatever their parameters, an obligation of
    one of these types is never confirmed by the built-in registry. *)
Theorem session_obligations_never_discharged env ip op params
    (t : string) (Ht : t ∈ [ConstraintConcurrentKey; ConstraintHardTimeoutKey;
                            ConstraintIdleTimeoutKey; ConstraintReadOnlyKey; ConstraintAuditRequiredKey]) :
  ConnectionConstraintEvaluator env globalConstraintRegistry_init ip op
    (ConstraintStrings [{| SchemeId := "varwof/constraint-v1"; CapabilityId := t; Parameters := params |}])
  = false.
Proof.
  assert (forall s, s ∈ ["session"; "op"] ->
    Find globalConstraintRegistry_init s = Err (Errorf "constraint: no evaluator for %q" [AStr s])) as G.
  { intros s. rewrite !elem_of_cons, elem_of_nil. by intros [->|[->|?]]. }
  assert (exists p1 rest, p1 ∈ ["session"; "op"] /\ rest <> [] /\
    split_byte ":" (constraint_string {| SchemeId := "varwof/constraint-v1"; CapabilityId := t;
                                         Parameters := params |})
    = "varwof/constraint-v1" :: p1 :: rest) as (p1 & rest & Hp & Hr & E).
  { unfold constraint_string. cbn [SchemeId CapabilityId Parameters].
    unfold ConstraintConcurrentKey, ConstraintHardTimeoutKey, ConstraintIdleTimeoutKey,
      ConstraintReadOnlyKey, ConstraintAuditRequiredKey in Ht.
    rewrite !elem_of_cons, elem_of_nil in Ht.
    destruct Ht as [->|[->|[->|[->|[->|?]]]]]; [..|done]; destruct (0 <? slen params);
    eexists _, _; (split; [|split; [|cbn; reflexivity]]); try set_solver;
    try (intros ?; by repeat case_match). }
  unfold ConstraintStrings. cbn [map ConnectionConstraintEvaluator forallb].
  unfold ConnectionConstraintEvaluator. cbn [forallb]. unfold ConstraintToCapability. rewrite E.
  cbn [String.eqb Ascii.eqb Bool.eqb orb].
  destruct rest as [|r rest]; [done|].
  rewrite !elem_of_cons, elem_of_nil in Hp.
  destruct Hp as [->|[->|?]]; [| |done]; cbn; by rewrite ?G by set_solver.
Qed.

(** * Concrete instances *)

(** A small decision language: a grant with the operation's identifier allows
    it, or leaves its constraints open; a refusal of either side refuses. *)
Definition toy_semantics : ClcSemantics := {|
  DecisionContext := Time;
  ValidateCapabilityID := fun id => if String.eqb id "" then Some (ErrNew "empty id") else None;
  ValidateGrantParams := fun _ => None;
  ValidateOperationParams := fun _ => None;
  AuthorizeSet := fun grants id _ =>
    match List.filter (fun g => String.eqb (GrantID g) id) grants with
    | [] => {| DecVerdict := VerdictDeny; DecReason := "capability_not_authorized"; Unresolved := [] |}
    | g :: _ => match GrantConstraints g with
                | [] => {| DecVerdict := VerdictAllow; DecReason := ""; Unresolved := [] |}
                | cs => {| DecVerdict := VerdictAllowUR; DecReason := ""; Unresolved := cs |}
                end
    end;
  Combine := fun a b => inl
    match DecVerdict a, DecVerdict b with
    | VerdictDeny, _ => a
    | _, VerdictDeny => b
    | VerdictAllow, _ => b
    | _, VerdictAllow => a
    | _, _ => {| DecVerdict := VerdictAllowUR; DecReason := DecReason a;
                 Unresolved := Unresolved a ++ Unresolved b |}
    end;
  Discharge := fun d understood =>
    if forallb (fun o => existsb (has_prefix o) understood) (Unresolved d) then None
    else Some (ErrNew "obligation_unknown");
  Fresh := fun ctx now => if Before (Add ctx Minute) now then Some (ErrNew "context_stale") else None;
  ValidateSourceChain := fun _ => None
|}.

Section Witnesses.
Definition clc_names : CapabilityNames := {| FullID := fun c => SchemeId c +:+ ":" +:+ CapabilityId c |}.
  #[local] Existing Instance clc_names.
  #[local] Existing Instance toy_semantics.

Definition toy_cap (s c : string) : Capability := {| SchemeId := s; CapabilityId := c; Parameters := "" |}.
Definition base_config : AdmissionConfig := {|
  RequireAIC := true; RequiredProtocol := ""; RequiredRuleId := ""; RequiredCapabilities := [];
  Operations := []; UnresolvedEvaluator := None; DischargeObligations := false;
  ObligationsUnderstood := []; RequireFreshDecisionContext := false; CfgDecisionContext := None;
  DisallowRepresentative := false; RequireUserPermission := false; RejectOverflow := false;
  RequireUserAuth := false; SkipDelegationAuthVerification := false;
  EnforceCapSizeConstraints := false; HasNonceCache := false; EnforceSize32 := false;
  UserCert := None; UserCertResolver := None; EnforceConstraints := false; StrictConstraints := false;
  CfgConstraintRegistry := None; CfgClientIP := ""; AuditLogger := false; CheckDAAge := false;
  DAAgeMax := 0; CfgCredentialBundle := None |}.
Definition with_operations (ops : list Operation) (ev : option (Operation -> list string -> bool))
  : AdmissionConfig := {|
  RequireAIC := true; RequiredProtocol := ""; RequiredRuleId := ""; RequiredCapabilities := [];
  Operations := ops; UnresolvedEvaluator := ev; DischargeObligations := true;
  ObligationsUnderstood := ["varwof/constraint-v1:time"]; RequireFreshDecisionContext := true;
  CfgDecisionContext := Some (0 : Time);
  DisallowRepresentative := false; RequireUserPermission := false; RejectOverflow := false;
  RequireUserAuth := false; SkipDelegationAuthVerification := false;
  EnforceCapSizeConstraints := false; HasNonceCache := false; EnforceSize32 := false;
  UserCert := None; UserCertResolver := None; EnforceConstraints := false; StrictConstraints := false;
  CfgConstraintRegistry := None; CfgClientIP := ""; AuditLogger := false; CheckDAAge := false;
  DAAgeMax := 0; CfgCredentialBundle := None |}.
Definition clc_pa (caps : list Capability) (cs : list Capability) : PrincipalAuthorization :=
  {| Grants := caps; PAConstraints := cs; AllowedMode := 0 |}.
Definition clc_result (pa : PrincipalAuthorization) : AdmissionResult := {|
  ADecision := DecisionAllow; AReason := Errorf "" []; AAIC := None;
  APrincipalAuthorization := Some pa; APrincipalUid := "alice"; EffectiveCaps := [];
  OperationDecisions := []; Sources := None |}.
Definition night : Capability := constraint "time:window" "{'start':'22:00','end':'06:00'}".
Definition op_read : Operation := {| OpID := "db:read"; OpParams := GoNil |}.

Lemma admitted_operations_authorized_witness :
  let cfg := with_operations [op_read] (Some (fun _ u => negb (zlen u =? 0))) in
  let result := clc_result (clc_pa [toy_cap "db" "read"] [night]) in
  exists ods, evaluateCLCOperations None result cfg (fun _ => Second) (Operations cfg) [] = inr ods /\
  Forall2 (fun op od => exists n,
    operation_passes None (APrincipalAuthorization result) cfg ((fun _ : nat => Second) n) op od)
    (Operations cfg) ods.
Proof.
  eexists. split; [vm_compute; reflexivity|].
  refine (admitted_operations_authorized _ _ _ _ _ _). vm_compute. reflexivity.
Defined.

Lemma unresolved_fails_closed_witness :
  let cfg := with_operations [op_read] None in
  let result := clc_result (clc_pa [toy_cap "db" "read"] [night]) in
  exists r, decide_operation None result cfg 0 op_read [] = inl r /\ ADecision r = DecisionDeny.
Proof.
  eapply unresolved_fails_closed; [vm_compute; reflexivity | reflexivity | reflexivity].
Defined.

Lemma refusal_keeps_decisions_witness :
  let cfg := with_operations [op_read] None in
  let result := clc_result (clc_pa [toy_cap "db" "write"] []) in
  exists r od, decide_operation None result cfg 0 op_read [] = inl r /\ OperationDecisions r = [] ++ [od] /\
    ODID od = "db:read" /\ ODVerdict od = VerdictDeny.
Proof.
  intros cfg result. eexists.
  edestruct (refusal_keeps_decisions None result cfg 0 op_read []) as (od & H1 & H2 & H3 & _);
    [vm_compute; reflexivity | vm_compute; reflexivity |].
  exists od. split; [vm_compute; reflexivity|]. split; [exact H1|]. split; [exact H2|exact H3].
Defined.

Lemma recorded_grants_reproduce_witness :
  let pa := clc_pa [toy_cap "db" "read"] [night] in
  AuthorizeGrants (decisionGrants None (Some pa)) "db:read" GoNil =
  Ok {| DecVerdict := VerdictAllowUR; DecReason := "";
        Unresolved := ConstraintStrings [night] |}.
Proof. apply recorded_grants_reproduce; [by left | vm_compute; reflexivity]. Defined.
End Witnesses.

Lemma discharged_obligations_hold_witness :
  exists c cap ev, ConstraintStrings [constraint "network:cidr" "['10.0.0.0/8']"] = [c] /\
    ConstraintToCapability c = Some cap /\ globalConstraintRegistry_init !! CapabilityId cap = Some ev /\
    Evaluate sample_env ev cap (Some {| ClientIP := "10.9.8.7"; Now := time_Now sample_env |}) = None.
Proof.
  exists (constraint_string (constraint "network:cidr" "['10.0.0.0/8']")).
  destruct (discharged_obligations_hold sample_env globalConstraintRegistry_init "10.9.8.7" op_read
    (ConstraintStrings [constraint "network:cidr" "['10.0.0.0/8']"]) ltac:(vm_compute; reflexivity)
    _ (list_elem_of_here _ _)) as (cap & ev & Hc & Hr & _ & He).
  exists cap, ev. split; [reflexivity|]. split; [exact Hc|]. split; [exact Hr|exact He].
Defined.

Lemma session_obligations_never_discharged_witness :
  ConnectionConstraintEvaluator sample_env globalConstraintRegistry_init "10.0.0.1" op_read
    (ConstraintStrings [{| SchemeId := "varwof/constraint-v1"; CapabilityId := ConstraintConcurrentKey;
                           Parameters := dq "{'max':5}" |}]) = false.
Proof. apply session_obligations_never_discharged. set_solver. Defined.

(** With both an AIC and a principal authorization the grants recorded with
    a decision need not reproduce it: they are the AIC's alone, and the refusal
    came from the principal's. *)
Theorem recorded_grants_incomplete :
  exists aic pa, 
    AuthorizeOperation (CN := clc_names) (CS := toy_semantics) (Some aic) (Some pa) "db:read" GoNil
      = Ok {| DecVerdict := VerdictDeny; DecReason := "capability_not_authorized"; Unresolved := [] |} /\
    AuthorizeGrants (CS := toy_semantics)
      (decisionGrants (CN := clc_names) (CS := toy_semantics) (Some aic) (Some pa)) "db:read" GoNil
      = Ok {| DecVerdict := VerdictAllow; DecReason := ""; Unresolved := [] |}.
Proof.
  exists {| AICVersion := 1; AgentId := "a"; AICPrincipal := {| Realm := ""; Identifier := "";
              KeyHash := []; HashAlgo := "" |};
            Capabilities := [toy_cap "db" "read"]; DelegationMode := 0; AuthorizationConstraints := [];
            AICDelegation := {| SignatureAlgorithm := ""; SignatureValue := []; Nonce := [];
              DAReason := ""; RequestedLifetime := 0; DATimestamp := 0 |} |}.
  exists (clc_pa [toy_cap "db" "write"] []). split; vm_compute; reflexivity.
Qed.
