(* ===== verification/Credential.v ===== *)
(** Credential bundles ([src/credential_bundle.go]) and the source chain of an
    admission ([src/sources.go]).

    The PEM decoder, the certificate parser and the chain verification of
    [crypto/x509] are the fields of [X509]. *)
From S2P Require Import Prelude GoStrings GoTime GoJson Types Sha256 GoNet AdmissionTypes.
From stdpp Require Import pretty.
Local Open Scope string_scope.
Local Open Scope Z_scope.
Local Open Scope list_scope.

(** * Definitions *)

Class X509 := {
  CertPool : Type;
  pem_blocks : bytes -> list (string * bytes);
  x509_ParseCertificate : bytes -> result Certificate;
  (** [cert.Verify] with the roots, the certificates of the intermediate pool
      ([None] for a nil pool) and the client-authentication usage. *)
  x509_Verify : Certificate -> CertPool -> option (list Certificate) -> option error
}.

(** [src/credential_bundle.go:NewCredentialBundle] *)
Definition NewCredentialBundle (agentChain principalChain caCerts : list Certificate)
  : result CredentialBundle :=
  if zlen agentChain =? 0 then Err (Errorf "credential_bundle: agent chain is required" [])
  else if zlen principalChain =? 0 then Err (Errorf "credential_bundle: principal chain is required" [])
  else Ok {| AgentChain := agentChain; PrincipalChain := principalChain; CACerts := caCerts |}.

(** [src/credential_bundle.go:CredentialBundle.Agent] *)
Definition Agent (b : option CredentialBundle) : option Certificate :=
  match b with None => None | Some b => head (AgentChain b) end.

(** [src/credential_bundle.go:CredentialBundle.Principal] *)
Definition Principal (b : option CredentialBundle) : option Certificate :=
  match b with None => None | Some b => head (PrincipalChain b) end.

(** [src/credential_bundle.go:intermediatesPool] *)
Definition intermediatesPool (certs : list Certificate) : option (list Certificate) :=
  if zlen certs =? 0 then None else Some certs.

Section Bundle.
  Context {HF : HashFunction} {CP : CertificateParser} {X : X509}.

(** [src/credential_bundle.go:VerifyPrincipalKeyHash] *)
Definition VerifyPrincipalKeyHash (agent principal : option Certificate) : option error :=
  match agent, principal with
  | None, _ => Some (Errorf "credential_bundle: nil agent cert" [])
  | Some _, None => Some (Errorf "credential_bundle: nil principal cert" [])
  | Some agent, Some principal =>
      match ParseAIC agent with
      | Err err => Some (Errorf "credential_bundle: parse agent AIC: %w" [AWrap err])
      | Ok aic =>
          let kh := match aic with Some a => KeyHash (AICPrincipal a) | None => [] end in
          if zlen kh =? 0 then Some (Errorf "credential_bundle: agent has no keyHash in PrincipalUid" [])
          else if bool_decide (Sum256 (RawSubjectPublicKeyInfo principal) = kh) then None
          else Some (Errorf "credential_bundle: principal cert SPKI hash mismatch with AIC keyHash" [])
      end
  end.

(** [src/credential_bundle.go:VerifyBundle] *)
Definition VerifyBundle (bundle : option CredentialBundle) (roots : option CertPool) : option error :=
  match bundle, roots with
  | None, _ => Some (Errorf "credential_bundle: nil bundle" [])
  | Some _, None =>
      Some (Errorf "credential_bundle: no trust roots provided (client-supplied CA certs are not trusted)" [])
  | Some b, Some roots =>
      match AgentChain b with
      | [] => Some (Errorf "credential_bundle: empty agent chain" [])
      | agent :: agent_rest =>
          match x509_Verify agent roots (intermediatesPool agent_rest) with
          | Some err => Some (Errorf "credential_bundle: agent chain: %w" [AWrap err])
          | None =>
              match PrincipalChain b with
              | [] => Some (Errorf "credential_bundle: empty principal chain" [])
              | principal :: principal_rest =>
                  match x509_Verify principal roots (intermediatesPool principal_rest) with
                  | Some err => Some (Errorf "credential_bundle: principal chain: %w" [AWrap err])
                  | None => VerifyPrincipalKeyHash (Agent bundle) (Principal bundle)
                  end
              end
          end
      end
  end.

(** [src/credential_bundle.go:168-178 ParseCredentialBundlePEM] a certificate
    goes to the agent chain if it carries an AIC, else to the principal chain
    if it carries an authorization, else to the CA certificates. *)
Definition classify (b : CredentialBundle) (cert : Certificate) : CredentialBundle :=
  match ParseAIC cert with
  | Ok (Some _) => {| AgentChain := AgentChain b ++ [cert]; PrincipalChain := PrincipalChain b;
                      CACerts := CACerts b |}
  | _ =>
      match ParseUserPermissionExtension cert with
      | Ok (Some _) => {| AgentChain := AgentChain b; PrincipalChain := PrincipalChain b ++ [cert];
                          CACerts := CACerts b |}
      | _ => {| AgentChain := AgentChain b; PrincipalChain := PrincipalChain b;
                CACerts := CACerts b ++ [cert] |}
      end
  end.

(** [src/credential_bundle.go:ParseCredentialBundlePEM] *)
Definition ParseCredentialBundlePEM (data : bytes) : result CredentialBundle :=
  let ders := map snd (List.filter (fun b => String.eqb b.1 "CERTIFICATE") (pem_blocks data)) in
  match map_result x509_ParseCertificate ders with
  | Err err => Err (Errorf "credential_bundle: parse PEM cert: %w" [AWrap err])
  | Ok certs =>
      if zlen certs =? 0 then Err (Errorf "credential_bundle: no certificates in PEM" [])
      else Ok (foldl classify {| AgentChain := []; PrincipalChain := []; CACerts := [] |} certs)
  end.
End Bundle.

(** ** The source chain *)

(** [big.Int.Text(16)] *)
Fixpoint hex_digits (fuel : nat) (z : Z) : string :=
  match fuel with
  | O => ""
  | S f => (if z <? 16 then "" else hex_digits f (z / 16)) +:+ String (hex_digit (z mod 16)) ""
  end.
Definition Text16 (z : Z) : string :=
  let m := Z.abs z in
  (if z <? 0 then "-" else "") +:+ hex_digits (S (Z.to_nat (Z.log2 m))) m.

(** [big.Int.String]; a nil pointer prints as [<nil>]. *)
Definition serial_String (s : option Z) : string :=
  match s with None => "<nil>" | Some z => pretty z end.

Section SourceChain.
  Context {HF : HashFunction} {CS : ClcSemantics}.

(** [src/sources.go:digestOfDER] *)
Definition digestOfDER (der : bytes) : string * bytes := ("sha-256", Sum256 der).

(** [src/sources.go:certID] *)
Definition certID (c : Certificate) : string :=
  match SerialNumber c with
  | Some z => "serial:" +:+ Text16 z
  | None => "sha256:" +:+ hex_encode (digestOfDER (Raw c)).2
  end.

(** [src/sources.go:issuerName] *)
Definition issuerName (c : Certificate) : string :=
  if String.eqb (IssuerCN c) "" then Issuer c else IssuerCN c.

Definition source_ref (kind : string) (c : Certificate) : SourceRef :=
  {| SourceKind := kind; SourceID := certID c; SourceIssuer := issuerName c;
     SourceDigest := digestOfDER (Raw c) |}.

(** [src/sources.go:BuildSourceChain] *)
Definition BuildSourceChain (clientCert : option Certificate) (aic : option AIC)
    (userCert : option Certificate) : result (list SourceRef) :=
  match clientCert with
  | None => Err (Errorf "%w: no client certificate" [AWrap (ErrNew "semantics.ErrSourceShape")])
  | Some c =>
      let kind := match aic with Some _ => "aic-x509" | None => "principal-cert" end in
      let chain := source_ref kind c ::
        match userCert with Some u => [source_ref "principal-cert" u] | None => [] end in
      match ValidateSourceChain chain with
      | Some err => Err err
      | None => Ok chain
      end
  end.
End SourceChain.

Example text16 : map Text16 [0; 255; 4096; -26] = ["0"; "ff"; "1000"; "-1a"].
Proof. vm_compute. reflexivity. Qed.

(** * Lemmas *)
Section BundleFacts.
  Context {HF : HashFunction} {CP : CertificateParser} {X : X509}.

Lemma VerifyPrincipalKeyHash_None agent principal :
  VerifyPrincipalKeyHash (Some agent) (Some principal) = None <->
  exists aic, ParseAIC agent = Ok (Some aic) /\ KeyHash (AICPrincipal aic) <> [] /\
    KeyHash (AICPrincipal aic) = Sum256 (RawSubjectPublicKeyInfo principal).
Proof.
  unfold VerifyPrincipalKeyHash. destruct (ParseAIC agent) as [[aic|]|e]; simpl.
  - destruct (zlen _ =? 0) eqn:E.
    { apply zlen_eqb_nil in E. split; [done|]. intros (a & [= <-] & ? & _). done. }
    assert (KeyHash (AICPrincipal aic) <> []) as Hne by (intros H; by rewrite H in E).
    case_bool_decide; split; try done; [by exists aic|].
    intros (a & [= ->] & _ & H'). congruence.
  - split; [done|]. by intros (a & ? & _).
  - split; [done|]. by intros (a & ? & _).
Qed.

(** A credential bundle verifies exactly when operator roots are given, the
    agent's and the principal's chains both lead to them, and the agent's AIC
    names the principal's key by its hash; the certificates the client calls
    its CA play no part. *)
Theorem bundle_verified_iff b roots :
  VerifyBundle (Some b) roots = None <->
  exists pool agent agents principal principals aic,
    roots = Some pool /\ AgentChain b = agent :: agents /\ PrincipalChain b = principal :: principals /\
    x509_Verify agent pool (intermediatesPool agents) = None /\
    x509_Verify principal pool (intermediatesPool principals) = None /\
    ParseAIC agent = Ok (Some aic) /\ KeyHash (AICPrincipal aic) <> [] /\
    KeyHash (AICPrincipal aic) = Sum256 (RawSubjectPublicKeyInfo principal).
Proof.
  unfold VerifyBundle. destruct roots as [pool|]; [|split; [done|naive_solver]].
  destruct (AgentChain b) as [|a ar] eqn:Ea; [split; [done|naive_solver]|].
  destruct (x509_Verify a _ _) eqn:Ev; [split; [done|naive_solver congruence]|].
  destruct (PrincipalChain b) as [|p pr] eqn:Ep; [split; [done|naive_solver]|].
  destruct (x509_Verify p _ _) eqn:Ew; [split; [done|naive_solver congruence]|].
  unfold Agent, Principal. rewrite Ea, Ep. cbn [head]. rewrite VerifyPrincipalKeyHash_None. naive_solver.
Qed.

Lemma classify_all b cs : let b' := foldl classify b cs in
  AgentChain b ++ PrincipalChain b ++ CACerts b ++ cs ≡ₚ
  AgentChain b' ++ PrincipalChain b' ++ CACerts b'.
Proof.
  revert b. induction cs as [|c cs IH]; intros b; simpl; [by rewrite app_nil_r|].
  rewrite <- IH. unfold classify. repeat case_match; simpl; rewrite <- ?app_assoc; simpl;
  rewrite ?(Permutation_middle _ _ c); rewrite ?Permutation_middle; done.
Qed.
End BundleFacts.
