(* ===== verification/Admission.v ===== *)
(** [CheckAdmission] of [src/decision.go]: the admission of a connection by its
    certificate, phase by phase in the order of the source.

    A phase returns the refusal of the source's early [return], or what the
    next phase needs.  The clock, the registries and the resolvers are read
    where the source reads them; [admission_clock] holds those readings.  The
    nonce cache is the one shared object an admission changes; it is passed
    through, and so are the audit entries written. *)
From S2P Require Import Prelude GoStrings GoTime GoJson Types Sha256 Capability DelegationAuth Delegation.
From S2P Require Import NonceCache Constraints AdmissionTypes Clc Credential.
Local Open Scope string_scope.
Local Open Scope Z_scope.
Local Open Scope list_scope.

(** * Definitions *)

(** A phase: an early return of the source, or a value. *)
Inductive flow (A : Type) : Type :=
  | Return (r : AdmissionResult)
  | Next (a : A).
Arguments Return {A} r.
Arguments Next {A} a.

#[export] Instance flow_ret : MRet flow := fun A a => Next a.
#[export] Instance flow_bind : MBind flow := fun A B f m =>
  match m with Return r => Return r | Next a => f a end.

(** [if err != nil { return AdmissionResult{DecisionDeny, reason} }] *)
Definition guard_err (o : option error) (reason : error -> message) : flow unit :=
  match o with Some err => Return (deny_result (reason err)) | None => Next tt end.
Definition guard_not (b : bool) (reason : message) : flow unit :=
  if b then Return (deny_result reason) else Next tt.

(** The readings of one admission. *)
Record admission_clock := {
  pa_reading : reading; aic_reading : reading; op_clock : nat -> Time; da_now : Time; nonce_now : Time
}.

(** The fields of an audit entry that an admission sets. *)
Record audit_warning := { WAction : string; WTargetID : string; WLevel : string }.

Definition with_PA (r : AdmissionResult) (pa : option PrincipalAuthorization) : AdmissionResult := {|
  ADecision := ADecision r; AReason := AReason r; AAIC := AAIC r; APrincipalAuthorization := pa;
  APrincipalUid := APrincipalUid r; EffectiveCaps := EffectiveCaps r;
  OperationDecisions := OperationDecisions r; Sources := Sources r |}.
Definition with_decisions (r : AdmissionResult) (ods : list OperationDecision) : AdmissionResult := {|
  ADecision := ADecision r; AReason := AReason r; AAIC := AAIC r;
  APrincipalAuthorization := APrincipalAuthorization r; APrincipalUid := APrincipalUid r;
  EffectiveCaps := EffectiveCaps r; OperationDecisions := ods; Sources := Sources r |}.
Definition with_caps (r : AdmissionResult) (caps : list Capability) : AdmissionResult := {|
  ADecision := ADecision r; AReason := AReason r; AAIC := AAIC r;
  APrincipalAuthorization := APrincipalAuthorization r; APrincipalUid := APrincipalUid r;
  EffectiveCaps := caps; OperationDecisions := OperationDecisions r; Sources := Sources r |}.

(** [pki.DelegationRepresentative] *)
Definition DelegationRepresentative : Z := 1.

Section Admission.
  Context {CN : CapabilityNames} {CS : ClcSemantics} {HF : HashFunction} {PM : PkiMethods}
          {DC : DACrypto} {CP : CertificateParser}.

(** [src/decision.go:currentPrincipalCert] *)
Definition currentPrincipalCert (cfg : AdmissionConfig) : option Certificate :=
  match UserCert cfg with
  | Some c => Some c
  | None => Principal (CfgCredentialBundle cfg)
  end.

(** [src/decision.go:428-449 CheckAdmission] *)
Definition admit_identity (cert : Certificate) (cfg : AdmissionConfig)
  : flow (option AIC * AdmissionResult) :=
  match ParseAIC cert with
  | Err err => Return (deny_result (Errorf "aic parse: %v" [AErr err]))
  | Ok aic =>
      if (match aic with None => RequireAIC cfg | Some _ => false end)
      then Return (deny_result (Errorf "aic extension required" []))
      else
        let uid := match aic with
                   | None => ouFallbackPrincipal (Some cert)
                   | Some a => PrincipalUid_String (AICPrincipal a) end in
        let sources := match BuildSourceChain (Some cert) aic (UserCert cfg) with
                       | Ok s => Some s | Err _ => None end in
        Next (aic, {| ADecision := DecisionAllow; AReason := Errorf "" []; AAIC := aic;
                      APrincipalAuthorization := None; APrincipalUid := uid; EffectiveCaps := [];
                      OperationDecisions := []; Sources := sources |})
  end.

(** [src/decision.go:451-480 CheckAdmission] *)
Definition admit_fields (aic : option AIC) (cfg : AdmissionConfig) : flow unit :=
  match aic with
  | None => Next tt
  | Some a =>
      guard_err (ValidateAIC a) (fun err => Errorf "aic validation: %v" [AErr err]) ≫= fun _ =>
      guard_err (if EnforceCapSizeConstraints cfg then validateCapSizeConstraints (Capabilities a) else None)
        (fun err => Errorf "capability size constraint: %v" [AErr err]) ≫= fun _ =>
      guard_not (EnforceSize32 cfg && negb (zlen (Nonce (AICDelegation a)) =? 32))
        (Errorf "delegation auth nonce length %d: must be exactly 32 bytes"
           [AInt (zlen (Nonce (AICDelegation a)))])
  end.

(** [src/decision.go:482-505 CheckAdmission] the authorization of the agent's
    certificate, replaced by the current principal certificate's when that
    certificate's key is the one the AIC names. *)
Definition admit_principal (cert : Certificate) (cfg : AdmissionConfig) (result : AdmissionResult)
  : flow AdmissionResult :=
  match ParseUserPermissionExtension cert with
  | Err err => Return (deny_result (Errorf "principal_authorization parse: %v" [AErr err]))
  | Ok pa =>
      let refreshed :=
        match currentPrincipalCert cfg with
        | None => pa
        | Some pc =>
            match ParseUserPermissionExtension pc with
            | Ok (Some pa2) =>
                match VerifyPrincipalKeyHash (Some cert) (Some pc) with None => Some pa2 | Some _ => pa end
            | _ => pa
            end
        end in
      if (match pa with None => RequireUserPermission cfg | Some _ => false end)
      then Return (deny_result (Errorf "principal_authorization extension required" []))
      else Next (with_PA result refreshed)
  end.

(** [src/decision.go:507-522 CheckAdmission] *)
Definition admit_pa_constraints (cfg : AdmissionConfig) (rd : reading) (result : AdmissionResult)
  : flow unit :=
  match APrincipalAuthorization result with
  | None => Next tt
  | Some pa =>
      if EnforceConstraints cfg && (0 <? zlen (PAConstraints pa)) then
        let reg := admissionConstraintRegistry (rd_registry rd) cfg in
        guard_err (checkConstraintsReg (rd_env rd) reg (PAConstraints pa) (CfgClientIP cfg) (time_Now (rd_env rd)))
          (fun err => Errorf "pa constraint: %v" [AErr err]) ≫= fun _ =>
        if StrictConstraints cfg then
          match firstUnknownConstraintReg reg (PAConstraints pa) with
          | Some u => Return (deny_result (Errorf "pa constraint: unknown constraint type %q (strict mode)"
                                             [AStr (CapabilityId u)]))
          | None => Next tt
          end
        else Next tt
      else Next tt
  end.

(** [src/decision.go:524-550 CheckAdmission] with the audit entries written. *)
Definition admit_aic_constraints (aic : option AIC) (cfg : AdmissionConfig) (rd : reading)
  : flow (list audit_warning) :=
  match aic with
  | None => Next []
  | Some a =>
      let cs := AuthorizationConstraints a in
      if EnforceConstraints cfg && (0 <? zlen cs) then
        let reg := admissionConstraintRegistry (rd_registry rd) cfg in
        match (if StrictConstraints cfg then firstUnknownConstraintReg reg cs else None) with
        | Some u => Return (deny_result (Errorf "aic constraint: unknown constraint type %q (strict mode)"
                                           [AStr (CapabilityId u)]))
        | None =>
            guard_err (checkConstraintsReg (rd_env rd) reg cs (CfgClientIP cfg) (time_Now (rd_env rd)))
              id ≫= fun _ =>
            Next (if AuditLogger cfg then
                    map (fun c => {| WAction := "unknown_constraint"; WTargetID := CapabilityId c;
                                     WLevel := "WARN" |})
                      (List.filter (fun c => negb (isKnownConstraintTypeReg reg (CapabilityId c))) cs)
                  else [])
        end
      else Next []
  end.

(** The authority the required capabilities are looked up in. *)
Definition capability_source (aic : option AIC) (pa : option PrincipalAuthorization) : list Capability :=
  match aic, pa with
  | Some a, _ => Capabilities a
  | None, Some p => Grants p
  | None, None => []
  end.

(** [src/decision.go:552-594 CheckAdmission] *)
Definition admit_requirements (aic : option AIC) (cfg : AdmissionConfig)
    (pa : option PrincipalAuthorization) : flow unit :=
  (match aic with
   | None => Next tt
   | Some a =>
       guard_not (negb (String.eqb (RequiredProtocol cfg) "") && negb (HasProtocol a (RequiredProtocol cfg)))
         (Errorf "protocol %s not in capabilities" [AStr (RequiredProtocol cfg)]) ≫= fun _ =>
       guard_not (negb (String.eqb (RequiredRuleId cfg) "") && negb (CheckPermission a (RequiredRuleId cfg)))
         (Errorf "rule %s not in capabilities" [AStr (RequiredRuleId cfg)])
   end) ≫= fun _ =>
  let missing := List.filter (fun req => negb (aicCapabilityMatches (capability_source aic pa) req))
                   (RequiredCapabilities cfg) in
  guard_not (0 <? zlen missing) (Errorf "missing capabilities: %v" [AStrs missing]).

(** [src/decision.go:603-626 CheckAdmission] *)
Definition admit_mode (aic : option AIC) (cfg : AdmissionConfig) (pa : option PrincipalAuthorization)
  : flow unit :=
  match aic with
  | None => Next tt
  | Some a =>
      if DelegationMode a =? DelegationRepresentative then
        if DisallowRepresentative cfg
        then Return (deny_result (Errorf "representative delegation mode not allowed by gateway policy" []))
        else match pa with
        | None => Return (deny_result
                    (Errorf "representative mode requires principal_authorization extension" []))
        | Some pa => guard_not (negb (AllowedMode pa =? 1))
                       (Errorf "user_permission does not allow representative delegation" [])
        end
      else Next tt
  end.

(** [src/decision.go:661-691 CheckAdmission] no certificate was supplied: the
    peer's own, if the AIC names its key. *)
Definition peer_as_principal (cert : Certificate) (a : AIC) : flow Certificate :=
  let kh := KeyHash (AICPrincipal a) in
  if 0 <? zlen kh then
    let ha := HashAlgoOID (AICPrincipal a) in
    if negb (String.eqb ha "") && negb (String.eqb ha OIDSHA256)
    then Return (deny_result (Errorf "user_auth: unsupported keyHash algorithm" []))
    else if negb (bool_decide (Sum256 (RawSubjectPublicKeyInfo cert) = kh))
    then Return (deny_result (Errorf "user_auth: authorization certificate required but not provided" []))
    else Next cert
  else Return (deny_result
         (Errorf "user_auth: no authorization certificate and no keyHash to bind the peer certificate" [])).

(** [src/decision.go:636-691 CheckAdmission] the configured certificate, the
    credential bundle's, the resolver's, then the peer's own. *)
Definition resolve_user_cert (cert : Certificate) (a : AIC) (cfg : AdmissionConfig) : flow Certificate :=
  (match UserCert cfg with
   | Some uc => Next (Some uc)
   | None =>
       match Principal (CfgCredentialBundle cfg) with
       | None => Next None
       | Some uc =>
           match VerifyPrincipalKeyHash (Some cert) (Some uc) with
           | Some err => Return (deny_result (Errorf "user_auth: credential bundle: %v" [AErr err]))
           | None => Next (Some uc)
           end
       end
   end) ≫= fun uc1 =>
  (match uc1, UserCertResolver cfg with
   | None, Some resolve =>
       if 0 <? zlen (KeyHash (AICPrincipal a)) then
         match resolve (KeyHash (AICPrincipal a)) with
         | Err err => Return (deny_result (Errorf "user_auth: resolve user cert: %v" [AErr err]))
         | Ok uc => Next uc
         end
       else Next None
   | _, _ => Next uc1
   end) ≫= fun uc2 =>
  match uc2 with
  | Some uc => Next uc
  | None => peer_as_principal cert a
  end.

(** [src/decision.go:628-709 CheckAdmission] *)
Definition admit_user_auth (cert : Certificate) (aic : option AIC) (cfg : AdmissionConfig) (now : Time)
  : flow unit :=
  match aic with
  | None => Next tt
  | Some a =>
      if SkipDelegationAuthVerification cfg then Next tt
      else if zlen (SignatureValue (AICDelegation a)) =? 0
      then Return (deny_result (Errorf "user_auth: signature required but empty" []))
      else
        resolve_user_cert cert a cfg ≫= fun userCert =>
        guard_err (VerifyDelegationAuthWithAgent aic (Some userCert) (Some cert))
          (fun err => Errorf "user_auth: %v" [AErr err]) ≫= fun _ =>
        guard_err (if CheckDAAge cfg then CheckDAFreshness (DATimestamp (AICDelegation a)) now (DAAgeMax cfg)
                   else None)
          (fun err => Errorf "user_auth: %v" [AErr err])
  end.

(** The certificate identity a nonce is bound to. *)
Definition nonce_scope (cert : Certificate) : string :=
  Issuer cert +:+ "/" +:+ serial_String (SerialNumber cert).

(** [src/decision.go:711-723 CheckAdmission] the refusal if any, and the cache. *)
Definition admit_nonce (cert : Certificate) (aic : option AIC) (cfg : AdmissionConfig) (now : Time)
    (cache : NonceCache.NonceCache) : flow unit * NonceCache.NonceCache :=
  match aic with
  | None => (Next tt, cache)
  | Some a =>
      if (0 <? zlen (Nonce (AICDelegation a))) && HasNonceCache cfg then
        let '(ok, cache') := NonceCache.CheckAndAdd cache (nonce_scope cert) (Nonce (AICDelegation a)) now in
        (guard_not (negb ok) (Errorf "delegation auth nonce replay detected" []), cache')
      else (Next tt, cache)
  end.

(** [src/decision.go:725-766 CheckAdmission] *)
Definition admit_effective (aic : option AIC) (cfg : AdmissionConfig) (result : AdmissionResult)
  : flow AdmissionResult :=
  let no_intersection :=
    Return (deny_result (Errorf "aic and principal_authorization capabilities have no intersection" [])) in
  match aic, APrincipalAuthorization result with
  | Some a, Some pa =>
      if DelegationMode a =? DelegationRepresentative then
        if (0 <? zlen (Capabilities a)) && (0 <? zlen (GrantIds pa)) then
          let intersection := IntersectPermissions a pa in
          if zlen intersection =? 0 then no_intersection
          else if RejectOverflow cfg && (zlen intersection <? zlen (Capabilities a))
          then Return (deny_result
                 (Errorf "aic has capabilities not authorized by principal_authorization" []))
          else Next (with_caps result (effectiveCapabilities (Capabilities a) (GrantIds pa)))
        else if 0 <? zlen (Capabilities a) then no_intersection
        else Next (with_caps result [])
      else Next (with_caps result (Capabilities a))
  | Some a, None => Next (with_caps result (Capabilities a))
  | None, Some pa => Next (with_caps result (Grants pa))
  | None, None => Next result
  end.

(** [src/decision.go:428-550 CheckAdmission] the phases before the capability
    checks, with the audit entries of the last one. *)
Definition admit_front (clk : admission_clock) (cert : Certificate) (cfg : AdmissionConfig)
  : flow (option AIC * AdmissionResult * list audit_warning) :=
  admit_identity cert cfg ≫= fun '(aic, result) =>
  admit_fields aic cfg ≫= fun _ =>
  admit_principal cert cfg result ≫= fun result =>
  admit_pa_constraints cfg (pa_reading clk) result ≫= fun _ =>
  admit_aic_constraints aic cfg (aic_reading clk) ≫= fun warnings =>
  Next (aic, result, warnings).

(** [src/decision.go:552-709 CheckAdmission] the capability checks, the
    operations, the delegation mode and the delegation's signature. *)
Definition admit_authority (clk : admission_clock) (cert : Certificate) (cfg : AdmissionConfig)
    (aic : option AIC) (result : AdmissionResult) : flow AdmissionResult :=
  admit_requirements aic cfg (APrincipalAuthorization result) ≫= fun _ =>
  (match evaluateCLCOperations aic result cfg (op_clock clk) (Operations cfg) [] with
   | inl denied => Return denied
   | inr ods => Next (with_decisions result ods)
   end) ≫= fun result =>
  admit_mode aic cfg (APrincipalAuthorization result) ≫= fun _ =>
  admit_user_auth cert aic cfg (da_now clk) ≫= fun _ =>
  Next result.

(** [src/decision.go:CheckAdmission] the result, the nonce cache after it and
    the audit entries written. *)
Definition CheckAdmission (clk : admission_clock) (cert : option Certificate) (cfg : AdmissionConfig)
    (cache : NonceCache.NonceCache) : AdmissionResult * NonceCache.NonceCache * list audit_warning :=
  match cert with
  | None => (deny_result (Errorf "nil certificate" []), cache, [])
  | Some cert =>
      match admit_front clk cert cfg with
      | Return r => (r, cache, [])
      | Next (aic, result, warnings) =>
          match admit_authority clk cert cfg aic result with
          | Return r => (r, cache, warnings)
          | Next result =>
              match admit_nonce cert aic cfg (nonce_now clk) cache with
              | (Return r, cache') => (r, cache', warnings)
              | (Next _, cache') =>
                  match admit_effective aic cfg result with
                  | Return r | Next r => (r, cache', warnings)
                  end
              end
          end
      end
  end.

(** [src/decision.go:LogAdmission] the level and the message; the logged
    attributes are the result's own fields. *)
Definition LogAdmission (result : AdmissionResult) (clientIP : string)
  : string * string * list (string * arg) :=
  let attrs := [("client_ip", AStr clientIP); ("principal", AStr (APrincipalUid result));
                ("reason", AErr (AReason result))] in
  if bool_decide (ADecision result = DecisionAllow) then ("INFO", "admission: allow", attrs)
  else ("WARN", "admission: deny", attrs).
End Admission.

(** * Lemmas on phases *)
Lemma flow_Next {A B} (m : flow A) (f : A -> flow B) b :
  (m ≫= f) = Next b <-> exists a, m = Next a /\ f a = Next b.
Proof.
  destruct m as [r|a]; simpl.
  - split; [done|]. by intros (? & ? & _).
  - split; [eauto|]. by intros (? & [= ->] & ?).
Qed.
Lemma guard_err_Next o reason u : guard_err o reason = Next u <-> o = None.
Proof. destruct o, u; simpl; split; congruence. Qed.
Lemma guard_not_Next b reason u : guard_not b reason = Next u <-> b = false.
Proof. destruct b, u; simpl; split; congruence. Qed.

(** The operations are decided alike under configurations that decide each
    single operation alike. *)
Lemma evaluate_cfg_ext {CN : CapabilityNames} {CS : ClcSemantics} aic r cfg1 cfg2 clock ops acc :
  (forall now op acc, decide_operation aic r cfg1 now op acc = decide_operation aic r cfg2 now op acc) ->
  evaluateCLCOperations aic r cfg1 clock ops acc = evaluateCLCOperations aic r cfg2 clock ops acc.
Proof.
  intros H. revert clock acc. induction ops as [|op ops IH]; intros clock acc; [done|]. simpl.
  rewrite H. destruct (decide_operation _ _ _ _ _ _); [done|]. apply IH.
Qed.

(** Every early return of a phase refuses. *)
Definition denies {A} (m : flow A) : Prop := forall r, m = Return r -> ADecision r = DecisionDeny.
Lemma denies_Next {A} (a : A) : denies (Next a).
Proof. intros r [=]. Qed.
Lemma denies_Return {A} reason : denies (A := A) (Return (deny_result reason)).
Proof. by intros r [= <-]. Qed.
Lemma denies_bind {A B} (m : flow A) (f : A -> flow B) :
  denies m -> (forall a, denies (f a)) -> denies (m ≫= f).
Proof. intros Hm Hf r. destruct m as [r'|a]; simpl; [intros [= <-]; by apply Hm|apply Hf]. Qed.
Lemma denies_guard_err o reason : denies (guard_err o reason).
Proof. destruct o; [apply denies_Return|apply denies_Next]. Qed.
Lemma denies_guard_not b reason : denies (guard_not b reason).
Proof. destruct b; [apply denies_Return|apply denies_Next]. Qed.

Create HintDb admission discriminated.
#[export] Hint Resolve denies_Next denies_Return denies_guard_err denies_guard_not : admission.
(** Decides that a phase refuses on each of its early returns. *)
Ltac denies_tac :=
  repeat first [ progress (eauto with admission)
               | progress intros
               | apply denies_bind
               | match goal with
                 | |- context [match ?x with _ => _ end] => destruct x
                 end ].

Section AdmissionFacts.
  Context {CN : CapabilityNames} {CS : ClcSemantics} {HF : HashFunction} {PM : PkiMethods}
          {DC : DACrypto} {CP : CertificateParser}.

Lemma admit_identity_denies cert cfg : denies (admit_identity cert cfg).
Proof. unfold admit_identity. denies_tac. Qed.
Lemma admit_fields_denies aic cfg : denies (admit_fields aic cfg).
Proof. unfold admit_fields. destruct aic; denies_tac. Qed.
Lemma admit_principal_denies cert cfg r : denies (admit_principal cert cfg r).
Proof. unfold admit_principal. denies_tac. Qed.
Lemma admit_pa_constraints_denies cfg rd r : denies (admit_pa_constraints cfg rd r).
Proof. unfold admit_pa_constraints. denies_tac. Qed.
Lemma admit_aic_constraints_denies aic cfg rd : denies (admit_aic_constraints aic cfg rd).
Proof. unfold admit_aic_constraints. denies_tac. Qed.
Lemma admit_requirements_denies aic cfg pa : denies (admit_requirements aic cfg pa).
Proof. unfold admit_requirements. apply denies_bind; [destruct aic; denies_tac|intros; denies_tac]. Qed.
Lemma admit_mode_denies aic cfg pa : denies (admit_mode aic cfg pa).
Proof. unfold admit_mode. denies_tac. Qed.
Lemma peer_as_principal_denies cert a : denies (peer_as_principal cert a).
Proof. unfold peer_as_principal. denies_tac. Qed.
Lemma resolve_user_cert_denies cert a cfg : denies (resolve_user_cert cert a cfg).
Proof.
  unfold resolve_user_cert. apply denies_bind; [denies_tac|]. intros. apply denies_bind; [denies_tac|].
  intros [|]; [denies_tac|apply peer_as_principal_denies].
Qed.
Lemma admit_user_auth_denies cert aic cfg now : denies (admit_user_auth cert aic cfg now).
Proof.
  unfold admit_user_auth. destruct aic; [|denies_tac]. case_match; [denies_tac|]. case_match; [denies_tac|].
  apply denies_bind; [apply resolve_user_cert_denies|]. denies_tac.
Qed.
Lemma admit_effective_denies aic cfg r : denies (admit_effective aic cfg r).
Proof. unfold admit_effective. denies_tac. Qed.
Lemma admit_nonce_denies cert aic cfg now cache : denies (fst (admit_nonce cert aic cfg now cache)).
Proof.
  unfold admit_nonce. destruct aic; [|denies_tac]. case_match; [|denies_tac].
  destruct (NonceCache.CheckAndAdd _ _ _ _). simpl. denies_tac.
Qed.

Lemma admit_front_denies clk cert cfg : denies (admit_front clk cert cfg).
Proof.
  unfold admit_front. apply denies_bind; [apply admit_identity_denies|]. intros [aic result].
  apply denies_bind; [apply admit_fields_denies|]. intros _.
  apply denies_bind; [apply admit_principal_denies|]. intros r.
  apply denies_bind; [apply admit_pa_constraints_denies|]. intros _.
  apply denies_bind; [apply admit_aic_constraints_denies|]. denies_tac.
Qed.
Lemma admit_authority_denies clk cert cfg aic r : denies (admit_authority clk cert cfg aic r).
Proof.
  unfold admit_authority. apply denies_bind; [apply admit_requirements_denies|]. intros _.
  apply denies_bind.
  { destruct (evaluateCLCOperations _ _ _ _ _ _) eqn:E; [|denies_tac].
    intros r' [= <-]. by eapply evaluate_denied. }
  intros r'. apply denies_bind; [apply admit_mode_denies|]. intros _.
  apply denies_bind; [apply admit_user_auth_denies|]. denies_tac.
Qed.

(** An allowed connection went through every phase. *)
Lemma CheckAdmission_allow clk cert cfg cache r cache' w :
  CheckAdmission clk (Some cert) cfg cache = (r, cache', w) -> ADecision r = DecisionAllow ->
  exists aic r0 r1, admit_front clk cert cfg = Next (aic, r0, w) /\
    admit_authority clk cert cfg aic r0 = Next r1 /\
    admit_nonce cert aic cfg (nonce_now clk) cache = (Next tt, cache') /\
    admit_effective aic cfg r1 = Next r.
Proof.
  unfold CheckAdmission. intros H Hr.
  destruct (admit_front clk cert cfg) as [r'|[[aic r0] w']] eqn:Ef.
  { simplify_eq. by rewrite (admit_front_denies _ _ _ _ Ef) in Hr. }
  destruct (admit_authority _ _ _ _ _) as [r'|r1] eqn:Ea.
  { simplify_eq. by rewrite (admit_authority_denies _ _ _ _ _ _ Ea) in Hr. }
  pose proof (admit_nonce_denies cert aic cfg (nonce_now clk) cache) as Hn.
  destruct (admit_nonce _ _ _ _ _) as [[r'|[]] c'] eqn:En.
  { simplify_eq. by rewrite (Hn r eq_refl) in Hr. }
  destruct (admit_effective aic cfg r1) as [r'|r'] eqn:Ee; simplify_eq.
  - by rewrite (admit_effective_denies _ _ _ _ Ee) in Hr.
  - eauto 10.
Qed.

Lemma admit_front_Next clk cert cfg aic r w :
  admit_front clk cert cfg = Next (aic, r, w) <->
  exists r0, admit_identity cert cfg = Next (aic, r0) /\ admit_fields aic cfg = Next tt /\
    admit_principal cert cfg r0 = Next r /\ admit_pa_constraints cfg (pa_reading clk) r = Next tt /\
    admit_aic_constraints aic cfg (aic_reading clk) = Next w.
Proof.
  unfold admit_front. rewrite flow_Next. split.
  - intros ([aic' r0] & Hi & H). rewrite flow_Next in H. destruct H as ([] & Hf & H).
    rewrite flow_Next in H. destruct H as (r1 & Hp & H). rewrite flow_Next in H.
    destruct H as ([] & Hc & H). rewrite flow_Next in H. destruct H as (w' & Hw & [= -> -> ->]). eauto 10.
  - intros (r0 & Hi & Hf & Hp & Hc & Hw). exists (aic, r0). split; [done|]. rewrite Hf. simpl.
    rewrite Hp. simpl. rewrite Hc. simpl. by rewrite Hw.
Qed.

Lemma admit_authority_Next clk cert cfg aic r r1 :
  admit_authority clk cert cfg aic r = Next r1 <->
  admit_requirements aic cfg (APrincipalAuthorization r) = Next tt /\
  (exists ods, evaluateCLCOperations aic r cfg (op_clock clk) (Operations cfg) [] = inr ods /\
     r1 = with_decisions r ods) /\
  admit_mode aic cfg (APrincipalAuthorization r) = Next tt /\
  admit_user_auth cert aic cfg (da_now clk) = Next tt.
Proof.
  unfold admit_authority. rewrite flow_Next. split.
  - intros ([] & Hr & H). rewrite flow_Next in H. destruct H as (r2 & He & H).
    destruct (evaluateCLCOperations _ _ _ _ _ _) as [|ods]; [done|]. injection He as <-.
    rewrite flow_Next in H. destruct H as ([] & Hm & H). rewrite flow_Next in H.
    destruct H as ([] & Hu & [= <-]). eauto 10.
  - intros (Hr & (ods & He & ->) & Hm & Hu). exists tt. split; [done|]. rewrite He. simpl.
    rewrite Hm. simpl. by rewrite Hu.
Qed.

Lemma admit_identity_Next cert cfg aic r0 :
  admit_identity cert cfg = Next (aic, r0) ->
  ParseAIC cert = Ok aic /\ AAIC r0 = aic /\ ADecision r0 = DecisionAllow /\
  EffectiveCaps r0 = [] /\ (aic = None -> RequireAIC cfg = false).
Proof.
  unfold admit_identity. destruct (ParseAIC cert) as [[a|]|e]; simpl; intros H; try done.
  - by injection H as <- <-.
  - destruct (RequireAIC cfg); [done|]. by injection H as <- <-.
Qed.

Lemma admit_principal_Next cert cfg r0 r :
  admit_principal cert cfg r0 = Next r ->
  exists pa, ParseUserPermissionExtension cert = Ok pa /\ r = with_PA r0 (APrincipalAuthorization r) /\
    (APrincipalAuthorization r = pa \/
     exists pc pa2, currentPrincipalCert cfg = Some pc /\
       ParseUserPermissionExtension pc = Ok (Some pa2) /\
       VerifyPrincipalKeyHash (Some cert) (Some pc) = None /\
       APrincipalAuthorization r = Some pa2).
Proof.
  unfold admit_principal. destruct (ParseUserPermissionExtension cert) as [pa|]; [|done]. intros H.
  exists pa. split; [done|].
  destruct (currentPrincipalCert cfg) as [pc|];
    [destruct (ParseUserPermissionExtension pc) as [[pa2|]|] eqn:E;
       [destruct (VerifyPrincipalKeyHash (Some cert) (Some pc)) eqn:Ev| |]|];
  (destruct (match pa with None => _ | Some _ => false end); [done|]);
  injection H as <-; (split; [done|]); try (by left); right; eauto 10.
Qed.

Lemma admit_effective_Next aic cfg r1 r :
  admit_effective aic cfg r1 = Next r -> r = with_caps r1 (EffectiveCaps r) \/ r = r1.
Proof.
  unfold admit_effective. intros H. cases_in H; auto.
Qed.

(** What an allowed connection's result says, and the authority it rests on. *)
Lemma CheckAdmission_allow_result clk cert cfg cache r cache' w :
  CheckAdmission clk (Some cert) cfg cache = (r, cache', w) -> ADecision r = DecisionAllow ->
  ParseAIC cert = Ok (AAIC r) /\
  exists r0 r1, APrincipalAuthorization r0 = APrincipalAuthorization r /\
    admit_front clk cert cfg = Next (AAIC r, r0, w) /\
    admit_authority clk cert cfg (AAIC r) r0 = Next r1 /\
    admit_nonce cert (AAIC r) cfg (nonce_now clk) cache = (Next tt, cache') /\
    admit_effective (AAIC r) cfg r1 = Next r /\ OperationDecisions r1 = OperationDecisions r /\
    APrincipalAuthorization r1 = APrincipalAuthorization r.
Proof.
  intros H Hr. destruct (CheckAdmission_allow _ _ _ _ _ _ _ H Hr) as (aic & r0 & r1 & Hf & Ha & Hn & He).
  pose proof Hf as Hf'. apply admit_front_Next in Hf' as (r00 & Hi & _ & Hp & _).
  apply admit_identity_Next in Hi as (Hparse & Haic & _).
  apply admit_principal_Next in Hp as (pa & _ & Hp & _).
  pose proof Ha as Ha'. apply admit_authority_Next in Ha' as (_ & (ods & _ & ->) & _).
  assert (AAIC r0 = aic) as Haic0 by (rewrite Hp; simpl; exact Haic).
  assert (AAIC r = aic /\ APrincipalAuthorization r0 = APrincipalAuthorization r /\
    OperationDecisions (with_decisions r0 ods) = OperationDecisions r) as (E1 & E2 & E3).
  { destruct (admit_effective_Next _ _ _ _ He) as [->| ->]; done. }
  rewrite E1. split; [done|]. exists r0, (with_decisions r0 ods).
  repeat split; try done.
Qed.

Lemma peer_as_principal_Next cert a uc :
  peer_as_principal cert a = Next uc ->
  uc = cert /\ KeyHash (AICPrincipal a) <> [] /\
  KeyHash (AICPrincipal a) = Sum256 (RawSubjectPublicKeyInfo cert).
Proof.
  unfold peer_as_principal. destruct (0 <? zlen _) eqn:E; [|done]. apply zlen_pos_ne in E.
  case_match; [done|]. case_bool_decide; [|done]. simpl. by intros [= <-].
Qed.

(** Where the certificate that verifies a delegation comes from. *)
Definition principal_for (cert : Certificate) (a : AIC) (cfg : AdmissionConfig) (uc : Certificate) : Prop :=
  UserCert cfg = Some uc \/
  (UserCert cfg = None /\ Principal (CfgCredentialBundle cfg) = Some uc /\
   VerifyPrincipalKeyHash (Some cert) (Some uc) = None) \/
  (UserCert cfg = None /\ KeyHash (AICPrincipal a) <> [] /\
   exists resolve, UserCertResolver cfg = Some resolve /\
     resolve (KeyHash (AICPrincipal a)) = Ok (Some uc)) \/
  (UserCert cfg = None /\ uc = cert /\ KeyHash (AICPrincipal a) <> [] /\
   KeyHash (AICPrincipal a) = Sum256 (RawSubjectPublicKeyInfo cert)).

Lemma resolve_user_cert_Next cert a cfg uc :
  resolve_user_cert cert a cfg = Next uc -> principal_for cert a cfg uc.
Proof.
  unfold resolve_user_cert, principal_for. rewrite flow_Next. intros (uc1 & H1 & H).
  rewrite flow_Next in H. destruct H as (uc2 & H2 & H).
  destruct (UserCert cfg) as [u|]; [injection H1 as <-; injection H2 as <-; injection H as <-; by left|].
  right. destruct (Principal (CfgCredentialBundle cfg)) as [p|].
  { destruct (VerifyPrincipalKeyHash _ _) eqn:E; [done|]. injection H1 as <-. injection H2 as <-.
    injection H as <-. by left. }
  injection H1 as <-. right.
  assert (uc2 = None -> uc = cert /\ KeyHash (AICPrincipal a) <> [] /\
    KeyHash (AICPrincipal a) = Sum256 (RawSubjectPublicKeyInfo cert)) as Hpeer.
  { intros ->. by apply peer_as_principal_Next. }
  destruct (UserCertResolver cfg) as [resolve|]; [|injection H2 as <-; right; by split; [|apply Hpeer]].
  destruct (0 <? zlen _) eqn:E; [|injection H2 as <-; right; by split; [|apply Hpeer]].
  apply zlen_pos_ne in E. destruct (resolve _) as [[u|]|] eqn:Er; simplify_eq.
  - left. eauto.
  - right. by split; [|apply Hpeer].
Qed.

Lemma admit_user_auth_Next cert a cfg now :
  admit_user_auth cert (Some a) cfg now = Next tt -> SkipDelegationAuthVerification cfg = false ->
  exists uc, principal_for cert a cfg uc /\
    VerifyDelegationAuthWithAgent (Some a) (Some uc) (Some cert) = None /\
    (CheckDAAge cfg = true -> CheckDAFreshness (DATimestamp (AICDelegation a)) now (DAAgeMax cfg) = None).
Proof.
  unfold admit_user_auth. intros H Hs. rewrite Hs in H.
  destruct (zlen _ =? 0); [done|]. rewrite flow_Next in H. destruct H as (uc & Hu & H).
  rewrite flow_Next in H. destruct H as ([] & Hv & H). apply guard_err_Next in Hv, H.
  exists uc. split; [by apply resolve_user_cert_Next|]. split; [done|]. intros Hc. by rewrite Hc in H.
Qed.

Lemma firstUnknown_None reg cs :
  firstUnknownConstraintReg reg cs = None <->
  Forall (fun c => isConstraintScheme (SchemeId c) = true -> is_Some (reg !! CapabilityId c)) cs.
Proof.
  induction cs as [|c cs IH]; simpl; [split; [constructor|done]|].
  rewrite Forall_cons, <- IH. unfold isKnownConstraintTypeReg, Find.
  destruct (isConstraintScheme (SchemeId c)); simpl.
  - destruct (reg !! CapabilityId c) eqn:E; simpl.
    + split; [|by intros [_ ?]]. intros H. split; [by eexists|done].
    + split; [done|]. intros [H _]. destruct (H eq_refl) as [? ?]. done.
  - split; [|by intros [_ ?]]. intros H. by split; [intros|].
Qed.

(** A constraint list was enforced: every entry passes and, in strict mode, was
    evaluated by a registered evaluator. *)
Definition enforced (cfg : AdmissionConfig) (rd : reading) (cs : list Capability) : Prop :=
  let reg := admissionConstraintRegistry (rd_registry rd) cfg in
  Forall (constraint_passes (rd_env rd) reg (CfgClientIP cfg) (time_Now (rd_env rd))) cs /\
  (StrictConstraints cfg = true -> Forall (fun c => is_Some (reg !! CapabilityId c)) cs).

Lemma enforced_intro cfg rd cs :
  let reg := admissionConstraintRegistry (rd_registry rd) cfg in
  checkConstraintsReg (rd_env rd) reg cs (CfgClientIP cfg) (time_Now (rd_env rd)) = None ->
  (StrictConstraints cfg = true -> firstUnknownConstraintReg reg cs = None) -> enforced cfg rd cs.
Proof.
  intros reg Hc Hs. apply checkConstraintsReg_None in Hc. split; [done|]. intros Ht.
  specialize (Hs Ht). apply firstUnknown_None in Hs. rewrite Forall_forall in *. intros c Hin.
  apply Hs; [done|]. by apply Hc.
Qed.

Lemma admit_pa_constraints_Next cfg rd r pa :
  admit_pa_constraints cfg rd r = Next tt -> APrincipalAuthorization r = Some pa ->
  EnforceConstraints cfg = true -> enforced cfg rd (PAConstraints pa).
Proof.
  unfold admit_pa_constraints. intros H Hpa He. rewrite Hpa, He in H. simpl in H.
  destruct (0 <? zlen _) eqn:E.
  - rewrite flow_Next in H. destruct H as ([] & Hc & H). apply guard_err_Next in Hc.
    apply enforced_intro; [done|]. intros Hs. rewrite Hs in H. by destruct (firstUnknownConstraintReg _ _).
  - destruct (PAConstraints pa); [|done]. split; [constructor|]. intros _. constructor.
Qed.

Lemma admit_aic_constraints_Next cfg rd a w :
  admit_aic_constraints (Some a) cfg rd = Next w ->
  EnforceConstraints cfg = true -> enforced cfg rd (AuthorizationConstraints a).
Proof.
  unfold admit_aic_constraints. intros H He. rewrite He in H. simpl in H.
  destruct (0 <? zlen _) eqn:E.
  - destruct (if StrictConstraints cfg then _ else None) eqn:Es; [done|].
    rewrite flow_Next in H. destruct H as ([] & Hc & H). apply guard_err_Next in Hc.
    apply enforced_intro; [done|]. intros Hs. by rewrite Hs in Es.
  - destruct (AuthorizationConstraints a); [|done]. split; [constructor|]. intros _. constructor.
Qed.

Lemma admit_requirements_Next aic cfg pa :
  admit_requirements aic cfg pa = Next tt ->
  forall req, req ∈ RequiredCapabilities cfg -> aicCapabilityMatches (capability_source aic pa) req = true.
Proof.
  unfold admit_requirements. rewrite flow_Next. intros (_ & _ & H). apply guard_not_Next in H.
  assert (List.filter (fun req => negb (aicCapabilityMatches (capability_source aic pa) req))
            (RequiredCapabilities cfg) = []) as E by (destruct (List.filter _ _); [done|done]).
  intros req Hr. destruct (aicCapabilityMatches _ req) eqn:Em; [done|].
  apply list_elem_of_In in Hr.
  assert (In req []) as []. rewrite <- E. apply filter_In. by rewrite Em.
Qed.
End AdmissionFacts.

(** * Properties *)
Section AdmissionProperties.
  Context {CN : CapabilityNames} {CS : ClcSemantics} {HF : HashFunction} {PM : PkiMethods}
          {DC : DACrypto} {CP : CertificateParser}.

(** C6: no delegated connection is admitted without a verified signature:
    unless verification is switched off, an allowed connection with an AIC has
    a principal certificate (configured, from the credential bundle, resolved
    by the key hash, or the peer's own when the AIC names its key) under which
    the delegation's signature verifies, and its timestamp is fresh when
    freshness is checked. *)
Theorem admitted_delegation_verified clk cert cfg cache r cache' w a
    (H : CheckAdmission clk (Some cert) cfg cache = (r, cache', w)) (Hr : ADecision r = DecisionAllow)
    (Ha : AAIC r = Some a) (Hskip : SkipDelegationAuthVerification cfg = false) :
  ParseAIC cert = Ok (Some a) /\
  exists uc, principal_for cert a cfg uc /\
    VerifyDelegationAuthWithAgent (Some a) (Some uc) (Some cert) = None /\
    (CheckDAAge cfg = true ->
     CheckDAFreshness (DATimestamp (AICDelegation a)) (da_now clk) (DAAgeMax cfg) = None).
Proof.
  destruct (CheckAdmission_allow_result _ _ _ _ _ _ _ H Hr) as (Hp & r0 & r1 & _ & _ & Hauth & _).
  rewrite Ha in *. split; [done|]. apply admit_authority_Next in Hauth as (_ & _ & _ & Hu).
  by apply admit_user_auth_Next.
Qed.

(** C7: with enforcement on, an allowed connection satisfies every constraint of
    its AIC and of the principal authorization it was admitted under, and in
    strict mode each of them was evaluated by a registered evaluator. *)
Theorem admitted_constraints_enforced clk cert cfg cache r cache' w
    (H : CheckAdmission clk (Some cert) cfg cache = (r, cache', w)) (Hr : ADecision r = DecisionAllow)
    (He : EnforceConstraints cfg = true) :
  (forall a, AAIC r = Some a -> enforced cfg (aic_reading clk) (AuthorizationConstraints a)) /\
  (forall pa, APrincipalAuthorization r = Some pa -> enforced cfg (pa_reading clk) (PAConstraints pa)).
Proof.
  destruct (CheckAdmission_allow_result _ _ _ _ _ _ _ H Hr) as (_ & r0 & r1 & Hpa & Hf & _).
  apply admit_front_Next in Hf as (r00 & _ & _ & _ & Hc & Hw). split.
  - intros a Ha. rewrite Ha in Hw. by eapply admit_aic_constraints_Next.
  - intros pa Hpa'. rewrite <- Hpa in Hpa'. by eapply admit_pa_constraints_Next.
Qed.

(** An allowed connection holds every required capability, in its AIC when
    it has one and in the principal's grants otherwise, and every declared
    operation was authorized. *)
Theorem admitted_requirements_met clk cert cfg cache r cache' w
    (H : CheckAdmission clk (Some cert) cfg cache = (r, cache', w)) (Hr : ADecision r = DecisionAllow) :
  (forall req, req ∈ RequiredCapabilities cfg ->
     aicCapabilityMatches (capability_source (AAIC r) (APrincipalAuthorization r)) req = true) /\
  Forall2 (fun op od => exists n,
     operation_passes (AAIC r) (APrincipalAuthorization r) cfg (op_clock clk n) op od)
    (Operations cfg) (OperationDecisions r).
Proof.
  destruct (CheckAdmission_allow_result _ _ _ _ _ _ _ H Hr)
    as (_ & r0 & r1 & Hpa & _ & Hauth & _ & _ & Hod & _).
  apply admit_authority_Next in Hauth as (Hq & (ods & Ho & ->) & _). rewrite Hpa in Hq. split.
  - by apply admit_requirements_Next.
  - apply evaluate_passes in Ho as (new & -> & Hall). rewrite <- Hod, <- Hpa. exact Hall.
Qed.

(** C8: the capabilities an allowed connection is given: in representative mode
    the principal allows the mode and every one is declared by the AIC and
    matched by a grant of the principal; otherwise the AIC's declarations, or
    the principal's grants when there is no AIC, or none. *)
Theorem effective_authority clk cert cfg cache r cache' w
    (H : CheckAdmission clk (Some cert) cfg cache = (r, cache', w)) (Hr : ADecision r = DecisionAllow) :
  match AAIC r, APrincipalAuthorization r with
  | Some a, Some pa =>
      if DelegationMode a =? DelegationRepresentative then
        DisallowRepresentative cfg = false /\ AllowedMode pa = 1 /\
        forall c, c ∈ EffectiveCaps r -> c ∈ Capabilities a /\
          exists g, g ∈ GrantIds pa /\ aicCapabilityMatches [c] g = true
      else EffectiveCaps r = Capabilities a
  | Some a, None => DelegationMode a <> DelegationRepresentative /\ EffectiveCaps r = Capabilities a
  | None, Some pa => EffectiveCaps r = Grants pa
  | None, None => EffectiveCaps r = []
  end.
Proof.
  destruct (CheckAdmission_allow_result _ _ _ _ _ _ _ H Hr)
    as (_ & r0 & r1 & Hpa & Hf & Hauth & _ & He & _ & Hpa1).
  apply admit_authority_Next in Hauth as (_ & (ods & _ & E1) & Hm & _). rewrite Hpa in Hm.
  unfold admit_effective in He. rewrite Hpa1 in He. unfold admit_mode in Hm.
  destruct (AAIC r) as [a|], (APrincipalAuthorization r) as [pa|].
  - destruct (DelegationMode a =? DelegationRepresentative); [|by injection He as <-].
    destruct (DisallowRepresentative cfg); [done|]. apply guard_not_Next in Hm. bools.
    split; [done|]. split; [done|]. intros c Hc.
    cases_in He; try (by apply elem_of_nil in Hc).
    unfold effectiveCapabilities in Hc. apply elem_of_list_filter_bool in Hc as [Hc Hm'].
    apply existsb_exists_elem in Hm' as (g & Hg & ?). split; [done|]. by exists g.
  - destruct (DelegationMode a =? DelegationRepresentative) eqn:E; [by destruct (DisallowRepresentative cfg)|].
    bools. split; [done|]. by injection He as <-.
  - by injection He as <-.
  - injection He as <-. apply admit_front_Next in Hf as (r00 & Hi & _ & Hp & _).
    apply admit_identity_Next in Hi as (_ & _ & _ & Hcaps & _).
    apply admit_principal_Next in Hp as (pa & _ & Hp & _). rewrite E1, Hp. exact Hcaps.
Qed.

(** A permission downgrade takes effect without reissuing the AIC: when the
    current principal certificate (configured or from the bundle) carries an
    authorization and its key is the one the AIC names, an allowed connection
    is decided under that authorization, not the agent certificate's. *)
Theorem current_principal_authoritative clk cert cfg cache r cache' w pc pa2
    (H : CheckAdmission clk (Some cert) cfg cache = (r, cache', w)) (Hr : ADecision r = DecisionAllow)
    (Hpc : currentPrincipalCert cfg = Some pc)
    (Hpa : ParseUserPermissionExtension pc = Ok (Some pa2))
    (Hkey : VerifyPrincipalKeyHash (Some cert) (Some pc) = None) :
  APrincipalAuthorization r = Some pa2.
Proof.
  destruct (CheckAdmission_allow_result _ _ _ _ _ _ _ H Hr) as (_ & r0 & r1 & <- & Hf & _).
  apply admit_front_Next in Hf as (r00 & _ & _ & Hp & _). unfold admit_principal in Hp.
  destruct (ParseUserPermissionExtension cert) as [pa|]; [|done].
  rewrite Hpc, Hpa, Hkey in Hp. destruct (match pa with None => _ | Some _ => false end); [done|].
  by injection Hp as <-.
Qed.

(** A delegation's nonce admits one certificate identity: after an allowed
    admission with a new nonce, for 24 hours and whatever the cache does in
    between, a connection whose AIC carries the same nonce under another
    certificate identity is refused, under any configuration with the cache
    on. *)
Theorem copied_delegation_refused clk1 clk2 c1 c2 cfg1 cfg2 cache r1 cache1 w1 a1 a2 evs
    (H1 : CheckAdmission clk1 (Some c1) cfg1 cache = (r1, cache1, w1))
    (Hr1 : ADecision r1 = DecisionAllow) (Ha1 : AAIC r1 = Some a1)
    (Hn1 : Nonce (AICDelegation a1) <> []) (Hcfg1 : HasNonceCache cfg1 = true)
    (Hnew : cache !! Nonce (AICDelegation a1) = None)
    (Hevs : Forall (fun ev => NonceCache.event_time ev <= nonce_now clk1 + 24 * Hour) evs)
    (Ha2 : ParseAIC c2 = Ok (Some a2)) (Hsame : Nonce (AICDelegation a2) = Nonce (AICDelegation a1))
    (Hcfg2 : HasNonceCache cfg2 = true) (Hother : nonce_scope c2 <> nonce_scope c1) :
  ADecision (fst (fst (CheckAdmission clk2 (Some c2) cfg2 (NonceCache.run cache1 evs)))) <> DecisionAllow.
Proof.
  intros Hallow.
  destruct (CheckAdmission clk2 (Some c2) cfg2 (NonceCache.run cache1 evs)) as [[r2 cache2] w2] eqn:H2.
  simpl in Hallow.
  destruct (CheckAdmission_allow_result _ _ _ _ _ _ _ H1 Hr1) as (_ & ? & ? & _ & _ & _ & Hc1 & _).
  destruct (CheckAdmission_allow_result _ _ _ _ _ _ _ H2 Hallow) as (Hp2 & ? & ? & _ & _ & _ & Hc2 & _).
  rewrite Ha2 in Hp2. injection Hp2 as Hp2. rewrite <- Hp2 in Hc2. rewrite Ha1 in Hc1.
  unfold admit_nonce in Hc1, Hc2. rewrite Hsame in Hc2. apply zlen_pos_ne in Hn1.
  rewrite Hn1, Hcfg1 in Hc1. rewrite Hn1, Hcfg2 in Hc2. simpl in Hc1, Hc2.
  set (n := Nonce (AICDelegation a1)) in *.
  destruct (NonceCache.CheckAndAdd cache _ n _) as [ok1 c1'] eqn:E1. injection Hc1 as Hok1 <-.
  apply guard_not_Next in Hok1. bools. subst ok1.
  destruct (CheckAndAdd_recorded cache (nonce_scope c1) n (nonce_now clk1)) as (t & Ht & Hte);
    [by rewrite E1|].
  rewrite (Hte Hnew), E1 in Ht. simpl in Ht.
  assert (NonceCache.run c1' evs !! n = Some {| NonceCache.scope := nonce_scope c1;
            NonceCache.seen := nonce_now clk1 |}) as Hk by by apply run_keeps.
  pose proof (CheckAndAdd_present _ (nonce_scope c2) n (nonce_now clk2) _ Hk) as Hs.
  destruct (NonceCache.CheckAndAdd (NonceCache.run c1' evs) _ n _) as [ok2 c2']. injection Hc2 as Hok2 _.
  apply guard_not_Next in Hok2. bools. simpl in Hs. subst ok2. symmetry in Hs. bools. congruence.
Qed.

(** The admission does not read [RequireUserAuth]: with the flag set or not
    the decision is the same, so a connection that names its own key as the
    principal's is admitted without any principal certificate either way. *)
Theorem require_user_auth_unread clk cert cfg cache b :
  CheckAdmission clk cert {|
    RequireAIC := RequireAIC cfg; RequiredProtocol := RequiredProtocol cfg;
    RequiredRuleId := RequiredRuleId cfg; RequiredCapabilities := RequiredCapabilities cfg;
    Operations := Operations cfg; UnresolvedEvaluator := UnresolvedEvaluator cfg;
    DischargeObligations := DischargeObligations cfg;
    ObligationsUnderstood := ObligationsUnderstood cfg;
    RequireFreshDecisionContext := RequireFreshDecisionContext cfg;
    CfgDecisionContext := CfgDecisionContext cfg; DisallowRepresentative := DisallowRepresentative cfg;
    RequireUserPermission := RequireUserPermission cfg; RejectOverflow := RejectOverflow cfg;
    RequireUserAuth := b; SkipDelegationAuthVerification := SkipDelegationAuthVerification cfg;
    EnforceCapSizeConstraints := EnforceCapSizeConstraints cfg; HasNonceCache := HasNonceCache cfg;
    EnforceSize32 := EnforceSize32 cfg; UserCert := UserCert cfg;
    UserCertResolver := UserCertResolver cfg; EnforceConstraints := EnforceConstraints cfg;
    StrictConstraints := StrictConstraints cfg; CfgConstraintRegistry := CfgConstraintRegistry cfg;
    CfgClientIP := CfgClientIP cfg; AuditLogger := AuditLogger cfg; CheckDAAge := CheckDAAge cfg;
    DAAgeMax := DAAgeMax cfg; CfgCredentialBundle := CfgCredentialBundle cfg |} cache =
  CheckAdmission clk cert cfg cache.
Proof.
  unfold CheckAdmission. destruct cert as [cert|]; [|done].
  match goal with |- match ?m with _ => _ end = _ => change m with (admit_front clk cert cfg) end.
  destruct (admit_front clk cert cfg) as [|[[a r] w]]; [done|].
  unfold admit_authority. rewrite (evaluate_cfg_ext a r _ cfg) by done. reflexivity.
Qed.
End AdmissionProperties.

(** The capabilities of representative mode are not the intersection of the
    declarations with the grants: a wildcard declaration is effective in full,
    whatever the principal's grants, as soon as there is one. *)
Theorem wildcard_declaration_effective declared grants c
    (Hc : c ∈ declared) (Hw : CapabilityId c = "*") (Hg : grants <> []) :
  c ∈ effectiveCapabilities declared grants.
Proof.
  apply elem_of_list_filter_bool. split; [done|]. destruct grants as [|g grants]; [done|]. simpl.
  by rewrite Hw, MatchCapability_star.
Qed.

Lemma wildcard_declaration_effective_witness :
  toy_cap "db" "*" ∈ effectiveCapabilities [toy_cap "db" "*"] ["fs:read"].
Proof.
  apply wildcard_declaration_effective; [apply list_elem_of_here|reflexivity|discriminate].
Defined.

(** Conversely a declaration that a broader grant covers is dropped. *)
Example narrow_declaration_dropped : effectiveCapabilities [toy_cap "db" "read"] ["db:*"] = [].
Proof. vm_compute. reflexivity. Qed.

(** * Concrete instances

    User 7 delegates to agents 9 and 8, whose certificates carry the same
    delegation; the agents may read and write at night from the internal
    network, and the user holds the read grant only. *)
Section Witnesses.
  #[local] Existing Instance clc_names.
  #[local] Existing Instance toy_semantics.
  #[local] Existing Instance toy_crypto.

Definition adm_methods : PkiMethods := {|
  ValidateAIC := fun _ => None; PrincipalUid_String := Identifier; HashAlgoOID := HashAlgo;
  HasProtocol := fun _ _ => true; CheckPermission := fun _ _ => true;
  GrantIds := fun pa => map FullID (Grants pa);
  IntersectPermissions := fun a pa => map FullID (Grants pa);
  DA_IsPresent := fun da => 0 <? zlen (SignatureValue da) |}.
  #[local] Existing Instance adm_methods.

Definition adm_aic : AIC := {|
  AICVersion := 1; AgentId := "a";
  AICPrincipal := {| Realm := ""; Identifier := "alice"; KeyHash := Sum256 [z_byte 7]; HashAlgo := "" |};
  Capabilities := [toy_cap "db" "read"; toy_cap "db" "write"]; DelegationMode := 1;
  AuthorizationConstraints := [night];
  AICDelegation := {| SignatureAlgorithm := OIDSigECDSAWithSHA256;
    SignatureValue := Sum256 [z_byte 1; z_byte 5] ++ [z_byte 7];
    Nonce := [z_byte 5]; DAReason := ""; RequestedLifetime := 0; DATimestamp := 1 |} |}.
Definition adm_pa : PrincipalAuthorization := {|
  Grants := [toy_cap "db" "read"]; PAConstraints := [constraint "network:cidr" "['10.0.0.0/8']"];
  AllowedMode := 1 |}.
Definition adm_parser : CertificateParser := {|
  ParseAIC := fun c => if bool_decide (SerialNumber c = Some 7) then Ok None else Ok (Some adm_aic);
  ParseUserPermissionExtension := fun c =>
    if bool_decide (SerialNumber c = Some 7) then Ok (Some adm_pa) else Ok None |}.
  #[local] Existing Instance adm_parser.
  #[local] Existing Instance sha256.

Definition adm_config : AdmissionConfig := {|
  RequireAIC := true; RequiredProtocol := ""; RequiredRuleId := ""; RequiredCapabilities := ["db:read"];
  Operations := [op_read]; UnresolvedEvaluator := Some (fun _ u => negb (zlen u =? 0));
  DischargeObligations := false; ObligationsUnderstood := []; RequireFreshDecisionContext := false;
  CfgDecisionContext := None; DisallowRepresentative := false; RequireUserPermission := false;
  RejectOverflow := false; RequireUserAuth := true; SkipDelegationAuthVerification := false;
  EnforceCapSizeConstraints := true; HasNonceCache := true; EnforceSize32 := false;
  UserCert := None; UserCertResolver := None; EnforceConstraints := true; StrictConstraints := true;
  CfgConstraintRegistry := None; CfgClientIP := "10.1.2.3"; AuditLogger := true; CheckDAAge := true;
  DAAgeMax := 0;
  CfgCredentialBundle := Some {| AgentChain := [toy_cert 9]; PrincipalChain := [toy_cert 7]; CACerts := [] |}
|}.
Definition adm_clock : admission_clock :=
  let rd := {| rd_env := sample_env; rd_registry := globalConstraintRegistry_init |} in
  {| pa_reading := rd; aic_reading := rd; op_clock := fun _ => 0; da_now := Second; nonce_now := Second |}.
Definition adm_out := CheckAdmission adm_clock (Some (toy_cert 9)) adm_config ∅.
Definition adm_result : AdmissionResult := adm_out.1.1.

Lemma adm_out_eq : CheckAdmission adm_clock (Some (toy_cert 9)) adm_config ∅ =
  (adm_result, adm_out.1.2, adm_out.2).
Proof. unfold adm_result. fold adm_out. destruct adm_out as [[? ?] ?]. reflexivity. Qed.
Lemma adm_allowed : ADecision adm_result = DecisionAllow.
Proof. vm_compute. reflexivity. Qed.
Lemma adm_result_aic : AAIC adm_result = Some adm_aic.
Proof. vm_compute. reflexivity. Qed.

(** The user has no write grant, so the agent does not get it either. *)
Example adm_effective : EffectiveCaps adm_result = [toy_cap "db" "read"] /\
  map ODVerdict (OperationDecisions adm_result) = [VerdictAllowUR] /\ adm_out.2 = [].
Proof. vm_compute. repeat split; reflexivity. Qed.

Lemma admitted_delegation_verified_witness :
  ParseAIC (toy_cert 9) = Ok (Some adm_aic) /\
  exists uc, principal_for (toy_cert 9) adm_aic adm_config uc /\
    VerifyDelegationAuthWithAgent (Some adm_aic) (Some uc) (Some (toy_cert 9)) = None /\
    (CheckDAAge adm_config = true ->
     CheckDAFreshness (DATimestamp (AICDelegation adm_aic)) (da_now adm_clock) (DAAgeMax adm_config) = None).
Proof.
  exact (admitted_delegation_verified _ _ _ _ _ _ _ _ adm_out_eq adm_allowed adm_result_aic eq_refl).
Defined.

Lemma admitted_constraints_enforced_witness :
  (forall a, AAIC adm_result = Some a -> enforced adm_config (aic_reading adm_clock) (AuthorizationConstraints a)) /\
  (forall pa, APrincipalAuthorization adm_result = Some pa ->
     enforced adm_config (pa_reading adm_clock) (PAConstraints pa)).
Proof. exact (admitted_constraints_enforced _ _ _ _ _ _ _ adm_out_eq adm_allowed eq_refl). Defined.

Lemma admitted_requirements_met_witness :
  aicCapabilityMatches (capability_source (AAIC adm_result) (APrincipalAuthorization adm_result)) "db:read" = true.
Proof.
  exact (proj1 (admitted_requirements_met _ _ _ _ _ _ _ adm_out_eq adm_allowed) _ (list_elem_of_here _ _)).
Defined.

Lemma effective_authority_witness :
  DisallowRepresentative adm_config = false /\ AllowedMode adm_pa = 1 /\
  forall c, c ∈ EffectiveCaps adm_result -> c ∈ Capabilities adm_aic /\
    exists g, g ∈ GrantIds adm_pa /\ aicCapabilityMatches [c] g = true.
Proof.
  pose proof (effective_authority _ _ _ _ _ _ _ adm_out_eq adm_allowed) as H.
  assert (APrincipalAuthorization adm_result = Some adm_pa) as E by (vm_compute; reflexivity).
  rewrite adm_result_aic, E in H. exact H.
Defined.

Lemma current_principal_authoritative_witness : APrincipalAuthorization adm_result = Some adm_pa.
Proof.
  refine (current_principal_authoritative _ _ _ _ _ _ _ (toy_cert 7) adm_pa adm_out_eq adm_allowed
            eq_refl eq_refl _).
  vm_compute. reflexivity.
Defined.

Lemma copied_delegation_refused_witness :
  ADecision (fst (fst (CheckAdmission adm_clock (Some (toy_cert 8)) adm_config
    (NonceCache.run adm_out.1.2 [NonceCache.CleanupKey [z_byte 5] (12 * Hour)])))) <> DecisionAllow.
Proof.
  refine (copied_delegation_refused adm_clock adm_clock (toy_cert 9) (toy_cert 8) adm_config adm_config
    ∅ adm_result adm_out.1.2 adm_out.2 adm_aic adm_aic _ adm_out_eq adm_allowed adm_result_aic
    _ eq_refl _ _ eq_refl eq_refl eq_refl _).
  - discriminate.
  - reflexivity.
  - repeat constructor. vm_compute. congruence.
  - vm_compute. congruence.
Defined.
End Witnesses.
