(* ===== verification/Rbac.v ===== *)
(** Role-based access: the role checks of [src/rbac.go] and the gateway's
    authorization policy of [src/policy.go].

    The files, the PKCS#7 verification and the certificate chain verification
    are the fields of [PolicyEnv]; the global policy is the state that
    [SetAuthorizationPolicy] and [LoadGatewayPolicy] change. *)
From S2P Require Import Prelude GoStrings GoTime GoJson Types Capability.
Local Open Scope string_scope.
Local Open Scope Z_scope.
Local Open Scope list_scope.

(** * Definitions *)

(** [src/rbac.go:RolePrefix] *)
Definition RolePrefix := "gateway:".
(** [src/rbac.go:16-23 RoleWild] *)
Definition RoleWild := "gateway:*".
Definition RoleAdmin := "gateway:admin".

(** [src/rbac.go:ExtractRoles] *)
Definition ExtractRoles (cert : Certificate) : list string :=
  List.filter (fun r => has_prefix r RolePrefix) (map trim_space (OrganizationalUnit cert)).

(** [src/rbac.go:CheckRole] *)
Fixpoint CheckRole (roles allowed : list string) : bool :=
  match roles with
  | [] => false
  | role :: roles' =>
      if String.eqb role RoleWild then true
      else if existsb (fun allow => String.eqb role allow ||
                        (String.eqb allow RoleWild && has_prefix role RolePrefix)) allowed then true
      else CheckRole roles' allowed
  end.

(** [src/rbac.go:OfflineRBAC] *)
Record OfflineRBAC := { rbac_roles : list string }.
(** [src/rbac.go:NewOfflineRBAC] *)
Definition NewOfflineRBAC (roles : list string) : OfflineRBAC := {| rbac_roles := roles |}.
(** [src/rbac.go:NewOfflineRBACFromCert] *)
Definition NewOfflineRBACFromCert (cert : Certificate) : OfflineRBAC := NewOfflineRBAC (ExtractRoles cert).
(** [src/rbac.go:OfflineRBAC.CheckRole] *)
Definition OfflineRBAC_CheckRole (r : OfflineRBAC) (allowed : list string) : bool :=
  CheckRole (rbac_roles r) allowed.

(** [src/rbac.go:PeerCertRoles] of the request's peer certificates ([None]
    without TLS). *)
Definition PeerCertRoles (peers : option (list Certificate)) : list string :=
  match peers with
  | Some (c :: _) => ExtractRoles c
  | _ => []
  end.
(** [src/rbac.go:RequireRoles] *)
Definition RequireRoles (peers : option (list Certificate)) (allowedRoles : list string) : bool :=
  CheckRole (PeerCertRoles peers) allowedRoles.

(** ** The policy *)

(** [src/policy.go:PolicyRole] *)
Record PolicyRole := { RoleDisplayName : string; Profiles : list string; RoleGrantList : list string;
                       Scope : list string }.
(** [src/policy.go:PolicyNamespace] *)
Record PolicyNamespace := { NsDisplayName : string; Prefix : string; NsGrants : list string }.

(** [src/policy.go:AuthorizationPolicy] *)
Record AuthorizationPolicy := {
  Version : string; Roles : gmap string PolicyRole; OUMapping : gmap string string;
  GatewayNamespaces : gmap string PolicyNamespace;
  CapabilityParameters : gmap string (gmap string json)
}.

(** A JSON object decoded into a Go map that may already hold entries. *)
Definition dec_map {A} (dec : json -> result A) (old : gmap string A) (v : json)
  : result (gmap string A) :=
  match v with
  | JNull => Ok ∅
  | JObj ms => foldl (fun acc '(k, x) => m ← acc; a ← dec x; Ok (<[k := a]> m)) (Ok old) ms
  | _ => Err json_type_error
  end.

Definition dec_PolicyRole : json -> result PolicyRole :=
  dec_struct (fun r k v =>
    if field_is "display_name" k then
      s ← dec_string (RoleDisplayName r) v;
      Ok {| RoleDisplayName := s; Profiles := Profiles r; RoleGrantList := RoleGrantList r; Scope := Scope r |}
    else if field_is "profiles" k then
      l ← dec_string_list (Profiles r) v;
      Ok {| RoleDisplayName := RoleDisplayName r; Profiles := l; RoleGrantList := RoleGrantList r; Scope := Scope r |}
    else if field_is "grants" k then
      l ← dec_string_list (RoleGrantList r) v;
      Ok {| RoleDisplayName := RoleDisplayName r; Profiles := Profiles r; RoleGrantList := l; Scope := Scope r |}
    else if field_is "scope" k then
      l ← dec_string_list (Scope r) v;
      Ok {| RoleDisplayName := RoleDisplayName r; Profiles := Profiles r; RoleGrantList := RoleGrantList r; Scope := l |}
    else Ok r) {| RoleDisplayName := ""; Profiles := []; RoleGrantList := []; Scope := [] |}.

Definition dec_PolicyNamespace : json -> result PolicyNamespace :=
  dec_struct (fun r k v =>
    if field_is "display_name" k then
      s ← dec_string (NsDisplayName r) v; Ok {| NsDisplayName := s; Prefix := Prefix r; NsGrants := NsGrants r |}
    else if field_is "prefix" k then
      s ← dec_string (Prefix r) v; Ok {| NsDisplayName := NsDisplayName r; Prefix := s; NsGrants := NsGrants r |}
    else if field_is "grants" k then
      l ← dec_string_list (NsGrants r) v; Ok {| NsDisplayName := NsDisplayName r; Prefix := Prefix r; NsGrants := l |}
    else Ok r) {| NsDisplayName := ""; Prefix := ""; NsGrants := [] |}.

Definition dec_AuthorizationPolicy : json -> result AuthorizationPolicy :=
  dec_struct (fun p k v =>
    let '{| Version := ver; Roles := ro; OUMapping := ou; GatewayNamespaces := ns;
            CapabilityParameters := cp |} := p in
    let mk ver ro ou ns cp := {| Version := ver; Roles := ro; OUMapping := ou;
                                 GatewayNamespaces := ns; CapabilityParameters := cp |} in
    if field_is "version" k then s ← dec_string ver v; Ok (mk s ro ou ns cp)
    else if field_is "roles" k then m ← dec_map dec_PolicyRole ro v; Ok (mk ver m ou ns cp)
    else if field_is "ou_mapping" k then m ← dec_map (dec_string "") ou v; Ok (mk ver ro m ns cp)
    else if field_is "gateway_namespaces" k then m ← dec_map dec_PolicyNamespace ns v; Ok (mk ver ro ou m cp)
    else if field_is "capability_parameters" k then m ← dec_map dec_any_map cp v; Ok (mk ver ro ou ns m)
    else Ok p)
  {| Version := ""; Roles := ∅; OUMapping := ∅; GatewayNamespaces := ∅; CapabilityParameters := ∅ |}.

(** [src/policy.go:ParseAuthorizationPolicy] *)
Definition ParseAuthorizationPolicy (data : string) : result AuthorizationPolicy :=
  match unmarshal dec_AuthorizationPolicy data with
  | Err err => Err (Errorf "policy: parse: %w" [AWrap err])
  | Ok p =>
      if String.eqb (Version p) "" then Err (ErrNew "policy: missing version")
      else if (size (Roles p) =? 0)%nat then Err (ErrNew "policy: no roles defined")
      else Ok p
  end.

(** [src/policy.go:AuthorizationPolicy.HasGrant] *)
Definition HasGrant (p : AuthorizationPolicy) (role capability : string) : bool :=
  match Roles p !! role with
  | None => false
  | Some def => existsb (fun grant => MatchCapability capability grant) (RoleGrantList def)
  end.

(** [src/policy.go:AuthorizationPolicy.RoleGrants] *)
Definition RoleGrants (p : AuthorizationPolicy) (role : string) : list string :=
  match Roles p !! role with None => [] | Some def => RoleGrantList def end.

(** [src/policy.go:AuthorizationPolicy.RoleByOU] *)
Definition RoleByOU (p : AuthorizationPolicy) (ou : string) : string := default "" (OUMapping p !! ou).

(** [src/policy.go:AuthorizationPolicy.ParamDefaults] *)
Definition ParamDefaults (p : option AuthorizationPolicy) (scheme capID : string) : option (gmap string json) :=
  match p with
  | None => None
  | Some p => CapabilityParameters p !! (scheme +:+ ":" +:+ capID)
  end.

(** [src/policy.go:AuthorizationPolicy.HasParamDefault] *)
Definition HasParamDefault (p : option AuthorizationPolicy) (scheme capID param : string) : option json :=
  match ParamDefaults p scheme capID with None => None | Some params => params !! param end.

(** [src/policy.go:246-253 extractPolicyRoles] the mapped roles, each once. *)
Fixpoint mapped_roles (p : AuthorizationPolicy) (ous : list string) (seen : list string) : list string :=
  match ous with
  | [] => []
  | ou :: ous' =>
      let role := RoleByOU p (trim_space ou) in
      if negb (String.eqb role "") && negb (existsb (String.eqb role) seen)
      then role :: mapped_roles p ous' (role :: seen)
      else mapped_roles p ous' seen
  end.
(** [src/policy.go:254-260 extractPolicyRoles] the others, each once. *)
Fixpoint retained_roles (roles : list string) (seen : list string) : list string :=
  match roles with
  | [] => []
  | r :: roles' =>
      if existsb (String.eqb r) seen then retained_roles roles' seen
      else r :: retained_roles roles' (r :: seen)
  end.

(** [src/policy.go:extractPolicyRoles] *)
Definition extractPolicyRoles (cert : Certificate) (policy : option AuthorizationPolicy) : list string :=
  let roles := ExtractRoles cert in
  match policy with
  | None => roles
  | Some p =>
      let result := mapped_roles p (OrganizationalUnit cert) [] in
      result ++ retained_roles roles result
  end.

(** [src/policy.go:ExtractPolicyRoles] under the global policy. *)
Definition ExtractPolicyRoles (global : option AuthorizationPolicy) (cert : Certificate) : list string :=
  extractPolicyRoles cert global.

(** [src/policy.go:AuthorizationPolicy.IntersectGrants] the set of grants is
    ranged over in any order; only whether one matches counts. *)
Definition IntersectGrants (p : AuthorizationPolicy) (roles aicCapIds : list string) : list string :=
  if (zlen roles =? 0) || (zlen aicCapIds =? 0) then []
  else let grantSet := flat_map (RoleGrants p) roles in
       List.filter (fun capID => existsb (fun grant => MatchCapability capID grant) grantSet) aicCapIds.

(** [src/policy.go:IsAdminOU] *)
Definition IsAdminOU (ou : string) : bool := String.eqb ou RoleAdmin || String.eqb ou "admin".
(** [src/policy.go:SignerHasAdminOU] *)
Definition SignerHasAdminOU (cert : Certificate) : bool := existsb IsAdminOU (OrganizationalUnit cert).

(** ** Signed policies *)
Class PolicyEnv := {
  Pool : Type;
  (** [os.ReadFile(filepath.Clean(path))] *)
  ReadFile : string -> result string;
  AppendCertsFromPEM : string -> option Pool;
  VerifyDetached : string -> string -> result Certificate;
  VerifyChain : Certificate -> Pool -> option error
}.

Section Signed.
  Context {PE : PolicyEnv}.

(** [src/policy.go:PolicyVerifyOptions] *)
Record PolicyVerifyOptions := { OptRoots : option Pool; RequireAdminOU : bool }.

(** [src/policy.go:PolicySigningConfig] *)
Record PolicySigningConfig := {
  Enabled : bool; CAFile : string; CfgRequireAdminOU : option bool; Require_ : bool; SigSuffix : string
}.

(** [src/policy.go:LoadCAFromFile] *)
Definition LoadCAFromFile (path : string) : result Pool :=
  data ← ReadFile path;
  match AppendCertsFromPEM data with
  | None => Err (ErrNew "no PEM certs found in CA file")
  | Some pool => Ok pool
  end.

(** [src/policy.go:PolicySigningConfig.BuildPolicyVerifyOptions] *)
Definition BuildPolicyVerifyOptions (ps : option PolicySigningConfig) (tlsClientCA : string)
  : result (option PolicyVerifyOptions) :=
  match ps with
  | None => Ok None
  | Some ps =>
      if negb (Enabled ps) then Ok None
      else
        let caFile := if String.eqb (CAFile ps) "" then tlsClientCA else CAFile ps in
        let admin := default true (CfgRequireAdminOU ps) in
        if String.eqb caFile "" then Ok (Some {| OptRoots := None; RequireAdminOU := admin |})
        else match LoadCAFromFile caFile with
        | Err err => Err (Errorf "policy_signing: load CA %s: %w" [AStr caFile; AWrap err])
        | Ok roots => Ok (Some {| OptRoots := Some roots; RequireAdminOU := admin |})
        end
  end.

(** [src/policy.go:VerifySignedPolicy] *)
Definition VerifySignedPolicy (sigDER policyData : string) (roots : option Pool) (requireAdminOU : bool)
  : result Certificate :=
  cert ← VerifyDetached sigDER policyData;
  if requireAdminOU && negb (SignerHasAdminOU cert) then
    Err (Errorf "signer cert OU missing admin role (subject=%q)" [AStr (Subject cert)])
  else match roots with
  | None => Ok cert
  | Some pool =>
      match VerifyChain cert pool with
      | Some err => Err (Errorf "signer cert chain not trusted: %w" [AWrap err])
      | None => Ok cert
      end
  end.

(** [src/policy.go:LoadAuthorizationPolicy] *)
Definition LoadAuthorizationPolicy (policyPath sigSuffix : string) (opts : option PolicyVerifyOptions)
  : result AuthorizationPolicy :=
  match ReadFile policyPath with
  | Err err => Err (Errorf "policy: read %s: %w" [AStr policyPath; AWrap err])
  | Ok data =>
      match opts with
      | None => ParseAuthorizationPolicy data
      | Some o =>
          let sigPath := policyPath +:+ sigSuffix in
          match ReadFile sigPath with
          | Err err => Err (Errorf "policy: read signature %s: %w" [AStr sigPath; AWrap err])
          | Ok sig =>
              match VerifySignedPolicy sig data (OptRoots o) (RequireAdminOU o) with
              | Err err => Err (Errorf "policy: signature check failed: %w" [AWrap err])
              | Ok _ => ParseAuthorizationPolicy data
              end
          end
      end
  end.

(** [src/policy.go:SetAuthorizationPolicy] *)
Definition SetAuthorizationPolicy (global : option AuthorizationPolicy) (p : option AuthorizationPolicy)
  : option AuthorizationPolicy := p.

(** [src/policy.go:LoadGatewayPolicy] the error and the global policy after. *)
Definition LoadGatewayPolicy (global : option AuthorizationPolicy) (policyPath sigSuffix : string)
    (opts : option PolicyVerifyOptions) (require : bool) : option error * option AuthorizationPolicy :=
  if String.eqb policyPath "" then (None, global)
  else match LoadAuthorizationPolicy policyPath sigSuffix opts with
  | Err err =>
      if require then (Some (Errorf "policy: load %s (require=true): %w" [AStr policyPath; AWrap err]), global)
      else (None, global)
  | Ok p => (None, SetAuthorizationPolicy global (Some p))
  end.
End Signed.

(** * Lemmas *)
Lemma CheckRole_spec roles allowed :
  CheckRole roles allowed = true <->
  exists role, role ∈ roles /\ (role = RoleWild \/ role ∈ allowed \/
    (RoleWild ∈ allowed /\ has_prefix role RolePrefix = true)).
Proof.
  induction roles as [|r roles IH]; simpl; [split; [done|by intros (? & ?%elem_of_nil & _)]|].
  destruct (String.eqb_spec r RoleWild) as [->|Hne].
  { split; [|done]. intros _. exists RoleWild. split; [set_solver|by left]. }
  destruct (existsb _ allowed) eqn:E.
  - split; [|done]. intros _. exists r. split; [set_solver|]. right.
    apply existsb_exists_elem in E as (a & Ha & Hb). bools. destruct Hb as [Hb|Hb]; bools.
    + subst. by left.
    + right. by subst.
  - rewrite existsb_false_elem in E. rewrite IH. split.
    + intros (role & Hr & Hc). exists role. split; [set_solver|done].
    + intros (role & Hr & Hc). apply elem_of_cons in Hr as [->|Hr]; [|by exists role].
      exfalso. destruct Hc as [?|[Hc|[Hc Hp]]]; [done| |]; specialize (E _ Hc).
      * by rewrite String.eqb_refl in E.
      * by rewrite String.eqb_refl, Hp, orb_true_r in E.
Qed.

Lemma retained_spec roles seen r :
  r ∈ retained_roles roles seen <-> r ∈ roles /\ r ∉ seen.
Proof.
  revert seen. induction roles as [|x roles IH]; intros seen; simpl; [set_solver|].
  destruct (existsb (String.eqb x) seen) eqn:E.
  - apply existsb_exists_elem in E as (y & Hy & ->%String.eqb_eq). rewrite IH. set_solver.
  - assert (x ∉ seen) as Hx.
    { intros Hx. rewrite existsb_false_elem in E. specialize (E x Hx). bools. done. }
    rewrite elem_of_cons, IH. destruct (decide (r = x)) as [->|Hne]; set_solver.
Qed.

Lemma mapped_spec p ous seen r :
  r ∈ mapped_roles p ous seen <->
  r <> "" /\ r ∉ seen /\ exists ou, ou ∈ ous /\ RoleByOU p (trim_space ou) = r.
Proof.
  revert seen. induction ous as [|ou ous IH]; intros seen; simpl; [set_solver|].
  destruct (String.eqb_spec (RoleByOU p (trim_space ou)) "") as [E|E]; simpl.
  { rewrite IH. split.
    - intros (? & ? & o & ? & ?). split; [done|]. split; [done|]. exists o. set_solver.
    - intros (? & ? & o & Ho & ?). split; [done|]. split; [done|].
      apply elem_of_cons in Ho as [->|Ho]; [congruence|]. by exists o. }
  destruct (existsb _ seen) eqn:Es; simpl.
  - apply existsb_exists_elem in Es as (y & Hy & Hyx%String.eqb_eq). rewrite IH. split.
    + intros (? & ? & o & ? & ?). split; [done|]. split; [done|]. exists o. set_solver.
    + intros (? & ? & o & Ho & ?). split; [done|]. split; [done|].
      apply elem_of_cons in Ho as [->|Ho]; [congruence|]. by exists o.
  - assert (RoleByOU p (trim_space ou) ∉ seen) as Hx.
    { intros Hx. rewrite existsb_false_elem in Es. specialize (Es _ Hx). bools. done. }
    rewrite elem_of_cons, IH. split.
    + intros [->|(? & ? & o & ? & ?)]; [|split; [done|]; split; [set_solver|]; exists o; set_solver].
      split; [done|]. split; [done|]. exists ou. set_solver.
    + intros (? & ? & o & Ho & ?). apply elem_of_cons in Ho as [->|Ho]; [by left|].
      destruct (decide (r = RoleByOU p (trim_space ou))) as [->|Hne]; [by left|]. right.
      split; [done|]. split; [set_solver|]. by exists o.
Qed.

Lemma retained_nodup roles seen : NoDup (retained_roles roles seen).
Proof.
  revert seen. induction roles as [|x roles IH]; intros seen; simpl; [constructor|].
  destruct (existsb _ seen); [done|]. constructor; [|done]. rewrite retained_spec. set_solver.
Qed.
Lemma mapped_nodup p ous seen : NoDup (mapped_roles p ous seen).
Proof.
  revert seen. induction ous as [|x ous IH]; intros seen; simpl; [constructor|].
  destruct (negb _ && negb _); [|done]. constructor; [|done]. rewrite mapped_spec. set_solver.
Qed.

(** * Properties *)

(** The role check passes exactly when some role of the peer is the wildcard
    role, is listed, or is a gateway role while the list holds the wildcard. *)
Theorem role_check_iff roles allowed :
  CheckRole roles allowed = true <->
  exists role, role ∈ roles /\ (role = "gateway:*" \/ role ∈ allowed \/
    ("gateway:*" ∈ allowed /\ exists t, role = ("gateway:" +:+ t)%string)).
Proof.
  rewrite CheckRole_spec. unfold RoleWild, RolePrefix. by setoid_rewrite has_prefix_spec.
Qed.

(** Under a policy the roles of a certificate are, each once, the roles its
    trimmed organizational units map to and its own gateway units. *)
Theorem policy_roles_spec cert p :
  NoDup (extractPolicyRoles cert (Some p)) /\
  forall r, r ∈ extractPolicyRoles cert (Some p) <->
    (r <> "" /\ exists ou, ou ∈ OrganizationalUnit cert /\ OUMapping p !! trim_space ou = Some r) \/
    r ∈ ExtractRoles cert.
Proof.
  unfold extractPolicyRoles. set (m := mapped_roles p (OrganizationalUnit cert) []). split.
  - apply NoDup_app. split; [apply mapped_nodup|]. split; [|apply retained_nodup].
    intros r Hr. rewrite retained_spec. by intros [_ ?].
  - intros r. rewrite elem_of_app, retained_spec. unfold m at 1. rewrite mapped_spec.
    assert (forall ou, r <> "" -> RoleByOU p (trim_space ou) = r <-> OUMapping p !! trim_space ou = Some r) as G.
    { intros ou Hne. unfold RoleByOU. destruct (OUMapping p !! trim_space ou); simpl; split; congruence. }
    split.
    + intros [(Hne & _ & ou & Ho & Hr)|[? _]]; [left|by right]. split; [done|]. exists ou.
      split; [done|]. by apply G.
    + intros [(Hne & ou & Ho & Hr)|Hr].
      * left. split; [done|]. split; [set_solver|]. exists ou. split; [done|]. by apply G.
      * destruct (decide (r ∈ m)) as [Hm|Hm]; [left; unfold m in Hm; by apply mapped_spec in Hm|by right].
Qed.

(** The intersection of capabilities with the grants of roles keeps, in
    order, exactly the capabilities that a grant of one of the roles matches. *)
Theorem intersect_grants_spec p roles caps :
  IntersectGrants p roles caps =
  List.filter (fun c => existsb (fun role => HasGrant p role c) roles) caps.
Proof.
  unfold IntersectGrants.
  assert (forall c, existsb (fun g => MatchCapability c g) (flat_map (RoleGrants p) roles) =
    existsb (fun role => HasGrant p role c) roles) as G.
  { intros c. induction roles as [|r roles IH]; simpl; [done|]. rewrite existsb_app, IH. f_equal.
    unfold RoleGrants, HasGrant. by destruct (Roles p !! r). }
  rewrite (filter_ext _ _ G).
  destruct (zlen roles =? 0) eqn:E1; simpl.
  { apply zlen_eqb_nil in E1 as ->. simpl. by induction caps. }
  destruct (zlen caps =? 0) eqn:E2; [|done]. by apply zlen_eqb_nil in E2 as ->.
Qed.

Section SignedProperties.
  Context {PE : PolicyEnv}.

Lemma VerifySignedPolicy_Ok sig data roots admin cert :
  VerifySignedPolicy sig data roots admin = Ok cert <->
  VerifyDetached sig data = Ok cert /\ (admin = true -> SignerHasAdminOU cert = true) /\
  (forall pool, roots = Some pool -> VerifyChain cert pool = None).
Proof.
  unfold VerifySignedPolicy. rewrite bind_Ok. split.
  - intros (c & Hd & H). destruct (admin && negb (SignerHasAdminOU c)) eqn:E; [done|].
    assert (admin = true -> SignerHasAdminOU c = true) as Ha.
    { intros ->. simpl in E. by bools. }
    destruct roots as [pool|].
    + destruct (VerifyChain c pool) eqn:Ev; [done|]. injection H as <-.
      repeat split; try done. by intros ? [= <-].
    + injection H as <-. by repeat split.
  - intros (Hd & Ha & Hr). exists cert. split; [done|].
    assert (admin && negb (SignerHasAdminOU cert) = false) as ->.
    { destruct admin; [|done]. by rewrite Ha. }
    destruct roots as [pool|]; [|done]. by rewrite (Hr pool eq_refl).
Qed.

(** A policy whose bytes were signed as the options ask. *)
Definition signed_policy (path suffix : string) (o : PolicyVerifyOptions) (p : AuthorizationPolicy) : Prop :=
  exists data sig signer, ReadFile path = Ok data /\ ReadFile (path +:+ suffix) = Ok sig /\
    VerifyDetached sig data = Ok signer /\
    (RequireAdminOU o = true -> SignerHasAdminOU signer = true) /\
    (forall pool, OptRoots o = Some pool -> VerifyChain signer pool = None) /\
    ParseAuthorizationPolicy data = Ok p.

(** With signature verification on, the global policy changes only to the
    parse of exactly the bytes a detached signature covers, by a signer with an
    admin unit when one is required, chained to the configured roots when there
    are any; every failure keeps the policy in force, and is reported exactly
    when the policy is required. *)
Theorem gateway_policy_signed global path suffix o require err global'
    (H : LoadGatewayPolicy global path suffix (Some o) require = (err, global')) :
  (global' = global /\ (err <> None -> require = true)) \/
  exists p, global' = Some p /\ err = None /\ signed_policy path suffix o p.
Proof.
  unfold LoadGatewayPolicy in H. destruct (String.eqb path ""); [injection H as <- <-; by left|].
  destruct (LoadAuthorizationPolicy path suffix (Some o)) as [p|e] eqn:E.
  - injection H as <- <-. right. unfold LoadAuthorizationPolicy in E.
    destruct (ReadFile path) as [data|] eqn:Ed; [|done].
    destruct (ReadFile (path +:+ suffix)) as [sig|] eqn:Es; [|done].
    destruct (VerifySignedPolicy _ _ _ _) as [signer|] eqn:Ev; [|done].
    apply VerifySignedPolicy_Ok in Ev as (Hd & Ha & Hr). exists p. split; [done|]. split; [done|].
    by exists data, sig, signer.
  - destruct require; injection H as <- <-; left; split; done.
Qed.
End SignedProperties.

(** * Concrete instance *)
Definition policy_signer : Certificate := {|
  SerialNumber := Some 1; CommonName := "ops"; Organization := []; OrganizationalUnit := ["admin"]; Issuer := "ca";
  IssuerCN := "ca"; NotBefore := 0; NotAfter := 0; RawSubjectPublicKeyInfo := [];
  CertPublicKey := None; Raw := []; Subject := "CN=ops"; RawIssuer := []; RawSubject := [];
  URIs := []; Extensions := [] |}.
Definition policy_text : string :=
  dq "{'version':'1','roles':{'dba':{'display_name':'DBA','grants':['db:*']}},'ou_mapping':{'Data':'dba'}}".
Definition toy_policy_env : PolicyEnv := {|
  Pool := unit;
  ReadFile := fun p => if String.eqb p "authz.json" then Ok policy_text
                       else if String.eqb p "authz.json.sig" then Ok "sig"
                       else Err (ErrNew "os.ErrNotExist");
  AppendCertsFromPEM := fun _ => Some tt;
  VerifyDetached := fun sig data => if String.eqb sig "sig" && String.eqb data policy_text
                                    then Ok policy_signer else Err (ErrNew "pkcs7");
  VerifyChain := fun _ _ => None |}.

Section Witness.
  #[local] Existing Instance toy_policy_env.

Example policy_grants :
  match ParseAuthorizationPolicy policy_text with
  | Ok p => HasGrant p "dba" "db:read" = true /\ RoleByOU p "Data" = "dba" /\
            IntersectGrants p ["dba"] ["db:read"; "fs:read"] = ["db:read"]
  | Err _ => False
  end.
Proof. vm_compute. repeat split; reflexivity. Qed.

Lemma gateway_policy_signed_witness :
  let o := {| OptRoots := Some tt; RequireAdminOU := true |} in
  let out := LoadGatewayPolicy None "authz.json" ".sig" (Some o) true in
  (out.2 = None /\ (out.1 <> None -> true = true)) \/
  exists p, out.2 = Some p /\ out.1 = None /\ signed_policy "authz.json" ".sig" o p.
Proof.
  intros o out. apply (gateway_policy_signed None "authz.json" ".sig" o true out.1 out.2).
  apply surjective_pairing.
Defined.
End Witness.

(** Without configured roots the chain of the signer is not verified: any
    signature that verifies under a certificate naming an admin unit installs
    its policy, whatever issued that certificate. *)
Theorem rootless_policy_accepts_any_issuer (PE : PolicyEnv) global path suffix data sig signer p require
    (Hpath : path <> "") (Hdata : ReadFile path = Ok data) (Hsig : ReadFile (path +:+ suffix) = Ok sig)
    (Hv : VerifyDetached sig data = Ok signer) (Hou : "admin" ∈ OrganizationalUnit signer)
    (Hp : ParseAuthorizationPolicy data = Ok p) :
  forall o, BuildPolicyVerifyOptions (Some {| Enabled := true; CAFile := ""; CfgRequireAdminOU := None;
              Require_ := require; SigSuffix := suffix |}) "" = Ok (Some o) ->
  LoadGatewayPolicy global path suffix (Some o) require = (None, Some p).
Proof.
  intros o [= <-]. unfold LoadGatewayPolicy, LoadAuthorizationPolicy.
  rewrite (proj2 (String.eqb_neq _ _) Hpath), Hdata, Hsig. cbn [OptRoots RequireAdminOU default].
  assert (VerifySignedPolicy sig data None true = Ok signer) as ->; [|by rewrite Hp].
  apply VerifySignedPolicy_Ok. repeat split; [done| |done]. intros _.
  apply existsb_exists_elem. exists "admin". split; [done|]. reflexivity.
Qed.

Lemma rootless_policy_accepts_any_issuer_witness :
  exists p, LoadGatewayPolicy (PE := toy_policy_env) None "authz.json" ".sig"
    (Some {| OptRoots := None; RequireAdminOU := true |}) true = (None, Some p).
Proof.
  destruct (ParseAuthorizationPolicy policy_text) as [p|e] eqn:E; [|vm_compute in E; discriminate].
  exists p.
  refine (rootless_policy_accepts_any_issuer toy_policy_env None "authz.json" ".sig" policy_text
    "sig" policy_signer p true _ _ _ _ _ E _ _).
  - discriminate.
  - reflexivity.
  - reflexivity.
  - vm_compute. reflexivity.
  - apply list_elem_of_here.
  - reflexivity.
Defined.
