(* ===== verification/Risk.v ===== *)
(** The risk monitor of [src/riskmonitor.go]: per-agent violation counts and the
    rules that trigger an enforcement action.

    The monitor runs under its mutex, so each method is one step on its state;
    a nil monitor is [None]; the details of a violation are a formatted text.
    [strings.EqualFold] (Unicode simple folding) is the parameter [EqualFold];
    the clock is an argument. *)
From S2P Require Import Prelude GoStrings GoTime.
From Stdlib Require Import Sorted.
Local Open Scope string_scope.
Local Open Scope Z_scope.
Local Open Scope list_scope.

(** * Definitions *)

(** [src/riskmonitor.go:RiskViolation] *)
Record RiskViolation := { VAgentId : string; Signal : string; VCapabilityId : string; Details : error; At : Z }.

(** [src/riskmonitor.go:RiskRule] *)
Record RiskRule := {
  RuleName : string; Signals : list string; Threshold : Z; WindowSeconds : Z; Action : string;
  RuleReason : string
}.

(** [src/riskmonitor.go:RiskMonitor] the rules and each agent's violations; the
    callback's calls are the output of a step. *)
Record RiskMonitor := { rules : list RiskRule; violations : gmap string (list RiskViolation) }.

(** [src/riskmonitor.go:NewRiskMonitor] *)
Definition NewRiskMonitor (rs : list RiskRule) : RiskMonitor := {| rules := rs; violations := ∅ |}.

(** [src/riskmonitor.go:RiskMonitor.Rules] *)
Definition Rules (m : option RiskMonitor) : list RiskRule :=
  match m with None => [] | Some m => rules m end.

(** [src/riskmonitor.go:RiskMonitor.SetRules] *)
Definition SetRules (m : option RiskMonitor) (rs : list RiskRule) : option RiskMonitor :=
  match m with None => None | Some _ => Some {| rules := rs; violations := ∅ |} end.

(** [src/riskmonitor.go:RiskMonitor.Violations] *)
Definition Violations (m : option RiskMonitor) (agentId : string) : Z :=
  match m with None => 0 | Some m => zlen (default [] (violations m !! agentId)) end.

Section Monitor.
  Context (EqualFold : string -> string -> bool).

(** [src/riskmonitor.go:signalIn] *)
Definition signalIn (l : list string) (sig : string) : bool :=
  existsb (fun s => String.eqb s "*" || EqualFold s sig) l.

Definition rule_window (rule : RiskRule) : Z := if WindowSeconds rule <=? 0 then 60 else WindowSeconds rule.
Definition rule_threshold (rule : RiskRule) : Z := if Threshold rule <=? 0 then 1 else Threshold rule.
Definition rule_action (rule : RiskRule) : string :=
  if String.eqb (Action rule) "" then "disconnect" else Action rule.

(** [src/riskmonitor.go:137-146 RecordViolation] the violations a rule keeps. *)
Definition in_window (now : Z) (rule : RiskRule) (vs : list RiskViolation) : list RiskViolation :=
  List.filter (fun viol => negb (rule_window rule <? wrap64 (now - At viol))) vs.

(** [src/riskmonitor.go:127-166 RecordViolation] the rules in order, each
    dropping the violations outside its own window for the ones after it: the
    violations left, or the rule that fired. *)
Fixpoint run_rules (now : Z) (rs : list RiskRule) (vs : list RiskViolation)
  : RiskRule + list RiskViolation :=
  match rs with
  | [] => inr vs
  | rule :: rs' =>
      let kept := in_window now rule vs in
      let matched := existsb (fun viol => signalIn (Signals rule) (Signal viol)) kept in
      let count := if matched then zlen kept else 0 in
      if matched && (rule_threshold rule <=? count) then inl rule else run_rules now rs' kept
  end.

(** [src/riskmonitor.go:RiskMonitor.RecordViolation] the call of [onAction] if
    any, and the monitor after; the returned bool is whether there is one. *)
Definition RecordViolation (m : option RiskMonitor) (v : RiskViolation) (clock : Z)
  : option (string * string * string) * option RiskMonitor :=
  match m with
  | None => (None, None)
  | Some m =>
      if zlen (rules m) =? 0 then (None, Some m)
      else
        let now := if At v =? 0 then clock else At v in
        let v := {| VAgentId := VAgentId v; Signal := Signal v; VCapabilityId := VCapabilityId v;
                    Details := Details v; At := now |} in
        let vs := default [] (violations m !! VAgentId v) ++ [v] in
        match run_rules now (rules m) vs with
        | inl rule => (Some (VAgentId v, rule_action rule, RuleReason rule),
                       Some {| rules := rules m; violations := delete (VAgentId v) (violations m) |})
        | inr kept => (None, Some {| rules := rules m;
                                     violations := <[VAgentId v := kept]> (violations m) |})
        end
  end.
End Monitor.

(** * Lemmas *)
Section Facts.
  Context (EqualFold : string -> string -> bool).

(** A rule's own condition: enough violations in its window, one of its signals
    among them. *)
Definition rule_holds (now : Z) (rule : RiskRule) (vs : list RiskViolation) : bool :=
  existsb (fun viol => signalIn EqualFold (Signals rule) (Signal viol)) (in_window now rule vs) &&
  (rule_threshold rule <=? zlen (in_window now rule vs)).

Lemma run_rules_inl now rs vs rule :
  run_rules EqualFold now rs vs = inl rule ->
  exists vs', rule ∈ rs /\ (forall v, v ∈ vs' -> v ∈ vs) /\ rule_holds now rule vs' = true.
Proof.
  revert vs. induction rs as [|r rs IH]; intros vs; simpl; [done|].
  destruct (existsb _ (in_window now r vs)) eqn:Em; simpl;
    [destruct (rule_threshold r <=? zlen (in_window now r vs)) eqn:Et|].
  - intros [= <-]. exists vs. split; [set_solver|]. split; [done|]. unfold rule_holds. by rewrite Em, Et.
  - intros H. apply IH in H as (vs' & Hr & Hs & Hh). exists vs'. split; [set_solver|]. split; [|done].
    intros v Hv. apply Hs in Hv. unfold in_window in Hv. apply list_elem_of_In, filter_In in Hv as [Hv _].
    by apply list_elem_of_In.
  - intros H. apply IH in H as (vs' & Hr & Hs & Hh). exists vs'. split; [set_solver|]. split; [|done].
    intros v Hv. apply Hs in Hv. unfold in_window in Hv. apply list_elem_of_In, filter_In in Hv as [Hv _].
    by apply list_elem_of_In.
Qed.

(** Windows listed in increasing order do not starve: what an earlier rule
    keeps includes what a rule with a smaller window would. *)
Lemma in_window_mono now r r' vs :
  rule_window r' <= rule_window r -> in_window now r' (in_window now r vs) = in_window now r' vs.
Proof.
  intros H. unfold in_window. induction vs as [|v vs IH]; simpl; [done|].
  destruct (rule_window r <? _) eqn:E1; simpl.
  - destruct (rule_window r' <? wrap64 (now - At v)) eqn:E2; simpl; [done|]. bools. lia.
  - destruct (rule_window r' <? wrap64 (now - At v)); simpl; [done|]. by rewrite IH.
Qed.
Lemma rule_holds_mono now r r' vs :
  rule_window r' <= rule_window r -> rule_holds now r' (in_window now r vs) = rule_holds now r' vs.
Proof. intros H. unfold rule_holds. by rewrite in_window_mono. Qed.

Definition decreasing_windows : list RiskRule -> Prop :=
  StronglySorted (fun r r' => rule_window r' <= rule_window r).

Lemma run_rules_decreasing now rs vs :
  decreasing_windows rs ->
  match run_rules EqualFold now rs vs with
  | inl rule => exists rs1 rs2, rs = rs1 ++ rule :: rs2 /\ rule_holds now rule vs = true /\
      Forall (fun r => rule_holds now r vs = false) rs1
  | inr _ => Forall (fun r => rule_holds now r vs = false) rs
  end.
Proof.
  intros H. revert vs. induction H as [|r rs Hs IH Hr]; intros vs; [constructor|]. cbn [run_rules].
  assert (existsb (fun viol => signalIn EqualFold (Signals r) (Signal viol)) (in_window now r vs) &&
    (rule_threshold r <=? (if existsb (fun viol => signalIn EqualFold (Signals r) (Signal viol))
       (in_window now r vs) then zlen (in_window now r vs) else 0)) = rule_holds now r vs) as ->
    by (unfold rule_holds; by destruct (existsb _ _)).
  destruct (rule_holds now r vs) eqn:E; [by exists [], rs|].
  specialize (IH (in_window now r vs)).
  assert (forall r', r' ∈ rs -> rule_holds now r' (in_window now r vs) = rule_holds now r' vs) as G.
  { intros r' Hr'. apply rule_holds_mono. rewrite Forall_forall in Hr. by apply Hr. }
  destruct (run_rules EqualFold now rs _) as [rule|kept].
  - destruct IH as (rs1 & rs2 & -> & Hh & Hf). exists (r :: rs1), rs2. split; [done|].
    rewrite <- G by set_solver. split; [done|]. constructor; [done|].
    rewrite Forall_forall in *. intros x Hx. rewrite <- G by set_solver. by apply Hf.
  - constructor; [done|]. rewrite Forall_forall in *. intros x Hx. rewrite <- G by done. by apply IH.
Qed.

Lemma RecordViolation_others m v clock out m' a :
  RecordViolation EqualFold (Some m) v clock = (out, Some m') -> a <> VAgentId v ->
  violations m' !! a = violations m !! a.
Proof.
  unfold RecordViolation. intros H Ha. destruct (zlen _ =? 0); [by injection H as _ <-|].
  destruct (run_rules _ _ _ _); injection H as _ <-; simpl.
  - by apply lookup_delete_ne.
  - by apply lookup_insert_ne.
Qed.

(** * Properties *)

(** With rules listed from the longest window to the shortest, recording a
    violation triggers the first rule that has, among the agent's recorded
    violations within the rule's window, one of its signals and at least its
    threshold of violations, and none otherwise; an action clears the agent's
    count, and no other agent's record changes. *)
Theorem risk_action_first_rule m v clock out m'
    (H : RecordViolation EqualFold (Some m) v clock = (out, Some m')) (Hrules : rules m <> [])
    (Hdec : decreasing_windows (rules m)) :
  let now := if At v =? 0 then clock else At v in
  let vs := default [] (violations m !! VAgentId v) ++
            [{| VAgentId := VAgentId v; Signal := Signal v; VCapabilityId := VCapabilityId v;
                Details := Details v; At := now |}] in
  (forall a, a <> VAgentId v -> violations m' !! a = violations m !! a) /\
  match out with
  | Some (agent, action, reason) =>
      exists rs1 rule rs2, rules m = rs1 ++ rule :: rs2 /\ rule_holds now rule vs = true /\
        Forall (fun r => rule_holds now r vs = false) rs1 /\
        agent = VAgentId v /\ action = rule_action rule /\ reason = RuleReason rule /\
        violations m' !! VAgentId v = None
  | None => Forall (fun r => rule_holds now r vs = false) (rules m)
  end.
Proof.
  intros now vs. split; [intros a; by eapply RecordViolation_others|].
  unfold RecordViolation in H. destruct (zlen (rules m) =? 0) eqn:E; [by apply zlen_eqb_nil in E|].
  pose proof (run_rules_decreasing now (rules m) vs Hdec) as Hr.
  fold now in H. cbn [VAgentId] in H. fold vs in H.
  destruct (run_rules EqualFold now (rules m) vs) as [rule|kept]; injection H as <- <-; [|done].
  destruct Hr as (rs1 & rs2 & ? & ? & ?). exists rs1, rule, rs2. repeat split; try done.
  simpl. apply lookup_delete_eq.
Qed.
End Facts.

Lemma run_rules_kept EqualFold now rs vs kept :
  run_rules EqualFold now rs vs = inr kept ->
  forall v, v ∈ kept <-> v ∈ vs /\ Forall (fun r => wrap64 (now - At v) <= rule_window r) rs.
Proof.
  revert vs. induction rs as [|r rs IH]; intros vs; cbn [run_rules].
  { intros [= <-] v. split; [done|by intros [? _]]. }
  destruct (_ && _); [done|]. intros H v. rewrite (IH _ H v). unfold in_window.
  rewrite list_elem_of_In, filter_In, <- list_elem_of_In, Forall_cons. rewrite negb_true_iff, Z.ltb_ge. tauto.
Qed.

(** A call that triggers nothing keeps of the agent's record only the
    violations inside every rule's window, so the shortest window bounds what
    any rule can count later. *)
Theorem risk_retention_shortest_window EqualFold m v clock m'
    (H : RecordViolation EqualFold (Some m) v clock = (None, Some m')) (Hrules : rules m <> []) :
  let now := if At v =? 0 then clock else At v in
  forall x, x ∈ default [] (violations m' !! VAgentId v) ->
    Forall (fun r => wrap64 (now - At x) <= rule_window r) (rules m).
Proof.
  intros now x Hx. unfold RecordViolation in H.
  destruct (zlen (rules m) =? 0) eqn:E; [by apply zlen_eqb_nil in E|].
  destruct (run_rules _ _ _ _) as [|kept] eqn:Er; [done|]. injection H as <-. simpl in Hx.
  rewrite lookup_insert_eq in Hx. simpl in Hx. by eapply run_rules_kept in Hx as [_ ?].
Qed.

(** A rule with a longer window is starved by one with a shorter window, in
    either order: three violations in a minute revoke the agent under the long
    rule alone and never do once a ten-second rule is configured beside it. *)
Theorem risk_rule_starved :
  let short := {| RuleName := "burst"; Signals := ["x"]; Threshold := 100; WindowSeconds := 10;
                  Action := "disconnect"; RuleReason := "burst" |} in
  let long := {| RuleName := "slow"; Signals := ["x"]; Threshold := 3; WindowSeconds := 3600;
                 Action := "revoke"; RuleReason := "slow" |} in
  let viol t := {| VAgentId := "a"; Signal := "x"; VCapabilityId := ""; Details := Errorf "" []; At := t |} in
  let feed rs := fst (foldl (fun '(outs, m) t =>
      let '(o, m') := RecordViolation String.eqb m (viol t) 0 in (outs ++ [o], m'))
    ([], Some (NewRiskMonitor rs)) [1000; 1020; 1040; 1060; 1080]) in
  feed [long] = [None; None; Some ("a", "revoke", "slow"); None; None] /\
  feed [short; long] = [None; None; None; None; None] /\
  feed [long; short] = [None; None; None; None; None].
Proof. vm_compute. repeat split; reflexivity. Qed.

Lemma risk_action_first_rule_witness :
  let r := {| RuleName := "burst"; Signals := ["x"]; Threshold := 1; WindowSeconds := 10;
              Action := ""; RuleReason := "burst" |} in
  let m := NewRiskMonitor [r] in
  let v := {| VAgentId := "a"; Signal := "x"; VCapabilityId := ""; Details := Errorf "" []; At := 5 |} in
  exists m', RecordViolation String.eqb (Some m) v 0 = (Some ("a", "disconnect", "burst"), Some m') /\
    forall a, a <> "a" -> violations m' !! a = violations m !! a.
Proof.
  intros r m v. eexists. split; [reflexivity|].
  refine (proj1 (risk_action_first_rule String.eqb m v 0 (Some ("a", "disconnect", "burst")) _ _ _ _)).
  - reflexivity.
  - discriminate.
  - repeat constructor.
Defined.

Lemma risk_retention_shortest_window_witness :
  let r := {| RuleName := "burst"; Signals := ["x"]; Threshold := 2; WindowSeconds := 10;
              Action := ""; RuleReason := "burst" |} in
  let m := NewRiskMonitor [r] in
  let v := {| VAgentId := "a"; Signal := "x"; VCapabilityId := ""; Details := Errorf "" []; At := 5 |} in
  exists m', RecordViolation String.eqb (Some m) v 0 = (None, Some m') /\
    forall x, x ∈ default [] (violations m' !! "a") ->
      Forall (fun r => wrap64 (5 - At x) <= rule_window r) [r].
Proof.
  intros r m v. eexists. split; [reflexivity|].
  refine (risk_retention_shortest_window String.eqb m v 0 _ _ _); [reflexivity | discriminate].
Defined.
