(* ===== verification/Mask.v ===== *)
(** Masking of sensitive values before they are logged or shown
    ([src/mask.go]).  Strings are byte strings, as in Go; [MaskCertSerial] and
    [SanitizeString] go through them rune by rune. *)
From S2P Require Import Prelude GoStrings.
From Stdlib Require Import Ascii.
Local Open Scope char_scope.
Local Open Scope string_scope.
Local Open Scope Z_scope.
Local Open Scope list_scope.

(** * Definitions *)
(** [src/mask.go:DefaultMaskRune] *)
Definition DefaultMaskRune : ascii := "*".
Definition stars (n : nat) : string := repeat_byte DefaultMaskRune n.

(** [src/mask.go:MaskString] *)
Definition MaskString (s : string) (visible : Z) : string :=
  if String.eqb s "" || (visible <? 0) then s
  else if slen s <=? visible then s
  else let n := (String.length s - Z.to_nat visible)%nat in stars n +:+ sdrop n s.

(** [strings.ReplaceAll(s, ":", "")] *)
Fixpoint remove_byte (c : ascii) (s : string) : string :=
  match s with
  | EmptyString => EmptyString
  | String d s' => if Ascii.eqb d c then remove_byte c s' else String d (remove_byte c s')
  end.

(** [src/mask.go:37-43 MaskCertSerial] a colon before each rune at an even
    positive byte index. *)
Fixpoint insert_colons (fuel : nat) (i : Z) (s : string) : string :=
  match fuel, s with
  | O, _ | _, EmptyString => ""
  | S f, _ =>
      let '(r, w) := decode_rune s in
      (if (0 <? i) && (i mod 2 =? 0) then ":" else "") +:+ encode_rune r +:+
      insert_colons f (i + Z.of_nat w) (sdrop w s)
  end.
(** [src/mask.go:MaskCertSerial] *)
Definition MaskCertSerial (serial : string) : string :=
  let clean := remove_byte ":" serial in
  if String.eqb clean "" then serial
  else let masked := MaskString clean 4 in insert_colons (String.length masked) 0 masked.

(** [strings.LastIndexAny]: the index of the last byte of [s] in a set. *)
Fixpoint last_index (p : ascii -> bool) (s : string) : option nat :=
  match s with
  | EmptyString => None
  | String c s' =>
      match last_index p s' with
      | Some i => Some (S i)
      | None => if p c then Some O else None
      end
  end.

(** The first and the last byte of a string of more than two, the rest masked. *)
Definition keep_ends (s : string) : string :=
  if slen s <=? 2 then stars (String.length s)
  else stake 1 s +:+ stars (String.length s - 2) +:+ sdrop (String.length s - 1) s.

(** [src/mask.go:maskBasename] *)
Definition maskBasename (name : string) : string :=
  match last_index (fun c => Ascii.eqb c ".") name with
  | None => stars (String.length name)
  | Some dot => keep_ends (stake dot name) +:+ sdrop dot name
  end.

(** [src/mask.go:MaskFilePath] *)
Definition MaskFilePath (path : string) : string :=
  if String.eqb path "" then ""
  else match last_index (fun c => Ascii.eqb c "/" || Ascii.eqb c (chr 92)) path with
  | None => maskBasename path
  | Some i => stake (i + 1) path +:+ maskBasename (sdrop (i + 1) path)
  end.

(** [src/mask.go:93-99 MaskToken] the characters kept on each side. *)
Definition token_keep (n : Z) : Z :=
  let maxKeep := n / 2 in
  let keep := if maxKeep / 2 <? 4 then maxKeep / 2 else 4 in
  if keep <? 1 then 1 else keep.
(** [src/mask.go:MaskToken] *)
Definition MaskToken (token : string) : string :=
  let n := slen token in
  if n =? 0 then ""
  else if n <=? 8 then stars (Z.to_nat n)
  else let keep := Z.to_nat (token_keep n) in
       stake keep token +:+ stars (String.length token - 2 * keep) +:+
       sdrop (String.length token - keep) token.

(** [src/mask.go:MaskEmail] *)
Definition MaskEmail (email : string) : string :=
  match last_index (fun c => Ascii.eqb c "@") email with
  | None => MaskString email 4
  | Some at_ => keep_ends (stake at_ email) +:+ sdrop at_ email
  end.

(** [src/mask.go:SanitizeString] the runes kept by [strings.Map]. *)
Fixpoint keep_printable (fuel : nat) (s : string) : string :=
  match fuel, s with
  | O, _ | _, EmptyString => ""
  | S f, _ =>
      let '(r, w) := decode_rune s in
      (if ((32 <=? r) && (r <=? 126)) || (r =? 10) || (r =? 9) then encode_rune r else "") +:+
      keep_printable f (sdrop w s)
  end.
(** [src/mask.go:SanitizeString] *)
Definition SanitizeString (s : string) : string :=
  let t := trim_space s in keep_printable (String.length t) t.

Example mask_samples :
  MaskString "secret" 2 = "****et" /\ MaskToken "sk-abc123def456ghi789" = "sk-a*************i789" /\
  MaskToken "123456789" = "12*****89" /\ MaskEmail "alice@example.com" = "a***e@example.com" /\
  MaskFilePath "/etc/pki/certs/secret.pem" = "/etc/pki/certs/s****t.pem" /\
  MaskCertSerial "A1:B2:C3:D4:E5:F6" = "**:**:**:**:E5:F6" /\
  SanitizeString (String (chr 10) (String "a" (String (chr 7) "b"))) = "ab".
Proof. vm_compute. repeat split; reflexivity. Qed.

(** * Lemmas *)
Lemma length_stars n : String.length (stars n) = n.
Proof. apply length_repeat_byte. Qed.

Lemma token_keep_bound n : 9 <= n -> 1 <= token_keep n <= 4 /\ 4 * token_keep n <= n.
Proof.
  intros H. unfold token_keep.
  pose proof (Z.div_mod n 2 ltac:(lia)). pose proof (Z.mod_pos_bound n 2 ltac:(lia)).
  pose proof (Z.div_mod (n / 2) 2 ltac:(lia)). pose proof (Z.mod_pos_bound (n / 2) 2 ltac:(lia)).
  destruct (Z.ltb_spec (n / 2 / 2) 4); destruct (Z.ltb_spec (n / 2 / 2) 1); 
    try destruct (Z.ltb_spec 4 1); lia.
Qed.

(** A masked token keeps its length and shows at most its first and last
    four characters, together at most half of it; a token of eight characters
    or fewer shows none. *)
Theorem token_half_masked token :
  exists pre mid post, token = (pre +:+ mid +:+ post)%string /\
    MaskToken token = (pre +:+ stars (String.length mid) +:+ post)%string /\
    String.length pre = String.length post /\ (String.length pre <= 4)%nat /\
    (2 * String.length pre <= String.length mid)%nat /\
    ((String.length token <= 8)%nat -> pre = "" /\ post = "").
Proof.
  unfold MaskToken. destruct (slen token =? 0) eqn:E0.
  { destruct token; [|done]. exists "", "", "". simpl. repeat split; lia. }
  destruct (slen token <=? 8) eqn:E8.
  { exists "", token, "". rewrite !sapp_nil_r. unfold slen in *. bools.
    rewrite Nat2Z.id. simpl. repeat split; lia. }
  bools. pose proof (token_keep_bound (slen token) ltac:(lia)) as [Hk Hk4].
  set (k := Z.to_nat (token_keep (slen token))).
  assert (4 * k <= String.length token)%nat as Hk' by (unfold k, slen in *; lia).
  assert (1 <= k <= 4)%nat as Hk1 by (unfold k; lia).
  exists (stake k token), (stake (String.length token - 2 * k) (sdrop k token)),
    (sdrop (String.length token - k) token).
  rewrite !length_stake, !length_sdrop.
  assert (sdrop (String.length token - k) token =
          sdrop (String.length token - 2 * k) (sdrop k token)) as -> by (rewrite sdrop_sdrop; f_equal; lia).
  rewrite !stake_sdrop. split; [done|].
  replace (Nat.min (String.length token - 2 * k) (String.length token - k))
    with (String.length token - 2 * k)%nat by lia.
  split; [done|]. unfold slen in *. repeat split; lia.
Qed.

(** Masking a string keeps its length and shows exactly its last [visible]
    characters, unless it has no more than that: then it is shown whole. *)
Theorem mask_string_spec s visible (Hv : 0 <= visible) :
  (slen s <= visible -> MaskString s visible = s) /\
  (visible < slen s -> exists pre post, s = (pre +:+ post)%string /\ slen post = visible /\
     MaskString s visible = (stars (String.length pre) +:+ post)%string).
Proof.
  unfold MaskString. rewrite (proj2 (Z.ltb_ge visible 0)) by done. rewrite orb_false_r. split.
  - intros H. rewrite (proj2 (Z.leb_le _ _)) by done. by destruct (String.eqb s "").
  - intros H. destruct (String.eqb_spec s "") as [->|Hne]; [unfold slen in H; simpl in H; lia|].
    rewrite (proj2 (Z.leb_gt _ _)) by done.
    set (n := (String.length s - Z.to_nat visible)%nat).
    exists (stake n s), (sdrop n s). rewrite stake_sdrop. split; [done|].
    unfold slen in *. rewrite length_sdrop, length_stake. split; [lia|].
    by replace (Nat.min n (String.length s)) with n by lia.
Qed.

Lemma mask_string_spec_witness :
  exists pre post, "secret" = (pre +:+ post)%string /\ slen post = 2 /\
    MaskString "secret" 2 = (stars (String.length pre) +:+ post)%string.
Proof. apply (mask_string_spec "secret" 2); [lia | reflexivity]. Defined.
