(* ===== verification/Revocation.v ===== *)
(** Certificate revocation: the CRL cache of [src/crl.go] and the OCSP cache of
    [src/ocsp.go].

    The network, the decoders and the signature checks of [crypto/x509],
    [encoding/asn1] and [golang.org/x/crypto/ocsp] are the fields of [CRLEnv]
    and [OCSPEnv].  A refresh holds its mutex over fetch and commit, so it is
    one step; [Check] is one step of its caller, in which another caller's
    request for the same key may be in flight. *)
From S2P Require Import Prelude GoStrings GoTime GoJson Types Sha256 AdmissionTypes Credential.
From Stdlib Require Import Ascii.
Local Open Scope char_scope.
Local Open Scope string_scope.
Local Open Scope Z_scope.
Local Open Scope list_scope.

(** * Definitions *)

(** ** The CRL cache *)
Record CertificateList := {
  CRLIssuer : string; ThisUpdate : Time; NextUpdate : Time; RevokedSerials : list Z
}.

(** A relative name: its attributes, each a type and a printed value. *)
Abbreviation RDN := (list (string * string)).

Class CRLEnv := {
  http_Get : string -> result bytes;
  pem_Decode : bytes -> option (string * bytes);
  ParseDERCRL : bytes -> result CertificateList;
  unmarshal_RDNs : bytes -> option (list RDN);
  RDN_String : list RDN -> string;
  CheckCRLSignature : Certificate -> CertificateList -> option error
}.

(** [src/crl.go:CRLCache] its configuration and what [mu] guards. *)
Record CRLCache := {
  caCert : option Certificate; caDN : string; crl_url : string; refreshSec : Duration;
  revoked : gset string; thisUpdate : Time; nextUpdate : Time; lastRefresh : Time
}.

(** [src/crl.go:NewCRLCache]; the caches start empty, their times zero. *)
Definition NewCRLCache (ca : Certificate) (url : string) (refresh : Z) : CRLCache :=
  let d := wrap64 (refresh * Second) in
  {| caCert := Some ca; caDN := Subject ca; crl_url := url;
     refreshSec := if d <=? 0 then 5 * Minute else d;
     revoked := ∅; thisUpdate := zero_time; nextUpdate := zero_time; lastRefresh := zero_time |}.

Definition crl_expired (c : CRLCache) : error :=
  Errorf "CRL expired (nextUpdate %s)" [AInt (nextUpdate c)].
Definition crl_key (dn : string) (serial : Z) : string := dn +:+ "|" +:+ Text16 serial.

(** [src/crl.go:CRLCache.IsRevoked] *)
Definition IsRevoked (c : CRLCache) (dn : string) (serial : Z) (now : Time) : result bool :=
  if After now (nextUpdate c) then Err (crl_expired c)
  else Ok (bool_decide (crl_key dn serial ∈ revoked c)).

(** [sort.Strings] *)
Fixpoint insert_sorted (x : string) (l : list string) : list string :=
  match l with
  | [] => [x]
  | y :: l' => if String.leb x y then x :: l else y :: insert_sorted x l'
  end.
Definition sort_Strings (l : list string) : list string := foldr insert_sorted [] l.

(** [src/crl.go:canonicalRDNs] *)
Definition canonicalRDNs (seq : list RDN) : string :=
  join "," (sort_Strings (map (fun rdn =>
    join "+" (sort_Strings (map (fun '(t, v) => t +:+ "=" +:+ v) rdn))) seq)).

Section CRL.
  Context {CE : CRLEnv}.

(** [src/crl.go:rdnSequenceEqual] *)
Definition rdnSequenceEqual (a b : bytes) : bool :=
  match unmarshal_RDNs a, unmarshal_RDNs b with
  | Some ra, Some rb => String.eqb (canonicalRDNs ra) (canonicalRDNs rb)
  | _, _ => false
  end.

(** [src/crl.go:CRLCache.issuerMatchesCA] *)
Definition issuerMatchesCA (c : CRLCache) (cert : Certificate) : bool :=
  match caCert c with
  | None => false
  | Some ca => bool_decide (RawIssuer cert = RawSubject ca) ||
               rdnSequenceEqual (RawIssuer cert) (RawSubject ca)
  end.

(** [serial.Text(16)] of a possibly nil serial. *)
Definition serial_Text16 (s : option Z) : string := match s with None => "<nil>" | Some z => Text16 z end.

(** [src/crl.go:CRLCache.IsRevokedCert] *)
Definition IsRevokedCert (c : CRLCache) (cert : option Certificate) (now : Time) : result bool :=
  match cert with
  | None => Err (Errorf "crl: nil certificate" [])
  | Some cert =>
      if After now (nextUpdate c) then Err (crl_expired c)
      else if negb (issuerMatchesCA c cert) then Ok false
      else Ok (bool_decide (caDN c +:+ "|" +:+ serial_Text16 (SerialNumber cert) ∈ revoked c))
  end.

(** [src/crl.go:CRLCache.Stats] *)
Definition Stats (c : CRLCache) : Z * Time * Time :=
  (Z.of_nat (size (revoked c)), thisUpdate c, nextUpdate c).

(** [src/crl.go:214-247 refresh] fetching and checking the list, before the
    lock: the list to commit. *)
Definition fetch_crl (c : CRLCache) : result CertificateList :=
  match http_Get (crl_url c) with
  | Err err => Err (Errorf "fetch CRL: %w" [AWrap err])
  | Ok body =>
      let body := match pem_Decode body with
                  | Some (typ, block) => if String.eqb typ "X509 CRL" then block else body
                  | None => body end in
      match ParseDERCRL body with
      | Err err => Err (Errorf "parse CRL DER: %w" [AWrap err])
      | Ok crl =>
          match caCert c with
          | None => Err (ErrNew "runtime error: nil pointer dereference")
          | Some ca =>
              match unmarshal_RDNs (RawSubject ca) with
              | None => Err (Errorf "unmarshal CA subject: %w" [AWrap (ErrNew "asn1")])
              | Some caRDN =>
                  if negb (String.eqb (RDN_String caRDN) (CRLIssuer crl)) then
                    Err (Errorf "CRL issuer %q does not match CA %q"
                           [AStr (CRLIssuer crl); AStr (RDN_String caRDN)])
                  else match CheckCRLSignature ca crl with
                  | Some err => Err (Errorf "CRL signature verification failed: %w" [AWrap err])
                  | None => Ok crl
                  end
              end
          end
      end
  end.

(** [src/crl.go:CRLCache.refresh] *)
Definition refresh (c : CRLCache) (now : Time) : option error * CRLCache :=
  match fetch_crl c with
  | Err err => (Some err, c)
  | Ok crl =>
      if negb (After (ThisUpdate crl) (thisUpdate c)) && negb (IsZero (thisUpdate c)) then
        (Some (Errorf "CRL thisUpdate %v is not newer than cached %v (replay?)"
                 [AInt (ThisUpdate crl); AInt (thisUpdate c)]), c)
      else (None, {| caCert := caCert c; caDN := caDN c; crl_url := crl_url c; refreshSec := refreshSec c;
                     revoked := list_to_set (map (crl_key (caDN c)) (RevokedSerials crl));
                     thisUpdate := ThisUpdate crl; nextUpdate := NextUpdate crl; lastRefresh := now |})
  end.

(** [src/crl.go:CRLCache.ForceRefresh] *)
Definition ForceRefresh (c : CRLCache) (now : Time) : option error * CRLCache := refresh c now.
End CRL.

(** ** The OCSP cache *)
Inductive ocsp_status := Good | Revoked | Unknown (code : Z).

Record ocsp_Response := {
  Status : ocsp_status; RevokedAt : Time; ProducedAt : Time; RespThisUpdate : Time; RespNextUpdate : Time
}.

(** [src/ocsp.go:ocspCacheEntry] *)
Record ocspCacheEntry := {
  status : ocsp_status; revokedAt : Time; cachedAt : Time; entryThisUpdate : Time;
  entryNextUpdate : Time; entry_ttl : Duration
}.

(** The CRL lookup that the CRL fallback consults. *)
Abbreviation CRLRevokedFunc := (string -> option Z -> result bool).

(** [src/ocsp.go:OCSPCache] *)
Record OCSPCache := {
  entries : gmap string ocspCacheEntry; ttl : Duration; fallback : string;
  crlCheck : option CRLRevokedFunc
}.

(** [src/ocsp.go:67-71 OCSPFallbackAllow] *)
Definition OCSPFallbackAllow := "allow".
Definition OCSPFallbackDeny := "deny".
Definition OCSPFallbackCRL := "crl".

(** [src/ocsp.go:NewOCSPCache] *)
Definition NewOCSPCache (t : Duration) (fb : string) : OCSPCache :=
  {| entries := ∅; ttl := if t <=? 0 then 5 * Minute else t;
     fallback := if String.eqb fb OCSPFallbackAllow || String.eqb fb OCSPFallbackDeny ||
                    String.eqb fb OCSPFallbackCRL then fb else OCSPFallbackDeny;
     crlCheck := None |}.

(** [src/ocsp.go:OCSPCache.SetCRLChecker] *)
Definition SetCRLChecker (c : option OCSPCache) (fn : option CRLRevokedFunc) : option OCSPCache :=
  match c with
  | None => None
  | Some c => Some {| entries := entries c; ttl := ttl c; fallback := fallback c; crlCheck := fn |}
  end.

Class OCSPEnv := {
  (** [asn1.Unmarshal] of an authority information access extension: for each
      description, whether its method is OCSP, whether its location is a URI,
      and the location's bytes. *)
  unmarshal_AIA : bytes -> option (list (bool * bool * string));
  AIA_OID : string;
  CreateRequest : Certificate -> Certificate -> result bytes;
  http_Post : string -> bytes -> result (result bytes);
  ParseResponseForCert : bytes -> Certificate -> Certificate -> result ocsp_Response
}.

Section OCSP.
  Context {OE : OCSPEnv}.

(** [src/ocsp.go:ExtractOCSPURL] *)
Fixpoint ocsp_url (exts : list (string * bytes)) : string :=
  match exts with
  | [] => ""
  | (oid, value) :: exts' =>
      if String.eqb oid AIA_OID then
        match unmarshal_AIA value with
        | None => ocsp_url exts'
        | Some descs =>
            match List.find (fun '(is_ocsp, is_uri, _) => is_ocsp && is_uri) descs with
            | Some (_, _, location) => location
            | None => ocsp_url exts'
            end
        end
      else ocsp_url exts'
  end.
(** [src/ocsp.go:ExtractOCSPURL] *)
Definition ExtractOCSPURL (cert : Certificate) : string := ocsp_url (Extensions cert).

(** [src/ocsp.go:responseFresh] *)
Definition responseFresh (entry : option ocspCacheEntry) (now : Time) : bool :=
  match entry with
  | None => false
  | Some e =>
      if negb (IsZero (entryThisUpdate e)) && Before now (entryThisUpdate e) then false
      else if negb (IsZero (entryNextUpdate e)) then Before now (entryNextUpdate e)
      else Before now (Add (cachedAt e) (entry_ttl e))
  end.

(** [src/ocsp.go:fallbackErr]; a translated text is kept as its key. *)
Definition fallbackErr (c : OCSPCache) (cert : Certificate) (msg : error) : option error :=
  if String.eqb (fallback c) OCSPFallbackAllow then None
  else if String.eqb (fallback c) OCSPFallbackCRL then
    match crlCheck c with
    | None => Some (Errorf "ocsp.fallback_crl_unconfigured: %s" [AErr msg])
    | Some check =>
        match check (Issuer cert) (SerialNumber cert) with
        | Err err => Some (Errorf "OCSP crl fallback: CRL check failed, failing closed: %w" [AWrap err])
        | Ok true => Some (Errorf "certificate %s revoked per CRL" [AStr (serial_Text16 (SerialNumber cert))])
        | Ok false => None
        end
    end
  else Some (Errorf "ocsp.fallback_deny" [AErr msg]).

(** [src/ocsp.go:160-167 Check] the verdict of a cached entry. *)
Definition entry_verdict (e : ocspCacheEntry) : option error :=
  match status e with
  | Good => None
  | Revoked => Some (Errorf "certificate revoked by OCSP at %s" [AInt (revokedAt e)])
  | Unknown _ => Some (Errorf "certificate status unknown by OCSP" [])
  end.

(** The clock readings of a call, and the cache as another caller's request for
    the same key leaves it when one is in flight. *)
Record check_run := { since_now : Time; fresh_now : Time; fetch_now : Time; wait_now : Time;
                      inflight : option (gmap string ocspCacheEntry) }.

(** [src/ocsp.go:240-260 Check] the response: its entry, or the reason for the
    fallback. *)
Definition usable_response (c : OCSPCache) (resp : ocsp_Response) (now : Time)
  : ocspCacheEntry + error :=
  let e := {| status := Status resp; revokedAt := RevokedAt resp; cachedAt := now;
              entryThisUpdate := RespThisUpdate resp; entryNextUpdate := RespNextUpdate resp;
              entry_ttl := ttl c |} in
  if IsZero (RespThisUpdate resp) && IsZero (ProducedAt resp) then
    inr (Errorf "OCSP response has no produced_at/this_update" [])
  else if negb (IsZero (RespNextUpdate resp)) && After now (RespNextUpdate resp) then
    inr (Errorf "OCSP response stale: next_update %s is in the past" [AInt (RespNextUpdate resp)])
  else if After (RespThisUpdate resp) now then
    inr (Errorf "OCSP response not yet valid: this_update %s is in the future" [AInt (RespThisUpdate resp)])
  else if negb (responseFresh (Some e) now) then inr (Errorf "OCSP response outside its validity window" [])
  else inl e.

(** [src/ocsp.go:212-274 Check] the fetch of a caller with no other in flight. *)
Definition fetch_ocsp (c : OCSPCache) (cert : Certificate) (issuer : option Certificate) (url key : string)
    (now : Time) : option error * OCSPCache :=
  match issuer with
  | None => (fallbackErr c cert (Errorf "OCSP issuer certificate unavailable for %s" [AStr (CommonName cert)]), c)
  | Some issuer =>
      match CreateRequest cert issuer with
      | Err err => (Some (Errorf "create OCSP request: %w" [AWrap err]), c)
      | Ok req =>
          match http_Post url req with
          | Err err => (fallbackErr c cert (Errorf "OCSP request failed: %v" [AErr err]), c)
          | Ok (Err err) => (fallbackErr c cert (Errorf "read OCSP response: %v" [AErr err]), c)
          | Ok (Ok body) =>
              match ParseResponseForCert body cert issuer with
              | Err err => (fallbackErr c cert (Errorf "parse OCSP response: %v" [AErr err]), c)
              | Ok resp =>
                  match usable_response c resp now with
                  | inr msg => (fallbackErr c cert msg, c)
                  | inl e =>
                      (match Status resp with
                       | Good => None
                       | Revoked => Some (Errorf "certificate revoked by OCSP at %s" [AInt (RevokedAt resp)])
                       | Unknown n => Some (Errorf "certificate status unknown by OCSP (status %d)" [AInt n])
                       end,
                       {| entries := <[key := e]> (entries c); ttl := ttl c; fallback := fallback c;
                          crlCheck := crlCheck c |})
                  end
              end
          end
      end
  end.

Definition ocsp_key (cert : Certificate) : string :=
  serial_Text16 (SerialNumber cert) +:+ "|" +:+ ExtractOCSPURL cert.
(** [src/ocsp.go:145-171 Check] up to the release of the read lock: the answer,
    when the cache has one in force or the certificate names no responder. *)
Definition ocsp_lookup (c : OCSPCache) (cert : Certificate) (run : check_run) : option (option error) :=
  if String.eqb (ExtractOCSPURL cert) "" then Some (fallbackErr c cert (Errorf "no OCSP URL in certificate AIA" []))
  else match entries c !! ocsp_key cert with
       | Some e => if Sub (since_now run) (cachedAt e) <? ttl c then
                     if responseFresh (Some e) (fresh_now run) then Some (entry_verdict e) else None
                   else None
       | None => None
       end.
(** [src/ocsp.go:173-274 Check] after a miss: a caller that [waits] for a request
    in flight looks the cache up again, the others fetch. *)
Definition ocsp_answer (c : OCSPCache) (cert : Certificate) (issuer : option Certificate) (waits : bool)
    (run : check_run) : option error * OCSPCache :=
  if waits then
    (match entries c !! ocsp_key cert with
     | Some e => if responseFresh (Some e) (wait_now run) then entry_verdict e
                 else fallbackErr c cert (Errorf "OCSP request completed but no fresh cache entry" [])
     | None => fallbackErr c cert (Errorf "OCSP request completed but no fresh cache entry" [])
     end, c)
  else fetch_ocsp c cert issuer (ExtractOCSPURL cert) (ocsp_key cert) (fetch_now run).

(** [src/ocsp.go:OCSPCache.Check] *)
Definition Check_ (c : OCSPCache) (cert : Certificate) (issuer : option Certificate) (run : check_run)
  : option error * OCSPCache :=
  match ocsp_lookup c cert run with
  | Some v => (v, c)
  | None =>
      match inflight run with
      | Some entries' =>
          ocsp_answer {| entries := entries'; ttl := ttl c; fallback := fallback c; crlCheck := crlCheck c |}
            cert issuer true run
      | None => ocsp_answer c cert issuer false run
      end
  end.

(** [src/ocsp.go:OCSPCache.Stats] *)
Definition OCSP_Stats (c : OCSPCache) : Z * Z :=
  let sts := map (fun kv => status kv.2) (map_to_list (entries c)) in
  (zlen (List.filter (fun s => match s with Good => true | _ => false end) sts),
   zlen (List.filter (fun s => match s with Revoked => true | _ => false end) sts)).

(** [src/ocsp.go:OCSPCache.Flush] *)
Definition Flush (c : OCSPCache) : OCSPCache :=
  {| entries := ∅; ttl := ttl c; fallback := fallback c; crlCheck := crlCheck c |}.
End OCSP.

(** * Lemmas *)

(** The value of a hexadecimal string. *)
Fixpoint hex_value (acc : Z) (s : string) : Z :=
  match s with
  | EmptyString => acc
  | String c s' => hex_value (acc * 16 + default 0 (from_hex_char c)) s'
  end.
Lemma hex_value_app acc a b : hex_value acc (a +:+ b) = hex_value (hex_value acc a) b.
Proof. revert acc. induction a as [|c a IH]; intros acc; [done|]. apply IH. Qed.

Lemma hex_digits_value f z : 0 <= z < 16 ^ Z.of_nat f -> hex_value 0 (hex_digits f z) = z.
Proof.
  revert z. induction f as [|f IH]; intros z H; [simpl in H; simpl; lia|].
  cbn [hex_digits]. rewrite hex_value_app.
  assert (z < 16 ^ Z.of_nat f * 16) by (rewrite Nat2Z.inj_succ, Z.pow_succ_r in H; lia).
  assert (hex_value 0 (if z <? 16 then "" else hex_digits f (z / 16)) = z / 16) as ->.
  { destruct (Z.ltb_spec z 16); [by rewrite Z.div_small by lia|].
    apply IH. split; [by apply Z.div_pos; lia|]. apply Z.div_lt_upper_bound; lia. }
  cbn [hex_value]. rewrite from_hex_digit by (apply Z.mod_pos_bound; lia). simpl.
  pose proof (Z.div_mod z 16 ltac:(lia)). lia.
Qed.

Lemma hex_fuel m : 0 <= m -> m < 16 ^ Z.of_nat (S (Z.to_nat (Z.log2 m))).
Proof.
  intros H. rewrite Nat2Z.inj_succ, Z2Nat.id by apply Z.log2_nonneg.
  destruct (decide (m = 0)) as [->|Hm]; [done|].
  apply Z.lt_le_trans with (2 ^ (Z.succ (Z.log2 m))); [by apply Z.log2_spec; lia|].
  apply Z.pow_le_mono_l. pose proof (Z.log2_nonneg m). lia.
Qed.

Lemma hex_digits_first f z : 0 <= z -> hex_digits (S f) z <> "" /\
  forall s, hex_digits (S f) z <> ("-" +:+ s)%string.
Proof.
  revert z. induction f as [|f IH]; intros z Hz; cbn [hex_digits].
  - assert ((if z <? 16 then "" else "") = "") as -> by by destruct (z <? 16).
    split; [done|]. intros s. simpl. intros [= H]. apply (f_equal code) in H.
    pose proof (Z.mod_pos_bound z 16 ltac:(lia)). unfold hex_digit in H.
    assert (exists n, (n < 16)%nat /\ z mod 16 = Z.of_nat n) as (n & Hn & En)
      by (exists (Z.to_nat (z mod 16)); lia).
    rewrite En in H. clear -H Hn. do 16 (destruct n as [|n]; [vm_compute in H; discriminate|]). lia.
  - destruct (Z.ltb_spec z 16).
    + split; [done|]. intros s. simpl. intros [= H'].
      assert (exists n, (n < 16)%nat /\ z = Z.of_nat n) as (n & Hn & ->) by (exists (Z.to_nat z); lia).
      clear -H' Hn. do 16 (destruct n as [|n]; [vm_compute in H'; discriminate|]). lia.
    + destruct (IH (z / 16)) as [Hne Hm]; [by apply Z.div_pos; lia|].
      change (hex_digits (S f) (z / 16)) with
        ((if z / 16 <? 16 then "" else hex_digits f (z / 16 / 16)) +:+
         String (hex_digit ((z / 16) mod 16)) "") in *.
      set (d := (_ +:+ String (hex_digit ((z / 16) mod 16)) "")) in *.
      destruct d as [|c d]; [done|]. split; [done|]. intros s [= -> Hs].
      by apply (Hm d).
Qed.

Lemma Text16_inj a b : Text16 a = Text16 b -> a = b.
Proof.
  unfold Text16. intros H.
  assert (forall z, hex_value 0 (hex_digits (S (Z.to_nat (Z.log2 (Z.abs z)))) (Z.abs z)) = Z.abs z) as G.
  { intros z. apply hex_digits_value. split; [lia|]. apply hex_fuel. lia. }
  assert (forall z s, hex_digits (S (Z.to_nat (Z.log2 (Z.abs z)))) (Z.abs z) <> ("-" +:+ s)%string) as Hm.
  { intros z s. apply hex_digits_first. lia. }
  destruct (Z.ltb_spec a 0), (Z.ltb_spec b 0).
  - apply sapp_inj_l in H. pose proof (G a) as Ga. rewrite H, (G b) in Ga. lia.
  - symmetry in H. by apply Hm in H.
  - by apply Hm in H.
  - apply (sapp_inj_l "") in H. pose proof (G a) as Ga. rewrite H, (G b) in Ga. lia.
Qed.

Lemma crl_key_inj dn a b : crl_key dn a = crl_key dn b -> a = b.
Proof. unfold crl_key. intros H%sapp_inj_l%sapp_inj_l. by apply Text16_inj. Qed.

Section RevocationFacts.
  Context {CE : CRLEnv}.

Lemma fetch_crl_Ok c crl :
  fetch_crl c = Ok crl ->
  exists ca rdns, caCert c = Some ca /\ unmarshal_RDNs (RawSubject ca) = Some rdns /\
    RDN_String rdns = CRLIssuer crl /\ CheckCRLSignature ca crl = None.
Proof.
  unfold fetch_crl. destruct (http_Get _) as [body|]; [|done].
  destruct (ParseDERCRL _) as [l|]; [|done]. destruct (caCert c) as [ca|]; [|done].
  destruct (unmarshal_RDNs _) as [rdns|] eqn:E; [|done].
  destruct (String.eqb_spec (RDN_String rdns) (CRLIssuer l)); [|done]. simpl.
  destruct (CheckCRLSignature ca l) eqn:Es; [done|]. intros [= <-]. by exists ca, rdns.
Qed.

Lemma refresh_cases c now :
  (exists e, refresh c now = (Some e, c)) \/
  exists crl c', refresh c now = (None, c') /\ fetch_crl c = Ok crl /\
    (thisUpdate c = zero_time \/ thisUpdate c < ThisUpdate crl) /\
    thisUpdate c' = ThisUpdate crl /\ nextUpdate c' = NextUpdate crl /\ caCert c' = caCert c /\
    caDN c' = caDN c /\ revoked c' = list_to_set (map (crl_key (caDN c)) (RevokedSerials crl)).
Proof.
  unfold refresh. destruct (fetch_crl c) as [crl|e] eqn:E; [|left; by exists e].
  destruct (negb _ && negb _) eqn:Et; [left; by eexists|]. right.
  eexists crl, _. split; [done|]. split; [done|]. split; [|done].
  unfold After, IsZero in Et. bools. destruct Et as [Et|Et]; bools; [by right|by left].
Qed.

(** A committed list is authentic and answers exactly: a refresh that
    succeeds fetched a list signed by the configured CA under its own name and
    newer than the cached one; from then until its next update a certificate of
    that CA is reported revoked exactly when its serial number is on the list. *)
Theorem crl_refresh_answers c now c' t cert serial
    (H : refresh c now = (None, c')) (Ht : t <= nextUpdate c') (Hs : SerialNumber cert = Some serial)
    (Hm : issuerMatchesCA c cert = true) :
  exists crl ca rdns, fetch_crl c = Ok crl /\ caCert c = Some ca /\
    unmarshal_RDNs (RawSubject ca) = Some rdns /\ RDN_String rdns = CRLIssuer crl /\
    CheckCRLSignature ca crl = None /\
    (thisUpdate c = zero_time \/ thisUpdate c < thisUpdate c') /\
    IsRevokedCert c' (Some cert) t = Ok (bool_decide (serial ∈ RevokedSerials crl)).
Proof.
  destruct (refresh_cases c now) as [[e He]|(crl & c1 & Hr & Hf & Hn & Ht' & Hn' & Hca & Hdn & Hrev)];
    [congruence|]. rewrite H in Hr. injection Hr as <-.
  destruct (fetch_crl_Ok _ _ Hf) as (ca & rdns & Hc & Hu & Hi & Hsig).
  exists crl, ca, rdns. repeat split; try done; [by rewrite Ht'|].
  unfold IsRevokedCert. unfold After. rewrite (proj2 (Z.ltb_ge _ _)) by done.
  assert (issuerMatchesCA c' cert = true) as -> by (unfold issuerMatchesCA in *; by rewrite Hca).
  rewrite Hs, Hdn, Hrev. simpl. f_equal. apply bool_decide_ext.
  change (caDN c +:+ "|" +:+ Text16 serial) with (crl_key (caDN c) serial).
  rewrite elem_of_list_to_set, list_elem_of_fmap. split.
  - intros (s & Hk & Hin). apply crl_key_inj in Hk. by subst.
  - intros Hin. by exists serial.
Qed.

(** A stale list fails closed and a failed refresh changes nothing: past the
    next update every query is an error, and a list that is not newer is refused
    as a replay. *)
Theorem crl_fails_closed c now t cert :
  (nextUpdate c < t -> exists e, IsRevokedCert c (Some cert) t = Err e /\
     forall dn s, IsRevoked c dn s t = Err e) /\
  (forall e, (refresh c now).1 = Some e -> (refresh c now).2 = c) /\
  (forall crl, fetch_crl c = Ok crl -> thisUpdate c <> zero_time -> ThisUpdate crl <= thisUpdate c ->
     exists e, refresh c now = (Some e, c)).
Proof.
  split; [|split].
  - intros H. unfold IsRevokedCert, IsRevoked, After. rewrite (proj2 (Z.ltb_lt _ _)) by done. eauto.
  - intros e. destruct (refresh_cases c now) as [[e' ->]|(crl & c1 & -> & _)]; done.
  - intros crl Hf Hz Hle. destruct (refresh_cases c now) as [?|(crl' & c1 & _ & Hf' & [?|?] & _)];
      [done|done|]. rewrite Hf in Hf'. injection Hf' as <-. lia.
Qed.
End RevocationFacts.

Section OCSPFacts.
  Context {OE : OCSPEnv}.

Lemma fallbackErr_None c cert msg :
  fallbackErr c cert msg = None ->
  fallback c = OCSPFallbackAllow \/
  fallback c = OCSPFallbackCRL /\ exists check, crlCheck c = Some check /\
    check (Issuer cert) (SerialNumber cert) = Ok false.
Proof.
  unfold fallbackErr. destruct (String.eqb_spec (fallback c) OCSPFallbackAllow); [by left|].
  destruct (String.eqb_spec (fallback c) OCSPFallbackCRL); [|done]. intros H. right. split; [done|].
  destruct (crlCheck c) as [check|]; [|done]. exists check. split; [done|].
  by destruct (check _ _) as [[]|].
Qed.

Lemma entry_verdict_None e : entry_verdict e = None <-> status e = Good.
Proof. unfold entry_verdict. by destruct (status e). Qed.

(** What makes a check pass: an entry in force, a fresh response, or the
    configured fallback. *)
Definition revocation_proof (c : OCSPCache) (cert : Certificate) (issuer : option Certificate)
    (run : check_run) : Prop :=
  let url := ExtractOCSPURL cert in
  let key := serial_Text16 (SerialNumber cert) +:+ "|" +:+ url in
  (exists e, entries c !! key = Some e /\ status e = Good /\
     Sub (since_now run) (cachedAt e) < ttl c /\ responseFresh (Some e) (fresh_now run) = true) \/
  (exists entries' e, inflight run = Some entries' /\ entries' !! key = Some e /\ status e = Good /\
     responseFresh (Some e) (wait_now run) = true) \/
  (exists i req body resp e, issuer = Some i /\ CreateRequest cert i = Ok req /\
     http_Post url req = Ok (Ok body) /\ ParseResponseForCert body cert i = Ok resp /\
     Status resp = Good /\ usable_response c resp (fetch_now run) = inl e /\
     responseFresh (Some e) (fetch_now run) = true).

Lemma usable_fresh c resp now e :
  usable_response c resp now = inl e -> responseFresh (Some e) now = true /\ status e = Status resp.
Proof.
  unfold usable_response. intros H.
  destruct (IsZero (RespThisUpdate resp) && IsZero (ProducedAt resp)); [done|].
  destruct (negb _ && After _ _); [done|]. destruct (After _ _); [done|].
  destruct (responseFresh _ now) eqn:E; [|done]. simpl in H. injection H as <-. done.
Qed.

Lemma fetch_ocsp_None c cert issuer url key now :
  (fetch_ocsp c cert issuer url key now).1 = None ->
  (exists i req body resp e, issuer = Some i /\ CreateRequest cert i = Ok req /\
     http_Post url req = Ok (Ok body) /\ ParseResponseForCert body cert i = Ok resp /\
     Status resp = Good /\ usable_response c resp now = inl e /\ responseFresh (Some e) now = true) \/
  exists msg, fallbackErr c cert msg = None.
Proof.
  unfold fetch_ocsp. destruct issuer as [i|]; [|simpl; eauto].
  destruct (CreateRequest cert i) as [req|] eqn:Ec; [|done].
  destruct (http_Post url req) as [[body|]|] eqn:Ep; [|simpl; eauto|simpl; eauto].
  destruct (ParseResponseForCert body cert i) as [resp|] eqn:Er; [|simpl; eauto].
  destruct (usable_response c resp now) as [e|msg] eqn:Eu; [|simpl; eauto].
  simpl. destruct (Status resp) eqn:Es; try done. intros _. left.
  exists i, req, body, resp, e. repeat split; try done. exact (proj1 (usable_fresh _ _ _ _ Eu)).
Qed.

(** What passes the two halves of a check. *)
Definition fallback_passes (c : OCSPCache) (cert : Certificate) : Prop :=
  fallback c = "allow" \/
  fallback c = "crl" /\ exists check, crlCheck c = Some check /\ check (Issuer cert) (SerialNumber cert) = Ok false.
Lemma ocsp_lookup_pass c cert run : ocsp_lookup c cert run = Some None ->
  (exists e, entries c !! ocsp_key cert = Some e /\ status e = Good /\
     Sub (since_now run) (cachedAt e) < ttl c /\ responseFresh (Some e) (fresh_now run) = true) \/
  fallback_passes c cert.
Proof.
  unfold ocsp_lookup. destruct (String.eqb _ ""); [intros [= H]; right; exact (fallbackErr_None _ _ _ H)|].
  destruct (entries c !! ocsp_key cert) as [e|]; [|done].
  destruct (Z.ltb_spec (Sub (since_now run) (cachedAt e)) (ttl c)) as [Ha|]; [|done].
  destruct (responseFresh (Some e) _) eqn:Ef; [|done]. intros [= Hv%entry_verdict_None]. left. by exists e.
Qed.
Lemma ocsp_answer_pass c cert issuer waits run : (ocsp_answer c cert issuer waits run).1 = None ->
  (waits = true /\ (exists e, entries c !! ocsp_key cert = Some e /\ status e = Good /\
     responseFresh (Some e) (wait_now run) = true) \/
   waits = false /\ (exists i req body resp e, issuer = Some i /\ CreateRequest cert i = Ok req /\
     http_Post (ExtractOCSPURL cert) req = Ok (Ok body) /\ ParseResponseForCert body cert i = Ok resp /\
     Status resp = Good /\ usable_response c resp (fetch_now run) = inl e /\
     responseFresh (Some e) (fetch_now run) = true)) \/
  fallback_passes c cert.
Proof.
  unfold ocsp_answer. destruct waits; cbn [fst].
  - destruct (entries c !! ocsp_key cert) as [e|]; [|intros H; right; exact (fallbackErr_None _ _ _ H)].
    destruct (responseFresh (Some e) _) eqn:Ef; [|intros H; right; exact (fallbackErr_None _ _ _ H)].
    intros H%entry_verdict_None. left. left. split; [done|]. by exists e.
  - intros [H|[msg H]]%fetch_ocsp_None; [left; right; by split|right; exact (fallbackErr_None _ _ _ H)].
Qed.

(** C33: a certificate passes the OCSP check only on proof that it is good (a
    fresh cached answer, or a response for this certificate and issuer inside
    its validity window) or through the configured fallback; the default
    fallback never passes, and the CRL fallback passes only when the CRL was
    consulted and does not list it. *)
Theorem ocsp_pass_needs_proof c cert issuer run
    (H : (Check_ c cert issuer run).1 = None) :
  revocation_proof c cert issuer run \/
  fallback c = "allow" \/
  fallback c = "crl" /\ exists check, crlCheck c = Some check /\
    check (Issuer cert) (SerialNumber cert) = Ok false.
Proof.
  unfold Check_ in H. destruct (ocsp_lookup c cert run) as [v|] eqn:El.
  - cbn in H. subst v. apply ocsp_lookup_pass in El as [(e & He & Hs & Ha & Hf)|El]; [|by right].
    left. left. by exists e.
  - destruct (inflight run) as [es|] eqn:Ei; apply ocsp_answer_pass in H as [H|H]; try (by right); left; right.
    + destruct H as [(_ & e & He & Hs & Hf)|(Hw & _)]; [|done]. left. by exists es, e.
    + destruct H as [(Hw & _)|(_ & H)]; [done|]. right. exact H.
Qed.

(** The cache does not key on the issuer: an answer cached for one
    certificate decides every certificate with the same serial number and
    responder URL, whoever issued it, while the answer is in force. *)
Theorem ocsp_cache_shared_across_issuers c cert1 cert2 issuer2 run e
    (Hs : SerialNumber cert2 = SerialNumber cert1) (Hu : ExtractOCSPURL cert2 = ExtractOCSPURL cert1)
    (Hne : ExtractOCSPURL cert1 <> "")
    (He : entries c !! (serial_Text16 (SerialNumber cert1) +:+ "|" +:+ ExtractOCSPURL cert1) = Some e)
    (Hage : Sub (since_now run) (cachedAt e) < ttl c)
    (Hfresh : responseFresh (Some e) (fresh_now run) = true) (Hgood : status e = Good) :
  Check_ c cert2 issuer2 run = (None, c).
Proof.
  unfold Check_, ocsp_lookup, ocsp_key. rewrite Hs, Hu, (proj2 (String.eqb_neq _ _) Hne), He.
  rewrite (proj2 (Z.ltb_lt _ _)) by done. rewrite Hfresh. unfold entry_verdict. by rewrite Hgood.
Qed.
End OCSPFacts.

(** * Concrete instances *)
Section Witnesses.
Definition rev_cert (serial : Z) (issuer : string) : Certificate := {|
  SerialNumber := Some serial; CommonName := "c"; Organization := []; OrganizationalUnit := []; Issuer := issuer;
  IssuerCN := issuer; NotBefore := 0; NotAfter := 0; RawSubjectPublicKeyInfo := [];
  CertPublicKey := None; Raw := []; Subject := "CN=c"; RawIssuer := [z_byte 1]; RawSubject := [z_byte 1];
  URIs := []; Extensions := [("aia", [])] |}.
Definition toy_crl_env : CRLEnv := {|
  http_Get := fun _ => Ok [z_byte 1];
  pem_Decode := fun _ => None;
  ParseDERCRL := fun _ => Ok {| CRLIssuer := "CN=c"; ThisUpdate := 10; NextUpdate := 20; RevokedSerials := [255] |};
  unmarshal_RDNs := fun _ => Some [];
  RDN_String := fun _ => "CN=c";
  CheckCRLSignature := fun _ _ => None |}.
Definition toy_ocsp_env : OCSPEnv := {|
  unmarshal_AIA := fun _ => Some [(false, true, "http://issuers"); (true, true, "http://ocsp")];
  AIA_OID := "aia";
  CreateRequest := fun _ _ => Ok [];
  http_Post := fun _ _ => Ok (Ok []);
  ParseResponseForCert := fun _ _ _ =>
    Ok {| Status := Good; RevokedAt := 0; ProducedAt := 5; RespThisUpdate := 5; RespNextUpdate := 50 |} |}.
  #[local] Existing Instance toy_crl_env.
  #[local] Existing Instance toy_ocsp_env.

Lemma crl_refresh_answers_witness :
  let c := NewCRLCache (rev_cert 1 "ca") "http://crl" 60 in
  exists c' crl, refresh c 12 = (None, c') /\
    IsRevokedCert c' (Some (rev_cert 255 "ca")) 15 = Ok (bool_decide (255 ∈ RevokedSerials crl)).
Proof.
  intros c. exists (refresh c 12).2.
  destruct (crl_refresh_answers c 12 (refresh c 12).2 15 (rev_cert 255 "ca") 255)
    as (crl & ca & rdns & _ & _ & _ & _ & _ & _ & Hr).
  - reflexivity.
  - vm_compute. congruence.
  - reflexivity.
  - reflexivity.
  - exists crl. split; [reflexivity|exact Hr].
Defined.

Definition toy_run : check_run :=
  {| since_now := 10; fresh_now := 10; fetch_now := 10; wait_now := 10; inflight := None |}.

Lemma ocsp_pass_needs_proof_witness :
  let c := NewOCSPCache 0 "" in
  revocation_proof c (rev_cert 7 "ca") (Some (rev_cert 1 "ca")) toy_run \/ fallback c = "allow" \/
  fallback c = "crl" /\ exists check, crlCheck c = Some check /\
    check (Issuer (rev_cert 7 "ca")) (SerialNumber (rev_cert 7 "ca")) = Ok false.
Proof. intros c. apply ocsp_pass_needs_proof. vm_compute. reflexivity. Defined.

Lemma ocsp_cache_shared_across_issuers_witness :
  let c := (Check_ (NewOCSPCache 0 "") (rev_cert 7 "ca A") (Some (rev_cert 1 "ca A")) toy_run).2 in
  Check_ c (rev_cert 7 "ca B") None toy_run = (None, c).
Proof.
  intros c. eapply (ocsp_cache_shared_across_issuers c (rev_cert 7 "ca A") (rev_cert 7 "ca B") None toy_run);
    try reflexivity. vm_compute. discriminate.
Defined.
End Witnesses.
