(* ===== verification/Params.v ===== *)
(** Parameter boundaries ([src/parameters.go]): the registry of validators by
    scheme and the [max_rows] validator.  A nil registry is [None]. *)
From S2P Require Import Prelude GoStrings GoJson Types.
Local Open Scope string_scope.
Local Open Scope Z_scope.
Local Open Scope list_scope.

(** * Definitions *)

(** [src/parameters.go:maxRowsParams] decoded: the pointer of its field. *)
Definition dec_maxRows : json -> result (option Z) :=
  dec_struct (fun n k v => if field_is "max_rows" k then dec_int_ptr n v else Ok n) None.

(** [src/parameters.go:parseMaxRows] *)
Definition parseMaxRows (raw : string) : result (option Z) :=
  let trimmed := trim_space raw in
  if slen trimmed =? 0 then Ok None
  else match unmarshal dec_maxRows trimmed with
  | Err err => Err (Errorf "max_rows: invalid parameters JSON: %w" [AWrap err])
  | Ok None => Ok None
  | Ok (Some n) => if n <? 0 then Err (Errorf "max_rows: negative value %d" [AInt n]) else Ok (Some n)
  end.

(** [src/parameters.go:maxRowsValidator.Validate] *)
Definition maxRows_Validate (granted declared : Capability) : option error :=
  match parseMaxRows (Parameters granted) with
  | Err err => Some err
  | Ok g =>
      match parseMaxRows (Parameters declared) with
      | Err err => Some err
      | Ok None => None
      | Ok (Some d) =>
          match g with
          | Some g => if g <? d then Some (Errorf "report: declared max_rows %d exceeds granted boundary %d"
                                             [AInt d; AInt g]) else None
          | None => None
          end
      end
  end.

(** [src/parameters.go:ParameterValidator] a scheme and its check. *)
Record ParameterValidator := { Scheme : string; Validate_param : Capability -> Capability -> option error }.

(** [src/parameters.go:184-184 MaxRowsValidator] *)
Definition MaxRowsValidator : ParameterValidator :=
  {| Scheme := "report"; Validate_param := maxRows_Validate |}.

Abbreviation ParameterValidatorRegistry := (gmap string ParameterValidator).

(** [src/parameters.go:NewParameterValidatorRegistry] *)
Definition NewParameterValidatorRegistry : ParameterValidatorRegistry := ∅.

(** [src/parameters.go:ParameterValidatorRegistry.Register] *)
Definition register_validator (r : option ParameterValidatorRegistry) (v : option ParameterValidator)
  : option error * option ParameterValidatorRegistry :=
  match r, v with
  | None, _ => (Some (Errorf "parameter_validator: nil registry" []), r)
  | _, None => (Some (Errorf "parameter_validator: nil validator" []), r)
  | Some m, Some v =>
      let s := Scheme v in
      if String.eqb s "" then (Some (Errorf "parameter_validator: empty scheme" []), r)
      else match m !! s with
      | Some _ => (Some (Errorf "parameter_validator: scheme %q already registered" [AStr s]), r)
      | None => (None, Some (<[s := v]> m))
      end
  end.

(** [src/parameters.go:ParameterValidatorRegistry.Find] *)
Definition find_validator (r : option ParameterValidatorRegistry) (schemeID : string)
  : result ParameterValidator :=
  match r with
  | None => Err (Errorf "parameter_validator: nil registry" [])
  | Some m =>
      match m !! schemeID with
      | None => Err (Errorf "parameter_validator: no validator for scheme %q" [AStr schemeID])
      | Some v => Ok v
      end
  end.

(** [src/parameters.go:ParameterValidatorRegistry.Reset] *)
Definition reset_validators (r : option ParameterValidatorRegistry) : option ParameterValidatorRegistry :=
  match r with None => None | Some _ => Some ∅ end.
(** [src/parameters.go:ParameterValidatorRegistry.Len] *)
Definition validators_Len (r : option ParameterValidatorRegistry) : Z :=
  match r with None => 0 | Some m => Z.of_nat (size m) end.
(** [src/parameters.go:ParameterValidatorRegistry.Keys] up to the range order. *)
Definition validators_Keys (r : option ParameterValidatorRegistry) : list string :=
  match r with None => [] | Some m => map fst (map_to_list m) end.

(** [src/parameters.go:ParameterValidatorRegistry.ValidateCapability] *)
Definition ValidateCapability (r : option ParameterValidatorRegistry) (granted declared : Capability)
  : option error :=
  match r with
  | None => None
  | Some _ =>
      match find_validator r (SchemeId declared) with
      | Err _ => None
      | Ok v => Validate_param v granted declared
      end
  end.

(** [src/parameters.go:189-191 init] the built-in registry. *)
Definition builtinParameterValidators : ParameterValidatorRegistry :=
  default ∅ (register_validator (Some NewParameterValidatorRegistry) (Some MaxRowsValidator)).2.

(** * Properties *)

(** The row-limit validator passes exactly when both limits parse and the
    declared one is absent, unlimited by the grant, or at most the granted
    one. *)
Theorem max_rows_within_boundary granted declared :
  maxRows_Validate granted declared = None <->
  exists g d, parseMaxRows (Parameters granted) = Ok g /\ parseMaxRows (Parameters declared) = Ok d /\
    match g, d with Some g, Some d => 0 <= d <= g | _, _ => True end.
Proof.
  unfold maxRows_Validate.
  assert (forall raw n, parseMaxRows raw = Ok (Some n) -> 0 <= n) as G.
  { intros raw n. unfold parseMaxRows. destruct (slen _ =? 0); [done|].
    destruct (unmarshal _ _) as [[k|]|]; try done. destruct (Z.ltb_spec k 0); [done|]. by intros [= <-]. }
  destruct (parseMaxRows (Parameters granted)) as [g|e] eqn:Eg; [|naive_solver].
  destruct (parseMaxRows (Parameters declared)) as [[d|]|e] eqn:Ed; [| |naive_solver].
  - destruct g as [g|]; [|naive_solver]. apply G in Ed. destruct (Z.ltb_spec g d).
    + split; [done|]. intros (? & ? & [= <-] & [= <-] & ?). lia.
    + split; [|done]. intros _. eexists _, _. split; [done|]. split; [done|]. simpl. lia.
  - split; [|done]. intros _. eexists _, _. split; [done|]. split; [done|]. by destruct g.
Qed.

Example max_rows_sample :
  let c p := {| SchemeId := "report"; CapabilityId := "query"; Parameters := dq p |} in
  ValidateCapability (Some builtinParameterValidators) (c "{'max_rows':10}") (c "{'max_rows':10}") = None /\
  ValidateCapability (Some builtinParameterValidators) (c "{'max_rows':10}") (c "{'max_rows':11}") <> None /\
  ValidateCapability (Some builtinParameterValidators) (c "{}") (c "{'MAX_ROWS':11}") = None.
Proof. vm_compute. repeat split; congruence. Qed.
