(* ===== verification/Spiffe.v ===== *)
(** SPIFFE identities ([src/spiffe.go]): extraction from a certificate, parsing,
    and the canonical form allowlists compare.  [url.Parse] is a parameter: the
    scheme, host name and path of a text. *)
From S2P Require Import Prelude GoStrings GoTime GoJson Types.
From Stdlib Require Import Ascii.
Local Open Scope char_scope.
Local Open Scope string_scope.
Local Open Scope Z_scope.
Local Open Scope list_scope.

(** * Definitions *)

(** [src/spiffe.go:SPIFFEID] *)
Record SPIFFEID := { TrustDomain : string; Path : string }.

#[export] Instance SPIFFEID_eq_dec : EqDecision SPIFFEID.
Proof. solve_decision. Defined.

(** [src/spiffe.go:SPIFFEID.String] *)
Definition SPIFFEID_String (s : option SPIFFEID) : string :=
  match s with None => "" | Some s => "spiffe://" +:+ TrustDomain s +:+ Path s end.
(** [src/spiffe.go:SPIFFEID.Equal] *)
Definition SPIFFEID_Equal (s other : option SPIFFEID) : bool :=
  match s, other with
  | Some s, Some o => String.eqb (TrustDomain s) (TrustDomain o) && String.eqb (Path s) (Path o)
  | None, None => true
  | _, _ => false
  end.

(** [src/spiffe.go:ExtractSPIFFEIDFromCert] *)
Definition ExtractSPIFFEIDFromCert (cert : Certificate) : string :=
  match List.find (fun u => String.eqb u.1 "spiffe") (URIs cert) with
  | Some u => u.2
  | None => ""
  end.

(** [src/spiffe.go:validTrustDomainCharset] *)
Fixpoint validTrustDomainCharset (td : string) : bool :=
  match td with
  | EmptyString => true
  | String c td' =>
      (((97 <=? code c) && (code c <=? 122)) || ((48 <=? code c) && (code c <=? 57)) ||
       Ascii.eqb c "-" || Ascii.eqb c "_" || Ascii.eqb c ".") && validTrustDomainCharset td'
  end.

(** The host of an URI up to its first slash, and the rest. *)
Fixpoint cut_slash (s : string) : option (string * string) :=
  match s with
  | EmptyString => None
  | String c s' =>
      if Ascii.eqb c "/" then Some ("", s)
      else match cut_slash s' with Some (a, b) => Some (String c a, b) | None => None end
  end.

(** [src/spiffe.go:canonicalSPIFFEID] *)
Definition canonicalSPIFFEID (id : string) : string :=
  let p := "spiffe://" in
  if negb (has_prefix id p) then id
  else let rest := trim_prefix id p in
       match cut_slash rest with
       | None => p +:+ ToLower rest
       | Some (host, path) => p +:+ ToLower host +:+ path
       end.

(** [src/spiffe.go:VerifySPIFFESAN] *)
Definition VerifySPIFFESAN (cert : Certificate) (expectedID : string) : bool :=
  String.eqb (canonicalSPIFFEID (ExtractSPIFFEIDFromCert cert)) (canonicalSPIFFEID expectedID).

Class URLParser := { url_Parse : string -> result (string * string * string) }.

Section Parse.
  Context {UP : URLParser}.

(** [src/spiffe.go:ParseSPIFFEID] *)
Definition ParseSPIFFEID (id : string) : result SPIFFEID :=
  match url_Parse id with
  | Err err => Err err
  | Ok (scheme, host, path) =>
      if negb (String.eqb scheme "spiffe") then Err (ErrNew "not a SPIFFE ID")
      else
        let trustDomain := ToLower host in
        if String.eqb trustDomain "" then Err (ErrNew "empty trust domain")
        else if negb (validTrustDomainCharset trustDomain) then
          Err (ErrNew "trust domain contains invalid characters")
        else if negb (contains_byte "." trustDomain) then
          Err (ErrNew "trust domain must contain at least one dot")
        else Ok {| TrustDomain := trustDomain; Path := if String.eqb path "" then "/" else path |}
  end.

(** [src/spiffe.go:ExtractSPIFFEID] *)
Definition ExtractSPIFFEID (cert : option Certificate) : option SPIFFEID :=
  match cert with
  | None => None
  | Some cert =>
      let raw := ExtractSPIFFEIDFromCert cert in
      if String.eqb raw "" then None
      else match ParseSPIFFEID raw with Ok s => Some s | Err _ => None end
  end.
End Parse.

(** * Lemmas *)
Lemma cut_slash_Some s host path :
  cut_slash s = Some (host, path) <->
  s = (host +:+ path)%string /\ contains_byte "/" host = false /\ has_prefix path "/" = true.
Proof.
  revert host path. induction s as [|c s IH]; intros host path; simpl.
  { split; [done|]. intros (H & _ & Hp). destruct host, path; simpl in H; try done. }
  destruct (Ascii.eqb_spec c "/") as [->|Hne].
  - split; [intros [= <- <-]; split; [done|]; split; [done|]; by destruct s|]. intros (H & Hh & Hp). destruct host as [|d host].
    + simpl in H. by subst.
    + simpl in H, Hh. injection H as <- _. by rewrite Ascii.eqb_refl in Hh.
  - destruct (cut_slash s) as [[a b]|] eqn:E.
    + destruct (proj1 (IH a b) eq_refl) as (-> & Ha & Hb). split.
      * intros [= <- <-]. split; [done|]. split; [|done]. simpl.
        rewrite (proj2 (Ascii.eqb_neq _ _)); [done|congruence].
      * intros (H & Hh & Hp). destruct host as [|d host].
        { simpl in H. subst path. simpl in Hp. destruct c as [[] [] [] [] [] [] [] []]; done. }
        simpl in H, Hh. injection H as <- H. bools.
        assert (Some (a, b) = Some (host, path)) as [= <- <-] by (apply IH; auto). done.
    + split; [done|]. intros (H & Hh & Hp). destruct host as [|d host].
      { simpl in H. subst path. simpl in Hp. destruct c as [[] [] [] [] [] [] [] []]; done. }
      simpl in H, Hh. injection H as <- H. bools.
      assert (None = Some (host, path)) by (apply IH; auto). done.
Qed.

Lemma cut_slash_None s : cut_slash s = None <-> contains_byte "/" s = false.
Proof.
  induction s as [|c s IH]; simpl; [done|].
  destruct (Ascii.eqb_spec c "/") as [->|Hne].
  - done.
  - cbn [orb]. destruct (cut_slash s) as [[]|]; split; try done; [intros H; by apply IH in H|by intros _; apply IH].
Qed.

Definition spiffe_uri (host path : string) : string := "spiffe://" +:+ host +:+ path.
Definition path_form (path : string) : Prop := path = "" \/ has_prefix path "/" = true.

Lemma canonical_uri host path :
  contains_byte "/" host = false -> path_form path ->
  canonicalSPIFFEID (spiffe_uri host path) = spiffe_uri (ToLower host) path.
Proof.
  intros Hh Hp. unfold canonicalSPIFFEID, spiffe_uri. rewrite has_prefix_app. cbn [negb].
  unfold trim_prefix. rewrite has_prefix_app. rewrite sdrop_length_app.
  destruct Hp as [->|Hp].
  - rewrite !sapp_nil_r. by rewrite (proj2 (cut_slash_None host) Hh).
  - by rewrite (proj2 (cut_slash_Some (host +:+ path) host path)).
Qed.

Lemma uri_split h1 p1 h2 p2 :
  contains_byte "/" h1 = false -> path_form p1 -> contains_byte "/" h2 = false -> path_form p2 ->
  (h1 +:+ p1)%string = (h2 +:+ p2)%string -> h1 = h2 /\ p1 = p2.
Proof.
  intros H1 P1 H2 P2 H.
  destruct P1 as [->|P1], P2 as [->|P2]; rewrite ?sapp_nil_r in H.
  - done.
  - assert (cut_slash h1 = Some (h2, p2)) as E by (rewrite H; by apply cut_slash_Some).
    by rewrite (proj2 (cut_slash_None h1) H1) in E.
  - assert (cut_slash h2 = Some (h1, p1)) as E by (rewrite <- H; by apply cut_slash_Some).
    by rewrite (proj2 (cut_slash_None h2) H2) in E.
  - assert (cut_slash (h1 +:+ p1) = Some (h1, p1)) as E1 by by apply cut_slash_Some.
    assert (cut_slash (h1 +:+ p1) = Some (h2, p2)) as E2 by (rewrite H; by apply cut_slash_Some).
    rewrite E1 in E2. by injection E2.
Qed.

(** The allowlist comparison of SPIFFE identities is exact on the path and
    case-insensitive on the trust domain, and nothing looser. *)
Theorem spiffe_match_iff h1 p1 h2 p2
    (H1 : contains_byte "/" h1 = false) (P1 : path_form p1)
    (H2 : contains_byte "/" h2 = false) (P2 : path_form p2) :
  canonicalSPIFFEID (spiffe_uri h1 p1) = canonicalSPIFFEID (spiffe_uri h2 p2) <->
  ToLower h1 = ToLower h2 /\ p1 = p2.
Proof.
  rewrite !canonical_uri by done. unfold spiffe_uri. split; [|by intros [-> ->]].
  intros H%sapp_inj_l. apply uri_split in H; rewrite ?contains_byte_lower by done; auto.
Qed.

Lemma spiffe_match_iff_witness :
  canonicalSPIFFEID (spiffe_uri "Varwof.COM" "/agent") = canonicalSPIFFEID (spiffe_uri "varwof.com" "/agent") <->
  ToLower "Varwof.COM" = ToLower "varwof.com" /\ "/agent" = "/agent".
Proof.
  apply spiffe_match_iff; try reflexivity; right; reflexivity.
Defined.
