(* ===== verification/Bearer.v ===== *)
(** Bearer tokens ([src/jwt.go]): the verification of an AIC-JWT, the
    certificate synthesized from its claims, and the one-time use of its
    identifier.

    Package [aicjwt] is the class [AicJwt]: [Validate] checks the token's
    signature and claims and may present nonces to the replay store it is
    given, so it returns the store too.  The replay store is the only
    implementation in the repository, [NonceCache.ReplayStore]. *)
From S2P Require Import Prelude GoStrings GoTime GoJson Types Sha256 DelegationAuth NonceCache.
From S2P Require Import AdmissionTypes Credential.
Local Open Scope string_scope.
Local Open Scope Z_scope.
Local Open Scope list_scope.
Import ReplayStore.

(** * Definitions *)

(** [aicjwt.OuterClaims] and its parts; [Params] is the text of the claim. *)
Record JwtCapability := { Scheme : string; JID : string; JParams : string }.
Record JwtPrincipal := { JRealm : string; PID : string; JKeyHash : string }.
Record AicClaims := {
  JDelegationMode : string; JPrincipal : JwtPrincipal; JCapabilities : list JwtCapability;
  JConstraints : list JwtCapability
}.
Record OuterClaims := {
  Iss : string; Sub : string; Jti : string; Iat : Z; Exp : Z; Aic : option AicClaims
}.

(** [aicjwt.VerifyOptions] without the replay store. *)
Record VerifyOptions := {
  VNow : Time; IssuerKeys : gmap string (option PublicKey); VExpectedIssuer : string;
  VExpectedAudience : list string; VPresenterKey : option PublicKey; VRequireJtiNonceMatch : bool;
  VStatusChecker : bool
}.

Class AicJwt := {
  (** [Validate] at a clock reading of the store. *)
  Validate : string -> VerifyOptions -> option memReplayStore -> Time -> option error * option memReplayStore;
  (** The payload of [ParseCompact], and [json.Unmarshal] into [OuterClaims]. *)
  ParseCompact : string -> result bytes;
  Unmarshal_OuterClaims : bytes -> result OuterClaims;
  SPKIHash : Certificate -> result string;
  ModeRepresentative : string;
  asn1_Marshal_AIC : AIC -> result bytes;
  OIDAIC : string
}.

(** [src/jwt.go:JWTVerifier] *)
Record JWTVerifier := {
  roots : gmap string (option PublicKey); expectedIssuer : string; expectedAudience : list string;
  nonceStore : option memReplayStore
}.

(** [src/jwt.go:JWTVerifyOptions] *)
Record JWTVerifyOptions := {
  ExpectedIssuer : string; ExpectedAudience : list string; PresenterKey : option PublicKey;
  NonceStore : option memReplayStore; RequireJtiNonceMatch : bool; StatusChecker : bool
}.

(** [base64.RawURLEncoding]: the value of a character. *)
Definition b64_digit (c : Ascii.ascii) : option Z :=
  let z := code c in
  if (65 <=? z) && (z <=? 90) then Some (z - 65)
  else if (97 <=? z) && (z <=? 122) then Some (z - 71)
  else if (48 <=? z) && (z <=? 57) then Some (z + 4)
  else if z =? 45 then Some 62
  else if z =? 95 then Some 63
  else None.

(** The bytes of the digits [q] of a last quantum. *)
Definition b64_tail (q : list Z) : bytes :=
  match q with
  | [a; b] => [z_byte (Z.shiftl a 2 + Z.shiftr b 4)]
  | [a; b; c] => [z_byte (Z.shiftl a 2 + Z.shiftr b 4); z_byte (Z.land (Z.shiftl b 4 + Z.shiftr c 2) 255)]
  | _ => []
  end.

(** [base64.RawURLEncoding.DecodeString] with its error ignored: the bytes of
    the whole quanta before the first invalid character, and of the last
    quantum when there is none; newlines are skipped. *)
Fixpoint b64_decode (s : string) (q : list Z) : bytes :=
  match s with
  | EmptyString => b64_tail q
  | String c s' =>
      match b64_digit c with
      | Some d =>
          match q with
          | [a; b; e] => b64_tail [a; b; e] ++ z_byte (Z.land (Z.shiftl e 6 + d) 255) :: b64_decode s' []
          | _ => b64_decode s' (q ++ [d])
          end
      | None => if (code c =? 10) || (code c =? 13) then b64_decode s' q else []
      end
  end.

(** [time.Unix(sec, 0)]: the seconds since year 1 are an [int64]. *)
Definition time_Unix (sec : Z) : Time := (wrap64 (sec + 62135596800) - 62135596800) * Second.

(** [pkix.Name{CommonName: cn}.String()] of a valid UTF-8 text. *)
Fixpoint escape_value (first : bool) (s : string) : string :=
  match s with
  | EmptyString => ""
  | String c s' =>
      let z := code c in
      let special := existsb (Z.eqb z) [44; 43; 34; 92; 60; 62; 59] in
      let edge := (z =? 32) && (first || match s' with EmptyString => true | _ => false end) in
      let hash := (z =? 35) && first in
      if special || edge || hash then String (chr 92) (String c (escape_value false s'))
      else String c (escape_value false s')
  end.
Definition name_String (cn : string) : string :=
  if String.eqb cn "" then "" else "CN=" +:+ escape_value true cn.

(** [new(big.Int).SetBytes]: big-endian. *)
Definition big_SetBytes (l : bytes) : Z := foldl (fun n b => n * 256 + byte_z b) 0 l.

Section Verifier.
  Context {HF : HashFunction} {J : AicJwt}.

(** [src/jwt.go:NewJWTVerifier] *)
Definition NewJWTVerifier (cas : list (option Certificate)) : JWTVerifier := {|
  roots := foldl (fun m c =>
    match c with
    | None => m
    | Some c => match SPKIHash c with Ok kid => <[kid := CertPublicKey c]> m | Err _ => m end
    end) ∅ cas;
  expectedIssuer := ""; expectedAudience := []; nonceStore := None |}.

(** [src/jwt.go:SetBearerPolicy] *)
Definition SetBearerPolicy (v : option JWTVerifier) (issuer : string) (audience : list string)
    (nonces : option memReplayStore) : option JWTVerifier :=
  match v with
  | None => None
  | Some v => Some {| roots := roots v; expectedIssuer := issuer; expectedAudience := audience;
                      nonceStore := nonces |}
  end.

(** [src/jwt.go:modeToInt] *)
Definition modeToInt (mode : string) : Z := if String.eqb mode ModeRepresentative then 1 else 0.

(** [src/jwt.go:requestedLifetimeOf] the difference is an [int64]. *)
Definition requestedLifetimeOf (outer : OuterClaims) : Z :=
  if Iat outer <? Exp outer then
    let lt := wrap64 (Exp outer - Iat outer) in
    if 0 <? lt then lt else 3600
  else 3600.

(** [src/jwt.go:nonceFromJTI] *)
Definition nonceFromJTI (jti : string) : bytes := Sum256 (ascii_bytes jti).

(** [src/jwt.go:serialFromJWT] *)
Definition serialFromJWT (outer : OuterClaims) : Z :=
  let seed :=
    if String.eqb (Jti outer) "" then
      match Aic outer with Some a => PID (JPrincipal a) | None => "" end
    else Jti outer in
  let n := Z.abs (big_SetBytes (Sum256 (ascii_bytes seed))) in
  if Z.sgn n =? 0 then 1 else n.

Definition jwt_capability (c : JwtCapability) : Capability :=
  {| SchemeId := Scheme c; CapabilityId := JID c; Parameters := JParams c |}.

(** [src/jwt.go:jwtToAIC]; a [Reason] is its code and its description. *)
Definition jwtToAIC (outer : OuterClaims) (a : AicClaims) : AIC := {|
  AICVersion := 1;
  AgentId := if String.eqb (Sub outer) "" then PID (JPrincipal a) else Sub outer;
  AICPrincipal := {| Realm := JRealm (JPrincipal a); Identifier := PID (JPrincipal a);
                     KeyHash := b64_decode (JKeyHash (JPrincipal a)) []; HashAlgo := "" |};
  Capabilities := map jwt_capability (JCapabilities a);
  DelegationMode := modeToInt (JDelegationMode a);
  AuthorizationConstraints := map jwt_capability (JConstraints a);
  AICDelegation := {| SignatureAlgorithm := OIDSHA256; SignatureValue := [];
    Nonce := nonceFromJTI (Jti outer); DAReason := "JWT_BEARER: aic-jwt bearer authentication";
    RequestedLifetime := requestedLifetimeOf outer; DATimestamp := zero_time |} |}.

(** [src/jwt.go:SynthesizeCertFromJWT] *)
Definition SynthesizeCertFromJWT (outer : option OuterClaims) : result Certificate :=
  match outer with
  | None => Err (Errorf "jwt: missing aic claims" [])
  | Some outer =>
      match Aic outer with
      | None => Err (Errorf "jwt: missing aic claims" [])
      | Some a =>
          match asn1_Marshal_AIC (jwtToAIC outer a) with
          | Err err => Err (Errorf "jwt: marshal AIC extension: %w" [AWrap err])
          | Ok extVal =>
              let agentID := if String.eqb (Sub outer) "" then PID (JPrincipal a) else Sub outer in
              Ok {| SerialNumber := Some (serialFromJWT outer); CommonName := agentID;
                    Organization := []; OrganizationalUnit := []; Issuer := name_String (Iss outer); IssuerCN := Iss outer;
                    NotBefore := time_Unix (Iat outer); NotAfter := time_Unix (Exp outer);
                    RawSubjectPublicKeyInfo := []; CertPublicKey := None; Raw := [];
                    Subject := name_String agentID; RawIssuer := []; RawSubject := []; URIs := [];
                    Extensions := [(OIDAIC, extVal)] |}
          end
      end
  end.

(** [src/jwt.go:131-151 VerifyBearer] the first option given, if any, overrides
    the verifier's policy. *)
Definition bearer_options (v : JWTVerifier) (now : Time) (opts : list JWTVerifyOptions)
  : VerifyOptions :=
  match opts with
  | [] => {| VNow := now; IssuerKeys := roots v; VExpectedIssuer := expectedIssuer v;
             VExpectedAudience := expectedAudience v; VPresenterKey := None;
             VRequireJtiNonceMatch := false; VStatusChecker := false |}
  | o :: _ => {| VNow := now; IssuerKeys := roots v;
       VExpectedIssuer := if String.eqb (ExpectedIssuer o) "" then expectedIssuer v else ExpectedIssuer o;
       VExpectedAudience := if 0 <? zlen (ExpectedAudience o) then ExpectedAudience o else expectedAudience v;
       VPresenterKey := PresenterKey o; VRequireJtiNonceMatch := RequireJtiNonceMatch o;
       VStatusChecker := StatusChecker o |}
  end.
Definition bearer_store (v : JWTVerifier) (opts : list JWTVerifyOptions) : option memReplayStore :=
  match opts with
  | o :: _ => match NonceStore o with Some s => Some s | None => nonceStore v end
  | [] => nonceStore v
  end.

(** [src/jwt.go:parsePEMCerts] *)
Definition parsePEMCerts `{X509} (pemData : bytes) : result (list Certificate) :=
  match map_result x509_ParseCertificate
          (map snd (List.filter (fun b => String.eqb b.1 "CERTIFICATE") (pem_blocks pemData))) with
  | Err err => Err (Errorf "parse certificate: %w" [AWrap err])
  | Ok certs => Ok certs
  end.

(** [strings.FieldsFunc(spec, ...)] on commas and spaces. *)
Fixpoint fields_on (sep : Ascii.ascii -> bool) (s cur : string) : list string :=
  let emit rest := if String.eqb cur "" then rest else cur :: rest in
  match s with
  | EmptyString => emit []
  | String c s' => if sep c then emit (fields_on sep s' "") else fields_on sep s' (cur +:+ String c "")
  end.
Definition ca_files (spec : string) : list string :=
  fields_on (fun c => (code c =? 44) || (code c =? 32)) spec "".

(** [src/jwt.go:LoadJWTVerifier] no certificate is no verifier. *)
Definition LoadJWTVerifier `{X509} (ReadFile : string -> result bytes) (caFiles : list string)
  : result (option JWTVerifier) :=
  let load f :=
    match ReadFile f with
    | Err err => Err (Errorf "jwt: read CA %q: %w" [AStr f; AWrap err])
    | Ok pemData =>
        match parsePEMCerts pemData with
        | Err err => Err (Errorf "jwt: parse CA %q: %w" [AStr f; AWrap err])
        | Ok certs => Ok certs
        end
    end in
  match map_result load (concat (map ca_files caFiles)) with
  | Err err => Err err
  | Ok certs =>
      let certs := concat certs in
      if zlen certs =? 0 then Ok None else Ok (Some (NewJWTVerifier (map Some certs)))
  end.

(** The store's clock readings during a verification. *)
Record bearer_clock := { validate_now : Time; jti_now : Time }.

(** [src/jwt.go:170-178 VerifyBearer] *)
Definition check_jti (store : option memReplayStore) (jti : string) (now : Time)
  : option error * option memReplayStore :=
  match store with
  | None => (None, None)
  | Some s =>
      if String.eqb jti "" then (Some (Errorf "jwt: jti required for replay protection" []), Some s)
      else
        let '(r, s') := memReplayStore_CheckAndAdd s jti now in
        (match r with Some err => Some (Errorf "jwt: token replay detected: %w" [AWrap err]) | None => None end,
         Some s')
  end.

(** [src/jwt.go:VerifyBearer] the verdict, and the replay store in use after
    the call. *)
Definition VerifyBearer (v : JWTVerifier) (token : string) (now : Time) (opts : list JWTVerifyOptions)
    (clk : bearer_clock) : result (Certificate * OuterClaims) * option memReplayStore :=
  let store := bearer_store v opts in
  if Z.of_nat (size (roots v)) =? 0 then (Err (Errorf "jwt: no trust root configured" []), store)
  else
    let '(r, store) := Validate token (bearer_options v now opts) store (validate_now clk) in
    match r with
    | Some err => (Err (Errorf "jwt: validate: %w" [AWrap err]), store)
    | None =>
        match ParseCompact token with
        | Err err => (Err (Errorf "jwt: parse: %w" [AWrap err]), store)
        | Ok pb =>
            match Unmarshal_OuterClaims pb with
            | Err err => (Err (Errorf "jwt: payload: %w" [AWrap err]), store)
            | Ok outer =>
                let '(r, store) := check_jti store (Jti outer) (jti_now clk) in
                match r with
                | Some err => (Err err, store)
                | None =>
                    match SynthesizeCertFromJWT (Some outer) with
                    | Err err => (Err err, store)
                    | Ok cert => (Ok (cert, outer), store)
                    end
                end
            end
        end
    end.
End Verifier.

(** * Lemmas *)

(** ** base64

    The encoding without padding, for reference. *)
Definition b64_char (z : Z) : Ascii.ascii :=
  chr (if z <? 26 then z + 65 else if z <? 52 then z + 71 else if z <? 62 then z - 4
       else if z =? 62 then 45 else 95).
Fixpoint b64_encode (l : bytes) : string :=
  match l with
  | [] => ""
  | [x] => let a := byte_z x in
      String (b64_char (a / 4)) (String (b64_char (a mod 4 * 16)) "")
  | [x; y] => let a := byte_z x in let b := byte_z y in
      String (b64_char (a / 4)) (String (b64_char (a mod 4 * 16 + b / 16))
        (String (b64_char (b mod 16 * 4)) ""))
  | x :: y :: w :: l' => let a := byte_z x in let b := byte_z y in let c := byte_z w in
      String (b64_char (a / 4)) (String (b64_char (a mod 4 * 16 + b / 16))
        (String (b64_char (b mod 16 * 4 + c / 64)) (String (b64_char (c mod 64)) (b64_encode l'))))
  end.

Lemma b64_digit_char z : 0 <= z < 64 -> b64_digit (b64_char z) = Some z.
Proof.
  intros H. assert (forall n, (n < 64)%nat -> b64_digit (b64_char (Z.of_nat n)) = Some (Z.of_nat n)) as G.
  { intros n Hn. do 64 (destruct n as [|n]; [reflexivity|]). lia. }
  rewrite <- (Z2Nat.id z) by lia. apply G. lia.
Qed.

Lemma z_byte_eq z b : z = byte_z b -> z_byte z = b.
Proof. intros ->. apply z_byte_z. Qed.

Ltac b64_bits :=
  rewrite ?Z.shiftl_mul_pow2, ?Z.shiftr_div_pow2 by lia;
  change 255 with (Z.ones 8); rewrite ?Z.land_ones by lia;
  change (2 ^ 2) with 4; change (2 ^ 4) with 16; change (2 ^ 6) with 64; change (2 ^ 8) with 256;
  Z.div_mod_to_equations; lia.

Lemma b64_decode_encode l : b64_decode (b64_encode l) [] = l.
Proof.
  assert (forall n l, (length l <= n)%nat -> b64_decode (b64_encode l) [] = l) as G.
  2: { exact (G _ l (le_n _)). }
  clear l. induction n as [|n IH]; intros l Hl; [by destruct l; simpl in Hl; [|lia]|].
  destruct l as [|x [|y [|w l]]]; [done| | |];
    pose proof (byte_z_range x); try pose proof (byte_z_range y); try pose proof (byte_z_range w);
    cbn [b64_encode b64_decode];
    rewrite !b64_digit_char by (Z.div_mod_to_equations; lia); cbn [app b64_tail].
  - f_equal. apply z_byte_eq. b64_bits.
  - f_equal; [|f_equal]; apply z_byte_eq; b64_bits.
  - rewrite IH by (simpl in Hl; lia). f_equal; [|f_equal; [|f_equal]]; apply z_byte_eq; b64_bits.
Qed.

(** ** Serial numbers *)
Lemma big_SetBytes_from l n :
  foldl (fun n b => n * 256 + byte_z b) n l = n * 256 ^ Z.of_nat (length l) + big_SetBytes l.
Proof.
  unfold big_SetBytes. revert n. induction l as [|b l IH]; intros n; [simpl; lia|].
  cbn [foldl length]. rewrite IH, (IH (0 * 256 + byte_z b)), Nat2Z.inj_succ, Z.pow_succ_r by lia. ring.
Qed.

Lemma big_SetBytes_range l : 0 <= big_SetBytes l < 256 ^ Z.of_nat (length l).
Proof.
  induction l as [|b l IH]; [done|]. pose proof (byte_z_range b). unfold big_SetBytes. cbn [foldl length].
  rewrite big_SetBytes_from, Nat2Z.inj_succ, Z.pow_succ_r by lia. nia.
Qed.

Lemma big_SetBytes_inj l1 l2 :
  length l1 = length l2 -> big_SetBytes l1 = big_SetBytes l2 -> l1 = l2.
Proof.
  revert l2. induction l1 as [|a l1 IH]; intros [|b l2] Hl H; [done..|].
  injection Hl as Hl. unfold big_SetBytes in H. cbn [foldl] in H.
  rewrite !big_SetBytes_from, Hl in H. pose proof (big_SetBytes_range l1) as R1.
  pose proof (big_SetBytes_range l2) as R2. rewrite Hl in R1.
  assert (byte_z a = byte_z b) as E by nia. assert (big_SetBytes l1 = big_SetBytes l2) as E2 by nia.
  rewrite (IH l2 Hl E2). f_equal. by rewrite <- (z_byte_z a), E, z_byte_z.
Qed.

Lemma ascii_bytes_inj s t : ascii_bytes s = ascii_bytes t -> s = t.
Proof.
  unfold ascii_bytes. revert t. induction s as [|c s IH]; intros [|d t]; try done.
  cbn [String.list_ascii_of_string map]. intros H. injection H as Hc Hs. f_equal; [|by apply IH].
  apply code_inj. pose proof (code_range c). pose proof (code_range d).
  apply (f_equal byte_z) in Hc. rewrite !byte_z_byte, !Z.mod_small in Hc by lia. done.
Qed.

Section BearerFacts.
  Context {HF : HashFunction} {J : AicJwt}.

Lemma serialFromJWT_jti outer : Jti outer <> "" ->
  serialFromJWT outer = let n := big_SetBytes (Sum256 (ascii_bytes (Jti outer))) in if n =? 0 then 1 else n.
Proof.
  intros H. unfold serialFromJWT. rewrite (proj2 (String.eqb_neq _ _) H). cbv zeta.
  pose proof (big_SetBytes_range (Sum256 (ascii_bytes (Jti outer)))).
  rewrite Z.abs_eq by lia. destruct (Z.eqb_spec (big_SetBytes (Sum256 (ascii_bytes (Jti outer)))) 0) as [->|Hne]; [done|].
  destruct (Z.eqb_spec (Z.sgn (big_SetBytes (Sum256 (ascii_bytes (Jti outer))))) 0) as [Hz|]; [|done].
  exfalso. apply Hne. by apply Z.sgn_null_iff.
Qed.

(** ** Verification *)

(** What [SynthesizeCertFromJWT] makes of claims. *)
Definition carries (outer : OuterClaims) (cert : Certificate) : Prop :=
  exists a extVal, Aic outer = Some a /\ asn1_Marshal_AIC (jwtToAIC outer a) = Ok extVal /\
    Extensions cert = [(OIDAIC, extVal)] /\ SerialNumber cert = Some (serialFromJWT outer) /\
    CommonName cert = AgentId (jwtToAIC outer a) /\ Issuer cert = name_String (Iss outer) /\
    NotBefore cert = time_Unix (Iat outer) /\ NotAfter cert = time_Unix (Exp outer).

Lemma Synthesize_carries outer cert :
  SynthesizeCertFromJWT (Some outer) = Ok cert -> carries outer cert.
Proof.
  unfold SynthesizeCertFromJWT. destruct (Aic outer) as [a|] eqn:Ea; [|done].
  destruct (asn1_Marshal_AIC _) as [ext|] eqn:Em; [|done]. intros [= <-]. exists a, ext. by repeat split.
Qed.

Lemma check_jti_Ok store jti now store' :
  check_jti store jti now = (None, store') ->
  (store = None /\ store' = None) \/
  exists s, store = Some s /\ jti <> "" /\ memReplayStore_CheckAndAdd s jti now =
    (None, (memReplayStore_CheckAndAdd s jti now).2) /\ store' = Some (memReplayStore_CheckAndAdd s jti now).2.
Proof.
  unfold check_jti. destruct store as [s|]; [|intros [= <-]; by left].
  destruct (String.eqb_spec jti ""); [done|].
  destruct (memReplayStore_CheckAndAdd s jti now) as [[e|] s'] eqn:E; [done|]. intros [= <-].
  right. exists s. by rewrite E.
Qed.

(** The stages of an accepted token. *)
Lemma VerifyBearer_Ok v token now opts clk cert outer store' :
  VerifyBearer v token now opts clk = (Ok (cert, outer), store') ->
  roots v <> ∅ /\
  exists store pb,
    Validate token (bearer_options v now opts) (bearer_store v opts) (validate_now clk) = (None, store) /\
    ParseCompact token = Ok pb /\ Unmarshal_OuterClaims pb = Ok outer /\
    check_jti store (Jti outer) (jti_now clk) = (None, store') /\
    SynthesizeCertFromJWT (Some outer) = Ok cert.
Proof.
  unfold VerifyBearer. destruct (Z.eqb_spec (Z.of_nat (size (roots v))) 0) as [|Hne]; [done|].
  destruct (Validate _ _ _ _) as [[e|] store] eqn:Ev; [done|].
  destruct (ParseCompact token) as [pb|] eqn:Ep; [|done].
  destruct (Unmarshal_OuterClaims pb) as [o|] eqn:Eu; [|done].
  destruct (check_jti store (Jti o) _) as [[e|] s'] eqn:Ej; [done|].
  destruct (SynthesizeCertFromJWT (Some o)) as [c|] eqn:Es; [|done]. intros [= <- <- <-].
  split; [intros E; by rewrite E, map_size_empty in Hne|]. by exists store, pb.
Qed.

(** [Validate] presents nonces to the store and touches it in no other way. *)
Class ValidatePresents : Prop := {
  Validate_presents : forall token o store t, exists ns,
    (Validate token o store t).2 = option_map (fun s => run s (map (fun n => (n, t)) ns)) store
}.

Lemma run_app s l1 l2 : run s (l1 ++ l2) = run (run s l1) l2.
Proof. unfold run. by rewrite foldl_app. Qed.

Lemma run_ttl s evs : ttl (run s evs) = ttl s.
Proof.
  revert s. induction evs as [|ev evs IH]; intros s; [done|]. cbn [run foldl] in *.
  change (ttl (run (memReplayStore_CheckAndAdd s ev.1 ev.2).2 evs) = ttl s).
  rewrite IH. apply memReplayStore_CheckAndAdd_config.
Qed.

(** An accepted token's identifier is marked in the store it leaves. *)
Lemma VerifyBearer_marks `{ValidatePresents} v token now opts clk cert outer store' s :
  VerifyBearer v token now opts clk = (Ok (cert, outer), store') -> bearer_store v opts = Some s ->
  0 < ttl s -> exists s', store' = Some s' /\ seen s' !! Jti outer = Some (jti_now clk) /\ ttl s' = ttl s.
Proof.
  intros Hv Hs Ht. apply VerifyBearer_Ok in Hv as (_ & store & pb & Hval & _ & _ & Hj & _).
  destruct (Validate_presents token (bearer_options v now opts) (bearer_store v opts) (validate_now clk)) as [ns Hns].
  rewrite Hval, Hs in Hns. cbn in Hns. subst store.
  apply check_jti_Ok in Hj as [[? _]|(s1 & [= <-] & _ & Hc & ->)]; [done|].
  eexists. split; [done|]. split.
  - apply accepted_marks; [by rewrite run_ttl|by rewrite Hc].
  - by rewrite (proj1 (memReplayStore_CheckAndAdd_config _ _ _)), run_ttl.
Qed.

(** * Properties *)

(** C18: an accepted bearer token passed the verifier's validation under its trust
    roots, with the issuer, the audience and the replay store of the deployment
    wherever the caller's first option gives none of its own; what it gives takes
    the place of the deployment's, which the comment on the function denies (see
    [static_policy_overridden]; the decision itself gives no option). Its
    identifier was not empty and not yet used when a replay store is in force,
    and the certificate it is turned into carries the token's own claims: its
    validity, its issuer, its agent and the AIC of its claims. *)
Theorem accepted_bearer_validated v token now opts clk cert outer store'
    (H : VerifyBearer v token now opts clk = (Ok (cert, outer), store')) :
  roots v <> ∅ /\ carries outer cert /\
  (exists pb, ParseCompact token = Ok pb /\ Unmarshal_OuterClaims pb = Ok outer) /\
  exists vo store, Validate token vo (bearer_store v opts) (validate_now clk) = (None, store) /\
    VNow vo = now /\ IssuerKeys vo = roots v /\
    VExpectedIssuer vo = (match head opts with
      | Some o => if String.eqb (ExpectedIssuer o) "" then expectedIssuer v else ExpectedIssuer o
      | None => expectedIssuer v end) /\
    VExpectedAudience vo = (match head opts with
      | Some o => if 0 <? zlen (ExpectedAudience o) then ExpectedAudience o else expectedAudience v
      | None => expectedAudience v end) /\
    bearer_store v opts = (match head opts with
      | Some o => match NonceStore o with Some s => Some s | None => nonceStore v end
      | None => nonceStore v end) /\
    forall s, store = Some s -> Jti outer <> "" /\ seen s !! Jti outer = None.
Proof.
  apply VerifyBearer_Ok in H as (Hr & store & pb & Hval & Hp & Hu & Hj & Hs).
  split; [done|]. split; [by apply Synthesize_carries|]. split; [by exists pb|].
  exists (bearer_options v now opts), store. split; [done|]. do 5 (split; [by destruct opts|]). intros s ->.
  apply check_jti_Ok in Hj as [[? _]|(s1 & [= <-] & Hne & Hc & _)]; [done|]. split; [done|].
  destruct (seen s !! Jti outer) as [t|] eqn:E; [|done].
  exfalso. apply (memReplayStore_CheckAndAdd_seen s (Jti outer) (jti_now clk) t E). by rewrite Hc.
Qed.

(** A token is used once: after a token was accepted, for the store's
    retention time and whatever nonces are presented to the store in between,
    no token with the same identifier is accepted by a verifier using that
    store. *)
Theorem bearer_single_use `{ValidatePresents} v1 v2 token1 token2 now1 now2 opts1 opts2 clk1 clk2
    cert1 cert2 outer1 outer2 s s1 store2 evs
    (H1 : VerifyBearer v1 token1 now1 opts1 clk1 = (Ok (cert1, outer1), Some s1))
    (Hs : bearer_store v1 opts1 = Some s) (Ht : 0 < ttl s)
    (H2 : VerifyBearer v2 token2 now2 opts2 clk2 = (Ok (cert2, outer2), store2))
    (Hs2 : bearer_store v2 opts2 = Some (run s1 evs))
    (Hevs : Forall (fun ev => ev.2 <= jti_now clk1 + ttl s) evs)
    (Hval : validate_now clk2 <= jti_now clk1 + ttl s) :
  Jti outer2 <> Jti outer1.
Proof.
  intros Hj. destruct (VerifyBearer_marks _ _ _ _ _ _ _ _ _ H1 Hs Ht) as (s' & [= <-] & Hm & Httl).
  apply VerifyBearer_Ok in H2 as (_ & store & pb & Hv2 & _ & _ & Hc & _).
  destruct (Validate_presents token2 (bearer_options v2 now2 opts2) (bearer_store v2 opts2) (validate_now clk2)) as [ns Hns].
  rewrite Hv2, Hs2 in Hns. cbn in Hns. subst store. rewrite <- run_app, Hj in Hc.
  apply check_jti_Ok in Hc as [[? _]|(s3 & [= <-] & _ & Hc & _)]; [done|].
  refine (memReplayStore_CheckAndAdd_seen _ _ (jti_now clk2) (jti_now clk1) _ _); [|by rewrite Hc].
  apply run_keeps_marker; [done|]. rewrite Httl. apply Forall_app. split; [done|].
  apply Forall_map, Forall_true. done.
Qed.

(** The synthetic serial numbers are positive and tell tokens apart: two
    tokens with different identifiers have the same serial only if SHA-256
    collides on the identifiers, or maps one of them to zero. *)
Theorem bearer_serials_distinct o1 o2
    (H1 : Jti o1 <> "") (H2 : Jti o2 <> "") (Hne : Jti o1 <> Jti o2) :
  0 < serialFromJWT o1 /\
  (serialFromJWT o1 = serialFromJWT o2 ->
   collision (ascii_bytes (Jti o1)) (ascii_bytes (Jti o2)) \/
   exists o, (o = o1 \/ o = o2) /\ big_SetBytes (Sum256 (ascii_bytes (Jti o))) = 0).
Proof.
  rewrite !serialFromJWT_jti by done. cbv zeta.
  pose proof (big_SetBytes_range (Sum256 (ascii_bytes (Jti o1)))).
  destruct (Z.eqb_spec (big_SetBytes (Sum256 (ascii_bytes (Jti o1)))) 0) as [E1|E1].
  { split; [lia|]. intros _. right. exists o1. auto. }
  destruct (Z.eqb_spec (big_SetBytes (Sum256 (ascii_bytes (Jti o2)))) 0) as [E2|E2].
  { split; [lia|]. intros _. right. exists o2. auto. }
  split; [lia|]. intros E. left. split; [by intros ?%ascii_bytes_inj|].
  apply big_SetBytes_inj in E; [done|]. by rewrite !Sum256_length.
Qed.

(** The key hash an honest token carries (unpadded base64url) is the key
    hash of the AIC it is turned into. *)
Theorem bearer_key_hash_roundtrip outer a kh
    (Hk : JKeyHash (JPrincipal a) = b64_encode kh) : KeyHash (AICPrincipal (jwtToAIC outer a)) = kh.
Proof. cbn [jwtToAIC AICPrincipal KeyHash]. rewrite Hk. apply b64_decode_encode. Qed.
End BearerFacts.

(** * Concrete instances

    A token is its identifier; validation accepts what names the verifier's
    issuer and presents a delegation nonce to the store. *)
Section Witnesses.
  #[local] Existing Instance sha256.

Definition toy_claims (jti : string) : OuterClaims := {|
  Iss := "ca, inc"; Sub := "agent"; Jti := jti; Iat := 100; Exp := 400;
  Aic := Some {| JDelegationMode := "representative";
    JPrincipal := {| JRealm := "pki"; PID := "alice"; JKeyHash := "AQID" |};
    JCapabilities := [{| Scheme := "db"; JID := "read"; JParams := "" |}]; JConstraints := [] |} |}.
Definition toy_jwt : AicJwt := {|
  Validate := fun token o store t =>
    (if String.eqb (VExpectedIssuer o) "ca, inc" then None else Some (ErrNew "issuer"),
     option_map (fun s => run s (map (fun n => (n, t)) ["da-nonce"])) store);
  ParseCompact := fun token => Ok (ascii_bytes token);
  Unmarshal_OuterClaims := fun pb => Ok (toy_claims (if bool_decide (pb = ascii_bytes "t1") then "j1" else "j2"));
  SPKIHash := fun c => Ok (CommonName c); ModeRepresentative := "representative";
  asn1_Marshal_AIC := fun a => Ok (ascii_bytes (AgentId a)); OIDAIC := "1.3.6.1.4.1" |}.
  #[local] Existing Instance toy_jwt.

#[local] Instance toy_presents : ValidatePresents.
Proof. constructor. intros. exists ["da-nonce"]. reflexivity. Qed.

Definition toy_verifier : JWTVerifier := {|
  roots := {["kid" := None]}; expectedIssuer := "ca, inc"; expectedAudience := [];
  nonceStore := Some (NewReplayNonceStore 0 0) |}.
Definition toy_bearer_clock (t : Time) : bearer_clock := {| validate_now := t; jti_now := t |}.
Definition first_use := VerifyBearer toy_verifier "t1" 200 [] (toy_bearer_clock 0).
Definition first_store : memReplayStore :=
  {| seen := <["j1" := 0]> {["da-nonce" := 0]}; ttl := 24 * Hour; max := 65536 |}.
Definition first_cert : Certificate :=
  match first_use.1 with Ok (c, _) => c | Err _ => toy_cert 0 end.

Lemma first_use_ok : first_use = (Ok (first_cert, toy_claims "j1"), Some first_store).
Proof. vm_compute. reflexivity. Qed.

(** The certificate's names and times; the issuer's comma is escaped. *)
Example first_cert_fields : CommonName first_cert = "agent" /\ Issuer first_cert = "CN=ca\, inc" /\
  NotBefore first_cert = 100 * Second /\ NotAfter first_cert = 400 * Second /\
  KeyHash (AICPrincipal (jwtToAIC (toy_claims "j1") match Aic (toy_claims "j1") with
    Some a => a | None => {| JDelegationMode := ""; JPrincipal := {| JRealm := ""; PID := ""; JKeyHash := "" |};
                             JCapabilities := []; JConstraints := [] |} end)) = [z_byte 1; z_byte 2; z_byte 3].
Proof. vm_compute. repeat split; reflexivity. Qed.

Lemma accepted_bearer_validated_witness : carries (toy_claims "j1") first_cert.
Proof.
  exact (proj1 (proj2 (accepted_bearer_validated toy_verifier "t1" 200 [] (toy_bearer_clock 0) _ _ _ first_use_ok))).
Defined.

(** A verifier that expects another issuer and has no replay store: its caller
    brings an issuer of its own, and the token is accepted. *)
Lemma static_policy_overridden : exists cert outer store, VerifyBearer
    {| roots := {["kid" := None]}; expectedIssuer := "other"; expectedAudience := ["here"]; nonceStore := None |}
    "t1" 200 [{| ExpectedIssuer := "ca, inc"; ExpectedAudience := ["there"]; PresenterKey := None; NonceStore := None;
                 RequireJtiNonceMatch := false; StatusChecker := false |}] (toy_bearer_clock 0)
  = (Ok (cert, outer), store).
Proof. eexists _, _, _. vm_compute. reflexivity. Qed.

(** A second token of the same store, with another identifier. *)
Definition next_verifier : JWTVerifier := {|
  roots := {["kid" := None]}; expectedIssuer := "ca, inc"; expectedAudience := [];
  nonceStore := Some (run first_store [("other", Hour)]) |}.
Definition second_use := VerifyBearer next_verifier "t2" 200 [] (toy_bearer_clock (2 * Hour)).
Definition second_cert : Certificate :=
  match second_use.1 with Ok (c, _) => c | Err _ => toy_cert 0 end.

Lemma second_use_ok : second_use = (Ok (second_cert, toy_claims "j2"), second_use.2).
Proof. vm_compute. reflexivity. Qed.

Lemma bearer_single_use_witness : Jti (toy_claims "j2") <> Jti (toy_claims "j1").
Proof.
  refine (bearer_single_use toy_verifier next_verifier "t1" "t2" 200 200 [] [] (toy_bearer_clock 0)
    (toy_bearer_clock (2 * Hour)) first_cert second_cert (toy_claims "j1") (toy_claims "j2")
    (NewReplayNonceStore 0 0) first_store second_use.2 [("other", Hour)] first_use_ok eq_refl _
    second_use_ok eq_refl _ _); [reflexivity| |vm_compute; discriminate].
  repeat constructor. vm_compute. discriminate.
Defined.

Lemma bearer_serials_distinct_witness : 0 < serialFromJWT (toy_claims "j1").
Proof.
  refine (proj1 (bearer_serials_distinct (toy_claims "j1") (toy_claims "j2") _ _ _)); discriminate.
Defined.

Lemma bearer_key_hash_roundtrip_witness :
  KeyHash (AICPrincipal (jwtToAIC (toy_claims "j1")
    {| JDelegationMode := ""; JPrincipal := {| JRealm := ""; PID := "alice"; JKeyHash := "AQIDBA" |};
       JCapabilities := []; JConstraints := [] |})) = [z_byte 1; z_byte 2; z_byte 3; z_byte 4].
Proof. apply bearer_key_hash_roundtrip. reflexivity. Defined.
End Witnesses.
