(* ===== verification/Evidence.v ===== *)
(** Decision records ([src/evidence_sink.go], [src/evidence_profile.go],
    [src/evidence_signing.go], [src/evidence_key.go], [src/admission_record.go]):
    the shape a deployment declares, the records an admission freezes, one per
    operation and authority source, and the record of a refusal that never
    reached the operation layer.

    The record and envelope formats of package [semantics] are the class
    [EvidenceSemantics].  A sink is a value of the configuration; its answer may
    depend on how many records it was handed before. *)
From S2P Require Import Prelude GoStrings GoTime GoJson Types Sha256 Constraints AdmissionTypes Clc Credential.
Local Open Scope string_scope.
Local Open Scope Z_scope.
Local Open Scope list_scope.

(** * Definitions *)

(** [semantics.Digest], [semantics.Subject], [semantics.Envelope] and the
    in-toto statement of an envelope's payload, the predicate unread. *)
Record Digest := { Alg : string; Value : bytes }.
Record StatementSubject := { SubjectName : string; SubjectDigest : list (string * string) }.
Record Envelope := { Payload : bytes; PayloadType : string; Signatures : list (string * bytes) }.
Record Statement := { StType : string; StSubject : list StatementSubject; PredicateType : string;
                      Predicate : string }.

(** [src/evidence_profile.go:RecorderDescriptor] *)
Record RecorderDescriptor := { RecID : string; RecKind : string; RecNote : string }.

(** [src/admission_record.go:AdmissionFact] *)
Record AdmissionFact := { FactType : string; FactDigest : Digest; FactNote : string }.
(** [src/admission_record.go:AdmissionIdentity] *)
Record AdmissionIdentity := { IPrincipal : string; IAgentID : string; ISerial : string; ISPIFFEID : string }.
(** [src/admission_record.go:AdmissionRecord] *)
Record AdmissionRecord := {
  Ver : string; Stage : string; Outcome : string; Reason : message; ARecorderID : string; RecAt : Time;
  Identity : AdmissionIdentity; RecFacts : list AdmissionFact
}.

(** [src/outcome_record.go:OutcomeRecord] *)
Record OutcomeRecord := {
  OVer : string; OOutcome : string; OAt : Time; ODecisionDigest : string; OOperationID : string;
  ORecorderID : string; OStatusCode : Z; ONote : string; OIdentity : AdmissionIdentity;
  OFacts : list AdmissionFact
}.

(** [src/admission_record.go:AdmissionRecordPredicateType] *)
Definition AdmissionRecordPredicateType := "https://varwof.com/aic/v1/admission-record".
(** [src/admission_record.go:AdmissionRecordVersion] *)
Definition AdmissionRecordVersion := "AIC-ADMISSION-RECORD-v1".

(** [src/evidence_sink.go:EvidenceOutcome] *)
Definition EvidenceAdmitted := "admitted".
Definition EvidenceRefused := "refused".

(** [src/evidence_sink.go:EvidenceContext] *)
Record EvidenceContext := {
  Facts : list AdmissionFact; RecorderID : string; OperationID : string; EMethod : string; EPath : string;
  TraceID : string; CtxPrincipal : string; AgentID : string; Serial : string; CtxOutcome : string; At : Time
}.

(** [src/evidence_sink.go:RecordRef] *)
Record RecordRef := { RefDigest : string; RefVerdict : string; RefPath : string }.

(** Package [semantics]: records, envelopes, digests and requirements. *)
Class EvidenceSemantics := {
  Requirement : Type;
  Requirement_Validate : Requirement -> option error;
  DecisionRecord : Type;
  RecVerdict : DecisionRecord -> string;
  InputDigest : DecisionRecord -> Digest;
  (** [RecordWith] under a context (nonce, instant, age in seconds), the source
      chain and the requirement. *)
  RecordWith : list Grant -> Operation -> string * Time * Z -> option (list SourceRef) ->
               option Requirement -> result DecisionRecord;
  NewEnvelope : DecisionRecord -> result Envelope;
  Envelope_Sign : Envelope -> string -> (bytes -> result bytes) -> result Envelope;
  DigestAlgSHA256 : string;
  StatementTypeInToto : string;
  PayloadTypeInToto : string;
  Unmarshal_Statement : bytes -> result Statement;
  CanonicalJSON_Statement : Statement -> result bytes;
  CanonicalJSON_Admission : string -> list StatementSubject -> string -> AdmissionRecord -> result bytes;
  CanonicalJSON_Outcome : string -> list StatementSubject -> string -> OutcomeRecord -> result bytes;
  DigestOf_profile : string -> string -> bool -> bool -> bool -> bool -> Z -> option Requirement -> result Digest;
  DigestOf_recorder : RecorderDescriptor -> result Digest;
  DigestOf_admission : AdmissionRecord -> result Digest;
  DigestOf_outcome : OutcomeRecord -> result Digest;
  DigestOf_operations : list Operation -> result Digest
}.

(** [src/evidence_profile.go:EvidenceProfile] *)
Record EvidenceProfile `{EvidenceSemantics} := {
  Name : string; Container : string; Decision_ : bool; Admission_ : bool; Outcome_ : bool;
  Sources_ : bool; Freshness : Duration; PRequirement : option Requirement
}.

(** [src/evidence_sink.go:EvidenceSink] the answer to the [n]-th record; a sink
    may also be an [OutcomeSink] ([src/outcome_record.go:OutcomeSink]). *)
Record EvidenceSink `{EvidenceSemantics} := {
  Emit : nat -> EvidenceContext -> DecisionRecord -> Envelope -> result RecordRef;
  EmitAdmission : nat -> EvidenceContext -> AdmissionRecord -> Envelope -> result RecordRef;
  EmitOutcomeRecord : option (EvidenceContext -> OutcomeRecord -> Envelope -> result RecordRef)
}.

(** [src/evidence_key.go:RecordSigner]: a key identifier and a signature
    function. *)
Record RecordSigner := { SignerKeyID : string; SignerSign : bytes -> result bytes }.

(** [src/evidence_sink.go:EvidenceConfig]; [HasOnError] and [HasGaps] say that
    the hook and the counter are set. *)
Record EvidenceConfig `{EvidenceSemantics} := {
  Sink : option EvidenceSink; Strict : bool; TTL : Duration; Audience : string;
  CfgRecorderID : string; HasOnError : bool; HasGaps : bool;
  Sign : option (bytes -> result bytes); KeyID : string; Signer : option RecordSigner;
  SignKeyFile : string; RequireSignature : bool; EmitOutcome : bool;
  CfgRequirement : option Requirement; Profile : option EvidenceProfile;
  Recorder : option RecorderDescriptor; profileNoDecision : bool
}.

(** [int64(d.Seconds())], exact for a duration of whole seconds. *)
Definition whole_seconds (d : Duration) : Z := Z.quot d Second.

(** What an emission reads: the nonce, the clock, and the order in which each
    tagging ranges over its map. *)
Record emission_env := {
  ev_nonce : string; ev_now : Time;
  ev_order : nat -> list (string * Digest) -> list (string * Digest)
}.

(** [src/evidence_sink.go:GapCounter]: its count, when there is one. *)
Definition GapCounter_Inc (g : option Z) : option Z :=
  match g with None => None | Some n => Some (wrap64 (n + 1)) end.
(** [src/evidence_sink.go:GapCounter.Count] *)
Definition GapCounter_Count (g : option Z) : Z := default 0 g.

Section Evidence.
  Context {ES : EvidenceSemantics} {CN : CapabilityNames} {CS : ClcSemantics} {HF : HashFunction}.

(** [src/evidence_profile.go:ContainerDSSEInToto] *)
Definition ContainerDSSEInToto := "dsse+in-toto".

(** [src/evidence_profile.go:builtinProfiles] *)
Definition builtinProfiles : list (string * EvidenceProfile) :=
  let p name adm out := (name, {| Name := name; Container := ContainerDSSEInToto; Decision_ := true;
    Admission_ := adm; Outcome_ := out; Sources_ := true; Freshness := 0; PRequirement := None |}) in
  [p "clc-decision@1" false false; p "clc-decision+admission@1" true false;
   p "clc-decision+admission+outcome@1" true true].

(** [src/evidence_profile.go:LookupEvidenceProfile] the known names sorted. *)
Definition LookupEvidenceProfile (name : string) : result EvidenceProfile :=
  match list_find (fun p => p.1 = name) builtinProfiles with
  | Some (_, p) => Ok p.2
  | None => Err (Errorf "evidence profile: unknown %q (known: %s)" [AStr name;
      AStr "clc-decision+admission+outcome@1, clc-decision+admission@1, clc-decision@1"])
  end.

(** [src/evidence_profile.go:EvidenceProfile.Validate] *)
Definition Profile_Validate (p : EvidenceProfile) : option error :=
  if String.eqb (Name p) "" then Some (Errorf "evidence profile: name required" [])
  else if negb (String.eqb (Container p) "") && negb (String.eqb (Container p) ContainerDSSEInToto)
  then Some (Errorf "evidence profile: unsupported container %q" [AStr (Container p)])
  else if Freshness p <? 0 then Some (Errorf "evidence profile: negative freshness" [])
  else if negb (Decision_ p) && negb (Admission_ p) && negb (Outcome_ p) then
    Some (Errorf "evidence profile: %s emits nothing" [AStr (Name p)])
  else match PRequirement p with Some r => Requirement_Validate r | None => None end.

(** [src/evidence_profile.go:EvidenceProfile.ID] *)
Definition Profile_ID (p : EvidenceProfile) : result Digest :=
  match Profile_Validate p with
  | Some err => Err err
  | None => DigestOf_profile (Name p) (Container p) (Decision_ p) (Admission_ p) (Outcome_ p) (Sources_ p)
              (whole_seconds (Freshness p)) (PRequirement p)
  end.

(** [&EvidenceConfig{}] *)
Definition zero_evidence_config : EvidenceConfig := {|
  Sink := None; Strict := false; TTL := 0; Audience := ""; CfgRecorderID := ""; HasOnError := false;
  HasGaps := false; Sign := None; KeyID := ""; Signer := None; SignKeyFile := ""; RequireSignature := false;
  EmitOutcome := false; CfgRequirement := None; Profile := None; Recorder := None; profileNoDecision := false |}.

(** [src/evidence_profile.go:EvidenceProfile.Apply] *)
Definition Apply (p : EvidenceProfile) (cfg : option EvidenceConfig) : result EvidenceConfig :=
  match Profile_Validate p with
  | Some err => Err err
  | None =>
      let c := default zero_evidence_config cfg in
      if negb (Decision_ p) then
        Ok {| Sink := Sink c; Strict := Strict c; TTL := TTL c; Audience := Audience c;
              CfgRecorderID := CfgRecorderID c; HasOnError := HasOnError c; HasGaps := HasGaps c;
              Sign := Sign c; KeyID := KeyID c; Signer := Signer c; SignKeyFile := SignKeyFile c;
              RequireSignature := RequireSignature c; EmitOutcome := Outcome_ p;
              CfgRequirement := CfgRequirement c; Profile := Profile c; Recorder := Recorder c;
              profileNoDecision := true |}
      else
        Ok {| Sink := Sink c; Strict := Strict c; TTL := Freshness p; Audience := Audience c;
              CfgRecorderID := CfgRecorderID c; HasOnError := HasOnError c; HasGaps := HasGaps c;
              Sign := Sign c; KeyID := KeyID c; Signer := Signer c; SignKeyFile := SignKeyFile c;
              RequireSignature := RequireSignature c; EmitOutcome := Outcome_ p;
              CfgRequirement := match PRequirement p with Some r => Some r | None => CfgRequirement c end;
              Profile := Some p; Recorder := Recorder c; profileNoDecision := profileNoDecision c |}
  end.

(** [src/evidence_key.go:signingKey] *)
Definition signingKey (cfg : option EvidenceConfig) : string * option (bytes -> result bytes) :=
  match cfg with
  | None => ("", None)
  | Some c =>
      match Signer c with
      | Some s => (SignerKeyID s, Some (SignerSign s))
      | None => match Sign c with Some f => (KeyID c, Some f) | None => ("", None) end
      end
  end.

(** [src/evidence_signing.go:signEnvelope] *)
Definition signEnvelope (env : Envelope) (cfg : EvidenceConfig) : result Envelope :=
  let '(keyID, sign) := signingKey (Some cfg) in
  match sign with
  | None => Ok env
  | Some f =>
      match Envelope_Sign env keyID f with
      | Ok env' => Ok env'
      | Err err => Err (Errorf "evidence: sign record: %w" [AWrap err])
      end
  end.

(** [src/admission_record.go:digestKey] *)
Definition digestKey (d : Digest) : result string :=
  if String.eqb (Alg d) DigestAlgSHA256 then Ok "sha256"
  else if String.eqb (Alg d) "sha-384" then Ok "sha384"
  else Err (Errorf "admission record: unsupported digest algorithm %q" [AStr (Alg d)]).

(** [src/evidence_profile.go:RecorderDescriptor.Digest] *)
Definition Recorder_Digest (r : RecorderDescriptor) : result Digest :=
  if String.eqb (RecID r) "" then Err (Errorf "recorder descriptor: id required" [])
  else DigestOf_recorder r.

(** [src/evidence_sink.go:EvidenceConfig.recorder] *)
Definition recorder (cfg : option EvidenceConfig) : option RecorderDescriptor :=
  match cfg with
  | None => None
  | Some c =>
      match Recorder c with
      | Some r => Some r
      | None => if String.eqb (CfgRecorderID c) "" then None
                else Some {| RecID := CfgRecorderID c; RecKind := "aic-verifier"; RecNote := "" |}
      end
  end.

(** [src/evidence_profile.go:235-247 tagEnvelope] every subject of the name is
    replaced; none, and one is appended. *)
Definition tag_subject (name : string) (digest : list (string * string)) (l : list StatementSubject)
  : list StatementSubject :=
  if existsb (fun s => String.eqb (SubjectName s) name) l then
    map (fun s => if String.eqb (SubjectName s) name
                  then {| SubjectName := SubjectName s; SubjectDigest := digest |} else s) l
  else l ++ [{| SubjectName := name; SubjectDigest := digest |}].

(** [src/evidence_profile.go:230-248 tagEnvelope] the loop over the map. *)
Fixpoint tag_subjects (add : list (string * Digest)) (l : list StatementSubject)
  : result (list StatementSubject) :=
  match add with
  | [] => Ok l
  | (name, id) :: add' =>
      match digestKey id with
      | Err err => Err err
      | Ok alg => tag_subjects add' (tag_subject name [(alg, hex_encode (Value id))] l)
      end
  end.

(** [src/evidence_profile.go:204-217 tagEnvelope] the identities to add. *)
Definition tag_identities (profile : option EvidenceProfile) (rec : option RecorderDescriptor)
  : result (list (string * Digest)) :=
  match (match profile with
         | Some p => if String.eqb (Name p) "" then Ok []
                     else match Profile_ID p with Err e => Err e | Ok id => Ok [("evidence-profile", id)] end
         | None => Ok []
         end) with
  | Err e => Err e
  | Ok l =>
      match rec with
      | Some r => if String.eqb (RecID r) "" then Ok l
                  else match Recorder_Digest r with
                       | Err e => Err e | Ok id => Ok (l ++ [("evidence-recorder", id)]) end
      | None => Ok l
      end
  end.

(** [src/evidence_profile.go:tagEnvelope] [order] is the order of the range. *)
Definition tagEnvelope (env : Envelope) (profile : option EvidenceProfile) (rec : option RecorderDescriptor)
    (order : list (string * Digest) -> list (string * Digest)) : result Envelope :=
  match tag_identities profile rec with
  | Err e => Err e
  | Ok [] => Ok env
  | Ok add =>
      match Unmarshal_Statement (Payload env) with
      | Err e => Err e
      | Ok st =>
          match tag_subjects (order add) (StSubject st) with
          | Err e => Err e
          | Ok subjects =>
              match CanonicalJSON_Statement {| StType := StType st; StSubject := subjects;
                      PredicateType := PredicateType st; Predicate := Predicate st |} with
              | Err e => Err e
              | Ok payload => Ok {| Payload := payload; PayloadType := PayloadType env;
                                    Signatures := Signatures env |}
              end
          end
      end
  end.

(** [src/evidence_sink.go:recorderNames] *)
Definition recorderNames (recorders : gmap string (list Grant)) : list string :=
  List.filter (fun n => bool_decide (is_Some (recorders !! n))) ["aic"; "principal-authorization"].

(** [src/admission_record.go:admissionRef] *)
Definition admissionRef (rec : AdmissionRecord) : result RecordRef :=
  match DigestOf_admission rec with
  | Err e => Err e
  | Ok d => Ok {| RefDigest := hex_encode (Value d); RefVerdict := Outcome rec; RefPath := "" |}
  end.

(** [src/evidence_sink.go:SlogSink.EmitOutcome] the reference it answers. *)
Definition slog_outcome (rec : OutcomeRecord) : RecordRef := {|
  RefDigest := match DigestOf_outcome rec with Ok d => hex_encode (Value d) | Err _ => "" end;
  RefVerdict := OOutcome rec; RefPath := "" |}.

(** [src/evidence_sink.go:241-292 SlogSink] the references it answers. *)
Definition SlogSink : EvidenceSink := {|
  Emit := fun _ _ rec _ => Ok {| RefDigest := hex_encode (Value (InputDigest rec));
                                 RefVerdict := RecVerdict rec; RefPath := "" |};
  EmitAdmission := fun _ _ rec _ => admissionRef rec;
  EmitOutcomeRecord := Some (fun _ rec _ => Ok (slog_outcome rec)) |}.

(** [src/evidence_sink.go:499-514 EmitDecisionRecords] one record and its
    envelope, the [n]-th of the emission. *)
Definition freeze (cfg : EvidenceConfig) (env : emission_env) (ctx : string * Time * Z)
    (sources : option (list SourceRef)) (n : nat) (grants : list Grant) (op : Operation)
  : result (DecisionRecord * Envelope) :=
  match RecordWith grants op ctx sources (CfgRequirement cfg) with
  | Err e => Err e
  | Ok rec =>
      match NewEnvelope rec with
      | Err e => Err e
      | Ok e0 =>
          match tagEnvelope e0 (Profile cfg) (recorder (Some cfg)) (ev_order env n) with
          | Err e => Err e
          | Ok e1 => match signEnvelope e1 cfg with Err e => Err e | Ok e2 => Ok (rec, e2) end
          end
      end
  end.

(** [src/evidence_sink.go:515-522 EmitDecisionRecords] *)
Definition emit_context (base : EvidenceContext) (od : OperationDecision) : EvidenceContext := {|
  Facts := Facts base; RecorderID := RecorderID base; OperationID := ODID od; EMethod := EMethod base;
  EPath := EPath base; TraceID := TraceID base; CtxPrincipal := CtxPrincipal base; AgentID := AgentID base;
  Serial := Serial base;
  CtxOutcome := if String.eqb (CtxOutcome base) "" then
      if bool_decide (ODVerdict od = VerdictDeny) then EvidenceRefused else EvidenceAdmitted
    else CtxOutcome base;
  At := At base |}.

(** What a sink was handed. *)
Record emitted := { em_ctx : EvidenceContext; em_rec : DecisionRecord; em_env : Envelope }.

(** [src/evidence_sink.go:495-530 EmitDecisionRecords] the pairs of operation
    and source in the order of the loops: the references, what was handed to
    the sink, and the error that stopped the emission, if any. *)
Fixpoint emit_all (cfg : EvidenceConfig) (sink : EvidenceSink) (env : emission_env)
    (ctx : string * Time * Z) (sources : option (list SourceRef)) (base : EvidenceContext)
    (recorders : gmap string (list Grant)) (n : nat) (pairs : list (OperationDecision * string))
  : list RecordRef * list emitted * option error :=
  match pairs with
  | [] => ([], [], None)
  | (od, name) :: pairs' =>
      let op := {| OpID := ODID od; OpParams := ODParams od |} in
      let wrap e := Errorf "evidence: %s: %w" [AStr name; AWrap e] in
      match freeze cfg env ctx sources n (default [] (recorders !! name)) op with
      | Err e => ([], [], Some (wrap e))
      | Ok (rec, envl) =>
          match Emit sink n (emit_context base od) rec envl with
          | Err e => ([], [], Some (wrap e))
          | Ok ref =>
              let '(refs, handed, err) := emit_all cfg sink env ctx sources base recorders (S n) pairs' in
              (ref :: refs, {| em_ctx := emit_context base od; em_rec := rec; em_env := envl |} :: handed, err)
          end
      end
  end.

Definition source_pairs (ops : list OperationDecision) (names : list string)
  : list (OperationDecision * string) := flat_map (fun od => map (fun n => (od, n)) names) ops.

(** [src/evidence_sink.go:479-487 EmitDecisionRecords] *)
Definition base_context (cfg : EvidenceConfig) (env : emission_env) (c : EvidenceContext) : EvidenceContext := {|
  Facts := Facts c; RecorderID := if String.eqb (RecorderID c) "" then CfgRecorderID cfg else RecorderID c;
  OperationID := OperationID c; EMethod := EMethod c; EPath := EPath c; TraceID := TraceID c;
  CtxPrincipal := CtxPrincipal c; AgentID := AgentID c; Serial := Serial c; CtxOutcome := CtxOutcome c;
  At := if IsZero (At c) then ev_now env else At c |}.

(** [src/evidence_sink.go:457-460 EmitDecisionRecords] the chain, when it builds. *)
Definition emission_sources (cert : option Certificate) (aic : option AIC) (userCert : option Certificate)
  : option (list SourceRef) :=
  match BuildSourceChain cert aic userCert with Ok c => Some c | Err _ => None end.
(** [src/evidence_sink.go:471-475 EmitDecisionRecords] the nonce of this emission,
    with the instant and the age when a TTL is configured. *)
Definition instance_ctx (cfg : EvidenceConfig) (env : emission_env) : string * Time * Z :=
  if 0 <? TTL cfg then (ev_nonce env, ev_now env, whole_seconds (TTL cfg)) else (ev_nonce env, zero_time, 0).
Definition sink_of (cfg : EvidenceConfig) : EvidenceSink := default SlogSink (Sink cfg).

(** [src/evidence_sink.go:EmitDecisionRecords] *)
Definition EmitDecisionRecords (env : emission_env) (cfg : option EvidenceConfig) (sinkCtx : EvidenceContext)
    (cert : option Certificate) (aic : option AIC) (pa : option PrincipalAuthorization)
    (userCert : option Certificate) (ops : list OperationDecision)
  : list RecordRef * list emitted * option error :=
  match cfg with
  | None => ([], [], None)
  | Some cfg =>
      let recorders := evidenceRecorders aic pa in
      if zlen ops =? 0 then ([], [], None)
      else if profileNoDecision cfg then ([], [], None)
      else if Z.of_nat (size recorders) =? 0 then ([], [], None)
      else
        emit_all cfg (sink_of cfg) env (instance_ctx cfg env) (emission_sources cert aic userCert)
          (base_context cfg env sinkCtx) recorders 0 (source_pairs ops (recorderNames recorders))
  end.

(** [src/evidence_sink.go:EmitOperationEvidence] *)
Definition EmitOperationEvidence (env : emission_env) (cfg : option EvidenceConfig) (ctx : EvidenceContext)
    (cert : option Certificate) (aic : option AIC) (op : OperationDecision) :=
  EmitDecisionRecords env cfg ctx cert aic None None [op].

(** [src/admission_record.go:NewAdmissionEnvelope] a fact whose digest has no
    key is not a subject. *)
Definition NewAdmissionEnvelope (rec : AdmissionRecord) : result Envelope :=
  let subjects := flat_map (fun f => match digestKey (FactDigest f) with
    | Err _ => []
    | Ok alg => [{| SubjectName := FactType f; SubjectDigest := [(alg, hex_encode (Value (FactDigest f)))] |}]
    end) (RecFacts rec) in
  match CanonicalJSON_Admission StatementTypeInToto subjects AdmissionRecordPredicateType rec with
  | Err e => Err e
  | Ok payload => Ok {| Payload := payload; PayloadType := PayloadTypeInToto; Signatures := [] |}
  end.
End Evidence.

(** * Lemmas *)
Section EvidenceFacts.
  Context {ES : EvidenceSemantics} {CN : CapabilityNames} {CS : ClcSemantics} {HF : HashFunction}.




(** ** Tags *)
Definition named (names : list string) (s : StatementSubject) : bool :=
  existsb (String.eqb (SubjectName s)) names.

Lemma tag_subject_In name digest l s :
  s ∈ tag_subject name digest l -> SubjectName s = name -> SubjectDigest s = digest.
Proof.
  unfold tag_subject. destruct (existsb _ l) eqn:E.
  - intros Hs Hn. apply list_elem_of_fmap in Hs as (s0 & -> & _).
    destruct (String.eqb_spec (SubjectName s0) name); [done|]. by simplify_eq.
  - intros [Hs|Hs]%elem_of_app Hn.
    + exfalso. assert (existsb (fun s => String.eqb (SubjectName s) name) l = true); [|congruence].
      apply existsb_exists_elem. exists s. split; [done|]. by apply String.eqb_eq.
    + apply list_elem_of_singleton in Hs as ->. done.
Qed.

Lemma tag_subject_present name digest l : exists s, s ∈ tag_subject name digest l /\ SubjectName s = name.
Proof.
  unfold tag_subject. destruct (existsb _ l) eqn:E.
  - apply existsb_exists_elem in E as (s & Hs & Hn). apply String.eqb_eq in Hn.
    exists {| SubjectName := SubjectName s; SubjectDigest := digest |}. split; [|done].
    apply list_elem_of_fmap. exists s. split; [|done]. by rewrite (proj2 (String.eqb_eq _ _) Hn).
  - eexists. split; [apply elem_of_app; right; by apply list_elem_of_singleton|done].
Qed.

Lemma filter_map_id {A} (f : A -> A) (p : A -> bool) (l : list A) :
  (forall x, p x = true -> f x = x) -> (forall x, p (f x) = p x) ->
  List.filter p (map f l) = List.filter p l.
Proof.
  intros H1 H2. induction l as [|x l IH]; [done|]. simpl. rewrite H2, IH.
  destruct (p x) eqn:E; [by rewrite H1|done].
Qed.

(** Tagging touches the subjects of its name only. *)
Lemma tag_subject_others name digest l (p : StatementSubject -> bool) :
  (forall s s', SubjectName s = SubjectName s' -> p s = p s') ->
  (forall s, SubjectName s = name -> p s = false) ->
  List.filter p (tag_subject name digest l) = List.filter p l.
Proof.
  intros Hp Hn. unfold tag_subject. destruct (existsb _ l).
  - apply filter_map_id.
    + intros s Hs. destruct (String.eqb_spec (SubjectName s) name) as [E|]; [|done]. by rewrite Hn in Hs.
    + intros s. destruct (String.eqb (SubjectName s) name); by apply Hp.
  - rewrite List.filter_app. simpl. rewrite Hn by done. by rewrite app_nil_r.
Qed.

Lemma tag_subject_keeps name digest l s :
  s ∈ l -> SubjectName s <> name -> s ∈ tag_subject name digest l.
Proof.
  intros Hs Hn. unfold tag_subject. destruct (existsb _ l); [|by apply elem_of_app; left].
  apply list_elem_of_fmap. exists s. split; [|done]. by destruct (String.eqb_spec (SubjectName s) name).
Qed.

Lemma tag_subject_origin name digest l s :
  s ∈ tag_subject name digest l -> SubjectName s <> name -> s ∈ l.
Proof.
  unfold tag_subject. destruct (existsb _ l).
  - intros (s0 & -> & Hs)%list_elem_of_fmap. by destruct (String.eqb_spec (SubjectName s0) name).
  - intros [?|Hs]%elem_of_app Hn; [done|]. by apply list_elem_of_singleton in Hs as ->.
Qed.

Lemma named_cons name names s :
  named (name :: names) s = String.eqb (SubjectName s) name || named names s.
Proof. reflexivity. Qed.

Lemma filter_named_cons name names (l : list StatementSubject) :
  List.filter (fun s => negb (named (name :: names) s)) l =
  List.filter (fun s => negb (named (name :: names) s)) (List.filter (fun s => negb (named names s)) l).
Proof.
  induction l as [|s l IH]; [done|]. cbn [List.filter]. rewrite named_cons.
  destruct (named names s) eqn:E; cbn [negb].
  - by rewrite orb_true_r.
  - cbn [List.filter]. rewrite named_cons, E. destruct (negb _); by rewrite IH.
Qed.

Lemma tag_subjects_spec add l l' :
  tag_subjects add l = Ok l' -> NoDup (map fst add) ->
  (forall name id, (name, id) ∈ add -> exists alg, digestKey id = Ok alg /\
     (exists s, s ∈ l' /\ SubjectName s = name) /\
     forall s, s ∈ l' -> SubjectName s = name -> SubjectDigest s = [(alg, hex_encode (Value id))]) /\
  (forall s, SubjectName s ∉ map fst add -> s ∈ l' <-> s ∈ l) /\
  List.filter (fun s => negb (named (map fst add) s)) l' = List.filter (fun s => negb (named (map fst add) s)) l.
Proof.
  revert l. induction add as [|[name id] add IH]; intros l H Hnd.
  - injection H as <-. split; [by intros ? ? ?%elem_of_nil|]. done.
  - cbn [tag_subjects] in H. destruct (digestKey id) as [alg|] eqn:Ek; [|done].
    apply NoDup_cons in Hnd as [Hni Hnd]. destruct (IH _ H Hnd) as (Hadd & Hoth & Hfil). split; [|split].
    + intros name' id' [[= -> ->]|Hin]%elem_of_cons; [|by apply Hadd].
      exists alg. split; [done|]. split.
      * destruct (tag_subject_present name [(alg, hex_encode (Value id))] l) as (s & Hs & Hn).
        exists s. split; [|done]. apply Hoth; [by rewrite Hn|done].
      * intros s Hs Hn. apply Hoth in Hs; [|by rewrite Hn]. by apply tag_subject_In in Hs.
    + intros s Hs. cbn in Hs. apply not_elem_of_cons in Hs as [Hn Hs]. rewrite (Hoth s Hs). split.
      * intros Hin. by eapply tag_subject_origin.
      * intros Hin. by apply tag_subject_keeps.
    + change (List.filter (fun s => negb (named (name :: map fst add) s)) l' =
              List.filter (fun s => negb (named (name :: map fst add) s)) l).
      rewrite (filter_named_cons name (map fst add) l'), Hfil.
      rewrite <- (filter_named_cons name (map fst add) (tag_subject _ _ l)). apply tag_subject_others.
      * intros s s' E. unfold named. by rewrite E.
      * intros s Hs. by rewrite named_cons, Hs, String.eqb_refl.
Qed.

Lemma tag_identities_nodup profile rec add :
  tag_identities profile rec = Ok add -> NoDup (map fst add).
Proof.
  unfold tag_identities.
  assert (NoDup ["evidence-profile"; "evidence-recorder"]) as H by (repeat constructor; set_solver).
  destruct profile as [p|]; [destruct (String.eqb (Name p) ""); [|destruct (Profile_ID p)]|];
    try done; destruct rec as [r|]; try destruct (String.eqb (RecID r) "");
    try destruct (Recorder_Digest r); intros [= <-]; try done; cbn;
    repeat constructor; try apply not_elem_of_nil; set_solver.
Qed.

(** * Properties *)


(** Tagging an envelope gives its statement one identity of the profile and
    of the recorder, whatever order the map is ranged over in, and changes no
    other subject. *)
Theorem envelope_tagged env profile rec order env' add st
    (H : tagEnvelope env profile rec order = Ok env') (Hadd : tag_identities profile rec = Ok add)
    (Hne : add <> []) (Ho : order add ≡ₚ add) (Hst : Unmarshal_Statement (Payload env) = Ok st) :
  exists subjects, CanonicalJSON_Statement {| StType := StType st; StSubject := subjects;
      PredicateType := PredicateType st; Predicate := Predicate st |} = Ok (Payload env') /\
    Signatures env' = Signatures env /\
    (forall name id, (name, id) ∈ add -> exists alg, digestKey id = Ok alg /\
      (exists s, s ∈ subjects /\ SubjectName s = name) /\
      forall s, s ∈ subjects -> SubjectName s = name -> SubjectDigest s = [(alg, hex_encode (Value id))]) /\
    (forall s, SubjectName s ∉ map fst add -> s ∈ subjects <-> s ∈ StSubject st).
Proof.
  pose proof (tag_identities_nodup _ _ _ Hadd) as Hnd. unfold tagEnvelope in H. rewrite Hadd, Hst in H.
  destruct add as [|x add]; [done|]. destruct (tag_subjects _ _) as [subjects|] eqn:Et; [|done].
  destruct (CanonicalJSON_Statement _) as [payload|] eqn:Ej; [|done]. injection H as <-.
  assert (NoDup (map fst (order (x :: add)))) as Hnd' by (by rewrite Ho).
  destruct (tag_subjects_spec _ _ _ Et Hnd') as (Ha & Hoth & _). exists subjects.
  split; [done|]. split; [done|]. split.
  - intros name id Hin. apply Ha. by rewrite Ho.
  - intros s Hs. apply Hoth. by rewrite Ho.
Qed.

(** A profile that leaves decision records out does not mark the records it
    keeps: its identity is not installed in the configuration, so no envelope is
    tagged with it, and its requirement is not bound. *)
Theorem undecided_profile_untagged p cfg c
    (H : Apply p (Some cfg) = Ok c) (Hd : Decision_ p = false) (Hn : Profile cfg = None) :
  Profile c = None /\ CfgRequirement c = CfgRequirement cfg.
Proof.
  unfold Apply in H. destruct (Profile_Validate p); [done|]. rewrite Hd in H. cbn in H. by injection H as <-.
Qed.
End EvidenceFacts.

(** * Concrete instances

    A record is its grants' identifiers and its operation; a statement's text
    is its first subject. *)
Section Witnesses.
  #[local] Existing Instance clc_names.
  #[local] Existing Instance toy_semantics.
  #[local] Existing Instance sha256.

Definition toy_digest (s : string) : Digest := {| Alg := "sha-256"; Value := ascii_bytes s |}.
Definition toy_evidence : EvidenceSemantics := {|
  Requirement := unit; Requirement_Validate := fun _ => None;
  DecisionRecord := list string * string;
  RecVerdict := fun _ => "allow"; InputDigest := fun r => toy_digest r.2;
  RecordWith := fun g op _ _ _ => Ok (map GrantID g, OpID op);
  NewEnvelope := fun r => Ok {| Payload := ascii_bytes r.2; PayloadType := "in-toto"; Signatures := [] |};
  Envelope_Sign := fun e k f => match f (Payload e) with
    | Ok sig => Ok {| Payload := Payload e; PayloadType := PayloadType e; Signatures := [(k, sig)] |}
    | Err x => Err x end;
  DigestAlgSHA256 := "sha-256"; StatementTypeInToto := "st"; PayloadTypeInToto := "in-toto";
  Unmarshal_Statement := fun p => Ok {| StType := "st"; StSubject := [{| SubjectName := "rec"; SubjectDigest := [] |}];
                                        PredicateType := "p"; Predicate := "" |};
  CanonicalJSON_Statement := fun st => Ok (ascii_bytes (join "," (map SubjectName (StSubject st))));
  CanonicalJSON_Admission := fun _ _ _ _ => Ok []; CanonicalJSON_Outcome := fun _ _ _ r => Ok (ascii_bytes (OOutcome r));
  DigestOf_outcome := fun r => Ok (toy_digest (OOutcome r));
  DigestOf_profile := fun n _ _ _ _ _ _ _ => Ok (toy_digest n);
  DigestOf_recorder := fun r => Ok (toy_digest (RecID r));
  DigestOf_admission := fun r => Ok (toy_digest (Stage r));
  DigestOf_operations := fun _ => Ok (toy_digest "ops") |}.
  #[local] Existing Instance toy_evidence.

Definition toy_env : emission_env := {| ev_nonce := "n"; ev_now := Second; ev_order := fun _ l => rev l |}.
Definition no_context : EvidenceContext := {|
  Facts := []; RecorderID := ""; OperationID := ""; EMethod := ""; EPath := ""; TraceID := "";
  CtxPrincipal := ""; AgentID := ""; Serial := ""; CtxOutcome := ""; At := 0 |}.
Definition toy_op (id : string) (v : Verdict) : OperationDecision := {|
  ODID := id; ODParams := GoNil; ODVerdict := v; ODReason := ""; ODUnresolved := []; ODGrants := [];
  Released := false |}.
Definition toy_evidence_config (sink : option EvidenceSink) : EvidenceConfig := {|
  Sink := sink; Strict := true; TTL := 0; Audience := ""; CfgRecorderID := "gw"; HasOnError := false;
  HasGaps := false; Sign := Some (fun b => Ok b); KeyID := "k"; Signer := None; SignKeyFile := "";
  RequireSignature := false; EmitOutcome := false; CfgRequirement := None;
  Profile := match LookupEvidenceProfile "clc-decision@1" with Ok p => Some p | Err _ => None end;
  Recorder := None; profileNoDecision := false |}.
Definition toy_emission (sink : option EvidenceSink) :=
  EmitDecisionRecords toy_env (Some (toy_evidence_config sink)) no_context None None
    (Some (clc_pa [toy_cap "db" "read"] [])) None [toy_op "db:read" VerdictAllow; toy_op "db:drop" VerdictDeny].

(** Two operations, one source; the second refused. A sink that is full after
    one record stops the emission there. *)
Example toy_emitted :
  map RefDigest (toy_emission None).1.1 = [hex_encode (ascii_bytes "db:read"); hex_encode (ascii_bytes "db:drop")] /\
  map (fun h => CtxOutcome (em_ctx h)) (toy_emission None).1.2 = ["admitted"; "refused"] /\
  map (fun h => Payload (em_env h)) (toy_emission None).1.2
    = repeat (ascii_bytes "rec,evidence-recorder,evidence-profile") 2 /\
  (toy_emission None).2 = None /\
  length (toy_emission (Some {| Emit := fun n c r e => if Nat.eqb n 0 then Emit SlogSink n c r e else Err (ErrNew "full");
                                EmitAdmission := EmitAdmission SlogSink; EmitOutcomeRecord := None |})).1.1 = 1%nat.
Proof. vm_compute. repeat split; reflexivity. Qed.


Lemma envelope_tagged_witness : exists subjects env',
  CanonicalJSON_Statement {| StType := "st"; StSubject := subjects; PredicateType := "p"; Predicate := "" |}
    = Ok (Payload env') /\
  exists s, s ∈ subjects /\ SubjectName s = "evidence-recorder".
Proof.
  destruct (envelope_tagged {| Payload := []; PayloadType := ""; Signatures := [] |} None
    (Some {| RecID := "gw"; RecKind := ""; RecNote := "" |}) id
    {| Payload := ascii_bytes "rec,evidence-recorder"; PayloadType := ""; Signatures := [] |}
    [("evidence-recorder", toy_digest "gw")]
    {| StType := "st"; StSubject := [{| SubjectName := "rec"; SubjectDigest := [] |}];
       PredicateType := "p"; Predicate := "" |})
    as (subjects & Hj & _ & Ha & _); [vm_compute; reflexivity|reflexivity|discriminate|reflexivity|reflexivity|].
  destruct (Ha "evidence-recorder" (toy_digest "gw") (list_elem_of_here _ _)) as (_ & _ & Hs & _).
  eexists subjects, _. split; [exact Hj|exact Hs].
Defined.
End Witnesses.
