(* ===== verification/Challenge.v ===== *)
(** Challenges ([src/challenge.go], [evidenceProblem] of [src/aicverifier.go]):
    a refusal that presenting evidence can fix is answered with a problem
    document that says what is missing.

    A challenge and its construction belong to package [semantics] (class
    [ChallengeSemantics]); the clock and the random source are read where the
    source reads them ([challenge_env]). *)
From S2P Require Import Prelude GoStrings GoTime GoJson Types Sha256 AdmissionTypes Evidence.
Local Open Scope string_scope.
Local Open Scope Z_scope.
Local Open Scope list_scope.

(** * Definitions *)

(** [semantics.ObtainHint] and [semantics.ChallengeParams]; the retry bound is
    its instant. *)
Record ObtainHint := { HintKind : string; HintURL : string }.
Record ChallengeParams := {
  CPID : string; CPNonce : string; CPAudience : string; CPActionDigest : Digest; CPNow : Time;
  CPTTL : Duration; CPObtainHints : list ObtainHint; CPRetry : option Time
}.

Class ChallengeSemantics `{EvidenceSemantics} := {
  Challenge : Type;
  RequirementResult : Type;
  EvidenceFact : Type;
  BuildChallengeFromDecision : Decision -> ChallengeParams -> result Challenge;
  BuildChallengeFromRequirement : Requirement -> RequirementResult -> ChallengeParams -> result Challenge;
  DigestOf_operation : Operation -> result Digest;
  DigestOfCanonical : bytes -> Digest;
  EvaluateRequirement : Requirement -> list EvidenceFact -> Time -> result RequirementResult;
  Satisfied : RequirementResult -> bool;
  SatVerdict : RequirementResult -> string;
  MissingRoles : RequirementResult -> list string;
  RequirementID : Requirement -> string
}.

(** [src/challenge.go:ChallengeConfig]; an injected clock or token source is the
    value it answers. *)
Record ChallengeConfig := {
  ChTTL : Duration; ChAudience : string; RetryAfter : Duration; ObtainHints : list ObtainHint;
  NowFn : option Time; NewID : option string; NewNonce : option string
}.

(** [src/challenge.go:ProblemDetails] *)
Record ProblemDetails `{ChallengeSemantics} := {
  PType : string; PTitle : string; PStatus : Z; PDetail : message; PInstance : string;
  PChallenge : option Challenge
}.

(** The readings of a challenge: the clock when the parameters are built and
    when the retry bound is, and the random source for its two tokens. *)
Record challenge_env := {
  ch_now : Time; ch_retry_now : Time; ch_rand_id : result bytes; ch_rand_nonce : result bytes
}.

Section Challenges.
  Context {ES : EvidenceSemantics} {CH : ChallengeSemantics}.

(** [src/challenge.go:ProblemTypeEvidenceRequired] *)
Definition ProblemTypeEvidenceRequired := "https://varwof.com/clc/v1/problems/evidence-required".

(** [src/challenge.go:randomToken] *)
Definition randomToken (override : option string) (rand : result bytes) : result string :=
  match override with
  | Some s => Ok s
  | None => match rand with
            | Err err => Err (Errorf "challenge: random token: %w" [AWrap err])
            | Ok buf => Ok (hex_encode buf) end
  end.
(** [src/challenge.go:newID] *)
Definition newID (c : ChallengeConfig) (env : challenge_env) : result string :=
  randomToken (NewID c) (ch_rand_id env).
(** [src/challenge.go:newNonce] *)
Definition newNonce (c : ChallengeConfig) (env : challenge_env) : result string :=
  randomToken (NewNonce c) (ch_rand_nonce env).

(** [src/challenge.go:142-168 buildChallengeForResult] the challenge of one
    unresolved operation. *)
Definition operation_challenge (cfg : ChallengeConfig) (env : challenge_env) (od : OperationDecision)
  : result Challenge :=
  let decision := {| DecVerdict := VerdictAllowUR; DecReason := ""; Unresolved := ODUnresolved od |} in
  match DigestOf_operation {| OpID := ODID od; OpParams := ODParams od |} with
  | Err err => Err err
  | Ok actionDigest =>
      match newNonce cfg env with
      | Err err => Err err
      | Ok nonce =>
          if String.eqb nonce "" then Err (Errorf "challenge nonce unavailable" [])
          else match newID cfg env with
          | Err err => Err err
          | Ok id =>
              if String.eqb id "" then Err (Errorf "challenge id unavailable" [])
              else BuildChallengeFromDecision decision {|
                CPID := id; CPNonce := nonce; CPAudience := ChAudience cfg; CPActionDigest := actionDigest;
                CPNow := default (ch_now env) (NowFn cfg); CPTTL := ChTTL cfg;
                CPObtainHints := ObtainHints cfg;
                CPRetry := if 0 <? RetryAfter cfg
                           then Some (Add (default (ch_retry_now env) (NowFn cfg)) (RetryAfter cfg)) else None |}
          end
      end
  end.

(** An operation the requester can still obtain evidence for. *)
Definition obtainable (od : OperationDecision) : bool :=
  bool_decide (ODVerdict od = VerdictAllowUR) && negb (Released od).

(** [src/challenge.go:buildChallengeForResult] over the decisions of the result,
    [None] for a nil result. *)
Fixpoint buildChallengeForResult (cfg : ChallengeConfig) (env : challenge_env)
    (ods : list OperationDecision) : result (option Challenge) :=
  match ods with
  | [] => Ok None
  | od :: ods' =>
      if obtainable od then
        match operation_challenge cfg env od with Ok c => Ok (Some c) | Err err => Err err end
      else buildChallengeForResult cfg env ods'
  end.

Definition evidence_required (detail : message) (c : Challenge) : ProblemDetails := {|
  PType := ProblemTypeEvidenceRequired; PTitle := "Authorization evidence required"; PStatus := 403;
  PDetail := detail; PInstance := ""; PChallenge := Some c |}.

(** [src/challenge.go:problemForResult] *)
Definition problemForResult (ods : list OperationDecision) (cfg : option ChallengeConfig)
    (env : challenge_env) (detail : message) : result (option ProblemDetails) :=
  match cfg with
  | None => Ok None
  | Some cfg =>
      match buildChallengeForResult cfg env ods with
      | Err err => Err err
      | Ok None => Ok None
      | Ok (Some c) => Ok (Some (evidence_required detail c))
      end
  end.

(** [src/aicverifier.go:evidenceProblem] for a request with the method and path
    given, at the instant the requirement was evaluated. *)
Definition evidenceProblem (cfg : option ChallengeConfig) (required : list Operation) (req : Requirement)
    (sat : RequirementResult) (now : Time) (view : option (string * string)) (env : challenge_env)
  : result (option ProblemDetails) :=
  match cfg with
  | None => Ok None
  | Some cc =>
      match newID cc env with
      | Err err => Err err
      | Ok id =>
          match newNonce cc env with
          | Err err => Err err
          | Ok nonce =>
              if String.eqb nonce "" || String.eqb id ""
              then Err (Errorf "challenge randomness unavailable" [])
              else
                match (match required with
                       | [] => Ok (DigestOfCanonical (ascii_bytes
                                 match view with None => "admission" | Some (m, p) => m +:+ " " +:+ p end))
                       | _ => DigestOf_operations required end) with
                | Err err => Err err
                | Ok digest =>
                    match BuildChallengeFromRequirement req sat {|
                      CPID := id; CPNonce := nonce; CPAudience := ChAudience cc; CPActionDigest := digest;
                      CPNow := now; CPTTL := ChTTL cc; CPObtainHints := ObtainHints cc;
                      CPRetry := if 0 <? RetryAfter cc then Some (Add now (RetryAfter cc)) else None |} with
                    | Err err => Err err
                    | Ok c => Ok (Some (evidence_required
                        (Errorf "requirement %s is %s" [AStr (RequirementID req); AStr (SatVerdict sat)]) c))
                    end
                end
          end
      end
  end.

(** [src/challenge.go:213-217 writeAuthError] the [Retry-After] header: seconds
    left rounded up (to the thousandth), none when the bound has passed. *)
Definition retry_after_seconds (notBefore now : Time) : option Z :=
  let seconds := Z.quot (Sub notBefore now + 999 * 1000000) Second in
  if 0 <? seconds then Some seconds else None.

(** * Lemmas *)
Lemma buildChallenge_find cfg env ods :
  buildChallengeForResult cfg env ods =
  match list_find (fun od => obtainable od = true) ods with
  | None => Ok None
  | Some (_, od) => match operation_challenge cfg env od with Ok c => Ok (Some c) | Err err => Err err end
  end.
Proof.
  induction ods as [|od ods IH]; [done|]. simpl. destruct (obtainable od) eqn:E.
  - rewrite decide_True by done. done.
  - rewrite decide_False by congruence. rewrite IH.
    destruct (list_find (fun od => obtainable od = true) ods) as [[? ?]|]; done.
Qed.

(** * Properties *)

(** A challenge answers the first operation whose residual obligations are
    unmet and unreleased, with its digest, and a refusal without such an
    operation never carries one: a hard refusal is not dressed as a retry. *)
Theorem challenge_for_obtainable ods cfg env detail :
  ((forall od, od ∈ ods -> obtainable od = false) ->
   problemForResult ods (Some cfg) env detail = Ok None) /\
  (forall p, problemForResult ods (Some cfg) env detail = Ok (Some p) ->
   exists i od c, ods !! i = Some od /\ obtainable od = true /\
     (forall j od', ods !! j = Some od' -> (j < i)%nat -> obtainable od' = false) /\
     operation_challenge cfg env od = Ok c /\ PChallenge p = Some c /\ PDetail p = detail /\ PStatus p = 403).
Proof.
  unfold problemForResult. rewrite buildChallenge_find. split.
  - intros H. rewrite (proj2 (list_find_None _ _)); [done|]. apply Forall_forall.
    intros od Hod. by rewrite (H od Hod).
  - intros p. destruct (list_find _ ods) as [[i od]|] eqn:E; [|done].
    apply list_find_Some in E as (Hi & Ho & Hj). destruct (operation_challenge cfg env od) as [c|] eqn:Ec; [|done].
    intros [= <-]. exists i, od, c. split; [done|]. split; [done|]. split; [|done].
    intros j od' Hj' Hlt. specialize (Hj j od' Hj' Hlt). by destruct (obtainable od').
Qed.
End Challenges.
