(* ===== verification/Pipeline.v ===== *)
(** The admission pipeline: [RunAccessPipeline] of [src/pipeline.go] and the
    revocation check of [src/trust_model.go] it shares with the trust layers.

    A run reads the clock at several points ([pipeline_clock]) and changes the
    shared caches and the risk monitor ([world]); it writes plugin audit entries
    and may trigger enforcement actions ([output]).  Capability plugins,
    capability registries and policy servers are values of the configuration. *)
From S2P Require Import Prelude GoStrings GoTime GoJson Types Sha256 Capability DelegationAuth Delegation.
From S2P Require Import NonceCache Constraints AdmissionTypes Clc Credential Admission Rbac Risk.
From S2P Require Import Revocation Params Spiffe.
Local Open Scope string_scope.
Local Open Scope Z_scope.
Local Open Scope list_scope.

(** * Definitions *)

(** [src/pipeline.go:PipelineCheck] *)
Inductive PipelineCheck := CheckFullChain | CheckLeafOnly.

(** [pki.PluginDecision], [pki.PluginResult], [pki.HTTPFacts],
    [pki.PluginContext] and [pki.PluginRegistry]. *)
Inductive PluginDecision := PluginAllow | PluginDeny | PluginBypass.
Record PluginResult := { PDecision : PluginDecision; PReason : string }.
Record HTTPFacts := { Method : string; URLPath : string; Query : gmap string (list string);
                      Headers : gmap string string; Body : bytes }.
Record PluginContext := { PCAgentId : string; ClientCN : string; PCRoles : list string;
                          PCTarget : string; Facts : option HTTPFacts }.
Abbreviation CapabilityPlugin := (Capability -> PluginContext -> result PluginResult).
Abbreviation PluginRegistry := (string -> result CapabilityPlugin).

(** [src/capregistry.go:CapabilityRegistry] *)
Record CapabilityRegistry := { ValidateRegistered : string -> option error; RegistryEnabled : bool }.

(** [src/trust_model.go:PolicyServer] *)
Record PolicyServer := { ServerName : string; CheckOnline : Certificate -> option AIC -> option error }.

(** [src/pipeline.go:PipelineConfig]; the OCSP cache, the nonce cache and the
    risk monitor are in the [world], their presence here. *)
Record PipelineConfig `{ClcSemantics} := {
  PCRLCache : option CRLCache; AllowRoles : list string; CheckScope : PipelineCheck;
  PRequireAIC : bool; RequireSPIFFE : bool; AllowedSPIFFEIDs : list string; SPIFFETrustDomain : string;
  PRequiredProtocol : string; PRequiredRuleId : string; PRequiredCapabilities : list string;
  POperations : list Operation; PUnresolvedEvaluator : option (Operation -> list string -> bool);
  PDischargeObligations : bool; PObligationsUnderstood : list string;
  PRequireFreshDecisionContext : bool; PDecisionContext : option DecisionContext;
  PDisallowRepresentative : bool; PRequireUserPermission : bool; PRejectOverflow : bool;
  PRequireUserAuth : bool; PSkipDelegationAuthVerification : bool; PEnforceCapSizeConstraints : bool;
  PEnforceSize32 : bool; CapabilityPluginRegistry : option PluginRegistry;
  PCapabilityRegistry : option CapabilityRegistry;
  CapabilityPluginResolver : option (string -> Z * option PluginRegistry);
  PAuditLogger : bool; PNonceCache : bool; PClientIP : string; PUserCert : option Certificate;
  PUserCertResolver : option (bytes -> result (option Certificate));
  PEnforceConstraints : bool; PStrictConstraints : bool;
  PAuthorizationPolicy : option AuthorizationPolicy; PConstraintRegistry : option ConstraintRegistry;
  ParameterValidators : option ParameterValidatorRegistry; PPolicyServer : option PolicyServer;
  PCredentialBundle : option CredentialBundle; PolicyVersion : Z; OfflineMaxCertLifetime : Duration;
  PHTTPFacts : option HTTPFacts
}.

(** [src/pipeline.go:PipelineResult] *)
Record PipelineResult := {
  Granted : bool; DenyReason : message; PRoles : list string; PPrincipal : string; PSerial : string;
  PAgentId : string; SPIFFEID_ : string; PAIC : option AIC;
  PPrincipalAuthorization : option PrincipalAuthorization; CLCVerdict : option Verdict;
  CLCReason : string; CLCUnresolved : list string; POperationDecisions : list OperationDecision
}.

(** [src/pipeline.go:deny] *)
Definition deny (reason : message) : PipelineResult := {|
  Granted := false; DenyReason := reason; PRoles := []; PPrincipal := ""; PSerial := ""; PAgentId := "";
  SPIFFEID_ := ""; PAIC := None; PPrincipalAuthorization := None; CLCVerdict := None; CLCReason := "";
  CLCUnresolved := []; POperationDecisions := [] |}.

(** [src/clc.go:denyWithAdmission] *)
Definition denyWithAdmission (deny : message -> PipelineResult) (adm : AdmissionResult) : PipelineResult :=
  let res := deny (AReason adm) in {|
  Granted := Granted res; DenyReason := DenyReason res; PRoles := PRoles res;
  PPrincipal := APrincipalUid adm; PSerial := PSerial res; PAgentId := PAgentId res;
  SPIFFEID_ := SPIFFEID_ res; PAIC := AAIC adm;
  PPrincipalAuthorization := APrincipalAuthorization adm; CLCVerdict := CLCVerdict res;
  CLCReason := CLCReason res; CLCUnresolved := CLCUnresolved res;
  POperationDecisions := OperationDecisions adm |}.

(** [src/audit.go:PluginAuditEntry] *)
Record PluginAuditEntry := {
  EScheme : string; ECapabilityID : string; EDecision : string; EReason : message; EClientCN : string;
  EPrincipal : string; ELevel : string; EDaHash : string; EPolicyVersion : Z
}.

(** The readings of a run: per certificate index for the chain checks. *)
Record pipeline_clock := {
  valid_now : nat -> Time; crl_now : nat -> Time; ocsp_run : nat -> check_run; offline_now : Time;
  admission_readings : admission_clock; risk_now : Z
}.

(** What a run shares with others. *)
Record world := { w_ocsp : option OCSPCache; w_nonce : NonceCache.NonceCache; w_risk : option RiskMonitor }.
Record output := { audit : list PluginAuditEntry; warnings : list audit_warning;
                   actions : list (string * string * string) }.
Definition no_output : output := {| audit := []; warnings := []; actions := [] |}.

Definition set_ocsp (w : world) (o : option OCSPCache) : world :=
  {| w_ocsp := o; w_nonce := w_nonce w; w_risk := w_risk w |}.
Definition set_nonce (w : world) (n : NonceCache.NonceCache) : world :=
  {| w_ocsp := w_ocsp w; w_nonce := n; w_risk := w_risk w |}.

(** The first value a function gives along a list. *)
Fixpoint first_some {A B} (f : A -> option B) (l : list A) : option B :=
  match l with [] => None | x :: l' => match f x with Some b => Some b | None => first_some f l' end end.

(** [src/pipeline.go:OfflineLifetimeLimit] *)
Definition OfflineLifetimeLimit : Duration := Hour.
(** [src/pipeline.go:OfflineLifetimeFor] *)
Definition OfflineLifetimeFor (ocspFallback : string) : Duration :=
  if String.eqb ocspFallback OCSPFallbackAllow || String.eqb ocspFallback OCSPFallbackCRL
  then OfflineLifetimeLimit else 0.

(** [src/pipeline.go:checkCertValidity] *)
Definition checkCertValidity (cert : Certificate) (now : Time) : option error :=
  if Before now (NotBefore cert) then Some (Errorf "certificate %q not yet valid" [AStr (Subject cert)])
  else if After now (NotAfter cert) then Some (Errorf "certificate %q expired" [AStr (Subject cert)])
  else None.

(** [src/pipeline.go:requiredCapUnserved] *)
Fixpoint requiredCapUnserved (required : list string) (cap : Capability) : bool :=
  match required with
  | [] => false
  | req :: required' =>
      if MatchCapability req (CapabilityId cap) then true
      else if negb (String.eqb (SchemeId cap) "") &&
              MatchCapability req (SchemeId cap +:+ ":" +:+ CapabilityId cap) then true
      else requiredCapUnserved required' cap
  end.

(** [src/pipeline.go:CheckOperationCapability] *)
Definition CheckOperationCapability (reg : option PluginRegistry) (cap : option Capability)
    (ctx : PluginContext) : result PluginResult :=
  match reg, cap with
  | Some reg, Some cap =>
      match reg (SchemeId cap) with
      | Err _ => Ok {| PDecision := PluginDeny;
                       PReason := "scheme " +:+ SchemeId cap +:+ " has no registered plugin: fail-closed" |}
      | Ok p => p cap ctx
      end
  | _, _ => Err (Errorf "check_operation: nil registry or capability" [])
  end.

Section Pipeline.
  Context {CN : CapabilityNames} {CS : ClcSemantics} {HF : HashFunction} {PM : PkiMethods}
          {DC : DACrypto} {CP : CertificateParser} {CE : CRLEnv} {OE : OCSPEnv} {UP : URLParser}.
  Context (EqualFold : string -> string -> bool).

(** [src/audit.go:DAHashFromAIC] *)
Definition DAHashFromAIC (aic : option AIC) : string :=
  match aic with
  | None => ""
  | Some a => if zlen (SignatureValue (AICDelegation a)) =? 0 then ""
              else hex_encode (Sum256 (SignatureValue (AICDelegation a)))
  end.

(** [src/pipeline.go:aicAgentID] *)
Definition aicAgentID (cert : option Certificate) : string :=
  match cert with
  | None => ""
  | Some cert =>
      match ParseAIC cert with
      | Ok (Some a) => if String.eqb (AgentId a) "" then CommonName cert else AgentId a
      | _ => CommonName cert
      end
  end.

(** [src/pipeline.go:recordRiskViolation] the monitor after and the action
    triggered. *)
Definition recordRiskViolation (m : option RiskMonitor) (cert : option Certificate)
    (signal capabilityID : string) (details : message) (clock : Z)
  : list (string * string * string) * option RiskMonitor :=
  let '(a, m') := RecordViolation EqualFold m
    {| VAgentId := aicAgentID cert; Signal := signal; VCapabilityId := capabilityID;
       Details := details; At := 0 |} clock in
  (match a with Some x => [x] | None => [] end, m').

(** [src/pipeline.go:233-239 RunAccessPipeline] the CRL's answer on a certificate,
    the same in [checkRevocation]. *)
Definition check_crl (cert : Certificate) (cfg : PipelineConfig) (now : Time) : option error :=
  match PCRLCache cfg with
  | None => None
  | Some c =>
      match IsRevokedCert c (Some cert) now with
      | Err err => Some (Errorf "crl check error: %v" [AErr err])
      | Ok true => Some (Errorf "certificate revoked (CRL)" [])
      | Ok false => None
      end
  end.
(** [src/pipeline.go:245-247 RunAccessPipeline] a refusal by the OCSP cache. *)
Definition ocsp_refusal (r : option error) : option error :=
  match r with Some err => Some (Errorf "ocsp check error: %v" [AErr err]) | None => None end.

(** [src/trust_model.go:checkRevocation] and the OCSP cache after it. *)
Definition checkRevocation (cert : Certificate) (issuer : option Certificate) (cfg : PipelineConfig)
    (o : option OCSPCache) (now : Time) (run : check_run) : option error * option OCSPCache :=
  match check_crl cert cfg now with
  | Some err => (Some err, o)
  | None =>
      match o with
      | None => (None, None)
      | Some oc => let '(r, oc') := Check_ oc cert issuer run in (ocsp_refusal r, Some oc')
      end
  end.

(** [src/pipeline.go:229-250 RunAccessPipeline] the certificates in order, each
    checked for validity and revocation against the next one. *)
Fixpoint check_chain (clk : pipeline_clock) (cfg : PipelineConfig) (i : nat) (chain : list Certificate)
    (o : option OCSPCache) : option error * option OCSPCache :=
  match chain with
  | [] => (None, o)
  | c :: chain' =>
      match checkCertValidity c (valid_now clk i) with
      | Some err => (Some err, o)
      | None =>
          match checkRevocation c (head chain') cfg o (crl_now clk i) (ocsp_run clk i) with
          | (Some err, o') => (Some err, o')
          | (None, o') => check_chain clk cfg (S i) chain' o'
          end
      end
  end.

(** [src/pipeline.go:212-251 RunAccessPipeline] *)
Definition check_certificates (clk : pipeline_clock) (cfg : PipelineConfig) (leaf : Certificate)
    (chain : list Certificate) (o : option OCSPCache) : option error * option OCSPCache :=
  match CheckScope cfg with
  | CheckLeafOnly =>
      match checkCertValidity leaf (valid_now clk 0) with
      | Some err => (Some err, o)
      | None => checkRevocation leaf None cfg o (crl_now clk 0) (ocsp_run clk 0)
      end
  | CheckFullChain => check_chain clk cfg 0 (leaf :: chain) o
  end.

(** [src/pipeline.go:263-295 RunAccessPipeline] *)
Definition check_spiffe (cfg : PipelineConfig) (cert : Certificate) : option error :=
  let spiffeID := ExtractSPIFFEIDFromCert cert in
  if RequireSPIFFE cfg || (0 <? zlen (AllowedSPIFFEIDs cfg)) || negb (String.eqb (SPIFFETrustDomain cfg) "")
  then
    if String.eqb spiffeID "" then Some (Errorf "spiffe id required but not present in client certificate" [])
    else match ParseSPIFFEID spiffeID with
    | Err err => Some (Errorf "invalid spiffe id: %v" [AErr err])
    | Ok sid =>
        if negb (String.eqb (SPIFFETrustDomain cfg) "") &&
           negb (String.eqb (TrustDomain sid) (ToLower (SPIFFETrustDomain cfg))) then
          Some (Errorf "spiffe trust domain mismatch: have %s, want %s"
                  [AStr (TrustDomain sid); AStr (SPIFFETrustDomain cfg)])
        else if (0 <? zlen (AllowedSPIFFEIDs cfg)) &&
                negb (existsb (fun id => String.eqb (canonicalSPIFFEID id) (canonicalSPIFFEID spiffeID))
                        (AllowedSPIFFEIDs cfg)) then
          Some (Errorf "spiffe id not in allowed list: %s" [AStr spiffeID])
        else None
    end
  else None.

(** [src/pipeline.go:301-307 RunAccessPipeline] *)
Definition check_offline (cfg : PipelineConfig) (cert : Certificate) (now : Time) : option error :=
  if 0 <? OfflineMaxCertLifetime cfg then
    let remaining := Sub (NotAfter cert) now in
    if OfflineMaxCertLifetime cfg <? remaining then
      Some (Errorf "offline mode: certificate remaining validity %s exceeds offline limit %s"
              [AInt remaining; AInt (OfflineMaxCertLifetime cfg)])
    else None
  else None.

(** [src/clc.go:applyCLCAdmissionConfig] *)
Definition applyCLCAdmissionConfig (dst : AdmissionConfig) (src : PipelineConfig) : AdmissionConfig := {|
  RequireAIC := RequireAIC dst; RequiredProtocol := RequiredProtocol dst;
  RequiredRuleId := RequiredRuleId dst; RequiredCapabilities := RequiredCapabilities dst;
  Operations := POperations src; UnresolvedEvaluator := PUnresolvedEvaluator src;
  DischargeObligations := PDischargeObligations src;
  ObligationsUnderstood := PObligationsUnderstood src;
  RequireFreshDecisionContext := PRequireFreshDecisionContext src;
  CfgDecisionContext := PDecisionContext src; DisallowRepresentative := DisallowRepresentative dst;
  RequireUserPermission := RequireUserPermission dst; RejectOverflow := RejectOverflow dst;
  RequireUserAuth := RequireUserAuth dst;
  SkipDelegationAuthVerification := SkipDelegationAuthVerification dst;
  EnforceCapSizeConstraints := EnforceCapSizeConstraints dst; HasNonceCache := HasNonceCache dst;
  EnforceSize32 := EnforceSize32 dst; UserCert := UserCert dst; UserCertResolver := UserCertResolver dst;
  EnforceConstraints := EnforceConstraints dst; StrictConstraints := StrictConstraints dst;
  CfgConstraintRegistry := PConstraintRegistry src; CfgClientIP := CfgClientIP dst;
  AuditLogger := AuditLogger dst; CheckDAAge := CheckDAAge dst; DAAgeMax := DAAgeMax dst;
  CfgCredentialBundle := CfgCredentialBundle dst |}.

(** [src/pipeline.go:309-330 RunAccessPipeline] the admission configuration;
    the literal of [VerifyLayer2] is the same without the credential bundle. *)
Definition admission_config (cfg : PipelineConfig) (bundle : option CredentialBundle) : AdmissionConfig :=
  applyCLCAdmissionConfig {|
    RequireAIC := PRequireAIC cfg; RequiredProtocol := PRequiredProtocol cfg;
    RequiredRuleId := PRequiredRuleId cfg; RequiredCapabilities := PRequiredCapabilities cfg;
    Operations := []; UnresolvedEvaluator := None; DischargeObligations := false;
    ObligationsUnderstood := []; RequireFreshDecisionContext := false; CfgDecisionContext := None;
    DisallowRepresentative := PDisallowRepresentative cfg;
    RequireUserPermission := PRequireUserPermission cfg; RejectOverflow := PRejectOverflow cfg;
    RequireUserAuth := PRequireUserAuth cfg;
    SkipDelegationAuthVerification := PSkipDelegationAuthVerification cfg;
    EnforceCapSizeConstraints := PEnforceCapSizeConstraints cfg; HasNonceCache := PNonceCache cfg;
    EnforceSize32 := PEnforceSize32 cfg; UserCert := PUserCert cfg;
    UserCertResolver := PUserCertResolver cfg; EnforceConstraints := PEnforceConstraints cfg;
    StrictConstraints := PStrictConstraints cfg; CfgConstraintRegistry := None;
    CfgClientIP := PClientIP cfg; AuditLogger := PAuditLogger cfg; CheckDAAge := false; DAAgeMax := 0;
    CfgCredentialBundle := bundle |} cfg.

(** A refusal after the admission: the reason, the audit entries written, and
    the risk signal recorded (signal, capability, details). *)
Record refusal := { r_reason : message; r_audit : list PluginAuditEntry;
                    r_risk : option (string * string * message) }.

(** What the audit entries of one run share. *)
Definition entry (cfg : PipelineConfig) (cert : Certificate) (adm : AdmissionResult) (daHash : string)
    (version : Z) (cap : Capability) (decision : string) (reason : message) (level : string)
  : list PluginAuditEntry :=
  if PAuditLogger cfg then
    [{| EScheme := SchemeId cap; ECapabilityID := CapabilityId cap; EDecision := decision;
        EReason := reason; EClientCN := CommonName cert; EPrincipal := APrincipalUid adm;
        ELevel := level; EDaHash := daHash; EPolicyVersion := version |}]
  else [].

(** The pairs the parameter check compares, in the order of its loops. *)
Definition parameter_pairs (effective grants : list Capability) : list (Capability * Capability) :=
  flat_map (fun declared => map (fun granted => (declared, granted))
    (List.filter (fun granted => aicCapabilityMatches [declared] (CapabilityId granted)) grants)) effective.

(** [src/pipeline.go:341-365 RunAccessPipeline] *)
Definition check_parameters (cfg : PipelineConfig) (cert : Certificate) (adm : AdmissionResult)
  : option refusal :=
  match ParameterValidators cfg, AAIC adm, APrincipalAuthorization adm with
  | Some reg, Some _, Some pa =>
      first_some (fun '(declared, granted) =>
        match ValidateCapability (Some reg) granted declared with
        | None => None
        | Some err =>
            Some {| r_reason := Errorf "parameter boundary: %v" [AErr err];
                    r_audit := entry cfg cert adm "" (PolicyVersion cfg) declared "deny" err "WARN";
                    r_risk := Some ("parameter_overflow", CapabilityId declared, err) |}
        end) (parameter_pairs (EffectiveCaps adm) (Grants pa))
  | _, _, _ => None
  end.

(** [src/pipeline.go:399-423 RunAccessPipeline] *)
Definition check_registered (cfg : PipelineConfig) (globalCapReg : option CapabilityRegistry)
    (cert : Certificate) (adm : AdmissionResult) (daHash : string) (version : Z) : option refusal :=
  match (match PCapabilityRegistry cfg with Some r => Some r | None => globalCapReg end) with
  | None => None
  | Some reg =>
      if RegistryEnabled reg then
        first_some (fun cap =>
          match ValidateRegistered reg (FullID cap) with
          | None => None
          | Some err =>
              let reason := Errorf "capability %q not registered: %v" [AStr (FullID cap); AErr err] in
              Some {| r_reason := reason;
                      r_audit := entry cfg cert adm daHash version cap "deny" reason "WARN";
                      r_risk := Some ("unregistered_capability", CapabilityId cap, err) |}
          end) (EffectiveCaps adm)
      else None
  end.

(** [src/pipeline.go:425-520 RunAccessPipeline] the effective capabilities in
    order: the audit entries written and the refusal, if any. *)
Fixpoint run_plugins (cfg : PipelineConfig) (reg : PluginRegistry) (cert : Certificate)
    (adm : AdmissionResult) (roles : list string) (agentId daHash : string) (version : Z)
    (caps : list Capability) : list PluginAuditEntry * option refusal :=
  match caps with
  | [] => ([], None)
  | cap :: caps' =>
      let log := entry cfg cert adm daHash version cap in
      let continue log :=
        let '(l, r) := run_plugins cfg reg cert adm roles agentId daHash version caps' in (log ++ l, r) in
      match reg (SchemeId cap) with
      | Err _ =>
          if requiredCapUnserved (PRequiredCapabilities cfg) cap then
            (log "deny" (Errorf "required capability %q uses scheme %q, which this gateway does not serve"
                           [AStr (CapabilityId cap); AStr (SchemeId cap)]) "WARN",
             Some {| r_reason := Errorf "required capability %q uses unserved scheme %q"
                                   [AStr (CapabilityId cap); AStr (SchemeId cap)];
                     r_audit := []; r_risk := None |})
          else continue (log "ignore" (Errorf "scheme %q not served by this gateway" [AStr (SchemeId cap)]) "INFO")
      | Ok p =>
          let pc := {| PCAgentId := agentId; ClientCN := CommonName cert; PCRoles := roles;
                       PCTarget := CapabilityId cap; Facts := PHTTPFacts cfg |} in
          match p cap pc with
          | Err err =>
              (log "error" err "WARN",
               Some {| r_reason := Errorf "plugin %q error: %v" [AStr (SchemeId cap); AErr err];
                       r_audit := []; r_risk := None |})
          | Ok res =>
              match PDecision res with
              | PluginDeny =>
                  (log "deny" (Errorf "%s" [AStr (PReason res)]) "WARN",
                   Some {| r_reason := Errorf "plugin %q denied: %s" [AStr (SchemeId cap); AStr (PReason res)];
                           r_audit := []; r_risk := Some ("plugin_deny", CapabilityId cap, Errorf "%s" [AStr (PReason res)]) |})
              | _ => continue (log "allow" (Errorf "%s" [AStr (PReason res)]) "INFO")
              end
          end
      end
  end.

(** [src/pipeline.go:385-394 RunAccessPipeline] the plugin registry and the
    policy version of the agent. *)
Definition select_plugins (cfg : PipelineConfig) (agentId : string) : option PluginRegistry * Z :=
  match CapabilityPluginResolver cfg with
  | None => (CapabilityPluginRegistry cfg, PolicyVersion cfg)
  | Some resolve =>
      match resolve agentId with
      | (v, Some reg) => (Some reg, if v =? 0 then PolicyVersion cfg else v)
      | (_, None) => (CapabilityPluginRegistry cfg, PolicyVersion cfg)
      end
  end.

(** [src/pipeline.go:341-521 RunAccessPipeline] the checks on the effective
    capabilities of an admitted connection. *)
Definition check_capabilities (cfg : PipelineConfig) (globalCapReg : option CapabilityRegistry)
    (cert : Certificate) (adm : AdmissionResult) (roles : list string)
  : list PluginAuditEntry * option refusal :=
  match check_parameters cfg cert adm with
  | Some r => (r_audit r, Some r)
  | None =>
      let daHash := DAHashFromAIC (AAIC adm) in
      let agentId := match AAIC adm with Some a => AgentId a | None => "" end in
      let '(reg, version) := select_plugins cfg agentId in
      match check_registered cfg globalCapReg cert adm daHash version with
      | Some r => (r_audit r, Some r)
      | None =>
          match reg with
          | None => ([], None)
          | Some reg => run_plugins cfg reg cert adm roles agentId daHash version (EffectiveCaps adm)
          end
      end
  end.

(** [src/pipeline.go:523-538 RunAccessPipeline] *)
Definition granted_result (cert : Certificate) (adm : AdmissionResult) (roles : list string)
  : PipelineResult :=
  let '(verdict, reason, unresolved) := aggregateCLCDecisions (OperationDecisions adm) in {|
  Granted := true; DenyReason := Errorf "" []; PRoles := roles; PPrincipal := APrincipalUid adm;
  PSerial := serial_Text16 (SerialNumber cert);
  PAgentId := match AAIC adm with Some a => AgentId a | None => "" end;
  SPIFFEID_ := ExtractSPIFFEIDFromCert cert; PAIC := AAIC adm;
  PPrincipalAuthorization := APrincipalAuthorization adm; CLCVerdict := verdict; CLCReason := reason;
  CLCUnresolved := unresolved; POperationDecisions := OperationDecisions adm |}.

(** The roles the pipeline checks and hands to plugins. *)
Definition pipeline_roles (cfg : PipelineConfig) (cert : Certificate) : list string :=
  extractPolicyRoles cert (PAuthorizationPolicy cfg).
Definition insufficient_roles (cfg : PipelineConfig) (roles : list string) : option error :=
  if (0 <? zlen (AllowRoles cfg)) && negb (CheckRole roles (AllowRoles cfg)) then
    Some (Errorf "insufficient roles: have %v, need %v" [AStrs roles; AStrs (AllowRoles cfg)])
  else None.

(** [src/pipeline.go:253-307 RunAccessPipeline] *)
Definition check_identity (clk : pipeline_clock) (cfg : PipelineConfig) (cert : Certificate) : option error :=
  match insufficient_roles cfg (pipeline_roles cfg cert) with
  | Some err => Some err
  | None =>
      match check_spiffe cfg cert with
      | Some err => Some err
      | None => check_offline cfg cert (offline_now clk)
      end
  end.

(** [src/pipeline.go:253-538 RunAccessPipeline] once the certificates passed. *)
Definition run_checked (clk : pipeline_clock) (globalCapReg : option CapabilityRegistry)
    (clientCert : Certificate) (cfg : PipelineConfig) (w : world) : PipelineResult * world * output :=
  match check_identity clk cfg clientCert with
  | Some err => (deny err, w, no_output)
  | None =>
      let '(adm, nonces, warns) :=
        CheckAdmission (admission_readings clk) (Some clientCert)
          (admission_config cfg (PCredentialBundle cfg)) (w_nonce w) in
      let w := set_nonce w nonces in
      if negb (bool_decide (ADecision adm = DecisionAllow)) then
        (denyWithAdmission deny adm, w, {| audit := []; warnings := warns; actions := [] |})
      else
        let roles := pipeline_roles cfg clientCert in
        let '(entries, refused) := check_capabilities cfg globalCapReg clientCert adm roles in
        match refused with
        | None => (granted_result clientCert adm roles, w,
                   {| audit := entries; warnings := warns; actions := [] |})
        | Some r =>
            let '(acts, risk) :=
              match r_risk r with
              | None => ([], w_risk w)
              | Some (signal, cap, details) =>
                  recordRiskViolation (w_risk w) (Some clientCert) signal cap details (risk_now clk)
              end in
            (deny (r_reason r), {| w_ocsp := w_ocsp w; w_nonce := w_nonce w; w_risk := risk |},
             {| audit := entries; warnings := warns; actions := acts |})
        end
  end.

(** [src/pipeline.go:RunAccessPipeline] *)
Definition RunAccessPipeline (clk : pipeline_clock) (globalCapReg : option CapabilityRegistry)
    (chain : list Certificate) (cfg : PipelineConfig) (w : world) : PipelineResult * world * output :=
  match chain with
  | [] => (deny (Errorf "no client certificate presented" []), w, no_output)
  | clientCert :: rest =>
      let '(err, o) := check_certificates clk cfg clientCert rest (w_ocsp w) in
      let w := set_ocsp w o in
      match err with
      | Some err => (deny err, w, no_output)
      | None => run_checked clk globalCapReg clientCert cfg w
      end
  end.
End Pipeline.

(** * Lemmas *)
Lemma first_some_None {A B} (f : A -> option B) l :
  first_some f l = None <-> forall x, x ∈ l -> f x = None.
Proof.
  induction l as [|x l IH]; simpl; [split; [by intros _ ? ?%elem_of_nil|done]|].
  destruct (f x) eqn:E.
  - split; [done|]. intros H. rewrite (H x) in E by set_solver. done.
  - rewrite IH. split.
    + intros H y [->|Hy]%elem_of_cons; [done|by apply H].
    + intros H y Hy. apply H. set_solver.
Qed.

Section PipelineFacts.
  Context {CN : CapabilityNames} {CS : ClcSemantics} {HF : HashFunction} {PM : PkiMethods}
          {DC : DACrypto} {CP : CertificateParser} {CE : CRLEnv} {OE : OCSPEnv} {UP : URLParser}.
  Context (EqualFold : string -> string -> bool).

(** A certificate is valid and, by every configured source, not revoked. *)
Definition not_revoked (cfg : PipelineConfig) (cert : Certificate) (issuer : option Certificate)
    (ocsp : bool) (now : Time) (run : check_run) : Prop :=
  (forall crl, PCRLCache cfg = Some crl -> IsRevokedCert crl (Some cert) now = Ok false) /\
  (ocsp = true -> exists oc, (Check_ oc cert issuer run).1 = None).
Definition is_some {A} (o : option A) : bool := match o with Some _ => true | None => false end.

Lemma check_crl_None cert cfg now : check_crl cert cfg now = None ->
  forall crl, PCRLCache cfg = Some crl -> IsRevokedCert crl (Some cert) now = Ok false.
Proof. unfold check_crl. intros H crl Hc. rewrite Hc in H. by destruct (IsRevokedCert _ _ _) as [[]|]. Qed.

Lemma checkRevocation_None cert issuer cfg o now run o' :
  checkRevocation cert issuer cfg o now run = (None, o') ->
  not_revoked cfg cert issuer (is_some o) now run /\ is_some o' = is_some o.
Proof.
  unfold checkRevocation, not_revoked. intros H. destruct (check_crl cert cfg now) eqn:E; [done|].
  pose proof (check_crl_None _ _ _ E) as G.
  destruct o as [oc|]; [|by injection H as <-].
  destruct (Check_ oc cert issuer run) as [[e|] oc'] eqn:Ec; [done|]. injection H as <-.
  split; [|done]. split; [done|]. intros _. exists oc. by rewrite Ec.
Qed.

Lemma check_chain_None clk cfg i chain o o' :
  check_chain clk cfg i chain o = (None, o') ->
  forall k c, chain !! k = Some c ->
    checkCertValidity c (valid_now clk (i + k)) = None /\
    not_revoked cfg c (chain !! S k) (is_some o) (crl_now clk (i + k)) (ocsp_run clk (i + k)).
Proof.
  revert i o. induction chain as [|c0 chain IH]; intros i o H k c Hk; [done|]. simpl in H.
  destruct (checkCertValidity c0 _) eqn:Ev; [done|].
  destruct (checkRevocation c0 _ cfg o _ _) as [[e|] o1] eqn:Er; [done|].
  apply checkRevocation_None in Er as [Hr Ho]. destruct k as [|k].
  - simpl in Hk. injection Hk as <-. rewrite Nat.add_0_r. split; [done|].
    by destruct chain.
  - simpl in Hk. replace (i + S k)%nat with (S i + k)%nat by lia.
    destruct (IH _ _ H k c Hk) as [Hv Hn]. split; [done|]. rewrite <- Ho. exact Hn.
Qed.

(** What the scope of the chain check covers. *)
Definition chain_checked (clk : pipeline_clock) (cfg : PipelineConfig) (chain : list Certificate)
    (ocsp : bool) : Prop :=
  match CheckScope cfg with
  | CheckLeafOnly => exists leaf, head chain = Some leaf /\
      checkCertValidity leaf (valid_now clk 0) = None /\
      not_revoked cfg leaf None ocsp (crl_now clk 0) (ocsp_run clk 0)
  | CheckFullChain => forall k c, chain !! k = Some c ->
      checkCertValidity c (valid_now clk k) = None /\
      not_revoked cfg c (chain !! S k) ocsp (crl_now clk k) (ocsp_run clk k)
  end.

Lemma check_certificates_None clk cfg leaf rest o o' :
  check_certificates clk cfg leaf rest o = (None, o') ->
  chain_checked clk cfg (leaf :: rest) (is_some o).
Proof.
  unfold check_certificates, chain_checked. destruct (CheckScope cfg).
  - intros H k c Hk. by apply (check_chain_None _ _ _ _ _ _ H).
  - destruct (checkCertValidity leaf _) eqn:Ev; [done|]. intros H.
    apply checkRevocation_None in H as [H _]. by exists leaf.
Qed.

(** What the pipeline established of one effective capability. *)
Definition capability_checked (cfg : PipelineConfig) (gcr : option CapabilityRegistry)
    (cert : Certificate) (adm : AdmissionResult) (roles : list string) (cap : Capability) : Prop :=
  let agentId := match AAIC adm with Some a => AgentId a | None => "" end in
  (forall reg a pa g, ParameterValidators cfg = Some reg -> AAIC adm = Some a ->
     APrincipalAuthorization adm = Some pa -> g ∈ Grants pa ->
     aicCapabilityMatches [cap] (CapabilityId g) = true -> ValidateCapability (Some reg) g cap = None) /\
  (forall reg, (match PCapabilityRegistry cfg with Some r => Some r | None => gcr end) = Some reg ->
     RegistryEnabled reg = true -> ValidateRegistered reg (FullID cap) = None) /\
  (forall plugins, (select_plugins cfg agentId).1 = Some plugins ->
     match plugins (SchemeId cap) with
     | Err _ => requiredCapUnserved (PRequiredCapabilities cfg) cap = false
     | Ok p => exists res, p cap {| PCAgentId := agentId; ClientCN := CommonName cert; PCRoles := roles;
                                    PCTarget := CapabilityId cap; Facts := PHTTPFacts cfg |} = Ok res /\
                           PDecision res <> PluginDeny
     end).

Lemma check_parameters_None cfg cert adm :
  check_parameters cfg cert adm = None ->
  forall cap reg a pa g, cap ∈ EffectiveCaps adm -> ParameterValidators cfg = Some reg ->
    AAIC adm = Some a -> APrincipalAuthorization adm = Some pa -> g ∈ Grants pa ->
    aicCapabilityMatches [cap] (CapabilityId g) = true -> ValidateCapability (Some reg) g cap = None.
Proof.
  unfold check_parameters. intros H cap reg a pa g Hc Hr Ha Hp Hg Hm. rewrite Hr, Ha, Hp in H.
  rewrite first_some_None in H. specialize (H (cap, g)). cbn beta iota in H.
  destruct (ValidateCapability (Some reg) g cap); [|done]. discriminate H.
  unfold parameter_pairs. apply list_elem_of_In, in_flat_map. exists cap.
  split; [by apply list_elem_of_In|]. apply in_map, filter_In. split; [by apply list_elem_of_In|done].
Qed.

Lemma run_plugins_None cfg reg cert adm roles agentId daHash version caps l :
  run_plugins cfg reg cert adm roles agentId daHash version caps = (l, None) ->
  forall cap, cap ∈ caps ->
    match reg (SchemeId cap) with
    | Err _ => requiredCapUnserved (PRequiredCapabilities cfg) cap = false
    | Ok p => exists res, p cap {| PCAgentId := agentId; ClientCN := CommonName cert; PCRoles := roles;
                                   PCTarget := CapabilityId cap; Facts := PHTTPFacts cfg |} = Ok res /\
                          PDecision res <> PluginDeny
    end.
Proof.
  revert l. induction caps as [|c caps IH]; intros l H cap Hc; [by apply elem_of_nil in Hc|].
  cbn [run_plugins] in H.
  destruct (run_plugins cfg reg cert adm roles agentId daHash version caps) as [l' r'] eqn:Er.
  destruct (reg (SchemeId c)) as [p|e] eqn:Ep.
  - destruct (p c _) as [res|] eqn:Ex; [|done].
    destruct (PDecision res) eqn:Ed; simplify_eq; apply elem_of_cons in Hc as [->|Hc];
      try (by eapply IH); rewrite Ep; exists res; split; congruence.
  - destruct (requiredCapUnserved _ c) eqn:Eq; [done|]. injection H as _ ->.
    apply elem_of_cons in Hc as [->|Hc]; [by rewrite Ep|by eapply IH].
Qed.

Lemma check_capabilities_None cfg gcr cert adm roles l :
  check_capabilities cfg gcr cert adm roles = (l, None) ->
  forall cap, cap ∈ EffectiveCaps adm -> capability_checked cfg gcr cert adm roles cap.
Proof.
  unfold check_capabilities. destruct (check_parameters cfg cert adm) eqn:Ep; [done|].
  set (agentId := match AAIC adm with Some a => AgentId a | None => "" end).
  destruct (select_plugins cfg agentId) as [reg version] eqn:Es.
  destruct (check_registered _ _ _ _ _ _) eqn:Er; [done|]. intros H cap Hc.
  split; [intros; by eapply check_parameters_None|]. split.
  - intros creg Hreg Hen. unfold check_registered in Er. rewrite Hreg, Hen in Er.
    rewrite first_some_None in Er. specialize (Er cap Hc). cbn beta in Er.
    by destruct (ValidateRegistered creg (FullID cap)).
  - intros plugins Hpl. fold agentId in Hpl |- *. rewrite Es in Hpl. simpl in Hpl. subst reg.
    by eapply run_plugins_None.
Qed.

Lemma granted_result_granted leaf adm roles : Granted (granted_result leaf adm roles) = true.
Proof. unfold granted_result. by destruct (aggregateCLCDecisions _) as [[]]. Qed.

(** When a run grants, over its four stages. *)
Lemma pipeline_granted_iff clk gcr leaf rest cfg w :
  Granted (RunAccessPipeline EqualFold clk gcr (leaf :: rest) cfg w).1.1 = true <->
  (check_certificates clk cfg leaf rest (w_ocsp w)).1 = None /\ check_identity clk cfg leaf = None /\
  let adm := (CheckAdmission (admission_readings clk) (Some leaf)
                  (admission_config cfg (PCredentialBundle cfg)) (w_nonce w)).1.1 in
  ADecision adm = DecisionAllow /\
  (check_capabilities cfg gcr leaf adm (pipeline_roles cfg leaf)).2 = None.
Proof.
  unfold RunAccessPipeline, run_checked. destruct (check_certificates clk cfg leaf rest (w_ocsp w)) as [[e|] o]; cbn [fst].
  { by split; [|intros []]. }
  destruct (check_identity clk cfg leaf); [by split; [|intros (_ & ? & _)]|]. cbn [w_nonce set_ocsp].
  destruct (CheckAdmission _ _ _ _) as [[adm nonces] warns]. cbn zeta. cbn [fst snd].
  destruct (decide (ADecision adm = DecisionAllow)) as [Hd|Hd].
  2: { rewrite bool_decide_eq_false_2 by done. cbn. split; [done|by intros (_ & _ & ? & _)]. }
  rewrite bool_decide_eq_true_2 by done. cbn [negb].
  destruct (check_capabilities _ _ _ _ _) as [l [r|]]; cbn [snd].
  - destruct (match r_risk r with None => _ | Some _ => _ end). cbn. split; [done|by intros (_ & _ & _ & ?)].
  - cbn [fst]. rewrite granted_result_granted. by repeat split.
Qed.

(** A granted run's result is the one built from its admission. *)
Lemma pipeline_granted_result clk gcr leaf rest cfg w :
  let r := (RunAccessPipeline EqualFold clk gcr (leaf :: rest) cfg w).1.1 in
  Granted r = true ->
  r = granted_result leaf (CheckAdmission (admission_readings clk) (Some leaf)
        (admission_config cfg (PCredentialBundle cfg)) (w_nonce w)).1.1 (pipeline_roles cfg leaf).
Proof.
  unfold RunAccessPipeline, run_checked. destruct (check_certificates clk cfg leaf rest (w_ocsp w)) as [[e|] o]; [done|].
  destruct (check_identity clk cfg leaf); [done|]. cbn [w_nonce set_ocsp].
  destruct (CheckAdmission _ _ _ _) as [[adm nonces] warns].
  destruct (negb _); [done|]. cbn [fst snd].
  destruct (check_capabilities _ _ _ _ _) as [l [r|]]; [|done].
  by destruct (match r_risk r with None => _ | Some _ => _ end).
Qed.

Lemma granted_result_fields leaf adm roles :
  let r := granted_result leaf adm roles in
  PRoles r = roles /\ PPrincipal r = APrincipalUid adm /\ PSerial r = serial_Text16 (SerialNumber leaf) /\
  PAgentId r = match AAIC adm with Some a => AgentId a | None => "" end /\ PAIC r = AAIC adm /\
  POperationDecisions r = OperationDecisions adm.
Proof. cbn zeta. unfold granted_result. by destruct (aggregateCLCDecisions _) as [[]]. Qed.

(** * Properties *)

(** C5: a connection is granted only if every certificate in scope is in its
    validity period and not revoked by the CRL and OCSP sources configured, its
    roles, SPIFFE identity and remaining lifetime are acceptable, its admission
    allowed it, and each effective capability stays within the principal's
    parameters, is registered and was not denied by the plugin of its scheme;
    the result is the admission's. *)
Theorem granted_connection_checked clk gcr chain cfg w r w' out
    (H : RunAccessPipeline EqualFold clk gcr chain cfg w = (r, w', out)) (Hg : Granted r = true) :
  exists leaf adm nonces,
    head chain = Some leaf /\ chain_checked clk cfg chain (is_some (w_ocsp w)) /\
    (AllowRoles cfg = [] \/ CheckRole (PRoles r) (AllowRoles cfg) = true) /\
    check_spiffe cfg leaf = None /\ check_offline cfg leaf (offline_now clk) = None /\
    CheckAdmission (admission_readings clk) (Some leaf) (admission_config cfg (PCredentialBundle cfg))
      (w_nonce w) = (adm, nonces, warnings out) /\ ADecision adm = DecisionAllow /\
    (forall cap, cap ∈ EffectiveCaps adm -> capability_checked cfg gcr leaf adm (PRoles r) cap) /\
    PAIC r = AAIC adm /\ POperationDecisions r = OperationDecisions adm /\
    PPrincipal r = APrincipalUid adm.
Proof.
  unfold RunAccessPipeline, run_checked in H. destruct chain as [|leaf rest]; [by injection H as <- _ _|].
  destruct (check_certificates clk cfg leaf rest (w_ocsp w)) as [[e|] o] eqn:Ec;
    [by injection H as <- _ _|].
  unfold check_identity in H.
  destruct (insufficient_roles cfg (pipeline_roles cfg leaf)) eqn:Ei; [by injection H as <- _ _|].
  destruct (check_spiffe cfg leaf) eqn:Es; [by injection H as <- _ _|].
  destruct (check_offline cfg leaf _) eqn:Eo; [by injection H as <- _ _|]. cbn [w_nonce set_ocsp] in H.
  destruct (CheckAdmission _ _ _ _) as [[adm nonces] warns] eqn:Ea.
  destruct (decide (ADecision adm = DecisionAllow)) as [Hd|Hd].
  2: { rewrite bool_decide_eq_false_2 in H by done. by injection H as <- _ _. }
  rewrite bool_decide_eq_true_2 in H by done. cbn [negb] in H.
  destruct (check_capabilities cfg gcr leaf adm _) as [l [rf|]] eqn:Ek.
  { destruct (match r_risk rf with None => _ | Some _ => _ end). by injection H as <- _ _. }
  injection H as <- _ <-. exists leaf, adm, nonces.
  destruct (granted_result_fields leaf adm (pipeline_roles cfg leaf)) as (-> & -> & _ & _ & -> & ->).
  split; [done|]. split; [by eapply check_certificates_None|]. split.
  { unfold insufficient_roles in Ei. destruct (AllowRoles cfg) as [|a l'] eqn:El; [by left|]. right.
    destruct (CheckRole _ _) eqn:Er; [done|]. by rewrite andb_true_r in Ei. }
  split; [done|]. split; [done|]. split; [done|]. split; [done|].
  split; [by eapply check_capabilities_None|done].
Qed.
End PipelineFacts.

(** * Concrete instances

    The agent of [Admission]'s samples reaches a gateway that serves the [db]
    scheme and has a fresh CRL, an OCSP responder and a risk monitor; its
    credential bundle carries the user's certificate. *)
Section Witnesses.
  #[local] Existing Instance clc_names.
  #[local] Existing Instance toy_semantics.
  #[local] Existing Instance toy_crypto.
  #[local] Existing Instance adm_methods.
  #[local] Existing Instance adm_parser.
  #[local] Existing Instance sha256.
  #[local] Existing Instance toy_crl_env.
  #[local] Existing Instance toy_ocsp_env.

Definition gate_urls : URLParser := {| url_Parse := fun _ => Err (ErrNew "no url") |}.
  #[local] Existing Instance gate_urls.

Definition gate_plugins : PluginRegistry := fun scheme =>
  if String.eqb scheme "db" then
    Ok (fun cap ctx => Ok {| PDecision := if String.eqb (CapabilityId cap) "read" then PluginAllow else PluginDeny;
                             PReason := "by table" |})
  else Err (ErrNew "no plugin").

Definition gate_config (required : list string) (spiffe : bool) : PipelineConfig := {|
  PCRLCache := Some (refresh (NewCRLCache (toy_cert 1) "http://crl" 60) 12).2;
  AllowRoles := []; CheckScope := CheckFullChain; PRequireAIC := true; RequireSPIFFE := spiffe;
  AllowedSPIFFEIDs := []; SPIFFETrustDomain := ""; PRequiredProtocol := ""; PRequiredRuleId := "";
  PRequiredCapabilities := required; POperations := [op_read];
  PUnresolvedEvaluator := Some (fun _ u => negb (zlen u =? 0)); PDischargeObligations := false;
  PObligationsUnderstood := []; PRequireFreshDecisionContext := false; PDecisionContext := None;
  PDisallowRepresentative := false; PRequireUserPermission := false; PRejectOverflow := false;
  PRequireUserAuth := true; PSkipDelegationAuthVerification := false;
  PEnforceCapSizeConstraints := true; PEnforceSize32 := false;
  CapabilityPluginRegistry := Some gate_plugins; PCapabilityRegistry := None;
  CapabilityPluginResolver := None; PAuditLogger := true; PNonceCache := true; PClientIP := "10.1.2.3";
  PUserCert := Some (toy_cert 7); PUserCertResolver := None; PEnforceConstraints := true;
  PStrictConstraints := true; PAuthorizationPolicy := None; PConstraintRegistry := None;
  ParameterValidators := None; PPolicyServer := None; PCredentialBundle := None; PolicyVersion := 3;
  OfflineMaxCertLifetime := 0; PHTTPFacts := None |}.

Definition gate_clock : pipeline_clock := {|
  valid_now := fun _ => 0; crl_now := fun _ => 12; ocsp_run := fun _ => toy_run; offline_now := 0;
  admission_readings := adm_clock; risk_now := 0 |}.
Definition gate_world : world := {| w_ocsp := Some (NewOCSPCache 0 "allow"); w_nonce := ∅; w_risk := None |}.
Definition gate_out :=
  RunAccessPipeline String.eqb gate_clock None [toy_cert 9] (gate_config ["db:read"] false) gate_world.

Lemma gate_out_eq : RunAccessPipeline String.eqb gate_clock None [toy_cert 9] (gate_config ["db:read"] false)
  gate_world = (gate_out.1.1, gate_out.1.2, gate_out.2).
Proof. exact (triple_eta gate_out). Qed.

Lemma gate_granted : Granted gate_out.1.1 = true.
Proof. vm_compute. reflexivity. Qed.

Lemma granted_connection_checked_witness : exists adm,
  ADecision adm = DecisionAllow /\
  forall cap, cap ∈ EffectiveCaps adm ->
    capability_checked (gate_config ["db:read"] false) None (toy_cert 9) adm (PRoles gate_out.1.1) cap.
Proof.
  destruct (granted_connection_checked _ _ _ _ _ _ _ _ _ gate_out_eq gate_granted)
    as (leaf & adm & nonces & Hl & _ & _ & _ & _ & _ & Ha & Hc & _).
  injection Hl as <-. exists adm. split; [exact Ha|exact Hc].
Defined.

(** The run's audit log, and the refusal of an agent that declares a capability
    its user lacks and the gateway requires. *)
Example gate_audit : map (fun e => (ECapabilityID e, EDecision e)) (audit gate_out.2) = [("read", "allow")] /\
  Granted (RunAccessPipeline String.eqb gate_clock None [toy_cert 9]
             (gate_config ["db:drop"] false) gate_world).1.1 = false.
Proof. vm_compute. repeat split; reflexivity. Qed.
End Witnesses.
