(* ===== verification/TrustLayers.v ===== *)
(** The three trust layers of [src/trust_model.go] and their relation to the
    single-entry pipeline of [Pipeline]. *)
From S2P Require Import Prelude GoStrings GoTime GoJson Types Sha256 Capability DelegationAuth Delegation.
From S2P Require Import NonceCache Constraints AdmissionTypes Clc Credential Admission Rbac Risk.
From S2P Require Import Revocation Params Spiffe Pipeline.
Local Open Scope string_scope.
Local Open Scope Z_scope.
Local Open Scope list_scope.

(** * Definitions *)

(** A [TrustLayer] is an integer. *)
Abbreviation TrustLayer := Z.
(** [src/trust_model.go:TrustLayer] *)
Definition Layer1Identity : TrustLayer := 0.
Definition Layer2Representation : TrustLayer := 1.
Definition Layer3OnlineAuthorization : TrustLayer := 2.
(** [src/trust_model.go:TrustLayer.String] *)
Definition TrustLayer_String (l : TrustLayer) : string :=
  if l =? Layer1Identity then "identity"
  else if l =? Layer2Representation then "representation"
  else if l =? Layer3OnlineAuthorization then "online_authorization"
  else "unknown".

(** [src/trust_model.go:Layer1Result] *)
Record Layer1Result := { L1Verified : bool; L1Reason : message; L1Roles : list string }.
(** [src/trust_model.go:Layer2Result] *)
Record Layer2Result := {
  L2Verified : bool; L2Reason : message; L2AIC : option AIC;
  L2PrincipalAuthorization : option PrincipalAuthorization; L2PrincipalUid : string
}.
(** [src/trust_model.go:Layer3Result] *)
Record Layer3Result := { L3Verified : bool; L3Reason : message }.

Section Layers.
  Context {CN : CapabilityNames} {CS : ClcSemantics} {HF : HashFunction} {PM : PkiMethods}
          {DC : DACrypto} {CP : CertificateParser} {CE : CRLEnv} {OE : OCSPEnv} {UP : URLParser}.

(** [src/trust_model.go:87-91 VerifyLayer1] *)
Fixpoint check_validity (clk : pipeline_clock) (i : nat) (chain : list Certificate) : option error :=
  match chain with
  | [] => None
  | c :: chain' =>
      match checkCertValidity c (valid_now clk i) with
      | Some err => Some err
      | None => check_validity clk (S i) chain'
      end
  end.

(** [src/trust_model.go:VerifyLayer1] *)
Definition VerifyLayer1 (clk : pipeline_clock) (chain : list Certificate) (cfg : PipelineConfig)
  : Layer1Result :=
  match chain with
  | [] => {| L1Verified := false; L1Reason := Errorf "no client certificate presented" []; L1Roles := [] |}
  | leaf :: _ =>
      match check_validity clk 0 chain with
      | Some err => {| L1Verified := false; L1Reason := err; L1Roles := [] |}
      | None =>
          let roles := extractPolicyRoles leaf (PAuthorizationPolicy cfg) in
          match insufficient_roles cfg roles with
          | Some err => {| L1Verified := false; L1Reason := err; L1Roles := roles |}
          | None => {| L1Verified := true; L1Reason := Errorf "" []; L1Roles := roles |}
          end
      end
  end.

(** The zero [AdmissionResult]; the zero [DecisionResult] is [DecisionAllow]. *)
Definition zero_admission : AdmissionResult := {|
  ADecision := DecisionAllow; AReason := Errorf "" []; AAIC := None; APrincipalAuthorization := None;
  APrincipalUid := ""; EffectiveCaps := []; OperationDecisions := []; Sources := None |}.

(** [src/trust_model.go:VerifyLayer2] with the nonce cache and the audit
    entries of its admission. *)
Definition VerifyLayer2 (clk : pipeline_clock) (chain : list Certificate) (cfg : PipelineConfig)
    (nonces : NonceCache.NonceCache)
  : AdmissionResult * Layer2Result * NonceCache.NonceCache * list audit_warning :=
  match chain with
  | [] => (zero_admission, {| L2Verified := false; L2Reason := Errorf "no client certificate presented" [];
             L2AIC := None; L2PrincipalAuthorization := None; L2PrincipalUid := "" |}, nonces, [])
  | clientCert :: _ =>
      let '(adm, nonces, warns) :=
        CheckAdmission (admission_readings clk) (Some clientCert) (admission_config cfg None) nonces in
      let ok := bool_decide (ADecision adm = DecisionAllow) in
      (adm, {| L2Verified := ok; L2Reason := if ok then Errorf "" [] else AReason adm;
                 L2AIC := AAIC adm; L2PrincipalAuthorization := APrincipalAuthorization adm;
                 L2PrincipalUid := APrincipalUid adm |}, nonces, warns)
  end.

(** [src/trust_model.go:164-172 VerifyLayer3] *)
Fixpoint check_revocations (clk : pipeline_clock) (cfg : PipelineConfig) (i : nat)
    (chain : list Certificate) (o : option OCSPCache) : option error * option OCSPCache :=
  match chain with
  | [] => (None, o)
  | c :: chain' =>
      match checkRevocation c (head chain') cfg o (crl_now clk i) (ocsp_run clk i) with
      | (Some err, o') => (Some err, o')
      | (None, o') => check_revocations clk cfg (S i) chain' o'
      end
  end.

(** [src/trust_model.go:VerifyLayer3] and the OCSP cache after it; the policy
    server is handed no AIC. *)
Definition VerifyLayer3 (clk : pipeline_clock) (chain : list Certificate) (cfg : PipelineConfig)
    (o : option OCSPCache) : Layer3Result * option OCSPCache :=
  let fail err := {| L3Verified := false; L3Reason := err |} in
  match chain with
  | [] => (fail (Errorf "no client certificate presented" []), o)
  | leaf :: _ =>
      let '(err, o') :=
        match CheckScope cfg with
        | CheckLeafOnly => checkRevocation leaf None cfg o (crl_now clk 0) (ocsp_run clk 0)
        | CheckFullChain => check_revocations clk cfg 0 chain o
        end in
      match err with
      | Some err => (fail err, o')
      | None =>
          match PPolicyServer cfg with
          | None => ({| L3Verified := true; L3Reason := Errorf "" [] |}, o')
          | Some ps =>
              match CheckOnline ps leaf None with
              | Some err => (fail (Errorf "policy server %q: %v" [AStr (ServerName ps); AErr err]), o')
              | None => ({| L3Verified := true; L3Reason := Errorf "" [] |}, o')
              end
          end
      end
  end.

(** [src/trust_model.go:VerifyTrustLayers] *)
Definition VerifyTrustLayers (clk : pipeline_clock) (chain : list Certificate)
    (cfg : option PipelineConfig) (w : world) : PipelineResult * world :=
  match cfg with
  | None => (deny (Errorf "nil pipeline config" []), w)
  | Some cfg =>
      let l1 := VerifyLayer1 clk chain cfg in
      if negb (L1Verified l1) then (deny (L1Reason l1), w)
      else
        let '(adm, l2, nonces, _) := VerifyLayer2 clk chain cfg (w_nonce w) in
        let w := set_nonce w nonces in
        if negb (L2Verified l2) then (deny (L2Reason l2), w)
        else
          let '(l3, o) := VerifyLayer3 clk chain cfg (w_ocsp w) in
          let w := set_ocsp w o in
          if negb (L3Verified l3) then (deny (L3Reason l3), w)
          else
            (match head chain with
             | None => deny (Errorf "" [])
             | Some leaf => {|
                 Granted := true; DenyReason := Errorf "" []; PRoles := L1Roles l1;
                 PPrincipal := APrincipalUid adm; PSerial := serial_Text16 (SerialNumber leaf);
                 PAgentId := match AAIC adm with Some a => AgentId a | None => "" end;
                 SPIFFEID_ := ""; PAIC := None; PPrincipalAuthorization := None; CLCVerdict := None;
                 CLCReason := ""; CLCUnresolved := []; POperationDecisions := [] |}
             end, w)
  end.
End Layers.

(** * Lemmas *)
Section LayersFacts.
  Context {CN : CapabilityNames} {CS : ClcSemantics} {HF : HashFunction} {PM : PkiMethods}
          {DC : DACrypto} {CP : CertificateParser} {CE : CRLEnv} {OE : OCSPEnv} {UP : URLParser}.
  Context (EqualFold : string -> string -> bool).

(** The pipeline's interleaved chain check is the validity check of Layer 1
    and the revocation check of Layer 3. *)
Lemma check_chain_split clk cfg i chain o o' :
  check_chain clk cfg i chain o = (None, o') <->
  check_validity clk i chain = None /\ check_revocations clk cfg i chain o = (None, o').
Proof.
  revert i o. induction chain as [|c chain IH]; intros i o; simpl; [intuition|].
  destruct (checkCertValidity c _); [split; [done|by intros []]|].
  destruct (checkRevocation c _ cfg o _ _) as [[e|] o1]; [split; [done|by intros []]|]. apply IH.
Qed.

Lemma check_chain_accepts clk cfg i chain o :
  (check_chain clk cfg i chain o).1 = None <->
  check_validity clk i chain = None /\ (check_revocations clk cfg i chain o).1 = None.
Proof.
  split.
  - destruct (check_chain clk cfg i chain o) as [e o'] eqn:E. cbn [fst]. intros ->.
    by apply check_chain_split in E as [-> ->].
  - intros [Hv Hr]. destruct (check_revocations clk cfg i chain o) as [e o'] eqn:E. cbn [fst] in Hr. subst e.
    by rewrite (proj2 (check_chain_split clk cfg i chain o o')).
Qed.

(** The configuration without what the layers do not check: SPIFFE identity,
    offline lifetime, parameter boundaries, registries, plugins and the
    credential bundle. *)
Definition plain (cfg : PipelineConfig) : PipelineConfig := {|
  PCRLCache := PCRLCache cfg; AllowRoles := AllowRoles cfg; CheckScope := CheckScope cfg;
  PRequireAIC := PRequireAIC cfg; RequireSPIFFE := false; AllowedSPIFFEIDs := []; SPIFFETrustDomain := "";
  PRequiredProtocol := PRequiredProtocol cfg; PRequiredRuleId := PRequiredRuleId cfg;
  PRequiredCapabilities := PRequiredCapabilities cfg; POperations := POperations cfg;
  PUnresolvedEvaluator := PUnresolvedEvaluator cfg; PDischargeObligations := PDischargeObligations cfg;
  PObligationsUnderstood := PObligationsUnderstood cfg;
  PRequireFreshDecisionContext := PRequireFreshDecisionContext cfg; PDecisionContext := PDecisionContext cfg;
  PDisallowRepresentative := PDisallowRepresentative cfg; PRequireUserPermission := PRequireUserPermission cfg;
  PRejectOverflow := PRejectOverflow cfg; PRequireUserAuth := PRequireUserAuth cfg;
  PSkipDelegationAuthVerification := PSkipDelegationAuthVerification cfg;
  PEnforceCapSizeConstraints := PEnforceCapSizeConstraints cfg; PEnforceSize32 := PEnforceSize32 cfg;
  CapabilityPluginRegistry := None; PCapabilityRegistry := None; CapabilityPluginResolver := None;
  PAuditLogger := PAuditLogger cfg; PNonceCache := PNonceCache cfg; PClientIP := PClientIP cfg;
  PUserCert := PUserCert cfg; PUserCertResolver := PUserCertResolver cfg;
  PEnforceConstraints := PEnforceConstraints cfg; PStrictConstraints := PStrictConstraints cfg;
  PAuthorizationPolicy := PAuthorizationPolicy cfg; PConstraintRegistry := PConstraintRegistry cfg;
  ParameterValidators := None; PPolicyServer := PPolicyServer cfg; PCredentialBundle := None;
  PolicyVersion := PolicyVersion cfg; OfflineMaxCertLifetime := 0; PHTTPFacts := PHTTPFacts cfg |}.

Lemma checkRevocation_plain cfg cert issuer o now run :
  checkRevocation cert issuer (plain cfg) o now run = checkRevocation cert issuer cfg o now run.
Proof. reflexivity. Qed.

Lemma check_chain_plain clk cfg i chain o : check_chain clk (plain cfg) i chain o = check_chain clk cfg i chain o.
Proof.
  revert i o. induction chain as [|c chain IH]; intros i o; simpl; [done|].
  rewrite checkRevocation_plain. destruct (checkCertValidity c _); [done|].
  destruct (checkRevocation c _ cfg o _ _) as [[e|] o1]; [done|]. apply IH.
Qed.

Lemma check_capabilities_plain cfg leaf adm roles :
  check_capabilities (plain cfg) None leaf adm roles = ([], None).
Proof. reflexivity. Qed.

Lemma check_identity_plain clk cfg leaf :
  check_identity clk (plain cfg) leaf = insufficient_roles cfg (pipeline_roles cfg leaf).
Proof.
  unfold check_identity. change (insufficient_roles (plain cfg) (pipeline_roles (plain cfg) leaf))
    with (insufficient_roles cfg (pipeline_roles cfg leaf)).
  by destruct (insufficient_roles cfg _).
Qed.

(** When the layers grant, over the three layers' own checks. *)
Lemma layers_granted_iff clk leaf rest cfg w :
  CheckScope cfg = CheckFullChain ->
  Granted (VerifyTrustLayers clk (leaf :: rest) (Some cfg) w).1 = true <->
  check_validity clk 0 (leaf :: rest) = None /\
  insufficient_roles cfg (pipeline_roles cfg leaf) = None /\
  ADecision (CheckAdmission (admission_readings clk) (Some leaf) (admission_config cfg None) (w_nonce w)).1.1
    = DecisionAllow /\
  (check_revocations clk cfg 0 (leaf :: rest) (w_ocsp w)).1 = None /\
  (forall ps, PPolicyServer cfg = Some ps -> CheckOnline ps leaf None = None).
Proof.
  intros Hs. unfold VerifyTrustLayers, VerifyLayer1.
  destruct (check_validity clk 0 (leaf :: rest)); [by split; [|intros []]|].
  fold (pipeline_roles cfg leaf).
  destruct (insufficient_roles cfg _); [by split; [|intros (_ & ? & _)]|]. cbn [L1Verified negb].
  unfold VerifyLayer2. destruct (CheckAdmission _ _ _ _) as [[adm nonces] warns]. cbn [fst snd].
  destruct (decide (ADecision adm = DecisionAllow)) as [Hd|Hd].
  2: { rewrite bool_decide_eq_false_2 by done. cbn. split; [done|by intros (_ & _ & ? & _)]. }
  rewrite bool_decide_eq_true_2 by done. cbn [L2Verified negb w_ocsp set_nonce].
  unfold VerifyLayer3. rewrite Hs.
  destruct (check_revocations clk cfg 0 (leaf :: rest) (w_ocsp w)) as [[e|] o]; cbn [fst].
  { cbn. split; [done|by intros (_ & _ & _ & ? & _)]. }
  destruct (PPolicyServer cfg) as [ps|]; [|by split].
  destruct (CheckOnline ps leaf None) eqn:E; cbn.
  - split; [done|]. intros (_ & _ & _ & _ & H). specialize (H ps eq_refl). congruence.
  - split; [|done]. intros _. repeat split; try done. by intros ? [= <-].
Qed.

Lemma layers_granted_result clk leaf rest cfg w :
  let r := (VerifyTrustLayers clk (leaf :: rest) (Some cfg) w).1 in
  let adm := (CheckAdmission (admission_readings clk) (Some leaf) (admission_config cfg None) (w_nonce w)).1.1 in
  Granted r = true ->
  r = {| Granted := true; DenyReason := Errorf "" []; PRoles := pipeline_roles cfg leaf;
         PPrincipal := APrincipalUid adm; PSerial := serial_Text16 (SerialNumber leaf);
         PAgentId := match AAIC adm with Some a => AgentId a | None => "" end;
         SPIFFEID_ := ""; PAIC := None; PPrincipalAuthorization := None; CLCVerdict := None;
         CLCReason := ""; CLCUnresolved := []; POperationDecisions := [] |}.
Proof.
  unfold VerifyTrustLayers, VerifyLayer1. destruct (check_validity clk 0 (leaf :: rest)); [done|].
  fold (pipeline_roles cfg leaf). destruct (insufficient_roles cfg _); [done|]. cbn [L1Verified negb].
  unfold VerifyLayer2. destruct (CheckAdmission _ _ _ _) as [[adm nonces] warns]. cbn [fst snd].
  destruct (negb (L2Verified _)); [done|]. destruct (VerifyLayer3 _ _ _ _) as [l3 o].
  by destruct (negb (L3Verified l3)).
Qed.

(** * Properties *)

(** The three layers grant exactly the connections that the single-entry
    pipeline grants with its SPIFFE, offline, parameter, registry, plugin and
    credential-bundle checks switched off: the layers are the rest of the
    pipeline, and no check of theirs is lost by composing them. *)
Theorem layers_are_plain_pipeline clk chain cfg w
    (Hs : CheckScope cfg = CheckFullChain) (Hp : PPolicyServer cfg = None) :
  Granted (VerifyTrustLayers clk chain (Some cfg) w).1 =
  Granted (RunAccessPipeline EqualFold clk None chain (plain cfg) w).1.1.
Proof.
  destruct chain as [|leaf rest]; [done|]. apply eq_true_iff_eq.
  rewrite layers_granted_iff, pipeline_granted_iff by done.
  unfold check_certificates. change (CheckScope (plain cfg)) with (CheckScope cfg). rewrite Hs, check_identity_plain.
  cbv zeta. rewrite check_capabilities_plain, check_chain_plain.
  change (admission_config (plain cfg) (PCredentialBundle (plain cfg))) with (admission_config cfg None).
  rewrite check_chain_accepts.
  assert (forall ps, PPolicyServer cfg = Some ps -> CheckOnline ps leaf None = None) by (by rewrite Hp).
  intuition.
Qed.

(** A connection the pipeline grants over the full chain, without a
    credential bundle or a policy server, passes the three layers with the same
    roles and principal. *)
Theorem pipeline_grant_passes_layers clk gcr chain cfg w
    (Hs : CheckScope cfg = CheckFullChain) (Hp : PPolicyServer cfg = None)
    (Hb : PCredentialBundle cfg = None)
    (Hg : Granted (RunAccessPipeline EqualFold clk gcr chain cfg w).1.1 = true) :
  let r := (VerifyTrustLayers clk chain (Some cfg) w).1 in
  let p := (RunAccessPipeline EqualFold clk gcr chain cfg w).1.1 in
  Granted r = true /\ PRoles r = PRoles p /\ PPrincipal r = PPrincipal p /\ PSerial r = PSerial p /\
  PAgentId r = PAgentId p.
Proof.
  cbv zeta. destruct chain as [|leaf rest]; [done|].
  rewrite (pipeline_granted_result _ _ _ _ _ _ _ Hg).
  destruct (granted_result_fields leaf (CheckAdmission (admission_readings clk) (Some leaf)
    (admission_config cfg (PCredentialBundle cfg)) (w_nonce w)).1.1 (pipeline_roles cfg leaf))
    as (-> & -> & -> & -> & _).
  apply pipeline_granted_iff in Hg as (Hc & Hi & Ha & _). rewrite Hb in Ha |- *.
  unfold check_certificates in Hc. rewrite Hs, check_chain_accepts in Hc.
  unfold check_identity in Hi. destruct (insufficient_roles cfg _) eqn:Er; [done|].
  assert (Granted (VerifyTrustLayers clk (leaf :: rest) (Some cfg) w).1 = true) as G.
  { apply layers_granted_iff; [done|]. destruct Hc. repeat split; auto. by rewrite Hp. }
  split; [done|]. by rewrite (layers_granted_result _ _ _ _ _ G).
Qed.
End LayersFacts.

(** * Concrete instances *)
Section Witnesses.
  #[local] Existing Instance clc_names.
  #[local] Existing Instance toy_semantics.
  #[local] Existing Instance toy_crypto.
  #[local] Existing Instance adm_methods.
  #[local] Existing Instance adm_parser.
  #[local] Existing Instance sha256.
  #[local] Existing Instance toy_crl_env.
  #[local] Existing Instance toy_ocsp_env.
  #[local] Existing Instance gate_urls.

Lemma layers_are_plain_pipeline_witness :
  Granted (VerifyTrustLayers gate_clock [toy_cert 9] (Some (gate_config ["db:read"] true)) gate_world).1 =
  Granted (RunAccessPipeline String.eqb gate_clock None [toy_cert 9] (plain (gate_config ["db:read"] true))
             gate_world).1.1.
Proof. exact (layers_are_plain_pipeline _ gate_clock [toy_cert 9]
  (gate_config ["db:read"] true) gate_world eq_refl eq_refl). Defined.

Lemma pipeline_grant_passes_layers_witness :
  PPrincipal (VerifyTrustLayers gate_clock [toy_cert 9] (Some (gate_config ["db:read"] false)) gate_world).1 =
  PPrincipal gate_out.1.1.
Proof.
  exact (proj1 (proj2 (proj2 (pipeline_grant_passes_layers _ gate_clock None [toy_cert 9]
    (gate_config ["db:read"] false) gate_world eq_refl eq_refl eq_refl gate_granted)))).
Defined.

(** The layers grant a connection without a SPIFFE identity that the pipeline
    refuses because one is required. *)
Lemma layers_grant_without_spiffe :
  Granted (VerifyTrustLayers gate_clock [toy_cert 9] (Some (gate_config ["db:read"] true)) gate_world).1 = true /\
  Granted (RunAccessPipeline String.eqb gate_clock None [toy_cert 9] (gate_config ["db:read"] true)
             gate_world).1.1 = false.
Proof. vm_compute. by split. Qed.
End Witnesses.

(** Layer 2 on an empty chain: the layer refuses, but the admission result it
    returns beside the refusal says allow. *)
Lemma layer2_empty_chain_allows
    {CN : CapabilityNames} {CS : ClcSemantics} {HF : HashFunction} {PM : PkiMethods}
    {DC : DACrypto} {CP : CertificateParser} clk cfg nonces :
  let '(adm, l2, _, _) := VerifyLayer2 clk [] cfg nonces in
  ADecision adm = DecisionAllow /\ L2Verified l2 = false.
Proof. by split. Qed.
