(* ===== verification/AuditLog.v ===== *)
(** The audit log ([src/audit.go]): its entries, the JSON lines they are read
    from, the forward reader with its binary search for a start offset, and the
    reader from the end.

    A file is its text; [None] is a file that cannot be opened.  The reader from
    the end works in one buffer of 4096 bytes that the text it keeps between two
    reads may share ([slice]). *)
From S2P Require Import Prelude GoStrings GoTime GoJson GoClock Types AdmissionTypes Pipeline.
From Stdlib Require Import Ascii.
Local Open Scope string_scope.
Local Open Scope Z_scope.
Local Open Scope list_scope.

(** * Definitions *)

(** [src/audit.go:AuditAction] *)
Definition ActionConnected := "connected".
Definition ActionDisconnected := "disconnected".
Definition ActionDenied := "denied".
Definition ActionRevoked := "revoked".
Definition ActionPluginDecision := "plugin_decision".
Definition ActionUnknownConstraint := "unknown_constraint".

(** [src/audit.go:AuditEntry]; the reason is a [message] while the program holds
    it and a text when it is read back. *)
Record AuditEntry {M : Type} := {
  AETime : string; AEAction : string; AESrcIP : string; AEClientCN : string; AEClientSerial : string;
  AERoles : list string; AEMapping : string; AETarget : string; AETargetID : string; AEDuration : string;
  AEDenyReason : M; AEBytesIn : Z; AEBytesOut : Z; AETraceId : string; AESessionId : string;
  AEGatewayId : string; AEProtocol : string; AEAgentId : string; AESPIFFEID : string;
  AEPrincipalUid : string; AEDelegationMode : Z; AEDecision : string; AECapabilities : list string;
  AELevel : string; AEDaHash : string; AEAICFingerprint : string; AEPolicyVersion : Z;
  AERecordDigest : string
}.
Arguments AuditEntry : clear implicits.

(** [AuditEntry{}] *)
Definition zero_entry {M} (reason : M) : AuditEntry M := {|
  AETime := ""; AEAction := ""; AESrcIP := ""; AEClientCN := ""; AEClientSerial := ""; AERoles := [];
  AEMapping := ""; AETarget := ""; AETargetID := ""; AEDuration := ""; AEDenyReason := reason;
  AEBytesIn := 0; AEBytesOut := 0; AETraceId := ""; AESessionId := ""; AEGatewayId := "";
  AEProtocol := ""; AEAgentId := ""; AESPIFFEID := ""; AEPrincipalUid := ""; AEDelegationMode := 0;
  AEDecision := ""; AECapabilities := []; AELevel := ""; AEDaHash := ""; AEAICFingerprint := "";
  AEPolicyVersion := 0; AERecordDigest := "" |}.

(** [src/audit.go:isAuditCritical] *)
Definition isAuditCritical {M} (e : AuditEntry M) : bool :=
  if String.eqb (AELevel e) "WARN" || String.eqb (AELevel e) "ERROR" then true
  else existsb (String.eqb (AEAction e))
         [ActionDenied; ActionRevoked; ActionPluginDecision; ActionUnknownConstraint].

(** [src/audit.go:LogPluginDecision] the entry logged. *)
Definition plugin_entry (p : PluginAuditEntry) : AuditEntry message :=
  let level := if String.eqb (ELevel p) "" then
                 if String.eqb (EDecision p) "allow" then "INFO" else "WARN"
               else ELevel p in {|
  AETime := ""; AEAction := ActionPluginDecision; AESrcIP := ""; AEClientCN := EClientCN p;
  AEClientSerial := ""; AERoles := []; AEMapping := EScheme p; AETarget := ECapabilityID p;
  AETargetID := EDecision p; AEDuration := ""; AEDenyReason := EReason p; AEBytesIn := 0;
  AEBytesOut := 0; AETraceId := ""; AESessionId := ""; AEGatewayId := ""; AEProtocol := "";
  AEAgentId := ""; AESPIFFEID := ""; AEPrincipalUid := EPrincipal p; AEDelegationMode := 0;
  AEDecision := ""; AECapabilities := []; AELevel := level; AEDaHash := EDaHash p;
  AEAICFingerprint := ""; AEPolicyVersion := EPolicyVersion p; AERecordDigest := "" |}.

(** ** Reading a line *)

(** An unsigned integer: a literal without sign, fraction or exponent. *)
Definition dec_uint64 (old : Z) (v : json) : result Z :=
  match v with
  | JNull => Ok old
  | JNum l => match digits_value 0 l with
              | Some z => if z <? 2 ^ 64 then Ok z else Err json_type_error
              | None => Err json_type_error end
  | _ => Err json_type_error
  end.

(** A copy of an entry with some fields replaced. *)
Definition entry_with (e : AuditEntry string) (k : string) (s : string) (l : list string) (z : Z)
  : AuditEntry string :=
  let str name old := if String.eqb k name then s else old in
  let strs name old := if String.eqb k name then l else old in
  let int name old := if String.eqb k name then z else old in {|
  AETime := str "time" (AETime e); AEAction := str "action" (AEAction e);
  AESrcIP := str "src_ip" (AESrcIP e); AEClientCN := str "client_cn" (AEClientCN e);
  AEClientSerial := str "client_serial" (AEClientSerial e); AERoles := strs "roles" (AERoles e);
  AEMapping := str "mapping" (AEMapping e); AETarget := str "target" (AETarget e);
  AETargetID := str "target_id" (AETargetID e); AEDuration := str "duration" (AEDuration e);
  AEDenyReason := str "deny_reason" (AEDenyReason e); AEBytesIn := int "bytes_in" (AEBytesIn e);
  AEBytesOut := int "bytes_out" (AEBytesOut e); AETraceId := str "trace_id" (AETraceId e);
  AESessionId := str "session_id" (AESessionId e); AEGatewayId := str "gateway_id" (AEGatewayId e);
  AEProtocol := str "protocol" (AEProtocol e); AEAgentId := str "agent_id" (AEAgentId e);
  AESPIFFEID := str "spiffe_id" (AESPIFFEID e); AEPrincipalUid := str "principal_uid" (AEPrincipalUid e);
  AEDelegationMode := int "delegation_mode" (AEDelegationMode e);
  AEDecision := str "decision" (AEDecision e); AECapabilities := strs "capabilities" (AECapabilities e);
  AELevel := str "level" (AELevel e); AEDaHash := str "da_hash" (AEDaHash e);
  AEAICFingerprint := str "aic_fingerprint" (AEAICFingerprint e);
  AEPolicyVersion := int "policy_version" (AEPolicyVersion e);
  AERecordDigest := str "record_digest" (AERecordDigest e) |}.

(** The members of an entry: name and value of each, by the kind of its field. *)
Definition str_fields : list (string * (AuditEntry string -> string)) :=
  [("time", AETime); ("action", AEAction); ("src_ip", AESrcIP); ("client_cn", AEClientCN);
   ("client_serial", AEClientSerial); ("mapping", AEMapping); ("target", AETarget);
   ("target_id", AETargetID); ("duration", AEDuration); ("deny_reason", AEDenyReason);
   ("trace_id", AETraceId); ("session_id", AESessionId); ("gateway_id", AEGatewayId);
   ("protocol", AEProtocol); ("agent_id", AEAgentId); ("spiffe_id", AESPIFFEID);
   ("principal_uid", AEPrincipalUid); ("decision", AEDecision); ("level", AELevel); ("da_hash", AEDaHash);
   ("aic_fingerprint", AEAICFingerprint); ("record_digest", AERecordDigest)].
Definition strs_fields : list (string * (AuditEntry string -> list string)) :=
  [("roles", AERoles); ("capabilities", AECapabilities)].
Definition int_fields : list (string * (AuditEntry string -> Z)) :=
  [("bytes_in", AEBytesIn); ("bytes_out", AEBytesOut); ("delegation_mode", AEDelegationMode)].
Definition uint_fields : list (string * (AuditEntry string -> Z)) :=
  [("policy_version", AEPolicyVersion)].

Definition field_named {A} (l : list (string * A)) (k : string) : option (string * A) :=
  List.find (fun p => field_is p.1 k) l.

(** [json.Unmarshal] of an entry: one member of the object. *)
Definition dec_entry_field (e : AuditEntry string) (k : string) (v : json) : result (AuditEntry string) :=
  match field_named str_fields k with
  | Some (n, get) => s ← dec_string (get e) v; Ok (entry_with e n s [] 0)
  | None => match field_named strs_fields k with
  | Some (n, get) => l ← dec_string_list (get e) v; Ok (entry_with e n "" l 0)
  | None => match field_named int_fields k with
  | Some (n, get) => z ← dec_int (get e) v; Ok (entry_with e n "" [] z)
  | None => match field_named uint_fields k with
  | Some (n, get) => z ← dec_uint64 (get e) v; Ok (entry_with e n "" [] z)
  | None => Ok e
  end end end end.

(** [src/audit.go:SignedAuditEntry] *)
Record SignedAuditEntry := { SEntry : AuditEntry string; TST : string }.
Definition dec_signed : json -> result SignedAuditEntry :=
  dec_struct (fun s k v =>
    if field_is "entry" k then e ← dec_struct dec_entry_field (SEntry s) v; Ok {| SEntry := e; TST := TST s |}
    else if field_is "tst" k then t ← dec_string (TST s) v; Ok {| SEntry := SEntry s; TST := t |}
    else Ok s) {| SEntry := zero_entry ""; TST := "" |}.

(** A line of the log. *)
Definition parse_line (line : string) : option SignedAuditEntry :=
  match unmarshal dec_signed line with Ok s => Some s | Err _ => None end.

(** [src/audit.go:AuditFilter] *)
Record AuditFilter := {
  Since : Time; Until : Time; Limit : Z; Offset : Z; Sort : string; FAction : string;
  FClientCN : string; FSerial : string; FMapping : string
}.

(** [src/audit.go:549-576 ReadAuditEntries] the entry of a line that passes the
    filter; the reader from the end makes the same tests. *)
Definition line_entry (f : AuditFilter) (line : string) : option (AuditEntry string) :=
  match parse_line line with
  | None => None
  | Some s =>
      let e := SEntry s in
      if negb (String.eqb (FAction f) "") && negb (String.eqb (AEAction e) (FAction f)) then None
      else match parse_rfc3339 (AETime e) with
      | None => None
      | Some t =>
          if negb (IsZero (Since f)) && Before t (Since f) then None
          else if negb (IsZero (Until f)) && After t (Until f) then None
          else if negb (String.eqb (FClientCN f) "") && negb (String.eqb (AEClientCN e) (FClientCN f)) then None
          else if negb (String.eqb (FSerial f) "") && negb (String.eqb (AEClientSerial e) (FSerial f)) then None
          else if negb (String.eqb (FMapping f) "") && negb (String.eqb (AEMapping e) (FMapping f)) then None
          else Some e
      end
  end.

(** ** The start offset *)

(** The index of the first newline of a text. *)
Fixpoint find_nl (s : string) : option nat :=
  match s with
  | EmptyString => None
  | String c s' => if Ascii.eqb c nl then Some O else option_map S (find_nl s')
  end.

(** Past the newline at or after a position, or the end. *)
Definition next_line (s : string) (p : nat) : nat :=
  match find_nl (sdrop p s) with Some i => p + i + 1 | None => String.length s end.

(** The text from a position up to a newline or the end, and where it ends. *)
Definition line_at (s : string) (p : nat) : string * nat :=
  match find_nl (sdrop p s) with
  | Some j => (stake j (sdrop p s), p + j)%nat
  | None => (sdrop p s, String.length s)
  end.

(** The instant of a line, if it is an entry with one. *)
Definition line_time (line : string) : option Time :=
  match parse_line line with Some s => parse_rfc3339 (AETime (SEntry s)) | None => None end.

(** [src/audit.go:694-743 FindStartOffsetByTime] the loop; [None] when the fuel
    runs out. *)
Fixpoint search_loop (fuel : nat) (s : string) (target : Time) (lo hi : nat) : option nat :=
  if (hi <=? lo)%nat then Some lo
  else match fuel with
  | O => None
  | S fuel =>
      let m := ((lo + hi) / 2)%nat in
      let mid := next_line s m in
      if (String.length s <=? mid)%nat then search_loop fuel s target lo m
      else
        let '(line, e) := line_at s mid in
        if String.eqb line "" then search_loop fuel s target (m + 1) hi
        else match line_time line with
        | None => search_loop fuel s target (e + 1) hi
        | Some t => if Before t target then search_loop fuel s target (e + 1) hi
                    else search_loop fuel s target lo m
        end
  end.

(** [src/audit.go:FindStartOffsetByTime] *)
Definition FindStartOffsetByTime (file : option string) (target : Time) : result nat :=
  match file with
  | None => Err (ErrNew "os.PathError")
  | Some s => Ok (default 0%nat (search_loop (String.length s) s target 0 (String.length s)))
  end.

(** ** From the end *)

(** A slice of bytes: the first [n] bytes of the buffer, or bytes of its own. *)
Inductive slice := Alias (n : nat) | Own (s : string).
Definition slice_text (buf : string) (d : slice) : string :=
  match d with Alias n => stake n buf | Own s => s end.
(** [d[:n]] *)
Definition slice_to (d : slice) (n : nat) : slice :=
  match d with Alias _ => Alias n | Own s => Own (stake n s) end.

(** [strings.LastIndex(s, "\n")] *)
Definition last_nl (s : string) : option nat :=
  option_map (fun i => String.length s - 1 - i)%nat (find_nl (srev s)).

(** [src/audit.go:622-669 readAuditEntriesReverse] the lines of one piece, from
    its end: what is left of it, and the entries so far. *)
Fixpoint piece_lines (fuel : nat) (f : AuditFilter) (buf : string) (data : slice) (skip : Z)
    (acc : list (AuditEntry string)) : slice * Z * list (AuditEntry string) :=
  match fuel with
  | O => (data, skip, acc)
  | S fuel =>
      let text := slice_text buf data in
      match last_nl text with
      | None => (data, skip, acc)
      | Some idx =>
          let line := trim_space (sdrop idx text) in
          let data := slice_to data idx in
          if String.eqb line "" then piece_lines fuel f buf data skip acc
          else match line_entry f line with
          | None => piece_lines fuel f buf data skip acc
          | Some e =>
              if 0 <? skip then piece_lines fuel f buf data (skip - 1) acc
              else let acc := acc ++ [e] in
                   if (0 <? Limit f) && (Limit f <=? zlen acc) then (Own "", skip, acc)
                   else piece_lines fuel f buf data skip acc
          end
      end
  end.

Definition scan_buf : nat := Z.to_nat 4096.

(** [src/audit.go:606-673 readAuditEntriesReverse] the loop over the file, from
    position [pos] down; [ReadAt] overwrites the buffer, and [append] writes
    into it when the text that was kept fits behind. *)
Fixpoint pieces (fuel : nat) (s : string) (f : AuditFilter) (pos : nat) (buf : string) (kept : slice)
    (skip : Z) (acc : list (AuditEntry string)) : list (AuditEntry string) :=
  match fuel, pos with
  | O, _ | _, O => acc
  | S fuel, _ =>
      let n := Nat.min scan_buf pos in
      let pos := (pos - n)%nat in
      let buf := stake n (sdrop pos s) +:+ sdrop n buf in
      let rest := slice_text buf kept in
      let m := (n + String.length rest)%nat in
      let '(buf, data) :=
        if (m <=? scan_buf)%nat then (stake n buf +:+ rest +:+ sdrop m buf, Alias m)
        else (buf, Own (stake n buf +:+ rest)) in
      let '(kept, skip, acc) :=
        piece_lines (S (String.length (slice_text buf data))) f buf data skip acc in
      if (0 <? Limit f) && (Limit f <=? zlen acc) then acc
      else pieces fuel s f pos buf kept skip acc
  end.

(** [src/audit.go:readAuditEntriesReverse] *)
Definition readAuditEntriesReverse (file : option string) (f : AuditFilter) : result (list (AuditEntry string)) :=
  match file with
  | None => Err (ErrNew "os.PathError")
  | Some s => Ok (pieces (String.length s) s f (String.length s) (repeat_byte (chr 0) scan_buf) (Own "")
                    (Offset f) [])
  end.

Definition sortDesc := "desc".

(** [src/audit.go:ReadAuditEntries] the entries, and the error of the scan. *)
Definition ReadAuditEntries (file : option string) (f : AuditFilter)
  : result (list (AuditEntry string) * option error) :=
  if String.eqb (Sort f) sortDesc then
    match readAuditEntriesReverse file f with Ok l => Ok (l, None) | Err e => Err e end
  else
    let start := if IsZero (Since f) then 0%nat
                 else match FindStartOffsetByTime file (Since f) with Ok off => off | Err _ => 0%nat end in
    match file with
    | None => Err (ErrNew "os.PathError")
    | Some s => Ok (scan_select (line_entry f) (Limit f) (Offset f) [] (lines (sdrop start s)))
    end.

(** * Lemmas *)

(** ** Texts made of lines *)
Fixpoint unlines (l : list string) : string :=
  match l with [] => "" | s :: l' => s +:+ String nl (unlines l') end.
(** The position where a line starts. *)
Definition start_of (l : list string) (k : nat) : nat := String.length (unlines (take k l)).

Lemma unlines_app l1 l2 : unlines (l1 ++ l2) = (unlines l1 +:+ unlines l2).
Proof. induction l1 as [|s l1 IH]; [done|]. cbn [unlines app]. rewrite IH, sapp_assoc. done. Qed.

Lemma unlines_take_drop k l : (unlines (take k l) +:+ unlines (drop k l)) = unlines l.
Proof. rewrite <- unlines_app. by rewrite take_drop. Qed.

Lemma sdrop_start_of k l : sdrop (start_of l k) (unlines l) = unlines (drop k l).
Proof. rewrite <- (unlines_take_drop k l) at 1. apply sdrop_length_app. Qed.

Lemma start_of_0 l : start_of l 0 = 0%nat.
Proof. by destruct l. Qed.

Lemma start_of_cons s l k : start_of (s :: l) (S k) = (String.length s + 1 + start_of l k)%nat.
Proof. unfold start_of. rewrite firstn_cons. cbn [unlines]. rewrite slength_app. cbn. lia. Qed.

Lemma start_of_S l k s : l !! k = Some s -> start_of l (S k) = (start_of l k + String.length s + 1)%nat.
Proof.
  intros H. unfold start_of. rewrite (take_S_r _ _ _ H), unlines_app, slength_app. cbn [unlines].
  rewrite slength_app. cbn. lia.
Qed.

Lemma start_of_length l : start_of l (length l) = String.length (unlines l).
Proof. unfold start_of. by rewrite firstn_all. Qed.

Lemma find_nl_none s : contains_byte nl s = false -> find_nl s = None.
Proof.
  induction s as [|c s IH]; [done|]. cbn. intros [-> H]%orb_false_iff. by rewrite IH.
Qed.

Lemma find_nl_app s t : contains_byte nl s = false -> find_nl (s +:+ String nl t) = Some (String.length s).
Proof.
  induction s as [|c s IH]; cbn; [by rewrite Ascii.eqb_refl|]. intros [-> H]%orb_false_iff. by rewrite IH.
Qed.

Lemma contains_byte_sdrop n c s : contains_byte c s = false -> contains_byte c (sdrop n s) = false.
Proof.
  intros H. rewrite <- (stake_sdrop n s), contains_byte_app in H. by apply orb_false_iff in H as [_ ?].
Qed.

Lemma sdrop_app_le n s t : (n <= String.length s)%nat -> sdrop n (s +:+ t) = (sdrop n s +:+ t).
Proof. revert s. induction n as [|n IH]; intros [|c s] H; cbn in *; try done; [lia|]. apply IH. lia. Qed.

Lemma sdrop_app_ge n s t : (String.length s <= n)%nat -> sdrop n (s +:+ t) = sdrop (n - String.length s) t.
Proof.
  revert s. induction n as [|n IH]; intros [|c s] H; cbn in *; try done; [lia|]. apply IH. lia.
Qed.

(** The lines of a text made of lines. *)
Lemma lines_from_app acc s t : contains_byte nl s = false ->
  lines_from acc (s +:+ String nl t) = (acc +:+ s) :: lines t.
Proof.
  revert acc. induction s as [|c s IH]; intros acc; cbn.
  - by rewrite Ascii.eqb_refl, sapp_nil_r.
  - intros [-> H]%orb_false_iff. rewrite IH by done. by rewrite sapp_assoc.
Qed.

Lemma lines_unlines l : Forall (fun s => contains_byte nl s = false) l -> lines (unlines l) = l.
Proof.
  induction 1 as [|s l Hs _ IH]; [done|]. cbn [unlines]. unfold lines. by rewrite lines_from_app, IH.
Qed.

(** From a position before the end, the next line starts where a line starts. *)
Lemma next_line_unlines l m :
  Forall (fun s => contains_byte nl s = false) l -> (m < String.length (unlines l))%nat ->
  exists k, (k < length l)%nat /\ next_line (unlines l) m = start_of l (S k) /\ (m < start_of l (S k))%nat.
Proof.
  intros Hl. unfold next_line. revert m. induction Hl as [|s l Hs _ IH]; cbn [unlines]; intros m Hm; [cbn in Hm; lia|].
  rewrite slength_app in Hm. cbn in Hm.
  destruct (decide (m <= String.length s)%nat) as [Hle|Hgt].
  - exists 0%nat. rewrite sdrop_app_le by done. rewrite find_nl_app by (by apply contains_byte_sdrop).
    rewrite length_sdrop, start_of_cons, start_of_0. cbn [length]. lia.
  - rewrite sdrop_app_ge by lia. replace (m - String.length s)%nat with (S (m - String.length s - 1)) by lia.
    cbn [sdrop]. destruct (IH (m - String.length s - 1)%nat) as (k & Hk & Hn & Hlt); [lia|].
    exists (S k). rewrite start_of_cons. cbn [length]. destruct (find_nl _); [|rewrite slength_app; cbn]; lia.
Qed.

Lemma line_at_unlines l k s :
  Forall (fun s => contains_byte nl s = false) l -> l !! k = Some s ->
  line_at (unlines l) (start_of l k) = (s, (start_of l k + String.length s)%nat).
Proof.
  intros Hl Hk. unfold line_at. rewrite sdrop_start_of. rewrite (drop_S _ _ _ Hk). cbn [unlines].
  rewrite find_nl_app by (exact (Forall_lookup_1 _ _ _ _ Hl Hk)). by rewrite stake_length_app.
Qed.

(** ** The search *)
Lemma find_nl_lt s i : find_nl s = Some i -> (i < String.length s)%nat.
Proof.
  revert i. induction s as [|c s IH]; intros i; [done|]. cbn. destruct (Ascii.eqb c nl); [intros [= <-]; lia|].
  destruct (find_nl s); [|done]. intros [= <-]. specialize (IH _ eq_refl). lia.
Qed.

Lemma next_line_gt s m : (m < String.length s)%nat -> (m < next_line s m)%nat.
Proof. intros H. unfold next_line. destruct (find_nl _); lia. Qed.

Lemma line_at_ge s p line e : line_at s p = (line, e) -> (p < String.length s)%nat -> (p <= e)%nat.
Proof. unfold line_at. destruct (find_nl _); intros [= <- <-] ?; lia. Qed.

Lemma half_bounds lo hi : (lo < hi)%nat -> (lo <= (lo + hi) / 2 < hi)%nat.
Proof. intros H. split; [apply Nat.div_le_lower_bound | apply Nat.Div0.div_lt_upper_bound]; lia. Qed.

(** An entry as the logger writes it: one line, clean, that fits the scanner and
    holds an entry of the instant [t]. *)
Definition written_line (s : string) (t : Time) : Prop :=
  contains_byte nl s = false /\ s <> "" /\ trim_space s = s /\ trim_suffix s (String (chr 13) "") = s /\
  slen s < max_token /\ line_time s = Some t.

Definition ordered (ts : list Time) : Prop :=
  forall i j ti tj, (i <= j)%nat -> ts !! i = Some ti -> ts !! j = Some tj -> ti <= tj.

Section Search.
  Context (l : list string) (ts : list Time) (Hw : Forall2 written_line l ts) (Ho : ordered ts) (target : Time).

Lemma lines_no_nl : Forall (fun s => contains_byte nl s = false) l.
Proof. eapply Forall2_Forall_l; [exact Hw|]. apply Forall_true. by intros t s (? & _). Qed.

(** A line start before which every entry is older than the target. *)
Definition safe_start (k : nat) : Prop :=
  (k <= length l)%nat /\ forall i t, (i < k)%nat -> ts !! i = Some t -> t < target.

Lemma search_loop_safe fuel lo hi k :
  (hi - lo <= fuel)%nat -> (hi <= String.length (unlines l))%nat -> lo = start_of l k -> safe_start k ->
  exists k', search_loop fuel (unlines l) target lo hi = Some (start_of l k') /\ safe_start k'.
Proof.
  revert lo hi k. induction fuel as [|fuel IH]; intros lo hi k Hf Hh -> Hk.
  { exists k. split; [|done]. cbn. by rewrite (proj2 (Nat.leb_le _ _)) by lia. }
  cbn [search_loop]. destruct (Nat.leb_spec hi (start_of l k)) as [|Hlt]; [by exists k|].
  destruct (half_bounds _ _ Hlt) as [Hm1 Hm2]. set (m := ((start_of l k + hi) / 2)%nat) in *. cbv zeta.
  destruct (next_line_unlines l m lines_no_nl) as (k1 & Hk1 & Hn & Hgt); [lia|]. rewrite Hn.
  destruct (Nat.leb_spec (String.length (unlines l)) (start_of l (S k1))) as [|Hin].
  { apply (IH _ _ k); auto with lia. }
  assert (S k1 < length l)%nat as Hk2.
  { destruct (decide (S k1 = length l)) as [E|]; [|lia]. rewrite E, start_of_length in Hin. lia. }
  destruct (lookup_lt_is_Some_2 _ _ Hk2) as [s Hs].
  destruct (Forall2_lookup_l _ _ _ _ _ Hw Hs) as (t & Ht & Hl & Hne & _ & _ & _ & Hti).
  rewrite (line_at_unlines l (S k1) s lines_no_nl Hs).
  destruct (String.eqb_spec s ""); [done|]. rewrite Hti. unfold Before.
  destruct (Z.ltb_spec t target) as [Hlt'|Hge]; [|apply (IH _ _ k); auto with lia].
  rewrite <- (start_of_S l _ _ Hs). apply (IH _ _ (S (S k1))); auto.
  - rewrite (start_of_S l _ _ Hs). lia.
  - split; [lia|]. intros i ti Hi Hti'. specialize (Ho i (S k1) ti t ltac:(lia) Hti' Ht). lia.
Qed.
End Search.

(** Lines older than the start of a filter select nothing. *)
Lemma older_not_selected f s t :
  written_line s t -> IsZero (Since f) = false -> t < Since f -> selected (line_entry f) s = None.
Proof.
  intros (_ & Hne & Hc & Hr & _ & Ht) Hz Hlt. unfold selected. cbv zeta. rewrite Hr, Hc.
  destruct (String.eqb s ""); [done|]. unfold line_entry, line_time in *.
  destruct (parse_line s) as [e|]; [|done]. case_match; [done|]. rewrite Ht, Hz.
  unfold Before. by rewrite (proj2 (Z.ltb_lt _ _)).
Qed.

(** ** Reading one piece from its end *)
Lemma srev_app_spec s acc : srev_app s acc = (srev s +:+ acc).
Proof.
  unfold srev. revert acc. induction s as [|c s IH]; intros acc; [done|]. cbn.
  rewrite IH, (IH (String c "")), sapp_assoc. done.
Qed.

Lemma srev_cons c s : srev (String c s) = (srev s +:+ String c "").
Proof. unfold srev. cbn. by rewrite srev_app_spec. Qed.

Lemma srev_sapp a b : srev (a +:+ b) = (srev b +:+ srev a).
Proof.
  induction a as [|c a IH]; [cbn; by rewrite sapp_nil_r|]. cbn [String.append].
  by rewrite !srev_cons, IH, sapp_assoc.
Qed.

Lemma srev_length s : String.length (srev s) = String.length s.
Proof. induction s as [|c s IH]; [done|]. rewrite srev_cons, slength_app, IH. cbn. lia. Qed.

Lemma contains_byte_srev c s : contains_byte c (srev s) = contains_byte c s.
Proof.
  induction s as [|d s IH]; [done|]. rewrite srev_cons, contains_byte_app, IH. cbn.
  by rewrite orb_false_r, orb_comm.
Qed.

Lemma last_nl_none s : contains_byte nl s = false -> last_nl s = None.
Proof. intros H. unfold last_nl. by rewrite find_nl_none by (by rewrite contains_byte_srev). Qed.

Lemma last_nl_app a b : contains_byte nl b = false -> last_nl (a +:+ String nl b) = Some (String.length a).
Proof.
  intros H. unfold last_nl. rewrite srev_sapp, srev_cons, sapp_assoc. cbn [String.append].
  rewrite find_nl_app by (by rewrite contains_byte_srev). cbn [option_map]. f_equal.
  rewrite srev_length, slength_app. cbn. lia.
Qed.

Lemma stake_stake i n s : (i <= n)%nat -> stake i (stake n s) = stake i s.
Proof. revert n s. induction i as [|i IH]; intros [|n] [|c s] H; cbn; try done; [lia|]. by rewrite IH by lia. Qed.

Lemma slice_text_to buf d i :
  (i <= String.length (slice_text buf d))%nat -> slice_text buf (slice_to d i) = stake i (slice_text buf d).
Proof.
  destruct d as [n|s]; cbn; [|done]. rewrite length_stake. intros H. by rewrite stake_stake by lia.
Qed.

Lemma trim_space_nl s : trim_space (String nl s) = trim_space s.
Proof.
  unfold trim_space. cbn [String.length trim_left_seqs].
  by assert (List.find (has_prefix (String nl s)) space_seqs = Some (String nl "")) as ->
    by (destruct s; reflexivity).
Qed.

Lemma unlines_snoc l s : unlines (l ++ [s]) = (unlines l +:+ s +:+ String nl "").
Proof. rewrite unlines_app. done. Qed.

Section Piece.
  Context (f : AuditFilter) (buf : string) (l : list string) (ts : list Time) (Hw : Forall2 written_line l ts).

Lemma written_selected s t : written_line s t -> selected (line_entry f) s = line_entry f s.
Proof.
  intros (_ & Hne & Hc & Hr & _). unfold selected. cbv zeta. rewrite Hr, Hc. by destruct (String.eqb_spec s "").
Qed.

Lemma piece_lines_spec fuel k s data skip acc :
  l !! k = Some s -> (k < fuel)%nat -> slice_text buf data = (unlines (take k l) +:+ s) ->
  (piece_lines fuel f buf data skip acc).2 =
  (scan_select (line_entry f) (Limit f) skip acc (reverse (drop 1 (take (S k) l)))).1.
Proof.
  revert fuel s data skip acc. induction k as [|k IH]; intros [|fuel] s data skip acc Hs Hf Ht; try lia.
  all: destruct (Forall2_lookup_l _ _ _ _ _ Hw Hs) as (t & _ & Hwl); pose proof Hwl as (Hnl & Hne & Hc & _ & Hfit & _).
  - cbn [piece_lines]. cbv zeta. rewrite Ht, take_0. cbn [unlines String.append]. rewrite last_nl_none by done.
    rewrite (take_S_r _ _ _ Hs), take_0. done.
  - assert (k < length l)%nat as Hk by (apply lookup_lt_Some in Hs; lia).
    destruct (lookup_lt_is_Some_2 _ _ Hk) as [s' Hs'].
    assert (slice_text buf data = ((unlines (take k l) +:+ s') +:+ String nl s)) as Ht'.
    { rewrite Ht, (take_S_r _ _ _ Hs'), unlines_snoc, !sapp_assoc. done. }
    rewrite (take_S_r _ _ _ Hs). rewrite drop_app_le by (rewrite length_take; lia).
    rewrite reverse_app. cbn [reverse rev_append app scan_select].
    cbn [piece_lines]. cbv zeta. rewrite Ht', last_nl_app by done.
    rewrite sdrop_length_app, trim_space_nl, Hc. destruct (String.eqb_spec s ""); [done|].
    change (reverse [s] ++ ?r) with (s :: r). cbn [scan_select].
    rewrite (proj2 (Z.leb_gt _ _)) by done. rewrite (written_selected _ _ Hwl).
    assert (forall skip acc, (piece_lines fuel f buf (slice_to data (String.length (unlines (take k l) +:+ s'))) skip acc).2 =
      (scan_select (line_entry f) (Limit f) skip acc (reverse (drop 1 (take (S k) l)))).1) as IH'.
    { intros. apply (IH _ s'); [done|lia|]. rewrite slice_text_to, Ht', stake_length_app; [done|].
      rewrite Ht', (slength_app (_ +:+ s')). lia. }
    destruct (line_entry f s) as [e|]; [|apply IH'].
    destruct (0 <? skip); [apply IH'|]. destruct ((0 <? Limit f) && _); [done|apply IH'].
Qed.
End Piece.

Lemma unlines_length l : (length l <= String.length (unlines l))%nat.
Proof. induction l as [|s l IH]; [done|]. cbn. rewrite slength_app. cbn. lia. Qed.

(** A text with a newline at its end: the piece without it. *)
Lemma piece_lines_last fuel f buf data text skip acc :
  slice_text buf data = (text +:+ String nl "") ->
  exists data', slice_text buf data' = text /\
    piece_lines (S fuel) f buf data skip acc = piece_lines fuel f buf data' skip acc.
Proof.
  intros Ht. exists (slice_to data (String.length text)). split.
  - rewrite slice_text_to; rewrite Ht; [by rewrite stake_length_app|]. rewrite slength_app. lia.
  - cbn [piece_lines]. cbv zeta. rewrite Ht, last_nl_app by done. by rewrite sdrop_length_app.
Qed.

(** A file that fits the buffer is read in one piece. *)
Lemma pieces_one s f skip acc :
  (0 < String.length s <= scan_buf)%nat -> exists buf,
  slice_text buf (Alias (String.length s)) = s /\
  pieces (String.length s) s f (String.length s) (repeat_byte (chr 0) scan_buf) (Own "") skip acc =
  (piece_lines (S (String.length s)) f buf (Alias (String.length s)) skip acc).2.
Proof.
  intros [Hp Hs]. assert (stake (String.length s) s = s) as E.
  { rewrite <- (sapp_nil_r s) at 2. apply stake_length_app. }
  assert (forall t, stake (String.length s) (s +:+ t) = s) as E' by (intros; apply stake_length_app).
  set (b0 := repeat_byte (chr 0) scan_buf). set (b1 := s +:+ sdrop (String.length s) b0).
  exists (s +:+ sdrop (String.length s) b1). split; [apply E'|].
  assert (forall n, String.length s = S n -> pieces (String.length s) s f (String.length s) b0 (Own "") skip acc =
    let '(kept, skip, acc) := piece_lines (S (String.length s)) f (s +:+ sdrop (String.length s) b1)
                                (Alias (String.length s)) skip acc in
    if (0 <? Limit f) && (Limit f <=? zlen acc) then acc
    else pieces n s f 0 (s +:+ sdrop (String.length s) b1) kept skip acc) as Hstep.
  { intros n En. rewrite En at 1. cbn [pieces]. rewrite En at 1. cbv zeta.
    rewrite (Nat.min_r scan_buf _ Hs), Nat.sub_diag. change (sdrop 0 s) with s. rewrite E. fold b1.
    change (slice_text b1 (Own "")) with "". change (String.length "") with 0%nat.
    rewrite Nat.add_0_r, (proj2 (Nat.leb_le _ _) Hs). unfold b1 at 1 3 5. rewrite E'.
    change ("" +:+ ?t) with t. cbn [slice_text]. rewrite E'. done. }
  destruct (String.length s) as [|n] eqn:En; [lia|]. rewrite (Hstep n eq_refl).
  destruct (piece_lines _ _ _ _ _ _) as [[kept skip'] acc']. cbn [snd].
  destruct ((0 <? Limit f) && _); [done|]. by destruct n.
Qed.

(** * Properties *)

(** C40: the binary search over any file ends: each round halves in on a smaller
    interval, so as many rounds as the file has bytes are enough. *)
Theorem search_terminates s target lo hi fuel :
  (hi - lo <= fuel)%nat -> (hi <= String.length s)%nat -> exists off, search_loop fuel s target lo hi = Some off.
Proof.
  revert lo hi. induction fuel as [|fuel IH]; intros lo hi Hf Hh.
  { exists lo. cbn. by rewrite (proj2 (Nat.leb_le _ _)) by lia. }
  cbn [search_loop]. destruct (Nat.leb_spec hi lo) as [|Hlt]; [by exists lo|].
  destruct (half_bounds _ _ Hlt) as [Hm1 Hm2]. set (m := ((lo + hi) / 2)%nat) in *. cbv zeta.
  pose proof (next_line_gt s m ltac:(lia)) as Hn.
  destruct (Nat.leb_spec (String.length s) (next_line s m)); [apply IH; lia|].
  destruct (line_at s (next_line s m)) as [line e] eqn:El. pose proof (line_at_ge _ _ _ _ El ltac:(lia)).
  destruct (String.eqb line ""); [apply IH; lia|].
  destruct (line_time line) as [t|]; [|apply IH; lia]. destruct (Before t target); apply IH; lia.
Qed.

Lemma forward_read l ts f
    (Hw : Forall2 written_line l ts) (Ho : ordered ts) (Hs : Sort f <> sortDesc) :
  ReadAuditEntries (Some (unlines l)) f =
  Ok (window (Limit f) (Offset f) (omap (selected (line_entry f)) l), None).
Proof.
  unfold ReadAuditEntries. destruct (String.eqb_spec (Sort f) sortDesc); [done|].
  assert (exists k, (if IsZero (Since f) then 0%nat
      else match FindStartOffsetByTime (Some (unlines l)) (Since f) with Ok off => off | Err _ => 0%nat end)
      = start_of l k /\ Forall (fun s => slen s < max_token /\ selected (line_entry f) s = None) (take k l))
    as (k & -> & Hk).
  { destruct (IsZero (Since f)) eqn:Ez; [exists 0%nat; by rewrite start_of_0|]. cbn.
    destruct (search_loop_safe l ts Hw Ho (Since f) (String.length (unlines l)) 0
                (String.length (unlines l)) 0) as (k & -> & Hle & Hk); [lia|done|by rewrite start_of_0| |].
    { split; [lia|]. intros. lia. }
    exists k. split; [done|]. apply Forall_lookup. intros i s Hi. apply lookup_take_Some in Hi as [Hi Hlt].
    destruct (Forall2_lookup_l _ _ _ _ _ Hw Hi) as (t & Ht & Hwl). split; [by destruct Hwl as (_ & _ & _ & _ & ? & _)|].
    eapply older_not_selected; eauto. }
  rewrite sdrop_start_of. pose proof (lines_no_nl l ts Hw) as Hnl.
  rewrite lines_unlines by (by apply Forall_drop).
  rewrite <- (scan_select_skips _ _ _ _ (take k l)) by done. rewrite take_drop.
  rewrite scan_select_spec.
  - cbn [app]. change (zlen (@nil (AuditEntry string))) with 0. rewrite Z.sub_0_r. by destruct (0 <? Limit f).
  - eapply Forall2_Forall_l; [exact Hw|]. apply Forall_true. by intros t s (_ & _ & _ & _ & ? & _).
  - done.
Qed.

(** C36: reading a log forward with the binary search gives what reading it whole
    gives, when its lines are entries in the order of their times: the entries
    that pass the filter, past the offset, up to the limit, and no error. *)
Theorem forward_read_is_full_scan l ts f
    (Hw : Forall2 written_line l ts) (Ho : ordered ts) (Hs : Sort f <> sortDesc) :
  ReadAuditEntries (Some (unlines l)) f =
  Ok (window (Limit f) (Offset f) (omap (selected (line_entry f)) l), None).
Proof. exact (forward_read l ts f Hw Ho Hs). Qed.

(** Reading a log of at most 4096 bytes from its end gives the entries that
    pass the filter in reverse order, past the offset and up to the limit,
    without the first entry of the file: the line before which there is no
    newline is never looked at. *)
Theorem reverse_read_drops_first l ts f
    (Hw : Forall2 written_line l ts) (Hb : (String.length (unlines l) <= scan_buf)%nat) :
  readAuditEntriesReverse (Some (unlines l)) f =
  Ok (window (Limit f) (Offset f) (omap (selected (line_entry f)) (reverse (drop 1 l)))).
Proof.
  unfold readAuditEntriesReverse. f_equal.
  assert (forall ls, Forall (fun s => slen s < max_token) ls ->
    (scan_select (line_entry f) (Limit f) (Offset f) [] ls).1 =
    window (Limit f) (Offset f) (omap (selected (line_entry f)) ls)) as Hscan.
  { intros ls Hf. rewrite scan_select_spec by done. cbn [fst app].
    change (zlen (@nil (AuditEntry string))) with 0. rewrite Z.sub_0_r. by destruct (0 <? Limit f). }
  destruct (decide (l = [])) as [->|Hne].
  { cbn. unfold window. rewrite drop_nil, take_nil. by destruct (0 <? Limit f). }
  destruct (exists_last Hne) as (l1 & s1 & El). set (k := length l1).
  assert (l !! k = Some s1) as Hk by (subst k l; by apply list_lookup_middle).
  assert (take k l = l1) as Htk by (subst k l; by rewrite take_app_length).
  assert (Forall (fun s => slen s < max_token) (reverse (drop 1 l))) as Hfit.
  { apply Forall_reverse, Forall_drop. eapply Forall2_Forall_l; [exact Hw|]. apply Forall_true.
    by intros t s (_ & _ & _ & _ & ? & _). }
  rewrite <- (Hscan _ Hfit). destruct (Forall2_lookup_l _ _ _ _ _ Hw Hk) as (t1 & _ & Hw1).
  pose proof Hw1 as (Hnl1 & _).
  assert (unlines l = ((unlines l1 +:+ s1) +:+ String nl "")) as Hu.
  { rewrite El, unlines_snoc, sapp_assoc. done. }
  destruct (pieces_one (unlines l) f (Offset f) []) as (buf & Ht & ->).
  { pose proof (unlines_length l). apply lookup_lt_Some in Hk. lia. }
  rewrite Hu in Ht at 2. destruct (piece_lines_last (String.length (unlines l)) f buf _ _ (Offset f) [] Ht) as (d & Hd & ->).
  rewrite (piece_lines_spec f buf l ts Hw _ k s1); [|done| |by rewrite Htk].
  - do 3 f_equal. rewrite firstn_all2; [done|]. subst k l. rewrite length_app. cbn. lia.
  - pose proof (unlines_length l). apply lookup_lt_Some in Hk. lia.
Qed.

(** * Concrete instances *)
Section Witnesses.
(** An entry at second [t], as JSON. *)
Definition sample_line (t : string) : string :=
  dq ("{'entry':{'time':'2024-01-01T00:00:0" +:+ t +:+
      "Z','action':'denied','src_ip':'10.0.0.1','mapping':'db','target':'/rows'},'tst':''}").
Definition sample_log : list string := map sample_line ["1"; "2"; "3"].
Definition sample_times : list Time := map (fun z => (1704067200 + z) * Second) [1; 2; 3].
Definition all_entries (since : Time) (sort : string) : AuditFilter := {|
  Since := since; Until := zero_time; Limit := 0; Offset := 0; Sort := sort; FAction := "";
  FClientCN := ""; FSerial := ""; FMapping := "" |}.

Lemma sample_log_written : Forall2 written_line sample_log sample_times.
Proof.
  repeat constructor; try (vm_compute; reflexivity); vm_compute; discriminate.
Qed.

Lemma sample_times_ordered : ordered sample_times.
Proof.
  intros i j ti tj Hij Hi Hj.
  destruct i as [|[|[|i]]], j as [|[|[|j]]]; cbn in Hi, Hj; simplify_eq; lia || (vm_compute; discriminate).
Qed.

(** The times read forward from the second entry on, and from the end. *)
Definition times_read (r : result (list (AuditEntry string) * option error)) : list string :=
  match r with Ok (l, _) => map (fun e => stake 3 (sdrop 17 (AETime e))) l | Err _ => [] end.
Example sample_reads :
  times_read (ReadAuditEntries (Some (unlines sample_log)) (all_entries (1704067202 * Second) "")) = ["02Z"; "03Z"] /\
  times_read (ReadAuditEntries (Some (unlines sample_log)) (all_entries zero_time "desc")) = ["03Z"; "02Z"].
Proof. vm_compute. split; reflexivity. Qed.

(** A line that is no entry, or a blank line, where the search looks hides the
    earlier entries of the window. *)
Example search_skips_over_damage :
  map (fun bad => times_read (ReadAuditEntries
        (Some (unlines [sample_line "1"; sample_line "2"; bad; sample_line "3"]))
        (all_entries (1704067201 * Second) ""))) ["{"; ""] = [["03Z"]; ["03Z"]].
Proof. vm_compute. reflexivity. Qed.

(** A log of 45 entries in 5535 bytes: from the end, the first entry is missing
    and so is the one that lies across the first 4096 bytes read, whose kept half
    the next read overwrites. *)
Definition long_log : list string :=
  flat_map (fun a => map (fun b => sample_line (a +:+ "." +:+ b)) ["1"; "2"; "3"; "4"; "5"; "6"; "7"; "8"; "9"])
    ["1"; "2"; "3"; "4"; "5"].
Example reverse_read_loses_entries :
  length (times_read (ReadAuditEntries (Some (unlines long_log)) (all_entries zero_time ""))) = 45%nat /\
  map (fun a => length (List.filter (String.eqb a)
        (times_read (ReadAuditEntries (Some (unlines long_log)) (all_entries zero_time "desc")))))
    ["05."; "04."; "03."; "02."; "01."] = [9; 9; 9; 8; 8]%nat.
Proof. vm_compute. split; reflexivity. Qed.

Lemma search_terminates_witness : exists off, search_loop 9 "ab" (5 * Second) 0 2 = Some off.
Proof. apply (search_terminates "ab" (5 * Second) 0 2 9); cbn; lia. Defined.

Lemma forward_read_is_full_scan_witness :
  ReadAuditEntries (Some (unlines sample_log)) (all_entries (1704067202 * Second) "") =
  Ok (window 0 0 (omap (selected (line_entry (all_entries (1704067202 * Second) ""))) sample_log), None).
Proof.
  refine (forward_read_is_full_scan sample_log sample_times (all_entries (1704067202 * Second) "")
    sample_log_written sample_times_ordered _). discriminate.
Defined.

Lemma reverse_read_drops_first_witness :
  readAuditEntriesReverse (Some (unlines sample_log)) (all_entries zero_time "desc") =
  Ok (window 0 0 (omap (selected (line_entry (all_entries zero_time "desc"))) (reverse (drop 1 sample_log)))).
Proof.
  refine (reverse_read_drops_first sample_log sample_times (all_entries zero_time "desc") sample_log_written _).
  apply Nat.leb_le. vm_compute. reflexivity.
Defined.
End Witnesses.
