(* ===== verification/JsonLines.v ===== *)
(** JSON Lines: what the encoder writes for a record is one line, which the
    readers of the log files take as it is and decode to the record that was
    written. *)
From Stdlib Require Import Ascii.
From S2P Require Import Prelude GoStrings GoTime GoJson GoJsonOut GoClock AuditLog.
Local Open Scope string_scope.
Local Open Scope Z_scope.
Local Open Scope list_scope.

(** A line as the readers take it: without a newline, nothing to trim, and short
    enough for the scanner. *)
Definition good_line (s : string) : Prop :=
  contains_byte nl s = false /\ s <> "" /\ trim_space s = s /\ trim_suffix s (String (chr 13) "") = s /\
  slen s < max_token.

(** ** The encoding has no newline *)
Lemma esc_byte_line c : contains_byte nl (esc_byte c) = false.
Proof. destruct c as [[] [] [] [] [] [] [] []]; vm_compute; reflexivity. Qed.

Lemma esc_string_line s : utf8_text s = true -> forall fuel, contains_byte nl (esc_string fuel s) = false.
Proof.
  revert s. refine (utf8_ind _ _ _ _); [by intros []| |].
  - intros c s Hc _ IH [|fuel]; [done|]. cbn [esc_string]. rewrite (proj2 (Z.ltb_lt _ _) Hc).
    by rewrite contains_byte_app, esc_byte_line, IH.
  - intros c s r n Hc Hl _ IH [|fuel]; [done|]. rewrite (esc_long fuel c s r n Hc Hl), contains_byte_app, IH, orb_false_r.
    destruct Hl as (_ & _ & _ & _ & Hb & _). unfold rune_out. destruct ((r =? 8232) || (r =? 8233)) eqn:E; [|by apply Hb].
    assert (r = 8232 \/ r = 8233) as [-> | ->] by (bools; destruct E; bools; auto); reflexivity.
Qed.

Lemma enc_string_line s : utf8_text s = true -> contains_byte nl (enc_string s) = false.
Proof. intros H. unfold enc_string. by rewrite !contains_byte_app, esc_string_line. Qed.

Lemma join_line sep l : contains_byte nl sep = false -> Forall (fun s => contains_byte nl s = false) l ->
  contains_byte nl (join sep l) = false.
Proof.
  intros Hs. induction 1 as [|s l H _ IH]; [done|]. destruct l as [|t l]; [exact H|].
  rewrite join_cons by done. by rewrite !contains_byte_app, H, Hs, IH.
Qed.

Lemma digits_line s : all_digits s = true -> contains_byte nl s = false.
Proof.
  unfold all_digits. induction s as [|c s IH]; [done|]. cbn. intros [Hc Hs]%andb_true_iff. rewrite IH by done.
  destruct (Ascii.eqb_spec c nl) as [->|]; done.
Qed.

Lemma json_encode_line v : clean v = true -> contains_byte nl (json_encode v) = false.
Proof.
  revert v. fix IH 1. intros v Hc. destruct v as [|[]|lit|s|l|ms]; try reflexivity.
  - apply digits_line. destruct lit as [|c [|d lit]]; [done|..]; cbn [clean uint_lit] in Hc.
    + unfold all_digits. cbn. by rewrite Hc.
    + apply andb_true_iff in Hc as [Hc Hl]. apply andb_true_iff in Hc as [Hc _].
      unfold all_digits in *. cbn in *. by rewrite Hc.
  - by apply enc_string_line.
  - cbn [json_encode]. rewrite !contains_byte_app. apply orb_false_iff. split; [done|]. apply orb_false_iff. split; [|done].
    apply join_line; [done|]. cbn [clean] in Hc. induction l as [|v l IHl]; [constructor|].
    cbn in Hc. apply andb_true_iff in Hc as [Hv Hl]. constructor; [by apply IH|by apply IHl].
  - cbn [json_encode]. rewrite !contains_byte_app. apply orb_false_iff. split; [done|]. apply orb_false_iff. split; [|done].
    apply join_line; [done|]. cbn [clean] in Hc. induction ms as [|[k v] ms IHl]; [constructor|].
    cbn in Hc. apply andb_true_iff in Hc as [Hv Hl]. apply andb_true_iff in Hv as [Hk Hv]. constructor; [|by apply IHl].
    rewrite !contains_byte_app, enc_string_line, IH; done.
Qed.

(** ** Nothing to trim *)

(** A byte no white space begins or ends with. *)
Definition solid (c : ascii) : bool :=
  forallb (fun q => negb (has_prefix (String c "") (stake 1 q))) (space_seqs ++ map srev space_seqs).

Lemma has_prefix_first c s q : q <> "" -> has_prefix (String c "") (stake 1 q) = false ->
  has_prefix (String c s) q = false.
Proof.
  destruct q as [|d q]; [done|]. intros _. unfold has_prefix. cbn. destruct (ascii_dec d c); [|done].
  by destruct q.
Qed.

Lemma find_solid c s seqs : Forall (fun q => q <> "") seqs ->
  forallb (fun q => negb (has_prefix (String c "") (stake 1 q))) seqs = true ->
  List.find (has_prefix (String c s)) seqs = None.
Proof.
  induction 1 as [|q seqs Hq _ IH]; [done|]. cbn [List.find forallb]. intros [H1 H2]%andb_true_iff. apply negb_true_iff in H1.
  by rewrite has_prefix_first, IH.
Qed.

Lemma trim_left_solid fuel c s seqs : Forall (fun q => q <> "") seqs ->
  forallb (fun q => negb (has_prefix (String c "") (stake 1 q))) seqs = true ->
  trim_left_seqs fuel seqs (String c s) = String c s.
Proof. intros H1 H2. destruct fuel; [done|]. cbn [trim_left_seqs]. by rewrite find_solid. Qed.

Lemma space_seqs_ne : Forall (fun q => q <> "") (space_seqs ++ map srev space_seqs).
Proof. by_computation. Qed.

Lemma srev_snoc s c : srev (s +:+ String c "") = String c (srev s).
Proof. by rewrite srev_sapp. Qed.

Lemma srev_involutive s : srev (srev s) = s.
Proof. induction s as [|c s IH]; [done|]. by rewrite srev_cons, srev_snoc, IH. Qed.

(** A text between two solid bytes. *)
Lemma trim_solid c s d : solid c = true -> solid d = true ->
  trim_space (String c (s +:+ String d "")) = String c (s +:+ String d "").
Proof.
  unfold solid. rewrite !forallb_app. intros [Hc _]%andb_true_iff [_ Hd]%andb_true_iff.
  pose proof space_seqs_ne as Hne. apply Forall_app in Hne as [H1 H2].
  unfold trim_space. rewrite trim_left_solid by done. change (String c (s +:+ String d "")) with (String c s +:+ String d "").
  rewrite srev_snoc, trim_left_solid by done. by rewrite <- srev_snoc, srev_involutive.
Qed.

(** An object's text is a line whose reading gives the object back. *)
Lemma object_line ms : clean (JObj ms) = true -> slen (json_encode (JObj ms)) < max_token ->
  good_line (json_encode (JObj ms)).
Proof.
  intros Hc Hl. split; [by apply json_encode_line|]. rewrite json_encode_obj in *.
  split; [done|]. split; [by apply trim_solid|]. split; [|exact Hl].
  set (t := join _ _). unfold trim_suffix. destruct (has_suffix _ _) eqn:E; [|done]. exfalso.
  apply has_suffix_spec in E as [p E]. apply (f_equal srev) in E. rewrite srev_sapp in E.
  change (String "{" (t +:+ "}")) with (String "{" t +:+ "}") in E. rewrite srev_snoc in E. discriminate E.
Qed.

(** What the readers' loop selects from a good line. *)
Lemma selected_good {A} (sel : string -> option A) s : good_line s -> selected sel s = sel s.
Proof.
  intros (_ & Hne & Ht & Hcr & _). unfold selected. rewrite Hcr, Ht.
  by destruct (String.eqb_spec s "").
Qed.

(** Reading a file of good lines: every line is selected from. *)
Lemma scan_good {A} (sel : string -> option A) limit l :
  Forall good_line l -> scan_select sel limit 0 [] (lines (unlines l)) = (window limit 0 (omap sel l), None).
Proof.
  intros Hl. rewrite lines_unlines by (eapply Forall_impl; [exact Hl|by intros s (? & _)]).
  rewrite scan_select_spec; [|eapply Forall_impl; [exact Hl|by intros s (_ & _ & _ & _ & ?)]|cbn; unfold zlen; cbn; lia].
  cbn [app]. unfold zlen. cbn. rewrite Z.sub_0_r. f_equal.
  replace (omap (selected sel) l) with (omap sel l); [by destruct (0 <? limit)|].
  induction Hl as [|s l Hs _ IH]; [done|]. cbn. by rewrite selected_good, IH.
Qed.
