(* ===== verification/AuditQueue.v ===== *)
(** The writer of the audit log ([src/audit.go]): the queue between [Log] and
    the goroutine that writes, as a step relation, and the file that rotates.

    A step of the queue is one communication of one goroutine: a caller that
    passed the [stopped] check has its entry [inflight]; a critical entry that
    found the buffer full is [waiting]; the loop holds at most one entry.
    [settled], [called], [accepted], [refused] and [lost] record what happened to
    entries and are not state of the program ([Dropped] is the length of
    [refused]).  A write that fails is the end of its entry: [logSync] prints the
    error and goes on ([step_write_failed]); how much of the line a failed write
    leaves in the file is in [RotatingFile].

    A file system is a map from names to contents; what may fail is in
    [rotation_env].  Sizes stay far below the range of [int64]. *)
From S2P Require Import Prelude GoStrings GoTime GoClock AdmissionTypes AuditLog.
From stdpp Require Import pretty.
Local Open Scope string_scope.
Local Open Scope Z_scope.
Local Open Scope list_scope.

(** * Definitions *)

Section Queue.
  Context {M : Type}.

(** [src/audit.go:Log] the instant of the call, as text. *)
Definition stamp (now : Time) (e : AuditEntry M) : AuditEntry M := {|
  AETime := format_rfc3339 now; AEAction := AEAction e; AESrcIP := AESrcIP e; AEClientCN := AEClientCN e;
  AEClientSerial := AEClientSerial e; AERoles := AERoles e; AEMapping := AEMapping e; AETarget := AETarget e;
  AETargetID := AETargetID e; AEDuration := AEDuration e; AEDenyReason := AEDenyReason e;
  AEBytesIn := AEBytesIn e; AEBytesOut := AEBytesOut e; AETraceId := AETraceId e;
  AESessionId := AESessionId e; AEGatewayId := AEGatewayId e; AEProtocol := AEProtocol e;
  AEAgentId := AEAgentId e; AESPIFFEID := AESPIFFEID e; AEPrincipalUid := AEPrincipalUid e;
  AEDelegationMode := AEDelegationMode e; AEDecision := AEDecision e; AECapabilities := AECapabilities e;
  AELevel := AELevel e; AEDaHash := AEDaHash e; AEAICFingerprint := AEAICFingerprint e;
  AEPolicyVersion := AEPolicyVersion e; AERecordDigest := AERecordDigest e |}.

(** How far [Close] has come: the [closed] flag, the [stopped] flag, the closed
    channel, the closed file. *)
Inductive phase := Running | Closing | Stopped | ChanClosed | FileClosed.

(** [src/audit.go:AuditLogger] *)
Record AuditLogger := {
  queue : list (AuditEntry M); inflight : list (AuditEntry M); waiting : list (AuditEntry M);
  writing : option (AuditEntry M); settled : list (AuditEntry M * bool); at_phase : phase;
  called : list (AuditEntry M); accepted : list (AuditEntry M); refused : list (AuditEntry M);
  lost : list (AuditEntry M)
}.

(** [src/audit.go:NewAuditLogger] the buffer's capacity and the empty logger. *)
Definition capacity : nat := Z.to_nat 8192.
Definition NewAuditLogger : AuditLogger := {|
  queue := []; inflight := []; waiting := []; writing := None; settled := []; at_phase := Running;
  called := []; accepted := []; refused := []; lost := [] |}.

(** [src/audit.go:Dropped] *)
Definition Dropped (s : AuditLogger) : Z := zlen (refused s).

(** Replacing the parts that a step changes. *)
Definition set_calls (s : AuditLogger) (q i w : list (AuditEntry M)) : AuditLogger := {|
  queue := q; inflight := i; waiting := w; writing := writing s; settled := settled s;
  at_phase := at_phase s; called := called s; accepted := accepted s; refused := refused s; lost := lost s |}.
Definition set_loop (s : AuditLogger) (q : list (AuditEntry M)) (w : option (AuditEntry M))
    (out : list (AuditEntry M * bool)) : AuditLogger := {|
  queue := q; inflight := inflight s; waiting := waiting s; writing := w; settled := out;
  at_phase := at_phase s; called := called s; accepted := accepted s; refused := refused s; lost := lost s |}.
Definition set_phase (s : AuditLogger) (p : phase) : AuditLogger := {|
  queue := queue s; inflight := inflight s; waiting := waiting s; writing := writing s; settled := settled s;
  at_phase := p; called := called s; accepted := accepted s; refused := refused s; lost := lost s |}.
Definition set_ghost (s : AuditLogger) (c a r l : list (AuditEntry M)) : AuditLogger := {|
  queue := queue s; inflight := inflight s; waiting := waiting s; writing := writing s; settled := settled s;
  at_phase := at_phase s; called := c; accepted := a; refused := r; lost := l |}.

(** The entries the loop is done with: whose line was written, and whose write
    failed. *)
Definition written (s : AuditLogger) : list (AuditEntry M) :=
  omap (fun eb : AuditEntry M * bool => if eb.2 then Some eb.1 else None) (settled s).
Definition unwritten (s : AuditLogger) : list (AuditEntry M) :=
  omap (fun eb : AuditEntry M * bool => if eb.2 then None else Some eb.1) (settled s).

Definition chan_open (s : AuditLogger) : Prop := at_phase s = Running \/ at_phase s = Closing \/ at_phase s = Stopped.

(** [src/audit.go:Log] its steps: the check of [stopped] with the time stamp; the
    send; the drop of an entry that is not critical when the buffer is full; the
    wait of a critical one, its send, and its drop when the timer fires; and the
    send on a closed channel, whose panic is recovered. *)
Inductive log_step (s : AuditLogger) : AuditLogger -> Prop :=
  | step_call e now :
      at_phase s = Running \/ at_phase s = Closing ->
      log_step s (set_ghost (set_calls s (queue s) (stamp now e :: inflight s) (waiting s))
                    (stamp now e :: called s) (accepted s) (refused s) (lost s))
  | step_send e l1 l2 :
      chan_open s -> inflight s = l1 ++ e :: l2 -> (length (queue s) < capacity)%nat ->
      log_step s (set_ghost (set_calls s (queue s ++ [e]) (l1 ++ l2) (waiting s))
                    (called s) (accepted s ++ [e]) (refused s) (lost s))
  | step_drop e l1 l2 :
      chan_open s -> inflight s = l1 ++ e :: l2 -> (capacity <= length (queue s))%nat ->
      isAuditCritical e = false ->
      log_step s (set_ghost (set_calls s (queue s) (l1 ++ l2) (waiting s))
                    (called s) (accepted s) (e :: refused s) (lost s))
  | step_block e l1 l2 :
      chan_open s -> inflight s = l1 ++ e :: l2 -> (capacity <= length (queue s))%nat ->
      isAuditCritical e = true ->
      log_step s (set_calls s (queue s) (l1 ++ l2) (e :: waiting s))
  | step_unblock e l1 l2 :
      chan_open s -> waiting s = l1 ++ e :: l2 -> (length (queue s) < capacity)%nat ->
      log_step s (set_ghost (set_calls s (queue s ++ [e]) (inflight s) (l1 ++ l2))
                    (called s) (accepted s ++ [e]) (refused s) (lost s))
  | step_timeout e l1 l2 :
      waiting s = l1 ++ e :: l2 ->
      log_step s (set_ghost (set_calls s (queue s) (inflight s) (l1 ++ l2))
                    (called s) (accepted s) (e :: refused s) (lost s))
  | step_panic e l1 l2 :
      ~ chan_open s -> inflight s = l1 ++ e :: l2 ->
      log_step s (set_ghost (set_calls s (queue s) (l1 ++ l2) (waiting s))
                    (called s) (accepted s) (refused s) (e :: lost s))
  | step_panic_waiting e l1 l2 :
      ~ chan_open s -> waiting s = l1 ++ e :: l2 ->
      log_step s (set_ghost (set_calls s (queue s) (inflight s) (l1 ++ l2))
                    (called s) (accepted s) (refused s) (e :: lost s)).

(** [src/audit.go:loop] the receive, and the two ends of [logSync]: the line is
    written, or its write fails. *)
Inductive loop_step (s : AuditLogger) : AuditLogger -> Prop :=
  | step_receive e q :
      queue s = e :: q -> writing s = None -> loop_step s (set_loop s q (Some e) (settled s))
  | step_written e :
      writing s = Some e -> loop_step s (set_loop s (queue s) None (settled s ++ [(e, true)]))
  | step_write_failed e :
      writing s = Some e -> loop_step s (set_loop s (queue s) None (settled s ++ [(e, false)])).

(** [src/audit.go:AuditLogger.Close] its steps in order; the last waits for the
    end of the loop. *)
Inductive close_step (s : AuditLogger) : AuditLogger -> Prop :=
  | step_close : at_phase s = Running -> close_step s (set_phase s Closing)
  | step_stop : at_phase s = Closing -> close_step s (set_phase s Stopped)
  | step_close_chan : at_phase s = Stopped -> close_step s (set_phase s ChanClosed)
  | step_close_file : at_phase s = ChanClosed -> queue s = [] -> writing s = None ->
      close_step s (set_phase s FileClosed).

Definition step (s t : AuditLogger) : Prop := log_step s t \/ loop_step s t \/ close_step s t.
Definition reachable (s : AuditLogger) : Prop := rtc step NewAuditLogger s.
End Queue.
#[global] Arguments AuditLogger : clear implicits.

(** ** The rotating file *)
Abbreviation files := (gmap string string).

(** [src/audit.go:RotatingFile] *)
Record RotatingFile := { rpath : string; maxSize : Z; maxBak : Z; is_open : bool; rsize : Z }.

(** What fails: removing or renaming at a backup number, opening the fresh file;
    a write may stop after some bytes. *)
Record rotation_env := {
  remove_fails : nat -> bool; rename_fails : nat -> bool; open_fails : bool; short_write : option nat
}.
Definition no_failure : rotation_env := {|
  remove_fails := fun _ => false; rename_fails := fun _ => false; open_fails := false; short_write := None |}.

(** The name of backup [i]; number 0 stands for the file itself. *)
Definition backup (path : string) (i : nat) : string :=
  match i with O => path | S _ => path +:+ "." +:+ pretty (N.of_nat i) end.

(** [src/audit.go:144-161 rotate] the loop from the oldest backup down. *)
Fixpoint shift (env : rotation_env) (path : string) (i : nat) (fs : files) : files :=
  match i with
  | O => fs
  | S j =>
      let old := backup path i in
      let prev := backup path j in
      let fs := if remove_fails env i then fs else delete old fs in
      let fs := match fs !! prev with
        | Some c => if rename_fails env i then fs else <[old := c]> (delete prev fs)
        | None => fs
        end in
      shift env path j fs
  end.

(** [src/audit.go:rotate] *)
Definition rotate (env : rotation_env) (r : RotatingFile) (fs : files) : option error * RotatingFile * files :=
  let fs := shift env (rpath r) (Z.to_nat (maxBak r)) fs in
  if open_fails env then
    (Some (Errorf "recreate after rotate: %w" [AWrap (ErrNew "os.PathError")]),
     {| rpath := rpath r; maxSize := maxSize r; maxBak := maxBak r; is_open := false; rsize := rsize r |}, fs)
  else
    (None, {| rpath := rpath r; maxSize := maxSize r; maxBak := maxBak r; is_open := true; rsize := 0 |},
     <[rpath r := ""]> fs).

(** [src/audit.go:RotatingFile.Write] *)
Definition Write (env : rotation_env) (r : RotatingFile) (fs : files) (p : string)
  : option error * RotatingFile * files :=
  let '(err, r, fs) := if maxSize r <? rsize r + slen p then rotate env r fs else (None, r, fs) in
  match err with
  | Some e => (Some e, r, fs)
  | None =>
      if negb (is_open r) then (Some (ErrNew "os.ErrClosed"), r, fs)
      else
        let n := match short_write env with Some n => Nat.min n (String.length p) | None => String.length p end in
        let fs := <[rpath r := default "" (fs !! rpath r) +:+ stake n p]> fs in
        (match short_write env with Some _ => Some (ErrNew "os.PathError") | None => None end,
         {| rpath := rpath r; maxSize := maxSize r; maxBak := maxBak r; is_open := is_open r;
            rsize := rsize r + Z.of_nat n |}, fs)
  end.

(** [src/audit.go:NewRotatingFile] *)
Definition NewRotatingFile (path : string) (maxSize maxBak : Z) (fs : files) : RotatingFile * files :=
  let c := default "" (fs !! path) in
  ({| rpath := path; maxSize := maxSize; maxBak := maxBak; is_open := true; rsize := slen c |},
   <[path := c]> fs).

(** What the files of a log hold, the oldest first. *)
Fixpoint kept_text (path : string) (n : nat) (fs : files) : string :=
  default "" (fs !! backup path n) +:+ match n with O => "" | S m => kept_text path m fs end.

(** * Lemmas *)
Section QueueFacts.
  Context {M : Type}.
  Implicit Types s t : AuditLogger M.

(** The entry that the loop holds. *)
Definition in_hand s : list (AuditEntry M) := match writing s with Some e => [e] | None => [] end.

(** What holds between steps. *)
Record queue_inv s : Prop := {
  inv_order : accepted s = map fst (settled s) ++ in_hand s ++ queue s;
  inv_bound : (length (queue s) <= capacity)%nat;
  inv_count : called s ≡ₚ inflight s ++ waiting s ++ accepted s ++ refused s ++ lost s;
  inv_waiting : Forall (fun e => isAuditCritical e = true) (waiting s);
  inv_closed : at_phase s = FileClosed -> queue s = [] /\ writing s = None
}.

Lemma chan_open_not_closed s : chan_open s -> at_phase s <> FileClosed.
Proof. intros [H|[H|H]]; by rewrite H. Qed.

Lemma queue_inv_init : queue_inv NewAuditLogger.
Proof. split; cbn; [done|lia|done|constructor|done]. Qed.

Lemma queue_inv_log s t : log_step s t -> queue_inv s -> queue_inv t.
Proof.
  intros H [Ho Hb Hc Hw Hf].
  destruct H as [e now Hp|e l1 l2 Hop Hi Hl|e l1 l2 Hop Hi Hl Hcr|e l1 l2 Hop Hi Hl Hcr|e l1 l2 Hop Hi Hl
    |e l1 l2 Hi|e l1 l2 Hn Hi|e l1 l2 Hn Hi]; split; cbn; unfold in_hand in *; cbn; try done.
  all: try rewrite Hi in Hc; try rewrite Hi in Hw.
  - by rewrite Hc.
  - by rewrite Ho, <- !app_assoc.
  - rewrite length_app. cbn. lia.
  - rewrite Hc. solve_Permutation.
  - intros E. by apply chan_open_not_closed in Hop.
  - rewrite Hc. solve_Permutation.
  - rewrite Hc. solve_Permutation.
  - by constructor.
  - by rewrite Ho, <- !app_assoc.
  - rewrite length_app. cbn. lia.
  - rewrite Hc. solve_Permutation.
  - apply Forall_app in Hw as [? Hw]. apply Forall_cons in Hw as [_ ?]. by apply Forall_app.
  - intros E. by apply chan_open_not_closed in Hop.
  - rewrite Hc. solve_Permutation.
  - apply Forall_app in Hw as [? Hw]. apply Forall_cons in Hw as [_ ?]. by apply Forall_app.
  - rewrite Hc. solve_Permutation.
  - rewrite Hc. solve_Permutation.
  - apply Forall_app in Hw as [? Hw]. apply Forall_cons in Hw as [_ ?]. by apply Forall_app.
Qed.

Lemma queue_inv_step s t : step s t -> queue_inv s -> queue_inv t.
Proof.
  intros [H|[H|H]] HI; [by eapply queue_inv_log| |]; destruct HI as [Ho Hb Hc Hw Hf].
  - destruct H as [e q Hq Hn|e He|e He]; unfold in_hand in *; split; unfold in_hand; cbn; try done;
      try (intros E; by destruct (Hf E); congruence).
    + by rewrite Ho, Hq, Hn.
    + rewrite Hq in Hb. cbn in Hb. lia.
    + by rewrite Ho, He, map_app, <- !app_assoc.
    + by rewrite Ho, He, map_app, <- !app_assoc.
  - destruct H; split; unfold in_hand in *; cbn; done.
Qed.

Lemma reachable_inv s : reachable s -> queue_inv s.
Proof. intros H. eapply rtc_invariant; [|exact H|apply queue_inv_init]. intros; by eapply queue_inv_step. Qed.

(** What was written keeps the order of what was settled, and is all of it but
    the failures. *)
Lemma written_sublist s : written s `sublist_of` map fst (settled s).
Proof.
  unfold written. induction (settled s) as [|[e []] l IH]; cbn; [constructor| |]; by constructor.
Qed.
Lemma settled_split s : map fst (settled s) ≡ₚ written s ++ unwritten s.
Proof.
  unfold written, unwritten. induction (settled s) as [|[e []] l IH]; cbn; [done|by rewrite IH|].
  rewrite IH. apply Permutation_middle.
Qed.
Lemma all_written s : unwritten s = [] -> map fst (settled s) = written s.
Proof.
  unfold written, unwritten. induction (settled s) as [|[e []] l IH]; cbn; [done| |done]. intros H. by rewrite IH.
Qed.

(** The work the loop has left. *)
Definition work s : nat := 2 * length (queue s) + length (in_hand s).
Lemma work_0 s : work s = 0%nat -> queue s = [] /\ writing s = None.
Proof. unfold work, in_hand. destruct (queue s), (writing s); cbn; lia || done. Qed.

Lemma loop_step_work s t : loop_step s t -> (work t < work s)%nat /\ at_phase t = at_phase s /\ accepted t = accepted s.
Proof.
  unfold work, in_hand. destruct 1 as [e q Hq Hn|e He|e He]; cbn; rewrite ?Hq, ?Hn, ?He; cbn; (split; [lia|done]).
Qed.
(** The loop is never stuck before its work is done, and no write needs to fail. *)
Lemma loop_progress s : (0 < work s)%nat -> exists t, loop_step s t /\
  written t ++ in_hand t ++ queue t = written s ++ in_hand s ++ queue s.
Proof.
  unfold work, in_hand, written. destruct (writing s) as [e|] eqn:Ew.
  - eexists. split; [by apply (step_written s e)|]. cbn. by rewrite omap_app, <- !app_assoc.
  - destruct (queue s) as [|e q] eqn:Eq; [cbn; lia|]. intros _.
    eexists. split; [by apply (step_receive s e q)|]. done.
Qed.
Lemma loop_drains n : forall s, (work s <= n)%nat -> exists t, rtc loop_step s t /\ work t = 0%nat /\
  written t = written s ++ in_hand s ++ queue s.
Proof.
  induction n as [|n IH]; intros s Hn; destruct (decide (work s = 0%nat)) as [H0|H0]; try lia;
    try (exists s; split; [done|]; split; [done|]; apply work_0 in H0 as [Hq Hw]; unfold in_hand; by rewrite Hq, Hw, !app_nil_r).
  destruct (loop_progress s) as (t & Hst & Hw); [lia|]. destruct (loop_step_work s t Hst) as (Hlt & _).
  destruct (IH t) as (u & Htu & Hu & Hwu); [lia|]. exists u.
  split; [by eapply rtc_l|]. split; [done|]. by rewrite Hwu.
Qed.
Lemma loop_run n : forall s t, nsteps loop_step n s t -> (work t + n <= work s)%nat /\ at_phase t = at_phase s /\ accepted t = accepted s.
Proof.
  induction n as [|n IH]; intros s t H; inversion H as [|? ? u ? Hs Ht]; subst; [split; [lia|done]|].
  apply loop_step_work in Hs as (? & Hp & Ha). destruct (IH _ _ Ht) as (? & -> & ->). split; [lia|done].
Qed.
Lemma reachable_loop s t : reachable s -> rtc loop_step s t -> reachable t.
Proof.
  intros H Hst. unfold reachable in *. etrans; [exact H|]. eapply rtc_subrel; [|exact Hst]. intros x y Hxy. right. by left.
Qed.
(** With the channel closed and no work left, [Close] ends, and nothing accepted
    is left unsettled. *)
Lemma close_ends t : reachable t -> at_phase t = ChanClosed -> work t = 0%nat ->
  exists u, close_step t u /\ at_phase u = FileClosed /\ settled u = settled t /\ map fst (settled u) = accepted t.
Proof.
  intros Ht Hp [Hq Hw]%work_0. exists (set_phase t FileClosed). split; [by apply step_close_file|]. split; [done|].
  split; [done|]. apply reachable_inv in Ht as [Ho _ _ _ _]. cbn. rewrite Ho, Hq. unfold in_hand. by rewrite Hw, !app_nil_r.
Qed.

(** * Properties *)

(** C35: whatever the interleaving, the entries the loop is done with, each
    written or one whose write failed, are the beginning of what was accepted, in
    that order, the rest being in the loop's hand or in a buffer that never
    exceeds its capacity; what is written keeps the order of acceptance, and as
    long as no write failed it is that beginning; every entry logged is still on
    its way, accepted, counted as dropped, or lost to a channel closed under it;
    and once the file is closed every entry accepted was written or is one whose
    write failed, which no count shows. *)
Theorem log_conserves s (H : reachable s) :
  accepted s = map fst (settled s) ++ in_hand s ++ queue s /\ (length (queue s) <= capacity)%nat /\
  written s `sublist_of` accepted s /\
  (unwritten s = [] -> accepted s = written s ++ in_hand s ++ queue s) /\
  called s ≡ₚ inflight s ++ waiting s ++ accepted s ++ refused s ++ lost s /\
  (at_phase s = FileClosed -> accepted s ≡ₚ written s ++ unwritten s /\ (unwritten s = [] -> written s = accepted s)).
Proof.
  apply reachable_inv in H as [Ho Hb Hc _ Hf]. split; [done|]. split; [done|]. split.
  { rewrite Ho. etrans; [apply written_sublist|]. apply sublist_inserts_r. done. }
  split; [intros E; by rewrite <- all_written|]. split; [done|]. intros E. destruct (Hf E) as [Hq Hw].
  assert (accepted s = map fst (settled s)) as -> by (rewrite Ho, Hq; unfold in_hand; by rewrite Hw, !app_nil_r).
  split; [apply settled_split|]. intros Hu. by rewrite all_written.
Qed.

(** C39: once the channel is closed, every run of the loop is finite, within the
    work that was left, and where it can go no further [Close] ends, with every
    entry accepted so far written or failed in its write, none forgotten; when no
    write fails from here on, all that was left is written, in order; and
    nothing that callers still do adds to the work. *)
Theorem close_completes s (H : reachable s) (Hp : at_phase s = ChanClosed) :
  (forall n t, nsteps loop_step n s t -> (n <= work s)%nat /\
     ((exists t', loop_step t t') \/
      exists u, close_step t u /\ at_phase u = FileClosed /\ accepted s ≡ₚ written u ++ unwritten u)) /\
  (exists t u, rtc loop_step s t /\ close_step t u /\ at_phase u = FileClosed /\
     written u = written s ++ in_hand s ++ queue s) /\
  (forall t, step s t -> (work t <= work s)%nat /\ accepted t = accepted s).
Proof.
  split; [|split].
  - intros n t Hn. destruct (loop_run n s t Hn) as (Hle & Hpt & Ha). split; [lia|].
    destruct (decide (work t = 0%nat)) as [H0|H0]; [right|left].
    + assert (reachable t) as Ht by (apply (reachable_loop s t H); by eapply rtc_nsteps_2).
      destruct (close_ends t Ht) as (u & Hu & Hpu & _ & Hset); [congruence|done|]. exists u. split; [done|]. split; [done|].
      rewrite <- Ha, <- Hset. apply settled_split.
    + destruct (loop_progress t) as (t' & Hst & _); [lia|]. by exists t'.
  - destruct (loop_drains (work s) s (Nat.le_refl _)) as (t & Hst & Hw & Hwr).
    assert (at_phase t = ChanClosed) as Hpt by (apply rtc_nsteps in Hst as [n Hst]; apply loop_run in Hst; intuition congruence).
    destruct (close_ends t (reachable_loop s t H Hst) Hpt Hw) as (u & Hu & Hpu & Hset & _). exists t, u. split; [done|].
    split; [done|]. split; [done|]. unfold written in *. by rewrite Hset.
  - assert (~ chan_open s) as Hn by (unfold chan_open; rewrite Hp; intros [?|[?|?]]; done).
    intros t [Hl|[Hl|Hl]].
    + destruct Hl as [e now [E|E]|? ? ? Hop|? ? ? Hop|? ? ? Hop|? ? ? Hop|? ? ?|? ? ?|? ? ?]; try done; try congruence; by split.
    + apply loop_step_work in Hl as (? & _ & ?). split; [lia|done].
    + destruct Hl; cbn; by split.
Qed.

(** An entry that was accepted and is missing from the closed log, with nothing
    counted: its write failed. *)
Lemma failed_write_uncounted (e : AuditEntry M) : exists s, reachable s /\ at_phase s = FileClosed /\
  accepted s = [stamp 0 e] /\ written s = [] /\ Dropped s = 0.
Proof.
  eexists. split; [unfold reachable|].
  - eapply rtc_l; [left; apply (step_call _ e 0); by left|]. cbn.
    eapply rtc_l; [left; apply (step_send _ (stamp 0 e) [] []); [by left|done|cbn; unfold capacity; lia]|]. cbn.
    eapply rtc_l; [right; left; by eapply step_receive|]. cbn.
    eapply rtc_l; [right; left; by eapply step_write_failed|]. cbn.
    eapply rtc_l; [right; right; by apply step_close|]. eapply rtc_l; [right; right; by apply step_stop|].
    eapply rtc_l; [right; right; by apply step_close_chan|].
    eapply rtc_l; [right; right; by apply step_close_file|]. apply rtc_refl.
  - cbn. done.
Qed.
End QueueFacts.

(** Callers stamp before they send: the file can hold an older entry after a
    younger one, which the binary search over times does not expect. *)
Example written_out_of_order : exists s : AuditLogger message, reachable s /\
  map AETime (written s) = ["1970-01-01T00:00:02Z"; "1970-01-01T00:00:01Z"].
Proof.
  set (e := zero_entry (Errorf "" [])). set (e1 := stamp (1 * Second) e). set (e2 := stamp (2 * Second) e).
  eexists. split; [unfold reachable|].
  - eapply rtc_l; [left; apply (step_call _ e (1 * Second)); by left|]. fold e1. cbn.
    eapply rtc_l; [left; apply (step_call _ e (2 * Second)); by left|]. fold e2. cbn.
    eapply rtc_l; [left; apply (step_send _ e2 [] [e1]); [by left|done|cbn; unfold capacity; lia]|]. cbn.
    eapply rtc_l; [left; apply (step_send _ e1 [] []); [by left|done|cbn; unfold capacity; lia]|]. cbn.
    eapply rtc_l; [right; left; by eapply step_receive|]. cbn.
    eapply rtc_l; [right; left; by eapply step_written|]. cbn.
    eapply rtc_l; [right; left; by eapply step_receive|]. cbn.
    eapply rtc_l; [right; left; by eapply step_written|]. cbn. apply rtc_refl.
  - vm_compute. reflexivity.
Qed.

(** * The rotating file *)
Lemma backup_inj path i j : backup path i = backup path j -> i = j.
Proof.
  destruct i as [|i], j as [|j]; cbn; [done| | |].
  - intros H. apply (f_equal String.length) in H. rewrite !slength_app in H. cbn in H. lia.
  - intros H. apply (f_equal String.length) in H. rewrite !slength_app in H. cbn in H. lia.
  - intros H. apply sapp_inj_l in H. injection H as H. apply (inj pretty) in H. lia.
Qed.

(** Without failures every backup takes the number after its own. *)
Lemma shift_lookup path n fs :
  (forall i, (i < n)%nat -> shift no_failure path n fs !! backup path (S i) = fs !! backup path i) /\
  (forall k, (forall i, (i <= n)%nat -> k <> backup path i) -> shift no_failure path n fs !! k = fs !! k).
Proof.
  revert fs. induction n as [|n IH]; intros fs; [split; [lia|done]|].
  change (shift no_failure path (S n) fs) with
    (let fs := delete (backup path (S n)) fs in
     shift no_failure path n
       (match fs !! backup path n with
        | Some c => <[backup path (S n) := c]> (delete (backup path n) fs) | None => fs end)).
  cbv zeta. set (fs' := match delete _ fs !! backup path n with Some c => _ | None => _ end).
  assert (forall k, k <> backup path n -> k <> backup path (S n) -> fs' !! k = fs !! k) as Hoth.
  { intros k H1 H2. unfold fs'. destruct (delete _ fs !! backup path n); simplify_map_eq; done. }
  assert (fs' !! backup path (S n) = fs !! backup path n) as Hn.
  { assert (backup path n <> backup path (S n)) as Hne by (intros E; apply backup_inj in E; lia).
    unfold fs'. rewrite lookup_delete_ne by done. destruct (fs !! backup path n) eqn:E; simplify_map_eq; done. }
  destruct (IH fs') as [IH1 IH2]. split.
  - intros i Hi. destruct (decide (i = n)) as [->|].
    + rewrite IH2; [done|]. intros j Hj E. apply backup_inj in E. lia.
    + rewrite IH1 by lia. apply Hoth; intros E; apply backup_inj in E; lia.
  - intros k Hk. rewrite IH2; [|intros i Hi; apply Hk; lia]. apply Hoth; apply Hk; lia.
Qed.

Lemma kept_text_ext path n fs fs' :
  (forall i, (i <= n)%nat -> default "" (fs !! backup path i) = default "" (fs' !! backup path i)) ->
  kept_text path n fs = kept_text path n fs'.
Proof.
  induction n as [|n IH]; intros H; cbn [kept_text]; [by rewrite (H 0%nat)|].
  rewrite (H (S n)) by done. rewrite IH; [done|]. intros i Hi. apply H. lia.
Qed.

(** A rotation forgets the oldest backup only. *)
Lemma kept_text_shifted path n fs fs' :
  (forall i, (i < n)%nat -> default "" (fs' !! backup path (S i)) = default "" (fs !! backup path i)) ->
  default "" (fs' !! path) = "" ->
  (default "" (fs !! backup path n) +:+ kept_text path n fs') = kept_text path n fs.
Proof.
  intros Hs H0.
  assert (forall m, (m <= n)%nat -> (default "" (fs !! backup path m) +:+ kept_text path m fs') = kept_text path m fs) as Hm.
  { induction m as [|m IH]; intros Hm; cbn [kept_text].
    - change (backup path 0) with path. by rewrite H0, !sapp_nil_r.
    - rewrite (Hs m) by lia. by rewrite IH by lia. }
  by apply Hm.
Qed.

Lemma kept_text_write path n fs p :
  kept_text path n (<[path := default "" (fs !! path) +:+ p]> fs) = (kept_text path n fs +:+ p).
Proof.
  induction n as [|n IH].
  - cbn. rewrite lookup_insert_eq. cbn. by rewrite !sapp_nil_r.
  - cbn [kept_text]. rewrite lookup_insert_ne; [by rewrite IH, sapp_assoc|].
    intros E. apply (backup_inj path 0 (S n)) in E. done.
Qed.

(** The state of an open file agrees with its contents. *)
Definition file_ok (r : RotatingFile) (fs : files) : Prop :=
  is_open r = true /\ rsize r = slen (default "" (fs !! rpath r)).
Definition all_kept (r : RotatingFile) (fs : files) : string := kept_text (rpath r) (Z.to_nat (maxBak r)) fs.
Definition same_file (r r' : RotatingFile) : Prop :=
  rpath r' = rpath r /\ maxSize r' = maxSize r /\ maxBak r' = maxBak r.

(** The text of the last backup, and what a write pushes out. *)
Definition oldest (r : RotatingFile) (fs : files) : string :=
  default "" (fs !! backup (rpath r) (Z.to_nat (maxBak r))).
Definition pushed_out (r : RotatingFile) (fs : files) (p : string) : string :=
  if maxSize r <? rsize r + slen p then oldest r fs else "".
Definition write_all (r : RotatingFile) (fs : files) (ps : list string) : RotatingFile * files * string :=
  foldl (fun '(r, fs, gone) p =>
    let '(_, r', fs') := Write no_failure r fs p in (r', fs', gone +:+ pushed_out r fs p)) (r, fs, "") ps.

Lemma rotate_keeps r fs :
  let '(err, r', fs') := rotate no_failure r fs in
  err = None /\ same_file r r' /\ file_ok r' fs' /\ rsize r' = 0 /\
  (oldest r fs +:+ all_kept r' fs') = all_kept r fs.
Proof.
  unfold rotate, file_ok, same_file, all_kept, oldest. cbn -[shift]. rewrite lookup_insert_eq. repeat split.
  set (n := Z.to_nat (maxBak r)). destruct (shift_lookup (rpath r) n fs) as [Hs _].
  apply kept_text_shifted; [|by rewrite lookup_insert_eq].
  intros i Hi. rewrite lookup_insert_ne by (intros E; apply (backup_inj _ 0 (S i)) in E; done). by rewrite Hs.
Qed.

Lemma stake_all p : stake (String.length p) p = p.
Proof. rewrite <- (sapp_nil_r p) at 2. apply stake_length_app. Qed.

Lemma Write_keeps r fs p : file_ok r fs ->
  let '(err, r', fs') := Write no_failure r fs p in
  err = None /\ same_file r r' /\ file_ok r' fs' /\ rsize r' <= Z.max (maxSize r) (slen p) /\
  (pushed_out r fs p +:+ all_kept r' fs') = (all_kept r fs +:+ p).
Proof.
  intros Hok. unfold Write, pushed_out. cbn [short_write no_failure].
  assert (forall r0 fs0 gone, same_file r r0 -> file_ok r0 fs0 -> rsize r0 + slen p <= Z.max (maxSize r) (slen p) ->
    (gone +:+ all_kept r0 fs0) = all_kept r fs ->
    let '(err, r', fs') :=
      if negb (is_open r0) then (Some (ErrNew "os.ErrClosed"), r0, fs0)
      else (None, {| rpath := rpath r0; maxSize := maxSize r0; maxBak := maxBak r0; is_open := is_open r0;
                     rsize := rsize r0 + Z.of_nat (String.length p) |},
            <[rpath r0 := default "" (fs0 !! rpath r0) +:+ stake (String.length p) p]> fs0) in
    err = None /\ same_file r r' /\ file_ok r' fs' /\ rsize r' <= Z.max (maxSize r) (slen p) /\
    (gone +:+ all_kept r' fs') = (all_kept r fs +:+ p)) as Happend.
  { intros r0 fs0 gone (Hp & Hm & Hb) [Ho Hs] Hle Hg. rewrite Ho. cbn [negb]. rewrite stake_all.
    unfold same_file, file_ok, all_kept in *. cbn. rewrite lookup_insert_eq. cbn. rewrite slen_app, kept_text_write.
    unfold slen in *. repeat split; try done; try lia. by rewrite <- sapp_assoc, Hg. }
  destruct (Z.ltb_spec (maxSize r) (rsize r + slen p)) as [Hlt|Hge].
  - pose proof (rotate_keeps r fs) as H. destruct (rotate no_failure r fs) as [[err r0] fs0].
    destruct H as (-> & Hsame & Hok0 & Hz & Hg). apply Happend; try done. lia.
  - apply Happend; try done. lia.
Qed.

(** C37: with at least one backup, over any sequence of writes in which no file
    operation fails, nothing is lost but what each rotation pushes out, the text
    of the oldest backup; what was pushed out, the backups in order and the file
    make up all that was ever written, and the file is no larger than the limit
    or the last write. *)
Theorem rotation_keeps_newest r fs ps (Hok : file_ok r fs) (Hbak : 1 <= maxBak r) :
  let '(r', fs', gone) := write_all r fs ps in
  file_ok r' fs' /\ same_file r r' /\
  (gone +:+ all_kept r' fs') = (all_kept r fs +:+ foldr String.append "" ps) /\
  (forall p, last ps = Some p -> rsize r' <= Z.max (maxSize r) (slen p)).
Proof.
  unfold write_all. cut (forall gone0, let '(r', fs', gone) := foldl (fun '(r, fs, gone) p =>
      let '(_, r', fs') := Write no_failure r fs p in (r', fs', gone +:+ pushed_out r fs p)) (r, fs, gone0) ps in
    file_ok r' fs' /\ same_file r r' /\
    (gone +:+ all_kept r' fs') = (gone0 +:+ all_kept r fs +:+ foldr String.append "" ps) /\
    (forall p, last ps = Some p -> rsize r' <= Z.max (maxSize r) (slen p))).
  { intros H. exact (H ""). }
  clear Hbak. revert r fs Hok. induction ps as [|p ps IH]; intros r fs Hok gone0; cbn [foldl].
  { repeat split; [apply Hok..| |done]. cbn. by rewrite sapp_nil_r. }
  pose proof (Write_keeps r fs p Hok) as H. destruct (Write no_failure r fs p) as [[err r1] fs1].
  destruct H as (_ & (Hp & Hm & Hb) & Hok1 & Hle & Hg). specialize (IH r1 fs1 Hok1 (gone0 +:+ pushed_out r fs p)).
  destruct (foldl _ (r1, fs1, _) ps) as [[r' fs'] gone'] eqn:Ef. destruct IH as (Hok' & (Hp' & Hm' & Hb') & Hg' & Hl).
  split; [done|]. split; [repeat split; congruence|]. split.
  - rewrite Hg'. cbn [foldr]. rewrite !sapp_assoc. f_equal. rewrite <- !sapp_assoc, Hg. by rewrite sapp_assoc.
  - intros q. destruct ps as [|p' ps']; [|intros Hq; rewrite <- Hm; by apply Hl].
    intros [= <-]. cbn in Ef. by injection Ef as <- <- <-.
Qed.

(** A rotation whose rename of the current file fails goes on and truncates it:
    what the file held is in no file afterwards that was not elsewhere before. *)
Lemma shift_failed_rename env path n : rename_fails env 1 = true -> forall fs k c, k <> path ->
  shift env path n fs !! k = Some c -> exists k', k' <> path /\ fs !! k' = Some c.
Proof.
  intros Hf. induction n as [|n IH]; intros fs k c Hk H; [by exists k|]. cbn [shift] in H.
  apply IH in H as (k1 & Hk1 & H); [|done].
  assert (forall k2, (if remove_fails env (S n) then fs else delete (backup path (S n)) fs) !! k2 = Some c ->
    fs !! k2 = Some c) as Hd.
  { intros k2. destruct (remove_fails env (S n)); [done|]. by intros [_ ?]%lookup_delete_Some. }
  destruct (_ !! backup path n) as [c0|] eqn:E; [|exists k1; auto].
  destruct (rename_fails env (S n)) eqn:Er; [exists k1; auto|].
  apply lookup_insert_Some in H as [[<- ->]|[_ H]].
  - exists (backup path n). split; [|auto]. destruct n; [congruence|]. intros Hp. by apply (backup_inj path (S n) 0) in Hp.
  - apply lookup_delete_Some in H as [_ H]. exists k1. auto.
Qed.
Lemma failed_rename_loses_log env r fs : rename_fails env 1 = true -> open_fails env = false ->
  let '(err, r', fs') := rotate env r fs in
  err = None /\ fs' !! rpath r = Some "" /\
  forall k c, k <> rpath r -> fs' !! k = Some c -> exists k', k' <> rpath r /\ fs !! k' = Some c.
Proof.
  intros Hf Ho. unfold rotate. rewrite Ho. split; [done|]. split; [by rewrite lookup_insert_eq|]. intros k c Hk H.
  rewrite lookup_insert_ne in H by congruence. by eapply shift_failed_rename.
Qed.

(** With no backups allowed a rotation forgets everything. *)
Example no_backups : forall fs,
  (rotate no_failure {| rpath := "a"; maxSize := 3; maxBak := 0; is_open := true; rsize := 3 |} fs).2 !! "a" = Some "".
Proof. intros fs. apply lookup_insert_eq. Qed.

(** * Concrete instances *)
Section Witnesses.
Definition busy_logger : AuditLogger message :=
  set_ghost (set_calls NewAuditLogger [] [stamp 0 (zero_entry (Errorf "" []))] [])
    [stamp 0 (zero_entry (Errorf "" []))] [] [] [].
(** A logger that is closed with an entry in its buffer. *)
Definition closing_logger : AuditLogger message :=
  let e := stamp 0 (zero_entry (Errorf "" [])) in
  set_phase (set_phase (set_phase (set_ghost (set_calls busy_logger [e] [] []) [e] [e] [] []) Closing) Stopped) ChanClosed.

Lemma busy_logger_reachable : reachable busy_logger.
Proof.
  eapply rtc_l; [left; apply (step_call NewAuditLogger (zero_entry (Errorf "" [])) 0); by left|]. apply rtc_refl.
Qed.
Lemma closing_logger_reachable : reachable closing_logger.
Proof.
  unfold reachable. etrans; [exact busy_logger_reachable|].
  eapply rtc_l; [left; apply (step_send busy_logger (stamp 0 (zero_entry (Errorf "" []))) [] []); [by left|done|cbn; unfold capacity; lia]|].
  eapply rtc_l; [right; right; by apply step_close|]. eapply rtc_l; [right; right; by apply step_stop|].
  eapply rtc_l; [right; right; by apply step_close_chan|]. apply rtc_refl.
Qed.

Lemma log_conserves_witness : called closing_logger ≡ₚ accepted closing_logger /\ length (queue closing_logger) = 1%nat.
Proof.
  split; [|reflexivity].
  exact (proj1 (proj2 (proj2 (proj2 (proj2 (log_conserves closing_logger closing_logger_reachable)))))).
Defined.

Lemma close_completes_witness : exists t u, rtc loop_step closing_logger t /\ close_step t u /\
  at_phase u = FileClosed /\ written u = [stamp 0 (zero_entry (Errorf "" []))].
Proof. exact (proj1 (proj2 (close_completes closing_logger closing_logger_reachable eq_refl))). Defined.

Definition small_file : RotatingFile := (NewRotatingFile "a" 4 2 ∅).1.
Definition small_files : files := (NewRotatingFile "a" 4 2 ∅).2.
Lemma small_file_ok : file_ok small_file small_files.
Proof. split; reflexivity. Qed.

(** Writes of three bytes each: two backups and the file are kept. *)
Example small_writes :
  let '(r, fs, gone) := write_all small_file small_files ["abc"; "def"; "ghi"; "jkl"] in
  all_kept r fs = "defghijkl" /\ fs !! "a.2" = Some "def" /\ gone = "abc".
Proof. vm_compute. repeat split; reflexivity. Qed.

Lemma rotation_keeps_newest_witness :
  let '(r', fs', gone) := write_all small_file small_files ["abc"; "def"] in (gone +:+ all_kept r' fs') = "abcdef".
Proof.
  pose proof (rotation_keeps_newest small_file small_files ["abc"; "def"] small_file_ok ltac:(discriminate)) as H.
  destruct (write_all _ _ _) as [[r' fs'] gone]. exact (proj1 (proj2 (proj2 H))).
Defined.
End Witnesses.
