(* ===== verification/AuditWrite.v ===== *)
(** The lines of the audit log ([src/audit.go]): the JSON line [logSync] writes
    for an entry with its timestamp token, reading it back, the verification of
    a line, and the archive of a file.

    The timestamp authority is a pair of functions: what [Sign] answers within
    the configured time to a call at an instant, so that two calls for the same
    entry may end differently, and [Verify]. *)
From Stdlib Require Import Ascii.
From S2P Require Import Prelude GoStrings GoTime GoJson GoJsonOut GoClock AdmissionTypes AuditLog AuditQueue JsonLines Sha256.
Local Open Scope string_scope.
Local Open Scope Z_scope.
Local Open Scope list_scope.

(** * Definitions *)

(** [strconv.FormatInt(z, 10)] *)
Fixpoint dec_digits (fuel : nat) (z : Z) (acc : string) : string :=
  match fuel with
  | O => acc
  | S f => let acc := String (digit_of (z mod 10)) acc in if z <? 10 then acc else dec_digits f (z / 10) acc
  end.
Definition int_lit (z : Z) : string :=
  let m := Z.abs z in
  (if z <? 0 then "-" else "") +:+ dec_digits (S (Z.to_nat (Z.log2 m))) m "".

(** [base64.StdEncoding]: the digit of a value, the value of a digit. *)
Definition b64std_char (z : Z) : ascii :=
  chr (if z <? 26 then z + 65 else if z <? 52 then z + 71 else if z <? 62 then z - 4 else if z =? 62 then 43 else 47).
Definition b64std_digit (c : ascii) : option Z :=
  let z := code c in
  if (65 <=? z) && (z <=? 90) then Some (z - 65)
  else if (97 <=? z) && (z <=? 122) then Some (z - 71)
  else if (48 <=? z) && (z <=? 57) then Some (z + 4)
  else if z =? 43 then Some 62 else if z =? 47 then Some 63 else None.

(** [src/tsa.go:EncodeBase64] *)
Fixpoint EncodeBase64 (l : bytes) : string :=
  match l with
  | [] => ""
  | [x] => let a := byte_z x in
      String (b64std_char (a / 4)) (String (b64std_char (a mod 4 * 16)) "==")
  | [x; y] => let a := byte_z x in let b := byte_z y in
      String (b64std_char (a / 4)) (String (b64std_char (a mod 4 * 16 + b / 16))
        (String (b64std_char (b mod 16 * 4)) "="))
  | x :: y :: w :: l' => let a := byte_z x in let b := byte_z y in let c := byte_z w in
      String (b64std_char (a / 4)) (String (b64std_char (a mod 4 * 16 + b / 16))
        (String (b64std_char (b mod 16 * 4 + c / 64)) (String (b64std_char (c mod 64)) (EncodeBase64 l'))))
  end.

(** The quanta of a text without newlines; padding only at its end. *)
Fixpoint b64std_quanta (s : string) : option bytes :=
  match s with
  | EmptyString => Some []
  | String c1 (String c2 (String c3 (String c4 s'))) =>
      match b64std_digit c1, b64std_digit c2 with
      | Some a, Some b =>
          let x := z_byte (a * 4 + b / 16) in
          if Ascii.eqb c3 "=" then
            if Ascii.eqb c4 "=" && String.eqb s' "" then Some [x] else None
          else match b64std_digit c3 with
          | None => None
          | Some c =>
              let y := z_byte (b mod 16 * 16 + c / 4) in
              if Ascii.eqb c4 "=" then if String.eqb s' "" then Some [x; y] else None
              else match b64std_digit c4 with
              | None => None
              | Some d => option_map (fun l => x :: y :: z_byte (c mod 4 * 64 + d) :: l) (b64std_quanta s')
              end
          end
      | _, _ => None
      end
  | _ => None
  end.
Fixpoint drop_newlines (s : string) : string :=
  match s with
  | EmptyString => ""
  | String c s' => if (code c =? 10) || (code c =? 13) then drop_newlines s' else String c (drop_newlines s')
  end.

(** [src/tsa.go:DecodeBase64] *)
Definition DecodeBase64 (s : string) : result bytes :=
  match b64std_quanta (drop_newlines s) with
  | Some l => Ok l
  | None => Err (ErrNew "base64.CorruptInputError")
  end.

(** A member that [omitempty] leaves out. *)
Definition omit (empty : bool) (k : string) (v : json) : list (string * json) := if empty then [] else [(k, v)].
Definition omit_str (k s : string) : list (string * json) := omit (String.eqb s "") k (JStr s).
Definition omit_int (k : string) (z : Z) : list (string * json) := omit (z =? 0) k (JNum (int_lit z)).
Definition omit_strs (k : string) (l : list string) : list (string * json) :=
  omit (zlen l =? 0) k (JArr (map JStr l)).

(** [src/audit.go:AuditEntry] as [json.Marshal] writes it. *)
Definition entry_members (e : AuditEntry string) : list (string * json) :=
  ("time", JStr (AETime e)) :: ("action", JStr (AEAction e)) :: ("src_ip", JStr (AESrcIP e)) ::
  omit_str "client_cn" (AEClientCN e) ++ omit_str "client_serial" (AEClientSerial e) ++
  omit_strs "roles" (AERoles e) ++ ("mapping", JStr (AEMapping e)) :: ("target", JStr (AETarget e)) ::
  omit_str "target_id" (AETargetID e) ++ omit_str "duration" (AEDuration e) ++
  omit_str "deny_reason" (AEDenyReason e) ++ omit_int "bytes_in" (AEBytesIn e) ++
  omit_int "bytes_out" (AEBytesOut e) ++ omit_str "trace_id" (AETraceId e) ++
  omit_str "session_id" (AESessionId e) ++ omit_str "gateway_id" (AEGatewayId e) ++
  omit_str "protocol" (AEProtocol e) ++ omit_str "agent_id" (AEAgentId e) ++ omit_str "spiffe_id" (AESPIFFEID e) ++
  omit_str "principal_uid" (AEPrincipalUid e) ++ omit_int "delegation_mode" (AEDelegationMode e) ++
  omit_str "decision" (AEDecision e) ++ omit_strs "capabilities" (AECapabilities e) ++ omit_str "level" (AELevel e) ++
  omit_str "da_hash" (AEDaHash e) ++ omit_str "aic_fingerprint" (AEAICFingerprint e) ++
  omit_int "policy_version" (AEPolicyVersion e) ++ omit_str "record_digest" (AERecordDigest e) ++ [].
Definition entry_json (e : AuditEntry string) : json := JObj (entry_members e).

(** [src/audit.go:SignedAuditEntry] as [json.Marshal] writes it. *)
Definition signed_json (s : SignedAuditEntry) : json :=
  JObj (("entry", entry_json (SEntry s)) :: omit_str "tst" (TST s)).

(** A timestamp authority: what [Sign], called at an instant, gives for a message
    before the time is over ([None] is an error or a timeout), and [Verify]. *)
Record tsa_service := { tsa_sign : Time -> bytes -> option bytes; tsa_verify : bytes -> bytes -> option error }.

(** [src/audit.go:285-309 logSync] the entry with its token, asked for at
    the instant [at_]. *)
Definition sign_entry (tsa : option tsa_service) (at_ : Time) (e : AuditEntry string) : SignedAuditEntry := {|
  SEntry := e;
  TST := match tsa with
    | None => ""
    | Some t => match tsa_sign t at_ (ascii_bytes (json_encode (entry_json e))) with
                | Some tst => EncodeBase64 tst
                | None => ""
                end
    end |}.

(** [src/audit.go:logSync] the text written, and the file after it; a failed
    write is only printed. *)
Definition audit_line (tsa : option tsa_service) (at_ : Time) (e : AuditEntry string) : string :=
  json_encode (signed_json (sign_entry tsa at_ e)).
Definition logSync (env : rotation_env) (tsa : option tsa_service) (at_ : Time) (r : RotatingFile) (fs : files)
    (e : AuditEntry string) : RotatingFile * files :=
  let '(_, r, fs) := Write env r fs (audit_line tsa at_ e +:+ String nl "") in (r, fs).

(** [src/audit.go:VerifyAuditEntry] *)
Definition VerifyAuditEntry (data : string) (tsa : tsa_service) : option error :=
  match unmarshal dec_signed data with
  | Err err => Some (Errorf "parse audit entry: %w" [AWrap err])
  | Ok signed =>
      if String.eqb (TST signed) "" then None
      else match DecodeBase64 (TST signed) with
      | Err err => Some (Errorf "decode TST: %w" [AWrap err])
      | Ok tstDER =>
          match tsa_verify tsa (ascii_bytes (json_encode (entry_json (SEntry signed)))) tstDER with
          | Some err => Some (Errorf "TSA verification failed: %w" [AWrap err])
          | None => None
          end
      end
  end.

(** [src/audit.go:SetV12Fields] *)
Definition SetV12Fields {M} (e : AuditEntry M) (protocol gatewayId traceId sessionId decision : string) : AuditEntry M := {|
  AETime := AETime e; AEAction := AEAction e; AESrcIP := AESrcIP e; AEClientCN := AEClientCN e;
  AEClientSerial := AEClientSerial e; AERoles := AERoles e; AEMapping := AEMapping e; AETarget := AETarget e;
  AETargetID := AETargetID e; AEDuration := AEDuration e; AEDenyReason := AEDenyReason e;
  AEBytesIn := AEBytesIn e; AEBytesOut := AEBytesOut e; AETraceId := traceId; AESessionId := sessionId;
  AEGatewayId := gatewayId; AEProtocol := protocol; AEAgentId := AEAgentId e; AESPIFFEID := AESPIFFEID e;
  AEPrincipalUid := AEPrincipalUid e; AEDelegationMode := AEDelegationMode e; AEDecision := decision;
  AECapabilities := AECapabilities e; AELevel := AELevel e; AEDaHash := AEDaHash e;
  AEAICFingerprint := AEAICFingerprint e; AEPolicyVersion := AEPolicyVersion e; AERecordDigest := AERecordDigest e |}.

(** [src/audit.go:NewAuditEntryDenied] over the entry of the connection. *)
Definition deny_entry (reason : message) (e : AuditEntry message) : AuditEntry message := {|
  AETime := AETime e; AEAction := ActionDenied; AESrcIP := AESrcIP e; AEClientCN := AEClientCN e;
  AEClientSerial := AEClientSerial e; AERoles := AERoles e; AEMapping := AEMapping e; AETarget := AETarget e;
  AETargetID := AETargetID e; AEDuration := AEDuration e; AEDenyReason := reason;
  AEBytesIn := AEBytesIn e; AEBytesOut := AEBytesOut e; AETraceId := AETraceId e; AESessionId := AESessionId e;
  AEGatewayId := AEGatewayId e; AEProtocol := AEProtocol e; AEAgentId := AEAgentId e; AESPIFFEID := AESPIFFEID e;
  AEPrincipalUid := AEPrincipalUid e; AEDelegationMode := AEDelegationMode e; AEDecision := AEDecision e;
  AECapabilities := AECapabilities e; AELevel := AELevel e; AEDaHash := AEDaHash e;
  AEAICFingerprint := AEAICFingerprint e; AEPolicyVersion := AEPolicyVersion e; AERecordDigest := AERecordDigest e |}.

(** [src/audit.go:FilterAuditFile] what it prints. *)
Definition FilterAuditFile (file : option string) (since : Time) (action cn serial mapping : string)
  : result (list string) :=
  match ReadAuditEntries file {| Since := since; Until := zero_time; Limit := 0; Offset := 0; Sort := "";
          FAction := action; FClientCN := cn; FSerial := serial; FMapping := mapping |} with
  | Err err => Err err
  | Ok (_, Some err) => Err err
  | Ok (entries, None) => Ok (map (fun e => json_encode (entry_json e)) entries)
  end.

(** The instant in the name of an archive. *)
Definition archive_stamp (now : Time) : string :=
  let s := now / Second in
  let '(y, m, d) := civil_from_days (s / 86400) in
  let r := s mod 86400 in
  GoClock.pad 4 y +:+ "-" +:+ pad2 m +:+ "-" +:+ pad2 d +:+ "T" +:+ pad2 (r / 3600) +:+ "-" +:+ pad2 (r / 60 mod 60) +:+
  "-" +:+ pad2 (r mod 60).

(** [src/audit.go:ArchiveAuditFile]; [stat] and [rename] are errors the file
    system raises. *)
Definition ArchiveAuditFile (stat rename : option error) (fs : files) (path : string) (now : Time)
  : option error * files :=
  if String.eqb path "" then (None, fs)
  else match stat with
  | Some err => (Some err, fs)
  | None =>
      match fs !! path with
      | None => (None, fs)
      | Some data =>
          if slen data =? 0 then (None, fs)
          else match rename with
          | Some err => (Some err, fs)
          | None => (None, <[path +:+ "." +:+ archive_stamp now +:+ ".archived" := data]> (delete path fs))
          end
      end
  end.

(** * Lemmas *)

(** ** Decimal numbers *)
Lemma digit_of_digit z : 0 <= z < 10 -> is_digit (digit_of z) = true /\ code (digit_of z) = 48 + z.
Proof.
  intros H. unfold digit_of. rewrite code_chr by lia. split; [|done]. unfold is_digit. rewrite code_chr by lia.
  apply andb_true_iff. split; apply Z.leb_le; lia.
Qed.

Lemma dec_digits_value fuel z acc : 0 <= z < 2 ^ Z.of_nat fuel -> (0 < fuel)%nat ->
  forall a, exists k, digits_value a (dec_digits fuel z acc) = digits_value (a * 10 ^ k + z) acc /\ 0 <= k.
Proof.
  revert z acc. induction fuel as [|fuel IH]; intros z acc Hz Hf a; [lia|]. cbn [dec_digits].
  destruct (digit_of_digit (z mod 10)) as [Hd Hc]; [apply Z.mod_pos_bound; lia|].
  destruct (Z.ltb_spec z 10) as [Hs|Hs].
  - exists 1. cbn [digits_value]. rewrite Hd, Hc, Z.mod_small by lia. split; [f_equal; lia|lia].
  - assert (0 < fuel)%nat as Hf'. { destruct fuel; [|lia]. change (2 ^ Z.of_nat 1) with 2 in Hz. lia. }
    destruct (IH (z / 10) (String (digit_of (z mod 10)) acc)) with (a := a) as (k & E & Hk).
    { split; [apply Z.div_pos; lia|]. apply Z.div_lt_upper_bound; [lia|].
      rewrite Nat2Z.inj_succ, Z.pow_succ_r in Hz by lia. lia. }
    { done. }
    exists (k + 1). split; [|lia]. rewrite E. cbn [digits_value]. rewrite Hd, Hc. f_equal.
    rewrite Z.pow_add_r by lia. pose proof (Z.div_mod z 10). lia.
Qed.

Lemma dec_digits_ok fuel z acc : all_digits acc = true -> all_digits (dec_digits fuel z acc) = true.
Proof.
  revert z acc. induction fuel as [|fuel IH]; intros z acc Ha; [done|]. cbn [dec_digits].
  destruct (digit_of_digit (z mod 10)) as [Hd _]; [apply Z.mod_pos_bound; lia|].
  assert (all_digits (String (digit_of (z mod 10)) acc) = true) as Hn.
  { unfold all_digits in *. cbn [String.list_ascii_of_string forallb]. by rewrite Hd, Ha. }
  destruct (z <? 10); [exact Hn|by apply IH].
Qed.

Lemma dec_digits_head fuel z acc : 0 < z < 2 ^ Z.of_nat fuel -> (0 < fuel)%nat ->
  exists c s, dec_digits fuel z acc = String c s /\ is_digit c = true /\ code c <> 48.
Proof.
  revert z acc. induction fuel as [|fuel IH]; intros z acc Hz Hf; [lia|]. cbn [dec_digits].
  destruct (digit_of_digit (z mod 10)) as [Hd Hc]; [apply Z.mod_pos_bound; lia|].
  destruct (Z.ltb_spec z 10) as [Hs|Hs].
  - eexists _, _. split; [done|]. split; [done|]. rewrite Hc, Z.mod_small by lia. lia.
  - apply IH; [|destruct fuel; [|lia]; change (2 ^ Z.of_nat 1) with 2 in Hz; lia].
    split; [apply Z.div_str_pos; lia|]. apply Z.div_lt_upper_bound; [lia|].
    rewrite Nat2Z.inj_succ, Z.pow_succ_r in Hz by lia. lia.
Qed.

Lemma log2_fuel z : 0 <= z -> z < 2 ^ Z.of_nat (S (Z.to_nat (Z.log2 z))).
Proof.
  intros H. rewrite Nat2Z.inj_succ, Z2Nat.id by apply Z.log2_nonneg.
  destruct (Z.eq_dec z 0) as [->|]; [done|]. by apply Z.log2_spec; lia.
Qed.

Lemma int_lit_value z : 0 <= z -> digits_value 0 (int_lit z) = Some z.
Proof.
  intros H. unfold int_lit. rewrite (proj2 (Z.ltb_ge z 0)), Z.abs_eq by lia. cbn [String.append].
  destruct (dec_digits_value (S (Z.to_nat (Z.log2 z))) z "") with (a := 0) as (k & -> & _);
    [split; [done|by apply log2_fuel]|lia|]. by rewrite Z.mul_0_l.
Qed.

Lemma int_lit_uint z : 0 <= z -> uint_lit (int_lit z) = true.
Proof.
  intros H. destruct (Z.eq_dec z 0) as [->|]; [reflexivity|].
  unfold int_lit. rewrite (proj2 (Z.ltb_ge z 0)), Z.abs_eq by lia. cbn [String.append].
  destruct (dec_digits_head (S (Z.to_nat (Z.log2 z))) z "") as (c & s & E & Hd & Hn);
    [split; [lia|apply log2_fuel; lia]|lia|].
  pose proof (dec_digits_ok (S (Z.to_nat (Z.log2 z))) z "" eq_refl) as Ha. rewrite E in *.
  unfold uint_lit. destruct s as [|d s]; [done|]. rewrite Hd. apply Z.eqb_neq in Hn. rewrite Hn. cbn [andb negb].
  unfold all_digits in *. cbn [String.list_ascii_of_string forallb] in Ha |- *. by apply andb_true_iff in Ha as [_ Ha].
Qed.

Lemma int_lit_int64 z : 0 <= z <= int64_max -> parse_int64 (int_lit z) = Some z.
Proof.
  intros H. pose proof (int_lit_value z) as Hv. specialize (Hv ltac:(lia)). pose proof (int_lit_uint z ltac:(lia)) as Hu.
  unfold parse_int64. destruct (int_lit z) as [|c s] eqn:E; [done|].
  assert (forall (A : Type) (x y : A), match String c s with String "-" _ => x | _ => y end = y) as Hm.
  { intros A x y. assert (is_digit c = true) as Hd by (destruct s; [done|]; by apply andb_true_iff in Hu as [[? _]%andb_true_iff _]).
    destruct c as [[] [] [] [] [] [] [] []]; try reflexivity; discriminate Hd. }
  rewrite Hm, Hv. cbn [String.eqb]. unfold in_int64. rewrite (proj2 (Z.leb_le int64_min z)), (proj2 (Z.leb_le z int64_max)); [done|lia|].
  unfold int64_min. lia.
Qed.

(** ** base64 *)
Lemma b64std_char_ok z : 0 <= z < 64 -> b64std_digit (b64std_char z) = Some z /\
  Ascii.eqb (b64std_char z) "=" = false /\ (code (b64std_char z) =? 10) || (code (b64std_char z) =? 13) = false /\
  (code (b64std_char z) <? 128) = true.
Proof.
  intros H. assert (forall n, (n < 64)%nat -> b64std_digit (b64std_char (Z.of_nat n)) = Some (Z.of_nat n) /\
    Ascii.eqb (b64std_char (Z.of_nat n)) "=" = false /\
    (code (b64std_char (Z.of_nat n)) =? 10) || (code (b64std_char (Z.of_nat n)) =? 13) = false /\
    (code (b64std_char (Z.of_nat n)) <? 128) = true) as G.
  { intros n Hn. do 64 (destruct n as [|n]; [by vm_compute|]). lia. }
  rewrite <- (Z2Nat.id z) by lia. apply G. lia.
Qed.

Lemma b64std_digit_char z : 0 <= z < 64 -> b64std_digit (b64std_char z) = Some z.
Proof. apply b64std_char_ok. Qed.
Lemma b64std_char_pad z : 0 <= z < 64 -> Ascii.eqb (b64std_char z) "=" = false.
Proof. apply b64std_char_ok. Qed.
Lemma drop_newlines_char z s : 0 <= z < 64 ->
  drop_newlines (String (b64std_char z) s) = String (b64std_char z) (drop_newlines s).
Proof. intros Hz. destruct (b64std_char_ok z Hz) as (_ & _ & Hn & _). cbn [drop_newlines]. by rewrite Hn. Qed.
Lemma utf8_text_char z s : 0 <= z < 64 -> utf8_text (String (b64std_char z) s) = utf8_text s.
Proof. intros Hz. destruct (b64std_char_ok z Hz) as (_ & _ & _ & Ha). apply utf8_text_cons. lia. Qed.

(** Arithmetic of the digits of a quantum. *)
Ltac quantum :=
  repeat match goal with
  | b : Byte.byte |- _ => lazymatch goal with
      | _ : 0 <= byte_z b < 256 |- _ => fail
      | _ => pose proof (byte_z_range b) end
  end; Z.to_euclidean_division_equations; lia.

Lemma triple_induction {A} (P : list A -> Prop) : P [] -> (forall x, P [x]) -> (forall x y, P [x; y]) ->
  (forall x y w l, P l -> P (x :: y :: w :: l)) -> forall l, P l.
Proof.
  intros H0 H1 H2 H3. fix IH 1. intros [|x [|y [|w l]]]; [exact H0|apply H1|apply H2|apply H3, IH].
Qed.

Lemma EncodeBase64_text l : drop_newlines (EncodeBase64 l) = EncodeBase64 l /\ utf8_text (EncodeBase64 l) = true.
Proof.
  induction l as [|x|x y|x y w l [IH1 IH2]] using triple_induction; [done|..]; cbn [EncodeBase64]; cbv zeta;
    rewrite !drop_newlines_char, !utf8_text_char by quantum; rewrite ?IH1, ?IH2; done.
Qed.

Lemma base64_round_trip l : DecodeBase64 (EncodeBase64 l) = Ok l.
Proof.
  unfold DecodeBase64. rewrite (proj1 (EncodeBase64_text l)).
  assert (b64std_quanta (EncodeBase64 l) = Some l) as ->; [|done].
  assert (forall z b, z = byte_z b -> z_byte z = b) as Hb by (intros z b ->; apply z_byte_z).
  induction l as [|x|x y|x y w l IH] using triple_induction; [done|..]; cbn [EncodeBase64 b64std_quanta]; cbv zeta;
    rewrite !b64std_digit_char by quantum; cbv iota beta; [..|rewrite IH];
    rewrite ?b64std_char_pad by quantum; cbv iota beta; try rewrite !b64std_digit_char by quantum;
    cbn -[Z.div Z.modulo Z.mul Z.add]; repeat f_equal; apply Hb; quantum.
Qed.

(** ** Reading an entry back *)
Section Members.
  Context {S : Type} (field : S -> string -> json -> result S).
Let step (acc : result S) (m : string * json) : result S := let '(k, x) := m in s ← acc; field s k x.

Lemma member_step s s' k v rest : field s k v = Ok s' ->
  foldl step (Ok s) ((k, v) :: rest) = foldl step (Ok s') rest.
Proof. intros H. cbn. unfold step at 2. cbn. by rewrite H. Qed.

Lemma omit_step s s' b k v rest : field s k v = Ok s' -> (b = true -> s' = s) ->
  foldl step (Ok s) (omit b k v ++ rest) = foldl step (Ok s') rest.
Proof. intros H Hb. destruct b; [by rewrite Hb|]. by apply member_step. Qed.
End Members.

Lemma dec_strings_map l : dec_strings [] (map JStr l) = Ok l.
Proof. induction l as [|s l IH]; [done|]. cbn in *. by rewrite IH. Qed.

Section Fields.
  Context (s : AuditEntry string) (k : string).

Lemma dec_str_field n get v : field_named str_fields k = Some (n, get) ->
  dec_entry_field s k (JStr v) = Ok (entry_with s n v [] 0).
Proof. intros H. unfold dec_entry_field. by rewrite H. Qed.

Lemma dec_strs_field n get l : field_named str_fields k = None -> field_named strs_fields k = Some (n, get) ->
  get s = [] -> dec_entry_field s k (JArr (map JStr l)) = Ok (entry_with s n "" l 0).
Proof. intros H1 H2 H3. unfold dec_entry_field. rewrite H1, H2, H3. cbn. by rewrite dec_strings_map. Qed.

Lemma dec_int_field n get z : field_named str_fields k = None -> field_named strs_fields k = None ->
  field_named int_fields k = Some (n, get) -> 0 <= z <= int64_max ->
  dec_entry_field s k (JNum (int_lit z)) = Ok (entry_with s n "" [] z).
Proof. intros H1 H2 H3 Hz. unfold dec_entry_field. rewrite H1, H2, H3. cbn. by rewrite int_lit_int64. Qed.

Lemma dec_uint_field n get z : field_named str_fields k = None -> field_named strs_fields k = None ->
  field_named int_fields k = None -> field_named uint_fields k = Some (n, get) -> 0 <= z < 2 ^ 64 ->
  dec_entry_field s k (JNum (int_lit z)) = Ok (entry_with s n "" [] z).
Proof.
  intros H1 H2 H3 H4 Hz. unfold dec_entry_field. rewrite H1, H2, H3, H4. cbn -[Z.pow].
  rewrite int_lit_value by lia. by rewrite (proj2 (Z.ltb_lt z _)) by lia.
Qed.
End Fields.

(** An entry the log can hold as it is: texts of valid UTF-8 (JSON replaces
    other bytes by U+FFFD), counts in range. *)
Definition entry_texts (e : AuditEntry string) : list string :=
  [AETime e; AEAction e; AESrcIP e; AEClientCN e; AEClientSerial e; AEMapping e; AETarget e; AETargetID e;
   AEDuration e; AEDenyReason e; AETraceId e; AESessionId e; AEGatewayId e; AEProtocol e; AEAgentId e; AESPIFFEID e;
   AEPrincipalUid e; AEDecision e; AELevel e; AEDaHash e; AEAICFingerprint e; AERecordDigest e]
  ++ AERoles e ++ AECapabilities e.
Definition count (z : Z) : Prop := 0 <= z <= int64_max.
Definition counts_ok (e : AuditEntry string) : Prop :=
  count (AEBytesIn e) /\ count (AEBytesOut e) /\ count (AEDelegationMode e) /\ 0 <= AEPolicyVersion e < 2 ^ 64.

(** One member read: the entry after it, from the entry before. *)
Ltac absent := let H := fresh in intros H;
  first [apply String.eqb_eq in H | apply zlen_eqb_nil in H | apply Z.eqb_eq in H]; subst; reflexivity.
Ltac read_member dec_lemma s' :=
  first [ refine (eq_trans (member_step dec_entry_field _ s' _ _ _ _) _);
            [etransitivity; [eapply dec_lemma; (reflexivity || assumption)|reflexivity]|]
        | refine (eq_trans (omit_step dec_entry_field _ s' _ _ _ _ _ _) _);
            [etransitivity; [eapply dec_lemma; (reflexivity || assumption)|reflexivity]|absent|] ].

Lemma entry_decodes e : counts_ok e -> dec_struct dec_entry_field (zero_entry "") (entry_json e) = Ok e.
Proof.
  destruct e as [t a ip cn se ro ma ta ti du de bi bo tr ss gw pr ag sp pu dm dc ca le dh af pv rd].
  unfold counts_ok, count. cbn [AEBytesIn AEBytesOut AEDelegationMode AEPolicyVersion]. intros (H1 & H2 & H3 & H4).
  unfold entry_json, entry_members, omit_str, omit_int, omit_strs, dec_struct, zero_entry.
  cbn [AETime AEAction AESrcIP AEClientCN AEClientSerial AERoles AEMapping AETarget AETargetID AEDuration
       AEDenyReason AEBytesIn AEBytesOut AETraceId AESessionId AEGatewayId AEProtocol AEAgentId AESPIFFEID
       AEPrincipalUid AEDelegationMode AEDecision AECapabilities AELevel AEDaHash AEAICFingerprint AEPolicyVersion
       AERecordDigest].
  repeat lazymatch goal with
  | |- foldl _ (Ok ?s) ((?k, JStr ?v) :: _) = _ =>
      let s' := eval vm_compute in (entry_with s k v [] 0) in read_member dec_str_field s'
  | |- foldl _ (Ok ?s) (omit _ ?k (JStr ?v) ++ _) = _ =>
      let s' := eval vm_compute in (entry_with s k v [] 0) in read_member dec_str_field s'
  | |- foldl _ (Ok ?s) (omit _ ?k (JArr (map JStr ?l)) ++ _) = _ =>
      let s' := eval vm_compute in (entry_with s k "" l 0) in read_member dec_strs_field s'
  | |- foldl _ (Ok ?s) (omit _ ?k (JNum (int_lit ?z)) ++ _) = _ =>
      let s' := eval vm_compute in (entry_with s k "" [] z) in
      first [read_member dec_int_field s' | read_member dec_uint_field s']
  end.
  reflexivity.
Qed.

(** ** Lines and files *)
Record entry_ok (e : AuditEntry string) : Prop := {
  ok_texts : Forall (fun s => utf8_text s = true) (entry_texts e);
  ok_counts : counts_ok e
}.

Lemma omit_clean b k v ms : utf8_text k = true -> clean v = true -> clean (JObj ms) = true ->
  clean (JObj (omit b k v ++ ms)) = true.
Proof. intros Hk Hv Hm. destruct b; [done|]. cbn in *. by rewrite Hk, Hv. Qed.

Lemma member_clean k v ms : utf8_text k = true -> clean v = true -> clean (JObj ms) = true ->
  clean (JObj ((k, v) :: ms)) = true.
Proof. apply (omit_clean false). Qed.

Lemma strs_clean l : Forall (fun s => utf8_text s = true) l -> clean (JArr (map JStr l)) = true.
Proof. induction 1 as [|s l H _ IH]; [done|]. cbn in *. by rewrite H. Qed.

Lemma entry_clean e : entry_ok e -> clean (entry_json e) = true.
Proof.
  intros [Ht (C1 & C2 & C3 & C4)]. unfold entry_texts in Ht. apply Forall_app in Ht as [Ht Hl].
  apply Forall_app in Hl as [Hr Hc]. unfold count in *. repeat (apply Forall_cons in Ht as [? Ht]). unfold entry_json, entry_members, omit_str, omit_strs, omit_int.
  repeat first [ apply member_clean; [reflexivity|assumption|]
               | apply omit_clean; [reflexivity|first [assumption|by apply strs_clean|apply int_lit_uint; lia]|] ].
  reflexivity.
Qed.

Lemma signed_clean tsa at_ e : entry_ok e -> clean (signed_json (sign_entry tsa at_ e)) = true.
Proof.
  intros H. unfold signed_json. apply member_clean; [reflexivity|by apply entry_clean|].
  rewrite <- (app_nil_r (omit_str _ _)). apply omit_clean; [reflexivity| |reflexivity].
  unfold sign_entry. cbn. destruct tsa as [t|]; [|reflexivity]. destruct (tsa_sign t _ _); [|reflexivity].
  apply EncodeBase64_text.
Qed.

Lemma depth_obj n ms : Forall (fun m => (depth m.2 <= n)%nat) ms -> (depth (JObj ms) <= S n)%nat.
Proof.
  intros H. cbn. apply le_n_S. apply list_max_le. apply Forall_map. eapply Forall_impl; [exact H|]. by intros [k v].
Qed.

Lemma omit_depth b k v n ms : (depth v <= n)%nat -> Forall (fun m => (depth m.2 <= n)%nat) ms ->
  Forall (fun m : string * json => (depth m.2 <= n)%nat) (omit b k v ++ ms).
Proof. intros. destruct b; [done|]. by constructor. Qed.

Lemma entry_depth e : (depth (entry_json e) <= 2)%nat.
Proof.
  assert (forall l, (depth (JArr (map JStr l)) <= 1)%nat) as Hs.
  { intros l. cbn. apply le_n_S, list_max_le. rewrite map_map. apply Forall_map. apply Forall_true. intros s. cbn. lia. }
  apply depth_obj. unfold entry_members, omit_str, omit_strs, omit_int.
  repeat first [ apply Forall_cons_2; [cbn; lia|] | apply omit_depth; [first [apply Hs | cbn; lia]|] ].
  constructor.
Qed.

Lemma max_depth_ge n : Z.of_nat n <= 10000 -> (n <= max_depth)%nat.
Proof. intros H. unfold max_depth. apply Nat2Z.inj_le. by rewrite Z2Nat.id. Qed.

Lemma signed_depth s : (depth (signed_json s) <= max_depth)%nat.
Proof.
  transitivity 3%nat; [apply (depth_obj 2)|apply max_depth_ge; done].
  constructor; [apply entry_depth|]. rewrite <- (app_nil_r (omit_str _ _)). apply omit_depth; [cbn; lia|constructor].
Qed.

Lemma signed_decodes s : counts_ok (SEntry s) -> dec_signed (signed_json s) = Ok s.
Proof.
  intros H. unfold dec_signed, signed_json. unfold dec_struct at 1. cbn [foldl].
  change (field_is "entry" "entry") with true. cbv iota.
  pose proof (entry_decodes _ H) as He. destruct s as [e tst]. cbn [SEntry TST] in *.
  change (Ok _ ≫= ?f) with (f {| SEntry := zero_entry ""; TST := "" |}). cbv beta. cbn [SEntry TST]. rewrite He.
  unfold omit_str, omit. destruct (String.eqb_spec tst "") as [->|]; done.
Qed.

Lemma parse_line_unmarshal line s : parse_line line = Some s <-> unmarshal dec_signed line = Ok s.
Proof. unfold parse_line. destruct (unmarshal dec_signed line); split; by intros [= ->]. Qed.

Lemma VerifyAuditEntry_signed line tsa s : parse_line line = Some s ->
  VerifyAuditEntry line tsa =
  if String.eqb (TST s) "" then None
  else match DecodeBase64 (TST s) with
  | Err err => Some (Errorf "decode TST: %w" [AWrap err])
  | Ok der => match tsa_verify tsa (ascii_bytes (json_encode (entry_json (SEntry s)))) der with
              | Some err => Some (Errorf "TSA verification failed: %w" [AWrap err])
              | None => None end
  end.
Proof. intros H. apply parse_line_unmarshal in H. unfold VerifyAuditEntry. by rewrite H. Qed.

(** What the log holds of an entry is read back, with its token. *)
Lemma audit_line_parses tsa at_ e : entry_ok e -> parse_line (audit_line tsa at_ e) = Some (sign_entry tsa at_ e).
Proof.
  intros H. unfold parse_line, unmarshal, audit_line.
  rewrite json_round_trip by (apply signed_clean, H || apply signed_depth).
  rewrite signed_decodes; [done|]. apply H.
Qed.

Lemma audit_line_good tsa at_ e : entry_ok e -> slen (audit_line tsa at_ e) < max_token -> good_line (audit_line tsa at_ e).
Proof. intros H Hl. apply object_line; [|exact Hl]. exact (signed_clean tsa at_ e H). Qed.

Lemma audit_line_written tsa at_ e t : entry_ok e -> slen (audit_line tsa at_ e) < max_token ->
  parse_rfc3339 (AETime e) = Some t -> written_line (audit_line tsa at_ e) t.
Proof.
  intros H Hl Ht. destruct (audit_line_good tsa at_ e H Hl) as (H1 & H2 & H3 & H4 & H5). repeat split; try done.
  unfold line_time. by rewrite audit_line_parses.
Qed.

(** Whether an entry passes a filter. *)
Definition passes (f : AuditFilter) (e : AuditEntry string) : bool :=
  (String.eqb (FAction f) "" || String.eqb (AEAction e) (FAction f)) &&
  match parse_rfc3339 (AETime e) with
  | None => false
  | Some t => (IsZero (Since f) || (Since f <=? t)) && (IsZero (Until f) || (t <=? Until f))
  end &&
  (String.eqb (FClientCN f) "" || String.eqb (AEClientCN e) (FClientCN f)) &&
  (String.eqb (FSerial f) "" || String.eqb (AEClientSerial e) (FSerial f)) &&
  (String.eqb (FMapping f) "" || String.eqb (AEMapping e) (FMapping f)).

Lemma line_entry_passes f line s : parse_line line = Some s ->
  line_entry f line = if passes f (SEntry s) then Some (SEntry s) else None.
Proof.
  intros H. unfold line_entry, passes. rewrite H.
  destruct (String.eqb (FAction f) ""), (String.eqb (AEAction (SEntry s)) (FAction f)); cbn [negb andb orb]; try done;
  (destruct (parse_rfc3339 (AETime (SEntry s))) as [t|]; [|done]); unfold Before, After; rewrite !Z.ltb_antisym;
  destruct (IsZero (Since f)), (Since f <=? t), (IsZero (Until f)), (t <=? Until f); cbn [negb andb orb]; try done;
  destruct (String.eqb (FClientCN f) ""), (String.eqb (AEClientCN (SEntry s)) (FClientCN f)); cbn [negb andb orb]; try done;
  destruct (String.eqb (FSerial f) ""), (String.eqb (AEClientSerial (SEntry s)) (FSerial f)); cbn [negb andb orb]; try done;
  destruct (String.eqb (FMapping f) ""), (String.eqb (AEMapping (SEntry s)) (FMapping f)); done.
Qed.

(** Entries logged one after the other, each at its instant. *)
Definition log_call : Type := Time * AuditEntry string.
Definition call_line (tsa : option tsa_service) (c : log_call) : string := audit_line tsa c.1 c.2.
Definition log_all (tsa : option tsa_service) (r : RotatingFile) (fs : files) (cs : list log_call)
  : RotatingFile * files := foldl (fun '(r, fs) (c : log_call) => logSync no_failure tsa c.1 r fs c.2) (r, fs) cs.

Lemma slen_line line rest : slen (line +:+ String nl "") + slen rest = slen (line +:+ String nl rest).
Proof. unfold slen. rewrite !slength_app. cbn. lia. Qed.

(** A line appended to an open file that has room for it. *)
Lemma append_line r fs line : file_ok r fs -> rsize r + slen (line +:+ String nl "") <= maxSize r ->
  exists r' fs', Write no_failure r fs (line +:+ String nl "") = (None, r', fs') /\
    file_ok r' fs' /\ rpath r' = rpath r /\ maxSize r' = maxSize r /\
    rsize r' = rsize r + slen (line +:+ String nl "") /\
    fs' !! rpath r = Some (default "" (fs !! rpath r) +:+ line +:+ String nl "").
Proof.
  intros [Ho Hs] Hsz. unfold Write. rewrite (proj2 (Z.ltb_ge (maxSize r) _)) by lia. rewrite Ho.
  cbn [negb short_write no_failure]. rewrite stake_all. eexists _, _. split; [reflexivity|].
  unfold file_ok. cbn [rsize rpath is_open maxSize]. rewrite lookup_insert_eq. repeat split; try done.
  rewrite Hs. change (default "" (Some ?x)) with x. unfold slen. rewrite (slength_app (default _ _)). lia.
Qed.

Lemma log_all_text tsa r fs cs :
  file_ok r fs -> rsize r + slen (unlines (map (call_line tsa) cs)) <= maxSize r ->
  let '(r', fs') := log_all tsa r fs cs in
  rpath r' = rpath r /\ default "" (fs' !! rpath r) = default "" (fs !! rpath r) +:+ unlines (map (call_line tsa) cs) /\
  (cs <> [] -> is_Some (fs' !! rpath r)).
Proof.
  unfold log_all. revert r fs. induction cs as [|c cs IH]; intros r fs Hok Hsz.
  { cbn. by rewrite sapp_nil_r. }
  cbn [foldl]. cbn [map unlines] in Hsz. pose proof (slen_line (call_line tsa c) (unlines (map (call_line tsa) cs))) as Hlen.
  assert (0 <= slen (unlines (map (call_line tsa) cs))) by (unfold slen; lia).
  destruct (append_line r fs (call_line tsa c) Hok) as (r1 & fs1 & Hw & Hok1 & Hp1 & Hm1 & Hs1 & Ht1); [lia|].
  assert (logSync no_failure tsa c.1 r fs c.2 = (r1, fs1)) as -> by (unfold logSync; fold (call_line tsa c); by rewrite Hw).
  specialize (IH r1 fs1 Hok1).
  destruct (foldl _ (r1, fs1) cs) as [r' fs'] eqn:Ef. destruct IH as (Hp & Ht & Hne); [lia|]. rewrite Hp1 in *.
  split; [done|]. split.
  - rewrite Ht, Ht1. change (default "" (Some ?x)) with x. cbn [map unlines]. by rewrite !sapp_assoc.
  - intros _. destruct cs as [|c' cs]; [|by apply Hne]. cbn [foldl] in Ef. injection Ef as <- <-. by rewrite Ht1.
Qed.

Lemma omap_if {A B C} (g : A -> B) (h : A -> C) (sel : B -> option C) (p : C -> bool) l :
  Forall (fun a => sel (g a) = if p (h a) then Some (h a) else None) l ->
  omap sel (map g l) = List.filter p (map h l).
Proof. induction 1 as [|a l H _ IH]; [done|]. cbn. rewrite H, <- IH. by destruct (p (h a)). Qed.

(** A call whose line can be read back at its place: the entry is of valid UTF-8
    and its counters are not negative, its time is that of RFC 3339, and its
    line is shorter than the reader's limit of 1 MiB. *)
Definition readable (tsa : option tsa_service) (c : log_call) (t : Time) : Prop :=
  entry_ok c.2 /\ slen (call_line tsa c) < max_token /\ parse_rfc3339 (AETime c.2) = Some t.

Lemma readable_written tsa cs ts : Forall2 (readable tsa) cs ts -> Forall2 written_line (map (call_line tsa) cs) ts.
Proof.
  induction 1 as [|c t cs ts (H1 & H2 & H3) _ IH]; [constructor|].
  constructor; [exact (audit_line_written tsa c.1 c.2 t H1 H2 H3)|exact IH].
Qed.

Lemma readable_selected tsa cs ts f : Forall2 (readable tsa) cs ts ->
  omap (selected (line_entry f)) (map (call_line tsa) cs) = List.filter (passes f) (map snd cs).
Proof.
  intros H. transitivity (omap (line_entry f) (map (call_line tsa) cs)).
  - pose proof (readable_written tsa cs ts H) as Hw. clear H. induction Hw as [|s t l ts Hl _ IH]; [done|]. cbn.
    rewrite (written_selected _ s t Hl). by destruct (line_entry f s); rewrite IH.
  - apply (omap_if (call_line tsa) snd (line_entry f) (passes f)).
    induction H as [|c t cs ts (H1 & _ & _) _ IH]; constructor; [|exact IH].
    exact (line_entry_passes f _ _ (audit_line_parses tsa c.1 c.2 H1)).
Qed.

(** * Properties *)

(** C28: what was logged is what is read: entries written one after the other to
    a fresh open log, in the order of their times, are what a forward read
    returns, unchanged and in order: all that pass the filter, past the offset
    and up to the limit.  This is so with or without a timestamp authority,
    whatever it answers to each call, under the conditions the log itself sets:
    the texts of an entry are valid UTF-8 (JSON would replace other bytes), its
    counters are not negative, its line is below 1 MiB (the reader gives up on
    longer ones), no write fails, and all lines fit the file before a
    rotation. *)
Theorem logged_entries_read_back tsa r fs cs ts f
    (Hok : file_ok r fs) (Hnew : default "" (fs !! rpath r) = "") (Hne : cs <> [])
    (Hsz : slen (unlines (map (call_line tsa) cs)) <= maxSize r)
    (Hcs : Forall2 (readable tsa) cs ts) (Ho : ordered ts) (Hs : Sort f <> sortDesc) :
  let '(r', fs') := log_all tsa r fs cs in
  ReadAuditEntries (fs' !! rpath r') f = Ok (window (Limit f) (Offset f) (List.filter (passes f) (map snd cs)), None).
Proof.
  pose proof (log_all_text tsa r fs cs Hok) as H. destruct (log_all tsa r fs cs) as [r' fs'].
  destruct H as (-> & Ht & Hsome).
  { destruct Hok as [_ ->]. rewrite Hnew. exact Hsz. }
  rewrite Hnew in Ht. destruct (Hsome Hne) as [text Htext]. rewrite Htext in *. cbn in Ht. subst text.
  rewrite (forward_read _ ts f (readable_written tsa cs ts Hcs) Ho Hs). by rewrite (readable_selected tsa cs ts f Hcs).
Qed.

(** The timestamp of a logged entry is checked over the entry itself: a line
    the logger wrote with a token verifies exactly when the authority verifies
    that token for the entry's own text; and no line verifies against a token
    it holds for another text. *)
Theorem logged_token_verified tsa at_ e tst (He : entry_ok e)
    (Hs : tsa_sign tsa at_ (ascii_bytes (json_encode (entry_json e))) = Some tst) (Hne : tst <> []) :
  (VerifyAuditEntry (audit_line (Some tsa) at_ e) tsa = None <->
   tsa_verify tsa (ascii_bytes (json_encode (entry_json e))) tst = None) /\
  (forall line s, parse_line line = Some s -> TST s <> "" ->
     VerifyAuditEntry line tsa = None -> exists der, DecodeBase64 (TST s) = Ok der /\
       tsa_verify tsa (ascii_bytes (json_encode (entry_json (SEntry s)))) der = None).
Proof.
  split.
  - rewrite (VerifyAuditEntry_signed _ tsa _ (audit_line_parses (Some tsa) at_ e He)).
    unfold sign_entry. cbn [TST SEntry]. rewrite Hs, base64_round_trip.
    destruct (String.eqb_spec (EncodeBase64 tst) "") as [E|_]; [by destruct tst as [|? [|? [|? ?]]]|].
    by destruct (tsa_verify _ _ tst).
  - intros line s Hl Ht. rewrite (VerifyAuditEntry_signed line tsa s Hl).
    apply String.eqb_neq in Ht. rewrite Ht. destruct (DecodeBase64 (TST s)) as [der|]; [|done].
    destruct (tsa_verify _ _ der) eqn:Ev; [done|]. intros _. by exists der.
Qed.

(** A line whose token was removed is accepted. *)
Theorem stripped_token_accepted tsa at_ e (He : entry_ok e) : VerifyAuditEntry (audit_line None at_ e) tsa = None.
Proof.
  by rewrite (VerifyAuditEntry_signed _ tsa _ (audit_line_parses None at_ e He)).
Qed.

(** * Concrete instances *)
Section Witnesses.
(** The authority is late at the instant 0. *)
Definition toy_tsa : tsa_service := {|
  tsa_sign := fun at_ m => if at_ =? 0 then None else Some (take 4 (Sum256 m));
  tsa_verify := fun m tst => if bool_decide (take 4 (Sum256 m) = tst) then None else Some (ErrNew "tsa") |}.
#[local] Existing Instance sha256.
Definition toy_entry (time action : string) (bytes : Z) : AuditEntry string :=
  let z := zero_entry "" in {|
  AETime := time; AEAction := action; AESrcIP := "10.0.0.1"; AEClientCN := "bot"; AEClientSerial := "01";
  AERoles := ["reader"; "writer"]; AEMapping := "web"; AETarget := dq "it's <b>"; AETargetID := ""; AEDuration := "";
  AEDenyReason := if String.eqb action "denied" then "no" else ""; AEBytesIn := bytes; AEBytesOut := 0;
  AETraceId := ""; AESessionId := ""; AEGatewayId := ""; AEProtocol := ""; AEAgentId := ""; AESPIFFEID := "";
  AEPrincipalUid := ""; AEDelegationMode := 1; AEDecision := ""; AECapabilities := []; AELevel := "";
  AEDaHash := ""; AEAICFingerprint := ""; AEPolicyVersion := 0; AERecordDigest := "" |}.

Lemma toy_entry_ok time action bytes : utf8_text time = true -> utf8_text action = true -> 0 <= bytes < 1000 ->
  entry_ok (toy_entry time action bytes).
Proof.
  intros Ht Ha Hb. split.
  - unfold toy_entry, entry_texts. cbn -[utf8_text]. repeat constructor; try done. by destruct (String.eqb action "denied").
  - repeat split; cbn; unfold int64_max; try lia.
Qed.

Definition e1 : AuditEntry string := toy_entry "2024-01-01T00:00:01Z" "connected" 7.
Definition e2 : AuditEntry string := toy_entry "2024-01-01T00:00:02Z" "denied" 120.

Example e1_line : json_encode (entry_json e1) = dq
  ("{'time':'2024-01-01T00:00:01Z','action':'connected','src_ip':'10.0.0.1','client_cn':'bot','client_serial':'01',"
   +:+ "'roles':['reader','writer'],'mapping':'web','target':'it\'s \u003cb\u003e','bytes_in':7,'delegation_mode':1}").
Proof. vm_compute. reflexivity. Qed.

Definition fresh_log : RotatingFile * files := NewRotatingFile "a" 4096 2 ∅.
Definition denials : AuditFilter := {|
  Since := 1704067201 * Second; Until := zero_time; Limit := 5; Offset := 0; Sort := ""; FAction := "denied";
  FClientCN := ""; FSerial := ""; FMapping := "web" |}.

Lemma logged_entries_read_back_witness :
  let '(r', fs') := log_all (Some toy_tsa) fresh_log.1 fresh_log.2 [(1, e1); (0, e1); (2, e2)] in
  ReadAuditEntries (fs' !! rpath r') denials = Ok (window 5 0 [e2], None).
Proof.
  refine (logged_entries_read_back (Some toy_tsa) fresh_log.1 fresh_log.2 [(1, e1); (0, e1); (2, e2)]
    [1704067201 * Second; 1704067201 * Second; 1704067202 * Second] denials _ _ _ _ _ _ _).
  - split; vm_compute; reflexivity.
  - vm_compute. reflexivity.
  - done.
  - apply Z.leb_le. vm_compute. reflexivity.
  - repeat constructor; try (apply toy_entry_ok; [vm_compute; reflexivity..|lia]);
      try (apply Z.ltb_lt; vm_compute; reflexivity); vm_compute; reflexivity.
  - intros i j ti tj Hij Hi Hj. destruct i as [|[|[|i]]], j as [|[|[|j]]]; try done; try lia;
      cbn in Hi, Hj; injection Hi as <-; injection Hj as <-; vm_compute; discriminate.
  - done.
Defined.

Lemma logged_token_verified_witness : VerifyAuditEntry (audit_line (Some toy_tsa) 1 e1) toy_tsa = None.
Proof.
  refine (proj2 (proj1 (logged_token_verified toy_tsa 1 e1 (take 4 (Sum256 (ascii_bytes (json_encode (entry_json e1)))))
    _ _ _)) _).
  - apply toy_entry_ok; [vm_compute; reflexivity..|lia].
  - reflexivity.
  - vm_compute. discriminate.
  - vm_compute. reflexivity.
Defined.

Lemma stripped_token_accepted_witness : VerifyAuditEntry (audit_line None 0 e1) toy_tsa = None.
Proof. apply stripped_token_accepted. apply toy_entry_ok; [vm_compute; reflexivity..|lia]. Defined.
End Witnesses.
