(* ===== verification/Der.v ===== *)
(** The part of [encoding/asn1] the timestamp client reads and writes with: tags
    and lengths, raw values, integers, booleans, object identifiers, and the
    fields of a structure, optional or not. *)
From stdpp Require Import sorting.
From S2P Require Import Prelude GoStrings.
Local Open Scope string_scope.
Local Open Scope Z_scope.
Local Open Scope list_scope.

(** * Definitions *)
Abbreviation OID := (list Z).

Record tagAndLength := { hClass : Z; hTag : Z; hLength : Z; hCompound : bool }.
Record RawValue := { rvClass : Z; rvTag : Z; IsCompound : bool; Bytes : bytes; FullBytes : bytes }.
Definition no_raw : RawValue := {| rvClass := 0; rvTag := 0; IsCompound := false; Bytes := []; FullBytes := [] |}.

Definition TagBoolean : Z := 1.
Definition TagInteger : Z := 2.
Definition TagOctetString : Z := 4.
Definition TagOID : Z := 6.
Definition TagSequence : Z := 16.
Definition TagSet : Z := 17.
Definition TagUTCTime : Z := 23.
Definition TagGeneralizedTime : Z := 24.

Definition SyntaxError (msg : string) : error := ErrNew ("asn1: syntax error: " +:+ msg).
Definition StructuralError (msg : string) : error := ErrNew ("asn1: structure error: " +:+ msg).

(** An integer in base 128, and what follows it. *)
Fixpoint base128 (shifted : nat) (acc : Z) (b : bytes) : result (Z * bytes) :=
  match b with
  | [] => Err (SyntaxError "truncated base 128 integer")
  | x :: b' =>
      if (shifted =? 5)%nat then Err (StructuralError "base 128 integer too large")
      else if (shifted =? 0)%nat && (byte_z x =? 128) then Err (SyntaxError "integer is not minimally encoded")
      else
        let acc := acc * 128 + byte_z x mod 128 in
        if byte_z x <? 128 then
          if 2 ^ 31 - 1 <? acc then Err (StructuralError "base 128 integer too large") else Ok (acc, b')
        else base128 (S shifted) acc b'
  end.

(** The length in [n] more bytes. *)
Fixpoint long_length (n : nat) (acc : Z) (b : bytes) : result (Z * bytes) :=
  match n with
  | O => if acc <? 128 then Err (StructuralError "non-minimal length") else Ok (acc, b)
  | S n' =>
      match b with
      | [] => Err (SyntaxError "truncated tag or length")
      | x :: b' =>
          if 2 ^ 23 <=? acc then Err (StructuralError "length too large")
          else
            let acc := acc * 256 + byte_z x in
            if acc =? 0 then Err (StructuralError "superfluous leading zeros in length") else long_length n' acc b'
      end
  end.

(** [parseTagAndLength] *)
Definition parseTagAndLength (b : bytes) : result (tagAndLength * bytes) :=
  match b with
  | [] => Err (ErrNew "asn1: internal error in parseTagAndLength")
  | x :: b =>
      let v := byte_z x in
      '(tag, b) ← (if v mod 32 =? 31 then
                     '(t, b) ← base128 0 0 b;
                     if t <? 31 then Err (SyntaxError "non-minimal tag") else Ok (t, b)
                   else Ok (v mod 32, b));
      match b with
      | [] => Err (SyntaxError "truncated tag or length")
      | y :: b =>
          '(len, b) ← (if byte_z y <? 128 then Ok (byte_z y, b)
                       else if byte_z y =? 128 then Err (SyntaxError "indefinite length found (not DER)")
                       else long_length (Z.to_nat (byte_z y - 128)) 0 b);
          Ok ({| hClass := v / 64; hTag := tag; hLength := len; hCompound := negb (v / 32 mod 2 =? 0) |}, b)
      end
  end.

(** The first [n] bytes and the rest. *)
Definition take_bytes (n : Z) (b : bytes) : result (bytes * bytes) :=
  if zlen b <? n then Err (SyntaxError "data truncated") else Ok (take (Z.to_nat n) b, drop (Z.to_nat n) b).

(** [asn1.Unmarshal] into a [RawValue], and the rest. *)
Definition element (b : bytes) : result (RawValue * bytes) :=
  match b with
  | [] => Err (SyntaxError "sequence truncated")
  | _ =>
      '(h, b1) ← parseTagAndLength b;
      '(inner, b2) ← take_bytes (hLength h) b1;
      Ok ({| rvClass := hClass h; rvTag := hTag h; IsCompound := hCompound h; Bytes := inner;
             FullBytes := take (length b - length b2)%nat b |}, b2)
  end.

(** A field of a universal type: its tag and whether it is constructed; an
    optional field that is absent has its default. *)
Definition field {A} (tag : Z) (compound : bool) (optional : option A) (dec : bytes -> result A) (b : bytes)
  : result (A * bytes) :=
  match b with
  | [] => match optional with Some d => Ok (d, []) | None => Err (SyntaxError "sequence truncated") end
  | _ =>
      '(h, b1) ← parseTagAndLength b;
      if (hClass h =? 0) && (hTag h =? tag) && Bool.eqb (hCompound h) compound then
        '(inner, b2) ← take_bytes (hLength h) b1; x ← dec inner; Ok (x, b2)
      else match optional with Some d => Ok (d, b) | None => Err (StructuralError "tags don't match") end
  end.

(** A [RawValue] field with an explicit tag 0: the wrapper itself. *)
Definition explicit_raw (optional : bool) (b : bytes) : result (RawValue * bytes) :=
  match b with
  | [] => if optional then Ok (no_raw, []) else Err (SyntaxError "sequence truncated")
  | _ =>
      '(h, b1) ← parseTagAndLength b;
      match b1 with
      | [] => Err (StructuralError "explicit tag has no child")
      | _ =>
          if (hClass h =? 2) && (hTag h =? 0) && ((hLength h =? 0) || hCompound h) then element b
          else if optional then Ok (no_raw, b) else Err (StructuralError "explicitly tagged member didn't match")
      end
  end.

(** Integers. *)
Definition bytes_value (b : bytes) : Z := foldl (fun acc x => acc * 256 + byte_z x) 0 b.
Definition minimal_integer (b : bytes) : result Z :=
  match b with
  | [] => Err (StructuralError "empty integer")
  | x :: b' =>
      let v := bytes_value b in
      let v := if 128 <=? byte_z x then v - 2 ^ (8 * zlen b) else v in
      match b' with
      | [] => Ok v
      | y :: _ =>
          if ((byte_z x =? 0) && (byte_z y <? 128)) || ((byte_z x =? 255) && (128 <=? byte_z y)) then
            Err (StructuralError "integer not minimally-encoded")
          else Ok v
      end
  end.
Definition parseInt64 (b : bytes) : result Z :=
  v ← minimal_integer b; if 8 <? zlen b then Err (StructuralError "integer too large") else Ok v.
Definition parseBool (b : bytes) : result bool :=
  match b with
  | [x] => if byte_z x =? 0 then Ok false else if byte_z x =? 255 then Ok true
           else Err (SyntaxError "invalid boolean")
  | _ => Err (SyntaxError "invalid boolean")
  end.

(** Object identifiers. *)
Fixpoint oid_arcs (fuel : nat) (b : bytes) : result OID :=
  match fuel, b with
  | O, _ | _, [] => Ok []
  | S f, _ => '(v, b) ← base128 0 0 b; l ← oid_arcs f b; Ok (v :: l)
  end.
Definition parseObjectIdentifier (b : bytes) : result OID :=
  match b with
  | [] => Err (SyntaxError "zero length OBJECT IDENTIFIER")
  | _ =>
      '(v, r) ← base128 0 0 b;
      l ← oid_arcs (length r) r;
      Ok (if v <? 80 then v / 40 :: v mod 40 :: l else 2 :: (v - 80) :: l)
  end.

Definition int_field : bytes -> result (Z * bytes) := field TagInteger false None parseInt64.
Definition oid_field : bytes -> result (OID * bytes) := field TagOID false None parseObjectIdentifier.
(** A structure in a SEQUENCE; what follows the fields in it is not read. *)
Definition sequence_field {A} (dec : bytes -> result A) : bytes -> result (A * bytes) := field TagSequence true None dec.
Definition octets_field : bytes -> result (bytes * bytes) := field TagOctetString false None Ok.

(** The elements of a sequence of raw values. *)
Fixpoint elements (fuel : nat) (b : bytes) : result (list RawValue) :=
  match fuel, b with
  | O, _ | _, [] => Ok []
  | S f, _ => '(v, b) ← element b; l ← elements f b; Ok (v :: l)
  end.

(** ** Writing *)

(** The bytes of a number, most significant first. *)
Fixpoint be_bytes (fuel : nat) (n : Z) (acc : bytes) : bytes :=
  match fuel with
  | O => acc
  | S f => if n =? 0 then acc else be_bytes f (n / 256) (z_byte (n mod 256) :: acc)
  end.
Definition length_bytes (n : Z) : bytes :=
  if n <? 128 then [z_byte n] else let l := be_bytes 8 n [] in z_byte (128 + zlen l) :: l.
(** A value with a tag below 31. *)
Definition tlv (first : Z) (content : bytes) : bytes := z_byte first :: length_bytes (zlen content) ++ content.

Fixpoint base128_bytes (fuel : nat) (n : Z) (acc : bytes) : bytes :=
  match fuel with
  | O => acc
  | S f => let acc := z_byte ((match acc with [] => 0 | _ => 128 end) + n mod 128) :: acc in
           if n / 128 =? 0 then acc else base128_bytes f (n / 128) acc
  end.
Definition oid_bytes (oid : OID) : result bytes :=
  match oid with
  | a :: b :: l =>
      if (2 <? a) || ((a <? 2) && (40 <=? b)) then Err (StructuralError "invalid object identifier")
      else Ok (base128_bytes 10 (a * 40 + b) [] ++ concat (map (fun n => base128_bytes 10 n []) l))
  | _ => Err (StructuralError "invalid object identifier")
  end.

(** [bytes.Compare] as an order, and the elements of a SET OF in it. *)
Fixpoint bytes_le (a b : bytes) : bool :=
  match a, b with
  | [], _ => true
  | _, [] => false
  | x :: a', y :: b' => if byte_z x =? byte_z y then bytes_le a' b' else byte_z x <? byte_z y
  end.
Definition ble (a b : bytes) : Prop := bytes_le a b = true.
#[export] Instance ble_dec : RelDecision ble := fun a b => decide (bytes_le a b = true).
Definition set_of (l : list bytes) : bytes := concat (merge_sort ble l).

(** * Facts *)
Lemma take_bytes_Ok n b x r : take_bytes n b = Ok (x, r) -> b = x ++ r /\ (0 <= n -> zlen x = n).
Proof.
  unfold take_bytes. destruct (Z.ltb_spec (zlen b) n); [done|]. intros [= <- <-]. split; [by rewrite take_drop|].
  intros Hn. unfold zlen in *. rewrite length_take. lia.
Qed.

Lemma take_bytes_app x r : take_bytes (zlen x) (x ++ r) = Ok (x, r).
Proof.
  unfold take_bytes. rewrite (proj2 (Z.ltb_ge _ _)) by (rewrite zlen_app; pose proof (zlen_nonneg r); lia).
  unfold zlen. by rewrite Nat2Z.id, take_app_length, drop_app_length.
Qed.

Abbreviation acc_value := (foldl (fun a x => a * 256 + byte_z x)).

Lemma acc_value_ge l a : 0 <= a -> a <= acc_value a l.
Proof.
  revert a. induction l as [|x l IH]; intros a Ha; [done|]. cbn. pose proof (byte_z_range x).
  specialize (IH (a * 256 + byte_z x)). lia.
Qed.

Lemma long_length_app l a r : 0 <= a -> (a = 0 -> match l with x :: _ => byte_z x <> 0 | [] => True end) ->
  128 <= acc_value a l < 2 ^ 31 -> long_length (length l) a (l ++ r) = Ok (acc_value a l, r).
Proof.
  revert a. induction l as [|x l IH]; intros a Ha Hz Hv; cbn [length long_length app foldl] in *.
  - by rewrite (proj2 (Z.ltb_ge a 128)) by lia.
  - pose proof (byte_z_range x) as Hx. pose proof (acc_value_ge l (a * 256 + byte_z x) ltac:(lia)).
    rewrite (proj2 (Z.leb_gt _ _)) by (change (2 ^ 31) with (256 * 2 ^ 23) in Hv; lia).
    assert (a * 256 + byte_z x <> 0) as Hne by (intros E; assert (a = 0) as Ha0 by lia; specialize (Hz Ha0); lia).
    rewrite (proj2 (Z.eqb_neq _ _)) by done. apply IH; [lia| |done]. intros E. by destruct (Hne E).
Qed.

Lemma be_bytes_value fuel n acc : 0 <= n -> n < 256 ^ Z.of_nat fuel ->
  acc_value 0 (be_bytes fuel n acc) = acc_value n acc.
Proof.
  revert n acc. induction fuel as [|f IH]; intros n acc H0 Hn.
  - assert (n = 0) as -> by (change (256 ^ Z.of_nat 0) with 1 in Hn; lia). done.
  - cbn [be_bytes]. destruct (Z.eqb_spec n 0) as [->|Hz]; [done|]. rewrite IH.
    + cbn [foldl]. f_equal. rewrite byte_z_byte, Z.mod_mod by lia. rewrite (Z.div_mod n 256) at 3 by lia. lia.
    + by apply Z.div_pos.
    + apply Z.div_lt_upper_bound; [lia|]. rewrite Nat2Z.inj_succ, Z.pow_succ_r in Hn by lia. lia.
Qed.

Lemma be_bytes_shape fuel n acc : 0 < n -> n < 256 ^ Z.of_nat fuel ->
  exists x l, be_bytes fuel n acc = x :: l /\ byte_z x <> 0 /\ (length (x :: l) <= fuel + length acc)%nat.
Proof.
  revert n acc. induction fuel as [|f IH]; intros n acc H0 Hn.
  - change (256 ^ Z.of_nat 0) with 1 in Hn. lia.
  - cbn [be_bytes]. destruct (Z.eqb_spec n 0) as [->|Hz]; [lia|].
    destruct (Z.eq_dec (n / 256) 0) as [E|E].
    + rewrite E. assert (be_bytes f 0 (z_byte (n mod 256) :: acc) = z_byte (n mod 256) :: acc) as -> by (by destruct f).
      do 2 eexists. split; [done|]. split; [|cbn; lia]. rewrite byte_z_byte, Z.mod_mod by lia.
      apply Z.div_small_iff in E; [|lia]. rewrite Z.mod_small by lia. lia.
    + destruct (IH (n / 256) (z_byte (n mod 256) :: acc)) as (x & l & -> & Hx & Hl).
      * pose proof (Z.div_pos n 256). lia.
      * apply Z.div_lt_upper_bound; [lia|]. rewrite Nat2Z.inj_succ, Z.pow_succ_r in Hn by lia. lia.
      * do 2 eexists. split; [done|]. split; [done|]. cbn in *. lia.
Qed.

(** What is written with a tag and a length is read back with them. *)
Lemma header_tlv first content r : 0 <= first < 256 -> first mod 32 <> 31 -> zlen content < 2 ^ 31 ->
  parseTagAndLength (tlv first content ++ r) =
  Ok ({| hClass := first / 64; hTag := first mod 32; hLength := zlen content;
         hCompound := negb (first / 32 mod 2 =? 0) |}, content ++ r).
Proof.
  intros Hf Ht Hl. unfold tlv. cbn [app parseTagAndLength]. rewrite byte_z_byte, (Z.mod_small first) by lia.
  destruct (Z.eqb_spec (first mod 32) 31) as [|_]; [done|]. cbn [mbind result_bind]. rewrite <- app_assoc.
  pose proof (zlen_nonneg content). unfold length_bytes. destruct (Z.ltb_spec (zlen content) 128) as [Hs|Hs].
  - cbn [app]. rewrite byte_z_byte, (Z.mod_small (zlen content)) by lia. by rewrite (proj2 (Z.ltb_lt _ _) Hs).
  - assert (zlen content < 256 ^ Z.of_nat 8) as H8.
    { change (256 ^ Z.of_nat 8) with 18446744073709551616. change (2 ^ 31) with 2147483648 in Hl. lia. }
    destruct (be_bytes_shape 8 (zlen content) []) as (x & l & E & Hx & Hlen); [lia|done|].
    pose proof (be_bytes_value 8 (zlen content) [] ltac:(lia) H8) as Hv. rewrite E in *. cbn [app].
    assert (1 <= zlen (x :: l) <= 8) as Hz by (unfold zlen; cbn [length] in *; lia).
    rewrite byte_z_byte, (Z.mod_small (128 + zlen (x :: l))) by lia. rewrite (proj2 (Z.ltb_ge (128 + zlen (x :: l)) 128)), (proj2 (Z.eqb_neq (128 + zlen (x :: l)) 128)) by lia.
    replace (Z.to_nat (128 + zlen (x :: l) - 128)) with (length (x :: l)) by (unfold zlen; lia).
    change (acc_value (zlen content) []) with (zlen content) in Hv.
    pose proof (long_length_app (x :: l) 0 (content ++ r) ltac:(lia) ltac:(done)) as Hll. rewrite Hv in Hll.
    cbn [app] in Hll. rewrite Hll; [reflexivity|lia].
Qed.

Lemma element_tlv first content r : 0 <= first < 256 -> first mod 32 <> 31 -> zlen content < 2 ^ 31 ->
  element (tlv first content ++ r) =
  Ok ({| rvClass := first / 64; rvTag := first mod 32; IsCompound := negb (first / 32 mod 2 =? 0);
         Bytes := content; FullBytes := tlv first content |}, r).
Proof.
  intros Hf Ht Hl. unfold element. rewrite header_tlv by done.
  destruct (tlv first content ++ r) as [|b0 b] eqn:E; [done|]. rewrite <- E. cbn [mbind result_bind].
  cbn [hLength]. rewrite take_bytes_app. cbn [mbind result_bind hClass hTag hCompound]. do 3 f_equal.
  rewrite length_app. replace (length (tlv first content) + length r - length r)%nat with (length (tlv first content)) by lia.
  by rewrite take_app_length.
Qed.

Lemma field_tlv {A} tag compound (d : option A) dec x first content r :
  0 <= first < 64 -> first mod 32 = tag -> tag <> 31 -> negb (first / 32 mod 2 =? 0) = compound -> zlen content < 2 ^ 31 ->
  dec content = Ok x -> field tag compound d dec (tlv first content ++ r) = Ok (x, r).
Proof.
  intros Hf Ht Hn Hc Hl Hd. unfold field. rewrite header_tlv by (lia || congruence).
  destruct (tlv first content ++ r) as [|b0 b] eqn:E; [done|]. cbn [mbind result_bind hClass hTag hCompound].
  rewrite (Z.div_small first 64), Ht, Hc, !Z.eqb_refl, eqb_reflx by lia. cbn [andb Z.eqb hLength].
  rewrite take_bytes_app. cbn [mbind result_bind]. by rewrite Hd.
Qed.

Example oid_samples :
  map (fun o => match oid_bytes o with Ok b => match parseObjectIdentifier b with Ok o2 => bool_decide (o2 = o) | Err _ => false end | Err _ => false end)
    [[1; 2; 840; 113549; 1; 7; 2]; [2; 16; 840; 1; 101; 3; 4; 2; 1]; [0; 9]] = [true; true; true] /\
  is_ok (oid_bytes [1; 40]) = false /\ is_ok (parseObjectIdentifier [z_byte 128; z_byte 1]) = false.
Proof. vm_compute. repeat split; reflexivity. Qed.
Example lengths_read :
  map (fun n => match element (tlv 4 (repeat Byte.x00 n)) with Ok (v, []) => zlen (Bytes v) | _ => -1 end) [0; 127; 128; 300]%nat
    = [0; 127; 128; 300] /\
  is_ok (element [z_byte 4; z_byte 128; z_byte 0]) = false /\ is_ok (element [z_byte 4; z_byte 129; z_byte 1; z_byte 0]) = false.
Proof. vm_compute. repeat split; reflexivity. Qed.
