(* ===== verification/Tsa.v ===== *)
(** The timestamp client of the audit log ([src/tsa.go]): the request of a token,
    the reading of a CMS token, and the checks [Verify] makes of it.

    DER is read and written by [Der]; the keys' signature checks, the chain
    check, the times of [encoding/asn1] and the algorithm identifier of package
    [pki] are parameters. *)
From stdpp Require Import sorting.
From S2P Require Import Prelude GoStrings GoTime GoJson GoJsonOut GoClock Types Sha256 DelegationAuth Credential AdmissionTypes AuditLog AuditWrite Der.
Local Open Scope string_scope.
Local Open Scope Z_scope.
Local Open Scope list_scope.

(** * Definitions *)

(** [src/tsa.go:24-24 oidSha256] *)
Definition oidSha256 : OID := [2; 16; 840; 1; 101; 3; 4; 2; 1].
(** [src/tsa.go:25-25 oidTSTInfo] *)
Definition oidTSTInfo : OID := [1; 2; 840; 113549; 1; 9; 16; 1; 4].
(** [src/tsa.go:26-26 oidSignedData] *)
Definition oidSignedData : OID := [1; 2; 840; 113549; 1; 7; 2].
(** [src/tsa.go:30-30 oidContentType] *)
Definition oidContentType : OID := [1; 2; 840; 113549; 1; 9; 3].
(** [src/tsa.go:31-31 oidMessageDigest] *)
Definition oidMessageDigest : OID := [1; 2; 840; 113549; 1; 9; 4].
(** [src/tsa.go:611-611 verifyCMSSignature] *)
Definition oidECDSAWithSHA256 : OID := [1; 2; 840; 10045; 4; 3; 2].
(** [src/tsa.go:613-613 verifyCMSSignature] *)
Definition oidSHA256WithRSA : OID := [1; 2; 840; 113549; 1; 1; 11].
Definition oid_string (o : OID) : string := join "." (map int_lit o).

(** [pki.AlgorithmIdentifier] as [encoding/asn1] reads and writes it, the UTCTime
    and GeneralizedTime of [encoding/asn1], the key usage and the CA flag of a
    certificate, [leaf.Verify] for time stamping against one root, and the checks
    of a signature over a digest. *)
Class TsaCrypto := {
  AlgorithmIdentifier : Type;
  read_algorithm : bytes -> result (AlgorithmIdentifier * bytes);
  algorithm_bytes : AlgorithmIdentifier -> result bytes;
  algorithm_of : OID -> AlgorithmIdentifier;
  utc_time : bytes -> result Time;
  generalized_time : bytes -> result Time;
  time_stamping : Certificate -> bool;
  IsCA : Certificate -> bool;
  verify_time_stamping : Certificate -> Certificate -> list Certificate -> Time -> option error;
  ecdsa_Verify : Z -> bytes -> Z -> Z -> bool;
  rsa_VerifyPKCS1v15 : Z -> bytes -> bytes -> option error
}.

(** [src/tsa.go:MessageImprint] *)
Record MessageImprint `{TsaCrypto} := { HashAlgorithm : AlgorithmIdentifier; HashedMessage : bytes }.
(** [src/tsa.go:TimeStampReq]; [None] is a [nil] slice. *)
Record TimeStampReq `{TsaCrypto} := {
  ReqVersion : Z; ReqImprint : MessageImprint; ReqPolicy : OID; ReqNonce : option Z; CertReq : bool;
  ReqExtensions : option (list RawValue)
}.
(** [src/tsa.go:TSTInfo]; its nonce and name are never read. *)
Record TSTInfo `{TsaCrypto} := {
  TstVersion : Z; Policy : OID; Imprint : MessageImprint; TstSerial : Z; GenTime : Time; Accuracy : RawValue;
  Ordering : bool
}.
(** [src/tsa.go:cmsAttribute] *)
Record cmsAttribute := { AttrType : OID; Values : list RawValue }.
(** [src/tsa.go:cmsSignerInfo] *)
Record cmsSignerInfo := {
  DigestAlgorithm : OID; SignatureAlgo : OID; SignedAttrsRaw : bytes; SignedAttrsSet : option bytes;
  SIMessageDigest : bytes; SIContentType : OID; CmsSignature : bytes
}.
(** [src/tsa.go:TSAClient] *)
Record TSAClient := {
  TsaURL : string; CACert : option Certificate; SignFunc : option (bytes -> result bytes); maxTSTAge : Duration
}.

(** [src/tsa.go:NewTSAClient] *)
Definition NewTSAClient (url : string) : option TSAClient :=
  if String.eqb url "" then None
  else Some {| TsaURL := url; CACert := None; SignFunc := None; maxTSTAge := Hour |}.
(** [src/tsa.go:SetMaxTSTAge] *)
Definition SetMaxTSTAge (t : option TSAClient) (d : Duration) : option TSAClient :=
  match t with
  | None => None
  | Some t => Some {| TsaURL := TsaURL t; CACert := CACert t; SignFunc := SignFunc t; maxTSTAge := d |}
  end.
(** [src/tsa.go:SetCACert] *)
Definition SetCACert `{X509} (ReadFile : string -> result bytes) (t : option TSAClient) (certFile : string)
  : result (option TSAClient) :=
  match t with
  | None => Ok None
  | Some t =>
      if String.eqb certFile "" then Ok (Some t)
      else match ReadFile certFile with
      | Err err => Err (Errorf "read TSA CA cert: %w" [AWrap err])
      | Ok data =>
          match pem_blocks data with
          | [] => Err (Errorf "no PEM data in TSA CA cert file" [])
          | (_, der) :: _ =>
              match x509_ParseCertificate der with
              | Err err => Err (Errorf "parse TSA CA cert: %w" [AWrap err])
              | Ok cert => Ok (Some {| TsaURL := TsaURL t; CACert := Some cert; SignFunc := SignFunc t;
                                       maxTSTAge := maxTSTAge t |})
              end
          end
      end
  end.

(** ** Signed attributes *)

(** A [RawValue] as [asn1.Marshal] writes it. *)
Definition raw_bytes (v : RawValue) : bytes :=
  if 0 <? zlen (FullBytes v) then FullBytes v
  else
    let first := rvClass v * 64 + (if IsCompound v then 32 else 0) in
    (if 31 <=? rvTag v then z_byte (first + 31) :: base128_bytes 10 (rvTag v) [] else [z_byte (first + rvTag v)])
    ++ length_bytes (zlen (Bytes v)) ++ Bytes v.
Definition set_field {A} (dec : bytes -> result A) : bytes -> result (A * bytes) := field TagSet true None dec.

(** [src/tsa.go:131-134 parseSignedAttrs] one attribute. *)
Definition read_attribute : bytes -> result (cmsAttribute * bytes) := sequence_field (fun b =>
  '(t, b) ← oid_field b;
  '(vs, _) ← set_field (fun b => elements (length b) b) b;
  Ok {| AttrType := t; Values := vs |}).
Definition attribute_bytes (a : cmsAttribute) : result bytes :=
  oid ← oid_bytes (AttrType a); Ok (tlv 48 (tlv 6 oid ++ tlv 49 (set_of (map raw_bytes (Values a))))).
(** [src/tsa.go:518-520 parseSignerInfo] [asn1.MarshalWithParams(attrs, "set")] *)
Definition attributes_set (attrs : list cmsAttribute) : result bytes :=
  l ← map_result attribute_bytes attrs; Ok (tlv 49 (set_of l)).

(** [src/tsa.go:124-138 parseSignedAttrs] the loop over the elements. *)
Fixpoint read_attributes (fuel : nat) (rest : bytes) : result (list cmsAttribute) :=
  match fuel, rest with
  | O, _ | _, [] => Ok []
  | S f, _ =>
      '(el, remaining) ← element rest;
      '(a, _) ← read_attribute (FullBytes el);
      l ← read_attributes f remaining; Ok (a :: l)
  end.
(** [src/tsa.go:parseSignedAttrs] *)
Definition parseSignedAttrs (data : bytes) : result (list cmsAttribute) :=
  '(s, _) ← element data;
  if negb (rvTag s =? TagSet) then Err (Errorf "expected SET OF for SignedAttributes, got tag %d" [AInt (rvTag s)])
  else read_attributes (length (Bytes s)) (Bytes s).

(** [src/tsa.go:521-533 parseSignerInfo] the two attributes that are read. *)
Definition note_attribute (si : cmsSignerInfo) (a : cmsAttribute) : cmsSignerInfo :=
  let set ct md := {| DigestAlgorithm := DigestAlgorithm si; SignatureAlgo := SignatureAlgo si;
    SignedAttrsRaw := SignedAttrsRaw si; SignedAttrsSet := SignedAttrsSet si; SIMessageDigest := md;
    SIContentType := ct; CmsSignature := CmsSignature si |} in
  match Values a with
  | [v] =>
      if bool_decide (AttrType a = oidContentType) then
        match oid_field (FullBytes v) with Ok (oid, _) => set oid (SIMessageDigest si) | Err _ => si end
      else if bool_decide (AttrType a = oidMessageDigest) then set (SIContentType si) (Bytes v) else si
  | _ => si
  end.

(** [src/tsa.go:parseAlgorithmOID] no identifier when it does not parse. *)
Definition parseAlgorithmOID (data : bytes) : OID :=
  match sequence_field (fun b => '(o, _) ← oid_field b; Ok o) data with Ok (o, _) => o | Err _ => [] end.

Definition no_signer : cmsSignerInfo := {| DigestAlgorithm := []; SignatureAlgo := []; SignedAttrsRaw := [];
  SignedAttrsSet := None; SIMessageDigest := []; SIContentType := []; CmsSignature := [] |}.
(** [src/tsa.go:507-535 parseSignerInfo] the optional signed attributes, and what
    follows them. *)
Definition read_signed_attrs (rest : bytes) : result (cmsSignerInfo * bytes) :=
  match rest with
  | x :: _ =>
      if byte_z x =? 160 then
        '(raw, rest) ← element rest;
        let si := {| DigestAlgorithm := []; SignatureAlgo := []; SignedAttrsRaw := FullBytes raw; SignedAttrsSet := None;
                     SIMessageDigest := []; SIContentType := []; CmsSignature := [] |} in
        match parseSignedAttrs (Bytes raw) with
        | Err _ => Ok (si, rest)
        | Ok attrs =>
            Ok (foldl note_attribute {| DigestAlgorithm := []; SignatureAlgo := []; SignedAttrsRaw := FullBytes raw;
                  SignedAttrsSet := match attributes_set attrs with Ok s => Some s | Err _ => None end;
                  SIMessageDigest := []; SIContentType := []; CmsSignature := [] |} attrs, rest)
        end
      else Ok (no_signer, rest)
  | [] => Ok (no_signer, rest)
  end.

(** [src/tsa.go:parseSignerInfo] *)
Definition parseSignerInfo (data : bytes) : result cmsSignerInfo :=
  let next b := match element b with
                | Err err => Err (Errorf "tsa: unmarshal signer info: %w" [AWrap err]) | Ok r => Ok r end in
  '(_, rest) ← next data;
  '(_, rest) ← next rest;
  '(digestAlgo, rest) ← next rest;
  match read_signed_attrs rest with
  | Err err => Err (Errorf "tsa: unmarshal signer info: %w" [AWrap err])
  | Ok (si, rest) =>
      '(sigAlgo, rest) ← next rest;
      '(raw, _) ← next rest;
      Ok {| DigestAlgorithm := parseAlgorithmOID (FullBytes digestAlgo);
            SignatureAlgo := parseAlgorithmOID (FullBytes sigAlgo); SignedAttrsRaw := SignedAttrsRaw si;
            SignedAttrsSet := SignedAttrsSet si; SIMessageDigest := SIMessageDigest si;
            SIContentType := SIContentType si; CmsSignature := Bytes raw |}
  end.

Section Client.
  Context {HF : HashFunction} {X : X509} {TC : TsaCrypto}.

(** ** Requests and responses *)

(** An integer in two's complement, minimal. *)
Fixpoint signed_bytes (fuel : nat) (z : Z) (acc : bytes) : bytes :=
  match fuel with
  | O => acc
  | S f => let acc := z_byte z :: acc in if (-128 <=? z) && (z <=? 127) then acc else signed_bytes f (z / 256) acc
  end.

(** [src/tsa.go:MarshalTSARequest] a nonce cannot be written. *)
Definition MarshalTSARequest (req : TimeStampReq) : result bytes :=
  alg ← algorithm_bytes (HashAlgorithm (ReqImprint req));
  policy ← (match ReqPolicy req with [] => Ok [] | o => b ← oid_bytes o; Ok (tlv 6 b) end);
  nonce ← (match ReqNonce req with None => Ok [] | Some _ => Err (StructuralError "unknown Go type: *int") end);
  Ok (tlv 48 (tlv 2 (signed_bytes 8 (ReqVersion req) []) ++ tlv 48 (alg ++ tlv 4 (HashedMessage (ReqImprint req)))
              ++ policy ++ nonce ++ (if CertReq req then tlv 1 [z_byte 255] else [])
              ++ match ReqExtensions req with None => [] | Some l => tlv 49 (set_of (map raw_bytes l)) end)).

(** [src/tsa.go:225-232 Sign] the wrapper: a raw value is written as it is. *)
Definition content_info (inner : bytes) : result bytes :=
  oid ← oid_bytes oidTSTInfo; Ok (tlv 48 (tlv 6 oid ++ inner)).

(** [src/tsa.go:TimeStampResp] its status and the bytes of its token, none when it
    is absent. *)
Definition read_response (b : bytes) : result (Z * bytes) :=
  '(r, _) ← sequence_field (fun b =>
    '(status, b) ← sequence_field (fun b => '(s, _) ← int_field b; Ok s) b;
    token ← (match b with [] => Ok [] | _ => '(v, _) ← element b; Ok (FullBytes v) end);
    Ok (status, token)) b;
  Ok r.

(** The HTTP client: making a request, sending it, reading the answer. *)
Record tsa_http := {
  new_request : string -> option error; do_request : string -> bytes -> result (result bytes)
}.
(** [src/tsa.go:postTSA] *)
Definition postTSA (net : tsa_http) (t : TSAClient) (reqData : bytes) : result bytes :=
  match new_request net (TsaURL t) with
  | Some err => Err err
  | None =>
      match do_request net (TsaURL t) reqData with
      | Err err => Err (Errorf "TSA HTTP POST: %w" [AWrap err])
      | Ok (Err err) => Err (Errorf "read TSA response: %w" [AWrap err])
      | Ok (Ok body) => Ok (take (Z.to_nat (2 ^ 20)) body)
      end
  end.

(** [src/tsa.go:Sign] *)
Definition Sign (net : tsa_http) (t : option TSAClient) (data : bytes) : result bytes :=
  match t with
  | None => Err (Errorf "tsa client not configured" [])
  | Some t =>
      match SignFunc t with
      | Some f => f data
      | None =>
          match MarshalTSARequest {| ReqVersion := 1; ReqPolicy := []; ReqNonce := None; CertReq := true;
                  ReqExtensions := None;
                  ReqImprint := {| HashAlgorithm := algorithm_of oidSha256; HashedMessage := Sum256 data |} |} with
          | Err err => Err (Errorf "marshal TSA request: %w" [AWrap err])
          | Ok reqDER =>
              match content_info reqDER with
              | Err err => Err (Errorf "marshal ContentInfo: %w" [AWrap err])
              | Ok body =>
                  resp ← postTSA net t body;
                  match read_response resp with
                  | Err err => Err (Errorf "parse TSA response: %w" [AWrap err])
                  | Ok (status, token) =>
                      if negb (status =? 0) && negb (status =? 1) then Err (Errorf "TSA status: %d" [AInt status])
                      else Ok token
                  end
              end
          end
      end
  end.

(** ** Tokens *)

(** A [time.Time] field. *)
Definition time_field (b : bytes) : result (Time * bytes) :=
  match b with
  | [] => Err (SyntaxError "sequence truncated")
  | _ =>
      '(h, _) ← parseTagAndLength b;
      if (hClass h =? 0) && (hTag h =? TagGeneralizedTime) then field TagGeneralizedTime false None generalized_time b
      else field TagUTCTime false None utc_time b
  end.

(** [src/tsa.go:62-72 TSTInfo] as [asn1.Unmarshal] reads it: whatever follows the
    ordering is read into a nonce, which it cannot. *)
Definition read_tst (b : bytes) : result (TSTInfo * bytes) := sequence_field (fun b =>
  '(version, b) ← int_field b;
  '(policy, b) ← oid_field b;
  '(imprint, b) ← sequence_field (fun b =>
     '(alg, b) ← read_algorithm b; '(h, _) ← octets_field b;
     Ok {| HashAlgorithm := alg; HashedMessage := h |}) b;
  '(serial, b) ← int_field b;
  '(gen, b) ← time_field b;
  '(acc, b) ← (match b with [] => Ok (no_raw, []) | _ => element b end);
  '(ord, b) ← field TagBoolean false (Some false) parseBool b;
  match b with
  | [] => Ok {| TstVersion := version; Policy := policy; Imprint := imprint; TstSerial := serial; GenTime := gen;
                Accuracy := acc; Ordering := ord |}
  | _ => _ ← parseTagAndLength b; Err (StructuralError "unknown Go type: *int")
  end) b.

(** [src/tsa.go:410-421 parseCertificatesFromRaw] the elements one after the other. *)
Fixpoint certificates_in (fuel : nat) (rest : bytes) : list Certificate :=
  match fuel, rest with
  | O, _ | _, [] => []
  | S f, _ =>
      match element rest with
      | Err _ => []
      | Ok (el, remaining) =>
          match x509_ParseCertificate (FullBytes el) with Ok c => [c] | Err _ => [] end ++ certificates_in f remaining
      end
  end.
(** [src/tsa.go:parseCertificatesFromRaw] *)
Definition parseCertificatesFromRaw (data : bytes) : list Certificate :=
  let first := match sequence_field (fun b => elements (length b) b) data with
    | Ok (els, _) => omap (fun el => match x509_ParseCertificate (FullBytes el) with Ok c => Some c | Err _ => None end) els
    | Err _ => [] end in
  if 0 <? zlen first then first else certificates_in (length data) data.

(** [src/tsa.go:365-382 extractTSTInfoFromCMS] the first signer. *)
Definition first_signer (rest : bytes) : result (option cmsSignerInfo) :=
  match rest with
  | [] => Ok None
  | _ =>
      match element rest with
      | Ok (infos, _) =>
          if rvTag infos =? TagSet then
            match Bytes infos with
            | [] => Ok None
            | _ =>
                match element (Bytes infos) with
                | Ok (siRaw, _) =>
                    match parseSignerInfo (Bytes siRaw) with
                    | Err err => Err (Errorf "tsa: parse signerInfo: %w" [AWrap err])
                    | Ok si => Ok (Some si)
                    end
                | Err _ => Ok None
                end
            end
          else Ok None
      | Err _ => Ok None
      end
  end.

(** [src/tsa.go:357-363 extractTSTInfoFromCMS] the certificates, and what follows. *)
Definition token_certificates (rest : bytes) : list Certificate * bytes :=
  match rest with
  | x :: _ =>
      if byte_z x =? 160 then
        match element rest with
        | Ok (raw, newRest) => (parseCertificatesFromRaw (Bytes raw), newRest)
        | Err _ => ([], rest)
        end
      else ([], rest)
  | [] => ([], rest)
  end.

(** [src/tsa.go:343-350 extractTSTInfoFromCMS] the octets inside an OCTET STRING,
    or the content itself. *)
Definition econtent_of (b : bytes) : bytes :=
  match element b with
  | Ok (o, _) => if rvTag o =? TagOctetString then Bytes o else b
  | Err _ => b
  end.
(** [src/tsa.go:80-88 cmsContentInfo] and [cmsEncapContentInfo]: an identifier and
    an explicitly tagged value. *)
Definition content_fields (optional : bool) : bytes -> result ((OID * RawValue) * bytes) := sequence_field (fun b =>
  '(oid, b) ← oid_field b; '(c, _) ← explicit_raw optional b; Ok (oid, c)).

(** [src/tsa.go:extractTSTInfoFromCMS] *)
Definition extractTSTInfoFromCMS (tstDER : bytes)
  : result (TSTInfo * list Certificate * option cmsSignerInfo * bytes) :=
  let at_step {A} (fmt : string) (r : result A) : result A :=
    match r with Ok a => Ok a | Err err => Err (Errorf fmt [AWrap err]) end in
  '((ct, content), _) ← at_step "parse CMS ContentInfo: %w" (content_fields false tstDER);
  if negb (bool_decide (ct = oidSignedData)) then
    Err (Errorf "expected id-signedData (%v), got %v" [AStr (oid_string oidSignedData); AStr (oid_string ct)])
  else
    '(sd, _) ← at_step "parse SignedData SEQUENCE: %w" (element (Bytes content));
    if negb (rvTag sd =? TagSequence) then Err (Errorf "expected SEQUENCE for SignedData" [])
    else
      '(_, rest) ← at_step "parse signedData version: %w" (element (Bytes sd));
      '(_, rest) ← at_step "parse digestAlgorithms: %w" (element rest);
      '(eciRaw, rest) ← at_step "parse encapContentInfo: %w" (element rest);
      '((ect, econt), _) ← at_step "parse encapContentInfo inner: %w" (content_fields true (FullBytes eciRaw));
      if negb (bool_decide (ect = oidTSTInfo)) then
        Err (Errorf "expected id-ct-TSTInfo (%v), got %v" [AStr (oid_string oidTSTInfo); AStr (oid_string ect)])
      else if zlen (Bytes econt) =? 0 then Err (Errorf "missing eContent (TSTInfo octets)" [])
      else
        let eContent := econtent_of (Bytes econt) in
        '(tst, _) ← at_step "parse TSTInfo: %w" (read_tst eContent);
        let '(certs, rest) := token_certificates rest in
        si ← first_signer rest;
        Ok (tst, certs, si, eContent).

(** [src/tsa.go:UnmarshalTimestampToken] *)
Definition UnmarshalTimestampToken (data : bytes) : result TSTInfo :=
  '(tst, _, _, _) ← extractTSTInfoFromCMS data; Ok tst.

(** ** Verification *)

(** The index of the first certificate with a property. *)
Fixpoint find_index (p : Certificate -> bool) (l : list Certificate) : option nat :=
  match l with [] => None | c :: l' => if p c then Some 0%nat else S <$> find_index p l' end.
(** [src/tsa.go:findTSACert] its index: the pointer is compared. *)
Definition findTSACert (certs : list Certificate) : option nat :=
  match find_index time_stamping certs with
  | Some i => Some i
  | None =>
      match find_index (fun c => negb (IsCA c)) certs with
      | Some i => Some i
      | None => match certs with [] => None | _ => Some 0%nat end
      end
  end.

(** [src/tsa.go:verifyTSACertChain] *)
Definition verifyTSACertChain (certs : list Certificate) (caCert : Certificate) (now : Time) : option error :=
  match findTSACert certs ≫= (fun i => pair i <$> certs !! i) with
  | None => Some (Errorf "no suitable TSA certificate found (missing ExtendedKeyUsageTimeStamping)" [])
  | Some (i, leaf) =>
      match verify_time_stamping leaf caCert (delete i certs) now with
      | Some err => Some (Errorf "chain verify: %w" [AWrap err])
      | None => None
      end
  end.

(** [src/tsa.go:verifyECDSASignatureRaw] *)
Definition verifyECDSASignatureRaw (digest signature : bytes) (cert : Certificate) : option error :=
  match CertPublicKey cert with
  | Some (ECDSAKey pub) =>
      match sequence_field (fun b => '(r, b) ← field TagInteger false None minimal_integer b;
                                     '(s, _) ← field TagInteger false None minimal_integer b; Ok (r, s)) signature with
      | Err err => Some (Errorf "unmarshal ECDSA signature: %w" [AWrap err])
      | Ok ((r, s), _) =>
          if ecdsa_Verify pub digest r s then None else Some (Errorf "ECDSA signature verification failed" [])
      end
  | _ => Some (Errorf "certificate public key is not ECDSA" [])
  end.
(** [src/tsa.go:verifyRSASignatureRaw] *)
Definition verifyRSASignatureRaw (digest signature : bytes) (cert : Certificate) : option error :=
  match CertPublicKey cert with
  | Some (RSAKey pub) => rsa_VerifyPKCS1v15 pub digest signature
  | _ => Some (Errorf "certificate public key is not RSA" [])
  end.

(** [src/tsa.go:609-617 verifyCMSSignature] the check of the algorithm. *)
Definition check_algorithm (algo : OID) (digest signature : bytes) (signer : Certificate) : option error :=
  if bool_decide (algo = oidECDSAWithSHA256) then verifyECDSASignatureRaw digest signature signer
  else if bool_decide (algo = oidSHA256WithRSA) then verifyRSASignatureRaw digest signature signer
  else Some (Errorf "unsupported CMS signature algorithm: %v" [AStr (oid_string algo)]).

(** [src/tsa.go:verifyCMSSignature] *)
Definition verifyCMSSignature (si : option cmsSignerInfo) (certs : list Certificate) (eContent : bytes) : option error :=
  match si with
  | None => Some (Errorf "no SignerInfo to verify" [])
  | Some si =>
      match findTSACert certs ≫= (fun i => certs !! i) with
      | None => Some (Errorf "no TSA signer certificate found" [])
      | Some signer =>
          let covered := default eContent (SignedAttrsSet si) in
          let check := check_algorithm (SignatureAlgo si) (Sum256 covered) (CmsSignature si) signer in
          match SignedAttrsSet si with
          | None => check
          | Some _ =>
              if negb (bool_decide (SIContentType si = oidTSTInfo)) then
                Some (Errorf "signedAttrs contentType attribute: got %v, want id-ct-TSTInfo" [AStr (oid_string (SIContentType si))])
              else if negb (bool_decide (SIMessageDigest si = Sum256 eContent)) then
                Some (Errorf "signedAttrs message-digest does not match eContent" [])
              else check
          end
      end
  end.

(** [src/tsa.go:Verify] with its two readings of the clock. *)
Definition Verify (t : option TSAClient) (entryJSON tstDER : bytes) (now now2 : Time) : option error :=
  match t with
  | None => Some (Errorf "tsa client not configured" [])
  | Some t =>
      match extractTSTInfoFromCMS tstDER with
      | Err err => Some (Errorf "extract TSTInfo: %w" [AWrap err])
      | Ok (tst, certs, si, eContent) =>
          if negb (bool_decide (HashedMessage (Imprint tst) = Sum256 entryJSON)) then
            Some (Errorf "hash mismatch: data not original" [])
          else if After (GenTime tst) (Add now (5 * Minute)) then
            Some (Errorf "TST generation time is in the future: %v" [AInt (GenTime tst)])
          else if Before (GenTime tst) (Add now (dneg (maxTSTAge t))) then
            Some (Errorf "TST generation time is too old ( >%s): %v" [AInt (maxTSTAge t); AInt (GenTime tst)])
          else match CACert t with
          | None => Some (Errorf "TSA CA certificate not configured — cannot verify timestamp token" [])
          | Some ca =>
              if zlen certs =? 0 then Some (Errorf "no TSA certificate found in CMS response" [])
              else match verifyTSACertChain certs ca now2 with
              | Some err => Some (Errorf "TSA certificate chain verification failed: %w" [AWrap err])
              | None =>
                  match verifyCMSSignature si certs eContent with
                  | Some err => Some (Errorf "CMS signature verification failed: %w" [AWrap err])
                  | None => None
                  end
              end
          end
      end
  end.

(** The client as the audit log's authority, with what the network does at each
    instant and the times of the verification; [Sign] is given up when it is
    late ([None]). *)
Definition client_service (net : Time -> tsa_http) (t : TSAClient) (now now2 : Time) : tsa_service := {|
  tsa_sign := fun at_ data => match Sign (net at_) (Some t) data with Ok tst => Some tst | Err _ => None end;
  tsa_verify := fun data tst => Verify (Some t) data tst now now2 |}.
End Client.

(** * Facts *)
Section ClientFacts.
  Context {HF : HashFunction} {X : X509} {TC : TsaCrypto}.

(** What a signature the client accepts covers. *)
Definition signature_covers (si : cmsSignerInfo) (signer : Certificate) (eContent : bytes) : Prop :=
  match SignedAttrsSet si with
  | None => check_algorithm (SignatureAlgo si) (Sum256 eContent) (CmsSignature si) signer = None
  | Some attrs => SIContentType si = oidTSTInfo /\ SIMessageDigest si = Sum256 eContent /\
      check_algorithm (SignatureAlgo si) (Sum256 attrs) (CmsSignature si) signer = None
  end.

Lemma verifyCMSSignature_None si certs eContent :
  verifyCMSSignature si certs eContent = None <->
  exists s i signer, si = Some s /\ findTSACert certs = Some i /\ certs !! i = Some signer /\
    signature_covers s signer eContent.
Proof.
  unfold verifyCMSSignature. destruct si as [s|]; [|split; [done|by intros (? & ? & ? & ? & _)]].
  destruct (findTSACert certs) as [i|]; cbn [mbind option_bind]; [|split; [done|by intros (? & ? & ? & _ & ? & _)]].
  destruct (certs !! i) as [signer|] eqn:Ec; [|split; [done|intros (? & ? & ? & _ & [= <-] & ? & _); congruence]].
  assert (forall b : option error, signature_covers s signer eContent <-> b = None ->
    (b = None <-> exists s' i' signer', Some s = Some s' /\ Some i = Some i' /\ certs !! i' = Some signer' /\
      signature_covers s' signer' eContent)) as H.
  { intros b Hb. split.
    - intros ->. exists s, i, signer. by rewrite Hb.
    - intros (s' & i' & signer' & [= <-] & [= <-] & E & Hs). rewrite E in Ec. injection Ec as ->. by apply Hb. }
  apply H. clear H. unfold signature_covers. destruct (SignedAttrsSet s) as [attrs|]; [|done]. cbn [default].
  case_bool_decide as H1; cbn [negb]; [|by split; [intros (? & _)|]].
  case_bool_decide as H2; cbn [negb]; [tauto|]. by split; [intros (_ & ? & _)|].
Qed.

Lemma verifyTSACertChain_None certs ca now :
  verifyTSACertChain certs ca now = None <->
  exists i leaf, findTSACert certs = Some i /\ certs !! i = Some leaf /\
    verify_time_stamping leaf ca (delete i certs) now = None.
Proof.
  unfold verifyTSACertChain. destruct (findTSACert certs) as [i|]; cbn [mbind option_bind].
  2: split; [done|by intros (? & ? & ? & _)].
  destruct (certs !! i) as [leaf|] eqn:Ec; cbn [fmap option_fmap option_map].
  2: split; [done|intros (? & ? & [= <-] & ? & _); congruence].
  split.
  - destruct (verify_time_stamping _ _ _ _) eqn:E; [done|]. intros _. by exists i, leaf.
  - intros (i' & leaf' & [= <-] & E & Hv). rewrite E in Ec. injection Ec as ->. by rewrite Hv.
Qed.

(** A token that speaks for a text at a time. *)
Definition token_binds (t : TSAClient) (entryJSON tstDER : bytes) (now now2 : Time) : Prop :=
  exists tst certs si eContent ca i signer,
    extractTSTInfoFromCMS tstDER = Ok (tst, certs, Some si, eContent) /\
    HashedMessage (Imprint tst) = Sum256 entryJSON /\
    Add now (dneg (maxTSTAge t)) <= GenTime tst <= Add now (5 * Minute) /\
    CACert t = Some ca /\ findTSACert certs = Some i /\ certs !! i = Some signer /\
    verify_time_stamping signer ca (delete i certs) now2 = None /\ signature_covers si signer eContent.

Lemma Verify_None t entryJSON tstDER now now2 :
  Verify (Some t) entryJSON tstDER now now2 = None <-> token_binds t entryJSON tstDER now now2.
Proof.
  unfold Verify, token_binds. destruct (extractTSTInfoFromCMS tstDER) as [[[[tst certs] si] eContent]|].
  2: split; [done|by intros (? & ? & ? & ? & ? & ? & ? & ? & _)].
  split.
  - case_bool_decide as Hd; cbn [negb]; [|done].
    destruct (After _ _) eqn:Ea; [done|]. destruct (Before _ _) eqn:Eb; [done|].
    apply Z.ltb_ge in Ea, Eb. destruct (CACert t) as [ca|]; [|done]. destruct (zlen certs =? 0); [done|].
    destruct (verifyTSACertChain certs ca now2) eqn:Ev; [done|]. destruct (verifyCMSSignature si certs eContent) eqn:Es; [done|].
    apply verifyTSACertChain_None in Ev as (i & leaf & Hi & Hl & Hv).
    apply verifyCMSSignature_None in Es as (s & i' & signer & -> & Hi' & Hl' & Hs). intros _.
    rewrite Hi in Hi'. injection Hi' as <-. rewrite Hl in Hl'. injection Hl' as <-.
    exists tst, certs, s, eContent, ca, i, leaf. done.
  - intros (tst' & certs' & s & eC & ca & i & signer & [= <- <- -> <-] & Hd & [Hb Ha] & Hca & Hi & Hl & Hv & Hs).
    rewrite bool_decide_eq_true_2 by done. cbn [negb]. unfold After, Before.
    rewrite (proj2 (Z.ltb_ge _ _) Ha), (proj2 (Z.ltb_ge _ _) Hb), Hca.
    destruct (Z.eqb_spec (zlen certs) 0) as [Hz%zlen_nil_iff|_]; [by rewrite Hz in Hl|].
    rewrite (proj2 (verifyTSACertChain_None certs ca now2)) by (by exists i, signer).
    by rewrite (proj2 (verifyCMSSignature_None (Some s) certs eContent)) by (by exists s, i, signer).
Qed.

Lemma parseSignedAttrs_sequence content r : zlen content < 2 ^ 31 -> is_ok (parseSignedAttrs (tlv 48 content ++ r)) = false.
Proof. intros H. unfold parseSignedAttrs. rewrite element_tlv by (lia || done). reflexivity. Qed.

(** A signer as RFC 5652 writes it: version, signer identifier, digest algorithm,
    the attributes under the tag [0], signature algorithm, signature. *)
Definition signer_der (version sid digestAlgo attrs sigAlgo sig : bytes) : bytes :=
  tlv 2 version ++ tlv 48 sid ++ tlv 48 digestAlgo ++ tlv 160 attrs ++ tlv 48 sigAlgo ++ tlv 4 sig.

(** * Properties *)

(** The signed attributes of a standard token are never read: its signature is
    checked over the content, where RFC 5652 has it cover the attributes. *)
Theorem standard_attributes_unread version sid digestAlgo attr attrs sigAlgo sig
    (Hlen : Forall (fun b => zlen b < 2 ^ 31) [version; sid; digestAlgo; attr; tlv 48 attr ++ attrs; sigAlgo; sig]) :
  exists si, parseSignerInfo (signer_der version sid digestAlgo (tlv 48 attr ++ attrs) sigAlgo sig) = Ok si /\
    SignedAttrsSet si = None /\ CmsSignature si = sig /\
    forall signer eContent, signature_covers si signer eContent <->
      check_algorithm (SignatureAlgo si) (Sum256 eContent) sig signer = None.
Proof.
  repeat (apply Forall_cons in Hlen as [? Hlen]). unfold parseSignerInfo, signer_der.
  rewrite !element_tlv by (lia || done). cbn [mbind result_bind].
  rewrite !element_tlv by (lia || done). cbn [mbind result_bind].
  rewrite !element_tlv by (lia || done). cbn [mbind result_bind]. unfold read_signed_attrs.
  assert (exists b r, tlv 160 (tlv 48 attr ++ attrs) ++ tlv 48 sigAlgo ++ tlv 4 sig = b :: r /\ byte_z b = 160) as (b & r & E & Hb).
  { unfold tlv at 1. do 2 eexists. split; [reflexivity|]. by rewrite byte_z_byte. }
  rewrite E, Hb, Z.eqb_refl, <- E. rewrite element_tlv by (lia || done). cbn [mbind result_bind Bytes].
  pose proof (parseSignedAttrs_sequence attr attrs ltac:(done)) as Hp.
  destruct (parseSignedAttrs (tlv 48 attr ++ attrs)); [done|].
  rewrite element_tlv by (lia || done). cbn [mbind result_bind].
  rewrite <- (app_nil_r (tlv 4 sig)). rewrite element_tlv by (lia || done). cbn [mbind result_bind].
  eexists. split; [reflexivity|]. cbn. repeat split; done.
Qed.

(** C29: which tokens the client accepts for an entry: exactly the CMS tokens
    whose imprint is the digest of that very entry, generated no later than five
    minutes from now and no earlier than the age allowed, whose time-stamping
    certificate chains to the configured authority, and whose signature is by
    that certificate over the attributes the parser read (then of the right
    content type and holding the content's digest) or, when it read none, over
    the content.  The parser reads no attributes of a signer written as RFC 5652
    has it, [[0]] directly around the attributes: for such a signer the signature
    is checked over the content, although attributes are present and the comment
    of [verifyCMSSignature] says that they are then what it covers.  Without an
    authority, or without a client, no token is accepted. *)
Theorem timestamp_accepted_iff t entryJSON tstDER now now2 :
  (Verify t entryJSON tstDER now now2 = None <->
   exists c, t = Some c /\ token_binds c entryJSON tstDER now now2) /\
  (forall version sid digestAlgo attr attrs sigAlgo sig,
     Forall (fun b => zlen b < 2 ^ 31) [version; sid; digestAlgo; attr; tlv 48 attr ++ attrs; sigAlgo; sig] ->
     exists si, parseSignerInfo (signer_der version sid digestAlgo (tlv 48 attr ++ attrs) sigAlgo sig) = Ok si /\
       CmsSignature si = sig /\
       forall signer eContent, signature_covers si signer eContent <->
         check_algorithm (SignatureAlgo si) (Sum256 eContent) sig signer = None).
Proof.
  split.
  - destruct t as [c|]; [|split; [done|by intros (? & ? & _)]]. rewrite Verify_None.
    split; [by exists c|by intros (? & [= <-] & ?)].
  - intros version sid digestAlgo attr attrs sigAlgo sig Hlen.
    destruct (standard_attributes_unread version sid digestAlgo attr attrs sigAlgo sig Hlen) as (si & H1 & _ & H2 & H3).
    by exists si.
Qed.

(** An audit line that is accepted with its token was timestamped: the token
    in the line binds the text of the line's own entry under the client's
    authority. *)
Theorem accepted_line_timestamped net c now now2 line s (Hl : parse_line line = Some s) (Ht : TST s <> "")
    (Hv : VerifyAuditEntry line (client_service net c now now2) = None) :
  exists der, DecodeBase64 (TST s) = Ok der /\
    token_binds c (ascii_bytes (json_encode (entry_json (SEntry s)))) der now now2.
Proof.
  rewrite (VerifyAuditEntry_signed line _ s Hl) in Hv. apply String.eqb_neq in Ht. rewrite Ht in Hv.
  destruct (DecodeBase64 (TST s)) as [der|]; [|done]. exists der. split; [done|]. apply Verify_None.
  cbn [client_service tsa_verify] in Hv. by destruct (Verify _ _ _ _ _).
Qed.
End ClientFacts.

(** * Concrete instances *)
Section Witnesses.
#[local] Existing Instance sha256.
(** Certificates are their number; the authority is number 1, the stamping
    certificate number 5; a signature is the key and a part of the digest. *)
Definition tsa_x509 : X509 := {|
  CertPool := unit; pem_blocks := fun b => [("CERTIFICATE", b)];
  x509_ParseCertificate := fun der => match element der with
    | Ok (v, _) => match Bytes v with [b] => Ok (toy_cert (byte_z b)) | _ => Err (ErrNew "x509") end | Err err => Err err end;
  x509_Verify := fun _ _ _ => None |}.
#[local] Existing Instance tsa_x509.
Definition toy_tsa_crypto : TsaCrypto := {|
  AlgorithmIdentifier := OID;
  read_algorithm := sequence_field (fun b => '(o, _) ← oid_field b; Ok o);
  algorithm_bytes := fun o => b ← oid_bytes o; Ok (tlv 48 (tlv 6 b));
  algorithm_of := fun o => o;
  utc_time := fun b => Ok (bytes_value b); generalized_time := fun b => Ok (bytes_value b);
  time_stamping := fun c => bool_decide (SerialNumber c = Some 5);
  IsCA := fun c => bool_decide (SerialNumber c = Some 1);
  verify_time_stamping := fun leaf ca rest now => if bool_decide (SerialNumber ca = Some 1) then None else Some (ErrNew "authority");
  ecdsa_Verify := fun pub digest r s => (r =? pub) && (s =? bytes_value (take 4 digest));
  rsa_VerifyPKCS1v15 := fun _ _ _ => Some (ErrNew "rsa") |}.
#[local] Existing Instance toy_tsa_crypto.

Definition oid_tlv (o : OID) : bytes := match oid_bytes o with Ok b => tlv 6 b | Err _ => [] end.
Definition toy_sign (key : Z) (covered : bytes) : bytes :=
  tlv 48 (tlv 2 (signed_bytes 8 key []) ++ tlv 2 (signed_bytes 8 (bytes_value (take 4 (Sum256 covered))) [])).
Definition toy_tst (entry : bytes) (gen : Z) : bytes :=
  tlv 48 (tlv 2 [z_byte 1] ++ oid_tlv [1; 2; 3] ++ tlv 48 (tlv 48 (oid_tlv oidSha256) ++ tlv 4 (Sum256 entry))
          ++ tlv 2 [z_byte 7] ++ tlv 24 (signed_bytes 8 gen [])).
Definition toy_attrs (eContent : bytes) : bytes :=
  tlv 48 (oid_tlv oidContentType ++ tlv 49 (oid_tlv oidTSTInfo)) ++
  tlv 48 (oid_tlv oidMessageDigest ++ tlv 49 (tlv 4 (Sum256 eContent))).
Definition toy_token (signer : bytes -> bytes) (entry : bytes) (gen : Z) : bytes :=
  let e := toy_tst entry gen in
  tlv 48 (oid_tlv oidSignedData ++ tlv 160 (tlv 48 (tlv 2 [z_byte 3] ++ tlv 49 [] ++
    tlv 48 (oid_tlv oidTSTInfo ++ tlv 160 (tlv 4 e)) ++ tlv 160 (tlv 48 [z_byte 5]) ++ tlv 49 (tlv 48 (signer e))))).
(** The signer with its attributes in a SET inside the tag [0], and as RFC 5652
    has it: the first is read, the second is checked against the content, which
    refuses the standard signature and accepts one over the content. *)
Definition set_signer (e : bytes) : bytes :=
  signer_der [z_byte 1] [] (oid_tlv oidSha256) (tlv 49 (toy_attrs e)) (oid_tlv oidECDSAWithSHA256)
    (toy_sign 5 (tlv 49 (toy_attrs e))).
Definition rfc_signer (e : bytes) : bytes :=
  signer_der [z_byte 1] [] (oid_tlv oidSha256) (toy_attrs e) (oid_tlv oidECDSAWithSHA256)
    (toy_sign 5 (tlv 49 (toy_attrs e))).
Definition content_signer (e : bytes) : bytes :=
  signer_der [z_byte 1] [] (oid_tlv oidSha256) (toy_attrs e) (oid_tlv oidECDSAWithSHA256) (toy_sign 5 e).
Definition authority (ca : option Z) : TSAClient :=
  {| TsaURL := "http://tsa"; CACert := toy_cert <$> ca; SignFunc := None; maxTSTAge := Hour |}.
Definition entry_text : bytes := ascii_bytes "{}".
Definition genuine : bytes := toy_token set_signer entry_text (2 * Hour).

Example tokens :
  map (fun '(t, e, d, now) => unset (Verify (Some (authority t)) e d now now))
    [(Some 1, entry_text, genuine, 2 * Hour); (Some 1, entry_text, genuine, 3 * Hour);
     (Some 1, entry_text, genuine, 3 * Hour + 1); (Some 1, entry_text, genuine, 2 * Hour - 5 * Minute - 1);
     (Some 1, ascii_bytes "x", genuine, 2 * Hour); (None, entry_text, genuine, 2 * Hour);
     (Some 9, entry_text, genuine, 2 * Hour);
     (Some 1, entry_text, toy_token rfc_signer entry_text (2 * Hour), 2 * Hour);
     (Some 1, entry_text, toy_token content_signer entry_text (2 * Hour), 2 * Hour)] =
  [true; true; false; false; false; false; false; false; true].
Proof. vm_compute. reflexivity. Qed.

(** A token with an accuracy parses, one with an accuracy and a nonce does not. *)
Example nonce_unreadable :
  let body := tlv 2 [z_byte 1] ++ oid_tlv [1; 2; 3] ++ tlv 48 (tlv 48 (oid_tlv oidSha256) ++ tlv 4 (Sum256 entry_text))
    ++ tlv 2 [z_byte 7] ++ tlv 24 [z_byte 1] ++ tlv 48 (tlv 2 [z_byte 1]) in
  is_ok (read_tst (tlv 48 body)) = true /\ is_ok (read_tst (tlv 48 (body ++ tlv 2 [z_byte 9]))) = false.
Proof. vm_compute. split; reflexivity. Qed.

(** The answer of an authority to a request, and a request with a nonce. *)
Example signing :
  let net answer := {| new_request := fun _ => None; do_request := fun _ _ => Ok (Ok answer) |} in
  Sign (net (tlv 48 (tlv 48 (tlv 2 [z_byte 0]) ++ genuine))) (Some (authority None)) entry_text = Ok genuine /\
  Sign (net (tlv 48 (tlv 48 (tlv 2 [z_byte 2]) ++ genuine))) (Some (authority None)) entry_text
    = Err (Errorf "TSA status: %d" [AInt 2]) /\
  Sign (net (tlv 48 (tlv 48 (tlv 2 [z_byte 0])))) (Some (authority None)) entry_text = Ok [].
Proof. vm_compute. repeat split; reflexivity. Qed.

Lemma timestamp_accepted_iff_witness :
  token_binds (authority (Some 1)) entry_text genuine (2 * Hour) (2 * Hour) /\
  exists si, parseSignerInfo (content_signer entry_text) = Ok si /\
    (forall signer eContent, signature_covers si signer eContent <->
       check_algorithm (SignatureAlgo si) (Sum256 eContent) (toy_sign 5 entry_text) signer = None).
Proof.
  split.
  - destruct (proj1 (proj1 (timestamp_accepted_iff (Some (authority (Some 1))) entry_text genuine (2 * Hour) (2 * Hour))))
      as (c & [= <-] & H); [vm_compute; reflexivity|exact H].
  - destruct (proj2 (timestamp_accepted_iff None [] [] 0 0) [z_byte 1] [] (oid_tlv oidSha256)
      (oid_tlv oidContentType ++ tlv 49 (oid_tlv oidTSTInfo))
      (tlv 48 (oid_tlv oidMessageDigest ++ tlv 49 (tlv 4 (Sum256 entry_text))))
      (oid_tlv oidECDSAWithSHA256) (toy_sign 5 entry_text)) as (si & H1 & _ & H2).
    + repeat constructor; apply Z.ltb_lt; vm_compute; reflexivity.
    + exists si. split; [exact H1|exact H2].
Defined.

Definition stamped_line : string :=
  json_encode (signed_json {| SEntry := toy_entry "2026-01-01T00:00:00Z" "connected" 5;
    TST := EncodeBase64 (toy_token set_signer
      (ascii_bytes (json_encode (entry_json (toy_entry "2026-01-01T00:00:00Z" "connected" 5)))) (2 * Hour)) |}).
Lemma accepted_line_timestamped_witness : exists der s,
  parse_line stamped_line = Some s /\
  token_binds (authority (Some 1)) (ascii_bytes (json_encode (entry_json (SEntry s)))) der (2 * Hour) (2 * Hour).
Proof.
  assert (forall o : option SignedAuditEntry, match o with Some s => negb (String.eqb (TST s) "") | None => false end = true ->
    exists s, o = Some s /\ TST s <> "") as Hs.
  { intros [s|] H; [|discriminate H]. exists s. split; [reflexivity|]. intros E. rewrite E in H. discriminate H. }
  destruct (Hs (parse_line stamped_line)) as (s & Hp & Ht); [vm_compute; reflexivity|].
  destruct (accepted_line_timestamped (fun _ => {| new_request := fun _ => None; do_request := fun _ _ => Ok (Ok []) |})
    (authority (Some 1)) (2 * Hour) (2 * Hour) stamped_line s Hp Ht) as (der & _ & H); [vm_compute; reflexivity|].
  exists der, s. split; [exact Hp|exact H].
Defined.

Lemma standard_attributes_unread_witness : exists si,
  parseSignerInfo (signer_der [z_byte 1] [] [] (tlv 48 [] ++ []) [] []) = Ok si /\ SignedAttrsSet si = None.
Proof.
  destruct (standard_attributes_unread [z_byte 1] [] [] [] [] [] []) as (si & H1 & H2 & _).
  - repeat constructor.
  - exists si. split; [exact H1|exact H2].
Defined.
End Witnesses.
