(* ===== verification/Supervision.v ===== *)
(** The store of supervision events ([src/supervision_store.go]): recording an
    event as a line, closing, and querying what was recorded.

    Events and their JSON belong to package [types]: the class
    [SupervisionFormat]. *)
From Stdlib Require Import Ascii.
From S2P Require Import Prelude GoStrings GoTime GoJson GoJsonOut GoClock AuditLog AuditQueue JsonLines AuditWrite Sha256.
Local Open Scope string_scope.
Local Open Scope Z_scope.
Local Open Scope list_scope.

(** * Definitions *)

(** Package [types]: a supervision event, what the store reads of it, its
    validation and its JSON. *)
Class SupervisionFormat := {
  SEvent : Type;
  SEOperationID : SEvent -> string; SEDaHash : SEvent -> string; SEAgentID : SEvent -> string;
  SEType : SEvent -> string; SETs : SEvent -> Time; SEActorName : SEvent -> string;
  SEEvidenceRef : SEvent -> string;
  ValidateSupervisionEvent : SEvent -> option error;
  zero_event : SEvent;
  enc_event : SEvent -> result json;
  dec_event : SEvent -> json -> result SEvent;
  SupervisionStepUp : string; SupervisionBreakGlass : string
}.

(** [src/supervision_store.go:TimeRange] *)
Record TimeRange := { TRStart : Time; TREnd : Time }.

(** [src/supervision_store.go:SupervisionQuery] *)
Record SupervisionQuery := {
  SQOperationID : string; SQDaHash : string; SQAgentID : string; SQType : string;
  SQTimeRange : option TimeRange; SQLimit : Z
}.

(** [src/supervision_store.go:SupervisionStore] *)
Record SupervisionStore := {
  SFile : string; SWriter : RotatingFile; STSA : option tsa_service; SClosed : bool
}.

Section Supervision.
  Context {SF : SupervisionFormat}.

(** [src/supervision_store.go:SignedSupervisionEvent] *)
Record SignedSupervisionEvent := { SignedEvent : SEvent; EventTST : string }.
Definition dec_signed_event : json -> result SignedSupervisionEvent := dec_struct (fun s k v =>
  if field_is "event" k then e ← dec_event (SignedEvent s) v; Ok {| SignedEvent := e; EventTST := EventTST s |}
  else if field_is "tst" k then t ← dec_string (EventTST s) v; Ok {| SignedEvent := SignedEvent s; EventTST := t |}
  else Ok s) {| SignedEvent := zero_event; EventTST := "" |}.

(** [src/supervision_store.go:NewSupervisionStore]; [open] is an error of opening
    the file. *)
Definition NewSupervisionStore (open : option error) (file : string) (tsa : option tsa_service) (maxSize maxBak : Z)
    (fs : files) : result (option SupervisionStore) * files :=
  if String.eqb file "" then (Ok None, fs)
  else match open with
  | Some err => (Err err, fs)
  | None =>
      let '(w, fs) := NewRotatingFile file maxSize maxBak fs in
      (Ok (Some {| SFile := file; SWriter := w; STSA := tsa; SClosed := false |}), fs)
  end.

(** [src/supervision_store.go:File] *)
Definition File (s : option SupervisionStore) : string := match s with None => "" | Some s => SFile s end.

(** [src/supervision_store.go:90-107 Record] the line of an event; an event that
    cannot be encoded is signed as the empty text. *)
Definition event_line (tsa : option tsa_service) (at_ : Time) (ev : SEvent) : result string :=
  let tst := match tsa with
    | None => ""
    | Some t =>
        let evJSON := match enc_event ev with Ok j => json_encode j | Err _ => "" end in
        match tsa_sign t at_ (ascii_bytes evJSON) with Some tst => EncodeBase64 tst | None => "" end
    end in
  match enc_event ev with
  | Err err => Err err
  | Ok j => Ok (json_encode (JObj (("event", j) :: omit_str "tst" tst)))
  end.

(** [src/supervision_store.go:Record] of an event, at the instant [at_]. *)
Definition Record_ (env : rotation_env) (at_ : Time) (st : option SupervisionStore) (fs : files) (ev : SEvent)
  : option error * option SupervisionStore * files :=
  match st with
  | None => (Some (Errorf "supervision_store: nil store" []), st, fs)
  | Some s =>
      if SClosed s then (Some (Errorf "supervision_store: closed" []), st, fs)
      else match ValidateSupervisionEvent ev with
      | Some err => (Some err, st, fs)
      | None =>
          match event_line (STSA s) at_ ev with
          | Err err => (Some err, st, fs)
          | Ok data =>
              let '(err, w, fs) := Write env (SWriter s) fs (data +:+ String nl "") in
              (match err with Some err => Some (Errorf "supervision_store: write: %w" [AWrap err]) | None => None end,
               Some {| SFile := SFile s; SWriter := w; STSA := STSA s; SClosed := SClosed s |}, fs)
          end
      end
  end.

(** [src/supervision_store.go:Close] with the answer of closing the file. *)
Definition Close (fault : option error) (st : option SupervisionStore) : option error * option SupervisionStore :=
  match st with
  | None => (None, st)
  | Some s =>
      if SClosed s then (None, st)
      else
        let w := SWriter s in
        (if is_open w then fault else Some (ErrNew "os.ErrClosed"),
         Some {| SFile := SFile s; SClosed := true; STSA := STSA s;
                 SWriter := {| rpath := rpath w; maxSize := maxSize w; maxBak := maxBak w; is_open := false;
                               rsize := rsize w |} |})
  end.

(** [src/supervision_store.go:matchesSupervisionQuery] *)
Definition matchesSupervisionQuery (ev : SEvent) (f : SupervisionQuery) : bool :=
  if negb (String.eqb (SQOperationID f) "") && negb (String.eqb (SEOperationID ev) (SQOperationID f)) then false
  else if negb (String.eqb (SQDaHash f) "") && negb (String.eqb (SEDaHash ev) (SQDaHash f)) then false
  else if negb (String.eqb (SQAgentID f) "") && negb (String.eqb (SEAgentID ev) (SQAgentID f)) then false
  else if negb (String.eqb (SQType f) "") && negb (String.eqb (SEType ev) (SQType f)) then false
  else match SQTimeRange f with
  | None => true
  | Some r =>
      if negb (IsZero (TRStart r)) && Before (SETs ev) (TRStart r) then false
      else negb (negb (IsZero (TREnd r)) && After (SETs ev) (TREnd r))
  end.

(** [src/supervision_store.go:163-170 Query] what a line contributes. *)
Definition query_line (f : SupervisionQuery) (line : string) : option SEvent :=
  match unmarshal dec_signed_event line with
  | Err _ => None
  | Ok s => if matchesSupervisionQuery (SignedEvent s) f then Some (SignedEvent s) else None
  end.

(** [src/supervision_store.go:Query] the events with the error of the scan. *)
Definition Query (st : option SupervisionStore) (fs : files) (f : SupervisionQuery)
  : result (list SEvent * option error) :=
  match st with
  | None => Err (Errorf "supervision_store: nil store" [])
  | Some s =>
      if String.eqb (SFile s) "" then Err (Errorf "supervision_store: no file configured" [])
      else match fs !! SFile s with
      | None => Err (ErrNew "os.PathError")
      | Some text => Ok (scan_select (query_line f) (SQLimit f) 0 [] (lines text))
      end
  end.

(** * Lemmas *)

(** An event whose JSON the store keeps: it is valid, encodes to text of
    valid UTF-8 and small depth, and decodes to itself. *)
Definition storable (ev : SEvent) : Prop :=
  ValidateSupervisionEvent ev = None /\
  exists j, enc_event ev = Ok j /\ clean j = true /\ (depth j <= 90)%nat /\ dec_event zero_event j = Ok ev.

Lemma token_clean tsa at_ text : clean (JStr (match tsa with
    | None => "" | Some t => match tsa_sign t at_ text with Some tst => EncodeBase64 tst | None => "" end end)) = true.
Proof. destruct tsa as [t|]; [|done]. destruct (tsa_sign t at_ text); [apply EncodeBase64_text|done]. Qed.

Lemma event_line_ok tsa at_ ev : storable ev -> exists line, event_line tsa at_ ev = Ok line /\
  (slen line < max_token -> good_line line) /\
  forall f, query_line f line = if matchesSupervisionQuery ev f then Some ev else None.
Proof.
  intros (_ & j & Hj & Hc & Hd & Hdec). unfold event_line. rewrite Hj.
  pose proof (token_clean tsa at_ (ascii_bytes (json_encode j))) as Ht. set (tst := match tsa with None => _ | Some _ => _ end) in *.
  set (ms := ("event", j) :: omit_str "tst" tst).
  assert (clean (JObj ms) = true) as Hms.
  { apply member_clean; [done|done|]. rewrite <- (app_nil_r (omit_str _ _)). by apply omit_clean. }
  assert (depth (JObj ms) <= max_depth)%nat as Hdm.
  { transitivity 91%nat; [|apply max_depth_ge; lia]. apply (depth_obj 90). constructor; [exact Hd|].
    rewrite <- (app_nil_r (omit_str _ _)). apply omit_depth; [cbn; lia|constructor]. }
  exists (json_encode (JObj ms)). split; [done|]. split; [by apply object_line|].
  intros f. unfold query_line, unmarshal. rewrite json_round_trip by done.
  assert (dec_signed_event (JObj ms) = Ok {| SignedEvent := ev; EventTST := tst |}) as ->; [|done].
  unfold dec_signed_event, ms. unfold dec_struct. cbn [foldl].
  change (Ok _ ≫= ?f) with (f {| SignedEvent := zero_event; EventTST := "" |}). cbv beta.
  change (field_is "event" "event") with true. cbv iota. cbn [SignedEvent EventTST]. rewrite Hdec.
  unfold omit_str, omit. destruct (String.eqb_spec tst "") as [->|]; done.
Qed.
End Supervision.

Section SupervisionFacts.
  Context {SF : SupervisionFormat}.

(** Events recorded one after the other, each at its instant; the first error ends it. *)
Fixpoint record_all (st : option SupervisionStore) (fs : files) (evs : list (Time * SEvent))
  : option error * option SupervisionStore * files :=
  match evs with
  | [] => (None, st, fs)
  | (at_, ev) :: evs' =>
      match Record_ no_failure at_ st fs ev with
      | (Some err, st, fs) => (Some err, st, fs)
      | (None, st, fs) => record_all st fs evs'
      end
  end.

(** What an event takes of the file. *)
Definition line_size (tsa : option tsa_service) (ev : Time * SEvent) : Z :=
  match event_line tsa ev.1 ev.2 with Ok line => slen line + 1 | Err _ => 0 end.
Definition sizes (tsa : option tsa_service) (evs : list (Time * SEvent)) : Z := foldr (fun ev n => line_size tsa ev + n) 0 evs.

Lemma sizes_nonneg tsa evs : 0 <= sizes tsa evs.
Proof.
  induction evs as [|ev evs IH]; [done|]. change (0 <= line_size tsa ev + sizes tsa evs).
  unfold line_size. destruct (event_line tsa ev.1 ev.2); unfold slen; lia.
Qed.

(** The file after recording: the lines of the events, appended. *)
Lemma record_all_text s fs evs :
  SClosed s = false -> file_ok (SWriter s) fs -> SFile s = rpath (SWriter s) ->
  Forall (fun ev => storable ev.2 /\ line_size (STSA s) ev <= max_token) evs ->
  rsize (SWriter s) + sizes (STSA s) evs <= maxSize (SWriter s) ->
  exists s' fs' ls, record_all (Some s) fs evs = (None, Some s', fs') /\
    SFile s' = SFile s /\ SClosed s' = false /\
    default "" (fs' !! SFile s) = default "" (fs !! SFile s) +:+ unlines ls /\
    (is_Some (fs !! SFile s) -> is_Some (fs' !! SFile s)) /\
    Forall good_line ls /\
    Forall2 (fun ev line => forall f, query_line f line = if matchesSupervisionQuery ev.2 f then Some ev.2 else None) evs ls.
Proof.
  revert s fs. induction evs as [|[at_ ev] evs IH]; intros s fs Hc Hok Hf Hev Hsz.
  { exists s, fs, []. cbn. rewrite sapp_nil_r. repeat split; try done; constructor. }
  inversion Hev as [|? ? [Hst Hl] Hev']; subst. cbn [fst snd] in Hst.
  destruct (event_line_ok (STSA s) at_ ev Hst) as (line & El & Hgood & Hq).
  cbn [sizes foldr] in Hsz. pose proof (sizes_nonneg (STSA s) evs) as Hnn. unfold line_size in Hsz, Hl. cbn [fst snd] in Hsz, Hl. rewrite El in Hsz, Hl.
  assert (slen (line +:+ String nl "") = slen line + 1) as Hl1 by (unfold slen; rewrite slength_app; cbn; lia).
  change (foldr _ 0 evs) with (sizes (STSA s) evs) in Hsz.
  destruct (append_line (SWriter s) fs line Hok) as (w & fs1 & Hw & Hok1 & Hp1 & Hm1 & Hs1 & Ht1).
  { lia. }
  set (s1 := {| SFile := SFile s; SWriter := w; STSA := STSA s; SClosed := false |}).
  destruct (IH s1 fs1) as (s' & fs' & ls & Hr & H1 & H2 & H3 & H4 & H5 & H6); [done|done|cbn; congruence|done| |].
  { cbn [SWriter STSA s1]. rewrite Hs1, Hm1. lia. }
  exists s', fs', (line :: ls). cbn [record_all]. unfold Record_. rewrite Hc, (proj1 Hst), El, Hw. fold s1.
  rewrite Hr. cbn [SFile s1] in H1, H3, H4. split; [done|]. split; [done|]. split; [done|]. split; [|split; [|split]].
  - rewrite H3, Hf, Ht1. change (default "" (Some ?x)) with x. cbn [unlines]. by rewrite !sapp_assoc.
  - intros _. apply H4. by rewrite Hf, Ht1.
  - constructor; [|done]. apply Hgood. lia.
  - by constructor.
Qed.

(** * Properties *)

(** What a supervision store recorded is what a query returns: events
    recorded one after the other, each at its instant, in a fresh open store, with or without a
    timestamp authority that answers to each call as it likes, are all accepted, and a query gives those that match
    it, unchanged and in the order of recording, up to the limit. *)
Theorem recorded_events_queried s fs evs f
    (Hc : SClosed s = false) (Hok : file_ok (SWriter s) fs) (Hf : SFile s = rpath (SWriter s)) (Hn : SFile s <> "")
    (Hnew : fs !! SFile s = Some "")
    (Hev : Forall (fun ev => storable ev.2 /\ line_size (STSA s) ev <= max_token) evs)
    (Hsz : sizes (STSA s) evs <= maxSize (SWriter s)) :
  exists s' fs', record_all (Some s) fs evs = (None, Some s', fs') /\
    Query (Some s') fs' f = Ok (window (SQLimit f) 0 (List.filter (fun ev => matchesSupervisionQuery ev f) (map snd evs)), None).
Proof.
  destruct (record_all_text s fs evs Hc Hok Hf Hev) as (s' & fs' & ls & Hr & H1 & H2 & H3 & H4 & H5 & H6).
  { destruct Hok as [_ ->]. rewrite <- Hf, Hnew. exact Hsz. }
  exists s', fs'. split; [done|]. rewrite Hnew in H3, H4. destruct (H4 ltac:(done)) as [text Ht].
  rewrite Ht in H3. cbn in H3. subst text. unfold Query. rewrite H1, Ht. apply String.eqb_neq in Hn. rewrite Hn.
  rewrite scan_good by done. do 3 f_equal. clear -H6.
  induction H6 as [|ev line evs ls H _ IH]; [done|]. cbn. rewrite H. destruct (matchesSupervisionQuery ev.2 f); by rewrite IH.
Qed.

(** A closed store keeps nothing: closing twice is closing once, and after it
    no event changes the file and every call says so. *)
Theorem closed_store_refuses fault env at_ s fs ev :
  let '(err, st) := Close fault (Some s) in
  Record_ env at_ st fs ev = (Some (Errorf "supervision_store: closed" []), st, fs) /\
  Close fault st = (None, st) /\ Query st fs = Query (Some s) fs.
Proof.
  unfold Close. destruct (SClosed s) eqn:Ec.
  - split; [|by rewrite Ec]. unfold Record_. by rewrite Ec.
  - done.
Qed.

(** A query selects by every field it names. *)
Lemma matches_iff ev f : matchesSupervisionQuery ev f = true <->
  (SQOperationID f = "" \/ SEOperationID ev = SQOperationID f) /\ (SQDaHash f = "" \/ SEDaHash ev = SQDaHash f) /\
  (SQAgentID f = "" \/ SEAgentID ev = SQAgentID f) /\ (SQType f = "" \/ SEType ev = SQType f) /\
  (forall r, SQTimeRange f = Some r ->
     (TRStart r = zero_time \/ TRStart r <= SETs ev) /\ (TREnd r = zero_time \/ SETs ev <= TREnd r)).
Proof.
  assert (forall a b, negb (String.eqb a "") && negb (String.eqb b a) = false <-> a = "" \/ b = a) as Hs.
  { intros a b. destruct (String.eqb_spec a ""), (String.eqb_spec b a); cbn; intuition congruence. }
  unfold matchesSupervisionQuery. rewrite <- !Hs.
  destruct (negb (String.eqb (SQOperationID f) "") && _); [split; [done|by intros (? & _)]|].
  destruct (negb (String.eqb (SQDaHash f) "") && _); [split; [done|by intros (_ & ? & _)]|].
  destruct (negb (String.eqb (SQAgentID f) "") && _); [split; [done|by intros (_ & _ & ? & _)]|].
  destruct (negb (String.eqb (SQType f) "") && _); [split; [done|by intros (_ & _ & _ & ? & _)]|].
  destruct (SQTimeRange f) as [r|]; [|split; [by intros _; repeat split|done]].
  unfold IsZero, Before, After.
  destruct (Z.eqb_spec (TRStart r) zero_time), (Z.ltb_spec (SETs ev) (TRStart r)),
    (Z.eqb_spec (TREnd r) zero_time), (Z.ltb_spec (TREnd r) (SETs ev)); cbn [negb andb];
    (split; [intros Ht; try done; repeat (split; [done|]); intros r' [= <-]; split; auto; left; done || right; lia
            |intros (_ & _ & _ & _ & Hall); try done; destruct (Hall r eq_refl) as [[?|?] [?|?]]; done || lia]).
Qed.
End SupervisionFacts.

(** * Concrete instances *)
Section Witnesses.
(** An event is an operation, a type and an instant. *)
Definition toy_event : Type := (string * string * Z)%type.
Definition dec_toy (e : toy_event) : json -> result toy_event := dec_struct (fun '(op, ty, z) k v =>
  if field_is "op" k then s ← dec_string op v; Ok (s, ty, z)
  else if field_is "type" k then s ← dec_string ty v; Ok (op, s, z)
  else if field_is "ts" k then n ← dec_int z v; Ok (op, ty, n)
  else Ok (op, ty, z)) e.
Definition toy_supervision : SupervisionFormat := {|
  SEvent := toy_event; SEOperationID := fun e => e.1.1; SEDaHash := fun _ => ""; SEAgentID := fun _ => "";
  SEType := fun e => e.1.2; SETs := fun e => e.2 * Second; SEActorName := fun _ => "alice";
  SEEvidenceRef := fun _ => "";
  ValidateSupervisionEvent := fun e => if String.eqb e.1.1 "" then Some (ErrNew "invalid") else None;
  zero_event := ("", "", 0);
  enc_event := fun '(op, ty, z) => Ok (JObj [("op", JStr op); ("type", JStr ty); ("ts", JNum (int_lit z))]);
  dec_event := dec_toy; SupervisionStepUp := "step_up"; SupervisionBreakGlass := "break_glass" |}.
#[local] Existing Instance toy_supervision.

Definition toy_event_of (op ty : string) (z : Z) : SEvent := (op, ty, z).
Definition three_events : list (Time * SEvent) :=
  [(1, toy_event_of "op-1" "denied" 1); (0, toy_event_of "op-2" "approval" 2); (3, toy_event_of "op-1" "approval" 3)].

Lemma toy_storable op ty z : op <> "" -> utf8_text op = true -> utf8_text ty = true -> 0 <= z < 1000 ->
  storable (toy_event_of op ty z).
Proof.
  intros Hop Ha Hb Hz. split.
  - cbn. by destruct (String.eqb_spec op "").
  - eexists. split; [reflexivity|]. split; [|split].
    + repeat (apply member_clean; [reflexivity|first [assumption|apply int_lit_uint; lia]|]). reflexivity.
    + cbn. lia.
    + assert (dec_int 0 (JNum (int_lit z)) = Ok z) as Hz'.
      { unfold dec_int. by rewrite int_lit_int64 by (unfold int64_max; lia). }
      refine (eq_trans (member_step _ _ (op, "", 0) _ _ _ _) _); [reflexivity|].
      refine (eq_trans (member_step _ _ (op, ty, 0) _ _ _ _) _); [reflexivity|].
      refine (eq_trans (member_step _ _ (op, ty, z) _ _ _ _) _); [|reflexivity].
      change (dec_int 0 (JNum (int_lit z)) ≫= (fun n => Ok (op, ty, n)) = Ok (op, ty, z)). by rewrite Hz'.
Qed.

Definition toy_store : SupervisionStore := {|
  SFile := "s"; SWriter := (NewRotatingFile "s" 4096 1 ∅).1; STSA := Some toy_tsa; SClosed := false |}.
Definition toy_files : files := (NewRotatingFile "s" 4096 1 ∅).2.
Definition approvals : SupervisionQuery := {|
  SQOperationID := "op-1"; SQDaHash := ""; SQAgentID := ""; SQType := "";
  SQTimeRange := Some {| TRStart := 2 * Second; TREnd := zero_time |}; SQLimit := 0 |}.

Lemma recorded_events_queried_witness : exists s' fs',
  record_all (Some toy_store) toy_files three_events = (None, Some s', fs') /\
  Query (Some s') fs' approvals = Ok ([toy_event_of "op-1" "approval" 3], None).
Proof.
  refine (recorded_events_queried toy_store toy_files three_events approvals eq_refl _ eq_refl _ eq_refl _ _).
  - split; vm_compute; reflexivity.
  - done.
  - repeat (constructor; [split; [apply toy_storable; done || lia|apply Z.leb_le; vm_compute; reflexivity]|]). constructor.
  - apply Z.leb_le. vm_compute. reflexivity.
Defined.
End Witnesses.
