(* ===== verification/Decide.v ===== *)
(** The transport-neutral decision ([src/decide.go]) and the parts of
    [src/aicverifier.go], [src/admin.go] and [src/supervision.go] it calls:
    the credential of a request, the pipeline over it, the evidence of the
    outcome, the evidence requirement, and the approval of flagged requests.

    A decision changes what the pipeline changes ([world]), the replay store of
    bearer tokens and the evidence gap counter; it hands records to the evidence
    sink, entries to the audit log and events to the supervision store
    ([effects]).  Hooks of the configuration are functions; an [*http.Request]
    is only passed to them. *)
From S2P Require Import Prelude GoStrings GoTime GoJson Types Sha256 Capability DelegationAuth.
From S2P Require Import Delegation NonceCache Constraints AdmissionTypes Clc Credential Admission Rbac.
From S2P Require Import Risk Mask Revocation Params Spiffe Bearer Evidence Challenge Pipeline AuditLog.
Local Open Scope string_scope.
Local Open Scope Z_scope.
Local Open Scope list_scope.

(** * Definitions *)

(** [src/aicverifier.go:ErrorCode] *)
Inductive ErrorCode := ErrNoCredential | ErrDenied | ErrNoVerifier | ErrBearerNeedsTLS | ErrInvalidBearer
  | ErrChainInvalid | ErrConfig.

#[export] Instance ErrorCode_eq_dec : EqDecision ErrorCode.
Proof. solve_decision. Defined.

(** [src/aicverifier.go:ErrorCode.String] *)
Definition ErrorCode_String (c : ErrorCode) : string :=
  match c with
  | ErrNoCredential => "no_credential"
  | ErrDenied => "access_denied"
  | ErrNoVerifier => "bearer_not_configured"
  | ErrBearerNeedsTLS => "bearer_tls_required"
  | ErrInvalidBearer => "invalid_bearer"
  | ErrChainInvalid => "chain_invalid"
  | ErrConfig => "config_error"
  end.

(** [src/aicverifier.go:AuthMode] an integer and its constants. *)
Definition MTLSOnly : Z := 0.
Definition BearerOnly : Z := 1.
Definition MTLSOrBearer : Z := 2.

(** [src/aicverifier.go:authMode] *)
Definition authMode (m : Z) : Z :=
  if negb (m =? MTLSOnly) && negb (m =? BearerOnly) && negb (m =? MTLSOrBearer) then MTLSOrBearer else m.

(** [src/aicverifier.go:AuthError] *)
Record AuthError `{ChallengeSemantics} := {
  Code : ErrorCode; Status : Z; Message : message; ErrStage : string; ErrEvidence : list RecordRef;
  Problem : option ProblemDetails; ErrSatisfaction : option RequirementResult
}.
Definition auth_error `{ChallengeSemantics} (code : ErrorCode) (status : Z) (msg : message) : AuthError := {|
  Code := code; Status := status; Message := msg; ErrStage := ""; ErrEvidence := []; Problem := None;
  ErrSatisfaction := None |}.

(** [src/aicverifier.go:AuthContext] *)
Record AuthContext `{ChallengeSemantics} := {
  ACClientCert : Certificate; ACPrincipal : string; ACAgentID : string; ACSPIFFEID : string;
  ACRoles : list string; ACCapabilities : list string; ACAIC : option AIC; ACBearer : bool;
  ACSerial : string; ACVerdict : option Verdict; ACReason : string; ACUnresolved : list string;
  ACOperationDecisions : list OperationDecision; ACEvidence : list RecordRef;
  ACSatisfaction : option RequirementResult
}.

(** [src/decide.go:RequestView]; the type of the adaptee request is [R]. *)
Record RequestView {R : Type} `{ChallengeSemantics} := {
  CertChain : list Certificate; BearerToken : string; VerifiedCert : option Certificate;
  TransportSecure : bool; VMethod : string; VPath : string; RawQuery : string;
  Header : gmap string (list string); VClientIP : string; VBody : bytes;
  PresentedCert : option Certificate;
  EvidenceFactsWith : option (AuthContext -> result (list EvidenceFact));
  RequireApprovalWith : option (AuthContext -> bool); HTTPAdapter : option R
}.
Arguments RequestView R {_ _}.

(** [src/supervision.go:RiskAssessment] as the decision fills it. *)
Record RiskAssessment := {
  RAOperationID : string; RAAgentID : string; RAPrincipalUid : string; RADAHash : string;
  RACapabilities : list string; RAOperation : string; RequestedParams : string
}.
(** [src/supervision.go:SupervisionResult] *)
Record SupervisionResult := {
  SDecision : string; Approver : string; SReason : string; REvidenceRef : string; DecidedAt : Time
}.
(** [pki.SupervisionDecisionApproved] *)
Definition SupervisionDecisionApproved := "approved".
(** [src/supervision.go:SupervisionResult.Approved] *)
Definition Approved (r : option SupervisionResult) : bool :=
  match r with None => false | Some r => String.eqb (SDecision r) SupervisionDecisionApproved end.

(** [pki.SupervisionEvent]: whether it is an approval, its operation, actor and
    reason. *)
Record SupervisionEvent := { SEApproved : bool; SERisk : RiskAssessment; SEActor : string; SEReason : message }.

(** [src/admin.go:authPolicyBundle] *)
Record authPolicyBundle := {
  BPolicy : option AuthorizationPolicy; BConstraints : option ConstraintRegistry;
  BValidators : option ParameterValidatorRegistry
}.

(** [src/aicverifier.go:Config] and the [authenticator] built from it, as the
    decision reads them; caches, stores and loggers are in the state, their
    presence here. *)
Record authenticator {R : Type} `{ChallengeSemantics} `{ClcSemantics} `{X509} `{AicJwt} := {
  cfgAuthMode : Z; cRequireAIC : bool; cRequiredCapabilities : list string;
  cRequiredOperations : list Operation;
  cUnresolvedEvaluator : option (Operation -> list string -> bool); cDischargeObligations : bool;
  cObligationsUnderstood : list string; cRequireFreshDecisionContext : bool;
  cDecisionContext : option DecisionContext; cDisallowRepresentative : bool; cRequireUserAuth : bool;
  cEnforceConstraints : bool; cUserCert : option Certificate;
  cUserCertResolver : option (bytes -> result (option Certificate));
  cPluginRegistry : option PluginRegistry; cCapabilityRegistry : option CapabilityRegistry;
  cAuthorizationPolicy : option AuthorizationPolicy; cConstraints : option ConstraintRegistry;
  cParameterValidators : option ParameterValidatorRegistry;
  cEvidence : option EvidenceConfig; cEvidenceRequirement : option Requirement;
  cEvidenceFacts : option (option R -> AuthContext -> result (list EvidenceFact));
  cChallenges : option ChallengeConfig;
  cRequireApproval : option (AuthContext -> R -> bool);
  cApprovalRequester : option (RiskAssessment -> result (option SupervisionResult));
  cSupervisionStore : bool;
  tlsCAs : option CertPool; verifier : option JWTVerifier; a_crl : option CRLCache; a_audit : bool;
  a_nonceCache : bool; policy : option authPolicyBundle
}.
Arguments authenticator R {_ _ _ _ _}.

(** The readings of a decision. *)
Record decide_env := {
  d_pipeline : pipeline_clock; d_bearer_now : Time; d_bearer : bearer_clock; d_emission : emission_env;
  d_challenge : challenge_env; d_requirement_now : Time; d_operation_id : string
}.

(** What a decision shares with others, and what it hands out. *)
Record decide_state := { s_world : world; s_replay : option ReplayStore.memReplayStore; s_gaps : option Z }.

Record effects `{EvidenceSemantics} := {
  x_pipeline : output; x_audit : list (AuditEntry message); x_emitted : list emitted;
  x_supervision : list SupervisionEvent
}.

(** [url.QueryUnescape]. *)
Fixpoint QueryUnescape (s : string) : result string :=
  match s with
  | EmptyString => Ok ""
  | String c s' =>
      if code c =? 37 then
        match s' with
        | String h (String l s'') =>
            match from_hex_char h, from_hex_char l with
            | Some a, Some b =>
                match QueryUnescape s'' with
                | Ok t => Ok (String (chr (a * 16 + b)) t) | Err e => Err e end
            | _, _ => Err (Errorf "invalid URL escape %q" [AStr (stake 3 s)])
            end
        | _ => Err (Errorf "invalid URL escape %q" [AStr s])
        end
      else match QueryUnescape s' with
           | Ok t => Ok (String (if code c =? 43 then chr 32 else c) t) | Err e => Err e end
  end.

(** [strings.Cut]: the text before and after the first [c]. *)
Fixpoint cut (c : Ascii.ascii) (s : string) : string * string :=
  match s with
  | EmptyString => ("", "")
  | String d s' => if Ascii.eqb c d then ("", s')
                   else let '(a, b) := cut c s' in (String d a, b)
  end.

(** One setting of a query: its key and value, none for an empty one. *)
Definition query_setting (s : string) : result (option (string * string)) :=
  if contains_byte (chr 59) s then Err (Errorf "invalid semicolon separator in query" [])
  else if String.eqb s "" then Ok None
  else let '(k, v) := cut (chr 61) s in
       match QueryUnescape k with
       | Err e => Err e
       | Ok k => match QueryUnescape v with Err e => Err e | Ok v => Ok (Some (k, v)) end
       end.

(** [src/decide.go:parseRawQuery] a query with any malformed setting is empty. *)
Definition parseRawQuery (q : string) : gmap string (list string) :=
  match map_result query_setting (split_byte (chr 38) q) with
  | Err _ => ∅
  | Ok l => foldl (fun m kv => match kv with
      | None => m
      | Some (k, v) => <[k := default [] (m !! k) ++ [v]]> m end) ∅ l
  end.

Section Decide.
  Context {R : Type} {CN : CapabilityNames} {CS : ClcSemantics} {HF : HashFunction} {PM : PkiMethods}
          {DC : DACrypto} {CP : CertificateParser} {CE : CRLEnv} {OE : OCSPEnv} {UP : URLParser}
          {X : X509} {J : AicJwt} {ES : EvidenceSemantics} {CH : ChallengeSemantics}.
  Context (EqualFold : string -> string -> bool).

(** [src/supervision.go:NewSummaryFromBody] *)
Definition NewSummaryFromBody (body : bytes) : string :=
  if zlen body =? 0 then ""
  else "sha256:" +:+ hex_encode (Sum256 body) +:+ ";bytes:" +:+ pretty.pretty (Z.to_N (zlen body)).

(** [src/decide.go:httpFacts] the first value of each header. *)
Definition httpFacts (v : RequestView R) (body : bytes) : HTTPFacts := {|
  Method := VMethod v; URLPath := VPath v; Query := parseRawQuery (RawQuery v);
  Headers := omap head (Header v); Body := body |}.

(** [src/decide.go:RequestView.TraceID] *)
Definition View_TraceID (v : RequestView R) : string :=
  match Header v !! "X-Request-Id" with Some (h :: _) => h | _ => "" end.

(** [src/aicverifier.go:buildChain] *)
Definition buildChain (pool : option CertPool) (chain : list Certificate) : option error :=
  match chain with
  | [] => Some (Errorf "empty certificate chain" [])
  | leaf :: rest =>
      match pool with
      | None => Some (Errorf "mTLS CA pool not configured; client certificate cannot be verified" [])
      | Some p =>
          match x509_Verify leaf p (Some rest) with
          | Some err => Some (Errorf "certificate chain verification failed: %w" [AWrap err])
          | None => None
          end
      end
  end.

(** What [resolveCredential] finds: the chain, the client certificate, and
    whether it came from a bearer token. *)
Record credential := { cr_chain : list Certificate; cr_cert : option Certificate; cr_bearer : bool }.

(** [src/decide.go:resolveCredential] and the replay store after it. *)
Definition resolveCredential (a : authenticator R) (env : decide_env) (view : RequestView R)
    (replay : option ReplayStore.memReplayStore)
  : (credential + AuthError) * option ReplayStore.memReplayStore :=
  match VerifiedCert view with
  | Some vc =>
      (inl {| cr_chain := match CertChain view with [] => [vc] | c => c end; cr_cert := Some vc;
              cr_bearer := false |}, replay)
  | None =>
      let mode := authMode (cfgAuthMode a) in
      if (0 <? zlen (CertChain view)) && ((mode =? MTLSOnly) || (mode =? MTLSOrBearer)) then
        (inl {| cr_chain := CertChain view; cr_cert := head (CertChain view); cr_bearer := false |}, replay)
      else if ((mode =? BearerOnly) || (mode =? MTLSOrBearer)) && negb (String.eqb (BearerToken view) "") then
        match verifier a with
        | None => (inr (auth_error ErrNoVerifier 401 (Errorf "bearer auth not configured" [])), replay)
        | Some v =>
            if negb (TransportSecure view) then
              (inr (auth_error ErrBearerNeedsTLS 401 (Errorf "bearer token requires a TLS transport" [])), replay)
            else
              let v := {| roots := roots v; expectedIssuer := expectedIssuer v;
                          expectedAudience := expectedAudience v; nonceStore := replay |} in
              match VerifyBearer v (BearerToken view) (d_bearer_now env) [] (d_bearer env) with
              | (Err err, replay) =>
                  (inr (auth_error ErrInvalidBearer 401 (Errorf "invalid bearer token: %v" [AErr err])), replay)
              | (Ok (cert, _), replay) =>
                  (inl {| cr_chain := [cert]; cr_cert := Some cert; cr_bearer := true |}, replay)
              end
        end
      else (inl {| cr_chain := []; cr_cert := None; cr_bearer := false |}, replay)
  end.

(** [src/decide.go:pipelineConfig] a reloaded policy wins field by field. *)
Definition pipelineConfig (a : authenticator R) (view : RequestView R) (opBody : bytes) (bearer : bool)
  : PipelineConfig :=
  let over {A} (f : authPolicyBundle -> option A) (d : option A) : option A :=
    match policy a with
    | Some b => match f b with Some x => Some x | None => d end
    | None => d
    end in {|
  PCRLCache := a_crl a; AllowRoles := []; CheckScope := CheckFullChain; PRequireAIC := cRequireAIC a;
  RequireSPIFFE := false; AllowedSPIFFEIDs := []; SPIFFETrustDomain := ""; PRequiredProtocol := "";
  PRequiredRuleId := ""; PRequiredCapabilities := cRequiredCapabilities a;
  POperations := cRequiredOperations a; PUnresolvedEvaluator := cUnresolvedEvaluator a;
  PDischargeObligations := cDischargeObligations a; PObligationsUnderstood := cObligationsUnderstood a;
  PRequireFreshDecisionContext := cRequireFreshDecisionContext a; PDecisionContext := cDecisionContext a;
  PDisallowRepresentative := cDisallowRepresentative a; PRequireUserPermission := false;
  PRejectOverflow := false; PRequireUserAuth := cRequireUserAuth a;
  PSkipDelegationAuthVerification := bearer; PEnforceCapSizeConstraints := false; PEnforceSize32 := false;
  CapabilityPluginRegistry := cPluginRegistry a; PCapabilityRegistry := cCapabilityRegistry a;
  CapabilityPluginResolver := None; PAuditLogger := a_audit a; PNonceCache := a_nonceCache a;
  PClientIP := VClientIP view; PUserCert := cUserCert a; PUserCertResolver := cUserCertResolver a;
  PEnforceConstraints := cEnforceConstraints a; PStrictConstraints := true;
  PAuthorizationPolicy := over BPolicy (cAuthorizationPolicy a);
  PConstraintRegistry := over BConstraints (cConstraints a);
  ParameterValidators := over BValidators (cParameterValidators a); PPolicyServer := None;
  PCredentialBundle := None; PolicyVersion := 0; OfflineMaxCertLifetime := 0;
  PHTTPFacts := Some (httpFacts view opBody) |}.

(** [src/audit.go:AICFingerprint] *)
Definition AICFingerprint (cert : option Certificate) : string :=
  match cert with
  | None => ""
  | Some c =>
      match list_find (fun e => e.1 = OIDAIC) (Extensions c) with
      | Some (_, (_, ext)) => if zlen ext =? 0 then "" else hex_encode (Sum256 ext)
      | None => ""
      end
  end.

(** [src/audit.go:DAHash] *)
Definition DAHash (cert : option Certificate) : string :=
  match cert with
  | None => ""
  | Some c => match ParseAIC c with Ok (Some aic) => DAHashFromAIC (Some aic) | _ => "" end
  end.

(** [src/audit.go:NewAuditEntryFromConn] for a certificate. *)
Definition NewAuditEntryFromConn (srcIP mappingName target : string) (cert : Certificate) : AuditEntry message :=
  let aic := match ParseAIC cert with Ok (Some a) => Some a | _ => None end in {|
  AETime := ""; AEAction := ActionConnected; AESrcIP := srcIP; AEClientCN := CommonName cert;
  AEClientSerial := MaskCertSerial (serial_Text16 (SerialNumber cert)); AERoles := ExtractRoles cert;
  AEMapping := mappingName; AETarget := target; AETargetID := ""; AEDuration := "";
  AEDenyReason := Errorf "" []; AEBytesIn := 0; AEBytesOut := 0; AETraceId := ""; AESessionId := "";
  AEGatewayId := ""; AEProtocol := ""; AEAgentId := match aic with Some a => AgentId a | None => "" end;
  AESPIFFEID := ExtractSPIFFEIDFromCert cert;
  AEPrincipalUid := match aic with Some a => PrincipalUid_String (AICPrincipal a) | None => "" end;
  AEDelegationMode := match aic with Some a => DelegationMode a | None => 0 end; AEDecision := "";
  AECapabilities := match aic with Some a => map CapabilityId (Capabilities a) | None => [] end;
  AELevel := ""; AEDaHash := DAHash (Some cert); AEAICFingerprint := AICFingerprint (Some cert);
  AEPolicyVersion := 0; AERecordDigest := "" |}.

(** [src/aicverifier.go:904-909 auditAdmission] an entry with the verdict. *)
Definition admission_entry (e : AuditEntry message) (denied : bool) (reason : message) (trace digest : string)
  : AuditEntry message := {|
  AETime := AETime e; AEAction := if denied then ActionDenied else AEAction e; AESrcIP := AESrcIP e;
  AEClientCN := AEClientCN e; AEClientSerial := AEClientSerial e; AERoles := AERoles e;
  AEMapping := AEMapping e; AETarget := AETarget e; AETargetID := AETargetID e; AEDuration := AEDuration e;
  AEDenyReason := if denied then reason else AEDenyReason e; AEBytesIn := AEBytesIn e;
  AEBytesOut := AEBytesOut e; AETraceId := trace; AESessionId := AESessionId e; AEGatewayId := AEGatewayId e;
  AEProtocol := AEProtocol e; AEAgentId := AEAgentId e; AESPIFFEID := AESPIFFEID e;
  AEPrincipalUid := AEPrincipalUid e; AEDelegationMode := AEDelegationMode e; AEDecision := AEDecision e;
  AECapabilities := AECapabilities e; AELevel := AELevel e; AEDaHash := AEDaHash e;
  AEAICFingerprint := AEAICFingerprint e; AEPolicyVersion := AEPolicyVersion e; AERecordDigest := digest |}.

(** [src/aicverifier.go:auditAdmission] the entries written. *)
Definition auditAdmission (a : authenticator R) (view : RequestView R) (cert : Certificate)
    (refs : list RecordRef) (denied : bool) (reason : message) : list (AuditEntry message) :=
  match refs with
  | [] => []
  | ref :: _ =>
      if a_audit a then
        [admission_entry (NewAuditEntryFromConn (VClientIP view) (VMethod view) (VPath view) cert)
           denied reason (View_TraceID view) (RefDigest ref)]
      else []
  end.

(** [src/aicverifier.go:admissionFacts]; the operations are those decided, or
    those the deployment requires when none was. *)
Definition admissionFacts (a : authenticator R) (view : RequestView R) (ods : list OperationDecision)
  : list AdmissionFact :=
  let leaf := match PresentedCert view with
    | Some c => [{| FactType := "client-cert"; FactDigest := {| Alg := DigestAlgSHA256; Value := Sum256 (Raw c) |};
                    FactNote := "leaf certificate presented on this connection" |}]
    | None => [] end in
  let ops := match ods with
    | [] => cRequiredOperations a
    | _ => map (fun od => {| OpID := ODID od; OpParams := ODParams od |}) ods end in
  leaf ++ match ops with
    | [] => []
    | _ => match DigestOf_operations ops with
           | Err _ => []
           | Ok d => [{| FactType := "requested-operations"; FactDigest := d;
                         FactNote := "operations this connection asked CLC to decide" |}]
           end
    end.

(** [src/aicverifier.go:940-947 emitEvidence] the configuration with the
    deployment's requirement when it names none. *)
Definition with_requirement (c : EvidenceConfig) (r : option Requirement) : EvidenceConfig := {|
  Sink := Sink c; Strict := Strict c; TTL := TTL c; Audience := Audience c;
  CfgRecorderID := CfgRecorderID c; HasOnError := HasOnError c; HasGaps := HasGaps c; Sign := Sign c;
  KeyID := KeyID c; Signer := Signer c; SignKeyFile := SignKeyFile c;
  RequireSignature := RequireSignature c; EmitOutcome := EmitOutcome c;
  CfgRequirement := match CfgRequirement c with Some x => Some x | None => r end; Profile := Profile c;
  Recorder := Recorder c; profileNoDecision := profileNoDecision c |}.

(** [src/aicverifier.go:emitEvidence] with the gap counter after it. *)
Definition emitEvidence (a : authenticator R) (env : decide_env) (view : RequestView R)
    (clientCert : Certificate) (res : PipelineResult) (outcome : string) (gaps : option Z)
  : list RecordRef * list emitted * option error * option Z :=
  match cEvidence a, POperationDecisions res with
  | None, _ | _, [] => ([], [], None, gaps)
  | Some cfg, ods =>
      let ctx := {|
        Evidence.Facts := admissionFacts a view ods; RecorderID := CfgRecorderID cfg; OperationID := "";
        EMethod := VMethod view; EPath := VPath view; TraceID := View_TraceID view;
        CtxPrincipal := PPrincipal res; AgentID := PAgentId res; Serial := PSerial res;
        CtxOutcome := outcome; At := ev_now (d_emission env) |} in
      let '(refs, handed, err) :=
        EmitDecisionRecords (d_emission env) (Some (with_requirement cfg (cEvidenceRequirement a))) ctx
          (Some clientCert) (PAIC res) (PPrincipalAuthorization res) (cUserCert a) ods in
      (refs, handed, err,
       match err with Some _ => if HasGaps cfg then GapCounter_Inc gaps else gaps | None => gaps end)
  end.

(** [src/decide.go:161-163 decide] an emission error refuses under [Strict]. *)
Definition strict_failure (a : authenticator R) (err : option error) : option error :=
  match err, cEvidence a with
  | Some e, Some cfg => if Strict cfg then Some e else None
  | _, _ => None
  end.

(** [src/aicverifier.go:checkEvidenceRequirement] the refusal, or the evaluation
    that satisfied the requirement. *)
Definition checkEvidenceRequirement (a : authenticator R) (env : decide_env) (view : RequestView R)
    (ac : AuthContext) : option RequirementResult + AuthError :=
  match cEvidenceRequirement a with
  | None => inl None
  | Some req =>
      match Requirement_Validate req with
      | Some err => inr (auth_error ErrConfig 403 (Errorf "evidence_requirement_invalid: %v" [AErr err]))
      | None =>
          match (match EvidenceFactsWith view with
                 | Some f => f ac
                 | None => match cEvidenceFacts a with
                           | Some f => f (HTTPAdapter view) ac | None => Ok [] end
                 end) with
          | Err err => inr (auth_error ErrDenied 403 (Errorf "evidence_facts_unavailable: %v" [AErr err]))
          | Ok facts =>
              let now := match cChallenges a with
                         | Some c => default (d_requirement_now env) (NowFn c)
                         | None => d_requirement_now env end in
              match EvaluateRequirement req facts now with
              | Err err => inr (auth_error ErrDenied 403 (Errorf "evidence_requirement_error: %v" [AErr err]))
              | Ok sat =>
                  if Satisfied sat then inl (Some sat)
                  else
                    let problem := match evidenceProblem (cChallenges a) (cRequiredOperations a) req sat now
                        (Some (VMethod view, VPath view)) (d_challenge env) with
                      | Ok p => p | Err _ => None end in
                    inr {| Code := ErrDenied; Status := 403;
                           Message := Errorf "evidence %s for requirement %s (missing roles: %v)"
                             [AStr (SatVerdict sat); AStr (RequirementID req); AStrs (MissingRoles sat)];
                           ErrStage := ""; ErrEvidence := []; Problem := problem; ErrSatisfaction := Some sat |}
              end
          end
      end
  end.

(** [src/aicverifier.go:699-708 supervise] *)
Definition needs_approval (a : authenticator R) (view : RequestView R) (ac : AuthContext) : bool :=
  match RequireApprovalWith view with
  | Some f => f ac
  | None =>
      match HTTPAdapter view with
      | Some r => match cRequireApproval a with Some f => f ac r | None => false end
      | None => false
      end
  end.

(** [src/aicverifier.go:709-717 supervise] *)
Definition risk_of (env : decide_env) (view : RequestView R) (ac : AuthContext) : RiskAssessment := {|
  RAOperationID := d_operation_id env; RAAgentID := ACAgentID ac; RAPrincipalUid := ACPrincipal ac;
  RADAHash := DAHash (Some (ACClientCert ac)); RACapabilities := ACCapabilities ac;
  RAOperation := VMethod view +:+ " " +:+ VPath view; RequestedParams := NewSummaryFromBody (VBody view) |}.

(** [src/aicverifier.go:noteSupervision] *)
Definition noteSupervision (a : authenticator R) (approved : bool) (risk : RiskAssessment) (actor : string)
    (reason : message) : list SupervisionEvent :=
  if cSupervisionStore a
  then [{| SEApproved := approved; SERisk := risk; SEActor := actor; SEReason := reason |}] else [].

(** [src/aicverifier.go:supervise] the refusal, if any, and the events kept; no
    requester answers nothing. *)
Definition supervise (a : authenticator R) (env : decide_env) (view : RequestView R) (ac : AuthContext)
  : option AuthError * list SupervisionEvent :=
  if negb (needs_approval a view ac) then (None, [])
  else
    let risk := risk_of env view ac in
    let refused := Some (auth_error ErrDenied 403 (Errorf "approval_required" [])) in
    match (match cApprovalRequester a with Some f => f risk | None => Ok None end) with
    | Err err =>
        (refused, noteSupervision a false risk "aic-verifier" (Errorf "approval_required: %v" [AErr err]))
    | Ok sr =>
        let actor := match sr with Some s => Approver s | None => "aic-verifier" end in
        let reason := match sr with Some s => SReason s | None => "" end in
        if negb (Approved sr)
        then (refused, noteSupervision a false risk actor (Errorf "approval_required: %s" [AStr reason]))
        else (None, noteSupervision a true risk actor (Errorf "%s" [AStr reason]))
    end.

(** [src/decide.go:144-180 decide] the context of an admission. *)
Definition auth_context (cert : Certificate) (bearer : bool) (res : PipelineResult) (refs : list RecordRef)
    (sat : option RequirementResult) : AuthContext := {|
  ACClientCert := cert; ACPrincipal := PPrincipal res; ACAgentID := PAgentId res;
  ACSPIFFEID := SPIFFEID_ res; ACRoles := PRoles res;
  ACCapabilities := match PAIC res with
    | Some a => map CapabilityId (Capabilities a)
    | None => match PPrincipalAuthorization res with Some p => map CapabilityId (Grants p) | None => [] end
    end;
  ACAIC := PAIC res; ACBearer := bearer; ACSerial := PSerial res; ACVerdict := CLCVerdict res;
  ACReason := CLCReason res; ACUnresolved := CLCUnresolved res;
  ACOperationDecisions := POperationDecisions res; ACEvidence := refs; ACSatisfaction := sat |}.

(** [src/decide.go:111-123 decide] the chain of an mTLS peer. *)
Definition check_peer_chain (a : authenticator R) (view : RequestView R) (c : credential) : option AuthError :=
  match VerifiedCert view with
  | Some _ => None
  | None =>
      if cr_bearer c then None
      else match tlsCAs a with
      | None => if 0 <? zlen (cr_chain c) then
                  Some (auth_error ErrChainInvalid 403
                    (Errorf "client certificate presented but no mTLS CA configured to verify it" []))
                else None
      | Some _ => match buildChain (tlsCAs a) (cr_chain c) with
                  | Some err => Some (auth_error ErrChainInvalid 403 err)
                  | None => None
                  end
      end
  end.

Definition no_effects : effects := {| x_pipeline := no_output; x_audit := []; x_emitted := []; x_supervision := [] |}.

(** [src/decide.go:182-198 decide] after a grant. *)
Definition admit_granted (a : authenticator R) (env : decide_env) (view : RequestView R) (cert : Certificate)
    (bearer : bool) (res : PipelineResult) (refs : list RecordRef)
  : (AuthContext + AuthError) * list SupervisionEvent :=
  match checkEvidenceRequirement a env view (auth_context cert bearer res refs None) with
  | inr err => (inr err, [])
  | inl sat =>
      let ac := auth_context cert bearer res refs sat in
      match supervise a env view ac with
      | (Some err, evs) => (inr err, evs)
      | (None, evs) => (inl ac, evs)
      end
  end.

(** [src/decide.go:126-198 decide] over the result of the pipeline and what it
    wrote: the answer, the gaps and the effects. *)
Definition conclude (a : authenticator R) (env : decide_env) (view : RequestView R) (bearer : bool)
    (cert : Certificate) (res : PipelineResult) (out : output) (gaps : option Z)
  : (AuthContext + AuthError) * option Z * effects :=
  let outcome := if Granted res then EvidenceAdmitted else EvidenceRefused in
  let '(refs, handed, evErr, gaps) := emitEvidence a env view cert res outcome gaps in
  let fx audit sup := {| x_pipeline := out; x_audit := audit; x_emitted := handed; x_supervision := sup |} in
  let unavailable e := inr {| Code := ErrDenied; Status := 403;
    Message := Errorf "evidence_unavailable: %v" [AErr e]; ErrStage := ""; ErrEvidence := refs;
    Problem := None; ErrSatisfaction := None |} in
  if Granted res then
    match strict_failure a evErr with
    | Some e => (unavailable e, gaps, fx [] [])
    | None =>
        let '(r, sup) := admit_granted a env view cert bearer res refs in
        (r, gaps, fx (auditAdmission a view cert refs false (Errorf "" [])) sup)
    end
  else
    let audit := auditAdmission a view cert refs true (DenyReason res) in
    match strict_failure a evErr with
    | Some e => (unavailable e, gaps, fx audit [])
    | None =>
        let problem := match problemForResult (POperationDecisions res) (cChallenges a) (d_challenge env)
                               (DenyReason res) with Ok p => p | Err _ => None end in
        (inr {| Code := ErrDenied; Status := 403; Message := DenyReason res; ErrStage := "";
                ErrEvidence := refs; Problem := problem; ErrSatisfaction := None |}, gaps, fx audit [])
    end.

(** [src/decide.go:125-198 decide] over a credential; the risk monitor is not
    wired in. *)
Definition decide_credential (a : authenticator R) (env : decide_env) (gcr : option CapabilityRegistry)
    (view : RequestView R) (c : credential) (cert : Certificate) (st : decide_state)
  : (AuthContext + AuthError) * decide_state * effects :=
  let w := {| w_ocsp := w_ocsp (s_world st); w_nonce := w_nonce (s_world st); w_risk := None |} in
  let '(res, w, out) := RunAccessPipeline EqualFold (d_pipeline env) gcr (cr_chain c)
                          (pipelineConfig a view (VBody view) (cr_bearer c)) w in
  let '(r, gaps, fx) := conclude a env view (cr_bearer c) cert res out (s_gaps st) in
  (r, {| s_world := w; s_replay := s_replay st; s_gaps := gaps |}, fx).

(** [src/decide.go:decide] *)
Definition decide_request (a : authenticator R) (env : decide_env) (gcr : option CapabilityRegistry)
    (view : RequestView R) (st : decide_state) : (AuthContext + AuthError) * decide_state * effects :=
  let '(r, replay) := resolveCredential a env view (s_replay st) in
  let st := {| s_world := s_world st; s_replay := replay; s_gaps := s_gaps st |} in
  match r with
  | inr err => (inr err, st, no_effects)
  | inl c =>
      match cr_cert c with
      | None => (inr (auth_error ErrNoCredential 401 (Errorf "no client credential presented" [])), st, no_effects)
      | Some cert =>
          match check_peer_chain a view c with
          | Some err => (inr err, st, no_effects)
          | None => decide_credential a env gcr view c cert st
          end
      end
  end.

(** [src/admin.go:DecisionMetrics]: its counters and the times of the last
    refusal and grant. *)
Record DecisionMetrics := {
  DecideTotal : Z; MGranted : Z; MDenied : Z; ConfigReload : Z; lastErr : option Time; lastOK : option Time
}.
Definition wrapu64 (z : Z) : Z := z mod 2 ^ 64.

(** [src/admin.go:noteResult] *)
Definition noteResult (m : DecisionMetrics) (denied : bool) (now : Time) : DecisionMetrics :=
  if denied then
    {| DecideTotal := DecideTotal m; MGranted := MGranted m; MDenied := wrapu64 (MDenied m + 1);
       ConfigReload := ConfigReload m; lastErr := Some now; lastOK := lastOK m |}
  else
    {| DecideTotal := DecideTotal m; MGranted := wrapu64 (MGranted m + 1); MDenied := MDenied m;
       ConfigReload := ConfigReload m; lastErr := lastErr m; lastOK := Some now |}.

(** [src/admin.go:Healthy] *)
Definition Healthy (m : option DecisionMetrics) : bool :=
  match m with
  | None => true
  | Some m =>
      match lastErr m, lastOK m with
      | None, _ => true
      | Some _, None => false
      | Some e, Some k => After k e
      end
  end.

(** [src/decide.go:authenticator.Decide] *)
Definition Decide_ (a : authenticator R) (env : decide_env) (gcr : option CapabilityRegistry)
    (view : RequestView R) (st : decide_state) (m : DecisionMetrics) (now : Time)
  : (AuthContext + AuthError) * decide_state * effects * DecisionMetrics :=
  let m := {| DecideTotal := wrapu64 (DecideTotal m + 1); MGranted := MGranted m; MDenied := MDenied m;
              ConfigReload := ConfigReload m; lastErr := lastErr m; lastOK := lastOK m |} in
  let '(r, st, fx) := decide_request a env gcr view st in
  (r, st, fx, noteResult m (match r with inr _ => true | inl _ => false end) now).

(** [src/admin.go:validateReloadPolicy] *)
Definition validateReloadPolicy (b : authPolicyBundle) : option error :=
  match BPolicy b with
  | None => Some (Errorf "aic-verifier: reload: policy is nil" [])
  | Some p =>
      if String.eqb (Version p) "" then Some (Errorf "aic-verifier: reload: policy missing version" [])
      else if (size (Roles p) =? 0)%nat then Some (Errorf "aic-verifier: reload: policy has no roles" [])
      else None
  end.

(** [src/admin.go:reload] the bundle in force after it, and the counters. *)
Definition reload (current : option authPolicyBundle) (b : option authPolicyBundle) (m : DecisionMetrics)
  : option error * option authPolicyBundle * DecisionMetrics :=
  match b with
  | None => (Some (Errorf "aic-verifier: reload: nil bundle" []), current, m)
  | Some b =>
      match validateReloadPolicy b with
      | Some err => (Some err, current, m)
      | None => (None, Some b,
          {| DecideTotal := DecideTotal m; MGranted := MGranted m; MDenied := MDenied m;
             ConfigReload := wrapu64 (ConfigReload m + 1); lastErr := lastErr m; lastOK := lastOK m |})
      end
  end.
End Decide.

Section DecideFacts.
  Context {R : Type} {CN : CapabilityNames} {CS : ClcSemantics} {HF : HashFunction} {PM : PkiMethods}
          {DC : DACrypto} {CP : CertificateParser} {CE : CRLEnv} {OE : OCSPEnv} {UP : URLParser}
          {X : X509} {J : AicJwt} {ES : EvidenceSemantics} {CH : ChallengeSemantics}.
  Context (EqualFold : string -> string -> bool).
  Implicit Types (a : authenticator R) (view : RequestView R).

(** * Lemmas *)

(** The pipeline run of a decision. *)
Definition pipeline_run a env gcr view (c : credential) (st : decide_state) :=
  RunAccessPipeline EqualFold (d_pipeline env) gcr (cr_chain c)
    (pipelineConfig a view (VBody view) (cr_bearer c))
    {| w_ocsp := w_ocsp (s_world st); w_nonce := w_nonce (s_world st); w_risk := None |}.

(** The evidence of a decision. *)
Definition decision_evidence a env view (cert : Certificate) (res : PipelineResult) (st : decide_state) :=
  emitEvidence a env view cert res (if Granted res then EvidenceAdmitted else EvidenceRefused) (s_gaps st).

(** What [decide] does before the pipeline, as an outcome. *)
Lemma decide_request_cases a env gcr view st r st' fx :
  decide_request EqualFold a env gcr view st = (r, st', fx) ->
  (exists err, r = inr err /\ fx = no_effects /\
     st' = {| s_world := s_world st; s_replay := s_replay st'; s_gaps := s_gaps st |}) \/
  (exists c cert replay, resolveCredential a env view (s_replay st) = (inl c, replay) /\
     cr_cert c = Some cert /\ check_peer_chain a view c = None /\
     decide_credential EqualFold a env gcr view c cert
       {| s_world := s_world st; s_replay := replay; s_gaps := s_gaps st |} = (r, st', fx)).
Proof.
  unfold decide_request. destruct (resolveCredential _ _ _ _) as [[c|err] replay] eqn:Er; cycle 1.
  { intros [= <- <- <-]. left. by exists err. }
  destruct (cr_cert c) as [cert|] eqn:Ec.
  2: { intros [= <- <- <-]. left. eexists. done. }
  destruct (check_peer_chain _ _ _) as [err|] eqn:Ek.
  { intros [= <- <- <-]. left. eexists. done. }
  intros H. right. by exists c, cert, replay.
Qed.

Lemma decide_credential_inl a env gcr view c cert st ac st' fx :
  decide_credential EqualFold a env gcr view c cert st = (inl ac, st', fx) ->
  let res := (pipeline_run a env gcr view c st).1.1 in
  let ev := decision_evidence a env view cert res st in
  Granted res = true /\ strict_failure a ev.1.2 = None /\
  (admit_granted a env view cert (cr_bearer c) res ev.1.1.1).1 = inl ac /\
  x_emitted fx = ev.1.1.2 /\
  x_audit fx = auditAdmission a view cert ev.1.1.1 false (Errorf "" []).
Proof.
  unfold decide_credential, conclude, decision_evidence. fold (pipeline_run a env gcr view c st).
  destruct (pipeline_run a env gcr view c st) as [[res w] out]. cbn -[emitEvidence].
  destruct (emitEvidence _ _ _ _ _ _ _) as [[[refs handed] err] gaps]. cbn.
  destruct (Granted res); [|by destruct (strict_failure a err)].
  destruct (strict_failure a err); [done|].
  destruct (admit_granted _ _ _ _ _ _ _) as [r sup]. by intros [= -> <- <-].
Qed.

Lemma admit_granted_inl a env view cert bearer res refs ac :
  (admit_granted a env view cert bearer res refs).1 = inl ac ->
  exists sat, checkEvidenceRequirement a env view (auth_context cert bearer res refs None) = inl sat /\
    ac = auth_context cert bearer res refs sat /\ (supervise a env view ac).1 = None.
Proof.
  unfold admit_granted. destruct (checkEvidenceRequirement _ _ _ _) as [sat|]; [|done].
  destruct (supervise _ _ _ _) as [[err|] evs] eqn:Es; [done|]. intros [= <-].
  exists sat. by rewrite Es.
Qed.

Lemma checkEvidenceRequirement_inl a env view ac sat req :
  checkEvidenceRequirement a env view ac = inl sat -> cEvidenceRequirement a = Some req ->
  Requirement_Validate req = None /\
  exists facts now s, EvaluateRequirement req facts now = Ok s /\ Satisfied s = true /\ sat = Some s.
Proof.
  unfold checkEvidenceRequirement. intros H Hr. rewrite Hr in H.
  destruct (Requirement_Validate req); [done|]. split; [done|].
  destruct (match EvidenceFactsWith view with Some f => _ | None => _ end) as [facts|]; [|done].
  destruct (EvaluateRequirement req facts _) as [s|] eqn:Ee; [|done].
  destruct (Satisfied s) eqn:Es; [|done]. injection H as <-. by eexists _, _, _.
Qed.

Lemma supervise_None a env view ac :
  (supervise a env view ac).1 = None -> needs_approval a view ac = true ->
  exists f s, cApprovalRequester a = Some f /\ f (risk_of env view ac) = Ok (Some s) /\
    SDecision s = SupervisionDecisionApproved.
Proof.
  unfold supervise. intros H Hn. rewrite Hn in H. cbn in H.
  destruct (cApprovalRequester a) as [f|]; [|done].
  destruct (f (risk_of env view ac)) as [[s|]|] eqn:Ef; try done.
  exists f, s. split; [done|]. split; [done|]. cbn in H.
  by destruct (String.eqb_spec (SDecision s) SupervisionDecisionApproved).
Qed.

(** How the certificate of a resolved credential was authenticated. *)
Lemma resolveCredential_inl a env view replay c replay' cert :
  resolveCredential a env view replay = (inl c, replay') -> cr_cert c = Some cert ->
  check_peer_chain a view c = None ->
  (VerifiedCert view = Some cert /\ cr_bearer c = false /\ replay' = replay) \/
  (VerifiedCert view = None /\ cr_bearer c = false /\ authMode (cfgAuthMode a) <> BearerOnly /\
   replay' = replay /\
   exists rest pool, CertChain view = cert :: rest /\ cr_chain c = cert :: rest /\ tlsCAs a = Some pool /\
     x509_Verify cert pool (Some rest) = None) \/
  (VerifiedCert view = None /\ cr_bearer c = true /\ authMode (cfgAuthMode a) <> MTLSOnly /\
   TransportSecure view = true /\ cr_chain c = [cert] /\
   exists v outer, verifier a = Some v /\
     VerifyBearer {| roots := roots v; expectedIssuer := expectedIssuer v;
                     expectedAudience := expectedAudience v; nonceStore := replay |}
       (BearerToken view) (d_bearer_now env) [] (d_bearer env) = (Ok (cert, outer), replay')).
Proof.
  unfold resolveCredential, check_peer_chain. destruct (VerifiedCert view) as [vc|].
  { intros [= <- <-] [= <-] _. by left. }
  intros H Hc Hk. right. revert H. destruct ((0 <? zlen (CertChain view)) && _) eqn:Em.
  - intros [= <- <-]. left. apply andb_true_iff in Em as [_ Em]. cbn in Hc, Hk |- *.
    destruct (CertChain view) as [|p rest]; [done|]. injection Hc as ->.
    destruct (tlsCAs a) as [pool|]; [|done]. cbn in Hk.
    destruct (x509_Verify cert pool (Some rest)) eqn:Ev; [done|].
    split; [done|]. split; [done|]. split; [|split; [done|by exists rest, pool]].
    intros Eb. by rewrite Eb in Em.
  - clear Em. destruct (((_ =? BearerOnly) || _) && _) eqn:Eb; [|by intros [= <- <-]].
    apply andb_true_iff in Eb as [Eb _]. destruct (verifier a) as [v|] eqn:Ever; [|done].
    destruct (TransportSecure view); [|done]. cbn.
    destruct (VerifyBearer _ _ _ _ _) as [[[cert' outer]|] r'] eqn:Ev; [|done].
    intros [= <- <-]. injection Hc as ->. right. repeat split; [|by exists v, outer].
    intros Em. by rewrite Em in Eb.
Qed.

(** A refused request: the state machine of the store and the counters. *)
Lemma admit_granted_inr a env view cert bearer res refs err :
  (admit_granted a env view cert bearer res refs).1 = inr err -> ErrEvidence err = [].
Proof.
  unfold admit_granted. destruct (checkEvidenceRequirement _ _ _ _) as [sat|e] eqn:Ec; cycle 1.
  - intros [= <-]. revert Ec. unfold checkEvidenceRequirement. repeat case_match; by intros [= <-].
  - destruct (supervise _ _ _ _) as [[e|] evs] eqn:Es; [|done]. intros [= <-].
    revert Es. unfold supervise. repeat case_match; by intros [= <- <-].
Qed.

Lemma strict_failure_None a err cfg :
  strict_failure a err = None -> cEvidence a = Some cfg -> Strict cfg = true -> err = None.
Proof. unfold strict_failure. intros H Hc Hs. rewrite Hc, Hs in H. by destruct err. Qed.

(** The status of each refusal, by where it comes from. *)
Lemma resolveCredential_inr a env view replay err replay' :
  resolveCredential a env view replay = (inr err, replay') ->
  Status err = 401 /\ Code err ∈ [ErrNoCredential; ErrNoVerifier; ErrBearerNeedsTLS; ErrInvalidBearer].
Proof. unfold resolveCredential. repeat case_match; intros [= <- <-]; (split; [done|set_solver]). Qed.

Lemma check_peer_chain_Some a view c err :
  check_peer_chain a view c = Some err -> Status err = 403 /\ Code err = ErrChainInvalid.
Proof. unfold check_peer_chain. repeat case_match; by intros [= <-]. Qed.

Lemma admit_granted_inr_code a env view cert bearer res refs err :
  (admit_granted a env view cert bearer res refs).1 = inr err ->
  Status err = 403 /\ (Code err = ErrDenied \/ Code err = ErrConfig).
Proof.
  unfold admit_granted. destruct (checkEvidenceRequirement _ _ _ _) as [sat|e] eqn:Ec; cycle 1.
  - intros [= <-]. revert Ec. unfold checkEvidenceRequirement. repeat case_match; intros [= <-]; auto.
  - destruct (supervise _ _ _ _) as [[e|] evs] eqn:Es; [|done]. intros [= <-].
    revert Es. unfold supervise. repeat case_match; intros [= <- <-]; auto.
Qed.

Lemma decide_credential_inr a env gcr view c cert st err st' fx :
  decide_credential EqualFold a env gcr view c cert st = (inr err, st', fx) ->
  Status err = 403 /\ (Code err = ErrDenied \/ Code err = ErrConfig).
Proof.
  unfold decide_credential, conclude. destruct (RunAccessPipeline _ _ _ _ _ _) as [[res w] out].
  destruct (emitEvidence _ _ _ _ _ _ _) as [[[refs handed] e] gaps]. cbv zeta beta.
  destruct (Granted res), (strict_failure a e); try (intros [= <- <- <-]; by auto).
  destruct (admit_granted _ _ _ _ _ _ _) as [r sup] eqn:Ea. intros [= -> <- <-].
  eapply admit_granted_inr_code. by rewrite Ea.
Qed.

Lemma wrapu64_eqm x : exists k, wrapu64 x = x + k * 2 ^ 64.
Proof. exists (- (x / 2 ^ 64)). unfold wrapu64. rewrite Z.mod_eq by done. ring. Qed.

Lemma wrapu64_add x k : wrapu64 (x + k * 2 ^ 64) = wrapu64 x.
Proof. apply Z_mod_plus_full. Qed.

(** The certificate of an admitted request, and the run that granted it. *)
Lemma admitted_run a env gcr view st ac st' fx :
  decide_request EqualFold a env gcr view st = (inl ac, st', fx) ->
  (exists c replay, resolveCredential a env view (s_replay st) = (inl c, replay) /\
     Granted (pipeline_run a env gcr view c
       {| s_world := s_world st; s_replay := replay; s_gaps := s_gaps st |}).1.1 = true /\
     cr_cert c = Some (ACClientCert ac)) /\
  (VerifiedCert view = Some (ACClientCert ac) \/
  (ACBearer ac = false /\ authMode (cfgAuthMode a) <> BearerOnly /\
   exists rest pool, CertChain view = ACClientCert ac :: rest /\ tlsCAs a = Some pool /\
     x509_Verify (ACClientCert ac) pool (Some rest) = None) \/
  (ACBearer ac = true /\ authMode (cfgAuthMode a) <> MTLSOnly /\ TransportSecure view = true /\
   exists v outer, verifier a = Some v /\
     VerifyBearer {| roots := roots v; expectedIssuer := expectedIssuer v;
                     expectedAudience := expectedAudience v; nonceStore := s_replay st |}
       (BearerToken view) (d_bearer_now env) [] (d_bearer env) = (Ok (ACClientCert ac, outer), s_replay st'))).
Proof.
  intros H. apply decide_request_cases in H as [(err & [=] & _)|(c & cert & replay & Hr & Hc & Hk & H)].
  assert (s_replay st' = replay) as Hst.
  { revert H. unfold decide_credential, conclude. destruct (RunAccessPipeline _ _ _ _ _ _) as [[res w] out].
    destruct (emitEvidence _ _ _ _ _ _ _) as [[[refs handed] err] gaps]. cbn.
    destruct (Granted res), (strict_failure a err); try done.
    destruct (admit_granted _ _ _ _ _ _ _) as [r sup]. by intros [= -> <- <-]. }
  apply decide_credential_inl in H as (Hg & _ & Ha & _).
  apply admit_granted_inl in Ha as (sat & _ & Hac & _).
  assert (ACClientCert ac = cert /\ ACBearer ac = cr_bearer c) as [-> ->] by (by rewrite Hac).
  split; [by exists c, replay|].
  destruct (resolveCredential_inl _ _ _ _ _ _ _ Hr Hc Hk)
    as [(Hv & _)|[(_ & Hb & Hm & _ & rest & pool & Hch & _ & Hp & Hx)|(_ & Hb & Hm & Ht & _ & v & outer & Hv & Ho)]].
  - by left.
  - right; left. split; [done|]. split; [done|]. by exists rest, pool.
  - right; right. split; [done|]. split; [done|]. split; [done|]. exists v, outer. by rewrite Hst.
Qed.

(** * Properties *)

(** C3: an admitted request passed every gate of the decision: the pipeline over
    its own credential and facts granted it; under [Strict] its evidence was
    emitted without an error; a configured evidence requirement is valid and
    evaluated to satisfied, and that evaluation is the one reported; a request
    flagged for approval was approved, by the configured requester, for the risk
    that this request poses. *)
Theorem admitted_request_gates a env gcr view st ac st' fx
    (H : decide_request EqualFold a env gcr view st = (inl ac, st', fx)) :
  exists c replay, resolveCredential a env view (s_replay st) = (inl c, replay) /\
    cr_cert c = Some (ACClientCert ac) /\ check_peer_chain a view c = None /\
  let run := pipeline_run a env gcr view c
    {| s_world := s_world st; s_replay := replay; s_gaps := s_gaps st |} in
  let ev := decision_evidence a env view (ACClientCert ac) run.1.1 st in
  Granted run.1.1 = true /\
  ac = auth_context (ACClientCert ac) (cr_bearer c) run.1.1 ev.1.1.1 (ACSatisfaction ac) /\
  x_emitted fx = ev.1.1.2 /\
  (forall cfg, cEvidence a = Some cfg -> Strict cfg = true -> ev.1.2 = None) /\
  (forall req, cEvidenceRequirement a = Some req -> Requirement_Validate req = None /\
     exists facts now s, EvaluateRequirement req facts now = Ok s /\ Satisfied s = true /\
       ACSatisfaction ac = Some s) /\
  (needs_approval a view ac = true -> exists f s, cApprovalRequester a = Some f /\
     f (risk_of env view ac) = Ok (Some s) /\ SDecision s = SupervisionDecisionApproved).
Proof.
  apply decide_request_cases in H as [(err & [=] & _)|(c & cert & replay & Hr & Hc & Hk & H)].
  apply decide_credential_inl in H as (Hg & Hs & Ha & Hx & _).
  apply admit_granted_inl in Ha as (sat & Hq & Hac & Hv).
  assert (ACClientCert ac = cert /\ ACSatisfaction ac = sat) as [-> ->] by (by rewrite Hac).
  exists c, replay. split; [done|]. split; [done|]. split; [done|]. cbv zeta.
  split; [done|]. split; [done|]. split; [done|]. split.
  - intros cfg Hcfg Hst. by eapply strict_failure_None.
  - split; [intros req Hreq; by eapply checkEvidenceRequirement_inl|by apply supervise_None].
Qed.

(** C4: the certificate of an admitted request was authenticated in one of three
    ways: the carrier says it verified it; or the peer presented it first in a
    chain that verifies against the configured authorities, and the mode accepts
    client certificates; or it stands for a bearer token that the configured
    verifier accepted, over TLS, under a mode that accepts tokens. *)
Theorem admitted_identity a env gcr view st ac st' fx
    (H : decide_request EqualFold a env gcr view st = (inl ac, st', fx)) :
  VerifiedCert view = Some (ACClientCert ac) \/
  (ACBearer ac = false /\ authMode (cfgAuthMode a) <> BearerOnly /\
   exists rest pool, CertChain view = ACClientCert ac :: rest /\ tlsCAs a = Some pool /\
     x509_Verify (ACClientCert ac) pool (Some rest) = None) \/
  (ACBearer ac = true /\ authMode (cfgAuthMode a) <> MTLSOnly /\ TransportSecure view = true /\
   exists v outer, verifier a = Some v /\
     VerifyBearer {| roots := roots v; expectedIssuer := expectedIssuer v;
                     expectedAudience := expectedAudience v; nonceStore := s_replay st |}
       (BearerToken view) (d_bearer_now env) [] (d_bearer env) = (Ok (ACClientCert ac, outer), s_replay st')).
Proof. exact (proj2 (admitted_run a env gcr view st ac st' fx H)). Qed.

(** A refusal for lack of an acceptable credential, and only such a one,
    answers 401, everything else 403; and a refusal before the pipeline emits no
    record, audit entry or supervision event, and changes nothing but the replay
    store of tokens. *)
Theorem refusal_status a env gcr view st err st' fx
    (H : decide_request EqualFold a env gcr view st = (inr err, st', fx)) :
  (Status err = 401 /\ Code err ∈ [ErrNoCredential; ErrNoVerifier; ErrBearerNeedsTLS; ErrInvalidBearer] \/
   Status err = 403 /\ Code err ∈ [ErrDenied; ErrChainInvalid; ErrConfig]) /\
  (Code err <> ErrDenied -> Code err <> ErrConfig ->
   fx = no_effects /\ s_world st' = s_world st /\ s_gaps st' = s_gaps st).
Proof.
  unfold decide_request in H. destruct (resolveCredential _ _ _ _) as [[c|e] replay] eqn:Er; cycle 1.
  { injection H as <- <- <-. split; [|done]. left. by eapply resolveCredential_inr. }
  destruct (cr_cert c) as [cert|]; [|injection H as <- <- <-; split; [left; split; [done|set_solver]|done]].
  destruct (check_peer_chain _ _ _) as [e|] eqn:Ek.
  { injection H as <- <- <-. split; [|done]. apply check_peer_chain_Some in Ek as [-> ->]. right. set_solver. }
  apply decide_credential_inr in H as [Hs Hc]. rewrite Hs. split; [right; destruct Hc as [-> | ->]; set_solver|].
  by destruct Hc.
Qed.

(** The counters account for the decisions: as many are counted as were
    granted or refused, modulo the width of a counter; and on a clock that
    advances between decisions the server is healthy exactly when the last one
    was a grant. *)
Theorem decisions_accounted a env gcr view st m now
    (Hlt : forall t, lastErr m = Some t \/ lastOK m = Some t -> t < now) :
  let '(r, _, _, m') := Decide_ EqualFold a env gcr view st m now in
  wrapu64 (DecideTotal m' - MGranted m' - MDenied m') = wrapu64 (DecideTotal m - MGranted m - MDenied m) /\
  Healthy (Some m') = match r with
    | inl _ => true
    | inr _ => false
    end.
Proof.
  unfold Decide_. destruct (decide_request _ _ _ _ _ _) as [[r st'] fx].
  destruct (wrapu64_eqm (DecideTotal m + 1)) as [k1 H1].
  destruct (wrapu64_eqm (MGranted m + 1)) as [k2 H2]. destruct (wrapu64_eqm (MDenied m + 1)) as [k3 H3].
  destruct r; cbn; split.
  - rewrite H1, H2, <- (wrapu64_add (DecideTotal m - MGranted m - MDenied m) (k1 - k2)). f_equal. ring.
  - destruct (lastErr m) as [t|]; [|done]. specialize (Hlt t (or_introl eq_refl)).
    unfold After. apply Z.ltb_lt. lia.
  - rewrite H1, H3, <- (wrapu64_add (DecideTotal m - MGranted m - MDenied m) (k1 - k3)). f_equal. ring.
  - destruct (lastOK m) as [t|]; [|done]. specialize (Hlt t (or_intror eq_refl)).
    unfold After. apply Z.ltb_ge. lia.
Qed.

(** A reload takes effect as a whole or not at all: the policy in force
    afterwards is the new bundle, which then has a version and roles, or the old
    one, and the reload counter tells which. *)
Theorem reload_all_or_nothing current b m :
  let '(err, current', m') := reload current b m in
  match err with
  | None => current' = b /\ ConfigReload m' = wrapu64 (ConfigReload m + 1) /\
      exists p bd, b = Some bd /\ BPolicy bd = Some p /\ Version p <> "" /\ Roles p <> ∅
  | Some _ => current' = current /\ m' = m
  end.
Proof.
  unfold reload, validateReloadPolicy. destruct b as [b|]; [|done].
  destruct (BPolicy b) as [p|] eqn:Ep; [|done].
  destruct (String.eqb_spec (Version p) ""); [done|].
  destruct (Nat.eqb_spec (size (Roles p)) 0) as [|Hr]; [done|].
  split; [done|]. split; [done|]. exists p, b. split; [done|]. split; [done|]. split; [done|].
  intros E. by rewrite E in Hr.
Qed.

(** A request is not held for approval when its carrier gives neither a request
    nor a hook of its own, whatever the configuration requires. *)
Lemma approval_skipped_without_adapter a env view ac
    (Hv : RequireApprovalWith view = None) (Hr : HTTPAdapter view = None) :
  supervise a env view ac = (None, []).
Proof. unfold supervise, needs_approval. by rewrite Hv, Hr. Qed.

(** A request the pipeline granted and a later gate refused: the records and the
    audit entry already written say it was admitted, and the refusal refers to
    none of them. *)
Lemma late_refusal_recorded_as_admitted a env gcr view c cert st err st' fx
    (H : decide_credential EqualFold a env gcr view c cert st = (inr err, st', fx))
    (Hg : Granted (pipeline_run a env gcr view c st).1.1 = true)
    (Hs : forall cfg, cEvidence a = Some cfg -> Strict cfg = false) :
  ErrEvidence err = [] /\
  let ev := emitEvidence a env view cert (pipeline_run a env gcr view c st).1.1 EvidenceAdmitted (s_gaps st) in
  x_emitted fx = ev.1.1.2 /\ x_audit fx = auditAdmission a view cert ev.1.1.1 false (Errorf "" []).
Proof.
  revert H Hg. unfold decide_credential, conclude. fold (pipeline_run a env gcr view c st).
  destruct (pipeline_run a env gcr view c st) as [[res w] out]. cbn -[emitEvidence]. intros H Hg.
  rewrite Hg in H. destruct (emitEvidence _ _ _ _ _ _ _) as [[[refs handed] e] gaps]. cbn in H.
  assert (strict_failure a e = None) as E.
  { unfold strict_failure. destruct e, (cEvidence a) as [cfg|]; try done. by rewrite (Hs cfg). }
  rewrite E in H. destruct (admit_granted _ _ _ _ _ _ _) as [r sup] eqn:Ea.
  injection H as -> <- <-. split; [|done]. by eapply (admit_granted_inr _ _ _ _ _ _ _ err); rewrite Ea.
Qed.
End DecideFacts.

(** * Concrete instances

    A gateway that accepts client certificates of one authority, requires the
    user's delegation and the operation [db:read], keeps evidence strictly,
    requires a satisfied evidence evaluation and asks a person for approval. *)
Section Witnesses.
  #[local] Existing Instance clc_names.
  #[local] Existing Instance toy_semantics.
  #[local] Existing Instance toy_crypto.
  #[local] Existing Instance adm_methods.
  #[local] Existing Instance adm_parser.
  #[local] Existing Instance sha256.
  #[local] Existing Instance toy_crl_env.
  #[local] Existing Instance toy_ocsp_env.
  #[local] Existing Instance gate_urls.
  #[local] Existing Instance toy_jwt.
  #[local] Existing Instance toy_evidence.

Definition toy_x509 : X509 := {|
  CertPool := list bytes; pem_blocks := fun d => [("PRIVATE KEY", d)];
  x509_ParseCertificate := fun der => match der with [b] => Ok (toy_cert (byte_z b)) | _ => Err (ErrNew "x509") end;
  x509_Verify := fun c pool _ => if bool_decide (RawSubjectPublicKeyInfo c ∈ pool) then None else Some (ErrNew "unknown authority") |}.
  #[local] Existing Instance toy_x509.

Definition toy_challenges : ChallengeSemantics := {|
  Challenge := string; RequirementResult := bool; EvidenceFact := string;
  BuildChallengeFromDecision := fun _ p => Ok (CPNonce p);
  BuildChallengeFromRequirement := fun _ _ p => Ok (CPNonce p);
  DigestOf_operation := fun op => Ok (toy_digest (OpID op));
  DigestOfCanonical := fun _ => toy_digest "canonical";
  EvaluateRequirement := fun _ facts _ => Ok (bool_decide ("mfa" ∈ facts));
  Satisfied := fun b => b; SatVerdict := fun b => if b then "satisfied" else "unknown";
  MissingRoles := fun _ => []; RequirementID := fun _ => "req" |}.
  #[local] Existing Instance toy_challenges.

Definition toy_gateway_of (R : Type) (approver : RiskAssessment -> result (option SupervisionResult))
  : authenticator R := {|
  cfgAuthMode := MTLSOrBearer; cRequireAIC := true; cRequiredCapabilities := ["db:read"];
  cRequiredOperations := [op_read]; cUnresolvedEvaluator := Some (fun _ u => negb (zlen u =? 0));
  cDischargeObligations := false; cObligationsUnderstood := []; cRequireFreshDecisionContext := false;
  cDecisionContext := None; cDisallowRepresentative := false; cRequireUserAuth := true;
  cEnforceConstraints := true; cUserCert := Some (toy_cert 7); cUserCertResolver := None;
  cPluginRegistry := Some gate_plugins; cCapabilityRegistry := None; cAuthorizationPolicy := None;
  cConstraints := None; cParameterValidators := None; cEvidence := Some (toy_evidence_config None);
  cEvidenceRequirement := Some tt; cEvidenceFacts := Some (fun _ ac => Ok ["mfa"]); cChallenges := None;
  cRequireApproval := Some (fun _ _ => true); cApprovalRequester := Some approver; cSupervisionStore := true;
  tlsCAs := Some [[z_byte 9]]; verifier := Some toy_verifier;
  a_crl := Some (refresh (NewCRLCache (toy_cert 1) "http://crl" 60) 12).2; a_audit := true;
  a_nonceCache := true; policy := None |}.

Definition toy_gateway := toy_gateway_of unit.

Definition toy_view (adapter : option unit) : RequestView unit := {|
  CertChain := [toy_cert 9]; BearerToken := "t1"; VerifiedCert := None; TransportSecure := true;
  VMethod := "GET"; VPath := "/rows"; RawQuery := "a=1&a=2+3"; Header := {["X-Request-Id" := ["r1"]]};
  VClientIP := "10.1.2.3"; VBody := []; PresentedCert := Some (toy_cert 9); EvidenceFactsWith := None;
  RequireApprovalWith := None; HTTPAdapter := adapter |}.

Definition toy_readings : decide_env := {|
  d_pipeline := gate_clock; d_bearer_now := 200; d_bearer := toy_bearer_clock 0; d_emission := toy_env;
  d_challenge := {| ch_now := 0; ch_retry_now := 0; ch_rand_id := Ok []; ch_rand_nonce := Ok [] |};
  d_requirement_now := 0; d_operation_id := "op-1" |}.
Definition toy_start : decide_state :=
  {| s_world := gate_world; s_replay := Some (ReplayStore.NewReplayNonceStore 0 0); s_gaps := Some 0 |}.

Definition toy_answer (s : string) : RiskAssessment -> result (option SupervisionResult) :=
  fun _ => Ok (Some {| SDecision := s; Approver := "bob"; SReason := "ok"; REvidenceRef := ""; DecidedAt := 0 |}).
Definition toy_decision (s : string) (adapter : option unit) :=
  decide_request String.eqb (toy_gateway (toy_answer s)) toy_readings None (toy_view adapter) toy_start.

(** The admitted request, the same one refused by the approver after records and
    an audit entry of its admission were written, and the request of a carrier
    without a hook, which is not held for the same approver. *)
Example toy_decisions :
  match (toy_decision "approved" (Some tt)).1.1 with
  | inl ac => ACPrincipal ac = "alice" /\ ACCapabilities ac = ["read"; "write"] | inr _ => False end /\
  match (toy_decision "denied" (Some tt)).1.1 with
  | inl _ => False | inr e => Message e = Errorf "approval_required" [] /\ ErrEvidence e = [] end /\
  map (fun h => CtxOutcome (em_ctx h)) (x_emitted (toy_decision "denied" (Some tt)).2) = ["admitted"; "admitted"] /\
  map AEAction (x_audit (toy_decision "denied" (Some tt)).2) = ["connected"] /\
  match (toy_decision "denied" None).1.1 with inl ac => ACPrincipal ac = "alice" | inr _ => False end.
Proof. vm_compute. repeat split; reflexivity. Qed.

Example toy_query : map_to_list (parseRawQuery "a=1&a=2+3&%62=%2F") = [("a", ["1"; "2 3"]); ("b", ["/"])] /\
  parseRawQuery "a=1&b=%2" = ∅.
Proof. vm_compute. split; reflexivity. Qed.

Definition toy_context : AuthContext :=
  match (toy_decision "approved" (Some tt)).1.1 with
  | inl ac => ac
  | inr _ => auth_context (toy_cert 0) false gate_out.1.1 [] None
  end.
Definition toy_refusal : AuthError :=
  match (toy_decision "denied" (Some tt)).1.1 with
  | inl _ => auth_error ErrDenied 0 (Errorf "" [])
  | inr e => e
  end.

Lemma toy_context_eq : toy_decision "approved" (Some tt)
  = (inl toy_context, (toy_decision "approved" (Some tt)).1.2, (toy_decision "approved" (Some tt)).2).
Proof.
  unfold toy_context. assert ((if (toy_decision "approved" (Some tt)).1.1 is inl _ then true else false) = true) as E
    by (vm_compute; reflexivity).
  by destruct (toy_decision "approved" (Some tt)) as [[[?|?] ?] ?].
Qed.
Lemma toy_refusal_eq : toy_decision "denied" (Some tt)
  = (inr toy_refusal, (toy_decision "denied" (Some tt)).1.2, (toy_decision "denied" (Some tt)).2).
Proof.
  unfold toy_refusal. assert ((if (toy_decision "denied" (Some tt)).1.1 is inl _ then true else false) = false) as E
    by (vm_compute; reflexivity).
  by destruct (toy_decision "denied" (Some tt)) as [[[?|?] ?] ?].
Qed.

Lemma admitted_request_gates_witness : exists f s,
  cApprovalRequester (toy_gateway (toy_answer "approved")) = Some f /\
  f (risk_of toy_readings (toy_view (Some tt)) toy_context) = Ok (Some s) /\ SDecision s = "approved".
Proof.
  destruct (admitted_request_gates _ _ _ _ _ _ _ _ _ toy_context_eq)
    as (c & replay & _ & _ & _ & _ & _ & _ & _ & _ & H). exact (H eq_refl).
Defined.

Lemma admitted_identity_witness :
  VerifiedCert (toy_view (Some tt)) = Some (ACClientCert toy_context) \/
  (exists rest, CertChain (toy_view (Some tt)) = ACClientCert toy_context :: rest) \/ ACBearer toy_context = true.
Proof.
  destruct (admitted_identity _ _ _ _ _ _ _ _ _ toy_context_eq)
    as [H|[(_ & _ & rest & pool & H & _)|[H _]]]; [left; exact H| |right; right; exact H].
  right; left. exists rest. exact H.
Defined.

Lemma refusal_status_witness : Status toy_refusal = 401 \/ Status toy_refusal = 403.
Proof.
  destruct (refusal_status _ _ _ _ _ _ _ _ _ toy_refusal_eq) as [[[H _]|[H _]] _]; [left|right]; exact H.
Defined.

Definition toy_metrics : DecisionMetrics := {|
  DecideTotal := 2 ^ 64 - 1; MGranted := 3; MDenied := 2 ^ 64 - 4; ConfigReload := 0; lastErr := Some 5;
  lastOK := None |}.
Lemma decisions_accounted_witness :
  Healthy (Some (Decide_ String.eqb (toy_gateway (toy_answer "approved")) toy_readings None (toy_view (Some tt))
    toy_start toy_metrics 6).2) = true.
Proof.
  assert (forall t, lastErr toy_metrics = Some t \/ lastOK toy_metrics = Some t -> t < 6) as Hlt
    by (intros t [[= <-]|[=]]; lia).
  pose proof (decisions_accounted String.eqb (toy_gateway (toy_answer "approved")) toy_readings None
    (toy_view (Some tt)) toy_start toy_metrics 6 Hlt) as H.
  assert ((if (toy_decision "approved" (Some tt)).1.1 is inl _ then true else false) = true) as E
    by (vm_compute; reflexivity).
  revert H. unfold Decide_. change (decide_request _ _ _ _ _ _) with (toy_decision "approved" (Some tt)).
  destruct (toy_decision "approved" (Some tt)) as [[[ac|e] ?] ?]; [intros [_ H]; exact H|discriminate E].
Defined.
End Witnesses.
