(* ===== verification/Identity.v ===== *)
(** The identity headers of [src/identity.go]: what a verified client looks like
    to a backend, and how a backend behind the proxy reads it back. *)
From S2P Require Import Prelude GoStrings GoTime GoNet GoHttp Types Sha256 DelegationAuth Clc Revocation Evidence Challenge Decide.
From Stdlib Require Import Ascii.
Local Open Scope string_scope.
Local Open Scope Z_scope.
Local Open Scope list_scope.

(** * Definitions *)

(** [src/identity.go:trustHeaderNames] *)
Definition trustHeaderNames : list string :=
  ["X-Client-Cert-DER"; "X-Client-Cert-SPKI-Hash"; "X-Client-Cert-Serial"; "X-Client-Cert-CN";
   "X-Client-Cert-O"; "X-Client-Cert-OU"; "X-Client-Cert-Principal"; "X-Client-Cert-Agent-ID";
   "X-AIC-Agent-Id"; "X-AIC-Principal-Uid"; "X-AIC-Capabilities"; "X-AIC-Capabilities-Full";
   "X-AIC-Verified-By"; "X-Agent-ID"; "X-Agent-Principal"; "X-Forwarded-Client-CN";
   "X-Forwarded-Client-O"; "X-Forwarded-Client-OU"; "X-Forwarded-Client-Serial"].

(** [src/identity.go:IdentityHeaderMode] *)
Definition IdentityMinimal : Z := 0.
Definition IdentityForwardClientCert : Z := 1.
Definition IdentityXForwarded : Z := 2.
Definition IdentityAIC : Z := 3.

(** [string(rune(mode))] *)
Definition rune_string (mode : Z) : string := encode_rune ((mode + 2 ^ 31) mod 2 ^ 32 - 2 ^ 31).

(** [src/identity.go:SetIdentityHeaderMode] *)
Definition SetIdentityHeaderMode (h : GoHttp.Header) (mode : Z) : GoHttp.Header :=
  Header_Set "X-AICN-Identity-Mode" (rune_string mode) h.

(** [src/identity.go:identityHeaderModeOf] *)
Definition identityHeaderModeOf (h : GoHttp.Header) : Z :=
  let v := Header_Get h "X-AICN-Identity-Mode" in
  if String.eqb v (rune_string IdentityMinimal) then IdentityMinimal
  else if String.eqb v (rune_string IdentityXForwarded) then IdentityXForwarded
  else if String.eqb v (rune_string IdentityAIC) then IdentityAIC
  else IdentityForwardClientCert.

(** [base64.StdEncoding.EncodeToString] *)
Definition std64_char (z : Z) : Ascii.ascii :=
  chr (if z <? 26 then z + 65 else if z <? 52 then z + 71 else if z <? 62 then z - 4
       else if z =? 62 then 43 else 47).
Fixpoint std64_encode (l : bytes) : string :=
  match l with
  | [] => ""
  | [x] => let a := byte_z x in
      String (std64_char (a / 4)) (String (std64_char (a mod 4 * 16)) "==")
  | [x; y] => let a := byte_z x in let b := byte_z y in
      String (std64_char (a / 4)) (String (std64_char (a mod 4 * 16 + b / 16))
        (String (std64_char (b mod 16 * 4)) "="))
  | x :: y :: w :: l' => let a := byte_z x in let b := byte_z y in let c := byte_z w in
      String (std64_char (a / 4)) (String (std64_char (a mod 4 * 16 + b / 16))
        (String (std64_char (b mod 16 * 4 + c / 64)) (String (std64_char (c mod 64)) (std64_encode l'))))
  end.

Section Identity.
  Context {CN : CapabilityNames} {HF : HashFunction} {ES : EvidenceSemantics} {CH : ChallengeSemantics}.

(** [src/identity.go:certSPKIHashHex] *)
Definition certSPKIHashHex (cert : Certificate) : string := hex_encode (Sum256 (RawSubjectPublicKeyInfo cert)).

Definition nonempty (s : string) : bool := negb (String.eqb s "").

(** [src/identity.go:setAICHeaders] *)
Definition setAICHeaders (h : GoHttp.Header) (ac : AuthContext) : GoHttp.Header :=
  match ACAIC ac with
  | None => h
  | Some aic =>
      let h := Header_Set_if (nonempty (AgentId aic)) "X-AIC-Agent-Id" (AgentId aic) h in
      let h := Header_Set_if (nonempty (ACPrincipal ac)) "X-AIC-Principal-Uid" (ACPrincipal ac) h in
      let some := 0 <? zlen (Capabilities aic) in
      let h := Header_Set_if some "X-AIC-Capabilities" (join "," (map CapabilityId (Capabilities aic))) h in
      let h := Header_Set_if some "X-AIC-Capabilities-Full" (join "," (map FullID (Capabilities aic))) h in
      let h := Header_Set_if (0 <? Unix (DATimestamp (AICDelegation aic))) "X-AIC-Verified-By"
                 (SignatureAlgorithm (AICDelegation aic)) h in
      let h := Header_Set_if (nonempty (ACAgentID ac)) "X-Agent-ID" (ACAgentID ac) h in
      Header_Set_if (nonempty (ACPrincipal ac)) "X-Agent-Principal" (ACPrincipal ac) h
  end.

(** [src/identity.go:106-124 injectIdentityHeaders] *)
Definition set_client_cert (h : GoHttp.Header) (ac : AuthContext) : GoHttp.Header :=
  let cert := ACClientCert ac in
  let h := Header_Set "X-Client-Cert-DER" (std64_encode (Raw cert)) h in
  let h := Header_Set "X-Client-Cert-SPKI-Hash" (certSPKIHashHex cert) h in
  let h := Header_Set_if (bool_decide (is_Some (SerialNumber cert))) "X-Client-Cert-Serial"
             (serial_Text16 (SerialNumber cert)) h in
  let h := Header_Set "X-Client-Cert-CN" (CommonName cert) h in
  let h := Header_Set_if (0 <? zlen (Organization cert)) "X-Client-Cert-O" (join "," (Organization cert)) h in
  let h := Header_Set_if (0 <? zlen (OrganizationalUnit cert)) "X-Client-Cert-OU"
             (join "," (OrganizationalUnit cert)) h in
  let h := Header_Set "X-Client-Cert-Principal" (ACPrincipal ac) h in
  let h := Header_Set_if (nonempty (ACAgentID ac)) "X-Client-Cert-Agent-ID" (ACAgentID ac) h in
  setAICHeaders h ac.

(** [src/identity.go:125-135 injectIdentityHeaders] *)
Definition set_forwarded (h : GoHttp.Header) (cert : Certificate) : GoHttp.Header :=
  let h := Header_Set "X-Forwarded-Client-CN" (CommonName cert) h in
  let h := Header_Set_if (0 <? zlen (Organization cert)) "X-Forwarded-Client-O"
             (join "," (Organization cert)) h in
  let h := Header_Set_if (0 <? zlen (OrganizationalUnit cert)) "X-Forwarded-Client-OU"
             (join "," (OrganizationalUnit cert)) h in
  Header_Set_if (bool_decide (is_Some (SerialNumber cert))) "X-Forwarded-Client-Serial"
    (serial_Text16 (SerialNumber cert)) h.

(** [src/identity.go:injectIdentityHeaders] a context of the middleware has a
    certificate. *)
Definition injectIdentityHeaders (h : GoHttp.Header) (ac : option AuthContext) (mode : Z) : GoHttp.Header :=
  let h := Header_Del_all trustHeaderNames h in
  match ac with
  | None => h
  | Some ac =>
      if mode =? IdentityForwardClientCert then set_client_cert h ac
      else if mode =? IdentityXForwarded then set_forwarded h (ACClientCert ac)
      else if mode =? IdentityAIC then setAICHeaders h ac
      else h
  end.

(** What [AuthContextFromHeaders] fills of an [AuthContext]. *)
Record HeaderContext := {
  HCPrincipal : string; HCAgentID : string; HCCapabilities : list string; HCAIC : list Capability
}.

(** [src/identity.go:204-220 AuthContextFromHeaders] one identifier. *)
Definition split_capability (id : string) : Capability :=
  match split_first ":"%char id with
  | Some (scheme, capability) => {| SchemeId := scheme; CapabilityId := capability; Parameters := "" |}
  | None => {| SchemeId := ""; CapabilityId := id; Parameters := "" |}
  end.

(** [src/identity.go:AuthContextFromHeaders] for a request with these headers. *)
Definition AuthContextFromHeaders (h : GoHttp.Header) : option HeaderContext :=
  let agentID := Header_Get h "X-AIC-Agent-Id" in
  let principal := Header_Get h "X-AIC-Principal-Uid" in
  let full := Header_Get h "X-AIC-Capabilities-Full" in
  let agentID := if String.eqb agentID "" then Header_Get h "X-Agent-ID" else agentID in
  if String.eqb agentID "" && String.eqb principal "" && String.eqb full "" then None
  else
    let ids := List.filter nonempty (map trim_space (split_byte ","%char full)) in
    Some {| HCPrincipal := principal; HCAgentID := agentID; HCCapabilities := ids;
            HCAIC := map split_capability ids |}.
End Identity.

(** * Lemmas *)
Section IdentityFacts.
  Context {CN : CapabilityNames} {HF : HashFunction} {ES : EvidenceSemantics} {CH : ChallengeSemantics}.
  Implicit Types (ac : AuthContext) (h : GoHttp.Header).

(** Two header maps agree at a name, and still do after the same settings. *)
Lemma Set_if_agree b k v h1 h2 x : h1 !! x = h2 !! x ->
  Header_Set_if b k v h1 !! x = Header_Set_if b k v h2 !! x.
Proof. intros H. by rewrite !Header_Set_if_lookup, H. Qed.

Lemma Set_agree k v h1 h2 x : h1 !! x = h2 !! x -> Header_Set k v h1 !! x = Header_Set k v h2 !! x.
Proof. exact (Set_if_agree true k v h1 h2 x). Qed.

(** A setting leaves the names it does not set. *)
Lemma Set_if_other b k v h x : CanonicalHeaderKey k <> x -> Header_Set_if b k v h !! x = h !! x.
Proof. intros H. rewrite Header_Set_if_lookup, bool_decide_eq_false_2, andb_false_r; congruence. Qed.
Lemma Set_other k v h x : CanonicalHeaderKey k <> x -> Header_Set k v h !! x = h !! x.
Proof. exact (Set_if_other true k v h x). Qed.

Lemma setAICHeaders_agree h1 h2 ac x : h1 !! x = h2 !! x ->
  setAICHeaders h1 ac !! x = setAICHeaders h2 ac !! x.
Proof. intros H. unfold setAICHeaders. destruct (ACAIC ac); [|done]. cbv zeta. by repeat apply Set_if_agree. Qed.

Definition trust_names : list string := map CanonicalHeaderKey trustHeaderNames.

(** Every name the injection sets belongs to the namespace. *)
Lemma not_trust_name k x : x ∉ trust_names -> k ∈ trustHeaderNames -> CanonicalHeaderKey k <> x.
Proof. intros Hx Hk <-. by apply Hx, list_elem_of_fmap_2. Qed.
Ltac not_trust := repeat first [rewrite Set_if_other by (apply not_trust_name; [done|by_computation])
                               | rewrite Set_other by (apply not_trust_name; [done|by_computation])]; done.

Lemma setAICHeaders_other h ac x : x ∉ trust_names -> setAICHeaders h ac !! x = h !! x.
Proof. intros Hx. unfold setAICHeaders. destruct (ACAIC ac); [|done]. cbv zeta. not_trust. Qed.

Lemma set_client_cert_agree h1 h2 ac x : h1 !! x = h2 !! x ->
  set_client_cert h1 ac !! x = set_client_cert h2 ac !! x.
Proof.
  intros H. unfold set_client_cert. cbv zeta. apply setAICHeaders_agree.
  by repeat first [apply Set_if_agree | apply Set_agree].
Qed.

Lemma set_client_cert_other h ac x : x ∉ trust_names -> set_client_cert h ac !! x = h !! x.
Proof. intros Hx. unfold set_client_cert. cbv zeta. rewrite setAICHeaders_other by done. not_trust. Qed.

Lemma set_forwarded_agree h1 h2 cert x : h1 !! x = h2 !! x ->
  set_forwarded h1 cert !! x = set_forwarded h2 cert !! x.
Proof. intros H. unfold set_forwarded. cbv zeta. by repeat first [apply Set_if_agree | apply Set_agree]. Qed.

Lemma set_forwarded_other h cert x : x ∉ trust_names -> set_forwarded h cert !! x = h !! x.
Proof. intros Hx. unfold set_forwarded. cbv zeta. not_trust. Qed.

(** What the server asserts of a context: the injection into no headers. *)
Definition asserted (ac : option AuthContext) (mode : Z) : GoHttp.Header := injectIdentityHeaders ∅ ac mode.

Lemma inject_cases h (oac : option AuthContext) mode x :
  injectIdentityHeaders h oac mode !! x = if bool_decide (x ∈ trust_names) then asserted oac mode !! x else h !! x.
Proof.
  unfold asserted, injectIdentityHeaders. cbv zeta. case_bool_decide as Hx.
  - assert (Header_Del_all trustHeaderNames h !! x = Header_Del_all trustHeaderNames ∅ !! x) as E
      by (by rewrite !Header_Del_all_lookup, !bool_decide_eq_true_2).
    destruct oac as [ac|]; [|exact E]. destruct (mode =? _); [by apply set_client_cert_agree|].
    destruct (mode =? _); [by apply set_forwarded_agree|]. destruct (mode =? _); [by apply setAICHeaders_agree|exact E].
  - assert (Header_Del_all trustHeaderNames h !! x = h !! x) as E
      by (by rewrite Header_Del_all_lookup, bool_decide_eq_false_2).
    rewrite <- E. destruct oac as [ac|]; [|done]. destruct (mode =? _); [by apply set_client_cert_other|].
    destruct (mode =? _); [by apply set_forwarded_other|]. destruct (mode =? _); [by apply setAICHeaders_other|done].
Qed.

(** ** Lists in a header value *)
Lemma split_join c l : l <> [] -> Forall (fun s => contains_byte c s = false) l ->
  split_byte c (join (String c "") l) = l.
Proof.
  intros Hne H. induction H as [|s l Hs Hl IH]; [done|]. destruct l as [|t l].
  - cbn [join]. by apply split_byte_none.
  - rewrite join_cons by done. change (s +:+ String c "" +:+ ?r) with (s +:+ String c r).
    rewrite split_byte_app by done. by rewrite IH.
Qed.

(** An identifier that survives a comma-separated header value. *)
Definition header_safe (id : string) : Prop := contains_byte "," id = false /\ trim_space id = id.

Lemma split_first_prefix a b : contains_byte ":" a = false ->
  split_first ":" (a +:+ String ":" b) = Some (a, b).
Proof.
  induction a as [|c a IH]; [done|]. cbn [contains_byte String.append split_first]. intros H.
  apply orb_false_iff in H as [Hc Ha]. destruct (Ascii.eqb_spec c ":") as [->|]; [done|]. by rewrite IH.
Qed.

Lemma Set_if_same b k v h x : CanonicalHeaderKey k = x ->
  Header_Set_if b k v h !! x = if b then Some [v] else h !! x.
Proof. intros <-. rewrite Header_Set_if_lookup, bool_decide_eq_true_2 by done. by rewrite andb_true_r. Qed.

Ltac read_header := repeat first [rewrite Set_if_same by reflexivity | rewrite Set_if_other by (vm_compute; discriminate)
                                 | rewrite Set_other by (vm_compute; discriminate)].

(** The three headers a backend reads, as the modes that send them set them. *)
Lemma setAICHeaders_read h ac aic x :
  ACAIC ac = Some aic -> x ∈ ["X-Aic-Agent-Id"; "X-Aic-Principal-Uid"; "X-Aic-Capabilities-Full"; "X-Agent-Id"] ->
  h !! x = None ->
  setAICHeaders h ac !! x =
    if String.eqb x "X-Aic-Agent-Id" then (if nonempty (AgentId aic) then Some [AgentId aic] else None)
    else if String.eqb x "X-Aic-Principal-Uid" then (if nonempty (ACPrincipal ac) then Some [ACPrincipal ac] else None)
    else if String.eqb x "X-Agent-Id" then (if nonempty (ACAgentID ac) then Some [ACAgentID ac] else None)
    else if 0 <? zlen (Capabilities aic) then Some [join "," (map FullID (Capabilities aic))] else None.
Proof.
  intros Ha Hx Hn. unfold setAICHeaders. rewrite Ha. cbv zeta.
  repeat (apply elem_of_cons in Hx as [->|Hx]; [read_header; rewrite Hn; reflexivity|]).
  by apply elem_of_nil in Hx.
Qed.

Lemma asserted_read ac aic mode x :
  ACAIC ac = Some aic -> mode = IdentityForwardClientCert \/ mode = IdentityAIC ->
  x ∈ ["X-Aic-Agent-Id"; "X-Aic-Principal-Uid"; "X-Aic-Capabilities-Full"; "X-Agent-Id"] ->
  exists h, h !! x = None /\ asserted (Some ac) mode !! x = setAICHeaders h ac !! x.
Proof.
  intros Ha Hm Hx. unfold asserted, injectIdentityHeaders. cbv zeta.
  assert (Header_Del_all trustHeaderNames ∅ !! x = None) as Hd.
  { rewrite Header_Del_all_lookup. destruct (bool_decide _); [done|]. apply lookup_empty. }
  destruct Hm as [->| ->]; cbn [Z.eqb IdentityForwardClientCert IdentityXForwarded IdentityAIC]; [|by eexists].
  unfold set_client_cert. cbv zeta. eexists. split; [|reflexivity].
  repeat (apply elem_of_cons in Hx as [->|Hx]; [read_header; exact Hd|]). by apply elem_of_nil in Hx.
Qed.

(** The first value of a header that is set to one value, or not at all. *)
Lemma Get_set h k x (b : bool) v : CanonicalHeaderKey k = x -> h !! x = (if b then Some [v] else None) ->
  Header_Get h k = if b then v else "".
Proof. intros <- H. unfold Header_Get. rewrite H. by destruct b. Qed.

Lemma nonempty_or_empty v : (if nonempty v then v else "") = v.
Proof. unfold nonempty. by destruct (String.eqb_spec v "") as [->|]. Qed.

(** Reading the list of capabilities back. *)
Definition readable (c : Capability) : Prop :=
  FullID c = (SchemeId c +:+ String ":" (CapabilityId c)) /\ contains_byte ":" (SchemeId c) = false /\
  header_safe (FullID c).

Lemma readable_nonempty c : readable c -> nonempty (FullID c) = true.
Proof. intros (-> & _ & _). by destruct (SchemeId c). Qed.

Lemma read_ids caps : Forall readable caps ->
  List.filter nonempty (map trim_space (split_byte "," (join "," (map FullID caps)))) = map FullID caps.
Proof.
  intros H. transitivity (List.filter nonempty (map trim_space (map FullID caps))).
  - destruct caps as [|c0 caps0]; [reflexivity|]. rewrite (split_join "," (map FullID (c0 :: caps0))); [done|done|].
    apply Forall_map. eapply Forall_impl; [exact H|]. by intros c (_ & _ & Hc & _).
  - induction H as [|c caps Hc Hl IH]; [done|]. cbn [map List.filter].
    rewrite (proj2 (proj2 (proj2 Hc))), (readable_nonempty c Hc). by rewrite IH.
Qed.

Lemma read_capabilities caps : Forall readable caps ->
  map split_capability (map FullID caps) =
  map (fun c => {| SchemeId := SchemeId c; CapabilityId := CapabilityId c; Parameters := "" |}) caps.
Proof.
  induction 1 as [|c caps (Hf & Hs & _) Hl IH]; [done|]. cbn [map]. rewrite IH. f_equal.
  unfold split_capability. by rewrite Hf, split_first_prefix.
Qed.

(** * Properties *)

(** Whatever headers a client sends, and however it spells them, the
    identity headers a backend receives are those the server asserts for the
    verified context, or absent; all other headers pass unchanged. *)
Theorem injected_identity_is_asserted h (oac : option AuthContext) mode
    (Hread : forall k, is_Some (h !! k) -> CanonicalHeaderKey k = k) :
  (forall k name, name ∈ trustHeaderNames -> to_lower k = to_lower name ->
     injectIdentityHeaders h oac mode !! k = asserted oac mode !! k) /\
  (forall k, (forall name, name ∈ trustHeaderNames -> to_lower k <> to_lower name) ->
     injectIdentityHeaders h oac mode !! k = h !! k).
Proof.
  assert (forall name, name ∈ trustHeaderNames -> token name = true) as Ht.
  { apply Forall_forall. apply (bool_decide_unpack _). vm_compute. exact I. }
  split.
  - intros k name Hn Hk. rewrite inject_cases. case_bool_decide as Hin; [done|].
    assert (forall h', (forall k, is_Some (h' !! k) -> CanonicalHeaderKey k = k) -> h' !! k = None) as Hnone.
    { intros h' Hc. destruct (h' !! k) eqn:E; [|done]. exfalso. apply Hin.
      rewrite <- (Hc k) by (by rewrite E). rewrite <- (canonical_same_name name k) by auto.
      by apply list_elem_of_fmap_2. }
    rewrite (Hnone h Hread). unfold asserted. rewrite inject_cases, bool_decide_eq_false_2 by done.
    by rewrite lookup_empty.
  - intros k Hk. rewrite inject_cases. case_bool_decide as Hin; [|done]. exfalso.
    apply list_elem_of_fmap_1 in Hin as (name & -> & Hn). apply (Hk name Hn).
    revert name Hn Hk. apply (Forall_forall (fun n => _ -> to_lower (CanonicalHeaderKey n) = to_lower n)).
    repeat constructor; intros _; vm_compute; reflexivity.
Qed.

(** A backend behind the proxy reads back exactly who was admitted: in both
    modes that forward the structured identity, the principal, the agent and
    the capabilities of the verified context, in order, whatever the client
    sent, provided the identifiers hold no comma and no surrounding space. *)
Lemma identity_read_back h ac aic mode
    (Ha : ACAIC ac = Some aic) (Hm : mode = IdentityForwardClientCert \/ mode = IdentityAIC)
    (Hp : ACPrincipal ac <> "")
    (Hid : Forall readable (Capabilities aic)) :
  AuthContextFromHeaders (injectIdentityHeaders h (Some ac) mode) = Some {|
    HCPrincipal := ACPrincipal ac;
    HCAgentID := if nonempty (AgentId aic) then AgentId aic else ACAgentID ac;
    HCCapabilities := map FullID (Capabilities aic);
    HCAIC := map (fun c => {| SchemeId := SchemeId c; CapabilityId := CapabilityId c; Parameters := "" |})
               (Capabilities aic) |}.
Proof.
  assert (forall k x b v, CanonicalHeaderKey k = x ->
    x ∈ ["X-Aic-Agent-Id"; "X-Aic-Principal-Uid"; "X-Aic-Capabilities-Full"; "X-Agent-Id"] ->
    (forall h, h !! x = None -> setAICHeaders h ac !! x = if b : bool then Some [v] else None) ->
    Header_Get (injectIdentityHeaders h (Some ac) mode) k = if b then v else "") as Hget.
  { intros k x b v Hk Hx Hs. apply (Get_set _ k x b v Hk). rewrite inject_cases.
    destruct (asserted_read ac aic mode x Ha Hm Hx) as (h0 & Hn & ->). rewrite (Hs h0 Hn).
    case_bool_decide as Hin; [done|]. exfalso. apply Hin. revert Hx. clear.
    intros Hx. repeat (apply elem_of_cons in Hx as [->|Hx]; [by_computation|]). by apply elem_of_nil in Hx. }
  unfold AuthContextFromHeaders. cbv zeta.
  rewrite (Hget "X-AIC-Agent-Id" _ (nonempty (AgentId aic)) (AgentId aic) eq_refl) by
    (first [by_computation | intros h0 Hn; by rewrite (setAICHeaders_read h0 ac aic _ Ha) by (done || by_computation)]).
  rewrite (Hget "X-AIC-Principal-Uid" _ (nonempty (ACPrincipal ac)) (ACPrincipal ac) eq_refl) by
    (first [by_computation | intros h0 Hn; by rewrite (setAICHeaders_read h0 ac aic _ Ha) by (done || by_computation)]).
  rewrite (Hget "X-AIC-Capabilities-Full" _ (0 <? zlen (Capabilities aic))
    (join "," (map FullID (Capabilities aic))) eq_refl) by
    (first [by_computation | intros h0 Hn; by rewrite (setAICHeaders_read h0 ac aic _ Ha) by (done || by_computation)]).
  rewrite (Hget "X-Agent-ID" _ (nonempty (ACAgentID ac)) (ACAgentID ac) eq_refl) by
    (first [by_computation | intros h0 Hn; by rewrite (setAICHeaders_read h0 ac aic _ Ha) by (done || by_computation)]).
  rewrite !nonempty_or_empty.
  assert ((if 0 <? zlen (Capabilities aic) then join "," (map FullID (Capabilities aic)) else "")
    = join "," (map FullID (Capabilities aic))) as -> by (by destruct (Capabilities aic)).
  destruct (String.eqb_spec (ACPrincipal ac) "") as [|_]; [done|]. rewrite andb_false_r. cbn [andb].
  rewrite read_ids, read_capabilities by done. unfold nonempty. by destruct (String.eqb_spec (AgentId aic) "").
Qed.
End IdentityFacts.

(** * Concrete instances *)
Section Witnesses.
  #[local] Existing Instance clc_names.
  #[local] Existing Instance toy_semantics.
  #[local] Existing Instance sha256.
  #[local] Existing Instance toy_evidence.
  #[local] Existing Instance toy_challenges.

(** An agent with two capabilities, the second of which is [id]. *)
Definition agent_with (id : string) : AIC := {|
  AICVersion := 2; AgentId := "bot";
  AICPrincipal := {| Realm := ""; Identifier := "alice"; KeyHash := []; HashAlgo := "" |};
  Capabilities := [{| SchemeId := "db"; CapabilityId := "read"; Parameters := "{}" |};
                   {| SchemeId := "db"; CapabilityId := id; Parameters := "" |}];
  DelegationMode := 0; AuthorizationConstraints := [];
  AICDelegation := {| SignatureAlgorithm := "1.2.840.10045.4.3.2"; SignatureValue := []; Nonce := [];
                      DAReason := ""; RequestedLifetime := 0; DATimestamp := 5 * Second |} |}.
Definition context_with (id : string) : AuthContext := {|
  ACClientCert := toy_cert 9; ACPrincipal := "alice"; ACAgentID := "bot"; ACSPIFFEID := ""; ACRoles := [];
  ACCapabilities := ["read"; id]; ACAIC := Some (agent_with id); ACBearer := false; ACSerial := "9";
  ACVerdict := None; ACReason := ""; ACUnresolved := []; ACOperationDecisions := []; ACEvidence := [];
  ACSatisfaction := None |}.
(** Headers of a client that claims to be somebody else. *)
Definition spoofed : GoHttp.Header :=
  {["X-Aic-Principal-Uid" := ["root"]; "X-Agent-Id" := ["admin"]; "Accept" := ["*/*"]]}.

Lemma injected_identity_is_asserted_witness :
  injectIdentityHeaders spoofed (Some (context_with "write")) IdentityAIC !! "x-aic-principal-UID" =
    asserted (Some (context_with "write")) IdentityAIC !! "x-aic-principal-UID" /\
  injectIdentityHeaders spoofed (Some (context_with "write")) IdentityAIC !! "X-Agent-Id" = Some ["bot"] /\
  injectIdentityHeaders spoofed (Some (context_with "write")) IdentityAIC !! "Accept" = Some ["*/*"].
Proof.
  assert (forall k, is_Some (spoofed !! k) -> CanonicalHeaderKey k = k) as H.
  { intros k [v Hk]. revert k v Hk. change (map_Forall (fun k _ => CanonicalHeaderKey k = k) spoofed). by_computation. }
  destruct (injected_identity_is_asserted spoofed (Some (context_with "write")) IdentityAIC H) as [H1 H2].
  split; [|split].
  - apply (H1 _ "X-AIC-Principal-Uid"); [by_computation|reflexivity].
  - vm_compute. reflexivity.
  - vm_compute. reflexivity.
Defined.

Example identity_read_back_there :
  AuthContextFromHeaders (injectIdentityHeaders spoofed (Some (context_with "write")) IdentityAIC) =
  Some {| HCPrincipal := "alice"; HCAgentID := "bot"; HCCapabilities := ["db:read"; "db:write"];
          HCAIC := [{| SchemeId := "db"; CapabilityId := "read"; Parameters := "" |};
                    {| SchemeId := "db"; CapabilityId := "write"; Parameters := "" |}] |}.
Proof.
  assert (ACPrincipal (context_with "write") <> "") as Hp by done.
  assert (Forall readable (Capabilities (agent_with "write"))) as Hr by (repeat constructor).
  pose proof (identity_read_back spoofed (context_with "write") (agent_with "write") IdentityAIC eq_refl
    (or_intror eq_refl) Hp Hr) as H.
  exact H.
Qed.

(** A comma in an identifier becomes a capability of its own on the backend. *)
Example comma_forges_capability :
  option_map HCCapabilities
    (AuthContextFromHeaders (injectIdentityHeaders ∅ (Some (context_with "x,db:admin")) IdentityAIC)) =
  Some ["db:read"; "db:x"; "db:admin"].
Proof. vm_compute. reflexivity. Qed.

(** The four modes survive the request header that carries them. *)
Example mode_round_trip :
  map (fun m => identityHeaderModeOf (SetIdentityHeaderMode ∅ m))
    [IdentityMinimal; IdentityForwardClientCert; IdentityXForwarded; IdentityAIC] =
  [IdentityMinimal; IdentityForwardClientCert; IdentityXForwarded; IdentityAIC].
Proof. vm_compute. reflexivity. Qed.

Example std64_samples : map (fun s => std64_encode (ascii_bytes s)) [""; "f"; "fo"; "foo"; "foob"] =
  [""; "Zg=="; "Zm8="; "Zm9v"; "Zm9vYg=="].
Proof. reflexivity. Qed.
End Witnesses.
