(* ===== verification/Records.v ===== *)
(** The records of refusals and of observed outcomes: [recordRefusal] and its
    callers in the middleware and the proxy, [ReportOutcome] and
    [reportObservedOutcome] ([src/admission_record.go], [src/outcome_record.go],
    [src/evidence_sink.go], [src/server.go]).

    A request is [Request] below; what an emission hands to the sink, and how
    the gap counter and the error hook see its failure, is explicit. *)
From S2P Require Import Prelude GoStrings GoTime GoJson GoNet GoHttp Types Sha256 Constraints AdmissionTypes.
From S2P Require Import DelegationAuth Clc Credential Admission Revocation Bearer Evidence Challenge Pipeline Decide.
Local Open Scope string_scope.
Local Open Scope Z_scope.
Local Open Scope list_scope.

(** * Definitions *)

(** The parts of an [http.Request] the source reads: [rTLS] are the peer
    certificates of a TLS connection, [rBody] the body with the error that
    follows it, if any. *)
Record Request := {
  rMethod : string; rPath : string; rRawQuery : string; rHeader : GoHttp.Header; rRemoteAddr : string;
  rTLS : option (list Certificate); rBody : option bytes
}.

(** [src/outcome_record.go:OutcomeRecordPredicateType] *)
Definition OutcomeRecordPredicateType := "https://varwof.com/aic/v1/outcome-record".
(** [src/outcome_record.go:OutcomeRecordVersion] *)
Definition OutcomeRecordVersion := "AIC-OUTCOME-RECORD-v1".
(** [src/outcome_record.go:OutcomeExecuted] and the tokens after it. *)
Definition OutcomeExecuted := "executed".
Definition OutcomeFailed := "failed".
Definition OutcomeIndeterminate := "indeterminate".
Definition OutcomeObserved := "observed".

(** What a record of a refusal or an outcome left: what the sink was handed, the
    gap counter, and the error given to [OnError] or logged. *)
Record emission `{EvidenceSemantics} {A : Type} := {
  e_handed : option (EvidenceContext * A * Envelope); e_gaps : option Z; e_reported : option error
}.
Arguments emission {_} A.

Section Records.
  Context {CN : CapabilityNames} {CS : ClcSemantics} {HF : HashFunction} {X : X509}
          {J : AicJwt} {ES : EvidenceSemantics} {CH : ChallengeSemantics}.

(** ** Refusals *)

(** [src/admission_record.go:NewAdmissionRecord] *)
Definition NewAdmissionRecord (ctx : EvidenceContext) (err : option AuthError) (facts : list AdmissionFact)
  : AdmissionRecord := {|
  Ver := AdmissionRecordVersion;
  Stage := match err with
    | None => "authenticate"
    | Some e => if String.eqb (ErrStage e) "" then ErrorCode_String (Code e) else ErrStage e end;
  Outcome := EvidenceRefused;
  Reason := match err with None => Errorf "" [] | Some e => Message e end;
  ARecorderID := RecorderID ctx; RecAt := At ctx;
  Identity := {| IPrincipal := CtxPrincipal ctx; IAgentID := AgentID ctx; ISerial := Serial ctx; ISPIFFEID := "" |};
  RecFacts := facts |}.

(** [src/evidence_sink.go:606-612 recordRefusal] the envelope of a record. *)
Definition seal (cfg : EvidenceConfig) (order : list (string * Digest) -> list (string * Digest))
    (env : result Envelope) : result Envelope :=
  match env with
  | Err e => Err e
  | Ok env => match tagEnvelope env (Profile cfg) (recorder (Some cfg)) order with
              | Err e => Err e
              | Ok env => signEnvelope env cfg
              end
  end.

(** [src/evidence_sink.go:recordRefusal] for the [n]-th record of the sink. *)
Definition recordRefusal (cfg : EvidenceConfig) (n : nat)
    (order : list (string * Digest) -> list (string * Digest)) (ctx : EvidenceContext) (err : AuthError)
    (gaps : option Z) : list RecordRef * emission AdmissionRecord :=
  let rec := NewAdmissionRecord ctx (Some err) (Evidence.Facts ctx) in
  let failed handed e := ([], {| e_handed := handed;
    e_gaps := if HasGaps cfg then GapCounter_Inc gaps else gaps; e_reported := Some e |}) in
  match seal cfg order (NewAdmissionEnvelope rec) with
  | Err e => failed None e
  | Ok env =>
      match EmitAdmission (default SlogSink (Sink cfg)) n ctx rec env with
      | Err e => failed (Some (ctx, rec, env)) e
      | Ok ref => ([ref], {| e_handed := Some (ctx, rec, env); e_gaps := gaps; e_reported := None |})
      end
  end.

(** No record at all. *)
Definition silent {A} (gaps : option Z) : list RecordRef * emission A :=
  ([], {| e_handed := None; e_gaps := gaps; e_reported := None |}).

(** [src/aicverifier.go:978-991 refusalEvidence] *)
Definition refusal_context {R} (a : authenticator R) (cfg : EvidenceConfig) (view : RequestView R) (now : Time)
  : EvidenceContext := {|
  Evidence.Facts := admissionFacts a view []; RecorderID := CfgRecorderID cfg; OperationID := "";
  EMethod := VMethod view; EPath := VPath view; TraceID := View_TraceID view; CtxPrincipal := "";
  AgentID := ""; Serial := match PresentedCert view with Some c => serial_Text16 (SerialNumber c) | None => "" end;
  CtxOutcome := EvidenceRefused; At := now |}.

(** [src/aicverifier.go:refusalEvidence] *)
Definition refusalEvidence {R} (a : authenticator R) (view : RequestView R) (ae : AuthError) (n : nat)
    (order : list (string * Digest) -> list (string * Digest)) (now : Time) (gaps : option Z)
  : list RecordRef * emission AdmissionRecord :=
  match cEvidence a with
  | None => silent gaps
  | Some cfg =>
      if 0 <? zlen (ErrEvidence ae) then silent gaps
      else recordRefusal cfg n order (refusal_context a cfg view now) ae gaps
  end.

(** [src/server.go:342-368 denialEvidence] *)
Definition denial_context (cfg : EvidenceConfig) (r : Request) (ac : option AuthContext) (now : Time)
  : EvidenceContext :=
  let serial := match ac with Some a => ACSerial a | None => "" end in
  let leaf := match rTLS r with Some (c :: _) => Some c | _ => None end in {|
  Evidence.Facts := match leaf with
    | Some c => [{| FactType := "client-cert"; FactDigest := {| Alg := DigestAlgSHA256; Value := Sum256 (Raw c) |};
                    FactNote := "leaf certificate presented on this connection" |}]
    | None => [] end;
  RecorderID := CfgRecorderID cfg; OperationID := ""; EMethod := rMethod r; EPath := rPath r;
  TraceID := Header_Get (rHeader r) "X-Request-Id";
  CtxPrincipal := match ac with Some a => ACPrincipal a | None => "" end;
  AgentID := match ac with Some a => ACAgentID a | None => "" end;
  Serial := match leaf with
    | Some c => if String.eqb serial "" then serial_Text16 (SerialNumber c) else serial | None => serial end;
  CtxOutcome := EvidenceRefused; At := now |}.

(** [src/server.go:denialEvidence] nothing is added to the records of the
    request's own admission. *)
Definition denialEvidence (cfg : option EvidenceConfig) (r : Request) (ac : option AuthContext) (ae : AuthError)
    (n : nat) (order : list (string * Digest) -> list (string * Digest)) (now : Time) (gaps : option Z)
  : list RecordRef * emission AdmissionRecord :=
  match cfg with
  | None => silent gaps
  | Some cfg =>
      if 0 <? zlen (ErrEvidence ae) then silent gaps
      else if match ac with Some a => 0 <? zlen (ACEvidence a) | None => false end then silent gaps
      else recordRefusal cfg n order (denial_context cfg r ac now) ae gaps
  end.

(** ** Outcomes *)

(** [src/outcome_record.go:NewOutcomeEnvelope] *)
Definition NewOutcomeEnvelope (rec : OutcomeRecord) : result Envelope :=
  let subjects := flat_map (fun f => match digestKey (FactDigest f) with
    | Err _ => []
    | Ok alg => [{| SubjectName := FactType f; SubjectDigest := [(alg, hex_encode (Value (FactDigest f)))] |}]
    end) (OFacts rec) in
  match CanonicalJSON_Outcome StatementTypeInToto subjects OutcomeRecordPredicateType rec with
  | Err e => Err e
  | Ok payload => Ok {| Payload := payload; PayloadType := PayloadTypeInToto; Signatures := [] |}
  end.

(** [src/outcome_record.go:154-169 ReportOutcome] what the caller left out. *)
Definition complete_outcome (cfg : option EvidenceConfig) (ctx : EvidenceContext) (now : Time)
    (rec : OutcomeRecord) : OutcomeRecord := {|
  OVer := if String.eqb (OVer rec) "" then OutcomeRecordVersion else OVer rec; OOutcome := OOutcome rec;
  OAt := let t := if IsZero (OAt rec) then At ctx else OAt rec in if IsZero t then now else t;
  ODecisionDigest := ODecisionDigest rec; OOperationID := OOperationID rec;
  ORecorderID := if String.eqb (ORecorderID rec) "" then RecorderID ctx else ORecorderID rec;
  OStatusCode := OStatusCode rec; ONote := ONote rec; OIdentity := OIdentity rec; OFacts := OFacts rec |}.

(** [src/outcome_record.go:ReportOutcome] over a sink; a configuration that is
    absent neither tags nor signs. *)
Definition ReportOutcome (sink : option (EvidenceContext -> OutcomeRecord -> Envelope -> result RecordRef))
    (cfg : option EvidenceConfig) (order : list (string * Digest) -> list (string * Digest)) (now : Time)
    (ctx : EvidenceContext) (rec : OutcomeRecord)
  : result RecordRef * option (EvidenceContext * OutcomeRecord * Envelope) :=
  match sink with
  | None => (Err (Errorf "outcome record: no sink configured" []), None)
  | Some emit =>
      let rec := complete_outcome cfg ctx now rec in
      match (match cfg with Some c => seal c order (NewOutcomeEnvelope rec) | None => NewOutcomeEnvelope rec end) with
      | Err e => (Err e, None)
      | Ok env =>
          (match emit ctx rec env with
           | Err e => Err e
           | Ok ref => Ok (if String.eqb (RefVerdict ref) ""
               then {| RefDigest := RefDigest ref; RefVerdict := OOutcome rec; RefPath := RefPath ref |} else ref)
           end, Some (ctx, rec, env))
      end
  end.

(** [src/server.go:404-414 reportObservedOutcome] *)
Definition outcome_context (cfg : EvidenceConfig) (r : Request) (ac : AuthContext) (now : Time)
  : EvidenceContext := {|
  Evidence.Facts := []; RecorderID := CfgRecorderID cfg; OperationID := ""; EMethod := rMethod r;
  EPath := rPath r; TraceID := Header_Get (rHeader r) "X-Request-Id"; CtxPrincipal := ACPrincipal ac;
  AgentID := ACAgentID ac; Serial := ACSerial ac; CtxOutcome := EvidenceAdmitted; At := now |}.

(** [src/server.go:395-423 reportObservedOutcome] *)
Definition observed_record (cfg : EvidenceConfig) (r : Request) (ac : AuthContext) (now : Time) (status : Z)
    (transportErr : bool) : OutcomeRecord := {|
  OVer := ""; OOutcome := if transportErr then OutcomeIndeterminate else OutcomeObserved; OAt := now;
  ODecisionDigest := match ACEvidence ac with ref :: _ => RefDigest ref | [] => "" end;
  OOperationID := rMethod r +:+ " " +:+ rPath r; ORecorderID := CfgRecorderID cfg; OStatusCode := status;
  ONote := ""; OIdentity := {| IPrincipal := ACPrincipal ac; IAgentID := ACAgentID ac; ISerial := ACSerial ac;
                               ISPIFFEID := "" |};
  OFacts := [] |}.

(** [src/server.go:reportObservedOutcome] *)
Definition reportObservedOutcome (cfg : option EvidenceConfig) (r : Request) (ac : option AuthContext)
    (status : Z) (transportErr : bool) (order : list (string * Digest) -> list (string * Digest)) (now : Time)
    (gaps : option Z) : emission OutcomeRecord :=
  let silent := {| e_handed := None; e_gaps := gaps; e_reported := None |} in
  match cfg, ac with
  | Some cfg, Some ac =>
      if negb (EmitOutcome cfg) then silent
      else
        let gap := if HasGaps cfg then GapCounter_Inc gaps else gaps in
        match EmitOutcomeRecord (default SlogSink (Sink cfg)) with
        | None =>
            if HasOnError cfg then {| e_handed := None; e_gaps := gap;
              e_reported := Some (Errorf "evidence: sink does not emit outcome records" []) |}
            else silent
        | Some emit =>
            let '(res, handed) := ReportOutcome (Some emit) (Some cfg) order now
                (outcome_context cfg r ac now) (observed_record cfg r ac now status transportErr) in
            match res with
            | Err e => {| e_handed := handed; e_gaps := gap; e_reported := Some e |}
            | Ok _ => {| e_handed := handed; e_gaps := gaps; e_reported := None |}
            end
        end
  | _, _ => silent
  end.
End Records.

(** * Lemmas *)
Section RecordsFacts.
  Context {CN : CapabilityNames} {CS : ClcSemantics} {HF : HashFunction} {X : X509}
          {J : AicJwt} {ES : EvidenceSemantics} {CH : ChallengeSemantics}.

(** What was sealed is signed when the configuration has a key: the last step
    put the key's signature on the tagged envelope. *)
Definition signed_by (cfg : EvidenceConfig) (env : Envelope) : Prop :=
  match signingKey (Some cfg) with
  | (keyID, Some f) => exists env0, Envelope_Sign env0 keyID f = Ok env
  | (_, None) => True
  end.

Lemma seal_Ok cfg order env env' : seal cfg order env = Ok env' ->
  exists env0 env1, env = Ok env0 /\ tagEnvelope env0 (Profile cfg) (recorder (Some cfg)) order = Ok env1 /\
    signEnvelope env1 cfg = Ok env' /\ signed_by cfg env'.
Proof.
  unfold seal. destruct env as [env0|]; [|done]. destruct (tagEnvelope _ _ _ _) as [env1|] eqn:Et; [|done].
  intros Hs. exists env0, env1. repeat (split; [done|]). revert Hs. unfold signEnvelope, signed_by.
  destruct (signingKey (Some cfg)) as [keyID [f|]]; [|done].
  destruct (Envelope_Sign env1 keyID f) eqn:Ee; [|done]. intros [= <-]. by exists env1.
Qed.

(** The envelope of this admission record: its statement, tagged with the profile
    and the recorder, under the signature of the configured key, if there is
    one. *)
Definition sealed (cfg : EvidenceConfig) (order : list (string * Digest) -> list (string * Digest))
    (rec : AdmissionRecord) (env : Envelope) : Prop := exists env0 env1,
  NewAdmissionEnvelope rec = Ok env0 /\ tagEnvelope env0 (Profile cfg) (recorder (Some cfg)) order = Ok env1 /\
  match signingKey (Some cfg) with
  | (keyID, Some f) => Envelope_Sign env1 keyID f = Ok env
  | (_, None) => env = env1
  end.
(** One of these three steps failed. *)
Definition unsealable (cfg : EvidenceConfig) (order : list (string * Digest) -> list (string * Digest))
    (rec : AdmissionRecord) : Prop :=
  is_ok (NewAdmissionEnvelope rec) = false \/ exists env0, NewAdmissionEnvelope rec = Ok env0 /\
    (is_ok (tagEnvelope env0 (Profile cfg) (recorder (Some cfg)) order) = false \/
     exists env1 keyID f, tagEnvelope env0 (Profile cfg) (recorder (Some cfg)) order = Ok env1 /\
       signingKey (Some cfg) = (keyID, Some f) /\ is_ok (Envelope_Sign env1 keyID f) = false).
Lemma seal_spec cfg order rec :
  match seal cfg order (NewAdmissionEnvelope rec) with
  | Ok env => sealed cfg order rec env
  | Err _ => unsealable cfg order rec
  end.
Proof.
  unfold seal, sealed, unsealable, signEnvelope. destruct (NewAdmissionEnvelope rec) as [env0|e]; [|by left].
  destruct (tagEnvelope _ _ _ _) as [env1|e] eqn:Et; [|right; exists env0; split; [done|]; left; by rewrite Et].
  destruct (signingKey (Some cfg)) as [keyID [f|]]; [|by exists env0, env1].
  destruct (Envelope_Sign env1 keyID f) as [env|e] eqn:Ee; [by exists env0, env1|].
  right. exists env0. split; [done|]. right. exists env1, keyID, f. by rewrite Ee.
Qed.

(** What [recordRefusal] did: a reference for a record its sink took, or a gap
    counted and reported for one that could not be sealed or was not taken. *)
Definition refusal_kept (cfg : EvidenceConfig) (n : nat) order (ctx : EvidenceContext) (rec : AdmissionRecord)
    (gaps : option Z) (refs : list RecordRef) (e : emission AdmissionRecord) : Prop := exists env ref,
  sealed cfg order rec env /\ EmitAdmission (sink_of cfg) n ctx rec env = Ok ref /\
  refs = [ref] /\ e = {| e_handed := Some (ctx, rec, env); e_gaps := gaps; e_reported := None |}.
Definition refusal_missed (cfg : EvidenceConfig) (n : nat) order (ctx : EvidenceContext) (rec : AdmissionRecord)
    (gaps : option Z) (refs : list RecordRef) (e : emission AdmissionRecord) : Prop :=
  refs = [] /\ e_gaps e = (if HasGaps cfg then GapCounter_Inc gaps else gaps) /\
  exists x, e_reported e = Some x /\
    (unsealable cfg order rec /\ e_handed e = None \/
     exists env, sealed cfg order rec env /\ EmitAdmission (sink_of cfg) n ctx rec env = Err x /\
       e_handed e = Some (ctx, rec, env)).
Lemma recordRefusal_cases cfg n order ctx err gaps :
  let rec := NewAdmissionRecord ctx (Some err) (Evidence.Facts ctx) in
  let '(refs, e) := recordRefusal cfg n order ctx err gaps in
  refusal_kept cfg n order ctx rec gaps refs e \/ refusal_missed cfg n order ctx rec gaps refs e.
Proof.
  cbv zeta. unfold recordRefusal, refusal_kept, refusal_missed. fold (sink_of cfg).
  pose proof (seal_spec cfg order (NewAdmissionRecord ctx (Some err) (Evidence.Facts ctx))) as Hs.
  destruct (seal _ _ _) as [env|x].
  - destruct (EmitAdmission _ _ _ _ _) as [ref|x] eqn:Ee; [left; by exists env, ref|right].
    split; [done|]. split; [done|]. exists x. split; [done|]. right. by exists env.
  - right. split; [done|]. split; [done|]. exists x. split; [done|]. by left.
Qed.

(** * Properties *)

(** C31: a refusal that produced no record of its own leaves exactly one: an
    admission record that says it was refused, at the stage its error names or,
    when it names none, the stage of its code, and why, with the facts of the
    connection; the envelope handed to the sink is this record's, tagged, and
    signed when a key is configured, and the reference is the one the sink
    answered. A gap is counted and reported when, and only when, the record
    could not be sealed or the sink refused it, and then no reference is given.
    A refusal that already has records leaves no other. *)
Theorem refusal_recorded_once {R} (a : authenticator R) view ae n order now gaps cfg (Hc : cEvidence a = Some cfg) :
  let '(refs, e) := refusalEvidence a view ae n order now gaps in
  (ErrEvidence ae <> [] -> refs = [] /\ e = (silent gaps).2) /\
  (ErrEvidence ae = [] -> exists ctx rec,
     Outcome rec = EvidenceRefused /\ Reason rec = Message ae /\
     Stage rec = (if String.eqb (ErrStage ae) "" then ErrorCode_String (Code ae) else ErrStage ae) /\
     RecFacts rec = admissionFacts a view [] /\ RecAt rec = now /\ ARecorderID rec = CfgRecorderID cfg /\
     CtxOutcome ctx = EvidenceRefused /\ EMethod ctx = VMethod view /\ EPath ctx = VPath view /\ At ctx = now /\
     (refusal_kept cfg n order ctx rec gaps refs e \/ refusal_missed cfg n order ctx rec gaps refs e)).
Proof.
  unfold refusalEvidence. rewrite Hc. destruct (ErrEvidence ae) as [|r l] eqn:Ee; [|by split].
  change (0 <? zlen (@nil RecordRef)) with false. cbv iota.
  pose proof (recordRefusal_cases cfg n order (refusal_context a cfg view now) ae gaps) as H. cbv zeta in H.
  destruct (recordRefusal _ _ _ _ _ _) as [refs e]. split; [done|]. intros _.
  exists (refusal_context a cfg view now), (NewAdmissionRecord (refusal_context a cfg view now) (Some ae)
    (Evidence.Facts (refusal_context a cfg view now))).
  do 10 (split; [reflexivity|]). exact H.
Qed.

(** An outcome record always points at the decision it followed: whatever is
    handed to the sink after an admitted request names the digest of the
    admission's first record (empty when there is none), says [observed] with
    the status or, after a transport failure, [indeterminate], identifies the
    admitted client, and is signed when a key is configured. *)
Theorem outcome_follows_decision cfg r ac status transportErr order now gaps ctx rec env
    (H : e_handed (reportObservedOutcome (Some cfg) r (Some ac) status transportErr order now gaps) =
         Some (ctx, rec, env)) :
  ODecisionDigest rec = match ACEvidence ac with ref :: _ => RefDigest ref | [] => "" end /\
  OOutcome rec = (if transportErr then OutcomeIndeterminate else OutcomeObserved) /\ OStatusCode rec = status /\
  OIdentity rec = {| IPrincipal := ACPrincipal ac; IAgentID := ACAgentID ac; ISerial := ACSerial ac; ISPIFFEID := "" |} /\
  OVer rec = OutcomeRecordVersion /\ CtxOutcome ctx = EvidenceAdmitted /\ EmitOutcome cfg = true /\
  signed_by cfg env.
Proof.
  revert H. unfold reportObservedOutcome. destruct (EmitOutcome cfg); [|done]. cbn [negb].
  destruct (EmitOutcomeRecord _) as [emit|]; [|by destruct (HasOnError cfg)].
  unfold ReportOutcome. destruct (seal _ _ _) as [env0|] eqn:Es; [|done].
  apply seal_Ok in Es as (_ & _ & _ & _ & _ & Hs).
  destruct (emit _ _ _) as [ref|]; cbn; intros [= <- <- <-]; done.
Qed.

(** A sink that takes no outcome records, and no error hook: the missing record
    is neither counted nor reported. *)
Theorem outcome_gap_silent cfg r ac status transportErr order now gaps sink
    (Hs : Sink cfg = Some sink) (Hn : EmitOutcomeRecord sink = None) (He : HasOnError cfg = false) :
  reportObservedOutcome (Some cfg) r (Some ac) status transportErr order now gaps =
  {| e_handed := None; e_gaps := gaps; e_reported := None |}.
Proof.
  unfold reportObservedOutcome. destruct (EmitOutcome cfg); [|done]. cbn [negb]. rewrite Hs. cbn. by rewrite Hn, He.
Qed.
End RecordsFacts.

(** * Concrete instances *)
Section Witnesses.
  #[local] Existing Instance clc_names.
  #[local] Existing Instance toy_semantics.
  #[local] Existing Instance sha256.
  #[local] Existing Instance toy_jwt.
  #[local] Existing Instance toy_evidence.
  #[local] Existing Instance toy_x509.
  #[local] Existing Instance toy_challenges.

Definition plain_refusal : AuthError := auth_error ErrNoCredential 401 (Errorf "no client credential presented" []).

(** The record of a refusal, its envelope signed by the key of the gateway, and a
    sink that refuses it. *)
Lemma refusal_recorded_once_witness :
  map RefDigest (refusalEvidence (toy_gateway (toy_answer "no")) (toy_view None) plain_refusal 0 id 7 None).1
    = [hex_encode (ascii_bytes "no_credential")].
Proof.
  assert (length (refusalEvidence (toy_gateway (toy_answer "no")) (toy_view None) plain_refusal 0 id 7 None).1 = 1%nat)
    as Hl by (vm_compute; reflexivity).
  pose proof (refusal_recorded_once (toy_gateway (toy_answer "no")) (toy_view None) plain_refusal 0 id 7 None
    (toy_evidence_config None) eq_refl) as H.
  destruct (refusalEvidence _ _ _ _ _ _ _) as [refs e]. destruct H as [_ H].
  destruct (H eq_refl) as (ctx & rec & _ & _ & Hst & _ & _ & _ & _ & _ & _ & _ & [(env & ref & _ & Hem & -> & _)|(-> & _)]).
  - cbn in Hem, Hst. unfold admissionRef in Hem. cbn in Hem. rewrite Hst in Hem.
    injection Hem as <-. reflexivity.
  - exfalso. discriminate Hl.
Defined.

Definition observing_config : EvidenceConfig := {|
  Sink := None; Strict := true; TTL := 0; Audience := ""; CfgRecorderID := "gw"; HasOnError := false;
  HasGaps := false; Sign := Some (fun b => Ok b); KeyID := "k"; Signer := None; SignKeyFile := "";
  RequireSignature := false; EmitOutcome := true; CfgRequirement := None; Profile := None;
  Recorder := None; profileNoDecision := false |}.
Definition sample_request : Request := {|
  rMethod := "GET"; rPath := "/rows"; rRawQuery := ""; rHeader := ∅; rRemoteAddr := "10.0.0.9:4000";
  rTLS := Some [toy_cert 9]; rBody := None |}.
Definition admitted_context : AuthContext := {|
  ACClientCert := toy_cert 9; ACPrincipal := "alice"; ACAgentID := "bot"; ACSPIFFEID := ""; ACRoles := [];
  ACCapabilities := ["read"]; ACAIC := None; ACBearer := false; ACSerial := "9"; ACVerdict := None;
  ACReason := ""; ACUnresolved := []; ACOperationDecisions := [];
  ACEvidence := [{| RefDigest := "d1"; RefVerdict := "allow"; RefPath := "" |}]; ACSatisfaction := None |}.
Definition observed (status : Z) (err : bool) : emission OutcomeRecord :=
  reportObservedOutcome (Some observing_config) sample_request (Some admitted_context) status err id 5 None.

Lemma outcome_follows_decision_witness : exists ctx rec env,
  e_handed (observed 200 false) = Some (ctx, rec, env) /\ ODecisionDigest rec = "d1" /\ OOutcome rec = "observed".
Proof.
  destruct (e_handed (observed 200 false)) as [[[ctx rec] env]|] eqn:E.
  - destruct (outcome_follows_decision _ _ _ _ _ _ _ _ ctx rec env E) as (H1 & H2 & _).
    exists ctx, rec, env. split; [reflexivity|]. split; [exact H1|exact H2].
  - exfalso. revert E. vm_compute. discriminate.
Defined.

End Witnesses.
