(* ===== verification/Proxy.v ===== *)
(** The reverse proxy of [src/server.go]: the route of a request, what the proxy
    refuses after admission, the headers it forwards, and the records and hooks
    of either outcome.  Letter case is folded as [strings.ToLower] does, over
    all of Unicode.  A backend is a function from what it is sent to the
    status it answers, or to a transport error. *)
From S2P Require Import Prelude GoStrings GoTime GoJson GoNet GoHttp Types Sha256 Constraints AdmissionTypes.
From S2P Require Import DelegationAuth Clc Credential Admission Revocation Bearer Evidence Challenge Pipeline Decide Identity Records.
From Stdlib Require Import Ascii.
Local Open Scope string_scope.
Local Open Scope Z_scope.
Local Open Scope list_scope.

(** * Definitions *)

(** [src/server.go:Route] a backend is named by its URL, of type [T]. *)
Record Route {T : Type} := {
  RoutePath : string; Target : T; AllowMethods : list string; RRequiredCapabilities : list string
}.
Arguments Route T : clear implicits.

(** [src/server.go:512-528 matchRoute] whether one route matches the cleaned path
    in lower case; [/*] and [/] match everything. *)
Definition route_matches (lower pat : string) : bool :=
  if String.eqb pat "/*" || String.eqb pat "/" then true
  else if has_suffix pat "/*" then
    let prefix := trim_suffix pat "/*" in
    if has_prefix lower prefix && (0 <? slen prefix) then
      let rest := trim_prefix lower prefix in String.eqb rest "" || has_prefix rest "/"
    else false
  else String.eqb lower pat || has_prefix lower (trim_suffix pat "/" +:+ "/").

(** [src/server.go:507-511 matchRoute] *)
Definition route_key (p : string) : string :=
  let cleaned := path_Clean p in ToLower (if String.eqb cleaned "/" then "" else cleaned).

(** [src/server.go:matchRoute] the first route that matches. *)
Definition matchRoute {T} (routes : list (Route T)) (p : string) : option (Route T) :=
  List.find (fun r => route_matches (route_key p) (ToLower (RoutePath r))) routes.

(** [src/server.go:contains] *)
Definition contains (l : list string) (s : string) : bool := existsb (String.eqb s) l.

(** What the hooks of the configuration were called with. *)
Inductive hook_call `{ChallengeSemantics} :=
  | HookAuthenticated (ac : AuthContext) | HookDenied (err : AuthError) | HookForwarded (status : Z).

Section Proxy.
  Context {T : Type} {CN : CapabilityNames} {CS : ClcSemantics} {HF : HashFunction} {X : X509}
          {J : AicJwt} {ES : EvidenceSemantics} {CH : ChallengeSemantics}.

(** [src/server.go:hasAllCapabilities] *)
Definition hasAllCapabilities (ac : AuthContext) (need : list string) : bool :=
  forallb (fun n => existsb (String.eqb n) (ACCapabilities ac)) need.

(** [src/server.go:Server]: its routes, the identity mode and the evidence of its
    configuration, and the hooks that are set. *)
Record Server := {
  routes : list (Route T); IdentityMode : Z; sEvidence : option EvidenceConfig; hasDenied : bool;
  hasForwarded : bool
}.

(** [src/server.go:88-93 NewServer] a route without a target is refused. *)
Definition server_routes (rs : list (string * option T * list string * list string)) : result (list (Route T)) :=
  map_result (fun '(p, t, ms, caps) => match t with
    | None => Err (Errorf "aic-verifier: route %q has nil target" [AStr p])
    | Some t => Ok {| RoutePath := p; Target := t; AllowMethods := ms; RRequiredCapabilities := caps |}
    end) rs.

(** What a run reads: the clock, the record's number at the sink and the order of
    the tagging. *)
Record proxy_env := { x_now : Time; x_n : nat; x_order : list (string * Digest) -> list (string * Digest) }.

(** What a run did: the status answered, the refusal, what was sent where, the
    records and the hooks. *)
Record proxied := {
  x_status : Z; x_refusal : option AuthError; x_sent : option (Route T * GoHttp.Header);
  x_admission : emission AdmissionRecord; x_outcome : emission OutcomeRecord; x_hooks : list hook_call
}.

(** [src/server.go:234-256 proxy] the refusals, in order. *)
Definition proxy_refusal (status : Z) (stage msg : string) : AuthError := {|
  Code := ErrDenied; Status := status; Message := Errorf msg []; ErrStage := stage; ErrEvidence := [];
  Problem := None; ErrSatisfaction := None |}.
Definition check_route (s : Server) (r : Request) (ac : option AuthContext) : Route T * AuthContext + AuthError :=
  match matchRoute (routes s) (rPath r) with
  | None => inr (proxy_refusal 404 "route_denied" "no matching route")
  | Some route =>
      if (0 <? zlen (AllowMethods route)) && negb (contains (AllowMethods route) (rMethod r))
      then inr (proxy_refusal 405 "method_not_allowed" "method not allowed")
      else match ac with
      | None => inr (proxy_refusal 403 "identity_denied" "no verified identity")
      | Some ac =>
          if (0 <? zlen (RRequiredCapabilities route)) && negb (hasAllCapabilities ac (RRequiredCapabilities route))
          then inr (proxy_refusal 403 "capability_denied" "agent missing required capabilities")
          else inl (route, ac)
      end
  end.

(** [src/server.go:257-271 proxy] *)
Definition forward_headers (s : Server) (h : GoHttp.Header) (ac : AuthContext) : GoHttp.Header :=
  let h := Header_Del_all trustHeaderNames h in
  let h := Header_Del "X-AICN-Identity-Mode" h in
  let h := Header_Del "Authorization" h in
  let h := Header_Del "Proxy-Authorization" h in
  injectIdentityHeaders h (Some ac) (IdentityMode s).

(** [src/server.go:277-280 proxy] *)
Definition client_ip (remoteAddr : string) : string :=
  match SplitHostPort remoteAddr with Ok (host, _) => host | Err _ => remoteAddr end.

(** [src/server.go:291-294 proxy] the headers the director leaves. *)
Definition directed_headers (s : Server) (r : Request) (ac : AuthContext) : GoHttp.Header :=
  Header_Set "X-Forwarded-For" (client_ip (rRemoteAddr r)) (forward_headers s (rHeader r) ac).

(** [src/server.go:288-304 proxy] the headers the backend receives. *)
Definition backend_headers (s : Server) (r : Request) (ac : AuthContext) : GoHttp.Header :=
  proxied_headers (forward_headers s (rHeader r) ac) (directed_headers s r ac) (rRemoteAddr r).

(** [src/server.go:deny] *)
Definition deny (s : Server) (env : proxy_env) (r : Request) (ac : option AuthContext) (err : AuthError)
    (gaps : option Z) : proxied :=
  let '(refs, e) := denialEvidence (sEvidence s) r ac err (x_n env) (x_order env) (x_now env) gaps in
  let err := {| Code := Code err; Status := Status err; Message := Message err; ErrStage := ErrStage err;
                ErrEvidence := ErrEvidence err ++ refs; Problem := Problem err;
                ErrSatisfaction := ErrSatisfaction err |} in
  {| x_status := Status err; x_refusal := Some err; x_sent := None; x_admission := e;
     x_outcome := {| e_handed := None; e_gaps := e_gaps e; e_reported := None |};
     x_hooks := if hasDenied s then [HookDenied err] else [] |}.

(** [src/server.go:proxy] an error of the transport, or of the proxy before it,
    is a 502. *)
Definition proxy (s : Server) (env : proxy_env) (backend : T -> Request -> GoHttp.Header -> result Z)
    (r : Request) (ac : option AuthContext) (gaps : option Z) : proxied :=
  match check_route s r ac with
  | inr err => deny s env r ac err gaps
  | inl (route, ac) =>
      let h := backend_headers s r ac in
      let '(sent, answer) := if ascii_IsPrint (upgradeType (directed_headers s r ac))
        then (Some (route, h), backend (Target route) r h)
        else (None, Err (Errorf "client tried to switch to invalid protocol %q" [])) in
      let '(status, failed) := match answer with Ok status => (status, false) | Err _ => (502, true) end in
      {| x_status := status; x_refusal := None; x_sent := sent;
         x_admission := {| e_handed := None; e_gaps := gaps; e_reported := None |};
         x_outcome := reportObservedOutcome (sEvidence s) r (Some ac) status failed (x_order env) (x_now env) gaps;
         x_hooks := if hasForwarded s then [HookForwarded status] else [] |}
  end.
End Proxy.

(** * Lemmas *)
Section ProxyFacts.
  Context {T : Type} {CN : CapabilityNames} {CS : ClcSemantics} {HF : HashFunction} {X : X509}
          {J : AicJwt} {ES : EvidenceSemantics} {CH : ChallengeSemantics}.

(** ** Routes *)

(** A path at or below a prefix, at a segment boundary. *)
Definition at_or_below (base key : string) : Prop := key = base \/ exists t, key = (base +:+ "/" +:+ t).

Definition route_covers (pat key : string) : Prop :=
  pat = "/" \/ pat = "/*" \/
  (exists base, base <> "" /\ pat = (base +:+ "/*") /\ at_or_below base key) \/
  (has_suffix pat "/*" = false /\ (key = pat \/ exists t, key = (trim_suffix pat "/" +:+ "/" +:+ t))).

Lemma under_spec base key :
  (has_prefix key base && (String.eqb (trim_prefix key base) "" || has_prefix (trim_prefix key base) "/")) = true <->
  at_or_below base key.
Proof.
  unfold at_or_below. split.
  - intros [Hp H]%andb_true_iff. apply has_prefix_spec in Hp as (t & ->). rewrite trim_prefix_app in H.
    apply orb_true_iff in H as [H|H].
    + apply String.eqb_eq in H as ->. left. apply sapp_nil_r.
    + apply has_prefix_spec in H as (u & ->). right. by exists u.
  - intros [->|(t & ->)].
    + by rewrite has_prefix_refl, <- (sapp_nil_r base), trim_prefix_app at 1.
    + by rewrite has_prefix_app, trim_prefix_app, has_prefix_app, orb_true_r.
Qed.

Lemma route_matches_spec key pat : route_matches key pat = true <-> route_covers pat key.
Proof.
  unfold route_matches, route_covers. destruct (String.eqb_spec pat "/*") as [->|H1]; [cbn; tauto|].
  destruct (String.eqb_spec pat "/") as [->|H2]; [cbn; tauto|]. cbn [orb].
  destruct (has_suffix pat "/*") eqn:Hs.
  - apply has_suffix_spec in Hs as (base & ->). rewrite trim_suffix_snoc.
    assert ((0 <? slen base) = true <-> base <> "") as Hb by (destruct base; cbn; split; done || lia).
    transitivity (base <> "" /\ at_or_below base key).
    + rewrite <- under_spec, <- Hb. destruct (has_prefix key base), (0 <? slen base); cbn; intuition congruence.
    + split; [intros [Hne Hab]; right; right; left; by exists base|].
      intros [E|[E|[(b & Hne & E & Hab)|[Hf _]]]]; [by rewrite E in *|by rewrite E in *| |discriminate Hf].
      apply sapp_inj_r in E as ->. done.
  - rewrite orb_true_iff, String.eqb_eq, has_prefix_spec. split.
    + intros [->|(t & ->)]; right; right; right; (split; [done|]); [by left|right; exists t; apply sapp_assoc].
    + intros [E|[E|[(b & _ & -> & _)|[_ H]]]]; [done|done|by rewrite has_suffix_snoc in Hs|].
      destruct H as [->|(t & ->)]; [by left|right; exists t; symmetry; apply sapp_assoc].
Qed.

Lemma matchRoute_spec (rs : list (Route T)) p r :
  matchRoute rs p = Some r <->
  exists l1 l2, rs = l1 ++ r :: l2 /\ route_covers (ToLower (RoutePath r)) (route_key p) /\
    Forall (fun r' => ~ route_covers (ToLower (RoutePath r')) (route_key p)) l1.
Proof.
  unfold matchRoute. induction rs as [|r0 rs IH].
  { split; [done|]. by intros ([|] & l2 & ? & _). }
  cbn [List.find]. destruct (route_matches (route_key p) (ToLower (RoutePath r0))) eqn:E.
  - split.
    + intros [= ->]. exists [], rs. split; [done|]. split; [by apply route_matches_spec|constructor].
    + intros ([|r1 l1] & l2 & Hrs & _ & Hl); [by injection Hrs as ->|]. injection Hrs as -> ->.
      apply Forall_cons in Hl as [Hn _]. by apply route_matches_spec in E.
  - assert (~ route_covers (ToLower (RoutePath r0)) (route_key p)) as Hn
      by (rewrite <- route_matches_spec; congruence).
    rewrite IH. split.
    + intros (l1 & l2 & -> & Hc & Hl). exists (r0 :: l1), l2. repeat split; [done|]. by constructor.
    + intros ([|r1 l1] & l2 & Hrs & Hc & Hl); injection Hrs as -> ->; [done|].
      apply Forall_cons in Hl as [_ Hl]. by exists l1, l2.
Qed.

(** ** Headers *)

Definition withheld : list string := ["X-Aicn-Identity-Mode"; "Authorization"; "Proxy-Authorization"].

Lemma forward_headers_lookup (s : Server (T := T)) h ac k :
  forward_headers s h ac !! k =
  if bool_decide (k ∈ trust_names) then asserted (Some ac) (IdentityMode s) !! k
  else if bool_decide (k ∈ withheld) then None else h !! k.
Proof.
  unfold forward_headers. cbv zeta. rewrite inject_cases. case_bool_decide as Ht; [done|]. unfold Header_Del.
  change (CanonicalHeaderKey "X-AICN-Identity-Mode") with "X-Aicn-Identity-Mode".
  change (CanonicalHeaderKey "Authorization") with "Authorization".
  change (CanonicalHeaderKey "Proxy-Authorization") with "Proxy-Authorization".
  destruct (bool_decide_reflect (k ∈ withheld)) as [Hw|Hw].
  - repeat (apply elem_of_cons in Hw as [->|Hw];
      [repeat first [apply lookup_delete_eq | rewrite lookup_delete_ne by discriminate]|]).
    by apply elem_of_nil in Hw.
  - rewrite !lookup_delete_ne by (intros <-; apply Hw; by_computation).
    by rewrite Header_Del_all_lookup, bool_decide_eq_false_2.
Qed.

(** The headers the client asks the proxy to drop. *)
Definition dropped (r : Request) : list string :=
  map CanonicalHeaderKey (listed_names (default [] (rHeader r !! "Connection"))).

Lemma backend_headers_lookup (s : Server (T := T)) r ac k : k ∉ proxy_owned ->
  backend_headers s r ac !! k =
  if bool_decide (k ∈ dropped r ++ map CanonicalHeaderKey hopHeaders) then None
  else forward_headers s (rHeader r) ac !! k.
Proof.
  intros Hk. unfold backend_headers. rewrite proxied_headers_lookup by done. unfold removeHopByHopHeaders.
  rewrite Header_Del_all_lookup, map_app.
  assert (forall x, x <> "X-Forwarded-For" -> directed_headers s r ac !! x = forward_headers s (rHeader r) ac !! x) as E.
  { intros x Hx. unfold directed_headers, Header_Set. by apply lookup_insert_ne. }
  rewrite !E; [|intros ->; apply Hk; by_computation|done].
  assert (forward_headers s (rHeader r) ac !! "Connection" = rHeader r !! "Connection") as ->; [|done].
  rewrite forward_headers_lookup.
  rewrite (bool_decide_eq_false_2 ("Connection" ∈ trust_names)) by by_computation.
  by rewrite (bool_decide_eq_false_2 ("Connection" ∈ withheld)) by by_computation.
Qed.

(** ** Refusals *)

Lemma contains_In l s : contains l s = true <-> s ∈ l.
Proof.
  unfold contains. rewrite existsb_exists. setoid_rewrite <- list_elem_of_In.
  split; [intros (x & Hx & E); by apply String.eqb_eq in E as ->|intros H; exists s; by rewrite String.eqb_refl].
Qed.

Lemma hasAllCapabilities_spec ac need :
  hasAllCapabilities ac need = true <-> forall c, c ∈ need -> c ∈ ACCapabilities ac.
Proof.
  unfold hasAllCapabilities. rewrite forallb_forall. setoid_rewrite <- list_elem_of_In.
  split; intros H c Hc; [|apply contains_In]; [by apply contains_In, H|by apply H].
Qed.

(** A requirement that is empty, or met. *)
Lemma required_or {A} (l : list A) b : ((0 <? zlen l) && negb b) = false <-> l = [] \/ b = true.
Proof. destruct l, b; cbn; split; auto; by intros [|]. Qed.

(** What a route allows. *)
Definition route_allows (s : Server (T := T)) (r : Request) (route : Route T) (ac : AuthContext) : Prop :=
  matchRoute (routes s) (rPath r) = Some route /\
  (AllowMethods route = [] \/ rMethod r ∈ AllowMethods route) /\
  (forall c, c ∈ RRequiredCapabilities route -> c ∈ ACCapabilities ac).

Lemma check_route_inl (s : Server (T := T)) r oac route ac :
  check_route s r oac = inl (route, ac) <-> oac = Some ac /\ route_allows s r route ac.
Proof.
  unfold check_route, route_allows. destruct (matchRoute _ _) as [route'|]; [|split; [done|by intros (_ & ? & _)]].
  destruct (_ && negb (contains _ _)) eqn:Ea.
  { split; [done|]. intros (_ & [= ->] & Hm & _). exfalso.
    apply (eq_true_false_abs _ Ea), required_or. by rewrite contains_In. }
  apply required_or in Ea. rewrite contains_In in Ea. destruct oac as [ac'|]; [|split; [done|by intros (? & _)]].
  destruct (_ && negb (hasAllCapabilities _ _)) eqn:Eh.
  - split; [done|]. intros ([= ->] & [= ->] & _ & Hc). exfalso.
    apply (eq_true_false_abs _ Eh), required_or. right. by apply hasAllCapabilities_spec.
  - apply required_or in Eh. split.
    + intros [= -> ->]. repeat split; try done. destruct Eh as [->|Eh]; [|by apply hasAllCapabilities_spec].
      intros c Hc. by apply elem_of_nil in Hc.
    + by intros ([= ->] & [= ->] & _).
Qed.

(** The status and stage of each refusal. *)
Definition route_refusal (s : Server (T := T)) (r : Request) (err : AuthError) : Prop :=
  (Status err = 404 /\ ErrStage err = "route_denied" /\
    (forall route, route ∈ routes s -> ~ route_covers (ToLower (RoutePath route)) (route_key (rPath r)))) \/
  (Status err = 405 /\ ErrStage err = "method_not_allowed") \/
  (Status err = 403 /\ (ErrStage err = "identity_denied" \/ ErrStage err = "capability_denied")).

Lemma check_route_inr (s : Server (T := T)) r oac err :
  check_route s r oac = inr err -> route_refusal s r err /\ ErrEvidence err = [].
Proof.
  unfold check_route, route_refusal. destruct (matchRoute _ _) as [route'|] eqn:Em; cycle 1.
  { intros [= <-]. split; [left|done]. repeat split. intros route Hr Hc. apply list_elem_of_In in Hr.
    unfold matchRoute in Em. pose proof (List.find_none _ _ Em _ Hr) as Hf. cbv beta in Hf.
    apply route_matches_spec in Hc. congruence. }
  destruct (_ && negb (contains _ _)); [intros [= <-]; split; [right; left|]; done|].
  destruct oac as [ac'|]; [|intros [= <-]; split; [right; right|]; auto].
  destruct (_ && negb (hasAllCapabilities _ _)); [intros [= <-]; split; [right; right|]; auto|done].
Qed.

(** The cases of a run. *)
Lemma proxy_cases (s : Server (T := T)) env backend r oac gaps :
  let res := proxy s env backend r oac gaps in
  (exists err, check_route s r oac = inr err /\ res = deny s env r oac err gaps) \/
  (exists route ac, check_route s r oac = inl (route, ac) /\ x_refusal res = None /\
     (x_sent res = Some (route, backend_headers s r ac) \/ x_sent res = None) /\
     exists failed, x_outcome res = reportObservedOutcome (sEvidence s) r (Some ac) (x_status res) failed
                                 (x_order env) (x_now env) gaps /\
       (failed = true -> x_status res = 502) /\ (x_sent res = None -> failed = true)).
Proof.
  cbv zeta. unfold proxy. destruct (check_route s r oac) as [[route ac]|err]; [right|left; by exists err].
  exists route, ac. split; [done|]. destruct (ascii_IsPrint _).
  - destruct (backend _ _ _); cbn; (split; [done|]); (split; [by left|]); eexists; (split; [reflexivity|]); done.
  - cbn. split; [done|]. split; [by right|]. eexists. split; [reflexivity|]. done.
Qed.

(** * Properties *)

(** C14: a request is forwarded only if the first route that covers its cleaned
    path, letter case aside ([strings.ToLower] of both, over all of Unicode) and
    at a segment boundary, accepts its method and the admitted client
    holds every capability the route requires; it is refused only if not, with
    nothing sent and no outcome recorded, by a 404, a 405 or a 403 that names
    the layer. *)
Theorem forwarded_iff_route_allows (s : Server (T := T)) env backend r oac gaps :
  let res := proxy s env backend r oac gaps in
  (x_refusal res = None <-> exists route ac, oac = Some ac /\ route_allows s r route ac) /\
  (forall route h, x_sent res = Some (route, h) -> exists ac,
     oac = Some ac /\ route_allows s r route ac /\ h = backend_headers s r ac) /\
  (forall err, x_refusal res = Some err -> x_sent res = None /\ x_status res = Status err /\
     e_handed (x_outcome res) = None /\ route_refusal s r err).
Proof.
  cbv zeta. destruct (proxy_cases s env backend r oac gaps) as [(err & Hc & ->)|(route & ac & Hc & Hr & Hs & _)].
  - unfold deny. destruct (denialEvidence _ _ _ _ _ _ _ _) as [refs e]. cbn [x_refusal x_sent x_status x_outcome].
    split; [|split; [done|]].
    + split; [done|]. intros (route & ac & H). apply check_route_inl in H. congruence.
    + intros err' [= <-]. apply check_route_inr in Hc as [Hc _]. done.
  - apply check_route_inl in Hc. rewrite Hr. split; [|split; [|done]].
    + split; [|done]. intros _. by exists route, ac.
    + intros route' h E. destruct Hs as [Hs|Hs]; rewrite Hs in E; [|done]. injection E as <- <-.
      destruct Hc as [Ho Ha]. by exists ac.
Qed.

(** C15: what a backend learns about the client is what the server asserts: each
    identity header it receives has the value injected for the admitted context
    or, where the client's [Connection] header names it, is missing; whatever
    the client sent for it, or as a credential or identity mode, is not
    received. *)
Theorem backend_sees_asserted_identity (s : Server (T := T)) env backend r oac gaps route h ac
    (H : x_sent (proxy s env backend r oac gaps) = Some (route, h)) (Hac : oac = Some ac) :
  (forall k, k ∈ trust_names ->
     h !! k = if bool_decide (k ∈ dropped r) then None else asserted (Some ac) (IdentityMode s) !! k) /\
  (forall k, k ∈ withheld -> h !! k = None).
Proof.
  destruct (proxy_cases s env backend r oac gaps) as [(err & Hc & E)|(route' & ac' & Hc & _ & Hs & _)].
  { rewrite E in H. unfold deny in H. by destruct (denialEvidence _ _ _ _ _ _ _ _). }
  apply check_route_inl in Hc as [Hc _]. destruct Hs as [Hs|Hs]; rewrite Hs in H; [|done].
  injection H as <- <-. rewrite Hac in Hc. injection Hc as <-. split; intros k Hk.
  - assert (k ∉ proxy_owned /\ k ∉ map CanonicalHeaderKey hopHeaders) as [Ho Hh].
    { revert k Hk. apply Forall_forall. by_computation. }
    rewrite backend_headers_lookup, forward_headers_lookup, (bool_decide_eq_true_2 (k ∈ trust_names)) by done.
    rewrite (bool_decide_ext _ (k ∈ dropped r)); [done|]. rewrite elem_of_app. tauto.
  - assert (k ∉ proxy_owned /\ k ∉ trust_names) as [Ho Ht] by (revert k Hk; apply Forall_forall; by_computation).
    rewrite backend_headers_lookup, forward_headers_lookup, (bool_decide_eq_false_2 (k ∈ trust_names)),
      (bool_decide_eq_true_2 (k ∈ withheld)) by done.
    by destruct (bool_decide _).
Qed.

(** A request that was recorded as admitted and is refused by the proxy leaves no
    record of its refusal. *)
Theorem late_refusal_unrecorded (s : Server (T := T)) env backend r ac gaps ref refs
    (He : ACEvidence ac = ref :: refs) :
  forall err, x_refusal (proxy s env backend r (Some ac) gaps) = Some err ->
    e_handed (x_admission (proxy s env backend r (Some ac) gaps)) = None /\ ErrEvidence err = [].
Proof.
  intros err H.
  destruct (proxy_cases s env backend r (Some ac) gaps) as [(err' & Hc & E)|(? & ? & _ & Hn & _)]; [|congruence].
  destruct (check_route_inr _ _ _ _ Hc) as [_ Hev]. rewrite E in H |- *. unfold deny in *.
  assert (denialEvidence (sEvidence s) r (Some ac) err' (x_n env) (x_order env) (x_now env) gaps = silent gaps) as Hd.
  { unfold denialEvidence. rewrite Hev, He. by destruct (sEvidence s). }
  rewrite Hd in *. cbn in *. injection H as <-. cbn. by rewrite Hev.
Qed.
End ProxyFacts.

(** * Concrete instances *)
Section Witnesses.
  #[local] Existing Instance clc_names.
  #[local] Existing Instance toy_semantics.
  #[local] Existing Instance sha256.
  #[local] Existing Instance toy_jwt.
  #[local] Existing Instance toy_evidence.
  #[local] Existing Instance toy_x509.
  #[local] Existing Instance toy_challenges.

Definition toy_route (p : string) (ms caps : list string) : Route nat := {|
  RoutePath := p; Target := length ms; AllowMethods := ms; RRequiredCapabilities := caps |}.
Definition toy_server : Server := {|
  routes := [toy_route "/api/admin" [] ["admin"]; toy_route "/API/*" ["GET"] ["read"]];
  IdentityMode := IdentityAIC; sEvidence := Some observing_config; hasDenied := true; hasForwarded := true |}.
Definition toy_get (p : string) (h : GoHttp.Header) : Request := {|
  rMethod := "GET"; rPath := p; rRawQuery := ""; rHeader := h; rRemoteAddr := "10.0.0.9:4000";
  rTLS := None; rBody := None |}.
Definition toy_proxy (p : string) (h : GoHttp.Header) (ac : AuthContext) : proxied :=
  proxy toy_server {| x_now := 5; x_n := 0; x_order := id |} (fun _ _ _ => Ok 200) (toy_get p h) (Some ac) None.

(** Segment boundaries, [..] and letter case; the last is not under [/api/admin]. *)
Example toy_routes :
  map (fun p => option_map RoutePath (matchRoute (routes toy_server) p))
    ["/api/x"; "/API/../api/Admin/users"; "/api"; "/apix"; "/x/../.."; "/api/administrator"] =
  [Some "/API/*"; Some "/api/admin"; Some "/API/*"; None; None; Some "/API/*"].
Proof. vm_compute. reflexivity. Qed.

(** Letter case beyond ASCII: the route ["/É/*"] (bytes C3 89) covers
    ["/é/x"] (bytes C3 A9). *)
Example accented_route :
  let e b := String (chr 195) (String (chr b) "") in
  option_map RoutePath (matchRoute [toy_route ("/" +:+ e 137 +:+ "/*") [] []] ("/" +:+ e 169 +:+ "/x")) =
    Some ("/" +:+ e 137 +:+ "/*") /\
  option_map RoutePath (matchRoute [toy_route ("/" +:+ e 137) [] []] ("/" +:+ e 169)) = Some ("/" +:+ e 137).
Proof. vm_compute. split; reflexivity. Qed.

(** A route whose path ends in a slash does not cover the path itself. *)
Example slash_route_misses_itself :
  matchRoute [toy_route "/api/" [] []] "/api" = None /\ matchRoute [toy_route "/api/" [] []] "/api/" = None /\
  option_map RoutePath (matchRoute [toy_route "/api/" [] []] "/api/x") = Some "/api/".
Proof. vm_compute. repeat split. Qed.

Lemma forwarded_iff_route_allows_witness :
  x_refusal (toy_proxy "/api/rows" ∅ (context_with "write")) = None /\
  option_map Status (x_refusal (toy_proxy "/api/admin" ∅ (context_with "write"))) = Some 403.
Proof.
  split; [|vm_compute; reflexivity].
  apply (forwarded_iff_route_allows toy_server {| x_now := 5; x_n := 0; x_order := id |} (fun _ _ _ => Ok 200)
           (toy_get "/api/rows" ∅) (Some (context_with "write")) None).
  exists (toy_route "/API/*" ["GET"] ["read"]), (context_with "write"). split; [reflexivity|].
  split; [vm_compute; reflexivity|]. split; [right; apply list_elem_of_here|].
  intros c Hc. apply elem_of_cons in Hc as [->|Hc]; [apply list_elem_of_here|by apply elem_of_nil in Hc].
Defined.

(** The client claims another principal, sends its token, and asks the proxy to
    drop the agent's name. *)
Definition hostile : GoHttp.Header :=
  {["X-Aic-Principal-Uid" := ["root"]; "Authorization" := ["Bearer t"]; "Connection" := ["close, x-aic-agent-id"];
    "Accept" := ["*/*"]]}.
Definition hostile_run := toy_proxy "/api/rows" hostile (context_with "write").
Definition hostile_sent : GoHttp.Header := match x_sent hostile_run with Some (_, h) => h | None => ∅ end.

Lemma hostile_run_sent : exists route, x_sent hostile_run = Some (route, hostile_sent).
Proof.
  unfold hostile_sent. assert ((if x_sent hostile_run is Some _ then true else false) = true) as E
    by (vm_compute; reflexivity).
  destruct (x_sent hostile_run) as [[route h]|]; [by exists route|done].
Qed.

Lemma backend_sees_asserted_identity_witness :
  hostile_sent !! "X-Aic-Principal-Uid" = Some ["alice"] /\ hostile_sent !! "Authorization" = None.
Proof.
  destruct hostile_run_sent as [route Hs].
  destruct (backend_sees_asserted_identity toy_server {| x_now := 5; x_n := 0; x_order := id |} (fun _ _ _ => Ok 200)
              (toy_get "/api/rows" hostile) (Some (context_with "write")) None _ _ (context_with "write")
              Hs eq_refl) as [H1 H2].
  split; [|apply H2; by_computation].
  etransitivity; [apply (H1 "X-Aic-Principal-Uid"); by_computation|]. vm_compute. reflexivity.
Defined.

(** The client's [Connection] header suppressed an identity header the server
    asserted, and the backend is told the client's address twice. *)
Example connection_header_suppresses_identity :
  asserted (Some (context_with "write")) IdentityAIC !! "X-Aic-Agent-Id" = Some ["bot"] /\
  hostile_sent !! "X-Aic-Agent-Id" = None /\
  hostile_sent !! "X-Forwarded-For" = Some ["10.0.0.9, 10.0.0.9"].
Proof. vm_compute. repeat split. Qed.

(** The outcome of a forwarded request, and that of a backend out of reach. *)
Example toy_outcomes :
  (if e_handed (x_outcome (toy_proxy "/api/rows" ∅ admitted_context)) is Some (_, rec, _)
   then Some (OOutcome rec, OStatusCode rec, ODecisionDigest rec) else None) = Some ("observed", 200, "d1") /\
  (let res := proxy toy_server {| x_now := 5; x_n := 0; x_order := id |} (fun _ _ _ => Err (ErrNew "refused"))
                (toy_get "/api/rows" ∅) (Some admitted_context) None in
   (if e_handed (x_outcome res) is Some (_, rec, _) then Some (OOutcome rec, OStatusCode rec) else None)
     = Some ("indeterminate", 502)).
Proof. vm_compute. split; reflexivity. Qed.
End Witnesses.
