(* ===== verification/Middleware.v ===== *)
(** The HTTP middleware of [src/aicverifier.go]: the checks of a configuration,
    the authenticator built from it, the view of a request, and [Handler], which
    decides a request, records its refusal, lets hooks veto it, and reports the
    outcome of the handler it protects.  With the proxy of [Proxy] as that
    handler it is the gateway. *)
From S2P Require Import Prelude GoStrings GoTime GoJson GoNet GoHttp Types Sha256 Capability DelegationAuth.
From S2P Require Import Delegation NonceCache Constraints AdmissionTypes Clc Credential Admission Rbac.
From S2P Require Import Risk Mask Revocation Params Spiffe Bearer Evidence Challenge Pipeline AuditLog Decide.
From S2P Require Import Identity Records Proxy.
Local Open Scope string_scope.
Local Open Scope Z_scope.
Local Open Scope list_scope.

(** * Definitions *)

(** [src/aicverifier.go:DefaultMaxBodyBytes] *)
Definition DefaultMaxBodyBytes : nat := Z.to_nat (2 ^ 20).

(** [errors.Join] of a list that is not empty. *)
Definition join_errors (l : list error) : error := Errorf "%w" (map AWrap l).

(** [src/aicverifier.go:clientIPOf] *)
Definition clientIPOf (r : Request) : string := client_ip (rRemoteAddr r).

(** [src/aicverifier.go:bearerToken]; no other rune folds to a letter of the
    scheme. *)
Definition bearerToken (r : Request) : string :=
  let h := Header_Get (rHeader r) "Authorization" in
  if (slen h <? 7) || negb (String.eqb (to_lower (stake 7 h)) "bearer ") then ""
  else
    let tok := trim_space (sdrop 7 h) in
    if String.eqb tok "" || contains_byte (chr 13) tok || contains_byte (chr 10) tok then "" else tok.

(** [src/aicverifier.go:302-308 Config] and the file-level settings that building
    an authenticator reads; [base] is the rest, as the decision reads it, its
    trust material not loaded yet. *)
Record Config `{ChallengeSemantics} `{ClcSemantics} `{X509} `{AicJwt} := {
  base : authenticator Request; cEvidenceProfile : string; CACertFile : string; JWTCAFile : string;
  JWTIssuer : string; JWTAudience : list string; ReplayProtection : option bool; StreamBody : bool;
  RequireRuntimeApproval : bool; AllowBreakGlass : bool; RequireEvidenceExport : bool;
  hasOverrideRecorder : bool; hasEvidenceExporter : bool;
  OnAuthenticated : option (AuthContext -> Request -> option error); OnDenied : bool
}.

(** The handler behind the middleware: whether it reports outcomes itself, and
    what it does with a request: the status it wrote (0 for none), the gap
    counter, and its own trace. *)
Record handler `{ChallengeSemantics} {D : Type} := {
  self_reporting : bool; serve : Request -> AuthContext -> option Z -> Z * option Z * D
}.
Arguments handler {_ _} D.

(** What the middleware did with a request. *)
Record served `{ChallengeSemantics} {D : Type} := {
  m_status : Z; m_refusal : option AuthError; m_called : option (Request * AuthContext * D);
  m_admission : emission AdmissionRecord; m_outcome : option (emission OutcomeRecord);
  m_hooks : list hook_call; m_effects : effects; m_state : decide_state; m_metrics : DecisionMetrics
}.
Arguments served {_ _} D.

Section Middleware.
  Context {CN : CapabilityNames} {CS : ClcSemantics} {HF : HashFunction} {PM : PkiMethods}
          {DC : DACrypto} {CP : CertificateParser} {CE : CRLEnv} {OE : OCSPEnv} {UP : URLParser}
          {X : X509} {J : AicJwt} {ES : EvidenceSemantics} {CH : ChallengeSemantics}.
  Context (EqualFold : string -> string -> bool).
  (** File contents; the pool of the certificates of a PEM file, if it has any;
      and a signing key file. *)
  Context (ReadFile : string -> result bytes) (AppendCertsFromPEM : bytes -> option CertPool)
          (ParsePrivateKeyPEMFile : string -> result (bytes -> result bytes)).

(** ** Building *)

(** [src/aicverifier.go:318-342 Validate] *)
Definition validation_errors (c : Config) : list error :=
  let a := base c in
  let fail (b : bool) msg := if b then [Errorf msg []] else [] in
  (if String.eqb (cEvidenceProfile c) "" then []
   else match LookupEvidenceProfile (cEvidenceProfile c) with Ok _ => [] | Err e => [e] end) ++
  fail (cRequireUserAuth a && bool_decide (cUserCert a = None) && (if cUserCertResolver a is None then true else false)
        && String.eqb (CACertFile c) "") "aic-verifier: require_user_auth needs user cert for DA verification" ++
  fail (RequireRuntimeApproval c && (if cApprovalRequester a is None then true else false))
    "aic-verifier: require_runtime_approval needs an ApprovalRequester" ++
  fail (AllowBreakGlass c && negb (hasOverrideRecorder c)) "aic-verifier: allow_break_glass needs an OverrideRecorder" ++
  fail (RequireEvidenceExport c && negb (hasEvidenceExporter c))
    "aic-verifier: require_evidence_export needs an EvidenceExporter" ++
  fail (match cEvidence a with
        | Some ev => RequireSignature ev && (if (signingKey (Some ev)).2 is None then true else false) &&
                     String.eqb (SignKeyFile ev) ""
        | None => false end)
    "aic-verifier: evidence.require_signature needs a signing key (Signer, Sign or SignKeyFile)".

(** [src/aicverifier.go:Validate] *)
Definition Validate_config (c : option Config) : option error :=
  match c with
  | None => Some (ErrNew "aic-verifier: nil config")
  | Some c =>
      match validation_errors c with
      | [] => None
      | [e] => Some e
      | l => Some (join_errors l)
      end
  end.

(** [src/aicverifier.go:replayProtection] *)
Definition replayProtection (c : Config) : bool := default true (ReplayProtection c).

(** [src/aicverifier.go:loadPEMIntoPool] into an empty pool. *)
Definition loadPEMIntoPool (path : string) : result CertPool :=
  match ReadFile path with
  | Err e => Err (Errorf "aic-verifier: read CA %q: %w" [AStr path; AWrap e])
  | Ok data => match AppendCertsFromPEM data with
               | None => Err (Errorf "aic-verifier: no CA certs in %q" [AStr path])
               | Some p => Ok p
               end
  end.

(** [src/evidence_key.go:resolveSigner] *)
Definition resolveSigner (c : option EvidenceConfig) : result (option EvidenceConfig) :=
  match c with
  | None => Ok None
  | Some ev =>
      match Signer ev, Sign ev with
      | None, None =>
          if String.eqb (SignKeyFile ev) "" then Ok c
          else match ParsePrivateKeyPEMFile (SignKeyFile ev) with
          | Err e => Err (Errorf "evidence: load signing key %q: %w" [AStr (SignKeyFile ev); AWrap e])
          | Ok f => Ok (Some {| Sink := Sink ev; Strict := Strict ev; TTL := TTL ev; Audience := Audience ev;
              CfgRecorderID := CfgRecorderID ev; HasOnError := HasOnError ev; HasGaps := HasGaps ev;
              Sign := Sign ev; KeyID := KeyID ev; Signer := Some {| SignerKeyID := KeyID ev; SignerSign := f |};
              SignKeyFile := SignKeyFile ev; RequireSignature := RequireSignature ev;
              EmitOutcome := EmitOutcome ev; CfgRequirement := CfgRequirement ev; Profile := Profile ev;
              Recorder := Recorder ev; profileNoDecision := profileNoDecision ev |})
          end
      | _, _ => Ok c
      end
  end.

(** [src/aicverifier.go:597-609 newAuthenticator] *)
Definition resolve_evidence (c : Config) : result (option EvidenceConfig) :=
  match (if String.eqb (cEvidenceProfile c) "" then Ok (cEvidence (base c))
         else match LookupEvidenceProfile (cEvidenceProfile c) with
              | Err e => Err e
              | Ok p => match Apply p (cEvidence (base c)) with Err e => Err e | Ok ev => Ok (Some ev) end
              end) with
  | Err e => Err e
  | Ok ev => resolveSigner ev
  end.

(** [src/aicverifier.go:583-640 newAuthenticator] with what it loaded. *)
Definition with_material (a : authenticator Request) (ev : option EvidenceConfig) (cas : option CertPool)
    (v : option JWTVerifier) : authenticator Request := {|
  cfgAuthMode := cfgAuthMode a; cRequireAIC := cRequireAIC a; cRequiredCapabilities := cRequiredCapabilities a;
  cRequiredOperations := cRequiredOperations a; cUnresolvedEvaluator := cUnresolvedEvaluator a;
  cDischargeObligations := cDischargeObligations a; cObligationsUnderstood := cObligationsUnderstood a;
  cRequireFreshDecisionContext := cRequireFreshDecisionContext a; cDecisionContext := cDecisionContext a;
  cDisallowRepresentative := cDisallowRepresentative a; cRequireUserAuth := cRequireUserAuth a;
  cEnforceConstraints := cEnforceConstraints a; cUserCert := cUserCert a;
  cUserCertResolver := cUserCertResolver a; cPluginRegistry := cPluginRegistry a;
  cCapabilityRegistry := cCapabilityRegistry a; cAuthorizationPolicy := cAuthorizationPolicy a;
  cConstraints := cConstraints a; cParameterValidators := cParameterValidators a; cEvidence := ev;
  cEvidenceRequirement := cEvidenceRequirement a; cEvidenceFacts := cEvidenceFacts a;
  cChallenges := cChallenges a; cRequireApproval := cRequireApproval a;
  cApprovalRequester := cApprovalRequester a; cSupervisionStore := cSupervisionStore a; tlsCAs := cas;
  verifier := v; a_crl := a_crl a; a_audit := a_audit a; a_nonceCache := a_nonceCache a; policy := None |}.

(** [src/aicverifier.go:newAuthenticator]; its last test repeats one of
    [Validate]'s and never fails. *)
Definition newAuthenticator (c : Config) : result (authenticator Request) :=
  match Validate_config (Some c) with
  | Some e => Err e
  | None =>
      match resolve_evidence c with
      | Err e => Err e
      | Ok ev =>
          let mode := authMode (cfgAuthMode (base c)) in
          match (if ((mode =? MTLSOnly) || (mode =? MTLSOrBearer)) && negb (String.eqb (CACertFile c) "")
                 then match loadPEMIntoPool (CACertFile c) with Err e => Err e | Ok p => Ok (Some p) end
                 else Ok None) with
          | Err e => Err e
          | Ok cas =>
              match (if ((mode =? BearerOnly) || (mode =? MTLSOrBearer)) && negb (String.eqb (JWTCAFile c) "")
                     then LoadJWTVerifier ReadFile [JWTCAFile c] else Ok None) with
              | Err e => Err e
              | Ok v =>
                  let nonces := if replayProtection c then Some (ReplayStore.NewReplayNonceStore 0 0) else None in
                  Ok (with_material (base c) ev cas
                        (match v with
                         | Some v => SetBearerPolicy (Some v) (JWTIssuer c) (JWTAudience c) nonces
                         | None => None end))
              end
          end
      end
  end.

(** ** Serving *)

(** [src/aicverifier.go:660-667 Authenticate] what is read of the body. *)
Definition bounded (body : option bytes) : option bytes := option_map (take DefaultMaxBodyBytes) body.
Definition with_body (r : Request) (b : option bytes) : Request := {|
  rMethod := rMethod r; rPath := rPath r; rRawQuery := rRawQuery r; rHeader := rHeader r;
  rRemoteAddr := rRemoteAddr r; rTLS := rTLS r; rBody := b |}.
(** The request after it: its body is what was read. *)
Definition read_body (c : Config) (r : Request) : Request :=
  if StreamBody c then r else with_body r (bounded (rBody r)).

(** [src/aicverifier.go:viewFromHTTP] with the body read before. *)
Definition viewFromHTTP (r : Request) (body : bytes) : RequestView Request := {|
  CertChain := default [] (rTLS r); BearerToken := bearerToken r; VerifiedCert := None;
  TransportSecure := bool_decide (is_Some (rTLS r)); VMethod := rMethod r; VPath := rPath r;
  RawQuery := rRawQuery r; Decide.Header := rHeader r; VClientIP := clientIPOf r; VBody := body;
  PresentedCert := match rTLS r with Some (c :: _) => Some c | _ => None end;
  EvidenceFactsWith := None; RequireApprovalWith := None; HTTPAdapter := Some r |}.

(** The readings of a request: the decision's, the clock of the metrics, and
    those of the two records. *)
Record serve_env := { v_decide : decide_env; v_now : Time; v_refusal : proxy_env; v_outcome : proxy_env }.

Definition set_gaps (st : decide_state) (g : option Z) : decide_state :=
  {| s_world := s_world st; s_replay := s_replay st; s_gaps := g |}.

(** [src/aicverifier.go:459-466 Handler] a refused request. *)
Definition refuse {D} (a : authenticator Request) (c : Config) (env : serve_env) (r : Request) (ae : AuthError)
    (fx : effects) (st : decide_state) (m : DecisionMetrics) : served D :=
  let '(refs, e) := refusalEvidence a (viewFromHTTP r []) ae (x_n (v_refusal env)) (x_order (v_refusal env))
                      (x_now (v_refusal env)) (s_gaps st) in
  let ae := {| Code := Code ae; Status := Status ae; Message := Message ae; ErrStage := ErrStage ae;
               ErrEvidence := ErrEvidence ae ++ refs; Problem := Problem ae; ErrSatisfaction := ErrSatisfaction ae |} in
  {| m_status := Status ae; m_refusal := Some ae; m_called := None; m_admission := e; m_outcome := None;
     m_hooks := if OnDenied c then [HookDenied ae] else []; m_effects := fx;
     m_state := set_gaps st (e_gaps e); m_metrics := m |}.

(** [src/aicverifier.go:481-495 Handler] the protected handler, observed when
    outcomes are to be recorded and it does not record them itself. *)
Definition call_next {D} (a : authenticator Request) (env : serve_env) (next : handler D) (r : Request)
    (ac : AuthContext) (hooks : list hook_call) (fx : effects) (st : decide_state) (m : DecisionMetrics) : served D :=
  let '(status, gaps, d) := serve next r ac (s_gaps st) in
  let status := if status =? 0 then 200 else status in
  let probe := match cEvidence a with Some ev => EmitOutcome ev | None => false end && negb (self_reporting next) in
  let outcome := if probe then Some (reportObservedOutcome (cEvidence a) r (Some ac) status false
                                       (x_order (v_outcome env)) (x_now (v_outcome env)) gaps) else None in
  {| m_status := status; m_refusal := None; m_called := Some (r, ac, d);
     m_admission := {| e_handed := None; e_gaps := s_gaps st; e_reported := None |}; m_outcome := outcome;
     m_hooks := hooks; m_effects := fx;
     m_state := set_gaps st (match outcome with Some e => e_gaps e | None => gaps end); m_metrics := m |}.

(** [src/aicverifier.go:471-473 Handler] the veto of the hook. *)
Definition authenticated_veto (c : Config) (ac : AuthContext) (r : Request) : option AuthError :=
  match OnAuthenticated c with
  | None => None
  | Some f => match f ac r with
              | None => None
              | Some err => Some (auth_error ErrDenied 403 (Errorf "%v" [AErr err]))
              end
  end.

(** [src/aicverifier.go:Handler] for one request. *)
Definition Handler {D} (a : authenticator Request) (c : Config) (env : serve_env)
    (gcr : option CapabilityRegistry) (next : handler D) (r : Request) (st : decide_state) (m : DecisionMetrics)
  : served D :=
  let r' := read_body c r in
  let body := if StreamBody c then [] else default [] (rBody r') in
  match Decide_ EqualFold a (v_decide env) gcr (viewFromHTTP r' body) st m (v_now env) with
  | (inr ae, st, fx, m) => refuse a c env r' ae fx st m
  | (inl ac, st, fx, m) =>
      let seen := match OnAuthenticated c with Some _ => [HookAuthenticated ac] | None => [] end in
      match authenticated_veto c ac r' with
      | Some ae => {| m_status := Status ae; m_refusal := Some ae; m_called := None;
                      m_admission := {| e_handed := None; e_gaps := s_gaps st; e_reported := None |};
                      m_outcome := None; m_hooks := seen ++ if OnDenied c then [HookDenied ae] else [];
                      m_effects := fx; m_state := st; m_metrics := m |}
      | None => call_next a env next r' ac seen fx st m
      end
  end.

(** [src/server.go:94-99 NewServer] the gateway: the proxy as the handler. *)
Definition gateway_handler {T} (s : Server (T := T)) (env : proxy_env)
    (backend : T -> Request -> GoHttp.Header -> result Z) : handler proxied := {|
  self_reporting := true;
  serve := fun r ac gaps =>
    let p := proxy s env backend r (Some ac) gaps in
    (x_status p, match x_refusal p with Some _ => e_gaps (x_admission p) | None => e_gaps (x_outcome p) end, p) |}.
End Middleware.

(** * Lemmas *)
Section MiddlewareFacts.
  Context {CN : CapabilityNames} {CS : ClcSemantics} {HF : HashFunction} {PM : PkiMethods}
          {DC : DACrypto} {CP : CertificateParser} {CE : CRLEnv} {OE : OCSPEnv} {UP : URLParser}
          {X : X509} {J : AicJwt} {ES : EvidenceSemantics} {CH : ChallengeSemantics}.
  Context (EqualFold : string -> string -> bool).

(** The outcomes of a request: refused by the decision, refused by the hook, or
    handed on. *)
Lemma Handler_cases {D} a c env gcr (next : handler D) r st m :
  let r' := read_body c r in
  let view := viewFromHTTP r' (if StreamBody c then [] else default [] (rBody r')) in
  let res := Handler EqualFold a c env gcr next r st m in
  (exists ae st1 fx m1, Decide_ EqualFold a (v_decide env) gcr view st m (v_now env) = (inr ae, st1, fx, m1) /\
     res = refuse a c env r' ae fx st1 m1) \/
  (exists ac st1 fx m1, Decide_ EqualFold a (v_decide env) gcr view st m (v_now env) = (inl ac, st1, fx, m1) /\
     m_effects res = fx /\
     ((exists ae, authenticated_veto c ac r' = Some ae /\ m_refusal res = Some ae /\ m_called res = None /\
         m_outcome res = None /\ e_handed (m_admission res) = None /\ m_status res = 403) \/
      (authenticated_veto c ac r' = None /\ exists hooks, res = call_next a env next r' ac hooks fx st1 m1))).
Proof.
  cbv zeta. unfold Handler. destruct (Decide_ _ _ _ _ _ _ _ _) as [[[[ac|ae] st1] fx] m1]; [right|left; by eexists _, _, _, _].
  exists ac, st1, fx, m1. split; [done|]. destruct (authenticated_veto c ac (read_body c r)) as [ae|] eqn:Ev.
  - split; [done|]. left. exists ae. repeat split. unfold authenticated_veto in Ev.
    destruct (OnAuthenticated c) as [f|]; [|done]. destruct (f ac (read_body c r)); [|done]. by injection Ev as <-.
  - split; [|right; split; [done|]; by eexists]. unfold call_next. by destruct (serve _ _ _ _) as [[? ?] ?].
Qed.

Lemma Decide_inl a env gcr view st m now ac st1 fx m1 :
  Decide_ (R := Request) EqualFold a env gcr view st m now = (inl ac, st1, fx, m1) ->
  decide_request EqualFold a env gcr view st = (inl ac, st1, fx).
Proof. unfold Decide_. destruct (decide_request _ _ _ _ _ _) as [[r st2] fx2]. by intros [= -> -> -> _]. Qed.

Lemma refuse_facts {D} a c env r ae fx st m :
  let res := refuse (D := D) a c env r ae fx st m in
  m_called res = None /\ m_outcome res = None /\ m_status res = Status ae /\
  exists ae', m_refusal res = Some ae' /\ Status ae' = Status ae.
Proof. unfold refuse. destruct (refusalEvidence _ _ _ _ _ _ _). cbn. repeat split. by eexists. Qed.

(** ** Configurations *)
Context (ReadFile : string -> result bytes) (AppendCertsFromPEM : bytes -> option CertPool)
        (ParsePrivateKeyPEMFile : string -> result (bytes -> result bytes)).

Lemma Validate_None (c : Config) : Validate_config (Some c) = None <-> validation_errors c = [].
Proof. unfold Validate_config. destruct (validation_errors c) as [|e [|]]; done. Qed.

Lemma fail_nil (b : bool) msg : (if b then [Errorf msg []] else []) = [] <-> b = false.
Proof. by destruct b. Qed.

Lemma newAuthenticator_Ok (c : Config) a :
  newAuthenticator ReadFile AppendCertsFromPEM ParsePrivateKeyPEMFile c = Ok a ->
  validation_errors c = [] /\ resolve_evidence ParsePrivateKeyPEMFile c = Ok (cEvidence a) /\
  exists cas v, a = with_material (base c) (cEvidence a) cas v.
Proof.
  unfold newAuthenticator. destruct (Validate_config (Some c)) eqn:Ev; [done|]. apply Validate_None in Ev.
  destruct (resolve_evidence _ c) as [ev|]; [|done].
  destruct (if _ && _ then _ else Ok None) as [cas|]; [|done].
  destruct (if _ && _ then _ else Ok None) as [v|]; [|done].
  intros [= <-]. split; [done|]. split; [done|]. by eexists _, _.
Qed.

(** [Apply] and [resolveSigner] keep what a signature needs. *)
Definition signs (ev : EvidenceConfig) : Prop := exists f, (signingKey (Some ev)).2 = Some f.

Lemma signs_iff ev : signs ev <-> (if (signingKey (Some ev)).2 is None then true else false) = false.
Proof. unfold signs. destruct (signingKey (Some ev)).2 as [f|]; split; [done|by exists f|by intros [f ?]|done]. Qed.

Lemma Apply_key p ev ev' : Apply p (Some ev) = Ok ev' ->
  Signer ev' = Signer ev /\ Sign ev' = Sign ev /\ SignKeyFile ev' = SignKeyFile ev /\ KeyID ev' = KeyID ev.
Proof.
  unfold Apply. destruct (Profile_Validate p); [done|]. cbn. by destruct (Decision_ p); intros [= <-].
Qed.

Lemma resolveSigner_signs ev ev' :
  resolveSigner ParsePrivateKeyPEMFile (Some ev) = Ok ev' ->
  signs ev \/ SignKeyFile ev <> "" -> exists e, ev' = Some e /\ signs e.
Proof.
  unfold resolveSigner, signs. intros H Hs. destruct (Signer ev) as [sg|] eqn:Eg.
  { injection H as <-. exists ev. split; [done|]. exists (SignerSign sg). unfold signingKey. by rewrite Eg. }
  destruct (Sign ev) as [f|] eqn:Ef.
  { injection H as <-. exists ev. split; [done|]. exists f. unfold signingKey. by rewrite Eg, Ef. }
  destruct Hs as [[f Hf]|Hs]; [unfold signingKey in Hf; by rewrite Eg, Ef in Hf|].
  destruct (String.eqb_spec (SignKeyFile ev) ""); [done|].
  destruct (ParsePrivateKeyPEMFile _) as [f|]; [|done]. injection H as <-. eexists. split; [done|]. by exists f.
Qed.

(** * Properties *)

(** C1: nothing reaches a backend of the gateway unless the decision admitted the
    request and a route allows it: the client's certificate heads the chain of
    its TLS connection and verifies against the configured authorities, or
    stands for a bearer token the verifier accepted over TLS; the pipeline
    granted it; and the identity headers the backend received are those of that
    client. *)
Theorem gateway_end_to_end {T} (s : Server (T := T)) a c env backend gcr r st m rb ac d route h
    (Hcall : m_called (Handler EqualFold a c env gcr (gateway_handler s (v_outcome env) backend) r st m) = Some (rb, ac, d))
    (Hsent : x_sent d = Some (route, h)) :
  let view := viewFromHTTP (read_body c r) (if StreamBody c then [] else default [] (rBody (read_body c r))) in
  ((ACBearer ac = false /\ exists rest pool, rTLS r = Some (ACClientCert ac :: rest) /\ tlsCAs a = Some pool /\
      x509_Verify (ACClientCert ac) pool (Some rest) = None) \/
   (ACBearer ac = true /\ is_Some (rTLS r) /\ exists v outer replay, verifier a = Some v /\
      VerifyBearer {| roots := roots v; expectedIssuer := expectedIssuer v;
                      expectedAudience := expectedAudience v; nonceStore := s_replay st |}
        (bearerToken r) (d_bearer_now (v_decide env)) [] (d_bearer (v_decide env))
        = (Ok (ACClientCert ac, outer), replay))) /\
  (exists cr replay, resolveCredential a (v_decide env) view (s_replay st) = (inl cr, replay) /\
     Granted (pipeline_run EqualFold a (v_decide env) gcr view cr
       {| s_world := s_world st; s_replay := replay; s_gaps := s_gaps st |}).1.1 = true /\
     cr_cert cr = Some (ACClientCert ac)) /\
  route_allows s r route ac /\
  (forall k, k ∈ trust_names -> h !! k = None \/ h !! k = asserted (Some ac) (IdentityMode s) !! k).
Proof.
  destruct (Handler_cases a c env gcr (gateway_handler s (v_outcome env) backend) r st m)
    as [(ae & st1 & fx & m1 & _ & E)|(ac' & st1 & fx & m1 & Hd & _ & [(ae & _ & _ & E & _)|(_ & hooks & E)])].
  { rewrite E in Hcall. destruct (refuse_facts (D := proxied (T := T)) a c env (read_body c r) ae fx st1 m1) as [Hn _].
    congruence. }
  { congruence. }
  rewrite E in Hcall. unfold call_next in Hcall. cbn in Hcall. injection Hcall as <- <- <-.
  apply Decide_inl, admitted_run in Hd as [Hrun Hid]. cbv zeta.
  assert (rTLS (read_body c r) = rTLS r /\ bearerToken (read_body c r) = bearerToken r /\
    rPath (read_body c r) = rPath r /\ rMethod (read_body c r) = rMethod r) as (Et & Eb & Ep & Em).
  { unfold read_body. by destruct (StreamBody c). }
  split; [|split; [|]].
  - destruct Hid as [Hv|[(Hb & _ & rest & pool & Hch & Hp & Hx)|(Hb & _ & Hts & v & outer & Hv & Ho)]]; [done| |].
    + left. split; [done|]. exists rest, pool. split; [|done]. cbn in Hch. rewrite Et in Hch.
      destruct (rTLS r); [cbn in Hch; by rewrite Hch|done].
    + right. split; [done|]. cbn in Hts, Ho. rewrite Et in Hts. apply bool_decide_eq_true in Hts.
      split; [done|]. exists v, outer, (s_replay st1). split; [done|]. rewrite <- Eb. exact Ho.
  - exact Hrun.
  - destruct (proxy_cases s (v_outcome env) backend (read_body c r) (Some ac') (s_gaps st1))
      as [(err & Hc & Hx)|(route' & ac2 & Hc & _ & Hs & _)].
    { rewrite Hx in Hsent. unfold deny in Hsent. by destruct (denialEvidence _ _ _ _ _ _ _ _). }
    apply check_route_inl in Hc as [[= <-] Hr]. destruct Hs as [Hs|Hs]; rewrite Hs in Hsent; [|done].
    injection Hsent as <- <-. split; [unfold route_allows in *; by rewrite Ep, Em in Hr|].
    intros k Hk. assert (k ∉ proxy_owned) as Ho by (revert k Hk; apply Forall_forall; by_computation).
    rewrite backend_headers_lookup, forward_headers_lookup, (bool_decide_eq_true_2 (k ∈ trust_names)) by done.
    destruct (bool_decide _); auto.
Qed.

(** A request is either refused or handed on, never both: a refused one never
    reaches the protected handler, leaves no outcome record, and is answered by
    the status of its refusal; one handed on was admitted, with the request it
    was admitted for and the context of its admission. *)
Theorem refused_or_served {D} a c env gcr (next : handler D) r st m :
  let res := Handler EqualFold a c env gcr next r st m in
  match m_refusal res with
  | Some ae => m_called res = None /\ m_outcome res = None /\ m_status res = Status ae
  | None => exists ac d, m_called res = Some (read_body c r, ac, d) /\
      authenticated_veto c ac (read_body c r) = None /\
      exists view st1 fx, decide_request EqualFold a (v_decide env) gcr view st = (inl ac, st1, fx) /\
        VPath view = rPath r /\ VMethod view = rMethod r /\ Decide.Header view = rHeader r
  end.
Proof.
  cbv zeta. destruct (Handler_cases a c env gcr next r st m)
    as [(ae & st1 & fx & m1 & _ & E)|(ac' & st1 & fx & m1 & Hd & _ & [(ae & Hv & Hr & Hc & Ho & _ & Hs)|(Hv & hooks & E)])].
  - destruct (refuse_facts (D := D) a c env (read_body c r) ae fx st1 m1) as (H1 & H2 & H3 & ae' & H4 & H5).
    rewrite E, H4, H5. done.
  - rewrite Hr. split; [done|]. split; [done|]. rewrite Hs. unfold authenticated_veto in Hv.
    destruct (OnAuthenticated c) as [f|]; [|done]. destruct (f ac' _); [|done]. by injection Hv as <-.
  - rewrite E. unfold call_next. destruct (serve next _ ac' _) as [[status gaps] d]. cbn. exists ac', d.
    split; [done|]. split; [done|]. apply Decide_inl in Hd. eexists _, st1, fx. split; [exact Hd|].
    cbn. unfold read_body. by destruct (StreamBody c).
Qed.

(** A gateway that requires signatures is not built without a key, and then
    every record it emits is signed: a configuration that requires one and
    loads has a signing key, whatever profile it applies. *)
Theorem required_signature_available (c : Config) a ev
    (Hn : newAuthenticator ReadFile AppendCertsFromPEM ParsePrivateKeyPEMFile c = Ok a)
    (Hev : cEvidence (base c) = Some ev) (Hr : RequireSignature ev = true) :
  exists ev', cEvidence a = Some ev' /\ signs ev' /\
    (forall order env env', seal ev' order env = Ok env' ->
       exists keyID f env0, signingKey (Some ev') = (keyID, Some f) /\ Envelope_Sign env0 keyID f = Ok env').
Proof.
  apply newAuthenticator_Ok in Hn as (Hv & Hres & _).
  assert (signs ev \/ SignKeyFile ev <> "") as Hs.
  { unfold validation_errors in Hv. repeat (apply app_eq_nil in Hv as [_ Hv]). rewrite Hev, Hr in Hv.
    apply fail_nil in Hv. cbn [andb] in Hv. apply andb_false_iff in Hv as [Hv|Hv].
    - left. by apply signs_iff.
    - right. by apply String.eqb_neq. }
  unfold resolve_evidence in Hres. rewrite Hev in Hres.
  assert (exists ev1, resolveSigner ParsePrivateKeyPEMFile (Some ev1) = Ok (cEvidence a) /\
    (signs ev1 \/ SignKeyFile ev1 <> "")) as (ev1 & H1 & H2).
  { destruct (String.eqb (cEvidenceProfile c) ""); [by exists ev|].
    destruct (LookupEvidenceProfile _) as [p|]; [|done]. destruct (Apply p (Some ev)) as [ev1|] eqn:Ea; [|done].
    exists ev1. split; [done|]. destruct (Apply_key p ev ev1 Ea) as (E1 & E2 & E3 & E4).
    unfold signs, signingKey in *. by rewrite E1, E2, E3, E4. }
  destruct (resolveSigner_signs ev1 _ H1 H2) as (ev' & -> & Hs'). exists ev'. split; [done|]. split; [done|].
  intros order env env' Hseal. apply seal_Ok in Hseal as (_ & _ & _ & _ & _ & Hsig). destruct Hs' as [f Hf].
  unfold signed_by in Hsig. destruct (signingKey (Some ev')) as [keyID [g|]] eqn:Ek; [|done].
  destruct Hsig as [env0 Hsig]. by exists keyID, g, env0.
Qed.

(** The veto of the [Authenticated] hook leaves no record of a refusal. *)
Theorem veto_unrecorded {D} a c env gcr (next : handler D) r st m ac ae
    (Hv : forall ac', authenticated_veto c ac' (read_body c r) = Some ae) st1 fx m1
    (Hd : Decide_ EqualFold a (v_decide env) gcr
            (viewFromHTTP (read_body c r) (if StreamBody c then [] else default [] (rBody (read_body c r)))) st m (v_now env)
          = (inl ac, st1, fx, m1)) :
  let res := Handler EqualFold a c env gcr next r st m in
  m_refusal res = Some ae /\ e_handed (m_admission res) = None /\ ErrEvidence ae = [].
Proof.
  cbv zeta. unfold Handler. rewrite Hd, Hv. split; [done|]. split; [done|].
  specialize (Hv ac). unfold authenticated_veto in Hv. destruct (OnAuthenticated c) as [f|]; [|done].
  destruct (f ac _); [|done]. by injection Hv as <-.
Qed.

(** A body longer than 1 MiB reaches the protected handler cut off. *)
Theorem long_body_truncated (c : Config) r b (Hs : StreamBody c = false) (Hb : rBody r = Some b) :
  rBody (read_body c r) = Some (take DefaultMaxBodyBytes b).
Proof. unfold read_body. rewrite Hs. cbn. unfold bounded. by rewrite Hb. Qed.
End MiddlewareFacts.

(** * Concrete instances *)
Section Witnesses.
  #[local] Existing Instance clc_names.
  #[local] Existing Instance toy_semantics.
  #[local] Existing Instance toy_crypto.
  #[local] Existing Instance adm_methods.
  #[local] Existing Instance adm_parser.
  #[local] Existing Instance sha256.
  #[local] Existing Instance toy_crl_env.
  #[local] Existing Instance toy_ocsp_env.
  #[local] Existing Instance gate_urls.
  #[local] Existing Instance toy_jwt.
  #[local] Existing Instance toy_evidence.
  #[local] Existing Instance toy_x509.
  #[local] Existing Instance toy_challenges.

Definition gw_config (answer : string) : Config := {|
  base := toy_gateway_of Request (toy_answer answer); cEvidenceProfile := ""; CACertFile := "ca.pem";
  JWTCAFile := ""; JWTIssuer := ""; JWTAudience := []; ReplayProtection := None; StreamBody := false;
  RequireRuntimeApproval := true; AllowBreakGlass := false; RequireEvidenceExport := false;
  hasOverrideRecorder := false; hasEvidenceExporter := false; OnAuthenticated := None; OnDenied := true |}.
Definition gw_env : serve_env :=
  let e := {| x_now := 5; x_n := 0; x_order := id |} in
  {| v_decide := toy_readings; v_now := 6; v_refusal := e; v_outcome := e |}.
Definition gw_server : Server := {|
  routes := [toy_route "/rows" ["GET"] ["read"]]; IdentityMode := IdentityAIC;
  sEvidence := Some observing_config; hasDenied := true; hasForwarded := true |}.
Definition gw_request (h : GoHttp.Header) : Request := {|
  rMethod := "GET"; rPath := "/rows"; rRawQuery := "a=1&a=2+3"; rHeader := h; rRemoteAddr := "10.1.2.3:5000";
  rTLS := Some [toy_cert 9]; rBody := None |}.
Definition gw_metrics : DecisionMetrics := {|
  DecideTotal := 0; MGranted := 0; MDenied := 0; ConfigReload := 0; lastErr := None; lastOK := None |}.
Definition gw_run (answer : string) := Handler String.eqb (base (gw_config answer)) (gw_config answer) gw_env None
  (gateway_handler gw_server (v_outcome gw_env) (fun _ _ _ => Ok 200)) (gw_request hostile) toy_start gw_metrics.

Lemma gw_called : exists rb ac d route h,
  m_called (gw_run "approved") = Some (rb, ac, d) /\ x_sent d = Some (route, h).
Proof.
  assert ((if m_called (gw_run "approved") is Some (_, _, d) then if x_sent d is Some _ then true else false else false)
    = true) as E by (vm_compute; reflexivity).
  destruct (m_called (gw_run "approved")) as [[[rb ac] d]|]; [|done].
  destruct (x_sent d) as [[route h]|] eqn:Es; [|done]. by exists rb, ac, d, route, h.
Qed.

Lemma gateway_end_to_end_witness : exists ac (h : GoHttp.Header),
  (forall k, k ∈ trust_names -> h !! k = None \/ h !! k = asserted (Some ac) IdentityAIC !! k) /\
  ((exists rest, rTLS (gw_request hostile) = Some (ACClientCert ac :: rest)) \/ ACBearer ac = true).
Proof.
  destruct gw_called as (rb & ac & d & route & h & Hc & Hs).
  destruct (gateway_end_to_end _ _ _ _ _ _ _ _ _ _ _ _ _ _ _ Hc Hs) as ([(_ & rest & _ & Ht & _)|[Hb _]] & _ & _ & Hh);
    exists ac, h; (split; [exact Hh|]); [left; by exists rest|by right].
Defined.

(** The approver refuses: the proxy is not called, and the refusal is recorded. *)
Example gw_refused :
  ((if m_called (gw_run "denied") is Some _ then true else false), m_status (gw_run "denied"),
   (if e_handed (m_admission (gw_run "denied")) is Some (_, rec, _) then Stage rec else "")) =
  (false, 403, "access_denied").
Proof. vm_compute. reflexivity. Qed.

Definition gw_keys (path : string) : result (bytes -> result bytes) :=
  if String.eqb path "key.pem" then Ok (fun b => Ok b) else Err (ErrNew "no key").
Definition signed_config : Config := {|
  base := with_material (toy_gateway_of Request (toy_answer "approved"))
    (Some {| Sink := None; Strict := true; TTL := 0; Audience := ""; CfgRecorderID := "gw"; HasOnError := false;
             HasGaps := false; Sign := None; KeyID := "k"; Signer := None; SignKeyFile := "key.pem";
             RequireSignature := true; EmitOutcome := false; CfgRequirement := None; Profile := None;
             Recorder := None; profileNoDecision := false |}) None None;
  cEvidenceProfile := "clc-decision+admission@1"; CACertFile := "ca.pem"; JWTCAFile := ""; JWTIssuer := "";
  JWTAudience := []; ReplayProtection := None; StreamBody := false; RequireRuntimeApproval := true;
  AllowBreakGlass := false; RequireEvidenceExport := false; hasOverrideRecorder := false;
  hasEvidenceExporter := false; OnAuthenticated := None; OnDenied := true |}.
Definition gw_pem (data : bytes) : option CertPool := Some [data].
Definition gw_files (path : string) : result bytes :=
  if String.eqb path "ca.pem" then Ok [z_byte 9] else Err (ErrNew "no file").

Lemma required_signature_available_witness : exists ev,
  (exists a, newAuthenticator gw_files gw_pem gw_keys signed_config = Ok a /\ cEvidence a = Some ev) /\
  signs ev.
Proof.
  destruct (newAuthenticator gw_files gw_pem gw_keys signed_config) as [a|e] eqn:E.
  - destruct (required_signature_available gw_files gw_pem gw_keys signed_config a _ E eq_refl eq_refl)
      as (ev & He & Hs & _). exists ev. split; [by exists a|exact Hs].
  - exfalso. assert ((if newAuthenticator gw_files gw_pem gw_keys signed_config is Ok _ then true
      else false) = true) as Hok by (vm_compute; reflexivity). by rewrite E in Hok.
Defined.

Example config_errors :
  option_map (fun _ => tt) (Validate_config (Some signed_config)) = None /\
  length (validation_errors (gw_config "approved")) = 0%nat /\
  Validate_config None = Some (ErrNew "aic-verifier: nil config").
Proof. vm_compute. repeat split. Qed.

Example bearer_tokens :
  map (fun v => bearerToken (gw_request {["Authorization" := [v]]}))
    ["Bearer abc"; "bearer   x.y "; "Basic abc"; "Bearer "; "BEARER t"; "Bearer"; String.append "Bearer a" (String (chr 10) "b")] =
  ["abc"; "x.y"; ""; ""; "t"; ""; ""].
Proof. vm_compute. reflexivity. Qed.
End Witnesses.
