(* ===== verification/EvidenceFiles.v ===== *)
(** Evidence on disk: the directory a [FileSink] writes its envelopes to
    ([src/evidence_sink.go]), reading an envelope back and telling its kind
    ([src/admission_record.go], [src/outcome_record.go],
    [src/evidence_signing.go]), and the verification of a whole directory
    ([src/evidence_verify.go]).

    Reading envelopes and records of package [semantics] is the class
    [EnvelopeReading]. *)
From Stdlib Require Import Ascii.
From S2P Require Import Prelude GoStrings GoTime GoJson GoClock GoHttp GoFiles Types Sha256 Constraints AdmissionTypes Clc Credential Evidence Records.
Local Open Scope string_scope.
Local Open Scope Z_scope.
Local Open Scope list_scope.

(** * Definitions *)

(** Package [semantics]: envelopes as JSON, their statement and record, and the
    checks of both. *)
Class EnvelopeReading `{EvidenceSemantics} := {
  MarshalIndent_Envelope : Envelope -> result string;
  Unmarshal_Envelope : string -> result Envelope;
  Envelope_Statement : Envelope -> result Statement;
  Envelope_Check : Envelope -> option error;
  Envelope_DecisionRecord : Envelope -> result DecisionRecord;
  Record_Verify : DecisionRecord -> option error;
  RecReason : DecisionRecord -> string;
  RecUnresolved : DecisionRecord -> list string;
  PredicateTypeCLCDecision : string;
  ErrEnvelopeSignature : error;
  PAE : string -> bytes -> bytes;
  dec_Digest : Digest -> json -> result Digest
}.

(** The text of the bytes of a payload. *)
Definition bytes_text (b : bytes) : string :=
  String.string_of_list_ascii (map (fun x => chr (byte_z x)) b).

(** [[]T]: each element into the one that was there, a new one into the zero
    value. *)
Fixpoint dec_elements {A} (zero : A) (dec : A -> json -> result A) (old : list A) (l : list json) : result (list A) :=
  match l with
  | [] => Ok []
  | v :: l' => a ← dec (default zero (head old)) v; rest ← dec_elements zero dec (tail old) l'; Ok (a :: rest)
  end.
Definition dec_slice {A} (zero : A) (dec : A -> json -> result A) (old : list A) (v : json) : result (list A) :=
  match v with JNull => Ok [] | JArr l => dec_elements zero dec old l | _ => Err json_type_error end.

(** [src/evidence_sink.go:FileSink] *)
Record FileSink := { FDir : string; FRecorderID : string }.

(** What can go wrong in a run of a sink for reasons outside the file system. *)
Record io_faults := { io_mkdir : option error; io_write : option (error * option nat) }.

(** A callback that verifies one signature. *)
Abbreviation VerifyFn := (string -> bytes -> bytes -> option error).

(** [src/admission_record.go:EvidenceKind] *)
Inductive EvidenceKind := KindDecision | KindAdmission | KindOutcome.

(** [src/evidence_verify.go:EvidenceFailure] *)
Record EvidenceFailure := { FailPath : string; FailReason : message }.
(** [src/evidence_verify.go:EvidenceVerifyReport] *)
Record EvidenceVerifyReport := {
  Total : Z; RDecision : Z; RAdmission : Z; ROutcome : Z; OrphanOutcome : Z; Failures : list EvidenceFailure
}.

(** The statement of an envelope as the parsers read it; a predicate that is not
    there has no bytes. *)
Record statement_head := { HType : string; HPredicateType : string; HPredicate : option json }.

Section EvidenceFiles.
  Context {ES : EvidenceSemantics} {ER : EnvelopeReading}.

(** ** Writing *)

(** [src/evidence_sink.go:337-350 FileSink.Emit] the file of an envelope; the
    same steps end the other two methods. *)
Definition write_envelope (s : FileSink) (io : io_faults) (fs : FS) (name body : string) : result string * FS :=
  let name := if String.eqb (FRecorderID s) "" then name else FRecorderID s +:+ "-" +:+ name in
  match MkdirAll (io_mkdir io) fs (FDir s) with
  | (Some err, fs) => (Err err, fs)
  | (None, fs) =>
      let path := Join (FDir s) (name +:+ ".json") in
      match WriteFile (io_write io) fs path (body +:+ String nl "") with
      | (Some err, fs) => (Err err, fs)
      | (None, fs) => (Ok path, fs)
      end
  end.

Definition needs_directory : error := ErrNew "evidence: FileSink needs a directory".

(** [src/evidence_sink.go:FileSink.Emit] *)
Definition FileSink_Emit (s : FileSink) (io : io_faults) (fs : FS) (rec : DecisionRecord) (env : Envelope)
  : result RecordRef * FS :=
  if String.eqb (FDir s) "" then (Err needs_directory, fs)
  else match MarshalIndent_Envelope env with
  | Err err => (Err err, fs)
  | Ok body =>
      let digest := hex_encode (Value (InputDigest rec)) in
      match write_envelope s io fs digest body with
      | (Err err, fs) => (Err err, fs)
      | (Ok path, fs) => (Ok {| RefDigest := digest; RefVerdict := RecVerdict rec; RefPath := path |}, fs)
      end
  end.

(** [src/evidence_sink.go:FileSink.EmitAdmission] *)
Definition FileSink_EmitAdmission (s : FileSink) (io : io_faults) (fs : FS) (rec : AdmissionRecord) (env : Envelope)
  : result RecordRef * FS :=
  if String.eqb (FDir s) "" then (Err needs_directory, fs)
  else match MarshalIndent_Envelope env with
  | Err err => (Err err, fs)
  | Ok body =>
      match admissionRef rec with
      | Err err => (Err err, fs)
      | Ok ref =>
          match write_envelope s io fs ("admission-" +:+ RefDigest ref) body with
          | (Err err, fs) => (Err err, fs)
          | (Ok path, fs) => (Ok {| RefDigest := RefDigest ref; RefVerdict := RefVerdict ref; RefPath := path |}, fs)
          end
      end
  end.

(** [src/evidence_sink.go:FileSink.EmitOutcome] *)
Definition FileSink_EmitOutcome (s : FileSink) (io : io_faults) (fs : FS) (rec : OutcomeRecord) (env : Envelope)
  : result RecordRef * FS :=
  if String.eqb (FDir s) "" then (Err needs_directory, fs)
  else match MarshalIndent_Envelope env with
  | Err err => (Err err, fs)
  | Ok body =>
      match DigestOf_outcome rec with
      | Err err => (Err err, fs)
      | Ok digest =>
          let digest := hex_encode (Value digest) in
          match write_envelope s io fs ("outcome-" +:+ digest) body with
          | (Err err, fs) => (Err err, fs)
          | (Ok path, fs) => (Ok {| RefDigest := digest; RefVerdict := OOutcome rec; RefPath := path |}, fs)
          end
      end
  end.

(** ** Decoding *)

Definition dec_identity : AdmissionIdentity -> json -> result AdmissionIdentity := dec_struct (fun i k v =>
  if field_is "principal" k then s ← dec_string (IPrincipal i) v;
    Ok {| IPrincipal := s; IAgentID := IAgentID i; ISerial := ISerial i; ISPIFFEID := ISPIFFEID i |}
  else if field_is "agentId" k then s ← dec_string (IAgentID i) v;
    Ok {| IPrincipal := IPrincipal i; IAgentID := s; ISerial := ISerial i; ISPIFFEID := ISPIFFEID i |}
  else if field_is "serial" k then s ← dec_string (ISerial i) v;
    Ok {| IPrincipal := IPrincipal i; IAgentID := IAgentID i; ISerial := s; ISPIFFEID := ISPIFFEID i |}
  else if field_is "spiffeId" k then s ← dec_string (ISPIFFEID i) v;
    Ok {| IPrincipal := IPrincipal i; IAgentID := IAgentID i; ISerial := ISerial i; ISPIFFEID := s |}
  else Ok i).

Definition dec_fact : AdmissionFact -> json -> result AdmissionFact := dec_struct (fun f k v =>
  if field_is "type" k then s ← dec_string (FactType f) v;
    Ok {| FactType := s; FactDigest := FactDigest f; FactNote := FactNote f |}
  else if field_is "digest" k then d ← dec_Digest (FactDigest f) v;
    Ok {| FactType := FactType f; FactDigest := d; FactNote := FactNote f |}
  else if field_is "note" k then s ← dec_string (FactNote f) v;
    Ok {| FactType := FactType f; FactDigest := FactDigest f; FactNote := s |}
  else Ok f).

Definition zero_identity : AdmissionIdentity := {| IPrincipal := ""; IAgentID := ""; ISerial := ""; ISPIFFEID := "" |}.
Definition zero_fact : AdmissionFact := {| FactType := ""; FactDigest := {| Alg := ""; Value := [] |}; FactNote := "" |}.

(** A reason read back is its text. *)
Definition text_message (s : string) : message := Errorf "%s" [AStr s].

Definition dec_admission : AdmissionRecord -> json -> result AdmissionRecord := dec_struct (fun r k v =>
  let set ver stage outcome reason rid at_ id facts := Ok {| Ver := ver; Stage := stage; Outcome := outcome;
    Reason := reason; ARecorderID := rid; RecAt := at_; Identity := id; RecFacts := facts |} in
  if field_is "ver" k then s ← dec_string (Ver r) v;
    set s (Stage r) (Outcome r) (Reason r) (ARecorderID r) (RecAt r) (Identity r) (RecFacts r)
  else if field_is "stage" k then s ← dec_string (Stage r) v;
    set (Ver r) s (Outcome r) (Reason r) (ARecorderID r) (RecAt r) (Identity r) (RecFacts r)
  else if field_is "outcome" k then s ← dec_string (Outcome r) v;
    set (Ver r) (Stage r) s (Reason r) (ARecorderID r) (RecAt r) (Identity r) (RecFacts r)
  else if field_is "reason" k then
    match v with
    | JNull => Ok r
    | _ => s ← dec_string "" v;
        set (Ver r) (Stage r) (Outcome r) (text_message s) (ARecorderID r) (RecAt r) (Identity r) (RecFacts r)
    end
  else if field_is "recorderId" k then s ← dec_string (ARecorderID r) v;
    set (Ver r) (Stage r) (Outcome r) (Reason r) s (RecAt r) (Identity r) (RecFacts r)
  else if field_is "at" k then t ← dec_time (RecAt r) v;
    set (Ver r) (Stage r) (Outcome r) (Reason r) (ARecorderID r) t (Identity r) (RecFacts r)
  else if field_is "identity" k then i ← dec_identity (Identity r) v;
    set (Ver r) (Stage r) (Outcome r) (Reason r) (ARecorderID r) (RecAt r) i (RecFacts r)
  else if field_is "facts" k then l ← dec_slice zero_fact dec_fact (RecFacts r) v;
    set (Ver r) (Stage r) (Outcome r) (Reason r) (ARecorderID r) (RecAt r) (Identity r) l
  else Ok r).
Definition zero_admission : AdmissionRecord := {| Ver := ""; Stage := ""; Outcome := ""; Reason := text_message "";
  ARecorderID := ""; RecAt := zero_time; Identity := zero_identity; RecFacts := [] |}.

Definition dec_outcome : OutcomeRecord -> json -> result OutcomeRecord := dec_struct (fun r k v =>
  let set ver out at_ dd op rid code note id facts := Ok {| OVer := ver; OOutcome := out; OAt := at_;
    ODecisionDigest := dd; OOperationID := op; ORecorderID := rid; OStatusCode := code; ONote := note;
    OIdentity := id; OFacts := facts |} in
  let str name get := if field_is name k then Some (dec_string (get r) v) else None in
  match str "ver" OVer, str "outcome" OOutcome, str "decisionDigest" ODecisionDigest,
        str "operationId" OOperationID, str "recorderId" ORecorderID, str "note" ONote with
  | Some x, _, _, _, _, _ => s ← x; set s (OOutcome r) (OAt r) (ODecisionDigest r) (OOperationID r) (ORecorderID r)
      (OStatusCode r) (ONote r) (OIdentity r) (OFacts r)
  | _, Some x, _, _, _, _ => s ← x; set (OVer r) s (OAt r) (ODecisionDigest r) (OOperationID r) (ORecorderID r)
      (OStatusCode r) (ONote r) (OIdentity r) (OFacts r)
  | _, _, Some x, _, _, _ => s ← x; set (OVer r) (OOutcome r) (OAt r) s (OOperationID r) (ORecorderID r)
      (OStatusCode r) (ONote r) (OIdentity r) (OFacts r)
  | _, _, _, Some x, _, _ => s ← x; set (OVer r) (OOutcome r) (OAt r) (ODecisionDigest r) s (ORecorderID r)
      (OStatusCode r) (ONote r) (OIdentity r) (OFacts r)
  | _, _, _, _, Some x, _ => s ← x; set (OVer r) (OOutcome r) (OAt r) (ODecisionDigest r) (OOperationID r) s
      (OStatusCode r) (ONote r) (OIdentity r) (OFacts r)
  | _, _, _, _, _, Some x => s ← x; set (OVer r) (OOutcome r) (OAt r) (ODecisionDigest r) (OOperationID r)
      (ORecorderID r) (OStatusCode r) s (OIdentity r) (OFacts r)
  | _, _, _, _, _, _ =>
      if field_is "at" k then t ← dec_time (OAt r) v; set (OVer r) (OOutcome r) t (ODecisionDigest r)
        (OOperationID r) (ORecorderID r) (OStatusCode r) (ONote r) (OIdentity r) (OFacts r)
      else if field_is "statusCode" k then z ← dec_int (OStatusCode r) v; set (OVer r) (OOutcome r) (OAt r)
        (ODecisionDigest r) (OOperationID r) (ORecorderID r) z (ONote r) (OIdentity r) (OFacts r)
      else if field_is "identity" k then i ← dec_identity (OIdentity r) v; set (OVer r) (OOutcome r) (OAt r)
        (ODecisionDigest r) (OOperationID r) (ORecorderID r) (OStatusCode r) (ONote r) i (OFacts r)
      else if field_is "facts" k then l ← dec_slice zero_fact dec_fact (OFacts r) v; set (OVer r) (OOutcome r)
        (OAt r) (ODecisionDigest r) (OOperationID r) (ORecorderID r) (OStatusCode r) (ONote r) (OIdentity r) l
      else Ok r
  end).
Definition zero_outcome : OutcomeRecord := {| OVer := ""; OOutcome := ""; OAt := zero_time; ODecisionDigest := "";
  OOperationID := ""; ORecorderID := ""; OStatusCode := 0; ONote := ""; OIdentity := zero_identity; OFacts := [] |}.

Definition dec_head : json -> result statement_head := dec_struct (fun h k v =>
  if field_is "_type" k then s ← dec_string (HType h) v;
    Ok {| HType := s; HPredicateType := HPredicateType h; HPredicate := HPredicate h |}
  else if field_is "predicateType" k then s ← dec_string (HPredicateType h) v;
    Ok {| HType := HType h; HPredicateType := s; HPredicate := HPredicate h |}
  else if field_is "predicate" k then
    Ok {| HType := HType h; HPredicateType := HPredicateType h; HPredicate := Some v |}
  else Ok h) {| HType := ""; HPredicateType := ""; HPredicate := None |}.

(** [src/outcome_record.go:parsePredicate] with the decoder of the predicate. *)
Definition parsePredicate {A} (dec : json -> result A) (env : Envelope) (want : string) : result A :=
  let wrap err := Errorf "evidence: %w" [AWrap err] in
  if negb (String.eqb (PayloadType env) PayloadTypeInToto) then
    Err (Errorf "evidence: payload type %q" [AStr (PayloadType env)])
  else match unmarshal dec_head (bytes_text (Payload env)) with
  | Err err => Err (wrap err)
  | Ok st =>
      if negb (String.eqb (HType st) StatementTypeInToto) || negb (String.eqb (HPredicateType st) want) then
        Err (Errorf "evidence: statement %q/%q, want %q" [AStr (HType st); AStr (HPredicateType st); AStr want])
      else match HPredicate st with
      | None => Err (wrap json_syntax_error)
      | Some v => match dec v with Err err => Err (wrap err) | Ok out => Ok out end
      end
  end.

(** [src/outcome_record.go:ParseOutcomeEnvelope] *)
Definition ParseOutcomeEnvelope (env : Envelope) : result OutcomeRecord :=
  match parsePredicate (dec_outcome zero_outcome) env OutcomeRecordPredicateType with
  | Err err => Err err
  | Ok rec =>
      if negb (String.eqb (OVer rec) OutcomeRecordVersion) || String.eqb (OOutcome rec) "" then
        Err (Errorf "outcome record: incomplete (%s/%s)" [AStr (OVer rec); AStr (OOutcome rec)])
      else Ok rec
  end.

(** [src/admission_record.go:ParseAdmissionEnvelope] *)
Definition ParseAdmissionEnvelope (env : Envelope) : result AdmissionRecord :=
  let wrap err := Errorf "admission record: %w" [AWrap err] in
  if negb (String.eqb (PayloadType env) PayloadTypeInToto) then
    Err (Errorf "admission record: payload type %q" [AStr (PayloadType env)])
  else match unmarshal dec_head (bytes_text (Payload env)) with
  | Err err => Err (wrap err)
  | Ok st =>
      if negb (String.eqb (HType st) StatementTypeInToto)
         || negb (String.eqb (HPredicateType st) AdmissionRecordPredicateType) then
        Err (Errorf "admission record: statement %q/%q" [AStr (HType st); AStr (HPredicateType st)])
      else match HPredicate st with
      | None => Err (wrap json_syntax_error)
      | Some v =>
          match dec_admission zero_admission v with
          | Err err => Err (wrap err)
          | Ok rec =>
              if negb (String.eqb (Ver rec) AdmissionRecordVersion) || String.eqb (Stage rec) ""
                 || String.eqb (Outcome rec) "" then
                Err (Errorf "admission record: incomplete (%s/%s/%s)"
                       [AStr (Ver rec); AStr (Stage rec); AStr (Outcome rec)])
              else Ok rec
          end
      end
  end.

(** ** Checking *)

(** [src/admission_record.go:CheckEvidenceEnvelope] the kind, when one was told
    before the error. *)
Definition CheckEvidenceEnvelope (env : Envelope) : option EvidenceKind * option error :=
  match Envelope_Statement env with
  | Err err => (None, Some err)
  | Ok st =>
      if String.eqb (PredicateType st) PredicateTypeCLCDecision then (Some KindDecision, Envelope_Check env)
      else if String.eqb (PredicateType st) AdmissionRecordPredicateType then
        (Some KindAdmission, err_of (ParseAdmissionEnvelope env))
      else if String.eqb (PredicateType st) OutcomeRecordPredicateType then
        (Some KindOutcome, err_of (ParseOutcomeEnvelope env))
      else (None, Some (Errorf "evidence: unknown predicate type %q" [AStr (PredicateType st)]))
  end.

(** [src/evidence_signing.go:67-81 VerifyEvidenceEnvelope] the first signature that
    verifies ends the loop; else its first error is the answer. *)
Fixpoint verify_signatures (verify : VerifyFn) (pae : bytes) (sigs : list (string * bytes)) (firstErr : option error)
  : option error :=
  match sigs with
  | [] => firstErr
  | (keyID, sig) :: sigs' =>
      let keep e := match firstErr with None => Some e | Some _ => firstErr end in
      if zlen sig =? 0 then
        verify_signatures verify pae sigs' (keep (Errorf "%w: empty signature" [AWrap ErrEnvelopeSignature]))
      else match verify keyID pae sig with
      | None => None
      | Some err => verify_signatures verify pae sigs' (keep (Errorf "%w: %v" [AWrap ErrEnvelopeSignature; AErr err]))
      end
  end.

(** [src/evidence_signing.go:VerifyEvidenceEnvelope] *)
Definition VerifyEvidenceEnvelope (env : Envelope) (verify : option VerifyFn) : option EvidenceKind * option error :=
  let '(kind, err) := CheckEvidenceEnvelope env in
  match err with
  | Some _ => (kind, err)
  | None =>
      match verify with
      | None => (kind, None)
      | Some f =>
          if zlen (Signatures env) =? 0 then
            (kind, Some (Errorf "%w: no signatures" [AWrap ErrEnvelopeSignature]))
          else (kind, verify_signatures f (PAE (PayloadType env) (Payload env)) (Signatures env) None)
      end
  end.

(** [src/evidence_verify.go:loadEvidenceEnvelope] *)
Definition loadEvidenceEnvelope (fs : FS) (path : string) : result Envelope :=
  match fs_ReadFile fs path with
  | Err err => Err err
  | Ok data => match Unmarshal_Envelope data with
               | Err err => Err (Errorf "parse envelope: %w" [AWrap err])
               | Ok env => Ok env end
  end.

(** What the first pass keeps: the report, the digests of the decisions, and the
    outcomes to be linked. *)
Record scan := { sc_report : EvidenceVerifyReport; sc_decisions : list string; sc_outcomes : list (string * Envelope) }.

Definition add_failure (rep : EvidenceVerifyReport) (path : string) (reason : message) : EvidenceVerifyReport := {|
  Total := Total rep; RDecision := RDecision rep; RAdmission := RAdmission rep; ROutcome := ROutcome rep;
  OrphanOutcome := OrphanOutcome rep; Failures := Failures rep ++ [{| FailPath := path; FailReason := reason |}] |}.

(** [src/evidence_verify.go:89-124 VerifyEvidenceDir] one entry in the first pass. *)
Definition scan_entry (fs : FS) (dir : string) (verify : option VerifyFn) (sc : scan) (de : string * bool) : scan :=
  let '(name, isDir) := de in
  if isDir || negb (has_suffix name ".json") then sc
  else
    let path := Join dir name in
    let rep := sc_report sc in
    let fail err := {| sc_report := add_failure rep path err; sc_decisions := sc_decisions sc;
                       sc_outcomes := sc_outcomes sc |} in
    match loadEvidenceEnvelope fs path with
    | Err err => fail err
    | Ok env =>
        match VerifyEvidenceEnvelope env verify with
        | (_, Some err) => fail err
        | (Some KindDecision, None) =>
            match Envelope_DecisionRecord env with
            | Err err => fail err
            | Ok rec => {| sc_report := {| Total := Total rep + 1; RDecision := RDecision rep + 1;
                             RAdmission := RAdmission rep; ROutcome := ROutcome rep;
                             OrphanOutcome := OrphanOutcome rep; Failures := Failures rep |};
                           sc_decisions := hex_encode (Value (InputDigest rec)) :: sc_decisions sc;
                           sc_outcomes := sc_outcomes sc |}
            end
        | (Some KindAdmission, None) =>
            {| sc_report := {| Total := Total rep + 1; RDecision := RDecision rep; RAdmission := RAdmission rep + 1;
                 ROutcome := ROutcome rep; OrphanOutcome := OrphanOutcome rep; Failures := Failures rep |};
               sc_decisions := sc_decisions sc; sc_outcomes := sc_outcomes sc |}
        | (Some KindOutcome, None) =>
            {| sc_report := rep; sc_decisions := sc_decisions sc; sc_outcomes := sc_outcomes sc ++ [(path, env)] |}
        | (None, None) => sc
        end
    end.

(** [src/evidence_verify.go:125-145 VerifyEvidenceDir] one outcome in the second
    pass. *)
Definition link_outcome (decisions : list string) (rep : EvidenceVerifyReport) (o : string * Envelope)
  : EvidenceVerifyReport :=
  let '(path, env) := o in
  let counted := {| Total := Total rep + 1; RDecision := RDecision rep; RAdmission := RAdmission rep;
                    ROutcome := ROutcome rep; OrphanOutcome := OrphanOutcome rep; Failures := Failures rep |} in
  match ParseOutcomeEnvelope env with
  | Err err => add_failure counted path err
  | Ok rec =>
      if String.eqb (ODecisionDigest rec) "" || negb (bool_decide (ODecisionDigest rec ∈ decisions)) then
        add_failure {| Total := Total rep + 1; RDecision := RDecision rep; RAdmission := RAdmission rep;
            ROutcome := ROutcome rep; OrphanOutcome := OrphanOutcome rep + 1; Failures := Failures rep |} path
          (Errorf "outcome decisionDigest %q does not resolve to a decision record in this set"
             [AStr (ODecisionDigest rec)])
      else {| Total := Total rep + 1; RDecision := RDecision rep; RAdmission := RAdmission rep;
              ROutcome := ROutcome rep + 1; OrphanOutcome := OrphanOutcome rep; Failures := Failures rep |}
  end.

Definition zero_report : EvidenceVerifyReport := {|
  Total := 0; RDecision := 0; RAdmission := 0; ROutcome := 0; OrphanOutcome := 0; Failures := [] |}.

(** [src/evidence_verify.go:VerifyEvidenceDir] *)
Definition VerifyEvidenceDir (fs : FS) (dir : string) (verify : option VerifyFn) : result EvidenceVerifyReport :=
  match ReadDir fs dir with
  | Err err => Err err
  | Ok entries =>
      let sc := foldl (scan_entry fs dir verify)
                  {| sc_report := zero_report; sc_decisions := []; sc_outcomes := [] |} entries in
      Ok (foldl (link_outcome (sc_decisions sc)) (sc_report sc) (sc_outcomes sc))
  end.

(** ** Finding a decision again *)

(** [src/evidence_sink.go:LoadEvidenceRecord] *)
Definition LoadEvidenceRecord (fs : FS) (path : string) : result DecisionRecord :=
  match fs_ReadFile fs path with
  | Err err => Err err
  | Ok raw =>
      match Unmarshal_Envelope raw with
      | Err err => Err (Errorf "evidence: %s is not an envelope: %w" [AStr path; AWrap err])
      | Ok env =>
          match Envelope_Check env with
          | Some err => Err (Errorf "evidence: %s: %w" [AStr path; AWrap err])
          | None =>
              match Envelope_DecisionRecord env with
              | Err err => Err (Errorf "evidence: %s: %w" [AStr path; AWrap err])
              | Ok rec =>
                  match Record_Verify rec with
                  | Some err => Err (Errorf "evidence: %s does not reproduce: %w" [AStr path; AWrap err])
                  | None => Ok rec
                  end
              end
          end
      end
  end.

(** [src/evidence.go:494-505 resolveRecordByDigest] the first match in the order
    of the names. *)
Fixpoint find_record (fs : FS) (dir digest : string) (entries : list (string * bool)) : option DecisionRecord :=
  match entries with
  | [] => None
  | (name, isDir) :: entries' =>
      if isDir || negb (has_suffix name ".json") then find_record fs dir digest entries'
      else match LoadEvidenceRecord fs (Join dir name) with
      | Err _ => find_record fs dir digest entries'
      | Ok rec => if String.eqb (hex_encode (Value (InputDigest rec))) digest then Some rec
                  else find_record fs dir digest entries'
      end
  end.

(** [src/evidence.go:resolveRecordByDigest] *)
Definition resolveRecordByDigest (fs : FS) (dir digest : string) : result DecisionRecord :=
  match ReadDir fs dir with
  | Err err => Err (Errorf "evidence_exporter: read evidence dir %s: %w" [AStr dir; AWrap err])
  | Ok entries =>
      match find_record fs dir digest entries with
      | Some rec => Ok rec
      | None => Err (Errorf "evidence_exporter: decision record %s not found under %s (evidence gap)"
                       [AStr digest; AStr dir])
      end
  end.
End EvidenceFiles.

(** * Lemmas *)
Section EvidenceFilesFacts.
  Context {ES : EvidenceSemantics} {ER : EnvelopeReading}.
  Variables (fs : FS) (dir : string) (verify : option VerifyFn).

(** What the first pass finds in an entry. *)
Inductive scanned :=
  | Skipped | Failed (path : string) (err : message) | Decided (digest : string) | Refused
  | Pending (path : string) (env : Envelope).
Definition record_file (de : string * bool) : bool := negb de.2 && has_suffix de.1 ".json".
Definition classify (de : string * bool) : scanned :=
  let path := Join dir de.1 in
  if negb (record_file de) then Skipped
  else match loadEvidenceEnvelope fs path with
  | Err err => Failed path err
  | Ok env =>
      match VerifyEvidenceEnvelope env verify with
      | (_, Some err) => Failed path err
      | (Some KindDecision, None) =>
          match Envelope_DecisionRecord env with
          | Err err => Failed path err
          | Ok rec => Decided (hex_encode (Value (InputDigest rec)))
          end
      | (Some KindAdmission, None) => Refused
      | (Some KindOutcome, None) => Pending path env
      | (None, None) => Skipped
      end
  end.

Definition failed (x : scanned) : option EvidenceFailure :=
  match x with Failed p e => Some {| FailPath := p; FailReason := e |} | _ => None end.
Definition decided (x : scanned) : option string := match x with Decided d => Some d | _ => None end.
Definition refused (x : scanned) : option unit := match x with Refused => Some tt | _ => None end.
Definition pending (x : scanned) : option (string * Envelope) := match x with Pending p e => Some (p, e) | _ => None end.

(** The effect of what was found on the scan. *)
Definition account (sc : scan) (x : scanned) : scan :=
  let rep := sc_report sc in
  {| sc_report := {|
       Total := Total rep + match x with Decided _ | Refused => 1 | _ => 0 end;
       RDecision := RDecision rep + match x with Decided _ => 1 | _ => 0 end;
       RAdmission := RAdmission rep + match x with Refused => 1 | _ => 0 end;
       ROutcome := ROutcome rep; OrphanOutcome := OrphanOutcome rep;
       Failures := Failures rep ++ option_list (failed x) |};
     sc_decisions := option_list (decided x) ++ sc_decisions sc;
     sc_outcomes := sc_outcomes sc ++ option_list (pending x) |}.

Lemma account_none sc x : failed x = None -> decided x = None -> refused x = None -> pending x = None ->
  account sc x = sc.
Proof.
  destruct x; try done. intros _ _ _ _. unfold account. destruct sc as [[] ? ?]. cbn.
  by rewrite !app_nil_r, !Z.add_0_r.
Qed.

Lemma scan_entry_account sc de : scan_entry fs dir verify sc de = account sc (classify de).
Proof.
  unfold scan_entry, classify, record_file. destruct de as [name isDir]. cbn [fst snd].
  rewrite negb_andb, negb_involutive.
  destruct (isDir || negb (has_suffix name ".json")); [by rewrite account_none|].
  destruct (loadEvidenceEnvelope fs (Join dir name)) as [env|err];
    [destruct (VerifyEvidenceEnvelope env verify) as [[[| |]|] [err|]];
       [|destruct (Envelope_DecisionRecord env) as [rec|err]|..]|];
    try (by rewrite account_none); unfold account, add_failure; destruct sc as [[] ? ?]; cbn;
    by rewrite ?app_nil_r, ?Z.add_0_r.
Qed.

Lemma scan_all l sc :
  let sc' := foldl (scan_entry fs dir verify) sc l in
  let found := map classify l in
  Failures (sc_report sc') = Failures (sc_report sc) ++ omap failed found /\
  (forall d, d ∈ sc_decisions sc' <-> d ∈ omap decided found \/ d ∈ sc_decisions sc) /\
  sc_outcomes sc' = sc_outcomes sc ++ omap pending found /\
  RDecision (sc_report sc') = RDecision (sc_report sc) + zlen (omap decided found) /\
  RAdmission (sc_report sc') = RAdmission (sc_report sc) + zlen (omap refused found) /\
  ROutcome (sc_report sc') = ROutcome (sc_report sc) /\
  OrphanOutcome (sc_report sc') = OrphanOutcome (sc_report sc) /\
  Total (sc_report sc') = Total (sc_report sc) + zlen (omap decided found) + zlen (omap refused found).
Proof.
  revert sc. induction l as [|de l IH]; intros sc; cbv zeta.
  { cbn. rewrite !app_nil_r. unfold zlen. cbn. repeat split; try lia; tauto || (intros [H|H]; [by apply elem_of_nil in H|done]). }
  cbn [foldl map]. rewrite scan_entry_account. specialize (IH (account sc (classify de))). cbv zeta in IH.
  destruct IH as (H1 & H2 & H3 & H4 & H5 & H6 & H7 & H8). rewrite H1, H3, H4, H5, H6, H7, H8.
  split; [by destruct (classify de); cbn; rewrite <- app_assoc|].
  split; [intros d; rewrite H2; destruct (classify de); cbn; rewrite ?elem_of_cons; tauto|].
  split; [by destruct (classify de); cbn; rewrite <- app_assoc|].
  unfold zlen. destruct (classify de); cbn; repeat split; lia.
Qed.

(** The outcomes of the second pass that are linked, and the others. *)
Definition linked (decisions : list string) (o : string * Envelope) : Prop :=
  exists rec, ParseOutcomeEnvelope o.2 = Ok rec /\ ODecisionDigest rec <> "" /\ ODecisionDigest rec ∈ decisions.

Lemma link_all decisions l rep : Forall (fun o => is_ok (ParseOutcomeEnvelope o.2) = true) l ->
  let rep' := foldl (link_outcome decisions) rep l in
  exists extra,
    Failures rep' = Failures rep ++ extra /\ (extra = [] <-> Forall (linked decisions) l) /\
    Total rep' = Total rep + zlen l /\ RDecision rep' = RDecision rep /\ RAdmission rep' = RAdmission rep /\
    OrphanOutcome rep' = OrphanOutcome rep + zlen extra /\
    ROutcome rep' + zlen extra = ROutcome rep + zlen l.
Proof.
  intros Hl. revert rep. induction Hl as [|[path env] l Ho Hl IH]; intros rep; cbv zeta.
  { exists []. cbn. rewrite app_nil_r. unfold zlen. cbn. repeat split; try done; lia. }
  cbn [foldl]. destruct (IH (link_outcome decisions rep (path, env))) as (extra & H1 & H2 & H3 & H4 & H5 & H6 & H7).
  rewrite H1, H3, H4, H5, H6. cbn [snd] in Ho. unfold link_outcome in *.
  destruct (ParseOutcomeEnvelope env) as [rec|] eqn:Er; [|done].
  destruct (String.eqb (ODecisionDigest rec) "" || negb (bool_decide (ODecisionDigest rec ∈ decisions))) eqn:Eo.
  - exists ({| FailPath := path; FailReason := Errorf "outcome decisionDigest %q does not resolve to a decision record in this set"
             [AStr (ODecisionDigest rec)] |} :: extra).
    cbn in *. rewrite <- app_assoc. unfold zlen in *. cbn [length] in *. repeat split; try done; try lia.
    intros H. exfalso. inversion H as [|? ? (rec' & Hp & Hne & Hin) _]; subst. cbn [snd] in Hp.
    rewrite Er in Hp. injection Hp as <-. apply String.eqb_neq in Hne. rewrite Hne in Eo.
    by rewrite (bool_decide_eq_true_2 _ Hin) in Eo.
  - apply orb_false_iff in Eo as [En Ei]. apply String.eqb_neq in En. rewrite negb_false_iff, bool_decide_eq_true in Ei.
    exists extra. cbn in *. unfold zlen in *. cbn [length] in *. repeat split; try done; try lia.
    + intros Hx. constructor; [|by apply H2]. by exists rec.
    + intros Hx. apply H2. by inversion Hx.
Qed.

Lemma Verify_kind env kind : VerifyEvidenceEnvelope env verify = (Some kind, None) ->
  CheckEvidenceEnvelope env = (Some kind, None).
Proof.
  unfold VerifyEvidenceEnvelope. destruct (CheckEvidenceEnvelope env) as [k [err|]]; [congruence|].
  destruct verify as [f|]; [|done]. destruct (_ =? 0); intros [= -> _]; done.
Qed.

Lemma Check_outcome env : CheckEvidenceEnvelope env = (Some KindOutcome, None) ->
  is_ok (ParseOutcomeEnvelope env) = true.
Proof.
  unfold CheckEvidenceEnvelope. destruct (Envelope_Statement env) as [st|]; [|done].
  destruct (String.eqb _ _); [done|]. destruct (String.eqb _ _); [done|]. destruct (String.eqb _ _); [|done].
  destruct (ParseOutcomeEnvelope env); done.
Qed.

Lemma Verify_told env : VerifyEvidenceEnvelope env verify <> (None, None).
Proof.
  unfold VerifyEvidenceEnvelope, CheckEvidenceEnvelope. destruct (Envelope_Statement env) as [st|]; [|done].
  repeat (destruct (String.eqb _ _); [|]); try done;
  try (destruct (err_of _)); try (destruct (Envelope_Check env)); try done;
  destruct verify; try done; destruct (_ =? 0); done.
Qed.

Lemma pending_parse entries :
  Forall (fun o => is_ok (ParseOutcomeEnvelope o.2) = true) (omap pending (map classify entries)).
Proof.
  apply Forall_forall. intros o Ho. apply list_elem_of_omap in Ho as (x & Hx & Hp).
  apply list_elem_of_fmap_1 in Hx as (de & -> & _). unfold classify in Hp.
  destruct (record_file de); [|done]. cbn [negb] in Hp. destruct (loadEvidenceEnvelope _ _) as [env|]; [|done].
  destruct (VerifyEvidenceEnvelope env verify) as [[[| |]|] [err|]] eqn:Ev; try done.
  - by destruct (Envelope_DecisionRecord env).
  - injection Hp as <-. apply Check_outcome. by apply Verify_kind.
Qed.

Lemma classify_cases de :
  match classify de with
  | Skipped => record_file de = false
  | Failed p err => record_file de = true /\ p = Join dir de.1
  | Decided d => record_file de = true /\ exists env rec, loadEvidenceEnvelope fs (Join dir de.1) = Ok env /\
      VerifyEvidenceEnvelope env verify = (Some KindDecision, None) /\
      Envelope_DecisionRecord env = Ok rec /\ d = hex_encode (Value (InputDigest rec))
  | Refused => record_file de = true /\ exists env, loadEvidenceEnvelope fs (Join dir de.1) = Ok env /\
      VerifyEvidenceEnvelope env verify = (Some KindAdmission, None)
  | Pending p env => record_file de = true /\ p = Join dir de.1 /\ loadEvidenceEnvelope fs p = Ok env /\
      VerifyEvidenceEnvelope env verify = (Some KindOutcome, None)
  end.
Proof.
  unfold classify. destruct (record_file de); [|done]. cbn [negb].
  destruct (loadEvidenceEnvelope _ _) as [env|] eqn:El; [|done].
  destruct (VerifyEvidenceEnvelope env verify) as [[[| |]|] [err|]] eqn:Ev; try done.
  - destruct (Envelope_DecisionRecord env) as [rec|] eqn:Er; [|done]. split; [done|]. by exists env, rec.
  - split; [done|]. by exists env.
  - by apply Verify_told in Ev.
Qed.

Lemma list_filter_elem {A} (f : A -> bool) l x : x ∈ List.filter f l <-> x ∈ l /\ f x = true.
Proof. rewrite !list_elem_of_In. apply filter_In. Qed.

Lemma omap_nil {A B} (f : A -> option B) l : omap f l = [] <-> Forall (fun x => f x = None) l.
Proof.
  induction l as [|x l IH]; [done|]. cbn. rewrite Forall_cons. destruct (f x).
  - split; [done|]. by intros [? _].
  - rewrite IH. tauto.
Qed.

(** A verification that found nothing wrong: the file reads as an envelope that
    verifies, and an outcome follows a decision that another file records. *)
Definition decides (entries : list (string * bool)) (digest : string) : Prop :=
  exists de env rec, de ∈ entries /\ record_file de = true /\ loadEvidenceEnvelope fs (Join dir de.1) = Ok env /\
    VerifyEvidenceEnvelope env verify = (Some KindDecision, None) /\ Envelope_DecisionRecord env = Ok rec /\
    hex_encode (Value (InputDigest rec)) = digest.
Definition verified (entries : list (string * bool)) (de : string * bool) : Prop :=
  exists env kind, loadEvidenceEnvelope fs (Join dir de.1) = Ok env /\
    VerifyEvidenceEnvelope env verify = (Some kind, None) /\
    match kind with
    | KindDecision => exists rec, Envelope_DecisionRecord env = Ok rec
    | KindAdmission => True
    | KindOutcome => exists rec, ParseOutcomeEnvelope env = Ok rec /\ ODecisionDigest rec <> "" /\
        decides entries (ODecisionDigest rec)
    end.

Lemma decides_iff entries digest : decides entries digest <-> digest ∈ omap decided (map classify entries).
Proof.
  rewrite list_elem_of_omap. split.
  - intros (de & env & rec & Hin & Hf & Hl & Hv & Hr & <-). exists (classify de).
    split; [by apply list_elem_of_fmap_2|]. unfold classify. by rewrite Hf, Hl, Hv, Hr.
  - intros (x & Hx & Hd). apply list_elem_of_fmap_1 in Hx as (de & -> & Hin).
    pose proof (classify_cases de) as Hc. destruct (classify de); try done.
    injection Hd as ->. destruct Hc as (Hf & env & rec & Hl & Hv & Hr & ->). by exists de, env, rec.
Qed.

Lemma verified_iff entries de : de ∈ entries -> record_file de = true ->
  verified entries de <->
  failed (classify de) = None /\
  forall o, pending (classify de) = Some o -> linked (omap decided (map classify entries)) o.
Proof.
  intros Hin Hf. unfold verified, classify. rewrite Hf. cbn [negb].
  destruct (loadEvidenceEnvelope fs (Join dir de.1)) as [env|err]; [|split; [by intros (? & ? & ? & _)|by intros []]].
  destruct (VerifyEvidenceEnvelope env verify) as [kind [err|]] eqn:Ev.
  { split; [intros (env' & k & [= <-] & Hv & _); congruence|]. by destruct kind as [[| |]|]; intros []. }
  destruct kind as [[| |]|]; [| | |by apply Verify_told in Ev].
  - destruct (Envelope_DecisionRecord env) as [rec|] eqn:Er.
    + split; [done|]. intros _. exists env, KindDecision. split; [done|]. split; [done|]. by exists rec.
    + split; [|by intros []]. intros (env' & k & [= <-] & Hv & Hk). rewrite Ev in Hv. injection Hv as <-.
      destruct Hk as [rec Hk]. congruence.
  - split; [done|]. intros _. by exists env, KindAdmission.
  - split.
    + intros (env' & k & [= <-] & Hv & Hk). rewrite Ev in Hv. injection Hv as <-. split; [done|].
      intros o [= <-]. destruct Hk as (rec & Hp & Hn & Hd). exists rec. split; [done|]. split; [done|].
      by apply decides_iff.
    + intros [_ H]. destruct (H _ eq_refl) as (rec & Hp & Hn & Hd). exists env, KindOutcome. split; [done|].
      split; [done|]. exists rec. split; [done|]. split; [done|]. by apply decides_iff.
Qed.

(** Every signature callback a verified envelope was checked with accepted one of
    its signatures over the envelope's own payload. *)
Lemma verify_signatures_None f pae sigs first :
  verify_signatures f pae sigs first = None <->
  (first = None /\ sigs = []) \/ exists k sig, (k, sig) ∈ sigs /\ sig <> [] /\ f k pae sig = None.
Proof.
  revert first. induction sigs as [|[k sig] sigs IH]; intros first; cbn.
  { split; [by intros ->; left|]. intros [[-> _]|(k & sig & H & _)]; [done|]. by apply elem_of_nil in H. }
  destruct (zlen sig =? 0) eqn:Ez; [apply zlen_eqb_nil in Ez|destruct (f k pae sig) as [err|] eqn:Ef].
  - rewrite IH. subst sig. split.
    + intros [[H _]|(k' & sig' & H & Hs)]; [by destruct first|]. right. exists k', sig'. split; [by right|done].
    + intros [[_ H]|(k' & sig' & H & Hs & Hv)]; [done|]. right.
      apply elem_of_cons in H as [[= -> ->]|H]; [done|]. by exists k', sig'.
  - rewrite IH. split.
    + intros [[H _]|(k' & sig' & H & Hs)]; [by destruct first|]. right. exists k', sig'. split; [by right|done].
    + intros [[_ H]|(k' & sig' & H & Hs & Hv)]; [done|]. right.
      apply elem_of_cons in H as [[= -> ->]|H]; [congruence|]. by exists k', sig'.
  - split; [|done]. intros _. right. exists k, sig. split; [left|]. split; [by intros ->|done].
Qed.

(** * Properties *)

(** C27: the verification of an evidence directory is clean exactly when every
    record file in it reads as an envelope, verifies (for a decision: gives its
    record), and every outcome points at a decision recorded in the same
    directory; every record file is counted once, as a verified record or as a
    failure, and an orphaned outcome as both. *)
Theorem evidence_dir_clean_iff entries rep
    (Hd : ReadDir fs dir = Ok entries) (Hr : VerifyEvidenceDir fs dir verify = Ok rep) :
  (Failures rep = [] <-> Forall (verified entries) (List.filter record_file entries)) /\
  Total rep = RDecision rep + RAdmission rep + ROutcome rep + OrphanOutcome rep /\
  zlen (List.filter record_file entries) + OrphanOutcome rep = Total rep + zlen (Failures rep).
Proof.
  unfold VerifyEvidenceDir in Hr. rewrite Hd in Hr.
  set (sc := foldl _ _ entries) in Hr. injection Hr as Hr.
  destruct (scan_all entries {| sc_report := zero_report; sc_decisions := []; sc_outcomes := [] |})
    as (H1 & H2 & H3 & H4 & H5 & H6 & H7 & H8). fold sc in H1, H2, H3, H4, H5, H6, H7, H8. cbn in H1, H3, H4, H5, H6, H7, H8.
  pose proof (pending_parse entries) as Hp. rewrite <- H3 in Hp.
  destruct (link_all (sc_decisions sc) _ (sc_report sc) Hp) as (extra & L1 & L2 & L3 & L4 & L5 & L6 & L7).
  rewrite Hr in L1, L3, L4, L5, L6, L7.
  assert (zlen (List.filter record_file entries) = zlen (omap failed (map classify entries)) +
    zlen (omap decided (map classify entries)) + zlen (omap refused (map classify entries)) +
    zlen (omap pending (map classify entries))) as Hcount.
  { clear. induction entries as [|de l IH]; [done|]. cbn [List.filter map].
    pose proof (classify_cases de) as Hc. revert IH. unfold zlen.
    destruct (classify de); cbn; [rewrite Hc|destruct Hc as [-> _]..]; cbn [length]; lia. }
  split; [|split].
  - rewrite L1, H1, Forall_forall. split.
    + intros Hn de Hin. apply app_eq_nil in Hn as [Hn He]. apply list_filter_elem in Hin as [Hin Hf].
      apply (verified_iff entries de Hin Hf). split.
      * apply omap_nil in Hn. rewrite Forall_forall in Hn. apply Hn. by apply list_elem_of_fmap_2.
      * intros o Ho. apply L2 in He. rewrite Forall_forall in He.
        destruct (He o) as (rec & Hrec & Hne & Hdec).
        { rewrite H3. apply list_elem_of_omap. exists (classify de). split; [by apply list_elem_of_fmap_2|done]. }
        exists rec. split; [done|]. split; [done|]. apply H2 in Hdec as [|Hdec]; [done|]. by apply elem_of_nil in Hdec.
    + intros H. assert (omap failed (map classify entries) = []) as ->.
      { apply omap_nil, Forall_forall. intros x Hx. apply list_elem_of_fmap_1 in Hx as (de & -> & Hin).
        destruct (record_file de) eqn:Hf.
        - apply (verified_iff entries de Hin Hf). apply H. by apply list_filter_elem.
        - unfold classify. by rewrite Hf. }
      apply L2, Forall_forall. intros o Ho. rewrite H3 in Ho. apply list_elem_of_omap in Ho as (x & Hx & Ho).
      apply list_elem_of_fmap_1 in Hx as (de & -> & Hin). destruct (record_file de) eqn:Hf.
      * destruct (proj1 (verified_iff entries de Hin Hf)) as [_ Hl]; [apply H; by apply list_filter_elem|].
        destruct (Hl o Ho) as (rec & Hrec & Hne & Hdec). exists rec. split; [done|]. split; [done|]. apply H2. by left.
      * unfold classify in Ho. by rewrite Hf in Ho.
  - rewrite L3, L4, L5, L6, H4, H5, H7, H8, H3. rewrite H3, H6 in L7. lia.
  - rewrite Hcount, L1, H1, L3, L6, H7, H8, H3, zlen_app. lia.
Qed.
End EvidenceFilesFacts.

(** * A record written and found again *)
Section FileSinkFacts.
  Context {ES : EvidenceSemantics} {ER : EnvelopeReading}.

(** A byte below the digits, such as a slash or a dash, is in no hexadecimal text. *)
Lemma hex_encode_no_byte c l : code c < 48 -> contains_byte c (hex_encode l) = false.
Proof.
  intros Hc. assert (forall z, 0 <= z < 16 -> Ascii.eqb (hex_digit z) c = false) as H.
  { intros z Hz. unfold hex_digit. apply Ascii.eqb_neq. intros E. apply (f_equal code) in E. unfold code, chr in E.
    rewrite N_ascii_embedding in E by (destruct (z <? 10); lia). unfold code in Hc. destruct (Z.ltb_spec z 10); lia. }
  induction l as [|b l IH]; [done|]. cbn [hex_encode contains_byte].
  pose proof (byte_z_range b). rewrite IH, !H; [done|split; [apply Z.mod_pos_bound; lia|apply Z.mod_pos_bound; lia]|].
  split; [apply Z.div_pos; lia|apply Z.div_lt_upper_bound; lia].
Qed.

Lemma record_name_entry n : contains_byte "/"%char n = false -> entry_name (n +:+ ".json") = true.
Proof.
  intros H. apply entry_name_spec. unfold component. rewrite contains_byte_app, H.
  repeat split; try done; intros E; apply (f_equal String.length) in E; rewrite slength_app in E; cbn in E; lia.
Qed.

Definition sink_name (s : FileSink) (name : string) : string :=
  (if String.eqb (FRecorderID s) "" then name else FRecorderID s +:+ "-" +:+ name) +:+ ".json".

(** A file written by a sink is an entry of its directory; other files stay. *)
Lemma write_envelope_Ok s io fs name body path fs' :
  FDir s <> "" -> contains_byte "/"%char (FRecorderID s) = false -> contains_byte "/"%char name = false ->
  write_envelope s io fs name body = (Ok path, fs') ->
  path = Join (FDir s) (sink_name s name) /\
  fs_ReadFile fs' path = Ok (body +:+ String nl "") /\
  (exists l, ReadDir fs' (FDir s) = Ok l /\ (sink_name s name, false) ∈ l) /\
  (forall p x, fs !! p = Some (NFile x) -> p <> path -> fs' !! p = Some (NFile x)).
Proof.
  intros Hd Hr Hn. unfold write_envelope. fold (sink_name s name).
  destruct (MkdirAll (io_mkdir io) fs (FDir s)) as [[e|] fs1] eqn:Em; [done|].
  destruct (WriteFile _ _ _ _) as [[e|] fs2] eqn:Ew; [done|]. intros H.
  apply MkdirAll_None in Em. apply MkdirAll_dirs in Em as (M1 & M2 & M3 & M4).
  apply WriteFile_None in Ew as [-> Hnd]. injection H as <- <-.
  assert (entry_name (sink_name s name) = true) as He.
  { apply record_name_entry. destruct (String.eqb (FRecorderID s) ""); [done|].
    by rewrite !contains_byte_app, Hr, Hn. }
  split; [done|]. split; [unfold fs_ReadFile; by rewrite lookup_insert_eq|]. split.
  - rewrite Join_child by done.
    assert (child (path_Clean (FDir s)) (sink_name s name) <> path_Clean (FDir s)) as Hne.
    { intros E. rewrite <- (Join_child _ _ Hd He) in E. by rewrite E in Hnd. }
    assert (exists l, ReadDir (<[child (path_Clean (FDir s)) (sink_name s name):=NFile (body +:+ String nl "")]> fs1)
      (FDir s) = Ok l) as [l Hl].
    { unfold ReadDir. apply String.eqb_neq in Hd. rewrite Hd, lookup_insert_ne, M1 by done. by eexists. }
    exists l. split; [done|]. apply (ReadDir_elem _ _ _ _ _ Hl).
    eexists _, _. rewrite lookup_insert_eq. split; [done|]. split; [by apply child_of_child|done].
  - intros p x Hp Hne. rewrite lookup_insert_ne by done. by apply M3.
Qed.

Lemma find_record_Some fs dir digest entries de rec :
  de ∈ entries -> record_file de = true -> LoadEvidenceRecord fs (Join dir de.1) = Ok rec ->
  hex_encode (Value (InputDigest rec)) = digest ->
  exists de' rec', de' ∈ entries /\ find_record fs dir digest entries = Some rec' /\
    LoadEvidenceRecord fs (Join dir de'.1) = Ok rec' /\ hex_encode (Value (InputDigest rec')) = digest.
Proof.
  intros Hin Hf Hl Hd. induction entries as [|[n b] entries IH]; [by apply elem_of_nil in Hin|]. cbn [find_record].
  assert (de ∈ entries -> exists de' rec', de' ∈ (n, b) :: entries /\
    find_record fs dir digest entries = Some rec' /\ LoadEvidenceRecord fs (Join dir de'.1) = Ok rec' /\
    hex_encode (Value (InputDigest rec')) = digest) as IH'.
  { intros H. destruct (IH H) as (de' & rec' & H1 & H2). exists de', rec'. split; [by right|done]. }
  apply elem_of_cons in Hin as [->|Hin].
  - unfold record_file in Hf. cbn [fst snd] in *. apply andb_true_iff in Hf as [Hb Hs].
    destruct b; [done|]. rewrite Hs, Hl. cbn [orb negb]. rewrite Hd, String.eqb_refl.
    exists (n, false), rec. split; [left|done].
  - destruct (b || negb _); [by apply IH'|]. destruct (LoadEvidenceRecord fs (Join dir n)) as [rec0|] eqn:E0; [|by apply IH'].
    destruct (String.eqb_spec (hex_encode (Value (InputDigest rec0))) digest); [|by apply IH'].
    exists (n, b), rec0. split; [left|done].
Qed.

Lemma LoadEvidenceRecord_Ok fs path rec : LoadEvidenceRecord fs path = Ok rec ->
  Record_Verify rec = None /\ exists raw env, fs_ReadFile fs path = Ok raw /\ Unmarshal_Envelope raw = Ok env /\
    Envelope_Check env = None /\ Envelope_DecisionRecord env = Ok rec.
Proof.
  unfold LoadEvidenceRecord. destruct (fs_ReadFile fs path) as [raw|] eqn:Er; [|done].
  destruct (Unmarshal_Envelope raw) as [env|] eqn:Eu; [|done]. destruct (Envelope_Check env) eqn:Ec; [done|].
  destruct (Envelope_DecisionRecord env) as [r|] eqn:Ed; [|done]. destruct (Record_Verify r) eqn:Ev; [done|].
  intros [= <-]. split; [done|]. by exists raw, env.
Qed.

(** * Properties *)

(** A decision record a [FileSink] says it kept is found again: reading the
    reported path gives the record back, the exporter resolves the reported
    digest in the sink's directory to a record that verifies and has that
    digest, and no other file has changed. *)
Theorem kept_record_resolves s io fs fs' rec env ref
    (Hrid : contains_byte "/"%char (FRecorderID s) = false)
    (Hread : forall body, MarshalIndent_Envelope env = Ok body -> Unmarshal_Envelope (body +:+ String nl "") = Ok env)
    (Hcheck : Envelope_Check env = None) (Hrec : Envelope_DecisionRecord env = Ok rec)
    (Hver : Record_Verify rec = None)
    (He : FileSink_Emit s io fs rec env = (Ok ref, fs')) :
  RefDigest ref = hex_encode (Value (InputDigest rec)) /\ RefVerdict ref = RecVerdict rec /\
  LoadEvidenceRecord fs' (RefPath ref) = Ok rec /\
  (exists rec', resolveRecordByDigest fs' (FDir s) (RefDigest ref) = Ok rec' /\
     hex_encode (Value (InputDigest rec')) = RefDigest ref /\ Record_Verify rec' = None) /\
  (forall p x, fs !! p = Some (NFile x) -> p <> RefPath ref -> fs' !! p = Some (NFile x)).
Proof.
  unfold FileSink_Emit in He. destruct (String.eqb_spec (FDir s) "") as [|Hd]; [done|].
  destruct (MarshalIndent_Envelope env) as [body|] eqn:Eb; [|done].
  destruct (write_envelope _ _ _ _ _) as [[path|] fs1] eqn:Ew; [|done]. injection He as <- <-. cbn [RefDigest RefVerdict RefPath].
  apply write_envelope_Ok in Ew as (-> & Hf & (l & Hl & Hin) & Hother); [|done|done|].
  2:{ by apply hex_encode_no_byte. }
  assert (LoadEvidenceRecord fs1 (Join (FDir s) (sink_name s (hex_encode (Value (InputDigest rec))))) = Ok rec) as Hload.
  { unfold LoadEvidenceRecord. by rewrite Hf, Hread, Hcheck, Hrec, Hver. }
  split; [done|]. split; [done|]. split; [done|]. split; [|done].
  destruct (find_record_Some fs1 (FDir s) (hex_encode (Value (InputDigest rec))) l _ rec Hin)
    as (de' & rec' & _ & Hfind & Hl' & Hdig); [|done|done|].
  { unfold record_file. cbn. unfold sink_name. apply has_suffix_snoc. }
  exists rec'. unfold resolveRecordByDigest. rewrite Hl, Hfind. split; [done|]. split; [done|].
  by apply LoadEvidenceRecord_Ok in Hl' as [? _].
Qed.

(** The files of the three kinds of record never collide in one sink. *)
Lemma sink_names_distinct s a b : sink_name s (hex_encode a) <> sink_name s ("admission-" +:+ b) /\
  sink_name s (hex_encode a) <> sink_name s ("outcome-" +:+ b).
Proof.
  assert (forall x y, sink_name s x = sink_name s y -> x = y) as Hinj.
  { intros x y. unfold sink_name. intros H. apply sapp_inj_r in H. destruct (String.eqb _ _); [done|].
    by apply sapp_inj_l, sapp_inj_l in H. }
  split; intros E; apply Hinj, (f_equal (contains_byte "-"%char)) in E;
    by rewrite hex_encode_no_byte, contains_byte_app in E.
Qed.
End FileSinkFacts.

(** * Concrete instances *)
Section Witnesses.
  #[local] Existing Instance toy_evidence.

(** An envelope is the text of its payload, signed by it; a text that is a JSON
    object is an outcome. *)
Definition toy_envelope (text : string) : Envelope := {|
  Payload := ascii_bytes text; PayloadType := "in-toto"; Signatures := [("k", ascii_bytes text)] |}.
Definition toy_reading : EnvelopeReading := {|
  MarshalIndent_Envelope := fun e => Ok (bytes_text (Payload e));
  Unmarshal_Envelope := fun s =>
    let text := trim_suffix s (String nl "") in
    if String.eqb text "" then Err json_syntax_error else Ok (toy_envelope text);
  Envelope_Statement := fun e => Ok {| StType := "st"; StSubject := [];
    PredicateType := if has_prefix (bytes_text (Payload e)) "{" then OutcomeRecordPredicateType else "clc";
    Predicate := "" |};
  Envelope_Check := fun _ => None;
  Envelope_DecisionRecord := fun e => Ok ([], bytes_text (Payload e));
  Record_Verify := fun _ => None; RecReason := fun _ => ""; RecUnresolved := fun _ => [];
  PredicateTypeCLCDecision := "clc"; ErrEnvelopeSignature := ErrNew "semantics.ErrEnvelopeSignature";
  PAE := fun _ p => p; dec_Digest := fun d _ => Ok d |}.
  #[local] Existing Instance toy_reading.

Definition outcome_text (digest : string) : string :=
  dq ("{'_type':'st','predicateType':'https://varwof.com/aic/v1/outcome-record','predicate':{'ver':'AIC-OUTCOME-RECORD-v1','outcome':'observed','at':'2026-01-02T03:04:05Z','statusCode':200,'decisionDigest':'"
      +:+ digest +:+ "'}}").
Definition toy_verify : VerifyFn := fun _ pae sig => if bool_decide (pae = sig) then None else Some (ErrNew "bad").

(** A directory with a decision, an outcome that follows it, one that follows
    none, and a file that is no record. *)
Definition toy_dir : FS := list_to_map [
  ("/ev", NDir); ("/ev/6f70.json", NFile ("op" +:+ String nl "")); ("/ev/outcome-1.json", NFile (outcome_text "6f70"));
  ("/ev/outcome-2.json", NFile (outcome_text "ff")); ("/ev/notes.txt", NFile "x"); ("/ev/old.json", NDir)].
Definition clean_dir : FS := delete "/ev/outcome-2.json" toy_dir.
Definition counts (r : result EvidenceVerifyReport) : list Z :=
  match r with
  | Ok r => [Total r; RDecision r; RAdmission r; ROutcome r; OrphanOutcome r; zlen (Failures r)]
  | Err _ => []
  end.

Example directory_counts :
  counts (VerifyEvidenceDir toy_dir "/ev" (Some toy_verify)) = [3; 1; 0; 1; 1; 1] /\
  counts (VerifyEvidenceDir clean_dir "/ev/" (Some toy_verify)) = [2; 1; 0; 1; 0; 0] /\
  counts (VerifyEvidenceDir clean_dir "/ev" (Some (fun _ _ _ => Some (ErrNew "no")))) = [0; 0; 0; 0; 0; 2].
Proof. vm_compute. done. Qed.

Definition clean_report : EvidenceVerifyReport := {|
  Total := 2; RDecision := 1; RAdmission := 0; ROutcome := 1; OrphanOutcome := 0; Failures := [] |}.

Lemma evidence_dir_clean_iff_witness :
  Forall (verified clean_dir "/ev" (Some toy_verify) [("6f70.json", false); ("notes.txt", false); ("old.json", true);
            ("outcome-1.json", false)]) [("6f70.json", false); ("outcome-1.json", false)].
Proof.
  refine (proj1 (proj1 (evidence_dir_clean_iff clean_dir "/ev" (Some toy_verify)
    [("6f70.json", false); ("notes.txt", false); ("old.json", true); ("outcome-1.json", false)] clean_report _ _)) _);
  vm_compute; reflexivity.
Defined.

Definition toy_record : DecisionRecord := ([], "op").
Definition toy_sink : FileSink := {| FDir := "/ev/"; FRecorderID := "gw-1" |}.
Definition no_faults : io_faults := {| io_mkdir := None; io_write := None |}.

Definition kept_ref : RecordRef := {| RefDigest := "6f70"; RefVerdict := "allow"; RefPath := "/ev/gw-1-6f70.json" |}.
Definition kept_files : FS := (FileSink_Emit toy_sink no_faults ∅ toy_record (toy_envelope "op")).2.

Lemma kept_record_resolves_witness : exists rec',
  resolveRecordByDigest kept_files (FDir toy_sink) (RefDigest kept_ref) = Ok rec' /\
  hex_encode (Value (InputDigest rec')) = RefDigest kept_ref.
Proof.
  destruct (kept_record_resolves toy_sink no_faults ∅ kept_files toy_record (toy_envelope "op") kept_ref eq_refl)
    as (_ & _ & _ & (rec' & H1 & H2 & _) & _).
  - intros body [= <-]. vm_compute. reflexivity.
  - reflexivity.
  - vm_compute. reflexivity.
  - reflexivity.
  - vm_compute. reflexivity.
  - exists rec'. split; [exact H1|exact H2].
Defined.
End Witnesses.
