(* ===== verification/Bundle.v ===== *)
(** The evidence bundle ([src/evidence.go]): reading the audit lines and the
    supervision events of a query, the sections derived from them, the decision
    record that is the bundle's authority, its canonical bytes and signatures.

    The bundle's identifier and the clock are inputs of an export; a Go map is
    ranged over in an order that is an input too. *)
From Stdlib Require Import Ascii.
From S2P Require Import Prelude GoStrings GoTime GoJson GoJsonOut GoClock GoHttp GoFiles Types Sha256 Merkle Constraints AdmissionTypes Clc Credential Admission Evidence AuditLog AuditQueue JsonLines AuditWrite Supervision Records EvidenceFiles.
Local Open Scope string_scope.
Local Open Scope Z_scope.
Local Open Scope list_scope.

(** * Definitions *)

(** [src/evidence.go:EvidenceManifest] *)
Record EvidenceManifest := {
  MSchema : string; MVersion : string; MBundleID : string; MExportedAt : Time; MGenerator : string;
  MHashAlg : string; MPolicyRef : string
}.
(** [src/evidence.go:EvidenceOperation] *)
Record EvidenceOperation := {
  BOperationID : string; BStartedAt : string; BFinishedAt : string; BResource : string; BAction : string;
  BRequestedParams : string; BOutcome : string
}.
(** [src/evidence.go:EvidenceSubject] *)
Record EvidenceSubject := {
  BAgentID : string; BKeyBinding : string; BTransportIdentity : string; BPresentedCredentialRef : string
}.
(** [src/evidence.go:EvidenceGrantRef] *)
Record EvidenceGrantRef := { GRef : string; GDigest : string }.
(** [src/evidence.go:EvidenceCapability] *)
Record EvidenceCapability := { BScheme : string; BCapabilityID : string; BParameters : string }.
(** [src/evidence.go:EvidenceAuthorization] *)
Record EvidenceAuthorization := {
  BDelegationMode : string; BPrincipal : string; BGrantRef : option EvidenceGrantRef;
  BCapabilities : list EvidenceCapability; BConstraints : string; BCeiling : string; BValidFrom : string;
  BExpiresAt : string
}.
(** [src/evidence.go:EvidenceDecision] *)
Record EvidenceDecision `{EvidenceSemantics} := {
  DDecision : string; DRecordDigest : string; DRecord : option DecisionRecord; DMatchedPolicy : string;
  DReasonCodes : list string; DEvaluatedCapabilities : list string; DPdpContext : string
}.
(** [src/evidence.go:EvidenceSupervisionEvent] *)
Record EvidenceSupervisionEvent := {
  EvType : string; EvOccurredAt : string; EvActor : string; EvDecisionRef : string; EvEvidenceRef : string
}.
(** [src/evidence.go:EvidenceAuditEntry] *)
Record EvidenceAuditEntry := {
  AuSeq : Z; AuAction : string; AuActor : string; AuTs : string; AuEntryHash : string; AuPrevHash : string
}.
(** [src/evidence.go:EvidenceAuditChain] *)
Record EvidenceAuditChain := {
  ChEntries : list EvidenceAuditEntry; ChMerkleRoot : string; ChAnchor : string; ChTSA : string
}.
(** [src/evidence.go:EvidenceBundle] a signature is the raw text of its JSON. *)
Record EvidenceBundle `{EvidenceSemantics} := {
  BManifest : EvidenceManifest; BOperation : EvidenceOperation; BSubject : EvidenceSubject;
  BAuthorization : EvidenceAuthorization; BDecision : EvidenceDecision;
  BSupervision : list EvidenceSupervisionEvent; BAuditChain : EvidenceAuditChain;
  BSignatures : gmap string string
}.

(** [src/evidence.go:203-209 evidenceSchema] and the constants after it. *)
Definition evidenceSchema := "varwof/aic-evidence-bundle".
Definition evidenceVersion := "0.1".
Definition evidenceHashAlg := "SHA-256".
Definition evidenceAnchor := "self".
Definition evidenceSHA256Pf := "sha256:".
(** [src/evidence.go:BundlePayloadType] *)
Definition BundlePayloadType := "application/vnd.varwof.aic-evidence-bundle.v0.1+json".
(** [src/version.go:Version] *)
Definition Version := "0.3.0-rc2".

(** [src/supervision.go:EvidenceQuery] *)
Record EvidenceQuery `{EvidenceSemantics} := {
  QOperationID : string; QDaHash : string; QAgentID : string; QTimeRange : option TimeRange;
  QIncludeSupervision : bool; QRecord : option DecisionRecord
}.

(** [src/evidence.go:FileEvidenceExporter] *)
Record FileEvidenceExporter := {
  XAuditFile : string; XSupervisionFile : string; XEvidenceDir : string; XGenerator : string;
  XSigner : option RecordSigner
}.

(** [src/evidence.go:auditChainLine] *)
Record auditChainLine := { cl_signed : SignedAuditEntry; cl_raw : string }.

(** What an export reads besides the files: the clock and a fresh identifier. *)
Record export_env := { xe_now : Time; xe_operation_id : string }.

Section Bundle.
  Context {ES : EvidenceSemantics} {ER : EnvelopeReading} {SF : SupervisionFormat} {HF : HashFunction}.
  Context (enc_record : DecisionRecord -> result json).

(** ** The decision section *)

(** [src/evidence.go:canonicalReasonCode] *)
Definition canonicalReasonCode (s : string) : string :=
  match split_byte ":" s with w :: _ => w | [] => s end.

(** [src/evidence.go:EvidenceDecision.ApplyRecord] *)
Definition ApplyRecord (d : EvidenceDecision) (rec : option DecisionRecord) : result EvidenceDecision :=
  match rec with
  | None => Ok d
  | Some rec =>
      match Record_Verify rec with
      | Some err => Err (Errorf "evidence_decision: record does not reproduce: %w" [AWrap err])
      | None => Ok {| DRecord := Some rec; DRecordDigest := hex_encode (Value (InputDigest rec));
          DDecision := RecVerdict rec;
          DReasonCodes := (if String.eqb (RecReason rec) "" then [] else [canonicalReasonCode (RecReason rec)])
                          ++ map (fun u => "unresolved:" +:+ u) (RecUnresolved rec);
          DMatchedPolicy := DMatchedPolicy d; DEvaluatedCapabilities := DEvaluatedCapabilities d;
          DPdpContext := DPdpContext d |}
      end
  end.

(** [src/evidence.go:EvidenceBundle.CheckDecisions] *)
Definition CheckDecisions (b : option EvidenceBundle) : option error :=
  match b with
  | None => Some (Errorf "evidence_bundle: nil" [])
  | Some b =>
      match DRecord (BDecision b) with
      | None => None
      | Some rec =>
          match Record_Verify rec with
          | Some err => Some (Errorf "evidence_bundle: %w" [AWrap err])
          | None =>
              let want := hex_encode (Value (InputDigest rec)) in
              if negb (String.eqb (DRecordDigest (BDecision b)) want) then
                Some (Errorf "evidence_bundle: record digest %q does not match the record (%s)"
                        [AStr (DRecordDigest (BDecision b)); AStr want])
              else if negb (String.eqb (DDecision (BDecision b)) (RecVerdict rec)) then
                Some (Errorf "evidence_bundle: decision %q contradicts the record verdict %q"
                        [AStr (DDecision (BDecision b)); AStr (RecVerdict rec)])
              else None
          end
      end
  end.

(** ** Reading the files *)

(** [src/evidence.go:matchesAuditQuery] *)
Definition matchesAuditQuery (e : AuditEntry string) (q : EvidenceQuery) : bool :=
  if negb (String.eqb (QOperationID q) "") && negb (String.eqb (AETraceId e) (QOperationID q))
     && negb (String.eqb (AETargetID e) (QOperationID q)) then false
  else if negb (String.eqb (QDaHash q) "") && negb (String.eqb (AEDaHash e) (QDaHash q)) then false
  else if negb (String.eqb (QAgentID q) "") && negb (String.eqb (AEAgentId e) (QAgentID q))
     && negb (String.eqb (AEClientCN e) (QAgentID q)) then false
  else match QTimeRange q with
  | None => true
  | Some r =>
      match parse_rfc3339 (AETime e) with
      | None => false
      | Some t =>
          if negb (IsZero (TRStart r)) && Before t (TRStart r) then false
          else negb (negb (IsZero (TREnd r)) && After t (TREnd r))
      end
  end.

(** [os.Open] and reading the whole file. *)
Definition open_read (fs : FS) (file : string) : result string :=
  if String.eqb file "" then Err ErrNotExist else fs_ReadFile fs (path_Clean file).

(** [src/evidence.go:661-673 readAuditChainLines] what a line contributes. *)
Definition chain_line (q : EvidenceQuery) (line : string) : option auditChainLine :=
  match unmarshal dec_signed line with
  | Err _ => None
  | Ok signed => if matchesAuditQuery (SEntry signed) q then Some {| cl_signed := signed; cl_raw := line |} else None
  end.

(** [src/evidence.go:readAuditChainLines] *)
Definition readAuditChainLines (fs : FS) (file : string) (q : EvidenceQuery) : result (list auditChainLine) :=
  match open_read fs file with
  | Err err => Err err
  | Ok text =>
      match scan_select (chain_line q) 0 0 [] (lines text) with
      | (_, Some err) => Err err
      | (out, None) => Ok out
      end
  end.

(** [src/evidence.go:723-749 readSupervisionLines] what a line contributes. *)
Definition supervision_line (q : EvidenceQuery) (line : string) : option EvidenceSupervisionEvent :=
  match unmarshal dec_signed_event line with
  | Err _ => None
  | Ok signed =>
      let ev := SignedEvent signed in
      if matchesSupervisionQuery ev {| SQOperationID := QOperationID q; SQDaHash := QDaHash q;
           SQAgentID := QAgentID q; SQType := ""; SQTimeRange := QTimeRange q; SQLimit := 0 |}
      then Some {|
        EvType := let ty := if String.eqb (SEType ev) SupervisionStepUp then "stepUp" else SEType ev in
                  if String.eqb ty SupervisionBreakGlass then "breakGlass" else ty;
        EvOccurredAt := format_rfc3339 (SETs ev); EvActor := SEActorName ev;
        EvDecisionRef := SEOperationID ev; EvEvidenceRef := SEEvidenceRef ev |}
      else None
  end.

(** [src/evidence.go:readSupervisionLines] *)
Definition readSupervisionLines (fs : FS) (file : string) (q : EvidenceQuery)
  : result (list EvidenceSupervisionEvent) :=
  match (if String.eqb file "" then None else fs !! path_Clean file) with
  | None => Ok []
  | Some _ =>
      match open_read fs file with
      | Err err => Err err
      | Ok text =>
          match scan_select (supervision_line q) 0 0 [] (lines text) with
          | (_, Some err) => Err err
          | (out, None) => Ok out
          end
      end
  end.

(** ** The sections derived from the audit lines *)

(** [src/evidence.go:entTime] *)
Definition entTime (e : AuditEntry string) : Time := default zero_time (parse_rfc3339 (AETime e)).
(** [src/evidence.go:startEndString] *)
Definition startEndString (t : Time) : string := if IsZero t then "" else format_rfc3339 t.
(** [src/evidence.go:auditActor] *)
Definition auditActor (e : AuditEntry string) : string :=
  if negb (String.eqb (AEClientCN e) "") then AEClientCN e
  else if negb (String.eqb (AEPrincipalUid e) "") then AEPrincipalUid e
  else if negb (String.eqb (AEAgentId e) "") then AEAgentId e else "".
(** [src/evidence.go:digestOf] *)
Definition digestOf (hexDigest : string) : string :=
  if String.eqb hexDigest "" then "" else evidenceSHA256Pf +:+ hexDigest.
(** [src/evidence.go:delegationModeString] *)
Definition delegationModeString (mode : Z) : string :=
  if mode =? DelegationRepresentative then "representative" else if mode =? 0 then "authorized" else "".
(** [src/evidence.go:outcomeOf] *)
Definition outcomeOf (e : AuditEntry string) : string :=
  if negb (String.eqb (AEDenyReason e) "") || String.eqb (AEAction e) ActionDenied then "deny" else "permit".

(** [src/evidence.go:526-527 fillFromAudit] the hash of a line. *)
Definition entry_hash (cl : auditChainLine) : string := evidenceSHA256Pf +:+ hex_encode (Sum256 (ascii_bytes (cl_raw cl))).

(** [src/evidence.go:517-537 fillFromAudit] the loop over the lines, from number
    [i], after a line with hash [prevHash]. *)
Fixpoint chain_entries (i : Z) (prevHash : string) (entries : list auditChainLine) : list EvidenceAuditEntry :=
  match entries with
  | [] => []
  | cl :: entries' =>
      let ent := SEntry (cl_signed cl) in
      {| AuSeq := i + 1; AuAction := AEAction ent; AuActor := auditActor ent; AuTs := AETime ent;
         AuEntryHash := entry_hash cl; AuPrevHash := prevHash |} :: chain_entries (i + 1) (entry_hash cl) entries'
  end.

(** [src/evidence.go:540-593 fillFromAudit] the sections for the first and the
    last line. *)
Definition operation_of (q : EvidenceQuery) (first last : AuditEntry string) : EvidenceOperation := {|
  BOperationID := if negb (String.eqb (QOperationID q) "") then QOperationID q
                  else if String.eqb (AETraceId first) "" then AETargetID first else AETraceId first;
  BStartedAt := startEndString (entTime first); BFinishedAt := startEndString (entTime last);
  BResource := AETarget first; BAction := AEAction first; BRequestedParams := ""; BOutcome := outcomeOf last |}.
Definition subject_of (q : EvidenceQuery) (first : AuditEntry string) : EvidenceSubject := {|
  BAgentID := if negb (String.eqb (QAgentID q) "") then QAgentID q
              else if String.eqb (AEAgentId first) "" then AEClientCN first else AEAgentId first;
  BKeyBinding := digestOf (AEAICFingerprint first); BTransportIdentity := digestOf (AEClientSerial first);
  BPresentedCredentialRef := AEMapping first |}.
Definition authorization_of (first : AuditEntry string) : EvidenceAuthorization := {|
  BDelegationMode := delegationModeString (AEDelegationMode first); BPrincipal := AEPrincipalUid first;
  BGrantRef := if String.eqb (AEDaHash first) "" then None
               else Some {| GRef := "da-jwt"; GDigest := evidenceSHA256Pf +:+ AEDaHash first |};
  BCapabilities := map (fun c => {| BScheme := ""; BCapabilityID := c; BParameters := "" |}) (AECapabilities first);
  BConstraints := join ";" (AERoles first); BCeiling := ""; BValidFrom := ""; BExpiresAt := "" |}.
Definition decision_of (first last : AuditEntry string) : EvidenceDecision := {|
  DDecision := outcomeOf last; DRecordDigest := AERecordDigest first; DRecord := None; DMatchedPolicy := "";
  DReasonCodes := if String.eqb (outcomeOf last) "deny" then
      if String.eqb (AEDenyReason first) "" then ["param-out-of-bound"] else [AEDenyReason first] else [];
  DEvaluatedCapabilities := AECapabilities first; DPdpContext := "" |}.

Definition empty_authorization : EvidenceAuthorization := {|
  BDelegationMode := ""; BPrincipal := ""; BGrantRef := None; BCapabilities := []; BConstraints := "";
  BCeiling := ""; BValidFrom := ""; BExpiresAt := "" |}.
Definition empty_decision : EvidenceDecision := {|
  DDecision := ""; DRecordDigest := ""; DRecord := None; DMatchedPolicy := ""; DReasonCodes := [];
  DEvaluatedCapabilities := []; DPdpContext := "" |}.

(** [src/evidence.go:595-602 fillFromAudit] the instants when no line gave one. *)
Definition complete_operation (q : EvidenceQuery) (now : Time) (op : EvidenceOperation) : EvidenceOperation :=
  if String.eqb (BStartedAt op) "" then
    let started := match QTimeRange q with
      | Some r => if IsZero (TRStart r) then startEndString now else startEndString (TRStart r)
      | None => startEndString now
      end in
    {| BOperationID := BOperationID op; BStartedAt := started; BFinishedAt := started; BResource := BResource op;
       BAction := BAction op; BRequestedParams := BRequestedParams op; BOutcome := BOutcome op |}
  else op.

(** [src/evidence.go:fillFromAudit] *)
Definition fillFromAudit (m : EvidenceManifest) (entries : list auditChainLine) (q : EvidenceQuery) (now : Time)
  : EvidenceBundle :=
  let ents := map (fun cl => SEntry (cl_signed cl)) entries in
  let '(op, sub, authz, dec) := match head ents, last ents with
    | Some first, Some last =>
        (operation_of q first last, subject_of q first, authorization_of first, decision_of first last)
    | _, _ =>
        ({| BOperationID := QOperationID q; BStartedAt := ""; BFinishedAt := ""; BResource := ""; BAction := "";
            BRequestedParams := ""; BOutcome := "permit" |},
         {| BAgentID := QAgentID q; BKeyBinding := ""; BTransportIdentity := ""; BPresentedCredentialRef := "" |},
         empty_authorization, empty_decision)
    end in
  {| BManifest := m; BOperation := complete_operation q now op; BSubject := sub; BAuthorization := authz;
     BDecision := dec; BSupervision := [];
     BAuditChain := {| ChEntries := chain_entries 0 "" entries; ChMerkleRoot := ""; ChAnchor := evidenceAnchor;
                       ChTSA := "" |};
     BSignatures := ∅ |}.

(** Replacing the parts that an export fills later. *)
Definition with_decision (b : EvidenceBundle) (d : EvidenceDecision) : EvidenceBundle := {|
  BManifest := BManifest b; BOperation := BOperation b; BSubject := BSubject b; BAuthorization := BAuthorization b;
  BDecision := d; BSupervision := BSupervision b; BAuditChain := BAuditChain b; BSignatures := BSignatures b |}.
Definition with_supervision (b : EvidenceBundle) (l : list EvidenceSupervisionEvent) : EvidenceBundle := {|
  BManifest := BManifest b; BOperation := BOperation b; BSubject := BSubject b; BAuthorization := BAuthorization b;
  BDecision := BDecision b; BSupervision := l; BAuditChain := BAuditChain b; BSignatures := BSignatures b |}.
Definition with_signatures (b : EvidenceBundle) (s : gmap string string) : EvidenceBundle := {|
  BManifest := BManifest b; BOperation := BOperation b; BSubject := BSubject b; BAuthorization := BAuthorization b;
  BDecision := BDecision b; BSupervision := BSupervision b; BAuditChain := BAuditChain b; BSignatures := s |}.

(** [src/evidence.go:309-320 Export] the root over the entry hashes. *)
Definition seal_chain (b : EvidenceBundle) : EvidenceBundle :=
  let ch := BAuditChain b in
  let digests := omap (fun e => match hex_decode (trim_prefix (AuEntryHash e) evidenceSHA256Pf) with
                                | Ok d => Some d | Err _ => None end) (ChEntries ch) in
  let root := RootHex (NewMerkleTree digests) in
  if zlen (ChEntries ch) =? 0 then b
  else {| BManifest := BManifest b; BOperation := BOperation b; BSubject := BSubject b;
          BAuthorization := BAuthorization b; BDecision := BDecision b; BSupervision := BSupervision b;
          BAuditChain := {| ChEntries := ChEntries ch;
            ChMerkleRoot := if String.eqb root "" then ChMerkleRoot ch else evidenceSHA256Pf +:+ root;
            ChAnchor := ChAnchor ch; ChTSA := ChTSA ch |};
          BSignatures := BSignatures b |}.

(** ** Canonical bytes *)

(** [src/evidence.go:canonicalize] and the order [json.Marshal] gives maps. *)
Fixpoint canonicalize (v : json) : json :=
  match v with
  | JArr l => JArr (map canonicalize l)
  | JObj ms => JObj (sort_members (map (fun '(k, x) => (k, canonicalize x)) ms))
  | _ => v
  end.

(** [src/evidence.go:CanonicalJSON] of a value whose JSON is [tree]. *)
Definition CanonicalJSON (tree : result json) : result string :=
  match tree with
  | Err err => Err err
  | Ok tree => match parse_json (json_encode tree) with
               | None => Err json_syntax_error
               | Some v => Ok (json_encode (canonicalize v))
               end
  end.

(** [time.Time.MarshalJSON] *)
Definition year_of (t : Time) : Z := let '(y, _, _) := civil_from_days (t / Second / 86400) in y.
Definition enc_time (t : Time) : result json :=
  if (0 <=? year_of t) && (year_of t <=? 9999) then Ok (JStr (format_rfc3339 t))
  else Err (ErrNew "Time.MarshalJSON: year outside of range [0,9999]").

(** The structs of the bundle as [json.Marshal] writes them. *)
Definition manifest_json (m : EvidenceManifest) : result json :=
  t ← enc_time (MExportedAt m);
  Ok (JObj ([("schema", JStr (MSchema m)); ("version", JStr (MVersion m)); ("bundleId", JStr (MBundleID m));
             ("exportedAt", t); ("generator", JStr (MGenerator m)); ("hashAlg", JStr (MHashAlg m))]
            ++ omit_str "policyRef" (MPolicyRef m))).
Definition operation_json (o : EvidenceOperation) : json :=
  JObj (omit_str "operationId" (BOperationID o) ++ omit_str "startedAt" (BStartedAt o) ++
        omit_str "finishedAt" (BFinishedAt o) ++ omit_str "resource" (BResource o) ++
        omit_str "action" (BAction o) ++ omit_str "requestedParams" (BRequestedParams o) ++
        omit_str "outcome" (BOutcome o)).
Definition subject_json (s : EvidenceSubject) : json :=
  JObj (omit_str "agentId" (BAgentID s) ++ omit_str "keyBinding" (BKeyBinding s) ++
        omit_str "transportIdentity" (BTransportIdentity s) ++
        omit_str "presentedCredentialRef" (BPresentedCredentialRef s)).
Definition capability_json (c : EvidenceCapability) : json :=
  JObj (omit_str "scheme" (BScheme c) ++ [("capabilityId", JStr (BCapabilityID c))] ++
        omit_str "parameters" (BParameters c)).
Definition authorization_json (a : EvidenceAuthorization) : json :=
  JObj (omit_str "delegationMode" (BDelegationMode a) ++ omit_str "principal" (BPrincipal a) ++
        match BGrantRef a with
        | None => []
        | Some g => [("grantRef", JObj [("ref", JStr (GRef g)); ("digest", JStr (GDigest g))])]
        end ++
        omit (zlen (BCapabilities a) =? 0) "capabilities" (JArr (map capability_json (BCapabilities a))) ++
        omit_str "constraints" (BConstraints a) ++ omit_str "ceiling" (BCeiling a) ++
        omit_str "validFrom" (BValidFrom a) ++ omit_str "expiresAt" (BExpiresAt a)).
Definition decision_json (d : EvidenceDecision) : result json :=
  r ← match DRecord d with None => Ok [] | Some rec => j ← enc_record rec; Ok [("record", j)] end;
  Ok (JObj (omit_str "decision" (DDecision d) ++ omit_str "recordDigest" (DRecordDigest d) ++ r ++
            omit_str "matchedPolicy" (DMatchedPolicy d) ++ omit_strs "reasonCodes" (DReasonCodes d) ++
            omit_strs "evaluatedCapabilities" (DEvaluatedCapabilities d) ++ omit_str "pdpContext" (DPdpContext d))).
Definition supervision_json (e : EvidenceSupervisionEvent) : json :=
  JObj ([("type", JStr (EvType e)); ("occurredAt", JStr (EvOccurredAt e)); ("actor", JStr (EvActor e))] ++
        omit_str "decisionRef" (EvDecisionRef e) ++ omit_str "evidenceRef" (EvEvidenceRef e)).
Definition chain_entry_json (e : EvidenceAuditEntry) : json :=
  JObj [("seq", JNum (int_lit (AuSeq e))); ("action", JStr (AuAction e)); ("actor", JStr (AuActor e));
        ("ts", JStr (AuTs e)); ("entryHash", JStr (AuEntryHash e)); ("prevHash", JStr (AuPrevHash e))].
Definition chain_json (c : EvidenceAuditChain) : json :=
  JObj (omit (zlen (ChEntries c) =? 0) "entries" (JArr (map chain_entry_json (ChEntries c))) ++
        omit_str "merkleRoot" (ChMerkleRoot c) ++ omit_str "anchor" (ChAnchor c) ++ omit_str "tsa" (ChTSA c)).

(** A raw message is embedded as the value it spells. *)
Definition signature_json (p : string * string) : result (string * json) :=
  match parse_json p.2 with Some v => Ok (p.1, v) | None => Err json_syntax_error end.
Definition signatures_json (s : gmap string string) : result json :=
  ms ← map_result signature_json (map_to_list s); Ok (JObj (sort_members ms)).

(** [src/evidence.go:EvidenceBundle] as [json.Marshal] writes it. *)
Definition bundle_json (b : EvidenceBundle) : result json :=
  m ← manifest_json (BManifest b); d ← decision_json (BDecision b); s ← signatures_json (BSignatures b);
  Ok (JObj [("manifest", m); ("operation", operation_json (BOperation b)); ("subject", subject_json (BSubject b));
            ("authorization", authorization_json (BAuthorization b)); ("decision", d);
            ("supervision", JArr (map supervision_json (BSupervision b)));
            ("auditChain", chain_json (BAuditChain b)); ("signatures", s)]).

Definition nil_bundle : error := Errorf "evidence_bundle: nil" [].

(** [src/evidence.go:EvidenceBundle.JSON] *)
Definition JSON (b : option EvidenceBundle) : result string :=
  match b with None => Err nil_bundle | Some b => CanonicalJSON (bundle_json b) end.

(** ** Signatures *)

(** [src/evidence.go:bundleSignature] and its JSON; bytes are base64 text, and are
    also read from an array of numbers. *)
Record bundleSignature := { SigKeyID : string; Sig : bytes }.
Definition bundle_signature_json (s : bundleSignature) : json :=
  JObj (omit_str "keyid" (SigKeyID s) ++ [("sig", JStr (EncodeBase64 (Sig s)))]).
Definition dec_byte (v : json) : result Byte.byte :=
  match v with
  | JNull => Ok Byte.x00
  | JNum lit => match digits_value 0 lit with
                | Some z => if z <? 256 then Ok (z_byte z) else Err json_type_error
                | None => Err json_type_error end
  | _ => Err json_type_error
  end.
Definition dec_bytes (v : json) : result bytes :=
  match v with
  | JNull => Ok []
  | JStr s => DecodeBase64 s
  | JArr l => map_result dec_byte l
  | _ => Err json_type_error
  end.
Definition dec_bundle_signature : json -> result bundleSignature := dec_struct (fun s k v =>
  if field_is "keyid" k then x ← dec_string (SigKeyID s) v; Ok {| SigKeyID := x; Sig := Sig s |}
  else if field_is "sig" k then x ← dec_bytes v; Ok {| SigKeyID := SigKeyID s; Sig := x |}
  else Ok s) {| SigKeyID := ""; Sig := [] |}.

(** [src/evidence.go:EvidenceBundle.SigningBytes] *)
Definition SigningBytes (b : option EvidenceBundle) : result string :=
  match b with None => Err nil_bundle | Some b => CanonicalJSON (bundle_json (with_signatures b ∅)) end.

(** [src/evidence.go:EvidenceBundle.Sign] *)
Definition Sign (b : option EvidenceBundle) (keyID : string) (sign : option (bytes -> result bytes))
  : result EvidenceBundle :=
  match b, sign with
  | None, _ => Err nil_bundle
  | Some _, None => Err (Errorf "evidence_bundle: nil signer" [])
  | Some b, Some f =>
      body ← SigningBytes (Some b);
      sig ← f (PAE BundlePayloadType (ascii_bytes body));
      Ok (with_signatures b (<[keyID := json_encode (bundle_signature_json {| SigKeyID := keyID; Sig := sig |})]>
            (BSignatures b)))
  end.

(** [src/evidence.go:427-449 VerifySignature] the loop over the signatures. *)
Fixpoint check_signatures (verify : VerifyFn) (pae : bytes) (sigs : list (string * string)) (firstErr : option error)
  : option error :=
  match sigs with
  | [] => firstErr
  | (_, raw) :: sigs' =>
      let keep e := match firstErr with None => Some e | Some _ => firstErr end in
      match unmarshal dec_bundle_signature raw with
      | Err err =>
          check_signatures verify pae sigs' (keep (Errorf "evidence_bundle: malformed signature: %w" [AWrap err]))
      | Ok s =>
          if zlen (Sig s) =? 0 then
            check_signatures verify pae sigs' (keep (Errorf "evidence_bundle: empty signature" []))
          else match verify (SigKeyID s) pae (Sig s) with
          | None => None
          | Some err => check_signatures verify pae sigs'
              (keep (Errorf "evidence_bundle: signature does not verify: %w" [AWrap err]))
          end
      end
  end.

(** [src/evidence.go:EvidenceBundle.VerifySignature] [order] is the order of the
    range. *)
Definition VerifySignature (order : list (string * string) -> list (string * string)) (b : option EvidenceBundle)
    (verify : option VerifyFn) : option error :=
  match b, verify with
  | None, _ => Some nil_bundle
  | Some _, None => Some (Errorf "evidence_bundle: nil verifier" [])
  | Some b, Some f =>
      if bool_decide (BSignatures b = ∅) then Some (Errorf "evidence_bundle: no signatures" [])
      else match SigningBytes (Some b) with
      | Err err => Some err
      | Ok body => check_signatures f (PAE BundlePayloadType (ascii_bytes body)) (order (map_to_list (BSignatures b))) None
      end
  end.

(** ** Exporting *)

(** [src/evidence.go:243-270 Export] the manifest. *)
Definition export_manifest (x : FileEvidenceExporter) (env : export_env) : EvidenceManifest := {|
  MSchema := evidenceSchema; MVersion := evidenceVersion; MBundleID := "evidence-" +:+ sdrop 3 (xe_operation_id env);
  MExportedAt := xe_now env;
  MGenerator := if String.eqb (XGenerator x) "" then "aic-verifier v" +:+ Version else XGenerator x;
  MHashAlg := evidenceHashAlg; MPolicyRef := "" |}.

(** [src/evidence.go:279-297 Export] the record of the decision section. *)
Definition anchor_record (x : FileEvidenceExporter) (fs : FS) (q : EvidenceQuery) (d : EvidenceDecision)
  : result EvidenceDecision :=
  d ← ApplyRecord d (QRecord q);
  if match QRecord q with None => true | Some _ => false end && negb (String.eqb (DRecordDigest d) "") then
    if String.eqb (XEvidenceDir x) "" then
      Err (Errorf "evidence_exporter: record %s pinned by audit (%s) but EvidenceDir is not set — cannot resolve it, refusing to export a report-only bundle"
             [AStr (DRecordDigest d); AStr (XAuditFile x)])
    else rec ← resolveRecordByDigest fs (XEvidenceDir x) (DRecordDigest d); ApplyRecord d (Some rec)
  else Ok d.

(** [src/evidence.go:Export] *)
Definition Export (x : FileEvidenceExporter) (env : export_env) (fs : FS) (q : EvidenceQuery) : result EvidenceBundle :=
  entries ← readAuditChainLines fs (XAuditFile x) q;
  let b := fillFromAudit (export_manifest x env) entries q (xe_now env) in
  d ← anchor_record x fs q (BDecision b);
  let b := with_decision b d in
  b ← (if QIncludeSupervision q then sup ← readSupervisionLines fs (XSupervisionFile x) q; Ok (with_supervision b sup)
       else Ok b);
  let b := seal_chain b in
  match XSigner x with
  | None => Ok b
  | Some s =>
      match Sign (Some b) (SignerKeyID s) (Some (SignerSign s)) with
      | Err err => Err (Errorf "evidence_exporter: sign bundle: %w" [AWrap err])
      | Ok b => Ok b
      end
  end.
End Bundle.

(** * Facts *)
Section BundleFacts.
  Context {ES : EvidenceSemantics} {ER : EnvelopeReading} {SF : SupervisionFormat} {HF : HashFunction}.
  Context (enc_record : DecisionRecord -> result json).

(** ** The decision section *)

Lemma ApplyRecord_Ok d rec d' : ApplyRecord d (Some rec) = Ok d' ->
  Record_Verify rec = None /\ DRecord d' = Some rec /\ DRecordDigest d' = hex_encode (Value (InputDigest rec)) /\
  DDecision d' = RecVerdict rec.
Proof. unfold ApplyRecord. destruct (Record_Verify rec); [done|]. by intros [= <-]. Qed.

(** The record the decision section is anchored in. *)
Definition anchored (x : FileEvidenceExporter) (fs : FS) (q : EvidenceQuery) (pin : string) (d : EvidenceDecision) : Prop :=
  match QRecord q with
  | Some rec => DRecord d = Some rec
  | None => if String.eqb pin "" then DRecord d = None
            else exists rec, resolveRecordByDigest fs (XEvidenceDir x) pin = Ok rec /\ DRecord d = Some rec /\
                   DRecordDigest d = pin
  end.
Definition verified_record (d : EvidenceDecision) : Prop :=
  forall rec, DRecord d = Some rec -> Record_Verify rec = None /\
    DRecordDigest d = hex_encode (Value (InputDigest rec)) /\ DDecision d = RecVerdict rec.

Lemma resolve_digest fs dir digest rec : resolveRecordByDigest fs dir digest = Ok rec ->
  hex_encode (Value (InputDigest rec)) = digest.
Proof.
  unfold resolveRecordByDigest. destruct (ReadDir fs dir) as [entries|]; [|done].
  destruct (find_record fs dir digest entries) as [rec'|] eqn:E; [|done]. intros [= <-].
  induction entries as [|[name isDir] entries IH]; [done|]. cbn in E. destruct (_ || _); [by apply IH|].
  destruct (LoadEvidenceRecord _ _) as [r|]; [|by apply IH].
  destruct (String.eqb_spec (hex_encode (Value (InputDigest r))) digest); [congruence|by apply IH].
Qed.

Lemma anchor_record_Ok x fs q d d' : DRecord d = None -> anchor_record x fs q d = Ok d' ->
  anchored x fs q (DRecordDigest d) d' /\ verified_record d'.
Proof.
  intros Hn. unfold anchor_record, anchored. intros (d1 & H1 & H2)%bind_Ok. destruct (QRecord q) as [rec|].
  - cbn in H2. injection H2 as <-. apply ApplyRecord_Ok in H1 as (Hv & Hr & Hd & Hc). split; [done|].
    intros rec' E. rewrite Hr in E. by injection E as <-.
  - injection H1 as <-. cbn [andb] in H2. destruct (String.eqb_spec (DRecordDigest d) ""); cbn [negb] in H2.
    + injection H2 as <-. split; [done|]. intros rec. by rewrite Hn.
    + destruct (String.eqb _ _); [done|]. apply bind_Ok in H2 as (rec & Hrec & H2).
      apply ApplyRecord_Ok in H2 as (Hv & Hr & Hd & Hc). split.
      * exists rec. split; [done|]. split; [done|]. rewrite Hd. by eapply resolve_digest.
      * intros rec' E. rewrite Hr in E. by injection E as <-.
Qed.

(** Without a record the section stays the audit lines' summary. *)
Lemma anchor_report x fs q d d' : anchor_record x fs q d = Ok d' -> DRecord d' = None -> d' = d.
Proof.
  unfold anchor_record. intros (d1 & H1 & H2)%bind_Ok Hn. destruct (QRecord q) as [rec|].
  - cbn in H2. injection H2 as <-. apply ApplyRecord_Ok in H1 as (_ & Hr & _). congruence.
  - injection H1 as <-. cbn [andb] in H2. destruct (negb _); [|by injection H2 as <-].
    destruct (String.eqb _ _); [done|]. apply bind_Ok in H2 as (rec & _ & H2).
    apply ApplyRecord_Ok in H2 as (_ & Hr & _). congruence.
Qed.

(** ** The stages of an export *)
Lemma Sign_Ok b k f b' : Sign enc_record (Some b) k (Some f) = Ok b' ->
  exists body sig, SigningBytes enc_record (Some b) = Ok body /\ f (PAE BundlePayloadType (ascii_bytes body)) = Ok sig /\
    b' = with_signatures b (<[k := json_encode (bundle_signature_json {| SigKeyID := k; Sig := sig |})]> (BSignatures b)).
Proof. unfold Sign. intros (body & Hb & (sig & Hs & [= <-])%bind_Ok)%bind_Ok. by exists body, sig. Qed.

Lemma seal_chain_parts b : BDecision (seal_chain b) = BDecision b /\
  ChEntries (BAuditChain (seal_chain b)) = ChEntries (BAuditChain b) /\ BSignatures (seal_chain b) = BSignatures b.
Proof. unfold seal_chain. by destruct (_ =? 0). Qed.
Lemma seal_chain_sections b : BDecision (seal_chain b) = BDecision b /\ BSubject (seal_chain b) = BSubject b /\
  BAuthorization (seal_chain b) = BAuthorization b /\ BOperation (seal_chain b) = BOperation b.
Proof. unfold seal_chain. by destruct (_ =? 0). Qed.

Lemma Export_Ok x env fs q b : Export enc_record x env fs q = Ok b -> exists entries d sup s,
  readAuditChainLines fs (XAuditFile x) q = Ok entries /\
  anchor_record x fs q (BDecision (fillFromAudit (export_manifest x env) entries q (xe_now env))) = Ok d /\
  b = with_signatures (seal_chain (with_supervision (with_decision
        (fillFromAudit (export_manifest x env) entries q (xe_now env)) d) sup)) s.
Proof.
  unfold Export. intros (entries & He & (d & Hd & (b1 & H1 & H2)%bind_Ok)%bind_Ok)%bind_Ok.
  set (b0 := with_decision _ _) in *.
  assert (exists sup, b1 = with_supervision b0 sup) as [sup ->].
  { destruct (QIncludeSupervision q); [|injection H1 as <-; exists (BSupervision b0); reflexivity].
    apply bind_Ok in H1 as (sup & _ & [= <-]). by exists sup. }
  exists entries, d, sup. destruct (XSigner x) as [sg|].
  - destruct (Sign _ _ _ _) as [b'|] eqn:Es; [|done]. injection H2 as <-. apply Sign_Ok in Es as (body & sig & _ & _ & ->).
    eexists. split; [done|]. split; [done|]. reflexivity.
  - injection H2 as <-. exists (BSignatures (seal_chain (with_supervision b0 sup))). split; [done|]. split; [done|].
    by destruct (seal_chain _).
Qed.

(** ** The audit chain *)
Lemma chain_entries_length i prev l : length (chain_entries i prev l) = length l.
Proof. revert i prev. induction l as [|cl l IH]; intros; [done|]. cbn. by rewrite IH. Qed.

Lemma chain_entries_lookup i prev l n cl : l !! n = Some cl -> exists e,
  chain_entries i prev l !! n = Some e /\ AuSeq e = i + Z.of_nat n + 1 /\ AuEntryHash e = entry_hash cl /\
  Some (AuPrevHash e) = (match n with O => Some prev | S m => entry_hash <$> (l !! m) end) /\
  AuAction e = AEAction (SEntry (cl_signed cl)) /\ AuTs e = AETime (SEntry (cl_signed cl)).
Proof.
  revert i prev n. induction l as [|cl' l IH]; intros i prev n H; [done|]. destruct n as [|n]; cbn in H.
  - injection H as ->. eexists. split; [reflexivity|]. cbn. repeat split; lia.
  - destruct (IH (i + 1) (entry_hash cl') n H) as (e & He & Hs & Hh & Hp & Ha).
    exists e. split; [exact He|]. split; [lia|]. split; [done|]. split; [|done]. rewrite Hp. by destruct n.
Qed.

Definition leaf_of (cl : auditChainLine) : bytes := Sum256 (ascii_bytes (cl_raw cl)).

Lemma chain_leaves i prev l :
  omap (fun e => match hex_decode (trim_prefix (AuEntryHash e) evidenceSHA256Pf) with Ok d => Some d | Err _ => None end)
    (chain_entries i prev l) = map leaf_of l.
Proof.
  revert i prev. induction l as [|cl l IH]; intros; [done|]. cbn [chain_entries omap list_omap AuEntryHash].
  unfold entry_hash at 1. rewrite trim_prefix_app, hex_decode_encode, IH. done.
Qed.

Lemma fill_chain m l q now : ChEntries (BAuditChain (fillFromAudit m l q now)) = chain_entries 0 "" l.
Proof. unfold fillFromAudit. by destruct (head (map (fun cl => SEntry (cl_signed cl)) l)), (last (map (fun cl => SEntry (cl_signed cl)) l)). Qed.

Lemma seal_root b l : ChEntries (BAuditChain b) = chain_entries 0 "" l -> l <> [] ->
  ChMerkleRoot (BAuditChain (seal_chain b)) = evidenceSHA256Pf +:+ hex_encode (Root (NewMerkleTree (map leaf_of l))).
Proof.
  intros He Hl. unfold seal_chain. rewrite He, chain_leaves.
  assert (zlen (chain_entries 0 "" l) <> 0) as Hz by (unfold zlen; rewrite chain_entries_length; destruct l; [done|cbn; lia]).
  rewrite (proj2 (Z.eqb_neq _ _) Hz). cbn [BAuditChain ChMerkleRoot].
  pose proof (root_length (map leaf_of l)) as Hr. rewrite RootHex_encode. destruct (Root _) as [|c r]; [|done].
  exfalso. specialize (Hr ltac:(by destruct l)). done.
Qed.

Lemma fill_decision m l q now : let d := BDecision (fillFromAudit m l q now) in
  DRecord d = None /\ DRecordDigest d = default "" (AERecordDigest ∘ SEntry ∘ cl_signed <$> head l).
Proof.
  destruct l as [|cl l]; [done|]. unfold fillFromAudit. cbn [map head fmap option_fmap option_map].
  destruct (last (SEntry (cl_signed cl) :: map (fun cl => SEntry (cl_signed cl)) l)) eqn:E; [done|].
  by apply last_None in E.
Qed.

Lemma fill_sections m l q now cf cl : head l = Some cf -> last l = Some cl ->
  let b := fillFromAudit m l q now in let f := SEntry (cl_signed cf) in let e := SEntry (cl_signed cl) in
  BSubject b = subject_of q f /\ BAuthorization b = authorization_of f /\ BOutcome (BOperation b) = outcomeOf e /\
  BDecision b = decision_of f e.
Proof.
  intros Hf Hl. unfold fillFromAudit.
  pose proof (fmap_last (fun cl => SEntry (cl_signed cl)) l) as El. rewrite Hl in El. cbn [fmap option_fmap option_map] in El.
  change (last (map (fun cl => SEntry (cl_signed cl)) l) = Some (SEntry (cl_signed cl))) in El. rewrite El. destruct l as [|c l]; [done|]. injection Hf as ->. cbn [map head].
  split; [done|]. split; [done|]. split; [|done].
  unfold complete_operation. cbn [fmap option_fmap option_map BOperation]. by destruct (String.eqb _ "").
Qed.

(** ** Signatures *)
Definition good_signature (verify : VerifyFn) (pae : bytes) (raw : string) : Prop :=
  exists s, unmarshal dec_bundle_signature raw = Ok s /\ Sig s <> [] /\ verify (SigKeyID s) pae (Sig s) = None.

Lemma check_signatures_None verify pae l first : first <> None \/ l <> [] ->
  check_signatures verify pae l first = None <-> Exists (fun p => good_signature verify pae p.2) l.
Proof.
  revert first. induction l as [|[k raw] l IH]; intros first Hf.
  - destruct Hf as [Hf|]; [|done]. cbn. rewrite Exists_nil. split; [done|tauto].
  - rewrite Exists_cons. unfold good_signature at 1. cbn [check_signatures snd].
    assert (forall e, match first with None => Some e | Some _ => first end <> None) as Hk by (by destruct first).
    destruct (unmarshal dec_bundle_signature raw) as [s|err].
    + destruct (Z.eqb_spec (zlen (Sig s)) 0) as [Hz|Hz].
      * rewrite IH by (left; apply Hk). split; [by right|]. intros [(s' & [= <-] & Hs & _)|]; [|done].
        destruct (Sig s); [done|]. unfold zlen in Hz. cbn in Hz. lia.
      * assert (Sig s <> []) as Hs by (intros E; by rewrite E in Hz).
        destruct (verify _ pae _) as [e|] eqn:Ev.
        -- rewrite IH by (left; apply Hk). split; [by right|]. intros [(s' & [= <-] & _ & ?)|]; [congruence|done].
        -- split; [|done]. intros _. left. by exists s.
    + rewrite IH by (left; apply Hk). split; [by right|]. intros [(s' & ? & _)|]; done.
Qed.

Lemma signed_reads_back k sig : utf8_text k = true ->
  unmarshal dec_bundle_signature (json_encode (bundle_signature_json {| SigKeyID := k; Sig := sig |}))
  = Ok {| SigKeyID := k; Sig := sig |}.
Proof.
  intros Hk. unfold unmarshal. rewrite json_round_trip.
  - unfold bundle_signature_json, dec_bundle_signature, dec_struct. cbn [SigKeyID Sig].
    unfold omit_str, omit. destruct (String.eqb_spec k "") as [->|]; cbn; by rewrite base64_round_trip.
  - unfold bundle_signature_json. cbn [SigKeyID Sig]. apply omit_clean; [reflexivity|done|].
    apply member_clean; [reflexivity|apply EncodeBase64_text|reflexivity].
  - transitivity 1%nat; [|by apply max_depth_ge]. apply (depth_obj 0). apply omit_depth; [cbn; lia|].
    repeat constructor.
Qed.

(** * Properties *)

(** C24: what each section of a bundle that an export returns says, and from
    where.  Subject and authorization are those of the first audit line of the
    query, the operation's outcome is that of the last.  The decision section
    carries the record of the query, or, when the first line pins a digest, the
    decision record of that digest found in the evidence directory (an export
    whose pin resolves to nothing fails rather than degrade to a report);
    otherwise no record, and the bundle is a report whose decision is the
    summary of the first and the last line.  A record carried reproduces, digest
    and verdict are the record's, and the section passes [CheckDecisions].
    Nothing makes the operation's outcome agree with the record's verdict, or
    other lines with the first ([outcome_against_record] is an export that
    says deny and allow). *)
Theorem exported_bundle_consistent x env fs q b (H : Export enc_record x env fs q = Ok b) :
  exists entries, readAuditChainLines fs (XAuditFile x) q = Ok entries /\
  (forall cf cl, head entries = Some cf -> last entries = Some cl ->
     let f := SEntry (cl_signed cf) in let l := SEntry (cl_signed cl) in
     BSubject b = subject_of q f /\ BAuthorization b = authorization_of f /\
     BOutcome (BOperation b) = outcomeOf l /\
     (DRecord (BDecision b) = None -> BDecision b = decision_of f l)) /\
  anchored x fs q (default "" (AERecordDigest ∘ SEntry ∘ cl_signed <$> head entries)) (BDecision b) /\
  verified_record (BDecision b) /\ CheckDecisions (Some b) = None.
Proof.
  apply Export_Ok in H as (entries & d & sup & s & Hr & Ha & Hb). exists entries. split; [done|].
  set (b0 := fillFromAudit (export_manifest x env) entries q (xe_now env)) in *.
  destruct (seal_chain_sections (with_supervision (with_decision b0 d) sup)) as (Hd & Hsub & Hau & Hop).
  subst b. cbn [with_signatures BDecision BSubject BAuthorization BOperation]. rewrite Hd, Hsub, Hau, Hop.
  cbn [with_supervision with_decision BDecision BSubject BAuthorization BOperation].
  destruct (fill_decision (export_manifest x env) entries q (xe_now env)) as [Hn Hp]. fold b0 in Hn, Hp.
  pose proof (anchor_report x fs q (BDecision b0) d Ha) as Hrep.
  apply anchor_record_Ok in Ha as [Ha Hv]; [|done]. rewrite Hp in Ha. split; [|split; [done|split; [done|]]].
  - intros cf cl Hf Hl. destruct (fill_sections (export_manifest x env) entries q (xe_now env) cf cl Hf Hl) as (H1 & H2 & H3 & H4).
    split; [done|]. split; [done|]. split; [done|]. intros Hnone. rewrite (Hrep Hnone). exact H4.
  - unfold CheckDecisions. cbn [with_signatures BDecision]. rewrite Hd. cbn [with_supervision with_decision BDecision].
    destruct (DRecord d) as [rec|] eqn:Er; [|done]. destruct (Hv rec Er) as (Hrv & Hrd & Hrc).
    by rewrite Hrv, Hrd, Hrc, !String.eqb_refl.
Qed.

(** The chain of an exported bundle seals the audit lines of the query: it
    has one entry per line, in order, numbered from one, with the hash of the
    line as it stands in the file and the hash of the line before; and every
    line has an audit path that [VerifyProof] accepts against the bundle's
    Merkle root. *)
Theorem exported_chain_seals_lines x env fs q b (H : Export enc_record x env fs q = Ok b) :
  exists entries, readAuditChainLines fs (XAuditFile x) q = Ok entries /\
  length (ChEntries (BAuditChain b)) = length entries /\
  forall i cl, entries !! i = Some cl -> exists e p rt,
    ChEntries (BAuditChain b) !! i = Some e /\ AuSeq e = Z.of_nat i + 1 /\
    AuEntryHash e = evidenceSHA256Pf +:+ hex_encode (leaf_of cl) /\
    Some (AuPrevHash e) = (match i with O => Some "" | S j => AuEntryHash <$> (ChEntries (BAuditChain b) !! j) end) /\
    AuAction e = AEAction (SEntry (cl_signed cl)) /\ AuTs e = AETime (SEntry (cl_signed cl)) /\
    ChMerkleRoot (BAuditChain b) = evidenceSHA256Pf +:+ hex_encode rt /\
    MerkleTree_Proof (NewMerkleTree (map leaf_of entries)) (Z.of_nat i) = Ok p /\
    VerifyProof (leaf_of cl) p rt = true.
Proof.
  apply Export_Ok in H as (entries & d & sup & s & Hr & Ha & ->). exists entries. split; [done|].
  set (b0 := with_supervision _ sup).
  assert (ChEntries (BAuditChain b0) = chain_entries 0 "" entries) as Hc by apply fill_chain.
  cbn [with_signatures BAuditChain]. rewrite (proj1 (proj2 (seal_chain_parts b0))), Hc, chain_entries_length.
  split; [done|]. intros i cl Hi.
  destruct (chain_entries_lookup 0 "" entries i cl Hi) as (e & He & Hs & Hh & Hp & Hact & Hts).
  destruct (proof_accepted (map leaf_of entries) i (leaf_of cl)) as (p & Hproof & _ & Hv).
  { by rewrite list_lookup_fmap, Hi. }
  unfold VerifyProofBounded in Hv. cases_in Hv. exists e, p, (Root (NewMerkleTree (map leaf_of entries))).
  split; [done|]. split; [lia|]. split; [done|]. split.
  - rewrite Hp. destruct i as [|j]; [done|].
    destruct (lookup_lt_is_Some_2 entries j) as [cl' Hj]; [apply lookup_lt_Some in Hi; lia|].
    destruct (chain_entries_lookup 0 "" entries j cl' Hj) as (e' & He' & _ & Hh' & _).
    cbn. by rewrite Hj, He'; cbn; rewrite Hh'.
  - split; [done|]. split; [done|]. split; [|done]. apply seal_root; [done|]. by intros ->.
Qed.

(** [VerifySignature] accepts a bundle exactly when its canonical bytes
    without signatures exist and some signature it carries can be read, is not
    empty and verifies over their pre-authentication encoding: the order in
    which the map is ranged over does not matter, and a signature over other
    bytes is worth nothing. *)
Theorem bundle_signature_accepted_iff order b verify (Hp : forall l, order l ≡ₚ l) :
  VerifySignature enc_record order (Some b) (Some verify) = None <->
  exists body k raw, SigningBytes enc_record (Some b) = Ok body /\ BSignatures b !! k = Some raw /\
    good_signature verify (PAE BundlePayloadType (ascii_bytes body)) raw.
Proof.
  unfold VerifySignature. case_bool_decide as He.
  { split; [done|]. intros (body & k & raw & _ & Hk & _). by rewrite He, lookup_empty in Hk. }
  destruct (SigningBytes enc_record (Some b)) as [body|err] eqn:Eb.
  2:{ split; [done|]. by intros (body & k & raw & ? & _). }
  rewrite check_signatures_None.
  2:{ right. intros E. apply He. apply map_to_list_empty_iff, Permutation_nil. by rewrite <- E, Hp. }
  rewrite Exists_exists. split.
  - intros ([k raw] & Hin & Hg). exists body, k, raw. split; [done|]. split; [|done].
    apply elem_of_map_to_list. by rewrite <- Hp.
  - intros (body' & k & raw & [= <-] & Hk & Hg). exists (k, raw). split; [|done].
    rewrite Hp. by apply elem_of_map_to_list.
Qed.

(** C26: a bundle signed under a name of valid UTF-8 is accepted by a verifier that accepts the
    signature, whatever other signatures it carries and in whatever order they
    are tried; signing changes nothing else: the signing bytes are those from
    before, and signing again under the name replaces the signature. *)
Theorem signed_bundle_verifies order b k f b' verify (Hp : forall l, order l ≡ₚ l) (Hk : utf8_text k = true)
    (Hs : Bundle.Sign enc_record (Some b) k (Some f) = Ok b')
    (Hv : forall pae sig, f pae = Ok sig -> sig <> [] /\ verify k pae sig = None) :
  VerifySignature enc_record order (Some b') (Some verify) = None /\
  SigningBytes enc_record (Some b') = SigningBytes enc_record (Some b) /\
  forall k', k' <> k -> BSignatures b' !! k' = BSignatures b !! k'.
Proof.
  apply Sign_Ok in Hs as (body & sig & Hb & Hf & ->).
  assert (SigningBytes enc_record (Some (with_signatures b (<[k := json_encode (bundle_signature_json
    {| SigKeyID := k; Sig := sig |})]> (BSignatures b)))) = Ok body) as Hb' by exact Hb.
  split; [|split; [by rewrite Hb|]].
  - unfold VerifySignature. cbn [BSignatures with_signatures].
    rewrite bool_decide_eq_false_2 by apply insert_non_empty. rewrite Hb'. apply check_signatures_None.
    + right. intros E. apply (insert_non_empty (BSignatures b) k (json_encode (bundle_signature_json
        {| SigKeyID := k; Sig := sig |}))), map_to_list_empty_iff, Permutation_nil. by rewrite <- E, Hp.
    + apply Exists_exists. eexists (k, _). split; [rewrite Hp; by apply elem_of_map_to_list, lookup_insert_eq|].
      exists {| SigKeyID := k; Sig := sig |}. split; [by apply signed_reads_back|]. by apply Hv.
  - intros k' Hn. cbn. by rewrite lookup_insert_ne.
Qed.
End BundleFacts.

(** * Concrete instances

    The record of an operation is its name; the signature of a text is its hash
    under a one-byte key. *)
Section Witnesses.
  #[local] Existing Instance toy_evidence.
  #[local] Existing Instance toy_reading.
  #[local] Existing Instance toy_supervision.
  #[local] Existing Instance sha256.

Definition toy_enc (r : DecisionRecord) : result json := Ok (JObj [("op", JStr (snd r))]).
Definition toy_sig (pae : bytes) : bytes := take 4 (Sum256 (Byte.x2a :: pae)).
Definition toy_key (pae : bytes) : result bytes := Ok (toy_sig pae).
Definition toy_check : VerifyFn := fun _ pae sig =>
  if bool_decide (toy_sig pae = sig) then None else Some (ErrNew "mismatch").

(** The entry [e1] of the log, with the digest of the record of ["op"] pinned. *)
Definition pinned_entry : AuditEntry string := {|
  AETime := AETime e1; AEAction := AEAction e1; AESrcIP := AESrcIP e1; AEClientCN := AEClientCN e1;
  AEClientSerial := AEClientSerial e1; AERoles := AERoles e1; AEMapping := AEMapping e1; AETarget := AETarget e1;
  AETargetID := "op-1"; AEDuration := ""; AEDenyReason := ""; AEBytesIn := AEBytesIn e1; AEBytesOut := 0;
  AETraceId := ""; AESessionId := ""; AEGatewayId := ""; AEProtocol := ""; AEAgentId := ""; AESPIFFEID := "";
  AEPrincipalUid := "alice"; AEDelegationMode := 1; AEDecision := "allow"; AECapabilities := ["db:read"]; AELevel := "";
  AEDaHash := "aa"; AEAICFingerprint := ""; AEPolicyVersion := 3; AERecordDigest := "6f70" |}.
Definition toy_log : string :=
  audit_line None 0 pinned_entry +:+ String nl "" +:+ audit_line (Some toy_tsa) 1 e2 +:+ String nl "".
Definition toy_host : FS := list_to_map [
  ("/audit.jsonl", NFile toy_log); ("/ev", NDir); ("/ev/6f70.json", NFile ("op" +:+ String nl "")); ("/empty", NDir);
  ("/sup.jsonl", NFile (dq "{'event':{'op':'op-1','type':'break_glass','ts':5}}"))].
Definition toy_exporter (dir : string) : FileEvidenceExporter := {|
  XAuditFile := "/audit.jsonl"; XSupervisionFile := "/sup.jsonl"; XEvidenceDir := dir; XGenerator := "";
  XSigner := Some {| SignerKeyID := "k1"; SignerSign := toy_key |} |}.
Definition toy_clock : export_env := {| xe_now := 1704067300 * Second; xe_operation_id := "op-0a0b" |}.
Definition everything : EvidenceQuery := {|
  QOperationID := ""; QDaHash := ""; QAgentID := "bot"; QTimeRange := None; QIncludeSupervision := false; QRecord := None |}.
Definition nothing : EvidenceBundle :=
  fillFromAudit (export_manifest (toy_exporter "") toy_clock) [] everything 0.
Definition get_ok {A} (d : A) (r : result A) : A := match r with Ok x => x | Err _ => d end.
Definition exported : EvidenceBundle :=
  get_ok nothing (Export toy_enc (toy_exporter "/ev") toy_clock toy_host everything).

Lemma exported_ok : Export toy_enc (toy_exporter "/ev") toy_clock toy_host everything = Ok exported.
Proof.
  assert (forall r : result EvidenceBundle, is_ok r = true -> r = Ok (get_ok nothing r)) as H by (by intros []).
  apply H. vm_compute. reflexivity.
Defined.

(** A pinned record that is not in the directory, or no directory: no bundle. *)
Example export_gaps :
  is_ok (Export toy_enc (toy_exporter "/empty") toy_clock toy_host everything) = false /\
  is_ok (Export toy_enc (toy_exporter "") toy_clock toy_host everything) = false /\
  zlen (ChEntries (BAuditChain exported)) = 2 /\
  get_ok "" (JSON toy_enc (Some (with_signatures nothing ∅))) = dq
    ("{'auditChain':{'anchor':'self'},'authorization':{},'decision':{},'manifest':{'bundleId':'evidence-0a0b',"
     +:+ "'exportedAt':'2024-01-01T00:01:40Z','generator':'aic-verifier v0.3.0-rc2','hashAlg':'SHA-256',"
     +:+ "'schema':'varwof/aic-evidence-bundle','version':'0.1'},"
     +:+ "'operation':{'finishedAt':'1970-01-01T00:00:00Z','outcome':'permit','startedAt':'1970-01-01T00:00:00Z'},"
     +:+ "'signatures':{},'subject':{'agentId':'bot'},'supervision':[]}").
Proof. vm_compute. repeat split; reflexivity. Qed.

(** The last line's outcome beside the record of the first. *)
Example outcome_against_record :
  (BOutcome (BOperation exported), DDecision (BDecision exported), DRecordDigest (BDecision exported))
    = ("deny", "allow", "6f70").
Proof. vm_compute. reflexivity. Qed.

Lemma exported_bundle_consistent_witness :
  exists rec, DRecord (BDecision exported) = Some rec /\ DRecordDigest (BDecision exported) = "6f70" /\
    CheckDecisions (Some exported) = None.
Proof.
  destruct (exported_bundle_consistent toy_enc (toy_exporter "/ev") toy_clock toy_host everything exported exported_ok)
    as (entries & _ & _ & _ & _ & Hc).
  eexists. split; [vm_compute; reflexivity|]. split; [vm_compute; reflexivity|exact Hc].
Defined.

Lemma exported_chain_seals_lines_witness :
  exists entries, readAuditChainLines toy_host "/audit.jsonl" everything = Ok entries /\
    length (ChEntries (BAuditChain exported)) = length entries.
Proof.
  destruct (exported_chain_seals_lines toy_enc (toy_exporter "/ev") toy_clock toy_host everything exported exported_ok)
    as (entries & He & Hl & _).
  exists entries. split; [exact He|exact Hl].
Defined.

Lemma bundle_signature_accepted_iff_witness :
  exists body k raw, SigningBytes toy_enc (Some exported) = Ok body /\ BSignatures exported !! k = Some raw /\
    good_signature toy_check (PAE BundlePayloadType (ascii_bytes body)) raw.
Proof.
  apply (proj1 (bundle_signature_accepted_iff toy_enc (@rev _) exported toy_check (fun l => Permutation_sym (Permutation_rev l)))).
  vm_compute. reflexivity.
Defined.

Definition signed_again : EvidenceBundle := get_ok nothing (Bundle.Sign toy_enc (Some exported) "k0" (Some toy_key)).
Lemma signed_bundle_verifies_witness : VerifySignature toy_enc (@rev _) (Some signed_again) (Some toy_check) = None.
Proof.
  refine (proj1 (signed_bundle_verifies toy_enc (@rev _) exported "k0" toy_key signed_again toy_check
    (fun l => Permutation_sym (Permutation_rev l)) eq_refl _ _)).
  - assert (forall r : result EvidenceBundle, is_ok r = true -> r = Ok (get_ok nothing r)) as H by (by intros []).
    apply H. vm_compute. reflexivity.
  - intros pae sig Hs. split.
    + injection Hs as <-. unfold toy_sig. intros E. apply (f_equal length) in E. rewrite length_take, Sum256_length in E. discriminate E.
    + injection Hs as <-. unfold toy_check. by rewrite bool_decide_eq_true_2.
Defined.
End Witnesses.
