(* ===== verification/Render.v ===== *)
(** The readable renderings of an evidence bundle ([src/evidence_render.go]):
    the rows that the three formats share, the CSV table as [encoding/csv]
    writes it, the plain text and the Markdown tables.

    An [io.Writer] is its answer to each write; a write that fails leaves
    nothing. *)
From Stdlib Require Import Ascii.
From S2P Require Import Prelude GoStrings GoTime GoJson GoJsonOut GoClock GoFiles Types Sha256 Clc Credential Evidence AuditLog JsonLines AuditWrite Supervision EvidenceFiles Bundle.
Local Open Scope string_scope.
Local Open Scope Z_scope.
Local Open Scope list_scope.

(** * Definitions *)

(** [src/evidence_render.go:bundleRow] *)
Record bundleRow := { section : string; field : string; value : string }.

(** [src/evidence_render.go:82-87 bundleRows] an empty value adds no row. *)
Definition add_row (sec fld v : string) : list bundleRow :=
  if String.eqb v "" then [] else [{| section := sec; field := fld; value := v |}].

(** [time.Format] of ["2006-01-02T15:04:05Z"]: whole seconds. *)
Definition format_seconds (t : Time) : string := format_rfc3339 (t / Second * Second).

(** The [i]-th element with its number, from one. *)
Fixpoint numbered {A} (i : Z) (l : list A) : list (Z * A) :=
  match l with [] => [] | x :: l' => (i, x) :: numbered (i + 1) l' end.

(** The answers of an [io.Writer] to its writes, and what one holds. *)
Abbreviation Writer := (nat -> option error).
Record written := { writes : nat; out : string }.
Definition put (w : Writer) (st : written) (s : string) : option error * written :=
  match w (writes st) with
  | Some err => (Some err, {| writes := S (writes st); out := out st |})
  | None => (None, {| writes := S (writes st); out := out st +:+ s |})
  end.
Definition fresh : written := {| writes := 0; out := "" |}.
Definition line (s : string) : string := s +:+ String nl "".

(** ** [encoding/csv] *)

(** A byte that a field may not hold unquoted. *)
Definition csv_special (c : ascii) : bool :=
  Ascii.eqb c nl || Ascii.eqb c (chr 13) || Ascii.eqb c (chr 34) || Ascii.eqb c ",".
Fixpoint has_special (s : string) : bool :=
  match s with EmptyString => false | String c s' => csv_special c || has_special s' end.

(** [csv.Writer.fieldNeedsQuotes] *)
Definition fieldNeedsQuotes (f : string) : bool :=
  if String.eqb f "" then false
  else if String.eqb f (String (chr 92) ".") then true
  else has_special f || existsb (has_prefix f) space_seqs.

(** The inside of a quoted field. *)
Fixpoint csv_quote (s : string) : string :=
  match s with
  | EmptyString => ""
  | String c s' => if Ascii.eqb c (chr 34) then quote +:+ quote +:+ csv_quote s' else String c (csv_quote s')
  end.
Definition csv_field (f : string) : string :=
  if fieldNeedsQuotes f then quote +:+ csv_quote f +:+ quote else f.

(** [csv.Writer.Write] *)
Definition csv_record (fields : list string) : string := line (join "," (map csv_field fields)).

(** ** Markdown cells *)

(** [strings.ReplaceAll] of one byte, and of the pair CR LF. *)
Fixpoint replace_byte (c : ascii) (r s : string) : string :=
  match s with
  | EmptyString => ""
  | String d s' => if Ascii.eqb c d then r +:+ replace_byte c r s' else String d (replace_byte c r s')
  end.
Fixpoint replace_crlf (r s : string) : string :=
  match s with
  | String a ((String b s'') as s') =>
      if Ascii.eqb a (chr 13) && Ascii.eqb b nl then r +:+ replace_crlf r s'' else String a (replace_crlf r s')
  | _ => s
  end.

(** [src/evidence_render.go:mdCell] *)
Definition mdCell (s : string) : string :=
  replace_byte "|" (String (chr 92) "|") (replace_byte (chr 13) " " (replace_byte nl " " (replace_crlf " " s))).

Section Render.
  Context {ES : EvidenceSemantics}.

(** ** The rows *)
(** [src/evidence_render.go:89-95 bundleRows] *)
Definition manifest_rows (m : EvidenceManifest) : list bundleRow :=
  let add := add_row "manifest" in
  add "schema" (MSchema m +:+ " " +:+ MVersion m) ++ add "bundleId" (MBundleID m) ++
  add "exportedAt" (format_seconds (MExportedAt m)) ++ add "generator" (MGenerator m) ++
  add "hashAlg" (MHashAlg m) ++ add "policyRef" (MPolicyRef m).
(** [src/evidence_render.go:97-103 bundleRows] *)
Definition operation_rows (o : EvidenceOperation) : list bundleRow :=
  let add := add_row "operation" in
  add "operationId" (BOperationID o) ++ add "action" (BAction o) ++ add "resource" (BResource o) ++
  add "outcome" (BOutcome o) ++ add "startedAt" (BStartedAt o) ++ add "finishedAt" (BFinishedAt o).
(** [src/evidence_render.go:105-109 bundleRows] *)
Definition subject_rows (s : EvidenceSubject) : list bundleRow :=
  let add := add_row "subject" in
  add "agentId" (BAgentID s) ++ add "keyBinding" (BKeyBinding s) ++
  add "transportIdentity" (BTransportIdentity s) ++ add "presentedCredentialRef" (BPresentedCredentialRef s).
(** [src/evidence_render.go:111-128 bundleRows] *)
Definition authorization_rows (a : EvidenceAuthorization) : list bundleRow :=
  let add := add_row "authorization" in
  add "principal" (BPrincipal a) ++ add "delegationMode" (BDelegationMode a) ++
  match BGrantRef a with
  | Some g => add "grantRef.ref" (GRef g) ++ add "grantRef.digest" (GDigest g)
  | None => []
  end ++
  (if 0 <? zlen (BCapabilities a) then add "capabilities" (join " " (map BCapabilityID (BCapabilities a))) else []) ++
  add "constraints" (BConstraints a) ++ add "ceiling" (BCeiling a) ++ add "validFrom" (BValidFrom a) ++
  add "expiresAt" (BExpiresAt a).
(** [src/evidence_render.go:130-136 bundleRows] *)
Definition decision_rows (d : EvidenceDecision) : list bundleRow :=
  let add := add_row "decision" in
  add "decision" (DDecision d) ++ add "recordDigest" (DRecordDigest d) ++ add "matchedPolicy" (DMatchedPolicy d) ++
  add "reasonCodes" (join " " (DReasonCodes d)) ++
  add "evaluatedCapabilities" (join " " (DEvaluatedCapabilities d)) ++ add "pdpContext" (DPdpContext d).
(** [src/evidence_render.go:138-141 bundleRows] *)
Definition supervision_rows (l : list EvidenceSupervisionEvent) : list bundleRow :=
  flat_map (fun '(i, s) => add_row "supervision" (int_lit i +:+ "." +:+ EvType s)
                             (trim_space (EvOccurredAt s +:+ " " +:+ EvActor s))) (numbered 1 l).
(** [src/evidence_render.go:143-149 bundleRows] *)
Definition chain_rows (c : EvidenceAuditChain) : list bundleRow :=
  let add := add_row "auditChain" in
  add "anchor" (ChAnchor c) ++ add "merkleRoot" (ChMerkleRoot c) ++ add "tsa" (ChTSA c) ++
  flat_map (fun e => add ("entry[" +:+ int_lit (AuSeq e) +:+ "]")
    (AuAction e +:+ " " +:+ AuActor e +:+ " " +:+ AuTs e +:+ " " +:+ AuEntryHash e)) (ChEntries c).

(** [src/evidence_render.go:bundleRows] [order] is the order of the range over
    the signatures. *)
Definition bundleRows (order : list (string * string) -> list (string * string)) (b : EvidenceBundle)
  : list bundleRow :=
  manifest_rows (BManifest b) ++ operation_rows (BOperation b) ++ subject_rows (BSubject b) ++
  authorization_rows (BAuthorization b) ++ decision_rows (BDecision b) ++ supervision_rows (BSupervision b) ++
  chain_rows (BAuditChain b) ++
  flat_map (fun p => add_row "signature" "keyID" p.1) (order (map_to_list (BSignatures b))).

(** ** The formats *)
Section Formats.
  Context (order : list (string * string) -> list (string * string)).

Definition csv_row (r : bundleRow) : list string := [section r; field r; value r].

(** [src/evidence_render.go:RenderCSV] the writer is buffered: what it writes,
    and the error it keeps. *)
Definition RenderCSV (fault : option error) (b : EvidenceBundle) : option error * string :=
  (fault, join "" (map csv_record (["section"; "field"; "value"] :: map csv_row (bundleRows order b)))).

(** [src/evidence_render.go:179-193 RenderText] the loop over the rows. *)
Fixpoint text_rows (w : Writer) (sec : string) (rows : list bundleRow) (st : written) : option error * written :=
  match rows with
  | [] => (None, st)
  | r :: rows' =>
      let row st := match put w st (line ("  " +:+ field r +:+ ": " +:+ value r)) with
                    | (Some err, st) => (Some err, st)
                    | (None, st) => text_rows w (section r) rows' st
                    end in
      if String.eqb (section r) sec then row st
      else match put w st (line ("[" +:+ section r +:+ "]")) with
           | (Some err, st) => (Some err, st)
           | (None, st) => row st
           end
  end.

(** [src/evidence_render.go:RenderText] *)
Definition RenderText (w : Writer) (b : EvidenceBundle) : option error * written :=
  match put w fresh (line (line ("Evidence bundle " +:+ MBundleID (BManifest b)))) with
  | (Some err, st) => (Some err, st)
  | (None, st) => text_rows w "" (bundleRows order b) st
  end.

Definition table_head (sec : string) : string :=
  line (line ("## " +:+ mdCell sec)) +:+ line "| field | value |" +:+ line "|---|---|".
Definition table_row (r : bundleRow) : string := "| " +:+ mdCell (field r) +:+ " | " +:+ mdCell (value r) +:+ " |".
(** [src/evidence_render.go:writeMarkdownClose] *)
Definition writeMarkdownClose (w : Writer) (st : written) : option error * written := put w st (line "").

(** [src/evidence_render.go:201-225 RenderMarkdown] the loop over the rows, and
    what follows it. *)
Fixpoint markdown_rows (w : Writer) (sec : string) (open : bool) (rows : list bundleRow) (st : written)
  : option error * written :=
  match rows with
  | [] => if open then writeMarkdownClose w st else (None, st)
  | r :: rows' =>
      let row open st := match put w st (line (table_row r)) with
                         | (Some err, st) => (Some err, st)
                         | (None, st) => markdown_rows w (section r) open rows' st
                         end in
      if String.eqb (section r) sec then row open st
      else match (if open then writeMarkdownClose w st else (None, st)) with
           | (Some err, st) => (Some err, st)
           | (None, st) =>
               match put w st (table_head (section r)) with
               | (Some err, st) => (Some err, st)
               | (None, st) => row true st
               end
           end
  end.

Definition tick : string := String (chr 96) "".
(** [src/evidence_render.go:RenderMarkdown] *)
Definition RenderMarkdown (w : Writer) (b : EvidenceBundle) : option error * written :=
  match put w fresh (line (line ("# Evidence bundle " +:+ tick +:+ mdCell (MBundleID (BManifest b)) +:+ tick))) with
  | (Some err, st) => (Some err, st)
  | (None, st) => markdown_rows w "" false (bundleRows order b) st
  end.

(** [src/evidence_render.go:Render]; [csv_fault] is the error that the buffered
    writer of the CSV form meets. *)
Definition Render (w : Writer) (csv_fault : option error) (format : string) (b : EvidenceBundle)
  : option error * string :=
  if String.eqb format "" || String.eqb format "markdown" then let '(err, st) := RenderMarkdown w b in (err, out st)
  else if String.eqb format "csv" then RenderCSV csv_fault b
  else if String.eqb format "text" then let '(err, st) := RenderText w b in (err, out st)
  else (Some (Errorf "evidence_bundle: unknown render format %q" [AStr format]), "").

(** [src/evidence_render.go:WriteRendered]; [open] and [close] are errors of the
    file system. *)
Definition WriteRendered (open close : option error) (w : Writer) (csv_fault : option error) (fs : FS) (path format : string)
    (b : EvidenceBundle) : option error * FS :=
  match WriteFile (option_map (fun e => (e, None)) open) fs path "" with
  | (Some err, fs) => (Some err, fs)
  | (None, fs) =>
      let '(err, text) := Render w csv_fault format b in
      let fs := <[path := NFile text]> fs in
      (match err with Some err => Some err | None => close end, fs)
  end.
End Formats.
End Render.

(** * The references

    A reader of RFC 4180: quoted fields with doubled quotes, one record per
    line. *)
Inductive csv_state := Start | Plain | Quoted | Closing.
Fixpoint csv_read (st : csv_state) (acc : string) (rec : list string) (s : string) : option (list (list string)) :=
  match s with
  | EmptyString => match st, rec with Start, [] => Some [] | _, _ => None end
  | String c s' =>
      let next := csv_read Start "" (rec ++ [acc]) s' in
      let close := option_map (cons (rec ++ [acc])) (csv_read Start "" [] s') in
      let add st := csv_read st (acc +:+ String c "") rec s' in
      match st with
      | Start => if Ascii.eqb c (chr 34) then csv_read Quoted acc rec s'
                 else if Ascii.eqb c "," then next else if Ascii.eqb c nl then close else add Plain
      | Plain => if Ascii.eqb c "," then next else if Ascii.eqb c nl then close
                 else if Ascii.eqb c (chr 34) then None else add Plain
      | Quoted => if Ascii.eqb c (chr 34) then csv_read Closing acc rec s' else add Quoted
      | Closing => if Ascii.eqb c (chr 34) then add Quoted
                   else if Ascii.eqb c "," then next else if Ascii.eqb c nl then close else None
      end
  end.

(** The lines of a Markdown document: a table per run of rows of one section. *)
Fixpoint markdown_lines (sec : string) (open : bool) (rows : list bundleRow) : list string :=
  match rows with
  | [] => if open then [""] else []
  | r :: rows' =>
      (if String.eqb (section r) sec then []
       else (if open then [""] else []) ++ ["## " +:+ mdCell (section r); ""; "| field | value |"; "|---|---|"]) ++
      table_row r :: markdown_lines (section r) (open || negb (String.eqb (section r) sec)) rows'
  end.

(** A cell that stays in its row: no line break, and every pipe directly after a
    backslash. *)
Fixpoint cell_safe (escaped : bool) (s : string) : bool :=
  match s with
  | EmptyString => true
  | String c s' =>
      negb (Ascii.eqb c nl) && negb (Ascii.eqb c (chr 13)) && (negb (Ascii.eqb c "|") || escaped) &&
      cell_safe (Ascii.eqb c (chr 92)) s'
  end.

(** * Lemmas *)

(** ** CSV *)
Lemma has_special_plain s acc rec c rest : has_special s = false -> (c = "," \/ c = nl)%char ->
  csv_read Plain acc rec (s +:+ String c rest) = csv_read Plain (acc +:+ s) rec (String c rest).
Proof.
  intros Hs Hc. revert acc. induction s as [|d s IH]; intros acc; [by rewrite sapp_nil_r|].
  cbn [has_special] in Hs. apply orb_false_iff in Hs as [Hd Hs]. unfold csv_special in Hd.
  apply orb_false_iff in Hd as [[[Hn _]%orb_false_iff Hq]%orb_false_iff Hk].
  cbn [String.append csv_read]. rewrite Hk, Hn, Hq, IH by done. by rewrite sapp_assoc.
Qed.

Lemma quoted_reads s acc rec rest :
  csv_read Quoted acc rec (csv_quote s +:+ quote +:+ rest) = csv_read Closing (acc +:+ s) rec rest.
Proof.
  revert acc. induction s as [|c s IH]; intros acc.
  - by rewrite sapp_nil_r.
  - cbn [csv_quote]. destruct (Ascii.eqb_spec c (chr 34)) as [->|Hc].
    + rewrite !sapp_assoc. unfold quote at 1 2. cbn [String.append csv_read]. rewrite ?Ascii.eqb_refl.
      cbn [csv_read]. rewrite ?Ascii.eqb_refl, IH. by rewrite sapp_assoc.
    + cbn [String.append csv_read]. apply Ascii.eqb_neq in Hc. rewrite Hc, IH. by rewrite sapp_assoc.
Qed.

(** A field and what ends it. *)
Definition csv_end (c : ascii) (rec : list string) (rest : string) : option (list (list string)) :=
  if Ascii.eqb c "," then csv_read Start "" rec rest else option_map (cons rec) (csv_read Start "" [] rest).

Lemma field_reads f rec c rest : (c = "," \/ c = nl)%char ->
  csv_read Start "" rec (csv_field f +:+ String c rest) = csv_end c (rec ++ [f]) rest.
Proof.
  intros Hc. assert (forall st, st <> Quoted -> forall acc,
    csv_read st acc rec (String c rest) = csv_end c (rec ++ [acc]) rest) as He.
  { intros st Hst acc. destruct Hc as [-> | ->], st; try done; reflexivity. }
  unfold csv_field. destruct (fieldNeedsQuotes f) eqn:Eq.
  - rewrite !sapp_assoc. unfold quote at 1. cbn [String.append csv_read]. rewrite ?Ascii.eqb_refl.
    rewrite quoted_reads. by rewrite He.
  - unfold fieldNeedsQuotes in Eq. destruct (String.eqb_spec f "") as [->|Hf]; [by rewrite He|].
    destruct (String.eqb _ _); [done|]. apply orb_false_iff in Eq as [Hs _].
    destruct f as [|d f]; [done|]. pose proof Hs as Hs'. cbn [has_special] in Hs.
    apply orb_false_iff in Hs as [Hd Hs]. unfold csv_special in Hd.
    apply orb_false_iff in Hd as [[[Hn _]%orb_false_iff Hq]%orb_false_iff Hk].
    cbn [String.append csv_read]. rewrite Hk, Hn, Hq, has_special_plain by done. by rewrite He.
Qed.

Lemma record_reads f fs rec rest :
  csv_read Start "" rec (join "," (map csv_field (f :: fs)) +:+ String nl rest) =
  option_map (cons (rec ++ f :: fs)) (csv_read Start "" [] rest).
Proof.
  revert f rec. induction fs as [|g fs IH]; intros f rec.
  - cbn [map join]. by rewrite field_reads by (by right).
  - change (map csv_field (f :: g :: fs)) with (csv_field f :: map csv_field (g :: fs)).
    rewrite join_cons, !sapp_assoc by done. cbn [String.append]. rewrite field_reads by (by left).
    unfold csv_end. rewrite ?Ascii.eqb_refl, IH. by rewrite <- app_assoc.
Qed.

Lemma csv_reads_records l : Forall (fun r => r <> []) l ->
  csv_read Start "" [] (join "" (map csv_record l)) = Some l.
Proof.
  induction 1 as [|r l Hr _ IH]; [done|]. destruct r as [|f fs]; [done|].
  assert (join "" (map csv_record ((f :: fs) :: l)) = csv_record (f :: fs) +:+ join "" (map csv_record l)) as ->.
  { destruct l; [cbn; by rewrite sapp_nil_r|]. cbn [map]. by rewrite join_cons by done. }
  unfold csv_record at 1, line. rewrite sapp_assoc. cbn [String.append].
  by rewrite record_reads, IH.
Qed.

(** ** Cells *)
Lemma replace_byte_none c d r s : contains_byte c s = false \/ c = d -> contains_byte c r = false ->
  contains_byte c (replace_byte d r s) = false.
Proof.
  intros Hs Hr. induction s as [|e s IH]; [done|]. cbn.
  assert (contains_byte c (replace_byte d r s) = false) as Hi.
  { apply IH. destruct Hs as [Hs|]; [left|by right]. cbn in Hs. by apply orb_false_iff in Hs as [_ ?]. }
  destruct (Ascii.eqb_spec d e) as [->|Hd].
  - by rewrite contains_byte_app, Hr, Hi.
  - cbn. rewrite Hi, orb_false_r. destruct Hs as [Hs | ->].
    + cbn in Hs. by apply orb_false_iff in Hs as [? _].
    + by apply Ascii.eqb_neq.
Qed.

Lemma replace_pipe_safe b s : contains_byte nl s = false -> contains_byte (chr 13) s = false ->
  cell_safe b (replace_byte "|" (String (chr 92) "|") s) = true.
Proof.
  revert b. induction s as [|c s IH]; intros b Hn Hr; [done|]. cbn [contains_byte] in Hn, Hr.
  apply orb_false_iff in Hn as [Hn Hn'], Hr as [Hr Hr']. cbn [replace_byte].
  destruct (Ascii.eqb_spec "|" c) as [<-|Hp]; [by cbn; rewrite IH|].
  cbn [cell_safe]. rewrite Hn, Hr, IH by done.
  destruct (Ascii.eqb_spec c "|"); [congruence|done].
Qed.

Lemma mdCell_safe b s : cell_safe b (mdCell s) = true.
Proof.
  apply replace_pipe_safe.
  - apply replace_byte_none; [left|done]. apply replace_byte_none; [by right|done].
  - apply replace_byte_none; [by right|done].
Qed.

Lemma safe_no_nl b s : cell_safe b s = true -> contains_byte nl s = false.
Proof.
  revert b. induction s as [|c s IH]; intros b H; [done|]. cbn in H |- *.
  apply andb_true_iff in H as [[[H _]%andb_true_iff _]%andb_true_iff H2].
  rewrite (IH _ H2), orb_false_r. by apply negb_true_iff.
Qed.
Lemma mdCell_no_nl s : contains_byte nl (mdCell s) = false.
Proof. apply (safe_no_nl false), mdCell_safe. Qed.

(** ** Documents *)
Definition steady : Writer := fun _ => None.

(** A rendering that goes on from [st] and adds the text [s]. *)
Definition adds (st : written) (r : option error * written) (s : string) : Prop :=
  r.1 = None /\ out r.2 = (out st +:+ s).

Lemma put_adds st s (k : written -> option error * written) s' :
  (forall st', adds st' (k st') s') ->
  adds st (match put steady st s with (Some err, st) => (Some err, st) | (None, st) => k st end) (s +:+ s').
Proof.
  intros Hk. cbn. destruct (Hk {| writes := S (writes st); out := out st +:+ s |}) as [H1 H2]. split; [done|].
  rewrite H2. cbn. by rewrite sapp_assoc.
Qed.

Lemma unlines_cons s l : unlines (s :: l) = line s +:+ unlines l.
Proof. unfold line. cbn [unlines]. by rewrite sapp_assoc. Qed.

Lemma markdown_rows_adds sec open rows st :
  adds st (markdown_rows steady sec open rows st) (unlines (markdown_lines sec open rows)).
Proof.
  revert sec open st. induction rows as [|r rows IH]; intros sec open st.
  - destruct open; [done|]. split; [done|]. cbn. by rewrite sapp_nil_r.
  - cbn [markdown_rows markdown_lines]. destruct (String.eqb (section r) sec).
    + cbn [app negb]. rewrite orb_false_r, unlines_cons. apply put_adds. intros st'. apply IH.
    + cbn [negb]. rewrite orb_true_r, <- app_assoc.
      assert (forall st', adds st' (match put steady st' (table_head (section r)) with
        | (Some err, st) => (Some err, st)
        | (None, st) => match put steady st (line (table_row r)) with
            | (Some err, st) => (Some err, st) | (None, st) => markdown_rows steady (section r) true rows st end end)
        (unlines (["## " +:+ mdCell (section r); ""; "| field | value |"; "|---|---|"] ++
                  table_row r :: markdown_lines (section r) true rows))) as Hh.
      { intros st'. rewrite unlines_app. replace (unlines (_ :: _)) with (table_head (section r)).
        - apply put_adds. intros st2. rewrite unlines_cons. apply put_adds. intros st3. apply IH.
        - unfold table_head, line. cbn [unlines]. by rewrite !sapp_assoc. }
      destruct open; [|apply Hh]. cbn [app]. rewrite unlines_cons. unfold writeMarkdownClose. by apply put_adds.
Qed.

Lemma markdown_lines_no_nl sec open rows : Forall (fun s => contains_byte nl s = false) (markdown_lines sec open rows).
Proof.
  revert sec open. induction rows as [|r rows IH]; intros sec open; [destruct open; by repeat constructor|].
  cbn [markdown_lines]. apply Forall_app. split.
  - destruct (String.eqb _ _); [constructor|]. apply Forall_app.
    split; [destruct open; by repeat constructor|]. repeat constructor. by rewrite contains_byte_app, mdCell_no_nl.
  - constructor; [|apply IH]. unfold table_row. by rewrite !contains_byte_app, !mdCell_no_nl.
Qed.

(** * Properties *)
Section Properties.
  Context {ES : EvidenceSemantics} (order : list (string * string) -> list (string * string)).

(** The CSV rendering loses and injects nothing: a reader of RFC 4180 gets
    back the header and one record per row of the bundle, with the very
    sections, fields and values, whatever commas, quotes or line breaks an
    actor name or a path holds. *)
Theorem csv_rows_read_back b :
  csv_read Start "" [] (snd (RenderCSV order None b)) =
  Some (["section"; "field"; "value"] :: map csv_row (bundleRows order b)).
Proof.
  apply csv_reads_records. constructor; [done|]. apply Forall_forall. intros r Hr.
  apply list_elem_of_fmap_1 in Hr as (x & -> & _). done.
Qed.

(** The Markdown rendering is its tables and nothing else: the title, and
    for each run of rows of one section a heading, the two lines of the table
    head and exactly one line per row; no cell of a row holds a line break or a
    pipe that is not escaped, so no value can end its cell, its row or its
    table. *)
Theorem markdown_is_tables b :
  fst (RenderMarkdown order steady b) = None /\
  lines (out (snd (RenderMarkdown order steady b))) =
    ("# Evidence bundle " +:+ tick +:+ mdCell (MBundleID (BManifest b)) +:+ tick) :: "" ::
    markdown_lines "" false (bundleRows order b) /\
  forall r, r ∈ bundleRows order b ->
    cell_safe false (mdCell (field r)) = true /\ cell_safe false (mdCell (value r)) = true.
Proof.
  unfold RenderMarkdown.
  set (title := "# Evidence bundle " +:+ tick +:+ mdCell (MBundleID (BManifest b)) +:+ tick).
  destruct (put_adds fresh (line (line title)) (markdown_rows steady "" false (bundleRows order b)) _
    (markdown_rows_adds "" false (bundleRows order b))) as [H1 H2].
  split; [exact H1|]. split; [|intros r _; split; apply mdCell_safe].
  rewrite H2. change (out fresh) with "". cbn [String.append].
  replace (line (line title) +:+ unlines (markdown_lines "" false (bundleRows order b)))
    with (unlines (title :: "" :: markdown_lines "" false (bundleRows order b))).
  - rewrite lines_unlines; [done|]. constructor; [|constructor; [done|apply markdown_lines_no_nl]].
    unfold title. by rewrite !contains_byte_app, mdCell_no_nl.
  - rewrite unlines_cons. unfold line. cbn [unlines String.append]. by rewrite !sapp_assoc.
Qed.
End Properties.

(** * Examples *)
Section Witnesses.
  #[local] Existing Instance toy_evidence.

(** A supervisor's name with a comma, quotes, a pipe and a line break. *)
Definition hostile : EvidenceBundle :=
  with_supervision (with_signatures nothing (<["k" := "{}"]> ∅))
    [{| EvType := "approval"; EvOccurredAt := "t"; EvActor := dq "a,'b'|" +:+ String nl "| x |"; EvDecisionRef := "";
        EvEvidenceRef := "" |}].
Example hostile_csv : lines (snd (RenderCSV id None hostile)) =
  ["section,field,value"; "manifest,schema,varwof/aic-evidence-bundle 0.1"; "manifest,bundleId,evidence-0a0b";
   "manifest,exportedAt,2024-01-01T00:01:40Z"; "manifest,generator,aic-verifier v0.3.0-rc2";
   "manifest,hashAlg,SHA-256"; "operation,outcome,permit"; "operation,startedAt,1970-01-01T00:00:00Z";
   "operation,finishedAt,1970-01-01T00:00:00Z"; "subject,agentId,bot"; dq "supervision,1.approval,'t a,''b''|";
   dq "| x |'"; "auditChain,anchor,self"; "signature,keyID,k"].
Proof. vm_compute. reflexivity. Qed.
(** A backslash of the value is not escaped. *)
Example hostile_cell : mdCell (String (chr 13) (String nl (dq "a|b"))) = (" a" +:+ String (chr 92) "|b") /\
  mdCell (String (chr 92) "|") = String (chr 92) (String (chr 92) "|").
Proof. split; reflexivity. Qed.
End Witnesses.
