(* ===== verification/McpRegistry.v ===== *)
(** The tool manifest of the MCP server ([src/mcp/registry.go]): decoding the
    manifest with unknown fields refused, indexing it, and the check of a call's
    arguments against a tool's barriers.

    Compiling and matching regular expressions is the class [Regexp].  A raw
    JSON message is kept as its value, [None] when there is none. *)
From Stdlib Require Import Ascii.
From stdpp Require Import sorting.
From S2P Require Import Prelude GoStrings GoJson GoJsonOut GoFloat GoClock EvidenceFiles.
Local Open Scope string_scope.
Local Open Scope Z_scope.
Local Open Scope list_scope.

(** * Definitions *)

(** Package [regexp]: compiling a pattern, and the unanchored search of it. *)
Class Regexp := { Compile : string -> result (string -> bool) }.

(** [src/mcp/registry.go:Constraint] *)
Record Constraint := {
  CName : string; Min : option float64; Max : option float64; MinLength : option Z; MaxLength : option Z;
  Enum : list string; Pattern : string; patternRe : option (string -> bool)
}.
(** [src/mcp/registry.go:ToolSpec] *)
Record ToolSpec := {
  TName : string; Description : string; InputSchema : option json; RequiredCapability : string;
  ParameterConstraints : list Constraint
}.
(** [src/mcp/registry.go:Registry] *)
Record Registry := { RVersion : Z; Tools : list ToolSpec; byName : gmap string ToolSpec }.

(** ** Decoding

    A decoder with [DisallowUnknownFields]: a member that no field is named by
    is an error. *)
Definition dec_strict {S} (names : list string) (set : S -> string -> json -> result S) : S -> json -> result S :=
  dec_struct (fun s k v =>
    match List.find (fun n => field_is n k) names with
    | Some n => set s n v
    | None => Err (Errorf "json: unknown field %q" [AStr k])
    end).

(** A pointer to a [float64]; a number out of range is an error. *)
Definition dec_float_ptr (v : json) : result (option float64) :=
  match v with
  | JNull => Ok None
  | JNum lit => match parse_float lit with Some f => Ok (Some f) | None => Err json_type_error end
  | _ => Err json_type_error
  end.

Definition constraint_fields := ["name"; "min"; "max"; "min_length"; "max_length"; "enum"; "pattern"].
Definition dec_constraint : Constraint -> json -> result Constraint := dec_strict constraint_fields (fun c n v =>
  let set nm lo hi ml xl en pa := Ok {| CName := nm; Min := lo; Max := hi; MinLength := ml; MaxLength := xl;
    Enum := en; Pattern := pa; patternRe := patternRe c |} in
  if String.eqb n "name" then x ← dec_string (CName c) v; set x (Min c) (Max c) (MinLength c) (MaxLength c) (Enum c) (Pattern c)
  else if String.eqb n "min" then x ← dec_float_ptr v; set (CName c) x (Max c) (MinLength c) (MaxLength c) (Enum c) (Pattern c)
  else if String.eqb n "max" then x ← dec_float_ptr v; set (CName c) (Min c) x (MinLength c) (MaxLength c) (Enum c) (Pattern c)
  else if String.eqb n "min_length" then x ← dec_int_ptr (MinLength c) v; set (CName c) (Min c) (Max c) x (MaxLength c) (Enum c) (Pattern c)
  else if String.eqb n "max_length" then x ← dec_int_ptr (MaxLength c) v; set (CName c) (Min c) (Max c) (MinLength c) x (Enum c) (Pattern c)
  else if String.eqb n "enum" then x ← dec_string_list (Enum c) v; set (CName c) (Min c) (Max c) (MinLength c) (MaxLength c) x (Pattern c)
  else x ← dec_string (Pattern c) v; set (CName c) (Min c) (Max c) (MinLength c) (MaxLength c) (Enum c) x).
Definition zero_constraint : Constraint := {| CName := ""; Min := None; Max := None; MinLength := None;
  MaxLength := None; Enum := []; Pattern := ""; patternRe := None |}.

Definition tool_fields := ["name"; "description"; "input_schema"; "required_capability"; "parameter_constraints"].
Definition dec_tool : ToolSpec -> json -> result ToolSpec := dec_strict tool_fields (fun t n v =>
  let set nm de sc ca co := Ok {| TName := nm; Description := de; InputSchema := sc; RequiredCapability := ca;
    ParameterConstraints := co |} in
  if String.eqb n "name" then x ← dec_string (TName t) v;
    set x (Description t) (InputSchema t) (RequiredCapability t) (ParameterConstraints t)
  else if String.eqb n "description" then x ← dec_string (Description t) v;
    set (TName t) x (InputSchema t) (RequiredCapability t) (ParameterConstraints t)
  else if String.eqb n "input_schema" then set (TName t) (Description t) (Some v) (RequiredCapability t) (ParameterConstraints t)
  else if String.eqb n "required_capability" then x ← dec_string (RequiredCapability t) v;
    set (TName t) (Description t) (InputSchema t) x (ParameterConstraints t)
  else x ← dec_slice zero_constraint dec_constraint (ParameterConstraints t) v;
    set (TName t) (Description t) (InputSchema t) (RequiredCapability t) x).
Definition zero_tool : ToolSpec := {| TName := ""; Description := ""; InputSchema := None; RequiredCapability := "";
  ParameterConstraints := [] |}.

Definition dec_registry : json -> result Registry := dec_strict ["version"; "tools"] (fun r n v =>
  if String.eqb n "version" then x ← dec_int (RVersion r) v; Ok {| RVersion := x; Tools := Tools r; byName := byName r |}
  else x ← dec_slice zero_tool dec_tool (Tools r) v; Ok {| RVersion := RVersion r; Tools := x; byName := byName r |})
  {| RVersion := 0; Tools := []; byName := ∅ |}.

(** [json.Decoder.Decode] of a text: its first value, whatever follows. *)
Definition first_value (s : string) : option json :=
  match scan_value (S (String.length s)) max_depth s with Some (v, _) => Some v | None => None end.

(** ** The index *)
Section Registry.
  Context {RX : Regexp}.

(** [src/mcp/registry.go:100-112 rebuild] the constraints of one tool. *)
Fixpoint compile_constraints (tool : string) (i : Z) (l : list Constraint) : result (list Constraint) :=
  match l with
  | [] => Ok []
  | c :: l' =>
      if String.eqb (CName c) "" then
        Err (Errorf "mcp: tool %q: constraint %d has empty name" [AStr tool; AInt i])
      else
        c ← (if String.eqb (Pattern c) "" then Ok c
             else match Compile (Pattern c) with
             | Err err => Err (Errorf "mcp: tool %q pattern %q: %w" [AStr tool; AStr (Pattern c); AWrap err])
             | Ok re => Ok {| CName := CName c; Min := Min c; Max := Max c; MinLength := MinLength c;
                              MaxLength := MaxLength c; Enum := Enum c; Pattern := Pattern c; patternRe := Some re |}
             end);
        rest ← compile_constraints tool (i + 1) l'; Ok (c :: rest)
  end.

(** [src/mcp/registry.go:83-114 rebuild] the loop over the tools. *)
Fixpoint index_tools (i : Z) (l : list ToolSpec) (m : gmap string ToolSpec)
  : result (list ToolSpec * gmap string ToolSpec) :=
  match l with
  | [] => Ok ([], m)
  | spec :: l' =>
      if String.eqb (TName spec) "" then Err (Errorf "mcp: tool %d has empty name" [AInt i])
      else if match InputSchema spec with None | Some JNull => true | Some _ => false end then
        Err (Errorf "mcp: tool %q missing input_schema" [AStr (TName spec)])
      else if String.eqb (RequiredCapability spec) "" then
        Err (Errorf "mcp: tool %q missing required_capability" [AStr (TName spec)])
      else if bool_decide (is_Some (m !! TName spec)) then
        Err (Errorf "mcp: duplicate tool name %q" [AStr (TName spec)])
      else
        cs ← compile_constraints (TName spec) 0 (ParameterConstraints spec);
        let spec := {| TName := TName spec; Description := Description spec; InputSchema := InputSchema spec;
                       RequiredCapability := RequiredCapability spec; ParameterConstraints := cs |} in
        '(rest, m) ← index_tools (i + 1) l' (<[TName spec := spec]> m); Ok (spec :: rest, m)
  end.

(** [src/mcp/registry.go:rebuild] *)
Definition rebuild (r : Registry) : result Registry :=
  if RVersion r <? 1 then Err (Errorf "mcp: manifest version must be >= 1, got %d" [AInt (RVersion r)])
  else if zlen (Tools r) =? 0 then Err (Errorf "mcp: manifest declares no tools" [])
  else '(tools, m) ← index_tools 0 (Tools r) ∅; Ok {| RVersion := RVersion r; Tools := tools; byName := m |}.

(** [src/mcp/registry.go:LoadJSON] *)
Definition LoadJSON (data : string) : result Registry :=
  let wrap err := Errorf "mcp: parse manifest: %w" [AWrap err] in
  match first_value data with
  | None => Err (wrap json_syntax_error)
  | Some v => match dec_registry v with Err err => Err (wrap err) | Ok reg => rebuild reg end
  end.
End Registry.

(** [src/mcp/registry.go:Find] *)
Definition Find (r : option Registry) (name : string) : option ToolSpec :=
  match r with None => None | Some r => byName r !! name end.

(** [src/mcp/registry.go:names] *)
Definition names (r : Registry) : list string := merge_sort str_le (map fst (map_to_list (byName r))).

(** ** Arguments *)

(** [utf8.RuneCountInString] *)
Fixpoint rune_count (fuel : nat) (s : string) : Z :=
  match fuel, s with
  | S f, String _ _ => 1 + rune_count f (sdrop (Nat.max 1 (snd (decode_rune s))) s)
  | _, _ => 0
  end.
Definition RuneCountInString (s : string) : Z := rune_count (String.length s) s.

(** [src/mcp/registry.go:jsonNumber] *)
Definition jsonNumber (v : json) : option float64 := match v with JNum lit => parse_float lit | _ => None end.

(** A bound that is set and broken. *)
Definition below (n : Z) (bound : option Z) : bool := match bound with Some b => n <? b | None => false end.
Definition above (n : Z) (bound : option Z) : bool := match bound with Some b => b <? n | None => false end.

(** [src/mcp/registry.go:checkNumeric] *)
Definition checkNumeric (c : Constraint) (v : json) : option error :=
  if unset (Min c) && unset (Max c) then None
  else match jsonNumber v with
  | None => None
  | Some num =>
      let arg f := AFloat (f_man f) (f_exp f) in
      let over := match Max c with
        | Some b => if f_ltb b num then Some (Errorf "param %q %v > max %v" [AStr (CName c); arg num; arg b]) else None
        | None => None
        end in
      match Min c with
      | Some b => if f_ltb num b then Some (Errorf "param %q %v < min %v" [AStr (CName c); arg num; arg b]) else over
      | None => over
      end
  end.

Definition length_error (c : Constraint) (n : Z) : option error :=
  if below n (MinLength c) then
    Some (Errorf "param %q length %d < min_length %d" [AStr (CName c); AInt n; AInt (default 0 (MinLength c))])
  else if above n (MaxLength c) then
    Some (Errorf "param %q length %d > max_length %d" [AStr (CName c); AInt n; AInt (default 0 (MaxLength c))])
  else None.

(** [src/mcp/registry.go:checkString] *)
Definition checkString (c : Constraint) (v : json) : option error :=
  if unset (MinLength c) && unset (MaxLength c) && (zlen (Enum c) =? 0) && String.eqb (Pattern c) "" then None
  else match dec_string "" v with
  | Err _ => None
  | Ok s =>
      match length_error c (RuneCountInString s) with
      | Some err => Some err
      | None =>
          if (0 <? zlen (Enum c)) && negb (existsb (String.eqb s) (Enum c)) then
            Some (Errorf "param %q value %q not in enum %v" [AStr (CName c); AStr s; AStrs (Enum c)])
          else match patternRe c with
          | Some re => if negb (String.eqb (Pattern c) "") && negb (re s) then
                         Some (Errorf "param %q value does not match pattern %q" [AStr (CName c); AStr (Pattern c)])
                       else None
          | None => None
          end
      end
  end.

(** [src/mcp/registry.go:checkArray] *)
Definition checkArray (c : Constraint) (v : json) : option error :=
  if unset (MinLength c) && unset (MaxLength c) then None
  else match v with
  | JNull => length_error c 0
  | JArr items => length_error c (zlen items)
  | _ => None
  end.

(** [src/mcp/registry.go:checkConstraint] *)
Definition checkConstraint (c : Constraint) (v : json) : option error :=
  match checkNumeric c v with
  | Some err => Some err
  | None => match checkString c v with Some err => Some err | None => checkArray c v end
  end.

(** [src/mcp/registry.go:requiredFields] *)
Definition requiredFields (schema : option json) : result (list string) :=
  match schema with
  | None => Err json_syntax_error
  | Some v => dec_struct (fun old k v => if field_is "required" k then dec_string_list old v else Ok old) [] v
  end.

(** [map[string]json.RawMessage] *)
Definition dec_args (v : json) : result (gmap string json) :=
  match v with JNull => Ok ∅ | JObj ms => Ok (members_map ms) | _ => Err json_type_error end.

(** [src/mcp/registry.go:165-173 validateArgs] *)
Fixpoint check_args (cs : list Constraint) (args : gmap string json) : option error :=
  match cs with
  | [] => None
  | c :: cs' =>
      match args !! CName c with
      | None => check_args cs' args
      | Some v => match checkConstraint c v with Some err => Some err | None => check_args cs' args end
      end
  end.

(** [src/mcp/registry.go:validateArgs] of the arguments' text. *)
Definition validateArgs (spec : ToolSpec) (raw : string) : option error :=
  if String.eqb raw "" || String.eqb raw "null" then Some (Errorf "missing arguments object" [])
  else match unmarshal dec_args raw with
  | Err _ => Some (Errorf "arguments must be a JSON object" [])
  | Ok args =>
      match requiredFields (InputSchema spec) with
      | Err err => Some (Errorf "input_schema.required: %w" [AWrap err])
      | Ok required =>
          match List.find (fun n => negb (bool_decide (is_Some (args !! n)))) required with
          | Some n => Some (Errorf "missing required argument %q" [AStr n])
          | None => check_args (ParameterConstraints spec) args
          end
      end
  end.

(** * Specifications *)

(** A value read as a text, and as a list: [null] is the empty one of both. *)
Definition text_of (v : json) : option string :=
  match v with JStr s => Some s | JNull => Some "" | _ => None end.
Definition count_of (v : json) : option Z :=
  match v with JArr l => Some (zlen l) | JNull => Some 0 | _ => None end.

Definition length_ok (c : Constraint) (n : Z) : Prop :=
  (forall b, MinLength c = Some b -> b <= n) /\ (forall b, MaxLength c = Some b -> n <= b).

Definition text_ok (c : Constraint) (s : string) : Prop :=
  length_ok c (RuneCountInString s) /\ (Enum c <> [] -> s ∈ Enum c) /\
  (forall re, Pattern c <> "" -> patternRe c = Some re -> re s = true).
(** What a constraint means for a value of each kind: a number that has a
    [float64] is compared as that, one that has none is not; [null] is the empty
    text and the empty list; the others are not compared. *)
Definition holds (c : Constraint) (v : json) : Prop :=
  match v with
  | JNum lit =>
      match parse_float lit with
      | Some num => (forall b, Min c = Some b -> f_ltb num b = false) /\ (forall b, Max c = Some b -> f_ltb b num = false)
      | None => True
      end
  | JStr s => text_ok c s
  | JNull => text_ok c "" /\ length_ok c 0
  | JArr l => length_ok c (zlen l)
  | JBool _ | JObj _ => True
  end.

(** * Lemmas *)
Lemma length_error_None c n : length_error c n = None <-> length_ok c n.
Proof.
  unfold length_error, length_ok, below, above. destruct (MinLength c) as [lo|], (MaxLength c) as [hi|];
    repeat match goal with |- context [?a <? ?b] => destruct (Z.ltb_spec a b) end;
    (split; [intros Ht; try done; split; intros b [= <-]; lia|intros [H1 H2]; try done;
             try (specialize (H1 _ eq_refl); lia); try (specialize (H2 _ eq_refl); lia)]).
Qed.

Lemma unset_length_ok c n : unset (MinLength c) && unset (MaxLength c) = true -> length_ok c n.
Proof. unfold length_ok. by destruct (MinLength c), (MaxLength c). Qed.

Lemma checkNumeric_None c v : checkNumeric c v = None <->
  forall num, jsonNumber v = Some num ->
    (forall b, Min c = Some b -> f_ltb num b = false) /\ (forall b, Max c = Some b -> f_ltb b num = false).
Proof.
  unfold checkNumeric. destruct (jsonNumber v) as [num|].
  - destruct (Min c) as [lo|], (Max c) as [hi|]; cbn [unset andb]; [destruct (f_ltb num lo) eqn:El, (f_ltb hi num) eqn:Eh
      |destruct (f_ltb num lo) eqn:El|destruct (f_ltb hi num) eqn:Eh|];
    (split; [intros Ht; try done; intros num' [= <-]; split; intros b [= <-]; done
            |intros H; try done; destruct (H num eq_refl) as [H1 H2];
             try (specialize (H1 _ eq_refl); congruence); try (specialize (H2 _ eq_refl); congruence)]).
  - split; [done|]. by destruct (_ && _).
Qed.

Lemma dec_string_text v : match dec_string "" v with Ok s => Some s | Err _ => None end = text_of v.
Proof. by destruct v. Qed.

Lemma checkString_None c v : checkString c v = None <->
  forall s, text_of v = Some s -> length_ok c (RuneCountInString s) /\ (Enum c <> [] -> s ∈ Enum c) /\
     (forall re, Pattern c <> "" -> patternRe c = Some re -> re s = true).
Proof.
  unfold checkString. rewrite <- dec_string_text.
  destruct (unset (MinLength c) && unset (MaxLength c) && (zlen (Enum c) =? 0) && String.eqb (Pattern c) "") eqn:Eu.
  { split; [|done]. intros _ s _. apply andb_true_iff in Eu as [[Hu He]%andb_true_iff Hp].
    apply String.eqb_eq in Hp. split; [by apply unset_length_ok|]. split; [|by intros re ?].
    intros Hne. destruct (Enum c); [done|]. apply Z.eqb_eq in He. unfold zlen in He. cbn in He. lia. }
  destruct (dec_string "" v) as [s|]; [|done].
  assert (forall P : Prop, P <-> (forall s', Some s = Some s' -> P)) as Hone by (intros P; split; [by intros ? s' _|intros H; by apply (H s)]).
  split.
  - intros H s' [= <-]. destruct (length_error c _) eqn:El; [done|]. apply length_error_None in El.
    destruct ((0 <? zlen (Enum c)) && _) eqn:Ee; [done|]. split; [done|]. split.
    + intros Hne. apply andb_false_iff in Ee as [Ee|Ee].
      * apply Z.ltb_ge in Ee. destruct (Enum c); [done|]. unfold zlen in Ee. cbn in Ee. lia.
      * apply negb_false_iff, existsb_exists_elem in Ee as (x & Hx & ->%String.eqb_eq). done.
    + intros re Hp Hre. rewrite Hre in H. apply String.eqb_neq in Hp. rewrite Hp in H. by destruct (re s).
  - intros H. destruct (H s eq_refl) as (Hl & He & Hre). apply length_error_None in Hl. rewrite Hl.
    assert ((0 <? zlen (Enum c)) && negb (existsb (String.eqb s) (Enum c)) = false) as ->.
    { apply andb_false_iff. destruct (Enum c) as [|e l] eqn:E; [by left|right].
      apply negb_false_iff, existsb_exists_elem. exists s. split; [by apply He|apply String.eqb_refl]. }
    destruct (patternRe c) as [re|]; [|done]. destruct (String.eqb_spec (Pattern c) ""); [done|].
    by rewrite (Hre re).
Qed.

Lemma checkArray_None c v : checkArray c v = None <-> forall n, count_of v = Some n -> length_ok c n.
Proof.
  unfold checkArray. destruct (unset (MinLength c) && unset (MaxLength c)) eqn:E.
  { split; [|done]. intros _ n _. by apply unset_length_ok. }
  destruct v; try done; cbn [count_of]; rewrite length_error_None;
    (split; [by intros H n [= <-]|intros H; by apply H]).
Qed.

Lemma checkConstraint_None c v : checkConstraint c v = None <-> holds c v.
Proof.
  assert (checkConstraint c v = None <-> checkNumeric c v = None /\ checkString c v = None /\ checkArray c v = None) as ->.
  { unfold checkConstraint. destruct (checkNumeric c v); [split; [done|by intros [? _]]|].
    destruct (checkString c v); [split; [done|by intros (_ & ? & _)]|]. tauto. }
  rewrite checkNumeric_None, checkString_None, checkArray_None. unfold holds, text_ok.
  destruct v as [|b|lit|s|l|ms]; cbn [jsonNumber text_of count_of].
  - split; [intros (_ & Ht & Hc); by split; [apply Ht|apply Hc]|].
    intros [Ht Hc]. split; [done|]. split; by intros ? [= <-].
  - done.
  - destruct (parse_float lit) as [num|]; [|done].
    split; [intros (Hn & _ & _); by apply Hn|]. intros Hn. split; [by intros ? [= <-]|done].
  - split; [intros (_ & Ht & _); by apply Ht|]. intros Ht. split; [done|]. split; [by intros ? [= <-]|done].
  - split; [intros (_ & _ & Hc); by apply Hc|]. intros Hc. split; [done|]. split; [done|]. by intros ? [= <-].
  - done.
Qed.

Lemma check_args_None cs args : check_args cs args = None <->
  forall c v, c ∈ cs -> args !! CName c = Some v -> holds c v.
Proof.
  induction cs as [|c cs IH]; cbn [check_args].
  - split; [|done]. intros _ c v Hc. by apply elem_of_nil in Hc.
  - assert ((forall c' v, c' ∈ c :: cs -> args !! CName c' = Some v -> holds c' v) <->
            (forall v, args !! CName c = Some v -> holds c v) /\ check_args cs args = None) as ->.
    { rewrite IH. setoid_rewrite elem_of_cons. naive_solver. }
    destruct (args !! CName c) as [v|]; [|split; [by intros H; split|by intros [_ H]]].
    destruct (checkConstraint c v) eqn:E.
    + split; [done|]. intros [H _]. pose proof (H v eq_refl) as Hv. apply checkConstraint_None in Hv. congruence.
    + apply checkConstraint_None in E. split; [intros H; split; [by intros v' [= <-]|done]|by intros [_ H]].
Qed.

(** ** The index *)
Section Index.
  Context {RX : Regexp}.

Definition constraint_ok (c : Constraint) : Prop :=
  CName c <> "" /\ (Pattern c <> "" -> exists re, Compile (Pattern c) = Ok re /\ patternRe c = Some re).
Definition tool_ok (t : ToolSpec) : Prop :=
  TName t <> "" /\ (exists v, InputSchema t = Some v /\ v <> JNull) /\ RequiredCapability t <> "" /\
  Forall constraint_ok (ParameterConstraints t).

Lemma compile_constraints_Ok tool i l cs : compile_constraints tool i l = Ok cs -> Forall constraint_ok cs.
Proof.
  revert i cs. induction l as [|c l IH]; intros i cs; cbn [compile_constraints]; [by intros [= <-]|].
  destruct (String.eqb_spec (CName c) ""); [done|]. intros (c' & Hc & (rest & Hr & [= <-])%bind_Ok)%bind_Ok.
  constructor; [|by eapply IH]. destruct (String.eqb_spec (Pattern c) "") as [Hp|Hp].
  - injection Hc as <-. by split.
  - destruct (Compile (Pattern c)) as [re|] eqn:E; [|done]. injection Hc as <-. split; [done|]. intros _. by exists re.
Qed.

(** The index holds exactly the tools, under their names. *)
Definition indexed (tools : list ToolSpec) (m : gmap string ToolSpec) : Prop :=
  forall name spec, m !! name = Some spec <-> spec ∈ tools /\ TName spec = name.

Lemma index_tools_Ok i l m done_ tools m' : index_tools i l m = Ok (tools, m') ->
  indexed done_ m -> NoDup (map TName done_) -> Forall tool_ok done_ ->
  indexed (done_ ++ tools) m' /\ NoDup (map TName (done_ ++ tools)) /\ Forall tool_ok (done_ ++ tools) /\
  map TName tools = map TName l.
Proof.
  revert i m done_ tools m'. induction l as [|t l IH]; intros i m done_ tools m' H Hi Hd Hok; cbn [index_tools] in H.
  { injection H as <- <-. by rewrite app_nil_r. }
  destruct (String.eqb_spec (TName t) "") as [|Hn]; [done|].
  destruct (match InputSchema t with None | Some JNull => true | Some _ => false end) eqn:Es; [done|].
  destruct (String.eqb_spec (RequiredCapability t) "") as [|Hc]; [done|]. case_bool_decide as Hin; [done|].
  apply bind_Ok in H as (cs & Hcs & H). apply compile_constraints_Ok in Hcs.
  set (t' := {| TName := TName t; Description := _; InputSchema := _; RequiredCapability := _; ParameterConstraints := cs |}) in H.
  apply bind_Ok in H as ([rest m2] & Hrec & [= <- <-]).
  destruct (IH (i + 1) (<[TName t := t']> m) (done_ ++ [t']) rest m2 Hrec) as (H1 & H2 & H3 & H4).
  - intros name spec. rewrite elem_of_app, list_elem_of_singleton. destruct (decide (name = TName t)) as [->|Hne].
    + rewrite lookup_insert_eq. split; [intros [= <-]; by auto|]. intros [[Hs| ->] Ht]; [|done].
      exfalso. apply Hin. exists spec. apply Hi. by split.
    + rewrite lookup_insert_ne by done. rewrite (Hi name spec). split; [intros [? ?]; by auto|].
      intros [[?| ->] ?]; [done|]. exfalso. by apply Hne.
  - rewrite map_app. apply NoDup_app. split; [done|]. split; [|apply NoDup_singleton].
    intros x Hx Hs. apply list_elem_of_singleton in Hs as ->. apply list_elem_of_fmap_1 in Hx as (s & Hs & Hs').
    apply Hin. exists s. by apply Hi.
  - apply Forall_app. split; [done|]. repeat constructor; try done. cbn.
    destruct (InputSchema t) as [v|]; [|done]. exists v. split; [done|]. intros ->. done.
  - rewrite <- app_assoc in H1, H2, H3. split; [done|]. split; [done|]. split; [done|]. cbn. by rewrite H4.
Qed.

Lemma LoadJSON_Ok data reg : LoadJSON data = Ok reg ->
  1 <= RVersion reg /\ Tools reg <> [] /\ NoDup (map TName (Tools reg)) /\ Forall tool_ok (Tools reg) /\
  (forall name spec, Find (Some reg) name = Some spec <-> spec ∈ Tools reg /\ TName spec = name).
Proof.
  unfold LoadJSON. intros Hl. destruct (first_value data) as [v|]; [|done]. destruct (dec_registry v) as [r|]; [|done].
  unfold rebuild in Hl. destruct (Z.ltb_spec (RVersion r) 1); [done|].
  destruct (Z.eqb_spec (zlen (Tools r)) 0) as [|Hz]; [done|].
  apply bind_Ok in Hl as ([tools m] & Hi & [= <-]).
  destruct (index_tools_Ok 0 (Tools r) ∅ [] tools m Hi) as (H1 & H2 & H3 & H4).
  { intros name spec. rewrite lookup_empty. split; [done|]. intros [Hs _]. by apply elem_of_nil in Hs. }
  { constructor. } { constructor. }
  cbn [app RVersion Tools] in *. split; [done|]. split; [|done].
  intros ->. apply Hz. destruct (Tools r); [done|]. discriminate H4.
Qed.
End Index.

Lemma args_object spec raw : validateArgs spec raw = None -> exists args, unmarshal dec_args raw = Ok args.
Proof.
  unfold validateArgs. destruct (_ || _); [done|]. destruct (unmarshal dec_args raw) as [args|]; [|done]. by exists args.
Qed.

(** * Properties *)

(** C21: a manifest that loads is well formed, whatever its text: a version of at
    least one, at least one tool, distinct non-empty names, for every tool a
    schema, a required capability and constraints that are named and whose
    patterns compiled; [Find] answers exactly the tools of the list by their
    names, and the listing is their names in order. *)
Theorem loaded_manifest_well_formed `{Regexp} data reg (Hl : LoadJSON data = Ok reg) :
  1 <= RVersion reg /\ Tools reg <> [] /\ NoDup (map TName (Tools reg)) /\ Forall tool_ok (Tools reg) /\
  (forall name spec, Find (Some reg) name = Some spec <-> spec ∈ Tools reg /\ TName spec = name) /\
  StronglySorted str_le (names reg) /\ names reg ≡ₚ map TName (Tools reg).
Proof.
  apply LoadJSON_Ok in Hl as (H1 & H2 & H3 & H4 & H5). split; [done|]. split; [done|]. split; [done|]. split; [done|].
  split; [done|]. split.
  - apply (StronglySorted_merge_sort str_le).
  - unfold names. rewrite merge_sort_Permutation.
    apply NoDup_Permutation; [apply NoDup_fst_map_to_list|done|]. intros name. rewrite !list_elem_of_fmap. split.
    + intros ([k spec] & -> & Hk). apply elem_of_map_to_list, H5 in Hk as [Hs Hk]. by exists spec.
    + intros (spec & -> & Hs). exists (TName spec, spec). split; [done|]. apply elem_of_map_to_list, H5. by split.
Qed.

(** C20: the arguments of a call are accepted exactly when their text is neither
    empty nor [null], reads as a JSON object that has every field the tool's
    schema requires, and every member holds under every constraint of its name:
    a number whose literal has a [float64] lies, as that [float64], between the
    bounds; a text has an allowed length, is among the listed values and matches
    the pattern; a list has an allowed length. A number outside the range of
    [float64] ([1e400]) passes its bounds uncompared, and so does a value of a
    kind that a barrier is not about (both are findings). *)
Theorem arguments_accepted_iff spec raw : validateArgs spec raw = None <->
  raw <> "" /\ raw <> "null" /\ exists args required,
    unmarshal dec_args raw = Ok args /\ requiredFields (InputSchema spec) = Ok required /\
    (forall n, n ∈ required -> is_Some (args !! n)) /\
    forall c v, c ∈ ParameterConstraints spec -> args !! CName c = Some v -> holds c v.
Proof.
  unfold validateArgs. destruct (String.eqb_spec raw ""); [split; [done|by intros (? & _)]|].
  destruct (String.eqb_spec raw "null"); [split; [done|by intros (_ & ? & _)]|]. cbn [orb].
  destruct (unmarshal dec_args raw) as [args|]; [|split; [done|by intros (_ & _ & ? & ? & ? & _)]].
  destruct (requiredFields _) as [required|]; [|split; [done|by intros (_ & _ & ? & ? & _ & ? & _)]].
  destruct (List.find _ required) as [missing|] eqn:Ef.
  - split; [done|]. intros (_ & _ & args' & req' & [= <-] & [= <-] & Hr & _).
    apply find_some in Ef as [Hin Hn]. apply list_elem_of_In in Hin. apply Hr in Hin.
    by rewrite bool_decide_eq_true_2 in Hn.
  - rewrite check_args_None. split.
    + intros Hc. split; [done|]. split; [done|]. exists args, required. split; [done|]. split; [done|]. split; [|done].
      intros m Hm. apply list_elem_of_In in Hm. pose proof (find_none _ _ Ef m Hm) as Hf.
      apply negb_false_iff in Hf. by apply bool_decide_eq_true in Hf.
    + by intros (_ & _ & args' & req' & [= <-] & [= <-] & _ & Hc).
Qed.

(** Integers of at most 53 bits are compared exactly. *)
Theorem integer_bounds_exact c lit n flo fhi lo hi
    (Hu : uint_lit lit = true) (Hd : digits_value 0 lit = Some n) (Hn : 0 <= n <= 2 ^ 53)
    (Hlo : Min c = Some flo) (Hhi : Max c = Some fhi) (Hil : is_int flo lo) (Hih : is_int fhi hi) :
  checkNumeric c (JNum lit) = None <-> lo <= n <= hi.
Proof.
  destruct (parse_float_uint lit n Hu Hd Hn) as (f & Hf & Hi). rewrite checkNumeric_None. cbn [jsonNumber].
  rewrite Hf, Hlo, Hhi. split.
  - intros H. destruct (H f eq_refl) as [H1 H2]. specialize (H1 _ eq_refl). specialize (H2 _ eq_refl).
    rewrite (is_int_ltb _ _ _ _ Hi Hil) in H1. rewrite (is_int_ltb _ _ _ _ Hih Hi) in H2. bools; lia.
  - intros Hb num [= <-]. split; intros b [= <-].
    + rewrite (is_int_ltb _ _ _ _ Hi Hil). apply Z.ltb_ge; lia.
    + rewrite (is_int_ltb _ _ _ _ Hih Hi). apply Z.ltb_ge; lia.
Qed.

(** A number too large for a [float64] passes every bound. *)
Theorem huge_number_unbounded c lit (Hf : parse_float lit = None) : checkConstraint c (JNum lit) = None.
Proof.
  apply checkConstraint_None. cbn. by rewrite Hf.
Qed.

(** * Concrete instances *)
Section Witnesses.
(** A pattern that matches the texts that start with it; one with a bracket does
    not compile. *)
Definition toy_regexp : Regexp := {|
  Compile p := if contains_byte "[" p then Err (ErrNew "regexp") else Ok (fun s => has_prefix s p) |}.
#[local] Existing Instance toy_regexp.

Definition manifest (constraints : string) : string := dq
  ("{'version':1,'tools':[{'name':'trade','description':'d','input_schema':{'type':'object','required':['qty']},"
   +:+ "'required_capability':'tools:trade','parameter_constraints':[" +:+ constraints +:+ "]},"
   +:+ "{'name':'ping','input_schema':{},'required_capability':'tools:ping'}]} trailing").
Definition bounds := "{'name':'qty','min':1,'max':100},{'name':'symbol','enum':['AB','CD'],'max_length':2}".
Definition no_registry : Registry := {| RVersion := 0; Tools := []; byName := ∅ |}.
Definition toy_registry : Registry := match LoadJSON (manifest bounds) with Ok r => r | Err _ => no_registry end.
Definition trade : ToolSpec := default zero_tool (Find (Some toy_registry) "trade").

Example manifests : names toy_registry = ["ping"; "trade"] /\
  is_ok (LoadJSON (dq "{'version':1,'tools':[],'extra':0}")) = false /\
  is_ok (LoadJSON (manifest "{'name':''}")) = false /\ is_ok (LoadJSON (manifest "{'name':'a','pattern':'['}")) = false.
Proof. vm_compute. repeat split; reflexivity. Qed.

Example arguments :
  map (fun raw => unset (validateArgs trade (dq raw)))
    ["{'qty':100}"; "{'qty':100.00000000000001}"; "{'qty':0}"; "{}"; "null"; "[]"; "{'qty':'101'}";
     "{'qty':1e400}"; "{'qty':1,'symbol':'CD'}"; "{'qty':1,'symbol':null}"; "{'qty':5,'qty':500}"] =
    [true; false; false; false; false; false; true; true; true; false; false].
Proof. vm_compute. reflexivity. Qed.

Lemma toy_registry_loads : LoadJSON (manifest bounds) = Ok toy_registry.
Proof.
  assert (forall r : result Registry, is_ok r = true -> r = Ok (match r with Ok r => r | Err _ => no_registry end)) as H by (by intros []).
  apply H. vm_compute. reflexivity.
Defined.

Lemma loaded_manifest_well_formed_witness : NoDup (map TName (Tools toy_registry)) /\ 1 <= RVersion toy_registry.
Proof.
  destruct (loaded_manifest_well_formed (manifest bounds) toy_registry toy_registry_loads) as (H1 & _ & H2 & _).
  split; [exact H2|exact H1].
Defined.

Definition between (lo hi : Z) : Constraint := {| CName := "qty"; Min := Some {| f_man := lo; f_exp := 0 |};
  Max := Some {| f_man := hi; f_exp := 0 |}; MinLength := None; MaxLength := None; Enum := []; Pattern := "";
  patternRe := None |}.
Lemma integer_bounds_exact_witness : checkNumeric (between 1 100) (JNum "100") = None.
Proof.
  refine (proj2 (integer_bounds_exact (between 1 100) "100" 100 {| f_man := 1; f_exp := 0 |} {| f_man := 100; f_exp := 0 |}
    1 100 eq_refl eq_refl _ eq_refl eq_refl eq_refl eq_refl) _); lia.
Defined.

Lemma huge_number_unbounded_witness : checkConstraint (between 1 100) (JNum "1e400") = None.
Proof. refine (huge_number_unbounded (between 1 100) "1e400" _). vm_compute. reflexivity. Defined.
End Witnesses.
