(* ===== verification/Payload.v ===== *)
(** The wire form of a decision ([src/payload.go]) and the gRPC binding
    ([src/grpc/grpc.go]): the JSON documents of a request and of an outcome, the
    service that answers one with the other, and the client that calls it.

    The JSON of the values of package [semantics], the ASN.1 of an AIC and the
    connection are parameters; [Sprintf] is the text of a message. *)
From stdpp Require Import sorting.
From S2P Require Import Prelude GoStrings GoTime GoJson GoJsonOut Types Sha256 Capability DelegationAuth Delegation Constraints AdmissionTypes Clc Credential Admission Revocation Spiffe Bearer Evidence Challenge Pipeline AuditLog JsonLines AuditWrite Decide Bundle.
Local Open Scope string_scope.
Local Open Scope Z_scope.
Local Open Scope list_scope.

(** * Definitions *)

(** ** JSON of the shared values *)

(** Package [semantics]: the JSON of grants and of a requirement's result;
    reading goes over what is there already.  Package [pki] with
    [encoding/asn1]: the DER of an AIC. *)
Class WireValues `{ChallengeSemantics} := {
  grants_json : list Grant -> json;
  dec_grants : list Grant -> json -> result (list Grant);
  requirement_json : RequirementResult -> json;
  dec_requirement : option RequirementResult -> json -> result RequirementResult;
  AIC_Marshal : AIC -> result bytes;
  AIC_Unmarshal : bytes -> result AIC
}.

Definition omit_bool (k : string) (b : bool) : list (string * json) := omit (negb b) k (JBool b).
Definition omit_bytes (k : string) (b : bytes) : list (string * json) :=
  omit (zlen b =? 0) k (JStr (EncodeBase64 b)).
Definition omit_list {A} (k : string) (f : A -> json) (l : list A) : list (string * json) :=
  omit (zlen l =? 0) k (JArr (map f l)).
Definition omit_some {A} (k : string) (f : A -> json) (o : option A) : list (string * json) :=
  match o with None => [] | Some x => [(k, f x)] end.

(** A slice; an element is read over what the slice held. *)
Fixpoint dec_elements {A} (dec : A -> json -> result A) (zero : A) (old : list A) (l : list json) : result (list A) :=
  match l with
  | [] => Ok []
  | v :: l' => x ← dec (default zero (head old)) v; xs ← dec_elements dec zero (tail old) l'; Ok (x :: xs)
  end.
Definition dec_list {A} (dec : A -> json -> result A) (zero : A) (old : list A) (v : json) : result (list A) :=
  match v with JNull => Ok [] | JArr l => dec_elements dec zero old l | _ => Err json_type_error end.

(** A [map[string][]string]: written in the order of its keys, read into the
    map that is there. *)
Definition sorted_keys {A} (m : gmap string A) : list string := merge_sort str_le (map fst (map_to_list m)).
Definition headers_json (h : gmap string (list string)) : json :=
  JObj (map (fun k => (k, JArr (map JStr (default [] (h !! k))))) (sorted_keys h)).
Definition omit_headers (k : string) (h : gmap string (list string)) : list (string * json) :=
  omit (size h =? 0)%nat k (headers_json h).
Definition dec_headers (old : gmap string (list string)) (v : json) : result (gmap string (list string)) :=
  match v with
  | JNull => Ok ∅
  | JObj ms => foldl (fun acc '(k, x) => m ← acc; l ← dec_string_list [] x; Ok (<[k := l]> m)) (Ok old) ms
  | _ => Err json_type_error
  end.

(** ** Requests *)

(** [src/payload.go:DecideRequestDTO] *)
Record DecideRequestDTO := mkRequest {
  CertChainDER : list bytes; DBearerToken : string; DTransportSecure : bool; VerifiedCertDER : bytes;
  DMethod : string; DPath : string; DRawQuery : string; DHeaders : gmap string (list string); DClientIP : string;
  DBody : bytes
}.
Definition no_request : DecideRequestDTO := mkRequest [] "" false [] "" "" "" ∅ "" [].

(** [src/payload.go:26-37 DecideRequestDTO] as [json.Marshal] writes it. *)
Definition request_json (d : DecideRequestDTO) : json := JObj
  (omit_list "cert_chain" (fun b => JStr (EncodeBase64 b)) (CertChainDER d)
   ++ omit_str "bearer_token" (DBearerToken d) ++ omit_bool "transport_secure" (DTransportSecure d)
   ++ omit_bytes "verified_cert" (VerifiedCertDER d) ++ omit_str "method" (DMethod d) ++ omit_str "path" (DPath d)
   ++ omit_str "raw_query" (DRawQuery d) ++ omit_headers "headers" (DHeaders d)
   ++ omit_str "client_ip" (DClientIP d) ++ omit_bytes "body" (DBody d) ++ []).

(** [src/payload.go:26-37 DecideRequestDTO] one member of the document read into
    the request. *)
Definition request_field (d : DecideRequestDTO) (k : string) (v : json) : result DecideRequestDTO :=
  match d with mkRequest cc bt ts vc me pa rq hd ip bo =>
    if field_is "cert_chain" k then x ← dec_list (fun _ => dec_bytes) [] cc v; Ok (mkRequest x bt ts vc me pa rq hd ip bo)
    else if field_is "bearer_token" k then x ← dec_string bt v; Ok (mkRequest cc x ts vc me pa rq hd ip bo)
    else if field_is "transport_secure" k then x ← dec_bool ts v; Ok (mkRequest cc bt x vc me pa rq hd ip bo)
    else if field_is "verified_cert" k then x ← dec_bytes v; Ok (mkRequest cc bt ts x me pa rq hd ip bo)
    else if field_is "method" k then x ← dec_string me v; Ok (mkRequest cc bt ts vc x pa rq hd ip bo)
    else if field_is "path" k then x ← dec_string pa v; Ok (mkRequest cc bt ts vc me x rq hd ip bo)
    else if field_is "raw_query" k then x ← dec_string rq v; Ok (mkRequest cc bt ts vc me pa x hd ip bo)
    else if field_is "headers" k then x ← dec_headers hd v; Ok (mkRequest cc bt ts vc me pa rq x ip bo)
    else if field_is "client_ip" k then x ← dec_string ip v; Ok (mkRequest cc bt ts vc me pa rq hd x bo)
    else if field_is "body" k then x ← dec_bytes v; Ok (mkRequest cc bt ts vc me pa rq hd ip x)
    else Ok d
  end.
Definition dec_request : json -> result DecideRequestDTO := dec_struct request_field no_request.

(** ** Outcomes *)

(** [src/clc.go:32-47 OperationDecision] on the wire; the parameters are the JSON
    they are written as or were read from. *)
Record WireDecision := mkDecision {
  WID : string; WParams : option json; WVerdict : string; WReason : string; WUnresolved : list string;
  WGrants : list Grant; WReleased : bool
}.
Definition no_decision : WireDecision := mkDecision "" None "" "" [] [] false.

(** [src/evidence_sink.go:75-79 RecordRef] in JSON. *)
Definition ref_json (r : RecordRef) : json :=
  JObj (("digest", JStr (RefDigest r)) :: ("verdict", JStr (RefVerdict r)) :: omit_str "path" (RefPath r) ++ []).
Definition ref_field (r : RecordRef) (k : string) (v : json) : result RecordRef :=
  match r with Build_RecordRef d ve p =>
    if field_is "digest" k then x ← dec_string d v; Ok (Build_RecordRef x ve p)
    else if field_is "verdict" k then x ← dec_string ve v; Ok (Build_RecordRef d x p)
    else if field_is "path" k then x ← dec_string p v; Ok (Build_RecordRef d ve x)
    else Ok r
  end.
Definition no_ref : RecordRef := Build_RecordRef "" "" "".

(** A [map[string]any]; a value is kept by its JSON. *)
Definition dec_params (old : option json) (v : json) : result (option json) :=
  match v with
  | JNull => Ok None
  | JObj ms =>
      if any_ok v then Ok (Some (match old with Some (JObj ms0) => JObj (ms0 ++ ms) | _ => v end))
      else Err json_type_error
  | _ => Err json_type_error
  end.

Section Wire.
  Context {R : Type} {ES : EvidenceSemantics} {CH : ChallengeSemantics} {X : X509} {WV : WireValues}.
  Context (Sprintf : message -> string).

(** [src/clc.go:32-47 OperationDecision] in JSON. *)
Definition decision_json (d : WireDecision) : json := JObj
  (("id", JStr (WID d)) :: omit_some "params" (fun v => v) (WParams d) ++ ("verdict", JStr (WVerdict d)) ::
   omit_str "reason" (WReason d) ++ omit_strs "unresolved" (WUnresolved d)
   ++ omit (zlen (WGrants d) =? 0) "grants" (grants_json (WGrants d)) ++ omit_bool "released" (WReleased d) ++ []).
Definition decision_field (d : WireDecision) (k : string) (v : json) : result WireDecision :=
  match d with mkDecision i p ve r u g rl =>
    if field_is "id" k then x ← dec_string i v; Ok (mkDecision x p ve r u g rl)
    else if field_is "params" k then x ← dec_params p v; Ok (mkDecision i x ve r u g rl)
    else if field_is "verdict" k then x ← dec_string ve v; Ok (mkDecision i p x r u g rl)
    else if field_is "reason" k then x ← dec_string r v; Ok (mkDecision i p ve x u g rl)
    else if field_is "unresolved" k then x ← dec_string_list u v; Ok (mkDecision i p ve r x g rl)
    else if field_is "grants" k then x ← dec_grants g v; Ok (mkDecision i p ve r u x rl)
    else if field_is "released" k then x ← dec_bool rl v; Ok (mkDecision i p ve r u g x)
    else Ok d
  end.

(** [src/payload.go:DecideResultDTO] *)
Record DecideResultDTO := mkResult {
  RGranted : bool; RCode : string; RStatus : Z; RMessage : string; RPrincipal : string; RAgentID : string;
  RSpiffeID : string; RRoles : list string; RCapabilities : list string; RAICDER : bytes; RBearer : bool;
  RSerial : string; RVerdict : string; RReason : string; RUnresolved : list string;
  ROperationDecisions : list WireDecision; REvidence : list RecordRef; RSatisfaction : option RequirementResult;
  RClientCertDER : bytes
}.
Definition no_result : DecideResultDTO :=
  mkResult false "" 0 "" "" "" "" [] [] [] false "" "" "" [] [] [] None [].

(** [src/payload.go:101-121 DecideResultDTO] as [json.Marshal] writes it. *)
Definition result_json (d : DecideResultDTO) : json := JObj
  (("granted", JBool (RGranted d)) :: omit_str "code" (RCode d) ++ omit_int "status" (RStatus d)
   ++ omit_str "message" (RMessage d) ++ omit_str "principal" (RPrincipal d) ++ omit_str "agent_id" (RAgentID d)
   ++ omit_str "spiffe_id" (RSpiffeID d) ++ omit_strs "roles" (RRoles d) ++ omit_strs "capabilities" (RCapabilities d)
   ++ omit_bytes "aic_der" (RAICDER d) ++ omit_bool "bearer" (RBearer d) ++ omit_str "serial" (RSerial d)
   ++ omit_str "verdict" (RVerdict d) ++ omit_str "reason" (RReason d) ++ omit_strs "unresolved" (RUnresolved d)
   ++ omit_list "operation_decisions" decision_json (ROperationDecisions d) ++ omit_list "evidence" ref_json (REvidence d)
   ++ omit_some "satisfaction" requirement_json (RSatisfaction d) ++ omit_bytes "client_cert_der" (RClientCertDER d) ++ []).
(** [src/payload.go:101-121 DecideResultDTO] one member read. *)
Definition result_field (d : DecideResultDTO) (k : string) (v : json) : result DecideResultDTO :=
  match d with mkResult g c st m p a sp ro ca ai b se ve re un od ev sa cc =>
    if field_is "granted" k then x ← dec_bool g v; Ok (mkResult x c st m p a sp ro ca ai b se ve re un od ev sa cc)
    else if field_is "code" k then x ← dec_string c v; Ok (mkResult g x st m p a sp ro ca ai b se ve re un od ev sa cc)
    else if field_is "status" k then x ← dec_int st v; Ok (mkResult g c x m p a sp ro ca ai b se ve re un od ev sa cc)
    else if field_is "message" k then x ← dec_string m v; Ok (mkResult g c st x p a sp ro ca ai b se ve re un od ev sa cc)
    else if field_is "principal" k then x ← dec_string p v; Ok (mkResult g c st m x a sp ro ca ai b se ve re un od ev sa cc)
    else if field_is "agent_id" k then x ← dec_string a v; Ok (mkResult g c st m p x sp ro ca ai b se ve re un od ev sa cc)
    else if field_is "spiffe_id" k then x ← dec_string sp v; Ok (mkResult g c st m p a x ro ca ai b se ve re un od ev sa cc)
    else if field_is "roles" k then x ← dec_string_list ro v; Ok (mkResult g c st m p a sp x ca ai b se ve re un od ev sa cc)
    else if field_is "capabilities" k then x ← dec_string_list ca v; Ok (mkResult g c st m p a sp ro x ai b se ve re un od ev sa cc)
    else if field_is "aic_der" k then x ← dec_bytes v; Ok (mkResult g c st m p a sp ro ca x b se ve re un od ev sa cc)
    else if field_is "bearer" k then x ← dec_bool b v; Ok (mkResult g c st m p a sp ro ca ai x se ve re un od ev sa cc)
    else if field_is "serial" k then x ← dec_string se v; Ok (mkResult g c st m p a sp ro ca ai b x ve re un od ev sa cc)
    else if field_is "verdict" k then x ← dec_string ve v; Ok (mkResult g c st m p a sp ro ca ai b se x re un od ev sa cc)
    else if field_is "reason" k then x ← dec_string re v; Ok (mkResult g c st m p a sp ro ca ai b se ve x un od ev sa cc)
    else if field_is "unresolved" k then x ← dec_string_list un v; Ok (mkResult g c st m p a sp ro ca ai b se ve re x od ev sa cc)
    else if field_is "operation_decisions" k then
      x ← dec_list (dec_struct decision_field) no_decision od v; Ok (mkResult g c st m p a sp ro ca ai b se ve re un x ev sa cc)
    else if field_is "evidence" k then
      x ← dec_list (dec_struct ref_field) no_ref ev v; Ok (mkResult g c st m p a sp ro ca ai b se ve re un od x sa cc)
    else if field_is "satisfaction" k then
      x ← (match v with JNull => Ok None | _ => Some <$> dec_requirement sa v end);
      Ok (mkResult g c st m p a sp ro ca ai b se ve re un od ev x cc)
    else if field_is "client_cert_der" k then x ← dec_bytes v; Ok (mkResult g c st m p a sp ro ca ai b se ve re un od ev sa x)
    else Ok d
  end.

Definition dec_result : json -> result DecideResultDTO := dec_struct result_field no_result.

(** ** From and to the types of the decision *)

(** [src/payload.go:52-58 DecideRequestDTO.ToView] *)
Fixpoint parse_chain (i : Z) (ders : list bytes) : result (list Certificate) :=
  match ders with
  | [] => Ok []
  | der :: ders' =>
      match x509_ParseCertificate der with
      | Err err => Err (Errorf "aic-verifier: parse chain cert %d: %w" [AInt i; AWrap err])
      | Ok cert => l ← parse_chain (i + 1) ders'; Ok (cert :: l)
      end
  end.
(** [src/payload.go:DecideRequestDTO.ToView] *)
Definition ToView (d : DecideRequestDTO) : result (RequestView R) :=
  chain ← parse_chain 0 (CertChainDER d);
  let view vc := {| CertChain := chain; BearerToken := DBearerToken d; VerifiedCert := vc;
    TransportSecure := DTransportSecure d; VMethod := DMethod d; VPath := DPath d; RawQuery := DRawQuery d;
    Header := DHeaders d; VClientIP := DClientIP d; VBody := DBody d; PresentedCert := head chain;
    EvidenceFactsWith := None; RequireApprovalWith := None; HTTPAdapter := None |} in
  if 0 <? zlen (VerifiedCertDER d) then
    match x509_ParseCertificate (VerifiedCertDER d) with
    | Err err => Err (Errorf "aic-verifier: parse verified cert: %w" [AWrap err])
    | Ok cert => Ok (view (Some cert))
    end
  else Ok (view None).

(** [src/payload.go:RequestView.ToDTO] *)
Definition ToDTO (v : option (RequestView R)) : DecideRequestDTO :=
  match v with
  | None => no_request
  | Some v => {|
      CertChainDER := map Raw (CertChain v); DBearerToken := BearerToken v; DTransportSecure := TransportSecure v;
      VerifiedCertDER := match VerifiedCert v with Some c => Raw c | None => [] end; DMethod := VMethod v;
      DPath := VPath v; DRawQuery := RawQuery v; DHeaders := Header v; DClientIP := VClientIP v; DBody := VBody v |}
  end.

(** [src/aicverifier.go:512-553 AuthContext] on either side of the wire: the certificate may be [nil],
    verdicts are texts. *)
Record WireContext := {
  WCClientCert : option Certificate; WCPrincipal : string; WCAgentID : string; WCSPIFFEID : string;
  WCRoles : list string; WCCapabilities : list string; WCAIC : option AIC; WCBearer : bool; WCSerial : string;
  WCVerdict : string; WCReason : string; WCUnresolved : list string; WCOperationDecisions : list WireDecision;
  WCEvidence : list RecordRef; WCSatisfaction : option RequirementResult
}.

(** The parameters of an operation as [json.Marshal] writes the map. *)
Definition wire_params (p : GoParams) : result (option json) :=
  match p with
  | GoNil | GoMap true _ => Ok None
  | GoRaw raw => Ok (parse_json raw)
  | GoMap false raw | GoOther raw => raw ← raw; Ok (parse_json raw)
  end.
Definition wire_decision (od : OperationDecision) : result WireDecision :=
  p ← wire_params (ODParams od);
  Ok (mkDecision (ODID od) p (verdict_string (ODVerdict od)) (ODReason od) (ODUnresolved od) (ODGrants od) (Released od)).
Definition wire_context (ac : AuthContext) : result WireContext :=
  ods ← map_result wire_decision (ACOperationDecisions ac);
  Ok {| WCClientCert := Some (ACClientCert ac); WCPrincipal := ACPrincipal ac; WCAgentID := ACAgentID ac;
    WCSPIFFEID := ACSPIFFEID ac; WCRoles := ACRoles ac; WCCapabilities := ACCapabilities ac; WCAIC := ACAIC ac;
    WCBearer := ACBearer ac; WCSerial := ACSerial ac;
    WCVerdict := match ACVerdict ac with Some v => verdict_string v | None => "" end; WCReason := ACReason ac;
    WCUnresolved := ACUnresolved ac; WCOperationDecisions := ods; WCEvidence := ACEvidence ac;
    WCSatisfaction := ACSatisfaction ac |}.

(** [src/payload.go:DecideResultDTO.FromAuthContext] into a zero document; an AIC
    that does not marshal is left out. *)
Definition FromAuthContext (ac : option WireContext) : DecideResultDTO :=
  match ac with
  | None => mkResult true "" 0 "" "" "" "" [] [] [] false "" "" "" [] [] [] None []
  | Some ac => {|
      RGranted := true; RCode := ""; RStatus := 0; RMessage := ""; RPrincipal := WCPrincipal ac;
      RAgentID := WCAgentID ac; RSpiffeID := WCSPIFFEID ac; RRoles := WCRoles ac; RCapabilities := WCCapabilities ac;
      RAICDER := match WCAIC ac with
        | Some aic => match AIC_Marshal aic with Ok der => der | Err _ => [] end
        | None => [] end;
      RBearer := WCBearer ac; RSerial := WCSerial ac; RVerdict := WCVerdict ac; RReason := WCReason ac;
      RUnresolved := WCUnresolved ac; ROperationDecisions := WCOperationDecisions ac; REvidence := WCEvidence ac;
      RSatisfaction := WCSatisfaction ac;
      RClientCertDER := match WCClientCert ac with Some c => Raw c | None => [] end |}
  end.

(** [src/payload.go:DecideResultDTO.ToAuthContext] *)
Definition ToAuthContext (d : DecideResultDTO) : result (option WireContext) :=
  if negb (RGranted d) then Ok None
  else
    cert ← (if 0 <? zlen (RClientCertDER d) then
              match x509_ParseCertificate (RClientCertDER d) with
              | Err err => Err (Errorf "aic-verifier: parse client cert: %w" [AWrap err])
              | Ok c => Ok (Some c) end
            else Ok None);
    aic ← (if 0 <? zlen (RAICDER d) then
             match AIC_Unmarshal (RAICDER d) with
             | Err err => Err (Errorf "aic-verifier: parse aic der: %w" [AWrap err])
             | Ok a => Ok (Some a) end
           else Ok None);
    Ok (Some {| WCClientCert := cert; WCPrincipal := RPrincipal d; WCAgentID := RAgentID d; WCSPIFFEID := RSpiffeID d;
      WCRoles := RRoles d; WCCapabilities := RCapabilities d; WCAIC := aic; WCBearer := RBearer d;
      WCSerial := RSerial d; WCVerdict := RVerdict d; WCReason := RReason d; WCUnresolved := RUnresolved d;
      WCOperationDecisions := ROperationDecisions d; WCEvidence := REvidence d; WCSatisfaction := RSatisfaction d |}).

(** [src/payload.go:ParseErrorCode] *)
Definition ParseErrorCode (s : string) : result ErrorCode :=
  if String.eqb s "no_credential" then Ok ErrNoCredential
  else if String.eqb s "access_denied" then Ok ErrDenied
  else if String.eqb s "bearer_not_configured" then Ok ErrNoVerifier
  else if String.eqb s "bearer_tls_required" then Ok ErrBearerNeedsTLS
  else if String.eqb s "invalid_bearer" then Ok ErrInvalidBearer
  else if String.eqb s "chain_invalid" then Ok ErrChainInvalid
  else if String.eqb s "config_error" then Ok ErrConfig
  else Err (Errorf "aic-verifier: unknown error code %q" [AStr s]).

(** ** The codec *)

(** [src/payload.go:EncodeDecideRequest] *)
Definition EncodeDecideRequest (v : option (RequestView R)) : string := json_encode (request_json (ToDTO v)).
(** [src/payload.go:DecodeDecideRequest] *)
Definition DecodeDecideRequest (b : string) : result (RequestView R) :=
  match unmarshal dec_request b with
  | Err err => Err (Errorf "aic-verifier: decode decide request: %w" [AWrap err])
  | Ok d => ToView d
  end.

(** A refusal on the wire: an [AuthError], or any other error. *)
Definition refusal (code : ErrorCode) (status : Z) (text : string) : DecideResultDTO :=
  mkResult false (ErrorCode_String code) status text "" "" "" [] [] [] false "" "" "" [] [] [] None [].
Definition refusal_of (err : AuthError + message) : DecideResultDTO :=
  match err with
  | inl ae => refusal (Code ae) (Status ae) (Sprintf (Message ae))
  | inr err => refusal ErrDenied 403 (Sprintf err)
  end.

(** [src/payload.go:EncodeDecideResult] *)
Definition EncodeDecideResult (ac : option WireContext) (err : option (AuthError + message)) : string :=
  json_encode (result_json (match err with Some err => refusal_of err | None => FromAuthContext ac end)).

(** A refusal as the peer reads it. *)
Record WireError := { WECode : ErrorCode; WEStatus : Z; WEText : string }.

(** [src/payload.go:DecodeDecideResult] *)
Definition DecodeDecideResult (b : string) : result (option WireContext * option WireError) :=
  match unmarshal dec_result b with
  | Err err => Err (Errorf "aic-verifier: decode decide result: %w" [AWrap err])
  | Ok d =>
      if negb (RGranted d) then
        Ok (None, Some {| WECode := match ParseErrorCode (RCode d) with Ok c => c | Err _ => ErrDenied end;
                          WEStatus := RStatus d; WEText := RMessage d |})
      else match ToAuthContext d with Err err => Err err | Ok ac => Ok (ac, None) end
  end.

(** ** The gRPC binding *)

(** The decision core behind the service: an outcome and the state after it. *)
Context {St : Type}.
Abbreviation Core := (RequestView R -> St -> (AuthContext + AuthError) * St).

(** [src/grpc/grpc.go:DecisionService.Decide]; [None] when the parameters of an
    operation do not marshal. *)
Definition Service_Decide (core : option Core) (req : option DecideRequestDTO) (st : St)
  : result DecideResultDTO * St :=
  match core, req with
  | None, _ => (Ok (refusal ErrConfig 500 "aic-verifier: decision core not configured"), st)
  | Some _, None => (Ok (refusal ErrConfig 422 "aic-verifier: nil decide request"), st)
  | Some core, Some req =>
      match ToView req with
      | Err err => (Ok (refusal ErrConfig 422 (Sprintf err)), st)
      | Ok view =>
          match core view st with
          | (inr ae, st) => (Ok (refusal_of (inl ae)), st)
          | (inl ac, st) => (FromAuthContext ∘ Some <$> wire_context ac, st)
          end
      end
  end.

(** What becomes of a call on the connection. *)
Inductive delivery := Delivered | RequestLost (err : error) | ReplyLost (err : error).

(** [src/grpc/grpc.go:grpcDecideHandler] without interceptor, between the codec's
    two ends: the reply to the bytes of a request. *)
Definition grpcDecideHandler (core : option Core) (data : string) (st : St) : result string * St :=
  match unmarshal dec_request data with
  | Err err => (Err err, st)
  | Ok req => let '(r, st) := Service_Decide core (Some req) st in (json_encode ∘ result_json <$> r, st)
  end.
(** [src/grpc/grpc.go:157-158 DecisionClient.Decide] the call on the connection. *)
Definition Invoke (net : delivery) (core : option Core) (req : DecideRequestDTO) (st : St)
  : result DecideResultDTO * St :=
  match net with
  | RequestLost err => (Err err, st)
  | _ =>
      let '(r, st) := grpcDecideHandler core (json_encode (request_json req)) st in
      (match net with ReplyLost err => Err err | _ => data ← r; unmarshal dec_result data end, st)
  end.

(** [src/grpc/grpc.go:DecisionClient.Decide] *)
Definition Client_Decide (net : delivery) (core : option Core) (view : option (RequestView R)) (st : St)
  : (option WireContext + WireError) * St :=
  let failed text := {| WECode := ErrDenied; WEStatus := 502; WEText := Sprintf text |} in
  let '(r, st) := Invoke net core (ToDTO view) st in
  (match r with
   | Err err => inr (failed (Errorf "aic-verifier: grpc decision call failed: %v" [AErr err]))
   | Ok res =>
       if negb (RGranted res) then
         inr {| WECode := match ParseErrorCode (RCode res) with Ok c => c | Err _ => ErrDenied end;
                WEStatus := if RStatus res =? 0 then 403 else RStatus res; WEText := RMessage res |}
       else match ToAuthContext res with
       | Err err => inr (failed (Errorf "aic-verifier: decode grpc decision: %v" [AErr err]))
       | Ok ac => inl ac
       end
   end, st).
End Wire.

(** * Facts *)
Lemma omit_some_step {S A} (field : S -> string -> json -> result S) s s' k (f : A -> json) o rest :
  match o with None => s' = s | Some x => field s k (f x) = Ok s' end ->
  foldl (fun acc (m : string * json) => let '(k, x) := m in s ← acc; field s k x) (Ok s) (omit_some k f o ++ rest) =
  foldl (fun acc (m : string * json) => let '(k, x) := m in s ← acc; field s k x) (Ok s') rest.
Proof. destruct o as [x|]; [apply member_step|by intros ->]. Qed.

Lemma dec_elements_map {A} (dec : A -> json -> result A) zero (f : A -> json) l :
  Forall (fun x => dec zero (f x) = Ok x) l -> dec_elements dec zero [] (map f l) = Ok l.
Proof. induction 1 as [|x l Hx _ IH]; [done|]. cbn in *. rewrite Hx. cbn. by rewrite IH. Qed.
Lemma dec_list_map {A} (dec : A -> json -> result A) zero (f : A -> json) l :
  Forall (fun x => dec zero (f x) = Ok x) l -> dec_list dec zero [] (JArr (map f l)) = Ok l.
Proof. apply dec_elements_map. Qed.
Lemma dec_list_bytes l : dec_list (fun _ => dec_bytes) [] [] (JArr (map (fun b => JStr (EncodeBase64 b)) l)) = Ok l.
Proof. apply dec_list_map. apply Forall_true. intros b. apply base64_round_trip. Qed.
Lemma dec_bytes_enc b : dec_bytes (JStr (EncodeBase64 b)) = Ok b.
Proof. apply base64_round_trip. Qed.
Lemma dec_string_list_enc l : dec_string_list [] (JArr (map JStr l)) = Ok l.
Proof. apply dec_strings_map. Qed.

Lemma sorted_keys_elem {A} (m : gmap string A) k : k ∈ sorted_keys m <-> is_Some (m !! k).
Proof.
  unfold sorted_keys. rewrite merge_sort_Permutation, list_elem_of_fmap. split.
  - intros ([k' x] & -> & H%elem_of_map_to_list). by exists x.
  - intros [x H]. exists (k, x). by rewrite elem_of_map_to_list.
Qed.

Lemma dec_headers_keys (h : gmap string (list string)) ks (m : gmap string (list string)) :
  foldl (fun acc '(k, x) => m ← acc; l ← dec_string_list [] x; Ok (<[k := l]> m)) (Ok m)
    (map (fun k => (k, JArr (map JStr (default [] (h !! k))))) ks) =
  Ok (foldl (fun m k => <[k := default [] (h !! k)]> m) m ks).
Proof. revert m. induction ks as [|k ks IH]; intros m; [done|]. cbn. rewrite dec_strings_map. cbn. apply IH. Qed.

Lemma foldl_insert_lookup {A} (f : string -> A) ks (m : gmap string A) k :
  foldl (fun m k => <[k := f k]> m) m ks !! k = if bool_decide (k ∈ ks) then Some (f k) else m !! k.
Proof.
  revert m. induction ks as [|k' ks IH]; intros m; [done|]. cbn [foldl]. rewrite IH.
  destruct (decide (k ∈ ks)) as [Hk|Hk].
  - rewrite !bool_decide_eq_true_2; [done|by right|done].
  - rewrite (bool_decide_eq_false_2 _ Hk). destruct (decide (k = k')) as [->|Hne].
    + rewrite lookup_insert_eq, bool_decide_eq_true_2; [done|by left].
    + rewrite lookup_insert_ne, bool_decide_eq_false_2; [done| |done]. intros [?|?]%elem_of_cons; congruence.
Qed.

Lemma dec_headers_enc h : dec_headers ∅ (headers_json h) = Ok h.
Proof.
  unfold dec_headers, headers_json. rewrite dec_headers_keys. f_equal. apply map_eq. intros k.
  rewrite foldl_insert_lookup, lookup_empty. case_bool_decide as H; rewrite sorted_keys_elem in H.
  - by destruct H as [x ->].
  - destruct (h !! k); [|done]. by destruct H.
Qed.

Create Rewrite HintDb wire.
#[export] Hint Rewrite dec_list_bytes dec_bytes_enc dec_string_list_enc dec_headers_enc : wire.

Ltac wire_absent := let H := fresh in intros H;
  first [apply String.eqb_eq in H | apply zlen_eqb_nil in H | apply Z.eqb_eq in H | apply negb_true_iff in H
        | apply Nat.eqb_eq, map_size_empty_iff in H]; subst; reflexivity.
Ltac fields := repeat match goal with |- context [field_is ?n ?k] =>
  let b := eval vm_compute in (field_is n k) in change (field_is n k) with b; cbv iota beta end.
Ltac wire_value field := cbv delta [request_field ref_field decision_field result_field]; cbv iota beta; fields; autorewrite with wire; reflexivity.
Ltac wire_member field :=
  first [ refine (eq_trans (omit_step field _ _ _ _ _ _ _ _) _); [wire_value field|wire_absent|]
        | refine (eq_trans (member_step field _ _ _ _ _ _) _); [wire_value field|] ].

Lemma request_reads_back d : dec_request (request_json d) = Ok d.
Proof.
  destruct d as [cc bt ts vc me pa rq hd ip bo]. unfold dec_request, request_json, dec_struct, no_request.
  unfold omit_list, omit_str, omit_bool, omit_bytes, omit_headers.
  cbn [CertChainDER DBearerToken DTransportSecure VerifiedCertDER DMethod DPath DRawQuery DHeaders DClientIP DBody].
  repeat wire_member request_field. reflexivity.
Qed.

Lemma ref_reads_back r : dec_struct ref_field no_ref (ref_json r) = Ok r.
Proof.
  destruct r as [d v p]. unfold dec_struct, ref_json, no_ref, omit_str. cbn [RefDigest RefVerdict RefPath].
  repeat wire_member ref_field. reflexivity.
Qed.
Lemma dec_list_refs l : dec_list (dec_struct ref_field) no_ref [] (JArr (map ref_json l)) = Ok l.
Proof. apply dec_list_map. apply Forall_true. apply ref_reads_back. Qed.
#[export] Hint Rewrite dec_list_refs : wire.

(** What the outside packages' encodings promise: what is written is read back. *)
Class WireLaws `{CH : ChallengeSemantics} {WV : WireValues} := {
  grants_back l : dec_grants [] (grants_json l) = Ok l;
  requirement_back r : (exists ms, requirement_json r = JObj ms) /\ dec_requirement None (requirement_json r) = Ok r;
  AIC_back aic der : AIC_Marshal aic = Ok der -> AIC_Unmarshal der = Ok aic /\ der <> []
}.

Section WireFacts.
  Context {R : Type} {CN : CapabilityNames} {CS : ClcSemantics} {HF : HashFunction} {PM : PkiMethods}
          {DC : DACrypto} {CP : CertificateParser} {CE : CRLEnv} {OE : OCSPEnv} {UP : URLParser}
          {X : X509} {J : AicJwt} {ES : EvidenceSemantics} {CH : ChallengeSemantics} {WV : WireValues} {WL : WireLaws}.
  Context (Sprintf : message -> string).


Definition params_ok (d : WireDecision) : Prop :=
  match WParams d with None => True | Some v => any_ok v = true /\ exists ms, v = JObj ms end.

Lemma dec_params_enc (v : json) : any_ok v = true -> (exists ms, v = JObj ms) -> dec_params None v = Ok (Some v).
Proof. intros H [ms ->]. cbn [dec_params]. by rewrite H. Qed.

Lemma decision_reads_back d : params_ok d -> dec_struct decision_field no_decision (decision_json d) = Ok d.
Proof.
  destruct d as [i p ve r u g rl]. unfold params_ok. cbn [WParams]. intros Hp.
  unfold dec_struct, decision_json, no_decision, omit_str, omit_strs, omit_bool.
  cbn [WID WParams WVerdict WReason WUnresolved WGrants WReleased].
  wire_member decision_field. etransitivity.
  { apply (omit_some_step decision_field _ (mkDecision i p "" "" [] [] false)). destruct p as [v|]; [|reflexivity].
    unfold decision_field. fields. destruct Hp as [H1 H2]. by rewrite dec_params_enc. }
  pose proof grants_back as Hg. repeat wire_member decision_field.
  refine (eq_trans (omit_step decision_field _ (mkDecision i p ve r u g false) _ _ _ _ _ _) _).
  { unfold decision_field. fields. by rewrite Hg. }
  { wire_absent. }
  repeat wire_member decision_field. reflexivity.
Qed.

Definition result_ok (d : DecideResultDTO) : Prop := count (RStatus d) /\ Forall params_ok (ROperationDecisions d).

Lemma result_reads_back d : result_ok d -> dec_result (result_json d) = Ok d.
Proof.
  destruct d as [g c st m p a sp ro ca ai b se ve re un od ev sa cc]. unfold result_ok. cbn [RStatus ROperationDecisions].
  intros [Hs Ho]. unfold dec_result, dec_struct, result_json, no_result, omit_str, omit_strs, omit_bool, omit_int, omit_bytes, omit_list.
  cbn [RGranted RCode RStatus RMessage RPrincipal RAgentID RSpiffeID RRoles RCapabilities RAICDER RBearer RSerial
       RVerdict RReason RUnresolved ROperationDecisions REvidence RSatisfaction RClientCertDER].
  wire_member result_field.
  refine (eq_trans (omit_step result_field _ (mkResult g c st "" "" "" "" [] [] [] false "" "" "" [] [] [] None []) _ _ _ _ _ _) _).
  { unfold result_field. fields. cbn [dec_int]. by rewrite int_lit_int64. }
  { wire_absent. }
  repeat wire_member result_field.
  refine (eq_trans (omit_step result_field _ (mkResult g c st m p a sp ro ca ai b se ve re un od [] None []) _ _ _ _ _ _) _).
  { unfold result_field. fields. rewrite dec_list_map; [done|]. eapply Forall_impl; [exact Ho|]. apply decision_reads_back. }
  { wire_absent. }
  wire_member result_field. etransitivity.
  { apply (omit_some_step result_field _ (mkResult g c st m p a sp ro ca ai b se ve re un od ev sa [])).
    destruct sa as [r|]; [|reflexivity]. unfold result_field. fields.
    destruct (requirement_back r) as [[ms Hm] Hr]. rewrite Hm in *. by rewrite Hr. }
  wire_member result_field. reflexivity.
Qed.

(** ** What travels *)

(** A document of valid UTF-8 (JSON replaces other bytes by U+FFFD, see
    [invalid_text_replaced]) and unsigned integers, nested no deeper than the
    decoder reads. *)
Definition plain (j : json) : Prop := clean j = true /\ (depth j <= max_depth)%nat.
Lemma unmarshal_plain {A} (dec : json -> result A) j : plain j -> unmarshal dec (json_encode j) = dec j.
Proof. intros [Hc Hd]. unfold unmarshal. by rewrite json_round_trip. Qed.

(** A certificate that parses back from its DER. *)
Definition reparses (c : Certificate) : Prop := x509_ParseCertificate (Raw c) = Ok c /\ Raw c <> [].

(** What of a view crosses the wire. *)
Definition carried (v : RequestView R) : RequestView R := {|
  CertChain := CertChain v; BearerToken := BearerToken v; VerifiedCert := VerifiedCert v;
  TransportSecure := TransportSecure v; VMethod := VMethod v; VPath := VPath v; RawQuery := RawQuery v;
  Header := Header v; VClientIP := VClientIP v; VBody := VBody v; PresentedCert := head (CertChain v);
  EvidenceFactsWith := None; RequireApprovalWith := None; HTTPAdapter := None |}.
Definition request_travels (v : RequestView R) : Prop :=
  Forall reparses (CertChain v) /\ (forall c, VerifiedCert v = Some c -> reparses c) /\
  plain (request_json (ToDTO (Some v))).

Lemma parse_chain_Raw l i : Forall reparses l -> parse_chain i (map Raw l) = Ok l.
Proof. intros H. revert i. induction H as [|c l [Hc _] _ IH]; intros i; [done|]. cbn. by rewrite Hc, IH. Qed.

Lemma ToView_ToDTO v : request_travels v -> ToView (ToDTO (Some v)) = Ok (carried v).
Proof.
  intros (Hc & Hv & _). unfold ToView, ToDTO, carried. cbn [CertChainDER VerifiedCertDER]. rewrite parse_chain_Raw by done.
  cbn. destruct (VerifiedCert v) as [c|]; [|reflexivity]. destruct (Hv c eq_refl) as [Hp Hr].
  rewrite (proj2 (zlen_pos_ne _) Hr). by rewrite Hp.
Qed.

Record context_travels (wc : WireContext) : Prop := {
  ct_cert : forall c, WCClientCert wc = Some c -> reparses c;
  ct_aic : forall aic, WCAIC wc = Some aic -> is_ok (AIC_Marshal aic) = true;
  ct_params : Forall params_ok (WCOperationDecisions wc);
  ct_plain : plain (result_json (FromAuthContext (Some wc)))
}.

Lemma ToAuthContext_From wc : context_travels wc -> ToAuthContext (FromAuthContext (Some wc)) = Ok (Some wc).
Proof.
  intros [Hc Ha _ _]. destruct wc as [cert p a sp ro ca aic b se ve re un od ev sa]. cbn in Hc, Ha.
  unfold ToAuthContext, FromAuthContext. cbn [negb RGranted RClientCertDER RAICDER WCClientCert WCAIC].
  destruct cert as [c|].
  - destruct (Hc c eq_refl) as [Hp Hr]. rewrite (proj2 (zlen_pos_ne _) Hr), Hp. cbn.
    destruct aic as [ai|]; [|reflexivity]. specialize (Ha ai eq_refl). destruct (AIC_Marshal ai) as [der|] eqn:Em; [|done].
    apply AIC_back in Em as [Hu Hd]. cbn. rewrite (proj2 (zlen_pos_ne _) Hd). by rewrite Hu.
  - cbn. destruct aic as [ai|]; [|reflexivity]. specialize (Ha ai eq_refl). destruct (AIC_Marshal ai) as [der|] eqn:Em; [|done].
    apply AIC_back in Em as [Hu Hd]. rewrite (proj2 (zlen_pos_ne _) Hd). by rewrite Hu.
Qed.

Definition refusal_travels (ae : AuthError) : Prop :=
  count (Status ae) /\ plain (result_json (refusal_of Sprintf (inl ae))).

Lemma error_code_back c : ParseErrorCode (ErrorCode_String c) = Ok c.
Proof. by destruct c. Qed.

(** The documents of the codec read back as they were written. *)
Lemma request_codec v : request_travels v -> DecodeDecideRequest (EncodeDecideRequest (Some v)) = Ok (carried v).
Proof.
  intros Hv. unfold DecodeDecideRequest, EncodeDecideRequest. rewrite unmarshal_plain by apply Hv.
  rewrite request_reads_back. by apply ToView_ToDTO.
Qed.
Lemma context_result_ok wc : context_travels wc -> result_ok (FromAuthContext (Some wc)).
Proof. intros Ht. split; [by split|apply Ht]. Qed.
Lemma result_codec wc : context_travels wc ->
  DecodeDecideResult (EncodeDecideResult Sprintf (Some wc) None) = Ok (Some wc, None).
Proof.
  intros Ht. unfold DecodeDecideResult, EncodeDecideResult. rewrite unmarshal_plain by apply Ht.
  rewrite result_reads_back by (by apply context_result_ok).
  change (RGranted (FromAuthContext (Some wc))) with true. cbn [negb]. by rewrite (ToAuthContext_From wc Ht).
Qed.
Lemma refusal_codec ae : refusal_travels ae ->
  DecodeDecideResult (EncodeDecideResult Sprintf None (Some (inl ae))) =
  Ok (None, Some {| WECode := Code ae; WEStatus := Status ae; WEText := Sprintf (Message ae) |}).
Proof.
  intros [Hs Hp]. unfold DecodeDecideResult, EncodeDecideResult. rewrite unmarshal_plain by done.
  rewrite result_reads_back by (split; [done|constructor]). cbn [refusal_of refusal RGranted negb RCode RStatus RMessage].
  by rewrite error_code_back.
Qed.



(** * Properties *)
Context (EqualFold : string -> string -> bool).

(** The decision core of [src/decide.go] as the service calls it; its state is
    what a decision changes, the counters and the effects so far. *)
Definition local_core (a : authenticator R) (env : decide_env) (gcr : option CapabilityRegistry) (now : Time)
    (view : RequestView R) (st : decide_state * DecisionMetrics * list effects)
  : (AuthContext + AuthError) * (decide_state * DecisionMetrics * list effects) :=
  let '(s, m, fxs) := st in
  let '(r, s, fx, m) := Decide_ EqualFold a env gcr view s m now in (r, (s, m, fxs ++ [fx])).



End WireFacts.

(** * Concrete instances *)
Section Witnesses.
  #[local] Existing Instance clc_names.
  #[local] Existing Instance toy_semantics.
  #[local] Existing Instance toy_crypto.
  #[local] Existing Instance adm_methods.
  #[local] Existing Instance adm_parser.
  #[local] Existing Instance sha256.
  #[local] Existing Instance toy_crl_env.
  #[local] Existing Instance toy_ocsp_env.
  #[local] Existing Instance gate_urls.
  #[local] Existing Instance toy_jwt.
  #[local] Existing Instance toy_evidence.
  #[local] Existing Instance toy_x509.
  #[local] Existing Instance toy_challenges.

Definition toy_metrics : DecisionMetrics :=
  {| DecideTotal := 0; MGranted := 0; MDenied := 0; ConfigReload := 0; lastErr := None; lastOK := None |}.
Definition wire_gateway : authenticator unit := toy_gateway (toy_answer "approved").
Definition decided := Decide_ String.eqb wire_gateway toy_readings None (toy_view None) toy_start toy_metrics 5.

#[local] Instance PrincipalUid_eq_dec : EqDecision PrincipalUid.
Proof. solve_decision. Defined.
#[local] Instance DelegationAuthorization_eq_dec : EqDecision DelegationAuthorization.
Proof. solve_decision. Defined.
#[local] Instance AIC_eq_dec : EqDecision AIC.
Proof. solve_decision. Defined.
Definition decided_aic : AIC :=
  match decided.1.1.1 with inl ac => default (toy_aic 2 [] []) (ACAIC ac) | inr _ => toy_aic 2 [] [] end.

(** Grants as objects, a requirement's result as its flag, one AIC. *)
Definition toy_grant_json (g : Grant) : json := JArr
  [JStr (GrantID g); match GrantParams g with None => JNull | Some m => JObj (map_to_list m) end;
   JArr (map JStr (GrantConstraints g))].
Definition toy_dec_grant (old : Grant) (v : json) : result Grant :=
  match v with
  | JArr [JStr i; p; c] =>
      c ← dec_string_list [] c;
      Ok {| GrantID := i; GrantParams := match p with JObj ms => Some (list_to_map ms) | _ => None end;
            GrantConstraints := c |}
  | _ => Err json_type_error
  end.
Definition toy_wire : WireValues := {|
  grants_json := fun l => JArr (map toy_grant_json l);
  dec_grants := fun _ => dec_list toy_dec_grant {| GrantID := ""; GrantParams := None; GrantConstraints := [] |} [];
  requirement_json := fun b => JObj [("satisfied", JBool b)];
  dec_requirement := fun _ v => match v with JObj [(_, JBool b)] => Ok (b : RequirementResult) | _ => Err json_type_error end;
  AIC_Marshal := fun a => if decide (a = decided_aic) then Ok [Byte.x30] else Err (ErrNew "asn1");
  AIC_Unmarshal := fun _ => Ok decided_aic |}.
  #[local] Existing Instance toy_wire.
Lemma toy_wire_laws : WireLaws.
Proof.
  split.
  - intros l. apply dec_list_map. apply Forall_true. intros [i p c]. cbn. rewrite dec_strings_map. cbn.
    destruct p as [m|]; [|done]. by rewrite list_to_map_to_list.
  - intros b. split; [by eexists|done].
  - intros a der. cbn. destruct (decide (a = decided_aic)) as [->|]; [|done]. by intros [= <-].
Qed.
  #[local] Existing Instance toy_wire_laws.

Definition wire_text (m : message) : string := "refused".
(** An admitted request over the wire, and one with no credential. *)
Example wired :
  match (Client_Decide (R:=unit) wire_text Delivered (Some (local_core String.eqb wire_gateway toy_readings None 5))
      (Some (toy_view None)) (toy_start, toy_metrics, [])).1 with
  | inl (Some wc) => String.eqb (WCPrincipal wc) "alice" && bool_decide (WCCapabilities wc = ["read"; "write"])
  | _ => false end = true.
Proof. vm_compute. reflexivity. Qed.
Example wired_refusal :
  match (Client_Decide (R:=unit) wire_text Delivered (Some (local_core String.eqb wire_gateway toy_readings None 5))
      None (toy_start, toy_metrics, [])).1 with
  | inr e => bool_decide (WECode e = ErrNoCredential) && (WEStatus e =? 401)
  | _ => false end = true.
Proof. vm_compute. reflexivity. Qed.

(** A path that is not valid UTF-8 ([/%ff] as [net/http] decodes it) reaches the
    core of the other side with U+FFFD in its place. *)
Definition odd_view : RequestView unit := {|
  CertChain := []; BearerToken := "t1"; VerifiedCert := None; TransportSecure := true; VMethod := "GET";
  VPath := "/" +:+ String (chr 255) ""; RawQuery := ""; Header := ∅; VClientIP := ""; VBody := [];
  PresentedCert := None; EvidenceFactsWith := None; RequireApprovalWith := None; HTTPAdapter := None |}.
Example invalid_text_replaced :
  match DecodeDecideRequest (R:=unit) (EncodeDecideRequest (Some odd_view)) with
  | Ok v => String.eqb (VPath v) ("/" +:+ String (chr 239) (String (chr 191) (String (chr 189) "")))
            && negb (String.eqb (VPath v) (VPath odd_view))
  | Err _ => false end = true.
Proof. vm_compute. reflexivity. Qed.

#[local] Instance PublicKey_eq_dec : EqDecision PublicKey.
Proof. solve_decision. Defined.
#[local] Instance Certificate_eq_dec : EqDecision Certificate.
Proof. solve_decision. Defined.



End Witnesses.
