(* ===== verification/McpServer.v ===== *)
(** The MCP server ([src/mcp/server.go], [src/mcp/tool.go],
    [src/mcp/audit.go]): the gate before the transport, which refuses a tool call
    without the capability or with arguments out of bounds, the gate inside a
    tool, and the audit entry of every decision.

    The transport and what it answers belong to package [mcp-go]; [Sprintf] is
    the text of a message. *)
From Stdlib Require Import Ascii.
From stdpp Require Import sorting.
From S2P Require Import Prelude GoStrings GoTime GoJson GoJsonOut GoNet GoHttp GoClock Types Sha256 Capability DelegationAuth Constraints AdmissionTypes Clc Credential Admission Revocation Spiffe Bearer Evidence Challenge AuditLog AuditWrite Decide Identity Records EvidenceFiles Bundle McpRegistry.
Local Open Scope string_scope.
Local Open Scope Z_scope.
Local Open Scope list_scope.

(** * Definitions *)

(** ** Raw messages

    [json.Compact] with HTML escaping, of a valid text: white space goes, inside
    strings [<], [>], [&], U+2028 and U+2029 are escaped. *)
Fixpoint compact (inside escaped : bool) (s : string) : string :=
  match s with
  | EmptyString => ""
  | String c s1 =>
      let plain := String c (compact (if inside then negb (Ascii.eqb c (chr 34)) || escaped else Ascii.eqb c (chr 34))
                                     (inside && Ascii.eqb c (chr 92) && negb escaped) s1) in
      if negb inside && is_ws c then compact inside escaped s1
      else if (code c =? 60) || (code c =? 62) || (code c =? 38) then
        backslash +:+ "u00" +:+ String (hex_digit (code c / 16)) (String (hex_digit (code c mod 16)) "")
        +:+ compact inside false s1
      else match s1 with
      | String d (String e s3) =>
          if (code c =? 226) && (code d =? 128) && ((code e =? 168) || (code e =? 169)) then
            backslash +:+ "u202" +:+ String (hex_digit (code e mod 16)) "" +:+ compact inside false s3
          else plain
      | _ => plain
      end
  end.

(** The text of the first value of [s] and what follows it. *)
Definition raw_value (s : string) : option (string * string) :=
  let s := skip_ws s in
  match scan_value (S (String.length s)) max_depth s with
  | Some (_, r) => Some (stake (String.length s - String.length r) s, r)
  | None => None
  end.

(** The members of an object, each value as its text. *)
Fixpoint raw_members (k : nat) (s : string) : option (list (string * string)) :=
  match k with
  | O => None
  | S k' =>
      match skip_ws s with
      | String q r =>
          if negb (code q =? 34) then None else
          match scan_string (String.length s) r with
          | None => None
          | Some (name, r1) =>
              match skip_ws r1 with
              | String ":" r2 =>
                  match raw_value r2 with
                  | None => None
                  | Some (raw, r3) =>
                      match skip_ws r3 with
                      | String "," r4 => option_map (cons (name, raw)) (raw_members k' r4)
                      | String "}" _ => Some [(name, raw)]
                      | _ => None
                      end
                  end
              | _ => None
              end
          end
      | EmptyString => None
      end
  end.
Definition raw_object (s : string) : option (list (string * string)) :=
  match parse_json s with
  | Some JNull | Some (JObj []) => Some []
  | Some (JObj _) => match skip_ws s with String _ r => raw_members (String.length r) r | _ => None end
  | _ => None
  end.

(** [src/mcp/server.go:183-188 ServeHTTP] one JSON-RPC message; a raw field that
    is absent is empty. *)
Record rpc_message := { rpc_id : string; rpc_method : string; rpc_params : string }.
Definition rpc_field (m : option rpc_message) (k raw : string) : option rpc_message :=
  match m with
  | None => None
  | Some m =>
      if field_is "id" k then Some {| rpc_id := raw; rpc_method := rpc_method m; rpc_params := rpc_params m |}
      else if field_is "method" k then
        match unmarshal (dec_string (rpc_method m)) raw with
        | Ok x => Some {| rpc_id := rpc_id m; rpc_method := x; rpc_params := rpc_params m |}
        | Err _ => None
        end
      else if field_is "params" k then
        Some {| rpc_id := rpc_id m; rpc_method := rpc_method m; rpc_params := raw |}
      else Some m
  end.
Definition dec_message (body : string) : option rpc_message :=
  match raw_object body with
  | None => None
  | Some ms => foldl (fun m '(k, raw) => rpc_field m k raw)
                 (Some {| rpc_id := ""; rpc_method := ""; rpc_params := "" |}) ms
  end.

(** [src/mcp/server.go:203-207 serveMessage] the tool and its arguments; an error
    of the decoding is ignored, and so is a name that is no string. *)
Definition call_field (p : string * string) (k raw : string) : string * string :=
  if field_is "name" k then (match unmarshal (dec_string p.1) raw with Ok x => x | Err _ => p.1 end, p.2)
  else if field_is "arguments" k then (p.1, raw) else p.
Definition dec_call (params : string) : string * string :=
  match raw_object params with
  | None => ("", "")
  | Some ms => foldl (fun p '(k, raw) => call_field p k raw) ("", "") ms
  end.

(** ** Identity and capabilities *)

(** What the server reads of an [AuthContext]. *)
Record McpIdentity := {
  MIAgentID : string; MIPrincipal : string; MICapabilities : list string; MIAIC : list Capability;
  MICert : option Certificate
}.

(** [src/mcp/server.go:ServerConfig] with the registry of [NewHandler]. *)
Record enforcement := { e_reg : Registry; e_audit : bool; trustProxy : bool }.

(** What a request did: the status and the text answered, the identity it was
    handed to the transport with, the audit entries. *)
Record answered := {
  a_status : Z; a_body : string; a_forwarded : option (option McpIdentity); a_entries : list (AuditEntry message)
}.

(** [mcp.CallToolRequest]: the raw arguments, and the decoded ones when they are
    an object. *)
Record CallToolRequest := { RawArguments : string; ArgumentsJSON : option (result string) }.
(** [mcp.CallToolResult] *)
Record CallToolResult := { IsError : bool; Content : string; StructuredContent : option json }.

(** [src/mcp/server.go:SpecVersion] *)
Definition SpecVersion := "2025-11-25".

(** [time.Duration.Round(time.Millisecond).String()] of a duration that is not
    negative. *)
Definition frac3 (n : Z) : string :=
  let t := trim_right_byte "0" (GoClock.pad 3 n) in if String.eqb t "" then "" else "." +:+ t.
Definition ms_string (d : Duration) : string :=
  let n := (d + 500000) / 1000000 in
  if n =? 0 then "0s" else if n <? 1000 then int_lit n +:+ "ms"
  else
    let s := n / 1000 in
    let sec := int_lit (s mod 60) +:+ frac3 (n mod 1000) +:+ "s" in
    if s <? 60 then sec
    else if s <? 3600 then int_lit (s / 60) +:+ "m" +:+ sec
    else int_lit (s / 3600) +:+ "h" +:+ int_lit (s / 60 mod 60) +:+ "m" +:+ sec.
Example ms_strings : map ms_string [0; 499999; 500000; 1500000000; 61000000000; 3600000000000; 5025120000000] =
  ["0s"; "0s"; "1ms"; "1.5s"; "1m1s"; "1h0m0s"; "1h23m45.12s"].
Proof. reflexivity. Qed.

(** [strings.ReplaceAll] of a byte by an underscore. *)
Fixpoint underscore (c : ascii) (s : string) : string :=
  match s with EmptyString => "" | String d s' => String (if Ascii.eqb c d then "_"%char else d) (underscore c s') end.

(** [src/mcp/audit.go:actionForMethod] *)
Definition actionForMethod (m : string) : string :=
  if String.eqb m "initialize" then "mcp_initialize"
  else if String.eqb m "tools/list" then "mcp_tools_list"
  else if String.eqb m "tools/call" then "mcp_tools_call"
  else "mcp_" +:+ underscore "." (underscore "/" m).

(** [src/mcp/audit.go:clientIP] *)
Definition clientIP (remoteAddr : string) : string :=
  match SplitHostPort remoteAddr with
  | Ok (host, _) => host
  | Err _ => if String.eqb remoteAddr "" then "unknown" else remoteAddr
  end.

(** [http.Error] ends its text with a newline. *)
Definition line_of (s : string) : string := s +:+ String nl "".

Section Server.
  Context {R : Type} {CN : CapabilityNames} {CS : ClcSemantics} {HF : HashFunction} {PM : PkiMethods}
          {X : X509} {CP : CertificateParser} {UP : URLParser} {J : AicJwt} {ES : EvidenceSemantics}
          {CH : ChallengeSemantics}.
  Context (Sprintf : message -> string).

Definition of_context (ac : AuthContext) : McpIdentity := {|
  MIAgentID := ACAgentID ac; MIPrincipal := ACPrincipal ac; MICapabilities := ACCapabilities ac;
  MIAIC := match ACAIC ac with Some aic => Capabilities aic | None => [] end; MICert := Some (ACClientCert ac) |}.
Definition of_headers (hc : HeaderContext) : McpIdentity := {|
  MIAgentID := HCAgentID hc; MIPrincipal := HCPrincipal hc; MICapabilities := HCCapabilities hc; MIAIC := HCAIC hc;
  MICert := None |}.

(** [src/mcp/server.go:147-163 ServeHTTP] *)
Definition identity_of (e : enforcement) (ctx : option AuthContext) (h : GoHttp.Header) : option McpIdentity :=
  if trustProxy e then option_map of_headers (AuthContextFromHeaders h) else option_map of_context ctx.

(** [src/mcp/server.go:capsAllow] *)
Definition capsAllow (ac : option McpIdentity) (required : string) : bool :=
  if String.eqb required "" then true
  else match ac with
  | None => false
  | Some ac =>
      existsb (fun c => MatchCapability (FullID c) required) (MIAIC ac)
      || existsb (fun id => MatchCapability id required) (MICapabilities ac)
  end.

(** ** Audit entries *)

(** [src/mcp/audit.go:auditStart] the entry of a request. *)
Definition auditStart (ac : option McpIdentity) (r : Request) : AuditEntry message :=
  let ip := clientIP (rRemoteAddr r) in
  let e := match ac ≫= MICert with
    | Some cert => NewAuditEntryFromConn ip "mcp" "mcp" cert
    | None => {| AETime := ""; AEAction := ActionConnected; AESrcIP := ip; AEClientCN := ""; AEClientSerial := "";
        AERoles := []; AEMapping := "mcp"; AETarget := "mcp"; AETargetID := ""; AEDuration := "";
        AEDenyReason := Errorf "" []; AEBytesIn := 0; AEBytesOut := 0; AETraceId := ""; AESessionId := "";
        AEGatewayId := ""; AEProtocol := ""; AEAgentId := ""; AESPIFFEID := ""; AEPrincipalUid := "";
        AEDelegationMode := 0; AEDecision := ""; AECapabilities := []; AELevel := ""; AEDaHash := "";
        AEAICFingerprint := ""; AEPolicyVersion := 0; AERecordDigest := "" |}
    end in
  {| AETime := AETime e; AEAction := ""; AESrcIP := AESrcIP e; AEClientCN := AEClientCN e;
     AEClientSerial := AEClientSerial e; AERoles := AERoles e; AEMapping := AEMapping e; AETarget := "mcp";
     AETargetID := AETargetID e; AEDuration := AEDuration e; AEDenyReason := AEDenyReason e;
     AEBytesIn := AEBytesIn e; AEBytesOut := AEBytesOut e; AETraceId := AETraceId e; AESessionId := AESessionId e;
     AEGatewayId := AEGatewayId e; AEProtocol := AEProtocol e;
     AEAgentId := match ac with Some a => MIAgentID a | None => AEAgentId e end; AESPIFFEID := AESPIFFEID e;
     AEPrincipalUid := match ac with Some a => MIPrincipal a | None => AEPrincipalUid e end;
     AEDelegationMode := AEDelegationMode e; AEDecision := AEDecision e;
     AECapabilities := match ac with Some a => MICapabilities a | None => AECapabilities e end; AELevel := AELevel e;
     AEDaHash := match ac with Some a => DAHash (MICert a) | None => AEDaHash e end;
     AEAICFingerprint := match ac with Some a => AICFingerprint (MICert a) | None => AEAICFingerprint e end;
     AEPolicyVersion := AEPolicyVersion e; AERecordDigest := AERecordDigest e |}.

(** [src/mcp/audit.go:targetID] *)
Definition targetID (toolName method args : string) : string :=
  if String.eqb args "" then if String.eqb toolName "" then method else toolName
  else
    let keys := match unmarshal dec_args args with
      | Ok values => merge_sort str_le (map fst (map_to_list values))
      | Err _ => [] end in
    toolName +:+ " args{" +:+ join "," keys +:+ "} sha256:" +:+ hex_encode (Sum256 (ascii_bytes args)) +:+ ";bytes:"
    +:+ int_lit (slen args).

(** The entry that [auditAllow] and [auditDeny] log. *)
Definition decided_entry (e : AuditEntry message) (method decision level : string) (reason : message)
    (target : string) (elapsed : Duration) : AuditEntry message := {|
  AETime := AETime e; AEAction := actionForMethod method; AESrcIP := AESrcIP e; AEClientCN := AEClientCN e;
  AEClientSerial := AEClientSerial e; AERoles := AERoles e; AEMapping := AEMapping e; AETarget := AETarget e;
  AETargetID := target; AEDuration := ms_string elapsed; AEDenyReason := reason;
  AEBytesIn := AEBytesIn e; AEBytesOut := AEBytesOut e; AETraceId := AETraceId e; AESessionId := AESessionId e;
  AEGatewayId := AEGatewayId e; AEProtocol := AEProtocol e; AEAgentId := AEAgentId e; AESPIFFEID := AESPIFFEID e;
  AEPrincipalUid := AEPrincipalUid e; AEDelegationMode := AEDelegationMode e; AEDecision := decision;
  AECapabilities := AECapabilities e; AELevel := level; AEDaHash := AEDaHash e;
  AEAICFingerprint := AEAICFingerprint e; AEPolicyVersion := AEPolicyVersion e; AERecordDigest := AERecordDigest e |}.
(** [src/mcp/audit.go:auditAllow] *)
Definition auditAllow (audit : bool) (e : AuditEntry message) (elapsed : Duration) (method toolName args : string)
  : list (AuditEntry message) :=
  if audit then [decided_entry e method "allow" "INFO" (AEDenyReason e) (targetID toolName method args) elapsed] else [].
(** [src/mcp/audit.go:auditDeny] *)
Definition auditDeny (audit : bool) (e : AuditEntry message) (elapsed : Duration) (method toolName : string)
    (reason : message) (args : string) : list (AuditEntry message) :=
  if audit then [decided_entry e method "deny" "WARN" reason (targetID toolName method args) elapsed] else [].

(** ** The gate before the transport *)

(** [src/mcp/server.go:deny] the JSON-RPC error; its members in the order of
    their names. *)
Definition deny_body (id : string) (reason : message) : string :=
  let str s := enc_string s in
  "{" +:+ str "error" +:+ ":" +:+ json_encode (JObj [("code", JNum "-32602"); ("message", JStr (Sprintf reason))]) +:+
  "," +:+ str "id" +:+ ":" +:+ (if String.eqb id "" then "null" else compact false false id) +:+
  "," +:+ str "jsonrpc" +:+ ":" +:+ str "2.0" +:+ "}".

(** The transport: what it answers to a request with this identity and body. *)
Context (transport : option McpIdentity -> Request -> string -> Z * string).
Definition forward (ac : option McpIdentity) (r : Request) (body : string) (entries : list (AuditEntry message)) : answered :=
  let '(status, text) := transport ac r body in
  {| a_status := status; a_body := text; a_forwarded := Some ac; a_entries := entries |}.

(** [src/mcp/server.go:208-226 serveMessage] what is wrong with a tool call. *)
Definition call_refusal (reg : Registry) (ac : option McpIdentity) (name args : string) : ToolSpec + message :=
  match Find (Some reg) name with
  | None => inr (Errorf "unknown tool %q" [AStr name])
  | Some spec =>
      if negb (capsAllow ac (RequiredCapability spec)) then
        inr (Errorf "tool %q requires capability %q" [AStr name; AStr (RequiredCapability spec)])
      else match validateArgs spec args with
      | Some err => inr (Errorf "tool %q: %v" [AStr name; AErr err])
      | None => inl spec
      end
  end.

(** [src/mcp/server.go:serveMessage] *)
Definition serveMessage (e : enforcement) (ac : option McpIdentity) (r : Request) (body : string) (m : rpc_message)
    (base : AuditEntry message) (elapsed : Duration) : answered :=
  if negb (String.eqb (rpc_method m) "tools/call") then
    forward ac r body (auditAllow (e_audit e) base elapsed (rpc_method m) "" "")
  else
    let '(name, args) := dec_call (rpc_params m) in
    match call_refusal (e_reg e) ac name args with
    | inr reason => {| a_status := 200; a_body := deny_body (rpc_id m) reason; a_forwarded := None;
                       a_entries := auditDeny (e_audit e) base elapsed "tools/call" name reason args |}
    | inl spec => forward ac r body (auditAllow (e_audit e) base elapsed "tools/call" (TName spec) args)
    end.

(** [src/mcp/server.go:170-178 ServeHTTP] the bound on a body. *)
Definition max_body : Z := 8 * 2 ^ 20.

(** [src/mcp/server.go:ServeHTTP]; [body] is what reading the body gives. *)
Definition ServeHTTP (e : enforcement) (ctx : option AuthContext) (r : Request) (body : result string)
    (elapsed : Duration) : answered :=
  let ac := identity_of e ctx (rHeader r) in
  let plain status text := {| a_status := status; a_body := text; a_forwarded := None; a_entries := [] |} in
  match body with
  | Err _ => plain 400 (line_of "read body")
  | Ok body =>
      let body := stake (Z.to_nat max_body) body in
      if max_body <=? slen body then plain 413 (line_of "request body too large")
      else
        let base := auditStart ac r in
        match (if String.eqb body "" then None else dec_message body) with
        | Some m => if String.eqb (rpc_method m) "" then forward ac r body []
                    else serveMessage e ac r body m base elapsed
        | None => forward ac r body []
        end
  end.

(** ** The gate inside a tool *)

(** A handler of a tool, given the identity; a map it answers with is its JSON. *)
Abbreviation ToolHandler := (McpIdentity -> gmap string json -> result json).
(** [src/mcp/tool.go:toolImpl] *)
Record toolImpl := { ti_spec : ToolSpec; ti_impl : ToolHandler }.

(** [src/mcp/tool.go:newToolImpl] *)
Definition newToolImpl (spec : option ToolSpec) (impl : option ToolHandler) : result toolImpl :=
  match spec, impl with
  | Some spec, Some impl => Ok {| ti_spec := spec; ti_impl := impl |}
  | _, _ => Err (Errorf "nil spec or handler" [])
  end.

(** [src/mcp/tool.go:handle] its answer, and the call of the handler. *)
Definition handle (t : toolImpl) (ac : option McpIdentity) (req : CallToolRequest)
  : result CallToolResult * option (McpIdentity * gmap string json) :=
  let name := TName (ti_spec t) in
  match ac with
  | None => (Err (Errorf "tool %q: unauthenticated" [AStr name]), None)
  | Some id =>
      if negb (capsAllow (Some id) (RequiredCapability (ti_spec t))) then
        (Err (Errorf "tool %q requires capability %q" [AStr name; AStr (RequiredCapability (ti_spec t))]), None)
      else
        match (if String.eqb (RawArguments req) "" then default (Ok "") (ArgumentsJSON req) else Ok (RawArguments req)) with
        | Err err => (Err (Errorf "tool %q: arguments: %w" [AStr name; AWrap err]), None)
        | Ok raw =>
            match validateArgs (ti_spec t) raw with
            | Some err => (Err err, None)
            | None =>
                let args := match unmarshal dec_args raw with Ok args => args | Err _ => ∅ end in
                (Ok (match ti_impl t id args with
                     | Err err => {| IsError := true; Content := Sprintf err; StructuredContent := None |}
                     | Ok out => {| IsError := false; Content := json_encode (canonicalize out);
                                    StructuredContent := Some out |}
                     end), Some (id, args))
            end
        end
  end.

(** [src/mcp/server.go:NewHandler] the tools registered with the transport: every
    tool of the manifest has a handler. *)
Definition NewHandler (audit trust : bool) (reg : option Registry) (handlers : gmap string (option ToolHandler))
  : result (enforcement * list toolImpl) :=
  match reg with
  | None => Err (Errorf "mcp: nil tool registry" [])
  | Some reg =>
      tools ← map_result (fun spec =>
        match handlers !! TName spec with
        | None => Err (Errorf "mcp: no handler registered for tool %q" [AStr (TName spec)])
        | Some h => match newToolImpl (Some spec) h with
                    | Err err => Err (Errorf "mcp: tool %q: %w" [AStr (TName spec); AWrap err])
                    | Ok t => Ok t end
        end) (Tools reg);
      Ok ({| e_reg := reg; e_audit := audit; trustProxy := trust |}, tools)
  end.
End Server.

(** * Facts *)
Section ServerFacts.
  Context {CN : CapabilityNames} {CS : ClcSemantics} {HF : HashFunction} {PM : PkiMethods}
          {X : X509} {CP : CertificateParser} {UP : URLParser} {J : AicJwt} {ES : EvidenceSemantics}
          {CH : ChallengeSemantics} {RX : Regexp}.
  Context (Sprintf : message -> string) (transport : option McpIdentity -> Request -> string -> Z * string).

Lemma existsb_map {A B} (f : A -> B) (p : B -> bool) l : existsb p (map f l) = existsb (fun x => p (f x)) l.
Proof. induction l as [|x l IH]; [done|]. cbn. by rewrite IH. Qed.

(** What lets a tool call through. *)
Definition call_allowed (reg : Registry) (ac : option McpIdentity) (name args : string) (spec : ToolSpec) : Prop :=
  Find (Some reg) name = Some spec /\ capsAllow ac (RequiredCapability spec) = true /\ validateArgs spec args = None.

Lemma call_refusal_inl reg ac name args spec :
  call_refusal reg ac name args = inl spec <-> call_allowed reg ac name args spec.
Proof.
  unfold call_refusal, call_allowed. destruct (Find (Some reg) name) as [t|]; [|split; [done|by intros (? & _)]].
  destruct (capsAllow ac (RequiredCapability t)) eqn:Ec; cbn [negb].
  - destruct (validateArgs t args) eqn:Ev.
    + split; [done|]. intros ([= <-] & _ & ?). congruence.
    + split; [by intros [= <-]|by intros ([= <-] & _ & _)].
  - split; [done|]. intros ([= <-] & ? & _). congruence.
Qed.

Lemma forward_parts ac r body l : let a := forward transport ac r body l in
  a_forwarded a = Some ac /\ a_entries a = l /\ (a_status a, a_body a) = transport ac r body.
Proof. unfold forward. by destruct (transport ac r body). Qed.

Lemma ServeHTTP_message e ctx r body m elapsed : slen body < max_body -> dec_message body = Some m ->
  rpc_method m <> "" ->
  let ac := identity_of e ctx (rHeader r) in
  ServeHTTP Sprintf transport e ctx r (Ok body) elapsed =
  serveMessage Sprintf transport e ac r body m (auditStart ac r) elapsed.
Proof.
  intros Hs Hm Hn. unfold ServeHTTP. assert (stake (Z.to_nat max_body) body = body) as ->.
  { clear -Hs. unfold slen in Hs. revert Hs. generalize max_body. intros z Hz.
    assert (String.length body <= Z.to_nat z)%nat as H by lia. clear Hz. revert H. generalize (Z.to_nat z). clear z.
    induction body as [|c s IH]; intros [|n] H; cbn in *; try done; [lia|]. rewrite IH; [done|lia]. }
  rewrite (proj2 (Z.leb_gt _ _)) by done. destruct (String.eqb_spec body "") as [->|_]; [discriminate Hm|].
  rewrite Hm. by destruct (String.eqb_spec (rpc_method m) "").
Qed.

Lemma identity_fields ac (r : Request) :
  AEAgentId (auditStart ac r) = match ac with Some a => MIAgentID a | None => "" end /\
  AEPrincipalUid (auditStart ac r) = match ac with Some a => MIPrincipal a | None => "" end.
Proof. by destruct ac. Qed.

Lemma capsAllow_Some ac required : required <> "" -> capsAllow ac required = true -> is_Some ac.
Proof. unfold capsAllow. destruct (String.eqb_spec required ""); [done|]. by destruct ac. Qed.

(** * Properties *)

(** C16: a [tools/call] message reaches the transport exactly when the manifest
    has the tool, the caller's identity holds its capability and the arguments
    are within the barriers; it is then handed on under that very identity.
    Otherwise the answer is a JSON-RPC error with the reason. Where auditing is
    on, every such call, allowed or refused, leaves exactly one entry, with the
    verdict, the caller, the tool and the digest of the arguments. *)
Theorem tool_call_gated data e ctx r body m name args elapsed
    (Hreg : LoadJSON data = Ok (e_reg e)) (Hs : slen body < max_body) (Hm : dec_message body = Some m)
    (Hc : rpc_method m = "tools/call") (Hp : dec_call (rpc_params m) = (name, args)) :
  let ac := identity_of e ctx (rHeader r) in
  let a := ServeHTTP Sprintf transport e ctx r (Ok body) elapsed in
  (is_Some (a_forwarded a) <-> exists spec, call_allowed (e_reg e) ac name args spec) /\
  (forall x, a_forwarded a = Some x -> x = ac /\ is_Some ac) /\
  (a_forwarded a = None -> a_status a = 200 /\ exists reason, a_body a = deny_body Sprintf (rpc_id m) reason) /\
  (e_audit e = true -> exists en, a_entries a = [en] /\ AEAction en = "mcp_tools_call" /\
     AEDecision en = match a_forwarded a with Some _ => "allow" | None => "deny" end /\
     AEAgentId en = match ac with Some i => MIAgentID i | None => "" end /\
     AEPrincipalUid en = match ac with Some i => MIPrincipal i | None => "" end /\
     AETargetID en = targetID name "tools/call" args).
Proof.
  intros ac. cbv zeta. rewrite (ServeHTTP_message e ctx r body m elapsed Hs Hm) by (by rewrite Hc).
  fold ac. unfold serveMessage. rewrite Hc, Hp, String.eqb_refl. cbn [negb].
  destruct (identity_fields ac r) as [Hai Hpu].
  destruct (call_refusal (e_reg e) ac name args) as [spec|reason] eqn:Ec.
  - apply call_refusal_inl in Ec. pose proof Ec as (Hf & Hcap & _).
    destruct (LoadJSON_Ok data (e_reg e) Hreg) as (_ & _ & _ & Htools & Hfind). apply Hfind in Hf as [Hin Hname].
    destruct (forward_parts ac r body (auditAllow (e_audit e) (auditStart ac r) elapsed "tools/call" (TName spec) args))
      as (Hfw & Hen & _). rewrite Hfw, Hen. split; [split; [by eauto|done]|]. split.
    { intros x [= <-]. split; [done|]. rewrite Forall_forall in Htools. destruct (Htools spec Hin) as (_ & _ & Hne & _).
      by eapply capsAllow_Some. }
    split; [done|]. intros ->. eexists. split; [reflexivity|]. rewrite Hname. repeat split; done.
  - cbn [a_forwarded a_status a_body a_entries]. split.
    { split; [by intros [? ?]|]. intros (spec & Hspec). apply call_refusal_inl in Hspec. congruence. }
    split; [done|]. split; [by eauto|]. intros ->. eexists. split; [reflexivity|]. repeat split; done.
Qed.

(** The handler of a tool runs only for an identity the gate admitted, that
    holds the tool's capability, on arguments within the barriers, and is given
    that identity and those arguments, whatever path leads the transport to the
    tool; an error of the handler is an answer marked as an error, every refusal
    is an error. *)
Theorem handler_runs_only_gated t ac req answer call (H : handle Sprintf t ac req = (answer, call)) :
  match call with
  | None => is_ok answer = false
  | Some (id, args) =>
      ac = Some id /\ capsAllow ac (RequiredCapability (ti_spec t)) = true /\
      exists raw res, validateArgs (ti_spec t) raw = None /\ unmarshal dec_args raw = Ok args /\
        (RawArguments req <> "" -> raw = RawArguments req) /\ answer = Ok res /\
        IsError res = negb (is_ok (ti_impl t id args))
  end.
Proof.
  unfold handle in H. destruct ac as [id|]; [|by injection H as <- <-].
  destruct (capsAllow (Some id) _) eqn:Ec; cbn [negb] in H; [|by injection H as <- <-].
  destruct (if String.eqb (RawArguments req) "" then _ else _) as [raw|] eqn:Er; [|by injection H as <- <-].
  destruct (validateArgs (ti_spec t) raw) eqn:Ev; [by injection H as <- <-|].
  injection H as <- <-. split; [done|]. split; [done|]. pose proof Ev as Hargs.
  apply args_object in Hargs as (args & Hargs). rewrite Hargs.
  eexists raw, _. split; [done|]. split; [done|]. split.
  { intros Hne. apply String.eqb_neq in Hne. rewrite Hne in Er. by injection Er. }
  split; [reflexivity|]. by destruct (ti_impl t id args).
Qed.

(** The server behind the proxy decides on the very identity the proxy
    admitted, whatever identity headers the client sent along: it sees the
    principal and the agent of the verified context, and a capability is held
    exactly when one that the certificate declares matches it.  What it grants,
    a server in the process of the verifier grants as well. *)
Theorem proxied_backend_decides e h ac aic mode (r : Request)
    (Ht : trustProxy e = true) (Ha : ACAIC ac = Some aic)
    (Hm : mode = IdentityForwardClientCert \/ mode = IdentityAIC)
    (Hp : ACPrincipal ac <> "") (Hid : Forall readable (Capabilities aic))
    (Hfull : forall c c', SchemeId c = SchemeId c' -> CapabilityId c = CapabilityId c' -> FullID c = FullID c')
    (Hr : rHeader r = injectIdentityHeaders h (Some ac) mode) (required : string) :
  exists id, identity_of e None (rHeader r) = Some id /\ MIPrincipal id = ACPrincipal ac /\
    (AgentId aic = ACAgentID ac -> MIAgentID id = ACAgentID ac) /\
    (required <> "" -> capsAllow (Some id) required = existsb (fun c => MatchCapability (FullID c) required) (Capabilities aic)) /\
    (capsAllow (Some id) required = true -> capsAllow (Some (of_context ac)) required = true).
Proof.
  unfold identity_of. rewrite Ht, Hr, (identity_read_back h ac aic mode Ha Hm Hp Hid). cbn [option_map].
  eexists. split; [reflexivity|]. split; [reflexivity|]. split.
  { intros <-. unfold of_headers. cbn. by destruct (nonempty (AgentId aic)). }
  set (l2 := map (fun c => {| SchemeId := SchemeId c; CapabilityId := CapabilityId c; Parameters := "" |}) (Capabilities aic)).
  assert (map FullID l2 = map FullID (Capabilities aic)) as Hl.
  { subst l2. rewrite map_map. apply map_ext. intros c. by apply Hfull. }
  assert (required <> "" -> capsAllow (Some (of_headers {| HCPrincipal := ACPrincipal ac;
    HCAgentID := if nonempty (AgentId aic) then AgentId aic else ACAgentID ac;
    HCCapabilities := map FullID (Capabilities aic); HCAIC := l2 |})) required
    = existsb (fun c => MatchCapability (FullID c) required) (Capabilities aic)) as Hcap.
  { intros Hne. unfold capsAllow, of_headers. apply String.eqb_neq in Hne. rewrite Hne. cbn. rewrite <- 2!(existsb_map FullID (fun i => MatchCapability i required)), Hl. apply orb_diag. }
  split; [exact Hcap|]. destruct (String.eqb_spec required "") as [->|Hne]; [done|].
  rewrite (Hcap Hne). intros Hx. unfold capsAllow. apply String.eqb_neq in Hne. rewrite Hne. cbn. by rewrite Ha, Hx.
Qed.
End ServerFacts.

(** * Concrete instances *)
Section Witnesses.
  #[local] Existing Instance clc_names.
  #[local] Existing Instance toy_semantics.
  #[local] Existing Instance sha256.
  #[local] Existing Instance toy_evidence.
  #[local] Existing Instance toy_challenges.
  #[local] Existing Instance toy_regexp.
  #[local] Existing Instance adm_methods.
  #[local] Existing Instance adm_parser.
  #[local] Existing Instance toy_jwt.

Definition say (m : message) : string := "refused".
Definition echo (ac : option McpIdentity) (r : Request) (body : string) : Z * string := (202, body).
Definition gate : enforcement := {| e_reg := toy_registry; e_audit := true; trustProxy := false |}.
Definition post : Request := {| rMethod := "POST"; rPath := "/mcp"; rRawQuery := ""; rHeader := ∅;
  rRemoteAddr := "10.0.0.7:40312"; rTLS := None; rBody := None |}.
Definition trader : AuthContext := {| ACClientCert := toy_cert 9; ACPrincipal := "alice"; ACAgentID := "bot";
  ACSPIFFEID := ""; ACRoles := []; ACCapabilities := ["tools:trade"]; ACAIC := None; ACBearer := false;
  ACSerial := "9"; ACVerdict := None; ACReason := ""; ACUnresolved := []; ACOperationDecisions := [];
  ACEvidence := []; ACSatisfaction := None |}.
Definition call (name args : string) : string := dq
  ("{'jsonrpc':'2.0','id':7,'method':'tools/call','params':{'name':'" +:+ name +:+ "','arguments':" +:+ args +:+ "}}").
Definition served (ctx : option AuthContext) (body : string) : answered :=
  ServeHTTP say echo gate ctx post (Ok body) 1500000.

(** A call within the bounds is forwarded; without the capability, out of
    bounds, of an unknown tool or without identity it is not. *)
Example calls :
  map (fun '(ctx, b) => (unset (a_forwarded (served ctx b)), map AEDecision (a_entries (served ctx b))))
    [(Some trader, call "trade" "{'qty':5}"); (Some trader, call "trade" "{'qty':500}");
     (Some trader, call "ping" "{}"); (Some trader, call "nope" "{}"); (None, call "trade" "{'qty':5}")] =
  [(false, ["allow"]); (true, ["deny"]); (true, ["deny"]); (true, ["deny"]); (true, ["deny"])] /\
  a_body (served None (call "ping" "{}")) =
    dq "{'error':{'code':-32602,'message':'refused'},'id':7,'jsonrpc':'2.0'}".
Proof. vm_compute. split; reflexivity. Qed.

Lemma tool_call_gated_witness :
  is_Some (a_forwarded (served (Some trader) (call "trade" "{'qty':5}"))).
Proof.
  assert (slen (call "trade" "{'qty':5}") < max_body) as Hs by (vm_compute; reflexivity).
  refine (proj2 (proj1 (tool_call_gated say echo (manifest bounds) gate (Some trader) post (call "trade" "{'qty':5}")
    {| rpc_id := "7"; rpc_method := "tools/call"; rpc_params := dq "{'name':'trade','arguments':{'qty':5}}" |}
    "trade" (dq "{'qty':5}") 1500000 toy_registry_loads Hs _ eq_refl _)) _); [vm_compute; reflexivity..|].
  exists trade. split; [|split]; vm_compute; reflexivity.
Defined.

Definition trade_tool : toolImpl := {| ti_spec := trade; ti_impl := fun id args => Ok (JObj (map_to_list args)) |}.
Definition call_request (raw : string) : CallToolRequest := {| RawArguments := raw; ArgumentsJSON := None |}.
Lemma handler_runs_only_gated_witness :
  exists id args, (handle say trade_tool (Some (of_context trader)) (call_request (dq "{'qty':5}"))).2 = Some (id, args) /\
  Some (of_context trader) = Some id.
Proof.
  destruct (handle say trade_tool (Some (of_context trader)) (call_request (dq "{'qty':5}"))) as [answer c] eqn:E.
  pose proof (handler_runs_only_gated say trade_tool _ _ answer c E) as H.
  destruct c as [[id args]|]; [exists id, args; split; [reflexivity|exact (proj1 H)]|].
  exfalso. assert (unset (handle say trade_tool (Some (of_context trader)) (call_request (dq "{'qty':5}"))).2 = false) as Hc
    by (vm_compute; reflexivity). rewrite E in Hc. discriminate Hc.
Defined.

Lemma proxied_backend_decides_witness :
  exists id, identity_of {| e_reg := toy_registry; e_audit := true; trustProxy := true |} None
      (injectIdentityHeaders spoofed (Some (context_with "write")) IdentityAIC) = Some id /\
    MIPrincipal id = "alice" /\ capsAllow (Some id) "db:read" = true.
Proof.
  destruct (proxied_backend_decides {| e_reg := toy_registry; e_audit := true; trustProxy := true |} spoofed
    (context_with "write") (agent_with "write") IdentityAIC
    {| rMethod := "POST"; rPath := "/mcp"; rRawQuery := ""; rRemoteAddr := ""; rTLS := None; rBody := None;
       rHeader := injectIdentityHeaders spoofed (Some (context_with "write")) IdentityAIC |}
    eq_refl eq_refl (or_intror eq_refl)) with (required := "db:read") as (id & Hi & Hp & _ & Hc & _).
  - done.
  - repeat constructor.
  - intros c c' H1 H2. cbn. by rewrite H1, H2.
  - reflexivity.
  - exists id. split; [exact Hi|]. split; [exact Hp|]. rewrite Hc by done. vm_compute. reflexivity.
Defined.

(** A batch, an array of messages, is no message to the gate: it is handed to
    the transport as it is, without an entry, and so is anything else that is
    not one JSON object with a method. *)
Lemma batch_not_gated ctx : let body := "[" +:+ call "trade" "{'qty':500}" +:+ "]" in
  unset (a_forwarded (served ctx body)) = false /\ a_entries (served ctx body) = [].
Proof. cbv zeta. destruct ctx; split; vm_compute; reflexivity. Qed.
End Witnesses.
