(* ===== verification/Settings.v ===== *)
(** The configuration file ([src/config.go]): its strict decoding, the modes and
    time-outs it names, and the configuration it gives, to which code adds the
    hooks and stores a file cannot hold. *)
From Stdlib Require Import Ascii.
From S2P Require Import Prelude GoStrings GoTime GoJson GoJsonOut GoFloat GoHttp GoClock Types Sha256 Capability DelegationAuth Delegation Constraints AdmissionTypes Clc Credential Admission Revocation Spiffe Bearer Evidence Challenge Pipeline AuditLog Decide Identity Records Middleware EvidenceFiles McpRegistry.
Local Open Scope string_scope.
Local Open Scope Z_scope.
Local Open Scope list_scope.

(** * Definitions *)

(** ** Durations: [time.ParseDuration] *)

(** [leadingInt]: the number before anything else, an error past [2^63]. *)
Fixpoint leading_int (x : Z) (s : string) : option (Z * string) :=
  match s with
  | String c s' =>
      if is_digit c then
        if 2 ^ 63 / 10 <? x then None
        else let x := x * 10 + (code c - 48) in if 2 ^ 63 <? x then None else leading_int x s'
      else Some (x, s)
  | EmptyString => Some (x, s)
  end.
(** [leadingFraction]: the digits kept as a number, and their scale. *)
Fixpoint leading_fraction (x scale : Z) (overflow : bool) (s : string) : Z * Z * string :=
  match s with
  | String c s' =>
      if is_digit c then
        if overflow then leading_fraction x scale true s'
        else if (2 ^ 63 - 1) / 10 <? x then leading_fraction x scale true s'
        else let y := x * 10 + (code c - 48) in
             if 2 ^ 63 <? y then leading_fraction x scale true s' else leading_fraction y (scale * 10) false s'
      else (x, scale, s)
  | EmptyString => (x, scale, s)
  end.
(** The unit's name: up to the next digit or point. *)
Fixpoint unit_name (s : string) : string * string :=
  match s with
  | String c s' => if is_digit c || (code c =? 46) then ("", s) else let '(u, r) := unit_name s' in (String c u, r)
  | EmptyString => ("", "")
  end.
Definition micro (second : Z) : string := String (chr 194) (String (chr second) "s").
Definition unit_of (u : string) : option Z :=
  if String.eqb u "ns" then Some 1
  else if String.eqb u "us" || String.eqb u (micro 181) || String.eqb u (String (chr 206) (String (chr 188) "s")) then Some 1000
  else if String.eqb u "ms" then Some 1000000 else if String.eqb u "s" then Some Second
  else if String.eqb u "m" then Some Minute else if String.eqb u "h" then Some Hour else None.

(** [float64(f) * (float64(unit) / scale)] with every step rounded, cut to an
    integer. *)
Definition f_trunc (f : float64) : Z :=
  if 0 <=? f_exp f then f_man f * 2 ^ f_exp f else f_man f / 2 ^ (- f_exp f).
Definition fraction_of (f unit scale : Z) : Z :=
  if f =? 0 then 0
  else
    let q := round_float unit scale in
    let x := round_float f 1 in
    let e := f_exp q + f_exp x in
    f_trunc (round_float (f_man x * f_man q * 2 ^ Z.max e 0) (2 ^ Z.max (- e) 0)).

(** The digits after a point, and whether there are any. *)
Definition fraction_part (s : string) : Z * Z * string * bool :=
  match s with
  | String p s' =>
      if code p =? 46 then let '(f, scale, r) := leading_fraction 0 1 false s' in (f, scale, r, negb (slen r =? slen s'))
      else (0, 1, s, false)
  | EmptyString => (0, 1, s, false)
  end.

Definition invalid_duration (orig : string) : error := Errorf "time: invalid duration %q" [AStr orig].
Fixpoint duration_terms (fuel : nat) (orig s : string) (d : Z) : result Z :=
  match fuel, s with
  | O, _ | _, EmptyString => Ok d
  | S fuel, String c _ =>
      if negb (is_digit c || (code c =? 46)) then Err (invalid_duration orig)
      else match leading_int 0 s with
      | None => Err (invalid_duration orig)
      | Some (v, s1) =>
          let pre := negb (slen s1 =? slen s) in
          let '(f, scale, s2, post) := fraction_part s1 in
          if negb pre && negb post then Err (invalid_duration orig)
          else
            let '(u, s3) := unit_name s2 in
            if String.eqb u "" then Err (Errorf "time: missing unit in duration %q" [AStr orig])
            else match unit_of u with
            | None => Err (Errorf "time: unknown unit %q in duration %q" [AStr u; AStr orig])
            | Some unit =>
                if 2 ^ 63 / unit <? v then Err (invalid_duration orig)
                else
                  let v := v * unit + fraction_of f unit scale in
                  if 2 ^ 63 <? v then Err (invalid_duration orig)
                  else if 2 ^ 63 <? d + v then Err (invalid_duration orig)
                  else duration_terms fuel orig s3 (d + v)
            end
      end
  end.
Definition ParseDuration (s : string) : result Duration :=
  let '(neg, r) := match s with
    | String "-" r => (true, r) | String "+" r => (false, r) | _ => (false, s) end in
  if String.eqb r "0" then Ok 0
  else if String.eqb r "" then Err (invalid_duration s)
  else
    d ← duration_terms (String.length r) s r 0;
    if neg : bool then Ok (wrap64 (- d))
    else if 2 ^ 63 - 1 <? d then Err (invalid_duration s) else Ok d.

Example durations :
  map (fun s => match ParseDuration s with Ok d => Some d | Err _ => None end)
    ["0"; "1.5s"; "-2h45m"; ".5m"; "1h0.1h"; "300ms"; "1.s"; "."; "1"; "1d"; ""; "9223372036854775807ns";
     "9223372036854775808ns"; "-9223372036854775808ns"; "0.100000000000000000000h"] =
  [Some 0; Some 1500000000; Some (-9900000000000); Some 30000000000; Some 3960000000000; Some 300000000;
   Some 1000000000; None; None; None; None; Some 9223372036854775807; None; Some (-9223372036854775808);
   Some 360000000000].
Proof. vm_compute. reflexivity. Qed.

(** [src/config.go:parseDur] *)
Definition parseDur (s field : string) : result Duration :=
  if String.eqb s "" then Ok 0
  else match ParseDuration s with
  | Err err => Err (Errorf "aic-verifier: config %s: %w" [AStr field; AWrap err])
  | Ok d => Ok d
  end.

(** ** The file *)

(** [src/config.go:27-33 fileConfig] *)
Record file_server := mkFileServer {
  f_read : string; f_read_header : string; f_write : string; f_idle : string; f_max_header : Z
}.
(** [src/config.go:68-72 fileConfig] *)
Record file_supervision := mkFileSupervision {
  f_approval : option bool; f_break_glass : option bool; f_export : option bool
}.
(** [src/config.go:fileConfig] *)
Record fileConfig := mkFile {
  fLogFile : string; fServer : file_server; fTLSCertFile : string; fTLSKeyFile : string; fCACertFile : string;
  fJWTCAFile : string; fJWTIssuer : string; fJWTAudience : list string; fBackendRootCA : string;
  fReplayProtection : option bool; fAuthMode : string; fIdentityMode : string; fRequireAIC : bool;
  fRequiredCapabilities : list string; fDisallowRepresentative : bool; fRequireUserAuth : bool;
  fEnforceConstraints : bool; fStreamBody : bool; fSupervision : file_supervision; fAuditLogFile : string;
  fAuditTSAURL : string; fSupervisionLogFile : string; fComment : string
}.
Definition no_file : fileConfig :=
  mkFile "" (mkFileServer "" "" "" "" 0) "" "" "" "" "" [] "" None "" "" false [] false false false false
    (mkFileSupervision None None None) "" "" "" "".

(** A pointer to a boolean. *)
Definition dec_bool_ptr (v : json) : result (option bool) :=
  match v with JNull => Ok None | _ => Some <$> dec_bool false v end.

Definition server_names := ["read_timeout"; "read_header_timeout"; "write_timeout"; "idle_timeout"; "max_header_bytes"].
Definition dec_file_server : file_server -> json -> result file_server := dec_strict server_names (fun s n v =>
  match s with mkFileServer r h w i m =>
    if String.eqb n "read_timeout" then x ← dec_string r v; Ok (mkFileServer x h w i m)
    else if String.eqb n "read_header_timeout" then x ← dec_string h v; Ok (mkFileServer r x w i m)
    else if String.eqb n "write_timeout" then x ← dec_string w v; Ok (mkFileServer r h x i m)
    else if String.eqb n "idle_timeout" then x ← dec_string i v; Ok (mkFileServer r h w x m)
    else x ← dec_int m v; Ok (mkFileServer r h w i x)
  end).
Definition supervision_names := ["require_runtime_approval"; "allow_break_glass"; "require_evidence_export"].
Definition dec_file_supervision : file_supervision -> json -> result file_supervision :=
  dec_strict supervision_names (fun s n v =>
    match s with mkFileSupervision a b e =>
      x ← dec_bool_ptr v;
      if String.eqb n "require_runtime_approval" then Ok (mkFileSupervision x b e)
      else if String.eqb n "allow_break_glass" then Ok (mkFileSupervision a x e)
      else Ok (mkFileSupervision a b x)
    end).

Definition file_names := ["_comment"; "log_file"; "server"; "tls_cert_file"; "tls_key_file"; "ca_cert_file";
  "jwt_ca_file"; "jwt_issuer"; "jwt_audience"; "backend_root_ca"; "replay_protection"; "auth_mode"; "identity_mode";
  "require_aic"; "required_capabilities"; "disallow_representative"; "require_user_auth"; "enforce_constraints";
  "stream_body"; "supervision_policy"; "audit_log_file"; "audit_tsa_url"; "supervision_log_file"].
(** [src/config.go:17-79 fileConfig] one member of the document. *)
Definition file_field (f : fileConfig) (n : string) (v : json) : result fileConfig :=
  match f with mkFile lf se tc tk ca jc ji ja br rp am im ra rc dr ru ec sb su al at_ sl co =>
    let nm := String.eqb n in
    if nm "_comment" then x ← dec_string co v; Ok (mkFile lf se tc tk ca jc ji ja br rp am im ra rc dr ru ec sb su al at_ sl x)
    else if nm "log_file" then x ← dec_string lf v; Ok (mkFile x se tc tk ca jc ji ja br rp am im ra rc dr ru ec sb su al at_ sl co)
    else if nm "server" then x ← dec_file_server se v; Ok (mkFile lf x tc tk ca jc ji ja br rp am im ra rc dr ru ec sb su al at_ sl co)
    else if nm "tls_cert_file" then x ← dec_string tc v; Ok (mkFile lf se x tk ca jc ji ja br rp am im ra rc dr ru ec sb su al at_ sl co)
    else if nm "tls_key_file" then x ← dec_string tk v; Ok (mkFile lf se tc x ca jc ji ja br rp am im ra rc dr ru ec sb su al at_ sl co)
    else if nm "ca_cert_file" then x ← dec_string ca v; Ok (mkFile lf se tc tk x jc ji ja br rp am im ra rc dr ru ec sb su al at_ sl co)
    else if nm "jwt_ca_file" then x ← dec_string jc v; Ok (mkFile lf se tc tk ca x ji ja br rp am im ra rc dr ru ec sb su al at_ sl co)
    else if nm "jwt_issuer" then x ← dec_string ji v; Ok (mkFile lf se tc tk ca jc x ja br rp am im ra rc dr ru ec sb su al at_ sl co)
    else if nm "jwt_audience" then x ← dec_string_list ja v; Ok (mkFile lf se tc tk ca jc ji x br rp am im ra rc dr ru ec sb su al at_ sl co)
    else if nm "backend_root_ca" then x ← dec_string br v; Ok (mkFile lf se tc tk ca jc ji ja x rp am im ra rc dr ru ec sb su al at_ sl co)
    else if nm "replay_protection" then x ← dec_bool_ptr v; Ok (mkFile lf se tc tk ca jc ji ja br x am im ra rc dr ru ec sb su al at_ sl co)
    else if nm "auth_mode" then x ← dec_string am v; Ok (mkFile lf se tc tk ca jc ji ja br rp x im ra rc dr ru ec sb su al at_ sl co)
    else if nm "identity_mode" then x ← dec_string im v; Ok (mkFile lf se tc tk ca jc ji ja br rp am x ra rc dr ru ec sb su al at_ sl co)
    else if nm "require_aic" then x ← dec_bool ra v; Ok (mkFile lf se tc tk ca jc ji ja br rp am im x rc dr ru ec sb su al at_ sl co)
    else if nm "required_capabilities" then x ← dec_string_list rc v; Ok (mkFile lf se tc tk ca jc ji ja br rp am im ra x dr ru ec sb su al at_ sl co)
    else if nm "disallow_representative" then x ← dec_bool dr v; Ok (mkFile lf se tc tk ca jc ji ja br rp am im ra rc x ru ec sb su al at_ sl co)
    else if nm "require_user_auth" then x ← dec_bool ru v; Ok (mkFile lf se tc tk ca jc ji ja br rp am im ra rc dr x ec sb su al at_ sl co)
    else if nm "enforce_constraints" then x ← dec_bool ec v; Ok (mkFile lf se tc tk ca jc ji ja br rp am im ra rc dr ru x sb su al at_ sl co)
    else if nm "stream_body" then x ← dec_bool sb v; Ok (mkFile lf se tc tk ca jc ji ja br rp am im ra rc dr ru ec x su al at_ sl co)
    else if nm "supervision_policy" then x ← dec_file_supervision su v; Ok (mkFile lf se tc tk ca jc ji ja br rp am im ra rc dr ru ec sb x al at_ sl co)
    else if nm "audit_log_file" then x ← dec_string al v; Ok (mkFile lf se tc tk ca jc ji ja br rp am im ra rc dr ru ec sb su x at_ sl co)
    else if nm "audit_tsa_url" then x ← dec_string at_ v; Ok (mkFile lf se tc tk ca jc ji ja br rp am im ra rc dr ru ec sb su al x sl co)
    else x ← dec_string sl v; Ok (mkFile lf se tc tk ca jc ji ja br rp am im ra rc dr ru ec sb su al at_ x co)
  end.
Definition dec_file : json -> result fileConfig := dec_strict file_names file_field no_file.

(** ** The configuration *)

(** [src/aicverifier.go:ServerOptions] *)
Record ServerOptions := {
  ReadTimeout : Duration; ReadHeaderTimeout : Duration; WriteTimeout : Duration; IdleTimeout : Duration;
  MaxHeaderBytes : Z
}.

(** [src/config.go:118-129 ParseConfig] *)
Definition auth_mode_of (s : string) : result Z :=
  if String.eqb s "" then Ok MTLSOnly
  else if String.eqb s "mtls" then Ok MTLSOnly
  else if String.eqb s "bearer" then Ok BearerOnly
  else if String.eqb s "mtls_or_bearer" then Ok MTLSOrBearer
  else Err (Errorf "aic-verifier: unknown auth_mode %q" [AStr s]).
(** [src/config.go:131-144 ParseConfig] *)
Definition identity_mode_of (s : string) : result Z :=
  if String.eqb s "" then Ok IdentityMinimal
  else if String.eqb s "minimal" then Ok IdentityMinimal
  else if String.eqb s "forward_client_cert" then Ok IdentityForwardClientCert
  else if String.eqb s "xforwarded" then Ok IdentityXForwarded
  else if String.eqb s "aic" then Ok IdentityAIC
  else Err (Errorf "aic-verifier: unknown identity_mode %q" [AStr s]).
(** [src/config.go:171-196 ParseConfig] *)
Definition server_options (f : file_server) : result (option ServerOptions) :=
  if String.eqb (f_read f) "" && String.eqb (f_read_header f) "" && String.eqb (f_write f) ""
     && String.eqb (f_idle f) "" && (f_max_header f =? 0) then Ok None
  else
    r ← parseDur (f_read f) "server.read_timeout";
    h ← parseDur (f_read_header f) "server.read_header_timeout";
    w ← parseDur (f_write f) "server.write_timeout";
    i ← parseDur (f_idle f) "server.idle_timeout";
    Ok (Some {| ReadTimeout := r; ReadHeaderTimeout := h; WriteTimeout := w; IdleTimeout := i;
                MaxHeaderBytes := f_max_header f |}).

Section Settings.
  Context {CN : CapabilityNames} {CS : ClcSemantics} {HF : HashFunction} {PM : PkiMethods}
          {DC : DACrypto} {CP : CertificateParser} {CE : CRLEnv} {OE : OCSPEnv} {UP : URLParser}
          {X : X509} {J : AicJwt} {ES : EvidenceSemantics} {CH : ChallengeSemantics}.
  Context (ReadFile : string -> result bytes).
  (** Opening the supervision store. *)
  Context (OpenStore : string -> option error).

(** [src/aicverifier.go:82-277 Config]: the part an authenticator reads, and the
    settings of the server. *)
Record ServerConfig := {
  sc_config : Config; LogFile : string; TLSCertFile : string; TLSKeyFile : string; BackendRootCA : string;
  scIdentityMode : Z; AuditLogFile : string; AuditTSAURL : string; SupervisionLogFile : string;
  sc_options : option ServerOptions
}.

(** The authenticator's part: what the file sets, nothing else. *)
Definition file_base (f : fileConfig) (mode : Z) (store : bool) : authenticator Request := {|
  cfgAuthMode := mode; cRequireAIC := fRequireAIC f; cRequiredCapabilities := fRequiredCapabilities f;
  cRequiredOperations := []; cUnresolvedEvaluator := None; cDischargeObligations := false;
  cObligationsUnderstood := []; cRequireFreshDecisionContext := false; cDecisionContext := None;
  cDisallowRepresentative := fDisallowRepresentative f; cRequireUserAuth := fRequireUserAuth f;
  cEnforceConstraints := fEnforceConstraints f; cUserCert := None; cUserCertResolver := None;
  cPluginRegistry := None; cCapabilityRegistry := None; cAuthorizationPolicy := None; cConstraints := None;
  cParameterValidators := None; cEvidence := None; cEvidenceRequirement := None; cEvidenceFacts := None;
  cChallenges := None; cRequireApproval := None; cApprovalRequester := None; cSupervisionStore := store;
  tlsCAs := None; verifier := None; a_crl := None; a_audit := false; a_nonceCache := false; policy := None |}.
Definition file_config (f : fileConfig) (mode : Z) (store : bool) : Config := {|
  base := file_base f mode store; cEvidenceProfile := ""; CACertFile := fCACertFile f; JWTCAFile := fJWTCAFile f;
  JWTIssuer := fJWTIssuer f; JWTAudience := fJWTAudience f; ReplayProtection := fReplayProtection f;
  StreamBody := fStreamBody f; RequireRuntimeApproval := default false (f_approval (fSupervision f));
  AllowBreakGlass := default false (f_break_glass (fSupervision f));
  RequireEvidenceExport := default false (f_export (fSupervision f)); hasOverrideRecorder := false;
  hasEvidenceExporter := false; OnAuthenticated := None; OnDenied := false |}.

(** [src/config.go:ParseConfig] *)
Definition ParseConfig (data : string) : result ServerConfig :=
  match (match first_value data with None => Err json_syntax_error | Some v => dec_file v end) with
  | Err err => Err (Errorf "aic-verifier: parse config: %w" [AWrap err])
  | Ok f =>
      mode ← auth_mode_of (fAuthMode f);
      idm ← identity_mode_of (fIdentityMode f);
      match (if String.eqb (fSupervisionLogFile f) "" then None else OpenStore (fSupervisionLogFile f)) with
      | Some err => Err (Errorf "aic-verifier: supervision store: %w" [AWrap err])
      | None =>
          o ← server_options (fServer f);
          Ok {| sc_config := file_config f mode (negb (String.eqb (fSupervisionLogFile f) "")); LogFile := fLogFile f;
                TLSCertFile := fTLSCertFile f; TLSKeyFile := fTLSKeyFile f; BackendRootCA := fBackendRootCA f;
                scIdentityMode := idm; AuditLogFile := fAuditLogFile f; AuditTSAURL := fAuditTSAURL f;
                SupervisionLogFile := fSupervisionLogFile f; sc_options := o |}
      end
  end.

(** [src/config.go:LoadConfigFile] *)
Definition LoadConfigFile (path : string) : result ServerConfig :=
  match ReadFile path with
  | Err err => Err (Errorf "aic-verifier: read config %q: %w" [AStr path; AWrap err])
  | Ok data => ParseConfig (bytes_text data)
  end.
End Settings.

(** * Facts *)

(** ** Durations *)
Lemma leading_int_range x s v r : 0 <= x -> leading_int x s = Some (v, r) -> 0 <= v.
Proof.
  revert x. induction s as [|c s IH]; intros x Hx; cbn [leading_int]; [by intros [= <- <-]|].
  destruct (is_digit c) eqn:Ed; [|by intros [= <- <-]]. unfold is_digit in Ed. bools.
  destruct (2 ^ 63 / 10 <? x); [done|]. destruct (2 ^ 63 <? _); [done|]. apply IH. lia.
Qed.

Lemma leading_fraction_range x sc o s f scale r : 0 <= x -> 0 < sc ->
  leading_fraction x sc o s = (f, scale, r) -> 0 <= f /\ 0 < scale.
Proof.
  revert x sc o. induction s as [|c s IH]; intros x sc o Hx Hs; cbn [leading_fraction]; [by intros [= <- <- <-]|].
  destruct (is_digit c) eqn:Ed; [|by intros [= <- <- <-]]. unfold is_digit in Ed. bools.
  destruct o; [by apply IH|]. destruct (_ <? x); [by apply IH|]. destruct (2 ^ 63 <? _); [by apply IH|].
  apply IH; lia.
Qed.

Lemma fraction_part_range s f scale r post : fraction_part s = (f, scale, r, post) -> 0 <= f /\ 0 < scale.
Proof.
  unfold fraction_part. destruct s as [|p s]; [by intros [= <- <- _ _]|]. destruct (code p =? 46); [|by intros [= <- <- _ _]].
  destruct (leading_fraction 0 1 false s) as [[f' scale'] r'] eqn:El. intros [= <- <- _ _].
  apply leading_fraction_range in El; [exact El|lia|lia].
Qed.

Lemma round_half_even_nonneg n d : 0 <= n -> 0 < d -> 0 <= round_half_even n d.
Proof.
  intros Hn Hd. unfold round_half_even. pose proof (Z.div_pos n d Hn Hd). repeat case_match; lia.
Qed.
Lemma round_float_nonneg n d : 0 <= n -> 0 < d -> 0 <= f_man (round_float n d).
Proof.
  intros Hn Hd. unfold round_float. cbn [f_man]. set (q := Z.max _ _). clearbody q.
  assert (forall k, 0 <= k -> 0 < 2 ^ k) as Hp by (intros k Hk; apply Z.pow_pos_nonneg; lia).
  destruct (Z.leb_spec 0 q) as [Hq|Hq]; apply round_half_even_nonneg; try done.
  - apply Z.mul_pos_pos; [done|by apply Hp].
  - apply Z.mul_nonneg_nonneg; [done|]. apply Z.lt_le_incl, Hp. lia.
Qed.
Lemma f_trunc_nonneg f : 0 <= f_man f -> 0 <= f_trunc f.
Proof.
  intros H. unfold f_trunc. destruct (Z.leb_spec 0 (f_exp f)).
  - apply Z.mul_nonneg_nonneg; [done|by apply Z.pow_nonneg].
  - apply Z.div_pos; [done|]. apply Z.pow_pos_nonneg; lia.
Qed.
Lemma fraction_of_nonneg f unit scale : 0 <= f -> 0 <= unit -> 0 < scale -> 0 <= fraction_of f unit scale.
Proof.
  intros Hf Hu Hs. unfold fraction_of. destruct (f =? 0); [done|]. cbv zeta. apply f_trunc_nonneg, round_float_nonneg.
  - pose proof (round_float_nonneg f 1 Hf ltac:(lia)). pose proof (round_float_nonneg unit scale Hu Hs).
    repeat apply Z.mul_nonneg_nonneg; [done|done|by apply Z.pow_nonneg].
  - apply Z.pow_pos_nonneg; lia.
Qed.
Lemma unit_of_pos u unit : unit_of u = Some unit -> 0 < unit.
Proof. unfold unit_of. intros H. cases_in H; done. Qed.

Lemma duration_terms_range fuel orig s d r : 0 <= d <= 2 ^ 63 -> duration_terms fuel orig s d = Ok r -> 0 <= r <= 2 ^ 63.
Proof.
  revert s d. induction fuel as [|fuel IH]; intros s d Hd; [by intros [= <-]|].
  destruct s as [|c s0]; [by intros [= <-]|]. cbn [duration_terms]. set (s := String c s0).
  destruct (negb _); [done|]. destruct (leading_int 0 s) as [[v s1]|] eqn:Ev; [|done].
  pose proof (leading_int_range 0 s v s1 ltac:(lia) Ev) as Hv.
  destruct (fraction_part s1) as [[[f scale] s2] post] eqn:Ez. apply fraction_part_range in Ez as Hf.
  destruct (_ && _); [done|].
  destruct (unit_name s2) as [u s3]. destruct (String.eqb u ""); [done|]. destruct (unit_of u) as [unit|] eqn:Eu; [|done].
  apply unit_of_pos in Eu. destruct (2 ^ 63 / unit <? v); [done|].
  pose proof (fraction_of_nonneg f unit scale ltac:(lia) ltac:(lia) ltac:(lia)).
  destruct (Z.ltb_spec (2 ^ 63) (v * unit + fraction_of f unit scale)); [done|].
  destruct (Z.ltb_spec (2 ^ 63) (d + (v * unit + fraction_of f unit scale))); [done|].
  apply IH. split; [|done]. apply Z.add_nonneg_nonneg; [lia|]. apply Z.add_nonneg_nonneg; [|done].
  apply Z.mul_nonneg_nonneg; lia.
Qed.

Lemma ParseDuration_range s d : ParseDuration s = Ok d -> int64_min <= d <= int64_max.
Proof.
  unfold ParseDuration. destruct (match s with String "-" r => _ | _ => _ end) as [neg r].
  destruct (String.eqb r "0"); [by intros [= <-]|]. destruct (String.eqb r ""); [done|].
  intros (t & Ht & H)%bind_Ok. apply duration_terms_range in Ht; [|lia]. destruct neg.
  - injection H as <-. apply wrap64_range.
  - destruct (Z.ltb_spec (2 ^ 63 - 1) t); [done|]. injection H as <-. unfold int64_min, int64_max. lia.
Qed.
Lemma parseDur_range s n d : parseDur s n = Ok d -> int64_min <= d <= int64_max.
Proof.
  unfold parseDur. destruct (String.eqb s ""); [by intros [= <-]|].
  destruct (ParseDuration s) as [x|] eqn:E; [|done]. intros [= <-]. by eapply ParseDuration_range.
Qed.

(** ** Known members *)
Lemma foldl_Err {S} (step : S -> string -> json -> result S) ms e :
  foldl (fun acc '(k, x) => s ← acc; step s k x) (Err e) ms = Err e.
Proof. induction ms as [|[k x] ms IH]; [done|]. cbn. apply IH. Qed.

Lemma dec_strict_known {S} names (set : S -> string -> json -> result S) s ms r :
  dec_strict names set s (JObj ms) = Ok r -> Forall (fun m => Exists (fun n => field_is n m.1 = true) names) ms.
Proof.
  unfold dec_strict, dec_struct. revert s. induction ms as [|[k x] ms IH]; intros s; [constructor|].
  cbn [foldl]. cbn [mbind result_bind]. destruct (List.find _ names) as [n|] eqn:Ef.
  - destruct (set s n x) as [s'|e]; [|by rewrite foldl_Err]. intros H. constructor; [|by eapply IH].
    apply List.find_some in Ef as [Hin Hn]. apply Exists_exists. exists n. split; [by apply list_elem_of_In|done].
  - by rewrite foldl_Err.
Qed.

Lemma auth_mode_cases s m : auth_mode_of s = Ok m -> m = MTLSOnly \/ m = BearerOnly \/ m = MTLSOrBearer.
Proof. unfold auth_mode_of. intros H. cases_in H; auto. Qed.
Lemma identity_mode_cases s m : identity_mode_of s = Ok m ->
  m = IdentityMinimal \/ m = IdentityForwardClientCert \/ m = IdentityXForwarded \/ m = IdentityAIC.
Proof. unfold identity_mode_of. intros H. cases_in H; auto. Qed.

Definition options_ok (o : ServerOptions) : Prop :=
  Forall (fun d => int64_min <= d <= int64_max) [ReadTimeout o; ReadHeaderTimeout o; WriteTimeout o; IdleTimeout o].
Lemma server_options_ok f o : server_options f = Ok (Some o) -> options_ok o.
Proof.
  unfold server_options. destruct (_ && _ && _ && _ && _); [done|].
  intros (r & Hr & (h & Hh & (w & Hw & (i & Hi & [= <-])%bind_Ok)%bind_Ok)%bind_Ok)%bind_Ok.
  repeat constructor; cbn; eapply parseDur_range; eassumption.
Qed.

Section SettingsFacts.
  Context {CN : CapabilityNames} {CS : ClcSemantics} {HF : HashFunction} {PM : PkiMethods}
          {DC : DACrypto} {CP : CertificateParser} {CE : CRLEnv} {OE : OCSPEnv} {UP : URLParser}
          {X : X509} {J : AicJwt} {ES : EvidenceSemantics} {CH : ChallengeSemantics}.
  Context (ReadFile : string -> result bytes) (OpenStore : string -> option error)
          (AppendCertsFromPEM : bytes -> option CertPool)
          (ParsePrivateKeyPEMFile : string -> result (bytes -> result bytes)).

Lemma ParseConfig_Ok data s : ParseConfig OpenStore data = Ok s ->
  exists v f, first_value data = Some v /\ dec_file v = Ok f /\
    auth_mode_of (fAuthMode f) = Ok (cfgAuthMode (base (sc_config s))) /\
    identity_mode_of (fIdentityMode f) = Ok (scIdentityMode s) /\ server_options (fServer f) = Ok (sc_options s) /\
    sc_config s = file_config f (cfgAuthMode (base (sc_config s))) (negb (String.eqb (fSupervisionLogFile f) "")).
Proof.
  unfold ParseConfig. destruct (first_value data) as [v|]; [|done]. destruct (dec_file v) as [f|] eqn:Ef; [|done].
  intros (mode & Hm & (idm & Hi & H)%bind_Ok)%bind_Ok. destruct (if String.eqb _ _ then None else _); [done|].
  apply bind_Ok in H as (o & Ho & [= <-]). exists v, f. done.
Qed.

Lemma newAuthenticator_trust (c : Config) a :
  newAuthenticator ReadFile AppendCertsFromPEM ParsePrivateKeyPEMFile c = Ok a ->
  (tlsCAs a <> None -> CACertFile c <> "" /\ authMode (cfgAuthMode (base c)) <> BearerOnly) /\
  (verifier a <> None -> JWTCAFile c <> "" /\ authMode (cfgAuthMode (base c)) <> MTLSOnly).
Proof.
  unfold newAuthenticator. destruct (Validate_config (Some c)); [done|]. destruct (resolve_evidence _ c) as [ev|]; [|done].
  set (mode := authMode (cfgAuthMode (base c))).
  destruct (if _ && negb (String.eqb (CACertFile c) "") then _ else Ok None) as [cas|] eqn:Ec; [|done].
  destruct (if _ && negb (String.eqb (JWTCAFile c) "") then _ else Ok None) as [v|] eqn:Ev; [|done].
  intros [= <-]. cbn [tlsCAs verifier with_material]. split.
  - intros Hn. destruct (_ && negb (String.eqb (CACertFile c) "")) eqn:E in Ec; [|by injection Ec as <-].
    apply andb_true_iff in E as [E1 E2%negb_true_iff%String.eqb_neq]. split; [done|]. intros Eq. by rewrite Eq in E1.
  - intros Hn. destruct v as [v|]; [|done]. destruct (_ && negb (String.eqb (JWTCAFile c) "")) eqn:E in Ev; [|done].
    apply andb_true_iff in E as [E1 E2%negb_true_iff%String.eqb_neq]. split; [done|]. intros Eq. by rewrite Eq in E1.
Qed.

(** * Properties *)

(** A configuration file that is accepted is well formed: its document has
    no member the format does not know, its modes are among the defined ones,
    its time-outs are durations of 64 bits, and it sets nothing but what the
    document says: no hook and no key. *)
Theorem parsed_settings_well_formed data s (H : ParseConfig OpenStore data = Ok s) :
  (forall ms, first_value data = Some (JObj ms) -> Forall (fun m => Exists (fun n => field_is n m.1 = true) file_names) ms) /\
  (let m := cfgAuthMode (base (sc_config s)) in m = MTLSOnly \/ m = BearerOnly \/ m = MTLSOrBearer) /\
  (let m := scIdentityMode s in
   m = IdentityMinimal \/ m = IdentityForwardClientCert \/ m = IdentityXForwarded \/ m = IdentityAIC) /\
  (forall o, sc_options s = Some o -> options_ok o) /\
  cRequireApproval (base (sc_config s)) = None /\ cEvidence (base (sc_config s)) = None /\
  OnAuthenticated (sc_config s) = None.
Proof.
  destruct (ParseConfig_Ok data s H) as (v & f & Hv & Hf & Hm & Hi & Ho & Hc). split.
  { intros ms Hms. rewrite Hms in Hv. injection Hv as <-. unfold dec_file in Hf. by eapply dec_strict_known. }
  split; [by eapply auth_mode_cases|]. split; [by eapply identity_mode_cases|].
  split; [intros o E; rewrite E in Ho; by eapply server_options_ok|]. by rewrite Hc.
Qed.

(** What a gateway configured by a file alone may rely on: it starts only if
    the file asks for no supervision, which needs code, and it trusts only what
    the file names: a pool of client authorities only from the authority file in
    a mode with client certificates, a token verifier only from the token file
    in a mode with tokens; requiring the principal's authorization needs an
    authority file. *)
Theorem file_gateway_trust data s a (H : ParseConfig OpenStore data = Ok s)
    (Ha : newAuthenticator ReadFile AppendCertsFromPEM ParsePrivateKeyPEMFile (sc_config s) = Ok a) :
  let c := sc_config s in
  RequireRuntimeApproval c = false /\ AllowBreakGlass c = false /\ RequireEvidenceExport c = false /\
  (tlsCAs a <> None -> CACertFile c <> "" /\ cfgAuthMode (base c) <> BearerOnly) /\
  (verifier a <> None -> JWTCAFile c <> "" /\ cfgAuthMode (base c) <> MTLSOnly) /\
  (cRequireUserAuth a = true -> CACertFile c <> "") /\ cRequireAIC a = cRequireAIC (base c).
Proof.
  destruct (ParseConfig_Ok data s H) as (v & f & _ & _ & Hm & _ & _ & Hc). apply auth_mode_cases in Hm.
  pose proof (newAuthenticator_Ok _ _ _ _ _ Ha) as (Hv & _ & cas & vf & Ea).
  destruct (newAuthenticator_trust _ _ Ha) as [H1 H2].
  assert (authMode (cfgAuthMode (base (sc_config s))) = cfgAuthMode (base (sc_config s))) as Hmode.
  { unfold authMode. by destruct Hm as [->|[->| ->]]. }
  rewrite Hmode in *. unfold validation_errors in Hv. apply app_nil in Hv as [_ Hv].
  apply app_nil in Hv as [Hu Hv]. apply app_nil in Hv as [Hr Hv]. apply app_nil in Hv as [Hb Hv].
  apply app_nil in Hv as [Hx _]. apply fail_nil in Hu, Hr, Hb, Hx.
  assert (cApprovalRequester (base (sc_config s)) = None /\ hasOverrideRecorder (sc_config s) = false /\
    hasEvidenceExporter (sc_config s) = false /\ cUserCert (base (sc_config s)) = None /\
    cUserCertResolver (base (sc_config s)) = None) as (E1 & E2 & E3 & E4 & E5) by (by rewrite Hc).
  rewrite E1 in Hr. rewrite E2 in Hb. rewrite E3 in Hx. rewrite E4, E5 in Hu. rewrite !andb_true_r in *.
  cbv zeta. split; [done|]. split; [done|]. split; [done|]. split; [exact H1|]. split; [exact H2|].
  rewrite Ea. cbn [with_material cRequireUserAuth cRequireAIC]. split; [|done].
  intros Hq. rewrite Hq in Hu. cbn [andb] in Hu. by apply String.eqb_neq in Hu.
Qed.
End SettingsFacts.

(** * Concrete instances *)
Section Witnesses.
  #[local] Existing Instance clc_names.
  #[local] Existing Instance toy_semantics.
  #[local] Existing Instance toy_crypto.
  #[local] Existing Instance adm_methods.
  #[local] Existing Instance adm_parser.
  #[local] Existing Instance sha256.
  #[local] Existing Instance toy_crl_env.
  #[local] Existing Instance toy_ocsp_env.
  #[local] Existing Instance gate_urls.
  #[local] Existing Instance toy_jwt.
  #[local] Existing Instance toy_evidence.
  #[local] Existing Instance toy_x509.
  #[local] Existing Instance toy_challenges.

Definition store_opens (path : string) : option error :=
  if String.eqb path "/denied" then Some (ErrNew "os.ErrPermission") else None.
Definition settings (members : string) : string := dq ("{'ca_cert_file':'ca.pem'" +:+ members +:+ "}").
Definition gateway_settings : string := settings
  ",'auth_mode':'mtls','require_aic':true,'server':{'read_timeout':'1.5s','max_header_bytes':4096},'_comment':'x'".
Definition parsed (s : string) : option ServerConfig :=
  match ParseConfig store_opens s with Ok c => Some c | Err _ => None end.

Example settings_read :
  option_map (fun c => (cfgAuthMode (base (sc_config c)), cRequireAIC (base (sc_config c)),
    option_map ReadTimeout (sc_options c), option_map MaxHeaderBytes (sc_options c))) (parsed gateway_settings)
    = Some (MTLSOnly, true, Some 1500000000, Some 4096) /\
  map (fun m => unset (parsed (settings m)))
    [""; ",'authmode':'mtls'"; ",'AUTH_MODE':'bearer'"; ",'auth_mode':'none'"; ",'server':{'port':1}";
     ",'supervision_log_file':'/denied'"; ",'server':{'idle_timeout':'5'}"; ",'stream_body':'yes'"]
    = [false; true; false; true; true; true; true; true].
Proof. vm_compute. split; reflexivity. Qed.

(** Without an authentication mode only client certificates are accepted, and
    without an identity mode only the minimal headers are sent. *)
Example default_modes :
  option_map (fun c => (cfgAuthMode (base (sc_config c)), scIdentityMode c)) (parsed (settings "")) =
  Some (MTLSOnly, IdentityMinimal).
Proof. vm_compute. reflexivity. Qed.

Definition no_settings : ServerConfig := {|
  sc_config := file_config no_file 0 false; LogFile := ""; TLSCertFile := ""; TLSKeyFile := ""; BackendRootCA := "";
  scIdentityMode := 0; AuditLogFile := ""; AuditTSAURL := ""; SupervisionLogFile := ""; sc_options := None |}.
Definition the_settings : ServerConfig := default no_settings (parsed gateway_settings).
Lemma gateway_settings_parse : ParseConfig store_opens gateway_settings = Ok the_settings.
Proof.
  unfold the_settings, parsed. assert (is_ok (ParseConfig store_opens gateway_settings) = true) as H by (vm_compute; reflexivity).
  destruct (ParseConfig store_opens gateway_settings); [reflexivity|discriminate H].
Defined.

Lemma parsed_settings_well_formed_witness : exists o, sc_options the_settings = Some o /\ options_ok o.
Proof.
  destruct (parsed_settings_well_formed store_opens gateway_settings the_settings gateway_settings_parse)
    as (_ & _ & _ & H & _).
  assert (exists o, sc_options the_settings = Some o) as [o Ho].
  { unfold the_settings. eexists. vm_compute. reflexivity. }
  exists o. split; [exact Ho|exact (H o Ho)].
Defined.

Lemma file_gateway_trust_witness : exists a,
  newAuthenticator (fun _ => Ok []) (fun b => Some ([b] : @CertPool toy_x509)) (fun _ => Err (ErrNew "pem")) (sc_config the_settings) = Ok a /\
  CACertFile (sc_config the_settings) <> "" /\ cRequireAIC a = true.
Proof.
  set (r := newAuthenticator (fun _ => Ok []) (fun b => Some ([b] : @CertPool toy_x509)) (fun _ => Err (ErrNew "pem")) (sc_config the_settings)).
  assert (is_ok r && match r with Ok a => negb (unset (tlsCAs a)) && cRequireAIC a | Err _ => false end = true) as H
    by (vm_compute; reflexivity).
  destruct r as [a|e] eqn:E; [|discriminate H]. apply andb_true_iff in H as [_ [H1 H2]%andb_true_iff].
  exists a. split; [reflexivity|].
  destruct (file_gateway_trust (fun _ => Ok []) store_opens (fun b => Some ([b] : @CertPool toy_x509)) (fun _ => Err (ErrNew "pem"))
    gateway_settings the_settings a gateway_settings_parse E) as (_ & _ & _ & Ht & _).
  split; [|exact H2]. refine (proj1 (Ht _)). intros Hn. rewrite Hn in H1. discriminate H1.
Defined.
End Witnesses.
