(* ===== verification/Admin.v ===== *)
(** Administration ([src/admin.go]) and the decision server it administers
    ([src/decide.go]): the counters and their readiness report, the secret of
    the reload endpoint, the endpoints, and the policy they swap. *)
From Stdlib Require Import Ascii.
From S2P Require Import Prelude GoStrings GoTime GoJson GoJsonOut GoFloat GoHttp GoClock Types Sha256 Capability DelegationAuth Delegation Constraints AdmissionTypes Clc Credential Admission Rbac Revocation Params Spiffe Bearer Evidence Challenge Pipeline AuditLog AuditWrite Decide Identity Records McpRegistry McpServer.
Local Open Scope string_scope.
Local Open Scope Z_scope.
Local Open Scope list_scope.

(** * Definitions *)

(** ** Counters *)

(** [src/admin.go:NewDecisionMetrics] the counters of a set; its start is kept
    beside them. *)
Definition NewDecisionMetrics : DecisionMetrics := {|
  DecideTotal := 0; MGranted := 0; MDenied := 0; ConfigReload := 0; lastErr := None; lastOK := None |}.

(** [int64(d.Seconds())]: the seconds as [float64], cut. *)
Definition seconds_of (d : Duration) : Z :=
  let pos d :=
    let n := d mod Second in
    let sum := if n =? 0 then {| f_man := d / Second; f_exp := 0 |}
               else let q := round_float n Second in
                    let e := Z.max (- f_exp q) 0 in
                    round_float (d / Second * 2 ^ e + f_man q * 2 ^ Z.max (f_exp q) 0) (2 ^ e) in
    if 0 <=? f_exp sum then f_man sum * 2 ^ f_exp sum else f_man sum / 2 ^ (- f_exp sum) in
  if d <? 0 then - pos (- d) else pos d.
Example seconds_cut :
  map seconds_of [0; 999999999; 1500000000; 8388607999999999; 16777215999999999; -1500000000] =
  [0; 0; 1; 8388607; 16777215; -1].
Proof. vm_compute. reflexivity. Qed.

(** [src/admin.go:MetricsSnapshot] *)
Record MetricsSnapshot := {
  SUptime : Z; SDecideTotal : Z; SGranted : Z; SDenied : Z; SReloads : Z
}.
(** [src/admin.go:Snapshot]; [m] is the start with the counters. *)
Definition Snapshot (m : option (Time * DecisionMetrics)) (now : Time) : MetricsSnapshot :=
  match m with
  | None => {| SUptime := 0; SDecideTotal := 0; SGranted := 0; SDenied := 0; SReloads := 0 |}
  | Some (started, m) => {| SUptime := seconds_of (GoTime.Sub now started); SDecideTotal := DecideTotal m;
      SGranted := MGranted m; SDenied := MDenied m; SReloads := ConfigReload m |}
  end.

(** [src/admin.go:HealthReport] *)
Record HealthReport := {
  HOK : bool; HModule : string; HStart : string; HUptime : Z; HLastError : string; HLastOK : string;
  HMetrics : MetricsSnapshot
}.
Definition module_name := "varwof.aic.decision.v1".
Definition no_health : HealthReport := {| HOK := false; HModule := module_name; HStart := ""; HUptime := 0;
  HLastError := ""; HLastOK := ""; HMetrics := Snapshot None 0 |}.
(** [src/admin.go:healthReport] *)
Definition healthReport (m : option (Time * DecisionMetrics)) (now : Time) : HealthReport :=
  match m with
  | None => no_health
  | Some (started, d) =>
      let snap := Snapshot m now in
      {| HOK := Healthy (Some d); HModule := module_name; HStart := format_rfc3339 started; HUptime := SUptime snap;
         HLastError := match lastErr d with Some t => format_rfc3339 t | None => "" end;
         HLastOK := match lastOK d with Some t => format_rfc3339 t | None => "" end; HMetrics := snap |}
  end.

(** [src/admin.go:46-52 MetricsSnapshot] as [json.Marshal] writes it. *)
Definition snapshot_json (s : MetricsSnapshot) : json := JObj
  [("uptime_seconds", JNum (int_lit (SUptime s))); ("decide_total", JNum (int_lit (SDecideTotal s)));
   ("granted", JNum (int_lit (SGranted s))); ("denied", JNum (int_lit (SDenied s)));
   ("config_reloads", JNum (int_lit (SReloads s)))].
(** [src/admin.go:102-110 HealthReport] as [json.Marshal] writes it. *)
Definition health_json (h : HealthReport) : json := JObj
  (("ok", JBool (HOK h)) :: ("module", JStr (HModule h)) :: ("start_time", JStr (HStart h)) ::
   ("uptime_seconds", JNum (int_lit (HUptime h))) :: omit_str "last_error_at" (HLastError h)
   ++ omit_str "last_ok_at" (HLastOK h) ++ [("metrics", snapshot_json (HMetrics h))]).

(** [src/admin.go:writeAdminJSON] the status and the body. *)
Definition writeAdminJSON (status : Z) (v : json) : Z * string := (status, line_of (json_encode v)).

(** ** The secret *)

(** [src/decide.go:adminTokenFrom] of the two settings. *)
Definition adminTokenFrom (ReadFile : string -> result string) (AdminToken AdminTokenFile : string) : result string :=
  if negb (String.eqb AdminToken "") then Ok AdminToken
  else if String.eqb AdminTokenFile "" then
    Err (Errorf "aicverifier: AdminToken: admin /reload is fail-closed; set Config.AdminToken or AdminTokenFile before mounting the admin handler" [])
  else match ReadFile AdminTokenFile with
  | Err err => Err (Errorf "aicverifier: AdminTokenFile: %w" [AWrap err])
  | Ok b =>
      let tok := trim_space b in
      if String.eqb tok "" then Err (Errorf "aicverifier: AdminTokenFile %s: empty admin secret" [AStr AdminTokenFile])
      else Ok tok
  end.

Section Admin.
  Context {PE : PolicyEnv} {CS : ClcSemantics}.
  Context (Sprintf : error -> string).

(** [src/decide.go:DecisionServer] as the endpoints see it: the secret, the
    bundle in force, the counters with their start. *)
Record DecisionServer := {
  adminToken : string; ds_bundle : option authPolicyBundle; ds_metrics : Time * DecisionMetrics
}.

(** [src/aicverifier.go:Config.Metrics] the set of a configuration, made the
    first time it is asked for. *)
Definition Config_Metrics (set : option (Time * DecisionMetrics)) (now : Time) : Time * DecisionMetrics :=
  default (now, NewDecisionMetrics) set.

(** [src/decide.go:NewDecisionServer] over a built authenticator and the counters
    of its configuration. *)
Definition NewDecisionServer {A} (authenticator_built : result A) (AdminToken AdminTokenFile : string)
    (set : option (Time * DecisionMetrics)) (now : Time) : result (A * DecisionServer) :=
  a ← authenticator_built;
  tok ← adminTokenFrom ReadFile AdminToken AdminTokenFile;
  Ok (a, {| adminToken := tok; ds_bundle := None; ds_metrics := Config_Metrics set now |}).

(** [src/admin.go:DecisionServer.Health] *)
Definition Health (s : option DecisionServer) (now : Time) : HealthReport :=
  match s with None => no_health | Some s => healthReport (Some (ds_metrics s)) now end.

(** [src/admin.go:ReloadPolicy] *)
Definition ReloadPolicy (s : option DecisionServer) (p : option AuthorizationPolicy) : option error * option DecisionServer :=
  match s with
  | None => (Some (Errorf "aic-verifier: reload: decision server not configured" []), s)
  | Some s =>
      let '(err, b, m) := reload (ds_bundle s) (Some {| BPolicy := p; BConstraints := None; BValidators := None |})
                            (ds_metrics s).2 in
      (err, Some {| adminToken := adminToken s; ds_bundle := b; ds_metrics := ((ds_metrics s).1, m) |})
  end.

(** [src/admin.go:ReloadPolicyFromFile] *)
Definition ReloadPolicyFromFile (s : option DecisionServer) (policyPath sigSuffix : string)
    (opts : option PolicyVerifyOptions) : option error * option DecisionServer :=
  match LoadAuthorizationPolicy policyPath sigSuffix opts with
  | Err err => (Some err, s)
  | Ok p => ReloadPolicy s (Some p)
  end.

(** ** The endpoints *)

(** [src/admin.go:handleHealth] *)
Definition handleHealth (s : option DecisionServer) (now : Time) : Z * string :=
  writeAdminJSON 200 (health_json (Health s now)).
(** [src/admin.go:handleMetrics] *)
Definition handleMetrics (s : option DecisionServer) (now : Time) : Z * string :=
  writeAdminJSON 200 (snapshot_json (Snapshot (ds_metrics <$> s) now)).

Definition admin_error (status : Z) (members : list (string * string)) : Z * string :=
  writeAdminJSON status (JObj (map (fun '(k, v) => (k, JStr v)) members)).

(** [src/admin.go:252-254 reloadRequest] decoded from at most [2^20] bytes: the
    text of the policy, none when it is absent; whatever follows the first value
    is not read. *)
Definition body_limit : Z := 2 ^ 20.
Definition dec_reload_request (body : string) : result string :=
  let b := stake (Z.to_nat body_limit) body in
  match raw_value b with
  | None => Err json_syntax_error
  | Some (v, _) =>
      match raw_object v with
      | None => Err json_type_error
      | Some ms => Ok (foldl (fun acc '(k, raw) => if field_is "policy" k then raw else acc) "" ms)
      end
  end.

(** [src/admin.go:handleReload]; the comparison takes the same time for every
    secret of one length. *)
Definition handleReload (s : DecisionServer) (r : Request) (body : string) (now : Time)
  : (Z * string) * DecisionServer :=
  if negb (String.eqb (rMethod r) "POST") then
    (admin_error 405 [("error", "method_not_allowed"); ("use", "POST")], s)
  else
    let auth := Header_Get (rHeader r) "Authorization" in
    if negb (has_prefix auth "Bearer ") then
      (admin_error 401 [("detail", "Bearer admin secret required"); ("error", "unauthorized")], s)
    else if negb (String.eqb (sdrop 7 auth) (adminToken s)) then
      (admin_error 401 [("detail", "invalid admin bearer token"); ("error", "unauthorized")], s)
    else match dec_reload_request body with
    | Err err => (admin_error 400 [("detail", Sprintf err); ("error", "bad_request")], s)
    | Ok raw =>
        match ParseAuthorizationPolicy raw with
        | Err err => (admin_error 400 [("detail", Sprintf err); ("error", "policy_invalid")], s)
        | Ok p =>
            match ReloadPolicy (Some s) (Some p) with
            | (Some err, s') => (admin_error 400 [("detail", Sprintf err); ("error", "reload_failed")], default s s')
            | (None, s') => (writeAdminJSON 200 (health_json (Health s' now)), default s s')
            end
        end
    end.

(** [src/admin.go:AdminHandler] for a path in its clean form; [net/http]
    redirects others to it. *)
Definition AdminHandler (s : DecisionServer) (r : Request) (body : string) (now : Time) : (Z * string) * DecisionServer :=
  let p := rPath r in
  if String.eqb p "/healthz" || String.eqb p "/readyz" || String.eqb p "/health" then (handleHealth (Some s) now, s)
  else if String.eqb p "/metrics" then (handleMetrics (Some s) now, s)
  else if String.eqb p "/reload" then handleReload s r body now
  else ((404, line_of "404 page not found"), s).
(** ** Runs *)

(** What happens to a server between two of its decisions: a request of its
    administration, or a reload by the program itself. *)
Inductive admin_event :=
  | AdminRequest (r : Request) (body : string) (now : Time)
  | Reloaded (p : option AuthorizationPolicy)
  | ReloadedFromFile (policyPath sigSuffix : string) (opts : option (@PolicyVerifyOptions PE)).
Definition admin_step (s : DecisionServer) (e : admin_event) : DecisionServer :=
  match e with
  | AdminRequest r body now => (AdminHandler s r body now).2
  | Reloaded p => default s (ReloadPolicy (Some s) p).2
  | ReloadedFromFile path suffix opts => default s (ReloadPolicyFromFile (Some s) path suffix opts).2
  end.
Definition admin_run (s : DecisionServer) (es : list admin_event) : DecisionServer := foldl admin_step s es.

(** ** Properties *)

Definition policy_installable (p : AuthorizationPolicy) : Prop := Version p <> "" /\ Roles p <> ∅.
(** The server after a policy was put in force. *)
Definition with_policy (s : DecisionServer) (p : AuthorizationPolicy) : DecisionServer :=
  let '(started, m) := ds_metrics s in
  {| adminToken := adminToken s;
     ds_bundle := Some {| BPolicy := Some p; BConstraints := None; BValidators := None |};
     ds_metrics := (started, {| DecideTotal := DecideTotal m; MGranted := MGranted m; MDenied := MDenied m;
                                ConfigReload := wrapu64 (ConfigReload m + 1); lastErr := lastErr m; lastOK := lastOK m |}) |}.

Lemma size_zero_iff (p : AuthorizationPolicy) : (size (Roles p) =? 0)%nat = true <-> Roles p = ∅.
Proof. rewrite Nat.eqb_eq. apply map_size_empty_iff. Qed.

Lemma ReloadPolicy_cases (s : DecisionServer) (p : option AuthorizationPolicy) :
  (exists err, ReloadPolicy (Some s) p = (Some err, Some s) /\ forall q, p = Some q -> ~ policy_installable q) \/
  (exists q, p = Some q /\ policy_installable q /\ ReloadPolicy (Some s) p = (None, Some (with_policy s q))).
Proof.
  unfold ReloadPolicy, with_policy, policy_installable, reload, validateReloadPolicy. destruct s as [tok b [started m]].
  destruct p as [q|]; cbn [BPolicy ds_bundle ds_metrics fst snd]; [|left; eexists; split; [done|naive_solver]].
  destruct (String.eqb_spec (Version q) "") as [E|E]; [left; eexists; split; [done|naive_solver]|].
  destruct ((size (Roles q) =? 0)%nat) eqn:Es.
  - left. eexists. split; [done|]. intros ? [= <-] [_ Hr]. apply size_zero_iff in Es. done.
  - right. exists q. split; [done|]. split; [|done]. split; [done|].
    intros Hr%size_zero_iff. congruence.
Qed.

Lemma ParseAuthorizationPolicy_installable data p :
  ParseAuthorizationPolicy data = Ok p -> policy_installable p.
Proof.
  unfold ParseAuthorizationPolicy, policy_installable. destruct (unmarshal _ _) as [q|]; [|done].
  destruct (String.eqb_spec (Version q) ""); [done|]. destruct ((size (Roles q) =? 0)%nat) eqn:Es; [done|].
  intros [= <-]. split; [done|]. intros Hr. apply size_zero_iff in Hr. congruence.
Qed.

(** What the request of an operator carries: the method, the path, the secret
    of the server, a document with a policy. *)
Definition reload_authorised (s : DecisionServer) (r : Request) : Prop :=
  rPath r = "/reload" /\ rMethod r = "POST" /\
  Header_Get (rHeader r) "Authorization" = "Bearer " +:+ adminToken s.
Definition carried_policy (body : string) (p : AuthorizationPolicy) : Prop :=
  exists raw, dec_reload_request body = Ok raw /\ ParseAuthorizationPolicy raw = Ok p.

Lemma bearer_secret auth tok :
  has_prefix auth "Bearer " = true -> sdrop 7 auth = tok -> auth = "Bearer " +:+ tok.
Proof. intros (t & ->)%has_prefix_spec <-. done. Qed.

Lemma handleReload_cases (s : DecisionServer) (r : Request) (body : string) (now : Time) :
  let '(resp, s') := handleReload s r body now in
  (s' = s /\ resp.1 <> 200) \/
  (rMethod r = "POST" /\ Header_Get (rHeader r) "Authorization" = "Bearer " +:+ adminToken s /\
   exists p, carried_policy body p /\ s' = with_policy s p /\ resp.1 = 200).
Proof.
  unfold handleReload.
  destruct (String.eqb_spec (rMethod r) "POST") as [Hm|]; cbn [negb]; [|by left].
  destruct (has_prefix _ _) eqn:Hp; cbn [negb]; [|by left].
  destruct (String.eqb_spec (sdrop 7 (Header_Get (rHeader r) "Authorization")) (adminToken s)) as [Ht|]; cbn [negb]; [|by left].
  destruct (dec_reload_request body) as [raw|] eqn:Hd; [|by left].
  destruct (ParseAuthorizationPolicy raw) as [p|] eqn:Hpol; [|by left].
  destruct (ReloadPolicy_cases s (Some p)) as [(err & -> & Hn)|(q & [= <-] & Hq & ->)].
  - exfalso. by eapply Hn, ParseAuthorizationPolicy_installable.
  - right. split; [done|]. split; [by apply bearer_secret|]. exists p. split; [by exists raw|]. done.
Qed.

Lemma handleReload_authorised (s : DecisionServer) (r : Request) (body : string) (now : Time) p :
  reload_authorised s r -> carried_policy body p ->
  (handleReload s r body now).2 = with_policy s p /\ (handleReload s r body now).1.1 = 200.
Proof.
  intros (_ & Hm & Ha) (raw & Hd & Hp). unfold handleReload. rewrite Hm, Ha, has_prefix_app, Hd, Hp.
  cbn [negb]. change 7%nat with (String.length "Bearer "). rewrite sdrop_length_app, !String.eqb_refl. cbn [negb].
  destruct (ReloadPolicy_cases s (Some p)) as [(err & _ & Hn)|(q & [= <-] & _ & ->)]; [|done].
  exfalso. by eapply Hn, ParseAuthorizationPolicy_installable.
Qed.

Lemma AdminHandler_reload s r body now : rPath r = "/reload" -> AdminHandler s r body now = handleReload s r body now.
Proof. unfold AdminHandler. by intros ->. Qed.
Lemma AdminHandler_other s r body now : rPath r <> "/reload" -> (AdminHandler s r body now).2 = s.
Proof.
  unfold AdminHandler. intros E. destruct (_ || _ || _); [done|]. destruct (_ =? _)%string; [done|].
  by destruct (String.eqb_spec (rPath r) "/reload").
Qed.
Lemma AdminHandler_cases s r body now (P : DecisionServer -> Prop) :
  P s -> (forall p, policy_installable p -> P (with_policy s p)) -> P (AdminHandler s r body now).2.
Proof.
  intros Hs Hp. destruct (String.eqb_spec (rPath r) "/reload"); [|by rewrite AdminHandler_other].
  rewrite AdminHandler_reload by done.
  pose proof (handleReload_cases s r body now) as Hc. destruct (handleReload s r body now) as [resp s'].
  destruct Hc as [[-> _]|(_ & _ & p & (raw & _ & Hraw) & -> & _)]; [done|].
  by eapply Hp, ParseAuthorizationPolicy_installable.
Qed.

(** Only a POST to [/reload] with the server's secret and a document holding a
    policy that parses changes the server, and such a request always does: the
    policy of the document is put in force as a whole, the reload is counted and
    answered with status 200. Every other request of the administration leaves
    the server as it was, and on [/reload] is answered with another status. *)
Theorem reload_needs_secret (s : DecisionServer) (r : Request) (body : string) (now : Time) :
  let '(resp, s') := AdminHandler s r body now in
  (forall p, reload_authorised s r /\ carried_policy body p -> s' = with_policy s p /\ resp.1 = 200) /\
  (~ (reload_authorised s r /\ exists p, carried_policy body p) -> s' = s /\ (rPath r = "/reload" -> resp.1 <> 200)).
Proof.
  destruct (String.eqb_spec (rPath r) "/reload") as [E|E].
  - rewrite AdminHandler_reload by done.
    pose proof (handleReload_cases s r body now) as Hc. pose proof (handleReload_authorised s r body now) as Hs.
    destruct (handleReload s r body now) as [resp s']. cbn [fst snd] in Hs. split; [intros p []; by apply Hs|].
    intros Hn. destruct Hc as [[-> Hr]|(Hm & Ha & p & Hp & _)]; [done|]. exfalso. apply Hn. split; [done|by exists p].
  - pose proof (AdminHandler_other s r body now E) as Ho. destruct (AdminHandler s r body now) as [resp s'].
    cbn in Ho. subst s'. split; [intros p [[? _] _]; done|done].
Qed.

Definition server_ok (s : DecisionServer) : Prop :=
  adminToken s <> "" /\
  forall b, ds_bundle s = Some b -> exists p, BPolicy b = Some p /\ policy_installable p.

Lemma with_policy_ok (s : DecisionServer) (p : AuthorizationPolicy) :
  server_ok s -> policy_installable p -> server_ok (with_policy s p).
Proof.
  intros [Ht _] Hp. unfold with_policy. destruct (ds_metrics s). split; [done|]. intros b [= <-]. exists p. done.
Qed.

Lemma ReloadPolicy_ok (s : DecisionServer) p : server_ok s -> server_ok (default s (ReloadPolicy (Some s) p).2).
Proof.
  intros H. destruct (ReloadPolicy_cases s p) as [(err & -> & _)|(q & _ & Hq & ->)]; [done|]. by apply with_policy_ok.
Qed.

Lemma admin_step_ok s e : server_ok s -> server_ok (admin_step s e).
Proof.
  intros H. destruct e as [r body now|p|path suffix opts]; cbn.
  - apply AdminHandler_cases; [done|]. intros p Hp. by apply with_policy_ok.
  - by apply ReloadPolicy_ok.
  - unfold ReloadPolicyFromFile. destruct (LoadAuthorizationPolicy _ _ _); [by apply ReloadPolicy_ok|done].
Qed.

Lemma admin_run_ok es : forall s, server_ok s -> server_ok (admin_run s es).
Proof. induction es as [|e es IH]; intros s H; [done|]. by apply IH, admin_step_ok. Qed.

Lemma admin_step_token s e : adminToken (admin_step s e) = adminToken s.
Proof.
  assert (forall p, adminToken (with_policy s p) = adminToken s) as Hw.
  { intros p. unfold with_policy. by destruct (ds_metrics s). }
  assert (forall p, adminToken (default s (ReloadPolicy (Some s) p).2) = adminToken s) as Hr.
  { intros p. destruct (ReloadPolicy_cases s p) as [(err & -> & _)|(q & _ & _ & ->)]; [done|apply Hw]. }
  destruct e as [r body now|p|path suffix opts]; cbn.
  - by apply AdminHandler_cases.
  - apply Hr.
  - unfold ReloadPolicyFromFile. destruct (LoadAuthorizationPolicy _ _ _); [apply Hr|done].
Qed.

Lemma admin_run_token es : forall s, adminToken (admin_run s es) = adminToken s.
Proof. induction es as [|e es IH]; intros s; [done|]. cbn. unfold admin_run in IH. by rewrite IH, admin_step_token. Qed.

Lemma adminTokenFrom_Ok tok file t : adminTokenFrom ReadFile tok file = Ok t ->
  t <> "" /\ (t = tok \/ exists text, ReadFile file = Ok text /\ t = trim_space text).
Proof.
  unfold adminTokenFrom. destruct (String.eqb_spec tok ""); cbn [negb]; [|intros [= <-]; by split; [|left]].
  destruct (file =? "")%string; [done|]. destruct (ReadFile file) as [text|]; [|done].
  destruct (String.eqb_spec (trim_space text) ""); [done|]. intros [= <-]. split; [done|]. right. by exists text.
Qed.

(** A decision server is only built with a secret, the one of the setting
    or, without it, the trimmed text of the secret's file; and whatever
    administration requests, reloads and reloads from files follow, that secret
    stays in force and any policy put in force has a version and roles. *)
Theorem administered_server_guarded {A} (built : result A) AdminToken AdminTokenFile set now a s es
    (Hnew : NewDecisionServer built AdminToken AdminTokenFile set now = Ok (a, s)) :
  adminToken s <> "" /\ adminToken (admin_run s es) = adminToken s /\
  (adminToken s = AdminToken \/ exists text, ReadFile AdminTokenFile = Ok text /\ adminToken s = trim_space text) /\
  forall b, ds_bundle (admin_run s es) = Some b -> exists p, BPolicy b = Some p /\ policy_installable p.
Proof.
  unfold NewDecisionServer in Hnew. destruct built as [a'|]; [|done]. cbn in Hnew.
  destruct (adminTokenFrom _ _ _) as [t|] eqn:Ht; [|done]. cbn in Hnew. injection Hnew as <- <-.
  apply adminTokenFrom_Ok in Ht as [Hne Hsrc]. split; [done|]. split; [apply admin_run_token|]. split; [done|].
  refine (proj2 (admin_run_ok _ _ _)). by split.
Qed.

(** ** The administration as a specification

    What an observer needs to know of a server: its secret, the policy put in
    force, and how many were. *)
Record admin_view := { v_secret : string; v_policy : option AuthorizationPolicy; v_reloads : Z }.
Definition view_of (s : DecisionServer) : admin_view :=
  {| v_secret := adminToken s; v_policy := ds_bundle s ≫= BPolicy; v_reloads := ConfigReload (ds_metrics s).2 |}.

(** The events that put a policy in force. *)
Inductive installs (secret : string) : admin_event -> AuthorizationPolicy -> Prop :=
  | ByOperator r body now p : rPath r = "/reload" -> rMethod r = "POST" ->
      Header_Get (rHeader r) "Authorization" = "Bearer " +:+ secret -> carried_policy body p ->
      installs secret (AdminRequest r body now) p
  | ByProgram p : policy_installable p -> installs secret (Reloaded (Some p)) p
  | ByFile path suffix opts p : LoadAuthorizationPolicy path suffix opts = Ok p ->
      installs secret (ReloadedFromFile path suffix opts) p.
Inductive spec_run : admin_view -> list admin_event -> admin_view -> Prop :=
  | spec_done v : spec_run v [] v
  | spec_install v e p es v' : installs (v_secret v) e p ->
      spec_run {| v_secret := v_secret v; v_policy := Some p; v_reloads := wrapu64 (v_reloads v + 1) |} es v' ->
      spec_run v (e :: es) v'
  | spec_skip v e es v' : (forall p, ~ installs (v_secret v) e p) -> spec_run v es v' -> spec_run v (e :: es) v'.

Lemma carried_policy_functional body p q : carried_policy body p -> carried_policy body q -> p = q.
Proof. intros (r & H1 & H2) (r' & H3 & H4). congruence. Qed.

Lemma LoadAuthorizationPolicy_installable path suffix opts p :
  LoadAuthorizationPolicy path suffix opts = Ok p -> policy_installable p.
Proof.
  unfold LoadAuthorizationPolicy. destruct (ReadFile path) as [data|]; [|done]. destruct opts as [o|].
  - destruct (ReadFile _) as [sig|]; [|done]. destruct (VerifySignedPolicy _ _ _ _); [|done].
    apply ParseAuthorizationPolicy_installable.
  - apply ParseAuthorizationPolicy_installable.
Qed.

Lemma view_with_policy (s : DecisionServer) p : view_of (with_policy s p) =
  {| v_secret := adminToken s; v_policy := Some p; v_reloads := wrapu64 (v_reloads (view_of s) + 1) |}.
Proof. unfold with_policy, view_of. by destruct (ds_metrics s) as [started m]. Qed.

Lemma admin_step_installs s e :
  (exists p, installs (adminToken s) e p /\ admin_step s e = with_policy s p) \/
  ((forall p, ~ installs (adminToken s) e p) /\ admin_step s e = s).
Proof.
  destruct e as [r body now|q|path suffix opts]; cbn [admin_step].
  - destruct (String.eqb_spec (rPath r) "/reload") as [E|E].
    + rewrite AdminHandler_reload by done.
      pose proof (handleReload_cases s r body now) as Hc.
      destruct (handleReload s r body now) as [resp s'] eqn:Eh. cbn [snd].
      destruct Hc as [[-> Hr]|(Hm & Ha & p & Hp & -> & _)].
      * right. split; [|done]. intros p H. inversion H as [? ? ? ? Hp Hm Ha Hc| |]; subst.
        destruct (handleReload_authorised s r body now p) as [_ H200]; [done|done|]. by rewrite Eh in H200.
      * left. exists p. split; [by constructor|done].
    + right. rewrite AdminHandler_other by done. split; [|done]. intros p H. by inversion H.
  - destruct (ReloadPolicy_cases s q) as [(err & -> & Hn)|(p & -> & Hp & ->)].
    + right. split; [|done]. intros p H. inversion H as [|? Hp|]; subst. by destruct (Hn p).
    + left. exists p. split; [by constructor|done].
  - unfold ReloadPolicyFromFile. destruct (LoadAuthorizationPolicy path suffix opts) as [p|err] eqn:El.
    + destruct (ReloadPolicy_cases s (Some p)) as [(err & -> & Hn)|(q & [= <-] & _ & ->)].
      * by destruct (Hn p eq_refl (LoadAuthorizationPolicy_installable _ _ _ _ El)).
      * left. exists p. split; [by constructor|done].
    + right. split; [|done]. intros p H. inversion H; subst. congruence.
Qed.

Lemma installs_functional secret e p q : installs secret e p -> installs secret e q -> p = q.
Proof.
  intros H1 H2. destruct H1; inversion H2; subst; [by eapply carried_policy_functional|done|congruence].
Qed.

(** C30: The administration of a decision server refines its specification: seen
    through its secret, its policy and its reload counter, a run of requests,
    reloads and reloads from files is the run in which exactly the events that
    install a policy (a POST to [/reload] with the secret and a policy that
    parses, a reload with a version and roles, a file that loads) put it in
    force, and the specification allows no other outcome. *)
Theorem administration_refines (s : DecisionServer) es v :
  spec_run (view_of s) es v <-> v = view_of (admin_run s es).
Proof.
  split.
  - remember (view_of s) as v0 eqn:E. intros H. revert s E.
    induction H as [v|v e p es v' Hi H IH|v e es v' Hn H IH]; intros s ->; [done| |]; cbn;
      destruct (admin_step_installs s e) as [(q & Hq & Es)|[Hno Es]].
    + apply IH. by rewrite Es, view_with_policy, (installs_functional _ _ _ _ Hi Hq).
    + by destruct (Hno p).
    + by destruct (Hn q).
    + apply IH. by rewrite Es.
  - intros ->. revert s. induction es as [|e es IH]; intros s; [constructor|]. cbn.
    destruct (admin_step_installs s e) as [(q & Hq & Es)|[Hno Es]].
    + apply (spec_install _ _ q); [done|]. specialize (IH (admin_step s e)). rewrite Es, view_with_policy in IH.
      by rewrite Es.
    + apply spec_skip; [done|]. specialize (IH (admin_step s e)). rewrite Es in IH |- *. done.
Qed.
End Admin.

(** * Concrete instance *)
Definition reload_request (secret : string) : Request := {| rMethod := "POST"; rPath := "/reload"; rRawQuery := "";
  rHeader := {["Authorization" := ["Bearer " +:+ secret]]}; 
  rRemoteAddr := "192.0.2.1:5000"; rTLS := None; rBody := None |}.
Definition reload_body : string := ("{" +:+ dq "'policy':" +:+ policy_text +:+ "}")%string.
Definition admin_server : DecisionServer :=
  {| adminToken := "s3cret"; ds_bundle := None; ds_metrics := (0, NewDecisionMetrics) |}.

Section Witness.
  #[local] Existing Instance toy_policy_env.
  #[local] Existing Instance toy_semantics.
Let Sprintf (err : error) : string := "error".

Lemma reload_needs_secret_witness :
  exists p, carried_policy reload_body p /\
    AdminHandler Sprintf admin_server (reload_request "s3cret") reload_body 5 =
      ((200, (AdminHandler Sprintf admin_server (reload_request "s3cret") reload_body 5).1.2), with_policy admin_server p) /\
    (AdminHandler Sprintf admin_server (reload_request "guess") reload_body 5).2 = admin_server.
Proof.
  destruct (ParseAuthorizationPolicy policy_text) as [p|] eqn:Hp; [|vm_compute in Hp; discriminate].
  assert (carried_policy reload_body p) as Hc by (exists policy_text; split; [vm_compute; reflexivity|exact Hp]).
  exists p. split; [exact Hc|]. split.
  - pose proof (reload_needs_secret Sprintf admin_server (reload_request "s3cret") reload_body 5) as H.
    destruct (AdminHandler Sprintf admin_server (reload_request "s3cret") reload_body 5) as [[st b] s'].
    destruct H as [H _]. destruct (H p) as [-> Hst]; [|cbn in Hst; subst st; reflexivity].
    split; [|exact Hc]. split; [reflexivity|]. split; reflexivity.
  - pose proof (reload_needs_secret Sprintf admin_server (reload_request "guess") reload_body 5) as H.
    destruct (AdminHandler Sprintf admin_server (reload_request "guess") reload_body 5) as [resp s'].
    apply H. intros [(_ & _ & Ha) _]. vm_compute in Ha. discriminate.
Defined.

Lemma administered_server_guarded_witness :
  match NewDecisionServer (Ok tt) "" "authz.json" None 0 with
  | Ok (_, s) => adminToken s <> "" /\
      adminToken (admin_run Sprintf s [AdminRequest (reload_request policy_text) reload_body 5; Reloaded None]) = adminToken s
  | Err _ => False
  end.
Proof.
  destruct (NewDecisionServer (Ok tt) "" "authz.json" None 0) as [[u s]|] eqn:E; [|vm_compute in E; discriminate].
  pose proof (administered_server_guarded Sprintf _ _ _ _ _ _ _
    [AdminRequest (reload_request policy_text) reload_body 5; Reloaded None] E) as (H1 & H2 & _).
  split; [exact H1|exact H2].
Defined.

(** A server whose last decision was a refusal answers its readiness endpoint
    with status 200 all the same. *)
Lemma unhealthy_answers_200 :
  let m := noteResult NewDecisionMetrics true 1 in
  let s := {| adminToken := "s3cret"; ds_bundle := None; ds_metrics := (0, m) |} in
  Healthy (Some m) = false /\ (handleHealth (Some s) 2).1 = 200.
Proof. split; reflexivity. Qed.
(** The report over no counters says that it is not well, while no counters are
    well. *)
Lemma no_counters_reported_unwell : HOK (healthReport None 0) = false /\ Healthy None = true.
Proof. split; reflexivity. Qed.
End Witness.
