(* ===== verification/Keys.v ===== *)
(** Keys in files and on records: PEM private keys and certificates
    ([src/policy.go]), the key that signs evidence records
    ([src/evidence_key.go]) and the check pinned to one public key
    ([src/evidence_signing.go]). *)
From S2P Require Import Prelude GoStrings GoTime GoJson GoJsonOut GoHttp GoClock Types Sha256 GoNet Capability DelegationAuth Delegation Constraints AdmissionTypes Clc Credential Admission Rbac Revocation Params Spiffe Bearer Evidence Challenge Pipeline AuditLog AuditWrite Decide Identity Records Proxy Middleware EvidenceFiles Der.
Local Open Scope string_scope.
Local Open Scope Z_scope.
Local Open Scope list_scope.

(** * Definitions *)

(** The private keys of [crypto]: what the parsers of [crypto/x509] return, of
    which some implement [crypto.Signer], and what the signers and the
    verification functions do. A signer is given the message or, with
    [crypto.SHA256] as its option, a digest. *)
Class KeyEnv := {
  PrivateKey : Type;
  CryptoSigner : Type;
  is_signer : PrivateKey -> option CryptoSigner;
  ParsePKCS1PrivateKey : bytes -> result CryptoSigner;
  ParseECPrivateKey : bytes -> result CryptoSigner;
  ParsePKCS8PrivateKey : bytes -> result PrivateKey;
  signer_Public : CryptoSigner -> PublicKey;
  signer_Sign : CryptoSigner -> bytes -> bool -> result bytes;
  key_ecdsa_Verify : Z -> bytes -> Z -> Z -> bool;
  key_rsa_Verify : Z -> bytes -> bytes -> bool;
  key_ed25519_Verify : Z -> bytes -> bytes -> bool;
  BuildSignedData : bytes -> Certificate -> CryptoSigner -> result bytes;
  key_ReadFile : string -> result bytes
}.

Section Keys.
  Context {KE : KeyEnv} {X : X509}.

(** ** PEM files *)

(** [pem.Decode]: the first block. *)
Definition pem_first (data : bytes) : option (string * bytes) := head (pem_blocks data).

(** [src/policy.go:parseSignerKey] *)
Definition parseSignerKey (block : string * bytes) : result CryptoSigner :=
  let '(type, data) := block in
  if String.eqb type "RSA PRIVATE KEY" then ParsePKCS1PrivateKey data
  else if String.eqb type "EC PRIVATE KEY" then ParseECPrivateKey data
  else if String.eqb type "PRIVATE KEY" then
    match ParsePKCS8PrivateKey data with
    | Err err => Err (Errorf "parse PKCS#8 private key: %w" [AWrap err])
    | Ok k => match is_signer k with
              | None => Err (ErrNew "parsed key is not a crypto.Signer")
              | Some s => Ok s
              end
    end
  else if String.eqb type "ENCRYPTED PRIVATE KEY" then
    Err (ErrNew "encrypted private key requires a password (unsupported here)")
  else Err (Errorf "unsupported PEM key type %q" [AStr type]).

(** [src/policy.go:ParsePrivateKeyPEM] *)
Definition ParsePrivateKeyPEM (data : bytes) : result CryptoSigner :=
  match pem_first data with
  | None => Err (ErrNew "no PEM block found in key data")
  | Some block => parseSignerKey block
  end.

(** [src/policy.go:ParseCertPEM] *)
Definition ParseCertPEM (data : bytes) : result Certificate :=
  match pem_first data with
  | None => Err (ErrNew "no PEM block found in cert data")
  | Some (_, der) => match x509_ParseCertificate der with
                     | Err err => Err (Errorf "parse certificate: %w" [AWrap err])
                     | Ok cert => Ok cert
                     end
  end.

(** [src/policy.go:ParsePrivateKeyPEMFile] *)
Definition ParsePrivateKeyPEMFile (path : string) : result CryptoSigner :=
  data ← key_ReadFile path; ParsePrivateKeyPEM data.
(** [src/policy.go:ParseCertPEMFile] *)
Definition ParseCertPEMFile (path : string) : result Certificate :=
  data ← key_ReadFile path; ParseCertPEM data.

(** [src/policy.go:PolicySigningIdentity] *)
Record PolicySigningIdentity := { PSICert : Certificate; PSIKey : CryptoSigner }.
(** [src/policy.go:LoadPolicySigningIdentity] *)
Definition LoadPolicySigningIdentity (certPEM keyPEM : string) : result PolicySigningIdentity :=
  cert ← ParseCertPEMFile certPEM;
  key ← ParsePrivateKeyPEMFile keyPEM;
  Ok {| PSICert := cert; PSIKey := key |}.
(** [src/policy.go:SignPolicy] *)
Definition SignPolicy (policyData : bytes) (cert : Certificate) (signer : CryptoSigner) : result bytes :=
  BuildSignedData policyData cert signer.

(** ** The record signer *)

(** [src/evidence_key.go:RecordSigner] *)
Record RecordKey := { rk_keyID : string; rk_signer : option CryptoSigner }.
(** [src/evidence_key.go:NewRecordSigner] *)
Definition NewRecordSigner (keyID : string) (signer : option CryptoSigner) : result RecordKey :=
  match signer with
  | None => Err (ErrNew "evidence: nil signing key")
  | Some _ => Ok {| rk_keyID := keyID; rk_signer := signer |}
  end.
(** [src/evidence_key.go:LoadRecordSignerFile] *)
Definition LoadRecordSignerFile (path keyID : string) : result RecordKey :=
  match ParsePrivateKeyPEMFile path with
  | Err err => Err (Errorf "evidence: load signing key %q: %w" [AStr path; AWrap err])
  | Ok key => NewRecordSigner keyID (Some key)
  end.
(** [src/evidence_key.go:RecordSigner.KeyID] *)
Definition RecordSigner_KeyID (s : option RecordKey) : string := match s with None => "" | Some s => rk_keyID s end.
(** [src/evidence_key.go:RecordSigner.Public] *)
Definition RecordSigner_Public (s : option RecordKey) : option PublicKey :=
  match s with None => None | Some s => signer_Public <$> rk_signer s end.
(** [src/evidence_key.go:RecordSigner.Sign] *)
Definition RecordSigner_Sign (s : option RecordKey) (pae : bytes) : result bytes :=
  match s ≫= rk_signer with
  | None => Err (ErrNew "evidence: nil signing key")
  | Some signer =>
      match signer_Public signer with
      | Ed25519Key _ => signer_Sign signer pae false
      | _ => signer_Sign signer (Sum256 pae) true
      end
  end.

(** ** The pinned key *)

(** [asn1.Unmarshal] into a structure of two [*big.Int], nothing after it. *)
Definition der_pair (sig : bytes) : option (Z * Z) :=
  match sequence_field (fun b => '(r, b) ← field TagInteger false None minimal_integer b;
                                 '(s, _) ← field TagInteger false None minimal_integer b; Ok (r, s)) sig with
  | Ok (v, []) => Some v
  | _ => None
  end.
(** [src/evidence_signing.go:splitDSSESignature] *)
Definition splitDSSESignature (sig : bytes) : option (Z * Z) :=
  let raw := if (8 <=? zlen sig) && Z.even (zlen sig) then
               let half := Z.to_nat (zlen sig / 2) in
               Some (bytes_value (take half sig), bytes_value (drop half sig))
             else None in
  match der_pair sig with
  | Some (r, s) => if (0 <? r) && (0 <? s) then Some (r, s) else raw
  | None => raw
  end.

Definition ErrRecordSignerMismatch : error := ErrNew "aic-verifier: record signature does not verify against the pinned key".
(** [src/evidence_signing.go:VerifyFnFromKey]; a nil key is of no supported
    type. *)
Definition VerifyFnFromKey (pub : option PublicKey) (keyID : string) (pae sig : bytes) : option error :=
  let unless (b : bool) := if b then None else Some ErrRecordSignerMismatch in
  match pub with
  | Some (ECDSAKey k) =>
      match splitDSSESignature sig with
      | None => Some ErrRecordSignerMismatch
      | Some (r, s) => unless (key_ecdsa_Verify k (Sum256 pae) r s)
      end
  | Some (RSAKey k) => unless (key_rsa_Verify k (Sum256 pae) sig)
  | Some (Ed25519Key k) => unless (key_ed25519_Verify k pae sig)
  | Some (OtherKey t) => Some (Errorf "%w: unsupported key type %T" [AWrap ErrRecordSignerMismatch; AStr t])
  | None => Some (Errorf "%w: unsupported key type %T" [AWrap ErrRecordSignerMismatch; AStr "<nil>"])
  end.
(** [src/evidence_signing.go:VerifyFnFromPublicKey] *)
Definition VerifyFnFromPublicKey (pub : Z) := VerifyFnFromKey (Some (ECDSAKey pub)).
(** [src/evidence_key.go:RecordSigner.VerifyFn] *)
Definition RecordSigner_VerifyFn (s : option RecordKey) := VerifyFnFromKey (RecordSigner_Public s).

(** The signature function of a key file, as [resolveSigner] takes it: that of
    the signer that [LoadRecordSignerFile] makes. *)
Definition file_signer (path : string) : result (bytes -> result bytes) :=
  key ← ParsePrivateKeyPEMFile path;
  Ok (fun pae => RecordSigner_Sign (Some {| rk_keyID := ""; rk_signer := Some key |}) pae).
End Keys.

(** ** What a signer writes *)

(** The contents of a positive INTEGER. *)
Definition int_bytes (n : Z) : bytes :=
  match be_bytes 128 n [] with
  | (x :: _) as b => if 128 <=? byte_z x then z_byte 0 :: b else b
  | [] => [z_byte 0]
  end.
(** ECDSA-Sig-Value, the form [crypto/ecdsa] signs in. *)
Definition ecdsa_der (r s : Z) : bytes := tlv 48 (tlv 2 (int_bytes r) ++ tlv 2 (int_bytes s)).
(** [big.Int.FillBytes]: the two halves of the fixed-width form. *)
Fixpoint fill (w : nat) (n : Z) (acc : bytes) : bytes :=
  match w with O => acc | S w' => fill w' (n / 256) (z_byte (n mod 256) :: acc) end.
Definition raw_pair (w : nat) (r s : Z) : bytes := fill w r [] ++ fill w s [].

(** * Facts *)

Lemma int_bytes_read n : 0 < n < 256 ^ 128 -> minimal_integer (int_bytes n) = Ok n /\ zlen (int_bytes n) <= 129.
Proof.
  intros Hn. unfold int_bytes.
  pose proof (be_bytes_value 128 n [] ltac:(lia) (proj2 Hn)) as Hv.
  destruct (be_bytes_shape 128 n [] ltac:(lia) (proj2 Hn)) as (x & l & E & Hx & Hl). rewrite E in *.
  change (acc_value n []) with n in Hv. pose proof (byte_z_range x) as Hr. cbn [length] in Hl.
  destruct (Z.leb_spec 128 (byte_z x)) as [Hb|Hb].
  - split; [|unfold zlen; cbn [length]; lia].
    unfold minimal_integer. rewrite byte_z_byte. change (0 mod 256) with 0. cbn [Z.leb Z.compare].
    rewrite (proj2 (Z.ltb_ge (byte_z x) 128)) by lia. cbn [Z.eqb andb orb].
    unfold bytes_value. cbn [foldl]. rewrite byte_z_byte. change (0 * 256 + 0 mod 256) with 0. cbn [foldl] in Hv. by rewrite Hv.
  - split; [|unfold zlen; cbn [length]; lia].
    unfold minimal_integer. rewrite (proj2 (Z.leb_gt 128 (byte_z x))) by lia.
    replace (bytes_value (x :: l)) with n by (by rewrite <- Hv).
    destruct l as [|y l]; [done|]. rewrite (proj2 (Z.eqb_neq (byte_z x) 0)), (proj2 (Z.eqb_neq (byte_z x) 255)) by lia. done.
Qed.

Lemma zlen_tlv first content : zlen content < 2 ^ 31 -> zlen (tlv first content) <= zlen content + 10.
Proof.
  intros H. unfold tlv, length_bytes. pose proof (zlen_nonneg content).
  destruct (Z.ltb_spec (zlen content) 128).
  - unfold zlen in *. cbn [length app]. lia.
  - assert (zlen content < 256 ^ Z.of_nat 8) as H8.
    { change (256 ^ Z.of_nat 8) with 18446744073709551616. change (2 ^ 31) with 2147483648 in H. lia. }
    destruct (be_bytes_shape 8 (zlen content) []) as (x & l & -> & _ & Hl); [lia|done|].
    unfold zlen. rewrite length_cons, length_app, length_cons. cbn [length] in *. lia.
Qed.

Lemma integer_field_read n r : 0 < n < 256 ^ 128 ->
  field TagInteger false None minimal_integer (tlv 2 (int_bytes n) ++ r) = Ok (n, r).
Proof.
  intros Hn. destruct (int_bytes_read n Hn) as [Hr Hl]. apply field_tlv; try done.
  change (2 ^ 31) with 2147483648. lia.
Qed.

Lemma ecdsa_der_read r s : 0 < r < 256 ^ 128 -> 0 < s < 256 ^ 128 -> der_pair (ecdsa_der r s) = Some (r, s).
Proof.
  intros Hr Hs. unfold der_pair, ecdsa_der, sequence_field.
  rewrite <- (app_nil_r (tlv 48 _)). erewrite (field_tlv _ _ _ _ (r, s)); try done.
  - destruct (int_bytes_read r Hr) as [_ Lr]. destruct (int_bytes_read s Hs) as [_ Ls].
    assert (2 ^ 31 = 2147483648) as E by done.
    pose proof (zlen_tlv 2 (int_bytes r) ltac:(lia)). pose proof (zlen_tlv 2 (int_bytes s) ltac:(lia)).
    rewrite zlen_app. lia.
  - rewrite integer_field_read by done. cbn [mbind result_bind].
    rewrite <- (app_nil_r (tlv 2 (int_bytes s))), integer_field_read by done. done.
Qed.

Lemma fill_value w : forall n acc, 0 <= n < 256 ^ Z.of_nat w -> acc_value 0 (fill w n acc) = acc_value n acc.
Proof.
  induction w as [|w IH]; intros n acc Hn.
  - assert (n = 0) as -> by (change (256 ^ Z.of_nat 0) with 1 in Hn; lia). done.
  - cbn [fill]. rewrite Nat2Z.inj_succ, Z.pow_succ_r in Hn by lia. rewrite IH.
    + cbn [foldl]. f_equal. rewrite byte_z_byte, Z.mod_mod by lia. rewrite (Z.div_mod n 256) at 3 by lia. lia.
    + split; [apply Z.div_pos; lia|]. apply Z.div_lt_upper_bound; lia.
Qed.
Lemma fill_length w : forall n acc, length (fill w n acc) = (w + length acc)%nat.
Proof. induction w as [|w IH]; intros n acc; [done|]. cbn [fill]. rewrite IH. cbn. lia. Qed.

(** A structure begins with the byte of a SEQUENCE. *)
Lemma der_pair_first x b v : der_pair (x :: b) = Some v -> byte_z x = 48.
Proof.
  unfold der_pair, sequence_field, field. pose proof (byte_z_range x) as Hx.
  destruct (parseTagAndLength (x :: b)) as [[h b1]|] eqn:E; [|done]. cbn [mbind result_bind].
  destruct ((hClass h =? 0) && (hTag h =? TagSequence) && Bool.eqb (hCompound h) true) eqn:Ec; [|done].
  intros _. apply andb_true_iff in Ec as [[H0 Ht]%andb_true_iff Hc%eqb_prop].
  apply Z.eqb_eq in H0. apply Z.eqb_eq in Ht. unfold parseTagAndLength in E.
  destruct (Z.eqb_spec (byte_z x mod 32) 31) as [E31|E31].
  - destruct (base128 0 0 b) as [[t b2]|]; [|done]. cbn [mbind result_bind] in E.
    destruct (Z.ltb_spec t 31); [done|]. cbn [mbind result_bind] in E. destruct b2 as [|y b2]; [done|].
    destruct (if byte_z y <? 128 then _ else _) as [[len b3]|]; [|done]. cbn [mbind result_bind] in E.
    injection E as <- <-. cbn in Ht. unfold TagSequence in Ht. lia.
  - cbn [mbind result_bind] in E. destruct b as [|y b2]; [done|].
    destruct (if byte_z y <? 128 then _ else _) as [[len b3]|]; [|done]. cbn [mbind result_bind] in E.
    injection E as <- <-. cbn [hClass hTag hCompound] in *. unfold TagSequence in Ht.
    apply negb_true_iff, Z.eqb_neq in Hc. Z.div_mod_to_equations. lia.
Qed.

Lemma splitDSSESignature_der r s :
  0 < r < 256 ^ 128 -> 0 < s < 256 ^ 128 -> splitDSSESignature (ecdsa_der r s) = Some (r, s).
Proof.
  intros Hr Hs. unfold splitDSSESignature. rewrite ecdsa_der_read by done.
  by rewrite (proj2 (Z.ltb_lt 0 r)), (proj2 (Z.ltb_lt 0 s)) by lia.
Qed.

Lemma splitDSSESignature_raw w r s : (4 <= w)%nat -> 0 <= r < 256 ^ Z.of_nat w -> 0 <= s < 256 ^ Z.of_nat w ->
  (forall x, head (fill w r []) = Some x -> byte_z x <> 48) -> splitDSSESignature (raw_pair w r s) = Some (r, s).
Proof.
  intros Hw Hr Hs Hf. unfold splitDSSESignature, raw_pair.
  pose proof (fill_length w r []) as Lr. pose proof (fill_length w s []) as Ls. cbn [length] in Lr, Ls.
  assert (der_pair (fill w r [] ++ fill w s []) = None) as ->.
  { destruct (fill w r []) as [|x b]; [cbn in Lr; lia|]. destruct (der_pair ((x :: b) ++ fill w s [])) as [v|] eqn:E; [|done].
    by destruct (Hf x eq_refl (der_pair_first _ _ _ E)). }
  assert (zlen (fill w r [] ++ fill w s []) = 2 * Z.of_nat w) as E by (rewrite zlen_app; unfold zlen; lia).
  rewrite E, (proj2 (Z.leb_le 8 (2 * Z.of_nat w))), Z.even_mul by lia. cbn [andb orb Z.even].
  replace (Z.to_nat (2 * Z.of_nat w / 2)) with (length (fill w r [])) by (rewrite Z.mul_comm, Z.div_mul by lia; lia).
  rewrite take_app_length, drop_app_length. unfold bytes_value. by rewrite !fill_value.
Qed.

(** ** What is signed verifies *)

Definition supported (k : PublicKey) : Prop := match k with OtherKey _ => False | _ => True end.

(** What [crypto] documents of its signers: an ECDSA signer writes an
    ECDSA-Sig-Value, and what a signer signs verifies with its public key. *)
Class KeyLaws `{KeyEnv} := {
  ecdsa_signs : forall s k digest sig, signer_Public s = ECDSAKey k -> signer_Sign s digest true = Ok sig ->
    exists r v, 0 < r < 256 ^ 128 /\ 0 < v < 256 ^ 128 /\ sig = ecdsa_der r v /\ key_ecdsa_Verify k digest r v = true;
  rsa_signs : forall s k digest sig, signer_Public s = RSAKey k -> signer_Sign s digest true = Ok sig ->
    key_rsa_Verify k digest sig = true;
  ed25519_signs : forall s k msg sig, signer_Public s = Ed25519Key k -> signer_Sign s msg false = Ok sig ->
    key_ed25519_Verify k msg sig = true
}.

Section Laws.
  Context {KE : KeyEnv} {KL : KeyLaws} {X : X509}.

Lemma signature_verifies s id pae sig keyID : supported (signer_Public s) ->
  RecordSigner_Sign (Some {| rk_keyID := id; rk_signer := Some s |}) pae = Ok sig ->
  VerifyFnFromKey (Some (signer_Public s)) keyID pae sig = None.
Proof.
  intros Hsup H. unfold RecordSigner_Sign in H. cbn [mbind option_bind rk_signer] in H. unfold VerifyFnFromKey.
  destruct (signer_Public s) as [k|k|k|] eqn:E; [| | |done].
  - destruct (ecdsa_signs s k _ _ E H) as (r & v & Hr & Hv & -> & Hver).
    by rewrite splitDSSESignature_der, Hver by done.
  - by rewrite (rsa_signs s k _ _ E H).
  - by rewrite (ed25519_signs s k _ _ E H).
Qed.

Lemma file_signer_Ok path f : file_signer path = Ok f -> exists key, ParsePrivateKeyPEMFile path = Ok key /\
  forall pae, f pae = RecordSigner_Sign (Some {| rk_keyID := ""; rk_signer := Some key |}) pae.
Proof.
  unfold file_signer. destruct (ParsePrivateKeyPEMFile path) as [key|]; [|done]. cbn. intros [= <-]. by exists key.
Qed.
End Laws.

Section Endorsed.
  Context {KE : KeyEnv} {KL : KeyLaws} {X : X509} {ES : EvidenceSemantics} {ER : EnvelopeReading}.

Lemma resolveSigner_file ev ev' : Signer ev = None -> Sign ev = None -> SignKeyFile ev <> "" ->
  resolveSigner file_signer (Some ev) = Ok ev' ->
  exists e key f, ev' = Some e /\ ParsePrivateKeyPEMFile (SignKeyFile ev) = Ok key /\
    signingKey (Some e) = (KeyID ev, Some f) /\
    forall pae, f pae = RecordSigner_Sign (Some {| rk_keyID := ""; rk_signer := Some key |}) pae.
Proof.
  intros Hg Hs Hf H. unfold resolveSigner in H. rewrite Hg, Hs in H.
  destruct (String.eqb_spec (SignKeyFile ev) ""); [done|].
  destruct (file_signer (SignKeyFile ev)) as [f|] eqn:Ef; [|done]. injection H as <-.
  apply file_signer_Ok in Ef as (key & Hk & He). by eexists _, key, f.
Qed.

(** C32: A gateway configured with a key file for its records signs with the key
    of that file, and what it signs is accepted by the check pinned to the
    file's public key, whatever key identifier stands beside the signature: an
    envelope of a known kind that carries such a signature verifies. *)
Theorem file_key_endorses {CN : CapabilityNames} {CS : ClcSemantics} {HF : HashFunction} {PM : PkiMethods}
    {DC : DACrypto} {CP : CertificateParser} {CE : CRLEnv} {OE : OCSPEnv} {UP : URLParser} {J : AicJwt}
    {CH : ChallengeSemantics} files pools (c : Config) a ev
    (Hn : newAuthenticator files pools file_signer c = Ok a) (Hp : cEvidenceProfile c = "")
    (Hev : cEvidence (base c) = Some ev) (Hg : Signer ev = None) (Hs : Sign ev = None) (Hf : SignKeyFile ev <> "") :
  exists ev' key f, cEvidence a = Some ev' /\ ParsePrivateKeyPEMFile (SignKeyFile ev) = Ok key /\
    signingKey (Some ev') = (KeyID ev, Some f) /\
    (forall pae, f pae = RecordSigner_Sign (Some {| rk_keyID := ""; rk_signer := Some key |}) pae) /\
    forall env kind id sig, supported (signer_Public key) ->
      CheckEvidenceEnvelope env = (kind, None) -> (id, sig) ∈ Signatures env -> sig <> [] ->
      f (PAE (PayloadType env) (Payload env)) = Ok sig ->
      VerifyEvidenceEnvelope env (Some (VerifyFnFromKey (Some (signer_Public key)))) = (kind, None).
Proof.
  apply newAuthenticator_Ok in Hn as (_ & Hres & _). unfold resolve_evidence in Hres. rewrite Hp, Hev in Hres.
  destruct (resolveSigner_file ev _ Hg Hs Hf Hres) as (e & key & f & -> & Hk & Hsk & Hfs).
  exists e, key, f. do 4 (split; [done|]). intros env kind id sig Hsup Hc Hin Hne Hsig. rewrite Hfs in Hsig.
  unfold VerifyEvidenceEnvelope. rewrite Hc. destruct (zlen (Signatures env) =? 0) eqn:Ez.
  { apply zlen_eqb_nil in Ez. rewrite Ez in Hin. by apply elem_of_nil in Hin. }
  f_equal. apply verify_signatures_None. right. exists id, sig. split; [done|]. split; [done|].
  by apply (signature_verifies _ _ _ _ _ Hsup Hsig).
Qed.
End Endorsed.

(** A signature splits into the numbers that were signed, in either form a
    signer may use: the ASN.1 structure, and the two numbers at a fixed width of
    at least four bytes when the first byte is not that of a SEQUENCE. *)
Theorem signature_splits r s : 0 < r < 256 ^ 128 -> 0 < s < 256 ^ 128 ->
  splitDSSESignature (ecdsa_der r s) = Some (r, s) /\
  forall w, (4 <= w)%nat -> r < 256 ^ Z.of_nat w -> s < 256 ^ Z.of_nat w ->
    (forall x, head (fill w r []) = Some x -> byte_z x <> 48) -> splitDSSESignature (raw_pair w r s) = Some (r, s).
Proof.
  intros Hr Hs. split; [by apply splitDSSESignature_der|]. intros w Hw Hrw Hsw Hf.
  apply splitDSSESignature_raw; [done|lia|lia|done].
Qed.

(** * Concrete instance *)

(** A key is a number; its signature is a pair that depends on it and on the
    digest. *)
Definition toy_keys : KeyEnv := {|
  PrivateKey := Z; CryptoSigner := Z; is_signer := Some;
  ParsePKCS1PrivateKey := fun _ => Err (ErrNew "x509"); ParseECPrivateKey := fun _ => Err (ErrNew "x509");
  ParsePKCS8PrivateKey := fun d => match d with [b] => Ok (byte_z b) | _ => Err (ErrNew "x509") end;
  signer_Public := ECDSAKey;
  signer_Sign := fun k d _ => Ok (ecdsa_der (1 + k mod 256) (1 + bytes_value d mod 2 ^ 64));
  key_ecdsa_Verify := fun k d r s => (r =? 1 + k mod 256) && (s =? 1 + bytes_value d mod 2 ^ 64);
  key_rsa_Verify := fun _ _ _ => false; key_ed25519_Verify := fun _ _ _ => false;
  BuildSignedData := fun d _ _ => Ok d;
  key_ReadFile := fun p => if String.eqb p "key.pem" then Ok [z_byte 7] else Err (ErrNew "no file") |}.

Section Witness.
  #[local] Existing Instance clc_names.
  #[local] Existing Instance toy_semantics.
  #[local] Existing Instance toy_crypto.
  #[local] Existing Instance adm_methods.
  #[local] Existing Instance adm_parser.
  #[local] Existing Instance sha256.
  #[local] Existing Instance toy_crl_env.
  #[local] Existing Instance toy_ocsp_env.
  #[local] Existing Instance gate_urls.
  #[local] Existing Instance toy_jwt.
  #[local] Existing Instance toy_evidence.
  #[local] Existing Instance toy_x509.
  #[local] Existing Instance toy_challenges.
  #[local] Existing Instance toy_reading.
  #[local] Existing Instance toy_keys.

#[local] Instance toy_key_laws : KeyLaws.
Proof.
  split; [|done|done]. intros s k digest sig [= ->] [= <-].
  assert (2 ^ 64 < 256 ^ 128) by done. assert (256 < 256 ^ 128) by done.
  pose proof (Z.mod_pos_bound k 256 ltac:(lia)). pose proof (Z.mod_pos_bound (bytes_value digest) (2 ^ 64) ltac:(lia)).
  eexists _, _. split; [|split; [|split; [reflexivity|]]]; [lia|lia|]. cbn [key_ecdsa_Verify toy_keys]. by rewrite !Z.eqb_refl.
Qed.

Definition keyed_config : Config := {|
  base := base signed_config; cEvidenceProfile := ""; CACertFile := "ca.pem"; JWTCAFile := ""; JWTIssuer := "";
  JWTAudience := []; ReplayProtection := None; StreamBody := false; RequireRuntimeApproval := true;
  AllowBreakGlass := false; RequireEvidenceExport := false; hasOverrideRecorder := false;
  hasEvidenceExporter := false; OnAuthenticated := None; OnDenied := true |}.
Definition keyed_evidence : EvidenceConfig := default {|
  Sink := None; Strict := false; TTL := 0; Audience := ""; CfgRecorderID := ""; HasOnError := false; HasGaps := false;
  Sign := None; KeyID := ""; Signer := None; SignKeyFile := "key.pem"; RequireSignature := false; EmitOutcome := false;
  CfgRequirement := None; Profile := None; Recorder := None; profileNoDecision := false |} (cEvidence (base keyed_config)).
Definition keyed_envelope : Envelope := {|
  Payload := ascii_bytes "clc record"; PayloadType := "in-toto";
  Signatures := [("anything", ecdsa_der 8 (1 + bytes_value (Sum256 (ascii_bytes "clc record")) mod 2 ^ 64))] |}.

Lemma file_key_endorses_witness :
  exists a key, newAuthenticator gw_files gw_pem file_signer keyed_config = Ok a /\
    ParsePrivateKeyPEMFile "key.pem" = Ok key /\
    VerifyEvidenceEnvelope keyed_envelope (Some (VerifyFnFromKey (Some (signer_Public key)))) = (Some KindDecision, None).
Proof.
  destruct (newAuthenticator gw_files gw_pem file_signer keyed_config) as [a|e] eqn:E.
  - destruct (file_key_endorses gw_files gw_pem keyed_config a keyed_evidence E eq_refl eq_refl eq_refl eq_refl)
      as (ev & key & f & _ & Hk & _ & Hf & Hv); [discriminate|].
    exists a, key. split; [reflexivity|]. split; [exact Hk|]. injection Hk as <-.
    refine (Hv keyed_envelope (Some KindDecision) "anything" _ I eq_refl (list_elem_of_here _ _) _ _); [discriminate|].
    rewrite Hf. reflexivity.
  - exfalso. assert ((if newAuthenticator gw_files gw_pem file_signer keyed_config is Ok _ then true
      else false) = true) as Hok by (vm_compute; reflexivity). by rewrite E in Hok.
Defined.

Lemma signature_splits_witness : 0 < 48 < 256 ^ 128 /\ splitDSSESignature (ecdsa_der 48 7) = Some (48, 7) /\
  splitDSSESignature (raw_pair 4 48 7) = Some (48, 7).
Proof.
  assert (48 < 256 ^ 128) as H48 by reflexivity. assert (7 < 256 ^ 128) as H7 by reflexivity.
  split; [split; [reflexivity|exact H48]|].
  destruct (signature_splits 48 7 (conj eq_refl H48) (conj eq_refl H7)) as [Hd Hr]. split; [exact Hd|].
  apply (Hr 4%nat); [lia|reflexivity|reflexivity|]. intros x [= <-]. discriminate.
Defined.
End Witness.
