(* ===== verification/Tls.v ===== *)
(** TLS material ([src/tls.go]), the roots of the proxy's outbound connections
    ([src/server.go]) and OCSP stapling ([src/ocsp.go]).

    [crypto/tls] and [crypto/x509] are the fields of [TlsEnv] and [X509]: key
    pairs, pools, certificates with their basic constraints and key usage, and
    the OCSP exchange. *)
From S2P Require Import Prelude GoStrings GoTime GoJson GoJsonOut GoHttp GoClock Types Sha256 GoNet Capability DelegationAuth Delegation Constraints AdmissionTypes Clc Credential Admission Rbac Revocation Params Spiffe Bearer Evidence Challenge Pipeline AuditLog AuditWrite Decide.
Local Open Scope string_scope.
Local Open Scope Z_scope.
Local Open Scope list_scope.

(** * Definitions *)

(** ** Suites and versions *)
Definition TLS_ECDHE_ECDSA_WITH_AES_128_GCM_SHA256 : Z := 0xc02b.
Definition TLS_ECDHE_RSA_WITH_AES_128_GCM_SHA256 : Z := 0xc02f.
Definition TLS_ECDHE_ECDSA_WITH_AES_256_GCM_SHA384 : Z := 0xc02c.
Definition TLS_ECDHE_RSA_WITH_AES_256_GCM_SHA384 : Z := 0xc030.
Definition TLS_ECDHE_ECDSA_WITH_CHACHA20_POLY1305 : Z := 0xcca9.
Definition TLS_ECDHE_RSA_WITH_CHACHA20_POLY1305 : Z := 0xcca8.
Definition TLS_AES_128_GCM_SHA256 : Z := 0x1301.
Definition TLS_AES_256_GCM_SHA384 : Z := 0x1302.
Definition TLS_CHACHA20_POLY1305_SHA256 : Z := 0x1303.
Definition VersionTLS12 : Z := 0x0303.
Definition VersionTLS13 : Z := 0x0304.

(** [src/tls.go:SecureCipherSuites] *)
Definition SecureCipherSuites : list Z := [
  TLS_ECDHE_ECDSA_WITH_AES_128_GCM_SHA256; TLS_ECDHE_RSA_WITH_AES_128_GCM_SHA256;
  TLS_ECDHE_ECDSA_WITH_AES_256_GCM_SHA384; TLS_ECDHE_RSA_WITH_AES_256_GCM_SHA384;
  TLS_ECDHE_ECDSA_WITH_CHACHA20_POLY1305; TLS_ECDHE_RSA_WITH_CHACHA20_POLY1305;
  TLS_AES_128_GCM_SHA256; TLS_AES_256_GCM_SHA384; TLS_CHACHA20_POLY1305_SHA256].

(** [src/tls.go:cipherSuiteNames] *)
Definition cipherSuiteNames : gmap string Z := list_to_map [
  ("TLS_ECDHE_ECDSA_WITH_AES_128_GCM_SHA256", TLS_ECDHE_ECDSA_WITH_AES_128_GCM_SHA256);
  ("TLS_ECDHE_RSA_WITH_AES_128_GCM_SHA256", TLS_ECDHE_RSA_WITH_AES_128_GCM_SHA256);
  ("TLS_ECDHE_ECDSA_WITH_AES_256_GCM_SHA384", TLS_ECDHE_ECDSA_WITH_AES_256_GCM_SHA384);
  ("TLS_ECDHE_RSA_WITH_AES_256_GCM_SHA384", TLS_ECDHE_RSA_WITH_AES_256_GCM_SHA384);
  ("TLS_ECDHE_ECDSA_WITH_CHACHA20_POLY1305", TLS_ECDHE_ECDSA_WITH_CHACHA20_POLY1305);
  ("TLS_ECDHE_RSA_WITH_CHACHA20_POLY1305", TLS_ECDHE_RSA_WITH_CHACHA20_POLY1305);
  ("TLS_AES_128_GCM_SHA256", TLS_AES_128_GCM_SHA256); ("TLS_AES_256_GCM_SHA384", TLS_AES_256_GCM_SHA384);
  ("TLS_CHACHA20_POLY1305_SHA256", TLS_CHACHA20_POLY1305_SHA256)].

(** [src/tls.go:BuildCipherSuites] *)
Definition BuildCipherSuites (names : list string) : list Z :=
  if zlen names =? 0 then SecureCipherSuites
  else let suites := omap (fun n => cipherSuiteNames !! n) names in
       if zlen suites =? 0 then SecureCipherSuites else suites.

(** [src/tls.go:TLSVersionFromString] *)
Definition TLSVersionFromString (s : string) : Z :=
  if String.eqb s "1.2" then VersionTLS12 else if String.eqb s "1.3" then VersionTLS13 else VersionTLS12.

Class TlsEnv `{X509} := {
  tls_ReadFile : string -> result bytes;
  NewCertPool : CertPool;
  SystemCertPool : option CertPool;
  (** The pool with the certificates of a PEM text, when it has any. *)
  AppendCerts : CertPool -> bytes -> option CertPool;
  IsCA : Certificate -> bool;
  KeyUsage : Certificate -> Z;
  (** [tls.LoadX509KeyPair]: the chain of a key pair. *)
  LoadX509KeyPair : string -> string -> result (list bytes);
  (** [ocsp.ParseResponse] *)
  ocsp_ParseResponse : bytes -> Certificate -> option error
}.

Section Tls.
  Context {X : X509} {TE : TlsEnv} {OE : OCSPEnv}.

(** [tls.Certificate]: the chain, the parsed leaf when it is kept, the staple. *)
Record TLSCertificate := { TCertificate : list bytes; Leaf : option Certificate; OCSPStaple : option bytes }.

(** [tls.Config], what the program sets: [RequireClientCert] is
    [ClientAuth = RequireAndVerifyClientCert]; the last two are functions, here
    the check of the peer's verified chains at an instant and whether the
    certificate is asked for at every handshake. *)
Record TLSConfig := {
  MinVersion : Z; CipherSuites : list Z; Certificates : list TLSCertificate; RequireClientCert : bool;
  ClientCAs : option CertPool; RootCAs : option CertPool;
  VerifyPeerCertificate : option (list (list Certificate) -> Time -> option error)
}.

(** [src/tls.go:BaseTLSConfig] *)
Definition BaseTLSConfig (cipherSuites : list string) (minTLSVersion : string) : TLSConfig :=
  {| MinVersion := if String.eqb minTLSVersion "" then VersionTLS12 else TLSVersionFromString minTLSVersion;
     CipherSuites := if 0 <? zlen cipherSuites then BuildCipherSuites cipherSuites else SecureCipherSuites;
     Certificates := []; RequireClientCert := false; ClientCAs := None; RootCAs := None;
     VerifyPeerCertificate := None |}.

(** ** Files *)

(** [src/tls.go:LoadCert] *)
Definition LoadCert (certFile keyFile : string) : result TLSCertificate :=
  match LoadX509KeyPair certFile keyFile with
  | Err err => Err (Errorf "load keypair (%s, %s): %w" [AStr certFile; AStr keyFile; AWrap err])
  | Ok chain => Ok {| TCertificate := chain; Leaf := None; OCSPStaple := None |}
  end.

(** [src/tls.go:93-103 LoadCA] the loop over the blocks of the file. *)
Fixpoint check_cas (caCertFile : string) (blocks : list (string * bytes)) : option error :=
  match blocks with
  | [] => None
  | (_, der) :: blocks' =>
      match x509_ParseCertificate der with
      | Err err => Some (Errorf "parse cert in %s: %w" [AStr caCertFile; AWrap err])
      | Ok cert =>
          if negb (IsCA cert) then
            Some (Errorf "certificate %q in %s is not a CA (IsCA=false)" [AStr (Subject cert); AStr caCertFile])
          else check_cas caCertFile blocks'
      end
  end.

(** [src/tls.go:LoadCA] *)
Definition LoadCA (caCertFile : string) : result CertPool :=
  match tls_ReadFile caCertFile with
  | Err err => Err (Errorf "read CA cert %s: %w" [AStr caCertFile; AWrap err])
  | Ok data =>
      match AppendCerts NewCertPool data with
      | None => Err (Errorf "no valid CA cert in %s" [AStr caCertFile])
      | Some pool =>
          match check_cas caCertFile (pem_blocks data) with
          | Some err => Err err
          | None => Ok pool
          end
      end
  end.

(** [src/tls.go:LoadCACert] *)
Definition LoadCACert (caCertFile : string) : result Certificate :=
  match tls_ReadFile caCertFile with
  | Err err => Err (Errorf "read CA cert %s: %w" [AStr caCertFile; AWrap err])
  | Ok data =>
      match head (pem_blocks data) with
      | None => Err (Errorf "no PEM data in %s" [AStr caCertFile])
      | Some (_, der) =>
          match x509_ParseCertificate der with
          | Err err => Err (Errorf "parse CA cert %s: %w" [AStr caCertFile; AWrap err])
          | Ok cert => Ok cert
          end
      end
  end.

(** [src/server.go:backendRootPool] *)
Definition backendRootPool (spec : string) : result CertPool :=
  foldl (fun acc f =>
    pool ← acc;
    match tls_ReadFile f with
    | Err err => Err (Errorf "aic-verifier: read backend root CA %q: %w" [AStr f; AWrap err])
    | Ok data => match AppendCerts pool data with
                 | None => Err (Errorf "aic-verifier: no certificates parsed from %s" [AStr f])
                 | Some pool => Ok pool
                 end
    end) (Ok (default NewCertPool SystemCertPool)) (ca_files spec).

(** ** Configurations *)

(** [src/tls.go:ServerTLSConfig] *)
Definition ServerTLSConfig (cert : TLSCertificate) (cipherSuites : list string) (minTLSVersion : string) : TLSConfig :=
  let cfg := BaseTLSConfig cipherSuites minTLSVersion in
  {| MinVersion := MinVersion cfg; CipherSuites := CipherSuites cfg; Certificates := [cert];
     RequireClientCert := false; ClientCAs := None; RootCAs := None; VerifyPeerCertificate := None |}.

(** [x509.KeyUsageCertSign] *)
Definition KeyUsageCertSign : Z := 32.
(** [src/tls.go:144-151 MTLSServerConfig] the certificates of a chain but its
    last, from the [i]-th on. *)
Fixpoint check_peer_chain_certs (i : nat) (chain : list Certificate) (now : Time) : option error :=
  match chain with
  | [] | [_] => None
  | cert :: chain' =>
      if (now <? NotBefore cert) || After now (NotAfter cert) then
        Some (Errorf "certificate %q expired" [AStr (Subject cert)])
      else if negb (Nat.eqb i 0) && (Z.land (KeyUsage cert) KeyUsageCertSign =? 0) then
        Some (Errorf "intermediate CA %q missing KeyUsageCertSign" [AStr (Subject cert)])
      else check_peer_chain_certs (S i) chain' now
  end.
(** [src/tls.go:138-153 MTLSServerConfig] *)
Definition verify_peer (verifiedChains : list (list Certificate)) (now : Time) : option error :=
  match verifiedChains with
  | [] => Some (Errorf "no verified certificate chain" [])
  | chain :: _ => check_peer_chain_certs 0 chain now
  end.
(** [src/tls.go:MTLSServerConfig] *)
Definition MTLSServerConfig (caCertFile : string) (cert : TLSCertificate) (cipherSuites : list string)
    (minTLSVersion : string) : result TLSConfig :=
  caPool ← LoadCA caCertFile;
  let cfg := BaseTLSConfig cipherSuites minTLSVersion in
  Ok {| MinVersion := MinVersion cfg; CipherSuites := CipherSuites cfg; Certificates := [cert];
        RequireClientCert := true; ClientCAs := Some caPool; RootCAs := None;
        VerifyPeerCertificate := Some verify_peer |}.

(** [src/tls.go:ClientTLSConfig] *)
Definition ClientTLSConfig (caCertFile certFile keyFile : string) (cipherSuites : list string)
    (minTLSVersion : string) : result TLSConfig :=
  caPool ← LoadCA caCertFile;
  let cfg := BaseTLSConfig cipherSuites minTLSVersion in
  certs ← (if negb (String.eqb certFile "") && negb (String.eqb keyFile "") then
             cert ← LoadCert certFile keyFile; Ok [cert]
           else Ok []);
  Ok {| MinVersion := MinVersion cfg; CipherSuites := CipherSuites cfg; Certificates := certs;
        RequireClientCert := false; ClientCAs := None; RootCAs := Some caPool; VerifyPeerCertificate := None |}.

(** ** Stapling *)

(** [src/ocsp.go:FetchOCSPResponseRaw] at most 1 MiB is read of the answer. *)
Definition FetchOCSPResponseRaw (cert issuer : Certificate) (ocspURL : string) : result bytes :=
  match CreateRequest cert issuer with
  | Err err => Err (Errorf "create OCSP request: %w" [AWrap err])
  | Ok req =>
      match http_Post ocspURL req with
      | Err err => Err (Errorf "OCSP request: %w" [AWrap err])
      | Ok (Err err) => Err (Errorf "read OCSP response: %w" [AWrap err])
      | Ok (Ok body) => Ok body
      end
  end.

(** What a stapling was started with, and the certificate that [GetCertificate]
    hands out. *)
Record stapling := { st_base : TLSCertificate; st_leaf : Certificate; st_issuer : Certificate; st_url : string;
                     served : TLSCertificate; reported : list error }.

(** [src/ocsp.go:391-402 StartOCSPStapling] one refresh, with the answer of the
    responder: a failed fetch is printed, an answer that does not parse against
    the issuer is dropped, and the staple in force stays. *)
Definition staple_refresh (s : stapling) (fetched : result bytes) : stapling :=
  match fetched with
  | Err err => {| st_base := st_base s; st_leaf := st_leaf s; st_issuer := st_issuer s; st_url := st_url s;
                  served := served s; reported := reported s ++ [err] |}
  | Ok staple =>
      match ocsp_ParseResponse staple (st_issuer s) with
      | Some _ => s
      | None => {| st_base := st_base s; st_leaf := st_leaf s; st_issuer := st_issuer s; st_url := st_url s;
                   served := {| TCertificate := TCertificate (st_base s); Leaf := Leaf (st_base s);
                                OCSPStaple := Some staple |};
                   reported := reported s |}
      end
  end.

(** [src/ocsp.go:StartOCSPStapling] up to its first refresh: nothing is started
    without a certificate, a configuration, a responder and an issuer. *)
Definition StartOCSPStapling (tlsCert : option TLSCertificate) (has_cfg : bool) (caCertFile : string) : option stapling :=
  match tlsCert with
  | Some c =>
      match TCertificate c with
      | der :: _ =>
          if negb has_cfg then None else
          match (match Leaf c with Some leaf => Ok leaf | None => x509_ParseCertificate der end) with
          | Err _ => None
          | Ok leaf =>
              let ocspURL := ExtractOCSPURL leaf in
              if String.eqb ocspURL "" then None else
              match LoadCACert caCertFile with
              | Err _ => None
              | Ok issuer =>
                  let s := {| st_base := c; st_leaf := leaf; st_issuer := issuer; st_url := ocspURL; served := c;
                              reported := [] |} in
                  Some (staple_refresh s (FetchOCSPResponseRaw leaf issuer ocspURL))
              end
          end
      | [] => None
      end
  | None => None
  end.
(** [src/ocsp.go:404-416 StartOCSPStapling] the goroutine: a refresh at every
    tick, with the answer of the moment, until it is stopped. *)
Fixpoint staple_loop (s : stapling) (events : list (option (result bytes))) : stapling :=
  match events with
  | [] | None :: _ => s
  | Some fetched :: events' => staple_loop (staple_refresh s fetched) events'
  end.

(** * Properties *)

Lemma SecureCipherSuites_named n id : cipherSuiteNames !! n = Some id -> id ∈ SecureCipherSuites.
Proof.
  intros H. apply elem_of_list_to_map_2 in H. apply list_elem_of_In in H.
  repeat (destruct H as [[= <- <-]|H]; [apply list_elem_of_In; cbn; tauto|]). done.
Qed.

Lemma BuildCipherSuites_secure names :
  BuildCipherSuites names <> [] /\ forall id, id ∈ BuildCipherSuites names -> id ∈ SecureCipherSuites.
Proof.
  unfold BuildCipherSuites. destruct (zlen names =? 0); [done|].
  destruct (zlen (omap _ names) =? 0) eqn:E; [done|]. split.
  - intros Hn. rewrite Hn in E. done.
  - intros id (n & _ & Hn)%list_elem_of_omap. by eapply SecureCipherSuites_named.
Qed.

Lemma check_cas_None file blocks : check_cas file blocks = None <->
  Forall (fun b => exists c, x509_ParseCertificate b.2 = Ok c /\ IsCA c = true) blocks.
Proof.
  induction blocks as [|[typ der] blocks IH]; cbn [check_cas]; [done|]. rewrite Forall_cons, <- IH. cbn [snd].
  destruct (x509_ParseCertificate der) as [c|]; [|split; [done|by intros [(c & ? & _) _]]].
  destruct (IsCA c) eqn:E; cbn [negb]; [|split; [done|intros [(? & [= <-] & ?) _]; congruence]].
  split; [|by intros [_ ?]]. intros H. split; [by exists c|done].
Qed.

Lemma LoadCA_Ok file pool : LoadCA file = Ok pool <->
  exists data, tls_ReadFile file = Ok data /\ AppendCerts NewCertPool data = Some pool /\
    Forall (fun b => exists c, x509_ParseCertificate b.2 = Ok c /\ IsCA c = true) (pem_blocks data).
Proof.
  unfold LoadCA. destruct (tls_ReadFile file) as [data|]; [|split; [done|by intros (? & ? & _)]].
  destruct (AppendCerts NewCertPool data) as [p|] eqn:Ea; [|split; [done|by intros (? & [= <-] & H & _); congruence]].
  destruct (check_cas file (pem_blocks data)) as [err|] eqn:Ec.
  - split; [done|]. intros (? & [= <-] & _ & H%(check_cas_None file)). congruence.
  - apply check_cas_None in Ec. split; [intros [= <-]; by exists data|]. intros (? & [= <-] & H & _). congruence.
Qed.

(** What a client's verified chain must satisfy, its last certificate apart. *)
Definition link_ok (i : nat) (c : Certificate) (now : Time) : Prop :=
  NotBefore c <= now <= NotAfter c /\ (i = 0%nat \/ Z.land (KeyUsage c) KeyUsageCertSign <> 0).

Lemma check_peer_chain_certs_None chain : forall i now, check_peer_chain_certs i chain now = None <->
  forall j c, chain !! j = Some c -> (S j < length chain)%nat -> link_ok (i + j) c now.
Proof.
  induction chain as [|c chain IH]; intros i now; [done|]. destruct chain as [|c2 chain].
  { cbn. split; [|done]. intros _ j d Hj Hl. lia. }
  change (check_peer_chain_certs i (c :: c2 :: chain) now) with
    (if (now <? NotBefore c) || After now (NotAfter c) then Some (Errorf "certificate %q expired" [AStr (Subject c)])
     else if negb (Nat.eqb i 0) && (Z.land (KeyUsage c) KeyUsageCertSign =? 0) then
       Some (Errorf "intermediate CA %q missing KeyUsageCertSign" [AStr (Subject c)])
     else check_peer_chain_certs (S i) (c2 :: chain) now).
  unfold After. split.
  - destruct (Z.ltb_spec now (NotBefore c)); [done|]. destruct (Z.ltb_spec (NotAfter c) now); [done|]. cbn [orb].
    destruct (Nat.eqb_spec i 0) as [Hi|Hi]; cbn [negb andb].
    + intros Hn. specialize (proj1 (IH (S i) now) Hn) as Hn2. intros [|j] d Hj Hl; [injection Hj as <-; split; [lia|left; lia]|].
      replace (i + S j)%nat with (S i + j)%nat by lia. apply Hn2; [done|cbn in *; lia].
    + destruct (Z.eqb_spec (Z.land (KeyUsage c) KeyUsageCertSign) 0) as [|Hk]; [done|].
      intros Hn. specialize (proj1 (IH (S i) now) Hn) as Hn2. intros [|j] d Hj Hl; [injection Hj as <-; split; [lia|by right]|].
      replace (i + S j)%nat with (S i + j)%nat by lia. apply Hn2; [done|cbn in *; lia].
  - intros H. destruct (H 0%nat c eq_refl ltac:(cbn; lia)) as [Ht Hk]. rewrite Nat.add_0_r in Hk.
    rewrite (proj2 (Z.ltb_ge now (NotBefore c))), (proj2 (Z.ltb_ge (NotAfter c) now)) by lia. cbn [orb].
    assert (check_peer_chain_certs (S i) (c2 :: chain) now = None) as Hrest.
    { apply IH. intros j d Hj Hl. replace (S i + j)%nat with (i + S j)%nat by lia. apply H; [done|cbn in *; lia]. }
    destruct (Nat.eqb_spec i 0); cbn [negb andb]; [done|]. destruct Hk as [?|Hk]; [done|].
    by rewrite (proj2 (Z.eqb_neq _ _) Hk).
Qed.

(** The configuration of an mTLS server asks every client for a certificate
    and trusts exactly the certificates of its CA file, each of which parses and
    is a CA; it speaks TLS 1.2 or 1.3 with suites of the secure list, whatever
    the settings name; and it accepts a client's verified chain exactly when
    every certificate but the last is valid now and each but the client's own may
    sign certificates. *)
Theorem mtls_server_guarded caCertFile cert suites minVer cfg
    (H : MTLSServerConfig caCertFile cert suites minVer = Ok cfg) :
  RequireClientCert cfg = true /\
  (exists pool data, ClientCAs cfg = Some pool /\ tls_ReadFile caCertFile = Ok data /\
     AppendCerts NewCertPool data = Some pool /\
     Forall (fun b => exists c, x509_ParseCertificate b.2 = Ok c /\ IsCA c = true) (pem_blocks data)) /\
  (MinVersion cfg = VersionTLS12 \/ MinVersion cfg = VersionTLS13) /\
  CipherSuites cfg <> [] /\ (forall id, id ∈ CipherSuites cfg -> id ∈ SecureCipherSuites) /\
  exists verify, VerifyPeerCertificate cfg = Some verify /\
    forall chains now, verify chains now = None <->
      exists chain rest, chains = chain :: rest /\
        forall i c, chain !! i = Some c -> (S i < length chain)%nat -> link_ok i c now.
Proof.
  unfold MTLSServerConfig in H. destruct (LoadCA caCertFile) as [pool|] eqn:Ep; [|done].
  cbn [mbind result_bind] in H. injection H as <-. cbn [RequireClientCert ClientCAs MinVersion CipherSuites VerifyPeerCertificate BaseTLSConfig].
  apply LoadCA_Ok in Ep as (data & Hd & Ha & Hf).
  split; [done|]. split; [by exists pool, data|]. split.
  { unfold TLSVersionFromString. destruct (minVer =? "")%string, (minVer =? "1.2")%string, (minVer =? "1.3")%string; auto. }
  assert ((if 0 <? zlen suites then BuildCipherSuites suites else SecureCipherSuites) <> [] /\
          forall id, id ∈ (if 0 <? zlen suites then BuildCipherSuites suites else SecureCipherSuites) -> id ∈ SecureCipherSuites)
    as [Hne Hall] by (destruct (0 <? zlen suites); [apply BuildCipherSuites_secure|done]).
  split; [done|]. split; [done|]. exists verify_peer. split; [done|].
  intros chains now. unfold verify_peer. destruct chains as [|chain rest]; [split; [done|by intros (? & ? & ? & _)]|].
  rewrite check_peer_chain_certs_None. cbn [Nat.add]. split; [intros Hc; by exists chain, rest|].
  by intros (? & ? & [= <- <-] & Hc).
Qed.

Definition staple_sound (s : stapling) : Prop :=
  served s = st_base s \/ exists staple, ocsp_ParseResponse staple (st_issuer s) = None /\
    served s = {| TCertificate := TCertificate (st_base s); Leaf := Leaf (st_base s); OCSPStaple := Some staple |}.

Lemma staple_refresh_sound s f : staple_sound s ->
  staple_sound (staple_refresh s f) /\ st_base (staple_refresh s f) = st_base s /\ st_issuer (staple_refresh s f) = st_issuer s.
Proof.
  intros H. unfold staple_refresh. destruct f as [staple|err]; [|done].
  destruct (ocsp_ParseResponse staple (st_issuer s)) eqn:Ep; [done|]. split; [|done]. right. by exists staple.
Qed.

Lemma staple_loop_sound events : forall s, staple_sound s ->
  staple_sound (staple_loop s events) /\ st_base (staple_loop s events) = st_base s /\
  st_issuer (staple_loop s events) = st_issuer s.
Proof.
  induction events as [|[f|] events IH]; intros s H; cbn [staple_loop]; [done| |done].
  destruct (staple_refresh_sound s f H) as (Hs & <- & <-). by apply IH.
Qed.

(** However the responder answers, the certificate handed out at a handshake is
    the configured one, without a staple of its own or with one that parses
    against the issuer. *)
Theorem stapled_certificate_sound c caCertFile s events
    (Hs : StartOCSPStapling (Some c) true caCertFile = Some s) :
  let c' := served (staple_loop s events) in
  TCertificate c' = TCertificate c /\ Leaf c' = Leaf c /\
  (OCSPStaple c' = OCSPStaple c \/
   exists issuer staple, LoadCACert caCertFile = Ok issuer /\ OCSPStaple c' = Some staple /\
     ocsp_ParseResponse staple issuer = None).
Proof.
  unfold StartOCSPStapling in Hs. destruct (TCertificate c) as [|der tail] eqn:Hc; [done|]. cbn [negb] in Hs.
  destruct (match Leaf c with Some _ => _ | None => _ end) as [lf|]; [|done].
  destruct (ExtractOCSPURL lf =? "")%string; [done|]. destruct (LoadCACert caCertFile) as [issuer|] eqn:Ei; [|done].
  injection Hs as <-.
  set (s0 := {| st_base := c; st_leaf := lf; st_issuer := issuer; st_url := _; served := c; reported := [] |}).
  set (f := FetchOCSPResponseRaw _ _ _).
  change (staple_loop (staple_refresh s0 f) events) with (staple_loop s0 (Some f :: events)).
  destruct (staple_loop_sound (Some f :: events) s0 (or_introl eq_refl)) as (H & Hb & Hi).
  cbv zeta. unfold staple_sound in H. rewrite Hb, Hi in H. destruct H as [->|(staple & Hp & ->)]; [cbn; by auto|].
  cbn. split; [done|]. split; [done|]. right. by exists issuer, staple.
Qed.
End Tls.

(** * Concrete instance *)
Section Witness.
  #[local] Existing Instance toy_x509.

(** A file holds the DER of one CA certificate. *)
Definition ca_tls : TlsEnv := {|
  tls_ReadFile := fun p => if String.eqb p "ca.pem" then Ok [z_byte 9] else Err (ErrNew "no file");
  NewCertPool := ([] : @CertPool toy_x509); SystemCertPool := None;
  AppendCerts := fun (p : @CertPool toy_x509) d => Some ((d :: p) : @CertPool toy_x509);
  IsCA := fun c => bool_decide (Raw c = [z_byte 9]); KeyUsage := fun _ => KeyUsageCertSign;
  LoadX509KeyPair := fun _ _ => Ok [[z_byte 5]]; ocsp_ParseResponse := fun _ _ => None |}.
  #[local] Existing Instance ca_tls.

Lemma mtls_server_guarded_witness :
  let cert := {| TCertificate := [[z_byte 5]]; Leaf := None; OCSPStaple := None |} in
  match MTLSServerConfig "ca.pem" cert ["TLS_RSA_WITH_RC4_128_SHA"; "TLS_AES_128_GCM_SHA256"] "1.0" with
  | Ok cfg => RequireClientCert cfg = true /\ (forall id, id ∈ CipherSuites cfg -> id ∈ SecureCipherSuites)
  | Err _ => False
  end.
Proof.
  cbv zeta. destruct (MTLSServerConfig _ _ _ _) as [cfg|] eqn:E; [|vm_compute in E; discriminate].
  destruct (mtls_server_guarded _ _ _ _ _ E) as (H1 & _ & _ & _ & H2 & _). split; [exact H1|exact H2].
Defined.
End Witness.
