(* ===== verification/Server.v ===== *)
(** The life of the reverse proxy ([src/server.go]): its construction, its
    listener, serving and shutting down, with the resources a configuration owns
    ([src/aicverifier.go:Config.Close]). *)
From S2P Require Import Prelude GoStrings GoTime GoJson GoJsonOut GoHttp GoClock Types Sha256 GoNet Capability DelegationAuth Delegation Constraints AdmissionTypes Clc Credential Admission Rbac Revocation Params Spiffe Bearer Evidence Challenge Pipeline AuditLog AuditWrite Decide Identity Records Proxy Middleware Settings Tls.
Local Open Scope string_scope.
Local Open Scope Z_scope.
Local Open Scope list_scope.

(** * Definitions *)

(** ** What a configuration owns *)

(** A file behind a flag: what closing the file answers, and whether that was
    done ([src/supervision_store.go:Close], [src/audit.go:AuditLogger.Close]). *)
Record Closable := { close_answer : option error; is_closed : bool }.
Definition close_once (c : option Closable) : option error * option Closable :=
  match c with
  | None => (None, None)
  | Some c => if is_closed c then (None, Some c)
              else (close_answer c, Some {| close_answer := close_answer c; is_closed := true |})
  end.

(** The nonce cache (whether it is stopped), the supervision store, the audit
    logger, and the log file the configuration opened, with what closing it
    answers. *)
Record Owned := {
  o_nonces : option bool; o_store : option Closable; o_audit : option Closable; o_logFile : option (option error)
}.

(** [src/aicverifier.go:CloseLogger] *)
Definition CloseLogger (o : Owned) : option error * Owned :=
  match o_logFile o with
  | None => (None, o)
  | Some answer => (answer, {| o_nonces := o_nonces o; o_store := o_store o; o_audit := o_audit o; o_logFile := None |})
  end.
(** [src/aicverifier.go:Config.Close] *)
Definition Config_Close (o : Owned) : option error * Owned :=
  let '(e1, store) := close_once (o_store o) in
  let '(e2, audit) := close_once (o_audit o) in
  let '(e3, o') := CloseLogger {| o_nonces := (fun _ => true) <$> o_nonces o; o_store := store; o_audit := audit;
                                  o_logFile := o_logFile o |} in
  let errs := omap id [e1; e2; e3] in
  (if zlen errs =? 0 then None else Some (join_errors errs), o').

(** Where the log goes. *)
Inductive log_target := LogCustom | LogToFile | LogDefault.
(** [src/aicverifier.go:Config.logger] with what opening the file answers, the
    answer of closing it later or an error. *)
Definition logger (has_logger : bool) (logFile : string) (open : result (option error)) (o : Owned)
  : log_target * Owned :=
  if has_logger then (LogCustom, o)
  else if String.eqb logFile "" then (LogDefault, o)
  else match o_logFile o with
  | Some _ => (LogToFile, o)
  | None => match open with
            | Err _ => (LogDefault, o)
            | Ok answer => (LogToFile, {| o_nonces := o_nonces o; o_store := o_store o; o_audit := o_audit o;
                                          o_logFile := Some answer |})
            end
  end.

Section Server.
  Context {CN : CapabilityNames} {CS : ClcSemantics} {HF : HashFunction} {PM : PkiMethods}
          {DC : DACrypto} {CP : CertificateParser} {CE : CRLEnv} {OE : OCSPEnv} {UP : URLParser}
          {X : X509} {J : AicJwt} {ES : EvidenceSemantics} {CH : ChallengeSemantics} {TE : TlsEnv}.

(** [src/server.go:NewServer] the roots of the connections to the backends, the
    routes, and the authenticator of its handler. *)
Definition NewServer {T} (signers : string -> result (bytes -> result bytes)) (c : option ServerConfig)
    (rs : list (string * option T * list string * list string))
  : result (option CertPool * list (Route T) * authenticator Request) :=
  match c with
  | None => Err (Errorf "aic-verifier: nil config" [])
  | Some c =>
      roots ← (if String.eqb (BackendRootCA c) "" then Ok None
               else p ← backendRootPool (BackendRootCA c); Ok (Some p));
      routes ← server_routes rs;
      a ← newAuthenticator tls_ReadFile (AppendCerts NewCertPool) signers (sc_config c);
      Ok (roots, routes, a)
  end.

(** ** Listening *)

(** A bound listener: its socket, its address, the TLS it wraps it in. *)
Record Listener := { sock : Z; l_addr : string; l_tls : option TLSConfig }.
(** The part of [http.Server] the program sets. *)
Record HttpServer := {
  h_id : nat; h_ReadTimeout : Duration; h_ReadHeaderTimeout : Duration; h_WriteTimeout : Duration;
  h_IdleTimeout : Duration; h_MaxHeaderBytes : Z
}.

(** [src/server.go:119-137 Listen] *)
Definition listen_tls (c : ServerConfig) : result (option TLSConfig) :=
  if String.eqb (TLSCertFile c) "" then Ok None
  else
    cert ← LoadCert (TLSCertFile c) (TLSKeyFile c);
    pool ← (if String.eqb (CACertFile (sc_config c)) "" then Ok None
            else p ← LoadCA (CACertFile (sc_config c)); Ok (Some p));
    Ok (Some {| MinVersion := VersionTLS12; CipherSuites := []; Certificates := [cert];
                RequireClientCert := if pool is Some _ then true else false; ClientCAs := pool; RootCAs := None;
                VerifyPeerCertificate := None |}).

(** [src/server.go:139-164 Listen] *)
Definition http_server (id : nat) (o : option ServerOptions) : HttpServer :=
  let set (f : ServerOptions -> Z) d := match o with Some o => if 0 <? f o then f o else d | None => d end in
  {| h_id := id; h_ReadTimeout := set ReadTimeout 0; h_ReadHeaderTimeout := set ReadHeaderTimeout (30 * Second);
     h_WriteTimeout := set WriteTimeout 0; h_IdleTimeout := set IdleTimeout (120 * Second);
     h_MaxHeaderBytes := set MaxHeaderBytes 0 |}.

(** [src/server.go:Server] what changes, and the sockets that are open, the HTTP
    servers that were shut down and what each is serving. *)
Record ServerState := {
  srv : option HttpServer; listener : option Listener;
  next_srv : nat; open_socks : gset Z; shut : gset nat; serving : gset (nat * Z); owned : Owned
}.
Definition with_world (s : ServerState) (o : gset Z) (sh : gset nat) (sv : gset (nat * Z)) (ow : Owned) : ServerState :=
  {| srv := srv s; listener := listener s; next_srv := next_srv s; open_socks := o; shut := sh; serving := sv;
     owned := ow |}.

(** [src/server.go:114-137 Listen] with what [net.Listen] answers, the socket it
    opened: closed again when the TLS material does not load. *)
Definition bind (c : ServerConfig) (addr : string) (res : result Z) (s : ServerState) : result Listener * ServerState :=
  match res with
  | Err err => (Err (Errorf "aic-verifier: listen %s: %w" [AStr addr; AWrap err]), s)
  | Ok n =>
      match listen_tls c with
      | Err err => (Err err, with_world s (open_socks s ∖ {[ n ]}) (shut s) (serving s) (owned s))
      | Ok t => (Ok {| sock := n; l_addr := addr; l_tls := t |},
                 with_world s ({[ n ]} ∪ open_socks s) (shut s) (serving s) (owned s))
      end
  end.
(** [src/server.go:139-171 Listen] the new HTTP server and the listener take the
    place of those before. *)
Definition publish (c : ServerConfig) (ln : Listener) (s : ServerState) : ServerState :=
  {| srv := Some (http_server (next_srv s) (sc_options c)); listener := Some ln; next_srv := S (next_srv s);
     open_socks := open_socks s; shut := shut s; serving := serving s; owned := owned s |}.
(** [src/server.go:Listen] *)
Definition Listen (c : ServerConfig) (addr : string) (res : result Z) (s : ServerState) : result Listener * ServerState :=
  match bind c addr res s with
  | (Ok ln, s) => (Ok ln, publish c ln s)
  | (Err err, s) => (Err err, s)
  end.

(** [src/server.go:Addr] *)
Definition Addr (s : ServerState) : option string := l_addr <$> listener s.

Definition ErrServerClosed : error := ErrNew "http: Server closed".
(** [src/server.go:Serve]: [None] while it serves. A server that was shut down
    closes the listener it is given and returns. *)
Definition Serve (ln : Listener) (s : ServerState) : option error * ServerState :=
  match srv s with
  | None => (Some (Errorf "aic-verifier: Serve requires a listener from Listen" []), s)
  | Some h =>
      if bool_decide (h_id h ∈ shut s) then
        (Some ErrServerClosed, with_world s (open_socks s ∖ {[ sock ln ]}) (shut s) (serving s) (owned s))
      else (None, with_world s (open_socks s) (shut s) ({[ (h_id h, sock ln) ]} ∪ serving s) (owned s))
  end.
(** [src/server.go:ListenAndServe] *)
Definition ListenAndServe (c : ServerConfig) (addr : string) (res : result Z) (s : ServerState) : option error * ServerState :=
  match Listen c addr res s with
  | (Err err, s) => (Some err, s)
  | (Ok ln, s) => Serve ln s
  end.

(** [http.Server.Shutdown]: the server's listeners are closed, its [Serve]s
    return; [drained] is the error of a context that ended before the
    connections did. *)
Definition Shutdown (h : HttpServer) (s : ServerState) : ServerState :=
  let mine := filter (fun p => p.1 = h_id h) (serving s) in
  with_world s (open_socks s ∖ set_map snd mine) ({[ h_id h ]} ∪ shut s) (serving s ∖ mine) (owned s).
(** [src/server.go:Close] *)
Definition Server_Close (drained : option error) (s : ServerState) : option error * ServerState :=
  let '(err, s) := match srv s with
    | None => (None, s)
    | Some h =>
        let s := Shutdown h s in
        (drained, match listener s with
                  | None => s
                  | Some ln => with_world s (open_socks s ∖ {[ sock ln ]}) (shut s) (serving s) (owned s)
                  end)
    end in
  let '(err2, o) := Config_Close (owned s) in
  let errs := omap id [err; err2] in
  (if zlen errs =? 0 then None else Some (join_errors errs),
   with_world s (open_socks s) (shut s) (serving s) o).

(** ** Runs *)
Inductive server_event :=
  | Bound (addr : string) (res : result Z)
  | Published (ln : Listener)
  | Served (ln : Listener)
  | Closed (drained : option error).
Definition server_step (c : ServerConfig) (s : ServerState) (e : server_event) : ServerState :=
  match e with
  | Bound addr res => (bind c addr res s).2
  | Published ln => publish c ln s
  | Served ln => (Serve ln s).2
  | Closed drained => (Server_Close drained s).2
  end.
Definition server_run (c : ServerConfig) (s : ServerState) (es : list server_event) : ServerState :=
  foldl (server_step c) s es.
Definition fresh_server (o : Owned) : ServerState :=
  {| srv := None; listener := None; next_srv := 0; open_socks := ∅; shut := ∅; serving := ∅; owned := o |}.

(** * Properties *)

(** A run keeps what is shut, and what is shut serves nothing; the servers are
    numbered in the order they were made. *)
Record server_inv (s : ServerState) : Prop := {
  inv_quiet : forall id n, (id, n) ∈ serving s -> id ∉ shut s;
  inv_current : forall h, srv s = Some h -> (h_id h < next_srv s)%nat;
  inv_shut : forall id, id ∈ shut s -> (id < next_srv s)%nat
}.

Lemma Shutdown_facts h s :
  h_id h ∈ shut (Shutdown h s) /\ (forall n, (h_id h, n) ∉ serving (Shutdown h s)) /\
  (forall n, (h_id h, n) ∈ serving s -> n ∉ open_socks (Shutdown h s)).
Proof.
  unfold Shutdown; cbn. split; [set_solver|]. split; [intros n [H1 H2]%elem_of_difference; apply H2, elem_of_filter; done|].
  intros n Hn [_ H2]%elem_of_difference. apply H2, elem_of_map. exists (h_id h, n). split; [done|]. by apply elem_of_filter.
Qed.

Lemma Shutdown_inv h s : srv s = Some h -> server_inv s -> server_inv (Shutdown h s).
Proof.
  intros Hh [Hq Hc Hs]. split; cbn; [|done|].
  - intros id n [H1 H2]%elem_of_difference [->%elem_of_singleton|H3]%elem_of_union; [|by eapply Hq].
    apply H2, elem_of_filter. done.
  - intros id [->%elem_of_singleton|H]%elem_of_union; [by apply Hc|by apply Hs].
Qed.

(** What closing leaves, apart from the world of sockets. *)
Lemma Server_Close_state drained s :
  (Server_Close drained s).2 =
    match srv s with
    | None => with_world s (open_socks s) (shut s) (serving s) (Config_Close (owned s)).2
    | Some h => with_world s (open_socks (Shutdown h s) ∖ (match listener s with Some ln => {[ sock ln ]} | None => ∅ end))
                  (shut (Shutdown h s)) (serving (Shutdown h s)) (Config_Close (owned s)).2
    end.
Proof.
  unfold Server_Close. destruct (srv s) as [h|].
  - cbn. destruct (listener s) as [ln|]; cbn; destruct (Config_Close (owned s)) as [e o]; cbn; [done|].
    unfold with_world; cbn. f_equal. set_solver.
  - destruct (Config_Close (owned s)) as [e o]. done.
Qed.

Lemma Server_Close_error drained s :
  (Server_Close drained s).1 =
    let errs := omap id [match srv s with None => None | Some _ => drained end; (Config_Close (owned s)).1] in
    if zlen errs =? 0 then None else Some (join_errors errs).
Proof.
  unfold Server_Close. destruct (srv s) as [h|].
  - cbn. destruct (listener s) as [ln|]; cbn; by destruct (Config_Close (owned s)) as [e o].
  - by destruct (Config_Close (owned s)) as [e o].
Qed.

Lemma server_step_inv c s e : server_inv s -> server_inv (server_step c s e).
Proof.
  intros Hi. destruct e as [addr res|ln|ln|drained]; cbn.
  - unfold bind. destruct res as [n|]; [|done]. destruct Hi as [Hq Hc Hs]. by destruct (listen_tls c).
  - destruct Hi as [Hq Hc Hs]. split; cbn; [done|intros h [= <-]; cbn; lia|]. intros id H%Hs. lia.
  - unfold Serve. destruct (srv s) as [h|] eqn:Eh; [|done]. destruct Hi as [Hq Hc Hs].
    destruct (decide (h_id h ∈ shut s)) as [Hd|Hd]; [by rewrite bool_decide_true|rewrite bool_decide_false by done].
    split; cbn; [|done|done]. intros id n [[= -> ->]%elem_of_singleton|H]%elem_of_union; [done|by eapply Hq].
  - rewrite Server_Close_state. destruct (srv s) as [h|] eqn:Eh.
    + destruct (Shutdown_inv h s Eh Hi) as [Hq Hc Hs]. done.
    + by destruct Hi as [Hq Hc Hs].
Qed.
Lemma server_run_inv c es : forall s, server_inv s -> server_inv (server_run c s es).
Proof. induction es as [|e es IH]; intros s H; [done|]. by apply IH, server_step_inv. Qed.
Lemma fresh_server_inv o : server_inv (fresh_server o).
Proof. split; cbn; [set_solver|done|set_solver]. Qed.

Lemma server_step_shut c s e : shut s ⊆ shut (server_step c s e).
Proof.
  destruct e as [addr res|ln|ln|drained]; cbn; [| done | |].
  - unfold bind. destruct res; [|done]. by destruct (listen_tls c).
  - unfold Serve. destruct (srv s); [|done]. by destruct (bool_decide _).
  - rewrite Server_Close_state. destruct (srv s); cbn; set_solver.
Qed.
Lemma server_run_shut c es : forall s, shut s ⊆ shut (server_run c s es).
Proof. induction es as [|e es IH]; intros s; [done|]. etrans; [apply server_step_shut|apply IH]. Qed.

Lemma close_once_facts c : (close_once (close_once c).2).1 = None /\ (close_once (close_once c).2).2 = (close_once c).2 /\
  (forall c', (close_once c).2 = Some c' -> is_closed c' = true).
Proof. destruct c as [[a []]|]; cbn; (split; [done|split; [done|by intros ? [= <-]]]). Qed.

(** After a close everything a configuration owns is closed, whatever errors
    closing gave, and closing again does nothing. *)
Lemma Config_Close_all o :
  let '(err, o') := Config_Close o in
  (forall b, o_nonces o' = Some b -> b = true) /\
  (forall c, o_store o' = Some c \/ o_audit o' = Some c -> is_closed c = true) /\ o_logFile o' = None /\
  Config_Close o' = (None, o').
Proof.
  unfold Config_Close. destruct (close_once (o_store o)) as [e1 st] eqn:E1. destruct (close_once (o_audit o)) as [e2 au] eqn:E2.
  destruct (close_once_facts (o_store o)) as (A1 & A2 & A3). destruct (close_once_facts (o_audit o)) as (B1 & B2 & B3).
  rewrite E1 in *. rewrite E2 in *. cbn in *.
  assert (forall e o', (e, o') = CloseLogger {| o_nonces := (fun _ => true) <$> o_nonces o; o_store := st; o_audit := au; o_logFile := o_logFile o |} ->
    o' = {| o_nonces := (fun _ => true) <$> o_nonces o; o_store := st; o_audit := au; o_logFile := None |}) as Hl.
  { unfold CloseLogger; cbn. destruct (o_logFile o); by intros ? ? [= -> ->]. }
  destruct (CloseLogger _) as [e3 o'] eqn:E3. rewrite (Hl e3 o' eq_refl). cbn.
  split; [by destruct (o_nonces o); intros ? [= <-]|]. split; [intros c [H|H]; [by apply A3|by apply B3]|]. split; [done|].
  destruct (close_once st) as [x1 y1]. destruct (close_once au) as [x2 y2]. cbn in *. subst.
  by destruct (o_nonces o).
Qed.

(** ** A server that listens once *)
Definition listens (e : server_event) : bool := match e with Published _ => true | _ => false end.
Definition listen_count (es : list server_event) : nat := length (List.filter listens es).

(** The servers made are the calls of [Listen]; what is served belongs to one of
    them, and the one in force is the last. *)
Record counted (n : nat) (s : ServerState) : Prop := {
  cnt_next : next_srv s = n;
  cnt_current : forall h, srv s = Some h -> S (h_id h) = n;
  cnt_serving : forall id k, (id, k) ∈ serving s -> (id < n)%nat
}.
Lemma counted_step c n s e : counted n s -> counted (if listens e then S n else n) (server_step c s e).
Proof.
  intros Hi. destruct e as [addr res|ln|ln|drained]; cbn [listens server_step].
  - unfold bind. destruct res; [|exact Hi]. destruct Hi as [Hn Hc Hs]. by destruct (listen_tls c).
  - destruct Hi as [Hn Hc Hs]. split; cbn; [lia|intros h [= <-]; cbn; lia|]. intros id k H%Hs. lia.
  - unfold Serve. destruct (srv s) as [h|] eqn:Eh; [|exact Hi].
    destruct Hi as [Hn Hc Hs]. destruct (bool_decide _); [by split|].
    split; cbn; [exact Hn|exact Hc|]. intros id k [[= -> ->]%elem_of_singleton|H]%elem_of_union; [|by eapply Hs].
    specialize (Hc h Eh). lia.
  - rewrite Server_Close_state. destruct Hi as [Hn Hc Hs]. destruct (srv s) as [h|] eqn:Eh; split; cbn; try done.
    + rewrite Eh. exact Hc.
    + intros id k [H _]%elem_of_difference. by eapply Hs.
    + rewrite Eh. exact Hc.
Qed.
Lemma counted_run c es : forall n s, counted n s -> counted (listen_count es + n) (server_run c s es).
Proof.
  induction es as [|e es IH]; intros n s H; [done|]. specialize (IH _ _ (counted_step c n s e H)).
  unfold listen_count in *. cbn [List.filter]. destruct (listens e); cbn [length] in *; [|exact IH].
  by rewrite Nat.add_succ_r in IH.
Qed.

(** Without a new [Listen] a server that is shut serves nothing. *)
Lemma shut_serves_nothing c es : forall s h, srv s = Some h -> h_id h ∈ shut s -> serving s = ∅ -> listen_count es = 0%nat ->
  serving (server_run c s es) = ∅.
Proof.
  induction es as [|e es IH]; intros s h Hh Hin Hs Hl; [done|]. unfold listen_count in *. cbn [List.filter] in Hl.
  destruct (listens e) eqn:Ee; [done|]. apply (IH (server_step c s e) h); [| |  |done].
  - destruct e as [addr res|ln|ln|drained]; cbn; [|done| |].
    + unfold bind. destruct res; [|done]. by destruct (listen_tls c).
    + unfold Serve. rewrite Hh, bool_decide_true by done. exact Hh.
    + rewrite Server_Close_state, Hh. exact Hh.
  - by apply server_step_shut.
  - destruct e as [addr res|ln|ln|drained]; cbn; [|done| |].
    + unfold bind. destruct res; [|done]. by destruct (listen_tls c).
    + unfold Serve. rewrite Hh, bool_decide_true by done. exact Hs.
    + rewrite Server_Close_state, Hh. cbn. rewrite Hs. set_solver.
Qed.

(** C38: what [Close] ends.  Whatever happened before, after [Close] the socket
    of the listener in force and every socket the HTTP server in force was
    serving are closed, the resources of the configuration are released whether
    or not the shutdown failed, a second [Close] has nothing left to release,
    [Serve] refuses, and whatever happens afterwards that HTTP server serves
    nothing again.  For a server that called [Listen] at most once, as it is
    meant to ("set once by Listen"), nothing at all is served after [Close]
    unless [Listen] is called again; a later [Listen] does make a new HTTP
    server that serves ([listen_again_serves]), and the socket of an earlier
    [Listen] stays open ([second_listen_leaks]). *)
Theorem closed_server_stays_closed c o es drained h
    (Hh : srv (server_run c (fresh_server o) es) = Some h) :
  let s := server_run c (fresh_server o) es in
  let s' := (Server_Close drained s).2 in
  (forall ln, listener s = Some ln -> sock ln ∉ open_socks s') /\
  (forall n, (h_id h, n) ∈ serving s -> n ∉ open_socks s') /\
  o_logFile (owned s') = None /\ (forall cl, o_store (owned s') = Some cl \/ o_audit (owned s') = Some cl -> is_closed cl = true) /\
  (Server_Close None s').1 = None /\
  (forall ln, (Serve ln s').1 = Some ErrServerClosed) /\
  (forall es' n, (h_id h, n) ∉ serving (server_run c s' es')) /\
  ((listen_count es <= 1)%nat -> forall es', listen_count es' = 0%nat -> serving (server_run c s' es') = ∅).
Proof.
  cbv zeta. set (s := server_run c (fresh_server o) es) in *.
  destruct (Shutdown_facts h s) as (Hsh & Hq & Ho). pose proof (Server_Close_state drained s) as E. rewrite Hh in E.
  pose proof (Config_Close_all (owned s)) as Hc. destruct (Config_Close (owned s)) as [err o'] eqn:Eo.
  destruct Hc as (_ & Hcl & Hlf & Hid).
  assert (h_id h ∈ shut (Server_Close drained s).2) as Hin by (rewrite E; done).
  split; [intros ln Hl; rewrite E, Hl; cbn; set_solver|].
  split; [intros n Hn; rewrite E; cbn; specialize (Ho n Hn); set_solver|].
  split; [by rewrite E|]. split; [by rewrite E|]. split; [|split; [|split]].
  - rewrite Server_Close_error. assert (owned (Server_Close drained s).2 = o') as -> by (by rewrite E).
    rewrite Hid. assert (srv (Server_Close drained s).2 = Some h) as -> by (by rewrite E). done.
  - intros ln. unfold Serve. assert (srv (Server_Close drained s).2 = Some h) as -> by (by rewrite E).
    by rewrite bool_decide_true.
  - intros es' n Hn.
    assert (server_inv (server_run c (Server_Close drained s).2 es')) as [Hq' _ _].
    { apply server_run_inv. apply (server_step_inv c s (Closed drained)). apply server_run_inv, fresh_server_inv. }
    apply (Hq' _ _ Hn). by apply (server_run_shut c es').
  - intros Hone es' Hl. apply (shut_serves_nothing c es' _ h); [by rewrite E|done| |done].
    pose proof (counted_run c es 0 (fresh_server o)) as [_ Hcur Hids]; [by split; cbn; set_solver|]. fold s in Hcur, Hids.
    specialize (Hcur h Hh). apply set_eq. intros [id k]. split; [|set_solver]. intros Hin'. rewrite E in Hin'. cbn in Hin'.
    assert (id = h_id h) as ->; [|by destruct (Hq k)]. apply elem_of_difference in Hin' as [H%Hids _]. lia.
Qed.

(** A server that listens again after [Close] serves again. *)
Theorem listen_again_serves c o n1 n2 a1 a2 (Ht : TLSCertFile c = "") :
  let l n a := {| sock := n; l_addr := a; l_tls := None |} in
  let s := server_run c (fresh_server o) [Bound a1 (Ok n1); Published (l n1 a1); Closed None;
                                          Bound a2 (Ok n2); Published (l n2 a2); Served (l n2 a2)] in
  n2 ∈ open_socks s /\ (1%nat, n2) ∈ serving s.
Proof.
  cbv zeta. unfold server_run, foldl, server_step. rewrite Server_Close_state. unfold bind, listen_tls. rewrite Ht. cbn.
  unfold Serve. cbn. rewrite bool_decide_false by set_solver. cbn. set_solver.
Qed.

(** A second [Listen] loses the listener of the first: no later [Close] closes
    it. *)
Theorem second_listen_leaks c o n1 n2 a1 a2 (Ht : TLSCertFile c = "") (Hne : n1 <> n2) :
  let l n a := {| sock := n; l_addr := a; l_tls := None |} in
  let s := server_run c (fresh_server o) [Bound a1 (Ok n1); Published (l n1 a1); Bound a2 (Ok n2); Published (l n2 a2); Closed None] in
  n1 ∈ open_socks s /\ n2 ∉ open_socks s.
Proof.
  cbv zeta. unfold server_run, foldl, server_step. rewrite Server_Close_state. unfold bind, listen_tls. rewrite Ht. cbn.
  split; [|set_solver]. apply elem_of_difference. split; [|set_solver]. apply elem_of_difference. split; [set_solver|].
  intros (x & _ & H)%elem_of_map. apply elem_of_filter in H as [_ H]. set_solver.
Qed.

(** A [Close] that comes while [Listen] is loading its TLS material is lost: the
    server serves afterwards. *)
Theorem close_during_listen_lost c o n a (Ht : TLSCertFile c = "") :
  let ln := {| sock := n; l_addr := a; l_tls := None |} in
  let s := server_run c (fresh_server o) [Bound a (Ok n); Closed None; Published ln; Served ln] in
  n ∈ open_socks s /\ (0%nat, n) ∈ serving s.
Proof.
  cbv zeta. unfold server_run, foldl, server_step. rewrite Server_Close_state. unfold bind, listen_tls. rewrite Ht. cbn.
  unfold Serve. cbn. set_solver.
Qed.

(** Every client of a TLS listener needs a certificate as soon as a CA file is
    configured, whatever the mode admits, and none is asked for without one; and
    the listener speaks TLS 1.2 at least. *)
Theorem listener_requires_certificate c t (H : listen_tls c = Ok (Some t)) :
  RequireClientCert t = negb (String.eqb (CACertFile (sc_config c)) "") /\ MinVersion t = VersionTLS12 /\
  (RequireClientCert t = true -> exists pool, ClientCAs t = Some pool /\ LoadCA (CACertFile (sc_config c)) = Ok pool).
Proof.
  unfold listen_tls in H. destruct (TLSCertFile c =? "")%string; [done|].
  destruct (LoadCert _ _) as [cert|]; [|done]. cbn [mbind result_bind] in H.
  destruct (CACertFile (sc_config c) =? "")%string.
  - cbn [mbind result_bind] in H. by injection H as <-.
  - destruct (LoadCA _) as [p|]; [|done]. cbn [mbind result_bind] in H. injection H as <-.
    split; [done|]. split; [done|]. intros _. by exists p.
Qed.

(** The HTTP server always has a limit on the time to read a header and on idle
    connections, whatever the options say. *)
Theorem server_timeouts_set id o :
  0 < h_ReadHeaderTimeout (http_server id o) /\ 0 < h_IdleTimeout (http_server id o) /\
  0 <= h_ReadTimeout (http_server id o) /\ 0 <= h_WriteTimeout (http_server id o) /\ 0 <= h_MaxHeaderBytes (http_server id o).
Proof.
  assert (forall (f : ServerOptions -> Z) d, 0 <= d ->
    d <= (match o with Some o => if 0 <? f o then f o else d | None => d end) \/
    0 < (match o with Some o => if 0 <? f o then f o else d | None => d end)) as Hset.
  { intros f d Hd. destruct o as [o|]; [|by left]. destruct (Z.ltb_spec 0 (f o)); [by right|by left]. }
  unfold http_server. cbn. split; [|split; [|split; [|split]]].
  - destruct (Hset ReadHeaderTimeout (30 * Second)) as [H|H]; [done|unfold Second in *; lia|done].
  - destruct (Hset IdleTimeout (120 * Second)) as [H|H]; [done|unfold Second in *; lia|done].
  - destruct (Hset ReadTimeout 0); lia.
  - destruct (Hset WriteTimeout 0); lia.
  - destruct (Hset MaxHeaderBytes 0); lia.
Qed.

(** A server is built exactly when its backend roots load, every route has a
    target and its authenticator is built. *)
Lemma NewServer_Ok {T} signers c (rs : list (string * option T * list string * list string)) roots routes a :
  NewServer signers c rs = Ok (roots, routes, a) <->
  exists c', c = Some c' /\ server_routes rs = Ok routes /\
    newAuthenticator tls_ReadFile (AppendCerts NewCertPool) signers (sc_config c') = Ok a /\
    ((BackendRootCA c' = "" /\ roots = None) \/
     (BackendRootCA c' <> "" /\ exists p, backendRootPool (BackendRootCA c') = Ok p /\ roots = Some p)).
Proof.
  unfold NewServer. split.
  - destruct c as [c|]; [|done]. destruct (String.eqb_spec (BackendRootCA c) "") as [E|E];
      [|destruct (backendRootPool (BackendRootCA c)) as [p|] eqn:Ep; [|done]]; cbn [mbind result_bind];
      (destruct (server_routes rs) as [rts|]; [|done]); cbn [mbind result_bind];
      (destruct (newAuthenticator _ _ _ _) as [a'|] eqn:Ea; [|done]); cbn [mbind result_bind]; intros [= <- <- <-];
      exists c; (do 3 (split; [done|])); [by left|right; split; [done|by exists p]].
  - intros (c' & -> & Hr & Ha & [[E ->]|[E (p & Hp & ->)]]).
    + rewrite E. cbn [String.eqb mbind result_bind]. rewrite Hr. cbn [mbind result_bind]. by rewrite Ha.
    + rewrite (proj2 (String.eqb_neq _ _) E), Hp. cbn [mbind result_bind]. rewrite Hr. cbn [mbind result_bind]. by rewrite Ha.
Qed.
End Server.

(** * Concrete instance *)
Definition toy_tls `{X509} (empty : CertPool) : TlsEnv := {|
  tls_ReadFile := fun _ => Err (ErrNew "no file"); NewCertPool := empty; SystemCertPool := None;
  AppendCerts := fun p _ => Some p; IsCA := fun _ => true; KeyUsage := fun _ => KeyUsageCertSign;
  LoadX509KeyPair := fun _ _ => Err (ErrNew "tls"); ocsp_ParseResponse := fun _ _ => None |}.

Section Witness.
  #[local] Existing Instance clc_names.
  #[local] Existing Instance toy_semantics.
  #[local] Existing Instance toy_crypto.
  #[local] Existing Instance adm_methods.
  #[local] Existing Instance adm_parser.
  #[local] Existing Instance sha256.
  #[local] Existing Instance toy_crl_env.
  #[local] Existing Instance toy_ocsp_env.
  #[local] Existing Instance gate_urls.
  #[local] Existing Instance toy_jwt.
  #[local] Existing Instance toy_evidence.
  #[local] Existing Instance toy_x509.
  #[local] Existing Instance toy_challenges.
#[local] Instance toy_tls_env : TlsEnv := toy_tls [].

Definition plain_server : ServerConfig := {|
  sc_config := signed_config; LogFile := ""; TLSCertFile := ""; TLSKeyFile := ""; BackendRootCA := "";
  scIdentityMode := 0; AuditLogFile := ""; AuditTSAURL := ""; SupervisionLogFile := ""; sc_options := None |}.
Definition owned_log : Owned := {|
  o_nonces := Some false; o_store := Some {| close_answer := Some (ErrNew "disk"); is_closed := false |};
  o_audit := Some {| close_answer := None; is_closed := false |}; o_logFile := Some None |}.
Definition plain_listener : Listener := {| sock := 3; l_addr := ":8443"; l_tls := None |}.
Definition serving_run : list server_event := [Bound ":8443" (Ok 3); Published plain_listener; Served plain_listener].

Lemma closed_server_stays_closed_witness :
  let s := server_run plain_server (fresh_server owned_log) serving_run in
  (0%nat, 3) ∈ serving s /\ 3 ∈ open_socks s /\ 3 ∉ open_socks ((Server_Close None s).2) /\
  (Server_Close None s).1 = Some (join_errors [join_errors [ErrNew "disk"]]) /\
  (Server_Close None (Server_Close None s).2).1 = None /\
  serving (server_run plain_server (Server_Close None s).2 [Served plain_listener; Closed None]) = ∅.
Proof.
  cbv zeta.
  destruct (closed_server_stays_closed plain_server owned_log serving_run None (http_server 0 None) eq_refl)
    as (Hl & _ & _ & _ & Ht & _ & _ & Hone).
  split; [apply (bool_decide_eq_true_1 ((0%nat, 3) ∈ _)); vm_compute; reflexivity|].
  split; [apply (bool_decide_eq_true_1 (3 ∈ _)); vm_compute; reflexivity|].
  split; [exact (Hl plain_listener eq_refl)|]. split; [reflexivity|]. split; [exact Ht|].
  exact (Hone (le_n 1) [Served plain_listener; Closed None] eq_refl).
Defined.

Lemma listen_again_serves_witness : TLSCertFile plain_server = "" /\
  (1%nat, 6) ∈ serving (server_run plain_server (fresh_server owned_log)
    [Bound "a" (Ok 5); Published {| sock := 5; l_addr := "a"; l_tls := None |}; Closed None;
     Bound "b" (Ok 6); Published {| sock := 6; l_addr := "b"; l_tls := None |};
     Served {| sock := 6; l_addr := "b"; l_tls := None |}]).
Proof. split; [reflexivity|]. apply (listen_again_serves plain_server owned_log 5 6 "a" "b" eq_refl). Defined.

Lemma second_listen_leaks_witness : TLSCertFile plain_server = "" /\
  5 ∈ open_socks (server_run plain_server (fresh_server owned_log)
    [Bound "a" (Ok 5); Published {| sock := 5; l_addr := "a"; l_tls := None |};
     Bound "b" (Ok 6); Published {| sock := 6; l_addr := "b"; l_tls := None |}; Closed None]).
Proof. split; [reflexivity|]. apply (second_listen_leaks plain_server owned_log 5 6 "a" "b" eq_refl); discriminate. Defined.
End Witness.
