(* ===== verification/Carrier.v ===== *)
(** Writing a refusal to an HTTP client ([src/challenge.go:writeAuthError]): the
    compact JSON error, the problem document and its carriers, and what is made
    of an error that is not a refusal ([src/aicverifier.go:AsAuthError]).

    [Sprintf] is the text of a message, [IsPrint] the table of printable runes
    above ASCII. *)
From Stdlib Require Import Ascii.
From S2P Require Import Prelude GoStrings GoTime GoJson GoJsonOut GoHttp GoClock Types Sha256 GoNet Capability DelegationAuth Delegation Constraints AdmissionTypes Clc Credential Admission Rbac Revocation Params Spiffe Bearer Evidence Challenge Pipeline AuditLog AuditWrite Decide.
Local Open Scope string_scope.
Local Open Scope Z_scope.
Local Open Scope list_scope.

(** * Definitions *)

(** ** [strconv.Quote] *)
Definition hex_byte (z : Z) : string := String (hex_digit (z / 16)) (String (hex_digit (z mod 16)) "").
Definition hex_rune (digits : nat) (r : Z) : string :=
  foldr (fun i acc => String (hex_digit (r / 16 ^ Z.of_nat i mod 16)) acc) "" (rev (seq 0 digits)).
Section Quote.
  Context (IsPrint : Z -> bool).
Definition is_print (r : Z) : bool := if r <? 128 then (32 <=? r) && (r <? 127) else IsPrint r.
Definition escaped_rune (r : Z) : string :=
  if (r =? 34) || (r =? 92) then backslash +:+ encode_rune r
  else if is_print r then encode_rune r
  else if r =? 7 then backslash +:+ "a"
  else if r =? 8 then backslash +:+ "b"
  else if r =? 12 then backslash +:+ "f"
  else if r =? 10 then backslash +:+ "n"
  else if r =? 13 then backslash +:+ "r"
  else if r =? 9 then backslash +:+ "t"
  else if r =? 11 then backslash +:+ "v"
  else if (r <? 32) || (r =? 127) then backslash +:+ "x" +:+ hex_byte r
  else if r <? 65536 then backslash +:+ "u" +:+ hex_rune 4 r
  else backslash +:+ "U" +:+ hex_rune 8 r.
Fixpoint quote_body (fuel : nat) (s : string) : string :=
  match fuel, s with
  | S f, String c s' =>
      let '(r, n) := decode_rune s in
      let n := Nat.max n 1 in
      (if (r =? rune_error) && Nat.eqb n 1 then backslash +:+ "x" +:+ hex_byte (code c) else escaped_rune r)
      +:+ quote_body f (sdrop n s)
  | _, _ => ""
  end.
Definition Quote (s : string) : string := quote +:+ quote_body (String.length s) s +:+ quote.
End Quote.

(** ** The response *)

(** What was written: the first status, the header as it stood then, the body. *)
Record Response := { w_status : option Z; w_header : GoHttp.Header; w_body : string }.
Definition fresh_response : Response := {| w_status := None; w_header := ∅; w_body := "" |}.
Definition set_header (k v : string) (w : Response) : Response :=
  {| w_status := w_status w; w_header := Header_Set k v (w_header w); w_body := w_body w |}.
Definition WriteHeader (status : Z) (w : Response) : Response :=
  {| w_status := Some (default status (w_status w)); w_header := w_header w; w_body := w_body w |}.
Definition WriteBody (s : string) (w : Response) : Response :=
  {| w_status := Some (default 200 (w_status w)); w_header := w_header w; w_body := w_body w +:+ s |}.

Section Carrier.
  Context {ES : EvidenceSemantics} {CH : ChallengeSemantics}.
  Context (Sprintf : message -> string) (IsPrint : Z -> bool).
  (** The JSON of a challenge, and its retry bound. *)
  Context (Challenge_json : Challenge -> result json) (Challenge_NotBefore : Challenge -> option Time).

Definition newline : string := String nl "".

(** [src/challenge.go:marshalProblem] *)
Definition marshalProblem (p : ProblemDetails) : result string :=
  challenge ← match PChallenge p with
    | None => Ok []
    | Some c => j ← Challenge_json c; Ok [("challenge", j)]
    end;
  Ok (json_encode (JObj (("type", JStr (PType p)) :: omit_str "title" (PTitle p)
        ++ ("status", JNum (int_lit (PStatus p))) :: omit_str "detail" (Sprintf (PDetail p))
        ++ omit_str "instance" (PInstance p) ++ challenge)) +:+ newline).

(** [src/challenge.go:ChallengeCarrier] what it writes, and its error. *)
Definition ChallengeCarrier : Type := ProblemDetails -> Response -> option error * Response.

Definition ProblemContentType : string := "application/problem+json".
(** [src/challenge.go:problemJSONCarrier.Write] *)
Definition problemJSONCarrier : ChallengeCarrier := fun problem w =>
  let w := WriteHeader (PStatus problem) (set_header "Content-Type" ProblemContentType w) in
  match marshalProblem problem with
  | Err err => (Some err, w)
  | Ok body => (None, WriteBody body w)
  end.

(** [src/challenge.go:writeAuthError] the compact error. *)
Definition compact_error (ae : AuthError) : string :=
  dq "{'code':" +:+ Quote IsPrint (ErrorCode_String (Code ae)) +:+ dq ",'message':"
  +:+ Quote IsPrint (Sprintf (Message ae)) +:+ "}" +:+ newline.

(** [src/challenge.go:writeAuthError] *)
Definition writeAuthError (ae : AuthError) (carrier : option ChallengeCarrier) (now : Time) (w : Response) : Response :=
  match Problem ae with
  | None => WriteBody (compact_error ae)
              (WriteHeader (Status ae) (set_header "Content-Type" "application/json; charset=utf-8" w))
  | Some problem =>
      let w := match PChallenge problem ≫= Challenge_NotBefore with
               | Some bound => match retry_after_seconds bound now with
                               | Some seconds => set_header "Retry-After" (int_lit seconds) w
                               | None => w
                               end
               | None => w
               end in
      match (default problemJSONCarrier carrier) problem w with
      | (None, w) => w
      | (Some _, w) => WriteBody (dq "{'code':" +:+ Quote IsPrint (ErrorCode_String (Code ae)) +:+ "}" +:+ newline) w
      end
  end.

(** [src/aicverifier.go:AuthError.Error] *)
Definition AuthError_Error (ae : AuthError) : string := Sprintf (Message ae).
(** [src/aicverifier.go:AsAuthError] a refusal, or another error, or none. *)
Definition AsAuthError (err : option (AuthError + error)) : AuthError :=
  match err with
  | Some (inl ae) => ae
  | None => auth_error ErrDenied 403 (Errorf "admission failed" [])
  | Some (inr e) => auth_error ErrDenied 403 e
  end.
End Carrier.

(** * Properties *)

(** Text that [%q] writes as JSON does: printable ASCII. *)
Definition plain_text (s : string) : bool :=
  forallb (fun c => (32 <=? code c) && (code c <? 127)) (String.list_ascii_of_string s).
Lemma plain_text_cons c s : plain_text (String c s) = ((32 <=? code c) && (code c <? 127)) && plain_text s.
Proof. reflexivity. Qed.

Section QuoteFacts.
  Context (IsPrint : Z -> bool).

Lemma scan_escaped c fuel rest : (32 <=? code c) && (code c <? 127) = true ->
  scan_string (S fuel) (escaped_rune IsPrint (code c) +:+ rest) =
  match scan_string fuel rest with Some (t, r) => Some (String c t, r) | None => None end.
Proof. destruct c as [[] [] [] [] [] [] [] []]; intros H; first [discriminate H | reflexivity]. Qed.

Lemma scan_quote s : forall fuel fuel' r, plain_text s = true -> (String.length s <= fuel)%nat ->
  (String.length s < fuel')%nat -> scan_string fuel' (quote_body IsPrint fuel s +:+ quote +:+ r) = Some (s, r).
Proof.
  induction s as [|c s IH]; intros fuel fuel' r Hp Hf Hf'.
  - destruct fuel' as [|fuel']; [lia|]. by destruct fuel.
  - destruct fuel as [|fuel]; [cbn in Hf; lia|]. destruct fuel' as [|fuel']; [lia|].
    rewrite plain_text_cons in Hp. apply andb_true_iff in Hp as [Hc Hp]. cbn in Hf, Hf'.
    cbn [quote_body]. rewrite decode_rune_ascii by lia. cbn [Nat.max].
    assert ((code c =? rune_error) = false) as -> by (unfold rune_error; lia). cbn [andb].
    rewrite sapp_assoc, scan_escaped by done. change (sdrop 1 (String c s)) with s.
    rewrite IH by (done || lia). done.
Qed.

Lemma quote_body_length s : forall fuel, plain_text s = true -> (String.length s <= fuel)%nat ->
  (String.length s <= String.length (quote_body IsPrint fuel s))%nat.
Proof.
  induction s as [|c s IH]; intros fuel Hp Hf; [cbn; lia|]. destruct fuel as [|fuel]; [cbn in Hf; lia|].
  rewrite plain_text_cons in Hp. apply andb_true_iff in Hp as [Hc Hp]. cbn in Hf.
  cbn [quote_body]. rewrite decode_rune_ascii by lia. cbn [Nat.max].
  assert ((code c =? rune_error) = false) as -> by (unfold rune_error; lia). cbn [andb].
  rewrite slength_app. change (sdrop 1 (String c s)) with s. specialize (IH fuel Hp ltac:(lia)). cbn [String.length].
  assert (1 <= String.length (escaped_rune IsPrint (code c)))%nat; [|lia].
  clear IH Hf Hp. destruct c as [[] [] [] [] [] [] [] []]; first [discriminate Hc | vm_compute; lia].
Qed.

Lemma Quote_app s r : (Quote IsPrint s +:+ r) = String (chr 34) (quote_body IsPrint (String.length s) s +:+ quote +:+ r).
Proof. unfold Quote. by rewrite !sapp_assoc. Qed.

Lemma scan_value_quote n d s r : plain_text s = true -> scan_value (S n) d (Quote IsPrint s +:+ r) = Some (JStr s, r).
Proof.
  intros Hp. rewrite Quote_app, scan_value_str, scan_quote; [done|done|done|].
  rewrite slength_app. pose proof (quote_body_length s _ Hp (le_n _)). lia.
Qed.

Lemma scan_member sv k name V rest v : plain_text name = true -> sv (V +:+ rest) = Some (v, rest) ->
  scan_members sv (S k) (Quote IsPrint name +:+ ":" +:+ V +:+ rest) =
  match skip_ws rest with
  | String "," r4 => match scan_members sv k r4 with Some (ms, t) => Some ((name, v) :: ms, t) | None => None end
  | String "}" r4 => Some ([(name, v)], r4)
  | _ => None
  end.
Proof.
  intros Hp Hv. cbn [scan_members]. rewrite Quote_app, skip_ws_other by done. cbv iota beta.
  change (negb (code (chr 34) =? 34)) with false. cbv iota.
  rewrite scan_quote; [|done|done|].
  - change (":" +:+ V +:+ rest) with (String ":" (V +:+ rest)). rewrite skip_ws_other by done. cbv iota beta. by rewrite Hv.
  - cbn [String.length]. rewrite slength_app. pose proof (quote_body_length name _ Hp (le_n _)). lia.
Qed.
End QuoteFacts.

Section CarrierFacts.
  Context {ES : EvidenceSemantics} {CH : ChallengeSemantics}.
  Context (Sprintf : message -> string) (IsPrint : Z -> bool).
  Context (Challenge_json : Challenge -> result json) (Challenge_NotBefore : Challenge -> option Time).

Lemma code_plain c : plain_text (ErrorCode_String c) = true.
Proof. by destruct c. Qed.

Lemma compact_error_parses ae : plain_text (Sprintf (Message ae)) = true ->
  parse_json (compact_error Sprintf IsPrint ae) =
    Some (JObj [("code", JStr (ErrorCode_String (Code ae))); ("message", JStr (Sprintf (Message ae)))]).
Proof.
  intros Hp. set (code_ := ErrorCode_String (Code ae)). set (msg := Sprintf (Message ae)) in *.
  assert (compact_error Sprintf IsPrint ae =
    String "{" (Quote IsPrint "code" +:+ ":" +:+ Quote IsPrint code_ +:+ "," +:+
                Quote IsPrint "message" +:+ ":" +:+ Quote IsPrint msg +:+ "}" +:+ newline)) as E by reflexivity.
  rewrite E. unfold parse_json. rewrite scan_value_obj by (apply Nat.lt_0_succ).
  set (tail := "," +:+ _). set (members := Quote IsPrint "code" +:+ _).
  assert (exists t, members = String (chr 34) t) as (t & Et) by (eexists; apply Quote_app).
  rewrite Et at 1. rewrite skip_ws_other by done. cbv iota beta.
  change (match String (chr 34) t with String "}" r' => Some (JObj [], r') | _ => ?e end) with e.
  set (n := String.length (String "{" members)).
  assert (exists m, n = S (S m)) as [m ->] by (unfold n, members; eexists; reflexivity).
  unfold members.
  rewrite (scan_member IsPrint _ _ "code" (Quote IsPrint code_) tail (JStr code_)); [|done|by apply scan_value_quote, code_plain].
  set (m2 := Quote IsPrint "message" +:+ ":" +:+ Quote IsPrint msg +:+ "}" +:+ newline) in (value of tail).
  change (skip_ws tail) with (String "," m2). cbv iota beta. unfold m2.
  rewrite (scan_member IsPrint _ _ "message" (Quote IsPrint msg) ("}" +:+ newline) (JStr msg)); [|done|by apply scan_value_quote].
  reflexivity.
Qed.

Lemma default_carrier_fresh problem w : w_status w = None ->
  (problemJSONCarrier Sprintf Challenge_json problem w).2 = 
    match marshalProblem Sprintf Challenge_json problem with
    | Ok body => {| w_status := Some (PStatus problem); w_header := Header_Set "Content-Type" ProblemContentType (w_header w);
                    w_body := w_body w +:+ body |}
    | Err _ => {| w_status := Some (PStatus problem); w_header := Header_Set "Content-Type" ProblemContentType (w_header w);
                  w_body := w_body w |}
    end.
Proof. intros H. unfold problemJSONCarrier. by destruct (marshalProblem _ _ _); unfold WriteBody, WriteHeader; cbn; rewrite H. Qed.

(** A refusal reaches the client whole. Without a problem document the
    response has the refusal's status and a JSON body whose members are its code
    and its message, for every message of printable ASCII; with one, whatever the
    carrier, the [Retry-After] header holds the bound of its challenge when it
    lies ahead, and with the built-in carrier the status is the problem's and the
    body its JSON. *)
Theorem refusal_written ae carrier now :
  let w := writeAuthError Sprintf IsPrint Challenge_json Challenge_NotBefore ae carrier now fresh_response in
  match Problem ae with
  | None =>
      w_status w = Some (Status ae) /\ Header_Get (w_header w) "Content-Type" = "application/json; charset=utf-8" /\
      (plain_text (Sprintf (Message ae)) = true -> parse_json (w_body w) =
         Some (JObj [("code", JStr (ErrorCode_String (Code ae))); ("message", JStr (Sprintf (Message ae)))]))
  | Some problem =>
      exists w0 w1, w1 = (default (problemJSONCarrier Sprintf Challenge_json) carrier problem w0).2 /\
        w_status w0 = None /\ w_body w0 = "" /\
        (forall c bound secs, PChallenge problem = Some c -> Challenge_NotBefore c = Some bound ->
           retry_after_seconds bound now = Some secs -> Header_Get (w_header w0) "Retry-After" = int_lit secs) /\
        (forall body, carrier = None -> marshalProblem Sprintf Challenge_json problem = Ok body ->
           w = w1 /\ w_status w = Some (PStatus problem) /\ w_body w = body)
  end.
Proof.
  cbv zeta. unfold writeAuthError. destruct (Problem ae) as [problem|].
  - match goal with |- context [default _ carrier problem ?w] => set (w0 := w) end.
    exists w0, (default (problemJSONCarrier Sprintf Challenge_json) carrier problem w0).2. split; [done|].
    assert (w_status w0 = None /\ w_body w0 = "") as [Hs Hb].
    { unfold w0. destruct (_ ≫= _) as [b|]; [|done]. by destruct (retry_after_seconds b now). }
    split; [done|]. split; [done|]. split.
    + intros c bound secs Hc Hb' Hr. unfold w0. rewrite Hc. cbn [mbind option_bind]. rewrite Hb', Hr. reflexivity.
    + intros body -> Hm. cbn [default]. pose proof (default_carrier_fresh problem w0 Hs) as Hd. rewrite Hm in Hd.
      unfold problemJSONCarrier in Hd |- *. rewrite Hm in Hd |- *. cbn [snd] in Hd |- *. rewrite Hd. cbn. by rewrite Hb.
  - split; [reflexivity|]. split; [reflexivity|]. exact (compact_error_parses ae).
Qed.
End CarrierFacts.

(** * Concrete instance *)
Section Witness.
  #[local] Existing Instance toy_evidence.
  #[local] Existing Instance toy_challenges.

Definition denied : AuthError := auth_error ErrDenied 403 (ErrNew ("agent " +:+ quote +:+ "bot" +:+ quote +:+ " <denied>")).
Definition denied_text (m : message) : string := match m with ErrNew s => s | _ => "" end.

Lemma refusal_written_witness :
  let w := writeAuthError denied_text (fun _ => true) (fun _ => Ok JNull) (fun _ => None) denied None 0 fresh_response in
  w_status w = Some 403 /\
  parse_json (w_body w) = Some (JObj [("code", JStr "access_denied"); ("message", JStr ("agent " +:+ quote +:+ "bot" +:+ quote +:+ " <denied>"))]).
Proof.
  destruct (refusal_written denied_text (fun _ => true) (fun _ => Ok JNull) (fun _ => None) denied None 0) as (Hs & _ & Hb).
  split; [exact Hs|]. apply Hb. reflexivity.
Defined.

(** A message with a control character is written with an escape that JSON does
    not have. *)
Lemma control_message_not_json :
  parse_json (compact_error denied_text (fun _ => true)
    (auth_error ErrInvalidBearer 401 (ErrNew ("token " +:+ String (chr 7) "")))) = None.
Proof. vm_compute. reflexivity. Qed.
End Witness.
