(* ===== verification/CrlLoop.v ===== *)
(** The life of the CRL cache ([src/crl.go:Start]): the refreshes of its loop and
    those forced beside it, over the answers the distribution point gives at
    each of them. *)
From S2P Require Import Prelude GoStrings GoTime GoJson Types Sha256 GoNet AdmissionTypes Credential Revocation.
Local Open Scope string_scope.
Local Open Scope Z_scope.
Local Open Scope list_scope.

(** * Definitions *)

(** Where the loop is: before its first successful refresh, on its ticker, or
    returned. *)
Inductive crl_phase := Starting | Ticking | Stopped.
(** What happens: a refresh of the loop, with the world it meets, a refresh
    forced by another goroutine, the stop channel closed. *)
Inductive crl_event :=
  | LoopRefresh (world : CRLEnv) (now : Time)
  | Forced (world : CRLEnv) (now : Time)
  | StopSignal.
Record crl_state := { crl_loop : crl_phase; crl_cache : CRLCache; crl_printed : list (string * error) }.

(** [src/crl.go:CRLCache.Start] with its cache, as it is started. *)
Definition Start (c : CRLCache) : crl_state := {| crl_loop := Starting; crl_cache := c; crl_printed := [] |}.
(** [src/crl.go:83-105 Start] one refresh of the loop: in its first part a
    failure is printed and tried again after five seconds, in its second it is
    printed and the next tick comes. *)
Definition loop_refresh (s : crl_state) (world : CRLEnv) (now : Time) : crl_state :=
  let '(err, c) := refresh (CE := world) (crl_cache s) now in
  let report key := match err with Some e => crl_printed s ++ [(key, e)] | None => crl_printed s end in
  match crl_loop s with
  | Stopped => s
  | Starting => {| crl_loop := if err is Some _ then Starting else Ticking; crl_cache := c;
                   crl_printed := report "crl.initial_refresh_failed" |}
  | Ticking => {| crl_loop := Ticking; crl_cache := c; crl_printed := report "crl.refresh_failed" |}
  end.
Definition crl_event_step (s : crl_state) (e : crl_event) : crl_state :=
  match e with
  | LoopRefresh world now => loop_refresh s world now
  | Forced world now => {| crl_loop := crl_loop s; crl_cache := (ForceRefresh (CE := world) (crl_cache s) now).2;
                           crl_printed := crl_printed s |}
  | StopSignal => {| crl_loop := Stopped; crl_cache := crl_cache s; crl_printed := crl_printed s |}
  end.
Definition crl_run (s : crl_state) (es : list crl_event) : crl_state := foldl crl_event_step s es.

(** [src/crl.go:LastRefresh] *)
Definition LastRefresh (c : CRLCache) : Time := lastRefresh c.

(** * Properties *)

(** The list in force of a cache that was started as [c0]: its first content, or
    a list some world gave, checked for [c0]'s authority. *)
Definition crl_in_force (c0 c : CRLCache) (worlds : list CRLEnv) : Prop :=
  caCert c = caCert c0 /\ caDN c = caDN c0 /\ crl_url c = crl_url c0 /\
  (zero_time < thisUpdate c0 -> thisUpdate c0 <= thisUpdate c) /\
  (c = c0 \/ exists world crl, world ∈ worlds /\ fetch_crl (CE := world) c0 = Ok crl /\
     thisUpdate c = ThisUpdate crl /\ nextUpdate c = NextUpdate crl /\
     revoked c = list_to_set (map (crl_key (caDN c0)) (RevokedSerials crl))).

Lemma fetch_crl_config (world : CRLEnv) c c0 : caCert c = caCert c0 -> crl_url c = crl_url c0 ->
  fetch_crl (CE := world) c = fetch_crl (CE := world) c0.
Proof. unfold fetch_crl. by intros -> ->. Qed.

Lemma refresh_url (world : CRLEnv) c now : crl_url (refresh (CE := world) c now).2 = crl_url c.
Proof. unfold refresh. destruct (fetch_crl c); [|done]. by destruct (negb _ && negb _). Qed.

Lemma refresh_in_force c0 c worlds world now : crl_in_force c0 c worlds ->
  crl_in_force c0 (refresh (CE := world) c now).2 (world :: worlds).
Proof.
  intros (Hca & Hdn & Hurl & Hmono & Hin).
  assert (forall c', (c' = c0 \/ exists w crl, w ∈ worlds /\ fetch_crl (CE := w) c0 = Ok crl /\ thisUpdate c' = ThisUpdate crl /\
    nextUpdate c' = NextUpdate crl /\ revoked c' = list_to_set (map (crl_key (caDN c0)) (RevokedSerials crl))) ->
    (c' = c0 \/ exists w crl, w ∈ world :: worlds /\ fetch_crl (CE := w) c0 = Ok crl /\ thisUpdate c' = ThisUpdate crl /\
    nextUpdate c' = NextUpdate crl /\ revoked c' = list_to_set (map (crl_key (caDN c0)) (RevokedSerials crl)))) as Hweak.
  { intros c' [->|(w & crl & Hw & H)]; [by left|]. right. exists w, crl. split; [by right|done]. }
  pose proof (refresh_url world c now) as Hu.
  destruct (refresh_cases (CE := world) c now) as [[e E]|(crl & c' & E & Hf & Hn & Ht & Hnx & Hca' & Hdn' & Hrev)];
    rewrite E in *; cbn [snd] in *.
  - split; [done|]. split; [done|]. split; [done|]. split; [done|]. by apply Hweak.
  - rewrite (fetch_crl_config world c c0 Hca Hurl) in Hf.
    split; [congruence|]. split; [congruence|]. split; [congruence|]. split.
    + intros Hz. specialize (Hmono Hz). destruct Hn as [Hn|Hn]; lia.
    + right. exists world, crl. split; [left|]. split; [done|]. split; [done|]. split; [done|]. by rewrite Hrev, Hdn.
Qed.

Lemma in_force_weaken c0 c ws ws' : (forall w, w ∈ ws -> w ∈ ws') -> crl_in_force c0 c ws -> crl_in_force c0 c ws'.
Proof.
  intros Hw (H1 & H2 & H3 & H4 & [->|(w & crl & Hin & H)]); (do 4 (split; [done|])); [by left|].
  right. exists w, crl. split; [by apply Hw|done].
Qed.

(** The worlds a run meets. *)
Definition worlds_of (es : list crl_event) : list CRLEnv :=
  omap (fun e => match e with LoopRefresh w _ | Forced w _ => Some w | StopSignal => None end) es.

Lemma crl_event_in_force c0 s e ws : crl_in_force c0 (crl_cache s) ws ->
  crl_in_force c0 (crl_cache (crl_event_step s e)) (worlds_of [e] ++ ws).
Proof.
  intros H. destruct e as [w now|w now|]; cbn; [|by apply refresh_in_force|done].
  unfold loop_refresh. pose proof (refresh_in_force c0 (crl_cache s) ws w now H) as Hr.
  destruct (refresh (CE := w) (crl_cache s) now) as [err c]. cbn in Hr.
  destruct (crl_loop s); [done|done|]. eapply in_force_weaken; [|exact H]. intros x Hx. by right.
Qed.

Lemma crl_run_in_force c0 es : forall s ws, crl_in_force c0 (crl_cache s) ws ->
  crl_in_force c0 (crl_cache (crl_run s es)) (worlds_of es ++ ws).
Proof.
  induction es as [|e es IH]; intros s ws H; [done|]. cbn [crl_run foldl].
  eapply in_force_weaken; [|exact (IH _ _ (crl_event_in_force c0 s e ws H))]. intros w Hw.
  unfold worlds_of in *. cbn in *. destruct e; cbn in *; set_solver.
Qed.

Lemma in_force_refl c : crl_in_force c c [].
Proof. do 3 (split; [done|]). split; [intros _; reflexivity|by left]. Qed.

(** C25: However the refreshes of the loop and those forced beside it interleave,
    and whatever the distribution point answers at each, the list in force is the
    one the cache was started with or one that some answer held, signed by the
    cache's authority under its own name; the instant of the list never goes
    back; and a certificate is only reported clean or revoked by the list in
    force, before its next update. *)
Theorem crl_list_in_force c es cert t answer
    (Hq : IsRevokedCert (CE := answer) (crl_cache (crl_run (Start c) es)) (Some cert) t = Ok false \/
          IsRevokedCert (CE := answer) (crl_cache (crl_run (Start c) es)) (Some cert) t = Ok true) :
  let c' := crl_cache (crl_run (Start c) es) in
  t <= nextUpdate c' /\ (zero_time < thisUpdate c -> thisUpdate c <= thisUpdate c') /\
  (c' = c \/ exists world crl ca rdns, world ∈ worlds_of es /\ caCert c = Some ca /\
     fetch_crl (CE := world) c = Ok crl /\ unmarshal_RDNs (CRLEnv := world) (RawSubject ca) = Some rdns /\
     RDN_String (CRLEnv := world) rdns = CRLIssuer crl /\ CheckCRLSignature (CRLEnv := world) ca crl = None /\
     nextUpdate c' = NextUpdate crl /\ revoked c' = list_to_set (map (crl_key (caDN c)) (RevokedSerials crl))).
Proof.
  cbv zeta. destruct (crl_run_in_force c es (Start c) [] (in_force_refl c)) as (_ & _ & _ & Hmono & Hin).
  rewrite app_nil_r in Hin. set (c' := crl_cache (crl_run (Start c) es)) in *.
  split.
  { unfold IsRevokedCert, After in Hq. destruct (Z.ltb_spec (nextUpdate c') t); [by destruct Hq|lia]. }
  split; [done|]. destruct Hin as [->|(w & crl & Hw & Hf & _ & Hn & Hr)]; [by left|]. right.
  destruct (fetch_crl_Ok (CE := w) c crl Hf) as (ca & rdns & Hca & Hu & Hi & Hs). by exists w, crl, ca, rdns.
Qed.

(** A cache that was never refreshed answers no query, and as long as every
    refresh fails it stays that way. *)
Theorem unrefreshed_answers_nothing (answer : CRLEnv) ca url n es cert t
    (Hfail : forall w, w ∈ worlds_of es -> forall crl, fetch_crl (CE := w) (NewCRLCache ca url n) <> Ok crl)
    (Ht : zero_time < t) :
  exists e, IsRevokedCert (CE := answer) (crl_cache (crl_run (Start (NewCRLCache ca url n)) es)) (Some cert) t = Err e.
Proof.
  destruct (crl_run_in_force (NewCRLCache ca url n) es (Start (NewCRLCache ca url n)) [] (in_force_refl _)) as (_ & _ & _ & _ & Hin).
  rewrite app_nil_r in Hin. destruct Hin as [->|(w & crl & Hw & Hf & _)]; [|by destruct (Hfail w Hw crl)].
  unfold IsRevokedCert, After. cbn [nextUpdate NewCRLCache]. rewrite (proj2 (Z.ltb_lt _ _) Ht). by eexists.
Qed.

(** * Concrete instance *)

(** The distribution point fails, then answers, then is unreachable. *)
Definition dead_crl_env : CRLEnv := {|
  http_Get := fun _ => Err (ErrNew "timeout"); pem_Decode := fun _ => None; ParseDERCRL := fun _ => Err (ErrNew "");
  unmarshal_RDNs := fun _ => None; RDN_String := fun _ => ""; CheckCRLSignature := fun _ _ => None |}.
Definition crl_events : list crl_event :=
  [LoopRefresh dead_crl_env 11; Forced toy_crl_env 12; LoopRefresh toy_crl_env 13; StopSignal; LoopRefresh toy_crl_env 14].

Lemma crl_list_in_force_witness :
  let c' := crl_cache (crl_run (Start (NewCRLCache (rev_cert 1 "ca") "http://crl" 60)) crl_events) in
  IsRevokedCert (CE := toy_crl_env) c' (Some (rev_cert 255 "ca")) 15 = Ok true /\ 15 <= nextUpdate c'.
Proof.
  cbv zeta.
  assert (IsRevokedCert (CE := toy_crl_env) (crl_cache (crl_run (Start (NewCRLCache (rev_cert 1 "ca") "http://crl" 60)) crl_events))
            (Some (rev_cert 255 "ca")) 15 = Ok true) as H by (vm_compute; reflexivity).
  split; [exact H|].
  exact (proj1 (crl_list_in_force (NewCRLCache (rev_cert 1 "ca") "http://crl" 60) crl_events (rev_cert 255 "ca") 15 toy_crl_env (or_intror H))).
Defined.

(** A list that has not changed since the last refresh is refused as a replay,
    and so printed as a failure at every tick. *)
Example unchanged_list_reported :
  map fst (crl_printed (crl_run (Start (NewCRLCache (rev_cert 1 "ca") "http://crl" 60))
    [LoopRefresh toy_crl_env 11; LoopRefresh toy_crl_env 12; LoopRefresh toy_crl_env 13])) =
  ["crl.refresh_failed"; "crl.refresh_failed"].
Proof. vm_compute. reflexivity. Qed.
