(* ===== verification/Service.v ===== *)
(** The decision service as it runs: calls of [Decide] of one server
    ([src/decide.go]) that overlap, the administration that swaps its policy
    ([src/admin.go]) and the refresh of its CRL cache ([src/crl.go]) between
    their steps.

    A call is cut where the code reaches what calls share: the counters and the
    bundle are atomics and are each one step; the CRL list is read once per
    certificate under its lock, the OCSP cache before and after the responder is
    asked, the nonce cache once, in [CheckAdmission], the gaps of the evidence at
    the end. Between two of these steps any other call, the administration and
    the refreshes may run. Whether a caller that missed in the OCSP cache waits
    for another or asks itself is left open, and the responder's answer is given
    with the step. Taken as one step although it reaches the replay store twice:
    the resolution of a token (the nonce of [Validate], then the identifier). *)
From S2P Require Import Prelude GoStrings GoTime GoJson GoHttp Types Sha256 Capability DelegationAuth Delegation NonceCache Constraints AdmissionTypes Clc Credential Admission Rbac Revocation Params Spiffe Bearer Evidence Challenge Pipeline AuditLog Decide Admin CrlLoop.
Local Open Scope string_scope.
Local Open Scope Z_scope.
Local Open Scope list_scope.

(** * Definitions *)

Section Service.
  Context {R : Type} {CN : CapabilityNames} {CS : ClcSemantics} {HF : HashFunction} {PM : PkiMethods}
          {DC : DACrypto} {CP : CertificateParser} {CE : CRLEnv} {OE : OCSPEnv} {UP : URLParser}
          {X : X509} {J : AicJwt} {ES : EvidenceSemantics} {CH : ChallengeSemantics} {PE : PolicyEnv}.
  Context (EqualFold : string -> string -> bool) (Sprintf : error -> string).

(** What a call keeps while its pipeline runs: its request, its credential, and
    the bundle it read. *)
Record job := { j_view : RequestView R; j_cred : credential; j_cert : Certificate; j_bundle : option authPolicyBundle }.

(** Where a call of [Decide] is: counted; with its credential; in the loop of
    [RunAccessPipeline] over its chain, at the [i]-th certificate, which is the
    head of [rest] ([Checking]), or past its CRL lookup ([Looking]), or past a miss
    in the OCSP cache ([Asking]); with the result of the pipeline; with its
    answer, noted or not. *)
Inductive call :=
  | Entered (view : RequestView R)
  | Credentialed (view : RequestView R) (c : credential) (cert : Certificate)
  | Checking (j : job) (i : nat) (rest : list Certificate)
  | Looking (j : job) (i : nat) (x : Certificate) (rest : list Certificate)
  | Asking (j : job) (i : nat) (x : Certificate) (rest : list Certificate)
  | Judged (j : job) (res : PipelineResult) (out : output)
  | Concluded (r : AuthContext + AuthError) (fx : effects)
  | Returned (r : AuthContext + AuthError) (fx : effects).

(** The server, what its decisions share, its CRL cache with the loop that
    refreshes it, and its calls. *)
Record service := {
  sv_server : DecisionServer; sv_shared : decide_state; sv_crl : option crl_state; sv_calls : gmap nat call
}.

(** What a call does next; the clock readings of a step are those of its own
    [env], and what the responder answers is [post]. *)
Inductive work :=
  | Resolve (env : decide_env)
  | Configure
  | CheckCert (env : decide_env)
  | Look (env : decide_env)
  | Ask (env : decide_env) (waits : bool) (post : string -> bytes -> result (result bytes))
  | Judge (env : decide_env) (gcr : option CapabilityRegistry)
  | Conclude (env : decide_env).

(** A step: of the call [k], of the administration, of the CRL cache, of the
    cleanup of the nonce cache. *)
Inductive service_event :=
  | Enter (k : nat) (view : RequestView R)
  | At (k : nat) (w : work)
  | Leave (k : nat) (now : Time)
  | Administer (e : admin_event)
  | Refresh (e : crl_event)
  | Cleanup (key : bytes) (now : Time).

(** [src/admin.go:reloadableBundle] the authenticator of the server as a decision
    finds it: the configuration, the bundle in force, the content of the CRL cache. *)
Definition in_force (a : authenticator R) (b : option authPolicyBundle) (crl : option CRLCache) : authenticator R := {|
  cfgAuthMode := cfgAuthMode a; cRequireAIC := cRequireAIC a; cRequiredCapabilities := cRequiredCapabilities a;
  cRequiredOperations := cRequiredOperations a; cUnresolvedEvaluator := cUnresolvedEvaluator a;
  cDischargeObligations := cDischargeObligations a; cObligationsUnderstood := cObligationsUnderstood a;
  cRequireFreshDecisionContext := cRequireFreshDecisionContext a; cDecisionContext := cDecisionContext a;
  cDisallowRepresentative := cDisallowRepresentative a; cRequireUserAuth := cRequireUserAuth a;
  cEnforceConstraints := cEnforceConstraints a; cUserCert := cUserCert a; cUserCertResolver := cUserCertResolver a;
  cPluginRegistry := cPluginRegistry a; cCapabilityRegistry := cCapabilityRegistry a;
  cAuthorizationPolicy := cAuthorizationPolicy a; cConstraints := cConstraints a;
  cParameterValidators := cParameterValidators a; cEvidence := cEvidence a;
  cEvidenceRequirement := cEvidenceRequirement a; cEvidenceFacts := cEvidenceFacts a; cChallenges := cChallenges a;
  cRequireApproval := cRequireApproval a; cApprovalRequester := cApprovalRequester a;
  cSupervisionStore := cSupervisionStore a; tlsCAs := tlsCAs a; verifier := verifier a;
  a_crl := crl; a_audit := a_audit a; a_nonceCache := a_nonceCache a; policy := b |}.
Definition authenticator_now (a : authenticator R) (s : service) : authenticator R :=
  in_force a (ds_bundle (sv_server s)) (crl_cache <$> sv_crl s).
(** The configuration of a job, with the CRL list of the moment. *)
Definition job_authenticator (a : authenticator R) (s : service) (j : job) : authenticator R :=
  in_force a (j_bundle j) (crl_cache <$> sv_crl s).
Definition job_config (a : authenticator R) (s : service) (j : job) : PipelineConfig :=
  pipelineConfig (job_authenticator a s j) (j_view j) (VBody (j_view j)) (cr_bearer (j_cred j)).

Definition set_call (s : service) (k : nat) (c : call) : service :=
  {| sv_server := sv_server s; sv_shared := sv_shared s; sv_crl := sv_crl s; sv_calls := <[k := c]> (sv_calls s) |}.
Definition set_shared (s : service) (st : decide_state) : service :=
  {| sv_server := sv_server s; sv_shared := st; sv_crl := sv_crl s; sv_calls := sv_calls s |}.
Definition set_server (s : service) (d : DecisionServer) : service :=
  {| sv_server := d; sv_shared := sv_shared s; sv_crl := sv_crl s; sv_calls := sv_calls s |}.
Definition set_world (st : decide_state) (w : world) : decide_state :=
  {| s_world := w; s_replay := s_replay st; s_gaps := s_gaps st |}.
(** The counters of a server, with what is done to them. *)
Definition note (d : DecisionServer) (f : DecisionMetrics -> DecisionMetrics) : DecisionServer :=
  {| adminToken := adminToken d; ds_bundle := ds_bundle d; ds_metrics := ((ds_metrics d).1, f (ds_metrics d).2) |}.

(** [src/decide.go:86-89 Decide] a call is counted. *)
Definition count_call (m : DecisionMetrics) : DecisionMetrics :=
  {| DecideTotal := wrapu64 (DecideTotal m + 1); MGranted := MGranted m; MDenied := MDenied m;
     ConfigReload := ConfigReload m; lastErr := lastErr m; lastOK := lastOK m |}.

(** [src/decide.go:96-123 decide] up to the pipeline. *)
Definition resolve_call (a : authenticator R) (env : decide_env) (view : RequestView R) (st : decide_state)
  : call * decide_state :=
  let '(r, replay) := resolveCredential a env view (s_replay st) in
  (match r with
   | inr err => Concluded (inr err) no_effects
   | inl c =>
       match cr_cert c with
       | None => Concluded (inr (auth_error ErrNoCredential 401 (Errorf "no client credential presented" []))) no_effects
       | Some cert => match check_peer_chain a view c with
                      | Some err => Concluded (inr err) no_effects
                      | None => Credentialed view c cert
                      end
       end
   end, {| s_world := s_world st; s_replay := replay; s_gaps := s_gaps st |}).

(** A refusal of the pipeline, which wrote nothing yet. *)
Definition refused (j : job) (err : error) : call := Judged j (deny err) no_output.
(** [src/pipeline.go:206-210 RunAccessPipeline] called at line 125 of
    [src/decide.go:decide]; the bundle is read once, here. *)
Definition configure_call (s : service) (view : RequestView R) (c : credential) (cert : Certificate) : call :=
  let j := {| j_view := view; j_cred := c; j_cert := cert; j_bundle := ds_bundle (sv_server s) |} in
  match cr_chain c with
  | [] => refused j (Errorf "no client certificate presented" [])
  | chain => Checking j 0 chain
  end.
(** [src/pipeline.go:229-239 RunAccessPipeline] a certificate's validity, and the
    CRL list in force when it is looked up. *)
Definition check_cert (a : authenticator R) (env : decide_env) (s : service) (j : job) (i : nat)
    (x : Certificate) (rest : list Certificate) : call :=
  match checkCertValidity x (valid_now (d_pipeline env) i) with
  | Some err => refused j err
  | None => match check_crl x (job_config a s j) (crl_now (d_pipeline env) i) with
            | Some err => refused j err
            | None => Looking j i x rest
            end
  end.
(** [src/pipeline.go:245-247 RunAccessPipeline] *)
Definition ocsp_answered (j : job) (i : nat) (rest : list Certificate) (v : option error) : call :=
  match ocsp_refusal v with Some err => refused j err | None => Checking j (S i) rest end.
Definition with_post (post : string -> bytes -> result (result bytes)) : OCSPEnv :=
  {| unmarshal_AIA := unmarshal_AIA; AIA_OID := AIA_OID; CreateRequest := CreateRequest; http_Post := post;
     ParseResponseForCert := ParseResponseForCert |}.
(** [src/pipeline.go:240-248 RunAccessPipeline] the OCSP cache is looked up. *)
Definition look_call (env : decide_env) (st : decide_state) (j : job) (i : nat) (x : Certificate)
    (rest : list Certificate) : call :=
  match w_ocsp (s_world st) with
  | None => Checking j (S i) rest
  | Some oc => match ocsp_lookup oc x (ocsp_run (d_pipeline env) i) with
               | Some v => ocsp_answered j i rest v
               | None => Asking j i x rest
               end
  end.
(** [src/pipeline.go:240-248 RunAccessPipeline] the responder is asked, or another
    call that asks it is waited for. *)
Definition ask_call (env : decide_env) (waits : bool) (post : string -> bytes -> result (result bytes))
    (st : decide_state) (j : job) (i : nat) (x : Certificate) (rest : list Certificate) : call * decide_state :=
  match w_ocsp (s_world st) with
  | None => (Checking j (S i) rest, st)
  | Some oc =>
      let '(v, oc') := ocsp_answer (OE := with_post post) oc x (head rest) waits (ocsp_run (d_pipeline env) i) in
      (ocsp_answered j i rest v, set_world st (set_ocsp (s_world st) (Some oc')))
  end.
(** [src/pipeline.go:253-538 RunAccessPipeline] the rest of the pipeline, which
    reaches the nonce cache once. *)
Definition judge_call (a : authenticator R) (env : decide_env) (gcr : option CapabilityRegistry) (s : service)
    (j : job) (leaf : Certificate) : call * decide_state :=
  let w := s_world (sv_shared s) in
  let '(res, w, out) := run_checked EqualFold (d_pipeline env) gcr leaf (job_config a s j)
    {| w_ocsp := w_ocsp w; w_nonce := w_nonce w; w_risk := None |} in
  (Judged j res out, set_world (sv_shared s) w).
(** [src/decide.go:126-198 decide] *)
Definition conclude_call (a : authenticator R) (env : decide_env) (s : service) (j : job) (res : PipelineResult)
    (out : output) : call * decide_state :=
  let st := sv_shared s in
  let '(r, gaps, fx) := conclude (job_authenticator a s j) env (j_view j) (cr_bearer (j_cred j)) (j_cert j) res out
    (s_gaps st) in
  (Concluded r fx, {| s_world := s_world st; s_replay := s_replay st; s_gaps := gaps |}).
Definition is_refusal (r : AuthContext + AuthError) : bool := match r with inr _ => true | inl _ => false end.

(** [None] when the call is not where the step starts. *)
Definition call_step (a : authenticator R) (s : service) (w : work) (c : call) : option (call * decide_state) :=
  let st := sv_shared s in
  match w, c with
  | Resolve env, Entered view => Some (resolve_call a env view st)
  | Configure, Credentialed view c cert => Some (configure_call s view c cert, st)
  | CheckCert env, Checking j i (x :: rest) => Some (check_cert a env s j i x rest, st)
  | Look env, Looking j i x rest => Some (look_call env st j i x rest, st)
  | Ask env waits post, Asking j i x rest => Some (ask_call env waits post st j i x rest)
  | Judge env gcr, Checking j i [] => judge_call a env gcr s j <$> head (cr_chain (j_cred j))
  | Conclude env, Judged j res out => Some (conclude_call a env s j res out)
  | _, _ => None
  end.
Definition service_step (a : authenticator R) (s : service) (e : service_event) : option service :=
  match e with
  | Enter k view =>
      match sv_calls s !! k with
      | None => Some (set_call (set_server s (note (sv_server s) count_call)) k (Entered view))
      | Some _ => None
      end
  | At k w =>
      match sv_calls s !! k with
      | Some c => (fun r => set_call (set_shared s r.2) k r.1) <$> call_step a s w c
      | None => None
      end
  | Leave k now =>
      match sv_calls s !! k with
      | Some (Concluded r fx) =>
          Some (set_call (set_server s (note (sv_server s) (fun m => noteResult m (is_refusal r) now))) k (Returned r fx))
      | _ => None
      end
  | Administer e => Some (set_server s (admin_step Sprintf (sv_server s) e))
  | Refresh e => Some {| sv_server := sv_server s; sv_shared := sv_shared s;
                         sv_crl := (fun c => crl_event_step c e) <$> sv_crl s; sv_calls := sv_calls s |}
  | Cleanup key now =>
      let w := s_world (sv_shared s) in
      Some (set_shared s (set_world (sv_shared s) (set_nonce w (NonceCache.cleanup_key (w_nonce w) key now))))
  end.
Fixpoint service_run (a : authenticator R) (s : service) (es : list service_event) : option service :=
  match es with
  | [] => Some s
  | e :: es => match service_step a s e with Some s => service_run a s es | None => None end
  end.

(** The administration and the refreshes of a run. *)
Definition administration (es : list service_event) : list admin_event :=
  omap (fun e => match e with Administer e => Some e | _ => None end) es.
Definition refreshes (es : list service_event) : list crl_event :=
  omap (fun e => match e with Refresh e => Some e | _ => None end) es.

(** * Lemmas *)

Implicit Types (a : authenticator R) (s : service).

(** A call that has its answer. *)
Definition answered (c : call) (r : AuthContext + AuthError) (fx : effects) : Prop :=
  c = Concluded r fx \/ c = Returned r fx.

Lemma service_run_app a s es1 es2 :
  service_run a s (es1 ++ es2) = service_run a s es1 ≫= (fun s' => service_run a s' es2).
Proof.
  revert s. induction es1 as [|e es1 IH]; intros s; [done|]. cbn. by destruct (service_step a s e).
Qed.

(** What a step does to the server, for its policy. *)
Lemma view_of_note d f : (forall m, ConfigReload (f m) = ConfigReload m) -> view_of (note d f) = view_of d.
Proof. intros Hf. unfold view_of, note. cbn. by rewrite Hf. Qed.
Lemma noteResult_reloads m denied now : ConfigReload (noteResult m denied now) = ConfigReload m.
Proof. by destruct denied. Qed.

(** The steps by what they read and leave. *)
Inductive stepped a s : service_event -> service -> Prop :=
  | stepped_enter k view : sv_calls s !! k = None ->
      stepped a s (Enter k view) (set_call (set_server s (note (sv_server s) count_call)) k (Entered view))
  | stepped_at k w c c' st : sv_calls s !! k = Some c -> call_step a s w c = Some (c', st) ->
      stepped a s (At k w) (set_call (set_shared s st) k c')
  | stepped_return k now r fx : sv_calls s !! k = Some (Concluded r fx) ->
      stepped a s (Leave k now)
        (set_call (set_server s (note (sv_server s) (fun m => noteResult m (is_refusal r) now))) k (Returned r fx))
  | stepped_administer e : stepped a s (Administer e) (set_server s (admin_step Sprintf (sv_server s) e))
  | stepped_refresh e : stepped a s (Refresh e)
      {| sv_server := sv_server s; sv_shared := sv_shared s; sv_crl := (fun c => crl_event_step c e) <$> sv_crl s;
         sv_calls := sv_calls s |}
  | stepped_cleanup key now : stepped a s (Cleanup key now)
      (set_shared s (set_world (sv_shared s)
        (set_nonce (s_world (sv_shared s)) (NonceCache.cleanup_key (w_nonce (s_world (sv_shared s))) key now)))).

Lemma service_step_stepped a s e s' : service_step a s e = Some s' <-> stepped a s e s'.
Proof.
  split.
  - destruct e as [k view|k w|k now|e|e|key now]; cbn.
    + destruct (sv_calls s !! k) eqn:E; [done|]. intros [= <-]. by constructor.
    + destruct (sv_calls s !! k) as [c|] eqn:E; [|done]. destruct (call_step a s w c) as [[c' st]|] eqn:Ec; [|done].
      intros [= <-]. by apply (stepped_at _ _ _ _ c).
    + destruct (sv_calls s !! k) as [[]|] eqn:E; try done. intros [= <-]. by constructor 3 with (fx := fx).
    + intros [= <-]. constructor.
    + intros [= <-]. constructor.
    + intros [= <-]. constructor.
  - intros []; cbn; try done; [by simplify_option_eq| |by simplify_option_eq].
    match goal with H : sv_calls s !! k = _, H2 : call_step _ _ _ _ = _ |- _ => by rewrite H, H2 end.
Qed.

Lemma service_run_cons a s e es s' : service_run a s (e :: es) = Some s' ->
  exists s1, stepped a s e s1 /\ service_run a s1 es = Some s'.
Proof.
  cbn. destruct (service_step a s e) as [s1|] eqn:E; [|done]. intros H. exists s1.
  split; [by apply service_step_stepped|done].
Qed.
Lemma service_run_snoc a s es e s' : service_run a s (es ++ [e]) = Some s' ->
  exists s1, service_run a s es = Some s1 /\ stepped a s1 e s'.
Proof.
  rewrite service_run_app. destruct (service_run a s es) as [s1|] eqn:E; [|done]. cbn. intros H. exists s1.
  split; [done|]. apply service_step_stepped. by destruct (service_step a s1 e).
Qed.

(** A run leaves the policy, the secret and the reload counter to its
    administration, and the CRL cache to the refreshes. *)
Lemma run_administration a es : forall s s', service_run a s es = Some s' ->
  spec_run (view_of (sv_server s)) (administration es) (view_of (sv_server s')).
Proof.
  induction es as [|e es IH]; intros s s' H; [injection H as <-; constructor|].
  apply service_run_cons in H as (s1 & Hs & H). apply IH in H. destruct Hs as [| |k now r fx _|e| |]; try exact H.
  - cbn in H. rewrite view_of_note in H; [exact H|]. intros m. apply noteResult_reloads.
  - cbn [sv_server set_server] in H.
    destruct (admin_step_installs Sprintf (sv_server s) e) as [(p & Hp & Es)|[Hn Es]]; rewrite Es in H.
    + rewrite view_with_policy in H. by apply (spec_install _ _ p).
    + by apply spec_skip.
Qed.
Lemma run_refreshes a es : forall s s', service_run a s es = Some s' ->
  sv_crl s' = (fun c => crl_run c (refreshes es)) <$> sv_crl s.
Proof.
  induction es as [|e es IH]; intros s s' H.
  - injection H as <-. by destruct (sv_crl s).
  - apply service_run_cons in H as (s1 & Hs & H). rewrite (IH _ _ H). destruct Hs; try done. by destruct (sv_crl s).
Qed.

(** What is preserved by every step of a call. *)
Lemma run_checked_ocsp clk gcr leaf cfg w : w_ocsp (run_checked EqualFold clk gcr leaf cfg w).1.2 = w_ocsp w.
Proof.
  unfold run_checked. destruct (check_identity _ _ _); [done|]. destruct (CheckAdmission _ _ _ _) as [[adm nonces] warns].
  destruct (negb _); [done|]. destruct (check_capabilities _ _ _ _ _) as [l [r|]]; [|done].
  by destruct (match r_risk r with None => _ | Some _ => _ end).
Qed.
(** The shared state a step of a call leaves: the replay store when it resolves
    the credential, the OCSP cache when it asks, the nonce cache when the
    pipeline ends, the gaps when it concludes. *)
Lemma call_step_shared a s w c c' st : call_step a s w c = Some (c', st) -> let st0 := sv_shared s in
  (s_replay st = match w, c with
                 | Resolve env, Entered view => (resolveCredential a env view (s_replay st0)).2
                 | _, _ => s_replay st0 end) /\
  is_some (w_ocsp (s_world st)) = is_some (w_ocsp (s_world st0)) /\
  w_nonce (s_world st) = match w, c with
    | Judge env gcr, Checking j i [] =>
        match head (cr_chain (j_cred j)) with
        | Some leaf => w_nonce (run_checked EqualFold (d_pipeline env) gcr leaf (job_config a s j)
            {| w_ocsp := w_ocsp (s_world st0); w_nonce := w_nonce (s_world st0); w_risk := None |}).1.2
        | None => w_nonce (s_world st0)
        end
    | _, _ => w_nonce (s_world st0) end.
Proof.
  cbv zeta. destruct w, c as [ | |j i [|x rest]| | | | |]; cbn; intros H; try done.
  - unfold resolve_call in H. by destruct (resolveCredential _ _ _ _); injection H as _ <-.
  - by injection H as _ <-.
  - by injection H as _ <-.
  - by injection H as _ <-.
  - injection H as H. unfold ask_call in H. destruct (w_ocsp _) as [oc|] eqn:E; [|by injection H as _ <-; rewrite E].
    destruct (ocsp_answer _ _ _ _ _). by injection H as _ <-.
  - destruct (head _) as [leaf|]; [|done]. cbn in H. injection H as H. unfold judge_call in H.
    match type of H with context [run_checked ?f ?clk ?g ?l ?cfg ?w] => pose proof (run_checked_ocsp clk g l cfg w) as Ho end.
    destruct (run_checked _ _ _ _ _ _) as [[res w] out]. injection H as _ <-. cbn in *. by rewrite Ho.
  - injection H as H. unfold conclude_call in H. destruct (conclude _ _ _ _ _ _ _ _) as [[r g] fx]. by injection H as _ <-.
Qed.
Lemma run_ocsp a es : forall s s', service_run a s es = Some s' ->
  is_some (w_ocsp (s_world (sv_shared s'))) = is_some (w_ocsp (s_world (sv_shared s))).
Proof.
  induction es as [|e es IH]; intros s s' H; [by injection H as <-|].
  apply service_run_cons in H as (s1 & Hs & H). rewrite (IH _ _ H). destruct Hs; try done.
  match goal with H : call_step _ _ _ _ = _ |- _ => by apply call_step_shared in H as (_ & ? & _) end.
Qed.

(** ** The history of a call *)

(** The call [k] took the step [w] in the run [es], when [es1] had left [s1]. *)
Definition happened a s (es : list service_event) (k : nat) (w : work) (es1 : list service_event) s1 : Prop :=
  exists es2, es = es1 ++ At k w :: es2 /\ service_run a s es1 = Some s1.
(** It read the bundle in force at its configuration. *)
Definition configured a s es k (j : job) : Prop := exists es1 s1, happened a s es k Configure es1 s1 /\
  sv_calls s1 !! k = Some (Credentialed (j_view j) (j_cred j) (j_cert j)) /\ j_bundle j = ds_bundle (sv_server s1).
(** A certificate is in its validity period and not revoked by the list that the
    refreshes before its own check had left. *)
Definition crl_checked a s es k (i : nat) (x : Certificate) : Prop := exists env es1 s1,
  happened a s es k (CheckCert env) es1 s1 /\ checkCertValidity x (valid_now (d_pipeline env) i) = None /\
  forall c, sv_crl s = Some c ->
    IsRevokedCert (crl_cache (crl_run c (refreshes es1))) (Some x) (crl_now (d_pipeline env) i) = Ok false.
(** It passed the OCSP cache as it was when it was looked up, or the answer of the
    responder, or the cache after waiting for one. *)
Definition ocsp_checked a s es k (i : nat) (x : Certificate) (issuer : option Certificate) : Prop :=
  is_some (w_ocsp (s_world (sv_shared s))) = true -> exists env es1 s1 oc,
  w_ocsp (s_world (sv_shared s1)) = Some oc /\
  (happened a s es k (Look env) es1 s1 /\ ocsp_lookup oc x (ocsp_run (d_pipeline env) i) = Some None \/
   exists waits post, happened a s es k (Ask env waits post) es1 s1 /\
     (ocsp_answer (OE := with_post post) oc x issuer waits (ocsp_run (d_pipeline env) i)).1 = None).
Definition passed a s es k (j : job) (n : nat) : Prop := forall i x, (i < n)%nat -> cr_chain (j_cred j) !! i = Some x ->
  crl_checked a s es k i x /\ ocsp_checked a s es k i x (cr_chain (j_cred j) !! S i).
(** The rest of the pipeline gave the result under the bundle of the job. *)
Definition judged a s es k (j : job) (res : PipelineResult) : Prop := exists env gcr es1 s1 leaf,
  happened a s es k (Judge env gcr) es1 s1 /\ head (cr_chain (j_cred j)) = Some leaf /\
  (run_checked EqualFold (d_pipeline env) gcr leaf (job_config a s1 j)
     {| w_ocsp := w_ocsp (s_world (sv_shared s1)); w_nonce := w_nonce (s_world (sv_shared s1)); w_risk := None |}).1.1 = res.
Definition granted_job a s es k j res : Prop :=
  configured a s es k j /\ passed a s es k j (length (cr_chain (j_cred j))) /\ judged a s es k j res.

(** What is known of a call where it is. *)
Definition tracked a s es k (c : call) : Prop :=
  match c with
  | Entered _ | Credentialed _ _ _ => True
  | Checking j i rest => configured a s es k j /\ drop i (cr_chain (j_cred j)) = rest /\ passed a s es k j i
  | Looking j i x rest | Asking j i x rest => configured a s es k j /\ drop i (cr_chain (j_cred j)) = x :: rest /\
      passed a s es k j i /\ crl_checked a s es k i x
  | Judged j res _ => Granted res = true -> granted_job a s es k j res
  | Concluded (inl ac) _ | Returned (inl ac) _ => exists j res refs sat, Granted res = true /\
      granted_job a s es k j res /\ ac = auth_context (j_cert j) (cr_bearer (j_cred j)) res refs sat
  | Concluded (inr _) _ | Returned (inr _) _ => True
  end.

Lemma happened_mono a s es e k w es1 s1 : happened a s es k w es1 s1 -> happened a s (es ++ [e]) k w es1 s1.
Proof. intros (es2 & -> & H). exists (es2 ++ [e]). by rewrite <- app_assoc. Qed.
Lemma happened_last a s es k w s1 : service_run a s es = Some s1 -> happened a s (es ++ [At k w]) k w es s1.
Proof. by exists []. Qed.
Lemma configured_mono a s es e k j : configured a s es k j -> configured a s (es ++ [e]) k j.
Proof. intros (es1 & s1 & H & Hj). exists es1, s1. split; [by apply happened_mono|done]. Qed.
Lemma crl_checked_mono a s es e k i x : crl_checked a s es k i x -> crl_checked a s (es ++ [e]) k i x.
Proof. intros (env & es1 & s1 & H & Hx). exists env, es1, s1. split; [by apply happened_mono|done]. Qed.
Lemma ocsp_checked_mono a s es e k i x iss : ocsp_checked a s es k i x iss -> ocsp_checked a s (es ++ [e]) k i x iss.
Proof.
  intros H Ho. destruct (H Ho) as (env & es1 & s1 & oc & Hoc & [[Hh Hl]|(waits & post & Hh & Ha)]); exists env, es1, s1, oc;
    (split; [done|]).
  - left. split; [by apply happened_mono|done].
  - right. exists waits, post. split; [by apply happened_mono|done].
Qed.
Lemma passed_mono a s es e k j n : passed a s es k j n -> passed a s (es ++ [e]) k j n.
Proof. intros H i x Hi Hx. destruct (H i x Hi Hx). split; [by apply crl_checked_mono|by apply ocsp_checked_mono]. Qed.
Lemma judged_mono a s es e k j res : judged a s es k j res -> judged a s (es ++ [e]) k j res.
Proof. intros (env & gcr & es1 & s1 & leaf & H & Hl). exists env, gcr, es1, s1, leaf. split; [by apply happened_mono|done]. Qed.
Lemma granted_job_mono a s es e k j res : granted_job a s es k j res -> granted_job a s (es ++ [e]) k j res.
Proof. intros (? & ? & ?). split; [by apply configured_mono|split; [by apply passed_mono|by apply judged_mono]]. Qed.
Lemma tracked_mono a s es e k c : tracked a s es k c -> tracked a s (es ++ [e]) k c.
Proof.
  destruct c as [ | |j i rest|j i x rest|j i x rest|j res out|[ac|]|[ac|]]; cbn; try done.
  - intros (? & ? & ?). split; [by apply configured_mono|split; [done|by apply passed_mono]].
  - intros (? & ? & ? & ?). split; [by apply configured_mono|split; [done|split; [by apply passed_mono|by apply crl_checked_mono]]].
  - intros (? & ? & ? & ?). split; [by apply configured_mono|split; [done|split; [by apply passed_mono|by apply crl_checked_mono]]].
  - intros H Hg. by apply granted_job_mono, H.
  - intros (j & res & refs & sat & ? & ? & ?). exists j, res, refs, sat. split; [done|split; [by apply granted_job_mono|done]].
  - intros (j & res & refs & sat & ? & ? & ?). exists j, res, refs, sat. split; [done|split; [by apply granted_job_mono|done]].
Qed.

Lemma refused_tracked a s es k j err : tracked a s es k (refused j err).
Proof. done. Qed.
(** One more certificate passed. *)
Lemma passed_next a s es k j i x rest : passed a s es k j i -> drop i (cr_chain (j_cred j)) = x :: rest ->
  crl_checked a s es k i x -> ocsp_checked a s es k i x (head rest) ->
  drop (S i) (cr_chain (j_cred j)) = rest /\ passed a s es k j (S i).
Proof.
  intros Hp Hd Hc Ho. assert (cr_chain (j_cred j) !! i = Some x) as Hi.
  { rewrite <- (Nat.add_0_r i), <- lookup_drop, Hd. done. }
  assert (drop (S i) (cr_chain (j_cred j)) = rest) as Hd'.
  { rewrite <- Nat.add_1_r, <- drop_drop, Hd. done. }
  split; [done|]. intros i' x' Hlt Hx. destruct (decide (i' = i)) as [->|Hne]; [|apply Hp; [lia|done]].
  assert (x' = x) as -> by congruence. split; [done|].
  enough (cr_chain (j_cred j) !! S i = head rest) as -> by done.
  rewrite <- (Nat.add_0_r (S i)), <- lookup_drop, Hd'. by destruct rest.
Qed.
Lemma answered_tracked a s es k j i x rest v : configured a s es k j -> passed a s es k j i ->
  drop i (cr_chain (j_cred j)) = x :: rest -> crl_checked a s es k i x ->
  (v = None -> ocsp_checked a s es k i x (head rest)) -> tracked a s es k (ocsp_answered j i rest v).
Proof.
  intros Hj Hp Hd Hc Ho. unfold ocsp_answered. destruct v as [err|]; [done|]. cbn.
  destruct (passed_next a s es k j i x rest Hp Hd Hc (Ho eq_refl)) as [? ?]. by split.
Qed.

Lemma conclude_inl a env view bearer cert res out gaps ac gaps' fx :
  conclude a env view bearer cert res out gaps = (inl ac, gaps', fx) ->
  Granted res = true /\ exists refs sat, ac = auth_context cert bearer res refs sat.
Proof.
  unfold conclude. destruct (emitEvidence _ _ _ _ _ _ _) as [[[refs handed] err] g].
  destruct (Granted res); [|by destruct (strict_failure a err)]. destruct (strict_failure a err); [done|].
  destruct (admit_granted _ _ _ _ _ _ _) as [r sup] eqn:E. intros [= -> _ _]. split; [done|].
  destruct (admit_granted_inl a env view cert bearer res refs ac) as (sat & _ & -> & _); [by rewrite E|].
  by exists refs, sat.
Qed.

Lemma call_step_tracked a s es s1 k w c c' st : service_run a s es = Some s1 -> sv_calls s1 !! k = Some c ->
  tracked a s es k c -> call_step a s1 w c = Some (c', st) -> tracked a s (es ++ [At k w]) k c'.
Proof.
  intros Hrun Hk Ht Hs. pose proof (happened_last a s es k w s1 Hrun) as Hh.
  pose proof (tracked_mono a s es (At k w) k c Ht) as Ht'. clear Ht.
  destruct w as [env| |env|env|env waits post|env gcr|env], c as [view|view c cert|j i [|x rest]|j i x rest|j i x rest|j res out| |];
    try done; cbn in Hs.
  - injection Hs as Hs. unfold resolve_call in Hs. destruct (resolveCredential _ _ _ _) as [[c|err] replay];
      injection Hs as <- _; [|done]. destruct (cr_cert c); [by destruct (check_peer_chain _ _ _)|done].
  - injection Hs as <- _. unfold configure_call. destruct (cr_chain c) as [|x rest] eqn:E; [done|]. cbn.
    rewrite E. split; [|split; [done|by intros ? ? ?%Nat.nlt_0_r]]. by exists es, s1.
  - injection Hs as <- _. destruct Ht' as (Hj & Hd & Hp). unfold check_cert.
    destruct (checkCertValidity _ _) eqn:Ev; [done|]. destruct (check_crl _ _ _) eqn:Ec; [done|].
    split; [done|]. split; [done|]. split; [done|]. exists env, es, s1. split; [done|]. split; [done|]. intros c Hc.
    apply (check_crl_None _ _ _ Ec). cbn. by rewrite (run_refreshes _ _ _ _ Hrun), Hc.
  - injection Hs as <- _. destruct Ht' as (Hj & Hd & Hp & Hc). unfold look_call.
    destruct (w_ocsp (s_world (sv_shared s1))) as [oc|] eqn:Eo.
    + destruct (ocsp_lookup _ _ _) as [v|] eqn:El; [|done]. apply (answered_tracked _ _ _ _ _ _ x); try done.
      intros -> _. exists env, es, s1, oc. split; [done|]. by left.
    + apply (answered_tracked _ _ _ _ _ _ x rest None); try done. intros _ Ho.
      by rewrite <- (run_ocsp _ _ _ _ Hrun), Eo in Ho.
  - injection Hs as Hs. destruct Ht' as (Hj & Hd & Hp & Hc). unfold ask_call in Hs.
    destruct (w_ocsp (s_world (sv_shared s1))) as [oc|] eqn:Eo.
    + destruct (ocsp_answer _ _ _ _ _) as [v oc'] eqn:Ea. injection Hs as <- _.
      apply (answered_tracked _ _ _ _ _ _ x); try done.
      intros -> _. exists env, es, s1, oc. split; [done|]. right. exists waits, post. by rewrite Ea.
    + injection Hs as <- _. apply (answered_tracked _ _ _ _ _ _ x rest None); try done. intros _ Ho.
      by rewrite <- (run_ocsp _ _ _ _ Hrun), Eo in Ho.
  - destruct (head (cr_chain (j_cred j))) as [leaf|] eqn:El; [|done]. injection Hs as Hs. unfold judge_call in Hs.
    destruct Ht' as (Hj & Hd & Hp). destruct (run_checked _ _ _ _ _ _) as [[res w] out] eqn:Er. injection Hs as <- _.
    intros Hg. split; [done|]. split.
    + intros i' x Hi Hx. apply Hp; [|done]. apply (f_equal length) in Hd. rewrite length_drop in Hd. cbn in Hd. lia.
    + exists env, gcr, es, s1, leaf. split; [done|]. split; [done|]. by rewrite Er.
  - injection Hs as Hs. unfold conclude_call in Hs. destruct (conclude _ _ _ _ _ _ _ _) as [[r g] fx] eqn:Ec.
    injection Hs as <- _. destruct r as [ac|]; [|done]. apply conclude_inl in Ec as (Hg & refs & sat & ->).
    exists j, res, refs, sat. split; [done|]. split; [by apply Ht'|done].
Qed.

Lemma run_tracked a s es : forall s' k c, service_run a s es = Some s' -> sv_calls s = ∅ ->
  sv_calls s' !! k = Some c -> tracked a s es k c.
Proof.
  induction es as [|e es IH] using rev_ind; intros s' k c H Hs Hk; [injection H as <-; by rewrite Hs in Hk|].
  apply service_run_snoc in H as (s1 & H & Hstep).
  destruct Hstep as [k' view Hk'|k' w c0 c' st Hk' Hc|k' now r fx Hk'|e|e|key now]; cbn [sv_calls set_call set_shared set_server] in Hk;
    try (apply tracked_mono; by eapply IH);
    (destruct (decide (k' = k)) as [->|Hne]; [|rewrite lookup_insert_ne in Hk by done; apply tracked_mono; by eapply IH]);
    rewrite lookup_insert_eq in Hk; injection Hk as <-.
  - done.
  - eapply call_step_tracked; [done|done| |done]. by eapply IH.
  - exact (tracked_mono _ _ _ _ _ _ (IH _ _ _ H Hs Hk')).
Qed.

(** ** Counting the calls *)

Definition count_calls (P : call -> bool) (m : gmap nat call) : Z := Z.of_nat (size (filter (fun kc => P kc.2 = true) m)).
Definition is_granted (c : call) : bool := match c with Returned (inl _) _ => true | _ => false end.
Definition is_denied (c : call) : bool := match c with Returned (inr _) _ => true | _ => false end.
Definition is_running (c : call) : bool := match c with Returned _ _ => false | _ => true end.

Lemma count_calls_delete P m k c : m !! k = Some c -> count_calls P m = count_calls P (delete k m) + (if P c then 1 else 0).
Proof.
  intros Hk. unfold count_calls. rewrite <- (insert_delete_id m k c Hk) at 1. rewrite map_filter_insert; cbn [snd].
  destruct (P c) eqn:E; case_decide; try congruence.
  - rewrite map_size_insert_None by (rewrite map_lookup_filter, lookup_delete_eq; done). lia.
  - rewrite delete_delete_eq. lia.
Qed.
Lemma count_calls_insert P m k c :
  count_calls P (<[k := c]> m) =
    count_calls P m + (if P c then 1 else 0) - (match m !! k with Some old => if P old then 1 else 0 | None => 0 end).
Proof.
  rewrite (count_calls_delete P (<[k := c]> m) k c) by apply lookup_insert_eq. rewrite delete_insert_eq.
  destruct (m !! k) as [old|] eqn:E; [rewrite (count_calls_delete P m k old E); lia|].
  rewrite delete_id by done. lia.
Qed.
Lemma count_calls_all m : count_calls (fun _ => true) m = Z.of_nat (size m).
Proof. unfold count_calls. f_equal. f_equal. apply map_filter_id. done. Qed.

(** The counters after a run, from the calls it entered and those it returned. *)
Definition counters_agree (m m' : DecisionMetrics) (calls : gmap nat call) : Prop :=
  wrapu64 (DecideTotal m') = wrapu64 (DecideTotal m + Z.of_nat (size calls)) /\
  wrapu64 (MGranted m') = wrapu64 (MGranted m + count_calls is_granted calls) /\
  wrapu64 (MDenied m') = wrapu64 (MDenied m + count_calls is_denied calls).

Lemma wrapu64_congr x y z : wrapu64 x = wrapu64 y -> wrapu64 (x + z) = wrapu64 (y + z).
Proof. unfold wrapu64. intros H. by rewrite (Z.add_mod x), (Z.add_mod y), H by lia. Qed.
Lemma wrapu64_idem x : wrapu64 (wrapu64 x) = wrapu64 x.
Proof. apply Z.mod_mod. lia. Qed.
Lemma wrapu64_step x x' y n : wrapu64 x = wrapu64 y -> x' = wrapu64 (x + n) -> wrapu64 x' = wrapu64 (y + n).
Proof. intros H ->. rewrite wrapu64_idem. by apply wrapu64_congr. Qed.

Definition metrics_of s : DecisionMetrics := (ds_metrics (sv_server s)).2.
Lemma admin_step_counters d e : let m := (ds_metrics d).2 in let m' := (ds_metrics (admin_step Sprintf d e)).2 in
  DecideTotal m' = DecideTotal m /\ MGranted m' = MGranted m /\ MDenied m' = MDenied m.
Proof.
  destruct (admin_step_installs Sprintf d e) as [(p & _ & ->)|[_ ->]]; [|done].
  unfold with_policy. by destruct (ds_metrics d).
Qed.

(** A step of a call neither starts nor returns it. *)
Lemma call_step_running a s w c c' st : call_step a s w c = Some (c', st) ->
  is_running c = true /\ is_running c' = true.
Proof.
  assert (forall j i rest v, is_running (ocsp_answered j i rest v) = true) as Ho.
  { intros. unfold ocsp_answered. by destruct (ocsp_refusal _). }
  destruct w, c as [ | |j i [|x rest]| | | | |]; cbn; intros H; try done; (split; [done|]).
  - unfold resolve_call in H. destruct (resolveCredential _ _ _ _) as [[c|] replay]; injection H as <- _; [|done].
    destruct (cr_cert c); [by destruct (check_peer_chain _ _ _)|done].
  - injection H as <- _. unfold configure_call. by destruct (cr_chain c).
  - injection H as <- _. unfold check_cert. destruct (checkCertValidity _ _); [done|]. by destruct (check_crl _ _ _).
  - injection H as <- _. unfold look_call. destruct (w_ocsp _); [|done]. by destruct (ocsp_lookup _ _ _).
  - injection H as H. unfold ask_call in H. destruct (w_ocsp _); [|by injection H as <- _].
    destruct (ocsp_answer _ _ _ _ _). by injection H as <- _.
  - destruct (head _); [|done]. injection H as H. unfold judge_call in H.
    destruct (run_checked _ _ _ _ _ _) as [[? ?] ?]. by injection H as <- _.
  - injection H as H. unfold conclude_call in H. destruct (conclude _ _ _ _ _ _ _ _) as [[? ?] ?]. by injection H as <- _.
Qed.
Lemma running_uncounted c : is_running c = true -> is_granted c = false /\ is_denied c = false.
Proof. by destruct c as [| | | | | | |[]]. Qed.

Lemma counters_agree_step a s e s' m : stepped a s e s' -> counters_agree m (metrics_of s) (sv_calls s) ->
  counters_agree m (metrics_of s') (sv_calls s').
Proof.
  unfold counters_agree, metrics_of. intros Hs (Ht & Hg & Hd). rewrite <- count_calls_all in *.
  destruct Hs as [k view Hk|k w c c' st Hk Hc|k now r fx Hk|e|e|key now];
    cbn [sv_calls sv_server set_call set_shared set_server]; rewrite ?count_calls_insert, ?Hk.
  - cbn. rewrite !Z.sub_0_r, !Z.add_0_r, Z.add_assoc. split; [by eapply wrapu64_step|done].
  - apply call_step_running in Hc as [[-> ->]%running_uncounted [-> ->]%running_uncounted].
    rewrite !Z.sub_0_r, !Z.add_0_r, Z.add_simpl_r; done.
  - destruct r; cbn; rewrite !Z.sub_0_r, !Z.add_0_r, !Z.add_assoc, Z.add_simpl_r; repeat split; try done; by eapply wrapu64_step.
  - destruct (admin_step_counters (sv_server s) e) as (-> & -> & ->). done.
  - done.
  - done.
Qed.

(** ** The replay store *)

(** What a verification does to the store: it presents nonces at its times. *)
Lemma VerifyBearer_presents {VP : ValidatePresents} v token now opts clk : exists evs,
  (VerifyBearer v token now opts clk).2 = option_map (fun st => ReplayStore.run st evs) (bearer_store v opts) /\
  Forall (fun ev => ev.2 = validate_now clk \/ ev.2 = jti_now clk) evs.
Proof.
  unfold VerifyBearer. destruct (Z.of_nat (size (roots v)) =? 0).
  { exists []. split; [by destruct (bearer_store v opts)|done]. }
  destruct (Validate_presents token (bearer_options v now opts) (bearer_store v opts) (validate_now clk)) as [ns Hns].
  destruct (Validate _ _ _ _) as [r store]. cbn in Hns. subst store.
  set (evs := map (fun n => (n, validate_now clk)) ns).
  assert (Forall (fun ev : string * Time => ev.2 = validate_now clk \/ ev.2 = jti_now clk) evs) as Hevs
    by (apply Forall_map, Forall_true; by left).
  destruct r as [err|]; [by exists evs|]. destruct (ParseCompact token) as [pb|]; [|by exists evs].
  destruct (Unmarshal_OuterClaims pb) as [outer|]; [|by exists evs].
  destruct (SynthesizeCertFromJWT (Some outer)) as [crt|err];
    (destruct (bearer_store v opts) as [st|]; [|by exists []]; cbn;
     destruct (String.eqb (Jti outer) ""); [by exists evs|];
     exists (evs ++ [(Jti outer, jti_now clk)]); split; [|apply Forall_app; split; [done|by constructor; [right|]]];
     rewrite run_app; cbn; by destruct (ReplayStore.memReplayStore_CheckAndAdd _ _ _) as [[?|] st']).
Qed.

Lemma resolveCredential_presents {VP : ValidatePresents} a env view store : exists evs,
  (resolveCredential a env view store).2 = option_map (fun st => ReplayStore.run st evs) store /\
  Forall (fun ev => ev.2 = validate_now (d_bearer env) \/ ev.2 = jti_now (d_bearer env)) evs.
Proof.
  assert (store = option_map (fun st => ReplayStore.run st []) store) as Hid by by destruct store.
  unfold resolveCredential. destruct (VerifiedCert view); [by exists []|]. cbv zeta.
  destruct (_ && _); [by exists []|]. destruct (_ && _); [|by exists []].
  destruct (verifier a) as [v|]; [|by exists []]. destruct (negb (TransportSecure view)); [by exists []|].
  match goal with |- context [VerifyBearer ?v' _ _ _ _] =>
    destruct (VerifyBearer_presents v' (BearerToken view) (d_bearer_now env) [] (d_bearer env)) as (evs & He & Hevs) end.
  exists evs. split; [|done]. cbn [bearer_store nonceStore] in He.
  by destruct (VerifyBearer _ _ _ _ _) as [[[cert outer]|err] st].
Qed.

(** No reading of the clock of a run is past a time. *)
Definition bearer_before (t : Time) (e : service_event) : Prop :=
  match e with At _ (Resolve env) => validate_now (d_bearer env) <= t /\ jti_now (d_bearer env) <= t | _ => True end.
Lemma run_presents {VP : ValidatePresents} a t es : forall s s', service_run a s es = Some s' -> Forall (bearer_before t) es ->
  exists evs, s_replay (sv_shared s') = option_map (fun st => ReplayStore.run st evs) (s_replay (sv_shared s)) /\
    Forall (fun ev => ev.2 <= t) evs.
Proof.
  induction es as [|e es IH]; intros s s' H Ht.
  { injection H as <-. exists []. by destruct (s_replay _). }
  apply service_run_cons in H as (s1 & Hs & H). apply Forall_cons in Ht as [He Ht].
  destruct (IH _ _ H Ht) as (evs & -> & Hevs).
  destruct Hs as [|k w c c' st0 Hk Hc| | | |]; try (by exists evs).
  apply call_step_shared in Hc as (E & _). cbn [sv_shared set_call set_shared]. rewrite E.
  destruct w as [env| | | | | |], c as [view| | | | | | |]; try (by exists evs).
  destruct (resolveCredential_presents a env view (s_replay (sv_shared s))) as (evs0 & -> & H0).
  exists (evs0 ++ evs). split.
  - destruct (s_replay (sv_shared s)) as [st|]; [|done]. cbn. by rewrite run_app.
  - apply Forall_app. split; [|done]. destruct He. eapply Forall_impl; [exact H0|]. cbn. intros ev [->| ->]; done.
Qed.

(** A call that got a bearer credential verified its token over the store. *)
Lemma resolved_bearer a s k env s' view c cert : service_step a s (At k (Resolve env)) = Some s' ->
  sv_calls s' !! k = Some (Credentialed view c cert) -> cr_bearer c = true ->
  exists v crt outer, VerifyBearer v (BearerToken view) (d_bearer_now env) [] (d_bearer env)
      = (Ok (crt, outer), s_replay (sv_shared s')) /\
    bearer_store v [] = s_replay (sv_shared s).
Proof.
  intros Hs Hk Hb. apply service_step_stepped in Hs. inversion Hs as [|? ? c0 c' st Hk0 Hc| | | |]; subst.
  destruct c0 as [view0| | | | | | |]; try done. cbn in Hc. injection Hc as Hc. cbn in Hk.
  rewrite lookup_insert_eq in Hk. injection Hk as ->. revert Hc. unfold resolve_call. cbn [sv_shared set_call set_shared].
  pose proof (eq_refl (resolveCredential a env view0 (s_replay (sv_shared s)))) as Hr. revert Hr.
  unfold resolveCredential at 1.
  destruct (VerifiedCert view0) as [vc|] eqn:Ev.
  { intros <-. cbn. destruct (check_peer_chain _ _ _); [done|]. intros [= <- <- <- _]. done. }
  cbv zeta. destruct (_ && _).
  { intros <-. cbn. destruct (head _); [|done]. destruct (check_peer_chain _ _ _); [done|]. intros [= <- <- <- _]. done. }
  destruct (_ && _); [|by intros <-].
  destruct (verifier a) as [v|]; [|by intros <-]. destruct (negb (TransportSecure view0)); [by intros <-|].
  destruct (VerifyBearer _ _ _ _ _) as [[[crt outer]|err] st0] eqn:Evb; intros <-; [|done]. cbn.
  destruct (check_peer_chain _ _ _); [done|]. intros [= <- <- <- <-]. by eexists _, _, _.
Qed.

(** The claims of the token of a request. *)
Definition carries_token (view : RequestView R) (outer : OuterClaims) : Prop :=
  exists pb, ParseCompact (BearerToken view) = Ok pb /\ Unmarshal_OuterClaims pb = Ok outer.
Lemma verified_claims v token now opts clk crt outer st : VerifyBearer v token now opts clk = (Ok (crt, outer), st) ->
  exists pb, ParseCompact token = Ok pb /\ Unmarshal_OuterClaims pb = Ok outer.
Proof. intros H. apply VerifyBearer_Ok in H as (_ & store & pb & _ & Hp & Hu & _). by exists pb. Qed.

(** ** The nonce cache *)

Definition nonces_of s : NonceCache.NonceCache := w_nonce (s_world (sv_shared s)).

Lemma CheckAdmission_nonces clk cert cfg cache : exists evs,
  (CheckAdmission clk cert cfg cache).1.2 = NonceCache.run cache evs /\
  Forall (fun ev => NonceCache.event_time ev = nonce_now clk) evs.
Proof.
  unfold CheckAdmission. destruct cert as [cert|]; [|by exists []].
  destruct (admit_front clk cert cfg) as [r|[[aic result] warnings]]; [by exists []|].
  destruct (admit_authority clk cert cfg aic result) as [r|result']; [by exists []|].
  destruct (admit_nonce cert aic cfg (nonce_now clk) cache) as [o cache'] eqn:E.
  exists (match aic with
    | Some a => if (0 <? zlen (Nonce (AICDelegation a))) && HasNonceCache cfg
                then [NonceCache.Check (nonce_scope cert) (Nonce (AICDelegation a)) (nonce_now clk)] else []
    | None => [] end).
  split.
  - assert (forall x : AdmissionResult * NonceCache.NonceCache * list audit_warning, x.1.2 = cache' ->
      x.1.2 = NonceCache.run cache (match aic with
        | Some a => if (0 <? zlen (Nonce (AICDelegation a))) && HasNonceCache cfg
                    then [NonceCache.Check (nonce_scope cert) (Nonce (AICDelegation a)) (nonce_now clk)] else []
        | None => [] end)) as H.
    { intros x ->. unfold admit_nonce in E. destruct aic as [a|]; [|by injection E as _ <-].
      destruct (_ && _); [|by injection E as _ <-]. cbn.
      destruct (NonceCache.CheckAndAdd _ _ _ _) as [ok c]. by injection E as _ <-. }
    destruct o as [r|?]; [|destruct (admit_effective aic cfg result') as [?|?]]; by apply H.
  - destruct aic as [a|]; [destruct (_ && _)|]; by repeat constructor.
Qed.

Lemma run_checked_nonces clk gcr leaf cfg w : exists evs,
  w_nonce (run_checked EqualFold clk gcr leaf cfg w).1.2 = NonceCache.run (w_nonce w) evs /\
  Forall (fun ev => NonceCache.event_time ev = nonce_now (admission_readings clk)) evs.
Proof.
  unfold run_checked. destruct (check_identity _ _ _); [by exists []|].
  destruct (CheckAdmission_nonces (admission_readings clk) (Some leaf) (admission_config cfg (PCredentialBundle cfg))
    (w_nonce w)) as (evs & He & Hevs). exists evs. rewrite <- He. split; [|done].
  destruct (CheckAdmission _ _ _ _) as [[adm nonces] warns]. destruct (negb _); [done|].
  destruct (check_capabilities _ _ _ _ _) as [l [r|]]; [|done]. by destruct (match r_risk r with None => _ | Some _ => _ end).
Qed.

(** After a grant the nonce of the delegation is in the cache under the identity
    of the leaf, and it was not there under another. *)
Lemma run_checked_granted_nonce clk gcr leaf cfg w (a : AIC) :
  let r := run_checked EqualFold clk gcr leaf cfg w in
  Granted r.1.1 = true -> PAIC r.1.1 = Some a -> Nonce (AICDelegation a) <> [] -> PNonceCache cfg = true ->
  exists e, w_nonce r.1.2 !! Nonce (AICDelegation a) = Some e /\ NonceCache.scope e = nonce_scope leaf /\
    (forall e0, w_nonce w !! Nonce (AICDelegation a) = Some e0 -> NonceCache.scope e0 = nonce_scope leaf).
Proof.
  cbv zeta. unfold run_checked. destruct (check_identity _ _ _); [done|].
  destruct (CheckAdmission _ _ _ _) as [[adm nonces] warns] eqn:E.
  destruct (decide (ADecision adm = DecisionAllow)) as [Hd|Hd].
  2: { rewrite bool_decide_eq_false_2 by done. done. }
  rewrite bool_decide_eq_true_2 by done. cbn [negb].
  destruct (check_capabilities _ _ _ _ _) as [l [rf|]].
  { by destruct (match r_risk rf with None => _ | Some _ => _ end). }
  cbn [fst snd w_nonce set_nonce]. intros _ Ha Hn Hc.
  destruct (granted_result_fields leaf adm (pipeline_roles cfg leaf)) as (_ & _ & _ & _ & Hpa & _).
  rewrite Hpa in Ha. destruct (CheckAdmission_allow_result _ _ _ _ _ _ _ E Hd) as (_ & ? & ? & _ & _ & _ & Hnn & _).
  rewrite Ha in Hnn. unfold admit_nonce in Hnn. apply zlen_pos_ne in Hn.
  change (HasNonceCache (admission_config cfg (PCredentialBundle cfg))) with (PNonceCache cfg) in Hnn.
  rewrite Hn, Hc in Hnn. cbn [andb] in Hnn.
  destruct (NonceCache.CheckAndAdd (w_nonce w) _ _ _) as [ok c'] eqn:Ec. injection Hnn as Hok <-.
  apply guard_not_Next in Hok. bools. subst ok.
  destruct (CheckAndAdd_recorded (w_nonce w) (nonce_scope leaf) (Nonce (AICDelegation a)) (nonce_now (admission_readings clk)))
    as (t & Ht & _); [by rewrite Ec|]. rewrite Ec in Ht.
  eexists. split; [exact Ht|]. split; [done|]. intros e0 He0.
  pose proof (CheckAndAdd_present _ (nonce_scope leaf) _ (nonce_now (admission_readings clk)) _ He0) as Hp.
  rewrite Ec in Hp. cbn [fst] in Hp. symmetry in Hp. by bools.
Qed.

(** No reading of the clock of the nonce cache is past a time. *)
Definition nonce_before (t : Time) (e : service_event) : Prop :=
  match e with
  | At _ (Judge env _) => nonce_now (admission_readings (d_pipeline env)) <= t
  | Cleanup _ now => now <= t
  | _ => True
  end.

Lemma service_step_nonces a s e s' t : stepped a s e s' -> nonce_before t e ->
  exists evs, nonces_of s' = NonceCache.run (nonces_of s) evs /\ Forall (fun ev => NonceCache.event_time ev <= t) evs.
Proof.
  unfold nonces_of. intros Hs Ht. destruct Hs as [|k w c c' st Hk Hc| | | |key now]; try (by exists []).
  - apply call_step_shared in Hc as (_ & _ & E). cbn [sv_shared set_call set_shared]. rewrite E.
    destruct w as [| | | | |env gcr|], c as [| |j i [|x rest]| | | | |]; try (by exists []).
    destruct (head (cr_chain (j_cred j))) as [leaf|]; [|by exists []].
    match goal with |- context [run_checked _ ?clk ?g ?l ?cfg ?w] =>
      destruct (run_checked_nonces clk g l cfg w) as (evs & -> & Hevs) end.
    exists evs. split; [done|]. eapply Forall_impl; [exact Hevs|]. by intros ev ->.
  - exists [NonceCache.CleanupKey key now]. split; [done|]. by constructor.
Qed.

Lemma run_keeps_nonce a es n e : forall s s', service_run a s es = Some s' -> nonces_of s !! n = Some e ->
  Forall (nonce_before (NonceCache.seen e + 24 * Hour)) es -> nonces_of s' !! n = Some e.
Proof.
  induction es as [|ev es IH]; intros s s' H Hn Ht; [by injection H as <-|]. cbn in H.
  destruct (service_step a s ev) as [s1|] eqn:E; [|done]. apply Forall_cons in Ht as [Hev Ht].
  apply (IH _ _ H); [|done]. apply service_step_stepped in E. destruct (service_step_nonces _ _ _ _ _ E Hev) as (evs & -> & Hevs).
  by apply run_keeps.
Qed.

(** What a grant of the pipeline does with the nonce of its AIC. *)
Lemma judged_nonce a s k env gcr s' j i res out ai : service_step a s (At k (Judge env gcr)) = Some s' ->
  sv_calls s !! k = Some (Checking j i []) -> sv_calls s' !! k = Some (Judged j res out) -> Granted res = true ->
  a_nonceCache a = true -> PAIC res = Some ai -> Nonce (AICDelegation ai) <> [] ->
  exists leaf e, head (cr_chain (j_cred j)) = Some leaf /\ nonces_of s' !! Nonce (AICDelegation ai) = Some e /\
    NonceCache.scope e = nonce_scope leaf /\
    (forall e0, nonces_of s !! Nonce (AICDelegation ai) = Some e0 -> NonceCache.scope e0 = nonce_scope leaf).
Proof.
  cbn. intros Hs Hk Hk' Hg Hc Hai Hn. rewrite Hk in Hs. cbn in Hs.
  destruct (head (cr_chain (j_cred j))) as [leaf|]; [|done]. cbn in Hs. injection Hs as <-.
  cbn in Hk'. rewrite lookup_insert_eq in Hk'. injection Hk' as Hk'. unfold nonces_of. cbn. revert Hk'. unfold judge_call.
  match goal with |- context [run_checked ?f ?clk ?g ?l ?cfg ?w] =>
    pose proof (run_checked_granted_nonce clk g l cfg w ai) as Hr end.
  destruct (run_checked _ _ _ _ _ _) as [[res' w] out']. cbn in Hr |- *. intros [= -> ->].
  destruct Hr as (e & He & Hsc & He0); [done..|]. by exists leaf, e.
Qed.

(** * Properties *)

(** C2: however the calls of a server overlap with each other, with its
    administration and with the refreshes of its CRL cache, step by step: an
    admitted call read, once, the bundle in force at one moment after it got its
    credential, and ran its pipeline under the policy that the administration
    before that moment had put in force (a POST to [/reload] with the secret and
    a policy that parses, a reload of the program), or the configured one when
    there was none. Each certificate of its chain was in its validity period and
    not revoked by the CRL list that the refreshes before the check of this
    certificate had left (two certificates may meet two lists), and passed the
    OCSP cache, or the responder, at a moment of its own; then the rest of the
    pipeline granted. The answer is that of the credential and of this grant. *)
Theorem admitted_under_policy_in_force a s es s' k r ac fx
    (Hrun : service_run a s es = Some s') (Hs : sv_calls s = ∅)
    (Hk : sv_calls s' !! k = Some r) (Hr : answered r (inl ac) fx) :
  exists j res refs sat, Granted res = true /\
    ac = auth_context (j_cert j) (cr_bearer (j_cred j)) res refs sat /\
    (exists es1 s1 v, happened a s es k Configure es1 s1 /\
       sv_calls s1 !! k = Some (Credentialed (j_view j) (j_cred j) (j_cert j)) /\
       spec_run (view_of (sv_server s)) (administration es1) v /\
       forall s2, PAuthorizationPolicy (job_config a s2 j) =
         (if v_policy v is Some p then Some p else cAuthorizationPolicy a)) /\
    (forall i x, cr_chain (j_cred j) !! i = Some x ->
       crl_checked a s es k i x /\ ocsp_checked a s es k i x (cr_chain (j_cred j) !! S i)) /\
    judged a s es k j res.
Proof.
  pose proof (run_tracked _ _ _ _ _ _ Hrun Hs Hk) as Ht.
  assert (exists j res refs sat, Granted res = true /\ granted_job a s es k j res /\
    ac = auth_context (j_cert j) (cr_bearer (j_cred j)) res refs sat) as (j & res & refs & sat & Hg & (Hc & Hp & Hj) & Hac)
    by by destruct Hr as [-> | ->].
  exists j, res, refs, sat. split; [done|]. split; [done|]. split; [|split; [|done]].
  - destruct Hc as (es1 & s1 & Hh & Hcall & Hb). exists es1, s1, (view_of (sv_server s1)). split; [done|]. split; [done|].
    split; [destruct Hh as (es2 & _ & H1); by eapply run_administration|]. intros s2. cbn. rewrite Hb.
    by destruct (ds_bundle (sv_server s1)).
  - intros i x Hx. apply Hp; [by eapply lookup_lt_Some|done].
Qed.

(** The counters of a server say what its calls did: after any run the total
    counts the calls that entered, and the grants and refusals the calls that
    returned with one, modulo the width of a counter. *)
Theorem counters_count_calls a s es s' (Hrun : service_run a s es = Some s') (Hs : sv_calls s = ∅) :
  counters_agree (metrics_of s) (metrics_of s') (sv_calls s').
Proof.
  revert s' Hrun. induction es as [|e es IH] using rev_ind; intros s' Hrun.
  - injection Hrun as <-. rewrite Hs. unfold counters_agree, count_calls. rewrite !map_filter_empty, !map_size_empty.
    by rewrite !Z.add_0_r.
  - apply service_run_snoc in Hrun as (s1 & H1 & He).
    eapply counters_agree_step; [exact He|]. by apply IH.
Qed.

(** C19: a bearer token is admitted to the pipeline once: after a call resolved
    its credential from a token, no other call of the server, however the two
    overlap with others and with the administration, resolves its own from that
    token or from one with the same identifier, for the retention time of the
    replay store. *)
Theorem bearer_token_resolved_once {VP : ValidatePresents} a s k1 env1 s1 es s2 k2 env2 s3 st
    view1 c1 cert1 view2 c2 cert2 outer1 outer2
    (Hst : s_replay (sv_shared s) = Some st) (Httl : 0 < ReplayStore.ttl st)
    (H1 : service_step a s (At k1 (Resolve env1)) = Some s1)
    (Hk1 : sv_calls s1 !! k1 = Some (Credentialed view1 c1 cert1)) (Hb1 : cr_bearer c1 = true)
    (Hrun : service_run a s1 es = Some s2) (Hes : Forall (bearer_before (jti_now (d_bearer env1) + ReplayStore.ttl st)) es)
    (H2 : service_step a s2 (At k2 (Resolve env2)) = Some s3)
    (Hk2 : sv_calls s3 !! k2 = Some (Credentialed view2 c2 cert2)) (Hb2 : cr_bearer c2 = true)
    (Hval : validate_now (d_bearer env2) <= jti_now (d_bearer env1) + ReplayStore.ttl st)
    (Ho1 : carries_token view1 outer1) (Ho2 : carries_token view2 outer2) :
  Jti outer1 <> Jti outer2 /\ BearerToken view1 <> BearerToken view2.
Proof.
  destruct (resolved_bearer _ _ _ _ _ _ _ _ H1 Hk1 Hb1) as (v1 & crt1 & o1 & Hv1 & Hs1).
  destruct (resolved_bearer _ _ _ _ _ _ _ _ H2 Hk2 Hb2) as (v2 & crt2 & o2 & Hv2 & Hs2).
  destruct (verified_claims _ _ _ _ _ _ _ _ Hv1) as (pb1 & Hp1 & Hu1).
  destruct (verified_claims _ _ _ _ _ _ _ _ Hv2) as (pb2 & Hp2 & Hu2).
  destruct Ho1 as (pb1' & Hp1' & Hu1'), Ho2 as (pb2' & Hp2' & Hu2').
  assert (pb1' = pb1) as -> by congruence. assert (pb2' = pb2) as -> by congruence.
  assert (o1 = outer1) as -> by congruence. assert (o2 = outer2) as -> by congruence.
  rewrite Hst in Hs1.
  destruct (VerifyBearer_marks _ _ _ _ _ _ _ _ _ Hv1 Hs1 Httl) as (st1 & Hst1 & _ & _). rewrite Hst1 in Hv1.
  destruct (run_presents _ _ _ _ _ Hrun Hes) as (evs & Hst2 & Hevs). rewrite Hst1 in Hst2. rewrite Hst2 in Hs2.
  assert (Jti outer2 <> Jti outer1) as Hne.
  { exact (bearer_single_use _ _ _ _ _ _ _ _ _ _ _ _ _ _ _ _ _ evs Hv1 Hs1 Httl Hv2 Hs2 Hevs Hval). }
  split; [congruence|]. intros E. rewrite E in Hp1. congruence.
Qed.

(** C23: a delegation admits one certificate identity: after the pipeline granted
    a call whose AIC has a nonce (an admission needs that grant), any other call
    of the server that it grants with the same nonce, over a client certificate
    or a bearer token, has a leaf of the same issuer and serial, for 24 hours
    from when the nonce was first seen and however the steps of calls,
    administration and the cleanup of the cache interleave. *)
Theorem delegation_bound_to_one_certificate a s k1 env1 gcr1 s1 es s2 k2 env2 gcr2 s3
    j1 i1 res1 out1 ai1 j2 i2 res2 out2 ai2
    (Hcfg : a_nonceCache a = true)
    (H1 : service_step a s (At k1 (Judge env1 gcr1)) = Some s1)
    (Hc1 : sv_calls s !! k1 = Some (Checking j1 i1 []))
    (Hr1 : sv_calls s1 !! k1 = Some (Judged j1 res1 out1)) (Hg1 : Granted res1 = true)
    (Ha1 : PAIC res1 = Some ai1) (Hn : Nonce (AICDelegation ai1) <> [])
    (Hrun : service_run a s1 es = Some s2)
    (Hes : forall e, nonces_of s1 !! Nonce (AICDelegation ai1) = Some e ->
       Forall (nonce_before (NonceCache.seen e + 24 * Hour)) es)
    (H2 : service_step a s2 (At k2 (Judge env2 gcr2)) = Some s3)
    (Hc2 : sv_calls s2 !! k2 = Some (Checking j2 i2 []))
    (Hr2 : sv_calls s3 !! k2 = Some (Judged j2 res2 out2)) (Hg2 : Granted res2 = true)
    (Ha2 : PAIC res2 = Some ai2) (Hsame : Nonce (AICDelegation ai2) = Nonce (AICDelegation ai1)) :
  exists leaf1 leaf2, head (cr_chain (j_cred j1)) = Some leaf1 /\ head (cr_chain (j_cred j2)) = Some leaf2 /\
    nonce_scope leaf1 = nonce_scope leaf2.
Proof.
  destruct (judged_nonce _ _ _ _ _ _ _ _ _ _ _ H1 Hc1 Hr1 Hg1 Hcfg Ha1 Hn) as (leaf1 & e & Hl1 & He & Hs1 & _).
  assert (Nonce (AICDelegation ai2) <> []) as Hn2 by by rewrite Hsame.
  destruct (judged_nonce _ _ _ _ _ _ _ _ _ _ _ H2 Hc2 Hr2 Hg2 Hcfg Ha2 Hn2) as (leaf2 & _ & Hl2 & _ & _ & Hs2).
  exists leaf1, leaf2. split; [done|]. split; [done|]. rewrite <- Hs1. apply Hs2. rewrite Hsame.
  exact (run_keeps_nonce _ _ _ _ _ _ Hrun He (Hes e He)).
Qed.

(** ** One call alone *)

(** The server with another OCSP cache and the call [k] elsewhere. *)
Definition after s (k : nat) (o : option OCSPCache) (c : call) : service :=
  set_call (set_shared s (set_world (sv_shared s) (set_ocsp (s_world (sv_shared s)) o))) k c.
Lemma after_after s k o c o' c' : after (after s k o c) k o' c' = after s k o' c'.
Proof. unfold after, set_call, set_shared, set_world, set_ocsp. cbn. by rewrite insert_insert_eq. Qed.
Lemma after_same s k c : sv_calls s !! k = Some c -> s = after s k (w_ocsp (s_world (sv_shared s))) c.
Proof. destruct s as [d [[o n r] rp g] crl cs]. cbn. intros H. unfold after, set_call. cbn. by rewrite insert_id. Qed.
Lemma set_call_after s k c c' : sv_calls s !! k = Some c -> set_call (set_shared s (sv_shared s)) k c' = after s k (w_ocsp (s_world (sv_shared s))) c'.
Proof. destruct s as [d [[o n r] rp g] crl cs]. done. Qed.
Lemma after_call s k o c : sv_calls (after s k o c) !! k = Some c.
Proof. apply lookup_insert_eq. Qed.
Lemma at_run a s k w c c' st ws : sv_calls s !! k = Some c -> call_step a s w c = Some (c', st) ->
  service_run a s (map (At k) (w :: ws)) = service_run a (set_call (set_shared s st) k c') (map (At k) ws).
Proof. intros Hk Hc. cbn. by rewrite Hk, Hc. Qed.

(** The steps of one certificate are its check. *)
Lemma certificate_run a s k env j i x rest :
  sv_calls s !! k = Some (Checking j i (x :: rest)) -> inflight (ocsp_run (d_pipeline env) i) = None ->
  let clk := d_pipeline env in
  let '(err, o) := match checkCertValidity x (valid_now clk i) with
    | Some err => (Some err, w_ocsp (s_world (sv_shared s)))
    | None => checkRevocation x (head rest) (job_config a s j) (w_ocsp (s_world (sv_shared s))) (crl_now clk i) (ocsp_run clk i)
    end in
  exists ws, service_run a s (map (At k) ws) =
    Some (after s k o (match err with Some err => refused j err | None => Checking j (S i) rest end)).
Proof.
  cbv zeta. intros Hk Hq. assert (forall c', call_step a s (CheckCert env) (Checking j i (x :: rest)) = Some (c', sv_shared s) ->
    service_run a s (map (At k) [CheckCert env]) = Some (after s k (w_ocsp (s_world (sv_shared s))) c')) as H1.
  { intros c' Hc. rewrite (at_run _ _ _ _ _ _ _ _ Hk Hc). cbn. by rewrite (set_call_after _ _ _ _ Hk). }
  destruct (checkCertValidity x (valid_now (d_pipeline env) i)) as [err|] eqn:Ev.
  { exists [CheckCert env]. apply H1. cbn. unfold check_cert. by rewrite Ev. }
  unfold checkRevocation. destruct (check_crl x (job_config a s j) (crl_now (d_pipeline env) i)) as [err|] eqn:Ec.
  { exists [CheckCert env]. apply H1. cbn. unfold check_cert. by rewrite Ev, Ec. }
  specialize (H1 (Looking j i x rest)). set (s1 := after s k (w_ocsp (s_world (sv_shared s))) (Looking j i x rest)) in H1.
  assert (service_run a s (map (At k) [CheckCert env]) = Some s1) as H2.
  { apply H1. cbn. unfold check_cert. by rewrite Ev, Ec. }
  assert (forall ws s2, service_run a s1 (map (At k) ws) = Some s2 ->
    exists ws', service_run a s (map (At k) ws') = Some s2) as Hthen.
  { intros ws s2 H. exists (CheckCert env :: ws). change (CheckCert env :: ws) with ([CheckCert env] ++ ws).
    by rewrite map_app, service_run_app, H2. }
  assert (sv_calls s1 !! k = Some (Looking j i x rest)) as Hk1 by apply after_call.
  destruct (w_ocsp (s_world (sv_shared s))) as [oc|] eqn:Eo.
  - unfold Check_. destruct (ocsp_lookup oc x (ocsp_run (d_pipeline env) i)) as [v|] eqn:El.
    + apply (Hthen [Look env]). rewrite (at_run _ _ _ _ _ (ocsp_answered j i rest v) (sv_shared s1) _ Hk1).
      * cbn [map service_run]. f_equal. rewrite (set_call_after _ _ _ _ Hk1). unfold s1. by rewrite after_after.
      * cbn. unfold look_call. cbn. by rewrite El.
    + rewrite Hq. destruct (ocsp_answer oc x (head rest) false (ocsp_run (d_pipeline env) i)) as [v oc'] eqn:Ea.
      apply (Hthen [Look env; Ask env false http_Post]).
      rewrite (at_run _ _ _ _ _ (Asking j i x rest) (sv_shared s1) _ Hk1).
      2: { cbn. unfold look_call. cbn. by rewrite El. }
      rewrite (set_call_after _ _ _ _ Hk1). unfold s1. rewrite after_after.
      rewrite (at_run _ _ _ _ _ (ocsp_answered j i rest v)
        (set_world (sv_shared s) (set_ocsp (s_world (sv_shared s)) (Some oc'))) _ (after_call _ _ _ _)).
      * cbn [map service_run]. f_equal. unfold after, set_call, set_shared. cbn. by rewrite insert_insert_eq.
      * cbn [call_step]. f_equal. unfold ask_call. cbn [w_ocsp s_world sv_shared after set_call set_shared set_world set_ocsp].
        change (ocsp_answer (OE := with_post http_Post)) with (ocsp_answer (OE := OE)). by rewrite Ea.
  - apply (Hthen [Look env]). rewrite (at_run _ _ _ _ _ (Checking j (S i) rest) (sv_shared s1) _ Hk1).
    + cbn [map service_run]. f_equal. rewrite (set_call_after _ _ _ _ Hk1). unfold s1. by rewrite after_after.
    + cbn. unfold look_call. cbn. done.
Qed.
(** The steps of the whole chain are [check_chain]. *)
Lemma chain_run a k env j rest : (forall i, inflight (ocsp_run (d_pipeline env) i) = None) -> forall s i,
  sv_calls s !! k = Some (Checking j i rest) ->
  let '(err, o) := check_chain (d_pipeline env) (job_config a s j) i rest (w_ocsp (s_world (sv_shared s))) in
  exists ws i', service_run a s (map (At k) ws) =
    Some (after s k o (match err with Some err => refused j err | None => Checking j i' [] end)).
Proof.
  intros Hq. induction rest as [|x rest IH]; intros s i Hk.
  { cbn. exists [], i. cbn. f_equal. by apply after_same. }
  cbn [check_chain]. pose proof (certificate_run a s k env j i x rest Hk (Hq i)) as Hc. cbv zeta in Hc.
  destruct (checkCertValidity x _) as [err|]; [destruct Hc as (ws & Hc); by exists ws, i|].
  destruct (checkRevocation _ _ _ _ _ _) as [[err|] o]; destruct Hc as (ws & Hc); [by exists ws, i|].
  specialize (IH (after s k o (Checking j (S i) rest)) (S i) (after_call _ _ _ _)).
  change (job_config a (after s k o (Checking j (S i) rest)) j) with (job_config a s j) in IH.
  change (w_ocsp (s_world (sv_shared (after s k o (Checking j (S i) rest))))) with o in IH.
  destruct (check_chain _ _ _ _ _) as [err o']. destruct IH as (ws' & i' & IH). exists (ws ++ ws'), i'.
  by rewrite map_app, service_run_app, Hc; cbn; rewrite IH, after_after.
Qed.

(** From the credential to the answer, the steps are [decide_credential]. *)
Lemma credentialed_run a s k env gcr view c cert : sv_calls s !! k = Some (Credentialed view c cert) ->
  (forall i, inflight (ocsp_run (d_pipeline env) i) = None) -> w_risk (s_world (sv_shared s)) = None ->
  let '(r, st, fx) := decide_credential EqualFold (authenticator_now a s) env gcr view c cert (sv_shared s) in
  exists ws, service_run a s (map (At k) ws) = Some (set_call (set_shared s st) k (Concluded r fx)).
Proof.
  intros Hk Hq Hr. set (j := {| j_view := view; j_cred := c; j_cert := cert; j_bundle := ds_bundle (sv_server s) |}).
  assert (forall s0 res out, sv_calls s0 !! k = Some (Judged j res out) -> sv_crl s0 = sv_crl s ->
    s_gaps (sv_shared s0) = s_gaps (sv_shared s) ->
    let '(r, gaps, fx) := conclude (authenticator_now a s) env view (cr_bearer c) cert res out (s_gaps (sv_shared s)) in
    service_run a s0 (map (At k) [Conclude env]) = Some (set_call (set_shared s0
      {| s_world := s_world (sv_shared s0); s_replay := s_replay (sv_shared s0); s_gaps := gaps |}) k (Concluded r fx))) as Hend.
  { intros s0 res out Hk0 Hcrl Hgaps. cbn. rewrite Hk0. cbn. unfold conclude_call, job_authenticator.
    change (authenticator_now a s) with (in_force a (j_bundle j) (crl_cache <$> sv_crl s)). rewrite Hcrl, Hgaps.
    cbn [j_view j_cred j_cert j]. by destruct (conclude _ _ _ _ _ _ _ _) as [[r gaps] fx]. }
  unfold decide_credential. replace {| w_ocsp := _; w_nonce := _; w_risk := None |} with (s_world (sv_shared s))
    by (rewrite <- Hr; by destruct (s_world (sv_shared s))).
  change (pipelineConfig (authenticator_now a s) view (VBody view) (cr_bearer c)) with (job_config a s j).
  assert (call_step a s Configure (Credentialed view c cert) = Some (configure_call s view c cert, sv_shared s)) as Hc by done.
  unfold configure_call in Hc. fold j in Hc. unfold RunAccessPipeline. destruct (cr_chain c) as [|leaf rest] eqn:Ech.
  - destruct (conclude _ _ _ _ _ _ _ _) as [[r gaps] fx] eqn:Ec.
    specialize (Hend (set_call (set_shared s (sv_shared s)) k (refused j (Errorf "no client certificate presented" [])))
      _ _ (lookup_insert_eq _ _ _) eq_refl eq_refl). rewrite Ec in Hend. exists [Configure; Conclude env].
    rewrite (at_run _ _ _ _ _ _ _ _ Hk Hc), Hend. unfold set_call, set_shared. cbn. by rewrite insert_insert_eq.
  - set (s1 := set_call (set_shared s (sv_shared s)) k (Checking j 0 (leaf :: rest))) in *.
    pose proof (chain_run a k env j (leaf :: rest) Hq s1 0 (lookup_insert_eq _ _ _)) as Hch.
    change (job_config a s1 j) with (job_config a s j) in Hch. change (sv_shared s1) with (sv_shared s) in Hch.
    unfold check_certificates. change (CheckScope (job_config a s j)) with CheckFullChain. cbv iota.
    destruct (check_chain _ _ _ _ _) as [[err|] o].
    + destruct Hch as (ws & i' & Hws). destruct (conclude _ _ _ _ _ _ _ _) as [[r gaps] fx] eqn:Ec.
      specialize (Hend (after s1 k o (refused j err)) _ _ (after_call _ _ _ _) eq_refl eq_refl). rewrite Ec in Hend.
      exists (Configure :: ws ++ [Conclude env]). rewrite (at_run _ _ _ _ _ _ _ _ Hk Hc). fold s1.
      rewrite map_app, service_run_app, Hws. cbn [mbind option_bind]. rewrite Hend.
      unfold after, set_call, set_shared, s1. cbn. by rewrite !insert_insert_eq.
    + destruct Hch as (ws & i' & Hws). set (s2 := after s1 k o (Checking j i' [])) in Hws.
      destruct (run_checked EqualFold (d_pipeline env) gcr leaf (job_config a s j) (set_ocsp (s_world (sv_shared s)) o))
        as [[res w] out] eqn:Er.
      destruct (conclude _ _ _ _ _ _ _ _) as [[r gaps] fx] eqn:Ec.
      specialize (Hend (set_call (set_shared s2 (set_world (sv_shared s2) w)) k (Judged j res out)) res out
        (lookup_insert_eq _ _ _) eq_refl eq_refl). rewrite Ec in Hend.
      exists (Configure :: ws ++ [Judge env gcr; Conclude env]). rewrite (at_run _ _ _ _ _ _ _ _ Hk Hc). fold s1.
      rewrite map_app, service_run_app, Hws. cbn [mbind option_bind].
      assert (sv_calls s2 !! k = Some (Checking j i' [])) as Hk2 by apply after_call.
      rewrite (at_run _ _ _ _ _ (Judged j res out) (set_world (sv_shared s2) w) _ Hk2).
      * rewrite Hend. unfold s2, after, set_call, set_shared, s1. cbn. by rewrite !insert_insert_eq.
      * cbn [call_step j_cred j]. rewrite Ech. cbn. f_equal. unfold judge_call. cbn.
        change (job_config a s2 j) with (job_config a s j).
        replace {| w_ocsp := o; w_nonce := _; w_risk := None |} with (set_ocsp (s_world (sv_shared s)) o)
          by (unfold set_ocsp; by rewrite Hr). by rewrite Er.
Qed.

(** A call that nothing overlaps is one decision over the server's
    authenticator: the same answer, effects, shared state and counters. *)
Theorem uninterrupted_call_is_decision a s k env gcr view now (Hk : sv_calls s !! k = None)
    (Hq : forall i, inflight (ocsp_run (d_pipeline env) i) = None) (Hr : w_risk (s_world (sv_shared s)) = None) :
  let '(r, st, fx, m) := Decide_ EqualFold (authenticator_now a s) env gcr view (sv_shared s) (metrics_of s) now in
  exists ws s', service_run a s (Enter k view :: map (At k) ws ++ [Leave k now]) = Some s' /\
    sv_calls s' = <[k := Returned r fx]> (sv_calls s) /\ sv_shared s' = st /\ sv_crl s' = sv_crl s /\
    sv_server s' = note (sv_server s) (fun _ => m).
Proof.
  unfold Decide_, decide_request.
  change (resolveCredential (authenticator_now a s) env view) with (resolveCredential a env view).
  change (check_peer_chain (authenticator_now a s) view) with (check_peer_chain a view).
  cbn [service_run service_step]. rewrite Hk.
  set (s0 := set_call (set_server s (note (sv_server s) count_call)) k (Entered view)).
  assert (forall ws r fx st, service_run a s0 (map (At k) ws) = Some (set_call (set_shared s0 st) k (Concluded r fx)) ->
    exists ws s', service_run a s0 (map (At k) ws ++ [Leave k now]) = Some s' /\
      sv_calls s' = <[k := Returned r fx]> (sv_calls s) /\ sv_shared s' = st /\ sv_crl s' = sv_crl s /\
      sv_server s' = note (sv_server s) (fun _ => noteResult (count_call (metrics_of s)) (is_refusal r) now)) as Hret.
  { intros ws r fx st H. exists ws. eexists. rewrite service_run_app, H. cbn. rewrite lookup_insert_eq.
    split; [done|]. cbn. by rewrite !insert_insert_eq. }
  assert (call_step a s0 (Resolve env) (Entered view) = Some (resolve_call a env view (sv_shared s))) as Hc by done.
  unfold resolve_call in Hc. assert (sv_calls s0 !! k = Some (Entered view)) as Hk0 by apply lookup_insert_eq.
  destruct (resolveCredential a env view (s_replay (sv_shared s))) as [[c|err] replay].
  2: { by apply (Hret [Resolve env]); rewrite (at_run _ _ _ _ _ _ _ _ Hk0 Hc). }
  destruct (cr_cert c) as [cert|].
  2: { by apply (Hret [Resolve env]); rewrite (at_run _ _ _ _ _ _ _ _ Hk0 Hc). }
  destruct (check_peer_chain a view c) as [err|].
  { by apply (Hret [Resolve env]); rewrite (at_run _ _ _ _ _ _ _ _ Hk0 Hc). }
  set (st0 := {| s_world := _; s_replay := _; s_gaps := _ |}) in *.
  pose proof (credentialed_run a (set_call (set_shared s0 st0) k (Credentialed view c cert)) k env gcr view c cert
    (lookup_insert_eq _ _ _) Hq Hr) as H.
  change (authenticator_now a (set_call (set_shared s0 st0) k (Credentialed view c cert))) with (authenticator_now a s) in H.
  change (sv_shared (set_call (set_shared s0 st0) k (Credentialed view c cert))) with st0 in H.
  destruct (decide_credential _ _ _ _ _ _ _ _) as [[r st] fx]. destruct H as (ws & H).
  apply (Hret (Resolve env :: ws)). rewrite (at_run _ _ _ _ _ _ _ _ Hk0 Hc), H.
  unfold set_call, set_shared. cbn. by rewrite insert_insert_eq.
Qed.
End Service.

(** * Concrete instances

    The gateway of [Decide] as a service: a call by a client certificate and two
    by bearer tokens, with a reload of the policy between their steps. *)
Section Witnesses.
  #[local] Existing Instance clc_names.
  #[local] Existing Instance toy_semantics.
  #[local] Existing Instance toy_crypto.
  #[local] Existing Instance adm_methods.
  #[local] Existing Instance adm_parser.
  #[local] Existing Instance sha256.
  #[local] Existing Instance toy_crl_env.
  #[local] Existing Instance toy_ocsp_env.
  #[local] Existing Instance gate_urls.
  #[local] Existing Instance toy_jwt.
  #[local] Existing Instance toy_evidence.
  #[local] Existing Instance toy_x509.
  #[local] Existing Instance toy_challenges.
  #[local] Existing Instance toy_policy_env.
  #[local] Existing Instance toy_presents.

Let Sprintf (err : error) : string := "error".
Definition service_gateway : authenticator unit := toy_gateway (toy_answer "approved").
Definition toy_service : service (R := unit) := {|
  sv_server := admin_server; sv_shared := toy_start;
  sv_crl := Some (Start (refresh (NewCRLCache (toy_cert 1) "http://crl" 60) 12).2); sv_calls := ∅ |}.
Definition bearer_view (token : string) : RequestView unit := {|
  CertChain := []; BearerToken := token; VerifiedCert := None; TransportSecure := true;
  VMethod := "GET"; VPath := "/rows"; RawQuery := ""; Header := ∅;
  VClientIP := "10.1.2.3"; VBody := []; PresentedCert := None; EvidenceFactsWith := None;
  RequireApprovalWith := None; HTTPAdapter := Some tt |}.
Definition operator_reload : service_event (R := unit) := Administer (AdminRequest (reload_request "s3cret") reload_body 5).
(** A client with its authority's certificate in the chain. *)
Definition chain_view : RequestView unit := {|
  CertChain := [toy_cert 9; toy_cert 1]; BearerToken := ""; VerifiedCert := None; TransportSecure := true;
  VMethod := "GET"; VPath := "/rows"; RawQuery := ""; Header := ∅;
  VClientIP := "10.1.2.3"; VBody := []; PresentedCert := Some (toy_cert 9); EvidenceFactsWith := None;
  RequireApprovalWith := None; HTTPAdapter := Some tt |}.
Definition one_certificate (k : nat) : list (service_event (R := unit)) := [At k (CheckCert toy_readings); At k (Look toy_readings)].
Definition crl_refresh : service_event (R := unit) := Refresh (Forced toy_crl_env 13).
Definition overlapping : list (service_event (R := unit)) :=
  [Enter 0 chain_view; Enter 1 (bearer_view "t1"); At 0 (Resolve toy_readings); At 1 (Resolve toy_readings);
   At 0 Configure] ++ one_certificate 0 ++ [crl_refresh] ++ one_certificate 0 ++
  [operator_reload; At 0 (Judge toy_readings None); At 0 (Conclude toy_readings); Leave 0 7; Enter 2 (bearer_view "t2")].
Definition run_service : service (R := unit) -> list service_event -> option service :=
  service_run String.eqb Sprintf service_gateway.
Definition service_after (es : list service_event) : service (R := unit) := default toy_service (run_service toy_service es).

(** How far the calls are, and the policies installed. *)
Example overlapping_calls :
  let s := service_after (operator_reload :: overlapping) in
  (fun c => match c with Entered _ => "entered" | Credentialed _ _ _ => "credentialed"
                       | Returned (inl _) _ => "granted" | Returned (inr _) _ => "refused" | _ => "running" end) <$> sv_calls s
    = {[0%nat := "granted"; 1%nat := "credentialed"; 2%nat := "entered"]} /\
  v_reloads (view_of (sv_server s)) = 2 /\ DecideTotal (metrics_of s) = 3 /\ MGranted (metrics_of s) = 1.
Proof. vm_compute. repeat split; reflexivity. Qed.

Lemma default_Some {A} (d : A) (x : option A) : (if x is Some _ then true else false) = true -> x = Some (default d x).
Proof. by destruct x. Qed.
Definition admits (es : list service_event) (k : nat) : bool :=
  match run_service toy_service es with
  | Some s => match sv_calls s !! k with Some (Returned (inl _) _) => true | _ => false end
  | None => false
  end.
Lemma admits_run es k : admits es k = true -> exists s ac fx,
  run_service toy_service es = Some s /\ sv_calls s !! k = Some (Returned (inl ac) fx).
Proof.
  unfold admits. destruct (run_service toy_service es) as [s|]; [|done].
  destruct (sv_calls s !! k) as [[| | | | | | |[ac|] fx]|] eqn:E; try done. intros _. by exists s, ac, fx.
Qed.

Lemma admitted_under_policy_in_force_witness :
  exists es1 v, (exists es2, operator_reload :: overlapping = es1 ++ At 0 Configure :: es2) /\
    spec_run (view_of admin_server) (administration es1) v.
Proof.
  destruct (admits_run (operator_reload :: overlapping) 0) as (s' & ac & fx & E & Ek); [vm_compute; reflexivity|].
  destruct (admitted_under_policy_in_force String.eqb Sprintf service_gateway toy_service _ s' 0 _ ac fx E eq_refl Ek
    (or_intror eq_refl)) as (j & res & refs & sat & _ & _ & (es1 & s1 & v & (es2 & Hes & _) & _ & Hv & _) & _).
  exists es1, v. split; [exists es2; exact Hes|exact Hv].
Defined.

Lemma counters_count_calls_witness :
  counters_agree NewDecisionMetrics (metrics_of (service_after overlapping)) (sv_calls (service_after overlapping)).
Proof.
  apply (counters_count_calls String.eqb Sprintf service_gateway toy_service overlapping);
    [apply default_Some; vm_compute; reflexivity|reflexivity].
Defined.

Definition two_tokens : service (R := unit) :=
  service_after [Enter 1 (bearer_view "t1"); Enter 2 (bearer_view "t2")].
Definition resolve_bearer (s : service (R := unit)) (k : nat) : service :=
  default s (service_step String.eqb Sprintf service_gateway s (At k (Resolve toy_readings))).
Definition between_tokens : service := default two_tokens (run_service (resolve_bearer two_tokens 1) [operator_reload]).
Definition resolved_token (s : service (R := unit)) (k : nat) : string * bool :=
  match sv_calls s !! k with Some (Credentialed view c _) => (BearerToken view, cr_bearer c) | _ => ("", false) end.
Lemma resolved_token_Some s k token : resolved_token s k = (token, true) -> exists view c cert,
  sv_calls s !! k = Some (Credentialed view c cert) /\ BearerToken view = token /\ cr_bearer c = true.
Proof. unfold resolved_token. destruct (sv_calls s !! k) as [[|view c cert| | | | | |]|]; try done. intros [= <- Hb]. by exists view, c, cert. Qed.

Lemma bearer_token_resolved_once_witness : Jti (toy_claims "j1") <> Jti (toy_claims "j2") /\ "t1" <> "t2".
Proof.
  destruct (resolved_token_Some (resolve_bearer two_tokens 1) 1 "t1") as (v1 & c1 & cert1 & E1 & T1 & B1);
    [vm_compute; reflexivity|].
  destruct (resolved_token_Some (resolve_bearer between_tokens 2) 2 "t2") as (v2 & c2 & cert2 & E2 & T2 & B2);
    [vm_compute; reflexivity|].
  rewrite <- T1, <- T2.
  apply (bearer_token_resolved_once String.eqb Sprintf service_gateway two_tokens 1 toy_readings (resolve_bearer two_tokens 1)
    [operator_reload] between_tokens 2 toy_readings (resolve_bearer between_tokens 2) (ReplayStore.NewReplayNonceStore 0 0)
    v1 c1 cert1 v2 c2 cert2).
  1, 2: vm_compute; reflexivity.
  1, 4, 6: apply default_Some; vm_compute; reflexivity.
  - exact E1.
  - exact B1.
  - constructor; [exact I|constructor].
  - exact E2.
  - exact B2.
  - vm_compute. discriminate.
  - exists (ascii_bytes "t1"). rewrite T1. split; reflexivity.
  - exists (ascii_bytes "t2"). rewrite T2. split; reflexivity.
Defined.
(** The same client certificate granted twice, a reload between. *)
Definition client_steps (k : nat) : list (service_event (R := unit)) :=
  [Enter k (toy_view (Some tt)); At k (Resolve toy_readings); At k Configure] ++ one_certificate k.
Definition client_twice : service (R := unit) := service_after (client_steps 1 ++ client_steps 2).
Definition judge_next (s : service (R := unit)) (k : nat) : service :=
  default s (service_step String.eqb Sprintf service_gateway s (At k (Judge toy_readings None))).
Definition between_clients : service := default client_twice (run_service (judge_next client_twice 1) [operator_reload]).
Definition granted_nonce (s s' : service (R := unit)) (k : nat) : option bytes :=
  match sv_calls s !! k, sv_calls s' !! k with
  | Some (Checking _ _ []), Some (Judged _ res _) =>
      if Granted res then (fun a => Nonce (AICDelegation a)) <$> PAIC res else None
  | _, _ => None
  end.
(** The leaf of a call in its pipeline. *)
Definition call_leaf (s : service (R := unit)) (k : nat) : option Certificate :=
  match sv_calls s !! k with Some (Checking j _ _) => head (cr_chain (j_cred j)) | _ => None end.
Lemma granted_nonce_Some k n : forall s s', service_step String.eqb Sprintf service_gateway s (At k (Judge toy_readings None)) = Some s' ->
  granted_nonce s s' k = Some n -> exists j i res out ai,
  sv_calls s !! k = Some (Checking j i []) /\ sv_calls s' !! k = Some (Judged j res out) /\ Granted res = true /\
  PAIC res = Some ai /\ Nonce (AICDelegation ai) = n.
Proof.
  unfold granted_nonce. intros s s' Hs. cbn in Hs. destruct (sv_calls s !! k) as [[| |j i [|x rest]| | | | |]|]; try done.
  cbn in Hs. destruct (head (cr_chain (j_cred j))) as [leaf|]; [|done]. cbn in Hs. injection Hs as <-. cbn.
  rewrite lookup_insert_eq. unfold judge_call. destruct (run_checked _ _ _ _ _ _) as [[res w] out]. cbn.
  destruct (Granted res) eqn:Eg; [|done]. destruct (PAIC res) as [ai|] eqn:Ea; [|done]. intros [= <-].
  by exists j, i, res, out, ai.
Qed.

Lemma delegation_bound_to_one_certificate_witness : exists leaf1 leaf2, call_leaf client_twice 1 = Some leaf1 /\
  call_leaf between_clients 2 = Some leaf2 /\ nonce_scope leaf1 = nonce_scope leaf2.
Proof.
  assert (service_step String.eqb Sprintf service_gateway client_twice (At 1 (Judge toy_readings None))
    = Some (judge_next client_twice 1)) as S1 by (apply default_Some; vm_compute; reflexivity).
  assert (service_step String.eqb Sprintf service_gateway between_clients (At 2 (Judge toy_readings None))
    = Some (judge_next between_clients 2)) as S2 by (apply default_Some; vm_compute; reflexivity).
  destruct (granted_nonce_Some 1 [z_byte 5] _ _ S1)
    as (j1 & i1 & res1 & out1 & ai1 & Hc1 & Hr1 & Hg1 & Ha1 & Hn1); [vm_compute; reflexivity|].
  destruct (granted_nonce_Some 2 [z_byte 5] _ _ S2)
    as (j2 & i2 & res2 & out2 & ai2 & Hc2 & Hr2 & Hg2 & Ha2 & Hn2); [vm_compute; reflexivity|].
  destruct (delegation_bound_to_one_certificate String.eqb Sprintf service_gateway client_twice 1 toy_readings None
    (judge_next client_twice 1) [operator_reload] between_clients 2 toy_readings None (judge_next between_clients 2)
    j1 i1 res1 out1 ai1 j2 i2 res2 out2 ai2) as (leaf1 & leaf2 & L1 & L2 & H).
  - reflexivity.
  - exact S1.
  - exact Hc1.
  - exact Hr1.
  - exact Hg1.
  - exact Ha1.
  - rewrite Hn1. discriminate.
  - apply default_Some. vm_compute. reflexivity.
  - intros e _. constructor; [exact I|constructor].
  - exact S2.
  - exact Hc2.
  - exact Hr2.
  - exact Hg2.
  - exact Ha2.
  - rewrite Hn1. exact Hn2.
  - exists leaf1, leaf2. unfold call_leaf. rewrite Hc1, Hc2. split; [exact L1|split; [exact L2|exact H]].
Defined.
Lemma uninterrupted_call_is_decision_witness : exists ws s',
  run_service toy_service (Enter 0 (toy_view (Some tt)) :: map (At 0) ws ++ [Leave 0 7]) = Some s' /\
  sv_crl s' = sv_crl toy_service.
Proof.
  pose proof (uninterrupted_call_is_decision String.eqb Sprintf service_gateway toy_service 0 toy_readings None
    (toy_view (Some tt)) 7) as H.
  specialize (H eq_refl (fun _ => eq_refl) eq_refl).
  destruct (Decide_ _ _ _ _ _ _ _ _) as [[[r st] fx] m]. destruct H as (ws & s' & Hr & _ & _ & Hc & _).
  exists ws, s'. split; [exact Hr|exact Hc].
Defined.
End Witnesses.
