(* ===== verification/SupervisionDemo.v ===== *)
(** The supervision wiring of the example programs
    ([src/examples/supervision-demo/superv.go]): an approver that always answers
    the same, and the settings that put it before the transfers of a gateway. *)
From S2P Require Import Prelude GoStrings GoTime GoJson GoJsonOut GoFloat GoHttp GoClock Types Sha256 Capability DelegationAuth Delegation Constraints AdmissionTypes Clc Credential Admission Revocation Spiffe Bearer Evidence Challenge Pipeline AuditLog Decide Identity Records Proxy Middleware EvidenceFiles McpRegistry Settings.
Local Open Scope string_scope.
Local Open Scope Z_scope.
Local Open Scope list_scope.

(** * Definitions *)

Definition Approver_ : string := "demo-admin".
Definition TransferPath : string := "/api/transfer".
Definition supervisionApproved : string := "approved".
Definition supervisionDenied : string := "denied".

(** [src/examples/supervision-demo/superv.go:Options] *)
Record Options := { DenyRisk : bool; OAuditLogFile : string; TSAURL : string; SupervisionLog : string }.

(** [src/examples/mtls-backend/main.go:buildServer] the routes; the transfers
    come first. *)
Definition transfer_route {T} (target : T) : Route T := {|
  RoutePath := TransferPath; Target := target; AllowMethods := []; RRequiredCapabilities := ["api:transfer"] |}.
Definition api_route {T} (target : T) : Route T := {|
  RoutePath := "/api"; Target := target; AllowMethods := []; RRequiredCapabilities := ["api:read"] |}.
Definition example_routes {T} (target : T) : list (Route T) := [transfer_route target; api_route target].

(** [src/examples/supervision-demo/superv.go:DemoApprover.Request] *)
Definition DemoApprover_Request (denyRisk : bool) (risk : RiskAssessment) : result (option SupervisionResult) :=
  Ok (Some (if denyRisk then
    {| SDecision := supervisionDenied; Approver := Approver_;
       SReason := "demo: transfer exceeds approved risk threshold"; REvidenceRef := "demo-ev-" +:+ RAOperationID risk;
       DecidedAt := zero_time |}
  else
    {| SDecision := supervisionApproved; Approver := Approver_; SReason := "demo: transfer within approved scope";
       REvidenceRef := "demo-ev-" +:+ RAOperationID risk; DecidedAt := zero_time |})).

Section Demo.
  Context {CN : CapabilityNames} {CS : ClcSemantics} {HF : HashFunction} {PM : PkiMethods}
          {DC : DACrypto} {CP : CertificateParser} {CE : CRLEnv} {OE : OCSPEnv} {UP : URLParser}
          {X : X509} {J : AicJwt} {ES : EvidenceSemantics} {CH : ChallengeSemantics}.

(** What the authenticator's part of a configuration gets of the wiring. *)
Definition supervised (a : authenticator Request) (approver : RiskAssessment -> result (option SupervisionResult))
    (trigger : option (AuthContext -> Request -> bool)) (audit store : bool) : authenticator Request := {|
  cfgAuthMode := cfgAuthMode a; cRequireAIC := cRequireAIC a; cRequiredCapabilities := cRequiredCapabilities a;
  cRequiredOperations := cRequiredOperations a; cUnresolvedEvaluator := cUnresolvedEvaluator a;
  cDischargeObligations := cDischargeObligations a; cObligationsUnderstood := cObligationsUnderstood a;
  cRequireFreshDecisionContext := cRequireFreshDecisionContext a; cDecisionContext := cDecisionContext a;
  cDisallowRepresentative := cDisallowRepresentative a; cRequireUserAuth := cRequireUserAuth a;
  cEnforceConstraints := cEnforceConstraints a; cUserCert := cUserCert a; cUserCertResolver := cUserCertResolver a;
  cPluginRegistry := cPluginRegistry a; cCapabilityRegistry := cCapabilityRegistry a;
  cAuthorizationPolicy := cAuthorizationPolicy a; cConstraints := cConstraints a;
  cParameterValidators := cParameterValidators a; cEvidence := cEvidence a;
  cEvidenceRequirement := cEvidenceRequirement a; cEvidenceFacts := cEvidenceFacts a; cChallenges := cChallenges a;
  cRequireApproval := trigger; cApprovalRequester := Some approver; cSupervisionStore := store;
  tlsCAs := tlsCAs a; verifier := verifier a; a_crl := a_crl a; a_audit := audit; a_nonceCache := a_nonceCache a;
  policy := policy a |}.
Definition with_base (c : Config) (a : authenticator Request) (approval export exporter : bool) : Config := {|
  base := a; cEvidenceProfile := cEvidenceProfile c; CACertFile := CACertFile c; JWTCAFile := JWTCAFile c;
  JWTIssuer := JWTIssuer c; JWTAudience := JWTAudience c; ReplayProtection := ReplayProtection c;
  StreamBody := StreamBody c; RequireRuntimeApproval := approval; AllowBreakGlass := AllowBreakGlass c;
  RequireEvidenceExport := export; hasOverrideRecorder := hasOverrideRecorder c; hasEvidenceExporter := exporter;
  OnAuthenticated := OnAuthenticated c; OnDenied := OnDenied c |}.
Definition with_part (c : ServerConfig) (p : Config) (tsaURL : string) : ServerConfig := {|
  sc_config := p; LogFile := LogFile c; TLSCertFile := TLSCertFile c; TLSKeyFile := TLSKeyFile c;
  BackendRootCA := BackendRootCA c; scIdentityMode := scIdentityMode c; AuditLogFile := AuditLogFile c;
  AuditTSAURL := tsaURL; SupervisionLogFile := SupervisionLogFile c; sc_options := sc_options c |}.

(** [src/examples/supervision-demo/superv.go:114-116 Wire] *)
Definition on_transfer (ac : AuthContext) (r : Request) : bool := has_prefix (rPath r) TransferPath.

(** A log that is named is opened. *)
Definition open_log (open : string -> option error) (file : string) : option error :=
  if String.eqb file "" then None else open file.
(** [src/examples/supervision-demo/superv.go:Wire] with the errors of opening the
    two logs: the configuration is changed in place, up to the first of them. *)
Definition Wire (OpenAudit OpenStore : string -> option error) (c : ServerConfig) (o : Options)
  : option error * ServerConfig :=
  let p := sc_config c in
  let b := base p in
  let url := if String.eqb (TSAURL o) "" then AuditTSAURL c else TSAURL o in
  let partial audit store := with_part c (with_base p
    (supervised b (DemoApprover_Request (DenyRisk o)) (cRequireApproval b) audit store)
    (RequireRuntimeApproval p) (RequireEvidenceExport p) (hasEvidenceExporter p)) url in
  match open_log OpenAudit (OAuditLogFile o) with
  | Some err => (Some err, partial (a_audit b) (cSupervisionStore b))
  | None =>
      let audit := a_audit b || negb (String.eqb (OAuditLogFile o) "") in
      match open_log OpenStore (SupervisionLog o) with
      | Some err => (Some err, partial audit (cSupervisionStore b))
      | None =>
          let store := cSupervisionStore b || negb (String.eqb (SupervisionLog o) "") in
          (None, with_part c (with_base p
             (supervised b (DemoApprover_Request (DenyRisk o)) (Some on_transfer) audit store) true true true) url)
      end
  end.

(** * Lemmas *)

Lemma Wire_done OpenAudit OpenStore c o c' : Wire OpenAudit OpenStore c o = (None, c') ->
  exists audit store, sc_config c' = with_base (sc_config c)
    (supervised (base (sc_config c)) (DemoApprover_Request (DenyRisk o)) (Some on_transfer) audit store) true true true.
Proof.
  unfold Wire. destruct (open_log OpenAudit _); [done|]. destruct (open_log OpenStore _); [done|].
  intros [= <-]. by eexists _, _.
Qed.

(** What a call that was admitted over a request says of the approval. *)
Lemma admitted_supervised EqualFold (a : authenticator Request) env gcr view st ac st' fx :
  decide_request EqualFold a env gcr view st = (inl ac, st', fx) -> (supervise a env view ac).1 = None.
Proof.
  intros H. apply decide_request_cases in H as [(err & [=] & _)|(c & cert & replay & _ & _ & _ & H)].
  apply decide_credential_inl in H as (_ & _ & Ha & _). by apply admit_granted_inl in Ha as (sat & _ & -> & Hs).
Qed.

(** * Properties *)

(** The route of a path, cleaned and in lower case: [/api/transfer] and what is
    below it need the transfer capability, the rest of [/api] the read one, and
    nothing else is served. *)
Theorem example_route_of {T} (target : T) p :
  let under base := route_key p = base \/ has_prefix (route_key p) (base +:+ "/") = true in
  (under TransferPath -> matchRoute (example_routes target) p = Some (transfer_route target)) /\
  (~ under TransferPath -> under "/api" -> matchRoute (example_routes target) p = Some (api_route target)) /\
  (~ under TransferPath -> ~ under "/api" -> matchRoute (example_routes target) p = None).
Proof.
  cbv zeta. unfold matchRoute, example_routes. cbn [List.find RoutePath transfer_route api_route].
  assert (forall k, route_matches k (ToLower TransferPath) = String.eqb k TransferPath || has_prefix k (TransferPath +:+ "/"))
    as E1 by reflexivity.
  assert (forall k, route_matches k (ToLower "/api") = String.eqb k "/api" || has_prefix k ("/api" +:+ "/")) as E2 by reflexivity.
  rewrite E1, E2.
  destruct (String.eqb_spec (route_key p) TransferPath), (has_prefix (route_key p) (TransferPath +:+ "/")),
    (String.eqb_spec (route_key p) "/api"), (has_prefix (route_key p) ("/api" +:+ "/")); cbn [orb]; intuition congruence.
Qed.

Section Wired.
  Context (EqualFold : string -> string -> bool) (ReadFile : string -> result bytes)
          (AppendCertsFromPEM : bytes -> option CertPool)
          (ParsePrivateKeyPEMFile : string -> result (bytes -> result bytes))
          (OpenAudit OpenStore : string -> option error).
  Context (c c' : ServerConfig) (o : Options) (a : authenticator Request)
          (Hwire : Wire OpenAudit OpenStore c o = (None, c'))
          (Hnew : newAuthenticator ReadFile AppendCertsFromPEM ParsePrivateKeyPEMFile (sc_config c') = Ok a).

Lemma wired_approval : cApprovalRequester a = Some (DemoApprover_Request (DenyRisk o)) /\
  cRequireApproval a = Some on_transfer.
Proof using Hwire Hnew.
  apply newAuthenticator_Ok in Hnew as (_ & _ & cas & v & E). apply Wire_done in Hwire as (audit & store & Ec).
  rewrite E, Ec. done.
Qed.

(** A gateway wired to deny hands no transfer to the handler behind it, however
    the request is authenticated: every request below the transfer path is
    refused, by the decision itself. *)
Theorem denied_transfers_never_served {D} env gcr (next : handler D) r st m
    (Hdeny : DenyRisk o = true) (Hpath : has_prefix (rPath r) TransferPath = true) :
  let res := Handler EqualFold a (sc_config c') env gcr next r st m in
  m_called res = None /\ exists ae, m_refusal res = Some ae.
Proof using Hwire Hnew.
  destruct wired_approval as [Hreq Htrig]. cbv zeta.
  assert (rPath (read_body (sc_config c') r) = rPath r) as Hp by (unfold read_body; by destruct (StreamBody _)).
  unfold Handler. set (view := viewFromHTTP _ _). unfold Decide_.
  destruct (decide_request EqualFold a (v_decide env) gcr view st) as [[[ac|ae] st1] fx] eqn:Ed.
  - exfalso. apply admitted_supervised in Ed. apply supervise_None in Ed as (f & s & Hf & Hs & Ha).
    + rewrite Hreq in Hf. injection Hf as <-. unfold DemoApprover_Request in Hs. rewrite Hdeny in Hs.
      by injection Hs as <-.
    + unfold needs_approval. cbn. rewrite Htrig. unfold on_transfer. by rewrite Hp.
  - unfold refuse. destruct (refusalEvidence _ _ _ _ _ _ _) as [refs e]. split; [done|by eexists].
Qed.

(** A gateway wired to approve refuses nothing for want of an approval: the
    approver is asked exactly for the requests below the transfer path, and its
    answer is kept as an event of the demo administrator when the deployment
    keeps events. *)
Theorem approved_requests_pass env (view : RequestView Request) ac r
    (Happrove : DenyRisk o = false) (Hhook : RequireApprovalWith view = None) (Hr : HTTPAdapter view = Some r) :
  supervise a env view ac =
    (None, if has_prefix (rPath r) TransferPath && cSupervisionStore a
           then [{| SEApproved := true; SERisk := risk_of env view ac; SEActor := Approver_;
                    SEReason := Errorf "%s" [AStr "demo: transfer within approved scope"] |}] else []).
Proof using Hwire Hnew.
  destruct wired_approval as [Hreq Htrig]. unfold supervise, needs_approval. rewrite Hhook, Hr, Htrig, Hreq.
  unfold on_transfer, DemoApprover_Request, noteSupervision. rewrite Happrove.
  destruct (has_prefix _ _); [|done]. cbn. by destruct (cSupervisionStore a).
Qed.
End Wired.

(** The wiring adds no reason for a server not to start: what validation says of
    the wired configuration it said of the configuration before. *)
Theorem wiring_validates OpenAudit OpenStore c o c' (Hwire : Wire OpenAudit OpenStore c o = (None, c')) e
    (He : e ∈ validation_errors (sc_config c')) : e ∈ validation_errors (sc_config c).
Proof.
  apply Wire_done in Hwire as (audit & store & E). revert He. rewrite E. unfold validation_errors. cbn.
  rewrite !elem_of_app. cbn. set_solver.
Qed.
End Demo.

(** * Concrete instances *)
Section Witnesses.
  #[local] Existing Instance clc_names.
  #[local] Existing Instance toy_semantics.
  #[local] Existing Instance toy_crypto.
  #[local] Existing Instance adm_methods.
  #[local] Existing Instance adm_parser.
  #[local] Existing Instance sha256.
  #[local] Existing Instance toy_crl_env.
  #[local] Existing Instance toy_ocsp_env.
  #[local] Existing Instance gate_urls.
  #[local] Existing Instance toy_jwt.
  #[local] Existing Instance toy_evidence.
  #[local] Existing Instance toy_x509.
  #[local] Existing Instance toy_challenges.

Definition demo_server : ServerConfig := {|
  sc_config := gw_config "approved"; LogFile := ""; TLSCertFile := "cert.pem"; TLSKeyFile := "key.pem";
  BackendRootCA := ""; scIdentityMode := IdentityAIC; AuditLogFile := ""; AuditTSAURL := ""; SupervisionLogFile := "";
  sc_options := None |}.
Definition demo_options (deny : bool) : Options :=
  {| DenyRisk := deny; OAuditLogFile := "audit.jsonl"; TSAURL := ""; SupervisionLog := "supervision.jsonl" |}.
Definition wired (deny : bool) : ServerConfig := (Wire (fun _ => None) store_opens demo_server (demo_options deny)).2.
Lemma wired_eq deny : Wire (fun _ => None) store_opens demo_server (demo_options deny) = (None, wired deny).
Proof. reflexivity. Qed.
Definition wired_authenticator (deny : bool) : authenticator Request :=
  match newAuthenticator gw_files gw_pem gw_keys (sc_config (wired deny)) with
  | Ok a => a
  | Err _ => base (sc_config (wired deny))
  end.
Lemma wired_built deny :
  newAuthenticator gw_files gw_pem gw_keys (sc_config (wired deny)) = Ok (wired_authenticator deny).
Proof.
  unfold wired_authenticator. assert ((if newAuthenticator gw_files gw_pem gw_keys (sc_config (wired deny)) is Ok _
    then true else false) = true) as E by (destruct deny; vm_compute; reflexivity).
  by destruct (newAuthenticator _ _ _ _).
Qed.
Definition demo_request (path : string) : Request := {|
  rMethod := "POST"; rPath := path; rRawQuery := ""; rHeader := ∅; rRemoteAddr := "10.1.2.3:5000";
  rTLS := Some [toy_cert 9]; rBody := None |}.
Definition demo_run (deny : bool) (path : string) := Handler String.eqb (wired_authenticator deny) (sc_config (wired deny))
  gw_env None (gateway_handler gw_server (v_outcome gw_env) (fun _ _ _ => Ok 200)) (demo_request path) toy_start gw_metrics.

(** The same request under both wirings, and another path under the denying one. *)
Example demo_runs :
  map (fun '(deny, path) => ((if m_called (demo_run deny path) is Some _ then true else false),
                             length (x_supervision (m_effects (demo_run deny path)))))
    [(true, "/api/transfer"); (true, "/api/transfers/1"); (false, "/api/transfer"); (true, "/rows")]
  = [(false, 1%nat); (false, 1%nat); (true, 1%nat); (true, 0%nat)].
Proof. vm_compute. reflexivity. Qed.

Lemma denied_transfers_never_served_witness : m_called (demo_run true "/api/transfer") = None.
Proof.
  exact (proj1 (denied_transfers_never_served String.eqb gw_files gw_pem gw_keys (fun _ => None) store_opens demo_server
    (wired true) (demo_options true) (wired_authenticator true) (wired_eq true) (wired_built true) gw_env None
    (gateway_handler gw_server (v_outcome gw_env) (fun _ _ _ => Ok 200)) (demo_request "/api/transfer") toy_start gw_metrics
    eq_refl eq_refl)).
Defined.

Lemma approved_requests_pass_witness :
  (supervise (wired_authenticator false) toy_readings (viewFromHTTP (demo_request "/api/transfer") [])
     (auth_context (toy_cert 9) false gate_out.1.1 [] None)).1 = None.
Proof.
  rewrite (approved_requests_pass gw_files gw_pem gw_keys (fun _ => None) store_opens demo_server
    (wired false) (demo_options false) (wired_authenticator false) (wired_eq false) (wired_built false) toy_readings
    (viewFromHTTP (demo_request "/api/transfer") []) _ (demo_request "/api/transfer") eq_refl eq_refl eq_refl).
  reflexivity.
Defined.

Lemma wiring_validates_witness :
  forall e, e ∈ validation_errors (sc_config (wired true)) -> e ∈ validation_errors (gw_config "approved").
Proof.
  intros e. exact (wiring_validates (fun _ => None) store_opens demo_server (demo_options true) (wired true) (wired_eq true) e).
Defined.

(** The trigger reads the path as it arrived, the proxy matches routes on the
    cleaned path in lower case: a transfer under another spelling of its path is
    forwarded by the gateway wired to deny. *)
Definition transfer_server : Server := {|
  routes := [toy_route "/api/transfer" ["POST"] ["read"]]; IdentityMode := IdentityAIC;
  sEvidence := Some observing_config; hasDenied := true; hasForwarded := true |}.
Lemma respelled_transfer_forwarded :
  map (fun path => match m_called (Handler String.eqb (wired_authenticator true) (sc_config (wired true)) gw_env None
                     (gateway_handler transfer_server (v_outcome gw_env) (fun _ _ _ => Ok 200)) (demo_request path)
                     toy_start gw_metrics) with
                   | Some (_, _, d) => if x_sent d is Some _ then true else false
                   | None => false
                   end) ["/api/transfer"; "//api/transfer"; "/rows/../api/transfer"; "/API/transfer"]
  = [false; true; true; true].
Proof. vm_compute. reflexivity. Qed.
End Witnesses.
