(* ===== verification/Provenance.v ===== *)
(** Reading an envelope's provenance back ([src/evidence_profile.go]): the
    digests of the profile and of the recorder among a statement's subjects.

    The subjects of a payload as [encoding/json] reads them into the types of
    package [semantics] are a parameter; a subject's digests are listed in the
    order a range over them takes. *)
From S2P Require Import Prelude GoStrings GoTime GoJson Types Sha256 AdmissionTypes Evidence.
Local Open Scope string_scope.
Local Open Scope Z_scope.
Local Open Scope list_scope.

(** * Definitions *)
Section Provenance.
  Context {ES : EvidenceSemantics}.
  Context (Unmarshal_Subjects : bytes -> result (list StatementSubject)).

(** [src/evidence_profile.go:263-279 SubjectDigestByName] the loop: the first
    digest of the first subject of the name that has one. *)
Fixpoint digest_by_name (name : string) (subjects : list StatementSubject) : result (option Digest) :=
  match subjects with
  | [] => Ok None
  | s :: subjects' =>
      if negb (String.eqb (SubjectName s) name) then digest_by_name name subjects'
      else match SubjectDigest s with
      | [] => digest_by_name name subjects'
      | (algKey, v) :: _ =>
          raw ← hex_decode v;
          Ok (Some {| Alg := if String.eqb algKey "sha384" then "sha-384" else DigestAlgSHA256; Value := raw |})
      end
  end.

(** [src/evidence_profile.go:SubjectDigestByName] *)
Definition SubjectDigestByName (env : Envelope) (name : string) : result (option Digest) :=
  subjects ← Unmarshal_Subjects (Payload env); digest_by_name name subjects.
(** [src/evidence_profile.go:ProfileSubjectDigest] *)
Definition ProfileSubjectDigest (env : Envelope) : result (option Digest) := SubjectDigestByName env "evidence-profile".
(** [src/evidence_profile.go:RecorderSubjectDigest] *)
Definition RecorderSubjectDigest (env : Envelope) : result (option Digest) := SubjectDigestByName env "evidence-recorder".

(** * Properties *)

(** A canonical document is JSON: its subjects read back. *)
Hypothesis canonical_subjects : forall st payload, CanonicalJSON_Statement st = Ok payload ->
  Unmarshal_Subjects payload = Ok (StSubject st).

Lemma digest_by_name_tagged name id alg subjects : digestKey id = Ok alg ->
  (exists s, s ∈ subjects /\ SubjectName s = name) ->
  (forall s, s ∈ subjects -> SubjectName s = name -> SubjectDigest s = [(alg, hex_encode (Value id))]) ->
  digest_by_name name subjects = Ok (Some id).
Proof.
  intros Hk (s0 & Hin & Hname) Hall. induction subjects as [|s subjects IH]; [by apply elem_of_nil in Hin|]. cbn.
  destruct (String.eqb_spec (SubjectName s) name) as [E|E]; cbn [negb].
  - rewrite (Hall s (list_elem_of_here _ _) E), hex_decode_encode. cbn [mbind result_bind].
    unfold digestKey in Hk. destruct id as [a v]; cbn in *.
    destruct (String.eqb_spec a DigestAlgSHA256) as [->|]; [by injection Hk as <-|].
    destruct (String.eqb_spec a "sha-384") as [->|]; [by injection Hk as <-|done].
  - apply IH; [|intros s' Hs'; apply Hall; by right]. apply elem_of_cons in Hin as [->|Hin]; [done|done].
Qed.

(** What an emission tags an envelope with is what a consumer reads back:
    after tagging, the subject of the profile and that of the recorder hold the
    very digests the tags were made of, whatever subjects of those names the
    statement had before and in whatever order the tags were added. *)
Theorem tags_read_back env profile rec order env' add st name id
    (H : tagEnvelope env profile rec order = Ok env') (Hadd : tag_identities profile rec = Ok add)
    (Ho : order add ≡ₚ add) (Hst : Unmarshal_Statement (Payload env) = Ok st) (Hin : (name, id) ∈ add) :
  SubjectDigestByName env' name = Ok (Some id).
Proof.
  pose proof (tag_identities_nodup _ _ _ Hadd) as Hnd. unfold tagEnvelope in H. rewrite Hadd, Hst in H.
  destruct add as [|x add]; [by apply elem_of_nil in Hin|]. destruct (tag_subjects _ _) as [subjects|] eqn:Et; [|done].
  destruct (CanonicalJSON_Statement _) as [payload|] eqn:Ej; [|done]. injection H as <-.
  assert (NoDup (map fst (order (x :: add)))) as Hnd' by (by rewrite Ho).
  destruct (tag_subjects_spec _ _ _ Et Hnd') as (Ha & _ & _).
  destruct (Ha name id) as (alg & Hk & He & Hs); [by rewrite Ho|].
  unfold SubjectDigestByName. cbn [Payload]. rewrite (canonical_subjects _ _ Ej). cbn [mbind result_bind StSubject].
  by eapply digest_by_name_tagged.
Qed.
End Provenance.

(** A subject with digests of two algorithms has no single answer: it is the one
    the range comes to first. *)
Example two_digests_either `{EvidenceSemantics} :
  digest_by_name "x" [{| SubjectName := "x"; SubjectDigest := [("sha256", "00"); ("sha384", "11")] |}] <>
  digest_by_name "x" [{| SubjectName := "x"; SubjectDigest := [("sha384", "11"); ("sha256", "00")] |}].
Proof. vm_compute. intros E. injection E. discriminate. Qed.

(** * Concrete instance *)

(** One statement has a canonical form. *)
Definition tagged_subjects : list (string * list (string * string)) :=
  [("rec", []); ("evidence-recorder", [("sha256", "6777")])].
Definition toy_provenance : EvidenceSemantics := {|
  Requirement := unit; Requirement_Validate := fun _ => None; DecisionRecord := unit;
  RecVerdict := fun _ => "allow"; InputDigest := fun _ => toy_digest "";
  RecordWith := fun _ _ _ _ _ => Ok tt; NewEnvelope := fun _ => Err (ErrNew "none");
  Envelope_Sign := fun env _ _ => Ok env; DigestAlgSHA256 := "sha-256"; StatementTypeInToto := "st"; PayloadTypeInToto := "in-toto";
  Unmarshal_Statement := fun p => Ok {| StType := "st"; StSubject := [{| SubjectName := "rec"; SubjectDigest := [] |}];
                                        PredicateType := "p"; Predicate := "" |};
  CanonicalJSON_Statement := fun st =>
    if bool_decide (map (fun s => (SubjectName s, SubjectDigest s)) (StSubject st) = tagged_subjects)
    then Ok [z_byte 1] else Err (ErrNew "canonical");
  CanonicalJSON_Admission := fun _ _ _ _ => Ok []; CanonicalJSON_Outcome := fun _ _ _ _ => Ok [];
  DigestOf_profile := fun n _ _ _ _ _ _ _ => Ok (toy_digest n); DigestOf_recorder := fun r => Ok (toy_digest (RecID r));
  DigestOf_admission := fun _ => Ok (toy_digest ""); DigestOf_outcome := fun _ => Ok (toy_digest "");
  DigestOf_operations := fun _ => Ok (toy_digest "") |}.

Section Witness.
  #[local] Existing Instance toy_provenance.

Definition toy_subjects (p : bytes) : result (list StatementSubject) :=
  Ok (map (fun p => {| SubjectName := p.1; SubjectDigest := p.2 |}) tagged_subjects).
Lemma toy_canonical st payload : CanonicalJSON_Statement st = Ok payload -> toy_subjects payload = Ok (StSubject st).
Proof.
  cbn. destruct (bool_decide _) eqn:E; [|done]. apply bool_decide_eq_true in E. intros _.
  unfold toy_subjects. rewrite <- E, map_map. f_equal.
  symmetry. rewrite <- (List.map_id (StSubject st)) at 1. apply List.map_ext. by intros [].
Qed.
Lemma tags_read_back_witness : exists env',
  tagEnvelope {| Payload := []; PayloadType := "in-toto"; Signatures := [] |} None
    (Some {| RecID := "gw"; RecKind := "aic-verifier"; RecNote := "" |}) id = Ok env' /\
  RecorderSubjectDigest toy_subjects env' = Ok (Some (toy_digest "gw")).
Proof.
  destruct (tagEnvelope {| Payload := []; PayloadType := "in-toto"; Signatures := [] |} None
    (Some {| RecID := "gw"; RecKind := "aic-verifier"; RecNote := "" |}) id) as [env'|] eqn:E; [|vm_compute in E; discriminate].
  exists env'. split; [reflexivity|].
  exact (tags_read_back toy_subjects toy_canonical _ None _ id env' [("evidence-recorder", toy_digest "gw")] _
    "evidence-recorder" (toy_digest "gw") E eq_refl (Permutation_refl _) eq_refl (list_elem_of_here _ _)).
Defined.
End Witness.
