(* ===== verification/Wrappers.v ===== *)
(** The helpers around the certificate extensions and the package-level state:
    principal identifiers from certificates and the double-star pattern
    ([src/aic.go]), the client's delegation headers ([src/decision.go]), the
    global capability registry ([src/capregistry.go]) and the built-in parameter
    validators ([src/parameters.go]). *)
From Stdlib Require Import Ascii.
From S2P Require Import Prelude GoStrings GoTime GoJson GoJsonOut GoHttp GoClock Types Sha256 GoNet Capability DelegationAuth Delegation Constraints AdmissionTypes Clc Credential Admission Rbac Revocation Params Spiffe Bearer Evidence Challenge Pipeline.
Local Open Scope string_scope.
Local Open Scope Z_scope.
Local Open Scope list_scope.

(** * Definitions *)

(** ** Principal identifiers *)
Section Principals.
  Context {HF : HashFunction} {CP : CertificateParser} {DC : DACrypto} {X : X509}.

(** [src/aic.go:HasAIC] *)
Definition HasAIC (cert : Certificate) : bool := match ParseAIC cert with Ok (Some _) => true | _ => false end.

Definition OIDSHA256 : string := "2.16.840.1.101.3.4.2.1".
(** [src/aic.go:MakePrincipalUidFromCert]; the error of the key's encoding is
    dropped, and what is hashed is then empty. *)
Definition MakePrincipalUidFromCert (realm identifier : string) (certDER : bytes) : PrincipalUid :=
  match x509_ParseCertificate certDER with
  | Err _ => {| Realm := realm; Identifier := identifier; KeyHash := []; HashAlgo := OIDSHA256 |}
  | Ok cert =>
      let pubBytes := match CertPublicKey cert with
                      | Some k => match MarshalPKIXPublicKey k with Ok b => b | Err _ => [] end
                      | None => []
                      end in
      {| Realm := realm; Identifier := identifier; KeyHash := Sum256 pubBytes; HashAlgo := OIDSHA256 |}
  end.
End Principals.

(** ** The double star *)

(** [strings.Split(s, "**")] *)
Fixpoint split_stars (s : string) : list string :=
  match s with
  | String a ((String b r) as t) =>
      if Ascii.eqb a "*" && Ascii.eqb b "*" then "" :: split_stars r
      else match split_stars t with w :: ws => String a w :: ws | [] => [String a ""] end
  | _ => [s]
  end.
(** [src/aic.go:134-139 matchDoubleStar] *)
Definition confined_segments (remaining : string) : bool :=
  forallb (fun seg => negb (String.eqb seg "" || String.eqb seg "..")) (split_byte "/" remaining).
(** [src/aic.go:matchDoubleStar] *)
Definition matchDoubleStar (id pattern : string) : bool :=
  match split_stars pattern with
  | [before; after] =>
      let prefix := trim_right_byte "/" before in
      let suffix := trim_left_byte "/" after in
      if negb (String.eqb prefix "") && negb (has_prefix id prefix) then false else
      let remaining := if String.eqb prefix "" then id else trim_prefix (trim_prefix id prefix) "/" in
      if negb (String.eqb suffix "") && negb (has_suffix remaining suffix) then false else
      let remaining := if String.eqb suffix "" then remaining
                       else trim_suffix (trim_suffix remaining suffix) "/" in
      if String.eqb remaining "" then true else confined_segments remaining
  | _ => false
  end.

(** [src/aic.go:isKnownExtension] *)
Definition isKnownExtension (oid : list Z) : bool :=
  existsb (fun k => bool_decide (oid = k)) [[1; 3; 6; 1; 4; 1; 66257; 1; 2]; [1; 3; 6; 1; 4; 1; 66257; 3; 1]].

(** ** Delegation headers *)

(** [src/decision.go:CheckDelegatedAgentHeaders] [None] is the empty string. *)
Definition CheckDelegatedAgentHeaders (cert : option Certificate) (h : GoHttp.Header) (now : Time) : option message :=
  if negb (hasDelegatedAgentOU cert) then None
  else if String.eqb (Header_Get h "X-Agent-User") "" then
    Some (ErrNew "X-Agent-User header required for Delegated-Agent")
  else
    let ttlStr := Header_Get h "X-Agent-TTL" in
    if String.eqb ttlStr "" then Some (ErrNew "X-Agent-TTL header required for Delegated-Agent")
    else match parse_rfc3339 ttlStr with
    | None => Some (Errorf "invalid X-Agent-TTL: %s" [AErr (ErrNew "time.ParseError")])
    | Some t => if After now t then Some (ErrNew "X-Agent-TTL expired") else None
    end.

(** ** Package-level state *)

(** The global registry and the built-in validators of a process. *)
Record package_state := { globalCapRegistry : option CapabilityRegistry; builtins : ParameterValidatorRegistry }.
(** [src/parameters.go:186-191 init] *)
Definition package_init : package_state := {| globalCapRegistry := None; builtins := builtinParameterValidators |}.

(** [src/capregistry.go:SetGlobalCapabilityRegistry] *)
Definition SetGlobalCapabilityRegistry (cr : option CapabilityRegistry) (s : package_state) : package_state :=
  {| globalCapRegistry := cr; builtins := builtins s |}.
(** [src/capregistry.go:GetGlobalCapabilityRegistry] *)
Definition GetGlobalCapabilityRegistry (s : package_state) : option CapabilityRegistry := globalCapRegistry s.
(** [src/parameters.go:RegisterParameterValidator] *)
Definition RegisterParameterValidator (v : option ParameterValidator) (s : package_state) : option error * package_state :=
  let '(err, r) := register_validator (Some (builtins s)) v in
  (err, {| globalCapRegistry := globalCapRegistry s; builtins := default (builtins s) r |}).
(** [src/parameters.go:ResetParameterValidators] *)
Definition ResetParameterValidators (s : package_state) : package_state :=
  {| globalCapRegistry := globalCapRegistry s; builtins := default (builtins s) (reset_validators (Some (builtins s))) |}.
(** [src/parameters.go:BuiltinParameterValidators] *)
Definition BuiltinParameterValidators (s : package_state) : ParameterValidatorRegistry := builtins s.

(** [src/policy.go:GetAuthorizationPolicy] of the global policy. *)
Definition GetAuthorizationPolicy (global : option AuthorizationPolicy) : option AuthorizationPolicy := global.

Inductive package_event :=
  | SetGlobal (cr : option CapabilityRegistry)
  | RegisterValidator (v : option ParameterValidator)
  | ResetValidators.
Definition package_step (s : package_state) (e : package_event) : package_state :=
  match e with
  | SetGlobal cr => SetGlobalCapabilityRegistry cr s
  | RegisterValidator v => (RegisterParameterValidator v s).2
  | ResetValidators => ResetParameterValidators s
  end.

(** * Properties *)
Section PrincipalFacts.
  Context {HF : HashFunction} {CP : CertificateParser} {DC : DACrypto} {X : X509}.

(** An identifier made from a principal's certificate binds that
    certificate's key: an agent whose AIC names it is accepted beside a principal
    exactly when the digests of their keys agree, so it is accepted with the
    certificate it was made from; and one made from bytes that are no certificate
    is refused with every principal. *)
Theorem made_principal_binds realm identifier der agent principal aic
    (Ha : ParseAIC agent = Ok (Some aic))
    (Hu : AICPrincipal aic = MakePrincipalUidFromCert realm identifier der) :
  (forall cert k, x509_ParseCertificate der = Ok cert -> CertPublicKey cert = Some k ->
     MarshalPKIXPublicKey k = Ok (RawSubjectPublicKeyInfo cert) ->
     (VerifyPrincipalKeyHash (Some agent) (Some principal) = None <->
        Sum256 (RawSubjectPublicKeyInfo cert) <> [] /\
        Sum256 (RawSubjectPublicKeyInfo principal) = Sum256 (RawSubjectPublicKeyInfo cert))) /\
  (forall e, x509_ParseCertificate der = Err e -> VerifyPrincipalKeyHash (Some agent) (Some principal) <> None).
Proof.
  unfold VerifyPrincipalKeyHash. rewrite Ha, Hu. unfold MakePrincipalUidFromCert. split.
  - intros cert k -> -> ->. cbn [KeyHash]. destruct (zlen (Sum256 (RawSubjectPublicKeyInfo cert)) =? 0) eqn:Ez.
    + apply zlen_eqb_nil in Ez. split; [done|by intros [H _]].
    + assert (Sum256 (RawSubjectPublicKeyInfo cert) <> []) as Hne by (intros E; by rewrite E in Ez).
      destruct (bool_decide _) eqn:Eb.
      * apply bool_decide_eq_true in Eb. done.
      * apply bool_decide_eq_false in Eb. split; [done|by intros [_ ?]].
  - by intros e ->.
Qed.
End PrincipalFacts.

(** A client's delegation headers pass exactly when its certificate is not
    that of a delegated agent, or they name a user and an instant that has not
    passed. *)
Theorem delegation_headers_accepted_iff cert h now :
  CheckDelegatedAgentHeaders cert h now = None <->
  hasDelegatedAgentOU cert = false \/
  (Header_Get h "X-Agent-User" <> "" /\ exists t, parse_rfc3339 (Header_Get h "X-Agent-TTL") = Some t /\ now <= t).
Proof.
  unfold CheckDelegatedAgentHeaders. destruct (hasDelegatedAgentOU cert); cbn [negb]; [|split; [by left|done]].
  destruct (String.eqb_spec (Header_Get h "X-Agent-User") "") as [E|E]; [split; [done|by intros [?|[? _]]]|].
  destruct (String.eqb_spec (Header_Get h "X-Agent-TTL") "") as [E2|E2].
  { rewrite E2. split; [done|]. by intros [?|(_ & t & H & _)]. }
  destruct (parse_rfc3339 _) as [t|]; [|split; [done|by intros [?|(_ & ? & ? & _)]]].
  unfold After. destruct (Z.ltb_spec t now).
  - split; [done|]. intros [?|(_ & ? & [= <-] & ?)]; [done|lia].
  - split; [|done]. intros _. right. split; [done|]. exists t. split; [done|lia].
Qed.

(** The prefix before a double star is not bounded by a segment. *)
Example double_star_inside_segment : matchDoubleStar "administrators/drop" "admin/**" = true.
Proof. reflexivity. Qed.
Example double_star_samples :
  map (fun p => matchDoubleStar p.1 p.2)
    [("db/a/b", "db/**"); ("db/../x", "db/**"); ("db//x", "db/**"); ("db/x/read", "db/**/read"); ("db/read", "db/**/read");
     ("x", "**"); ("db", "db/**"); ("a/b", "a/*")] = [true; false; false; true; true; true; true; false].
Proof. vm_compute. reflexivity. Qed.

(** The built-in validators only change by registrations of new schemes and by a
    reset, and setting the global registry leaves them alone. *)
Lemma builtins_grow s e scheme v (H : builtins s !! scheme = Some v) :
  builtins (package_step s e) !! scheme = Some v \/ e = ResetValidators.
Proof.
  destruct e as [cr|w|]; [by left| |by right]. left. cbn. unfold RegisterParameterValidator, register_validator.
  destruct w as [w|]; [|done]. destruct (Params.Scheme w =? "")%string; [exact H|]. destruct (builtins s !! Params.Scheme w) eqn:E; [exact H|]. cbn.
  rewrite lookup_insert_ne; congruence.
Qed.
